(* ===== verification/_CoqProject ===== *)
-Q . S2P
Prelude.v
Layout.v
Heap.v
HeapSpec.v
HeapOps.v
TupleStore.v
Types.v
TypesSpec.v
Parser.v
ParserSpec.v
State.v
Disk.v
DiskSpec.v
Meta.v
MetaSpec.v
Pool.v
PoolSpec.v
Page.v
PageSpec.v
Alloc.v
AllocSpec.v
Btree.v
BtreeSpec.v
Wal.v
WalSpec.v
Undo.v
UndoSpec.v
Proc.v
ProcSpec.v
ProcFair.v
Store.v
Catalog.v
CatalogSpec.v
Relation.v
RelationSpec.v
ExecHeap.v
ExecHeapSpec.v
ExecBtree.v
ExecBtreeSpec.v
Dshell.v
RowSpec.v
DshellSpec.v
DshellRace.v
SelectSpec.v
Main.v
MainSpec.v
LifeSpec.v
RebootSpec.v
BootSpec.v
RowType.v
Tree.v
TreeSpec.v
TraverseSpec.v
RemountSpec.v
RebalanceSpec.v
