(* ===== verification/Prelude.v ===== *)
(** * A verified model of kdbs, a database engine in the Linux kernel

    The program (src/kernel/kds, headers in src/include/linux) keeps tables in
    8 KiB pages on a block device.  This development translates its C code
    into Rocq functions and proves what they do.  This file also holds what
    all components share; its own contents are described at the end.

    ** The program and the files that model it

    From the bottom up; each component [X.v] has its theorems in [XSpec.v]
    (and further files named here).

    - Layout.v: kds.h, kds_page.h.  Page headers, page objects, frames, the
      primitive accesses to a frame's buffer, and [Kernel], the services of
      Linux the module calls.
    - Heap.v, HeapSpec.v, HeapOps.v: heap.c.  Slotted pages; the operations
      keep the names of the C functions ([heap_insert_tuple_ex], ...).
      TupleStore.v is the interface of these pages to their clients.
    - Types.v: types.c.  The scalar types, their codecs and the registry.
    - Parser.v: parser.c.  Lexer and statement parser.
    - State.v: the globals of blkdev.c, meta.c, page_mgr.c, page.c and
      page_alloc.c in one record, [kds_state].
    - Disk.v: blkdev.c.  Sectors, extents and logical pages.
    - Meta.v: meta.c.  The superblock and the issue of page ids.
    - Pool.v: page_mgr.c.  The buffer pool: lookup, load, pin, flush.
    - Page.v: page.c.  Checksums, header commit, page writes.
    - Alloc.v: page_alloc.c.  The ring of pages prepared ahead of use.
    - Btree.v: btree.c.  Nodes, search, cursor, insert, delete, traversal.
      Theorems: BtreeSpec.v (nodes), TreeSpec.v (trees of any depth, on the
      mathematical trees of Tree.v; also the index search of Relation.v),
      TraverseSpec.v (traversal), RebalanceSpec.v (a deletion that borrows).
    - Wal.v: wal.c.  Log records, ring buffer, flush, checkpoint, recovery.
    - Undo.v: undo.c.  Undo entries and the update of a tuple.
    - Proc.v, ProcSpec.v, ProcFair.v: proc.c.  The cooperative scheduler:
      operations as programs of critical sections and unlocked accesses, the
      state machine that interleaves them, and their running alone.
    - Store.v: the cache seen as a map from page ids to contents, for the
      components above the pool.
    - Catalog.v: catalog.c.  System tables, well-known objects, schemas.
    - Relation.v: relation.c.  Opening tables, creating and using indexes.
    - ExecHeap.v, ExecBtree.v: exec_heap_insert.c, exec_btree_insert.c.  The
      insert executors, resumable state machines that run in time slices.
    - Dshell.v: dshell.c.  The shell: the row codec, every command, the
      character device and the scheduler process that runs the executors, cut
      into events where another thread can run.  Theorems: RowSpec.v (rows),
      DshellSpec.v (one client), DshellRace.v (interleavings), SelectSpec.v
      (scans), RowType.v (types).
    - Main.v: main.c, and of blkdev.c, page_alloc.c, wal.c and dshell.c the
      initialisers and shutdown functions that combine several components.
      Theorems: MainSpec.v (what is acquired and released), BootSpec.v (first
      start), LifeSpec.v (stop), RebootSpec.v and RemountSpec.v (start again:
      what memory has lost, what the device keeps).

    The start of the module (Main) brings the components up from the device
    to the shell.  A client writes a statement to the shell (Dshell).  It is
    parsed (Parser), its table is found and opened (Catalog,
    Relation), its values are encoded (Types), and an executor, driven by the
    scheduler, puts the row into a heap page (Heap) that the buffer pool
    holds (Pool, Page), taking new pages from the allocator (Alloc, Meta) and
    appending log records (Wal).  Updates keep old versions in undo pages
    (Undo).  The pool reads and writes pages on the device (Disk).

    ** How C is rendered

    An integer of w bits is a [Z] and every operation that may wrap is
    written with its wrap-around ([u8], [u16], [u32], [u64], or a signed cast).  A buffer is a
    [list Z] of bytes and a struct in a buffer its packed little-endian
    image; [sub] and [patch] are the memcpys.  A pointer to a shared object is
    its index or address in a table of the state, so aliasing is as in the
    code: two executors with the same frame see each other's writes.

    Stateful functions live in the monad [M]: a result is [Ret value state]
    or [Halt reason].  The reasons are [Fault] (an access outside of an
    object), [Bug] (BUG_ON, or a null dereference), [Panic] (the code calls
    panic) and [NoFuel] (a loop of the model was cut).  A theorem that gives
    [Ret] therefore also says that no access was out of bounds and that the
    loops ended.  Errors are negative return values as in C.

    Parameters stand for code outside of the repository: [Kernel] (which
    allocations and block transfers fail at which [tick], crc32c, the
    values of padding bytes), [Kstrtoll] and [Ctype] (kstrtoll and the
    character classes), [Machine] of Proc.v (the set of CPUs and the process
    callbacks), [Boot] of Main.v (which registrations, device files and threads
    Linux grants to the start).  Theorems hold for all of them; the laws a theorem needs are
    named in its statement, and the witnesses instantiate them.

    ** Interfaces

    [TupleStore] (TupleStore.v) states the heap operations on abstract pages;
    UndoSpec.v, CatalogSpec.v, ExecHeapSpec.v and ExecBtreeSpec.v are proved
    against such statements and HeapOps.v discharges them.  [RowCodec]
    (CatalogSpec.v) states that a row's bytes determine the row, once for the
    four kinds of catalog rows.  Store.v gives the effect of each call of the
    pin / work / unpin protocol as [put]ting a page.

    Two program logics carry the long sequences of the start and the stop:
    [ends] (MainSpec.v), the postconditions of a computation that may stop the
    machine, and [steps] (LifeSpec.v), the preorders that every run of a
    function respects.  Both have one rule for [bind], and hints for the
    functions already done.

    ** The theorems

    - Pages: HeapOps.v gives every operation on every branch, on the abstract
      page (the list of slots), with the page invariant [heap_wf]; PageSpec.v
      the checksum; DiskSpec.v and MetaSpec.v round trips through the device
      and the uniqueness of page ids.
    - Cache: PoolSpec.v keeps [pool_wf] through every operation, for every
      failure of the kernel, and shows what reaches the device.  AllocSpec.v
      refines the ring to a bounded queue.
    - Trees: BtreeSpec.v relates array loops to list operations: the two
      searches agree, insertion keeps the order.  TreeSpec.v follows a path
      through a tree of any depth: insertion and deletion keep the search-tree
      invariant and the set of keys is known after them, on every branch that
      needs no split and no rebalancing.  [delete_borrow_loses_keys] says what
      a deletion does that borrows from the left sibling, [traverse_equiv]
      turns the recursive traversal into a list of visits.
    - Log: WalSpec.v refines the ring to a queue of bytes, follows them
      through a flush and shows that recovery finds the records.
    - Versions: UndoSpec.v refines the update to an update of abstract pages
      and shows that the chain of versions only grows.
    - Scheduler: ProcSpec.v, invariants of every interleaving in which no two
      operations handle the same process at once ([queues_consistent],
      [process_runs_on_one_cpu]), and [affinity_balance_race], a run without
      that discipline in which counters go wrong; ProcFair.v, absence of
      starvation.
    - Front end: ParserSpec.v shows totality and that parsing inverts
      printing; TypesSpec.v the round trips and order of encodings.
    - Tables: CatalogSpec.v refines bootstrap and table creation to lists of
      rows, RelationSpec.v composes creation with opening, ExecHeapSpec.v
      refines insertion with any number of interruptions to insertion into a
      list of pages, ExecBtreeSpec.v follows an insertion through the tree.
    - Rows: RowSpec.v, what was encoded is decoded and shown; RowType.v, bytes
      that the encoder made have the types of their columns and every decoder
      succeeds on such bytes.
    - Shell: [insert_round] composes parser, catalog, codec and executor into
      what a client sees of an INSERT, [select_round] does so for SELECT;
      [woken_after_run] is the invariant of all interleavings without
      timeouts, [stale_completion_loses_insert] what a timeout does to it.
    - Start and stop: [fresh_boot] follows the first start through all
      components; [main_outcomes] and [dshell_init_all_or_nothing] say what a
      start that fails releases; [unload_discards_changes],
      [reboot_reuses_oids] and [first_flush_destroys_superblock] what survives
      a stop and what does not; [remount_keeps_pages] which pages a start on
      a used device leaves alone.

    Some theorems state behaviour that differs from what a comment or the
    purpose of the code says; they are exact descriptions of the code too
    (for example [update_enospc_loses_row], [flush_drops_bytes],
    [first_flush_destroys_superblock]).

    ** Fuel and bounds

    Recursion that is not structural takes fuel, each time with a theorem or
    a bound that it is enough: [skip_ws] and the lexer the length of the
    input plus one, [drain_loop] the 128 slots of the ring, the descents of
    btree.c, relation.c and exec_btree_insert.c BTREE_MAX_DEPTH = 16 levels
    (the code's own limit), the flush of the log two rounds per staged page
    and one more, the recovery walk one step per byte-aligned record, the heap
    executor one step per page of the chain.

    The endless loops of the worker threads and of the load balancer are run
    for a given number of rounds, and the theorems hold for every number.  The
    shell's scans are given the length of the chain of pages they follow.

    ** Not modelled

    - Printers: log messages, [kds_print_*] and the dump functions of the
      pages and the log; of the printer of trees what it reads is modelled.  The text that the shell returns to a
      client is modelled.
    - Spin locks, RCU sections and reference counts of the kernel: an
      operation of the pool or the allocator runs without interference.
      Concurrency is modelled where the code is about it.  In ProcSpec.v each
      step is one section under a run queue lock or one unlocked access; that
      such a section is atomic is justified by [queues_consistent], which
      shows that it changes only the queue it has locked; running flags,
      which change under the lock of another CPU, may be seen late.  The
      scheduler has one worker per CPU, as main.c starts them, and its atomic
      statistics are steps of their own.  Main.v runs the operations of Proc.v
      [alone].  The events of Dshell.v are the pieces between which clients
      and the shell's process alternate.
    - Sleeping, the binding of a thread to its CPU, module parameters and the
      macros that register the module with Linux: they have no counterpart in
      the state.
    - Declarations without a body in the source, such as prototypes of
      functions that no file defines.

    ** What the theorems leave open

    Every function of the source that has an effect is a definition here, but
    not every branch has a theorem.  On trees, insertion is followed until
    it needs a split (a full leaf is a fault before that) and deletion until
    it merges nodes or borrows from the right: these branches have theorems
    on nodes only ([split_merge]).  The recovery walk is proved on one page of
    the log and is not composed with the start, as the code never calls it.
    The pages that a start reclaims are known to change nothing on the
    device; which of them enter the ring has no theorem.

    ** This file

    Errno values, fixed-width integers, byte buffers with [patch] and [sub],
    little-endian struct fields, the monad [M] with its notations, and the
    lemmas and tactics on these that all components use. *)
From stdpp Require Import prelude gmap list.
From Stdlib Require Import ZArith Lia.

Declare Scope kds_scope.
Delimit Scope kds_scope with kds.
Local Open Scope Z_scope.

(** ** Errno values (include/uapi/asm-generic/errno-base.h, errno.h) *)
Definition ENOENT : Z := 2.
Definition EIO : Z := 5.
Definition E2BIG : Z := 7.
Definition ENOMEM : Z := 12.
Definition EFAULT : Z := 14.
Definition EEXIST : Z := 17.
Definition ENODEV : Z := 19.
Definition EINVAL : Z := 22.
Definition ENOSPC : Z := 28.
Definition ERANGE : Z := 34.
Definition ENOSYS : Z := 38.
Definition EMSGSIZE : Z := 90.
Definition ETIMEDOUT : Z := 110.

(** ** Fixed-width integers *)
Definition u8 (z : Z) : Z := z mod 2 ^ 8.
Definition u16 (z : Z) : Z := z mod 2 ^ 16.
Definition u32 (z : Z) : Z := z mod 2 ^ 32.
Definition u64 (z : Z) : Z := z mod 2 ^ 64.
(** Reading a [w]-bit pattern as a two's complement number. *)
Definition to_signed (w z : Z) : Z :=
  if z mod 2 ^ w <? 2 ^ (w - 1) then z mod 2 ^ w else z mod 2 ^ w - 2 ^ w.
Definition s64 (z : Z) : Z := to_signed 64 z.

Lemma u8_small z : 0 <= z < 256 -> u8 z = z.
Proof. intros; unfold u8; apply Z.mod_small; lia. Qed.
Lemma u16_small z : 0 <= z < 65536 -> u16 z = z.
Proof. intros; unfold u16; apply Z.mod_small; lia. Qed.
Lemma u32_small z : 0 <= z < 2 ^ 32 -> u32 z = z.
Proof. intros; unfold u32; apply Z.mod_small; lia. Qed.
Lemma u64_small z : 0 <= z < 2 ^ 64 -> u64 z = z.
Proof. intros; unfold u64; apply Z.mod_small; lia. Qed.
Lemma u16_range z : 0 <= u16 z < 65536.
Proof. unfold u16; apply Z.mod_pos_bound; lia. Qed.
Lemma u64_range z : 0 <= u64 z < 2 ^ 64.
Proof. unfold u64; apply Z.mod_pos_bound; lia. Qed.

Lemma to_signed_range w z :
  0 < w -> - 2 ^ (w - 1) <= to_signed w z < 2 ^ (w - 1).
Proof.
  intros Hw. unfold to_signed.
  assert (H2 : 2 ^ w = 2 * 2 ^ (w - 1)).
  { rewrite <- Z.pow_succ_r by lia. f_equal. lia. }
  assert (0 < 2 ^ (w - 1)) by (apply Z.pow_pos_nonneg; lia).
  pose proof (Z.mod_pos_bound z (2 ^ w) ltac:(lia)).
  destruct (Z.ltb_spec (z mod 2 ^ w) (2 ^ (w - 1))); lia.
Qed.

Lemma to_signed_id w z :
  0 < w -> - 2 ^ (w - 1) <= z < 2 ^ (w - 1) -> to_signed w z = z.
Proof.
  intros Hw Hz. unfold to_signed.
  assert (H2 : 2 ^ w = 2 * 2 ^ (w - 1)).
  { rewrite <- Z.pow_succ_r by lia. f_equal. lia. }
  assert (0 < 2 ^ (w - 1)) by (apply Z.pow_pos_nonneg; lia).
  destruct (Z_lt_le_dec z 0).
  - replace (z mod 2 ^ w) with (z + 2 ^ w).
    + destruct (Z.ltb_spec (z + 2 ^ w) (2 ^ (w - 1))); lia.
    + rewrite <- (Z.mod_small (z + 2 ^ w) (2 ^ w)) by lia.
      replace (z + 2 ^ w) with (z + 1 * 2 ^ w) by lia.
      apply Z.mod_add. lia.
  - rewrite Z.mod_small by lia.
    destruct (Z.ltb_spec z (2 ^ (w - 1))); lia.
Qed.

Lemma to_signed_mod w z : 0 < w -> to_signed w (z mod 2 ^ w) = to_signed w z.
Proof.
  intros Hw. unfold to_signed.
  rewrite Z.mod_mod; [reflexivity|]. apply Z.pow_nonzero; lia.
Qed.

(** ** Byte buffers *)
Abbreviation bytes := (list Z).

Definition zlen {A} (l : list A) : Z := Z.of_nat (length l).
Definition is_byte (z : Z) : Prop := 0 <= z < 256.
Definition bytes_ok (b : bytes) : Prop := Forall is_byte b.
Definition zeros (n : Z) : bytes := replicate (Z.to_nat n) 0.

(** The [n] bytes found at offset [off]: the source of a [memcpy]. *)
Definition sub {A} (p : list A) (off n : Z) : list A :=
  take (Z.to_nat n) (drop (Z.to_nat off) p).
(** [memcpy(p + off, d, len)]: the bytes at [off] are replaced by [d]. *)
Definition patch {A} (p : list A) (off : Z) (d : list A) : list A :=
  take (Z.to_nat off) p ++ d ++ drop (Z.to_nat off + length d) p.

Lemma zlen_app {A} (a b : list A) : zlen (a ++ b) = zlen a + zlen b.
Proof. unfold zlen; rewrite length_app; lia. Qed.
Lemma zlen_nonneg {A} (a : list A) : 0 <= zlen a.
Proof. unfold zlen; lia. Qed.
Lemma zlen_cons {A} (x : A) a : zlen (x :: a) = 1 + zlen a.
Proof. unfold zlen; simpl; lia. Qed.
Lemma zlen_zeros n : 0 <= n -> zlen (zeros n) = n.
Proof. intros; unfold zlen, zeros; rewrite length_replicate; lia. Qed.
Lemma bytes_ok_zeros n : bytes_ok (zeros n).
Proof. apply Forall_replicate; unfold is_byte; lia. Qed.
Lemma bytes_ok_app a b : bytes_ok (a ++ b) <-> bytes_ok a /\ bytes_ok b.
Proof. apply Forall_app. Qed.

Section Buffers.
Context {A : Type}.
Implicit Types p d e : list A.

Lemma zlen_sub p off n :
  0 <= off -> 0 <= n -> off + n <= zlen p -> zlen (sub p off n) = n.
Proof.
  unfold zlen, sub; intros. rewrite length_take, length_drop. lia.
Qed.

Lemma length_sub p off n :
  0 <= off -> 0 <= n -> off + n <= zlen p -> length (sub p off n) = Z.to_nat n.
Proof. intros H1 H2 H3. pose proof (zlen_sub p off n H1 H2 H3). unfold zlen in *. lia. Qed.

Lemma zlen_patch p off d :
  0 <= off -> off + zlen d <= zlen p -> zlen (patch p off d) = zlen p.
Proof.
  unfold zlen, patch; intros.
  rewrite !length_app, length_take, length_drop. lia.
Qed.

Lemma length_patch p off d :
  0 <= off -> off + zlen d <= zlen p -> length (patch p off d) = length p.
Proof. intros H1 H2. pose proof (zlen_patch p off d H1 H2). unfold zlen in *. lia. Qed.

Lemma lookup_sub p off n (i : nat) :
  0 <= off -> (i < Z.to_nat n)%nat ->
  sub p off n !! i = p !! (Z.to_nat off + i)%nat.
Proof.
  intros. unfold sub. rewrite lookup_take_lt by lia. apply lookup_drop.
Qed.

Lemma lookup_patch_out p off d (i : nat) :
  0 <= off -> off + zlen d <= zlen p ->
  (Z.of_nat i < off \/ off + zlen d <= Z.of_nat i) ->
  patch p off d !! i = p !! i.
Proof.
  unfold zlen, patch; intros Ho Hl [Hi|Hi].
  - rewrite lookup_app_l by (rewrite length_take; lia).
    apply lookup_take_lt. lia.
  - rewrite lookup_app_r by (rewrite length_take; lia).
    rewrite lookup_app_r by (rewrite length_take; lia).
    rewrite lookup_drop, length_take. f_equal. lia.
Qed.

Lemma lookup_patch_in p off d (i : nat) :
  0 <= off -> off + zlen d <= zlen p ->
  off <= Z.of_nat i < off + zlen d ->
  patch p off d !! i = d !! (i - Z.to_nat off)%nat.
Proof.
  unfold zlen, patch; intros Ho Hl Hi.
  rewrite lookup_app_r by (rewrite length_take; lia).
  rewrite length_take, lookup_app_l by lia. f_equal. lia.
Qed.

(** Reading elsewhere is not affected by a write. *)
Lemma sub_patch_disj p off d o n :
  0 <= off -> off + zlen d <= zlen p -> 0 <= o -> 0 <= n ->
  (o + n <= off \/ off + zlen d <= o) ->
  sub (patch p off d) o n = sub p o n.
Proof.
  intros Ho Hl Ho2 Hn Hd. apply list_eq; intros i.
  destruct (decide (i < Z.to_nat n)%nat).
  - rewrite !lookup_sub by lia. apply lookup_patch_out; lia.
  - unfold sub. rewrite !lookup_take_ge by lia. done.
Qed.

(** Reading inside what was written yields the corresponding part. *)
Lemma sub_patch_in p off d o n :
  0 <= off -> off + zlen d <= zlen p -> off <= o -> 0 <= n ->
  o + n <= off + zlen d ->
  sub (patch p off d) o n = sub d (o - off) n.
Proof.
  intros Ho Hl Ho2 Hn Hd. apply list_eq; intros i.
  destruct (decide (i < Z.to_nat n)%nat).
  - rewrite !lookup_sub by lia. rewrite lookup_patch_in by lia. f_equal. lia.
  - unfold sub. rewrite !lookup_take_ge by lia. done.
Qed.

Lemma sub_full d : sub d 0 (zlen d) = d.
Proof. unfold sub, zlen. rewrite drop_0. apply take_ge. lia. Qed.

Lemma sub_patch_same p off d :
  0 <= off -> off + zlen d <= zlen p ->
  sub (patch p off d) off (zlen d) = d.
Proof.
  intros. rewrite sub_patch_in by (try apply zlen_nonneg; lia).
  rewrite Z.sub_diag. apply sub_full.
Qed.

Lemma patch_sub p off n :
  0 <= off -> 0 <= n -> off + n <= zlen p -> patch p off (sub p off n) = p.
Proof.
  intros Ho Hn Hl. apply list_eq; intros i.
  pose proof (zlen_sub p off n Ho Hn Hl) as Hs.
  destruct (decide (off <= Z.of_nat i < off + n)).
  - rewrite lookup_patch_in by lia. rewrite lookup_sub by lia. f_equal. lia.
  - rewrite lookup_patch_out by lia. done.
Qed.

(** Two writes at the same place: the second wins. *)
Lemma patch_patch_same p off d e :
  0 <= off -> off + zlen d <= zlen p -> zlen e = zlen d ->
  patch (patch p off d) off e = patch p off e.
Proof.
  intros Ho Hl He. apply list_eq; intros i.
  destruct (decide (off <= Z.of_nat i < off + zlen d)).
  - rewrite !lookup_patch_in by (rewrite ?zlen_patch; lia). done.
  - rewrite !lookup_patch_out by (rewrite ?zlen_patch; lia). done.
Qed.

Lemma patch_patch_comm p off d off2 e :
  0 <= off -> off + zlen d <= zlen p -> 0 <= off2 -> off2 + zlen e <= zlen p ->
  (off + zlen d <= off2 \/ off2 + zlen e <= off) ->
  patch (patch p off d) off2 e = patch (patch p off2 e) off d.
Proof.
  intros. apply list_eq; intros i.
  destruct (decide (off <= Z.of_nat i < off + zlen d)),
           (decide (off2 <= Z.of_nat i < off2 + zlen e)); try lia.
  - rewrite lookup_patch_out by (rewrite ?zlen_patch; lia).
    rewrite !lookup_patch_in by (rewrite ?zlen_patch; lia). done.
  - rewrite lookup_patch_in by (rewrite ?zlen_patch; lia).
    rewrite lookup_patch_out by (rewrite ?zlen_patch; lia).
    rewrite lookup_patch_in by (rewrite ?zlen_patch; lia). done.
  - rewrite !lookup_patch_out by (rewrite ?zlen_patch; lia). done.
Qed.

Lemma sub_app_l d e o n :
  0 <= o -> 0 <= n -> o + n <= zlen d -> sub (d ++ e) o n = sub d o n.
Proof.
  unfold zlen, sub; intros.
  rewrite drop_app_le by lia. rewrite take_app_le; [done|].
  rewrite length_drop. lia.
Qed.

Lemma sub_app_r d e o n :
  zlen d <= o -> sub (d ++ e) o n = sub e (o - zlen d) n.
Proof.
  unfold zlen, sub; intros. rewrite drop_app_ge by lia. do 2 f_equal. lia.
Qed.

Lemma sub_sub p o n o2 n2 :
  0 <= o -> 0 <= o2 -> 0 <= n2 -> o2 + n2 <= n ->
  sub (sub p o n) o2 n2 = sub p (o + o2) n2.
Proof.
  intros. apply list_eq; intros i.
  destruct (decide (i < Z.to_nat n2)%nat).
  - rewrite !lookup_sub by lia. f_equal. lia.
  - unfold sub. rewrite !lookup_take_ge by lia. done.
Qed.

Lemma sub_split p o n m :
  0 <= o -> 0 <= n -> 0 <= m -> sub p o (n + m) = sub p o n ++ sub p (o + n) m.
Proof.
  intros. unfold sub. rewrite Z2Nat.inj_add by lia. rewrite <- take_take_drop.
  rewrite drop_drop. do 3 f_equal. lia.
Qed.

Lemma Forall_sub (P : A -> Prop) p off n : Forall P p -> Forall P (sub p off n).
Proof. intros; unfold sub. by apply Forall_take, Forall_drop. Qed.

Lemma Forall_patch (P : A -> Prop) p off d :
  Forall P p -> Forall P d -> Forall P (patch p off d).
Proof.
  intros; unfold patch. rewrite !Forall_app; split_and!; auto using Forall_take, Forall_drop.
Qed.
End Buffers.

Lemma bytes_ok_patch p off d : bytes_ok p -> bytes_ok d -> bytes_ok (patch p off d).
Proof. apply Forall_patch. Qed.
Lemma bytes_ok_sub p off n : bytes_ok p -> bytes_ok (sub p off n).
Proof. apply Forall_sub. Qed.

(** ** Little-endian integers and packed structs *)
Fixpoint le_bytes (n : nat) (v : Z) : bytes :=
  match n with
  | O => []
  | S n => v mod 256 :: le_bytes n (v / 256)
  end.
Fixpoint le_val (b : bytes) : Z :=
  match b with
  | [] => 0
  | x :: r => x + 256 * le_val r
  end.

Lemma length_le_bytes n v : length (le_bytes n v) = n.
Proof. revert v; induction n; simpl; auto. Qed.
Lemma zlen_le_bytes n v : zlen (le_bytes n v) = Z.of_nat n.
Proof. unfold zlen; by rewrite length_le_bytes. Qed.

Lemma bytes_ok_le_bytes n v : bytes_ok (le_bytes n v).
Proof.
  revert v; induction n; simpl; intros; constructor; [|apply IHn].
  unfold is_byte; apply Z.mod_pos_bound; lia.
Qed.

Lemma le_val_enc n v : le_val (le_bytes n v) = v mod 256 ^ Z.of_nat n.
Proof.
  revert v; induction n; intros v; cbn [le_bytes le_val].
  - rewrite Z.mod_1_r; done.
  - rewrite IHn, Nat2Z.inj_succ, Z.pow_succ_r by lia.
    rewrite (Z.rem_mul_r v 256 (256 ^ Z.of_nat n)) by (try apply Z.pow_pos_nonneg; lia).
    done.
Qed.

Lemma le_val_range b : bytes_ok b -> 0 <= le_val b < 256 ^ zlen b.
Proof.
  induction 1 as [|x r Hx Hr IH]; cbn [le_val].
  - unfold zlen; simpl; lia.
  - rewrite zlen_cons, Z.pow_add_r by (pose proof (zlen_nonneg r); lia).
    unfold is_byte in Hx. rewrite Z.pow_1_r. nia.
Qed.

Lemma le_bytes_dec b : bytes_ok b -> le_bytes (length b) (le_val b) = b.
Proof.
  induction 1 as [|x r Hx Hr IH]; cbn [le_val le_bytes length]; [done|].
  unfold is_byte in Hx.
  replace (x + 256 * le_val r) with (x + le_val r * 256) by lia.
  rewrite Z.mod_add, Z.mod_small by lia.
  rewrite Z.div_add, Z.div_small, Z.add_0_l by lia. by rewrite IH.
Qed.

Lemma le_val_enc_small n v :
  0 <= v < 256 ^ Z.of_nat n -> le_val (le_bytes n v) = v.
Proof. intros; rewrite le_val_enc; apply Z.mod_small; lia. Qed.

Lemma le_val_app a b : le_val (a ++ b) = le_val a + 256 ^ zlen a * le_val b.
Proof.
  induction a as [|x a IH]; cbn [app le_val]; [change (zlen (A := Z) []) with 0; lia|].
  rewrite IH, zlen_cons, Z.pow_add_r by (pose proof (zlen_nonneg a); lia). lia.
Qed.

(** Reading consecutive fields of a packed struct. *)
Definition get (w : nat) (b : bytes) : Z * bytes := (le_val (take w b), drop w b).
Definition getb (w : nat) (b : bytes) : bytes * bytes := (take w b, drop w b).

Lemma get_enc w v r : 0 <= v < 256 ^ Z.of_nat w -> get w (le_bytes w v ++ r) = (v, r).
Proof.
  intros; unfold get.
  rewrite take_app_length', drop_app_length' by (symmetry; apply length_le_bytes).
  by rewrite le_val_enc_small.
Qed.
Lemma get_enc_end w v : 0 <= v < 256 ^ Z.of_nat w -> get w (le_bytes w v) = (v, []).
Proof. intros; rewrite <- (app_nil_r (le_bytes w v)); by apply get_enc. Qed.
Lemma getb_app w d r : length d = w -> getb w (d ++ r) = (d, r).
Proof.
  intros; unfold getb.
  by rewrite take_app_length', drop_app_length' by done.
Qed.
Lemma getb_end w d : length d = w -> getb w d = (d, []).
Proof. intros; rewrite <- (app_nil_r d) at 1; by apply getb_app. Qed.

(** ** The effect monad

    A stateful C function is a function from the state to an outcome:
    a value with the new state, or a halt.  The halts are those of kernel
    code: [panic()], [BUG_ON()], an access outside of an object, and, for
    the loops whose termination depends on the data, an exhausted fuel. *)
Inductive halt := Panic | Bug | Fault | NoFuel.
Inductive outcome (S A : Type) :=
  | Ret (a : A) (s : S)
  | Halt (h : halt) (s : S).
Arguments Ret {S A}. Arguments Halt {S A}.

Definition M (S A : Type) := S -> outcome S A.
Definition ret {S A} (a : A) : M S A := fun s => Ret a s.
Definition bind {S A B} (m : M S A) (k : A -> M S B) : M S B :=
  fun s => match m s with Ret a s' => k a s' | Halt h s' => Halt h s' end.
Definition halt_with {S A} (h : halt) : M S A := fun s => Halt h s.
Definition gets {S A} (f : S -> A) : M S A := fun s => Ret (f s) s.
Definition modify {S} (f : S -> S) : M S unit := fun s => Ret tt (f s).

Notation "x <- m ;; k" := (bind m (fun x => k))
  (at level 100, m at next level, right associativity) : kds_scope.
Notation "m ;; k" := (bind m (fun _ => k))
  (at level 100, right associativity) : kds_scope.
Notation "'let*' p := m 'in' k" := (bind m (fun x => match x with p => k end))
  (at level 100, p pattern, m at level 99, k at level 100, right associativity) : kds_scope.

Lemma bind_ok {S A B} (m : M S A) (k : A -> M S B) s a s' :
  m s = Ret a s' -> bind m k s = k a s'.
Proof. unfold bind. by intros ->. Qed.

Lemma bind_halt {S A B} (m : M S A) (k : A -> M S B) s h s' :
  m s = Halt h s' -> bind m k s = Halt h s'.
Proof. unfold bind. by intros ->. Qed.
Lemma bind_inv {S A B} (m : M S A) (k : A -> M S B) s b t :
  bind m k s = Ret b t -> exists a s', m s = Ret a s' /\ k a s' = Ret b t.
Proof. unfold bind. destruct (m s) as [a s'|h s']; [eauto|done]. Qed.
Lemma bind_assoc {S A B C} (m : M S A) (k : A -> M S B) (h : B -> M S C) s :
  bind (bind m k) h s = bind m (fun a => bind (k a) h) s.
Proof. unfold bind. by destruct (m s). Qed.
Lemma Ret_inj {S A} (a b : A) (s t : S) : Ret a s = Ret b t -> a = b /\ s = t.
Proof. by intros [= -> ->]. Qed.

(** A result that is a valid pointer or an [ERR_PTR(-e)]. *)
Inductive ptr_or_err (A : Type) := PTR (a : A) | ERR_PTR (e : Z).
Arguments PTR {A}. Arguments ERR_PTR {A}.

(** ** Automation *)
Create HintDb kds.
#[export] Hint Resolve zlen_nonneg bytes_ok_zeros bytes_ok_le_bytes u16_range u64_range
  bytes_ok_patch bytes_ok_sub : kds.
Create Rewrite HintDb kds_len.
#[export] Hint Rewrite @zlen_app @zlen_cons zlen_le_bytes : kds_len.

(** Case analysis on the boolean tests of the code. *)
Ltac case_test :=
  match goal with
  | |- context [if ?b then _ else _] =>
      lazymatch b with
      | (_ <? _) => destruct (Z.ltb_spec0 (ltac:(match b with ?x <? _ => exact x end))
                                          (ltac:(match b with _ <? ?y => exact y end)))
      | (_ <=? _) => destruct (Z.leb_spec0 (ltac:(match b with ?x <=? _ => exact x end))
                                           (ltac:(match b with _ <=? ?y => exact y end)))
      | (_ =? _) => destruct (Z.eqb_spec (ltac:(match b with ?x =? _ => exact x end))
                                         (ltac:(match b with _ =? ?y => exact y end)))
      | _ => destruct b eqn:?
      end
  end.
(** Execute the first step of a sequence, with a lemma that gives its result. *)
Ltac step_by tac := erewrite bind_ok by (tac; fail); cbn beta iota.
(** Evaluate one effectful step. *)
Ltac mstep := unfold bind, ret, gets, modify, halt_with; cbn beta iota.
(** Decode what was just encoded, field by field. *)
Ltac struct_rt :=
  repeat first
    [ rewrite get_enc by (cbn; lia); cbn beta iota
    | rewrite getb_app by (assumption || lia); cbn beta iota
    | rewrite get_enc_end by (cbn; lia); cbn beta iota
    | rewrite getb_end by (assumption || lia); cbn beta iota ];
  try reflexivity.
