(* ===== verification/Layout.v ===== *)
(** * Layout: the kernel interface, page headers and frames

    The data of include/linux/kds.h and of the [kds_frame_t] part of
    kds_page_mgr.h, the Linux services the module calls (class [Kernel]),
    and the primitive accesses to a frame's buffer from which the heap,
    b-tree and WAL page formats are built. *)
From S2P Require Import Prelude.
From stdpp Require Import prelude gmap list.
From Stdlib Require Import ZArith Lia.
Local Open Scope Z_scope.
Local Open Scope kds_scope.

(** ** The Linux services

    Everything the module obtains from the kernel.  Calls whose result
    the module cannot predict are answered by position: the [n]-th call
    made since boot gets the [n]-th answer, so that a theorem quantified
    over [Kernel] covers every pattern of failures. *)
Class Kernel := {
  (** does the n-th kmalloc/vmalloc/alloc_pages return memory? *)
  k_alloc : nat -> bool;
  (** content of memory that vmalloc does not clear *)
  k_garbage : nat -> Z;
  (** does the n-th [bio_add_page] take the whole page? *)
  k_bio_add : nat -> bool;
  (** result of the n-th [submit_bio_wait]: 0 or a negative errno *)
  k_bio : nat -> Z;
  (** result of the n-th [rhashtable_insert_fast] of a fresh key *)
  k_rhash : nat -> Z;
  (** [ktime_get_real_seconds], [ktime_get_ns] *)
  k_seconds : nat -> Z;
  k_ns : nat -> Z;
  (** [crc32c(seed, data, len)] *)
  k_crc32c : Z -> bytes -> Z;
  (** the memory that follows a page buffer *)
  k_beyond : nat -> Z
}.

(** A kernel on which nothing fails, with a checksum that can be run. *)
Definition quiet_kernel : Kernel := {|
  k_alloc := fun _ => true;
  k_garbage := fun _ => 0;
  k_bio_add := fun _ => true;
  k_bio := fun _ => 0;
  k_rhash := fun _ => 0;
  k_seconds := fun n => Z.of_nat n;
  k_ns := fun n => Z.of_nat n;
  k_crc32c := fun s d => u32 (fold_left (fun a x => a * 31 + x) d s);
  k_beyond := fun _ => 0
|}.

(** ** Constants of kds.h *)
Definition KDS_BLKDEV_SECTOR_SIZE : Z := 512.
Definition KDS_PAGE_SIZE : Z := 8 * 1024.
Definition META_SUPERBLOCK_SECTOR : Z := 2048.
Definition KDS_SYS_RESERVED_PAGES : Z := 128.
Definition KDS_PAGE_SECTORS : Z := KDS_PAGE_SIZE / KDS_BLKDEV_SECTOR_SIZE.
Definition KDS_PAGE_TYPE_INVALID : Z := 0.
Definition KDS_PAGE_TYPE_BTREE_ROOT : Z := 1.
Definition KDS_PAGE_TYPE_BTREE_INTERNAL : Z := 2.
Definition KDS_PAGE_TYPE_BTREE_DATA : Z := 3.
Definition KDS_PAGE_TYPE_HEAP : Z := 4.
Definition KDS_PAGE_TYPE_UNDO : Z := 5.
Definition KDS_PAGE_TYPE_WAL : Z := 6.
Definition KDS_PAGE_FLAG_ALLOC : Z := 1.
Definition KDS_PAGE_FLAG_INIT : Z := 2.
Definition KDS_PAGE_FLAG_FREE : Z := 4.
Definition KDS_PAGE_FLAG_DIRTY : Z := 8.
Definition KDS_PAGE_HDR_SIZE : Z := 41.

Definition kds_page_sector (id : Z) : Z := u64 (id * (KDS_PAGE_SIZE / 512)).

(** ** Page header and in-memory page object *)
Record kds_page_hdr := PageHdr {
  ph_type : Z; ph_crc : Z; ph_flags : Z; ph_reserved1 : bytes }.

Definition page_hdr_enc (h : kds_page_hdr) : bytes :=
  le_bytes 4 (ph_type h) ++ le_bytes 4 (ph_crc h) ++ le_bytes 1 (ph_flags h) ++ ph_reserved1 h.
Definition page_hdr_dec (b : bytes) : kds_page_hdr :=
  let '(t, b) := get 4 b in
  let '(c, b) := get 4 b in
  let '(fl, b) := get 1 b in
  let '(r, _) := getb 32 b in
  PageHdr t c fl r.
Definition page_hdr_ok (h : kds_page_hdr) : Prop :=
  0 <= ph_type h < 2 ^ 32 /\ 0 <= ph_crc h < 2 ^ 32 /\ 0 <= ph_flags h < 256 /\
  length (ph_reserved1 h) = 32%nat /\ bytes_ok (ph_reserved1 h).

Record kds_page := Kpage { kp_id : Z; kp_hdr : kds_page_hdr; kp_refcnt : Z }.

(** A [struct page *]: NULL, memory that is allocated, or memory that was
    given back with [__free_pages] while the pointer was kept. *)
Inductive page_ptr := NullPg | LivePg (b : bytes) | FreedPg.

Inductive kds_frame_state := KDS_FRAME_FREE | KDS_FRAME_LOADING | KDS_FRAME_VALID.
#[export] Instance kds_frame_state_eq_dec : EqDecision kds_frame_state.
Proof. solve_decision. Defined.

Record kds_frame := Frame {
  f_frame_id : nat;
  f_state : kds_frame_state;
  f_page_id : Z;
  f_kp : option kds_page;
  f_page : page_ptr;
  f_mapped_addr : bool }.

Definition set_f_state (x : kds_frame_state) (f : kds_frame) : kds_frame :=
  Frame (f_frame_id f) x (f_page_id f) (f_kp f) (f_page f) (f_mapped_addr f).
Definition set_f_page_id (x : Z) (f : kds_frame) : kds_frame :=
  Frame (f_frame_id f) (f_state f) x (f_kp f) (f_page f) (f_mapped_addr f).
Definition set_f_kp (x : option kds_page) (f : kds_frame) : kds_frame :=
  Frame (f_frame_id f) (f_state f) (f_page_id f) x (f_page f) (f_mapped_addr f).
Definition set_f_page (x : page_ptr) (f : kds_frame) : kds_frame :=
  Frame (f_frame_id f) (f_state f) (f_page_id f) (f_kp f) x (f_mapped_addr f).
Definition set_f_mapped (x : bool) (f : kds_frame) : kds_frame :=
  Frame (f_frame_id f) (f_state f) (f_page_id f) (f_kp f) (f_page f) x.

Definition set_kp_hdr (h : kds_page_hdr) (k : kds_page) : kds_page :=
  Kpage (kp_id k) h (kp_refcnt k).
Definition set_kp_refcnt (n : Z) (k : kds_page) : kds_page :=
  Kpage (kp_id k) (kp_hdr k) n.
Definition set_ph_type (t : Z) (h : kds_page_hdr) : kds_page_hdr :=
  PageHdr t (ph_crc h) (ph_flags h) (ph_reserved1 h).
Definition set_ph_crc (c : Z) (h : kds_page_hdr) : kds_page_hdr :=
  PageHdr (ph_type h) c (ph_flags h) (ph_reserved1 h).
Definition set_ph_flags (x : Z) (h : kds_page_hdr) : kds_page_hdr :=
  PageHdr (ph_type h) (ph_crc h) x (ph_reserved1 h).

(** [hdr.flags |= x], [hdr.flags & x]. *)
Definition or_flags (x : Z) (h : kds_page_hdr) : kds_page_hdr :=
  set_ph_flags (Z.lor (ph_flags h) x) h.
Definition has_flag (x : Z) (h : kds_page_hdr) : bool :=
  negb (Z.land (ph_flags h) x =? 0).

(** ** Access to a frame's buffer

    [guard_frame] is the test [!frame->kp || !frame->page] that opens
    the functions on frames; [ld] and [st] are the [memcpy]s from and to
    the mapped page.  A write that leaves the page is a [Fault]; a read
    that leaves it sees the memory that follows ([k_beyond]). *)
Section Access.
Context `{K : Kernel}.

Definition guard_frame {A} (bad : A) (body : M kds_frame A) : M kds_frame A :=
  fun f => match f_kp f, f_page f with
           | None, _ | _, NullPg => Ret bad f
           | Some _, _ => body f
           end.

Definition page_read (p : bytes) (off n : Z) : bytes :=
  let inb := sub p off n in
  inb ++ map (fun k => k_beyond (Z.to_nat off + length inb + k - Z.to_nat KDS_PAGE_SIZE))
             (seq 0 (Z.to_nat n - length inb)).

Definition ld (off n : Z) : M kds_frame bytes :=
  fun f => match f_page f with
           | LivePg p => Ret (page_read p off n) f
           | _ => Halt Fault f
           end.
Definition st (off : Z) (d : bytes) : M kds_frame unit :=
  fun f => match f_page f with
           | LivePg p => if off + zlen d <=? KDS_PAGE_SIZE
                         then Ret tt (set_f_page (LivePg (patch p off d)) f)
                         else Halt Fault f
           | _ => Halt Fault f
           end.
Definition kp_get {A} (g : kds_page -> A) : M kds_frame A :=
  fun f => match f_kp f with Some k => Ret (g k) f | None => Halt Fault f end.
Definition kp_mod (g : kds_page -> kds_page) : M kds_frame unit :=
  fun f => match f_kp f with Some k => Ret tt (set_f_kp (Some (g k)) f) | None => Halt Fault f end.
(** Reading [len] bytes from a caller's buffer. *)
Definition src (data : option bytes) (len : Z) : M kds_frame bytes :=
  match data with
  | Some d => if len <=? zlen d then ret (sub d 0 len) else halt_with Fault
  | None => halt_with Fault
  end.

Definition kds_set_page_dirty : M kds_frame unit :=
  kp_mod (fun k => set_kp_hdr (or_flags KDS_PAGE_FLAG_DIRTY (kp_hdr k)) k).
Definition kds_set_page_init : M kds_frame unit :=
  kp_mod (fun k => set_kp_hdr (or_flags KDS_PAGE_FLAG_INIT (kp_hdr k)) k).
Definition pin_kpage : M kds_frame unit := kp_mod (fun k => set_kp_refcnt (kp_refcnt k + 1) k).
Definition unpin_kpage : M kds_frame unit := kp_mod (fun k => set_kp_refcnt (kp_refcnt k - 1) k).

(** A frame whose page is loaded: the state in which the page formats are
    defined. *)
Definition frame_live (f : kds_frame) (k : kds_page) (p : bytes) : Prop :=
  f_kp f = Some k /\ f_page f = LivePg p.
Definition live_frame (f : kds_frame) (k : kds_page) (p : bytes) : kds_frame :=
  set_f_page (LivePg p) (set_f_kp (Some k) f).

Lemma page_read_in p off n :
  0 <= off -> 0 <= n -> off + n <= zlen p -> page_read p off n = sub p off n.
Proof.
  intros Ho Hn Hl. unfold page_read.
  pose proof (zlen_sub p off n Ho Hn Hl) as Hs. unfold zlen in Hs.
  replace (Z.to_nat n - length (sub p off n))%nat with 0%nat by lia.
  apply app_nil_r.
Qed.

Lemma zlen_page_read p off n : 0 <= n -> zlen (page_read p off n) = n.
Proof.
  intros. unfold page_read. rewrite zlen_app. unfold zlen.
  rewrite length_map, length_seq. unfold sub. rewrite length_take. lia.
Qed.

Lemma page_read_take p off n m :
  0 <= off -> 0 <= m <= n -> off + m <= zlen p ->
  take (Z.to_nat m) (page_read p off n) = sub p off m.
Proof.
  intros. unfold page_read, sub, zlen in *.
  rewrite take_app_le by (rewrite length_take, length_drop; lia).
  rewrite take_take. f_equal. lia.
Qed.

Lemma page_read_beyond p off n :
  zlen p = KDS_PAGE_SIZE -> 0 <= off < KDS_PAGE_SIZE -> KDS_PAGE_SIZE < off + n ->
  exists post, page_read p off n = sub p off (KDS_PAGE_SIZE - off) ++ k_beyond 0 :: post.
Proof.
  unfold KDS_PAGE_SIZE, zlen. intros. unfold page_read.
  assert (sub p off n = sub p off (8 * 1024 - off)) as ->
    by (unfold sub; rewrite !take_ge by (rewrite length_drop; lia); done).
  assert (length (sub p off (8 * 1024 - off)) = Z.to_nat (8 * 1024 - off))
    by (unfold sub; rewrite length_take, length_drop; lia).
  destruct (Z.to_nat n - length (sub p off (8 * 1024 - off)))%nat as [|m] eqn:E; [lia|].
  cbn [seq map]. eexists. do 3 f_equal. unfold KDS_PAGE_SIZE. lia.
Qed.

Lemma frame_live_live f k p : frame_live (live_frame f k p) k p.
Proof. done. Qed.
Lemma frame_live_eq f k p : frame_live f k p -> live_frame f k p = f.
Proof. intros [? ?]. destruct f; simpl in *; subst; done. Qed.
Lemma guard_frame_live {A} (bad : A) body f k p :
  frame_live f k p -> guard_frame bad body f = body f.
Proof. intros [H1 H2]. unfold guard_frame. by rewrite H1, H2. Qed.
Lemma guard_frame_live' {A} (bad : A) body f k p :
  guard_frame bad body (live_frame f k p) = body (live_frame f k p).
Proof. done. Qed.
Lemma ld_live f k p off n :
  0 <= off -> 0 <= n -> off + n <= zlen p ->
  ld off n (live_frame f k p) = Ret (sub p off n) (live_frame f k p).
Proof. intros. unfold ld; simpl. by rewrite page_read_in. Qed.
Lemma st_live f k p off d :
  off + zlen d <= KDS_PAGE_SIZE ->
  st off d (live_frame f k p) = Ret tt (live_frame f k (patch p off d)).
Proof.
  intros H. unfold st; simpl. destruct (Z.leb_spec (off + zlen d) KDS_PAGE_SIZE); [done|lia].
Qed.
Lemma kp_mod_live g f k p : kp_mod g (live_frame f k p) = Ret tt (live_frame f (g k) p).
Proof. done. Qed.
Lemma kp_get_live {A} (g : kds_page -> A) f k p :
  kp_get g (live_frame f k p) = Ret (g k) (live_frame f k p).
Proof. done. Qed.
End Access.

Lemma page_hdr_dec_enc h r :
  page_hdr_ok h -> page_hdr_dec (page_hdr_enc h ++ r) = h.
Proof.
  intros (? & ? & ? & Hl & ?). unfold page_hdr_dec, page_hdr_enc.
  rewrite <- !app_assoc.
  rewrite !get_enc by (simpl; lia).
  rewrite getb_app by done. by destruct h.
Qed.
Lemma zlen_page_hdr_enc h :
  length (ph_reserved1 h) = 32%nat -> zlen (page_hdr_enc h) = KDS_PAGE_HDR_SIZE.
Proof.
  intros. unfold page_hdr_enc. autorewrite with kds_len. unfold zlen.
  rewrite H. done.
Qed.
Lemma bytes_ok_page_hdr_enc h : page_hdr_ok h -> bytes_ok (page_hdr_enc h).
Proof.
  intros (_ & _ & _ & _ & H). unfold page_hdr_enc. rewrite !bytes_ok_app. auto with kds.
Qed.
(** The header occupies the first 41 bytes of the buffer. *)
Lemma page_hdr_dec_sub p : page_hdr_dec p = page_hdr_dec (sub p 0 41).
Proof.
  unfold page_hdr_dec, get, getb, sub. simpl (Z.to_nat 0). rewrite drop_0.
  change (Z.to_nat 41) with (4 + (4 + (1 + 32)))%nat.
  rewrite !skipn_firstn_comm, !take_take, !drop_drop. f_equal.
Qed.
Lemma length_dec_reserved p : length p = 41%nat -> length (ph_reserved1 (page_hdr_dec p)) = 32%nat.
Proof.
  intros. unfold page_hdr_dec, get, getb. cbn [ph_reserved1]. rewrite length_take, !length_drop. lia.
Qed.
Lemma lor_byte a b : is_byte a -> is_byte b -> is_byte (Z.lor a b).
Proof.
  unfold is_byte; intros Ha Hb. split; [apply Z.lor_nonneg; lia|].
  destruct (Z.eq_dec (Z.lor a b) 0) as [E|E]; [lia|].
  apply (Z.log2_lt_pow2 _ 8).
  - assert (0 <= Z.lor a b) by (apply Z.lor_nonneg; lia). lia.
  - rewrite Z.log2_lor by lia.
    assert (forall x, 0 <= x < 256 -> Z.log2 x < 8) as L.
    { intros x Hx. destruct (Z.eq_dec x 0) as [->|]; [done|]. apply Z.log2_lt_pow2; lia. }
    pose proof (L a Ha). pose proof (L b Hb). lia.
Qed.
