(* ===== verification/Heap.v ===== *)
(** * Heap: slotted heap pages (kernel/kds/heap.c, kds_heap.h)

    A heap page is a common header, a [kds_heap_page_meta], a slot
    directory growing upwards, tuples growing downwards and an 8-byte
    [next_page_id] in the tail.  The operations below are those of
    heap.c, on the bytes of one frame.  An out-parameter of the C
    function is part of the result. *)
From S2P Require Import Prelude Layout.
From stdpp Require Import prelude gmap list.
From Stdlib Require Import ZArith Lia.
Local Open Scope Z_scope.
Local Open Scope kds_scope.

(** ** On-page structures *)
Definition KDS_HEAP_NEXT_PAGE_OFFSET : Z := KDS_PAGE_SIZE - 8.
Record kds_heap_page_meta := HeapMeta { nr_slots : Z; lower : Z; upper : Z; hm_reserved : Z }.
Definition KDS_HEAP_META_SIZE : Z := 8.
Definition KDS_HEAP_META_OFFSET : Z := KDS_PAGE_HDR_SIZE.
Definition KDS_HEAP_AREA_OFFSET : Z := KDS_HEAP_META_OFFSET + KDS_HEAP_META_SIZE.
Record kds_heap_slot := HeapSlot { sl_offset : Z; sl_length : Z; sl_flags : Z }.
Definition KDS_HEAP_SLOT_SIZE : Z := 5.
Definition KDS_HEAP_SLOT_DEAD : Z := 1.
Record kds_heap_tuple_hdr := TupleHdr {
  xmin : Z; xmax : Z; undo_ptr : Z; data_len : Z; th_flags : Z; th_reserved : Z }.
Definition KDS_HEAP_TUPLE_HDR_SIZE : Z := 28.
Record kds_heap_tid := Tid { tid_page_id : Z; tid_slot : Z }.

Definition meta_enc (m : kds_heap_page_meta) : bytes :=
  le_bytes 2 (nr_slots m) ++ le_bytes 2 (lower m) ++ le_bytes 2 (upper m) ++ le_bytes 2 (hm_reserved m).
Definition meta_dec (b : bytes) : kds_heap_page_meta :=
  let '(n, b) := get 2 b in
  let '(l, b) := get 2 b in
  let '(u, b) := get 2 b in
  let '(r, _) := get 2 b in
  HeapMeta n l u r.
Definition slot_enc (s : kds_heap_slot) : bytes :=
  le_bytes 2 (sl_offset s) ++ le_bytes 2 (sl_length s) ++ le_bytes 1 (sl_flags s).
Definition slot_dec (b : bytes) : kds_heap_slot :=
  let '(o, b) := get 2 b in
  let '(l, b) := get 2 b in
  let '(f, _) := get 1 b in
  HeapSlot o l f.
Definition tuple_hdr_enc (h : kds_heap_tuple_hdr) : bytes :=
  le_bytes 8 (xmin h) ++ le_bytes 8 (xmax h) ++ le_bytes 8 (undo_ptr h) ++
  le_bytes 2 (data_len h) ++ le_bytes 1 (th_flags h) ++ le_bytes 1 (th_reserved h).
Definition tuple_hdr_dec (b : bytes) : kds_heap_tuple_hdr :=
  let '(a, b) := get 8 b in
  let '(c, b) := get 8 b in
  let '(u, b) := get 8 b in
  let '(l, b) := get 2 b in
  let '(f, b) := get 1 b in
  let '(r, _) := get 1 b in
  TupleHdr a c u l f r.

(** ** Tuple addresses as undo pointers *)
Definition kds_heap_tid_pack (tid : kds_heap_tid) : Z :=
  Z.lor (Z.land (tid_page_id tid) 0xFFFFFFFFFFFF) (u64 (Z.shiftl (tid_slot tid) 48)).
Definition kds_heap_tid_unpack (packed : Z) : kds_heap_tid :=
  Tid (Z.land packed 0xFFFFFFFFFFFF) (u16 (Z.shiftr packed 48)).

Section Heap.
Context `{K : Kernel}.

(** ** Page accessors *)
Definition heap_slot_off (idx : Z) : Z := KDS_HEAP_AREA_OFFSET + idx * KDS_HEAP_SLOT_SIZE.
Definition ld_meta : M kds_frame kds_heap_page_meta :=
  b <- ld KDS_HEAP_META_OFFSET KDS_HEAP_META_SIZE ;; ret (meta_dec b).
Definition ld_slot (idx : Z) : M kds_frame kds_heap_slot :=
  b <- ld (heap_slot_off idx) KDS_HEAP_SLOT_SIZE ;; ret (slot_dec b).
Definition ld_tuple_hdr (off : Z) : M kds_frame kds_heap_tuple_hdr :=
  b <- ld off KDS_HEAP_TUPLE_HDR_SIZE ;; ret (tuple_hdr_dec b).
Definition slot_is_dead (s : kds_heap_slot) : bool :=
  negb (Z.land (sl_flags s) KDS_HEAP_SLOT_DEAD =? 0) || (sl_length s =? 0).
Definition is_heap_insert_possible (meta : kds_heap_page_meta) (needed : Z) : bool :=
  needed <=? u16 (upper meta - lower meta).

(** ** Operations *)
Definition heap_init_page_as (type : Z) : M kds_frame unit :=
  guard_frame tt (
    kp_mod (fun k => set_kp_hdr (set_ph_type type (kp_hdr k)) k) ;;
    kp_mod (fun k => set_kp_hdr (or_flags KDS_PAGE_FLAG_INIT (kp_hdr k)) k) ;;
    let meta := HeapMeta 0 KDS_HEAP_AREA_OFFSET KDS_HEAP_NEXT_PAGE_OFFSET 0 in
    h <- kp_get kp_hdr ;;
    st 0 (page_hdr_enc h) ;;
    st KDS_HEAP_META_OFFSET (meta_enc meta) ;;
    st KDS_HEAP_NEXT_PAGE_OFFSET (le_bytes 8 0)).

Definition heap_init_page : M kds_frame unit := heap_init_page_as KDS_PAGE_TYPE_HEAP.

Definition heap_free_space : M kds_frame Z :=
  guard_frame 0 (
    meta <- ld_meta ;;
    ret (if lower meta <? upper meta then u16 (upper meta - lower meta) else 0)).

Definition heap_nr_slots : M kds_frame Z :=
  guard_frame 0 (meta <- ld_meta ;; ret (nr_slots meta)).

Definition heap_insert_tuple_ex (data : option bytes) (dlen xmin xmax undo : Z)
  : M kds_frame (Z * option kds_heap_tid) :=
  guard_frame (- EINVAL, None) (
    if (0 <? dlen) && bool_decide (data = None) then ret (- EINVAL, None) else
    if KDS_PAGE_SIZE <? dlen then ret (- EINVAL, None) else
    let needed := u16 (KDS_HEAP_SLOT_SIZE + KDS_HEAP_TUPLE_HDR_SIZE + dlen) in
    meta <- ld_meta ;;
    if negb (is_heap_insert_possible meta needed) then ret (- ENOSPC, None) else
    let new_upper := u16 (upper meta - (KDS_HEAP_TUPLE_HDR_SIZE + dlen)) in
    let new_slot_idx := nr_slots meta in
    st new_upper (tuple_hdr_enc (TupleHdr xmin xmax undo dlen 0 0)) ;;
    (if 0 <? dlen
     then d <- src data dlen ;; st (new_upper + KDS_HEAP_TUPLE_HDR_SIZE) d
     else ret tt) ;;
    st (heap_slot_off new_slot_idx)
       (slot_enc (HeapSlot new_upper (u16 (KDS_HEAP_TUPLE_HDR_SIZE + dlen)) 0)) ;;
    st KDS_HEAP_META_OFFSET
       (meta_enc (HeapMeta (u16 (nr_slots meta + 1)) (u16 (lower meta + KDS_HEAP_SLOT_SIZE))
                           new_upper (hm_reserved meta))) ;;
    kds_set_page_dirty ;;
    id <- kp_get kp_id ;;
    ret (0, Some (Tid id new_slot_idx))).

Definition heap_insert_tuple (data : option bytes) (dlen xmin : Z)
  : M kds_frame (Z * option kds_heap_tid) :=
  heap_insert_tuple_ex data dlen xmin 0 0.

Definition heap_overwrite_tuple (slot_idx : Z) (new_data : option bytes)
  (new_len xmin xmax undo : Z) : M kds_frame Z :=
  guard_frame (- EINVAL) (
    if (0 <? new_len) && bool_decide (new_data = None) then ret (- EINVAL) else
    meta <- ld_meta ;;
    if nr_slots meta <=? slot_idx then ret (- ENOENT) else
    slot <- ld_slot slot_idx ;;
    if slot_is_dead slot then ret (- ENOENT) else
    if sl_length slot <? u16 (KDS_HEAP_TUPLE_HDR_SIZE + new_len) then ret (- ENOSPC) else
    st (sl_offset slot) (tuple_hdr_enc (TupleHdr xmin xmax undo new_len 0 0)) ;;
    (if 0 <? new_len
     then d <- src new_data new_len ;; st (sl_offset slot + KDS_HEAP_TUPLE_HDR_SIZE) d
     else ret tt) ;;
    kds_set_page_dirty ;;
    ret 0).

Definition heap_retire_slot (slot_idx : Z) : M kds_frame Z :=
  guard_frame (- EINVAL) (
    meta <- ld_meta ;;
    if nr_slots meta <=? slot_idx then ret (- ENOENT) else
    slot <- ld_slot slot_idx ;;
    st (heap_slot_off slot_idx)
       (slot_enc (HeapSlot (sl_offset slot) 0 (Z.lor (sl_flags slot) KDS_HEAP_SLOT_DEAD))) ;;
    kds_set_page_dirty ;;
    ret 0).

Definition heap_slot_capacity (slot_idx : Z) : M kds_frame (Z * option Z) :=
  guard_frame (- EINVAL, None) (
    meta <- ld_meta ;;
    if nr_slots meta <=? slot_idx then ret (- ENOENT, None) else
    slot <- ld_slot slot_idx ;;
    if slot_is_dead slot then ret (- ENOENT, None) else
    ret (0, Some (u16 (sl_length slot - KDS_HEAP_TUPLE_HDR_SIZE)))).

Definition heap_get_next_page_id : M kds_frame Z :=
  guard_frame 0 (b <- ld KDS_HEAP_NEXT_PAGE_OFFSET 8 ;; ret (le_val b)).

Definition heap_set_next_page_id (next : Z) : M kds_frame Z :=
  guard_frame (- EINVAL) (
    st KDS_HEAP_NEXT_PAGE_OFFSET (le_bytes 8 next) ;;
    kds_set_page_dirty ;;
    ret 0).

(** [want] is [Some out_buf_size] when the caller passes a buffer. *)
Definition heap_read_tuple_gen (slot_idx : Z) (want : option Z) (raise_not_size_matched : bool)
  : M kds_frame (Z * option (kds_heap_tuple_hdr * bytes)) :=
  guard_frame (- EINVAL, None) (
    meta <- ld_meta ;;
    if nr_slots meta <=? slot_idx then ret (- ENOENT, None) else
    slot <- ld_slot slot_idx ;;
    if slot_is_dead slot then ret (- ENOENT, None) else
    hdr <- ld_tuple_hdr (sl_offset slot) ;;
    match want with
    | None => ret (0, Some (hdr, []))
    | Some out_buf_size =>
        if (out_buf_size <? data_len hdr) && raise_not_size_matched
        then ret (- ENOSPC, None)
        else buf <- ld (sl_offset slot + KDS_HEAP_TUPLE_HDR_SIZE) out_buf_size ;;
             ret (0, Some (hdr, buf))
    end).

Definition heap_read_tuple_pk (slot_idx : Z) (out_buf_size : Z)
  : M kds_frame (Z * option (kds_heap_tuple_hdr * bytes)) :=
  if negb (out_buf_size =? 8) then ret (- ENOSPC, None)
  else heap_read_tuple_gen slot_idx (Some out_buf_size) false.

Definition heap_read_tuple (slot_idx : Z) (want : option Z)
  : M kds_frame (Z * option (kds_heap_tuple_hdr * bytes)) :=
  heap_read_tuple_gen slot_idx want true.

Definition heap_delete_tuple (slot_idx : Z) (xmax_ : Z) : M kds_frame Z :=
  guard_frame (- EINVAL) (
    meta <- ld_meta ;;
    if nr_slots meta <=? slot_idx then ret (- ENOENT) else
    slot <- ld_slot slot_idx ;;
    if slot_is_dead slot then ret (- ENOENT) else
    h <- ld_tuple_hdr (sl_offset slot) ;;
    st (sl_offset slot)
       (tuple_hdr_enc (TupleHdr (xmin h) xmax_ (undo_ptr h) (data_len h) (th_flags h) (th_reserved h))) ;;
    kds_set_page_dirty ;;
    ret 0).

Definition heap_has_space (dlen : Z) : M kds_frame bool :=
  guard_frame false (
    if KDS_PAGE_SIZE <? dlen then ret false else
    let needed := u16 (KDS_HEAP_SLOT_SIZE + KDS_HEAP_TUPLE_HDR_SIZE + dlen) in
    free <- heap_free_space ;;
    ret (needed <=? free)).
End Heap.
