(* ===== verification/HeapSpec.v ===== *)
(** * HeapSpec: what a heap page promises

    The abstract heap page is the list of its slots, each holding a tuple
    (header, payload, reserved space) or nothing.  [heap_view] reads that
    list off the bytes; [heap_wf] is the page invariant.  The theorems
    show that each operation of heap.c keeps the invariant, stays inside
    the page and has the effect of the corresponding list operation. *)
From S2P Require Import Prelude Layout Heap.
From stdpp Require Import prelude gmap list.
From Stdlib Require Import ZArith Lia.
Local Open Scope Z_scope.
Local Open Scope kds_scope.

(** ** Encoding lemmas *)
Definition u16_ok (z : Z) : Prop := 0 <= z < 65536.
Definition u64_ok (z : Z) : Prop := 0 <= z < 2 ^ 64.
Definition meta_ok (m : kds_heap_page_meta) : Prop :=
  u16_ok (nr_slots m) /\ u16_ok (lower m) /\ u16_ok (upper m) /\ u16_ok (hm_reserved m).
Definition slot_ok (s : kds_heap_slot) : Prop :=
  u16_ok (sl_offset s) /\ u16_ok (sl_length s) /\ is_byte (sl_flags s).
Definition tuple_hdr_ok (h : kds_heap_tuple_hdr) : Prop :=
  u64_ok (xmin h) /\ u64_ok (xmax h) /\ u64_ok (undo_ptr h) /\ u16_ok (data_len h) /\
  is_byte (th_flags h) /\ is_byte (th_reserved h).

Ltac ok_unfold := unfold meta_ok, slot_ok, tuple_hdr_ok, u16_ok, u64_ok, is_byte in *.

Lemma meta_dec_enc m : meta_ok m -> meta_dec (meta_enc m) = m.
Proof.
  intros H; ok_unfold. destruct m; unfold meta_dec, meta_enc; cbn -[get le_bytes Z.pow] in *. struct_rt.
Qed.
Lemma slot_dec_enc s : slot_ok s -> slot_dec (slot_enc s) = s.
Proof.
  intros H; ok_unfold. destruct s; unfold slot_dec, slot_enc; cbn -[get le_bytes Z.pow] in *. struct_rt.
Qed.
Lemma tuple_hdr_dec_enc h : tuple_hdr_ok h -> tuple_hdr_dec (tuple_hdr_enc h) = h.
Proof.
  intros H; ok_unfold. destruct h; unfold tuple_hdr_dec, tuple_hdr_enc; cbn -[get le_bytes Z.pow] in *. struct_rt.
Qed.

Lemma zlen_meta_enc m : zlen (meta_enc m) = 8.
Proof. unfold meta_enc. autorewrite with kds_len. done. Qed.
Lemma zlen_slot_enc s : zlen (slot_enc s) = 5.
Proof. unfold slot_enc. autorewrite with kds_len. done. Qed.
Lemma zlen_tuple_hdr_enc h : zlen (tuple_hdr_enc h) = 28.
Proof. unfold tuple_hdr_enc. autorewrite with kds_len. done. Qed.
#[export] Hint Rewrite zlen_meta_enc zlen_slot_enc zlen_tuple_hdr_enc : kds_len.

Lemma bytes_ok_meta_enc m : bytes_ok (meta_enc m).
Proof. unfold meta_enc; rewrite !bytes_ok_app; auto with kds. Qed.
Lemma bytes_ok_slot_enc s : bytes_ok (slot_enc s).
Proof. unfold slot_enc; rewrite !bytes_ok_app; auto with kds. Qed.
Lemma bytes_ok_tuple_hdr_enc h : bytes_ok (tuple_hdr_enc h).
Proof. unfold tuple_hdr_enc; rewrite !bytes_ok_app; auto 10 with kds. Qed.
#[export] Hint Resolve bytes_ok_meta_enc bytes_ok_slot_enc bytes_ok_tuple_hdr_enc : kds.

Lemma le_val_take_range w b : bytes_ok b -> 0 <= le_val (take w b) < 256 ^ Z.of_nat w.
Proof.
  intros H. pose proof (le_val_range (take w b) (Forall_take _ _ _ H)) as [? Hr]. split; [lia|].
  eapply Z.lt_le_trans; [exact Hr|]. apply Z.pow_le_mono_r; [lia|].
  unfold zlen. rewrite length_take. lia.
Qed.

Ltac dec_ok :=
  repeat match goal with
  | |- context [le_val (take ?w ?b)] =>
      let H := fresh in
      assert (H : 0 <= le_val (take w b) < 256 ^ Z.of_nat w)
        by (apply le_val_take_range; repeat apply Forall_drop; assumption);
      cbn [Z.of_nat Pos.of_succ_nat Pos.succ] in H; generalize dependent (le_val (take w b)); intros
  end; lia.

Lemma meta_dec_ok b : bytes_ok b -> meta_ok (meta_dec b).
Proof. intros H; unfold meta_dec, get; ok_unfold; cbn [nr_slots lower upper hm_reserved]; dec_ok. Qed.
Lemma slot_dec_ok b : bytes_ok b -> slot_ok (slot_dec b).
Proof. intros H; unfold slot_dec, get; ok_unfold; cbn [sl_offset sl_length sl_flags]; dec_ok. Qed.
Lemma tuple_hdr_dec_ok b : bytes_ok b -> tuple_hdr_ok (tuple_hdr_dec b).
Proof.
  intros H; unfold tuple_hdr_dec, get; ok_unfold;
  cbn [xmin xmax undo_ptr data_len th_flags th_reserved]; dec_ok.
Qed.

(** ** Reading a page *)
Definition p_meta (p : bytes) : kds_heap_page_meta :=
  meta_dec (sub p KDS_HEAP_META_OFFSET KDS_HEAP_META_SIZE).
Definition p_slot (p : bytes) (i : Z) : kds_heap_slot :=
  slot_dec (sub p (heap_slot_off i) KDS_HEAP_SLOT_SIZE).
Definition p_tuple (p : bytes) (off : Z) : kds_heap_tuple_hdr :=
  tuple_hdr_dec (sub p off KDS_HEAP_TUPLE_HDR_SIZE).
Definition p_next (p : bytes) : Z := le_val (sub p KDS_HEAP_NEXT_PAGE_OFFSET 8).

(** The tuple stored in a slot: header, payload, reserved space. *)
Record htuple := HTuple { ht_hdr : kds_heap_tuple_hdr; ht_data : bytes; ht_cap : Z }.
Definition slot_view (p : bytes) (i : Z) : option htuple :=
  let s := p_slot p i in
  if slot_is_dead s then None else
  let h := p_tuple p (sl_offset s) in
  Some (HTuple h (sub p (sl_offset s + KDS_HEAP_TUPLE_HDR_SIZE) (data_len h))
               (sl_length s - KDS_HEAP_TUPLE_HDR_SIZE)).
Definition heap_view (p : bytes) : list (option htuple) :=
  map (fun i => slot_view p (Z.of_nat i)) (seq 0 (Z.to_nat (nr_slots (p_meta p)))).

(** ** The page invariant *)
Definition live (p : bytes) (i : Z) : Prop :=
  0 <= i < nr_slots (p_meta p) /\ slot_is_dead (p_slot p i) = false.
Definition tuple_in_page (p : bytes) (i : Z) : Prop :=
  let s := p_slot p i in
  upper (p_meta p) <= sl_offset s /\
  sl_offset s + sl_length s <= KDS_HEAP_NEXT_PAGE_OFFSET /\
  KDS_HEAP_TUPLE_HDR_SIZE + data_len (p_tuple p (sl_offset s)) <= sl_length s.
Record heap_wf (p : bytes) : Prop := {
  wf_len : zlen p = KDS_PAGE_SIZE;
  wf_bytes : bytes_ok p;
  wf_lower : lower (p_meta p) = KDS_HEAP_AREA_OFFSET + KDS_HEAP_SLOT_SIZE * nr_slots (p_meta p);
  wf_upper : lower (p_meta p) <= upper (p_meta p) <= KDS_HEAP_NEXT_PAGE_OFFSET;
  wf_tuples : forall i, live p i -> tuple_in_page p i;
  wf_order : forall i j, live p i -> live p j -> i < j ->
    sl_offset (p_slot p j) + sl_length (p_slot p j) <= sl_offset (p_slot p i) }.

Ltac consts :=
  unfold heap_slot_off, KDS_HEAP_AREA_OFFSET, KDS_HEAP_META_OFFSET, KDS_HEAP_META_SIZE,
    KDS_HEAP_SLOT_SIZE, KDS_HEAP_TUPLE_HDR_SIZE, KDS_HEAP_NEXT_PAGE_OFFSET,
    KDS_PAGE_HDR_SIZE, KDS_PAGE_SIZE, EINVAL, ENOSPC, ENOENT in *.

Lemma p_meta_ok p : bytes_ok p -> meta_ok (p_meta p).
Proof. intros; apply meta_dec_ok, Forall_sub; done. Qed.
Lemma p_slot_ok p i : bytes_ok p -> slot_ok (p_slot p i).
Proof. intros; apply slot_dec_ok, Forall_sub; done. Qed.
Lemma p_tuple_ok p o : bytes_ok p -> tuple_hdr_ok (p_tuple p o).
Proof. intros; apply tuple_hdr_dec_ok, Forall_sub; done. Qed.

(** Bounds available for the slots of a well-formed page. *)
Lemma wf_meta_bounds p : heap_wf p ->
  0 <= nr_slots (p_meta p) /\
  49 + 5 * nr_slots (p_meta p) <= upper (p_meta p) <= 8184 /\
  lower (p_meta p) = 49 + 5 * nr_slots (p_meta p).
Proof.
  intros Hp. pose proof (p_meta_ok p (wf_bytes p Hp)) as Hm. ok_unfold.
  pose proof (wf_lower p Hp). pose proof (wf_upper p Hp). consts. lia.
Qed.

Lemma wf_slot_bounds p i : heap_wf p -> live p i ->
  0 <= i < nr_slots (p_meta p) /\ upper (p_meta p) <= sl_offset (p_slot p i) /\
  sl_offset (p_slot p i) + sl_length (p_slot p i) <= 8184 /\
  28 + data_len (p_tuple p (sl_offset (p_slot p i))) <= sl_length (p_slot p i) /\
  0 <= data_len (p_tuple p (sl_offset (p_slot p i))) /\ 49 <= sl_offset (p_slot p i).
Proof.
  intros Hp Hi. pose proof (wf_tuples p Hp i Hi) as Ht. unfold tuple_in_page in Ht.
  pose proof (wf_meta_bounds p Hp).
  pose proof (p_tuple_ok p (sl_offset (p_slot p i)) (wf_bytes p Hp)).
  destruct Hi as [Hi _]. ok_unfold. consts. lia.
Qed.

(** ** Pages that agree on a range of bytes *)
Definition agree (p q : bytes) (o n : Z) : Prop := sub q o n = sub p o n.

Lemma agree_sub p q o n o2 n2 :
  agree p q o n -> 0 <= o -> o <= o2 -> 0 <= n2 -> o2 + n2 <= o + n -> agree p q o2 n2.
Proof.
  unfold agree; intros H ????.
  replace o2 with (o + (o2 - o)) by lia.
  rewrite <- (sub_sub q o n), <- (sub_sub p o n) by lia. by rewrite H.
Qed.
Lemma agree_trans p q r o n : agree p q o n -> agree q r o n -> agree p r o n.
Proof. unfold agree; congruence. Qed.
Lemma agree_patch p off d o n :
  zlen p = KDS_PAGE_SIZE -> 0 <= off -> off + zlen d <= KDS_PAGE_SIZE -> 0 <= o -> 0 <= n ->
  (o + n <= off \/ off + zlen d <= o) -> agree p (patch p off d) o n.
Proof. intros. apply sub_patch_disj; lia. Qed.

Lemma p_meta_agree p q : agree p q 41 8 -> p_meta q = p_meta p.
Proof. unfold agree, p_meta; consts; by intros ->. Qed.
Lemma p_slot_agree p q i : agree p q (49 + i * 5) 5 -> p_slot q i = p_slot p i.
Proof.
  unfold agree, p_slot; consts. replace (41 + 8 + i * 5) with (49 + i * 5) by lia. by intros ->.
Qed.
Lemma p_tuple_agree p q o : agree p q o 28 -> p_tuple q o = p_tuple p o.
Proof. unfold agree, p_tuple; consts; by intros ->. Qed.
Lemma p_next_agree p q : agree p q 8184 8 -> p_next q = p_next p.
Proof. unfold agree, p_next; consts. change (8 * 1024 - 8) with 8184. by intros ->. Qed.

(** A slot keeps its tuple when its entry and its bytes are unchanged. *)
Lemma slot_view_agree p q i :
  agree p q (49 + i * 5) 5 ->
  (slot_is_dead (p_slot p i) = false ->
   let o := sl_offset (p_slot p i) in let n := data_len (p_tuple p o) in
   0 <= o /\ 0 <= n /\ agree p q o (28 + n)) ->
  slot_view q i = slot_view p i.
Proof.
  intros Hs Ht. unfold slot_view. rewrite (p_slot_agree p q i Hs).
  destruct (slot_is_dead _); [done|]. specialize (Ht eq_refl) as (Ho & Hn & Ha).
  rewrite (p_tuple_agree p q) by (eapply agree_sub; [exact Ha|lia..]). consts.
  assert (agree p q (sl_offset (p_slot p i) + 28)
                (data_len (p_tuple p (sl_offset (p_slot p i))))) as ->
    by (eapply agree_sub; [exact Ha|lia..]).
  done.
Qed.

Lemma heap_view_ext p q :
  p_meta q = p_meta p ->
  (forall i, 0 <= i < nr_slots (p_meta p) -> slot_view q i = slot_view p i) ->
  heap_view q = heap_view p.
Proof.
  intros Hm Hv. unfold heap_view. rewrite Hm. apply map_ext_in. intros i Hi.
  apply in_seq in Hi. apply Hv. lia.
Qed.

Lemma lookup_heap_view p i :
  0 <= i < nr_slots (p_meta p) -> heap_view p !! Z.to_nat i = Some (slot_view p i).
Proof.
  intros. unfold heap_view. rewrite list_lookup_fmap.
  rewrite lookup_seq_lt by lia. simpl. do 2 f_equal. lia.
Qed.
Lemma length_heap_view p : length (heap_view p) = Z.to_nat (nr_slots (p_meta p)).
Proof. unfold heap_view. by rewrite length_map, length_seq. Qed.

(** ** Steps on a loaded, well-formed page *)
Section Steps.
Context `{K : Kernel}.
Implicit Types (f : kds_frame) (k : kds_page) (p : bytes).

Lemma ld_meta_live f k p :
  zlen p = KDS_PAGE_SIZE -> ld_meta (live_frame f k p) = Ret (p_meta p) (live_frame f k p).
Proof. intros. unfold ld_meta. mstep. rewrite ld_live by (consts; lia). done. Qed.
Lemma ld_slot_live f k p i :
  zlen p = KDS_PAGE_SIZE -> 0 <= i -> 49 + 5 * i + 5 <= KDS_PAGE_SIZE ->
  ld_slot i (live_frame f k p) = Ret (p_slot p i) (live_frame f k p).
Proof. intros. unfold ld_slot. mstep. rewrite ld_live by (consts; lia). done. Qed.
Lemma ld_tuple_hdr_live f k p o :
  zlen p = KDS_PAGE_SIZE -> 0 <= o -> o + 28 <= KDS_PAGE_SIZE ->
  ld_tuple_hdr o (live_frame f k p) = Ret (p_tuple p o) (live_frame f k p).
Proof. intros. unfold ld_tuple_hdr. mstep. rewrite ld_live by (consts; lia). done. Qed.

Definition dirty (k : kds_page) : kds_page :=
  set_kp_hdr (or_flags KDS_PAGE_FLAG_DIRTY (kp_hdr k)) k.
Lemma set_dirty_live f k p :
  kds_set_page_dirty (live_frame f k p) = Ret tt (live_frame f (dirty k) p).
Proof. done. Qed.
End Steps.

Lemma patch_app {A} (p : list A) off a b :
  0 <= off -> off + zlen a + zlen b <= zlen p ->
  patch (patch p off a) (off + zlen a) b = patch p off (a ++ b).
Proof.
  intros. pose proof (zlen_nonneg a). pose proof (zlen_nonneg b).
  apply list_eq; intros i.
  destruct (decide (off + zlen a <= Z.of_nat i < off + zlen a + zlen b)).
  - rewrite !lookup_patch_in by (rewrite ?zlen_patch, ?zlen_app; lia).
    unfold zlen in *. rewrite lookup_app_r by lia. f_equal. lia.
  - rewrite lookup_patch_out by (rewrite ?zlen_patch; lia).
    destruct (decide (off <= Z.of_nat i < off + zlen a)).
    + rewrite !lookup_patch_in by (rewrite ?zlen_app; lia).
      unfold zlen in *. rewrite lookup_app_l by lia. done.
    + rewrite !lookup_patch_out by (rewrite ?zlen_app; lia). done.
Qed.
Lemma patch_nil {A} (p : list A) off : patch p off [] = p.
Proof. unfold patch; simpl. rewrite Nat.add_0_r. apply take_drop. Qed.

(** Writing a prefix is writing it together with what already follows. *)
Lemma patch_same_tail {A} (p : list A) off a n :
  0 <= off -> 0 <= n -> off + zlen a + n <= zlen p ->
  patch p off a = patch p off (a ++ sub p (off + zlen a) n).
Proof.
  intros. pose proof (zlen_nonneg a). assert (Hs : zlen (sub p (off + zlen a) n) = n) by (rewrite zlen_sub; lia).
  rewrite <- patch_app by lia. symmetry. 
  rewrite <- (sub_patch_disj p off a (off + zlen a) n) by lia.
  apply patch_sub; rewrite ?zlen_patch; lia.
Qed.

(** ** Replacing the tuple of a slot in place *)
Section Replace.
Context (p : bytes) (i : Z) (h : kds_heap_tuple_hdr) (d : bytes).
Context (Hp : heap_wf p) (Hi : live p i) (Hh : tuple_hdr_ok h) (Hd : bytes_ok d)
        (Hlen : data_len h = zlen d)
        (Hfit : 28 + zlen d <= sl_length (p_slot p i)).
Let off := sl_offset (p_slot p i).
Let q := patch p off (tuple_hdr_enc h ++ d).

Lemma replace_bounds :
  zlen p = 8192 /\ 0 <= i < nr_slots (p_meta p) /\ 49 + 5 * nr_slots (p_meta p) <= off /\
  off + sl_length (p_slot p i) <= 8184 /\ zlen (tuple_hdr_enc h ++ d) = 28 + zlen d /\
  0 <= zlen d.
Proof.
  pose proof (wf_slot_bounds p i Hp Hi). pose proof (wf_meta_bounds p Hp).
  pose proof (wf_len p Hp). pose proof (zlen_nonneg d). autorewrite with kds_len.
  consts. unfold off in *. lia.
Qed.
Lemma replace_agree o n :
  0 <= o -> 0 <= n -> (o + n <= off \/ off + sl_length (p_slot p i) <= o) -> agree p q o n.
Proof. pose proof replace_bounds. intros. apply agree_patch; consts; lia. Qed.
Lemma replace_meta : p_meta q = p_meta p.
Proof. pose proof replace_bounds. apply p_meta_agree, replace_agree; lia. Qed.
Lemma replace_slot j : 0 <= j < nr_slots (p_meta p) -> p_slot q j = p_slot p j.
Proof. pose proof replace_bounds. intros. apply p_slot_agree, replace_agree; lia. Qed.
Lemma replace_next : p_next q = p_next p.
Proof. pose proof replace_bounds. apply p_next_agree, replace_agree; lia. Qed.
Lemma replace_live j : live q j <-> live p j.
Proof.
  unfold live. rewrite replace_meta. split; intros [Hj ?]; split; try done.
  - by rewrite <- replace_slot.
  - by rewrite replace_slot.
Qed.
Lemma replace_sub o n :
  off <= o -> 0 <= n -> o + n <= off + 28 + zlen d ->
  sub q o n = sub (tuple_hdr_enc h ++ d) (o - off) n.
Proof. pose proof replace_bounds. intros. apply sub_patch_in; lia. Qed.
Lemma replace_tuple_self : p_tuple q off = h.
Proof.
  pose proof replace_bounds. unfold p_tuple; consts. rewrite replace_sub by lia.
  rewrite Z.sub_diag, sub_app_l by (autorewrite with kds_len; lia).
  rewrite <- (zlen_tuple_hdr_enc h), sub_full. by apply tuple_hdr_dec_enc.
Qed.
Lemma replace_data_self : sub q (off + 28) (zlen d) = d.
Proof.
  pose proof replace_bounds. rewrite replace_sub by lia.
  rewrite sub_app_r by (autorewrite with kds_len; lia). autorewrite with kds_len.
  replace (off + 28 - off - 28) with 0 by lia. apply sub_full.
Qed.
(** Another live tuple lies entirely before or entirely after. *)
Lemma replace_other j : live p j -> j <> i ->
  agree p q (sl_offset (p_slot p j)) (sl_length (p_slot p j)).
Proof.
  intros Hj Hne. pose proof replace_bounds.
  pose proof (wf_slot_bounds p j Hp Hj). ok_unfold.
  apply replace_agree; [lia..|].
  destruct (Z.lt_trichotomy i j) as [Hl|[->|Hl]]; [| done |].
  - left. pose proof (wf_order p Hp i j Hi Hj Hl). unfold off in *. lia.
  - right. pose proof (wf_order p Hp j i Hj Hi Hl). unfold off in *. lia.
Qed.
Lemma replace_tuple_other j : live p j -> j <> i ->
  p_tuple q (sl_offset (p_slot p j)) = p_tuple p (sl_offset (p_slot p j)).
Proof.
  intros Hj Hne. pose proof (wf_slot_bounds p j Hp Hj).
  apply p_tuple_agree. eapply agree_sub; [by apply replace_other|lia..].
Qed.

Lemma replace_wf : heap_wf q.
Proof.
  pose proof replace_bounds. split.
  - subst q. rewrite zlen_patch; consts; lia.
  - apply Forall_patch; [apply Hp|]. apply bytes_ok_app; auto with kds.
  - rewrite replace_meta. apply Hp.
  - rewrite replace_meta. apply Hp.
  - intros j Hj. apply replace_live in Hj. pose proof (wf_tuples p Hp j Hj) as Ht.
    unfold tuple_in_page in *. destruct Hj as [Hj Hdead].
    rewrite replace_meta, replace_slot by done.
    destruct (decide (j = i)) as [->|Hne].
    + fold off. rewrite replace_tuple_self. unfold off in *. consts. lia.
    + by rewrite replace_tuple_other.
  - intros a b Ha Hb. apply replace_live in Ha. apply replace_live in Hb.
    rewrite !replace_slot by (apply Ha || apply Hb). by apply Hp.
Qed.

Lemma replace_view :
  heap_view q = <[Z.to_nat i := Some (HTuple h d (sl_length (p_slot p i) - 28))]> (heap_view p).
Proof.
  pose proof replace_bounds. apply list_eq_same_length with (length (heap_view q)); [|done|].
  { by rewrite length_insert, !length_heap_view, replace_meta. }
  intros j x y Hj. rewrite length_heap_view, replace_meta in Hj.
  replace j with (Z.to_nat (Z.of_nat j)) by lia.
  rewrite lookup_heap_view by (rewrite replace_meta; lia). intros [= <-].
  destruct (decide (Z.of_nat j = i)) as [Hji|Hne].
  - rewrite Hji, list_lookup_insert_eq by (rewrite length_heap_view; lia). intros [= <-].
    unfold slot_view. rewrite replace_slot by lia. destruct Hi as [_ ->]. consts. fold off.
    by rewrite replace_tuple_self, Hlen, replace_data_self.
  - rewrite list_lookup_insert_ne by lia. rewrite lookup_heap_view by lia. intros [= <-].
    apply slot_view_agree; [apply replace_agree; lia|]. intros Hdead o n. subst o n.
    assert (live p (Z.of_nat j)) as Hl by (split; [lia|done]).
    pose proof (wf_slot_bounds p _ Hp Hl).
    split_and!; [lia..|]. eapply agree_sub; [by apply replace_other|lia..].
Qed.
End Replace.

(** ** Appending a tuple *)
Section Append.
Context (p : bytes) (h : kds_heap_tuple_hdr) (d : bytes).
Context (Hp : heap_wf p) (Hh : tuple_hdr_ok h) (Hd : bytes_ok d) (Hlen : data_len h = zlen d)
        (Hroom : 33 + zlen d <= upper (p_meta p) - lower (p_meta p)).
Let n := nr_slots (p_meta p).
Let nu := upper (p_meta p) - (28 + zlen d).
Definition append_slot := HeapSlot nu (28 + zlen d) 0.
Definition append_meta := HeapMeta (n + 1) (lower (p_meta p) + 5) nu (hm_reserved (p_meta p)).
Definition append_page :=
  patch (patch (patch p nu (tuple_hdr_enc h ++ d)) (heap_slot_off n) (slot_enc append_slot))
        41 (meta_enc append_meta).
Let q := append_page.

Lemma append_bounds :
  zlen p = 8192 /\ 0 <= n /\ 49 + 5 * n + 5 <= nu /\ nu + 28 + zlen d <= 8184 /\
  lower (p_meta p) = 49 + 5 * n /\ 0 <= zlen d /\ zlen (tuple_hdr_enc h ++ d) = 28 + zlen d.
Proof.
  pose proof (wf_meta_bounds p Hp). pose proof (wf_len p Hp). pose proof (zlen_nonneg d).
  autorewrite with kds_len. unfold n, nu in *. consts. lia.
Qed.
Lemma append_zlen1 : zlen (patch p nu (tuple_hdr_enc h ++ d)) = 8192.
Proof. pose proof append_bounds. rewrite zlen_patch; lia. Qed.
Lemma append_zlen2 :
  zlen (patch (patch p nu (tuple_hdr_enc h ++ d)) (heap_slot_off n) (slot_enc append_slot)) = 8192.
Proof.
  pose proof append_bounds. pose proof append_zlen1.
  rewrite zlen_patch; autorewrite with kds_len; consts; lia.
Qed.
Lemma append_zlen : zlen q = 8192.
Proof.
  pose proof append_bounds. pose proof append_zlen2.
  subst q; unfold append_page. rewrite zlen_patch; autorewrite with kds_len; consts; lia.
Qed.
(** Outside of the three writes the page is unchanged. *)
Lemma append_agree a m :
  49 <= a -> 0 <= m -> (a + m <= 49 + 5 * n \/ (49 + 5 * n + 5 <= a /\ a + m <= nu) \/
                        nu + 28 + zlen d <= a) -> agree p q a m.
Proof.
  pose proof append_bounds. pose proof append_zlen1. pose proof append_zlen2. intros.
  eapply agree_trans; [|eapply agree_trans];
    apply agree_patch; autorewrite with kds_len; consts; lia.
Qed.
Lemma append_p_meta : p_meta q = append_meta.
Proof.
  pose proof append_bounds. pose proof append_zlen2. unfold p_meta, q, append_page. consts.
  rewrite <- (zlen_meta_enc append_meta) at 2.
  rewrite sub_patch_same by (autorewrite with kds_len; lia).
  apply meta_dec_enc. pose proof (p_meta_ok p (wf_bytes p Hp)).
  unfold append_meta. ok_unfold. cbn [nr_slots lower upper hm_reserved]. unfold n in *. lia.
Qed.
Lemma append_p_slot : p_slot q n = append_slot.
Proof.
  pose proof append_bounds. pose proof append_zlen1. pose proof append_zlen2.
  unfold p_slot, q, append_page. consts.
  rewrite sub_patch_disj by (autorewrite with kds_len; lia).
  rewrite <- (zlen_slot_enc append_slot) at 2.
  rewrite sub_patch_same by (autorewrite with kds_len; lia).
  apply slot_dec_enc. unfold append_slot. ok_unfold. cbn [sl_offset sl_length sl_flags]. lia.
Qed.
Lemma append_sub o m :
  nu <= o -> 0 <= m -> o + m <= nu + 28 + zlen d ->
  sub q o m = sub (tuple_hdr_enc h ++ d) (o - nu) m.
Proof.
  pose proof append_bounds. pose proof append_zlen1. pose proof append_zlen2. intros.
  unfold q, append_page.
  rewrite sub_patch_disj by (autorewrite with kds_len; consts; lia).
  rewrite sub_patch_disj by (autorewrite with kds_len; consts; lia).
  apply sub_patch_in; lia.
Qed.
Lemma append_tuple : p_tuple q nu = h.
Proof.
  pose proof append_bounds. unfold p_tuple. consts. rewrite append_sub by lia.
  rewrite Z.sub_diag, sub_app_l by (autorewrite with kds_len; lia).
  rewrite <- (zlen_tuple_hdr_enc h), sub_full. by apply tuple_hdr_dec_enc.
Qed.
Lemma append_data : sub q (nu + 28) (zlen d) = d.
Proof.
  pose proof append_bounds. rewrite append_sub by lia.
  rewrite sub_app_r by (autorewrite with kds_len; lia). autorewrite with kds_len.
  replace (nu + 28 - nu - 28) with 0 by lia. apply sub_full.
Qed.
Lemma append_old_slot j : 0 <= j < n -> p_slot q j = p_slot p j.
Proof. pose proof append_bounds. intros. apply p_slot_agree, append_agree; lia. Qed.
Lemma append_next : p_next q = p_next p.
Proof. pose proof append_bounds. apply p_next_agree, append_agree; lia. Qed.
Lemma append_dead : slot_is_dead append_slot = false.
Proof. pose proof append_bounds. unfold append_slot, slot_is_dead. simpl. apply Z.eqb_neq. lia. Qed.
Lemma append_live j : live q j <-> live p j \/ j = n.
Proof.
  pose proof append_bounds. unfold live. rewrite append_p_meta.
  unfold append_meta; cbn [nr_slots]. fold n. split.
  - intros [Hj Hs]. destruct (decide (j = n)); [by right|]. left.
    rewrite append_old_slot in Hs by lia. split; [lia|done].
  - intros [[Hj Hs]| ->].
    + rewrite append_old_slot by lia. split; [lia|done].
    + rewrite append_p_slot. split; [lia|]. apply append_dead.
Qed.
Lemma append_old_tuple j : live p j ->
  agree p q (sl_offset (p_slot p j)) (28 + data_len (p_tuple p (sl_offset (p_slot p j)))).
Proof.
  intros Hj. pose proof append_bounds. pose proof (wf_slot_bounds p j Hp Hj).
  apply append_agree; unfold nu in *; lia.
Qed.
Lemma append_wf : heap_wf q.
Proof.
  pose proof append_bounds. split.
  - apply append_zlen.
  - pose proof (wf_bytes p Hp). assert (bytes_ok (tuple_hdr_enc h ++ d)) by (apply bytes_ok_app; auto with kds).
    unfold q, append_page. auto 8 with kds.
  - rewrite append_p_meta. cbn [append_meta nr_slots lower]. consts. lia.
  - rewrite append_p_meta. cbn [append_meta upper lower]. consts. lia.
  - intros j Hj. apply append_live in Hj. unfold tuple_in_page. rewrite append_p_meta.
    cbn [append_meta upper]. destruct Hj as [Hj| ->].
    + pose proof (wf_slot_bounds p j Hp Hj). rewrite append_old_slot by apply Hj.
      rewrite (p_tuple_agree p) by (eapply agree_sub; [by apply append_old_tuple|lia..]).
      unfold nu. consts. lia.
    + rewrite append_p_slot. cbn [append_slot sl_offset sl_length].
      rewrite append_tuple. consts. lia.
  - intros a b Ha Hb Hab. apply append_live in Ha. apply append_live in Hb.
    destruct Ha as [Ha| ->], Hb as [Hb| ->].
    + rewrite !append_old_slot by (apply Ha || apply Hb). by apply Hp.
    + rewrite append_p_slot, append_old_slot by apply Ha. cbn [append_slot sl_offset sl_length].
      pose proof (wf_slot_bounds p a Hp Ha). unfold nu. lia.
    + destruct Hb. unfold n in *. lia.
    + lia.
Qed.
Lemma append_view : heap_view q = heap_view p ++ [Some (HTuple h d (zlen d))].
Proof.
  pose proof append_bounds. unfold heap_view at 1. rewrite append_p_meta.
  cbn [append_meta nr_slots]. rewrite Z2Nat.inj_add by lia. rewrite seq_app, map_app. f_equal.
  - apply map_ext_in. intros j Hj. apply in_seq in Hj. unfold n in *.
    apply slot_view_agree; [apply append_agree; lia|]. intros Hdead.
    assert (live p (Z.of_nat j)) as Hl by (split; fold n; [lia|done]).
    pose proof (wf_slot_bounds p _ Hp Hl). split_and!; [lia..|]. by apply append_old_tuple.
  - simpl. unfold slot_view. replace (Z.of_nat (Z.to_nat n)) with n by lia.
    rewrite append_p_slot, append_dead. cbn [append_slot sl_offset sl_length]. consts.
    rewrite append_tuple, Hlen, append_data. do 3 f_equal. lia.
Qed.
End Append.

(** ** Killing a slot *)
Section Kill.
Context (p : bytes) (i : Z) (s : kds_heap_slot).
Context (Hp : heap_wf p) (Hi : 0 <= i < nr_slots (p_meta p)) (Hs : slot_ok s)
        (Hdead : slot_is_dead s = true).
Let q := patch p (heap_slot_off i) (slot_enc s).

Lemma kill_agree o n :
  0 <= o -> 0 <= n -> (o + n <= 49 + 5 * i \/ 49 + 5 * i + 5 <= o) -> agree p q o n.
Proof.
  pose proof (wf_meta_bounds p Hp). pose proof (wf_len p Hp).
  intros. apply agree_patch; autorewrite with kds_len; consts; lia.
Qed.
Lemma kill_meta : p_meta q = p_meta p.
Proof. apply p_meta_agree, kill_agree; lia. Qed.
Lemma kill_next : p_next q = p_next p.
Proof. pose proof (wf_meta_bounds p Hp). apply p_next_agree, kill_agree; lia. Qed.
Lemma kill_slot_self : p_slot q i = s.
Proof.
  pose proof (wf_meta_bounds p Hp). pose proof (wf_len p Hp). unfold p_slot, q. consts.
  rewrite <- (zlen_slot_enc s) at 3.
  rewrite sub_patch_same by (autorewrite with kds_len; lia). by apply slot_dec_enc.
Qed.
Lemma kill_slot j : 0 <= j -> j <> i -> p_slot q j = p_slot p j.
Proof. intros. apply p_slot_agree, kill_agree; lia. Qed.
Lemma kill_live j : live q j <-> live p j /\ j <> i.
Proof.
  unfold live. rewrite kill_meta. destruct (decide (j = i)) as [->|Hne].
  - rewrite kill_slot_self, Hdead. split; [by intros []|by intros []].
  - split.
    + intros [? H]. rewrite kill_slot in H by lia. done.
    + intros [[? H] _]. rewrite kill_slot by lia. done.
Qed.
Lemma kill_tuple j : live p j ->
  agree p q (sl_offset (p_slot p j)) (28 + data_len (p_tuple p (sl_offset (p_slot p j)))).
Proof.
  intros Hj. pose proof (wf_slot_bounds p j Hp Hj). pose proof (wf_meta_bounds p Hp).
  apply kill_agree; lia.
Qed.
Lemma kill_wf : heap_wf q.
Proof.
  pose proof (wf_meta_bounds p Hp). pose proof (wf_len p Hp) as Hl. pose proof (wf_bytes p Hp). split.
  - unfold q. rewrite zlen_patch; autorewrite with kds_len; consts; lia.
  - unfold q. auto with kds.
  - rewrite kill_meta. apply Hp.
  - rewrite kill_meta. apply Hp.
  - intros j Hj. apply kill_live in Hj as [Hj Hne]. unfold tuple_in_page.
    pose proof (wf_slot_bounds p j Hp Hj). rewrite kill_meta, kill_slot by (try apply Hj; done).
    rewrite (p_tuple_agree p) by (eapply agree_sub; [by apply kill_tuple|lia..]).
    by apply Hp.
  - intros a b Ha Hb. apply kill_live in Ha as [Ha ?]. apply kill_live in Hb as [Hb ?].
    rewrite !kill_slot by (apply Ha || apply Hb || done). by apply Hp.
Qed.
Lemma kill_view : heap_view q = <[Z.to_nat i := None]> (heap_view p).
Proof.
  apply list_eq_same_length with (length (heap_view q)); [|done|].
  { by rewrite length_insert, !length_heap_view, kill_meta. }
  intros j x y Hj. rewrite length_heap_view, kill_meta in Hj.
  replace j with (Z.to_nat (Z.of_nat j)) by lia.
  rewrite lookup_heap_view by (rewrite kill_meta; lia). intros Hx. apply (inj Some) in Hx as <-.
  destruct (decide (Z.of_nat j = i)) as [Hji|Hne].
  - rewrite Hji, list_lookup_insert_eq by (rewrite length_heap_view; lia). intros [= <-].
    unfold slot_view. by rewrite kill_slot_self, Hdead.
  - rewrite list_lookup_insert_ne by lia. rewrite lookup_heap_view by lia. intros [= <-].
    apply slot_view_agree; [apply kill_agree; lia|]. intros Hd.
    assert (live p (Z.of_nat j)) as Hl by (split; [lia|done]).
    pose proof (wf_slot_bounds p _ Hp Hl). split_and!; [lia..|]. by apply kill_tuple.
Qed.
End Kill.

Lemma is_byte_lor1 x : is_byte x -> is_byte (Z.lor x 1).
Proof. intros. by apply lor_byte. Qed.
Lemma land_lor1 x : Z.land (Z.lor x 1) 1 = 1.
Proof. rewrite Z.land_lor_distr_l. apply Z.bits_inj'. intros n ?. rewrite Z.lor_spec, !Z.land_spec.
  destruct (Z.testbit 1 n); [by rewrite andb_true_r, orb_true_r|by rewrite !andb_false_r].
Qed.

(** ** A freshly formatted page *)
Lemma init_page_spec p hb :
  zlen p = KDS_PAGE_SIZE -> bytes_ok p -> zlen hb = 41 -> bytes_ok hb ->
  let q := patch (patch (patch p 0 hb) 41 (meta_enc (HeapMeta 0 49 8184 0))) 8184 (le_bytes 8 0) in
  heap_wf q /\ heap_view q = [] /\ p_next q = 0 /\ sub q 0 41 = hb /\
  p_meta q = HeapMeta 0 49 8184 0.
Proof.
  intros Hl Hb Hh Hhb q. consts.
  assert (H1 : zlen (patch p 0 hb) = 8192) by (rewrite zlen_patch; lia).
  assert (H2 : zlen (patch (patch p 0 hb) 41 (meta_enc (HeapMeta 0 49 8184 0))) = 8192)
    by (rewrite zlen_patch; autorewrite with kds_len; lia).
  assert (Hm : p_meta q = HeapMeta 0 49 8184 0).
  { unfold p_meta, q. consts. rewrite sub_patch_disj by (autorewrite with kds_len; lia).
    rewrite <- (zlen_meta_enc (HeapMeta 0 49 8184 0)).
    rewrite sub_patch_same by (autorewrite with kds_len; lia). apply meta_dec_enc. by ok_unfold. }
  assert (forall i, ~ live q i) by (intros i []; rewrite Hm in *; simpl in *; lia).
  split_and!.
  - split; rewrite ?Hm; try done; try (intros; by exfalso; eapply H).
    + unfold q. rewrite zlen_patch; autorewrite with kds_len; consts; lia.
    + unfold q. auto 10 with kds.
  - unfold heap_view. by rewrite Hm.
  - unfold p_next, q. consts. change (8 * 1024 - 8) with 8184.
    pose proof (sub_patch_same _ 8184 (le_bytes 8 0) ltac:(lia) ltac:(rewrite H2; done)) as E.
    rewrite zlen_le_bytes in E. change (Z.of_nat 8) with 8 in E. rewrite E. done.
  - unfold q. rewrite !sub_patch_disj by (autorewrite with kds_len; lia).
    rewrite <- Hh. apply sub_patch_same; lia.
  - exact Hm.
Qed.

(** ** Changing the chain link *)
Lemma link_page_spec p id :
  heap_wf p -> u64_ok id ->
  let q := patch p 8184 (le_bytes 8 id) in
  heap_wf q /\ heap_view q = heap_view p /\ p_meta q = p_meta p /\ p_next q = id.
Proof.
  intros Hp Hid q. pose proof (wf_len p Hp) as Hl. pose proof (wf_meta_bounds p Hp).
  pose proof (wf_bytes p Hp).
  assert (Ha : forall o n, 0 <= o -> 0 <= n -> o + n <= 8184 -> agree p q o n)
    by (intros; apply agree_patch; autorewrite with kds_len; consts; lia).
  assert (Hm : p_meta q = p_meta p) by (apply p_meta_agree, Ha; lia).
  assert (Hs : forall i, 0 <= i < nr_slots (p_meta p) -> p_slot q i = p_slot p i)
    by (intros; apply p_slot_agree, Ha; lia).
  assert (Hlive : forall i, live q i -> live p i).
  { intros i [Hi Hd]. rewrite Hm in Hi. rewrite Hs in Hd by lia. by split. }
  split_and!; [split| |done|].
  - unfold q. rewrite zlen_patch; autorewrite with kds_len; consts; lia.
  - unfold q. auto with kds.
  - rewrite Hm. apply Hp.
  - rewrite Hm. apply Hp.
  - intros i Hi%Hlive. pose proof (wf_slot_bounds p i Hp Hi). unfold tuple_in_page.
    rewrite Hm, Hs by lia. rewrite (p_tuple_agree p) by (apply Ha; lia). by apply Hp.
  - intros i j Hi%Hlive Hj%Hlive. rewrite !Hs by (apply Hi || apply Hj). by apply Hp.
  - apply heap_view_ext; [done|]. intros i Hi. apply slot_view_agree; [apply Ha; lia|].
    intros Hd. assert (live p i) as Hli by (by split).
    pose proof (wf_slot_bounds p i Hp Hli). split_and!; [lia..|]. apply Ha; lia.
  - unfold p_next, q. consts. change (8 * 1024 - 8) with 8184.
    assert (sub (patch p 8184 (le_bytes 8 id)) 8184 8 = le_bytes 8 id) as ->.
    { apply (sub_patch_same p 8184 (le_bytes 8 id)); rewrite ?zlen_le_bytes; consts; lia. }
    apply le_val_enc_small. ok_unfold. done.
Qed.
