(* ===== verification/HeapOps.v ===== *)
(** * HeapOps: the operations of heap.c meet the abstract page

    Each theorem takes a frame whose page is loaded and well-formed and
    gives the result of the operation on every branch: the return value,
    the new abstract page, that the invariant is kept, that the chain
    link is untouched, and (implicitly, since the outcome is a [Ret])
    that no access leaves the page. *)
From S2P Require Import Prelude Layout Heap HeapSpec.
From stdpp Require Import prelude gmap list.
From Stdlib Require Import ZArith Lia.
Local Open Scope Z_scope.
Local Open Scope kds_scope.

(** What an operation that changed the page leaves behind. *)
Definition p_free (p : bytes) : Z := upper (p_meta p) - lower (p_meta p).
Definition page_becomes {A} (o : outcome kds_frame A) (a : A) (f : kds_frame) (k : kds_page)
  (p : bytes) (v : list (option htuple)) (free : Z) : Prop :=
  exists q, o = Ret a (live_frame f (dirty k) q) /\ heap_wf q /\ heap_view q = v /\
            p_next q = p_next p /\ p_free q = free.
(** An abstract tuple with a new header. *)
Definition set_xmax (x : Z) (h : kds_heap_tuple_hdr) : kds_heap_tuple_hdr :=
  TupleHdr (xmin h) x (undo_ptr h) (data_len h) (th_flags h) (th_reserved h).

(** A page for the witnesses: one initialised, empty heap page. *)
Definition demo_kp : kds_page := Kpage 7 (PageHdr 0 0 1 (zeros 32)) 1.
Definition demo_frame : kds_frame := Frame 0 KDS_FRAME_VALID 7 (Some demo_kp) (LivePg (zeros 8192)) false.
Definition empty_page : bytes :=
  patch (patch (patch (zeros 8192) 0 (page_hdr_enc (PageHdr 4 0 3 (zeros 32)))) 41
    (meta_enc (HeapMeta 0 49 8184 0))) 8184 (le_bytes 8 0).

Section Ops.
Context `{K : Kernel}.
Implicit Types (f : kds_frame) (k : kds_page) (p : bytes).

Ltac run1 :=
  first [ erewrite bind_ok by (apply ld_meta_live; consts; lia)
        | erewrite bind_ok by (apply ld_slot_live; consts; lia)
        | erewrite bind_ok by (apply ld_tuple_hdr_live; consts; lia)
        | erewrite bind_ok by (apply st_live; autorewrite with kds_len; consts; lia)
        | erewrite bind_ok by (apply set_dirty_live) ]; cbn beta.
Ltac run := repeat run1.

Lemma src_live f k p buf n :
  0 <= n <= zlen buf -> src (Some buf) n (live_frame f k p) = Ret (sub buf 0 n) (live_frame f k p).
Proof. intros. unfold src. destruct (Z.leb_spec n (zlen buf)); [done|lia]. Qed.

(** The optional copy of a payload after a header amounts to one write. *)
Lemma st_payload {A} f k p off h buf n (c : M kds_frame A) :
  zlen p = 8192 -> 0 <= off -> off + 28 + n <= 8192 -> 0 <= n <= zlen buf ->
  (st off (tuple_hdr_enc h) ;;
   (if 0 <? n then d <- src (Some buf) n ;; st (off + KDS_HEAP_TUPLE_HDR_SIZE) d
    else ret tt) ;; c) (live_frame f k p)
  = c (live_frame f k (patch p off (tuple_hdr_enc h ++ sub buf 0 n))).
Proof.
  intros. assert (zlen (sub buf 0 n) = n) by (rewrite zlen_sub; lia).
  mstep. rewrite st_live by (autorewrite with kds_len; consts; lia).
  destruct (Z.ltb_spec 0 n).
  - rewrite src_live by lia. rewrite st_live by (consts; lia). consts.
    rewrite <- (zlen_tuple_hdr_enc h). rewrite patch_app by (autorewrite with kds_len; lia). done.
  - assert (n = 0) as -> by lia. unfold ret. by rewrite app_nil_r.
Qed.

Lemma zlen_heap_view p : heap_wf p -> zlen (heap_view p) = nr_slots (p_meta p).
Proof. intros Hp. pose proof (wf_meta_bounds p Hp). unfold zlen. rewrite length_heap_view. lia. Qed.
Lemma p_free_u16 p : heap_wf p -> u16 (upper (p_meta p) - lower (p_meta p)) = p_free p.
Proof. intros Hp. pose proof (wf_meta_bounds p Hp). apply u16_small. unfold p_free. lia. Qed.

Lemma heap_insert_ex_cases f k p buf n x0 x1 u :
  frame_live f k p -> heap_wf p -> bytes_ok buf -> u16_ok n -> n <= zlen buf ->
  u64_ok x0 -> u64_ok x1 -> u64_ok u ->
  let o := heap_insert_tuple_ex (Some buf) n x0 x1 u f in
  if KDS_PAGE_SIZE <? n then o = Ret (- EINVAL, None) f
  else if p_free p <? 33 + n then o = Ret (- ENOSPC, None) f
  else page_becomes o (0, Some (Tid (kp_id k) (zlen (heap_view p)))) f k p
         (heap_view p ++ [Some (HTuple (TupleHdr x0 x1 u n 0 0) (sub buf 0 n) n)]) (p_free p - (33 + n)).
Proof.
  intros Hf Hp Hb Hn Hnb ??? o. subst o. rewrite <- (frame_live_eq f k p Hf).
  pose proof (wf_len p Hp). pose proof (wf_meta_bounds p Hp) as (? & ? & Hl).
  unfold heap_insert_tuple_ex. rewrite guard_frame_live'.
  rewrite bool_decide_eq_false_2, andb_false_r by done.
  case_test; [done|]. run.
  unfold is_heap_insert_possible. rewrite p_free_u16 by done. ok_unfold. consts.
  rewrite (u16_small (5 + 28 + n)) by lia. unfold p_free.
  replace (5 + 28 + n) with (33 + n) by lia.
  destruct (Z.leb_spec (33 + n) (upper (p_meta p) - lower (p_meta p)));
    destruct (Z.ltb_spec (upper (p_meta p) - lower (p_meta p)) (33 + n)); try lia; [|done].
  cbn [negb]. rewrite !u16_small by lia. fold KDS_HEAP_TUPLE_HDR_SIZE.
  assert (zlen (sub buf 0 n) = n) as Hz by (rewrite zlen_sub; lia).
  rewrite st_payload by (consts; lia). run.
  set (h := TupleHdr x0 x1 u n 0 0). exists (append_page p h (sub buf 0 n)).
  assert (tuple_hdr_ok h) by (ok_unfold; cbn; lia).
  assert (33 + zlen (sub buf 0 n) <= upper (p_meta p) - lower (p_meta p)) by lia.
  split_and!.
  - rewrite zlen_heap_view by done. unfold append_page, append_slot, append_meta.
    rewrite Hz. reflexivity.
  - apply append_wf; auto with kds.
  - rewrite append_view by auto with kds. by rewrite Hz.
  - apply append_next; auto with kds.
  - unfold p_free. rewrite append_p_meta by auto with kds. cbn [append_meta upper lower]. lia.
Qed.

Lemma heap_free_space_live f k p :
  heap_wf p -> heap_free_space (live_frame f k p) = Ret (p_free p) (live_frame f k p).
Proof.
  intros Hp. pose proof (wf_len p Hp). pose proof (wf_meta_bounds p Hp).
  unfold heap_free_space. rewrite guard_frame_live'. run. rewrite p_free_u16 by done.
  case_test; [done|]. unfold p_free. unfold ret. f_equal. lia.
Qed.

(** C1.  [heap_insert_tuple_ex] appends the tuple as a new last slot when
    the free space holds a slot and the tuple; it fails with [-EINVAL] on
    an oversized payload and with [-ENOSPC] on a full page, and then the
    frame is unchanged.  The page stays well-formed, no other tuple and
    not the chain link are changed, and no access leaves the page. *)
Theorem heap_insert_tuple_ex_spec f k p buf n x0 x1 u :
  frame_live f k p -> heap_wf p -> bytes_ok buf -> u16_ok n -> n <= zlen buf ->
  u64_ok x0 -> u64_ok x1 -> u64_ok u ->
  let o := heap_insert_tuple_ex (Some buf) n x0 x1 u f in
  if KDS_PAGE_SIZE <? n then o = Ret (- EINVAL, None) f
  else if p_free p <? 33 + n then o = Ret (- ENOSPC, None) f
  else page_becomes o (0, Some (Tid (kp_id k) (zlen (heap_view p)))) f k p
         (heap_view p ++ [Some (HTuple (TupleHdr x0 x1 u n 0 0) (sub buf 0 n) n)]) (p_free p - (33 + n)).
Proof. apply heap_insert_ex_cases. Qed.

(** The common prefix of the operations on a slot: an index outside of
    the directory or a dead slot is [-ENOENT]. *)
Lemma view_at p i :
  u16_ok i -> heap_wf p ->
  heap_view p !! Z.to_nat i =
  if nr_slots (p_meta p) <=? i then None else Some (slot_view p i).
Proof.
  intros Hi Hp. ok_unfold. pose proof (wf_meta_bounds p Hp). case_test.
  - apply lookup_ge_None. rewrite length_heap_view. lia.
  - apply lookup_heap_view. lia.
Qed.
Lemma on_live_slot {A} f k p i (e : A) (body : kds_heap_slot -> M kds_frame A) :
  heap_wf p -> u16_ok i ->
  (meta <- ld_meta ;;
   if nr_slots meta <=? i then ret e else
   slot <- ld_slot i ;;
   if slot_is_dead slot then ret e else body slot) (live_frame f k p) =
  match heap_view p !! Z.to_nat i with
  | Some (Some _) => body (p_slot p i) (live_frame f k p)
  | _ => Ret e (live_frame f k p)
  end.
Proof.
  intros Hp Hi. rewrite view_at by done. pose proof (wf_len p Hp).
  pose proof (wf_meta_bounds p Hp). ok_unfold. run. case_test; [done|]. run.
  unfold slot_view. by destruct (slot_is_dead _).
Qed.
(** What is known of a slot that holds a tuple. *)
Lemma view_live p i t :
  heap_wf p -> u16_ok i -> heap_view p !! Z.to_nat i = Some (Some t) ->
  let off := sl_offset (p_slot p i) in
  live p i /\ tuple_hdr_ok (ht_hdr t) /\ bytes_ok (ht_data t) /\
  p_tuple p off = ht_hdr t /\ sub p (off + 28) (data_len (ht_hdr t)) = ht_data t /\
  zlen (ht_data t) = data_len (ht_hdr t) /\
  sl_length (p_slot p i) = 28 + ht_cap t /\ data_len (ht_hdr t) <= ht_cap t /\
  49 <= off /\ off + 28 + ht_cap t <= 8184 /\ 0 <= data_len (ht_hdr t).
Proof.
  intros Hp Hi Hv. cbn zeta. rewrite view_at in Hv by done. ok_unfold.
  destruct (Z.leb_spec (nr_slots (p_meta p)) i); [done|]. injection Hv as Hv.
  assert (live p i) as Hl.
  { split; [lia|]. unfold slot_view in Hv. by destruct (slot_is_dead _). }
  pose proof (wf_slot_bounds p i Hp Hl). pose proof (wf_len p Hp).
  pose proof (p_tuple_ok p (sl_offset (p_slot p i)) (wf_bytes p Hp)).
  unfold slot_view in Hv. rewrite (proj2 Hl) in Hv. apply (inj Some) in Hv. subst t.
  cbn [ht_hdr ht_data ht_cap]. consts.
  split_and!; try reflexivity; try assumption; try (ok_unfold; lia).
  - apply bytes_ok_sub, Hp.
  - rewrite zlen_sub; ok_unfold; lia.
Qed.
Lemma replace_becomes {A} (a : A) f k p i t h d :
  heap_wf p -> u16_ok i -> heap_view p !! Z.to_nat i = Some (Some t) ->
  tuple_hdr_ok h -> bytes_ok d -> data_len h = zlen d -> zlen d <= ht_cap t ->
  page_becomes (Ret a (live_frame f (dirty k)
                 (patch p (sl_offset (p_slot p i)) (tuple_hdr_enc h ++ d)))) a f k p
    (<[Z.to_nat i := Some (HTuple h d (ht_cap t))]> (heap_view p)) (p_free p).
Proof.
  intros Hp Hi Hv Hh Hd Hl Hc.
  pose proof (view_live p i t Hp Hi Hv) as (Hlive & _ & _ & _ & _ & _ & Hcap & _).
  eexists; split_and!; [done|..].
  - apply replace_wf; auto; lia.
  - rewrite replace_view by (auto; lia). do 4 f_equal. lia.
  - apply replace_next; auto; lia.
  - unfold p_free. rewrite replace_meta; auto; lia.
Qed.

(** [heap_delete_tuple] stamps [xmax] into the header of a live
    tuple and changes nothing else; on a missing or dead slot it returns
    [-ENOENT] and leaves the frame alone. *)
Theorem heap_delete_tuple_spec f k p i x :
  frame_live f k p -> heap_wf p -> u16_ok i -> u64_ok x ->
  let o := heap_delete_tuple i x f in
  match heap_view p !! Z.to_nat i with
  | Some (Some t) =>
      page_becomes o 0 f k p
        (<[Z.to_nat i := Some (HTuple (set_xmax x (ht_hdr t)) (ht_data t) (ht_cap t))]> (heap_view p)) (p_free p)
  | _ => o = Ret (- ENOENT) f
  end.
Proof.
  intros Hf Hp Hi Hx o. subst o. rewrite <- (frame_live_eq f k p Hf).
  unfold heap_delete_tuple. rewrite guard_frame_live', on_live_slot by done.
  destruct (heap_view p !! Z.to_nat i) as [[t|]|] eqn:Hv; [|done..].
  pose proof (view_live p i t Hp Hi Hv) as (Hl & Hh & Hd & Ht & Hs & Hz & Hcap & Hc & Ho & Hb & Hn).
  pose proof (wf_len p Hp). run. rewrite Ht. fold (set_xmax x (ht_hdr t)).
  rewrite patch_same_tail with (n := data_len (ht_hdr t))
    by (autorewrite with kds_len; consts; lia).
  autorewrite with kds_len. rewrite Hs.
  apply (replace_becomes 0 f k p i t); auto; try lia.
  unfold tuple_hdr_ok in *. cbn. tauto.
Qed.

Lemma heap_overwrite_cases f k p i buf n x0 x1 u :
  frame_live f k p -> heap_wf p -> u16_ok i -> bytes_ok buf -> 0 <= n <= zlen buf ->
  28 + n < 65536 -> u64_ok x0 -> u64_ok x1 -> u64_ok u ->
  let o := heap_overwrite_tuple i (Some buf) n x0 x1 u f in
  match heap_view p !! Z.to_nat i with
  | Some (Some t) =>
      if ht_cap t <? n then o = Ret (- ENOSPC) f
      else page_becomes o 0 f k p
        (<[Z.to_nat i := Some (HTuple (TupleHdr x0 x1 u n 0 0) (sub buf 0 n) (ht_cap t))]> (heap_view p)) (p_free p)
  | _ => o = Ret (- ENOENT) f
  end.
Proof.
  intros Hf Hp Hi Hbuf Hn H28 Hx0 Hx1 Hu o. subst o. rewrite <- (frame_live_eq f k p Hf).
  unfold heap_overwrite_tuple. rewrite guard_frame_live'.
  rewrite bool_decide_eq_false_2, andb_false_r, on_live_slot by done.
  destruct (heap_view p !! Z.to_nat i) as [[t|]|] eqn:Hv; [|done..].
  pose proof (view_live p i t Hp Hi Hv) as (Hl & Hh & Hd & Ht & Hs & Hz & Hcap & Hc & Ho & Hb & Hnn).
  pose proof (wf_len p Hp). consts. rewrite u16_small by lia. rewrite Hcap.
  destruct (Z.ltb_spec (28 + ht_cap t) (28 + n)); destruct (Z.ltb_spec (ht_cap t) n);
    try lia; [done|]. fold KDS_HEAP_TUPLE_HDR_SIZE.
  rewrite st_payload by (consts; lia). run.
  assert (zlen (sub buf 0 n) = n) by (rewrite zlen_sub; lia).
  apply (replace_becomes 0 f k p i t); auto with kds; try (cbn [data_len]; lia).
  ok_unfold; cbn; lia.
Qed.
(** [heap_overwrite_tuple] replaces header and payload of a live slot
    in place when the new payload fits into the space the slot reserves,
    refuses with [-ENOSPC] when it does not, and with [-ENOENT] when there
    is no such tuple.  [28 + n < 65536] excludes the sizes at which the
    16-bit sum in the size test wraps (see [heap_overwrite_wraps]). *)
Theorem heap_overwrite_tuple_spec f k p i buf n x0 x1 u :
  frame_live f k p -> heap_wf p -> u16_ok i -> bytes_ok buf -> 0 <= n <= zlen buf ->
  28 + n < 65536 -> u64_ok x0 -> u64_ok x1 -> u64_ok u ->
  let o := heap_overwrite_tuple i (Some buf) n x0 x1 u f in
  match heap_view p !! Z.to_nat i with
  | Some (Some t) =>
      if ht_cap t <? n then o = Ret (- ENOSPC) f
      else page_becomes o 0 f k p
        (<[Z.to_nat i := Some (HTuple (TupleHdr x0 x1 u n 0 0) (sub buf 0 n) (ht_cap t))]> (heap_view p)) (p_free p)
  | _ => o = Ret (- ENOENT) f
  end.
Proof. apply heap_overwrite_cases. Qed.

Lemma heap_read_cases f k p i size :
  frame_live f k p -> heap_wf p -> u16_ok i -> 0 <= size ->
  let o := heap_read_tuple i (Some size) f in
  match heap_view p !! Z.to_nat i with
  | Some (Some t) =>
      if size <? data_len (ht_hdr t) then o = Ret (- ENOSPC, None) f
      else exists rest, o = Ret (0, Some (ht_hdr t, ht_data t ++ rest)) f /\
           zlen rest = size - data_len (ht_hdr t)
  | _ => o = Ret (- ENOENT, None) f
  end.
Proof.
  intros Hf Hp Hi Hsz o. subst o. rewrite <- (frame_live_eq f k p Hf).
  unfold heap_read_tuple, heap_read_tuple_gen. rewrite guard_frame_live', on_live_slot by done.
  destruct (heap_view p !! Z.to_nat i) as [[t|]|] eqn:Hv; [|done..].
  pose proof (view_live p i t Hp Hi Hv) as (Hl & Hh & Hd & Ht & Hs & Hz & Hcap & Hc & Ho & Hb & Hn).
  pose proof (wf_len p Hp). run. rewrite Ht, andb_true_r.
  case_test; [done|]. unfold bind, ld, ret. cbn [f_page live_frame set_f_page set_f_kp].
  exists (drop (Z.to_nat (data_len (ht_hdr t)))
               (page_read p (sl_offset (p_slot p i) + 28) size)).
  assert (take (Z.to_nat (data_len (ht_hdr t)))
               (page_read p (sl_offset (p_slot p i) + 28) size) = ht_data t) as <-.
  { rewrite <- Hs. apply page_read_take; consts; lia. }
  rewrite take_drop. split; [done|].
  pose proof (zlen_page_read p (sl_offset (p_slot p i) + 28) size Hsz).
  unfold zlen in *. rewrite length_drop. lia.
Qed.
(** C33.  [heap_read_tuple] with a buffer as large as the payload returns
    the stored header and exactly the stored payload; with a smaller
    buffer it fails with [-ENOSPC]; on a missing or dead slot with
    [-ENOENT].  It never changes the frame. *)
Theorem heap_read_tuple_spec f k p i size :
  frame_live f k p -> heap_wf p -> u16_ok i -> 0 <= size ->
  let o := heap_read_tuple i (Some size) f in
  match heap_view p !! Z.to_nat i with
  | Some (Some t) =>
      if size <? data_len (ht_hdr t) then o = Ret (- ENOSPC, None) f
      else exists rest, o = Ret (0, Some (ht_hdr t, ht_data t ++ rest)) f /\
           zlen rest = size - data_len (ht_hdr t)
  | _ => o = Ret (- ENOENT, None) f
  end.
Proof. apply heap_read_cases. Qed.

(** Without a buffer only the header is returned; the capacity is the
    space the slot reserves. *)
Lemma heap_read_hdr f k p i :
  frame_live f k p -> heap_wf p -> u16_ok i ->
  heap_read_tuple i None f =
  match heap_view p !! Z.to_nat i with
  | Some (Some t) => Ret (0, Some (ht_hdr t, [])) f
  | _ => Ret (- ENOENT, None) f
  end.
Proof.
  intros Hf Hp Hi. rewrite <- (frame_live_eq f k p Hf).
  unfold heap_read_tuple, heap_read_tuple_gen. rewrite guard_frame_live', on_live_slot by done.
  destruct (heap_view p !! Z.to_nat i) as [[t|]|] eqn:Hv; [|done..].
  pose proof (view_live p i t Hp Hi Hv) as (Hl & Hh & Hd & Ht & Hs & Hz & Hcap & Hc & Ho & Hb & Hn).
  pose proof (wf_len p Hp). run. by rewrite Ht.
Qed.
Lemma heap_capacity_live f k p i t :
  frame_live f k p -> heap_wf p -> u16_ok i -> heap_view p !! Z.to_nat i = Some (Some t) ->
  heap_slot_capacity i f = Ret (0, Some (ht_cap t)) f.
Proof.
  intros Hf Hp Hi Hv. rewrite <- (frame_live_eq f k p Hf).
  pose proof (view_live p i t Hp Hi Hv) as (Hl & Hh & Hd & Ht & Hs & Hz & Hcap & Hc & Ho & Hb & Hn).
  unfold heap_slot_capacity. rewrite guard_frame_live', on_live_slot, Hv by done.
  unfold ret. do 3 f_equal. rewrite Hcap. consts. rewrite u16_small; lia.
Qed.

Lemma heap_retire_cases f k p i :
  frame_live f k p -> heap_wf p -> u16_ok i ->
  let o := heap_retire_slot i f in
  match heap_view p !! Z.to_nat i with
  | Some _ => page_becomes o 0 f k p (<[Z.to_nat i := None]> (heap_view p)) (p_free p)
  | None => o = Ret (- ENOENT) f
  end.
Proof.
  intros Hf Hp Hi o. subst o. rewrite <- (frame_live_eq f k p Hf), view_at by done.
  pose proof (wf_len p Hp). pose proof (wf_meta_bounds p Hp). ok_unfold.
  unfold heap_retire_slot. rewrite guard_frame_live'. run.
  destruct (Z.leb_spec (nr_slots (p_meta p)) i). { reflexivity. } run.
  set (s := HeapSlot _ _ _).
  assert (slot_ok s).
  { pose proof (p_slot_ok p i (wf_bytes p Hp)) as (? & ? & ?). unfold s; split_and!; cbn;
      try done; try by ok_unfold. by apply is_byte_lor1. }
  assert (slot_is_dead s = true).
  { unfold slot_is_dead, s, KDS_HEAP_SLOT_DEAD; cbn [sl_flags sl_length]. by rewrite land_lor1. }
  eexists; split_and!; [done|..].
  - apply kill_wf; auto; lia.
  - apply kill_view; auto; lia.
  - apply kill_next; auto; lia.
  - unfold p_free. rewrite kill_meta; auto; lia.
Qed.
(** [heap_retire_slot] empties a slot for good: afterwards the slot
    reads as absent, the slots before and after keep their numbers and
    their tuples, and the space of the tuple is not reclaimed; an index
    outside of the directory is [-ENOENT]. *)
Theorem heap_retire_slot_spec f k p i :
  frame_live f k p -> heap_wf p -> u16_ok i ->
  let o := heap_retire_slot i f in
  match heap_view p !! Z.to_nat i with
  | Some _ => page_becomes o 0 f k p (<[Z.to_nat i := None]> (heap_view p)) (p_free p)
  | None => o = Ret (- ENOENT) f
  end.
Proof. apply heap_retire_cases. Qed.

(** [heap_init_page_as] formats any buffer: the result is a
    well-formed page of the given type with no slots, all of the area
    free and no successor, and its header in the buffer is the frame's. *)
Theorem heap_init_page_as_spec f k p type :
  frame_live f k p -> zlen p = KDS_PAGE_SIZE -> bytes_ok p ->
  page_hdr_ok (kp_hdr k) -> 0 <= type < 2 ^ 32 ->
  let k' := set_kp_hdr (or_flags KDS_PAGE_FLAG_INIT (set_ph_type type (kp_hdr k))) k in
  exists q, heap_init_page_as type f = Ret tt (live_frame f k' q) /\
    heap_wf q /\ heap_view q = [] /\ p_free q = 8135 /\ p_next q = 0 /\
    page_hdr_dec q = kp_hdr k'.
Proof.
  intros Hf Hl Hb Hk Ht k'. rewrite <- (frame_live_eq f k p Hf).
  assert (Hok : page_hdr_ok (kp_hdr k')).
  { destruct Hk as (? & ? & Hfl & ? & ?).
    assert (is_byte (Z.lor (ph_flags (kp_hdr k)) KDS_PAGE_FLAG_INIT)) by (by apply lor_byte).
    unfold k', page_hdr_ok. cbn -[Z.lor Z.pow]. auto. }
  assert (Hz : zlen (page_hdr_enc (kp_hdr k')) = 41) by (apply zlen_page_hdr_enc, Hok).
  pose proof (init_page_spec p (page_hdr_enc (kp_hdr k')) Hl Hb Hz (bytes_ok_page_hdr_enc _ Hok))
    as (Hwf & Hv & Hn & Hs & Hm).
  eexists. refine (conj _ (conj Hwf (conj Hv (conj _ (conj Hn _))))).
  - unfold heap_init_page_as. rewrite guard_frame_live'.
    do 2 (erewrite bind_ok by apply kp_mod_live; cbn beta).
    erewrite bind_ok by apply kp_get_live; cbn beta.
    change (set_kp_hdr _ (set_kp_hdr _ k)) with k'.
    do 2 (erewrite bind_ok by (apply st_live; autorewrite with kds_len; rewrite ?Hz; consts; lia); cbn beta).
    rewrite st_live by (autorewrite with kds_len; consts; lia). reflexivity.
  - unfold p_free. by rewrite Hm.
  - rewrite page_hdr_dec_sub, Hs, <- (app_nil_r (page_hdr_enc _)). by apply page_hdr_dec_enc.
Qed.

(** The space test agrees with the insertion: on a well-formed page
    [heap_has_space n] is true exactly when inserting [n] bytes succeeds. *)
Theorem heap_has_space_iff_insert f k p buf x0 :
  frame_live f k p -> heap_wf p -> bytes_ok buf -> u16_ok (zlen buf) -> u64_ok x0 ->
  exists b, heap_has_space (zlen buf) f = Ret b f /\
    (b = true <-> exists tid f', heap_insert_tuple (Some buf) (zlen buf) x0 f = Ret (0, Some tid) f').
Proof.
  intros Hf Hp Hb Hn Hx.
  pose proof (heap_insert_ex_cases f k p buf (zlen buf) x0 0 0 Hf Hp Hb Hn) as Hins.
  specialize (Hins ltac:(lia) Hx ltac:(by ok_unfold) ltac:(by ok_unfold)). cbn zeta in Hins.
  unfold heap_insert_tuple. rewrite <- (frame_live_eq f k p Hf) in *.
  unfold heap_has_space. rewrite guard_frame_live'. revert Hins. case_test.
  - intros ->. exists false. split; [done|]. split; [done|]. by intros (? & ? & ?).
  - erewrite bind_ok by (by apply heap_free_space_live). cbn beta. intros Hins.
    ok_unfold. consts. rewrite u16_small by lia. replace (5 + 28 + zlen buf) with (33 + zlen buf) by lia.
    exists (33 + zlen buf <=? p_free p). split; [done|]. rewrite Z.leb_le.
    destruct (Z.ltb_spec (p_free p) (33 + zlen buf)).
    + rewrite Hins. split; [lia|]. by intros (? & ? & ?).
    + destruct Hins as (q & -> & _). split; [by eauto|lia].
Qed.

(** The chain link is a register of its own: after
    [heap_set_next_page_id] the getter returns the id, and slots, free
    space and the invariant are as before. *)
Theorem heap_next_page_id_spec f k p id :
  frame_live f k p -> heap_wf p -> u64_ok id ->
  exists q, heap_set_next_page_id id f = Ret 0 (live_frame f (dirty k) q) /\
    heap_get_next_page_id (live_frame f (dirty k) q) = Ret id (live_frame f (dirty k) q) /\
    heap_wf q /\ heap_view q = heap_view p /\ p_free q = p_free p.
Proof.
  intros Hf Hp Hid. rewrite <- (frame_live_eq f k p Hf). pose proof (wf_len p Hp) as Hl.
  exists (patch p 8184 (le_bytes 8 id)).
  destruct (link_page_spec p id Hp Hid) as (Hwf & Hv & Hm & Hn).
  split_and!; [| |done..|by unfold p_free; rewrite Hm].
  - unfold heap_set_next_page_id. rewrite guard_frame_live'. by run.
  - unfold heap_get_next_page_id. rewrite guard_frame_live'.
    erewrite bind_ok by (apply ld_live; consts; rewrite ?(wf_len _ Hwf); consts; lia).
    unfold ret. f_equal. exact Hn.
Qed.

(** The size test of [heap_overwrite_tuple] computes [28 + n] in 16
    bits.  For [n >= 65508] the sum wraps below the length of any live
    slot, the test passes, and the copy of the payload leaves the page. *)
Theorem heap_overwrite_wraps f k p i t buf n x0 x1 u :
  frame_live f k p -> heap_wf p -> u16_ok i -> heap_view p !! Z.to_nat i = Some (Some t) ->
  65508 <= n < 65536 -> n <= zlen buf ->
  exists f', heap_overwrite_tuple i (Some buf) n x0 x1 u f = Halt Fault f'.
Proof.
  intros Hf Hp Hi Hv Hn Hnb. rewrite <- (frame_live_eq f k p Hf).
  pose proof (view_live p i t Hp Hi Hv) as (Hl & Hh & Hd & Ht & Hs & Hz & Hcap & Hc & Ho & Hb & Hnn).
  unfold heap_overwrite_tuple. rewrite guard_frame_live'.
  rewrite bool_decide_eq_false_2, andb_false_r, on_live_slot, Hv by done.
  assert (u16 (KDS_HEAP_TUPLE_HDR_SIZE + n) = n - 65508) as ->.
  { unfold u16. symmetry. apply Z.mod_unique with 1; consts; lia. }
  destruct (Z.ltb_spec (sl_length (p_slot p i)) (n - 65508)); [lia|].
  pose proof (wf_len p Hp). run. destruct (Z.ltb_spec 0 n); [|lia].
  eexists. unfold bind. rewrite src_live by lia. unfold st. cbn [f_page live_frame set_f_page set_f_kp].
  assert (zlen (sub buf 0 n) = n) as -> by (rewrite zlen_sub; lia).
  consts. destruct (Z.leb_spec (sl_offset (p_slot p i) + 28 + n) (8 * 1024)); [lia|]. reflexivity.
Qed.

(** [heap_read_tuple] copies [out_buf_size] bytes, not [data_len]:
    with a buffer that reaches beyond the end of the page, the caller
    receives bytes of the memory that follows the page. *)
Theorem heap_read_tuple_overreads f k p i t size :
  frame_live f k p -> heap_wf p -> u16_ok i -> heap_view p !! Z.to_nat i = Some (Some t) ->
  8192 < sl_offset (p_slot p i) + 28 + size ->
  exists pre post, heap_read_tuple i (Some size) f = Ret (0, Some (ht_hdr t, pre ++ k_beyond 0 :: post)) f /\
    zlen (ht_data t) + 8 <= zlen pre.
Proof.
  intros Hf Hp Hi Hv Hsz. rewrite <- (frame_live_eq f k p Hf).
  pose proof (view_live p i t Hp Hi Hv) as (Hl & Hh & Hd & Ht & Hs & Hz & Hcap & Hc & Ho & Hb & Hn).
  pose proof (wf_len p Hp). unfold heap_read_tuple, heap_read_tuple_gen.
  rewrite guard_frame_live', on_live_slot, Hv by done. run. rewrite Ht, andb_true_r.
  consts. destruct (Z.ltb_spec size (data_len (ht_hdr t))); [lia|].
  unfold bind, ld, ret. cbn [f_page live_frame set_f_page set_f_kp].
  set (off := sl_offset (p_slot p i) + 28) in *.
  destruct (page_read_beyond p off size) as (post & E); [consts; lia..|].
  exists (sub p off (8192 - off)), post. rewrite E. split; [done|]. rewrite zlen_sub; lia.
Qed.

End Ops.

(** A tuple address survives the packing used for undo pointers when
    the page id fits into 48 bits. *)
Lemma kds_heap_tid_pack_unpack id slot :
  0 <= id < 2 ^ 48 -> u16_ok slot ->
  kds_heap_tid_unpack (kds_heap_tid_pack (Tid id slot)) = Tid id slot /\
  u64_ok (kds_heap_tid_pack (Tid id slot)).
Proof.
  intros Hid Hs. unfold kds_heap_tid_unpack, kds_heap_tid_pack, u16_ok, u64_ok in *. cbn [tid_page_id tid_slot].
  change 0xFFFFFFFFFFFF with (Z.ones 48). rewrite !Z.land_ones, (Z.mod_small id) by lia.
  rewrite Z.shiftl_mul_pow2, u64_small by lia.
  assert (Z.lor id (slot * 2 ^ 48) = id + slot * 2 ^ 48) as ->.
  { rewrite <- Z.shiftl_mul_pow2 by lia.
    assert (Z.land id (Z.shiftl slot 48) = 0) as Hz.
    { apply Z.bits_inj'. intros n Hn. rewrite Z.land_spec, Z.bits_0.
      destruct (Z_lt_le_dec n 48); [by rewrite Z.shiftl_spec_low, andb_false_r by lia|].
      rewrite Z.bits_above_log2; [done|lia|].
      destruct (Z.eq_dec id 0) as [->|]; [simpl; lia|].
      assert (Z.log2 id < 48) by (apply Z.log2_lt_pow2; lia). lia. }
    by rewrite Z.add_nocarry_lxor, Z.lxor_lor. }
  rewrite Z.mod_add, Z.mod_small, Z.shiftr_div_pow2, Z.div_add, Z.div_small, u16_small by lia.
  split; [done|lia].
Qed.

(** ** Concrete instances *)
Lemma empty_page_ok :
  heap_wf empty_page /\ heap_view empty_page = [] /\ p_meta empty_page = HeapMeta 0 49 8184 0.
Proof.
  destruct (init_page_spec (zeros 8192) (page_hdr_enc (PageHdr 4 0 3 (zeros 32)))) as (?&?&_&_&?);
    try reflexivity; auto with kds.
  - apply bytes_ok_page_hdr_enc. split_and!; try done; cbn; try lia. apply bytes_ok_zeros.
Qed.
Definition demo_hdr : kds_heap_tuple_hdr := TupleHdr 5 0 0 3 0 0.
Definition one_page : bytes := append_page empty_page demo_hdr [1; 2; 3].
Definition demo_tuple : htuple := HTuple demo_hdr [1; 2; 3] 3.
Lemma demo_bytes_ok l : forallb (fun x => (0 <=? x) && (x <? 256)) l = true -> bytes_ok l.
Proof.
  intros H. apply Forall_forall. intros x Hx. unfold is_byte.
  apply forallb_forall with (x := x) in H; [|by apply list_elem_of_In]. lia.
Qed.
Lemma one_page_ok :
  heap_wf one_page /\ heap_view one_page = [Some demo_tuple] /\ p_slot one_page 0 = HeapSlot 8153 31 0.
Proof.
  destruct empty_page_ok as (Hwf & Hv & Hm).
  assert (tuple_hdr_ok demo_hdr) by (ok_unfold; cbn; lia).
  assert (bytes_ok [1; 2; 3]) by (by apply demo_bytes_ok).
  assert (33 + zlen [1; 2; 3] <= upper (p_meta empty_page) - lower (p_meta empty_page))
    by (rewrite Hm; vm_compute; congruence).
  split_and!.
  - by apply append_wf.
  - unfold one_page. by rewrite append_view, Hv.
  - pose proof (append_p_slot empty_page demo_hdr [1; 2; 3] Hwf) as E.
    unfold append_slot in E. rewrite Hm in E. by apply E.
Qed.
Definition demo_live (p : bytes) : kds_frame := live_frame demo_frame demo_kp p.
#[local] Opaque empty_page one_page.
Ltac demo := first
  [ assumption | exact (proj1 one_page_ok) | split; reflexivity | by apply demo_bytes_ok
  | unfold zlen, u16_ok, u64_ok; simpl length; lia ].

Lemma heap_insert_tuple_ex_witness :
  let K := quiet_kernel in
  page_becomes (heap_insert_tuple_ex (Some [9; 8]) 2 6 0 0 (demo_live one_page))
    (0, Some (Tid 7 1)) (demo_live one_page) demo_kp one_page
    [Some demo_tuple; Some (HTuple (TupleHdr 6 0 0 2 0 0) [9; 8] 2)] (p_free one_page - 35).
Proof.
  intros K. destruct one_page_ok as (Hwf & Hv & _).
  pose proof (heap_insert_tuple_ex_spec (demo_live one_page) demo_kp one_page [9; 8] 2 6 0 0) as H.
  rewrite Hv in H. cbn zeta in H.
  replace (p_free one_page <? 33 + 2) with false in H by (by vm_compute).
  apply H; demo.
Defined.

Lemma heap_delete_tuple_witness :
  let K := quiet_kernel in
  page_becomes (heap_delete_tuple 0 9 (demo_live one_page)) 0 (demo_live one_page) demo_kp one_page
    [Some (HTuple (TupleHdr 5 9 0 3 0 0) [1; 2; 3] 3)] (p_free one_page).
Proof.
  intros K. destruct one_page_ok as (Hwf & Hv & _).
  pose proof (heap_delete_tuple_spec (demo_live one_page) demo_kp one_page 0 9) as H.
  rewrite Hv in H. apply H; demo.
Defined.

Lemma heap_overwrite_tuple_witness :
  let K := quiet_kernel in
  page_becomes (heap_overwrite_tuple 0 (Some [7]) 1 6 0 12 (demo_live one_page)) 0
    (demo_live one_page) demo_kp one_page [Some (HTuple (TupleHdr 6 0 12 1 0 0) [7] 3)] (p_free one_page).
Proof.
  intros K. destruct one_page_ok as (Hwf & Hv & _).
  pose proof (heap_overwrite_tuple_spec (demo_live one_page) demo_kp one_page 0 [7] 1 6 0 12) as H.
  rewrite Hv in H. apply H; demo.
Defined.

Lemma heap_read_tuple_witness :
  let K := quiet_kernel in
  exists rest, heap_read_tuple 0 (Some 5) (demo_live one_page) =
    Ret (0, Some (demo_hdr, [1; 2; 3] ++ rest)) (demo_live one_page) /\ zlen rest = 2.
Proof.
  intros K. destruct one_page_ok as (Hwf & Hv & _).
  pose proof (heap_read_tuple_spec (demo_live one_page) demo_kp one_page 0 5) as H.
  rewrite Hv in H. apply H; demo.
Defined.

Lemma heap_retire_slot_witness :
  let K := quiet_kernel in
  page_becomes (heap_retire_slot 0 (demo_live one_page)) 0 (demo_live one_page) demo_kp one_page [None] (p_free one_page).
Proof.
  intros K. destruct one_page_ok as (Hwf & Hv & _).
  pose proof (heap_retire_slot_spec (demo_live one_page) demo_kp one_page 0) as H.
  rewrite Hv in H. apply H; demo.
Defined.

Lemma heap_init_page_as_witness :
  let K := quiet_kernel in
  exists q, heap_init_page_as 4 demo_frame = Ret tt (live_frame demo_frame
      (Kpage 7 (PageHdr 4 0 3 (zeros 32)) 1) q) /\ heap_view q = [] /\ p_free q = 8135.
Proof.
  intros K.
  destruct (heap_init_page_as_spec demo_frame demo_kp (zeros 8192) 4) as (q & H & _ & Hv & Hf & _).
  - done.
  - done.
  - apply bytes_ok_zeros.
  - split_and!; try done; cbn; try lia. apply bytes_ok_zeros.
  - lia.
  - exists q. split_and!; done.
Defined.

Lemma heap_has_space_witness :
  let K := quiet_kernel in
  exists b, heap_has_space 2 (demo_live one_page) = Ret b (demo_live one_page) /\
    (b = true <-> exists tid f', heap_insert_tuple (Some [9; 8]) 2 6 (demo_live one_page) = Ret (0, Some tid) f').
Proof.
  intros K. apply (heap_has_space_iff_insert (demo_live one_page) demo_kp one_page [9; 8] 6); demo.
Defined.

Lemma heap_next_page_id_witness :
  let K := quiet_kernel in
  exists q, heap_set_next_page_id 300 (demo_live one_page) =
    Ret 0 (live_frame (demo_live one_page) (dirty demo_kp) q) /\ heap_view q = [Some demo_tuple].
Proof.
  intros K. destruct one_page_ok as (Hwf & Hv & _).
  destruct (heap_next_page_id_spec (demo_live one_page) demo_kp one_page 300) as (q & ? & _ & _ & ? & _);
    [demo..|]. exists q. rewrite <- Hv. split; assumption.
Defined.

Lemma kds_heap_tid_pack_witness :
  kds_heap_tid_unpack (kds_heap_tid_pack (Tid 300 7)) = Tid 300 7.
Proof. apply (kds_heap_tid_pack_unpack 300 7); demo. Defined.

Lemma heap_overwrite_wraps_witness :
  let K := quiet_kernel in
  exists f', heap_overwrite_tuple 0 (Some (zeros 65510)) 65510 6 0 0 (demo_live one_page) = Halt Fault f'.
Proof.
  intros K. destruct one_page_ok as (Hwf & Hv & _).
  apply (heap_overwrite_wraps (demo_live one_page) demo_kp one_page 0 demo_tuple);
    [demo..|rewrite Hv; reflexivity|lia|rewrite zlen_zeros by lia; lia].
Defined.

Lemma heap_read_tuple_overreads_witness :
  let K := quiet_kernel in
  exists pre post, heap_read_tuple 0 (Some 64) (demo_live one_page) =
    Ret (0, Some (demo_hdr, pre ++ k_beyond 0 :: post)) (demo_live one_page) /\ 3 + 8 <= zlen pre.
Proof.
  intros K. destruct one_page_ok as (Hwf & Hv & Hs).
  apply (heap_read_tuple_overreads (demo_live one_page) demo_kp one_page 0 demo_tuple 64);
    [demo..|rewrite Hv; reflexivity|rewrite Hs; cbn [sl_offset]; lia].
Defined.
