(* ===== verification/TupleStore.v ===== *)
(** * TupleStore: what heap.c promises to its clients

    undo.c, catalog.c and the executors work on heap pages through the
    operations of heap.c.  [TupleStore] states the effect of these
    operations on the abstract page (its list of tuples, its free space,
    its successor); the clients' theorems are proved against it, and
    [heap_tuple_store] discharges it. *)
From S2P Require Import Prelude Layout Heap HeapSpec HeapOps.
From stdpp Require Import prelude gmap list.
From Stdlib Require Import ZArith Lia.
Local Open Scope Z_scope.
Local Open Scope kds_scope.

Class TupleStore `{K : Kernel} : Prop := {
  ts_read_hdr f k p i : frame_live f k p -> heap_wf p -> u16_ok i ->
    heap_read_tuple i None f =
    match heap_view p !! Z.to_nat i with
    | Some (Some t) => Ret (0, Some (ht_hdr t, [])) f
    | _ => Ret (- ENOENT, None) f
    end;
  ts_read f k p i t : frame_live f k p -> heap_wf p -> u16_ok i -> heap_view p !! Z.to_nat i = Some (Some t) ->
    heap_read_tuple i (Some (data_len (ht_hdr t))) f = Ret (0, Some (ht_hdr t, ht_data t)) f;
  ts_capacity f k p i t : frame_live f k p -> heap_wf p -> u16_ok i -> heap_view p !! Z.to_nat i = Some (Some t) ->
    heap_slot_capacity i f = Ret (0, Some (ht_cap t)) f;
  ts_insert f k p buf x0 x1 u : frame_live f k p -> heap_wf p -> bytes_ok buf -> u16_ok (zlen buf) ->
    u64_ok x0 -> u64_ok x1 -> u64_ok u ->
    let o := heap_insert_tuple_ex (Some buf) (zlen buf) x0 x1 u f in
    if KDS_PAGE_SIZE <? zlen buf then o = Ret (- EINVAL, None) f
    else if p_free p <? 33 + zlen buf then o = Ret (- ENOSPC, None) f
    else page_becomes o (0, Some (Tid (kp_id k) (zlen (heap_view p)))) f k p
      (heap_view p ++ [Some (HTuple (TupleHdr x0 x1 u (zlen buf) 0 0) buf (zlen buf))]) (p_free p - (33 + zlen buf));
  ts_overwrite f k p i t buf x0 x1 u : frame_live f k p -> heap_wf p -> u16_ok i ->
    heap_view p !! Z.to_nat i = Some (Some t) -> bytes_ok buf -> zlen buf <= ht_cap t ->
    u64_ok x0 -> u64_ok x1 -> u64_ok u ->
    page_becomes (heap_overwrite_tuple i (Some buf) (zlen buf) x0 x1 u f) 0 f k p
      (<[Z.to_nat i := Some (HTuple (TupleHdr x0 x1 u (zlen buf) 0 0) buf (ht_cap t))]> (heap_view p)) (p_free p);
  ts_retire f k p i t : frame_live f k p -> heap_wf p -> u16_ok i -> heap_view p !! Z.to_nat i = Some (Some t) ->
    page_becomes (heap_retire_slot i f) 0 f k p (<[Z.to_nat i := None]> (heap_view p)) (p_free p);
  ts_read_buf f k p i size : frame_live f k p -> heap_wf p -> u16_ok i -> 0 <= size ->
    match heap_view p !! Z.to_nat i with
    | Some (Some t) =>
        if size <? data_len (ht_hdr t) then heap_read_tuple i (Some size) f = Ret (- ENOSPC, None) f
        else exists rest, heap_read_tuple i (Some size) f = Ret (0, Some (ht_hdr t, ht_data t ++ rest)) f /\
             zlen rest = size - data_len (ht_hdr t)
    | _ => heap_read_tuple i (Some size) f = Ret (- ENOENT, None) f
    end;
  ts_nr_slots f k p : frame_live f k p -> heap_wf p -> heap_nr_slots f = Ret (zlen (heap_view p)) f;
  ts_get_next f k p : frame_live f k p -> heap_wf p -> heap_get_next_page_id f = Ret (p_next p) f;
  ts_set_next f k p id : frame_live f k p -> heap_wf p -> u64_ok id ->
    exists q, heap_set_next_page_id id f = Ret 0 (live_frame f (dirty k) q) /\ heap_wf q /\
      heap_view q = heap_view p /\ p_next q = id /\ p_free q = p_free p;
  ts_init f k p : frame_live f k p -> zlen p = KDS_PAGE_SIZE -> bytes_ok p -> page_hdr_ok (kp_hdr k) ->
    let k' := set_kp_hdr (or_flags KDS_PAGE_FLAG_INIT (set_ph_type KDS_PAGE_TYPE_HEAP (kp_hdr k))) k in
    exists q, heap_init_page f = Ret tt (live_frame f k' q) /\ heap_wf q /\ heap_view q = [] /\
      p_free q = 8135 /\ p_next q = 0 }.

#[export] Instance heap_tuple_store `{K : Kernel} : TupleStore.
Proof.
  split.
  - intros. by eapply heap_read_hdr.
  - intros f k p i t Hf Hp Hi Hv. pose proof (view_live p i t Hp Hi Hv) as (_ & Hh & _).
    pose proof (heap_read_cases f k p i (data_len (ht_hdr t)) Hf Hp Hi ltac:(ok_unfold; lia)) as H.
    cbn zeta in H. rewrite Hv in H. destruct (Z.ltb_spec (data_len (ht_hdr t)) (data_len (ht_hdr t))); [lia|].
    destruct H as (rest & -> & Hr). destruct rest; [by rewrite app_nil_r|].
    rewrite zlen_cons in Hr. pose proof (zlen_nonneg rest). lia.
  - intros. by eapply heap_capacity_live.
  - intros f k p buf x0 x1 u Hf Hp Hb Hn Hx0 Hx1 Hu.
    pose proof (heap_insert_ex_cases f k p buf (zlen buf) x0 x1 u) as H. rewrite sub_full in H. apply H; auto; lia.
  - intros f k p i t buf x0 x1 u Hf Hp Hi Hv Hb Hc Hx0 Hx1 Hu.
    pose proof (view_live p i t Hp Hi Hv) as (_ & _ & _ & _ & _ & _ & _ & _ & Hlo & Hhi & _).
    pose proof (zlen_nonneg buf) as Hz.
    pose proof (heap_overwrite_cases f k p i buf (zlen buf) x0 x1 u) as H. rewrite sub_full, Hv in H. cbn zeta in H.
    destruct (Z.ltb_spec (ht_cap t) (zlen buf)); [lia|]. apply H; auto; lia.
  - intros f k p i t Hf Hp Hi Hv. pose proof (heap_retire_cases f k p i Hf Hp Hi) as H. cbn zeta in H. by rewrite Hv in H.
  - intros. by apply (heap_read_cases f k p).
  - intros f k p Hf Hp. rewrite <- (frame_live_eq f k p Hf). unfold heap_nr_slots. rewrite guard_frame_live'.
    erewrite bind_ok by (apply ld_meta_live, Hp). unfold ret. by rewrite zlen_heap_view.
  - intros f k p Hf Hp. rewrite <- (frame_live_eq f k p Hf). unfold heap_get_next_page_id. rewrite guard_frame_live'.
    by erewrite bind_ok by (apply ld_live; consts; rewrite ?(wf_len _ Hp); consts; lia).
  - intros f k p id Hf Hp Hid. rewrite <- (frame_live_eq f k p Hf). pose proof (wf_len p Hp) as Hl.
    exists (patch p 8184 (le_bytes 8 id)). destruct (link_page_spec p id Hp Hid) as (Hwf & Hv & Hm & Hn).
    split_and!; [|done..|by unfold p_free; rewrite Hm].
    unfold heap_set_next_page_id. rewrite guard_frame_live'.
    erewrite bind_ok by (apply st_live; rewrite zlen_le_bytes; consts; lia). reflexivity.
  - intros f k p Hf Hz Hb Hh k'. destruct (heap_init_page_as_spec f k p KDS_PAGE_TYPE_HEAP Hf Hz Hb Hh) as (q & E & H1 & H2 & H3 & H4 & _);
      [unfold KDS_PAGE_TYPE_HEAP; lia|]. by exists q.
Qed.
