(* ===== verification/Types.v ===== *)
(** * Types: the scalar type registry (kernel/kds/types.c, kds_types.h)

    A C string is the list of its characters, without the terminating
    NUL.  An encoder returns its return value together with the bytes it
    stored at the start of [buf] ([*out_len] is their number on success);
    a decoder returns its return value together with the characters it
    stored in [out].  [kstrtoll] is a Linux service: a parameter, with its
    documented behaviour as laws. *)
From S2P Require Import Prelude.
From stdpp Require Import prelude gmap list strings.
From Stdlib Require Import ZArith Lia.
From Stdlib Require String Ascii.
Local Open Scope Z_scope.
Local Open Scope list_scope.
Local Open Scope kds_scope.

(** ** C strings *)
Definition chr (c : Ascii.ascii) : Z := Z.of_N (Ascii.N_of_ascii c).
Definition cstr (s : String.string) : bytes := map chr (String.list_ascii_of_string s).
(** Reading past the last character yields the NUL. *)
Definition at_ (s : bytes) (i : nat) : Z := nth i s 0.
Definition is_digit (c : Z) : bool := (48 <=? c) && (c <=? 57).

(** [scnprintf]: at most [size - 1] characters are stored, and counted. *)
Definition scnprintf (out_size : Z) (s : bytes) : Z * bytes :=
  let t := take (Z.to_nat (out_size - 1)) s in (zlen t, t).
(** The digits printed by ["%lld"]; 20 digits hold any 64-bit value. *)
Fixpoint dec_digits (fuel : nat) (z : Z) : bytes :=
  match fuel with
  | O => []
  | S fuel => if z <? 10 then [48 + z] else dec_digits fuel (z / 10) ++ [48 + z mod 10]
  end.
Definition fmt_lld (v : Z) : bytes :=
  if v <? 0 then 45 :: dec_digits 20 (- v) else dec_digits 20 v.
(** ["%0*lld"]: padding with zeros to the width, after the sign. *)
Definition fmt_0lld (width : nat) (v : Z) : bytes :=
  let d := dec_digits 20 (Z.abs v) in
  let sign := if v <? 0 then [45] else [] in
  (sign ++ replicate (width - length sign - length d) 48 ++ d)%list.

(** ** [kstrtoll] (include/linux/kstrtox.h) *)
Class Kstrtoll := kstrtoll : bytes -> Z * Z.
Class KstrtollLaws `{Kstrtoll} := {
  (** a decimal number in range is accepted with its value *)
  kstrtoll_dec : forall v, - 2 ^ 63 <= v < 2 ^ 63 -> kstrtoll (fmt_lld v) = (0, v);
  (** on success the value is a [long long]; failures are negative *)
  kstrtoll_range : forall s r v, kstrtoll s = (r, v) ->
    r < 0 \/ (r = 0 /\ - 2 ^ 63 <= v < 2 ^ 63) }.

Definition KDS_DECIMAL_SCALE : nat := 4.
Definition KDS_DECIMAL_SCALE_MUL : Z := 10000.
Definition KDS_TYPE_INT8 : Z := 0.
Definition KDS_TYPE_INT16 : Z := 1.
Definition KDS_TYPE_INT32 : Z := 2.
Definition KDS_TYPE_INT64 : Z := 3.
Definition KDS_TYPE_FLOAT : Z := 4.
Definition KDS_TYPE_DECIMAL : Z := 5.
Definition KDS_TYPE_BOOL : Z := 6.
Definition KDS_TYPE_VARCHAR : Z := 7.
Definition KDS_TYPE_CHAR : Z := 8.

(** ** Hexadecimal helpers *)
Definition hex_nibble (c : Z) : Z :=
  if (48 <=? c) && (c <=? 57) then c - 48 else
  if (97 <=? c) && (c <=? 102) then c - 97 + 10 else
  if (65 <=? c) && (c <=? 70) then c - 65 + 10 else -1.

Fixpoint parse_hex_loop (str : bytes) (n : nat) : Z * bytes :=
  match n with
  | O => (0, [])
  | S n =>
      let hi := hex_nibble (at_ str 0) in
      let lo := hex_nibble (at_ str 1) in
      if (hi <? 0) || (lo <? 0) then (- EINVAL, []) else
      let '(r, out) := parse_hex_loop (drop 2 str) n in
      (r, u8 (Z.lor (Z.shiftl hi 4) lo) :: out)
  end.
Definition parse_hex_bytes (str : bytes) (out_len : nat) : Z * bytes :=
  if negb (zlen str =? Z.of_nat out_len * 2) then (- EINVAL, []) else parse_hex_loop str out_len.

Definition hexdigits : bytes := cstr "0123456789abcdef"%string.
Definition format_hex_bytes (data : bytes) : bytes :=
  flat_map (fun b => [at_ hexdigits (Z.to_nat (Z.shiftr b 4));
                      at_ hexdigits (Z.to_nat (Z.land b 0xf))]) data.

(** ** Integers *)
Section Ints.
Context `{KS : Kstrtoll}.

(** [memcpy(&x, buf, w)] into a signed [w]-byte variable. *)
Definition rd_signed (w : nat) (buf : bytes) : Z := to_signed (8 * Z.of_nat w) (le_val (take w buf)).

Definition encode_int_generic (str_val : bytes) (buf_size width min max : Z) : Z * bytes :=
  if buf_size <? width then (- ENOSPC, []) else
  let '(ret, v) := kstrtoll str_val in
  if negb (ret =? 0) then (ret, []) else
  if (v <? min) || (max <? v) then (- ERANGE, []) else
  if width =? 1 then (0, le_bytes 1 v) else
  if width =? 2 then (0, le_bytes 2 v) else
  if width =? 4 then (0, le_bytes 4 v) else
  if width =? 8 then (0, le_bytes 8 v) else (- EINVAL, []).

Definition decode_int_generic (buf : bytes) (len out_size width : Z) : Z * bytes :=
  if negb (len =? width) then (- EINVAL, []) else
  if width =? 1 then scnprintf out_size (fmt_lld (rd_signed 1 buf)) else
  if width =? 2 then scnprintf out_size (fmt_lld (rd_signed 2 buf)) else
  if width =? 4 then scnprintf out_size (fmt_lld (rd_signed 4 buf)) else
  if width =? 8 then scnprintf out_size (fmt_lld (rd_signed 8 buf)) else (- EINVAL, []).

Definition compare_int64_generic (a : bytes) (a_len : Z) (b : bytes) (b_len width : Z) : Z :=
  if negb (a_len =? width) || negb (b_len =? width) then 0 else
  let rd x := if width =? 1 then rd_signed 1 x else if width =? 2 then rd_signed 2 x else
              if width =? 4 then rd_signed 4 x else if width =? 8 then rd_signed 8 x else 0 in
  let av := rd a in let bv := rd b in
  (if bv <? av then 1 else 0) - (if av <? bv then 1 else 0).

Definition encode_int8 s bs := encode_int_generic s bs 1 (-128) 127.
Definition decode_int8 b l os := decode_int_generic b l os 1.
Definition encode_int16 s bs := encode_int_generic s bs 2 (-32768) 32767.
Definition decode_int16 b l os := decode_int_generic b l os 2.
Definition encode_int32 s bs := encode_int_generic s bs 4 (- 2 ^ 31) (2 ^ 31 - 1).
Definition decode_int32 b l os := decode_int_generic b l os 4.
Definition encode_int64 s bs := encode_int_generic s bs 8 (- 2 ^ 63) (2 ^ 63 - 1).
Definition decode_int64 b l os := decode_int_generic b l os 8.
Definition compare_int8 a al b bl := compare_int64_generic a al b bl 1.
Definition compare_int16 a al b bl := compare_int64_generic a al b bl 2.
Definition compare_int32 a al b bl := compare_int64_generic a al b bl 4.
Definition compare_int64 a al b bl := compare_int64_generic a al b bl 8.

(** ** Booleans, character strings, float bit patterns *)
Definition encode_bool (str_val : bytes) (buf_size : Z) : Z * bytes :=
  if buf_size <? 1 then (- ENOSPC, []) else
  (0, [if bool_decide (str_val = cstr "1"%string) || bool_decide (str_val = cstr "true"%string) then 1 else 0]).
Definition decode_bool (buf : bytes) (len out_size : Z) : Z * bytes :=
  if negb (len =? 1) then (- EINVAL, []) else
  scnprintf out_size (if negb (at_ buf 0 =? 0) then cstr "true"%string else cstr "false"%string).

Definition encode_varchar (str_val : bytes) (buf_size : Z) : Z * bytes :=
  let len := zlen str_val in
  if (65535 <? len) || (buf_size <? len) then (- ENOSPC, []) else (0, str_val).
Definition decode_varchar (buf : bytes) (len out_size : Z) : Z * bytes :=
  if out_size <=? len then (- ENOSPC, []) else (len, sub buf 0 len).

Definition encode_float (str_val : bytes) (buf_size : Z) : Z * bytes :=
  if buf_size <? 4 then (- ENOSPC, []) else
  let '(r, out) := parse_hex_bytes str_val 4 in
  if negb (r =? 0) then (- EINVAL, out) else (0, out).
Definition decode_float (buf : bytes) (len out_size : Z) : Z * bytes :=
  if negb (len =? 4) then (- EINVAL, []) else
  if out_size <? 9 then (- ENOSPC, []) else (8, format_hex_bytes (sub buf 0 4)).

(** ** Fixed-point decimals *)
(** The loop that accumulates the digits at [p], in [s64]. *)
Fixpoint scan_int (p : bytes) (v : Z) : Z * bytes :=
  match p with
  | c :: r => if is_digit c then scan_int r (s64 (v * 10 + (c - 48))) else (v, p)
  | [] => (v, [])
  end.
(** The same, at most [n] digits; the digits left of [n] are returned. *)
Fixpoint scan_frac (p : bytes) (v : Z) (n : nat) : Z * nat * bytes :=
  match p, n with
  | c :: r, S m => if is_digit c then scan_frac r (s64 (v * 10 + (c - 48))) m else (v, n, p)
  | _, _ => (v, n, p)
  end.
Fixpoint skip_digits (p : bytes) : bytes :=
  match p with
  | c :: r => if is_digit c then skip_digits r else p
  | [] => []
  end.
Fixpoint scale_up (v : Z) (n : nat) : Z :=
  match n with O => v | S n => scale_up (s64 (v * 10)) n end.

Definition encode_decimal (str_val : bytes) (buf_size : Z) : Z * bytes :=
  if buf_size <? 8 then (- ENOSPC, []) else
  let neg := at_ str_val 0 =? 45 in
  let p := if neg || (at_ str_val 0 =? 43) then drop 1 str_val else str_val in
  match p with
  | [] => (- EINVAL, [])
  | _ =>
    let '(int_part, p) := scan_int p 0 in
    let '(frac_part, todo, p) :=
      if at_ p 0 =? 46
      then let '(f, todo, p) := scan_frac (drop 1 p) 0 KDS_DECIMAL_SCALE in (f, todo, skip_digits p)
      else (0, KDS_DECIMAL_SCALE, p) in
    match p with
    | _ :: _ => (- EINVAL, [])
    | [] =>
      let frac_part := scale_up frac_part todo in
      let result := s64 (int_part * KDS_DECIMAL_SCALE_MUL + frac_part) in
      let result := if neg then s64 (- result) else result in
      (0, le_bytes 8 result)
    end
  end.

(** C's [/] and [%] truncate towards zero. *)
Definition decode_decimal (buf : bytes) (len out_size : Z) : Z * bytes :=
  if negb (len =? 8) then (- EINVAL, []) else
  let v := rd_signed 8 buf in
  let neg := v <? 0 in
  let v := if neg then s64 (- v) else v in
  let int_part := Z.quot v KDS_DECIMAL_SCALE_MUL in
  let frac_part := Z.rem v KDS_DECIMAL_SCALE_MUL in
  scnprintf out_size
    ((if neg then [45] else []) ++ fmt_lld int_part ++ [46] ++ fmt_0lld KDS_DECIMAL_SCALE frac_part)%list.

(** ** The registry *)
Record kds_type_desc := TypeDesc {
  type_val : Z; td_name : bytes; fixed_len : Z;
  encode : bytes -> Z -> Z * bytes;
  decode : bytes -> Z -> Z -> Z * bytes;
  compare : option (bytes -> Z -> bytes -> Z -> Z) }.

Definition kds_type_table : list kds_type_desc := [
  TypeDesc KDS_TYPE_INT8    (cstr "int8"%string)    1 encode_int8    decode_int8    (Some compare_int8);
  TypeDesc KDS_TYPE_INT16   (cstr "int16"%string)   2 encode_int16   decode_int16   (Some compare_int16);
  TypeDesc KDS_TYPE_INT32   (cstr "int32"%string)   4 encode_int32   decode_int32   (Some compare_int32);
  TypeDesc KDS_TYPE_INT64   (cstr "int64"%string)   8 encode_int64   decode_int64   (Some compare_int64);
  TypeDesc KDS_TYPE_FLOAT   (cstr "float"%string)   4 encode_float   decode_float   None;
  TypeDesc KDS_TYPE_DECIMAL (cstr "decimal"%string) 8 encode_decimal decode_decimal None;
  TypeDesc KDS_TYPE_BOOL    (cstr "bool"%string)    1 encode_bool    decode_bool    None;
  TypeDesc KDS_TYPE_VARCHAR (cstr "varchar"%string) 0 encode_varchar decode_varchar None;
  TypeDesc KDS_TYPE_CHAR    (cstr "char"%string)    0 encode_varchar decode_varchar None ].

Definition kds_type_lookup_by_name (name : option bytes) : option kds_type_desc :=
  match name with
  | None => None
  | Some n => find (fun d => bool_decide (td_name d = n)) kds_type_table
  end.
Definition kds_type_lookup_by_val (v : Z) : option kds_type_desc :=
  find (fun d => type_val d =? v) kds_type_table.
End Ints.
