(* ===== verification/TypesSpec.v ===== *)
(** * TypesSpec: round trips and order of the scalar encodings

    What a caller of types.c relies on: a value that was encoded decodes
    to the same text, stored bytes survive decoding and encoding, the
    comparison of encoded integers is the order of the integers, and the
    registry finds each type by name and by number. *)
From S2P Require Import Prelude Types.
From stdpp Require Import prelude gmap list strings.
From Stdlib Require Import ZArith Lia.
Local Open Scope Z_scope.
Local Open Scope list_scope.

(** ** Decimal digits *)
Lemma length_dec_digits f z : (length (dec_digits f z) <= f)%nat.
Proof.
  revert z; induction f; intros z; simpl; [lia|]. case_test; simpl; [lia|].
  rewrite length_app. simpl. pose proof (IHf (z / 10)). lia.
Qed.

(** Reading digits back, without and with the wrap-around of [s64]. *)
Fixpoint scan_nat (p : bytes) (v : Z) : Z * bytes :=
  match p with
  | c :: r => if is_digit c then scan_nat r (v * 10 + (c - 48)) else (v, p)
  | [] => (v, [])
  end.

Lemma is_digit_of z : 0 <= z < 10 -> is_digit (48 + z) = true.
Proof. intros. unfold is_digit. apply andb_true_intro; split; lia. Qed.
Lemma s64_id z : - 2 ^ 63 <= z < 2 ^ 63 -> s64 z = z.
Proof. intros. apply to_signed_id; simpl; lia. Qed.
Lemma div10 z : 10 <= z -> z / 10 * 10 + (48 + z mod 10 - 48) = z.
Proof. intros. pose proof (Z.div_mod z 10). lia. Qed.

Lemma scan_nat_digits f z r :
  0 <= z < 10 ^ Z.of_nat f -> (0 < f)%nat ->
  scan_nat (dec_digits f z ++ r) 0 = scan_nat r z.
Proof.
  revert z r; induction f as [|f IH]; intros z r Hz Hf; [lia|]. cbn [dec_digits].
  rewrite Nat2Z.inj_succ, Z.pow_succ_r in Hz by lia. case_test.
  - cbn [app scan_nat]. rewrite is_digit_of by lia. f_equal. lia.
  - rewrite <- app_assoc. destruct f as [|f]; [simpl in Hz; lia|].
    assert (0 <= z / 10 < 10 ^ Z.of_nat (S f))
      by (split; [apply Z.div_pos; lia|apply Z.div_lt_upper_bound; lia]).
    rewrite IH by lia.
    cbn [app scan_nat]. rewrite is_digit_of by (apply Z.mod_pos_bound; lia).
    by rewrite div10 by lia.
Qed.

Lemma scan_int_digits f z r :
  0 <= z < 10 ^ Z.of_nat f -> z < 2 ^ 63 -> (0 < f)%nat ->
  scan_int (dec_digits f z ++ r) 0 = scan_int r z.
Proof.
  revert z r; induction f as [|f IH]; intros z r Hz Hb Hf; [lia|]. cbn [dec_digits].
  rewrite Nat2Z.inj_succ, Z.pow_succ_r in Hz by lia. case_test.
  - cbn [app scan_int]. rewrite is_digit_of by lia. f_equal. rewrite s64_id; lia.
  - rewrite <- app_assoc. destruct f as [|f]; [simpl in Hz; lia|].
    assert (0 <= z / 10 < 10 ^ Z.of_nat (S f))
      by (split; [apply Z.div_pos; lia|apply Z.div_lt_upper_bound; lia]).
    rewrite IH; [|lia|apply Z.div_lt_upper_bound; lia|lia].
    cbn [app scan_int]. rewrite is_digit_of by (apply Z.mod_pos_bound; lia).
    rewrite div10, s64_id by lia. done.
Qed.

Lemma dec_digits_head f z :
  0 <= z -> (0 < f)%nat -> exists c r, dec_digits f z = c :: r /\ is_digit c = true.
Proof.
  revert z; induction f as [|f IH]; intros z Hz Hf; [lia|]. cbn [dec_digits]. case_test.
  - eexists _, _. split; [done|]. apply is_digit_of. lia.
  - destruct f as [|f].
    + eexists _, _. split; [done|]. apply is_digit_of, Z.mod_pos_bound. lia.
    + destruct (IH (z / 10)) as (c & r & -> & Hc); [apply Z.div_pos; lia|lia|].
      eexists _, _. split; [done|]. done.
Qed.

(** ** A [kstrtoll] that can be run *)
#[export] Instance kstrtoll_ref : Kstrtoll := fun s =>
  let neg := at_ s 0 =? 45 in
  let p := if neg || (at_ s 0 =? 43) then drop 1 s else s in
  if negb (is_digit (at_ p 0)) then (- EINVAL, 0) else
  let '(v, p) := scan_nat p 0 in
  let v := if neg then - v else v in
  if negb (bool_decide (p = []) || bool_decide (p = [10])) then (- EINVAL, 0) else
  if (v <? - 2 ^ 63) || (2 ^ 63 - 1 <? v) then (- ERANGE, 0) else (0, v).

#[export] Instance kstrtoll_ref_laws : @KstrtollLaws kstrtoll_ref.
Proof.
  split.
  - intros v Hv. unfold kstrtoll, kstrtoll_ref, fmt_lld.
    assert (0 <= Z.abs v < 10 ^ Z.of_nat 20) as Ha by (simpl (10 ^ _); lia).
    destruct (dec_digits_head 20 (Z.abs v)) as (c & r & E & Hc); [lia..|].
    pose proof (scan_nat_digits 20 (Z.abs v) [] Ha ltac:(lia)) as Hs.
    rewrite app_nil_r, E in Hs.
    assert (c <> 45 /\ c <> 43) as [H45 H43] by (unfold is_digit in Hc; lia).
    destruct (Z.ltb_spec v 0).
    + replace (Z.abs v) with (- v) in * by lia. rewrite E. cbn [at_ nth Z.eqb Pos.eqb orb drop].
      simpl (at_ (45 :: c :: r) 0 =? 45). cbn [orb drop]. unfold at_; cbn [nth]. rewrite Hc. cbn [negb].
      rewrite Hs. cbn [scan_nat]. rewrite bool_decide_eq_true_2 by done. cbn [orb negb].
      rewrite Z.opp_involutive.
      destruct (Z.ltb_spec v (- 2 ^ 63)), (Z.ltb_spec (2 ^ 63 - 1) v); try lia. done.
    + replace (Z.abs v) with v in * by lia. rewrite E. unfold at_; cbn [nth].
      destruct (Z.eqb_spec c 45), (Z.eqb_spec c 43); try lia. cbn [orb nth]. rewrite Hc. cbn [negb].
      rewrite Hs. cbn [scan_nat]. rewrite bool_decide_eq_true_2 by done. cbn [orb negb].
      destruct (Z.ltb_spec v (- 2 ^ 63)), (Z.ltb_spec (2 ^ 63 - 1) v); try lia. done.
  - intros s r v. unfold kstrtoll, kstrtoll_ref, EINVAL, ERANGE.
    case_test; [intros [= <- <-]; lia|]. destruct (scan_nat _ 0) as [w q].
    case_test; [intros [= <- <-]; lia|].
    case_test; intros [= <- <-]; [lia|]. right. split; [done|].
    match goal with H : (_ || _) = false |- _ => apply orb_false_iff in H as [H1 H2] end. lia.
Qed.

(** ** Signed loads and stores *)
Lemma pow256 w : 256 ^ Z.of_nat w = 2 ^ (8 * Z.of_nat w).
Proof. change 256 with (2 ^ 8). rewrite <- Z.pow_mul_r by lia. done. Qed.
Lemma rd_signed_enc w v r :
  (0 < w)%nat -> - 2 ^ (8 * Z.of_nat w - 1) <= v < 2 ^ (8 * Z.of_nat w - 1) ->
  rd_signed w (le_bytes w v ++ r) = v.
Proof.
  intros. unfold rd_signed. rewrite take_app_length' by (by rewrite length_le_bytes).
  rewrite le_val_enc, pow256, to_signed_mod by lia. apply to_signed_id; lia.
Qed.
Lemma to_signed_le_bytes w z : (0 < w)%nat -> le_bytes w (to_signed (8 * Z.of_nat w) z) = le_bytes w z.
Proof.
  intros Hw. assert (forall n a b, a mod 256 ^ Z.of_nat n = b mod 256 ^ Z.of_nat n -> le_bytes n a = le_bytes n b) as H.
  { induction n as [|n IH]; [done|]; intros a b E. cbn [le_bytes].
    rewrite Nat2Z.inj_succ, Z.pow_succ_r in E by lia.
    rewrite !Z.rem_mul_r in E by (try apply Z.pow_pos_nonneg; lia).
    pose proof (Z.mod_pos_bound a 256 ltac:(lia)). pose proof (Z.mod_pos_bound b 256 ltac:(lia)).
    assert (a mod 256 = b mod 256) by lia. f_equal; [done|]. apply IH. lia. }
  apply H. rewrite pow256. unfold to_signed.
  assert (2 ^ (8 * Z.of_nat w) <> 0) by (apply Z.pow_nonzero; lia).
  case_test; [by apply Z.mod_mod|].
  replace (z mod 2 ^ (8 * Z.of_nat w) - 2 ^ (8 * Z.of_nat w)) with
    (z mod 2 ^ (8 * Z.of_nat w) + (-1) * 2 ^ (8 * Z.of_nat w)) by lia.
  by rewrite Z.mod_add, Z.mod_mod.
Qed.
Lemma le_bytes_rd_signed w b :
  (0 < w)%nat -> length b = w -> bytes_ok b -> le_bytes w (rd_signed w b) = b.
Proof.
  intros Hw Hl Hb. unfold rd_signed. rewrite to_signed_le_bytes by done.
  rewrite take_ge by lia. rewrite <- Hl. by apply le_bytes_dec.
Qed.
Lemma rd_signed_range w b :
  (0 < w)%nat -> - 2 ^ (8 * Z.of_nat w - 1) <= rd_signed w b < 2 ^ (8 * Z.of_nat w - 1).
Proof. intros. apply to_signed_range. lia. Qed.

Lemma scnprintf_fits size s : zlen s < size -> scnprintf size s = (zlen s, s).
Proof. intros. unfold scnprintf. unfold zlen in *. rewrite take_ge by lia. done. Qed.
Lemma zlen_fmt_lld v : zlen (fmt_lld v) <= 21.
Proof.
  unfold fmt_lld, zlen.
  pose proof (length_dec_digits 20 v). pose proof (length_dec_digits 20 (- v)).
  case_test; cbn [length]; lia.
Qed.

(** The widths of the integer types. *)
Definition int_width (w : Z) : Prop := w = 1 \/ w = 2 \/ w = 4 \/ w = 8.
Definition int_min (w : Z) : Z := - 2 ^ (8 * w - 1).
Definition int_max (w : Z) : Z := 2 ^ (8 * w - 1) - 1.
Ltac by_width H := destruct H as [-> | [-> | [-> | ->]]].

Lemma int_width_nat w : int_width w -> Z.of_nat (Z.to_nat w) = w.
Proof. intros Hw. by_width Hw; done. Qed.

Section IntThms.
Context `{KL : KstrtollLaws}.

Lemma encode_int_ok s v bs w :
  int_width w -> kstrtoll s = (0, v) -> int_min w <= v <= int_max w -> w <= bs ->
  encode_int_generic s bs w (int_min w) (int_max w) = (0, le_bytes (Z.to_nat w) v).
Proof.
  intros Hw Hk Hv Hbs. unfold encode_int_generic. rewrite Hk.
  destruct (Z.ltb_spec bs w); [lia|]. cbn [Z.eqb negb].
  destruct (Z.ltb_spec v (int_min w)), (Z.ltb_spec (int_max w) v); try lia. cbn [orb].
  by_width Hw; done.
Qed.
Lemma decode_int_ok b w os :
  int_width w -> 21 < os ->
  decode_int_generic b w os w =
    (zlen (fmt_lld (rd_signed (Z.to_nat w) b)), fmt_lld (rd_signed (Z.to_nat w) b)).
Proof.
  intros Hw Hos. unfold decode_int_generic. rewrite Z.eqb_refl. cbn [negb].
  pose proof (zlen_fmt_lld (rd_signed (Z.to_nat w) b)).
  by_width Hw; cbn [Z.eqb Pos.eqb]; apply scnprintf_fits; lia.
Qed.

(** Integer columns: text that denotes a number in the range of the
    type is stored in exactly the width of the type and decodes to the
    canonical text of the same number; a number outside of the range is
    [-ERANGE], a text that is no number keeps the error of [kstrtoll],
    and a buffer that is too small is [-ENOSPC]. *)
Theorem encode_decode_int s bs os w :
  int_width w -> 21 < os ->
  let r := encode_int_generic s bs w (int_min w) (int_max w) in
  if bs <? w then r = (- ENOSPC, []) else
  let '(e, v) := kstrtoll s in
  if negb (e =? 0) then r = (e, []) /\ e < 0
  else if (int_min w <=? v) && (v <=? int_max w)
  then exists b, r = (0, b) /\ zlen b = w /\
       decode_int_generic b w os w = (zlen (fmt_lld v), fmt_lld v)
  else r = (- ERANGE, []).
Proof.
  intros Hw Hos r. subst r. case_test.
  { unfold encode_int_generic. by destruct (Z.ltb_spec bs w); [|lia]. }
  destruct (kstrtoll s) as [e v] eqn:Hk.
  destruct (Z.eqb_spec e 0) as [->|He]; cbn [negb].
  - case_test.
    + apply andb_true_iff in Heqb as [H1 H2].
      apply Z.leb_le in H1, H2. eexists. split; [by apply encode_int_ok; [..|lia]|].
      assert (rd_signed (Z.to_nat w) (le_bytes (Z.to_nat w) v) = v) as Hr.
      { rewrite <- (app_nil_r (le_bytes _ _)). unfold int_min, int_max in *.
        apply rd_signed_enc; rewrite ?int_width_nat by done; [by_width Hw; lia|lia]. }
      rewrite zlen_le_bytes, int_width_nat, decode_int_ok, Hr by done. done.
    + unfold encode_int_generic. rewrite Hk. destruct (Z.ltb_spec bs w); [lia|]. cbn [Z.eqb negb].
      apply andb_false_iff in Heqb.
      destruct (Z.ltb_spec v (int_min w)), (Z.ltb_spec (int_max w) v); try lia; done.
  - unfold encode_int_generic. rewrite Hk. destruct (Z.ltb_spec bs w); [lia|].
    destruct (Z.eqb_spec e 0); [lia|]. split; [done|].
    destruct (kstrtoll_range s e v Hk); lia.
Qed.

(** Stored integers survive: any [w] bytes decode to a text whose
    encoding is those bytes. *)
Theorem decode_encode_int b bs os w :
  int_width w -> 21 < os -> w <= bs -> zlen b = w -> bytes_ok b ->
  encode_int_generic (snd (decode_int_generic b w os w)) bs w (int_min w) (int_max w) = (0, b).
Proof.
  intros Hw Hos Hbs Hl Hb. rewrite decode_int_ok by done. cbn [snd].
  assert (0 < Z.to_nat w)%nat as Hw0 by (by_width Hw; lia).
  pose proof (int_width_nat w Hw) as Hww.
  pose proof (rd_signed_range (Z.to_nat w) b Hw0) as Hr. rewrite Hww in Hr.
  rewrite (encode_int_ok _ (rd_signed (Z.to_nat w) b)); try done.
  - f_equal. apply le_bytes_rd_signed; auto. unfold zlen in Hl. lia.
  - apply kstrtoll_dec. split; [eapply Z.le_trans; [|apply Hr]|eapply Z.lt_le_trans; [apply Hr|]].
    all: by_width Hw; simpl; lia.
  - unfold int_min, int_max. lia.
Qed.

(** The comparison of two stored integers is the order of the
    numbers they hold: -1, 0 or 1; malformed lengths compare as equal. *)
Theorem compare_int_order w a al b bl :
  int_width w ->
  let c := compare_int64_generic a al b bl w in
  if (al =? w) && (bl =? w)
  then c = match rd_signed (Z.to_nat w) a ?= rd_signed (Z.to_nat w) b with
           | Lt => -1 | Eq => 0 | Gt => 1 end
  else c = 0.
Proof.
  intros Hw c. subst c. unfold compare_int64_generic.
  destruct (Z.eqb_spec al w), (Z.eqb_spec bl w); cbn [andb orb negb]; try done.
  assert (forall x y, (if y <? x then 1 else 0) - (if x <? y then 1 else 0) =
    match x ?= y with Lt => -1 | Eq => 0 | Gt => 1 end) as Hc.
  { intros x y. destruct (Z.compare_spec x y), (Z.ltb_spec x y), (Z.ltb_spec y x); try lia. }
  by_width Hw; cbn [Z.eqb Pos.eqb]; apply Hc.
Qed.
End IntThms.

(** ** Floats *)
Lemma byte_forall (P : Z -> bool) x :
  forallb P (map Z.of_nat (seq 0 256)) = true -> is_byte x -> P x = true.
Proof.
  unfold is_byte; intros H Hx. eapply forallb_forall in H; [exact H|].
  apply in_map_iff. exists (Z.to_nat x). split; [lia|]. apply in_seq. lia.
Qed.
Definition lower_case (c : Z) : Z := if (65 <=? c) && (c <=? 90) then c + 32 else c.
Definition hex_pair (hi lo : Z) : Z := u8 (Z.lor (Z.shiftl hi 4) lo).
Definition nibble_char (n : Z) : Z := at_ hexdigits (Z.to_nat n).

Definition hex_byte_ok (b : Z) : bool :=
  (0 <=? hex_nibble (nibble_char (Z.shiftr b 4))) && (0 <=? hex_nibble (nibble_char (Z.land b 15))) &&
  (hex_pair (hex_nibble (nibble_char (Z.shiftr b 4))) (hex_nibble (nibble_char (Z.land b 15))) =? b).
Lemma hex_byte b : is_byte b -> hex_byte_ok b = true.
Proof. apply byte_forall. vm_compute. reflexivity. Qed.
Lemma hex_nibble_cases c : 0 <= hex_nibble c ->
  hex_nibble c < 16 /\ nibble_char (hex_nibble c) = lower_case c.
Proof.
  intros H. assert (48 <= c <= 102) as Hc by (unfold hex_nibble in H; repeat case_match; lia).
  assert ((if 0 <=? hex_nibble c then (hex_nibble c <? 16) && (nibble_char (hex_nibble c) =? lower_case c) else true) = true) as E.
  { apply (byte_forall (fun c => if 0 <=? hex_nibble c then (hex_nibble c <? 16) && (nibble_char (hex_nibble c) =? lower_case c) else true));
      [vm_compute; reflexivity|unfold is_byte; lia]. }
  destruct (Z.leb_spec 0 (hex_nibble c)); [|lia]. apply andb_true_iff in E. lia.
Qed.
Lemma hex_pair_split hi lo : 0 <= hi < 16 -> 0 <= lo < 16 ->
  Z.shiftr (hex_pair hi lo) 4 = hi /\ Z.land (hex_pair hi lo) 15 = lo.
Proof.
  intros Hh Hl.
  assert (In (hi, lo) (list_prod (map Z.of_nat (seq 0 16)) (map Z.of_nat (seq 0 16)))) as Hin.
  { apply in_prod; apply in_map_iff; [exists (Z.to_nat hi)|exists (Z.to_nat lo)];
      (split; [lia|apply in_seq; lia]). }
  assert (forallb (fun x => (Z.shiftr (hex_pair (fst x) (snd x)) 4 =? fst x) &&
                            (Z.land (hex_pair (fst x) (snd x)) 15 =? snd x))
    (list_prod (map Z.of_nat (seq 0 16)) (map Z.of_nat (seq 0 16))) = true) as E by (vm_compute; reflexivity).
  eapply forallb_forall in E; [|exact Hin]. apply andb_true_iff in E. cbn [fst snd] in E. lia.
Qed.

Lemma parse_format_loop data : bytes_ok data ->
  parse_hex_loop (format_hex_bytes data) (length data) = (0, data).
Proof.
  induction 1 as [|b data Hb _ IH]; [done|].
  change (format_hex_bytes (b :: data)) with
    (nibble_char (Z.shiftr b 4) :: nibble_char (Z.land b 15) :: format_hex_bytes data).
  cbn [length parse_hex_loop]. unfold at_; cbn [nth drop].
  pose proof (hex_byte b Hb) as H. unfold hex_byte_ok in H. rewrite !andb_true_iff in H. destruct H as [[H1 H2] H3].
  destruct (Z.ltb_spec (hex_nibble (nibble_char (Z.shiftr b 4))) 0); [lia|].
  destruct (Z.ltb_spec (hex_nibble (nibble_char (Z.land b 15))) 0); [lia|]. cbn [orb].
  rewrite drop_0, IH. fold (hex_pair (hex_nibble (nibble_char (Z.shiftr b 4))) (hex_nibble (nibble_char (Z.land b 15)))).
  f_equal. f_equal. lia.
Qed.
Lemma format_parse_loop n str data : zlen str = Z.of_nat n * 2 ->
  parse_hex_loop str n = (0, data) -> format_hex_bytes data = map lower_case str /\ length data = n.
Proof.
  revert str data; induction n as [|n IH]; intros str data Hl; cbn [parse_hex_loop].
  - intros [= <-]. destruct str; [done|]. rewrite zlen_cons in Hl. pose proof (zlen_nonneg str). lia.
  - destruct str as [|a [|b str]]; [discriminate Hl|rewrite zlen_cons in Hl; unfold zlen in Hl; simpl in Hl; lia|].
    rewrite !zlen_cons in Hl. unfold at_; cbn [nth drop]. rewrite drop_0.
    destruct (Z.ltb_spec (hex_nibble a) 0), (Z.ltb_spec (hex_nibble b) 0); cbn [orb]; try done.
    destruct (parse_hex_loop str n) as [r out] eqn:E. intros [= -> <-].
    destruct (IH str out ltac:(lia) E) as [IHf IHl].
    destruct (hex_nibble_cases a ltac:(lia)) as [Ha Ha']. destruct (hex_nibble_cases b ltac:(lia)) as [Hb Hb'].
    destruct (hex_pair_split (hex_nibble a) (hex_nibble b) ltac:(lia) ltac:(lia)) as [E1 E2].
    split; [|simpl; lia]. cbn [format_hex_bytes flat_map app map].
    fold (hex_pair (hex_nibble a) (hex_nibble b)) (format_hex_bytes out).
    rewrite E1, E2. fold (nibble_char (hex_nibble a)) (nibble_char (hex_nibble b)). by rewrite Ha', Hb', IHf.
Qed.

(** Float columns keep the bit pattern: any four bytes survive
    decoding and encoding, and a text that is accepted reads back as
    itself in lower case. *)
Theorem float_round_trip :
  (forall b bs os, zlen b = 4 -> bytes_ok b -> 4 <= bs -> 9 <= os ->
     encode_float (snd (decode_float b 4 os)) bs = (0, b)) /\
  (forall s bs os b, encode_float s bs = (0, b) -> 9 <= os ->
     decode_float b (zlen b) os = (8, map lower_case s)).
Proof.
  split.
  - intros b bs os Hl Hb Hbs Hos. unfold decode_float, encode_float.
    destruct (Z.ltb_spec os 9); [lia|]. destruct (Z.ltb_spec bs 4); [lia|]. cbn [Z.eqb Pos.eqb negb snd].
    rewrite <- Hl, sub_full. unfold parse_hex_bytes.
    assert (length b = 4%nat) as Hb4 by (unfold zlen in Hl; lia).
    assert (zlen (format_hex_bytes b) = 8) as ->.
    { destruct b as [|? [|? [|? [|? [|? ?]]]]]; try discriminate Hb4. done. }
    cbn [Z.of_nat Pos.of_succ_nat Pos.succ Z.mul Pos.mul Z.eqb Pos.eqb negb].
    pose proof (parse_format_loop b Hb) as E. rewrite Hb4 in E. by rewrite E.
  - intros s bs os b. unfold encode_float, decode_float, parse_hex_bytes.
    destruct (bs <? 4); [done|]. destruct (Z.eqb_spec (zlen s) (Z.of_nat 4 * 2)); cbn [negb]; [|done].
    destruct (parse_hex_loop s 4) as [r out] eqn:E. destruct (Z.eqb_spec r 0); cbn [negb]; [|done].
    intros [= ->] Hos. subst r. apply format_parse_loop in E as [Hf Hl]; [|done].
    assert (zlen b = 4) as Hz by (unfold zlen; lia).
    rewrite Hz. destruct (Z.ltb_spec os 9); [lia|]. cbn [Z.eqb Pos.eqb negb].
    rewrite <- Hz, sub_full. by rewrite Hf.
Qed.

(** Character columns store the text itself: what is accepted reads
    back unchanged whenever the output buffer has room for it and its
    terminator, and a text longer than 65535 characters or than the
    buffer is [-ENOSPC]. *)
Theorem varchar_round_trip s bs os :
  let r := encode_varchar s bs in
  if (65535 <? zlen s) || (bs <? zlen s) then r = (- ENOSPC, [])
  else r = (0, s) /\
       decode_varchar s (zlen s) os = if os <=? zlen s then (- ENOSPC, []) else (zlen s, s).
Proof.
  cbn zeta. unfold encode_varchar, decode_varchar. case_test; [done|]. rewrite sub_full. done.
Qed.

(** ** Decimals *)
Definition frac_ok (f : nat) : bool :=
  let s := fmt_0lld 4 (Z.of_nat f) in
  bool_decide (scan_frac s 0 4 = (Z.of_nat f, 0%nat, [])) && (length s =? 4)%nat.
Lemma frac_scan f : 0 <= f < 10000 ->
  scan_frac (fmt_0lld 4 f) 0 4 = (f, 0%nat, []) /\ zlen (fmt_0lld 4 f) = 4.
Proof.
  intros Hf. assert (forallb frac_ok (seq 0 (Z.to_nat 10000)) = true) as H by (vm_compute; reflexivity).
  eapply forallb_forall in H; [|apply (in_seq (Z.to_nat 10000) 0 (Z.to_nat f)); lia].
  unfold frac_ok in H. rewrite Z2Nat.id in H by lia.
  apply andb_true_iff in H as [H1%bool_decide_eq_true_1 H2%Nat.eqb_eq]. split; [done|].
  unfold zlen. by rewrite H2.
Qed.

Definition dec_text (neg : bool) (i f : Z) : bytes :=
  (if neg then [45] else []) ++ dec_digits 20 i ++ [46] ++ fmt_0lld 4 f.

Lemma encode_dec_text neg i f bs :
  8 <= bs -> 0 <= i -> i * 10000 + f < 2 ^ 63 -> 0 <= f < 10000 ->
  encode_decimal (dec_text neg i f) bs =
    (0, le_bytes 8 (if neg then - (i * 10000 + f) else i * 10000 + f)).
Proof.
  intros Hbs Hi Hif Hf. unfold encode_decimal. destruct (Z.ltb_spec bs 8); [lia|].
  destruct (dec_digits_head 20 i Hi ltac:(lia)) as (c & r & E & Hc).
  assert (c <> 45 /\ c <> 43) as [H45 H43] by (unfold is_digit in Hc; lia).
  set (tl := [46] ++ fmt_0lld 4 f).
  assert (Hscan : scan_int (c :: r ++ tl) 0 = (i, tl)).
  { change (c :: r ++ tl) with ((c :: r) ++ tl). rewrite <- E.
    rewrite scan_int_digits; [done|cbn; lia|lia|lia]. }
  assert (Hp : (at_ (dec_text neg i f) 0 =? 45) = neg /\
     (if neg || (at_ (dec_text neg i f) 0 =? 43) then drop 1 (dec_text neg i f) else dec_text neg i f) = c :: r ++ tl).
  { unfold dec_text. rewrite E. destruct neg; [done|]. unfold at_; cbn [app nth].
    destruct (Z.eqb_spec c 45), (Z.eqb_spec c 43); try lia. done. }
  destruct Hp as [-> ->]. rewrite Hscan. destruct (frac_scan f Hf) as [Hfr _].
  unfold tl. unfold at_. cbn [app nth Z.eqb Pos.eqb drop]. rewrite drop_0. unfold KDS_DECIMAL_SCALE.
  rewrite Hfr. cbn [skip_digits scale_up]. unfold KDS_DECIMAL_SCALE_MUL.
  rewrite (s64_id (i * 10000 + f)) by lia. destruct neg; [rewrite s64_id by lia|]; done.
Qed.

(** Decimal columns: every stored 8-byte value other than the
    smallest 64-bit integer decodes to a text whose encoding is the
    stored value. *)
Theorem decimal_decode_encode b bs os :
  zlen b = 8 -> bytes_ok b -> rd_signed 8 b <> - 2 ^ 63 -> 8 <= bs -> 32 <= os ->
  encode_decimal (snd (decode_decimal b 8 os)) bs = (0, b).
Proof.
  intros Hl Hb Hne Hbs Hos. pose proof (rd_signed_range 8 b ltac:(lia)) as Hr. cbn in Hr.
  unfold decode_decimal. cbn [Z.eqb Pos.eqb negb]. set (v := rd_signed 8 b) in *.
  assert ((if v <? 0 then s64 (- v) else v) = Z.abs v) as ->.
  { destruct (Z.ltb_spec v 0); [rewrite s64_id by lia|]; lia. }
  unfold KDS_DECIMAL_SCALE_MUL.
  rewrite Z.quot_div_nonneg, Z.rem_mod_nonneg by lia.
  pose proof (Z.mod_pos_bound (Z.abs v) 10000 ltac:(lia)) as Hm.
  pose proof (Z.div_mod (Z.abs v) 10000 ltac:(lia)) as Hdm.
  assert (0 <= Z.abs v / 10000) by (apply Z.div_pos; lia).
  unfold fmt_lld. destruct (Z.ltb_spec (Z.abs v / 10000) 0); [lia|].
  change (scnprintf os _) with (scnprintf os (dec_text (v <? 0) (Z.abs v / 10000) (Z.abs v mod 10000))).
  rewrite scnprintf_fits; cbn [snd].
  - rewrite encode_dec_text by lia. f_equal.
    replace (if v <? 0 then _ else _) with v by (destruct (Z.ltb_spec v 0); lia).
    apply le_bytes_rd_signed; [lia| |done]. unfold zlen in Hl. lia.
  - destruct (frac_scan (Z.abs v mod 10000) Hm) as [_ Hf]. unfold dec_text.
    rewrite !zlen_app, Hf. pose proof (length_dec_digits 20 (Z.abs v / 10000)).
    unfold zlen at 2. destruct (v <? 0); unfold zlen; cbn [length]; lia.
Qed.

(** The decimal parser does not detect overflow: a number beyond the
    64-bit range is accepted and stored as a different, negative one; and
    a lone point is accepted as zero. *)
Theorem decimal_overflow_accepted :
  encode_decimal (cstr "922337203685478") 8 = (0, le_bytes 8 (-9223372036854771616)) /\
  snd (decode_decimal (le_bytes 8 (-9223372036854771616)) 8 32) = cstr "-922337203685477.1616" /\
  encode_decimal (cstr ".") 8 = (0, zeros 8).
Proof. vm_compute. auto. Qed.

(** The registry: each row is found by its number and by its name,
    and a name that no row has is not found. *)
Theorem type_registry_lookup `{Kstrtoll} :
  (forall d, In d kds_type_table ->
     kds_type_lookup_by_val (type_val d) = Some d /\
     kds_type_lookup_by_name (Some (td_name d)) = Some d) /\
  (forall n d, kds_type_lookup_by_name (Some n) = Some d -> td_name d = n /\ In d kds_type_table).
Proof.
  split.
  - intros d Hd. repeat (destruct Hd as [<-|Hd]; [done|]). destruct Hd.
  - intros n d Hf. apply find_some in Hf as [Hin Hn]. split; [|done].
    by apply bool_decide_eq_true_1 in Hn.
Qed.

(** ** Concrete instances *)
Lemma encode_decode_int_witness :
  int_width 2 /\ exists b, encode_int_generic (cstr "-300") 8 2 (int_min 2) (int_max 2) = (0, b) /\
    zlen b = 2 /\ decode_int_generic b 2 32 2 = (4, cstr "-300").
Proof.
  split; [right; left; reflexivity|].
  pose proof (encode_decode_int (cstr "-300") 8 32 2) as H.
  assert (kstrtoll (cstr "-300") = (0, -300)) as E by (vm_compute; reflexivity).
  rewrite E in H. apply H; [right; left; reflexivity|lia].
Defined.
Lemma decode_encode_int_witness :
  encode_int_generic (snd (decode_int_generic [212; 254] 2 32 2)) 8 2 (int_min 2) (int_max 2) = (0, [212; 254]).
Proof.
  apply (decode_encode_int [212; 254] 8 32 2); try lia; [right; left; reflexivity|reflexivity|].
  repeat constructor; unfold is_byte; lia.
Defined.
Lemma compare_int_order_witness :
  compare_int64_generic [255] 1 [1] 1 1 = -1.
Proof. apply (compare_int_order 1 [255] 1 [1] 1). left. reflexivity. Defined.
Lemma decimal_decode_encode_witness :
  encode_decimal (snd (decode_decimal (le_bytes 8 (-31415)) 8 32)) 8 = (0, le_bytes 8 (-31415)).
Proof.
  apply decimal_decode_encode; [reflexivity|apply bytes_ok_le_bytes|vm_compute; discriminate|lia|lia].
Defined.
Lemma float_round_trip_witness :
  encode_float (snd (decode_float [0; 0; 128; 63] 4 16)) 4 = (0, [0; 0; 128; 63]).
Proof.
  apply (proj1 float_round_trip); try lia; [reflexivity|]. repeat constructor; unfold is_byte; lia.
Defined.
Lemma type_registry_lookup_witness :
  exists d, In d kds_type_table /\ kds_type_lookup_by_val 7 = Some d /\ type_val d = 7.
Proof.
  exists (nth 7 kds_type_table (TypeDesc 0 [] 0 encode_bool decode_bool None)). split; [|split].
  - do 7 right. left. reflexivity.
  - refine (proj1 (proj1 type_registry_lookup (nth 7 kds_type_table (TypeDesc 0 [] 0 encode_bool decode_bool None)) _)). do 7 right. left. reflexivity.
  - reflexivity.
Defined.
