(* ===== verification/Parser.v ===== *)
(** * Parser: lexer and statement parser (parser.c, kds_parser.h)

    The input is the list of its characters, without the NUL; the scan
    position is the rest of it.  A fixed-size character array that holds a
    C string is the list of the string's characters, cut the way the code
    cuts it.  The arrays of the syntax tree are lists: the code fills them
    from the front and counts the elements.  What a failed parse leaves in
    [*out_stmt] is not modelled.

    The parser state is the lexer and the error buffer; [err_buf] is
    [None] when the caller passes NULL.  The character classes are the
    kernel's: a parameter, known on ASCII only. *)
From S2P Require Import Prelude Types.
From stdpp Require Import prelude list strings.
From Stdlib Require Import ZArith Lia.
Local Open Scope Z_scope.
Local Open Scope list_scope.
Local Open Scope kds_scope.

(** ** Character classes *)
Class Ctype := { isspace : Z -> bool; isalpha : Z -> bool }.
Definition ascii_space (c : Z) : bool := ((9 <=? c) && (c <=? 13)) || (c =? 32).
Definition ascii_alpha (c : Z) : bool := ((65 <=? c) && (c <=? 90)) || ((97 <=? c) && (c <=? 122)).
Class CtypeLaws `{Ctype} : Prop := {
  isspace_ascii : forall c, 0 <= c < 128 -> isspace c = ascii_space c;
  isalpha_ascii : forall c, 0 <= c < 128 -> isalpha c = ascii_alpha c;
  (** the classes are disjoint *)
  space_not_alpha : forall c, isspace c = true -> isalpha c = false }.
Definition tolower (c : Z) : Z := if (65 <=? c) && (c <=? 90) then c + 32 else c.
(** [strcasecmp(a, b) == 0] *)
Definition same_nocase (a b : bytes) : bool := bool_decide (map tolower a = map tolower b).

(** ** Limits, tokens, syntax *)
Definition KDS_PARSER_NAME_MAX : nat := 64.
Definition KDS_PARSER_VAL_MAX : nat := 256.
Definition KDS_PARSER_MAX_COLS : nat := 32.
Definition KDS_PARSER_MAX_VALS : nat := 32.
Definition KDS_PARSER_MAX_CONDS : nat := 16.

Inductive kds_token_type :=
  | KDS_TOK_EOF | KDS_TOK_IDENT | KDS_TOK_INT_LIT | KDS_TOK_STR_LIT | KDS_TOK_NULL
  | KDS_TOK_LPAREN | KDS_TOK_RPAREN | KDS_TOK_COMMA | KDS_TOK_SEMICOLON | KDS_TOK_STAR
  | KDS_TOK_EQ | KDS_TOK_NEQ | KDS_TOK_LT | KDS_TOK_LTE | KDS_TOK_GT | KDS_TOK_GTE | KDS_TOK_ERROR.
#[export] Instance kds_token_type_eq_dec : EqDecision kds_token_type.
Proof. solve_decision. Defined.
Record kds_token := Token { tok_type : kds_token_type; text : bytes; tok_int : Z }.

Inductive kds_ast_val := KDS_VAL_INT (v : Z) | KDS_VAL_STR (s : bytes) | KDS_VAL_NULL.
Record kds_ast_col_def := ColDef { col_name : bytes; col_type_val : Z; col_len : Z }.
Inductive kds_cond_op := KDS_OP_EQ | KDS_OP_NEQ | KDS_OP_LT | KDS_OP_LTE | KDS_OP_GT | KDS_OP_GTE.
Record kds_ast_cond := Cond { cond_col : bytes; cond_op : kds_cond_op; cond_val : kds_ast_val }.
Inductive kds_clustered_type := KDS_CLUSTERED_HEAP | KDS_CLUSTERED_BTREE.
Inductive kds_stmt :=
  | KDS_STMT_CREATE_TABLE (table_name : bytes) (cols : list kds_ast_col_def) (clustered : kds_clustered_type)
  | KDS_STMT_INSERT (table_name : bytes) (values : list kds_ast_val)
  | KDS_STMT_SELECT (table_name : bytes) (has_where : bool) (conds : list kds_ast_cond)
  | KDS_STMT_SHOW_META
  | KDS_STMT_SHOW_ALLOC.

Record kds_lexer := Lexer { pos : bytes; peek : kds_token; peeked : bool }.
Record kds_parser := Parser { lex : kds_lexer; err_buf : option bytes; err_buf_size : Z }.

(** ** Errors

    A function returns its error code or its result; [?;] is the
    [if (ret) return ret;] that follows the calls. *)
Definition P (A : Type) := M kds_parser (Z + A).
Definition pbind {A B} (m : P A) (k : A -> P B) : P B :=
  r <- m ;; match r with inl e => ret (inl e) | inr a => k a end.
Notation "x <-? m ;; k" := (pbind m (fun x => k))
  (at level 100, m at next level, right associativity) : kds_scope.
Notation "m ?; k" := (pbind m (fun _ => k)) (at level 100, right associativity) : kds_scope.
Definition ok {A} (a : A) : P A := ret (inr a).

Section Parser.
Context `{CT : Ctype} `{KL : Kstrtoll}.

(** ** Lexer *)
Fixpoint skip_while (f : Z -> bool) (p : bytes) : bytes :=
  match p with
  | c :: r => if f c then skip_while f r else p
  | [] => []
  end.
Fixpoint take_while (f : Z -> bool) (p : bytes) : bytes :=
  match p with
  | c :: r => if f c then c :: take_while f r else []
  | [] => []
  end.
(** White space and [--] comments; each round of the outer loop that
    continues has skipped at least the two dashes. *)
Fixpoint skip_ws_loop (fuel : nat) (p : bytes) : bytes :=
  match fuel with
  | O => p
  | S fuel =>
      let p := skip_while isspace p in
      if (at_ p 0 =? 45) && (at_ p 1 =? 45)
      then skip_ws_loop fuel (skip_while (fun c => negb (c =? 10)) p)
      else p
  end.
Definition lexer_skip_ws (p : bytes) : bytes := skip_ws_loop (S (length p)) p.

Definition cut (s : bytes) : bytes := take (KDS_PARSER_VAL_MAX - 1) s.
(** The conversion of a digit string, in 64 bits. *)
Definition atoi (t : bytes) : Z :=
  let neg := at_ t 0 =? 45 in
  let v := fold_left (fun v c => s64 (v * 10 + (c - 48))) (if neg then drop 1 t else t) 0 in
  if neg then s64 (- v) else v.
Definition is_quote (c : Z) : bool := c =? 39.
Definition isalnum_ (c : Z) : bool := isalpha c || is_digit c || (c =? 95).

Definition lexer_read (p : bytes) : kds_token * bytes :=
  let p := lexer_skip_ws p in
  match p with
  | [] => (Token KDS_TOK_EOF [] 0, [])
  | c :: r =>
      let c1 := at_ p 1 in
      if is_quote c then
        let s := take_while (fun c => negb (is_quote c)) r in
        let r := skip_while (fun c => negb (is_quote c)) r in
        (Token KDS_TOK_STR_LIT (cut s) 0, if is_quote (at_ r 0) then drop 1 r else r)
      else if is_digit c || ((c =? 45) && is_digit c1) then
        let sign := if c =? 45 then [45] else [] in
        let digits := if c =? 45 then r else p in
        let t := cut (sign ++ take_while is_digit digits) in
        (Token KDS_TOK_INT_LIT t (atoi t), skip_while is_digit digits)
      else if isalpha c || (c =? 95) then
        let t := cut (take_while isalnum_ p) in
        (Token (if same_nocase t (cstr "NULL") then KDS_TOK_NULL else KDS_TOK_IDENT) t 0,
         skip_while isalnum_ p)
      else if (c =? 33) && (c1 =? 61) then (Token KDS_TOK_NEQ (cstr "!=") 0, drop 2 p)
      else if (c =? 60) && (c1 =? 61) then (Token KDS_TOK_LTE (cstr "<=") 0, drop 2 p)
      else if (c =? 62) && (c1 =? 61) then (Token KDS_TOK_GTE (cstr ">=") 0, drop 2 p)
      else
        (Token (if c =? 40 then KDS_TOK_LPAREN else if c =? 41 then KDS_TOK_RPAREN
                else if c =? 44 then KDS_TOK_COMMA else if c =? 59 then KDS_TOK_SEMICOLON
                else if c =? 42 then KDS_TOK_STAR else if c =? 61 then KDS_TOK_EQ
                else if c =? 60 then KDS_TOK_LT else if c =? 62 then KDS_TOK_GT
                else KDS_TOK_ERROR) [c] 0, r)
  end.

Definition lexer_init (sql : bytes) : kds_lexer := Lexer sql (Token KDS_TOK_EOF [] 0) false.
Definition lexer_peek (l : kds_lexer) : kds_token * kds_lexer :=
  if peeked l then (peek l, l)
  else let '(t, p) := lexer_read (pos l) in (t, Lexer p t true).
Definition lexer_next (l : kds_lexer) : kds_token * kds_lexer :=
  if peeked l then (peek l, Lexer (pos l) (peek l) false)
  else let '(t, p) := lexer_read (pos l) in (t, Lexer p (peek l) false).

(** ** Parser helpers *)
Definition on_lexer {A} (f : kds_lexer -> A * kds_lexer) : M kds_parser A := fun p =>
  let '(a, l) := f (lex p) in Ret a (Parser l (err_buf p) (err_buf_size p)).
Definition next : M kds_parser kds_token := on_lexer lexer_next.
Definition look : M kds_parser kds_token := on_lexer lexer_peek.
Definition parser_init (sql : bytes) (buf : option bytes) (size : Z) : kds_parser := Parser (lexer_init sql) buf size.

(** [parser_err] keeps the first message; the result is the [-EINVAL]
    that the callers return after it. *)
Definition parser_err {A} (msg : bytes) : P A := fun p =>
  Ret (inl (- EINVAL))
    (match err_buf p with
     | Some [] => if err_buf_size p =? 0 then p
                  else Parser (lex p) (Some (snd (scnprintf (err_buf_size p) msg))) (err_buf_size p)
     | _ => p
     end).
Definition tok_is (ty : kds_token_type) (t : kds_token) : bool := bool_decide (tok_type t = ty).
Definition got (t : kds_token) : bytes := if tok_is KDS_TOK_EOF t then cstr "<end of input>" else text t.
Definition quoted (s : bytes) : bytes := [39] ++ s ++ [39].

Definition expect_keyword (keyword : bytes) : P unit :=
  tok <- next ;;
  if negb (tok_is KDS_TOK_IDENT tok) || negb (same_nocase (text tok) keyword)
  then parser_err (cstr "expected " ++ quoted keyword ++ cstr ", got " ++ quoted (got tok))
  else ok tt.
Definition expect_token (type : kds_token_type) (desc : bytes) : P unit :=
  tok <- next ;;
  if negb (tok_is type tok)
  then parser_err (cstr "expected " ++ desc ++ cstr ", got " ++ quoted (got tok))
  else ok tt.
Definition parse_ident : P bytes :=
  tok <- next ;;
  if negb (tok_is KDS_TOK_IDENT tok)
  then parser_err (cstr "expected identifier, got " ++ quoted (got tok))
  else ok (take (KDS_PARSER_NAME_MAX - 1) (text tok)).
Definition consume_optional_semicolon : P unit :=
  tok <- look ;;
  if tok_is KDS_TOK_SEMICOLON tok then next ;; ok tt else ok tt.

Definition parse_value : P kds_ast_val :=
  tok <- next ;;
  match tok_type tok with
  | KDS_TOK_INT_LIT => ok (KDS_VAL_INT (tok_int tok))
  | KDS_TOK_STR_LIT => ok (KDS_VAL_STR (cut (text tok)))
  | KDS_TOK_NULL => ok KDS_VAL_NULL
  | _ => parser_err (cstr "expected value (integer, 'string', or NULL), got " ++ quoted (got tok))
  end.
Definition parse_cond_op : P kds_cond_op :=
  tok <- next ;;
  match tok_type tok with
  | KDS_TOK_EQ => ok KDS_OP_EQ
  | KDS_TOK_NEQ => ok KDS_OP_NEQ
  | KDS_TOK_LT => ok KDS_OP_LT
  | KDS_TOK_LTE => ok KDS_OP_LTE
  | KDS_TOK_GT => ok KDS_OP_GT
  | KDS_TOK_GTE => ok KDS_OP_GTE
  | _ => parser_err (cstr "expected comparison operator (=, !=, <, <=, >, >=), got " ++ quoted (got tok))
  end.
Definition too_many (what : bytes) (max : nat) : bytes :=
  cstr "too many " ++ what ++ cstr " (max " ++ fmt_lld (Z.of_nat max) ++ cstr ")".

(** ** Statements

    [room] is what is left of the array: at zero the code reports that it
    is full. *)
Fixpoint parse_cols (room : nat) : P (list kds_ast_col_def) :=
  match room with
  | O => parser_err (too_many (cstr "columns") KDS_PARSER_MAX_COLS)
  | S room =>
      name <-? parse_ident ;;
      type_name <-? parse_ident ;;
      match kds_type_lookup_by_name (Some type_name) with
      | None => parser_err (cstr "unknown column type " ++ quoted type_name)
      | Some d =>
          let col := ColDef name (type_val d) (fixed_len d) in
          tok <- look ;;
          if tok_is KDS_TOK_COMMA tok
          then next ;; (cols <-? parse_cols room ;; ok (col :: cols))
          else ok [col]
      end
  end.
Definition parse_create_table : P kds_stmt :=
  expect_keyword (cstr "TABLE") ?;
  name <-? parse_ident ;;
  expect_token KDS_TOK_LPAREN (cstr "'('") ?;
  cols <-? parse_cols KDS_PARSER_MAX_COLS ;;
  expect_token KDS_TOK_RPAREN (cstr "')'") ?;
  if (length cols =? 0)%nat then parser_err (cstr "CREATE TABLE requires at least one column") else
  tok <- look ;;
  clustered <- (if tok_is KDS_TOK_IDENT tok then
                  if same_nocase (text tok) (cstr "HEAP") then next ;; ret KDS_CLUSTERED_HEAP
                  else if same_nocase (text tok) (cstr "BTREE") then next ;; ret KDS_CLUSTERED_BTREE
                  else ret KDS_CLUSTERED_HEAP
                else ret KDS_CLUSTERED_HEAP) ;;
  consume_optional_semicolon ?;
  ok (KDS_STMT_CREATE_TABLE name cols clustered).

Fixpoint parse_vals (room : nat) : P (list kds_ast_val) :=
  match room with
  | O => parser_err (too_many (cstr "values") KDS_PARSER_MAX_VALS)
  | S room =>
      v <-? parse_value ;;
      tok <- look ;;
      if tok_is KDS_TOK_COMMA tok
      then next ;; (vs <-? parse_vals room ;; ok (v :: vs))
      else ok [v]
  end.
Definition parse_insert : P kds_stmt :=
  expect_keyword (cstr "INTO") ?;
  name <-? parse_ident ;;
  expect_keyword (cstr "VALUES") ?;
  expect_token KDS_TOK_LPAREN (cstr "'('") ?;
  vs <-? parse_vals KDS_PARSER_MAX_VALS ;;
  expect_token KDS_TOK_RPAREN (cstr "')'") ?;
  if (length vs =? 0)%nat then parser_err (cstr "INSERT VALUES requires at least one value") else
  consume_optional_semicolon ?;
  ok (KDS_STMT_INSERT name vs).

Definition parse_one_cond : P kds_ast_cond :=
  col <-? parse_ident ;;
  op <-? parse_cond_op ;;
  v <-? parse_value ;;
  ok (Cond col op v).
Fixpoint parse_conds (room : nat) : P (list kds_ast_cond) :=
  match room with
  | O => parser_err (too_many (cstr "WHERE conditions") KDS_PARSER_MAX_CONDS)
  | S room =>
      c <-? parse_one_cond ;;
      tok <- look ;;
      if tok_is KDS_TOK_IDENT tok && same_nocase (text tok) (cstr "AND")
      then next ;; (cs <-? parse_conds room ;; ok (c :: cs))
      else ok [c]
  end.
Definition parse_select : P kds_stmt :=
  tok <- next ;;
  if negb (tok_is KDS_TOK_STAR tok)
  then parser_err (cstr "only SELECT * is supported, got " ++ quoted (text tok)) else
  expect_keyword (cstr "FROM") ?;
  name <-? parse_ident ;;
  tok <- look ;;
  if tok_is KDS_TOK_IDENT tok && same_nocase (text tok) (cstr "WHERE") then
    next ;;
    (cs <-? parse_conds KDS_PARSER_MAX_CONDS ;;
     consume_optional_semicolon ?;
     ok (KDS_STMT_SELECT name true cs))
  else
    consume_optional_semicolon ?;
    ok (KDS_STMT_SELECT name false []).

Definition parse_show : P kds_stmt :=
  tok <- next ;;
  if negb (tok_is KDS_TOK_IDENT tok)
  then parser_err (cstr "expected META or ALLOC after SHOW, got " ++ quoted (text tok))
  else if same_nocase (text tok) (cstr "META") then consume_optional_semicolon ?; ok KDS_STMT_SHOW_META
  else if same_nocase (text tok) (cstr "ALLOC") then consume_optional_semicolon ?; ok KDS_STMT_SHOW_ALLOC
  else parser_err (cstr "unknown SHOW target " ++ quoted (text tok) ++ cstr " (expected META or ALLOC)").

(** ** Entry point *)
Definition parse_statement : P kds_stmt :=
  tok <- next ;;
  if tok_is KDS_TOK_EOF tok then parser_err (cstr "empty statement") else
  if negb (tok_is KDS_TOK_IDENT tok) then parser_err (cstr "expected SQL keyword, got " ++ quoted (text tok)) else
  stmt <-? (if same_nocase (text tok) (cstr "CREATE") then parse_create_table
            else if same_nocase (text tok) (cstr "INSERT") then parse_insert
            else if same_nocase (text tok) (cstr "SELECT") then parse_select
            else if same_nocase (text tok) (cstr "SHOW") then parse_show
            else parser_err (cstr "unknown SQL keyword " ++ quoted (text tok) ++
                             cstr " (supported: CREATE, INSERT, SELECT, SHOW)")) ;;
  tail <- look ;;
  if negb (tok_is KDS_TOK_EOF tail)
  then parser_err (cstr "unexpected token " ++ quoted (text tail) ++ cstr " after end of statement")
  else ok stmt.
(** The result and the error buffer. *)
Definition kds_parse (sql : bytes) (buf : option bytes) (size : Z) : outcome kds_parser (Z + kds_stmt) :=
  let buf := match buf with Some b => Some (if size =? 0 then b else []) | None => None end in
  parse_statement (parser_init sql buf size).

Definition kds_stmt_type_name (s : kds_stmt) : bytes :=
  match s with
  | KDS_STMT_CREATE_TABLE _ _ _ => cstr "CREATE TABLE"
  | KDS_STMT_INSERT _ _ => cstr "INSERT"
  | KDS_STMT_SELECT _ _ _ => cstr "SELECT"
  | KDS_STMT_SHOW_META => cstr "SHOW META"
  | KDS_STMT_SHOW_ALLOC => cstr "SHOW ALLOC"
  end.
Definition kds_cond_op_name (op : kds_cond_op) : bytes :=
  match op with
  | KDS_OP_EQ => cstr "=" | KDS_OP_NEQ => cstr "!=" | KDS_OP_LT => cstr "<"
  | KDS_OP_LTE => cstr "<=" | KDS_OP_GT => cstr ">" | KDS_OP_GTE => cstr ">="
  end.
End Parser.
