(* ===== verification/ParserSpec.v ===== *)
(** * ParserSpec: the parser is total and inverts printing

    [total] is the contract every parsing function states in its header
    comment: it returns, with a result that satisfies a property or with
    [-EINVAL] and a message, and the first message stays.  [runs] follows a
    successful parse along a list of tokens; with it the parser is shown to
    be a left inverse of the printer of statements. *)
From S2P Require Import Prelude Types TypesSpec Parser.
From stdpp Require Import prelude list strings.
From Stdlib Require Import ZArith Lia.
Local Open Scope Z_scope.
Local Open Scope list_scope.
Local Open Scope kds_scope.

(** ** What a parse may return *)
Definition name_ok (n : bytes) : Prop := (length n < KDS_PARSER_NAME_MAX)%nat.
Definition val_ok (v : kds_ast_val) : Prop :=
  match v with
  | KDS_VAL_INT z => - 2 ^ 63 <= z < 2 ^ 63
  | KDS_VAL_STR s => (length s < KDS_PARSER_VAL_MAX)%nat
  | KDS_VAL_NULL => True
  end.
Definition col_ok `{Kstrtoll} (c : kds_ast_col_def) : Prop :=
  name_ok (col_name c) /\ exists d, In d kds_type_table /\ col_type_val c = type_val d /\ col_len c = fixed_len d.
Definition cond_ok (c : kds_ast_cond) : Prop := name_ok (cond_col c) /\ val_ok (cond_val c).
Definition stmt_ok `{Kstrtoll} (s : kds_stmt) : Prop :=
  match s with
  | KDS_STMT_CREATE_TABLE n cols _ => name_ok n /\ (0 < length cols <= KDS_PARSER_MAX_COLS)%nat /\ Forall col_ok cols
  | KDS_STMT_INSERT n vs => name_ok n /\ (0 < length vs <= KDS_PARSER_MAX_VALS)%nat /\ Forall val_ok vs
  | KDS_STMT_SELECT n w cs => name_ok n /\ (w = true <-> cs <> []) /\ (length cs <= KDS_PARSER_MAX_CONDS)%nat /\ Forall cond_ok cs
  | _ => True
  end.

(** ** Totality *)
Definition tok_ok (t : kds_token) : Prop :=
  (length (text t) < KDS_PARSER_VAL_MAX)%nat /\ - 2 ^ 63 <= tok_int t < 2 ^ 63.
Definition lex_ok (p : kds_parser) : Prop := tok_ok (peek (lex p)).
(** The error buffer after a failure: the first message, cut to the buffer. *)
Definition reported (p p' : kds_parser) : Prop :=
  match err_buf p with
  | Some [] => 1 < err_buf_size p -> exists m, err_buf p' = Some m /\ m <> [] /\ zlen m < err_buf_size p
  | b => err_buf p' = b
  end.
Definition total {A} (m : P A) (post : A -> Prop) : Prop := forall p, lex_ok p ->
  exists r p', m p = Ret r p' /\ lex_ok p' /\ err_buf_size p' = err_buf_size p /\
    match r with
    | inl e => e = - EINVAL /\ reported p p'
    | inr a => post a /\ err_buf p' = err_buf p
    end.

Lemma total_ok {A} (a : A) (post : A -> Prop) : post a -> total (ok a) post.
Proof. intros H p Hl. by exists (inr a), p. Qed.
Lemma total_err {A} msg (post : A -> Prop) : msg <> [] -> total (parser_err msg) post.
Proof.
  intros Hm p Hl. unfold parser_err. eexists _, _. split; [reflexivity|]. unfold reported.
  destruct (err_buf p) as [[|c b]|] eqn:E; [|by rewrite E|by rewrite E].
  destruct (Z.eqb_spec (err_buf_size p) 0); [split_and!; try done; lia|].
  split_and!; try done. intros Hs. cbn [scnprintf snd err_buf]. eexists. split; [reflexivity|].
  destruct msg as [|c msg]; [done|]. split.
  - destruct (Z.to_nat (err_buf_size p - 1)) eqn:En; [lia|]. done.
  - unfold zlen. rewrite length_take. lia.
Qed.
Lemma total_bind {A B} (m : P A) (k : A -> P B) Q R :
  total m Q -> (forall a, Q a -> total (k a) R) -> total (pbind m k) R.
Proof.
  intros Hm Hk p Hl. destruct (Hm p Hl) as (r & p1 & E & Hl1 & Hs1 & Hr). unfold pbind.
  erewrite bind_ok by exact E. destruct r as [e|a].
  - by exists (inl e), p1.
  - destruct Hr as [Ha Hb]. destruct (Hk a Ha p1 Hl1) as (r & p2 & E2 & Hl2 & Hs2 & Hr).
    exists r, p2. split; [exact E2|]. split; [done|]. split; [congruence|].
    destruct r; [|by rewrite <- Hb]. destruct Hr as [-> Hr]. split; [done|].
    unfold reported in *. rewrite Hb, Hs1 in Hr. done.
Qed.

Lemma s64_range z : - 2 ^ 63 <= s64 z < 2 ^ 63.
Proof. apply (to_signed_range 64). lia. Qed.
Lemma atoi_range t : - 2 ^ 63 <= atoi t < 2 ^ 63.
Proof.
  unfold atoi. destruct (at_ t 0 =? 45); [apply s64_range|]. generalize t. intros l.
  assert (H : forall l a, - 2 ^ 63 <= a < 2 ^ 63 -> - 2 ^ 63 <= fold_left (fun v c => s64 (v * 10 + (c - 48))) l a < 2 ^ 63).
  { clear. induction l as [|c l IH]; intros a Ha; cbn [fold_left]; [done|]. apply IH, s64_range. }
  apply H. lia.
Qed.
Lemma length_cut s : (length (cut s) < KDS_PARSER_VAL_MAX)%nat.
Proof. unfold cut, KDS_PARSER_VAL_MAX. rewrite length_take. lia. Qed.

Create HintDb parser.
Create HintDb runs.
Section Total.
Context `{CT : Ctype} `{KL : Kstrtoll}.

Lemma lexer_read_ok p : tok_ok (fst (lexer_read p)).
Proof.
  unfold lexer_read. destruct (lexer_skip_ws p) as [|c r].
  { split; cbn; unfold KDS_PARSER_VAL_MAX; lia. }
  cbn zeta. do 6 (case_match; [split; first [apply length_cut|apply atoi_range|cbn; unfold KDS_PARSER_VAL_MAX; lia]|]).
  split; cbn; unfold KDS_PARSER_VAL_MAX; lia.
Qed.
Lemma next_ok {B} (k : kds_token -> P B) R : (forall t, tok_ok t -> total (k t) R) -> total (t <- next ;; k t) R.
Proof.
  intros Hk p Hl. unfold next, on_lexer, bind. unfold lexer_next. pose proof (lexer_read_ok (pos (lex p))) as Hr.
  destruct (peeked (lex p)).
  - destruct (Hk _ Hl (Parser (Lexer (pos (lex p)) (peek (lex p)) false) (err_buf p) (err_buf_size p)) Hl)
      as (r & p' & E & H). by exists r, p'.
  - destruct (lexer_read (pos (lex p))) as [t q]. cbn [fst] in Hr.
    destruct (Hk t Hr (Parser (Lexer q (peek (lex p)) false) (err_buf p) (err_buf_size p)) Hl)
      as (r & p' & E & H). by exists r, p'.
Qed.
Lemma look_ok {B} (k : kds_token -> P B) R : (forall t, tok_ok t -> total (k t) R) -> total (t <- look ;; k t) R.
Proof.
  intros Hk p Hl. unfold look, on_lexer, bind. unfold lexer_peek. pose proof (lexer_read_ok (pos (lex p))) as Hr.
  destruct (peeked (lex p)).
  - destruct (Hk _ Hl (Parser (lex p) (err_buf p) (err_buf_size p)) Hl) as (r & p' & E & H). by exists r, p'.
  - destruct (lexer_read (pos (lex p))) as [t q]. cbn [fst] in Hr.
    destruct (Hk t Hr (Parser (Lexer q t true) (err_buf p) (err_buf_size p)) Hr)
      as (r & p' & E & H). by exists r, p'.
Qed.

End Total.
Ltac ptotal :=
  repeat first
    [ apply total_ok | apply total_err; discriminate
    | apply next_ok; intros ?t ?Ht | apply look_ok; intros ?t ?Ht
    | eapply total_bind; [solve [eauto with parser]|intros ?a ?Ha]
    | case_match ].
Section Helpers.
Context `{CT : Ctype} `{KL : Kstrtoll}.
Lemma name_cut (t : bytes) : (length (take (KDS_PARSER_NAME_MAX - 1) t) < KDS_PARSER_NAME_MAX)%nat.
Proof. rewrite length_take. unfold KDS_PARSER_NAME_MAX. lia. Qed.

Lemma expect_keyword_total kw : total (expect_keyword kw) (fun _ => True).
Proof. unfold expect_keyword. by ptotal. Qed.
Lemma expect_token_total ty d : total (expect_token ty d) (fun _ => True).
Proof. unfold expect_token. by ptotal. Qed.
Lemma parse_ident_total : total parse_ident name_ok.
Proof. unfold parse_ident. ptotal. apply name_cut. Qed.
Lemma semicolon_total : total consume_optional_semicolon (fun _ => True).
Proof. unfold consume_optional_semicolon. by ptotal. Qed.
Lemma parse_value_total : total parse_value val_ok.
Proof. unfold parse_value. ptotal; cbn; [apply Ht|apply length_cut|done]. Qed.
Lemma parse_cond_op_total : total parse_cond_op (fun _ => True).
Proof. unfold parse_cond_op. by ptotal. Qed.
End Helpers.
#[export] Hint Resolve expect_keyword_total expect_token_total parse_ident_total semicolon_total
  parse_value_total parse_cond_op_total : parser.

Section Statements.
Context `{CT : Ctype} `{KL : Kstrtoll}.
Lemma type_in_table n d : kds_type_lookup_by_name (Some n) = Some d -> In d kds_type_table.
Proof. cbn [kds_type_lookup_by_name]. intros H. by apply find_some in H as [? _]. Qed.

Lemma parse_cols_total room :
  total (parse_cols room) (fun cols => (0 < length cols <= room)%nat /\ Forall col_ok cols).
Proof.
  induction room as [|room IH]; cbn [parse_cols]; ptotal.
  - destruct Ha1 as [Hl Hc]. cbn [length]. split; [lia|]. constructor; [|done]. split; [done|].
    exists k. eauto using type_in_table.
  - cbn [length]. split; [lia|]. constructor; [|done]. split; [done|]. exists k. eauto using type_in_table.
Qed.
Lemma parse_vals_total room :
  total (parse_vals room) (fun vs => (0 < length vs <= room)%nat /\ Forall val_ok vs).
Proof.
  induction room as [|room IH]; cbn [parse_vals]; ptotal; cbn [length].
  - destruct Ha0 as [Hl Hc]. split; [lia|]. by constructor.
  - split; [lia|]. by constructor.
Qed.
Lemma parse_one_cond_total : total parse_one_cond cond_ok.
Proof. unfold parse_one_cond. ptotal. by split. Qed.
Hint Resolve parse_one_cond_total : parser.
Lemma parse_conds_total room :
  total (parse_conds room) (fun cs => (0 < length cs <= room)%nat /\ Forall cond_ok cs).
Proof.
  induction room as [|room IH]; cbn [parse_conds]; ptotal; cbn [length].
  - destruct Ha0 as [Hl Hc]. split; [lia|]. by constructor.
  - split; [lia|]. by constructor.
Qed.
Hint Resolve parse_cols_total parse_vals_total parse_conds_total : parser.

Lemma next_ret_ok {A B} (x : A) (k : A -> P B) R : total (k x) R -> total (c <- (next ;; ret x) ;; k c) R.
Proof.
  intros Hk p Hl. destruct (next_ok (fun _ => k x) R (fun _ _ => Hk) p Hl) as (r & p' & E & H).
  exists r, p'. by rewrite bind_assoc.
Qed.
Lemma parse_create_total : total parse_create_table stmt_ok.
Proof.
  unfold parse_create_table. ptotal; try (apply next_ret_ok; ptotal); (split; [done|]);
    destruct Ha2; (split; [|done]); unfold KDS_PARSER_MAX_COLS in *; lia.
Qed.
Lemma parse_insert_total : total parse_insert stmt_ok.
Proof. unfold parse_insert. ptotal. by split. Qed.
Lemma parse_select_total : total parse_select stmt_ok.
Proof.
  unfold parse_select. ptotal.
  - destruct Ha1 as [Hl Hc]. split; [done|]. split; [|split; [lia|done]]. split; [|done]. intros _ ->. cbn in Hl. lia.
  - split; [done|]. split; [done|]. split; [cbn; lia|done].
Qed.
Lemma parse_show_total : total parse_show stmt_ok.
Proof. unfold parse_show. by ptotal. Qed.
Hint Resolve parse_create_total parse_insert_total parse_select_total parse_show_total : parser.
Lemma parse_statement_total : total parse_statement stmt_ok.
Proof.
  unfold parse_statement. by ptotal.
Qed.
End Statements.

(** ** Lexing printed tokens *)
Section Lexing.
Context `{CT : Ctype} {CL : CtypeLaws}.

Lemma length_skip_while f p : (length (skip_while f p) <= length p)%nat.
Proof. induction p as [|c p IH]; cbn; [done|]. case_match; cbn; lia. Qed.
Lemma skip_ws_fuel n : forall m p, (length p < n)%nat -> (length p < m)%nat -> skip_ws_loop n p = skip_ws_loop m p.
Proof.
  induction n as [|n IH]; intros [|m] p Hn Hm; try lia. cbn [skip_ws_loop].
  pose proof (length_skip_while isspace p) as Hl. destruct (skip_while isspace p) as [|c q]; [done|].
  destruct ((at_ (c :: q) 0 =? 45) && (at_ (c :: q) 1 =? 45)) eqn:E; [|done].
  cbn [skip_while]. unfold at_ in E; cbn [nth] in E.
  destruct (Z.eqb_spec c 45) as [->|]; [|done]. cbn [Z.eqb Pos.eqb negb].
  pose proof (length_skip_while (fun c => negb (c =? 10)) q). cbn [length] in Hl. apply IH; lia.
Qed.
Lemma skip_space p : lexer_skip_ws (32 :: p) = lexer_skip_ws p.
Proof.
  unfold lexer_skip_ws. transitivity (skip_ws_loop (S (length (32 :: p))) p); [|apply skip_ws_fuel; cbn; lia].
  cbn [skip_ws_loop skip_while]. by rewrite isspace_ascii by lia.
Qed.
Lemma skip_none c q : isspace c = false -> c <> 45 \/ at_ q 0 <> 45 -> lexer_skip_ws (c :: q) = c :: q.
Proof.
  intros Hs Hc. unfold lexer_skip_ws. cbn [skip_ws_loop skip_while length]. rewrite Hs.
  unfold at_ in *. cbn [nth]. destruct (Z.eqb_spec c 45), (Z.eqb_spec (nth 0 q 0) 45); cbn [andb]; try done.
  destruct Hc; done.
Qed.

Definition print_tok (t : kds_token) : bytes :=
  match tok_type t with KDS_TOK_STR_LIT => 39 :: text t ++ [39] | _ => text t end.
Definition layout (ts : list kds_token) : bytes := concat (map (fun t => print_tok t ++ [32]) ts).
Definition lexable (t : kds_token) : Prop := forall r, lexer_read (print_tok t ++ 32 :: r) = (t, 32 :: r).

(** *** The tokens that are printed *)
Definition ascii_ident (s : bytes) : bool :=
  match s with
  | c :: q => (ascii_alpha c || (c =? 95)) && forallb (fun c => ascii_alpha c || is_digit c || (c =? 95)) q
  | [] => false
  end && negb (same_nocase s (cstr "NULL")) && (length s <? KDS_PARSER_NAME_MAX)%nat.
Definition tok_ident (s : bytes) : kds_token := Token KDS_TOK_IDENT s 0.
Definition tok_num (v : Z) : kds_token := Token KDS_TOK_INT_LIT (fmt_lld v) v.
Definition tok_str (s : bytes) : kds_token := Token KDS_TOK_STR_LIT s 0.
Definition tok_null : kds_token := Token KDS_TOK_NULL (cstr "NULL") 0.
Definition tok_char (ty : kds_token_type) (c : Z) : kds_token := Token ty [c] 0.

Lemma take_while_app f s c r : forallb f s = true -> f c = false -> take_while f (s ++ c :: r) = s.
Proof.
  intros Hs Hc. induction s as [|x s IH]; cbn; [by rewrite Hc|]. cbn in Hs. apply andb_prop in Hs as [-> Hs].
  by rewrite IH.
Qed.
Lemma skip_while_app f s c r : forallb f s = true -> f c = false -> skip_while f (s ++ c :: r) = c :: r.
Proof.
  intros Hs Hc. induction s as [|x s IH]; cbn; [by rewrite Hc|]. cbn in Hs. apply andb_prop in Hs as [-> Hs].
  by apply IH.
Qed.
Lemma cut_small s : (length s < KDS_PARSER_VAL_MAX)%nat -> cut s = s.
Proof. intros. unfold cut. apply take_ge. unfold KDS_PARSER_VAL_MAX in *. lia. Qed.
Lemma alpha_isalpha c : ascii_alpha c = true -> isalpha c = true /\ 65 <= c <= 122.
Proof.
  intros H. assert (65 <= c <= 122) by (unfold ascii_alpha in H; lia). by rewrite isalpha_ascii by lia.
Qed.
Lemma not_alpha c : 0 <= c < 128 -> ascii_alpha c = false -> isalpha c = false.
Proof. intros. by rewrite isalpha_ascii. Qed.
Lemma not_space c : 33 <= c < 128 -> isspace c = false.
Proof. intros. rewrite isspace_ascii by lia. unfold ascii_space. lia. Qed.
Lemma end_of_word : isalnum_ 32 = false.
Proof. unfold isalnum_. by rewrite not_alpha by (done || lia). Qed.
Lemma ident_chars q : forallb (fun c => ascii_alpha c || is_digit c || (c =? 95)) q = true -> forallb isalnum_ q = true.
Proof.
  rewrite !forallb_forall. intros H x Hx. specialize (H x Hx). unfold isalnum_.
  destruct (ascii_alpha x) eqn:E; [|destruct (isalpha x); [done|exact H]]. by rewrite (proj1 (alpha_isalpha x E)).
Qed.
(** A word in [lexer_read]. *)
Lemma lex_word c q r :
  (ascii_alpha c || (c =? 95)) = true -> forallb (fun c => ascii_alpha c || is_digit c || (c =? 95)) q = true ->
  (length (c :: q) < KDS_PARSER_VAL_MAX)%nat ->
  lexer_read ((c :: q) ++ 32 :: r) =
    (Token (if same_nocase (c :: q) (cstr "NULL") then KDS_TOK_NULL else KDS_TOK_IDENT) (c :: q) 0, 32 :: r).
Proof.
  intros Hc Hq Hl.
  assert (H65 : 65 <= c <= 122) by (unfold ascii_alpha in Hc; lia).
  assert (Hw : forallb isalnum_ (c :: q) = true).
  { cbn [forallb]. rewrite ident_chars by done. unfold isalnum_.
    destruct (ascii_alpha c) eqn:E; [by rewrite (proj1 (alpha_isalpha c E))|].
    cbn in Hc. rewrite Hc. by destruct (isalpha c), (is_digit c). }
  unfold lexer_read. change ((c :: q) ++ 32 :: r) with (c :: (q ++ 32 :: r)).
  rewrite skip_none; [|apply not_space; lia|left; lia]. cbn zeta beta iota.
  assert (is_quote c = false) as -> by (unfold is_quote; lia).
  assert (is_digit c = false) as -> by (unfold is_digit; lia).
  assert ((c =? 45) = false) as -> by lia. cbn [andb orb].
  assert (isalpha c || (c =? 95) = true) as ->.
  { destruct (ascii_alpha c) eqn:E; [by rewrite (proj1 (alpha_isalpha c E))|]. cbn in Hc. rewrite Hc. by destruct (isalpha c). }
  change (c :: q ++ 32 :: r) with ((c :: q) ++ 32 :: r).
  rewrite take_while_app, skip_while_app by (done || apply end_of_word). by rewrite cut_small.
Qed.
Lemma lexable_ident s : ascii_ident s = true -> lexable (tok_ident s).
Proof.
  intros H r. unfold ascii_ident in H. apply andb_prop in H as [H Hl]. apply andb_prop in H as [H Hn].
  destruct s as [|c q]; [done|]. apply andb_prop in H as [Hc Hq]. apply Nat.ltb_lt in Hl.
  unfold print_tok. cbn [tok_ident tok_type text].
  rewrite lex_word; try done; [|unfold KDS_PARSER_NAME_MAX, KDS_PARSER_VAL_MAX in *; lia].
  by destruct (same_nocase (c :: q) (cstr "NULL")).
Qed.
Lemma lexable_null : lexable tok_null.
Proof.
  intros r. unfold print_tok. cbn [tok_null tok_type text].
  rewrite (lex_word 78 [85; 76; 76]); [done|done|done|cbn; unfold KDS_PARSER_VAL_MAX; lia].
Qed.
Lemma lexable_str s : forallb (fun c => negb (is_quote c)) s = true -> (length s < KDS_PARSER_VAL_MAX)%nat -> lexable (tok_str s).
Proof.
  intros Hq Hl r. unfold lexer_read, print_tok. cbn [tok_str tok_type text].
  change ((39 :: s ++ [39]) ++ 32 :: r) with (39 :: ((s ++ [39]) ++ 32 :: r)). rewrite <- app_assoc. cbn [app].
  rewrite skip_none; [|apply not_space; lia|left; lia]. cbn zeta beta iota.
  change (is_quote 39) with true. cbn iota.
  rewrite take_while_app, skip_while_app by done. by rewrite cut_small.
Qed.
(** A one-character token before a space. *)
Lemma lexable_char c ty :
  (c, ty) ∈ [(40, KDS_TOK_LPAREN); (41, KDS_TOK_RPAREN); (44, KDS_TOK_COMMA); (59, KDS_TOK_SEMICOLON);
             (42, KDS_TOK_STAR); (61, KDS_TOK_EQ); (60, KDS_TOK_LT); (62, KDS_TOK_GT)] -> lexable (tok_char ty c).
Proof.
  intros H r. rewrite !elem_of_cons, elem_of_nil in H. destruct_or! H; try done; injection H as -> ->.
  all: unfold lexer_read, print_tok; cbn [tok_char tok_type text app];
    (rewrite skip_none; [|apply not_space; lia|left; lia]); cbn zeta beta iota;
    rewrite not_alpha by (done || lia); reflexivity.
Qed.
Lemma lexable_op ty c : isspace c = false -> isalpha c = false ->
  (c, ty) ∈ [(33, KDS_TOK_NEQ); (60, KDS_TOK_LTE); (62, KDS_TOK_GTE)] -> lexable (Token ty [c; 61] 0).
Proof.
  intros Hs Ha Hin r. rewrite !elem_of_cons, elem_of_nil in Hin.
  destruct Hin as [[= -> ->]|[[= -> ->]|[[= -> ->]|[]]]]; unfold lexer_read, print_tok; cbn [tok_type text app];
    rewrite skip_none by (done || (left; lia)); cbn zeta beta iota; rewrite Ha; reflexivity.
Qed.

(** *** Numbers *)
Lemma s64_mod a b : a mod 2 ^ 64 = b mod 2 ^ 64 -> s64 a = s64 b.
Proof. intros H. unfold s64, to_signed. by rewrite H. Qed.
Lemma s64_congr a : s64 a mod 2 ^ 64 = a mod 2 ^ 64.
Proof.
  unfold s64, to_signed. case_match; [by rewrite Z.mod_mod by lia|].
  rewrite <- Zminus_mod_idemp_r, Z_mod_same_full, Z.sub_0_r. by rewrite Z.mod_mod by lia.
Qed.
Lemma s64_step a d : s64 (s64 a * 10 + d) = s64 (a * 10 + d).
Proof.
  apply s64_mod. rewrite Z.add_mod, Z.mul_mod, s64_congr by lia.
  by rewrite <- Z.mul_mod, <- Z.add_mod by lia.
Qed.
Definition digit_step (v c : Z) : Z := s64 (v * 10 + (c - 48)).
Lemma fold_digits f : forall z r, 0 <= z < 10 ^ Z.of_nat f ->
  fold_left digit_step (dec_digits f z ++ r) 0 = fold_left digit_step r (s64 z).
Proof.
  induction f as [|f IH]; intros z r Hz.
  { assert (z = 0) as -> by (change (10 ^ Z.of_nat 0) with 1 in Hz; lia). done. }
  cbn [dec_digits]. destruct (Z.ltb_spec z 10) as [Hs|Hs].
  { cbn [app fold_left]. unfold digit_step at 2. do 2 f_equal. lia. }
  rewrite <- app_assoc. rewrite IH.
  - cbn [app fold_left]. f_equal. unfold digit_step. rewrite s64_step. f_equal.
    pose proof (Z.div_mod z 10 ltac:(lia)). lia.
  - rewrite Nat2Z.inj_succ, Z.pow_succ_r in Hz by lia. split; [apply Z.div_pos; lia|apply Z.div_lt_upper_bound; lia].
Qed.
Lemma dec_digits_digits f z : 0 <= z -> forallb is_digit (dec_digits f z) = true.
Proof.
  revert z; induction f as [|f IH]; intros z Hz; [done|]. cbn [dec_digits].
  destruct (Z.ltb_spec z 10); [cbn; unfold is_digit; lia|]. rewrite forallb_app, IH by (apply Z.div_pos; lia).
  cbn. pose proof (Z.mod_pos_bound z 10 ltac:(lia)). unfold is_digit. lia.
Qed.
Lemma atoi_fmt v : - 2 ^ 63 <= v < 2 ^ 63 -> atoi (fmt_lld v) = v.
Proof.
  intros Hv. unfold atoi, fmt_lld.
  change (fun v c : Z => s64 (v * 10 + (c - 48))) with digit_step. destruct (Z.ltb_spec v 0) as [Hn|Hn].
  - unfold at_; cbn [nth Z.eqb Pos.eqb drop skipn]. rewrite drop_0.
    rewrite <- (app_nil_r (dec_digits 20 (- v))), fold_digits by (change (10 ^ Z.of_nat 20) with 100000000000000000000; lia).
    cbn [fold_left]. transitivity (s64 v); [|apply (to_signed_id 64); lia].
    apply s64_mod. rewrite <- (Z.sub_0_l (s64 (- v))), Zminus_mod, s64_congr, <- Zminus_mod. f_equal. lia.
  - destruct (dec_digits_head 20 v Hn ltac:(lia)) as (c & r & E & Hc).
    unfold at_. rewrite E. cbn [nth]. destruct (Z.eqb_spec c 45) as [->|]; [done|]. rewrite <- E.
    rewrite <- (app_nil_r (dec_digits 20 v)), fold_digits by (change (10 ^ Z.of_nat 20) with 100000000000000000000; lia).
    cbn [fold_left]. apply (to_signed_id 64); lia.
Qed.
Lemma length_fmt v : (length (fmt_lld v) < KDS_PARSER_VAL_MAX)%nat.
Proof. pose proof (zlen_fmt_lld v) as H. unfold zlen, KDS_PARSER_VAL_MAX in *. lia. Qed.
Lemma lexable_num v : - 2 ^ 63 <= v < 2 ^ 63 -> lexable (tok_num v).
Proof.
  intros Hv r. unfold lexer_read, print_tok. cbn [tok_num tok_type text].
  pose proof (atoi_fmt v Hv) as Ha. pose proof (length_fmt v) as Hl. unfold fmt_lld in *.
  destruct (Z.ltb_spec v 0) as [Hn|Hn].
  - destruct (dec_digits_head 20 (- v) ltac:(lia) ltac:(lia)) as (c & q & E & Hc).
    pose proof (dec_digits_digits 20 (- v) ltac:(lia)) as Hd. rewrite E in *.
    change ((45 :: c :: q) ++ 32 :: r) with (45 :: ((c :: q) ++ 32 :: r)).
    rewrite skip_none; [|apply not_space; lia|right; unfold at_; cbn; intros ->; done]. cbn zeta beta iota.
    change (is_quote 45) with false. change (is_digit 45) with false. change (45 =? 45) with true.
    change (at_ (45 :: (c :: q) ++ 32 :: r) 1) with c. rewrite Hc. cbn [andb orb]. rewrite take_while_app, skip_while_app by done.
    cbn [app]. rewrite cut_small by done. rewrite Ha. unfold tok_num, fmt_lld.
    destruct (Z.ltb_spec v 0); [|lia]. by rewrite E.
  - destruct (dec_digits_head 20 v ltac:(lia) ltac:(lia)) as (c & q & E & Hc).
    pose proof (dec_digits_digits 20 v ltac:(lia)) as Hd. rewrite E in *.
    assert (H48 : 48 <= c <= 57) by (unfold is_digit in Hc; lia).
    change ((c :: q) ++ 32 :: r) with (c :: (q ++ 32 :: r)).
    rewrite skip_none; [|apply not_space; lia|left; lia]. cbn zeta beta iota.
    assert (is_quote c = false) as -> by (unfold is_quote; lia). rewrite Hc.
    assert ((c =? 45) = false) as -> by lia. cbn [andb orb].
    change (c :: q ++ 32 :: r) with ((c :: q) ++ 32 :: r). rewrite take_while_app, skip_while_app by done.
    cbn [app]. rewrite cut_small by done. rewrite Ha. unfold tok_num, fmt_lld.
    destruct (Z.ltb_spec v 0); [lia|]. by rewrite E.
Qed.

(** ** Token streams *)
Definition tok_eof : kds_token := Token KDS_TOK_EOF [] 0.
Fixpoint scan (p : bytes) (ts : list kds_token) : Prop :=
  match ts with
  | [] => fst (lexer_read p) = tok_eof
  | t :: ts => exists q, lexer_read p = (t, q) /\ scan q ts
  end.
Lemma scan_space p ts : scan p ts -> scan (32 :: p) ts.
Proof.
  assert (H : lexer_read (32 :: p) = lexer_read p) by (unfold lexer_read; by rewrite skip_space).
  destruct ts; cbn [scan]; by rewrite H.
Qed.
Lemma scan_layout ts : Forall lexable ts -> scan (layout ts) ts.
Proof.
  induction 1 as [|t ts Ht _ IH]; [done|]. cbn [scan].
  exists (32 :: layout ts). split; [|by apply scan_space].
  unfold layout. cbn [map concat]. rewrite <- app_assoc. apply Ht.
Qed.
Definition lexes (l : kds_lexer) (ts : list kds_token) : Prop :=
  if peeked l then match ts with [] => peek l = tok_eof | t :: ts => peek l = t /\ scan (pos l) ts end
  else scan (pos l) ts.
Definition runs {A} (m : P A) (ts : list kds_token) (a : A) (ts' : list kds_token) : Prop :=
  forall p, lexes (lex p) ts -> exists p', m p = Ret (inr a) p' /\ lexes (lex p') ts'.

Lemma runs_ok {A} (a : A) ts : runs (ok a) ts a ts.
Proof. intros p H. by exists p. Qed.
Lemma runs_bind {A B} (m : P A) (k : A -> P B) ts a ts1 b ts2 :
  runs m ts a ts1 -> runs (k a) ts1 b ts2 -> runs (pbind m k) ts b ts2.
Proof.
  intros Hm Hk p Hp. destruct (Hm p Hp) as (p1 & E & H1). destruct (Hk p1 H1) as (p2 & E2 & H2).
  exists p2. split; [|done]. unfold pbind. by erewrite bind_ok by exact E.
Qed.
Lemma runs_next {B} (k : kds_token -> P B) t ts b ts' :
  runs (k t) ts b ts' -> runs (x <- next ;; k x) (t :: ts) b ts'.
Proof.
  intros Hk p Hp. unfold next, on_lexer, bind, lexer_next. unfold lexes in Hp. destruct (peeked (lex p)) eqn:Epk.
  - destruct Hp as [-> Hs].
    destruct (Hk (Parser (Lexer (pos (lex p)) t false) (err_buf p) (err_buf_size p)) Hs) as (p' & E & H). by exists p'.
  - destruct Hp as (q & E & Hs). rewrite E.
    destruct (Hk (Parser (Lexer q (peek (lex p)) false) (err_buf p) (err_buf_size p)) Hs) as (p' & E' & H). by exists p'.
Qed.
Lemma runs_look {B} (k : kds_token -> P B) t ts b ts' :
  runs (k t) (t :: ts) b ts' -> runs (x <- look ;; k x) (t :: ts) b ts'.
Proof.
  intros Hk p Hp. unfold look, on_lexer, bind, lexer_peek. pose proof Hp as Hp0. unfold lexes in Hp. destruct (peeked (lex p)) eqn:Epk.
  - destruct Hp as [Hpk Hs]. rewrite Hpk.
    destruct (Hk (Parser (lex p) (err_buf p) (err_buf_size p)) Hp0) as (p' & E & H). by exists p'.
  - destruct Hp as (q & E & Hs). rewrite E.
    destruct (Hk (Parser (Lexer q t true) (err_buf p) (err_buf_size p)) (conj eq_refl Hs)) as (p' & E' & H). by exists p'.
Qed.
Lemma runs_look_end {B} (k : kds_token -> P B) b ts' :
  runs (k tok_eof) [] b ts' -> runs (x <- look ;; k x) [] b ts'.
Proof.
  intros Hk p Hp. unfold look, on_lexer, bind, lexer_peek. pose proof Hp as Hp0. unfold lexes in Hp. destruct (peeked (lex p)) eqn:Epk.
  - rewrite Hp. destruct (Hk (Parser (lex p) (err_buf p) (err_buf_size p)) Hp0) as (p' & E & H). by exists p'.
  - cbn [scan] in Hp. destruct (lexer_read (pos (lex p))) as [t q]. cbn [fst] in Hp. subst t.
    destruct (Hk (Parser (Lexer q tok_eof true) (err_buf p) (err_buf_size p)) eq_refl) as (p' & E' & H). by exists p'.
Qed.
End Lexing.

(** ** Printing statements *)
Definition kw (s : bytes) : kds_token := tok_ident s.
Definition tok_comma := tok_char KDS_TOK_COMMA 44.
Definition tok_lp := tok_char KDS_TOK_LPAREN 40.
Definition tok_rp := tok_char KDS_TOK_RPAREN 41.
Definition tok_semi := tok_char KDS_TOK_SEMICOLON 59.
Definition tok_star := tok_char KDS_TOK_STAR 42.
Fixpoint sep_by {A} (sep : kds_token) (f : A -> list kds_token) (l : list A) : list kds_token :=
  match l with
  | [] => []
  | x :: l => f x ++ match l with [] => [] | _ => sep :: sep_by sep f l end
  end.
Definition val_tok (v : kds_ast_val) : kds_token :=
  match v with KDS_VAL_INT z => tok_num z | KDS_VAL_STR s => tok_str s | KDS_VAL_NULL => tok_null end.
Definition op_tok (op : kds_cond_op) : kds_token :=
  match op with
  | KDS_OP_EQ => tok_char KDS_TOK_EQ 61 | KDS_OP_NEQ => Token KDS_TOK_NEQ [33; 61] 0
  | KDS_OP_LT => tok_char KDS_TOK_LT 60 | KDS_OP_LTE => Token KDS_TOK_LTE [60; 61] 0
  | KDS_OP_GT => tok_char KDS_TOK_GT 62 | KDS_OP_GTE => Token KDS_TOK_GTE [62; 61] 0
  end.
Section Printing.
Context `{KL : Kstrtoll}.
Definition type_name (ty : Z) : bytes :=
  match kds_type_lookup_by_val ty with Some d => td_name d | None => [] end.
Definition col_toks (c : kds_ast_col_def) : list kds_token := [tok_ident (col_name c); tok_ident (type_name (col_type_val c))].
Definition cond_toks (c : kds_ast_cond) : list kds_token := [tok_ident (cond_col c); op_tok (cond_op c); val_tok (cond_val c)].
Definition stmt_toks (s : kds_stmt) : list kds_token :=
  match s with
  | KDS_STMT_CREATE_TABLE n cols cl =>
      [kw (cstr "CREATE"); kw (cstr "TABLE"); tok_ident n; tok_lp] ++ sep_by tok_comma col_toks cols ++
      [tok_rp; kw (match cl with KDS_CLUSTERED_HEAP => cstr "HEAP" | KDS_CLUSTERED_BTREE => cstr "BTREE" end); tok_semi]
  | KDS_STMT_INSERT n vs =>
      [kw (cstr "INSERT"); kw (cstr "INTO"); tok_ident n; kw (cstr "VALUES"); tok_lp] ++
      sep_by tok_comma (fun v => [val_tok v]) vs ++ [tok_rp; tok_semi]
  | KDS_STMT_SELECT n _ cs =>
      [kw (cstr "SELECT"); tok_star; kw (cstr "FROM"); tok_ident n] ++
      match cs with [] => [] | _ => kw (cstr "WHERE") :: sep_by (kw (cstr "AND")) cond_toks cs end ++ [tok_semi]
  | KDS_STMT_SHOW_META => [kw (cstr "SHOW"); kw (cstr "META"); tok_semi]
  | KDS_STMT_SHOW_ALLOC => [kw (cstr "SHOW"); kw (cstr "ALLOC"); tok_semi]
  end.
Definition print_stmt (s : kds_stmt) : bytes := layout (stmt_toks s).

(** What can be written down: ASCII identifiers other than NULL, string
    literals without quotes. *)
Definition printable_val (v : kds_ast_val) : Prop :=
  val_ok v /\ match v with KDS_VAL_STR s => forallb (fun c => negb (is_quote c)) s = true | _ => True end.
Definition printable (s : kds_stmt) : Prop :=
  stmt_ok s /\
  match s with
  | KDS_STMT_CREATE_TABLE n cols _ => ascii_ident n = true /\ Forall (fun c => ascii_ident (col_name c) = true) cols
  | KDS_STMT_INSERT n vs => ascii_ident n = true /\ Forall printable_val vs
  | KDS_STMT_SELECT n _ cs =>
      ascii_ident n = true /\ Forall (fun c => ascii_ident (cond_col c) = true /\ printable_val (cond_val c)) cs
  | _ => True
  end.
End Printing.

(** ** Parsing what was printed *)
Section RoundTrip.
Context `{CT : Ctype} {CL : CtypeLaws} `{KL : Kstrtoll}.

Lemma ident_short n : ascii_ident n = true -> (length n < KDS_PARSER_NAME_MAX)%nat.
Proof. unfold ascii_ident. intros H. apply andb_prop in H as [_ H]. by apply Nat.ltb_lt. Qed.
Lemma same_nocase_refl s : same_nocase s s = true.
Proof. by apply bool_decide_eq_true_2. Qed.
Lemma runs_keyword k ts : runs (expect_keyword k) (kw k :: ts) tt ts.
Proof. unfold expect_keyword. apply runs_next. cbn. rewrite same_nocase_refl. apply runs_ok. Qed.
Lemma runs_token ty c d ts : runs (expect_token ty d) (tok_char ty c :: ts) tt ts.
Proof.
  unfold expect_token. apply runs_next. unfold tok_is. cbn [tok_char tok_type].
  rewrite bool_decide_eq_true_2 by done. apply runs_ok.
Qed.
Lemma runs_ident n ts : (length n < KDS_PARSER_NAME_MAX)%nat -> runs parse_ident (tok_ident n :: ts) n ts.
Proof.
  intros Hl. unfold parse_ident. apply runs_next. cbn [tok_ident tok_is tok_type text].
  replace (take (KDS_PARSER_NAME_MAX - 1) n) with n; [apply runs_ok|].
  symmetry. apply take_ge. unfold KDS_PARSER_NAME_MAX in *. lia.
Qed.
Lemma runs_semi ts : runs consume_optional_semicolon (tok_semi :: ts) tt ts.
Proof. unfold consume_optional_semicolon. apply runs_look. cbn. apply runs_next, runs_ok. Qed.
Lemma runs_value v ts : val_ok v -> runs parse_value (val_tok v :: ts) v ts.
Proof.
  intros Hv. unfold parse_value. apply runs_next. destruct v; cbn [val_tok tok_num tok_str tok_null tok_type tok_int text];
    [apply runs_ok| |apply runs_ok]. rewrite cut_small by done. apply runs_ok.
Qed.
Lemma runs_op op ts : runs parse_cond_op (op_tok op :: ts) op ts.
Proof. unfold parse_cond_op. apply runs_next. destruct op; apply runs_ok. Qed.
Hint Resolve runs_keyword runs_token runs_ident runs_semi runs_value runs_op runs_ok : runs.

Lemma runs_vals vs : forall room t rest, (0 < length vs <= room)%nat -> Forall val_ok vs -> tok_is KDS_TOK_COMMA t = false ->
  runs (parse_vals room) (sep_by tok_comma (fun v => [val_tok v]) vs ++ t :: rest) vs (t :: rest).
Proof.
  induction vs as [|v vs IH]; intros [|room] t rest Hl Hv Ht; cbn [length] in Hl; try lia.
  apply Forall_cons in Hv as [Hv Hvs]. cbn [sep_by parse_vals].
  rewrite <- app_assoc. cbn [app]. eapply runs_bind; [by apply runs_value|]. destruct vs as [|v' vs].
  - cbn [app]. apply runs_look. rewrite Ht. apply runs_ok.
  - cbn [app]. apply runs_look. cbn [tok_comma tok_char tok_is tok_type]. apply runs_next.
    eapply runs_bind; [|apply runs_ok]. apply IH; cbn [length] in *; [lia|done|done].
Qed.

Lemma type_found ty len : (exists d, In d kds_type_table /\ ty = type_val d /\ len = fixed_len d) ->
  ascii_ident (type_name ty) = true /\
  exists d, kds_type_lookup_by_name (Some (type_name ty)) = Some d /\ type_val d = ty /\ fixed_len d = len.
Proof.
  intros (d & Hd & -> & ->). destruct (type_registry_lookup) as [Hr _]. destruct (Hr d Hd) as [Hv Hn].
  unfold type_name. rewrite Hv. split; [|by exists d].
  clear -Hd. repeat (destruct Hd as [<-|Hd]; [reflexivity|]). destruct Hd.
Qed.
Lemma runs_cols cols : forall room t rest, (0 < length cols <= room)%nat -> Forall col_ok cols -> tok_is KDS_TOK_COMMA t = false ->
  runs (parse_cols room) (sep_by tok_comma col_toks cols ++ t :: rest) cols (t :: rest).
Proof.
  induction cols as [|c cols IH]; intros [|room] t rest Hl Hc Ht; cbn [length] in Hl; try lia.
  apply Forall_cons in Hc as [[Hn Hty] Hcs]. cbn [sep_by parse_cols].
  destruct (type_found _ _ Hty) as (Hid & d & Hlook & Hv & Hlen). unfold col_toks at 1.
  rewrite <- app_assoc. cbn [app]. eapply runs_bind; [by apply runs_ident|].
  eapply runs_bind; [by apply runs_ident, ident_short|]. rewrite Hlook, Hv, Hlen.
  replace (ColDef (col_name c) (col_type_val c) (col_len c)) with c by (by destruct c).
  destruct cols as [|c' cols].
  - cbn [app]. apply runs_look. rewrite Ht. apply runs_ok.
  - cbn [app]. apply runs_look. cbn [tok_comma tok_char tok_is tok_type]. apply runs_next.
    eapply runs_bind; [|apply runs_ok]. apply IH; cbn [length] in *; [lia|done|done].
Qed.

Lemma runs_cond c ts : cond_ok c -> runs parse_one_cond (cond_toks c ++ ts) c ts.
Proof.
  intros [Hn Hv]. unfold parse_one_cond, cond_toks. cbn [app].
  eapply runs_bind; [by apply runs_ident|]. eapply runs_bind; [apply runs_op|].
  eapply runs_bind; [by apply runs_value|]. destruct c. apply runs_ok.
Qed.
Lemma runs_conds cs : forall room t rest, (0 < length cs <= room)%nat -> Forall cond_ok cs -> tok_is KDS_TOK_IDENT t = false ->
  runs (parse_conds room) (sep_by (kw (cstr "AND")) cond_toks cs ++ t :: rest) cs (t :: rest).
Proof.
  induction cs as [|c cs IH]; intros [|room] t rest Hl Hc Ht; cbn [length] in Hl; try lia.
  apply Forall_cons in Hc as [Hc Hcs]. cbn [sep_by parse_conds].
  rewrite <- app_assoc. eapply runs_bind; [by apply runs_cond|]. destruct cs as [|c' cs].
  - cbn [app]. apply runs_look. rewrite Ht. apply runs_ok.
  - cbn [app]. apply runs_look. unfold kw at 1 2. cbn [tok_ident tok_is tok_type text]. rewrite same_nocase_refl.
    cbn [andb]. apply runs_next. eapply runs_bind; [|apply runs_ok]. apply IH; cbn [length] in *; [lia|done|done].
Qed.

Ltac follow := repeat first
  [ apply runs_next | eapply runs_bind; [solve [eauto using ident_short with runs]|] ].
Lemma runs_next_ret {A B} (x : A) (k : A -> P B) t ts b ts' :
  runs (k x) ts b ts' -> runs (c <- (next ;; ret x) ;; k c) (t :: ts) b ts'.
Proof.
  intros Hk p Hp. destruct (runs_next (fun _ => k x) t ts b ts' Hk p Hp) as (p' & E & H).
  exists p'. by rewrite bind_assoc.
Qed.
Lemma runs_create n cols cl : stmt_ok (KDS_STMT_CREATE_TABLE n cols cl) ->
  runs parse_create_table (drop 1 (stmt_toks (KDS_STMT_CREATE_TABLE n cols cl))) (KDS_STMT_CREATE_TABLE n cols cl) [].
Proof.
  intros (Hn & Hl & Hc). unfold parse_create_table. cbn [stmt_toks app drop].
  follow. eapply runs_bind; [by apply runs_cols|]. eapply runs_bind; [apply runs_token|].
  destruct (Nat.eqb_spec (length cols) 0); [lia|]. apply runs_look.
  destruct cl; [apply (runs_next_ret KDS_CLUSTERED_HEAP)|apply (runs_next_ret KDS_CLUSTERED_BTREE)];
    (eapply runs_bind; [apply runs_semi|apply runs_ok]).
Qed.
Lemma runs_insert n vs : stmt_ok (KDS_STMT_INSERT n vs) ->
  runs parse_insert (drop 1 (stmt_toks (KDS_STMT_INSERT n vs))) (KDS_STMT_INSERT n vs) [].
Proof.
  intros (Hn & Hl & Hv). unfold parse_insert. cbn [stmt_toks app drop].
  follow. eapply runs_bind; [by apply runs_vals|]. eapply runs_bind; [apply runs_token|].
  destruct (Nat.eqb_spec (length vs) 0); [lia|]. eapply runs_bind; [apply runs_semi|apply runs_ok].
Qed.
Lemma runs_select n w cs : stmt_ok (KDS_STMT_SELECT n w cs) ->
  runs parse_select (drop 1 (stmt_toks (KDS_STMT_SELECT n w cs))) (KDS_STMT_SELECT n w cs) [].
Proof.
  intros (Hn & Hw & Hl & Hc). unfold parse_select. cbn [stmt_toks app drop]. apply runs_next.
  cbn [tok_star tok_char tok_is tok_type negb]. eapply runs_bind; [apply runs_keyword|].
  eapply runs_bind; [by apply runs_ident|]. destruct cs as [|c cs].
  - destruct w; [by destruct (proj1 Hw eq_refl)|]. cbn [app]. apply runs_look. cbn.
    eapply runs_bind; [apply runs_semi|apply runs_ok].
  - assert (w = true) as -> by (by apply Hw). cbn [app]. apply runs_look.
    unfold kw at 1 2. cbn [tok_ident tok_is tok_type text]. rewrite same_nocase_refl. cbn [andb].
    apply runs_next. eapply runs_bind; [apply runs_conds; [cbn [length] in *; lia|done|done]|].
    eapply runs_bind; [apply runs_semi|apply runs_ok].
Qed.
Lemma runs_statement s : stmt_ok s -> runs parse_statement (stmt_toks s) s [].
Proof.
  intros Hs. assert (Htail : forall s : kds_stmt, runs (tail <- look ;; if negb (tok_is KDS_TOK_EOF tail)
    then parser_err (cstr "unexpected token " ++ quoted (text tail) ++ cstr " after end of statement") else ok s) [] s []).
  { intros s'. apply runs_look_end. cbn. apply runs_ok. }
  unfold parse_statement. destruct s as [n cols cl|n vs|n w cs| |]; apply runs_next.
  - eapply runs_bind; [exact (runs_create n cols cl Hs)|apply Htail].
  - eapply runs_bind; [exact (runs_insert n vs Hs)|apply Htail].
  - eapply runs_bind; [exact (runs_select n w cs Hs)|apply Htail].
  - eapply runs_bind; [|apply Htail]. unfold parse_show. apply runs_next.
    eapply runs_bind; [apply runs_semi|apply runs_ok].
  - eapply runs_bind; [|apply Htail]. unfold parse_show. apply runs_next.
    eapply runs_bind; [apply runs_semi|apply runs_ok].
Qed.

(** *** Every printed token can be lexed *)
Ltac in_list := rewrite !elem_of_cons; tauto.
Lemma lexable_punctuation :
  lexable tok_comma /\ lexable tok_lp /\ lexable tok_rp /\ lexable tok_semi /\ lexable tok_star.
Proof. split_and!; apply lexable_char; in_list. Qed.
Lemma lexable_op_tok op : lexable (op_tok op).
Proof.
  destruct op; cbn [op_tok]; first [apply lexable_char; in_list
    |apply lexable_op; [apply not_space; lia|apply not_alpha; [lia|done]|in_list]].
Qed.
Lemma lexable_val v : printable_val v -> lexable (val_tok v).
Proof.
  intros [Hv Hq]. destruct v; cbn [val_tok]; [by apply lexable_num|by apply lexable_str|apply lexable_null].
Qed.
Lemma lexable_sep {A} sep (f : A -> list kds_token) l :
  lexable sep -> Forall (fun x => Forall lexable (f x)) l -> Forall lexable (sep_by sep f l).
Proof.
  intros Hs. induction 1 as [|x l Hx Hl IH]; cbn [sep_by]; [done|].
  apply Forall_app_2; [done|]. destruct l; [done|]. by constructor.
Qed.
Lemma lexable_stmt s : printable s -> Forall lexable (stmt_toks s).
Proof.
  intros [Hok Hp]. destruct lexable_punctuation as (Hcomma & Hlp & Hrp & Hsemi & Hstar).
  assert (Hkw : forall k, ascii_ident k = true -> lexable (kw k)) by (intros; by apply lexable_ident).
  destruct s as [n cols cl|n vs|n w cs| |]; cbn [stmt_toks];
    repeat first [apply Forall_app_2 | apply Forall_cons_2 | apply Forall_nil_2];
    try assumption; try (apply lexable_ident; first [reflexivity | by apply Hp | by destruct cl]).
  - apply lexable_sep; [done|]. destruct Hok as (_ & _ & Hc), Hp as [_ Hp].
    apply Forall_forall. intros c Hin. rewrite Forall_forall in Hc, Hp. destruct (Hc c Hin) as [_ Hty].
    destruct (type_found _ _ Hty) as [Hid _]. unfold col_toks.
    repeat constructor; by apply lexable_ident; auto.
  - apply lexable_sep; [done|]. destruct Hp as [_ Hp]. eapply Forall_impl; [exact Hp|].
    intros v Hv. repeat constructor. by apply lexable_val.
  - destruct Hp as [_ Hp]. destruct cs as [|c cs]; [done|]. constructor; [by apply Hkw|].
    apply lexable_sep; [by apply Hkw|]. eapply Forall_impl; [exact Hp|]. intros c' [Hn Hv]. unfold cond_toks.
    repeat constructor; [by apply lexable_ident|apply lexable_op_tok|by apply lexable_val].
Qed.
End RoundTrip.

Section Theorems.
Context `{CT : Ctype} `{KL : Kstrtoll}.
(** C32.  [kds_parse] returns for every input.  Success leaves the error
    buffer empty and yields a statement within all limits (names below 64
    characters, 1 to 32 columns or values, at most 16 conditions, every
    column type registered, every integer a 64-bit one); failure is
    [-EINVAL] with a non-empty message that fits into the buffer. *)
Theorem parse_total sql b size :
  1 < size ->
  exists r p', kds_parse sql (Some b) size = Ret r p' /\
    match r with
    | inr stmt => stmt_ok stmt /\ err_buf p' = Some []
    | inl e => e = - EINVAL /\ exists m, err_buf p' = Some m /\ m <> [] /\ zlen m < size
    end.
Proof.
  intros Hs. unfold kds_parse. destruct (Z.eqb_spec size 0); [lia|].
  destruct (parse_statement_total (parser_init sql (Some []) size)) as (r & p' & E & _ & Hsz & Hr).
  { split; cbn; unfold KDS_PARSER_VAL_MAX; lia. }
  exists r, p'. split; [exact E|]. destruct r as [e|stmt]; [|done]. destruct Hr as [-> Hr]. split; [done|].
  by apply Hr.
Qed.

(** C18.  Parsing inverts printing: the text of a statement (every name an
    ASCII identifier other than NULL, every string without quotes) parses
    to exactly that statement, with any error buffer. *)
Theorem parse_print {CL : CtypeLaws} s buf size :
  printable s -> exists p', kds_parse (print_stmt s) buf size = Ret (inr s) p'.
Proof.
  intros Hs. unfold kds_parse. set (b := match buf with Some b => _ | None => None end).
  destruct (runs_statement s (proj1 Hs) (parser_init (print_stmt s) b size)) as (p' & E & _); [|by exists p'].
  unfold lexes. cbn. by apply scan_layout, lexable_stmt.
Qed.
End Theorems.

(** ** The ASCII classes, and concrete instances *)
Definition ascii_ctype : Ctype := {| isspace := ascii_space; isalpha := ascii_alpha |}.
Lemma ascii_ctype_laws : @CtypeLaws ascii_ctype.
Proof.
  split; try done. intros c. unfold isspace, isalpha; cbn. unfold ascii_space, ascii_alpha. lia.
Qed.
#[local] Existing Instances ascii_ctype ascii_ctype_laws.
#[local] Existing Instance kstrtoll_ref.
Definition parse_result (sql : bytes) : Z + kds_stmt :=
  match kds_parse sql (Some []) 256 with Ret r _ => r | Halt _ _ => inl 0 end.

(** Two departures from the grammar in kds_parser.h: type names are
    matched as they are written, so the upper-case names of the grammar
    are refused while the lower-case ones are accepted; and a string
    literal whose closing quote is missing is accepted as if it ended at
    the end of the input. *)
Theorem parser_departs_from_grammar :
  parse_result (cstr "CREATE TABLE t (a INT8);") = inl (- EINVAL) /\
  parse_result (cstr "create table t (a int8);") =
    inr (KDS_STMT_CREATE_TABLE (cstr "t") [ColDef (cstr "a") KDS_TYPE_INT8 1] KDS_CLUSTERED_HEAP) /\
  parse_result (cstr "SELECT * FROM t WHERE a = 'x;") =
    inr (KDS_STMT_SELECT (cstr "t") true [Cond (cstr "a") KDS_OP_EQ (KDS_VAL_STR (cstr "x;"))]).
Proof. by vm_compute. Qed.

Lemma parse_total_witness :
  exists r p', kds_parse (cstr "SELECT * FROM t;") (Some []) 256 = Ret r p' /\
    match r with
    | inr stmt => stmt_ok stmt /\ err_buf p' = Some []
    | inl e => e = - EINVAL /\ exists m, err_buf p' = Some m /\ m <> [] /\ zlen m < 256
    end.
Proof. apply (parse_total (cstr "SELECT * FROM t;") [] 256). lia. Defined.
Definition demo_insert : kds_stmt := KDS_STMT_INSERT (cstr "t1") [KDS_VAL_INT (-7); KDS_VAL_STR (cstr "a b"); KDS_VAL_NULL].
Lemma parse_print_witness :
  exists p', kds_parse (cstr "INSERT INTO t1 VALUES ( -7 , 'a b' , NULL ) ; ") None 0 = Ret (inr demo_insert) p'.
Proof.
  apply (parse_print demo_insert None 0). split.
  - split; [|split]; cbn; unfold name_ok, KDS_PARSER_NAME_MAX, KDS_PARSER_MAX_VALS; cbn; [lia|lia|].
    repeat constructor; cbn; unfold KDS_PARSER_VAL_MAX; lia.
  - split; [reflexivity|]. repeat constructor; cbn; unfold KDS_PARSER_VAL_MAX; try lia; reflexivity.
Defined.
