(* ===== verification/State.v ===== *)
(** * State: the module's global state

    One record holds the globals of the source files: the block device
    and its content (blkdev.c), the superblock (meta.c), the buffer pool
    (page_mgr.c), the free list (page.c) and the page allocator
    (page_alloc.c).  [tick] counts the calls into the kernel that can
    fail or vary, so that each gets its own answer.  Pointers to frames
    are indices into the pool's frame array: two holders of the same
    index see each other's writes. *)
From S2P Require Import Prelude Layout.
From stdpp Require Import prelude gmap list.
From Stdlib Require Import ZArith Lia.
Local Open Scope Z_scope.
Local Open Scope kds_scope.

(** ** Data of kds_meta.h, kds_page_mgr.h and kds_page_alloc.h *)
Record kds_superblock := Superblock {
  sb_magic : Z; sb_version : Z; sb_reserved1 : Z;
  max_page_id : Z; last_commit_page_id : Z;
  create_time : Z; last_mount_time : Z; last_fsync_time : Z;
  total_pages : Z; free_pages : Z;
  alloc_point : Z; alloc_remaining : Z;
  sb_reserved2 : bytes }.

Record kds_buf_pool := BufPool {
  frames : list kds_frame;
  buf_map : gmap Z nat;
  free_frames : list nat;
  nr_free : Z }.

Record kds_page_allocator := Allocator {
  reserved : Z; cursor : Z; ring : list (option nat) }.

Record kds_state := State {
  tick : nat;
  kds_bdev : bool;
  disk : gmap Z bytes;
  superblock : option kds_superblock;
  sb_io_page : option bytes;
  g_fresh_init : bool;
  g_pool : option kds_buf_pool;
  g_alloc : option kds_page_allocator;
  free_list : list nat }.

Definition set_tick (x : nat) (s : kds_state) : kds_state :=
  State x (kds_bdev s) (disk s) (superblock s) (sb_io_page s) (g_fresh_init s) (g_pool s) (g_alloc s) (free_list s).
Definition set_kds_bdev (x : bool) (s : kds_state) : kds_state :=
  State (tick s) x (disk s) (superblock s) (sb_io_page s) (g_fresh_init s) (g_pool s) (g_alloc s) (free_list s).
Definition set_disk (x : gmap Z bytes) (s : kds_state) : kds_state :=
  State (tick s) (kds_bdev s) x (superblock s) (sb_io_page s) (g_fresh_init s) (g_pool s) (g_alloc s) (free_list s).
Definition set_superblock (x : option kds_superblock) (s : kds_state) : kds_state :=
  State (tick s) (kds_bdev s) (disk s) x (sb_io_page s) (g_fresh_init s) (g_pool s) (g_alloc s) (free_list s).
Definition set_sb_io_page (x : option bytes) (s : kds_state) : kds_state :=
  State (tick s) (kds_bdev s) (disk s) (superblock s) x (g_fresh_init s) (g_pool s) (g_alloc s) (free_list s).
Definition set_g_fresh_init (x : bool) (s : kds_state) : kds_state :=
  State (tick s) (kds_bdev s) (disk s) (superblock s) (sb_io_page s) x (g_pool s) (g_alloc s) (free_list s).
Definition set_g_pool (x : option kds_buf_pool) (s : kds_state) : kds_state :=
  State (tick s) (kds_bdev s) (disk s) (superblock s) (sb_io_page s) (g_fresh_init s) x (g_alloc s) (free_list s).
Definition set_g_alloc (x : option kds_page_allocator) (s : kds_state) : kds_state :=
  State (tick s) (kds_bdev s) (disk s) (superblock s) (sb_io_page s) (g_fresh_init s) (g_pool s) x (free_list s).
Definition set_free_list (x : list nat) (s : kds_state) : kds_state :=
  State (tick s) (kds_bdev s) (disk s) (superblock s) (sb_io_page s) (g_fresh_init s) (g_pool s) (g_alloc s) x.

(** The state when the module is loaded: no device, nothing allocated. *)
Definition boot_state (d : gmap Z bytes) : kds_state :=
  State 0 false d None None false None None [].

Section Services.
Context `{K : Kernel}.

(** ** Answers of the kernel *)
Definition oracle {A} (g : nat -> A) : M kds_state A :=
  fun s => Ret (g (tick s)) (set_tick (S (tick s)) s).
Definition alloc_ok : M kds_state bool := oracle k_alloc.

(** ** Frames of the pool *)
Definition on_frame {A} (fid : nat) (m : M kds_frame A) : M kds_state A := fun s =>
  match g_pool s with
  | None => Halt Fault s
  | Some pl =>
      match frames pl !! fid with
      | None => Halt Fault s
      | Some f =>
          let put f' := set_g_pool (Some (BufPool (<[fid := f']> (frames pl)) (buf_map pl) (free_frames pl) (nr_free pl))) s in
          match m f with
          | Ret a f' => Ret a (put f')
          | Halt h f' => Halt h (put f')
          end
      end
  end.
Definition frame_mod (fid : nat) (g : kds_frame -> kds_frame) : M kds_state unit :=
  on_frame fid (modify g).
Definition frame_get {A} (fid : nat) (g : kds_frame -> A) : M kds_state A :=
  on_frame fid (gets g).
End Services.
