(* ===== verification/Disk.v ===== *)
(** * Disk: the block device (kernel/kds/blkdev.c)

    The device is a map from sector numbers to 512-byte sectors; a sector
    never written reads as zeros.  A transfer whose [submit_bio_wait]
    fails moves nothing.  The base page size is that of x86_64.
    Opening and closing the device file is in Main.v. *)
From S2P Require Import Prelude Layout State.
From stdpp Require Import prelude gmap list.
From Stdlib Require Import ZArith Lia.
Local Open Scope Z_scope.
Local Open Scope kds_scope.

Definition PAGE_SIZE : Z := 4096.
Definition KDS_PAGE_NR_BASE_PAGES : nat := Z.to_nat (KDS_PAGE_SIZE / PAGE_SIZE).

(** ** The medium *)
Definition read_sector (d : gmap Z bytes) (s : Z) : bytes := default (zeros 512) (d !! s).
Fixpoint disk_read (d : gmap Z bytes) (s : Z) (n : nat) : bytes :=
  match n with
  | O => []
  | S n => read_sector d s ++ disk_read d (s + 1) n
  end.
Fixpoint disk_write (d : gmap Z bytes) (s : Z) (n : nat) (data : bytes) : gmap Z bytes :=
  match n with
  | O => d
  | S n => disk_write (<[s := take 512 data]> d) (s + 1) n (drop 512 data)
  end.
Definition sectors_of (n : Z) : nat := Z.to_nat (n / KDS_BLKDEV_SECTOR_SIZE).

Section Blkdev.
Context `{K : Kernel}.

(** A read or write request: its sector and, for a write, its data. *)
Record bio := Bio { bi_sector : Z; bi_data : bytes }.

Definition dev_write (sector : Z) (data : bytes) : M kds_state Z :=
  r <- oracle k_bio ;;
  if negb (r =? 0) then ret r else
  modify (fun s => set_disk (disk_write (disk s) sector (sectors_of (zlen data)) data) s) ;;
  ret 0.
Definition dev_read (sector n : Z) : M kds_state (Z * option bytes) :=
  r <- oracle k_bio ;;
  if negb (r =? 0) then ret (r, None) else
  d <- gets disk ;;
  ret (0, Some (disk_read d sector (sectors_of n))).

Definition request_write_sector_to_disk (sector : Z) (data : bytes) : M kds_state (Z * option bio) :=
  dev <- gets kds_bdev ;;
  if negb dev then ret (- ENODEV, None) else
  ok <- alloc_ok ;;
  if negb ok then ret (- ENOMEM, None) else
  ok <- alloc_ok ;;
  if negb ok then ret (- ENOMEM, None) else
  added <- oracle k_bio_add ;;
  if negb added then ret (- EIO, None) else
  ret (0, Some (Bio sector (sub data 0 KDS_BLKDEV_SECTOR_SIZE))).

Definition wait_free_bio (b : bio) : M kds_state Z := dev_write (bi_sector b) (bi_data b).

Definition write_sector_to_disk (sector : Z) (data : bytes) : M kds_state Z :=
  let* (r, b) := request_write_sector_to_disk sector data in
  match b with
  | Some b => if negb (r =? 0) then ret r else wait_free_bio b
  | None => ret r
  end.

Definition blkdev_read_sector (sector : Z) : M kds_state (Z * option bytes) :=
  dev <- gets kds_bdev ;;
  if negb dev then ret (- EINVAL, None) else
  ok <- alloc_ok ;;
  if negb ok then ret (- ENOMEM, None) else
  ok <- alloc_ok ;;
  if negb ok then ret (- ENOMEM, None) else
  added <- oracle k_bio_add ;;
  if negb added then ret (- EIO, None) else
  dev_read sector PAGE_SIZE.

(** [page] is the base page to fill; [None] is a NULL pointer. *)
Definition kds_read_page_sector (sector : Z) (page : option bytes) : M kds_state (Z * option bytes) :=
  dev <- gets kds_bdev ;;
  match page with
  | None => ret (- EINVAL, None)
  | Some _ =>
    if negb dev then ret (- EINVAL, None) else
    ok <- alloc_ok ;;
    if negb ok then ret (- ENOMEM, None) else
    added <- oracle k_bio_add ;;
    if negb added then ret (- EIO, None) else
    dev_read sector PAGE_SIZE
  end.

Definition kds_write_page_sector (sector : Z) (page : option bytes) : M kds_state Z :=
  dev <- gets kds_bdev ;;
  match page with
  | None => ret (- EINVAL)
  | Some p =>
    if negb dev then ret (- EINVAL) else
    ok <- alloc_ok ;;
    if negb ok then ret (- ENOMEM) else
    added <- oracle k_bio_add ;;
    if negb added then ret (- EIO) else
    dev_write sector p
  end.

(** The loop that adds the base pages to the request. *)
Fixpoint bio_add_pages (n : nat) : M kds_state bool :=
  match n with
  | O => ret true
  | S n => added <- oracle k_bio_add ;; if negb added then ret false else bio_add_pages n
  end.

Definition kds_write_extent (start_sector : Z) (pages : list bytes) : M kds_state Z :=
  dev <- gets kds_bdev ;;
  if negb dev then ret (- ENODEV) else
  ok <- alloc_ok ;;
  if negb ok then ret (- ENOMEM) else
  added <- bio_add_pages (length pages) ;;
  if negb added then ret (- EIO) else
  dev_write start_sector (concat pages).

(** The pages are given by their number; the bytes read are returned. *)
Definition kds_read_extent (start_sector : Z) (nr_pages : nat) : M kds_state (Z * option bytes) :=
  dev <- gets kds_bdev ;;
  if negb dev then ret (- ENODEV, None) else
  if (nr_pages =? 0)%nat then ret (- EINVAL, None) else
  ok <- alloc_ok ;;
  if negb ok then ret (- ENOMEM, None) else
  added <- bio_add_pages nr_pages ;;
  if negb added then ret (- EIO, None) else
  dev_read start_sector (Z.of_nat nr_pages * PAGE_SIZE).

(** [nth_page(head_page, i)] *)
Definition nth_page (head : bytes) (i : nat) : bytes := sub head (Z.of_nat i * PAGE_SIZE) PAGE_SIZE.

Definition kds_read_logical_page (sector : Z) : M kds_state (Z * option bytes) :=
  kds_read_extent sector KDS_PAGE_NR_BASE_PAGES.

Definition kds_write_logical_page (sector : Z) (head_page : bytes) : M kds_state Z :=
  r <- kds_write_extent sector (map (nth_page head_page) (seq 0 KDS_PAGE_NR_BASE_PAGES)) ;;
  if negb (r =? 0) then halt_with Panic else ret r.
End Blkdev.
