(* ===== verification/DiskSpec.v ===== *)
(** * DiskSpec: logical pages on the block device

    Reads return what was written last; pages with different ids occupy
    disjoint sectors; a logical write either happens completely or stops
    the machine. *)
From S2P Require Import Prelude Layout State Disk.
From stdpp Require Import prelude gmap list.
From Stdlib Require Import ZArith Lia.
Local Open Scope Z_scope.
Local Open Scope kds_scope.

(** ** The medium *)
Lemma read_write_other d s n data t :
  (t < s \/ s + Z.of_nat n <= t) -> read_sector (disk_write d s n data) t = read_sector d t.
Proof.
  revert d s data. induction n as [|n IH]; intros d s data Ht; [done|]. cbn [disk_write].
  rewrite IH by lia. unfold read_sector. by rewrite lookup_insert_ne by lia.
Qed.
Lemma disk_read_other d s n data t m :
  (t + Z.of_nat m <= s \/ s + Z.of_nat n <= t) -> disk_read (disk_write d s n data) t m = disk_read d t m.
Proof.
  revert t. induction m as [|m IH]; intros t Ht; [done|]. cbn [disk_read].
  rewrite IH by lia. by rewrite read_write_other by lia.
Qed.
Lemma disk_read_write d s n data :
  length data = (512 * n)%nat -> disk_read (disk_write d s n data) s n = data.
Proof.
  revert d s data. induction n as [|n IH]; intros d s data Hl.
  - by destruct data.
  - cbn [disk_write disk_read]. rewrite IH by (rewrite length_drop; lia).
    rewrite read_write_other by lia. unfold read_sector. rewrite lookup_insert_eq. apply take_drop.
Qed.
Lemma disk_read_same d d' n : forall t,
  (forall s, t <= s < t + Z.of_nat n -> read_sector d' s = read_sector d s) -> disk_read d' t n = disk_read d t n.
Proof.
  induction n as [|n IH]; intros t H; [done|]. cbn [disk_read]. rewrite H by lia. f_equal. apply IH. intros s Hs. apply H. lia.
Qed.
Definition disk_ok (d : gmap Z bytes) : Prop := map_Forall (fun _ b => length b = 512%nat /\ bytes_ok b) d.
Lemma length_disk_read d s n : disk_ok d -> length (disk_read d s n) = (512 * n)%nat.
Proof.
  intros Hd. revert s. induction n as [|n IH]; intros s; [done|]. cbn [disk_read].
  rewrite length_app, IH. unfold read_sector. destruct (d !! s) as [b|] eqn:E; cbn [from_option id].
  - destruct (Hd _ _ E) as [-> _]. lia.
  - unfold zeros. rewrite length_replicate. lia.
Qed.
Lemma bytes_ok_disk_read d s n : disk_ok d -> bytes_ok (disk_read d s n).
Proof.
  intros Hd. revert s. induction n as [|n IH]; intros s; [constructor|]. cbn [disk_read].
  apply bytes_ok_app. split; [|done]. unfold read_sector.
  destruct (d !! s) as [b|] eqn:E; cbn [from_option id]; [by destruct (Hd _ _ E)|apply bytes_ok_zeros].
Qed.
Lemma disk_ok_write d s n data :
  disk_ok d -> length data = (512 * n)%nat -> bytes_ok data -> disk_ok (disk_write d s n data).
Proof.
  revert d s data. induction n as [|n IH]; intros d s data Hd Hl Hb; [done|]. cbn [disk_write].
  apply IH; [|rewrite length_drop; lia|by apply Forall_drop].
  apply map_Forall_insert_2; [|done]. rewrite length_take. split; [lia|by apply Forall_take].
Qed.

(** ** Logical pages *)
Definition page_id_ok (id : Z) : Prop := 0 <= id < 2 ^ 60.
Definition disk_page (d : gmap Z bytes) (id : Z) : bytes := disk_read d (kds_page_sector id) 16.
Definition put_page (d : gmap Z bytes) (id : Z) (p : bytes) : gmap Z bytes :=
  disk_write d (kds_page_sector id) 16 p.

Lemma kds_page_sector_ok id : page_id_ok id -> kds_page_sector id = 16 * id.
Proof.
  unfold page_id_ok; intros. unfold kds_page_sector.
  change (KDS_PAGE_SIZE / 512) with 16. rewrite u64_small; lia.
Qed.
Lemma disk_page_put d id p : length p = (512 * 16)%nat -> disk_page (put_page d id p) id = p.
Proof. apply disk_read_write. Qed.
Lemma disk_page_put_ne d id id' p :
  page_id_ok id -> page_id_ok id' -> id <> id' -> disk_page (put_page d id p) id' = disk_page d id'.
Proof.
  intros H1 H2 Hne. unfold disk_page, put_page. rewrite !kds_page_sector_ok by done.
  apply disk_read_other. lia.
Qed.

Lemma concat_pages p : zlen p = KDS_PAGE_SIZE ->
  concat (map (nth_page p) (seq 0 KDS_PAGE_NR_BASE_PAGES)) = p.
Proof.
  intros Hl. change KDS_PAGE_NR_BASE_PAGES with 2%nat. cbn [seq map concat].
  rewrite app_nil_r. unfold nth_page, PAGE_SIZE.
  change (Z.of_nat 0 * 4096) with 0. change (Z.of_nat 1 * 4096) with (0 + 4096).
  rewrite <- sub_split by lia. change (4096 + 4096) with KDS_PAGE_SIZE. rewrite <- Hl. apply sub_full.
Qed.

Section DiskOps.
Context `{K : Kernel}.

Lemma bio_add_pages_spec n s :
  exists b t, bio_add_pages n s = Ret b (set_tick t s).
Proof.
  revert s. induction n as [|n IH]; intros s; cbn [bio_add_pages].
  - exists true, (tick s). by destruct s.
  - unfold bind, oracle. destruct (k_bio_add (tick s)); cbn [negb].
    + destruct (IH (set_tick (S (tick s)) s)) as (b & t & ->). by exists b, t.
    + by exists false, (S (tick s)).
Qed.

(** A logical write stores the page at its sectors or panics. *)
Lemma write_logical_page_spec sector p s :
  zlen p = KDS_PAGE_SIZE ->
  (exists t, kds_write_logical_page sector p s =
     Ret 0 (set_tick t (set_disk (disk_write (disk s) sector 16 p) s))) \/
  (exists t, kds_write_logical_page sector p s = Halt Panic (set_tick t s)).
Proof.
  intros Hl. unfold kds_write_logical_page, kds_write_extent, dev_write, alloc_ok, oracle.
  rewrite concat_pages by done. mstep.
  destruct (kds_bdev s); cbn [negb]; [|right; exists (tick s); destruct s; reflexivity].
  destruct (k_alloc (tick s)); cbn [negb]; [|right; eexists; reflexivity].
  edestruct bio_add_pages_spec as (b & t & E). rewrite E.
  destruct b; cbn [negb]; [|right; eexists; reflexivity].
  destruct (Z.eqb_spec (k_bio (tick (set_tick t (set_tick (S (tick s)) s)))) 0) as [->|Hne];
    cbn [negb Z.eqb].
  - left. eexists. rewrite Hl. reflexivity.
  - right. destruct (Z.eqb_spec (k_bio (tick (set_tick t (set_tick (S (tick s)) s)))) 0); [done|].
    eexists; reflexivity.
Qed.

(** A logical read returns the page stored at the sectors, or an error;
    the state is unchanged but for the count of kernel calls. *)
Lemma read_logical_page_spec sector s :
  exists t, kds_read_logical_page sector s = Ret (0, Some (disk_read (disk s) sector 16)) (set_tick t s) \/
  exists r, kds_read_logical_page sector s = Ret (r, None) (set_tick t s) /\ r <> 0.
Proof.
  unfold kds_read_logical_page, kds_read_extent, dev_read, alloc_ok, oracle. mstep.
  destruct (kds_bdev s); cbn [negb];
    [|exists (tick s); right; eexists; split; [destruct s; reflexivity|done]].
  change (KDS_PAGE_NR_BASE_PAGES =? 0)%nat with false. cbn beta iota.
  destruct (k_alloc (tick s)); cbn [negb]; [|eexists; right; eexists; split; [reflexivity|done]].
  edestruct bio_add_pages_spec as (b & t & E). rewrite E.
  destruct b; cbn [negb]; [|eexists; right; eexists; split; [reflexivity|done]].
  destruct (Z.eqb_spec (k_bio (tick (set_tick t (set_tick (S (tick s)) s)))) 0) as [->|Hne];
    cbn [negb Z.eqb].
  - eexists. left. reflexivity.
  - eexists. right. eexists. split; [reflexivity|done].
Qed.

(** A logical write returns 0 with the page on the device, or the
    machine panics with the device unchanged.  After a write, reading any
    page either fails, changing nothing, or gives the page written, or, for
    another id, what was there before: pages with different ids never share
    a sector. *)
Theorem logical_page_round_trip id p s :
  page_id_ok id -> zlen p = KDS_PAGE_SIZE ->
  match kds_write_logical_page (kds_page_sector id) p s with
  | Halt h s' => h = Panic /\ disk s' = disk s
  | Ret r s' => r = 0 /\ disk s' = put_page (disk s) id p /\
      forall id', page_id_ok id' -> exists e o s'',
        kds_read_logical_page (kds_page_sector id') s' = Ret (e, o) s'' /\ disk s'' = disk s' /\
        if e =? 0 then o = Some (if decide (id = id') then p else disk_page (disk s) id') else o = None
  end.
Proof.
  intros Hid Hl. assert (length p = (512 * 16)%nat) by (unfold zlen, KDS_PAGE_SIZE in Hl; lia).
  destruct (write_logical_page_spec (kds_page_sector id) p s Hl) as [[t ->]|[t ->]]; [|done].
  split; [done|]. split; [done|]. intros id' Hid'.
  set (s' := set_tick t _).
  destruct (read_logical_page_spec (kds_page_sector id') s') as (t' & [E|(e & E & He)]).
  - eexists _, _, _. split; [exact E|]. split; [done|]. cbn [Z.eqb]. f_equal.
    change (disk_page (put_page (disk s) id p) id' = if decide (id = id') then p else disk_page (disk s) id').
    destruct (decide (id = id')) as [<-|Hne]; [by apply disk_page_put|by apply disk_page_put_ne].
  - eexists _, _, _. split; [exact E|]. split; [done|]. by destruct (Z.eqb_spec e 0).
Qed.
End DiskOps.

(** A mounted device for the witnesses. *)
Definition demo_state : kds_state := set_kds_bdev true (boot_state ∅).
Lemma quiet_write sector p s :
  kds_bdev s = true -> zlen p = KDS_PAGE_SIZE ->
  kds_write_logical_page (K := quiet_kernel) sector p s =
    Ret 0 (set_tick (S (S (S (S (tick s))))) (set_disk (disk_write (disk s) sector 16 p) s)).
Proof.
  intros Hs Hl. unfold kds_write_logical_page, kds_write_extent, dev_write.
  rewrite concat_pages by done. unfold bind at 1 2, gets at 1. rewrite Hs, Hl. reflexivity.
Qed.
Lemma quiet_read sector s :
  kds_bdev s = true ->
  kds_read_logical_page (K := quiet_kernel) sector s =
    Ret (0, Some (disk_read (disk s) sector 16)) (set_tick (S (S (S (S (tick s))))) s).
Proof.
  intros Hs. unfold kds_read_logical_page, kds_read_extent, dev_read.
  unfold bind at 1, gets at 1. rewrite Hs. reflexivity.
Qed.
Lemma logical_page_round_trip_witness :
  let K := quiet_kernel in
  exists s' s'', kds_write_logical_page (kds_page_sector 3) (zeros 8192) demo_state = Ret 0 s' /\
    kds_read_logical_page (kds_page_sector 3) s' = Ret (0, Some (zeros 8192)) s''.
Proof.
  intros K. subst K. pose proof (logical_page_round_trip (K := quiet_kernel) 3 (zeros 8192) demo_state ltac:(split; lia) eq_refl) as H.
  rewrite (quiet_write (kds_page_sector 3) (zeros 8192) demo_state eq_refl eq_refl) in H |- *.
  destruct H as (_ & _ & H). destruct (H 3 ltac:(split; lia)) as (e & o & s'' & E & _ & Ho).
  eexists _, _. split; [reflexivity|].
  rewrite quiet_read in E |- * by reflexivity. apply Ret_inj in E as [E _].
  apply (f_equal fst) in E as He. cbn [fst] in He. subst e. cbn [Z.eqb] in Ho. rewrite Ho in E. rewrite E.
  rewrite decide_True by reflexivity. reflexivity.
Defined.
