(* ===== verification/Meta.v ===== *)
(** * Meta: the superblock (kernel/kds/meta.c, kds_meta.h)

    The superblock is one logical page at a fixed sector.  [superblock] is
    the in-memory copy, [sb_io_page] the buffer through which it travels
    to and from the device. *)
From S2P Require Import Prelude Layout State Disk.
From stdpp Require Import prelude gmap list.
From Stdlib Require Import ZArith Lia.
Local Open Scope Z_scope.
Local Open Scope kds_scope.

Definition SUPERBLOCK_MAGIC : Z := 0x4B44424F.
Definition KDS_VERSION : Z := 1.

Definition superblock_enc (b : kds_superblock) : bytes :=
  le_bytes 8 (sb_magic b) ++ le_bytes 4 (sb_version b) ++ le_bytes 4 (sb_reserved1 b) ++
  le_bytes 8 (max_page_id b) ++ le_bytes 8 (last_commit_page_id b) ++
  le_bytes 8 (create_time b) ++ le_bytes 8 (last_mount_time b) ++ le_bytes 8 (last_fsync_time b) ++
  le_bytes 8 (total_pages b) ++ le_bytes 8 (free_pages b) ++
  le_bytes 8 (alloc_point b) ++ le_bytes 8 (alloc_remaining b) ++ sb_reserved2 b.
Definition superblock_dec (x : bytes) : kds_superblock :=
  let '(m, x) := get 8 x in
  let '(v, x) := get 4 x in
  let '(r1, x) := get 4 x in
  let '(mp, x) := get 8 x in
  let '(lc, x) := get 8 x in
  let '(ct, x) := get 8 x in
  let '(lm, x) := get 8 x in
  let '(lf, x) := get 8 x in
  let '(tp, x) := get 8 x in
  let '(fp, x) := get 8 x in
  let '(ap, x) := get 8 x in
  let '(ar, x) := get 8 x in
  let '(r2, _) := getb (Z.to_nat 8104) x in
  Superblock m v r1 mp lc ct lm lf tp fp ap ar r2.

Definition set_max_page_id (x : Z) (b : kds_superblock) : kds_superblock :=
  Superblock (sb_magic b) (sb_version b) (sb_reserved1 b) x (last_commit_page_id b) (create_time b)
    (last_mount_time b) (last_fsync_time b) (total_pages b) (free_pages b) (alloc_point b)
    (alloc_remaining b) (sb_reserved2 b).
Definition set_alloc_range (a r : Z) (b : kds_superblock) : kds_superblock :=
  Superblock (sb_magic b) (sb_version b) (sb_reserved1 b) (max_page_id b) (last_commit_page_id b)
    (create_time b) (last_mount_time b) (last_fsync_time b) (total_pages b) (free_pages b) a r
    (sb_reserved2 b).
Definition set_fsynced (t : Z) (b : kds_superblock) : kds_superblock :=
  Superblock (sb_magic b) (sb_version b) (sb_reserved1 b) (max_page_id b) (max_page_id b)
    (create_time b) (last_mount_time b) t (total_pages b) (free_pages b) (alloc_point b)
    (alloc_remaining b) (sb_reserved2 b).
Definition set_mount_time (t : Z) (b : kds_superblock) : kds_superblock :=
  Superblock (sb_magic b) (sb_version b) (sb_reserved1 b) (max_page_id b) (last_commit_page_id b)
    (create_time b) t (last_fsync_time b) (total_pages b) (free_pages b) (alloc_point b)
    (alloc_remaining b) (sb_reserved2 b).

Section Meta.
Context `{K : Kernel}.

(** ** Page-id counter *)
Definition assign_page_id : M kds_state Z := fun s =>
  match superblock s with
  | None => Ret 0 s
  | Some sb => let m := u64 (max_page_id sb + 1) in
               Ret m (set_superblock (Some (set_max_page_id m sb)) s)
  end.
Definition alloc_page_id_batch (count : Z) : M kds_state Z := fun s =>
  match superblock s with
  | None => Ret 0 s
  | Some sb => if count =? 0 then Ret 0 s else
               Ret (max_page_id sb) (set_superblock (Some (set_max_page_id (u64 (max_page_id sb + count)) sb)) s)
  end.
Definition get_max_page_id : M kds_state Z :=
  gets (fun s => match superblock s with None => 0 | Some sb => max_page_id sb end).
Definition kds_meta_is_fresh_init : M kds_state bool := gets g_fresh_init.

(** ** Persistence *)
(** [block] is the object [superblock] points to. *)
Definition init_superblock_and_fsync : M kds_state Z :=
  io <- gets sb_io_page ;;
  match io with
  | None => ret (- EINVAL)
  | Some _ =>
    now <- oracle k_seconds ;;
    let block := Superblock SUPERBLOCK_MAGIC KDS_VERSION 0 KDS_SYS_RESERVED_PAGES 0
                   (u64 now) (u64 now) 0 0 0 0 0 (zeros 8104) in
    modify (set_superblock (Some block)) ;;
    modify (set_sb_io_page (Some (superblock_enc block))) ;;
    kds_write_logical_page META_SUPERBLOCK_SECTOR (superblock_enc block)
  end.

Definition kds_meta_set_alloc_range (point remaining : Z) : M kds_state unit :=
  modify (fun s => match superblock s with
                   | None => s
                   | Some sb => set_superblock (Some (set_alloc_range point remaining sb)) s
                   end).
Definition kds_meta_get_alloc_range : M kds_state (Z * Z) := fun s =>
  match superblock s with
  | None => Halt Panic s
  | Some sb => Ret (alloc_point sb, alloc_remaining sb) s
  end.

Definition kds_superblock_fsync : M kds_state Z :=
  sb <- gets superblock ;;
  io <- gets sb_io_page ;;
  match sb, io with
  | Some sb, Some _ =>
      modify (set_sb_io_page (Some (superblock_enc sb))) ;;
      r <- kds_write_logical_page META_SUPERBLOCK_SECTOR (superblock_enc sb) ;;
      (if r =? 0 then
         now <- oracle k_seconds ;;
         modify (set_superblock (Some (set_fsynced (u64 now) sb)))
       else ret tt) ;;
      ret r
  | _, _ => ret (- EINVAL)
  end.

Definition kds_request_superblock_fsync : Z := - ENOSYS.

Definition kds_load_or_init_superblock : M kds_state Z :=
  ok <- alloc_ok ;;
  if negb ok then modify (set_sb_io_page None) ;; ret (- ENOMEM) else
  modify (set_sb_io_page (Some (zeros KDS_PAGE_SIZE))) ;;
  ok <- alloc_ok ;;
  if negb ok then modify (set_superblock None) ;; modify (set_sb_io_page None) ;; ret (- ENOMEM) else
  let* (r, p) := kds_read_logical_page META_SUPERBLOCK_SECTOR in
  match p with
  | None => modify (set_superblock None) ;; modify (set_sb_io_page None) ;; ret r
  | Some p =>
    modify (set_sb_io_page (Some p)) ;;
    let sb := superblock_dec p in
    modify (set_superblock (Some sb)) ;;
    (if sb_magic sb =? SUPERBLOCK_MAGIC then ret tt else
       modify (set_g_fresh_init true) ;;
       r <- init_superblock_and_fsync ;;
       if negb (r =? 0) then halt_with Panic else ret tt) ;;
    now <- oracle k_seconds ;;
    modify (fun s => match superblock s with
                     | Some sb => set_superblock (Some (set_mount_time (u64 now) sb)) s
                     | None => s
                     end) ;;
    ret 0
  end.

Definition kds_init_meta_system : M kds_state Z :=
  r <- kds_load_or_init_superblock ;;
  if negb (r =? 0) then ret r else ret 0.

Definition kds_shutdown_meta_system : M kds_state unit :=
  sb <- gets superblock ;;
  match sb with
  | Some _ => kds_superblock_fsync ;; modify (set_superblock None)
  | None => ret tt
  end ;;
  modify (set_sb_io_page None).
End Meta.
