(* ===== verification/MetaSpec.v ===== *)
(** * MetaSpec: persistence of the superblock and issue of page ids

    The superblock's image is a bijection with its fields, so an fsync and
    a mount compose to the identity on what is stored; the id counters are
    followed through both ways of drawing ids. *)
From S2P Require Import Prelude Layout State Disk DiskSpec Meta.
From stdpp Require Import prelude gmap list.
From Stdlib Require Import ZArith Lia.
Local Open Scope Z_scope.
Local Open Scope kds_scope.

Definition u64_field (z : Z) : Prop := 0 <= z < 2 ^ 64.
Definition superblock_ok (b : kds_superblock) : Prop :=
  u64_field (sb_magic b) /\ 0 <= sb_version b < 2 ^ 32 /\ 0 <= sb_reserved1 b < 2 ^ 32 /\
  u64_field (max_page_id b) /\ u64_field (last_commit_page_id b) /\ u64_field (create_time b) /\
  u64_field (last_mount_time b) /\ u64_field (last_fsync_time b) /\ u64_field (total_pages b) /\
  u64_field (free_pages b) /\ u64_field (alloc_point b) /\ u64_field (alloc_remaining b) /\
  length (sb_reserved2 b) = Z.to_nat 8104.

Lemma superblock_dec_enc b : superblock_ok b -> superblock_dec (superblock_enc b) = b.
Proof.
  unfold superblock_ok, u64_field. intros H. destruct b. unfold superblock_dec, superblock_enc.
  cbn -[get getb le_bytes Z.pow Z.to_nat] in *.
  repeat (rewrite get_enc by (cbn; lia); cbn beta iota).
  rewrite getb_end by tauto. reflexivity.
Qed.
Lemma zlen_superblock_enc b : length (sb_reserved2 b) = Z.to_nat 8104 -> zlen (superblock_enc b) = KDS_PAGE_SIZE.
Proof.
  intros H. unfold superblock_enc. autorewrite with kds_len. unfold zlen. rewrite H.
  unfold KDS_PAGE_SIZE. lia.
Qed.

(** The superblock as the next boot would read it. *)
Definition disk_superblock (d : gmap Z bytes) : kds_superblock :=
  superblock_dec (disk_read d META_SUPERBLOCK_SECTOR 16).

Section MetaOps.
Context `{K : Kernel}.

Lemma fsync_spec s sb io :
  superblock s = Some sb -> sb_io_page s = Some io -> superblock_ok sb ->
  match kds_superblock_fsync s with
  | Ret r s' => r = 0 /\ disk_superblock (disk s') = sb /\
      (exists now, superblock s' = Some (set_fsynced (u64 now) sb)) /\ g_fresh_init s' = g_fresh_init s
  | Halt h s' => h = Panic
  end.
Proof.
  intros Hsb Hio Hok.
  assert (Hl : zlen (superblock_enc sb) = KDS_PAGE_SIZE) by (apply zlen_superblock_enc, Hok).
  unfold kds_superblock_fsync. unfold bind at 1, gets at 1. rewrite Hsb.
  unfold bind at 1, gets at 1. rewrite Hio. unfold bind at 1, modify at 1.
  unfold bind at 1.
  destruct (write_logical_page_spec META_SUPERBLOCK_SECTOR (superblock_enc sb)
     (set_sb_io_page (Some (superblock_enc sb)) s) Hl) as [[t ->]|[t ->]]; [|done].
  mstep. unfold oracle. cbn [Z.eqb superblock disk set_superblock set_tick g_fresh_init set_disk set_sb_io_page].
  split_and!; [done| |by eexists|done].
  unfold disk_superblock. rewrite disk_read_write by (unfold zlen, KDS_PAGE_SIZE in Hl; lia).
  by apply superblock_dec_enc.
Qed.

(** The other components do not see a sync of the superblock. *)
Lemma fsync_frame s sb io :
  superblock s = Some sb -> sb_io_page s = Some io -> superblock_ok sb ->
  match kds_superblock_fsync s with
  | Ret r s' => g_pool s' = g_pool s /\ g_alloc s' = g_alloc s /\ g_fresh_init s' = g_fresh_init s /\
                exists now, superblock s' = Some (set_fsynced (u64 now) sb)
  | Halt h s' => h = Panic
  end.
Proof.
  intros Hsb Hio Hok.
  assert (Hl : zlen (superblock_enc sb) = KDS_PAGE_SIZE) by (apply zlen_superblock_enc, Hok).
  unfold kds_superblock_fsync. unfold bind at 1, gets at 1. rewrite Hsb.
  unfold bind at 1, gets at 1. rewrite Hio. unfold bind at 1, modify at 1. unfold bind at 1.
  destruct (write_logical_page_spec META_SUPERBLOCK_SECTOR (superblock_enc sb)
     (set_sb_io_page (Some (superblock_enc sb)) s) Hl) as [[t ->]|[t ->]]; [|done].
  mstep. unfold oracle. split_and!; try done. by eexists.
Qed.

(** A clean shutdown followed by a boot gives the superblock back:
    apart from the mount time it is the one that was in memory, and the
    database is not taken for a fresh one. *)
Theorem superblock_survives_remount s sb io s1 s2 :
  superblock s = Some sb -> sb_io_page s = Some io -> superblock_ok sb ->
  sb_magic sb = SUPERBLOCK_MAGIC -> g_fresh_init s = false ->
  kds_shutdown_meta_system s = Ret tt s1 ->
  kds_load_or_init_superblock s1 = Ret 0 s2 ->
  exists now, superblock s2 = Some (set_mount_time (u64 now) sb) /\ g_fresh_init s2 = false.
Proof.
  intros Hsb Hio Hok Hmag Hfr Hsd Hld.
  pose proof (fsync_spec s sb io Hsb Hio Hok) as Hf.
  unfold kds_shutdown_meta_system in Hsd. unfold bind at 1, gets at 1 in Hsd. rewrite Hsb in Hsd.
  unfold bind in Hsd. destruct (kds_superblock_fsync s) as [r s'|h s'] eqn:E; [|done].
  destruct Hf as (_ & Hd & _ & Hg). cbn in Hsd. apply Ret_inj in Hsd as [_ <-].
  revert Hld. unfold kds_load_or_init_superblock, alloc_ok, oracle. mstep.
  destruct (k_alloc _); cbn [negb]; [|discriminate]. cbn beta iota.
  destruct (k_alloc _); cbn [negb]; [|discriminate]. cbn beta iota.
  edestruct read_logical_page_spec as (t & [E'|(e & E' & He)]); rewrite E'.
  2:{ intros H. apply Ret_inj in H as [H _]. done. }
  cbn beta iota zeta.
  cbn [disk set_tick set_sb_io_page set_superblock]. fold (disk_superblock (disk s')). rewrite Hd, Hmag.
  cbn [Z.eqb]. rewrite Z.eqb_refl. cbn beta iota. intros H. apply Ret_inj in H as [_ <-].
  cbn [superblock set_superblock set_tick set_sb_io_page g_fresh_init]. eexists. split; [reflexivity|].
  by rewrite Hg.
Qed.

(** Page ids issued by a history of allocations. *)
Fixpoint batches (cs : list Z) : M kds_state (list (Z * Z)) :=
  match cs with
  | [] => ret []
  | c :: cs => b <- alloc_page_id_batch c ;; r <- batches cs ;; ret ((b, c) :: r)
  end.
Definition in_batch (id : Z) (b : Z * Z) : Prop := fst b <= id < fst b + snd b.

Lemma batches_from cs s sb :
  superblock s = Some sb -> Forall (fun c => 0 < c) cs -> 0 <= max_page_id sb ->
  max_page_id sb + foldr Z.add 0 cs < 2 ^ 64 ->
  exists bs s', batches cs s = Ret bs s' /\ (forall b, In b bs -> max_page_id sb <= fst b) /\
    (forall i j b1 b2 id, bs !! i = Some b1 -> bs !! j = Some b2 -> in_batch id b1 -> in_batch id b2 -> i = j).
Proof.
  revert s sb. induction cs as [|c cs IH]; intros s sb Hsb Hc H0 Hlim.
  - exists [], s. split; [done|]. split; [by intros ? []|]. intros i j b1 b2 id H. by rewrite lookup_nil in H.
  - apply Forall_cons in Hc as [Hc Hcs]. cbn [foldr] in Hlim.
    assert (0 <= foldr Z.add 0 cs) by (clear -Hcs; induction Hcs; cbn [foldr]; lia).
    cbn [batches]. unfold bind at 1, alloc_page_id_batch. rewrite Hsb.
    destruct (Z.eqb_spec c 0); [lia|].
    set (sb' := set_max_page_id (u64 (max_page_id sb + c)) sb).
    assert (max_page_id sb' = max_page_id sb + c) as Hm by (cbn; rewrite u64_small; lia).
    destruct (IH (set_superblock (Some sb') s) sb') as (bs & s' & E & Hlo & Hdis); try done; try lia.
    unfold bind. rewrite E. eexists _, _. split; [reflexivity|]. split.
    + intros b [<-|Hb]; [cbn; lia|]. pose proof (Hlo b Hb). lia.
    + intros [|i] [|j] b1 b2 id Hi Hj H1 H2; cbn in Hi, Hj; [done| | |f_equal; by eapply Hdis].
      * injection Hi as <-. assert (max_page_id sb' <= fst b2) by (eapply Hlo, list_elem_of_In, list_elem_of_lookup_2, Hj).
        unfold in_batch in *. cbn in H1. lia.
      * injection Hj as <-. assert (max_page_id sb' <= fst b1) by (eapply Hlo, list_elem_of_In, list_elem_of_lookup_2, Hi).
        unfold in_batch in *. cbn in H2. lia.
Qed.

(** As long as the 64-bit counter does not run out, the batches
    issued by [alloc_page_id_batch] are pairwise disjoint: no page id is
    issued twice. *)
Theorem batch_ids_unique cs s sb :
  superblock s = Some sb -> Forall (fun c => 0 < c) cs -> 0 <= max_page_id sb ->
  max_page_id sb + foldr Z.add 0 cs < 2 ^ 64 ->
  exists bs s', batches cs s = Ret bs s' /\
    forall i j b1 b2 id, bs !! i = Some b1 -> bs !! j = Some b2 -> in_batch id b1 -> in_batch id b2 -> i = j.
Proof.
  intros. destruct (batches_from cs s sb) as (bs & s' & ? & _ & ?); eauto.
Qed.

(** The two ways of issuing ids disagree on whether the counter is
    the last id issued or the next one: an id from [assign_page_id] is
    issued again as the first of the next batch. *)
Theorem assign_then_batch_duplicates s sb c :
  superblock s = Some sb -> 0 <= max_page_id sb -> max_page_id sb + 1 < 2 ^ 64 -> 0 < c ->
  exists id s1 s2, assign_page_id s = Ret id s1 /\ alloc_page_id_batch c s1 = Ret id s2.
Proof.
  intros Hsb H0 Hm Hc. unfold assign_page_id. rewrite Hsb. rewrite u64_small by lia.
  eexists _, _, _. split; [reflexivity|]. unfold alloc_page_id_batch. cbn [superblock set_superblock].
  destruct (Z.eqb_spec c 0); [lia|]. reflexivity.
Qed.

(** The first page id a fresh database issues is the page that
    holds the superblock: writing that page, with any page header, leaves
    a superblock whose magic number is wrong. *)
Theorem first_batch_hits_superblock s sb c h p :
  superblock s = Some sb -> max_page_id sb = KDS_SYS_RESERVED_PAGES -> 0 < c ->
  page_hdr_ok h -> ph_type h <> SUPERBLOCK_MAGIC -> zlen p = KDS_PAGE_SIZE -> bytes_ok p ->
  exists id s', alloc_page_id_batch c s = Ret id s' /\ kds_page_sector id = META_SUPERBLOCK_SECTOR /\
    sb_magic (disk_superblock (put_page (disk s') id (patch p 0 (page_hdr_enc h)))) <> SUPERBLOCK_MAGIC.
Proof.
  intros Hsb Hm Hc Hh Ht Hl Hb. unfold alloc_page_id_batch. rewrite Hsb.
  destruct (Z.eqb_spec c 0); [lia|]. eexists _, _. split; [reflexivity|]. rewrite Hm.
  split; [reflexivity|].
  assert (zlen (page_hdr_enc h) = 41) as Hz by (apply zlen_page_hdr_enc, Hh).
  assert (zlen (patch p 0 (page_hdr_enc h)) = KDS_PAGE_SIZE) as Hq
    by (rewrite zlen_patch; unfold KDS_PAGE_SIZE in *; lia).
  unfold disk_superblock, put_page.
  change (kds_page_sector KDS_SYS_RESERVED_PAGES) with META_SUPERBLOCK_SECTOR.
  rewrite disk_read_write by (unfold zlen, KDS_PAGE_SIZE in Hq; lia).
  unfold superblock_dec, get. cbn [sb_magic].
  unfold patch. change (Z.to_nat 0) with 0%nat. rewrite take_0, app_nil_l. unfold page_hdr_enc. rewrite <- !app_assoc.
  destruct Hh as (Hty & Hcrc & _). unfold SUPERBLOCK_MAGIC in *.
  rewrite (app_assoc (le_bytes 4 (ph_type h))).
  rewrite take_app_length' by reflexivity.
  intros E. apply Ht. revert E. rewrite le_val_app, le_val_enc_small by (cbn; lia).
  rewrite le_val_enc_small, zlen_le_bytes by (cbn; lia). cbn. lia.
Qed.
End MetaOps.

(** ** Concrete instances *)
#[local] Existing Instance quiet_kernel.
Definition demo_sb : kds_superblock :=
  Superblock SUPERBLOCK_MAGIC KDS_VERSION 0 128 0 7 7 0 0 0 128 0 (zeros 8104).
Definition demo_meta : kds_state :=
  set_kds_bdev true (set_sb_io_page (Some []) (set_superblock (Some demo_sb) (boot_state ∅))).
Lemma demo_sb_ok : superblock_ok demo_sb.
Proof.
  unfold superblock_ok, u64_field, demo_sb, SUPERBLOCK_MAGIC, KDS_VERSION; cbn -[zeros Z.to_nat].
  split_and!; try lia. reflexivity.
Qed.

Lemma quiet_fsync s sb io :
  superblock s = Some sb -> sb_io_page s = Some io -> superblock_ok sb -> kds_bdev s = true ->
  exists s', kds_superblock_fsync (K := quiet_kernel) s = Ret 0 s' /\ kds_bdev s' = true.
Proof.
  intros Hsb Hio Hok Hd. unfold kds_superblock_fsync. unfold bind at 1, gets at 1. rewrite Hsb.
  unfold bind at 1, gets at 1. rewrite Hio. unfold bind at 1, modify at 1. unfold bind at 1.
  rewrite quiet_write; [|done|apply zlen_superblock_enc, Hok]. eexists. split; [reflexivity|done].
Qed.

Lemma superblock_survives_remount_witness :
  exists s1 s2 now, kds_shutdown_meta_system demo_meta = Ret tt s1 /\
    kds_load_or_init_superblock s1 = Ret 0 s2 /\
    superblock s2 = Some (set_mount_time (u64 now) demo_sb) /\ g_fresh_init s2 = false.
Proof.
  pose proof demo_sb_ok as Hok.
  destruct (quiet_fsync demo_meta demo_sb [] eq_refl eq_refl Hok eq_refl) as (s' & E & Hdev).
  set (s1 := set_sb_io_page None (set_superblock None s')).
  assert (Hs1 : kds_shutdown_meta_system demo_meta = Ret tt s1).
  { unfold kds_shutdown_meta_system, bind, gets.
    change (superblock demo_meta) with (Some demo_sb). cbn beta iota. rewrite E. reflexivity. }
  pose proof (fsync_spec demo_meta demo_sb [] eq_refl eq_refl Hok) as Hf. rewrite E in Hf.
  destruct Hf as (_ & Hd & _ & _).
  assert (exists s2, kds_load_or_init_superblock s1 = Ret 0 s2) as [s2 Hs2].
  { unfold kds_load_or_init_superblock, alloc_ok. do 2 (unfold bind at 1, oracle at 1; cbn [k_alloc quiet_kernel negb]).
    do 1 (unfold bind at 1, modify at 1). unfold bind at 1, oracle at 1; cbn [k_alloc quiet_kernel negb].
    unfold bind at 1. rewrite quiet_read by exact Hdev. cbn beta iota zeta.
    eexists. unfold bind at 1, modify at 1. unfold bind at 1, modify at 1.
    cbn [disk set_tick set_sb_io_page set_superblock s1].
    fold (disk_superblock (disk s')). rewrite Hd. reflexivity. }
  destruct (superblock_survives_remount demo_meta demo_sb [] s1 s2 eq_refl eq_refl Hok eq_refl eq_refl Hs1 Hs2)
    as (now & H1 & H2).
  exists s1, s2, now. auto.
Defined.

Lemma batch_ids_unique_witness :
  exists bs s', batches [128; 96; 128] demo_meta = Ret bs s' /\
    forall i j b1 b2 id, bs !! i = Some b1 -> bs !! j = Some b2 -> in_batch id b1 -> in_batch id b2 -> i = j.
Proof.
  apply (batch_ids_unique [128; 96; 128] demo_meta demo_sb); [reflexivity|repeat constructor|cbn; lia|cbn; lia].
Defined.
Lemma assign_then_batch_duplicates_witness :
  exists id s1 s2, assign_page_id demo_meta = Ret id s1 /\ alloc_page_id_batch 32 s1 = Ret id s2.
Proof. apply (assign_then_batch_duplicates demo_meta demo_sb); [reflexivity|cbn; lia|cbn; lia|lia]. Defined.
Lemma first_batch_hits_superblock_witness :
  exists id s', alloc_page_id_batch 127 demo_meta = Ret id s' /\ kds_page_sector id = META_SUPERBLOCK_SECTOR /\
    sb_magic (disk_superblock (put_page (disk s') id (patch (zeros 8192) 0 (page_hdr_enc (PageHdr 4 0 3 (zeros 32))))))
      <> SUPERBLOCK_MAGIC.
Proof.
  apply (first_batch_hits_superblock demo_meta demo_sb);
    [reflexivity|reflexivity|lia| |cbn; unfold SUPERBLOCK_MAGIC; lia|reflexivity|apply bytes_ok_zeros].
  unfold page_hdr_ok; cbn -[zeros]. split_and!; try lia; [reflexivity|apply bytes_ok_zeros].
Defined.
