(* ===== verification/Pool.v ===== *)
(** * Pool: the buffer pool (kernel/kds/page_mgr.c, kds_page_mgr.h)

    Operations on the pool of the global state.  The spin locks and the
    read-side critical sections have no counterpart: an operation runs
    without interference. *)
From S2P Require Import Prelude Layout State Disk.
From stdpp Require Import prelude gmap list.
From Stdlib Require Import ZArith Lia.
Local Open Scope Z_scope.
Local Open Scope kds_scope.

Definition KDS_BUF_NR_FRAMES : nat := Z.to_nat 4096.

(** A frame as [vzalloc] and the loop of [kds_buf_pool_init] leave it. *)
Definition fresh_frame (i : nat) : kds_frame := Frame i KDS_FRAME_FREE 0 None NullPg false.

(** [hdr.flags &= ~KDS_PAGE_FLAG_DIRTY] *)
Definition clear_dirty (h : kds_page_hdr) : kds_page_hdr :=
  set_ph_flags (Z.land (ph_flags h) (255 - KDS_PAGE_FLAG_DIRTY)) h.

Section Pool.
Context `{K : Kernel}.

(** ** Access to the pool *)
Definition pool_get {A} (g : kds_buf_pool -> A) : M kds_state A := fun s =>
  match g_pool s with Some pl => Ret (g pl) s | None => Halt Fault s end.
Definition pool_mod (g : kds_buf_pool -> kds_buf_pool) : M kds_state unit := fun s =>
  match g_pool s with Some pl => Ret tt (set_g_pool (Some (g pl)) s) | None => Halt Fault s end.

(** ** Lifecycle *)
Definition kds_buf_pool_init : M kds_state Z :=
  ok <- alloc_ok ;;
  if negb ok then modify (set_g_pool None) ;; ret (- ENOMEM) else
  r <- oracle k_rhash ;;
  if negb (r =? 0) then modify (set_g_pool None) ;; ret r else
  let fr := map fresh_frame (seq 0 KDS_BUF_NR_FRAMES) in
  modify (set_g_pool (Some (BufPool fr ∅ (seq 0 KDS_BUF_NR_FRAMES) (Z.of_nat KDS_BUF_NR_FRAMES)))) ;;
  ret 0.
(** The pages and objects of the frames are given back with the pool. *)
Definition kds_buf_pool_destroy : M kds_state unit := modify (set_g_pool None).

(** ** Free frames *)
Definition kds_buf_take_free_frame : M kds_state (option nat) :=
  fl <- pool_get free_frames ;;
  match fl with
  | fid :: rest =>
      pool_mod (fun pl => BufPool (frames pl) (buf_map pl) rest (nr_free pl - 1)) ;;
      ret (Some fid)
  | [] => ret None
  end.
Definition kds_buf_return_free_frame (fid : nat) : M kds_state unit :=
  pool_mod (fun pl => BufPool (frames pl) (buf_map pl) (free_frames pl ++ [fid]) (nr_free pl + 1)).

(** ** Pins *)
Definition kds_buf_pin (fid : nat) : M kds_state unit :=
  on_frame fid (kp_mod (fun k => set_kp_refcnt (kp_refcnt k + 1) k)).
Definition kds_buf_unpin (fid : nat) : M kds_state unit :=
  on_frame fid (kp_mod (fun k => set_kp_refcnt (kp_refcnt k - 1) k)).

(** ** Loading *)
Definition kds_frame_read_from_disk (fid : nat) (page_id : Z) : M kds_state Z :=
  dev <- gets kds_bdev ;;
  if negb dev then ret (- ENODEV) else
  ok <- alloc_ok ;;
  if negb ok then ret (- ENOMEM) else
  let* (r, p) := kds_read_logical_page (kds_page_sector page_id) in
  match p with
  | None => ret r
  | Some p =>
    ok <- alloc_ok ;;
    if negb ok then frame_mod fid (set_f_kp None) ;; ret (- ENOMEM) else
    frame_mod fid (fun f => set_f_page (LivePg p)
      (set_f_kp (Some (Kpage page_id (page_hdr_dec (sub p 0 KDS_PAGE_HDR_SIZE)) 0)) f)) ;;
    ret 0
  end.

Definition kds_buf_register_frame (fid : nat) : M kds_state Z :=
  ok <- alloc_ok ;;
  if negb ok then ret (- ENOMEM) else
  id <- frame_get fid f_page_id ;;
  m <- pool_get buf_map ;;
  match m !! id with
  | Some _ => ret (- EEXIST)
  | None =>
    r <- oracle k_rhash ;;
    if negb (r =? 0) then ret r else
    pool_mod (fun pl => BufPool (frames pl) (<[id := fid]> (buf_map pl)) (free_frames pl) (nr_free pl)) ;;
    frame_mod fid (set_f_state KDS_FRAME_VALID) ;;
    kds_buf_pin fid ;;
    ret 0
  end.

Definition kds_buf_lookup (page_id : Z) : M kds_state (option nat) :=
  fun s => match g_pool s with
  | None => Ret None s
  | Some pl => match buf_map pl !! page_id with
               | Some fid => (kds_buf_pin fid ;; ret (Some fid)) s
               | None => Ret None s
               end
  end.

(** Giving a frame back after a failure.  [f->page] keeps the address of
    the pages that were freed, except where the code clears it. *)
Definition release_frame (fid : nat) : M kds_state unit :=
  frame_mod fid (set_f_state KDS_FRAME_FREE) ;;
  frame_mod fid (set_f_page_id 0) ;;
  kds_buf_return_free_frame fid.
Definition discard_frame (fid : nat) (clear_page : bool) : M kds_state unit :=
  frame_mod fid (set_f_page (if clear_page then NullPg else FreedPg)) ;;
  frame_mod fid (set_f_kp None) ;;
  release_frame fid.

Definition kds_buf_lookup_or_load (page_id : Z) : M kds_state (ptr_or_err nat) :=
  pl <- gets g_pool ;;
  match pl with
  | None => ret (ERR_PTR (- ENODEV))
  | Some _ =>
    f <- kds_buf_lookup page_id ;;
    match f with
    | Some fid => ret (PTR fid)
    | None =>
      f <- kds_buf_take_free_frame ;;
      match f with
      | None => ret (ERR_PTR (- ENOSPC))
      | Some fid =>
        frame_mod fid (set_f_state KDS_FRAME_LOADING) ;;
        frame_mod fid (set_f_page_id page_id) ;;
        r <- kds_frame_read_from_disk fid page_id ;;
        if negb (r =? 0) then release_frame fid ;; ret (ERR_PTR r) else
        r <- kds_buf_register_frame fid ;;
        if r =? - EEXIST then
          discard_frame fid false ;;
          m <- pool_get buf_map ;;
          match m !! page_id with
          | Some fid' => kds_buf_pin fid' ;; ret (PTR fid')
          | None => ret (ERR_PTR (- ENOENT))
          end
        else if negb (r =? 0) then discard_frame fid false ;; ret (ERR_PTR r)
        else ret (PTR fid)
      end
    end
  end.

Definition kds_buf_alloc_new (page_id : Z) : M kds_state (ptr_or_err nat) :=
  pl <- gets g_pool ;;
  match pl with
  | None => ret (ERR_PTR (- ENODEV))
  | Some _ =>
    f <- kds_buf_lookup page_id ;;
    match f with
    | Some fid => kds_buf_unpin fid ;; ret (ERR_PTR (- EEXIST))
    | None =>
      f <- kds_buf_take_free_frame ;;
      match f with
      | None => ret (ERR_PTR (- ENOSPC))
      | Some fid =>
        frame_mod fid (set_f_state KDS_FRAME_LOADING) ;;
        frame_mod fid (set_f_page_id page_id) ;;
        ok <- alloc_ok ;;
        if negb ok then release_frame fid ;; ret (ERR_PTR (- ENOMEM)) else
        ok <- alloc_ok ;;
        if negb ok then frame_mod fid (set_f_kp None) ;; release_frame fid ;; ret (ERR_PTR (- ENOMEM)) else
        let hdr := PageHdr KDS_PAGE_TYPE_INVALID 0 (Z.lor KDS_PAGE_FLAG_ALLOC KDS_PAGE_FLAG_DIRTY)
                     (map (fun i => u8 (k_garbage i)) (seq 0 32)) in
        let buf := patch (zeros KDS_PAGE_SIZE) 0 (page_hdr_enc hdr) in
        frame_mod fid (fun f => set_f_page (LivePg buf) (set_f_kp (Some (Kpage page_id hdr 0)) f)) ;;
        dev <- gets kds_bdev ;;
        if negb dev then halt_with Panic else
        r <- kds_write_logical_page (kds_page_sector page_id) buf ;;
        if negb (r =? 0) then discard_frame fid false ;; ret (ERR_PTR r) else
        on_frame fid (kp_mod (fun k => set_kp_hdr (clear_dirty (kp_hdr k)) k)) ;;
        r <- kds_buf_register_frame fid ;;
        if negb (r =? 0) then discard_frame fid true ;; ret (ERR_PTR r)
        else ret (PTR fid)
      end
    end
  end.

(** ** Direct access: the bounds check and the mapping *)
Definition kds_frame_get_write_ptr (fid : nat) (offset size : Z) : M kds_state (ptr_or_err Z) :=
  if KDS_PAGE_SIZE <? u64 (offset + size) then ret (ERR_PTR (- EINVAL)) else
  on_frame fid (kp_get kp_id ;; modify (set_f_mapped true)) ;;
  ret (PTR offset).
Definition kds_frame_put_write_ptr (fid : nat) : M kds_state unit :=
  on_frame fid (modify (set_f_mapped false) ;; kds_set_page_dirty).
Definition kds_frame_get_read_ptr (fid : nat) (offset size : Z) : M kds_state (ptr_or_err Z) :=
  if KDS_PAGE_SIZE <? u64 (offset + size) then ret (ERR_PTR (- EINVAL)) else
  on_frame fid (kp_get kp_id ;; modify (set_f_mapped true)) ;;
  ret (PTR offset).
Definition kds_frame_put_read_ptr (fid : nat) : M kds_state unit :=
  on_frame fid (modify (set_f_mapped false) ;; kp_get kp_id ;; ret tt).

(** ** Flush *)
Definition page_bytes : M kds_frame bytes := fun f =>
  match f_page f with LivePg p => Ret p f | _ => Halt Fault f end.

Definition kds_frame_flush (fid : nat) : M kds_state Z :=
  kp <- frame_get fid f_kp ;;
  match kp with
  | None => ret (- EINVAL)
  | Some k =>
    if negb (has_flag KDS_PAGE_FLAG_DIRTY (kp_hdr k)) then ret 0 else
    id <- frame_get fid f_page_id ;;
    on_frame fid (st 0 (page_hdr_enc (kp_hdr k))) ;;
    p <- on_frame fid page_bytes ;;
    r <- kds_write_logical_page (kds_page_sector id) p ;;
    if negb (r =? 0) then ret r else
    on_frame fid (kp_mod (fun k => set_kp_hdr (clear_dirty (kp_hdr k)) k)) ;;
    ret 0
  end.

Fixpoint flush_frames (fids : list nat) : M kds_state unit :=
  match fids with
  | [] => ret tt
  | fid :: rest =>
      f <- frame_get fid (fun f => f) ;;
      match f_state f, f_kp f with
      | KDS_FRAME_VALID, Some k =>
          if has_flag KDS_PAGE_FLAG_DIRTY (kp_hdr k)
          then kds_buf_pin fid ;; kds_frame_flush fid ;; kds_buf_unpin fid
          else ret tt
      | _, _ => ret tt
      end ;;
      flush_frames rest
  end.
Definition kds_buf_flush_dirty_frames : M kds_state unit :=
  pl <- gets g_pool ;;
  match pl with
  | None => ret tt
  | Some _ => flush_frames (seq 0 KDS_BUF_NR_FRAMES)
  end.

Definition count_state (st : kds_frame_state) (fs : list kds_frame) : Z :=
  zlen (filter (fun f => f_state f = st) fs).
Definition kds_buf_pool_get_stats : M kds_state (Z * Z * Z) :=
  gets (fun s => match g_pool s with
    | None => (Z.of_nat KDS_BUF_NR_FRAMES, 0, 0)
    | Some pl => (Z.of_nat KDS_BUF_NR_FRAMES, count_state KDS_FRAME_FREE (frames pl),
                  count_state KDS_FRAME_VALID (frames pl))
    end).
End Pool.
