(* ===== verification/PoolSpec.v ===== *)
(** * PoolSpec: the buffer pool as a cache

    The abstract pool is a partial map from page ids to page objects with
    their contents ([cached]).  [pool_wf] relates it to the frame array,
    the mapping table and the free list.  The theorems give, for every
    behaviour of the kernel, what each operation of page_mgr.c does to
    the cache, and that the pool stays well-formed when it fails. *)
From S2P Require Import Prelude Layout State Disk DiskSpec Pool.
From stdpp Require Import prelude gmap list.
From Stdlib Require Import ZArith Lia.
Local Open Scope Z_scope.
Local Open Scope kds_scope.

(** ** Abstract state and invariant *)
Definition content (f : kds_frame) : option (kds_page * bytes) :=
  match f_kp f, f_page f with Some k, LivePg p => Some (k, p) | _, _ => None end.
Definition cached (pl : kds_buf_pool) (id : Z) : option (kds_page * bytes) :=
  fid ← buf_map pl !! id; f ← frames pl !! fid; content f.

Definition frame_holds (f : kds_frame) (id : Z) (k : kds_page) (p : bytes) : Prop :=
  f_state f = KDS_FRAME_VALID /\ f_page_id f = id /\ f_kp f = Some k /\ f_page f = LivePg p /\
  kp_id k = id /\ zlen p = KDS_PAGE_SIZE /\ length (ph_reserved1 (kp_hdr k)) = 32%nat.
Record pool_wf (pl : kds_buf_pool) : Prop := {
  pw_len : length (frames pl) = KDS_BUF_NR_FRAMES;
  pw_map : forall id fid, buf_map pl !! id = Some fid ->
    exists f k p, frames pl !! fid = Some f /\ frame_holds f id k p;
  pw_valid : forall fid f, frames pl !! fid = Some f -> f_state f = KDS_FRAME_VALID ->
    buf_map pl !! f_page_id f = Some fid;
  pw_free : forall fid, fid ∈ free_frames pl <->
    exists f, frames pl !! fid = Some f /\ f_state f = KDS_FRAME_FREE;
  pw_nodup : NoDup (free_frames pl);
  pw_nr : nr_free pl = zlen (free_frames pl);
  pw_quiet : forall fid f, frames pl !! fid = Some f -> f_state f <> KDS_FRAME_LOADING }.

Lemma free_not_mapped pl id fid : pool_wf pl -> fid ∈ free_frames pl -> buf_map pl !! id <> Some fid.
Proof.
  intros Hp Hf Hm. apply (pw_free _ Hp) in Hf as (f & Hf & Hs).
  destruct (pw_map _ Hp _ _ Hm) as (f' & k & p & Hf' & Hv & _). congruence.
Qed.
Lemma map_injective pl id id' fid :
  pool_wf pl -> buf_map pl !! id = Some fid -> buf_map pl !! id' = Some fid -> id = id'.
Proof.
  intros Hp H1 H2. destruct (pw_map _ Hp _ _ H1) as (f & k & p & Hf & _ & Hid & _).
  destruct (pw_map _ Hp _ _ H2) as (f' & k' & p' & Hf' & _ & Hid' & _). congruence.
Qed.

(** ** Steps of the pool *)
Definition publish (pl : kds_buf_pool) (fid : nat) (f : kds_frame) (id : Z) (rest : list nat) : kds_buf_pool :=
  BufPool (<[fid := f]> (frames pl)) (<[id := fid]> (buf_map pl)) rest (nr_free pl - 1).
Definition give_back (pl : kds_buf_pool) (fid : nat) (f : kds_frame) (rest : list nat) : kds_buf_pool :=
  BufPool (<[fid := f]> (frames pl)) (buf_map pl) (rest ++ [fid]) (nr_free pl).
Definition upd (fid : nat) (f : kds_frame) (pl : kds_buf_pool) : kds_buf_pool :=
  BufPool (<[fid := f]> (frames pl)) (buf_map pl) (free_frames pl) (nr_free pl).

Section PoolSteps.
Context (pl : kds_buf_pool) (Hwf : pool_wf pl).

Lemma publish_wf fid rest f id k p :
  free_frames pl = fid :: rest -> buf_map pl !! id = None -> frame_holds f id k p ->
  pool_wf (publish pl fid f id rest) /\
  forall id', cached (publish pl fid f id rest) id' = if decide (id' = id) then Some (k, p) else cached pl id'.
Proof.
  intros Hfl Hm Hf. pose proof (pw_nodup _ Hwf) as Hnd. rewrite Hfl in Hnd. apply NoDup_cons in Hnd as [Hni Hnd].
  assert (Hin : fid ∈ free_frames pl) by (rewrite Hfl; left).
  destruct (proj1 (pw_free _ Hwf fid) Hin) as (f0 & Hf0 & Hs0).
  assert (Hlt : (fid < length (frames pl))%nat) by (by apply lookup_lt_Some in Hf0).
  pose proof Hf as (Hv & Hid & Hk & Hp & _). split; [split|]; cbn [publish buf_map frames free_frames nr_free].
  - rewrite length_insert. apply Hwf.
  - intros id' fid'. destruct (decide (id' = id)) as [->|Hne].
    + rewrite lookup_insert_eq. intros [= <-]. exists f, k, p. rewrite list_lookup_insert_eq by done. done.
    + rewrite lookup_insert_ne by done. intros Hm'.
      rewrite list_lookup_insert_ne by (intros ->; by apply (free_not_mapped pl id' fid' Hwf Hin)).
      by apply (pw_map _ Hwf).
  - intros fid' f' Hl Hv'. destruct (decide (fid' = fid)) as [->|Hne].
    + rewrite list_lookup_insert_eq in Hl by done. injection Hl as <-. rewrite Hid. apply lookup_insert_eq.
    + rewrite list_lookup_insert_ne in Hl by done. pose proof (pw_valid _ Hwf _ _ Hl Hv') as Hm'.
      rewrite lookup_insert_ne; [done|]. intros ->. congruence.
  - intros fid'. destruct (decide (fid' = fid)) as [->|Hne].
    + split; [done|]. rewrite list_lookup_insert_eq by done. intros (f' & [= <-] & Hs). congruence.
    + rewrite list_lookup_insert_ne by done. rewrite <- (pw_free _ Hwf fid'), Hfl, elem_of_cons.
      split; [by right|by intros [?|?]].
  - done.
  - rewrite (pw_nr _ Hwf), Hfl, zlen_cons. lia.
  - intros fid' f' Hl. destruct (decide (fid' = fid)) as [->|Hne].
    + rewrite list_lookup_insert_eq in Hl by done. injection Hl as <-. by rewrite Hv.
    + rewrite list_lookup_insert_ne in Hl by done. by apply (pw_quiet _ Hwf) in Hl.
  - intros id'. unfold cached; cbn [publish buf_map frames]. destruct (decide (id' = id)) as [->|Hne].
    + rewrite lookup_insert_eq. simpl. rewrite list_lookup_insert_eq by done. simpl. unfold content. by rewrite Hk, Hp.
    + rewrite lookup_insert_ne by done. destruct (buf_map pl !! id') as [fid'|] eqn:E; [|done]. simpl.
      rewrite list_lookup_insert_ne; [done|]. intros ->. by apply (free_not_mapped pl id' fid' Hwf Hin).
Qed.

Lemma give_back_wf fid rest f :
  free_frames pl = fid :: rest -> f_state f = KDS_FRAME_FREE ->
  pool_wf (give_back pl fid f rest) /\ forall id', cached (give_back pl fid f rest) id' = cached pl id'.
Proof.
  intros Hfl Hs. pose proof (pw_nodup _ Hwf) as Hnd. rewrite Hfl in Hnd. apply NoDup_cons in Hnd as [Hni Hnd].
  assert (Hin : fid ∈ free_frames pl) by (rewrite Hfl; left).
  destruct (proj1 (pw_free _ Hwf fid) Hin) as (f0 & Hf0 & Hs0).
  assert (Hlt : (fid < length (frames pl))%nat) by (by apply lookup_lt_Some in Hf0).
  split; [split|]; cbn [give_back buf_map frames free_frames nr_free].
  - rewrite length_insert. apply Hwf.
  - intros id' fid' Hm. rewrite list_lookup_insert_ne by (intros ->; by apply (free_not_mapped pl id' fid' Hwf Hin)).
    by apply (pw_map _ Hwf).
  - intros fid' f' Hl Hv'. destruct (decide (fid' = fid)) as [->|Hne].
    + rewrite list_lookup_insert_eq in Hl by done. injection Hl as <-. congruence.
    + rewrite list_lookup_insert_ne in Hl by done. by apply (pw_valid _ Hwf).
  - intros fid'. rewrite elem_of_app, list_elem_of_singleton. destruct (decide (fid' = fid)) as [->|Hne].
    + split; [|by right]. intros _. rewrite list_lookup_insert_eq by done. eauto.
    + rewrite list_lookup_insert_ne by done. rewrite <- (pw_free _ Hwf fid'), Hfl, elem_of_cons. naive_solver.
  - apply NoDup_app. split_and!; [done| |apply NoDup_singleton]. intros x Hx ->%list_elem_of_singleton. done.
  - rewrite (pw_nr _ Hwf), Hfl, zlen_cons, zlen_app. unfold zlen. simpl. lia.
  - intros fid' f' Hl. destruct (decide (fid' = fid)) as [->|Hne].
    + rewrite list_lookup_insert_eq in Hl by done. injection Hl as <-. by rewrite Hs.
    + rewrite list_lookup_insert_ne in Hl by done. by apply (pw_quiet _ Hwf) in Hl.
  - intros id'. unfold cached; cbn [give_back buf_map frames].
    destruct (buf_map pl !! id') as [fid'|] eqn:E; [|done]. simpl.
    rewrite list_lookup_insert_ne; [done|]. intros ->. by apply (free_not_mapped pl id' fid' Hwf Hin).
Qed.

Lemma upd_wf fid f id k p :
  buf_map pl !! id = Some fid -> frame_holds f id k p ->
  pool_wf (upd fid f pl) /\
  forall id', cached (upd fid f pl) id' = if decide (id' = id) then Some (k, p) else cached pl id'.
Proof.
  intros Hm Hf. destruct (pw_map _ Hwf _ _ Hm) as (f0 & k0 & p0 & Hf0 & Hv0 & Hid0 & _).
  assert (Hlt : (fid < length (frames pl))%nat) by (by apply lookup_lt_Some in Hf0).
  pose proof Hf as (Hv & Hid & Hk & Hp & _). split; [split|]; cbn [upd buf_map frames free_frames nr_free].
  - rewrite length_insert. apply Hwf.
  - intros id' fid' Hm'. destruct (decide (fid' = fid)) as [->|Hne].
    + rewrite list_lookup_insert_eq by done. rewrite (map_injective pl id' id fid Hwf Hm' Hm). by exists f, k, p.
    + rewrite list_lookup_insert_ne by done. by apply (pw_map _ Hwf).
  - intros fid' f' Hl Hv'. destruct (decide (fid' = fid)) as [->|Hne].
    + rewrite list_lookup_insert_eq in Hl by done. injection Hl as <-. by rewrite Hid.
    + rewrite list_lookup_insert_ne in Hl by done. by apply (pw_valid _ Hwf).
  - intros fid'. destruct (decide (fid' = fid)) as [->|Hne].
    + rewrite (pw_free _ Hwf), Hf0, list_lookup_insert_eq by done. split; intros (f' & [= <-] & Hs); congruence.
    + rewrite list_lookup_insert_ne by done. apply Hwf.
  - apply Hwf.
  - apply Hwf.
  - intros fid' f' Hl. destruct (decide (fid' = fid)) as [->|Hne].
    + rewrite list_lookup_insert_eq in Hl by done. injection Hl as <-. by rewrite Hv.
    + rewrite list_lookup_insert_ne in Hl by done. by apply (pw_quiet _ Hwf) in Hl.
  - intros id'. unfold cached; cbn [upd buf_map frames]. destruct (decide (id' = id)) as [->|Hne].
    + rewrite Hm. simpl. rewrite list_lookup_insert_eq by done. simpl. unfold content. by rewrite Hk, Hp.
    + destruct (buf_map pl !! id') as [fid'|] eqn:E; [|done]. simpl.
      rewrite list_lookup_insert_ne; [done|]. intros ->. apply Hne. by eapply map_injective.
Qed.
End PoolSteps.

(** ** Running operations on a state with a pool *)
Definition wp (pl : kds_buf_pool) (s : kds_state) : kds_state := set_g_pool (Some pl) s.

Section PoolOps.
Context `{K : Kernel}.

Lemma wp_id s pl : g_pool s = Some pl -> wp pl s = s.
Proof. destruct s; cbn. by intros ->. Qed.
Lemma oracle_wp {A B} (g : nat -> A) (c : A -> M kds_state B) pl s :
  bind (oracle g) c (wp pl s) = c (g (tick s)) (wp pl (set_tick (S (tick s)) s)).
Proof. reflexivity. Qed.
Lemma pool_get_wp {A B} (g : kds_buf_pool -> A) (c : A -> M kds_state B) pl s :
  bind (pool_get g) c (wp pl s) = c (g pl) (wp pl s).
Proof. reflexivity. Qed.
Lemma pool_mod_wp {B} g (c : unit -> M kds_state B) pl s :
  bind (pool_mod g) c (wp pl s) = c tt (wp (g pl) s).
Proof. reflexivity. Qed.
Lemma gets_wp {A B} (g : kds_state -> A) (c : A -> M kds_state B) pl s :
  bind (gets g) c (wp pl s) = c (g (wp pl s)) (wp pl s).
Proof. reflexivity. Qed.
Lemma on_frame_wp {A} fid (m : M kds_frame A) pl s f :
  frames pl !! fid = Some f ->
  on_frame fid m (wp pl s) =
    match m f with
    | Ret a f' => Ret a (wp (upd fid f' pl) s)
    | Halt h f' => Halt h (wp (upd fid f' pl) s)
    end.
Proof. intros Hf. unfold on_frame, wp. cbn [g_pool set_g_pool]. rewrite Hf. reflexivity. Qed.
Lemma frame_mod_wp fid g pl s f :
  frames pl !! fid = Some f -> frame_mod fid g (wp pl s) = Ret tt (wp (upd fid (g f) pl) s).
Proof. intros Hf. unfold frame_mod. by rewrite (on_frame_wp _ _ _ _ f Hf). Qed.
Lemma upd_frame fid f pl f0 : frames pl !! fid = Some f0 -> frames (upd fid f pl) !! fid = Some f.
Proof. intros H. apply list_lookup_insert_eq. by apply lookup_lt_Some in H. Qed.
Lemma upd_upd fid f g pl : upd fid g (upd fid f pl) = upd fid g pl.
Proof. unfold upd; cbn. by rewrite list_insert_insert_eq. Qed.
Lemma frame_get_wp {A} fid (g : kds_frame -> A) pl s f :
  frames pl !! fid = Some f -> frame_get fid g (wp pl s) = Ret (g f) (wp pl s).
Proof.
  intros Hf. unfold frame_get. rewrite (on_frame_wp _ _ _ _ f Hf). cbn [gets].
  unfold upd. rewrite list_insert_id by done. by destruct pl.
Qed.
Lemma pin_wp fid pl s f k :
  frames pl !! fid = Some f -> f_kp f = Some k ->
  kds_buf_pin fid (wp pl s) =
    Ret tt (wp (upd fid (set_f_kp (Some (set_kp_refcnt (kp_refcnt k + 1) k)) f) pl) s).
Proof.
  intros Hf Hk. unfold kds_buf_pin. rewrite (on_frame_wp _ _ _ _ f Hf). unfold kp_mod. by rewrite Hk.
Qed.

(** A frame on its way out: whatever its fields, releasing it puts it at
    the end of the free list. *)
Lemma release_wp fid pl s f :
  frames pl !! fid = Some f ->
  release_frame fid (wp pl s) =
    Ret tt (wp (BufPool (<[fid := set_f_page_id 0 (set_f_state KDS_FRAME_FREE f)]> (frames pl)) (buf_map pl)
                        (free_frames pl ++ [fid]) (nr_free pl + 1)) s).
Proof.
  intros Hf. unfold release_frame.
  erewrite bind_ok by (by apply frame_mod_wp). cbn beta.
  erewrite bind_ok by (apply frame_mod_wp, (upd_frame _ _ _ _ Hf)). cbn beta. rewrite upd_upd.
  reflexivity.
Qed.
Lemma discard_wp fid b pl s f :
  frames pl !! fid = Some f ->
  exists f', f_state f' = KDS_FRAME_FREE /\ discard_frame fid b (wp pl s) =
    Ret tt (wp (BufPool (<[fid := f']> (frames pl)) (buf_map pl) (free_frames pl ++ [fid]) (nr_free pl + 1)) s).
Proof.
  intros Hf. unfold discard_frame.
  erewrite bind_ok by (by apply frame_mod_wp). cbn beta.
  erewrite bind_ok by (apply frame_mod_wp, (upd_frame _ _ _ _ Hf)). cbn beta. rewrite upd_upd.
  erewrite release_wp by (apply (upd_frame _ _ _ _ Hf)). cbn [upd frames buf_map free_frames nr_free].
  rewrite list_insert_insert_eq. eexists. split; [|reflexivity]. done.
Qed.

Lemma register_wp fid pl s f k p id :
  frames pl !! fid = Some f -> f_page_id f = id -> f_kp f = Some k -> f_page f = LivePg p ->
  buf_map pl !! id = None ->
  (exists t, kds_buf_register_frame fid (wp pl s) =
    Ret 0 (wp (BufPool (<[fid := set_f_kp (Some (set_kp_refcnt (kp_refcnt k + 1) k)) (set_f_state KDS_FRAME_VALID f)]> (frames pl))
                (<[id := fid]> (buf_map pl)) (free_frames pl) (nr_free pl)) (set_tick t s))) \/
  (exists t r, kds_buf_register_frame fid (wp pl s) = Ret r (wp pl (set_tick t s)) /\ r <> 0).
Proof.
  intros Hf Hid Hk Hp Hm. unfold kds_buf_register_frame, alloc_ok. rewrite oracle_wp.
  destruct (k_alloc (tick s)); cbn [negb]; [|right; do 2 eexists; split; [reflexivity|done]].
  erewrite bind_ok by (apply (frame_get_wp fid _ pl _ f Hf)). rewrite pool_get_wp, Hid, Hm, oracle_wp.
  destruct (Z.eqb_spec (k_rhash (tick (set_tick (S (tick s)) s))) 0) as [_|Hne]; cbn [negb].
  2:{ right. do 2 eexists. split; [reflexivity|done]. }
  left. exists (S (S (tick s))). rewrite pool_mod_wp.
  erewrite bind_ok by (by apply frame_mod_wp). cbn beta.
  erewrite bind_ok by (eapply pin_wp; [by eapply upd_frame|done]). cbn beta. rewrite upd_upd.
  reflexivity.
Qed.

Lemma lookup_wp id pl s :
  pool_wf pl ->
  kds_buf_lookup id (wp pl s) =
    match buf_map pl !! id with
    | Some fid => match frames pl !! fid with
                  | Some f => match f_kp f with
                              | Some k => Ret (Some fid) (wp (upd fid (set_f_kp (Some (set_kp_refcnt (kp_refcnt k + 1) k)) f) pl) s)
                              | None => Halt Fault (wp pl s)
                              end
                  | None => Halt Fault (wp pl s)
                  end
    | None => Ret None (wp pl s)
    end.
Proof.
  intros Hwf. unfold kds_buf_lookup. cbn [g_pool wp set_g_pool].
  destruct (buf_map pl !! id) as [fid|] eqn:Hm; [|done].
  destruct (pw_map _ Hwf _ _ Hm) as (f & k & p & Hf & _ & _ & Hk & _). rewrite Hf, Hk.
  fold (wp pl s). by erewrite bind_ok by (by eapply pin_wp).
Qed.

Lemma read_from_disk_wp fid id pl s f :
  frames pl !! fid = Some f ->
  (exists t, let p := disk_page (disk s) id in
     kds_frame_read_from_disk fid id (wp pl s) =
       Ret 0 (wp (upd fid (set_f_page (LivePg p)
         (set_f_kp (Some (Kpage id (page_hdr_dec (sub p 0 KDS_PAGE_HDR_SIZE)) 0)) f)) pl) (set_tick t s))) \/
  (exists t r f', r <> 0 /\ kds_frame_read_from_disk fid id (wp pl s) = Ret r (wp (upd fid f' pl) (set_tick t s))).
Proof.
  intros Hf. assert (Hid : upd fid f pl = pl) by (unfold upd; rewrite list_insert_id by done; by destruct pl).
  unfold kds_frame_read_from_disk. rewrite gets_wp.
  destruct (kds_bdev (wp pl s)); cbn [negb].
  2:{ right. exists (tick s), (- ENODEV), f. split; [done|]. rewrite Hid. by destruct s. }
  unfold alloc_ok. rewrite oracle_wp. destruct (k_alloc (tick s)); cbn [negb].
  2:{ right. eexists _, _, f. rewrite Hid. split; [|reflexivity]. done. }
  destruct (read_logical_page_spec (kds_page_sector id) (wp pl (set_tick (S (tick s)) s))) as (t & [E|(r & E & Hr)]);
    (erewrite bind_ok by exact E); cbn beta iota.
  2:{ right. eexists _, _, f. rewrite Hid. split; [|reflexivity]. done. }
  change (set_tick t (wp pl (set_tick (S (tick s)) s))) with (wp pl (set_tick t s)).
  rewrite oracle_wp. destruct (k_alloc (tick (set_tick t s))); cbn [negb].
  - left. eexists. cbn zeta. erewrite bind_ok by (by apply frame_mod_wp). reflexivity.
  - right. eexists _, (- ENOMEM), _. split; [done|].
    erewrite bind_ok by (by apply frame_mod_wp). reflexivity.
Qed.

Definition pinned (k : kds_page) : kds_page := set_kp_refcnt (kp_refcnt k + 1) k.

Lemma wf_cached pl id : pool_wf pl ->
  match buf_map pl !! id with
  | Some fid => exists f k p, frames pl !! fid = Some f /\ frame_holds f id k p /\ cached pl id = Some (k, p)
  | None => cached pl id = None
  end.
Proof.
  intros Hwf. unfold cached. destruct (buf_map pl !! id) as [fid|] eqn:Hm; [|done].
  destruct (pw_map _ Hwf _ _ Hm) as (f & k & p & Hf & Hh). exists f, k, p. split; [done|]. split; [done|].
  simpl. rewrite Hf. simpl. unfold content. destruct Hh as (_ & _ & -> & -> & _). done.
Qed.
Lemma free_head pl fid rest : pool_wf pl -> free_frames pl = fid :: rest ->
  exists f, frames pl !! fid = Some f /\ f_state f = KDS_FRAME_FREE.
Proof. intros Hwf Hf. apply (pw_free _ Hwf). rewrite Hf. left. Qed.

(** Taking the first free frame and marking it as loading. *)
Definition claimed (fid : nat) (rest : list nat) (f : kds_frame) (pl : kds_buf_pool) : kds_buf_pool :=
  BufPool (<[fid := f]> (frames pl)) (buf_map pl) rest (nr_free pl - 1).
Lemma claim_wp {B} (c : nat -> M kds_state B) (e : M kds_state B) id pl s fid rest f :
  free_frames pl = fid :: rest -> frames pl !! fid = Some f ->
  (f <- kds_buf_take_free_frame ;;
   match f with
   | None => e
   | Some fid => frame_mod fid (set_f_state KDS_FRAME_LOADING) ;; frame_mod fid (set_f_page_id id) ;; c fid
   end) (wp pl s) =
  c fid (wp (claimed fid rest (set_f_page_id id (set_f_state KDS_FRAME_LOADING f)) pl) s).
Proof.
  intros Hfl Hf. unfold kds_buf_take_free_frame. unfold bind at 1. rewrite pool_get_wp, Hfl, pool_mod_wp.
  unfold ret. cbn beta iota. erewrite bind_ok by (by apply frame_mod_wp). cbn beta.
  erewrite bind_ok by (apply frame_mod_wp; by eapply upd_frame). cbn beta. by rewrite upd_upd.
Qed.
Lemma claimed_frame fid rest f pl f0 :
  frames pl !! fid = Some f0 -> frames (claimed fid rest f pl) !! fid = Some f.
Proof. intros H. apply list_lookup_insert_eq. by apply lookup_lt_Some in H. Qed.
Lemma claimed_give_back fid rest f g pl :
  BufPool (<[fid := g]> (frames (claimed fid rest f pl))) (buf_map (claimed fid rest f pl))
    (free_frames (claimed fid rest f pl) ++ [fid]) (nr_free (claimed fid rest f pl) + 1) =
  give_back pl fid g rest.
Proof. unfold claimed, give_back; cbn. rewrite list_insert_insert_eq. f_equal. lia. Qed.

(** The globals of the other components. *)
Definition same_globals (s s' : kds_state) : Prop :=
  kds_bdev s' = kds_bdev s /\ superblock s' = superblock s /\ sb_io_page s' = sb_io_page s /\
  g_fresh_init s' = g_fresh_init s /\ g_alloc s' = g_alloc s /\ free_list s' = free_list s.

(** What a call that may bring a page into the cache leaves behind. *)
Definition cache_result (pl : kds_buf_pool) (s0 : kds_state) (d' : gmap Z bytes) (id : Z)
  (v : option (kds_page * bytes)) (o : outcome kds_state (ptr_or_err nat)) : Prop :=
  exists r s' pl', o = Ret r s' /\ g_pool s' = Some pl' /\ pool_wf pl' /\ same_globals s0 s' /\
  buf_map pl ⊆ buf_map pl' /\
  match r with
  | PTR fid => disk s' = d' /\ buf_map pl' !! id = Some fid /\
      forall id', cached pl' id' = if decide (id' = id) then v else cached pl id'
  | ERR_PTR e => e <> 0 /\ (disk s' = disk s0 \/ disk s' = d') /\ (free_frames pl = [] -> e = - ENOSPC) /\
      forall id', cached pl' id' = cached pl id'
  end.

Lemma give_back_result pl s0 d' id v s fid rest f e :
  pool_wf pl -> free_frames pl = fid :: rest -> f_state f = KDS_FRAME_FREE -> e <> 0 ->
  same_globals s0 s -> (disk s = disk s0 \/ disk s = d') ->
  cache_result pl s0 d' id v (Ret (ERR_PTR e) (wp (give_back pl fid f rest) s)).
Proof.
  intros Hwf Hfl Hf He Hg Hd. destruct (give_back_wf pl Hwf fid rest f Hfl Hf) as [Hwf' Hc'].
  exists (ERR_PTR e). eexists _, _. split; [reflexivity|].
  refine (conj _ (conj Hwf' (conj Hg (conj _ (conj He (conj Hd (conj _ Hc'))))))); [reflexivity|done|by rewrite Hfl].
Qed.
Lemma publish_result pl s0 d' id k p s fid rest f :
  pool_wf pl -> free_frames pl = fid :: rest -> buf_map pl !! id = None -> frame_holds f id k p ->
  same_globals s0 s -> disk s = d' ->
  cache_result pl s0 d' id (Some (k, p)) (Ret (PTR fid) (wp (publish pl fid f id rest) s)).
Proof.
  intros Hwf Hfl Hm Hf Hg Hd. destruct (publish_wf pl Hwf fid rest f id k p Hfl Hm Hf) as [Hwf' Hc'].
  exists (PTR fid). eexists _, _. split; [reflexivity|].
  refine (conj _ (conj Hwf' (conj Hg (conj _ (conj Hd (conj _ Hc')))))); [reflexivity|by apply insert_subseteq|apply lookup_insert_eq].
Qed.
Lemma no_free_result pl s0 d' id v s :
  pool_wf pl -> free_frames pl = [] -> same_globals s0 s -> disk s = disk s0 ->
  cache_result pl s0 d' id v (Ret (ERR_PTR (- ENOSPC)) (wp pl s)).
Proof.
  intros ?? Hg ?. exists (ERR_PTR (- ENOSPC)), (wp pl s), pl. split; [reflexivity|]. split_and!; try done. by left.
Qed.
(** Discarding a claimed frame returns the pool to its free list. *)
Lemma discard_claimed fid rest f g b pl s f0 :
  frames pl !! fid = Some f0 ->
  exists f', f_state f' = KDS_FRAME_FREE /\
    discard_frame fid b (wp (upd fid g (claimed fid rest f pl)) s) = Ret tt (wp (give_back pl fid f' rest) s).
Proof.
  intros Hf0.
  destruct (discard_wp fid b (upd fid g (claimed fid rest f pl)) s g) as (f' & Hf' & E).
  { eapply upd_frame. by eapply claimed_frame. }
  exists f'. split; [done|]. rewrite E. cbn [upd frames buf_map free_frames nr_free].
  by rewrite list_insert_insert_eq, claimed_give_back.
Qed.
Lemma release_claimed fid rest f g pl s f0 :
  frames pl !! fid = Some f0 ->
  release_frame fid (wp (upd fid g (claimed fid rest f pl)) s) =
    Ret tt (wp (give_back pl fid (set_f_page_id 0 (set_f_state KDS_FRAME_FREE g)) rest) s).
Proof.
  intros Hf0. rewrite (release_wp _ _ _ g) by (eapply upd_frame; by eapply claimed_frame).
  cbn [upd frames buf_map free_frames nr_free]. by rewrite list_insert_insert_eq, claimed_give_back.
Qed.

(** A page that is in the cache is found there: the same frame, with
    one more pin, no access to the device, and nothing else changed. *)
Theorem lookup_or_load_hit id s pl k p :
  g_pool s = Some pl -> pool_wf pl -> cached pl id = Some (k, p) ->
  exists fid s' pl', kds_buf_lookup_or_load id s = Ret (PTR fid) s' /\ g_pool s' = Some pl' /\
    pool_wf pl' /\ disk s' = disk s /\ buf_map pl' = buf_map pl /\ buf_map pl !! id = Some fid /\
    forall id', cached pl' id' = if decide (id' = id) then Some (pinned k, p) else cached pl id'.
Proof.
  intros Hpl Hwf Hc. pose proof (wf_cached pl id Hwf) as Hw.
  destruct (buf_map pl !! id) as [fid|] eqn:Hm; [|congruence].
  destruct Hw as (f & k' & p' & Hf & Hh & Hc'). rewrite Hc in Hc'. injection Hc' as <- <-.
  pose proof Hh as (Hv & Hid & Hk & Hp & Hkid & Hl & Hres).
  set (f' := set_f_kp (Some (pinned k)) f).
  destruct (upd_wf pl Hwf fid f' id (pinned k) p Hm) as [Hwf' Hc']; [done|].
  exists fid, (wp (upd fid f' pl) s), (upd fid f' pl). split_and!; try done.
  rewrite <- (wp_id s pl Hpl) at 1. unfold kds_buf_lookup_or_load. rewrite gets_wp. cbn [g_pool wp set_g_pool].
  fold (wp pl s). erewrite bind_ok; [|rewrite lookup_wp, Hm, Hf, Hk by done; reflexivity]. reflexivity.
Qed.

(** C24.  A page that is not in the cache is read from the device into the
    first free frame and published with one pin; if any step fails, the
    error is returned, the frame goes back to the free list, and the cache
    and the device are as before. *)
Theorem lookup_or_load_miss id s pl :
  g_pool s = Some pl -> pool_wf pl -> disk_ok (disk s) -> cached pl id = None ->
  let p := disk_page (disk s) id in
  cache_result pl s (disk s) id
    (Some (Kpage id (page_hdr_dec (sub p 0 KDS_PAGE_HDR_SIZE)) 1, p)) (kds_buf_lookup_or_load id s).
Proof.
  intros Hpl Hwf Hd Hc p. pose proof (wf_cached pl id Hwf) as Hw.
  destruct (buf_map pl !! id) as [fid|] eqn:Hm; [destruct Hw as (? & ? & ? & _ & _ & ?); congruence|].
  rewrite <- (wp_id s pl Hpl). unfold kds_buf_lookup_or_load. rewrite gets_wp. cbn [g_pool wp set_g_pool].
  fold (wp pl s). erewrite bind_ok; [|rewrite lookup_wp, Hm by done; reflexivity]. cbn beta iota.
  destruct (free_frames pl) as [|fid rest] eqn:Hfl.
  { unfold kds_buf_take_free_frame. unfold bind at 1. rewrite pool_get_wp, Hfl. by apply no_free_result. }
  destruct (free_head pl fid rest Hwf Hfl) as (f & Hf & Hs).
  rewrite (claim_wp _ _ id pl s fid rest f Hfl Hf).
  set (f1 := set_f_page_id id _).
  assert (Hlen : zlen p = KDS_PAGE_SIZE).
  { unfold p, disk_page, zlen. rewrite length_disk_read by done. unfold KDS_PAGE_SIZE. lia. }
  edestruct (read_from_disk_wp fid id (claimed fid rest f1 pl)) as [[t E]|(t & r & f2 & Hr & E)];
    [by eapply claimed_frame| |]; (erewrite bind_ok by exact E); cbn beta.
  2:{ destruct (Z.eqb_spec r 0); [done|]. cbn [negb].
      erewrite bind_ok by (by eapply release_claimed). apply give_back_result; auto; done. }
  cbn [negb Z.eqb]. fold p. set (f2 := set_f_page (LivePg p) _).
  edestruct (register_wp fid (upd fid f2 (claimed fid rest f1 pl)) (set_tick t s) f2)
    as [[t' E']|(t' & r & E' & Hr)]; try done; [by eapply upd_frame, claimed_frame| |];
    (erewrite bind_ok by exact E'); cbn beta.
  - cbn [Z.eqb EEXIST Z.opp negb upd frames buf_map free_frames nr_free claimed].
    rewrite !list_insert_insert_eq. apply publish_result; auto; try done.
    do 6 (split; [done|]). cbn [kp_hdr]. apply length_dec_reserved.
    rewrite length_sub; unfold KDS_PAGE_HDR_SIZE, KDS_PAGE_SIZE in *; lia.
  - destruct (discard_claimed fid rest f1 f2 false pl (set_tick t' (set_tick t s)) f Hf) as (f4 & Hf4 & E4).
    destruct (Z.eqb_spec r (- EEXIST)) as [->|Hne].
    + erewrite bind_ok by exact E4. rewrite pool_get_wp. cbn [give_back buf_map]. rewrite Hm.
      apply give_back_result; auto; done.
    + destruct (Z.eqb_spec r 0); [done|]. cbn [negb]. erewrite bind_ok by exact E4. apply give_back_result; auto; done.
Qed.

(** The page that [kds_buf_alloc_new] writes and publishes. *)
Definition new_hdr : kds_page_hdr :=
  PageHdr KDS_PAGE_TYPE_INVALID 0 (Z.lor KDS_PAGE_FLAG_ALLOC KDS_PAGE_FLAG_DIRTY)
    (map (fun i => u8 (k_garbage i)) (seq 0 32)).
Definition new_buf : bytes := patch (zeros KDS_PAGE_SIZE) 0 (page_hdr_enc new_hdr).
Lemma zlen_new_buf : zlen new_buf = KDS_PAGE_SIZE.
Proof.
  unfold new_buf. rewrite zlen_patch; rewrite ?zlen_zeros; unfold KDS_PAGE_SIZE; try lia.
  rewrite zlen_page_hdr_enc by done. unfold KDS_PAGE_HDR_SIZE. lia.
Qed.

Lemma alloc_new_claimed id pl s fid rest f :
  pool_wf pl -> free_frames pl = fid :: rest -> frames pl !! fid = Some f -> buf_map pl !! id = None ->
  let o := kds_buf_alloc_new id (wp pl s) in
  (exists s', o = Halt Panic s' /\ disk s' = disk s) \/
  cache_result pl s (put_page (disk s) id new_buf) id (Some (Kpage id (clear_dirty new_hdr) 1, new_buf)) o.
Proof.
  intros Hwf Hfl Hf Hm o. subst o. unfold kds_buf_alloc_new. rewrite gets_wp. cbn [g_pool wp set_g_pool].
  fold (wp pl s). erewrite bind_ok; [|rewrite lookup_wp, Hm by done; reflexivity]. cbn beta iota.
  rewrite (claim_wp _ _ id pl s fid rest f Hfl Hf). set (f1 := set_f_page_id id _).
  assert (Hcl : upd fid f1 (claimed fid rest f1 pl) = claimed fid rest f1 pl).
  { unfold upd, claimed; cbn. by rewrite list_insert_insert_eq. }
  unfold alloc_ok. rewrite oracle_wp. destruct (k_alloc (tick s)); cbn [negb].
  2:{ right. rewrite <- Hcl. erewrite bind_ok by (by eapply release_claimed). apply give_back_result; auto; done. }
  rewrite oracle_wp. destruct (k_alloc _); cbn [negb].
  2:{ right. erewrite bind_ok by (eapply frame_mod_wp; by eapply claimed_frame). cbn beta.
      erewrite bind_ok by (by eapply release_claimed). apply give_back_result; auto; done. }
  fold new_hdr new_buf. cbn zeta. fold new_hdr. fold new_buf.
  erewrite bind_ok by (eapply frame_mod_wp; by eapply claimed_frame). cbn beta. set (f2 := set_f_page _ _).
  rewrite gets_wp. destruct (kds_bdev _); cbn [negb]; [|left; by eexists].
  edestruct (write_logical_page_spec (kds_page_sector id) new_buf) as [[t E]|[t E]]; [apply zlen_new_buf| |].
  2:{ left. eexists. unfold bind at 1. rewrite E. split; reflexivity. }
  right. erewrite bind_ok by exact E. cbn [negb Z.eqb]. 
  set (s1 := set_tick (S (tick (set_tick (S (tick s)) s))) (set_tick (S (tick s)) s)) in *.
  set (d' := disk_write _ _ _ _) in *.
  change (set_tick t (set_disk d' (wp ?pl s1))) with (wp pl (set_tick t (set_disk d' s1))).
  erewrite bind_ok.
  2:{ rewrite (on_frame_wp _ _ _ _ f2) by (by eapply upd_frame, claimed_frame). reflexivity. }
  rewrite upd_upd. set (f3 := set_f_kp _ _).
  edestruct (register_wp fid (upd fid f3 (claimed fid rest f1 pl)) (set_tick t (set_disk d' s1)) f3)
    as [[t' E']|(t' & r & E' & Hr)]; try done; [by eapply upd_frame, claimed_frame| |];
    (erewrite bind_ok by exact E'); cbn beta.
  - cbn [Z.eqb negb upd frames buf_map free_frames nr_free claimed].
    rewrite !list_insert_insert_eq. apply publish_result; auto; try done.
  - destruct (discard_claimed fid rest f1 f3 true pl (set_tick t' (set_tick t (set_disk d' s1))) f Hf) as (f4 & Hf4 & E4).
    destruct (Z.eqb_spec r 0); [done|]. cbn [negb]. erewrite bind_ok by exact E4. apply give_back_result; auto; done.
Qed.

(** A new page is written to the device, header first and the rest
    zero, before it enters the cache, clean and pinned once.  An id that is
    already cached is refused with [-EEXIST] and nothing changes; other
    failures leave the cache as before, or the machine panics because the
    device cannot be written. *)
Lemma alloc_new_spec id s pl :
  g_pool s = Some pl -> pool_wf pl ->
  let o := kds_buf_alloc_new id s in
  match cached pl id with
  | Some _ => exists s' pl', o = Ret (ERR_PTR (- EEXIST)) s' /\ g_pool s' = Some pl' /\ pool_wf pl' /\
                same_globals s s' /\ buf_map pl' = buf_map pl /\
                disk s' = disk s /\ forall id', cached pl' id' = cached pl id'
  | None =>
      (exists s', o = Halt Panic s' /\ disk s' = disk s) \/
      cache_result pl s (put_page (disk s) id new_buf) id
        (Some (Kpage id (clear_dirty new_hdr) 1, new_buf)) o
  end.
Proof.
  intros Hpl Hwf o. subst o. pose proof (wf_cached pl id Hwf) as Hw. rewrite <- (wp_id s pl Hpl).
  destruct (buf_map pl !! id) as [fid|] eqn:Hm.
  - destruct Hw as (f & k & p & Hf & Hh & ->). pose proof Hh as (Hv & Hid & Hk & Hp & Hkid & Hl & Hres).
    unfold kds_buf_alloc_new. rewrite gets_wp. cbn [g_pool wp set_g_pool]. fold (wp pl s).
    erewrite bind_ok; [|rewrite lookup_wp, Hm, Hf, Hk by done; reflexivity]. cbn beta iota.
    erewrite bind_ok.
    2:{ unfold kds_buf_unpin. erewrite on_frame_wp by (by eapply upd_frame). reflexivity. }
    rewrite upd_upd. set (f' := set_f_kp _ _).
    assert (f' = f) as ->.
    { destruct f, k; cbn in *; subst. unfold f', set_f_kp, set_kp_refcnt; cbn. do 3 f_equal. lia. }
    eexists _, pl. split; [reflexivity|]. split_and!; try done.
    cbn. unfold upd. rewrite list_insert_id by done. by destruct pl.
  - rewrite Hw. destruct (free_frames pl) as [|fid rest] eqn:Hfl.
    + right. unfold kds_buf_alloc_new. rewrite gets_wp. cbn [g_pool wp set_g_pool]. fold (wp pl s).
      erewrite bind_ok; [|rewrite lookup_wp, Hm by done; reflexivity]. cbn beta iota.
      unfold kds_buf_take_free_frame. unfold bind at 1. rewrite pool_get_wp, Hfl. by apply no_free_result.
    + destruct (free_head pl fid rest Hwf Hfl) as (f & Hf & Hs).
      by apply (alloc_new_claimed id pl s fid rest f Hwf Hfl Hf Hm).
Qed.

(** ** Flushing *)
Definition is_dirty (k : kds_page) : bool := has_flag KDS_PAGE_FLAG_DIRTY (kp_hdr k).
Definition cleaned (k : kds_page) : kds_page := set_kp_hdr (clear_dirty (kp_hdr k)) k.
(** The image of a page: its content under its current header. *)
Definition image (k : kds_page) (p : bytes) : bytes := patch p 0 (page_hdr_enc (kp_hdr k)).

Lemma zlen_image k p :
  zlen p = KDS_PAGE_SIZE -> length (ph_reserved1 (kp_hdr k)) = 32%nat -> zlen (image k p) = KDS_PAGE_SIZE.
Proof.
  intros Hl Hr. unfold image. pose proof (zlen_page_hdr_enc _ Hr) as Hz. unfold KDS_PAGE_HDR_SIZE, KDS_PAGE_SIZE in *.
  rewrite zlen_patch; lia.
Qed.

Lemma flush_wp fid pl s f id k p :
  frames pl !! fid = Some f -> frame_holds f id k p ->
  let o := kds_frame_flush fid (wp pl s) in
  if is_dirty k then
    (exists t, o = Ret 0 (wp (upd fid (set_f_kp (Some (cleaned k)) (set_f_page (LivePg (image k p)) f)) pl)
                           (set_tick t (set_disk (put_page (disk s) id (image k p)) s)))) \/
    (exists s', o = Halt Panic s')
  else o = Ret 0 (wp pl s).
Proof.
  intros Hf (Hv & Hid & Hk & Hp & Hkid & Hl & Hres) o. subst o. unfold kds_frame_flush, is_dirty.
  erewrite bind_ok by (apply (frame_get_wp fid _ pl _ f Hf)). rewrite Hk.
  destruct (has_flag KDS_PAGE_FLAG_DIRTY (kp_hdr k)); cbn [negb]; [|done].
  erewrite bind_ok by (apply (frame_get_wp fid _ pl _ f Hf)). rewrite Hid.
  pose proof (zlen_page_hdr_enc _ Hres) as Hz.
  erewrite bind_ok.
  2:{ rewrite (on_frame_wp _ _ _ _ f Hf). unfold st. rewrite Hp.
      rewrite Hz. unfold KDS_PAGE_HDR_SIZE, KDS_PAGE_SIZE. cbn [Z.add Z.leb Z.compare Pos.compare Pos.compare_cont].
      reflexivity. }
  fold (image k p). erewrite bind_ok.
  2:{ rewrite (on_frame_wp _ _ _ _ (set_f_page (LivePg (image k p)) f)) by (by eapply upd_frame). reflexivity. }
  rewrite upd_upd.
  edestruct (write_logical_page_spec (kds_page_sector id) (image k p)) as [[t E]|[t E]];
    [by apply zlen_image| |].
  2:{ right. eexists. unfold bind at 1. rewrite E. reflexivity. }
  left. exists t. erewrite bind_ok by exact E. cbn [negb Z.eqb]. fold (put_page (disk s) id (image k p)).
  change (set_tick t (set_disk ?d (wp ?pl s))) with (wp pl (set_tick t (set_disk d s))).
  erewrite bind_ok.
  2:{ rewrite (on_frame_wp _ _ _ _ (set_f_page (LivePg (image k p)) f)) by (by eapply upd_frame).
      unfold kp_mod. cbn [f_kp set_f_page]. rewrite Hk. reflexivity. }
  by rewrite upd_upd.
Qed.

(** A page before and after a flush: a dirty page is clean afterwards and
    its image is on the device; a clean or absent page is untouched. *)
Definition untouched_at (pl : kds_buf_pool) (d : gmap Z bytes) (pl' : kds_buf_pool) (d' : gmap Z bytes) (id : Z) : Prop :=
  cached pl' id = cached pl id /\ disk_page d' id = disk_page d id.
Definition flushed_at (pl : kds_buf_pool) (d : gmap Z bytes) (pl' : kds_buf_pool) (d' : gmap Z bytes) (id : Z) : Prop :=
  match cached pl id with
  | Some (k, p) => if is_dirty k
                   then cached pl' id = Some (cleaned k, image k p) /\ disk_page d' id = image k p
                   else untouched_at pl d pl' d' id
  | None => untouched_at pl d pl' d' id
  end.
Lemma cleaned_not_dirty k : is_dirty (cleaned k) = false.
Proof.
  unfold is_dirty, cleaned, has_flag, clear_dirty; cbn -[Z.land].
  rewrite <- Z.land_assoc. change (Z.land (255 - KDS_PAGE_FLAG_DIRTY) KDS_PAGE_FLAG_DIRTY) with 0.
  by rewrite Z.land_0_r.
Qed.
Lemma flushed_twice pl d pl1 d1 pl2 d2 id :
  flushed_at pl d pl1 d1 id -> flushed_at pl1 d1 pl2 d2 id -> flushed_at pl d pl2 d2 id.
Proof.
  unfold flushed_at, untouched_at. destruct (cached pl id) as [[k p]|] eqn:E.
  - destruct (is_dirty k) eqn:Ed; intros [H1 H2]; rewrite H1; [rewrite cleaned_not_dirty|rewrite Ed]; intros [H3 H4]; by rewrite H3, H4.
  - intros [H1 H2]; rewrite H1. intros [H3 H4]; by rewrite H3, H4.
Qed.
Lemma flushed_untouched pl d pl1 d1 pl2 d2 id :
  flushed_at pl d pl1 d1 id -> untouched_at pl1 d1 pl2 d2 id -> flushed_at pl d pl2 d2 id.
Proof.
  unfold flushed_at, untouched_at. intros H [H3 H4].
  destruct (cached pl id) as [[k p]|]; [destruct (is_dirty k)|]; destruct H as [H1 H2]; rewrite H3, H4; by split.
Qed.
Lemma untouched_flushed pl d pl1 d1 pl2 d2 id :
  untouched_at pl d pl1 d1 id -> flushed_at pl1 d1 pl2 d2 id -> flushed_at pl d pl2 d2 id.
Proof.
  unfold flushed_at, untouched_at. intros [H1 H2]. rewrite H1.
  destruct (cached pl id) as [[k p]|]; [destruct (is_dirty k)|]; intros [H3 H4]; rewrite ?H3, ?H4; by split.
Qed.
Lemma untouched_trans pl d pl1 d1 pl2 d2 id :
  untouched_at pl d pl1 d1 id -> untouched_at pl1 d1 pl2 d2 id -> untouched_at pl d pl2 d2 id.
Proof. unfold untouched_at. intros [-> ->] [-> ->]. done. Qed.

Definition ids_ok (pl : kds_buf_pool) : Prop := forall id fid, buf_map pl !! id = Some fid -> page_id_ok id.
Definition after_flush (fids : list nat) (pl : kds_buf_pool) (d : gmap Z bytes) (o : outcome kds_state unit) : Prop :=
  (exists s', o = Halt Panic s') \/
  (exists s' pl', o = Ret tt s' /\ g_pool s' = Some pl' /\ pool_wf pl' /\ buf_map pl' = buf_map pl /\
    forall id, page_id_ok id ->
      match buf_map pl !! id with
      | Some fid => if decide (fid ∈ fids) then flushed_at pl d pl' (disk s') id else untouched_at pl d pl' (disk s') id
      | None => untouched_at pl d pl' (disk s') id
      end).

(** One round of the loop. *)
Definition flush_one (fid : nat) : M kds_state unit :=
  f <- frame_get fid (fun f => f) ;;
  match f_state f, f_kp f with
  | KDS_FRAME_VALID, Some k =>
      if has_flag KDS_PAGE_FLAG_DIRTY (kp_hdr k)
      then kds_buf_pin fid ;; kds_frame_flush fid ;; kds_buf_unpin fid
      else ret tt
  | _, _ => ret tt
  end.
Lemma no_flush_needed fid pl s :
  pool_wf pl -> (forall id k p, buf_map pl !! id = Some fid -> cached pl id = Some (k, p) -> is_dirty k = false) ->
  after_flush [fid] pl (disk s) (Ret tt (wp pl s)).
Proof.
  intros Hwf Hc. right. exists (wp pl s), pl. split_and!; try done. intros id Hid.
  pose proof (wf_cached pl id Hwf) as Hw. destruct (buf_map pl !! id) as [fid'|] eqn:Hm; [|done].
  case_decide as Hin; [|done]. apply list_elem_of_singleton in Hin as ->.
  destruct Hw as (f & k & p & _ & _ & Hck). unfold flushed_at. rewrite Hck. by rewrite (Hc id k p Hm Hck).
Qed.
Lemma flush_one_spec fid pl s f :
  pool_wf pl -> ids_ok pl -> frames pl !! fid = Some f -> after_flush [fid] pl (disk s) (flush_one fid (wp pl s)).
Proof.
  intros Hwf Hids Hf. unfold flush_one. erewrite bind_ok by (apply (frame_get_wp fid _ pl _ f Hf)).
  destruct (f_state f) eqn:Hs.
  1,2: apply no_flush_needed; [done|]; intros id k p Hm Hc;
       destruct (pw_map _ Hwf _ _ Hm) as (f' & ? & ? & Hf' & Hv & _); congruence.
  pose proof (pw_valid _ Hwf _ _ Hf Hs) as Hm. destruct (pw_map _ Hwf _ _ Hm) as (f' & k & p & Hf' & Hh).
  assert (f' = f) as -> by congruence. pose proof Hh as (_ & Hid & Hk & Hp & Hkid & Hl & Hres). rewrite Hk.
  assert (Hck : cached pl (f_page_id f) = Some (k, p)).
  { unfold cached. rewrite Hm. simpl. rewrite Hf. simpl. unfold content. by rewrite Hk, Hp. }
  destruct (has_flag KDS_PAGE_FLAG_DIRTY (kp_hdr k)) eqn:Hd.
  2:{ apply no_flush_needed; [done|]. intros id k' p' Hm' Hc'.
      assert (id = f_page_id f) as -> by (by eapply map_injective). rewrite Hck in Hc'. by injection Hc' as <- <-. }
  erewrite bind_ok by (by eapply pin_wp). cbn beta. set (f1 := set_f_kp _ f).
  pose proof (flush_wp fid (upd fid f1 pl) s f1 (f_page_id f) (pinned k) p (upd_frame _ _ _ _ Hf)) as Hfl.
  cbn zeta in Hfl. unfold is_dirty in Hfl. cbn [pinned set_kp_refcnt kp_hdr] in Hfl. rewrite Hd in Hfl.
  destruct Hfl as [[t E]|[s' E]]; [done| |left; unfold bind; rewrite E; by eexists].
  rewrite upd_upd in E. erewrite bind_ok by exact E.
  set (f2 := set_f_kp (Some (cleaned (pinned k))) _).
  set (f3 := set_f_kp (Some (cleaned k)) (set_f_page (LivePg (image k p)) f)).
  right. exists (wp (upd fid f3 pl) (set_tick t (set_disk (put_page (disk s) (f_page_id f) (image k p)) s))), (upd fid f3 pl).
  destruct (upd_wf pl Hwf fid f3 (f_page_id f) (cleaned k) (image k p) Hm) as [Hwf' Hc'].
  { do 5 (split; [done|]). split; [by apply zlen_image|done]. }
  split_and!; [|done|done|done|].
  - unfold kds_buf_unpin. rewrite (on_frame_wp _ _ _ _ f2) by (by eapply upd_frame).
    unfold kp_mod. change (f_kp f2) with (Some (cleaned (pinned k))). cbn beta iota. rewrite upd_upd. do 3 f_equal. unfold f3, f2, f1, cleaned, set_f_kp; cbn. do 2 f_equal.
    destruct k; cbn. unfold set_kp_refcnt, set_kp_hdr; cbn. f_equal. lia.
  - assert (Hli : length (image k p) = (512 * 16)%nat).
    { pose proof (zlen_image k p Hl Hres) as Hz. unfold zlen, KDS_PAGE_SIZE in Hz. lia. }
    intros id Hido. cbn [disk wp set_g_pool set_tick set_disk].
    assert (Hne : id <> f_page_id f -> untouched_at pl (disk s) (upd fid f3 pl) (put_page (disk s) (f_page_id f) (image k p)) id).
    { intros Hne. split; [rewrite Hc'; by case_decide|]. apply disk_page_put_ne; [by eapply Hids|done|done]. }
    destruct (buf_map pl !! id) as [fid'|] eqn:Hm'.
    + case_decide as Hin; [apply list_elem_of_singleton in Hin as ->|].
      * assert (id = f_page_id f) as -> by (by eapply map_injective).
        unfold flushed_at. rewrite Hck. unfold is_dirty. rewrite Hd. rewrite Hc', decide_True by done.
        split; [done|by apply disk_page_put].
      * apply Hne. intros ->. rewrite Hm in Hm'. injection Hm' as <-. apply Hin. left.
    + apply Hne. intros ->. congruence.
Qed.

Lemma flush_frames_spec fids pl s :
  pool_wf pl -> ids_ok pl -> Forall (fun fid => (fid < length (frames pl))%nat) fids ->
  after_flush fids pl (disk s) (flush_frames fids (wp pl s)).
Proof.
  revert pl s. induction fids as [|fid fids IH]; intros pl s Hwf Hids Hlt.
  { right. exists (wp pl s), pl. split_and!; try done. intros id _. by destruct (buf_map pl !! id). }
  apply Forall_cons in Hlt as [Hlt Hrest]. destruct (lookup_lt_is_Some_2 _ _ Hlt) as [f Hf].
  replace (flush_frames (fid :: fids) (wp pl s)) with ((flush_one fid ;; flush_frames fids) (wp pl s))
    by (unfold flush_one; rewrite bind_assoc; reflexivity).
  destruct (flush_one_spec fid pl s f Hwf Hids Hf) as [[s1 E]|(s1 & pl1 & E & Hg1 & Hwf1 & Hm1 & Ha1)].
  { left. unfold bind. rewrite E. by eexists. }
  erewrite bind_ok by exact E. rewrite <- (wp_id s1 pl1 Hg1).
  assert (Hids1 : ids_ok pl1) by (intros id fid'; rewrite Hm1; apply Hids).
  assert (Hrest1 : Forall (fun fid => (fid < length (frames pl1))%nat) fids)
    by (by rewrite (pw_len _ Hwf1), <- (pw_len _ Hwf)).
  destruct (IH pl1 s1 Hwf1 Hids1 Hrest1) as [Hp|(s2 & pl2 & E2 & Hg2 & Hwf2 & Hm2 & Ha2)]; [by left|].
  right. exists s2, pl2. split_and!; try done; [congruence|]. intros id Hid.
  specialize (Ha1 id Hid). specialize (Ha2 id Hid). rewrite Hm1 in Ha2.
  destruct (buf_map pl !! id) as [fid'|]; [|by eapply untouched_trans].
  destruct (decide (fid' ∈ [fid])) as [Hin1|Hin1]; destruct (decide (fid' ∈ fids)) as [Hin2|Hin2].
  - rewrite decide_True by (by right). by eapply flushed_twice.
  - rewrite decide_True by (apply list_elem_of_singleton in Hin1 as ->; left). by eapply flushed_untouched.
  - rewrite decide_True by (by right). by eapply untouched_flushed.
  - rewrite decide_False; [by eapply untouched_trans|]. intros [->|?]%elem_of_cons; [|done]. apply Hin1. left.
Qed.

(** C10.  When [kds_buf_flush_dirty_frames] returns, every page that was
    dirty is clean in the cache and its image, header included, is on the
    device; all other pages are as they were, in the cache and on the
    device.  The only other outcome is the panic of a failed write. *)
Theorem flush_dirty_frames_durable s pl :
  g_pool s = Some pl -> pool_wf pl -> ids_ok pl ->
  (exists s', kds_buf_flush_dirty_frames s = Halt Panic s') \/
  (exists s' pl', kds_buf_flush_dirty_frames s = Ret tt s' /\ g_pool s' = Some pl' /\ pool_wf pl' /\
     forall id, page_id_ok id -> flushed_at pl (disk s) pl' (disk s') id).
Proof.
  intros Hg Hwf Hids.
  assert (kds_buf_flush_dirty_frames s = flush_frames (seq 0 KDS_BUF_NR_FRAMES) (wp pl s)) as ->.
  { rewrite (wp_id s pl Hg). unfold kds_buf_flush_dirty_frames, bind, gets. by rewrite Hg. }
  assert (Hlt : Forall (fun fid => (fid < length (frames pl))%nat) (seq 0 KDS_BUF_NR_FRAMES)).
  { apply Forall_forall. intros x Hx%list_elem_of_In%in_seq. rewrite (pw_len _ Hwf). lia. }
  destruct (flush_frames_spec _ pl s Hwf Hids Hlt) as [Hp|(s' & pl' & E & Hg' & Hwf' & _ & Ha)]; [by left|].
  right. exists s', pl'. split_and!; try done. intros id Hid. specialize (Ha id Hid).
  pose proof (wf_cached pl id Hwf) as Hw. destruct (buf_map pl !! id) as [fid|] eqn:Hm.
  - rewrite decide_True in Ha; [done|]. destruct (pw_map _ Hwf _ _ Hm) as (f & ? & ? & Hf & _).
    apply list_elem_of_In, in_seq. apply lookup_lt_Some in Hf. rewrite (pw_len _ Hwf) in Hf. lia.
  - unfold flushed_at. by rewrite Hw.
Qed.

(** The header that a flush writes still has the DIRTY bit: a page
    that was flushed and is loaded again comes back marked dirty. *)
Theorem flushed_page_reloads_dirty k p :
  page_hdr_ok (kp_hdr k) -> is_dirty k = true ->
  has_flag KDS_PAGE_FLAG_DIRTY (page_hdr_dec (sub (image k p) 0 KDS_PAGE_HDR_SIZE)) = true.
Proof.
  intros Hok Hd. unfold image. unfold KDS_PAGE_HDR_SIZE. rewrite <- page_hdr_dec_sub.
  unfold patch. change (Z.to_nat 0) with 0%nat. rewrite take_0, app_nil_l, page_hdr_dec_enc by done. exact Hd.
Qed.
End PoolOps.

(** ** The initial pool and concrete instances *)
Definition init_pool : kds_buf_pool :=
  BufPool (map fresh_frame (seq 0 KDS_BUF_NR_FRAMES)) ∅ (seq 0 KDS_BUF_NR_FRAMES) (Z.of_nat KDS_BUF_NR_FRAMES).
Lemma init_frame fid f :
  frames init_pool !! fid = Some f <-> f = fresh_frame fid /\ (fid < KDS_BUF_NR_FRAMES)%nat.
Proof.
  unfold init_pool; cbn [frames]. rewrite list_lookup_fmap_Some. split.
  - intros (i & -> & Hi%lookup_seq). destruct Hi as [-> ?]. done.
  - intros [-> Hlt]. exists fid. split; [done|]. by apply lookup_seq_lt.
Qed.
Lemma init_pool_wf : pool_wf init_pool.
Proof.
  split.
  - unfold init_pool; cbn [frames]. by rewrite length_map, length_seq.
  - intros id fid. cbn. by rewrite lookup_empty.
  - intros fid f [-> _]%init_frame. done.
  - intros fid. cbn [init_pool free_frames]. rewrite list_elem_of_In, in_seq. split.
    + intros ?. exists (fresh_frame fid). rewrite init_frame. split; [split; [done|lia]|done].
    + intros (f & [_ ?]%init_frame & _). lia.
  - apply NoDup_ListNoDup, seq_NoDup.
  - cbn [init_pool nr_free free_frames]. unfold zlen. by rewrite length_seq.
  - intros fid f [-> _]%init_frame. done.
Qed.

(** [kds_buf_pool_init] either fails and leaves no pool, or
    establishes a well-formed, empty pool with all frames free. *)
Theorem pool_init_spec `{K : Kernel} s :
  exists r s', kds_buf_pool_init s = Ret r s' /\
    if r =? 0 then exists pl, g_pool s' = Some pl /\ pool_wf pl /\ (forall id, cached pl id = None) /\
                              nr_free pl = 4096
    else g_pool s' = None.
Proof.
  unfold kds_buf_pool_init, alloc_ok. unfold bind at 1, oracle at 1.
  destruct (k_alloc (tick s)); cbn [negb].
  2:{ eexists _, _. split; [reflexivity|]. done. }
  unfold bind at 1, oracle at 1.
  destruct (Z.eqb_spec (k_rhash (tick (set_tick (S (tick s)) s))) 0) as [_|Hne]; cbn [negb].
  - eexists 0, _. split; [reflexivity|]. exists init_pool. split; [done|].
    split; [apply init_pool_wf|]. split; [|done]. intros id. unfold cached; cbn. by rewrite lookup_empty.
  - eexists _, _. split; [reflexivity|]. by destruct (Z.eqb_spec (k_rhash (tick (set_tick (S (tick s)) s))) 0).
Qed.

#[local] Existing Instance quiet_kernel.
Definition demo_page : kds_page := Kpage 3 (PageHdr 4 0 11 (zeros 32)) 1.
Definition demo_held : kds_frame := Frame 0 KDS_FRAME_VALID 3 (Some demo_page) (LivePg (zeros KDS_PAGE_SIZE)) false.
Definition demo_pool : kds_buf_pool := publish init_pool 0 demo_held 3 (seq 1 (pred KDS_BUF_NR_FRAMES)).
Lemma demo_pool_ok : pool_wf demo_pool /\ cached demo_pool 3 = Some (demo_page, zeros KDS_PAGE_SIZE) /\
  cached demo_pool 4 = None /\ ids_ok demo_pool.
Proof.
  destruct (publish_wf init_pool init_pool_wf 0 (seq 1 (pred KDS_BUF_NR_FRAMES)) demo_held 3 demo_page (zeros KDS_PAGE_SIZE))
    as [Hwf Hc].
  - cbn [init_pool free_frames]. change KDS_BUF_NR_FRAMES with (S (pred KDS_BUF_NR_FRAMES)) at 1. reflexivity.
  - apply lookup_empty.
  - do 5 (split; [done|]). split; [by apply zlen_zeros|done].
  - fold demo_pool in *. split; [done|]. rewrite !Hc. split; [done|]. split.
    + unfold cached; cbn [init_pool buf_map]. by rewrite decide_False, lookup_empty by lia.
    + intros id fid. cbn [demo_pool publish buf_map init_pool]. intros [[<- _]|[_ H]]%lookup_insert_Some.
      * split; lia.
      * by rewrite lookup_empty in H.
Qed.
Definition demo_pool_state : kds_state := set_g_pool (Some demo_pool) demo_state.

Lemma lookup_or_load_hit_witness :
  exists fid s' pl', kds_buf_lookup_or_load 3 demo_pool_state = Ret (PTR fid) s' /\ g_pool s' = Some pl' /\
    cached pl' 3 = Some (pinned demo_page, zeros KDS_PAGE_SIZE).
Proof.
  destruct demo_pool_ok as (Hwf & Hc & _).
  destruct (lookup_or_load_hit 3 demo_pool_state demo_pool demo_page (zeros KDS_PAGE_SIZE) eq_refl Hwf Hc)
    as (fid & s' & pl' & E & Hg & _ & _ & _ & _ & H).
  exists fid, s', pl'. rewrite (H 3). auto.
Defined.
Lemma lookup_or_load_miss_witness :
  cache_result demo_pool demo_pool_state ∅ 4
    (Some (Kpage 4 (page_hdr_dec (sub (disk_page ∅ 4) 0 KDS_PAGE_HDR_SIZE)) 1, disk_page ∅ 4))
    (kds_buf_lookup_or_load 4 demo_pool_state).
Proof.
  destruct demo_pool_ok as (Hwf & _ & Hc & _).
  apply (lookup_or_load_miss 4 demo_pool_state demo_pool); [reflexivity|exact Hwf| |exact Hc].
  apply map_Forall_empty.
Defined.
Lemma alloc_new_spec_witness :
  exists s' pl', kds_buf_alloc_new 3 demo_pool_state = Ret (ERR_PTR (- EEXIST)) s' /\ g_pool s' = Some pl' /\
    pool_wf pl' /\ disk s' = ∅.
Proof.
  destruct demo_pool_ok as (Hwf & Hc & _ & _).
  pose proof (alloc_new_spec 3 demo_pool_state demo_pool eq_refl Hwf) as H. cbn zeta in H.
  rewrite Hc in H. destruct H as (s' & pl' & H1 & H2 & H3 & _ & _ & H4 & _). exists s', pl'. auto.
Defined.
Lemma flush_dirty_frames_durable_witness :
  (exists s', kds_buf_flush_dirty_frames demo_pool_state = Halt Panic s') \/
  (exists s' pl', kds_buf_flush_dirty_frames demo_pool_state = Ret tt s' /\ g_pool s' = Some pl' /\ pool_wf pl' /\
     forall id, page_id_ok id -> flushed_at demo_pool ∅ pl' (disk s') id).
Proof.
  destruct demo_pool_ok as (Hwf & _ & _ & Hids).
  apply (flush_dirty_frames_durable demo_pool_state demo_pool); [reflexivity|exact Hwf|exact Hids].
Defined.
Lemma flushed_page_reloads_dirty_witness :
  has_flag KDS_PAGE_FLAG_DIRTY (page_hdr_dec (sub (image demo_page (zeros KDS_PAGE_SIZE)) 0 KDS_PAGE_HDR_SIZE)) = true.
Proof.
  apply (flushed_page_reloads_dirty demo_page (zeros KDS_PAGE_SIZE)); [|reflexivity].
  unfold page_hdr_ok; cbn -[zeros]. split_and!; try lia; [reflexivity|apply bytes_ok_zeros].
Defined.
