(* ===== verification/Page.v ===== *)
(** * Page: operations on a page's buffer and header (kernel/kds/page.c) *)
From S2P Require Import Prelude Layout State Disk Pool.
From stdpp Require Import prelude gmap list.
From Stdlib Require Import ZArith Lia.
Local Open Scope Z_scope.
Local Open Scope kds_scope.

Section Page.
Context `{K : Kernel}.

Definition kds_free_list_add (fid : nat) : M kds_state unit :=
  modify (fun s => set_free_list (free_list s ++ [fid]) s).

(** [crc32c(~0, data, len) ^ ~0] over the page without its header *)
Definition kds_calc_data_crc (page_data : bytes) : Z :=
  Z.lxor (u32 (k_crc32c (2 ^ 32 - 1) (sub page_data KDS_PAGE_HDR_SIZE (KDS_PAGE_SIZE - KDS_PAGE_HDR_SIZE))))
         (2 ^ 32 - 1).

Definition check_valid_page : M kds_frame bool :=
  guard_frame false (
    p <- page_bytes ;;
    h <- kp_get kp_hdr ;;
    ret (kds_calc_data_crc p =? ph_crc h)).
Definition kds_update_page_crc : M kds_frame unit :=
  guard_frame tt (
    p <- page_bytes ;;
    kp_mod (fun k => set_kp_hdr (set_ph_crc (kds_calc_data_crc p) (kp_hdr k)) k)).

Definition kds_read_page (page_id : Z) : M kds_state (ptr_or_err nat) := kds_buf_lookup_or_load page_id.

Definition kds_write_page (fid : nat) : M kds_state Z :=
  f <- frame_get fid (fun f => f) ;;
  match f_kp f, f_page f with
  | None, _ | _, NullPg => ret (- EINVAL)
  | Some k, _ =>
      dev <- gets kds_bdev ;;
      if negb dev then ret (- ENODEV) else
      p <- on_frame fid page_bytes ;;
      kds_write_logical_page (kds_page_sector (kp_id k)) p
  end.

(** The validity test of all frames comes before the first write. *)
Fixpoint frames_valid (fids : list nat) : M kds_state bool :=
  match fids with
  | [] => ret true
  | fid :: rest =>
      f <- frame_get fid (fun f => f) ;;
      match f_kp f, f_page f with
      | None, _ | _, NullPg => ret false
      | Some _, _ => frames_valid rest
      end
  end.
Fixpoint write_each (fids : list nat) : M kds_state Z :=
  match fids with
  | [] => ret 0
  | fid :: rest =>
      k <- on_frame fid (kp_get kp_id) ;;
      p <- on_frame fid page_bytes ;;
      r <- kds_write_logical_page (kds_page_sector k) p ;;
      if negb (r =? 0) then ret r else write_each rest
  end.
Definition kds_write_pages (fids : list nat) : M kds_state Z :=
  match fids with
  | [] => ret (- EINVAL)
  | _ =>
      dev <- gets kds_bdev ;;
      if negb dev then ret (- ENODEV) else
      ok <- frames_valid fids ;;
      if negb ok then ret (- EINVAL) else write_each fids
  end.

Definition kds_set_page_buffer (data : bytes) (offset size : Z) : M kds_frame Z :=
  guard_frame (- EINVAL) (
    if KDS_PAGE_SIZE <? u64 (offset + size) then ret (- EINVAL) else
    d <- src (Some data) size ;;
    st offset d ;;
    kds_set_page_dirty ;;
    ret 0).

Definition kds_commit_page_hdr : M kds_frame Z :=
  guard_frame (- EINVAL) (
    h <- kp_get kp_hdr ;;
    st 0 (page_hdr_enc h) ;;
    ret 0).

(** The header that is stored in the page object is the caller's, without
    the DIRTY bit set just before. *)
Definition kds_update_page_hdr (hdr : kds_page_hdr) : M kds_frame Z :=
  guard_frame (- EINVAL) (
    st 0 (page_hdr_enc hdr) ;;
    kds_set_page_dirty ;;
    kp_mod (set_kp_hdr hdr) ;;
    ret 0).

Definition kds_free_page (fid : nat) : M kds_state Z :=
  f <- frame_get fid (fun f => f) ;;
  match f_kp f, f_page f with
  | None, _ | _, NullPg => ret (- EINVAL)
  | Some _, _ =>
      on_frame fid (st 0 (zeros KDS_PAGE_SIZE)) ;;
      on_frame fid kds_set_page_dirty ;;
      on_frame fid (kp_mod (fun k => set_kp_hdr (or_flags KDS_PAGE_FLAG_FREE (kp_hdr k)) k)) ;;
      kds_free_list_add fid ;;
      ret 0
  end.
End Page.
