(* ===== verification/PageSpec.v ===== *)
(** * PageSpec: checksums and headers (page.c)

    The checksum covers the page behind its header, so committing the header
    does not invalidate it; the header in the page object and the one in the
    buffer are related after each operation. *)
From S2P Require Import Prelude Layout State Disk DiskSpec Meta Pool PoolSpec Page.
From stdpp Require Import prelude gmap list.
From Stdlib Require Import ZArith Lia.
Local Open Scope Z_scope.
Local Open Scope kds_scope.

Section PageOps.
Context `{K : Kernel}.

Lemma page_bytes_live f k p : page_bytes (live_frame f k p) = Ret p (live_frame f k p).
Proof. reflexivity. Qed.
Lemma data_after_hdr p h : zlen p = KDS_PAGE_SIZE -> zlen h = KDS_PAGE_HDR_SIZE ->
  kds_calc_data_crc (patch p 0 h) = kds_calc_data_crc p.
Proof.
  intros Hp Hh. unfold kds_calc_data_crc. rewrite sub_patch_disj; [done|..];
    unfold KDS_PAGE_HDR_SIZE, KDS_PAGE_SIZE in *; lia.
Qed.

(** The checksum covers the data and not the header: after
    [kds_update_page_crc] the page is valid, and it stays valid when the
    header, checksum included, is committed to the buffer; the data is
    what it was. *)
Theorem page_crc_valid f k p :
  frame_live f k p -> zlen p = KDS_PAGE_SIZE -> length (ph_reserved1 (kp_hdr k)) = 32%nat ->
  exists k', kds_update_page_crc f = Ret tt (live_frame f k' p) /\
    check_valid_page (live_frame f k' p) = Ret true (live_frame f k' p) /\
    exists q, kds_commit_page_hdr (live_frame f k' p) = Ret 0 (live_frame f k' q) /\
      check_valid_page (live_frame f k' q) = Ret true (live_frame f k' q) /\
      sub q KDS_PAGE_HDR_SIZE (KDS_PAGE_SIZE - KDS_PAGE_HDR_SIZE) = sub p KDS_PAGE_HDR_SIZE (KDS_PAGE_SIZE - KDS_PAGE_HDR_SIZE).
Proof.
  intros Hf Hl Hr. rewrite <- (frame_live_eq f k p Hf).
  set (k' := set_kp_hdr (set_ph_crc (kds_calc_data_crc p) (kp_hdr k)) k). exists k'.
  assert (Hz : zlen (page_hdr_enc (kp_hdr k')) = KDS_PAGE_HDR_SIZE) by (by apply zlen_page_hdr_enc).
  assert (Hv : forall q, kds_calc_data_crc q = kds_calc_data_crc p ->
    check_valid_page (live_frame f k' q) = Ret true (live_frame f k' q)).
  { intros q Hq. unfold check_valid_page. rewrite guard_frame_live'.
    erewrite bind_ok by apply page_bytes_live. erewrite bind_ok by apply kp_get_live.
    unfold ret. cbn [k' set_kp_hdr set_ph_crc kp_hdr ph_crc]. by rewrite Hq, Z.eqb_refl. }
  split; [|split; [by apply Hv|]].
  - unfold kds_update_page_crc. rewrite guard_frame_live'. by erewrite bind_ok by apply page_bytes_live.
  - exists (patch p 0 (page_hdr_enc (kp_hdr k'))). split_and!.
    + unfold kds_commit_page_hdr. rewrite guard_frame_live'. erewrite bind_ok by apply kp_get_live.
      by erewrite bind_ok by (apply st_live; rewrite Hz; unfold KDS_PAGE_HDR_SIZE, KDS_PAGE_SIZE; lia).
    + apply Hv. by apply data_after_hdr.
    + apply sub_patch_disj; unfold KDS_PAGE_HDR_SIZE, KDS_PAGE_SIZE in *; lia.
Qed.

(** [kds_update_page_hdr] sets the DIRTY flag and then replaces the
    whole header by the caller's.  With a header that is not marked dirty,
    the cached page has the new header in its buffer and is clean, so a
    flush writes nothing and the device keeps the old header. *)
Theorem update_page_hdr_not_flushed hdr fid s pl f id k p :
  g_pool s = Some pl -> pool_wf pl -> buf_map pl !! id = Some fid -> frames pl !! fid = Some f ->
  frame_holds f id k p -> has_flag KDS_PAGE_FLAG_DIRTY hdr = false -> length (ph_reserved1 hdr) = 32%nat ->
  exists s' pl', on_frame fid (kds_update_page_hdr hdr) s = Ret 0 s' /\ g_pool s' = Some pl' /\
    cached pl' id = Some (set_kp_hdr hdr k, patch p 0 (page_hdr_enc hdr)) /\
    kds_frame_flush fid s' = Ret 0 s' /\ disk s' = disk s.
Proof.
  intros Hg Hwf Hm Hf Hh Hd Hr. pose proof Hh as (Hv & Hid & Hk & Hp & Hkid & Hl & Hres).
  assert (Hz : zlen (page_hdr_enc hdr) = KDS_PAGE_HDR_SIZE) by (by apply zlen_page_hdr_enc).
  set (q := patch p 0 (page_hdr_enc hdr)). set (f' := live_frame f (set_kp_hdr hdr k) q).
  assert (Hh' : frame_holds f' id (set_kp_hdr hdr k) q).
  { split_and!; try done. unfold q. rewrite zlen_patch; unfold KDS_PAGE_HDR_SIZE, KDS_PAGE_SIZE in *; lia. }
  destruct (upd_wf pl Hwf fid f' id (set_kp_hdr hdr k) q Hm Hh') as [Hwf' Hc'].
  exists (wp (upd fid f' pl) s), (upd fid f' pl). split_and!; try done.
  - replace s with (wp pl s) at 1 by (by apply wp_id). rewrite (on_frame_wp _ _ _ _ f Hf).
    replace f with (live_frame f k p) at 1 by (by apply frame_live_eq).
    unfold kds_update_page_hdr. rewrite guard_frame_live'.
    erewrite bind_ok by (apply st_live; rewrite Hz; unfold KDS_PAGE_HDR_SIZE, KDS_PAGE_SIZE; lia). reflexivity.
  - rewrite Hc'. by rewrite decide_True.
  - pose proof (flush_wp fid (upd fid f' pl) s f' id (set_kp_hdr hdr k) q (upd_frame _ _ _ _ Hf) Hh') as H.
    cbn zeta in H. unfold is_dirty in H. cbn [set_kp_hdr kp_hdr] in H. by rewrite Hd in H.
Qed.
End PageOps.

#[local] Existing Instance quiet_kernel.
Lemma page_crc_valid_witness :
  exists k', kds_update_page_crc demo_held = Ret tt (live_frame demo_held k' (zeros KDS_PAGE_SIZE)) /\
    check_valid_page (live_frame demo_held k' (zeros KDS_PAGE_SIZE)) = Ret true (live_frame demo_held k' (zeros KDS_PAGE_SIZE)).
Proof.
  destruct (page_crc_valid demo_held demo_page (zeros KDS_PAGE_SIZE)) as (k' & H1 & H2 & _);
    [split; reflexivity|by apply zlen_zeros|reflexivity|]. exists k'. auto.
Defined.
Lemma update_page_hdr_not_flushed_witness :
  exists s', on_frame 0 (kds_update_page_hdr (PageHdr 4 0 3 (zeros 32))) demo_pool_state = Ret 0 s' /\
    kds_frame_flush 0 s' = Ret 0 s' /\ disk s' = ∅.
Proof.
  destruct demo_pool_ok as (Hwf & _).
  destruct (update_page_hdr_not_flushed (PageHdr 4 0 3 (zeros 32)) 0 demo_pool_state demo_pool demo_held 3 demo_page (zeros KDS_PAGE_SIZE))
    as (s' & pl' & H1 & _ & _ & H2 & H3);
    [reflexivity|exact Hwf|apply lookup_insert_eq|reflexivity| |reflexivity|reflexivity|].
  - do 5 (split; [done|]). split; [by apply zlen_zeros|done].
  - exists s'. auto.
Defined.
