(* ===== verification/Alloc.v ===== *)
(** * Alloc: the page allocator (kernel/kds/page_alloc.c, kds_page_alloc.h)

    A ring of frames that were created ahead of use.  [alloc_system_fill] and
    [alloc_system_drain] are what the start and the stop do with it; Main.v
    completes them with the registration of the refill task. *)
From S2P Require Import Prelude Layout State Disk Meta Pool.
From stdpp Require Import prelude gmap list.
From Stdlib Require Import ZArith Lia.
Local Open Scope Z_scope.
Local Open Scope kds_scope.

Definition PRE_ALLOC_RING_BUFFER_SIZE : Z := 128.
Definition PRE_ALLOC_NUM : Z := 256.
Definition PRE_ALLOC_PAGE_THRES : Z := 32.

(** ** The ring *)
Definition kds_ring_is_full (a : kds_page_allocator) : bool :=
  u64 (reserved a + 1) mod PRE_ALLOC_RING_BUFFER_SIZE =? cursor a.
Definition kds_ring_count (a : kds_page_allocator) : Z :=
  u64 (u64 (reserved a - cursor a) + PRE_ALLOC_RING_BUFFER_SIZE) mod PRE_ALLOC_RING_BUFFER_SIZE.
Definition kds_ring_free_slots (a : kds_page_allocator) : Z :=
  u64 (PRE_ALLOC_RING_BUFFER_SIZE - 1 - kds_ring_count a).
Definition ring_push (frame : nat) (a : kds_page_allocator) : kds_page_allocator :=
  Allocator (u64 (reserved a + 1) mod PRE_ALLOC_RING_BUFFER_SIZE) (cursor a)
            (<[Z.to_nat (reserved a) := Some frame]> (ring a)).
(** Taking the frame at the cursor: what [kds_page_alloc] and the shutdown
    loop do under the lock. *)
Definition ring_take (a : kds_page_allocator) : option nat * kds_page_allocator :=
  (default None (ring a !! Z.to_nat (cursor a)),
   Allocator (reserved a) (u64 (cursor a + 1) mod PRE_ALLOC_RING_BUFFER_SIZE)
             (<[Z.to_nat (cursor a) := None]> (ring a))).

Section Alloc.
Context `{K : Kernel}.

Definition alloc_get {A} (g : kds_page_allocator -> A) : M kds_state A := fun s =>
  match g_alloc s with Some a => Ret (g a) s | None => Halt Fault s end.
Definition alloc_set (a : kds_page_allocator) : M kds_state unit := modify (set_g_alloc (Some a)).

(** ** Consumer *)
Definition kds_page_alloc (type : Z) : M kds_state (option nat) :=
  a <- alloc_get (fun a => a) ;;
  if kds_ring_count a =? 0 then ret None else
  let '(frame, a') := ring_take a in
  alloc_set a' ;;
  match frame with
  | None => halt_with Fault
  | Some fid =>
      on_frame fid (kp_mod (fun k => set_kp_hdr (set_ph_type type (kp_hdr k)) k)) ;;
      ret (Some fid)
  end.
Definition kds_get_reserved_kpage (type : Z) : M kds_state (option nat) := kds_page_alloc type.

(** ** Batch allocation *)
Fixpoint batch_loop (n : nat) (id got : Z) : M kds_state Z :=
  match n with
  | O => ret got
  | S n =>
      frame <- kds_buf_alloc_new id ;;
      match frame with
      | ERR_PTR _ => ret got
      | PTR fid =>
          a <- alloc_get (fun a => a) ;;
          if kds_ring_is_full a then kds_buf_unpin fid ;; ret got else
          alloc_set (ring_push fid a) ;;
          batch_loop n (u64 (id + 1)) (got + 1)
      end
  end.
Definition kds_batch_alloc (count : Z) : M kds_state Z :=
  if count =? 0 then ret 0 else
  free <- alloc_get kds_ring_free_slots ;;
  let want := Z.min count free in
  if want =? 0 then ret 0 else
  base <- alloc_page_id_batch want ;;
  let base := if base =? 0 then base + KDS_SYS_RESERVED_PAGES else base in
  got <- batch_loop (Z.to_nat want) base 0 ;;
  kds_meta_set_alloc_range base 0 ;;
  kds_superblock_fsync ;;
  ret got.

(** ** Reclaim at boot *)
Fixpoint reclaim_loop (n : nat) (id got : Z) : M kds_state Z :=
  match n with
  | O => ret got
  | S n =>
      a <- alloc_get (fun a => a) ;;
      if kds_ring_is_full a then ret got else
      frame <- kds_buf_lookup_or_load id ;;
      match frame with
      | ERR_PTR _ => reclaim_loop n (u64 (id + 1)) got
      | PTR fid =>
          hdr <- on_frame fid (kp_get kp_hdr) ;;
          if negb (has_flag KDS_PAGE_FLAG_ALLOC hdr) || has_flag KDS_PAGE_FLAG_INIT hdr
          then kds_buf_unpin fid ;; reclaim_loop n (u64 (id + 1)) got
          else
            a <- alloc_get (fun a => a) ;;
            if kds_ring_is_full a then kds_buf_unpin fid ;; ret got else
            alloc_set (ring_push fid a) ;;
            reclaim_loop n (u64 (id + 1)) (got + 1)
      end
  end.
Definition kds_reclaim_uninitialized_pages (point : Z) : M kds_state Z :=
  max_id <- get_max_page_id ;;
  let scan_end := Z.min (u64 (point + PRE_ALLOC_NUM)) max_id in
  if scan_end <=? point then ret 0 else
  reclaim_loop (Z.to_nat (scan_end - point)) point 0.

(** ** Refill task, initialisation, shutdown *)
Definition kds_proc_prealloc : M kds_state unit :=
  count <- alloc_get kds_ring_count ;;
  if count <? PRE_ALLOC_PAGE_THRES
  then kds_batch_alloc (PRE_ALLOC_RING_BUFFER_SIZE - count) ;; ret tt
  else ret tt.

Definition kds_init_g_alloc : M kds_state unit :=
  ok <- alloc_ok ;;
  if negb ok then halt_with Bug else
  alloc_set (Allocator 0 0 (replicate (Z.to_nat PRE_ALLOC_RING_BUFFER_SIZE) None)).

Definition alloc_system_fill : M kds_state Z :=
  kds_init_g_alloc ;;
  let* (point, _) := kds_meta_get_alloc_range in
  if point =? 0 then kds_batch_alloc PRE_ALLOC_RING_BUFFER_SIZE
  else
    filled <- kds_reclaim_uninitialized_pages point ;;
    if filled <? PRE_ALLOC_PAGE_THRES
    then more <- kds_batch_alloc (PRE_ALLOC_RING_BUFFER_SIZE - filled) ;; ret (filled + more)
    else ret filled.

(** The loop that empties the ring; each round lowers the count. *)
Fixpoint drain_loop (fuel : nat) : M kds_state unit :=
  match fuel with
  | O => halt_with NoFuel
  | S fuel =>
      a <- alloc_get (fun a => a) ;;
      if 0 <? kds_ring_count a then
        let '(frame, a') := ring_take a in
        alloc_set a' ;;
        match frame with Some fid => kds_buf_unpin fid | None => ret tt end ;;
        drain_loop fuel
      else ret tt
  end.
Definition alloc_system_drain : M kds_state unit :=
  a <- gets g_alloc ;;
  match a with
  | None => ret tt
  | Some _ => drain_loop (Z.to_nat PRE_ALLOC_RING_BUFFER_SIZE) ;; modify (set_g_alloc None)
  end.

Definition kds_page_alloc_get_stats : M kds_state (Z * Z * Z * Z) :=
  a <- gets g_alloc ;;
  match a with
  | None => ret (0, 0, 0, 0)
  | Some a => let* (ap, _) := kds_meta_get_alloc_range in ret (ap, 0, kds_ring_count a, 0)
  end.
End Alloc.
