(* ===== verification/AllocSpec.v ===== *)
(** * AllocSpec: the ring is a bounded queue of prepared pages

    The ring's indices only grow (modulo 2^32); an abstraction function reads the staged
    frames off it.  Pushing, taking, the batch allocation and the drain at
    shutdown are stated on the queue and on the cache below it. *)
From S2P Require Import Prelude Layout State Disk DiskSpec Meta MetaSpec Pool PoolSpec Page Alloc.
From stdpp Require Import prelude gmap list.
From Stdlib Require Import ZArith Lia.
Local Open Scope Z_scope.
Local Open Scope kds_scope.

(** ** The abstract ring: a queue of at most 127 frames *)
Record ring_is (a : kds_page_allocator) (q : list nat) : Prop := {
  ri_cursor : 0 <= cursor a < 128;
  ri_len : length (ring a) = 128%nat;
  ri_max : zlen q <= 127;
  ri_reserved : reserved a = (cursor a + zlen q) mod 128;
  ri_items : forall i f, q !! i = Some f ->
    ring a !! Z.to_nat ((cursor a + Z.of_nat i) mod 128) = Some (Some f) }.

Lemma ri_reserved_range a q : ring_is a q -> 0 <= reserved a < 128.
Proof. intros H. rewrite (ri_reserved _ _ H). apply Z.mod_pos_bound. lia. Qed.

(** Two offsets below 128 that meet modulo 128 are equal. *)
Lemma mod128_inj c i j : 0 <= i < 128 -> 0 <= j < 128 -> (c + i) mod 128 = (c + j) mod 128 -> i = j.
Proof.
  intros Hi Hj E. pose proof (Z.div_mod (c + i) 128 ltac:(lia)). pose proof (Z.div_mod (c + j) 128 ltac:(lia)). lia.
Qed.

Lemma ring_count_spec a q : ring_is a q -> kds_ring_count a = zlen q.
Proof.
  intros H. pose proof (ri_reserved_range a q H) as Hr. destruct H as [Hc _ Hm Hres _].
  pose proof (zlen_nonneg q). unfold kds_ring_count, PRE_ALLOC_RING_BUFFER_SIZE, u64.
  rewrite Zplus_mod_idemp_l.
  rewrite (Z.mod_small (reserved a - cursor a + 128)) by lia.
  rewrite Hres. replace ((cursor a + zlen q) mod 128 - cursor a + 128) with ((cursor a + zlen q) mod 128 + (128 - cursor a)) by lia.
  rewrite Zplus_mod_idemp_l. replace (cursor a + zlen q + (128 - cursor a)) with (zlen q + 1 * 128) by lia.
  rewrite Z.mod_add, Z.mod_small by lia. done.
Qed.
Lemma ring_full_spec a q : ring_is a q -> kds_ring_is_full a = (zlen q =? 127).
Proof.
  intros H. pose proof (ri_reserved_range a q H) as Hr. destruct H as [Hc _ Hm Hres _].
  pose proof (zlen_nonneg q). unfold kds_ring_is_full, PRE_ALLOC_RING_BUFFER_SIZE.
  rewrite u64_small by lia. rewrite Hres, Zplus_mod_idemp_l.
  replace (cursor a + zlen q + 1) with (cursor a + (zlen q + 1)) by lia.
  destruct (Z.eqb_spec (zlen q) 127) as [->|Hne].
  - replace (cursor a + (127 + 1)) with (cursor a + 1 * 128) by lia.
    rewrite Z.mod_add, Z.mod_small by lia. apply Z.eqb_refl.
  - apply Z.eqb_neq. intros E.
    assert ((cursor a + (zlen q + 1)) mod 128 = (cursor a + 0) mod 128) as E'
      by (rewrite E, Z.add_0_r, Z.mod_small; lia).
    apply mod128_inj in E'; lia.
Qed.
Lemma ring_free_spec a q : ring_is a q -> kds_ring_free_slots a = 127 - zlen q.
Proof.
  intros H. unfold kds_ring_free_slots, PRE_ALLOC_RING_BUFFER_SIZE. rewrite (ring_count_spec a q H).
  pose proof (zlen_nonneg q). pose proof (ri_max _ _ H). rewrite u64_small; lia.
Qed.

Lemma ring_push_spec a q f : ring_is a q -> zlen q < 127 -> ring_is (ring_push f a) (q ++ [f]).
Proof.
  intros H Hlt. pose proof (ri_reserved_range a q H) as Hr. destruct H as [Hc Hl Hm Hres Hit].
  pose proof (zlen_nonneg q). unfold ring_push, PRE_ALLOC_RING_BUFFER_SIZE.
  split; cbn [reserved cursor ring].
  - done.
  - by rewrite length_insert.
  - rewrite zlen_app. change (zlen [f]) with 1. lia.
  - rewrite u64_small by lia. rewrite Hres, Zplus_mod_idemp_l, zlen_app. f_equal. change (zlen [f]) with 1. lia.
  - intros i g Hi. destruct (decide (i = length q)) as [->|Hne].
    + rewrite list_lookup_middle in Hi by done. injection Hi as <-. fold (zlen q). rewrite <- Hres.
      apply list_lookup_insert_eq. lia.
    + assert (Hlt' : (i < length q)%nat).
      { apply lookup_lt_Some in Hi. rewrite length_app in Hi. simpl in Hi. lia. }
      rewrite lookup_app_l in Hi by done. rewrite list_lookup_insert_ne; [by apply Hit|].
      intros E. apply Z2Nat.inj in E; [|lia|apply Z.mod_pos_bound; lia].
      rewrite Hres in E. apply mod128_inj in E; unfold zlen in *; lia.
Qed.
Lemma ring_take_spec a f q :
  ring_is a (f :: q) -> exists a', ring_take a = (Some f, a') /\ ring_is a' q.
Proof.
  intros [Hc Hl Hm Hres Hit]. rewrite zlen_cons in *. pose proof (zlen_nonneg q).
  eexists. split.
  - unfold ring_take. pose proof (Hit 0%nat f eq_refl) as H0. rewrite Z.add_0_r, Z.mod_small in H0 by lia.
    rewrite H0. reflexivity.
  - unfold PRE_ALLOC_RING_BUFFER_SIZE. rewrite u64_small by lia. split; cbn [reserved cursor ring].
    + apply Z.mod_pos_bound. lia.
    + by rewrite length_insert.
    + lia.
    + rewrite Hres, Zplus_mod_idemp_l. f_equal. lia.
    + intros i g Hi. rewrite Zplus_mod_idemp_l.
      pose proof (Hit (S i) g Hi) as Hg. apply lookup_lt_Some in Hi.
      replace (cursor a + 1 + Z.of_nat i) with (cursor a + Z.of_nat (S i)) by lia.
      rewrite list_lookup_insert_ne; [done|]. intros E.
      apply Z2Nat.inj in E; [|lia|apply Z.mod_pos_bound; lia].
      assert ((cursor a + 0) mod 128 = (cursor a + Z.of_nat (S i)) mod 128) as E'
        by (rewrite Z.add_0_r, <- E, Z.mod_small; lia).
      apply mod128_inj in E'; unfold zlen in *; lia.
Qed.

(** C25.  The ring with its two indices and one wasted slot implements a
    queue of at most 127 frames: the count is the length, it is full
    exactly at 127, a push appends, and taking returns the oldest. *)
Theorem ring_refines_queue a q :
  ring_is a q ->
  kds_ring_count a = zlen q /\ kds_ring_is_full a = (zlen q =? 127) /\
  kds_ring_free_slots a = 127 - zlen q /\
  (forall f, kds_ring_is_full a = false -> ring_is (ring_push f a) (q ++ [f])) /\
  match q with
  | [] => kds_ring_count a = 0
  | f :: q' => exists a', ring_take a = (Some f, a') /\ ring_is a' q'
  end.
Proof.
  intros H. split; [by apply ring_count_spec|]. split; [by apply ring_full_spec|].
  split; [by apply ring_free_spec|]. split.
  - intros f Hf. rewrite (ring_full_spec a q H) in Hf. apply Z.eqb_neq in Hf.
    apply ring_push_spec; [done|]. pose proof (ri_max _ _ H). lia.
  - destruct q as [|f q]; [by rewrite (ring_count_spec _ _ H)|by apply ring_take_spec].
Qed.


(** ** Staging pages *)
Section AllocOps.
Context `{K : Kernel}.

Record alloc_state (s : kds_state) (pl : kds_buf_pool) (q : list nat) : Prop := {
  as_pool : g_pool s = Some pl;
  as_wf : pool_wf pl;
  as_ring : exists a, g_alloc s = Some a /\ ring_is a q }.

Lemma alloc_get_ok {A B} (g : kds_page_allocator -> A) (c : A -> M kds_state B) s a :
  g_alloc s = Some a -> bind (alloc_get g) c s = c (g a) s.
Proof. intros H. unfold bind, alloc_get. by rewrite H. Qed.

(** The frames [fs] were staged for the ids from [id] on. *)
Definition staged (pl : kds_buf_pool) (id : Z) (fs : list nat) : Prop :=
  forall i fid, fs !! i = Some fid -> buf_map pl !! (id + Z.of_nat i) = Some fid.
(** No page appears outside of the [n] ids from [id] on. *)
Definition new_ids (pl pl' : kds_buf_pool) (id : Z) (n : nat) : Prop :=
  forall id', ~ id <= id' < id + Z.of_nat n -> cached pl' id' = cached pl id'.
Definition same_meta (s s' : kds_state) : Prop :=
  superblock s' = superblock s /\ sb_io_page s' = sb_io_page s /\ g_fresh_init s' = g_fresh_init s.
Definition batch_done (s : kds_state) (pl : kds_buf_pool) (q : list nat) (n : nat) (id got : Z)
  (o : outcome kds_state Z) : Prop :=
  (exists s', o = Halt Panic s') \/
  (exists s' pl' fs, o = Ret (got + zlen fs) s' /\ alloc_state s' pl' (q ++ fs) /\
     buf_map pl ⊆ buf_map pl' /\ zlen fs <= Z.of_nat n /\ staged pl' id fs /\
     same_meta s s' /\ new_ids pl pl' id n).

(** A page whose pin count is lowered by [n]. *)
Definition lowered (n : nat) (v : kds_page * bytes) : kds_page * bytes :=
  (set_kp_refcnt (kp_refcnt v.1 - Z.of_nat n) v.1, v.2).
Lemma unpin_ok fid id s pl :
  g_pool s = Some pl -> pool_wf pl -> buf_map pl !! id = Some fid ->
  exists pl', kds_buf_unpin fid s = Ret tt (wp pl' s) /\ pool_wf pl' /\ buf_map pl' = buf_map pl /\
    (forall id', id' <> id -> cached pl' id' = cached pl id') /\ cached pl' id = lowered 1 <$> cached pl id.
Proof.
  intros Hg Hwf Hm. destruct (pw_map _ Hwf _ _ Hm) as (f & k & p & Hf & Hh).
  pose proof Hh as (Hv & Hid & Hk & Hp & Hkid & Hl & Hres).
  rewrite <- (wp_id s pl Hg). unfold kds_buf_unpin. rewrite (on_frame_wp _ _ _ _ f Hf). unfold kp_mod. rewrite Hk.
  eexists. split; [reflexivity|].
  edestruct (upd_wf pl Hwf fid) as [Hwf' Hc']; [exact Hm| |split; [exact Hwf'|split; [done|]]]; [done|].
  split; [intros id' Hne; by rewrite Hc', decide_False|]. rewrite Hc', decide_True by done.
  pose proof (wf_cached pl id Hwf) as Hw. rewrite Hm in Hw. destruct Hw as (f' & k' & p' & Hf' & Hh' & ->).
  assert (f' = f) as -> by congruence. destruct Hh' as (_ & _ & Hk' & Hp' & _).
  assert (k' = k) as -> by congruence. by assert (p' = p) as -> by congruence.
Qed.

Lemma batch_done_nothing s s' pl pl' q n id got :
  g_pool s' = Some pl' -> pool_wf pl' -> buf_map pl ⊆ buf_map pl' ->
  (exists a, g_alloc s' = Some a /\ ring_is a q) -> same_meta s s' -> new_ids pl pl' id n ->
  batch_done s pl q n id got (Ret got s').
Proof.
  intros Hg Hwf Hm Hr Hsb Hn. right. exists s', pl', []. rewrite app_nil_r.
  change (zlen (A := nat) []) with 0. rewrite Z.add_0_r.
  split_and!; try done; try lia.
Qed.

Lemma batch_loop_spec n : forall id got s pl q,
  alloc_state s pl q -> 0 <= id -> id + Z.of_nat n < 2 ^ 64 ->
  batch_done s pl q n id got (batch_loop n id got s).
Proof.
  induction n as [|n IH]; intros id got s pl q [Hg Hwf (a & Ha & Hr)] Hid Hlim.
  { apply (batch_done_nothing s s pl pl); try done. by exists a. }
  cbn [batch_loop]. pose proof (alloc_new_spec id s pl Hg Hwf) as Hnew. cbn zeta in Hnew.
  destruct (cached pl id) as [v|].
  { destruct Hnew as (s1 & pl1 & E & Hg1 & Hwf1 & (_ & Hsb & Hio & Hfr & Hal & _) & Hm1 & _ & Hc1).
    erewrite bind_ok by exact E. apply (batch_done_nothing s s1 pl pl1); try done; [by rewrite Hm1| |by intros ? _].
    exists a. by rewrite Hal. }
  destruct Hnew as [(s1 & E & _)|(r & s1 & pl1 & E & Hg1 & Hwf1 & (_ & Hsb & Hio & Hfr & Hal & _) & Hm1 & Hres)].
  { left. unfold bind. rewrite E. by eexists. }
  erewrite bind_ok by exact E. cbn beta. rewrite <- Hal in Ha. destruct r as [fid|e].
  2:{ apply (batch_done_nothing s s1 pl pl1); try done; [by exists a|]. intros id' _. apply Hres. }
  destruct Hres as (_ & Hmf & Hc1). rewrite (alloc_get_ok _ _ _ _ Ha), (ring_full_spec a q Hr).
  destruct (Z.eqb_spec (zlen q) 127) as [Hfull|Hnf].
  { destruct (unpin_ok fid id s1 pl1 Hg1 Hwf1 Hmf) as (pl2 & E2 & Hwf2 & Hm2 & Hc2 & _).
    erewrite bind_ok by exact E2. apply (batch_done_nothing s _ pl pl2); try done; [by rewrite Hm2|by exists a|].
    intros id' Hn. rewrite Hc2, Hc1, decide_False by lia. done. }
  assert (Hq : zlen q < 127) by (pose proof (ri_max _ _ Hr); lia).
  set (s2 := set_g_alloc (Some (ring_push fid a)) s1).
  change (batch_done s pl q (S n) id got (batch_loop n (u64 (id + 1)) (got + 1) s2)).
  rewrite u64_small by lia.
  assert (Has : alloc_state s2 pl1 (q ++ [fid])).
  { split; [done|done|]. exists (ring_push fid a). split; [done|]. by apply ring_push_spec. }
  destruct (IH (id + 1) (got + 1) s2 pl1 (q ++ [fid]) Has ltac:(lia) ltac:(lia))
    as [Hp|(s3 & pl3 & fs & E3 & Has3 & Hm3 & Hz & Hst & (Hsb3 & Hio3 & Hfr3) & Hn3)]; [by left|].
  right. exists s3, pl3, (fid :: fs). rewrite zlen_cons, <- app_assoc in *.
  split_and!; [rewrite E3; f_equal; lia|done|by etrans|lia| | |].
  - intros [|i] fid' Hi; cbn in Hi.
    + injection Hi as <-. rewrite Z.add_0_r. by eapply lookup_weaken.
    + specialize (Hst i fid' Hi). rewrite <- Hst. f_equal. lia.
  - split_and!; [by rewrite Hsb3|by rewrite Hio3|by rewrite Hfr3].
  - intros id' Hid'. rewrite Hn3, Hc1, decide_False by lia. done.
Qed.

(** C19 with what else is unchanged. *)
Lemma batch_alloc_cases count s pl q sb io :
  alloc_state s pl q -> superblock s = Some sb -> sb_io_page s = Some io -> superblock_ok sb ->
  0 < count -> 0 < max_page_id sb -> max_page_id sb + 128 < 2 ^ 64 ->
  let want := Z.min count (127 - zlen q) in
  0 < want ->
  (exists s', kds_batch_alloc count s = Halt Panic s') \/
  (exists s' pl' fs, kds_batch_alloc count s = Ret (zlen fs) s' /\ zlen fs <= want /\
     alloc_state s' pl' (q ++ fs) /\ staged pl' (max_page_id sb) fs /\ buf_map pl ⊆ buf_map pl' /\
     new_ids pl pl' (max_page_id sb) (Z.to_nat want) /\ g_fresh_init s' = g_fresh_init s /\
     exists sb', superblock s' = Some sb' /\ max_page_id sb' = max_page_id sb + want /\
                 alloc_point sb' = max_page_id sb /\ sb_magic sb' = sb_magic sb).
Proof.
  intros Has Hsb Hio Hok Hc Hm Hlim want Hw. pose proof Has as [Hg Hwf (a & Ha & Hr)].
  pose proof (zlen_nonneg q). pose proof (ri_max _ _ Hr).
  unfold kds_batch_alloc. destruct (Z.eqb_spec count 0); [lia|].
  rewrite (alloc_get_ok _ _ _ _ Ha), (ring_free_spec a q Hr). fold want.
  destruct (Z.eqb_spec want 0); [lia|].
  set (sb1 := set_max_page_id (u64 (max_page_id sb + want)) sb).
  set (s1 := set_superblock (Some sb1) s).
  erewrite (bind_ok (alloc_page_id_batch want)).
  2:{ unfold alloc_page_id_batch. rewrite Hsb. destruct (Z.eqb_spec want 0); [lia|]. reflexivity. }
  fold sb1 s1. destruct (Z.eqb_spec (max_page_id sb) 0); [lia|].
  assert (Has1 : alloc_state s1 pl q) by (split; [done|done|by exists a]).
  destruct (batch_loop_spec (Z.to_nat want) (max_page_id sb) 0 s1 pl q Has1 ltac:(lia) ltac:(lia))
    as [[s2 E]|(s2 & pl2 & fs & E & Has2 & Hm2 & Hz & Hst & (Hsb2 & Hio2 & Hfr2) & Hn2)].
  { left. unfold bind at 1. rewrite E. by eexists. }
  erewrite bind_ok by exact E. rewrite Z.add_0_l.
  set (sb3 := set_alloc_range (max_page_id sb) 0 sb1).
  set (s3 := set_superblock (Some sb3) s2).
  erewrite (bind_ok (kds_meta_set_alloc_range (max_page_id sb) 0)).
  2:{ unfold kds_meta_set_alloc_range, modify. rewrite Hsb2. reflexivity. }
  fold sb3 s3.
  assert (Hok3 : superblock_ok sb3).
  { pose proof (u64_range (max_page_id sb + want)). unfold superblock_ok, u64_field in *. cbn. intuition lia. }
  pose proof (fsync_frame s3 sb3 io eq_refl ltac:(by cbn; rewrite Hio2) Hok3) as Hfs.
  destruct (kds_superblock_fsync s3) as [r s4|h s4] eqn:E4.
  2:{ left. exists s4. subst h. exact (bind_halt _ _ _ _ _ E4). }
  destruct Hfs as (Hp4 & Ha4 & Hfr4 & now & Hsb4). right. exists s4, pl2, fs.
  erewrite bind_ok by exact E4. destruct Has2 as [Hg2 Hwf2 (a2 & Ha2 & Hr2)].
  split_and!; [done|lia| |done|done|done|by rewrite Hfr4|].
  - split; [by rewrite Hp4|done|]. exists a2. by rewrite Ha4.
  - exists (set_fsynced (u64 now) sb3). split; [done|]. cbn. by rewrite u64_small by lia.
Qed.

(** A batch issues consecutive page ids from the counter and stages
    the pages it could create, in order, at the end of the ring: at most as
    many as asked and as fit, each cached under its own fresh id.  The
    counter has moved past all of them.  The only other outcome is the
    panic of a failed write. *)
Theorem batch_alloc_spec count s pl q sb io :
  alloc_state s pl q -> superblock s = Some sb -> sb_io_page s = Some io -> superblock_ok sb ->
  0 < count -> 0 < max_page_id sb -> max_page_id sb + 128 < 2 ^ 64 ->
  let want := Z.min count (127 - zlen q) in
  0 < want ->
  (exists s', kds_batch_alloc count s = Halt Panic s') \/
  (exists s' pl' fs, kds_batch_alloc count s = Ret (zlen fs) s' /\ zlen fs <= want /\
     alloc_state s' pl' (q ++ fs) /\ staged pl' (max_page_id sb) fs /\ buf_map pl ⊆ buf_map pl' /\
     exists sb', superblock s' = Some sb' /\ max_page_id sb' = max_page_id sb + want /\
                 alloc_point sb' = max_page_id sb).
Proof.
  intros Has Hsb Hio Hok Hc Hm Hlim want Hw.
  destruct (batch_alloc_cases count s pl q sb io Has Hsb Hio Hok Hc Hm Hlim Hw)
    as [H|(s' & pl' & fs & E & Hz & Has' & Hst & Hmap & _ & _ & sb' & H1 & H2 & H3 & _)]; [by left|right].
  exists s', pl', fs. split_and!; try done. by exists sb'.
Qed.

Definition retyped (type : Z) (k : kds_page) : kds_page := set_kp_hdr (set_ph_type type (kp_hdr k)) k.

Lemma page_alloc_cases type s pl fid q id k p :
  alloc_state s pl (fid :: q) -> buf_map pl !! id = Some fid -> cached pl id = Some (k, p) ->
  exists a' f, kds_page_alloc type s =
    Ret (Some fid) (wp (upd fid (live_frame f (retyped type k) p) pl) (set_g_alloc (Some a') s)) /\
    ring_is a' q /\ frames pl !! fid = Some f /\ frame_holds f id k p.
Proof.
  intros [Hg Hwf (a & Ha & Hr)] Hm Hc. unfold kds_page_alloc. rewrite (alloc_get_ok _ _ _ _ Ha), (ring_count_spec a _ Hr).
  rewrite zlen_cons. destruct (Z.eqb_spec (1 + zlen q) 0); [pose proof (zlen_nonneg q); lia|].
  destruct (ring_take_spec a fid q Hr) as (a' & E & Hr'). rewrite E.
  pose proof (wf_cached pl id Hwf) as Hw. rewrite Hm in Hw. destruct Hw as (f & k' & p' & Hf & Hh & Hc').
  rewrite Hc in Hc'. injection Hc' as <- <-. pose proof Hh as (_ & _ & Hk & Hp & _).
  exists a', f. split; [|done]. unfold alloc_set. erewrite bind_ok by reflexivity. cbn beta iota.
  replace (set_g_alloc (Some a') s) with (wp pl (set_g_alloc (Some a') s)) by (destruct s; cbn in *; by subst).
  erewrite bind_ok by (rewrite (on_frame_wp _ _ _ _ f Hf); unfold kp_mod; rewrite Hk; reflexivity).
  unfold ret. do 2 f_equal; [|destruct s; cbn in *; by subst]. unfold live_frame, retyped. by destruct f; cbn in *; subst.
Qed.

(** [kds_page_alloc] hands out the oldest staged page, sets its type
    and leaves the rest of the ring and of the cache alone; on an empty
    ring it returns NULL and changes nothing. *)
Theorem page_alloc_spec type s pl q :
  alloc_state s pl q ->
  match q with
  | [] => kds_page_alloc type s = Ret None s
  | fid :: q' => forall id k p, buf_map pl !! id = Some fid -> cached pl id = Some (k, p) ->
      exists s' pl', kds_page_alloc type s = Ret (Some fid) s' /\ alloc_state s' pl' q' /\
        forall id', cached pl' id' = if decide (id' = id) then Some (retyped type k, p) else cached pl id'
  end.
Proof.
  intros Hs. destruct q as [|fid q].
  - destruct Hs as [Hg Hwf (a & Ha & Hr)]. unfold kds_page_alloc. by rewrite (alloc_get_ok _ _ _ _ Ha), (ring_count_spec a _ Hr).
  - intros id k p Hm Hc. destruct (page_alloc_cases type s pl fid q id k p Hs Hm Hc) as (a' & f & E & Hr & Hf & Hh).
    destruct Hs as [Hg Hwf _].
    destruct (upd_wf pl Hwf fid (live_frame f (retyped type k) p) id (retyped type k) p Hm) as [Hwf' Hc']; [by destruct Hh as (?&?&_&_&?&?&?)|].
    eexists _, _. split; [exact E|]. split; [split; [reflexivity|done|by exists a']|done].
Qed.

(** How often a frame is staged. *)
Definition staged_times (fid : nat) (q : list nat) : nat := length (filter (eq fid) q).
Lemma lowered_lowered m n (v : option (kds_page * bytes)) : lowered m <$> (lowered n <$> v) = lowered (n + m) <$> v.
Proof.
  destruct v as [[k p]|]; [|done]. change (Some (lowered m (lowered n (k, p))) = Some (lowered (n + m) (k, p))).
  unfold lowered. cbn [fst snd]. destruct k as [i h r]. unfold set_kp_refcnt. cbn [kp_id kp_hdr kp_refcnt].
  rewrite Nat2Z.inj_add. by replace (r - Z.of_nat n - Z.of_nat m) with (r - (Z.of_nat n + Z.of_nat m)) by lia.
Qed.
Lemma drain_loop_spec fuel : forall s pl q,
  alloc_state s pl q -> (forall fid, fid ∈ q -> exists id, buf_map pl !! id = Some fid) -> zlen q < Z.of_nat fuel ->
  exists s' pl', drain_loop fuel s = Ret tt s' /\ g_pool s' = Some pl' /\ pool_wf pl' /\ buf_map pl' = buf_map pl /\
    forall id, cached pl' id = match buf_map pl !! id with
                               | Some fid => lowered (staged_times fid q) <$> cached pl id
                               | None => None
                               end.
Proof.
  induction fuel as [|fuel IH]; intros s pl q [Hg Hwf (a & Ha & Hr)] Hq Hfuel; [pose proof (zlen_nonneg q); lia|].
  cbn [drain_loop]. rewrite (alloc_get_ok _ _ _ _ Ha), (ring_count_spec a q Hr). destruct q as [|fid q].
  { exists s, pl. split_and!; try done. intros id. pose proof (wf_cached pl id Hwf) as Hw. destruct (buf_map pl !! id) as [fid|]; [|done].
    destruct Hw as (f & k & p & _ & _ & ->). unfold lowered, staged_times. cbn. rewrite Z.sub_0_r. by destruct k. }
  rewrite zlen_cons in *. pose proof (zlen_nonneg q). destruct (Z.ltb_spec 0 (1 + zlen q)); [|lia].
  destruct (ring_take_spec a fid q Hr) as (a' & E & Hr'). rewrite E. unfold alloc_set. erewrite bind_ok by reflexivity. cbn beta iota.
  destruct (Hq fid ltac:(left)) as [id Hm].
  destruct (unpin_ok fid id (set_g_alloc (Some a') s) pl Hg Hwf Hm) as (pl2 & E2 & Hwf2 & Hm2 & Ho2 & Hc2).
  erewrite bind_ok by exact E2.
  destruct (IH (wp pl2 (set_g_alloc (Some a') s)) pl2 q) as (s' & pl' & E3 & Hg3 & Hwf3 & Hm3 & Hc3); [| |lia|].
  - split; [done|done|by exists a'].
  - intros fid' Hin. rewrite Hm2. apply Hq. by right.
  - exists s', pl'. split_and!; try done; [congruence|]. intros id'. rewrite Hc3, Hm2.
    destruct (buf_map pl !! id') as [fid'|] eqn:Hm'; [|done]. unfold staged_times. rewrite filter_cons.
    destruct (decide (id' = id)) as [->|Hne].
    + assert (fid' = fid) as -> by congruence. rewrite decide_True by done. by rewrite Hc2, lowered_lowered.
    + rewrite Ho2 by done. rewrite decide_False; [done|]. intros <-. apply Hne.
      destruct (pw_map _ Hwf _ _ Hm) as (f1 & ? & ? & Hf1 & _ & <- & _), (pw_map _ Hwf _ _ Hm') as (f2 & ? & ? & Hf2 & _ & <- & _). congruence.
Qed.
(** C34.  Emptying the ring at shutdown terminates: the loop returns within
    128 rounds, with the allocator gone; every staged frame has been
    unpinned, once for each time it was staged, the content of its page is
    as it was, and every other page is untouched. *)
Theorem alloc_system_drain_terminates s pl q :
  alloc_state s pl q -> (forall fid, fid ∈ q -> exists id, buf_map pl !! id = Some fid) ->
  exists s' pl', alloc_system_drain s = Ret tt s' /\ g_alloc s' = None /\ g_pool s' = Some pl' /\
    pool_wf pl' /\ buf_map pl' = buf_map pl /\
    forall id, cached pl' id = match buf_map pl !! id with
                               | Some fid => lowered (staged_times fid q) <$> cached pl id
                               | None => None
                               end.
Proof.
  intros Has Hq. unfold alloc_system_drain. pose proof Has as [_ _ (a0 & Ha0 & Hr0)].
  unfold bind at 1, gets at 1. rewrite Ha0.
  destruct (drain_loop_spec (Z.to_nat PRE_ALLOC_RING_BUFFER_SIZE) s pl q Has Hq) as (s' & pl' & E & ? & ? & ? & Hc).
  { pose proof (ri_max _ _ Hr0). unfold PRE_ALLOC_RING_BUFFER_SIZE. lia. }
  erewrite bind_ok by exact E. exists (set_g_alloc None s'), pl'. done.
Qed.
End AllocOps.

Definition empty_ring : kds_page_allocator := Allocator 0 0 (replicate (Z.to_nat PRE_ALLOC_RING_BUFFER_SIZE) None).
Lemma empty_ring_is : ring_is empty_ring [].
Proof. split; cbn; try lia; try done. Qed.
Lemma ring_refines_queue_witness :
  kds_ring_count empty_ring = 0 /\ ring_is (ring_push 5 empty_ring) [5%nat].
Proof.
  destruct (ring_refines_queue empty_ring [] empty_ring_is) as (H1 & H2 & _ & H4 & _).
  split; [exact H1|]. apply (H4 5%nat). exact H2.
Defined.

#[local] Existing Instance quiet_kernel.
Definition demo_alloc : kds_state :=
  set_g_alloc (Some empty_ring) (set_g_pool (Some demo_pool) demo_meta).
Lemma demo_alloc_state : alloc_state demo_alloc demo_pool [].
Proof. split; [reflexivity|apply demo_pool_ok|]. exists empty_ring. split; [reflexivity|apply empty_ring_is]. Qed.
Definition demo_alloc1 : kds_state := set_g_alloc (Some (ring_push 0 empty_ring)) demo_alloc.
Lemma demo_alloc1_state : alloc_state demo_alloc1 demo_pool [0%nat].
Proof.
  split; [reflexivity|apply demo_pool_ok|]. exists (ring_push 0 empty_ring). split; [reflexivity|].
  apply (ring_push_spec empty_ring []); [apply empty_ring_is|reflexivity].
Qed.
Lemma batch_alloc_spec_witness :
  (exists s', kds_batch_alloc 2 demo_alloc = Halt Panic s') \/
  (exists s' pl' fs, kds_batch_alloc 2 demo_alloc = Ret (zlen fs) s' /\ zlen fs <= 2 /\
     alloc_state s' pl' fs /\ staged pl' 128 fs).
Proof.
  destruct (batch_alloc_spec 2 demo_alloc demo_pool [] demo_sb []) as [H|(s' & pl' & fs & H1 & H2 & H3 & H4 & _)];
    [apply demo_alloc_state|reflexivity|reflexivity|apply demo_sb_ok|lia|cbn; lia|cbn; lia|vm_compute; reflexivity|left; exact H|].
  right. exists s', pl', fs. auto.
Defined.
Lemma page_alloc_spec_witness :
  exists s' pl', kds_page_alloc 4 demo_alloc1 = Ret (Some 0%nat) s' /\ alloc_state s' pl' [].
Proof.
  destruct (page_alloc_spec 4 demo_alloc1 demo_pool [0%nat] demo_alloc1_state 3 demo_page (zeros KDS_PAGE_SIZE))
    as (s' & pl' & H1 & H2 & _); [apply lookup_insert_eq|apply demo_pool_ok|].
  exists s', pl'. auto.
Defined.
Lemma alloc_system_drain_witness :
  exists s' pl', alloc_system_drain demo_alloc1 = Ret tt s' /\ g_alloc s' = None /\ g_pool s' = Some pl' /\
    cached pl' 3 = Some (set_kp_refcnt (kp_refcnt demo_page - 1) demo_page, zeros KDS_PAGE_SIZE).
Proof.
  destruct (alloc_system_drain_terminates demo_alloc1 demo_pool [0%nat] demo_alloc1_state) as (s' & pl' & E & Hn & Hg & _ & _ & Hc).
  - intros fid ->%list_elem_of_singleton. exists 3. apply lookup_insert_eq.
  - exists s', pl'. split; [exact E|]. split; [exact Hn|]. split; [exact Hg|]. rewrite Hc.
    change (buf_map demo_pool !! 3) with (Some 0%nat). destruct demo_pool_ok as (_ & Hp & _). by rewrite Hp.
Defined.
