(* ===== verification/Btree.v ===== *)
(** * Btree: the b-tree index (kernel/kds/btree.c, kds_btree.h)

    A node is the image of [kds_btree_page_data_t] with the frame it came
    from.  The arrays have their C bounds: an access outside of
    [keys[4]] or [slots[5]] is a [Fault].  Node-local functions are in the
    option monad ([None] is such an access); functions that reach other
    pages run on the global state. *)
From S2P Require Import Prelude Layout State Disk Meta Pool Page.
From stdpp Require Import prelude gmap list.
From Stdlib Require Import ZArith Lia.
Local Open Scope Z_scope.
Local Open Scope kds_scope.

Definition BTREE_MAX_KEYS : Z := 4.
Definition BTREE_MAX_DEPTH : nat := 16.
Definition BTREE_MIN_KEYS : Z := BTREE_MAX_KEYS / 2.

(** ** Nodes *)
Record kds_btree_node := BNode {
  level : Z; key_count : Z; keys : list Z; slots : list Z; bnext : Z; bprev : Z;
  bframe : option nat }.
Definition zero_node : kds_btree_node := BNode 0 0 (replicate 4 0) (replicate 5 0) 0 0 None.

Definition set_keys (x : list Z) (n : kds_btree_node) : kds_btree_node :=
  BNode (level n) (key_count n) x (slots n) (bnext n) (bprev n) (bframe n).
Definition set_slots (x : list Z) (n : kds_btree_node) : kds_btree_node :=
  BNode (level n) (key_count n) (keys n) x (bnext n) (bprev n) (bframe n).
Definition set_count (x : Z) (n : kds_btree_node) : kds_btree_node :=
  BNode (level n) x (keys n) (slots n) (bnext n) (bprev n) (bframe n).
Definition set_next (x : Z) (n : kds_btree_node) : kds_btree_node :=
  BNode (level n) (key_count n) (keys n) (slots n) x (bprev n) (bframe n).
Definition set_prev (x : Z) (n : kds_btree_node) : kds_btree_node :=
  BNode (level n) (key_count n) (keys n) (slots n) (bnext n) x (bframe n).
Definition set_bframe (x : option nat) (n : kds_btree_node) : kds_btree_node :=
  BNode (level n) (key_count n) (keys n) (slots n) (bnext n) (bprev n) x.

Definition node_enc (n : kds_btree_node) : bytes :=
  concat (map (le_bytes 8) ([level n; key_count n] ++ keys n ++ slots n ++ [bnext n; bprev n])).
Definition word (b : bytes) (i : nat) : Z := le_val (sub b (8 * Z.of_nat i) 8).
Definition node_dec (b : bytes) (fr : option nat) : kds_btree_node :=
  BNode (word b 0) (word b 1) (map (word b) (seq 2 4)) (map (word b) (seq 6 5)) (word b 11) (word b 12) fr.

Definition kds_btree_is_leaf (n : kds_btree_node) : bool := level n =? 0.
Definition kds_btree_is_full (n : kds_btree_node) : bool := BTREE_MAX_KEYS <=? key_count n.

(** Array accesses with the bounds of the declarations. *)
Definition key_at (n : kds_btree_node) (i : nat) : option Z := keys n !! i.
Definition slot_at (n : kds_btree_node) (i : nat) : option Z := slots n !! i.
Definition put_key (i : nat) (v : Z) (n : kds_btree_node) : option kds_btree_node :=
  if (i <? length (keys n))%nat then Some (set_keys (<[i := v]> (keys n)) n) else None.
Definition put_slot (i : nat) (v : Z) (n : kds_btree_node) : option kds_btree_node :=
  if (i <? length (slots n))%nat then Some (set_slots (<[i := v]> (slots n)) n) else None.

(** [for] loops over a list of indices. *)
Fixpoint for_each (idx : list nat) (body : nat -> kds_btree_node -> option kds_btree_node)
  (n : kds_btree_node) : option kds_btree_node :=
  match idx with
  | [] => Some n
  | i :: idx => n' ← body i n; for_each idx body n'
  end.
(** [i = a; i < b; i++] and [i = a; i > b; i--].  A bound beyond the arrays
    is cut at 16: such a loop faults at the array bound before. *)
Definition upto (a : nat) (b : Z) : list nat := seq a (Z.to_nat (Z.min b 16) - a).
Definition downto (a : Z) (b : nat) : list nat := rev (seq (S b) (Z.to_nat (Z.min a 16) - b)).

(** ** Search in a node *)
Fixpoint search_loop (ks : list Z) (i : nat) (steps : nat) (key : Z) : option nat :=
  match steps with
  | O => Some i
  | S st => k ← ks !! i; if key <=? k then Some i else search_loop ks (S i) st key
  end.
(** [int nkeys = node->key_count] *)
Definition btree_search_position (n : kds_btree_node) (key : Z) : option nat :=
  let nkeys := to_signed 32 (key_count n) in
  search_loop (keys n) 0 (Z.to_nat (Z.min nkeys 16)) key.

(** [right - left + 1] shrinks in each round: [key_count] rounds are enough. *)
Fixpoint binary_loop (fuel : nat) (ks : list Z) (key left right pos : Z) : option Z :=
  match fuel with
  | O => Some pos
  | S fuel =>
      if left <=? right then
        let mid := (left + right) / 2 in
        k ← ks !! Z.to_nat mid;
        if key <? k then binary_loop fuel ks key left (mid - 1) mid
        else if k <? key then binary_loop fuel ks key (mid + 1) right (mid + 1)
        else Some mid
      else Some pos
  end.
Definition btree_search_position_binary (n : kds_btree_node) (key : Z) : option Z :=
  binary_loop (Z.to_nat (Z.min (key_count n) 16)) (keys n) key 0 (to_signed 32 (key_count n - 1)) 0.

(** ** Changing a node *)
Definition btree_node_insert_at (n : kds_btree_node) (pos : nat) (key slot : Z) : option kds_btree_node :=
  n ← for_each (downto (key_count n) pos) (fun i n =>
        k ← key_at n (i - 1); n ← put_key i k n;
        s ← slot_at n i; put_slot (S i) s n) n;
  n ← put_key pos key n;
  n ← put_slot (S pos) slot n;
  Some (set_count (u64 (key_count n + 1)) n).

Definition btree_node_remove_at (n : kds_btree_node) (pos : nat) : option kds_btree_node :=
  n ← for_each (upto pos (u64 (key_count n - 1))) (fun i n => k ← key_at n (S i); put_key i k n) n;
  n ← for_each (upto (S pos) (key_count n)) (fun i n => s ← slot_at n (S i); put_slot i s n) n;
  Some (set_count (u64 (key_count n - 1)) n).

Definition btree_node_is_underflow (n : kds_btree_node) : bool := key_count n <? BTREE_MIN_KEYS.

(** The node-local parts of the rebalancing functions; each returns the
    nodes it changed. *)
Definition redistribute_left (parent : kds_btree_node) (sep : nat) (l n : kds_btree_node)
  : option (kds_btree_node * kds_btree_node * kds_btree_node) :=
  let last := Z.to_nat (u64 (key_count l - 1)) in
  if level n =? 0 then
    n ← for_each (downto (key_count n) 0) (fun i n =>
          k ← key_at n (i - 1); n ← put_key i k n; s ← slot_at n (i - 1); put_slot i s n) n;
    k ← key_at l last; n ← put_key 0 k n;
    s ← slot_at l last; n ← put_slot 0 s n;
    let n := set_count (u64 (key_count n + 1)) n in
    let l := set_count (u64 (key_count l - 1)) l in
    k0 ← key_at n 0; parent ← put_key sep k0 parent;
    Some (parent, l, n)
  else
    n ← for_each (downto (key_count n) 0) (fun i n => k ← key_at n (i - 1); put_key i k n) n;
    n ← for_each (downto (key_count n + 1) 0) (fun i n => s ← slot_at n (i - 1); put_slot i s n) n;
    ps ← key_at parent sep; n ← put_key 0 ps n;
    s ← slot_at l (Z.to_nat (key_count l)); n ← put_slot 0 s n;
    let n := set_count (u64 (key_count n + 1)) n in
    k ← key_at l last; parent ← put_key sep k parent;
    let l := set_count (u64 (key_count l - 1)) l in
    Some (parent, l, n).

Definition redistribute_right (parent : kds_btree_node) (sep : nat) (n r : kds_btree_node)
  : option (kds_btree_node * kds_btree_node * kds_btree_node) :=
  let kc := Z.to_nat (key_count n) in
  if level n =? 0 then
    k ← key_at r 0; n ← put_key kc k n;
    s ← slot_at r 0; n ← put_slot kc s n;
    let n := set_count (u64 (key_count n + 1)) n in
    r ← for_each (upto 0 (u64 (key_count r - 1))) (fun i r =>
          k ← key_at r (S i); r ← put_key i k r; s ← slot_at r (S i); put_slot i s r) r;
    let r := set_count (u64 (key_count r - 1)) r in
    k0 ← key_at r 0; parent ← put_key sep k0 parent;
    Some (parent, n, r)
  else
    ps ← key_at parent sep; n ← put_key kc ps n;
    s ← slot_at r 0; n ← put_slot (S kc) s n;
    let n := set_count (u64 (key_count n + 1)) n in
    k0 ← key_at r 0; parent ← put_key sep k0 parent;
    r ← for_each (upto 0 (u64 (key_count r - 1))) (fun i r => k ← key_at r (S i); put_key i k r) r;
    r ← for_each (upto 0 (key_count r)) (fun i r => s ← slot_at r (S i); put_slot i s r) r;
    Some (parent, n, set_count (u64 (key_count r - 1)) r).

(** Folding [r] into [l], without the relinking of the leaf chain. *)
Definition merge_into (parent : kds_btree_node) (sep : nat) (l r : kds_btree_node) : option kds_btree_node :=
  let base := Z.to_nat (key_count l) in
  if level l =? 0 then
    l ← for_each (upto 0 (key_count r)) (fun i l =>
          k ← key_at r i; l ← put_key (base + i) k l; s ← slot_at r i; put_slot (base + i) s l) l;
    Some (set_next (bnext r) (set_count (u64 (key_count l + key_count r)) l))
  else
    ps ← key_at parent sep; l ← put_key base ps l;
    l ← for_each (upto 0 (key_count r)) (fun i l => k ← key_at r i; put_key (base + 1 + i) k l) l;
    l ← for_each (upto 0 (key_count r + 1)) (fun i l => s ← slot_at r i; put_slot (base + 1 + i) s l) l;
    Some (set_count (u64 (key_count l + key_count r + 1)) l).

(** The right half of a split: keys and slots above the middle. *)
Definition split_right (n : kds_btree_node) : option kds_btree_node :=
  let mid := 2%nat in
  r ← for_each (upto (S mid) BTREE_MAX_KEYS) (fun i r =>
        k ← key_at n i; r ← put_key (i - S mid) k r; s ← slot_at n i; put_slot (i - S mid) s r)
      (BNode (level n) 0 (replicate 4 0) (replicate 5 0) (bnext n) 0 None);
  s ← slot_at n (Z.to_nat BTREE_MAX_KEYS);
  r ← put_slot (Z.to_nat BTREE_MAX_KEYS - S mid) s r;
  Some (set_count (BTREE_MAX_KEYS - 2 - 1) r).

(** ** Nodes and frames *)
Section Btree.
Context `{K : Kernel}.

(** A node-local computation; an access out of bounds is a fault. *)
Definition in_bounds {A} (o : option A) : M kds_state A :=
  match o with Some a => ret a | None => halt_with Fault end.
Definition node_frame (n : kds_btree_node) : M kds_state nat := in_bounds (bframe n).

Definition kds_is_btree_page (h : kds_page_hdr) : bool :=
  (ph_type h =? KDS_PAGE_TYPE_BTREE_ROOT) || (ph_type h =? KDS_PAGE_TYPE_BTREE_INTERNAL) ||
  (ph_type h =? KDS_PAGE_TYPE_BTREE_DATA).
Definition BTREE_DATA_SIZE : Z := 104.
Definition check_btree_page : M kds_frame unit :=
  h <- kp_get kp_hdr ;; if kds_is_btree_page h then ret tt else halt_with Bug.

Definition load_btree_node (fid : nat) : M kds_state kds_btree_node :=
  on_frame fid (check_btree_page ;;
    b <- ld KDS_PAGE_HDR_SIZE BTREE_DATA_SIZE ;; ret (node_dec b (Some fid))).
(** The page data alone, without the frame. *)
Definition load_btree_node_data (fid : nat) : M kds_state kds_btree_node :=
  on_frame fid (check_btree_page ;;
    b <- ld KDS_PAGE_HDR_SIZE BTREE_DATA_SIZE ;; ret (node_dec b None)).
Definition store_btree_node (n : kds_btree_node) : M kds_state unit :=
  fid <- node_frame n ;;
  on_frame fid (check_btree_page ;; st KDS_PAGE_HDR_SIZE (node_enc n)).
Definition btree_link_kpage (fid : nat) (data : kds_btree_node) : M kds_state unit :=
  store_btree_node (set_bframe (Some fid) data).
Definition mark_dirty (n : kds_btree_node) : M kds_state unit :=
  fid <- node_frame n ;; on_frame fid kds_set_page_dirty.
Definition node_page_id (n : kds_btree_node) : M kds_state Z :=
  fid <- node_frame n ;; on_frame fid (kp_get kp_id).

Definition btree_init_page_data (data : kds_btree_node) : kds_btree_node :=
  BNode 0 0 (replicate 4 0) (replicate 5 0) 0 0 (bframe data).
Definition btree_init_root_kpage : M kds_frame unit :=
  kp_mod (fun k => set_kp_hdr (or_flags KDS_PAGE_FLAG_INIT (set_ph_type KDS_PAGE_TYPE_BTREE_ROOT (kp_hdr k))) k).
Definition btree_init_data_kpage : M kds_frame unit :=
  kp_mod (fun k => set_kp_hdr (or_flags KDS_PAGE_FLAG_INIT (set_ph_type KDS_PAGE_TYPE_BTREE_DATA (kp_hdr k))) k).

(** ** Cursor *)
Record kds_btree_cursor := Cursor { cnodes : list kds_btree_node; positions : list nat; depth : nat }.
Definition btree_cursor_init : kds_btree_cursor :=
  Cursor (replicate BTREE_MAX_DEPTH zero_node) (replicate BTREE_MAX_DEPTH 0%nat) 0.
Definition set_cnode (i : nat) (n : kds_btree_node) (c : kds_btree_cursor) : kds_btree_cursor :=
  Cursor (<[i := n]> (cnodes c)) (positions c) (depth c).
Definition cnode (c : kds_btree_cursor) (i : nat) : M kds_state kds_btree_node := in_bounds (cnodes c !! i).
Definition cpos (c : kds_btree_cursor) (i : nat) : M kds_state nat := in_bounds (positions c !! i).

Fixpoint cleanup_loop (idx : list nat) (c : kds_btree_cursor) : M kds_state unit :=
  match idx with
  | [] => ret tt
  | i :: idx =>
      n <- cnode c i ;;
      match bframe n with
      | Some fid => kds_buf_unpin fid
      | None => ret tt
      end ;;
      cleanup_loop idx (set_cnode i (set_bframe None n) c)
  end.
Definition btree_cursor_cleanup (c : kds_btree_cursor) : M kds_state unit :=
  cleanup_loop (seq 0 (S (depth c))) c.

(** The descent shared by the two search functions: the result and the
    cursor as the loop leaves it.  [fuel] is [BTREE_MAX_DEPTH - depth]. *)
Fixpoint descend (fuel : nat) (c : kds_btree_cursor) (page_id key : Z) : M kds_state (Z * kds_btree_cursor) :=
  match fuel with
  | O => ret (- E2BIG, c)
  | S fuel =>
      frame <- kds_buf_lookup_or_load page_id ;;
      match frame with
      | ERR_PTR e => ret (e, c)
      | PTR fid =>
          n <- load_btree_node fid ;;
          let c := set_cnode (depth c) n c in
          pos <- in_bounds (btree_search_position n key) ;;
          let c := Cursor (cnodes c) (<[depth c := pos]> (positions c)) (depth c) in
          dup <- (if Z.of_nat pos <? key_count n
                  then k <- in_bounds (key_at n pos) ;; ret (k =? key) else ret false) ;;
          if dup : bool then ret (- EEXIST, c) else
          if level n =? 0 then ret (0, c) else
          child <- in_bounds (slot_at n pos) ;;
          descend fuel (Cursor (cnodes c) (positions c) (S (depth c))) child key
      end
  end.
Definition btree_cursor_search (root_page_id key : Z) : M kds_state (Z * kds_btree_cursor) :=
  descend BTREE_MAX_DEPTH btree_cursor_init root_page_id key.
Definition kds_btree_cursor_search (root_page_id key : Z) : M kds_state (Z * kds_btree_cursor) :=
  let* (r, c) := descend BTREE_MAX_DEPTH btree_cursor_init root_page_id key in
  (if r =? 0 then ret tt else btree_cursor_cleanup c) ;;
  ret (r, c).

(** ** Split *)
Definition btree_alloc_new_page (type : Z) : M kds_state (ptr_or_err nat) :=
  new_id <- assign_page_id ;;
  if new_id =? 0 then ret (ERR_PTR (- ENOMEM)) else
  frame <- kds_buf_alloc_new new_id ;;
  match frame with
  | ERR_PTR e => ret (ERR_PTR e)
  | PTR fid =>
      on_frame fid (kp_mod (fun k => set_kp_hdr (or_flags KDS_PAGE_FLAG_INIT (set_ph_type type (kp_hdr k))) k)) ;;
      on_frame fid kds_commit_page_hdr ;;
      ret (PTR fid)
  end.

(** The relinking of a neighbour's [prev] field; a failed load is ignored. *)
Definition relink_prev (next_id prev_id : Z) : M kds_state unit :=
  if next_id =? 0 then ret tt else
  frame <- kds_buf_lookup_or_load next_id ;;
  match frame with
  | ERR_PTR _ => ret tt
  | PTR fid =>
      n <- load_btree_node fid ;;
      store_btree_node (set_prev prev_id n) ;;
      kds_buf_unpin fid
  end.

(** Result: the error, or the promoted key, the new page's id and the node
    as the split leaves it in the cursor. *)
Definition btree_split_node (n : kds_btree_node) : M kds_state (Z + Z * Z * kds_btree_node) :=
  nfid <- node_frame n ;;
  type <- on_frame nfid (kp_get (fun k => ph_type (kp_hdr k))) ;;
  frame <- btree_alloc_new_page type ;;
  match frame with
  | ERR_PTR e => ret (inl e)
  | PTR new =>
      self_id <- on_frame nfid (kp_get kp_id) ;;
      new_id <- on_frame new (kp_get kp_id) ;;
      promoted <- in_bounds (key_at n 2) ;;
      r <- in_bounds (split_right n) ;;
      let r := set_bframe (Some new) (set_prev self_id r) in
      let n := set_next new_id (set_count 2 n) in
      store_btree_node n ;;
      store_btree_node r ;;
      relink_prev (bnext r) new_id ;;
      on_frame nfid kds_set_page_dirty ;;
      on_frame new kds_set_page_dirty ;;
      kds_buf_unpin new ;;
      ret (inr (promoted, new_id, n))
  end.

(** [lv] counts the levels above the node that was split. *)
Fixpoint propagate (lv : nat) (c : kds_btree_cursor) (promoted right : Z) : M kds_state Z :=
  match lv with
  | O =>
      root <- cnode c 0 ;;
      frame <- btree_alloc_new_page KDS_PAGE_TYPE_BTREE_ROOT ;;
      match frame with
      | ERR_PTR e => ret e
      | PTR new =>
          old_id <- node_page_id root ;;
          let nr := BNode (u64 (level root + 1)) 1 [promoted; 0; 0; 0] [old_id; right; 0; 0; 0] 0 0 (Some new) in
          rfid <- node_frame root ;;
          on_frame rfid (kp_mod (fun k => set_kp_hdr (set_ph_type KDS_PAGE_TYPE_BTREE_INTERNAL (kp_hdr k)) k)) ;;
          mark_dirty root ;;
          store_btree_node nr ;;
          mark_dirty nr ;;
          kds_buf_unpin new ;;
          halt_with Panic
      end
  | S lv =>
      parent <- cnode c lv ;;
      pos <- cpos c lv ;;
      if key_count parent <? BTREE_MAX_KEYS then
        p <- in_bounds (btree_node_insert_at parent pos promoted right) ;;
        store_btree_node p ;;
        ret 0
      else
        p <- in_bounds (btree_node_insert_at parent pos promoted right) ;;
        sp <- btree_split_node p ;;
        match sp with
        | inl e => if e <? 0 then ret (- ENOMEM) else propagate lv c promoted right
        | inr (k, id, p') => propagate lv (set_cnode lv p' c) k id
        end
  end.
Definition btree_propagate_split (c : kds_btree_cursor) (promoted right : Z) : M kds_state Z :=
  propagate (depth c) c promoted right.

Definition kds_btree_cursor_insert (c : kds_btree_cursor) (key value_page_id : Z) : M kds_state Z :=
  leaf <- cnode c (depth c) ;;
  pos <- cpos c (depth c) ;;
  if key_count leaf <? BTREE_MAX_KEYS then
    n <- in_bounds (btree_node_insert_at leaf pos key value_page_id) ;;
    store_btree_node n ;;
    btree_cursor_cleanup c ;;
    ret 0
  else
    n <- in_bounds (btree_node_insert_at leaf pos key value_page_id) ;;
    sp <- btree_split_node n ;;
    match sp with
    | inl e => btree_cursor_cleanup c ;; ret e
    | inr (k, id, n') =>
        r <- btree_propagate_split (set_cnode (depth c) n' c) k id ;;
        btree_cursor_cleanup c ;;
        ret r
    end.

Definition btree_insert (root_page_id key value_page_id : Z) : M kds_state Z :=
  let* (r, c) := kds_btree_cursor_search root_page_id key in
  if r <? 0 then ret r else kds_btree_cursor_insert c key value_page_id.

(** ** Delete *)
(** The redistributions return the parent and the node as they leave them. *)
Definition btree_redistribute_from_left (parent : kds_btree_node) (sep : nat) (l n : kds_btree_node)
  : M kds_state (kds_btree_node * kds_btree_node) :=
  let* (parent, l, n) := in_bounds (redistribute_left parent sep l n) in
  store_btree_node l ;; store_btree_node n ;; store_btree_node parent ;;
  mark_dirty l ;; mark_dirty n ;; mark_dirty parent ;;
  ret (parent, n).
Definition btree_redistribute_from_right (parent : kds_btree_node) (sep : nat) (n r : kds_btree_node)
  : M kds_state (kds_btree_node * kds_btree_node) :=
  let* (parent, n, r) := in_bounds (redistribute_right parent sep n r) in
  store_btree_node n ;; store_btree_node r ;; store_btree_node parent ;;
  mark_dirty n ;; mark_dirty r ;; mark_dirty parent ;;
  ret (parent, n).
(** Returns the parent as the merge leaves it. *)
Definition btree_merge_nodes (parent : kds_btree_node) (sep : nat) (l r : kds_btree_node)
  : M kds_state kds_btree_node :=
  l' <- in_bounds (merge_into parent sep l r) ;;
  (if level l =? 0 then lid <- node_page_id l ;; relink_prev (bnext r) lid else ret tt) ;;
  parent' <- in_bounds (btree_node_remove_at parent sep) ;;
  store_btree_node l' ;;
  store_btree_node parent' ;;
  mark_dirty l' ;;
  mark_dirty parent' ;;
  ret parent'.

(** A sibling with its frame: [None] when there is none or its load fails. *)
Definition load_sibling (present : bool) (parent : kds_btree_node) (i : nat)
  : M kds_state (option (nat * kds_btree_node)) :=
  if negb present then ret None else
  id <- in_bounds (slot_at parent i) ;;
  frame <- kds_buf_lookup_or_load id ;;
  match frame with
  | ERR_PTR _ => ret None
  | PTR fid => n <- load_btree_node fid ;; ret (Some (fid, n))
  end.
Definition unpin_opt (o : option (nat * kds_btree_node)) : M kds_state unit :=
  match o with Some (fid, _) => kds_buf_unpin fid | None => ret tt end.
Definition has_spare (o : option (nat * kds_btree_node)) : option (nat * kds_btree_node) :=
  match o with Some (fid, n) => if BTREE_MIN_KEYS <? key_count n then Some (fid, n) else None | None => None end.

(** One level of the walk: [true] when the function returns, [false] when
    the loop goes on with the level above. *)
Definition underflow_level (lv up : nat) (c : kds_btree_cursor) (n : kds_btree_node)
  : M kds_state (bool * kds_btree_cursor) :=
  parent <- cnode c up ;;
  pos <- cpos c up ;;
  left <- load_sibling (0 <? pos)%nat parent (pos - 1) ;;
  match has_spare left with
  | Some (lfid, l) =>
      let* (p', n') := btree_redistribute_from_left parent (pos - 1) l n in
      kds_buf_unpin lfid ;;
      ret (true, set_cnode lv n' (set_cnode up p' c))
  | None =>
      right <- load_sibling (Z.of_nat pos <? key_count parent) parent (pos + 1) ;;
      match has_spare right with
      | Some (rfid, r) =>
          let* (p', n') := btree_redistribute_from_right parent pos n r in
          unpin_opt left ;;
          kds_buf_unpin rfid ;;
          ret (true, set_cnode lv n' (set_cnode up p' c))
      | None =>
          match left, right with
          | Some (lfid, l), _ =>
              p' <- btree_merge_nodes parent (pos - 1) l n ;;
              kds_buf_unpin lfid ;;
              unpin_opt right ;;
              nfid <- node_frame n ;;
              kds_free_page nfid ;;
              ret (false, set_cnode up p' c)
          | None, Some (rfid, r) =>
              p' <- btree_merge_nodes parent pos n r ;;
              kds_buf_unpin rfid ;;
              kds_free_page rfid ;;
              ret (false, set_cnode up p' c)
          | None, None => ret (false, c)
          end
      end
  end.

Fixpoint btree_handle_underflow (lv : nat) (c : kds_btree_cursor) : M kds_state kds_btree_cursor :=
  match lv with
  | O => ret c
  | S up =>
      n <- cnode c lv ;;
      if negb (btree_node_is_underflow n) then ret c else
      let* (done, c) := underflow_level lv up c n in
      if done : bool then ret c else btree_handle_underflow up c
  end.

Definition btree_delete (root_page_id key : Z) : M kds_state Z :=
  let* (r, c) := btree_cursor_search root_page_id key in
  if negb (r =? - EEXIST) then
    btree_cursor_cleanup c ;; ret (if r =? 0 then - ENOENT else r)
  else
    leaf <- cnode c (depth c) ;;
    pos <- cpos c (depth c) ;;
    leaf <- in_bounds (btree_node_remove_at leaf pos) ;;
    let c := set_cnode (depth c) leaf c in
    store_btree_node leaf ;;
    mark_dirty leaf ;;
    c <- (if (0 <? depth c)%nat && btree_node_is_underflow leaf
          then btree_handle_underflow (depth c) c else ret c) ;;
    root <- cnode c 0 ;;
    if (0 <? level root) && (key_count root =? 0) then
      child_id <- in_bounds (slot_at root 0) ;;
      frame <- kds_buf_lookup_or_load child_id ;;
      match frame with
      | ERR_PTR e => btree_cursor_cleanup c ;; ret e
      | PTR child =>
          on_frame child (kp_mod (fun k =>
            if ph_type (kp_hdr k) =? KDS_PAGE_TYPE_BTREE_INTERNAL
            then set_kp_hdr (set_ph_type KDS_PAGE_TYPE_BTREE_ROOT (kp_hdr k)) k else k)) ;;
          on_frame child kds_set_page_dirty ;;
          on_frame child kds_commit_page_hdr ;;
          kds_buf_unpin child ;;
          rfid <- node_frame root ;;
          kds_free_page rfid ;;
          btree_cursor_cleanup c ;;
          ret 0
      end
    else btree_cursor_cleanup c ;; ret 0.

(** ** Traversal *)
(** [callback(node, frame, depth, key_idx)] with its own effects; the
    counters [visited_nodes] and [visited_keys] are only printed. *)
Definition traverse_cb := kds_btree_node -> nat -> nat -> Z -> M kds_state Z.

Fixpoint callback_keys (cb : traverse_cb) (n : kds_btree_node) (fid d : nat) (idx : list nat) : M kds_state Z :=
  match idx with
  | [] => ret 0
  | i :: idx =>
      r <- cb n fid d (Z.of_nat i) ;;
      if negb (r =? 0) then ret r else callback_keys cb n fid d idx
  end.
Definition kds_btree_traverse_leaf (cb : traverse_cb) (n : kds_btree_node) (fid d : nat) : M kds_state Z :=
  r <- cb n fid d (-1) ;;
  if negb (r =? 0) then ret r else
  callback_keys cb n fid d (upto 0 (key_count n)).

(** The recursion follows child pointers: its depth is bounded by [fuel]. *)
Fixpoint kds_btree_traverse_internal (fuel : nat) (cb : traverse_cb) (n : kds_btree_node) (fid d : nat)
  : M kds_state Z :=
  match fuel with
  | O => halt_with NoFuel
  | S fuel =>
      r <- cb n fid d (-1) ;;
      if negb (r =? 0) then ret r else
      (fix children (idx : list nat) : M kds_state Z :=
         match idx with
         | [] => ret 0
         | i :: idx =>
             id <- in_bounds (slot_at n i) ;;
             frame <- kds_buf_lookup_or_load id ;;
             match frame with
             | ERR_PTR e => ret e
             | PTR cfid =>
                 child <- load_btree_node cfid ;;
                 type <- on_frame cfid (kp_get (fun k => ph_type (kp_hdr k))) ;;
                 r <- (if type =? KDS_PAGE_TYPE_BTREE_INTERNAL
                       then kds_btree_traverse_internal fuel cb child cfid (S d)
                       else kds_btree_traverse_leaf cb child cfid (S d)) ;;
                 kds_buf_unpin cfid ;;
                 if negb (r =? 0) then ret r else children idx
             end
         end) (upto 0 (key_count n + 1))
  end.
Definition kds_btree_traverse (fuel : nat) (root_fid : nat) (cb : traverse_cb) : M kds_state Z :=
  n <- load_btree_node root_fid ;;
  type <- on_frame root_fid (kp_get (fun k => ph_type (kp_hdr k))) ;;
  if type =? KDS_PAGE_TYPE_BTREE_INTERNAL
  then kds_btree_traverse_internal fuel cb n root_fid 0
  else kds_btree_traverse_leaf cb n root_fid 0.

(** The callback of the printer: what it reads; the text itself is left out. *)
Definition print_key_callback : traverse_cb := fun n fid d key_idx =>
  if key_idx =? -1 then
    on_frame fid (kp_get kp_id) ;;
    nfid <- node_frame n ;;
    on_frame nfid (kp_get (fun k => ph_type (kp_hdr k))) ;;
    ret 0
  else
    in_bounds (key_at n (Z.to_nat key_idx)) ;;
    in_bounds (slot_at n (Z.to_nat key_idx)) ;;
    ret 0.
Definition kds_btree_print (fuel : nat) (root_fid : nat) : M kds_state Z :=
  kds_btree_traverse fuel root_fid print_key_callback.
End Btree.
