(* ===== verification/BtreeSpec.v ===== *)
(** * BtreeSpec: nodes as sorted sequences of keys

    The abstract node is the list of its used keys and of its used slots
    ([node_keys], [node_slots]).  The theorems relate the array loops of
    btree.c to list operations and to each other. *)
From S2P Require Import Prelude Layout State Disk DiskSpec Meta Pool PoolSpec Page Btree.
From stdpp Require Import prelude gmap list sorting.
From Stdlib Require Import ZArith Lia.
Local Open Scope Z_scope.
Local Open Scope kds_scope.

Definition node_keys (n : kds_btree_node) : list Z := take (Z.to_nat (key_count n)) (keys n).
Definition node_slots (n : kds_btree_node) : list Z := take (S (Z.to_nat (key_count n))) (slots n).
Record node_wf (n : kds_btree_node) : Prop := {
  nw_keys : length (keys n) = 4%nat;
  nw_slots : length (slots n) = 5%nat;
  nw_count : 0 <= key_count n <= 4 }.
Definition sorted_keys (n : kds_btree_node) : Prop :=
  forall i j a b, (i < j)%nat -> node_keys n !! i = Some a -> node_keys n !! j = Some b -> a < b.

(** A well-formed node, written out. *)
Lemma node_cases n : node_wf n -> exists l a b c d s0 s1 s2 s3 s4 nx pv fr kc,
  n = BNode l kc [a; b; c; d] [s0; s1; s2; s3; s4] nx pv fr /\
  (kc = 0 \/ kc = 1 \/ kc = 2 \/ kc = 3 \/ kc = 4).
Proof.
  intros [Hk Hs Hc]. destruct n as [l kc ks ss nx pv fr]. cbn in *.
  destruct ks as [|a [|b [|c [|d [|? ?]]]]]; try discriminate Hk.
  destruct ss as [|s0 [|s1 [|s2 [|s3 [|s4 [|? ?]]]]]]; try discriminate Hs.
  exists l, a, b, c, d, s0, s1, s2, s3, s4, nx, pv, fr, kc. split; [done|lia].
Qed.
Ltac node_split n H :=
  destruct (node_cases n H) as (l & a & b & c & d & s0 & s1 & s2 & s3 & s4 & nx & pv & fr & kc & -> &
    [-> | [-> | [-> | [-> | ->]]]]).
Ltac small_nat pos := destruct pos as [|[|[|[|[|?]]]]]; try lia.

(** ** Insertion and removal *)
(** Below the maximum, [btree_node_insert_at] puts the key at its position
    and the slot to the right of it, and shifts the rest. *)
Lemma insert_at_spec n pos key slot :
  node_wf n -> key_count n < 4 -> Z.of_nat pos <= key_count n ->
  exists n', btree_node_insert_at n pos key slot = Some n' /\ node_wf n' /\
    key_count n' = key_count n + 1 /\ level n' = level n /\ bframe n' = bframe n /\
    bnext n' = bnext n /\ bprev n' = bprev n /\
    node_keys n' = take pos (node_keys n) ++ key :: drop pos (node_keys n) /\
    node_slots n' = take (S pos) (node_slots n) ++ slot :: drop (S pos) (node_slots n).
Proof.
  intros Hn Hlt Hpos. node_split n Hn; cbn [key_count] in *; try lia; small_nat pos;
    (eexists; split; [reflexivity|]; split; [split; [reflexivity|reflexivity|vm_compute; split; discriminate]|]; repeat split; reflexivity).
Qed.

(** A full node has no room: inserting into it accesses the arrays out of
    bounds, at every position. *)
Lemma insert_at_full n pos key slot :
  node_wf n -> key_count n = 4 -> (pos <= 4)%nat -> btree_node_insert_at n pos key slot = None.
Proof.
  intros Hn Hf Hpos. node_split n Hn; cbn [key_count] in *; try lia; small_nat pos; reflexivity.
Qed.

(** Removal undoes insertion. *)
Theorem remove_at_insert_at n pos key slot n' :
  node_wf n -> key_count n < 4 -> Z.of_nat pos <= key_count n ->
  btree_node_insert_at n pos key slot = Some n' ->
  exists n'', btree_node_remove_at n' pos = Some n'' /\ key_count n'' = key_count n /\
    node_keys n'' = node_keys n /\ node_slots n'' = node_slots n.
Proof.
  intros Hn Hlt Hpos. node_split n Hn; cbn [key_count] in *; try lia; small_nat pos;
    (intros E; vm_compute in E; injection E as <-; eexists; split; [reflexivity|]; repeat split; reflexivity).
Qed.

(** ** Search *)
Lemma search_loop_spec ks key : forall steps i,
  (i + steps <= length ks)%nat ->
  exists p, search_loop ks i steps key = Some p /\ (i <= p <= i + steps)%nat /\
    (forall j k, (i <= j < p)%nat -> ks !! j = Some k -> k < key) /\
    (forall k, (p < i + steps)%nat -> ks !! p = Some k -> key <= k).
Proof.
  induction steps as [|st IH]; intros i Hl; cbn [search_loop].
  - exists i. split; [done|]. split; [lia|]. split; intros; lia.
  - destruct (lookup_lt_is_Some_2 ks i ltac:(lia)) as [k Hk]. rewrite Hk. simpl.
    destruct (Z.leb_spec key k).
    + exists i. split; [done|]. split; [lia|]. split; [intros; lia|]. intros k' _ Hk'. congruence.
    + destruct (IH (S i) ltac:(lia)) as (p & E & Hp & H1 & H2). exists p.
      split; [done|]. split; [lia|]. split; [|intros; apply H2; [lia|done]].
      intros j k' Hj Hk'. destruct (decide (j = i)) as [->|]; [congruence|]. apply (H1 j); [lia|done].
Qed.
Lemma count_int n : node_wf n -> to_signed 32 (key_count n) = key_count n.
Proof. intros []. apply to_signed_id; lia. Qed.
Lemma lookup_node_keys n j : node_wf n -> (Z.of_nat j < key_count n) -> node_keys n !! j = keys n !! j.
Proof. intros. unfold node_keys. apply lookup_take_lt. lia. Qed.

(** The position found: everything before is smaller, and what is there, if
    anything, is not. *)
Lemma search_position_spec n key :
  node_wf n ->
  exists p, btree_search_position n key = Some p /\ Z.of_nat p <= key_count n /\
    (forall j k, (j < p)%nat -> node_keys n !! j = Some k -> k < key) /\
    (forall k, node_keys n !! p = Some k -> key <= k).
Proof.
  intros Hn. pose proof Hn as [Hk _ Hc]. unfold btree_search_position. rewrite count_int by done.
  destruct (search_loop_spec (keys n) key (Z.to_nat (Z.min (key_count n) 16)) 0 ltac:(lia)) as (p & E & Hp & H1 & H2).
  exists p. split_and!; [done|lia| |].
  - intros j k Hj Hjk. rewrite lookup_node_keys in Hjk by (done || lia). by apply (H1 j); [lia|].
  - intros k Hpk. assert (Hlt : (p < length (node_keys n))%nat) by (by apply lookup_lt_Some in Hpk).
    unfold node_keys in Hlt. rewrite length_take in Hlt. apply H2; [lia|].
    by rewrite <- lookup_node_keys by (done || lia).
Qed.

(** Inserting a key that is not in the node at the position the search
    finds keeps the keys in strictly increasing order; the keys are the old
    ones and the new one, and the slot is put to the right of the key. *)
Theorem insert_keeps_order n key slot p :
  node_wf n -> sorted_keys n -> key_count n < 4 -> key ∉ node_keys n ->
  btree_search_position n key = Some p ->
  exists n', btree_node_insert_at n p key slot = Some n' /\ node_wf n' /\ sorted_keys n' /\
    (forall x, x ∈ node_keys n' <-> x = key \/ x ∈ node_keys n) /\
    node_slots n' = take (S p) (node_slots n) ++ slot :: drop (S p) (node_slots n).
Proof.
  intros Hn Hs Hlt Hni Hp. destruct (search_position_spec n key Hn) as (p' & E & Hpc & Hlo & Hhi).
  assert (p' = p) as -> by congruence.
  destruct (insert_at_spec n p key slot Hn Hlt ltac:(lia)) as (n' & E' & Hw & Hkc & _ & _ & _ & _ & Hk & Hsl).
  exists n'. split; [done|]. split; [done|]. apply and_assoc. split; [|done].
  assert (Hlen : (p <= length (node_keys n))%nat).
  { unfold node_keys. rewrite length_take. pose proof Hn as []. lia. }
  assert (Hbig : forall j k, (p <= j)%nat -> node_keys n !! j = Some k -> key < k).
  { intros j k Hj Hjk. destruct (lookup_lt_is_Some_2 (node_keys n) p) as [kp Hkp].
    { apply lookup_lt_Some in Hjk. lia. }
    pose proof (Hhi kp Hkp). assert (kp <> key).
    { intros ->. apply Hni. by eapply list_elem_of_lookup_2. }
    destruct (decide (j = p)) as [->|]; [rewrite Hkp in Hjk; injection Hjk as <-; lia|].
    pose proof (Hs p j kp k ltac:(lia) Hkp Hjk). lia. }
  split.
  - intros i j x y Hij. rewrite Hk.
    assert (Hl : length (take p (node_keys n)) = p) by (rewrite length_take; lia).
    assert (Hget : forall i, (take p (node_keys n) ++ key :: drop p (node_keys n)) !! i =
       if decide (i < p)%nat then node_keys n !! i else if decide (i = p) then Some key else node_keys n !! (i - 1)%nat).
    { intros i'. case_decide as H1; [rewrite lookup_app_l by lia; by apply lookup_take_lt|].
      rewrite lookup_app_r by lia. rewrite Hl. case_decide as H2; [subst i'; by rewrite Nat.sub_diag|].
      destruct (i' - p)%nat as [|m] eqn:Em; [lia|].
      change (drop p (node_keys n) !! m = node_keys n !! (i' - 1)%nat). rewrite lookup_drop. f_equal. lia. }
    rewrite !Hget. repeat case_decide; try lia; intros Hx Hy.
    + by apply (Hs i j).
    + injection Hy as <-. by apply (Hlo i).
    + apply Z.lt_trans with key; [by apply (Hlo i)|]. by apply (Hbig (j - 1)%nat); [lia|].
    + injection Hx as <-. by apply (Hbig (j - 1)%nat); [lia|].
    + by apply (Hs (i - 1)%nat (j - 1)%nat); [lia|..].
  - intros x. rewrite Hk. rewrite elem_of_app, elem_of_cons.
    rewrite <- (take_drop p (node_keys n)) at 3. rewrite elem_of_app. tauto.
Qed.

Lemma sorted_pairs n : node_wf n -> sorted_keys n ->
  forall i j x y, (i < j)%nat -> Z.of_nat j < key_count n -> keys n !! i = Some x -> keys n !! j = Some y -> x < y.
Proof.
  intros Hn Hs i j x y Hij Hj Hx Hy. apply (Hs i j); [done|..]; rewrite lookup_node_keys by (done || lia); done.
Qed.

Lemma binary_loop_spec ks n key :
  n <= zlen ks ->
  (forall i j x y, 0 <= i < j -> j < n -> ks !! Z.to_nat i = Some x -> ks !! Z.to_nat j = Some y -> x < y) ->
  forall fuel left right pos,
  0 <= left <= right + 1 -> right < n -> right - left + 1 <= Z.of_nat fuel ->
  (forall i k, 0 <= i < left -> ks !! Z.to_nat i = Some k -> k < key) ->
  (forall i k, right < i < n -> ks !! Z.to_nat i = Some k -> key < k) ->
  pos = left \/ pos = right + 1 ->
  exists p, binary_loop fuel ks key left right pos = Some p /\ 0 <= p <= n /\
    (forall i k, 0 <= i < p -> ks !! Z.to_nat i = Some k -> k < key) /\
    (forall k, p < n -> ks !! Z.to_nat p = Some k -> key <= k).
Proof.
  intros Hn Hs. induction fuel as [|fuel IH]; intros left right pos Hl Hr Hf Hlo Hhi Hpos; cbn [binary_loop].
  { assert (left = right + 1) by lia. exists pos. split; [done|]. split; [lia|].
    split; [intros i k ?; apply Hlo; lia|]. intros k ? Hk. apply Z.lt_le_incl, (Hhi pos); [lia|done]. }
  destruct (Z.leb_spec left right).
  2:{ exists pos. split; [done|]. split; [lia|]. split; [intros i k ?; apply Hlo; lia|].
      intros k ? Hk. apply Z.lt_le_incl, (Hhi pos); [lia|done]. }
  set (mid := (left + right) / 2).
  assert (Hmid : left <= mid <= right).
  { unfold mid. split; [apply Z.div_le_lower_bound; lia|apply Z.div_le_upper_bound; lia]. }
  destruct (lookup_lt_is_Some_2 ks (Z.to_nat mid)) as [k Hk]; [unfold zlen in Hn; lia|].
  rewrite Hk. simpl. destruct (Z.ltb_spec key k); [|destruct (Z.ltb_spec k key)].
  - apply IH; try lia; [done|]. intros i x Hi Hx. destruct (decide (i = mid)) as [->|]; [congruence|].
    destruct (decide (i <= right)); [|apply (Hhi i); [lia|done]].
    apply Z.lt_trans with k; [done|]. apply (Hs mid i); [lia|lia|done|done].
  - apply IH; try lia; [|intros i x Hi; apply Hhi; lia].
    intros i x Hi Hx. destruct (decide (i = mid)) as [->|]; [congruence|].
    apply Z.lt_trans with k; [|done]. apply (Hs i mid); [lia|lia|done|done].
  - exists mid. split; [done|]. split; [lia|]. assert (k = key) as -> by lia.
    split; [intros i x Hi Hx; apply (Hs i mid); [lia|lia|done|done]|]. intros x _ Hx. rewrite Hk in Hx. injection Hx as <-. lia.
Qed.

(** The binary search of a node agrees with the linear one. *)
Theorem binary_search_agrees n key :
  node_wf n -> sorted_keys n ->
  btree_search_position_binary n key = Z.of_nat <$> btree_search_position n key.
Proof.
  intros Hn Hs. pose proof Hn as [Hkl _ Hc]. unfold btree_search_position_binary.
  destruct (search_position_spec n key Hn) as (p & -> & Hpc & Hlo & Hhi).
  rewrite to_signed_id by lia.
  destruct (binary_loop_spec (keys n) (key_count n) key) with (fuel := Z.to_nat (Z.min (key_count n) 16))
    (left := 0) (right := key_count n - 1) (pos := 0) as (q & -> & Hq & Hlo' & Hhi'); try lia.
  { unfold zlen. lia. }
  { intros i j x y Hij Hj Hx Hy. apply (sorted_pairs n Hn Hs (Z.to_nat i) (Z.to_nat j)); try done; lia. }
  cbn. f_equal. destruct (Z.lt_trichotomy q (Z.of_nat p)) as [Hlt|[?|Hlt]]; [|done|].
  - destruct (lookup_lt_is_Some_2 (keys n) (Z.to_nat q)) as [k Hk]; [lia|].
    pose proof (Hhi' k ltac:(lia) Hk).
    assert (k < key); [|lia]. apply (Hlo (Z.to_nat q)); [lia|]. by rewrite lookup_node_keys by (done || lia).
  - destruct (lookup_lt_is_Some_2 (keys n) p) as [k Hk]; [lia|].
    assert (key <= k) by (apply Hhi; by rewrite lookup_node_keys by (done || lia)).
    assert (k < key); [|lia]. apply (Hlo' (Z.of_nat p)); [lia|]. by rewrite Nat2Z.id.
Qed.

(** ** Split and merge *)
(** A split of a full node divides it around the middle key: the
    left half keeps two keys, the middle one is promoted, the right half
    gets the rest, and no key or slot is lost; merging the two halves of
    an internal node under the promoted key gives the full node back. *)
Theorem split_merge n parent :
  node_wf n -> key_count n = 4 -> 0 < level n ->
  exists r m, split_right n = Some r /\ key_at n 2 = Some m /\ node_wf r /\
    let l := set_count 2 n in
    node_keys n = node_keys l ++ m :: node_keys r /\ node_slots n = node_slots l ++ node_slots r /\
    (keys parent !! 0%nat = Some m ->
     exists n', merge_into parent 0 l r = Some n' /\ key_count n' = 4 /\
       node_keys n' = node_keys n /\ node_slots n' = node_slots n).
Proof.
  intros Hn Hf Hlv. node_split n Hn; cbn [key_count level] in *; try lia.
  eexists _, _. split; [reflexivity|]. split; [reflexivity|].
  split; [split; [reflexivity|reflexivity|vm_compute; split; discriminate]|].
  split; [reflexivity|]. split; [reflexivity|]. intros Hm.
  unfold merge_into, key_at. rewrite Hm. cbn [level set_count].
  destruct (Z.eqb_spec l 0); [lia|]. eexists. split; [reflexivity|]. repeat split; reflexivity.
Qed.

(** ** Nodes on pages *)
Definition node_ok (n : kds_btree_node) : Prop :=
  length (keys n) = 4%nat /\ length (slots n) = 5%nat /\
  Forall (fun w => 0 <= w < 2 ^ 64) ([level n; key_count n] ++ keys n ++ slots n ++ [bnext n; bprev n]).

Lemma word_enc ws i w : Forall (fun w => 0 <= w < 2 ^ 64) ws -> ws !! i = Some w ->
  word (concat (map (le_bytes 8) ws)) i = w.
Proof.
  revert i. induction ws as [|x ws IH]; intros [|i] Hok Hw; try done; apply Forall_cons in Hok as [Hx Hws]; cbn in Hw.
  - injection Hw as <-. unfold word. cbn [map concat].
    change (8 * Z.of_nat 0) with 0. rewrite sub_app_l by (rewrite ?zlen_le_bytes; lia).
    assert (sub (le_bytes 8 x) 0 8 = le_bytes 8 x) as -> by apply (sub_full (le_bytes 8 x)).
    apply le_val_enc_small. done.
  - transitivity (word (concat (map (le_bytes 8) ws)) i); [|by apply IH].
    unfold word. cbn [map concat]. rewrite sub_app_r by (rewrite zlen_le_bytes; lia).
    rewrite zlen_le_bytes. do 2 f_equal. lia.
Qed.

(** A node that is stored in a page and loaded again is the same
    node. *)
Theorem node_dec_enc n : node_ok n -> node_dec (node_enc n) (bframe n) = n.
Proof.
  intros (Hk & Hs & Hok). destruct n as [l kc ks ss nx pv fr]. cbn [level key_count keys slots bnext bprev bframe] in *.
  destruct ks as [|a [|b [|c [|d [|? ?]]]]]; try discriminate Hk.
  destruct ss as [|s0 [|s1 [|s2 [|s3 [|s4 [|? ?]]]]]]; try discriminate Hs.
  unfold node_dec, node_enc. cbn [level key_count keys slots bnext bprev bframe seq map] in *.
  pose proof (fun i w => word_enc _ i w Hok) as Hw.
  rewrite (Hw 0%nat l eq_refl), (Hw 1%nat kc eq_refl), (Hw 2%nat a eq_refl), (Hw 3%nat b eq_refl),
    (Hw 4%nat c eq_refl), (Hw 5%nat d eq_refl), (Hw 6%nat s0 eq_refl), (Hw 7%nat s1 eq_refl),
    (Hw 8%nat s2 eq_refl), (Hw 9%nat s3 eq_refl), (Hw 10%nat s4 eq_refl), (Hw 11%nat nx eq_refl),
    (Hw 12%nat pv eq_refl). done.
Qed.

(** ** Faults and lost writes *)
Section BtreeOps.
Context `{K : Kernel}.

Lemma cleanup_loop_end idx c s :
  (exists i, In i idx /\ cnodes c !! i = None) ->
  exists h s', cleanup_loop idx c s = Halt h s'.
Proof.
  revert c s. induction idx as [|j idx IH]; intros c s (i & Hin & Hi); [done|]. cbn [cleanup_loop].
  unfold bind at 1, cnode at 1. destruct (cnodes c !! j) as [n|] eqn:Hj; cbn [in_bounds]; [|by eexists _, _].
  unfold ret at 1. destruct Hin as [->|Hin]; [congruence|].
  assert (Hi' : cnodes (set_cnode j (set_bframe None n) c) !! i = None).
  { cbn. rewrite list_lookup_insert_ne; [done|]. intros ->. congruence. }
  generalize (match bframe n with Some fid => kds_buf_unpin fid | None => ret tt end : M kds_state unit).
  intros m. unfold bind. destruct (m s) as [[] s1|h s1]; [|by eexists _, _]. apply IH. by exists i.
Qed.

(** The cursor has one node for each level visited, at most [fuel] more. *)
Lemma descend_depth fuel c id key s r c' s' :
  descend fuel c id key s = Ret (r, c') s' ->
  (depth c <= depth c' <= depth c + fuel)%nat /\ length (cnodes c') = length (cnodes c) /\
  (r = 0 -> (depth c' < depth c + fuel)%nat).
Proof.
  revert c id s. induction fuel as [|fuel IH]; intros c id s; cbn [descend].
  { intros H. apply Ret_inj in H as [H _]. injection H as <- <-. split; [lia|]. split; [done|]. by unfold E2BIG. }
  unfold bind at 1. destruct (kds_buf_lookup_or_load id s) as [[fid|e] s1|] eqn:E; [| |done].
  2:{ intros H. apply Ret_inj in H as [H _]. injection H as <- <-. split; [lia|]. split; [done|]. lia. }
  unfold bind at 1. destruct (load_btree_node fid s1) as [n s2|]; [|done]. unfold bind at 1.
  destruct (btree_search_position n key) as [pos|]; cbn [in_bounds]; [|done]. unfold ret at 1.
  unfold bind at 1. match goal with |- match ?m with _ => _ end = _ -> _ => destruct m as [dup s3|]; [|done] end.
  destruct dup.
  { intros H. apply Ret_inj in H as [H _]. injection H as <- <-. cbn. rewrite length_insert.
    split; [lia|]. split; [done|]. by unfold EEXIST. }
  destruct (level n =? 0).
  { intros H. apply Ret_inj in H as [H _]. injection H as <- <-. cbn. rewrite length_insert. lia. }
  unfold bind at 1. destruct (slot_at n pos); cbn [in_bounds]; [|done]. unfold ret at 1.
  intros H. apply IH in H. cbn in H. rewrite length_insert in H. lia.
Qed.

(** A tree deeper than the cursor is an error the search detects
    ([-E2BIG]), but the cursor is then one past its last level and the
    cleanup of the error path reads beyond the [nodes] array: the fault is
    reached before [kds_btree_cursor_search] returns its error. *)
Theorem too_deep_faults root key c s s1 r :
  btree_cursor_search root key s = Ret (r, c) s1 -> depth c = BTREE_MAX_DEPTH ->
  r <> 0 /\ exists h s', kds_btree_cursor_search root key s = Halt h s'.
Proof.
  unfold btree_cursor_search, kds_btree_cursor_search. intros E Hd.
  destruct (descend_depth _ _ _ _ _ _ _ _ E) as (_ & Hl & Hr).
  assert (Hne : r <> 0) by (intros ->; specialize (Hr eq_refl); cbn [depth btree_cursor_init] in Hr; lia).
  split; [done|]. unfold bind at 1. rewrite E. destruct (Z.eqb_spec r 0); [done|].
  destruct (cleanup_loop_end (seq 0 (S (depth c))) c s1) as (h & s' & H).
  { exists BTREE_MAX_DEPTH. split; [apply in_seq; lia|]. apply lookup_ge_None. rewrite Hl. done. }
  exists h, s'. unfold bind, btree_cursor_cleanup. by rewrite H.
Qed.

(** C40.  A full leaf is never split: [kds_btree_cursor_insert] first
    inserts into the full arrays, out of bounds. *)
Theorem insert_into_full_leaf_faults c key value s leaf pos :
  cnodes c !! depth c = Some leaf -> positions c !! depth c = Some pos ->
  node_wf leaf -> key_count leaf = 4 -> (pos <= 4)%nat ->
  kds_btree_cursor_insert c key value s = Halt Fault s.
Proof.
  intros Hn Hp Hw Hf Hpos. unfold kds_btree_cursor_insert, cnode, cpos. rewrite Hn, Hp. cbn [in_bounds].
  unfold bind at 1, ret at 1. unfold bind at 1, ret at 1. rewrite Hf. cbn [Z.ltb Z.compare BTREE_MAX_KEYS Pos.compare Pos.compare_cont].
  rewrite insert_at_full by done. done.
Qed.

(** Storing a node does not mark its page dirty: after an insertion
    that needs no split the cached page has the new content but the old
    header, so a page that was clean is not written by the next flush. *)
Theorem store_node_not_dirty n fid pl s f id k p :
  bframe n = Some fid -> pool_wf pl -> g_pool s = Some pl -> buf_map pl !! id = Some fid ->
  frames pl !! fid = Some f -> frame_holds f id k p -> kds_is_btree_page (kp_hdr k) = true ->
  zlen (node_enc n) = BTREE_DATA_SIZE -> is_dirty k = false ->
  exists s' pl', store_btree_node n s = Ret tt s' /\ g_pool s' = Some pl' /\
    cached pl' id = Some (k, patch p KDS_PAGE_HDR_SIZE (node_enc n)) /\
    kds_frame_flush fid s' = Ret 0 s'.
Proof.
  intros Hfr Hwf Hg Hm Hf Hh Hbt Hz Hd. pose proof Hh as (Hv & Hid & Hk & Hp & Hkid & Hl & Hres).
  set (p' := patch p KDS_PAGE_HDR_SIZE (node_enc n)). set (f' := set_f_page (LivePg p') f).
  assert (Hh' : frame_holds f' id k p').
  { split_and!; try done. unfold p'. rewrite zlen_patch; unfold BTREE_DATA_SIZE, KDS_PAGE_HDR_SIZE, KDS_PAGE_SIZE in *; lia. }
  destruct (upd_wf pl Hwf fid f' id k p' Hm Hh') as [Hwf' Hc'].
  exists (wp (upd fid f' pl) s), (upd fid f' pl). split_and!; [|done|rewrite Hc'; by rewrite decide_True|].
  - replace s with (wp pl s) at 1 by (by apply wp_id). unfold store_btree_node, node_frame. rewrite Hfr. cbn [in_bounds].
    unfold bind at 1, ret at 1. rewrite (on_frame_wp _ _ _ _ f Hf).
    assert ((check_btree_page ;; st KDS_PAGE_HDR_SIZE (node_enc n)) f = Ret tt f') as ->; [|done].
    unfold check_btree_page, bind, kp_get. rewrite Hk, Hbt. unfold ret, st. rewrite Hp, Hz. reflexivity.
  - pose proof (flush_wp fid (upd fid f' pl) s f' id k p' (upd_frame _ _ _ _ Hf) Hh') as H. cbn zeta in H.
    by rewrite Hd in H.
Qed.
End BtreeOps.

(** ** Concrete instances *)
Definition leaf3 : kds_btree_node := BNode 0 3 [10; 20; 30; 0] [1; 2; 3; 4; 0] 0 0 (Some 0%nat).
Definition full4 : kds_btree_node := BNode 1 4 [10; 20; 30; 40] [1; 2; 3; 4; 5] 0 0 (Some 0%nat).
Definition loop_node : kds_btree_node := BNode 1 1 [10; 0; 0; 0] [3; 3; 0; 0; 0] 0 0 (Some 0%nat).
Lemma leaf3_wf : node_wf leaf3.
Proof. split; [reflexivity|reflexivity|cbn; lia]. Qed.
Lemma full4_wf : node_wf full4.
Proof. split; [reflexivity|reflexivity|cbn; lia]. Qed.
Lemma leaf3_sorted : sorted_keys leaf3.
Proof.
  intros i j a b Hij Ha Hb. destruct i as [|[|[|i]]]; destruct j as [|[|[|j]]]; try lia;
    vm_compute in Ha, Hb; try discriminate; injection Ha as <-; injection Hb as <-; lia.
Qed.

Lemma remove_at_insert_at_witness :
  exists n' n'', btree_node_insert_at leaf3 1 15 9 = Some n' /\ btree_node_remove_at n' 1 = Some n'' /\
    node_keys n'' = [10; 20; 30].
Proof.
  eexists _. destruct (remove_at_insert_at leaf3 1 15 9 _ leaf3_wf ltac:(reflexivity) ltac:(cbn; lia) eq_refl)
    as (n'' & E & _ & Hk & _).
  exists n''. split; [reflexivity|]. split; [exact E|exact Hk].
Defined.
Lemma insert_keeps_order_witness :
  exists n', btree_node_insert_at leaf3 1 15 9 = Some n' /\ sorted_keys n'.
Proof.
  destruct (insert_keeps_order leaf3 15 9 1 leaf3_wf leaf3_sorted) as (n' & E & _ & Hs & _);
    [reflexivity|change (node_keys leaf3) with [10; 20; 30]; rewrite !elem_of_cons, elem_of_nil; lia|reflexivity|].
  exists n'. auto.
Defined.
Lemma binary_search_agrees_witness : btree_search_position_binary leaf3 25 = Some 2.
Proof. rewrite (binary_search_agrees leaf3 25 leaf3_wf leaf3_sorted). reflexivity. Defined.
Lemma split_merge_witness :
  exists r m, split_right full4 = Some r /\ key_at full4 2 = Some m /\
    exists n', merge_into (set_keys [30; 0; 0; 0] full4) 0 (set_count 2 full4) r = Some n' /\ node_keys n' = node_keys full4.
Proof.
  destruct (split_merge full4 (set_keys [30; 0; 0; 0] full4) full4_wf eq_refl ltac:(cbn; lia))
    as (r & m & E & Em & _ & _ & _ & H).
  exists r, m. split; [exact E|]. split; [exact Em|].
  destruct H as (n' & E' & _ & Hk & _); [exact Em|]. exists n'. auto.
Defined.
Lemma node_ok_small n : node_wf n -> Forall (fun w => 0 <= w < 2 ^ 64) ([level n; key_count n] ++ keys n ++ slots n ++ [bnext n; bprev n]) -> node_ok n.
Proof. intros [] ?. by split_and!. Qed.
Lemma node_dec_enc_witness : node_dec (node_enc leaf3) (Some 0%nat) = leaf3.
Proof. apply (node_dec_enc leaf3). apply node_ok_small; [apply leaf3_wf|]. repeat constructor; cbn; lia. Defined.

#[local] Existing Instance quiet_kernel.
Definition loop_page : bytes := patch (zeros KDS_PAGE_SIZE) KDS_PAGE_HDR_SIZE (node_enc loop_node).
Definition loop_kpage : kds_page := Kpage 3 (PageHdr 1 0 3 (zeros 32)) 1.
Definition loop_frame : kds_frame := Frame 0 KDS_FRAME_VALID 3 (Some loop_kpage) (LivePg loop_page) false.
Definition loop_pool : kds_buf_pool := publish init_pool 0 loop_frame 3 (seq 1 (pred KDS_BUF_NR_FRAMES)).
Definition loop_state : kds_state := set_g_pool (Some loop_pool) demo_state.
Lemma loop_frame_holds : frame_holds loop_frame 3 loop_kpage loop_page.
Proof. do 5 (split; [done|]). split; [by vm_compute|done]. Qed.
Lemma loop_pool_wf : pool_wf loop_pool.
Proof.
  apply (publish_wf init_pool init_pool_wf 0 (seq 1 (pred KDS_BUF_NR_FRAMES)) loop_frame 3 loop_kpage loop_page).
  - cbn [init_pool free_frames]. change KDS_BUF_NR_FRAMES with (S (pred KDS_BUF_NR_FRAMES)) at 1. reflexivity.
  - apply lookup_empty.
  - apply loop_frame_holds.
Qed.
(** A page whose children are itself: the descent never meets a leaf. *)
Lemma too_deep_faults_witness : exists h s', kds_btree_cursor_search 3 15 loop_state = Halt h s'.
Proof.
  assert (H : match btree_cursor_search 3 15 loop_state with Ret (_, c) _ => depth c | Halt _ _ => 0%nat end = 16%nat)
    by (vm_compute; reflexivity).
  destruct (btree_cursor_search 3 15 loop_state) as [[r c] s1|] eqn:E; [|discriminate H].
  apply (too_deep_faults 3 15 c loop_state s1 r E H).
Defined.
Lemma insert_into_full_leaf_faults_witness :
  kds_btree_cursor_insert (set_cnode 0 (BNode 0 4 [10; 20; 30; 40] [0; 1; 2; 3; 4] 0 0 (Some 0%nat)) btree_cursor_init) 5 7 loop_state
  = Halt Fault loop_state.
Proof.
  apply (insert_into_full_leaf_faults _ 5 7 loop_state (BNode 0 4 [10; 20; 30; 40] [0; 1; 2; 3; 4] 0 0 (Some 0%nat)) 0);
    [reflexivity|reflexivity|split; [reflexivity|reflexivity|cbn; lia]|reflexivity|lia].
Defined.
Lemma store_node_not_dirty_witness :
  exists s', store_btree_node leaf3 loop_state = Ret tt s' /\ kds_frame_flush 0 s' = Ret 0 s'.
Proof.
  destruct (store_node_not_dirty leaf3 0 loop_pool loop_state loop_frame 3 loop_kpage loop_page) as (s' & pl' & E & _ & _ & F);
    [reflexivity|apply loop_pool_wf|reflexivity|apply lookup_insert_eq|reflexivity|apply loop_frame_holds|reflexivity|reflexivity|reflexivity|].
  exists s'. auto.
Defined.
