(* ===== verification/Wal.v ===== *)
(** * Wal: the write-ahead log (wal.c, kds_wal.h)

    The log's globals are kept beside the state of the other components:
    [on_kds] runs an operation of the pool, the allocator or the superblock
    inside.  Records are appended as bytes to a 4 MiB ring buffer; a flush
    copies them into the payload of linked WAL pages.

    Locks and log messages are left out.  [kds_wal_need_flush] compares an
    offset with the address of a field: the address is a parameter.  Main.v
    registers the checkpointer. *)
From S2P Require Import Prelude Layout State Disk Meta Pool Alloc.
From stdpp Require Import prelude gmap list.
From Stdlib Require Import ZArith Lia.
Local Open Scope Z_scope.
Local Open Scope kds_scope.

(** ** LSNs *)
Definition KDS_LSN_INVALID : Z := 0.
Definition kds_lsn_make (page_id offset : Z) : Z := Z.lor (u64 (Z.shiftl page_id 32)) offset.
Definition kds_lsn_page_id (lsn : Z) : Z := Z.shiftr lsn 32.
Definition kds_lsn_offset (lsn : Z) : Z := Z.land lsn 0xFFFFFFFF.

(** ** Records *)
Definition KDS_WAL_REC_INSERT : Z := 1.
Definition KDS_WAL_REC_DELETE : Z := 2.
Definition KDS_WAL_REC_INIT_PAGE : Z := 3.
Definition KDS_WAL_REC_COMMIT : Z := 4.
Definition KDS_WAL_REC_ABORT : Z := 5.
Definition KDS_WAL_REC_CHECKPOINT : Z := 6.
Record kds_wal_rec_hdr := WalRec {
  r_lsn : Z; r_prev_lsn : Z; r_xid : Z; r_type : Z; r_pad : bytes; r_body_len : Z; r_crc : Z }.
Definition KDS_WAL_REC_HDR_SIZE : Z := 36.
Definition KDS_WAL_MAX_REC_SIZE : Z := KDS_WAL_REC_HDR_SIZE + KDS_PAGE_SIZE.
Definition rec_hdr_enc (h : kds_wal_rec_hdr) : bytes :=
  le_bytes 8 (r_lsn h) ++ le_bytes 8 (r_prev_lsn h) ++ le_bytes 8 (r_xid h) ++ le_bytes 1 (r_type h) ++
  r_pad h ++ le_bytes 4 (r_body_len h) ++ le_bytes 4 (r_crc h).
Definition rec_hdr_dec (b : bytes) : kds_wal_rec_hdr :=
  let '(l, b) := get 8 b in
  let '(pl, b) := get 8 b in
  let '(x, b) := get 8 b in
  let '(t, b) := get 1 b in
  let '(pad, b) := getb 3 b in
  let '(n, b) := get 4 b in
  let '(c, _) := get 4 b in
  WalRec l pl x t pad n c.
Definition set_r_crc (c : Z) (h : kds_wal_rec_hdr) : kds_wal_rec_hdr :=
  WalRec (r_lsn h) (r_prev_lsn h) (r_xid h) (r_type h) (r_pad h) (r_body_len h) c.
Definition set_r_lsns (l pl : Z) (h : kds_wal_rec_hdr) : kds_wal_rec_hdr :=
  WalRec l pl (r_xid h) (r_type h) (r_pad h) (r_body_len h) (r_crc h).
Definition new_rec (xid type body_len : Z) : kds_wal_rec_hdr := WalRec 0 0 xid type (zeros 3) body_len 0.

(** ** Pages *)
Definition KDS_WAL_PAGE_HDR_SIZE : Z := 32.
Definition KDS_WAL_PAGE_PAYLOAD : Z := KDS_PAGE_SIZE - KDS_PAGE_HDR_SIZE - KDS_WAL_PAGE_HDR_SIZE.
Definition wal_page_payload : Z := KDS_PAGE_HDR_SIZE + KDS_WAL_PAGE_HDR_SIZE.
(** offsets of [start_lsn], [used_bytes] and [next_wal_page_id] *)
Definition WHDR_START : Z := KDS_PAGE_HDR_SIZE + 8.
Definition WHDR_USED : Z := KDS_PAGE_HDR_SIZE + 16.
Definition WHDR_NEXT : Z := KDS_PAGE_HDR_SIZE + 20.

(** ** Buffer and state *)
Definition KDS_WAL_BUF_SIZE : Z := 4 * 1024 * 1024.
Definition KDS_WAL_BUF_MASK : Z := KDS_WAL_BUF_SIZE - 1.
Record kds_wal_buf := WalBuf {
  wbuf : bytes; write_off : Z; flush_off : Z; current_lsn : Z;
  tail_page_id : Z; tail_used : Z; tail_seg_no : Z }.
Record kds_wal_state := WalState { wal_buf : kds_wal_buf; flush_lsn : Z; checkpointed_lsn : Z; prev_lsn : Z }.
Record wal_env := WalEnv { kds : kds_state; g_wal : option kds_wal_state; g_wal_head_page_id : Z; g_wal_tail_page_id : Z }.

Definition set_wbuf (x : bytes) (w : Z) (b : kds_wal_buf) : kds_wal_buf :=
  WalBuf x w (flush_off b) (current_lsn b) (tail_page_id b) (tail_used b) (tail_seg_no b).
Definition set_flush_off (x : Z) (b : kds_wal_buf) : kds_wal_buf :=
  WalBuf (wbuf b) (write_off b) x (current_lsn b) (tail_page_id b) (tail_used b) (tail_seg_no b).
Definition set_current_lsn (x : Z) (b : kds_wal_buf) : kds_wal_buf :=
  WalBuf (wbuf b) (write_off b) (flush_off b) x (tail_page_id b) (tail_used b) (tail_seg_no b).
Definition set_tail (id used seg : Z) (b : kds_wal_buf) : kds_wal_buf :=
  WalBuf (wbuf b) (write_off b) (flush_off b) (current_lsn b) id used seg.

Definition wal_buf_used (b : kds_wal_buf) : Z := u64 (write_off b - flush_off b).
Definition wal_buf_free (b : kds_wal_buf) : Z := u64 (KDS_WAL_BUF_SIZE - wal_buf_used b).

(** [memcpy] into the ring at an absolute offset, split at the end. *)
Definition ring_put (r : bytes) (off : Z) (d : bytes) : bytes :=
  let i := Z.land off KDS_WAL_BUF_MASK in
  if i + zlen d <=? KDS_WAL_BUF_SIZE then patch r i d
  else let first := KDS_WAL_BUF_SIZE - i in
       patch (patch r i (sub d 0 first)) 0 (sub d first (zlen d - first)).
(** [memcpy] out of the ring. *)
Definition ring_get (r : bytes) (off n : Z) : bytes :=
  let i := Z.land off KDS_WAL_BUF_MASK in
  if i + n <=? KDS_WAL_BUF_SIZE then sub r i n
  else let first := KDS_WAL_BUF_SIZE - i in sub r i first ++ sub r 0 (n - first).

Section Wal.
Context `{K : Kernel} (flush_off_addr : Z).

Definition wal_rec_crc (hdr : kds_wal_rec_hdr) (body : option bytes) : Z :=
  let crc := u32 (k_crc32c (2 ^ 32 - 1) (rec_hdr_enc (set_r_crc 0 hdr))) in
  let crc := match body with
             | Some d => if 0 <? r_body_len hdr then u32 (k_crc32c crc (sub d 0 (r_body_len hdr))) else crc
             | None => crc
             end in
  Z.lxor crc (2 ^ 32 - 1).
Definition wal_rec_crc_ok (hdr : kds_wal_rec_hdr) (body : bytes) : bool := r_crc hdr =? wal_rec_crc hdr (Some body).

(** ** Effects *)
Definition on_kds {A} (m : M kds_state A) : M wal_env A := fun e =>
  match m (kds e) with
  | Ret a s => Ret a (WalEnv s (g_wal e) (g_wal_head_page_id e) (g_wal_tail_page_id e))
  | Halt h s => Halt h (WalEnv s (g_wal e) (g_wal_head_page_id e) (g_wal_tail_page_id e))
  end.
(** [g_wal->...]: a fault when the log is not initialised. *)
Definition wal_get {A} (f : kds_wal_state -> A) : M wal_env A := fun e =>
  match g_wal e with Some w => Ret (f w) e | None => Halt Fault e end.
Definition wal_put (x : option kds_wal_state) : M wal_env unit :=
  modify (fun e => WalEnv (kds e) x (g_wal_head_page_id e) (g_wal_tail_page_id e)).
Definition wal_mod (f : kds_wal_state -> kds_wal_state) : M wal_env unit := fun e =>
  match g_wal e with
  | Some w => Ret tt (WalEnv (kds e) (Some (f w)) (g_wal_head_page_id e) (g_wal_tail_page_id e))
  | None => Halt Fault e
  end.
Definition buf_mod (f : kds_wal_buf -> kds_wal_buf) : M wal_env unit :=
  wal_mod (fun w => WalState (f (wal_buf w)) (flush_lsn w) (checkpointed_lsn w) (prev_lsn w)).
Definition buf_get {A} (f : kds_wal_buf -> A) : M wal_env A := wal_get (fun w => f (wal_buf w)).

Definition kds_wal_need_checkpoint (flushed : Z) : M wal_env bool :=
  c <- wal_get checkpointed_lsn ;; ret (negb (flushed =? KDS_LSN_INVALID) && (c <? flushed)).
Definition kds_wal_need_flush : M wal_env bool :=
  w <- buf_get write_off ;; ret (negb (w =? flush_off_addr)).

(** ** Page allocation *)
Definition wal_format_page (seg_no start_lsn : Z) : M kds_frame unit :=
  st 0 (le_bytes 4 KDS_PAGE_TYPE_WAL) ;;
  st 8 (le_bytes 1 (Z.lor KDS_PAGE_FLAG_ALLOC (Z.lor KDS_PAGE_FLAG_INIT KDS_PAGE_FLAG_DIRTY))) ;;
  st 4 (le_bytes 4 0) ;;
  st KDS_PAGE_HDR_SIZE (le_bytes 8 seg_no) ;;
  st WHDR_START (le_bytes 8 start_lsn) ;;
  st WHDR_USED (le_bytes 4 0) ;;
  st WHDR_NEXT (le_bytes 8 0) ;;
  st (WHDR_NEXT + 8) (le_bytes 4 0) ;;
  st wal_page_payload (zeros KDS_WAL_PAGE_PAYLOAD) ;;
  b <- ld 0 KDS_PAGE_HDR_SIZE ;;
  kp_mod (set_kp_hdr (page_hdr_dec b)) ;;
  kds_set_page_dirty.
Definition wal_alloc_page (seg_no start_lsn : Z) : M wal_env (ptr_or_err nat) :=
  frame <- on_kds (kds_page_alloc KDS_PAGE_TYPE_WAL) ;;
  match frame with
  | None => ret (ERR_PTR (- ENOSPC))
  | Some fid => on_kds (on_frame fid (wal_format_page seg_no start_lsn)) ;; ret (PTR fid)
  end.

Definition kds_wal_init : M wal_env Z :=
  ok <- on_kds alloc_ok ;;
  if negb ok then ret (- ENOMEM) else
  ok <- on_kds alloc_ok ;;
  if negb ok then ret (- ENOMEM) else
  first_page <- wal_alloc_page 1 KDS_LSN_INVALID ;;
  match first_page with
  | ERR_PTR e => ret e
  | PTR fid =>
      id <- on_kds (on_frame fid (kp_get kp_id)) ;;
      on_kds (on_frame fid (st WHDR_START (le_bytes 8 (kds_lsn_make id 0)))) ;;
      modify (fun e => WalEnv (kds e) (g_wal e) id id) ;;
      on_kds (kds_buf_unpin fid) ;;
      wal_put (Some (WalState (WalBuf (zeros KDS_WAL_BUF_SIZE) 0 0 KDS_LSN_INVALID id 0 1)
                              KDS_LSN_INVALID KDS_LSN_INVALID KDS_LSN_INVALID)) ;;
      ret 0
  end.

(** ** Append

    Result: the return value and, on success, the LSN. *)
Definition kds_wal_append (hdr : kds_wal_rec_hdr) (body : option bytes) : M wal_env (Z * option Z) := fun e =>
  match g_wal e with
  | None => Ret (- ENODEV, None) e
  | Some w =>
      let b := wal_buf w in
      let total := u32 (KDS_WAL_REC_HDR_SIZE + r_body_len hdr) in
      if KDS_WAL_MAX_REC_SIZE <? total then Ret (- EINVAL, None) e else
      if wal_buf_free b <? total then Ret (- ENOSPC, None) e else
      let lsn := kds_lsn_make (tail_page_id b) (u32 (tail_used b + u32 (wal_buf_used b))) in
      let hdr := set_r_lsns lsn (prev_lsn w) hdr in
      let hdr := set_r_crc (wal_rec_crc hdr body) hdr in
      let r := ring_put (wbuf b) (write_off b) (rec_hdr_enc hdr) in
      let off := u64 (write_off b + KDS_WAL_REC_HDR_SIZE) in
      let '(r, off) :=
        match body with
        | Some d => if 0 <? r_body_len hdr
                    then (ring_put r off (sub d 0 (r_body_len hdr)), u64 (off + r_body_len hdr))
                    else (r, off)
        | None => (r, off)
        end in
      Ret (0, Some lsn)
          (WalEnv (kds e)
            (Some (WalState (set_current_lsn lsn (set_wbuf r off b)) (flush_lsn w) (checkpointed_lsn w) lsn))
            (g_wal_head_page_id e) (g_wal_tail_page_id e))
  end.
Definition xact_record (type xid : Z) : M wal_env Z :=
  let* (r, _) := kds_wal_append (new_rec xid type 8) (Some (le_bytes 8 xid)) in ret r.
Definition kds_wal_commit (xid : Z) : M wal_env Z := xact_record KDS_WAL_REC_COMMIT xid.
Definition kds_wal_abort (xid : Z) : M wal_env Z := xact_record KDS_WAL_REC_ABORT xid.

Definition kds_wal_get_current_lsn : M wal_env Z := fun e =>
  match g_wal e with None => Ret KDS_LSN_INVALID e | Some w => Ret (current_lsn (wal_buf w)) e end.
Definition kds_wal_get_flush_lsn : M wal_env Z := fun e =>
  match g_wal e with None => Halt Bug e | Some w => Ret (flush_lsn w) e end.
Definition kds_wal_get_checkpointed_lsn : M wal_env Z := fun e =>
  match g_wal e with None => Ret KDS_LSN_INVALID e | Some w => Ret (checkpointed_lsn w) e end.

(** ** Flush *)
(** A new tail page, linked from the old one; [flush_old]: the link is
    written out at once.  The result is the error of the allocation, 0 on
    success. *)
Definition wal_new_tail (flush_old : bool) : M wal_env Z :=
  b <- buf_get (fun b => b) ;;
  let seg := u64 (tail_seg_no b + 1) in
  buf_mod (set_tail (tail_page_id b) (tail_used b) seg) ;;
  new_frame <- wal_alloc_page seg (kds_lsn_make (tail_page_id b) (tail_used b)) ;;
  match new_frame with
  | ERR_PTR e => ret e
  | PTR new =>
      new_id <- on_kds (on_frame new (kp_get kp_id)) ;;
      old <- on_kds (kds_buf_lookup_or_load (tail_page_id b)) ;;
      match old with
      | ERR_PTR _ => ret tt
      | PTR old =>
          on_kds (on_frame old (st WHDR_NEXT (le_bytes 8 new_id))) ;;
          on_kds (on_frame old kds_set_page_dirty) ;;
          (if flush_old then on_kds (kds_frame_flush old) ;; ret tt else ret tt) ;;
          on_kds (kds_buf_unpin old)
      end ;;
      buf_mod (set_tail new_id 0 seg) ;;
      on_kds (kds_buf_unpin new) ;;
      ret 0
  end.
(** The copy of a chunk into the tail page. *)
Definition wal_fill_page (used : Z) (d : bytes) : M kds_frame unit :=
  st (wal_page_payload + used) d ;;
  st WHDR_USED (le_bytes 4 (used + zlen d)) ;;
  kds_set_page_dirty.
(** The loop; 0, or the error it returns with. *)
Fixpoint wal_flush_loop (fuel : nat) (start todo : Z) : M wal_env Z :=
  match fuel with
  | O => halt_with NoFuel
  | S fuel =>
      if todo =? 0 then ret 0 else
      b <- buf_get (fun b => b) ;;
      frame <- on_kds (kds_buf_lookup_or_load (tail_page_id b)) ;;
      match frame with
      | ERR_PTR e => ret e
      | PTR fid =>
          ub <- on_kds (on_frame fid (ld WHDR_USED 4)) ;;
          let used := le_val ub in
          let space := u32 (KDS_WAL_PAGE_PAYLOAD - used) in
          if space =? 0 then
            on_kds (kds_buf_unpin fid) ;;
            r <- wal_new_tail false ;;
            if negb (r =? 0) then ret r else wal_flush_loop fuel start todo
          else
            let chunk := Z.min todo space in
            on_kds (on_frame fid (wal_fill_page used (ring_get (wbuf b) start chunk))) ;;
            on_kds (kds_frame_flush fid) ;;
            on_kds (kds_buf_unpin fid) ;;
            buf_mod (set_tail (tail_page_id b) (u32 (used + chunk)) (tail_seg_no b)) ;;
            if KDS_WAL_PAGE_PAYLOAD <=? u32 (used + chunk) then
              r <- wal_new_tail true ;;
              if negb (r =? 0) then ret 0
              else wal_flush_loop fuel (u64 (start + chunk)) (todo - chunk)
            else wal_flush_loop fuel (u64 (start + chunk)) (todo - chunk)
      end
  end.
Definition kds_wal_flush : M wal_env Z := fun e =>
  match g_wal e with
  | None => Halt Bug e
  | Some w =>
      let b := wal_buf w in
      if flush_off b =? write_off b then Ret 0 e else
      (r <- wal_flush_loop (S (2 * Z.to_nat (wal_buf_used b))) (flush_off b) (wal_buf_used b) ;;
       if negb (r =? 0) then ret r else
       buf_mod (set_flush_off (write_off b)) ;;
       wal_mod (fun w => WalState (wal_buf w)
                 (kds_lsn_make (tail_page_id (wal_buf w)) (tail_used (wal_buf w))) (checkpointed_lsn w) (prev_lsn w)) ;;
       ret 0) e
  end.

(** ** Checkpoint *)
Definition kds_wal_checkpoint (data_flush_lsn : Z) : M wal_env Z :=
  now <- on_kds (oracle k_seconds) ;;
  let* (r, _) := kds_wal_append (new_rec 0 KDS_WAL_REC_CHECKPOINT 16) (Some (le_bytes 8 data_flush_lsn ++ le_bytes 8 now)) in
  if negb (r =? 0) then ret r else
  r <- kds_wal_flush ;;
  if negb (r =? 0) then halt_with Panic else
  l <- kds_wal_get_flush_lsn ;;
  wal_mod (fun w => WalState (wal_buf w) (flush_lsn w) l (prev_lsn w)) ;;
  on_kds kds_superblock_fsync ;;
  ret 0.
Definition kds_wal_checkpointer_proc : M wal_env unit :=
  g <- gets g_wal ;;
  match g with
  | None => ret tt
  | Some _ =>
      need <- kds_wal_need_flush ;;
      (if need : bool then r <- kds_wal_flush ;; if negb (r =? 0) then halt_with Panic else ret tt else ret tt) ;;
      l <- kds_wal_get_flush_lsn ;;
      need <- kds_wal_need_checkpoint l ;;
      if negb need then ret tt else
      on_kds kds_buf_flush_dirty_frames ;;
      kds_wal_checkpoint l ;;
      ret tt
  end.

(** ** Recovery

    The walk over the records of one page; [count] is the number of
    records found to replay (the replay itself only logs them). *)
Fixpoint wal_walk (fuel : nat) (ckpt_lsn off count : Z) : M kds_frame Z :=
  match fuel with
  | O => halt_with NoFuel
  | S fuel =>
      ub <- ld WHDR_USED 4 ;;
      let used := le_val ub in
      if negb (off + KDS_WAL_REC_HDR_SIZE <=? used) then ret count else
      hb <- ld (wal_page_payload + off) KDS_WAL_REC_HDR_SIZE ;;
      let rec := rec_hdr_dec hb in
      let next := u32 (off + KDS_WAL_REC_HDR_SIZE + r_body_len rec) in
      if negb (r_lsn rec =? KDS_LSN_INVALID) && (r_lsn rec <? ckpt_lsn) then wal_walk fuel ckpt_lsn next count else
      body <- ld (wal_page_payload + off + KDS_WAL_REC_HDR_SIZE) (r_body_len rec) ;;
      if negb (wal_rec_crc_ok rec body) then ret count else
      if used <? off + KDS_WAL_REC_HDR_SIZE + r_body_len rec then ret count else
      if (r_type rec =? KDS_WAL_REC_INSERT) || (r_type rec =? KDS_WAL_REC_DELETE) || (r_type rec =? KDS_WAL_REC_INIT_PAGE)
      then wal_walk fuel ckpt_lsn next (count + 1)
      else if (r_type rec =? KDS_WAL_REC_CHECKPOINT) || (r_type rec =? KDS_WAL_REC_COMMIT) || (r_type rec =? KDS_WAL_REC_ABORT)
      then wal_walk fuel ckpt_lsn next count
      else ret count
  end.
(** The pages of the log, in order.  Both loops follow data found on the
    pages, so both have fuel: [pages] and [steps]. *)
Fixpoint wal_recover_pages (pages steps : nat) (ckpt_lsn page_id count : Z) : M wal_env (Z * Z) :=
  match pages with
  | O => halt_with NoFuel
  | S pages =>
      if page_id =? 0 then ret (0, count) else
      frame <- on_kds (kds_buf_lookup_or_load page_id) ;;
      match frame with
      | ERR_PTR e => ret (e, count)
      | PTR fid =>
          nb <- on_kds (on_frame fid (ld WHDR_NEXT 8)) ;;
          count <- on_kds (on_frame fid (wal_walk steps ckpt_lsn 0 count)) ;;
          on_kds (kds_buf_unpin fid) ;;
          wal_recover_pages pages steps ckpt_lsn (le_val nb) count
      end
  end.
(** Result: the return value and the number of records that is logged. *)
Definition kds_wal_recover (pages steps : nat) : M wal_env (Z * Z) := fun e =>
  match g_wal e with
  | None => Ret (- ENODEV, 0) e
  | Some w => wal_recover_pages pages steps (checkpointed_lsn w) (kds_lsn_page_id (checkpointed_lsn w)) 0 e
  end.

(** ** Shutdown *)
Definition kds_wal_shutdown : M wal_env unit :=
  g <- gets g_wal ;;
  match g with
  | None => ret tt
  | Some _ => kds_wal_flush ;; wal_put None
  end.
End Wal.
