(* ===== verification/WalSpec.v ===== *)
(** * WalSpec: the write-ahead log

    The abstract log buffer is a queue of bytes ([pending]): appending a
    record adds its header and body at the end, a flush moves the bytes
    into the payload of WAL pages, and recovery walks the records found
    there. *)
From S2P Require Import Prelude Layout State Disk DiskSpec Meta Pool PoolSpec Alloc AllocSpec Wal.
From stdpp Require Import prelude gmap list.
From Stdlib Require Import ZArith Lia.
Local Open Scope Z_scope.
Local Open Scope kds_scope.

(** ** The ring as a queue *)
Lemma ring_index off : Z.land off KDS_WAL_BUF_MASK = off mod KDS_WAL_BUF_SIZE.
Proof.
  change KDS_WAL_BUF_MASK with (Z.ones 22). rewrite Z.land_ones by lia. done.
Qed.
Lemma ring_shift off i : 0 <= i <= KDS_WAL_BUF_SIZE ->
  (off + i) mod KDS_WAL_BUF_SIZE =
    if off mod KDS_WAL_BUF_SIZE + i <? KDS_WAL_BUF_SIZE then off mod KDS_WAL_BUF_SIZE + i
    else off mod KDS_WAL_BUF_SIZE + i - KDS_WAL_BUF_SIZE.
Proof.
  intros Hi. assert (0 < KDS_WAL_BUF_SIZE) by (unfold KDS_WAL_BUF_SIZE; lia).
  generalize dependent KDS_WAL_BUF_SIZE. intros N Hi HN.
  pose proof (Z.mod_pos_bound off N HN). rewrite <- Z.add_mod_idemp_l by lia.
  destruct (Z.ltb_spec (off mod N + i) N); [apply Z.mod_small; lia|].
  symmetry. apply Z.mod_unique with 1; lia.
Qed.

Section Ring.
Context (r : bytes) (Hr : zlen r = KDS_WAL_BUF_SIZE).

Lemma lookup_ring_get off n (i : nat) :
  0 <= off -> n <= KDS_WAL_BUF_SIZE -> Z.of_nat i < n ->
  ring_get r off n !! i = r !! Z.to_nat ((off + Z.of_nat i) mod KDS_WAL_BUF_SIZE).
Proof.
  intros Ho Hn Hi. unfold ring_get. rewrite ring_index, ring_shift by lia.
  assert (0 < KDS_WAL_BUF_SIZE) by (unfold KDS_WAL_BUF_SIZE; lia).
  pose proof (Z.mod_pos_bound off KDS_WAL_BUF_SIZE ltac:(done)). set (N := KDS_WAL_BUF_SIZE) in *.
  destruct (Z.leb_spec (off mod N + n) N).
  - rewrite lookup_sub by lia. destruct (Z.ltb_spec (off mod N + Z.of_nat i) N); [f_equal; lia|lia].
  - assert (Hl : length (sub r (off mod N) (N - off mod N)) = Z.to_nat (N - off mod N)) by (apply length_sub; lia).
    destruct (Z.ltb_spec (off mod N + Z.of_nat i) N).
    + rewrite lookup_app_l by lia. rewrite lookup_sub by lia. f_equal. lia.
    + rewrite lookup_app_r by lia. rewrite lookup_sub by lia. f_equal. lia.
Qed.
Lemma zlen_ring_get off n :
  0 <= off -> 0 <= n <= KDS_WAL_BUF_SIZE -> zlen (ring_get r off n) = n.
Proof.
  intros Ho Hn. unfold ring_get. rewrite ring_index.
  assert (0 < KDS_WAL_BUF_SIZE) by (unfold KDS_WAL_BUF_SIZE; lia).
  pose proof (Z.mod_pos_bound off KDS_WAL_BUF_SIZE ltac:(done)). set (N := KDS_WAL_BUF_SIZE) in *.
  destruct (Z.leb_spec (off mod N + n) N); [apply zlen_sub; lia|]. rewrite zlen_app, !zlen_sub; lia.
Qed.
Lemma zlen_ring_put off d :
  0 <= off -> zlen d <= KDS_WAL_BUF_SIZE -> zlen (ring_put r off d) = KDS_WAL_BUF_SIZE.
Proof.
  intros Ho Hn. unfold ring_put. rewrite ring_index. pose proof (zlen_nonneg d).
  assert (0 < KDS_WAL_BUF_SIZE) by (unfold KDS_WAL_BUF_SIZE; lia).
  pose proof (Z.mod_pos_bound off KDS_WAL_BUF_SIZE ltac:(done)). set (N := KDS_WAL_BUF_SIZE) in *.
  destruct (Z.leb_spec (off mod N + zlen d) N); [rewrite zlen_patch; lia|].
  rewrite !zlen_patch; rewrite ?zlen_patch; rewrite ?zlen_sub; lia.
Qed.
(** Writing at [off], seen at the ring position of [off + i]. *)
Lemma lookup_ring_put off d i :
  0 <= off -> zlen d <= KDS_WAL_BUF_SIZE -> 0 <= i < KDS_WAL_BUF_SIZE ->
  ring_put r off d !! Z.to_nat ((off + i) mod KDS_WAL_BUF_SIZE) =
    if i <? zlen d then d !! Z.to_nat i else r !! Z.to_nat ((off + i) mod KDS_WAL_BUF_SIZE).
Proof.
  intros Ho Hn Hi. unfold ring_put. rewrite ring_index, ring_shift by lia. pose proof (zlen_nonneg d).
  assert (0 < KDS_WAL_BUF_SIZE) by (unfold KDS_WAL_BUF_SIZE; lia).
  pose proof (Z.mod_pos_bound off KDS_WAL_BUF_SIZE ltac:(done)). set (N := KDS_WAL_BUF_SIZE) in *. set (o := off mod N) in *.
  destruct (Z.leb_spec (o + zlen d) N).
  - destruct (Z.ltb_spec (o + i) N), (Z.ltb_spec i (zlen d)); try lia.
    + rewrite lookup_patch_in by lia. f_equal. lia.
    + apply lookup_patch_out; lia.
    + apply lookup_patch_out; lia.
  - assert (Hs1 : zlen (sub d 0 (N - o)) = N - o) by (apply zlen_sub; lia).
    assert (Hs2 : zlen (sub d (N - o) (zlen d - (N - o))) = zlen d - (N - o)) by (apply zlen_sub; lia).
    assert (Hz : zlen (patch r o (sub d 0 (N - o))) = zlen r) by (apply zlen_patch; lia).
    destruct (Z.ltb_spec (o + i) N), (Z.ltb_spec i (zlen d)); try lia.
    + rewrite lookup_patch_out by lia. rewrite lookup_patch_in by lia. rewrite lookup_sub by lia. f_equal. lia.
    + rewrite lookup_patch_in by lia. rewrite lookup_sub by lia. f_equal. lia.
    + rewrite lookup_patch_out by lia. rewrite lookup_patch_out by lia. done.
Qed.
End Ring.

(** Bytes put behind the pending ones are read after them. *)
Lemma ring_get_put r off n d :
  zlen r = KDS_WAL_BUF_SIZE -> 0 <= off -> 0 <= n -> n + zlen d <= KDS_WAL_BUF_SIZE ->
  ring_get (ring_put r (off + n) d) off (n + zlen d) = ring_get r off n ++ d.
Proof.
  intros Hr Ho Hn Hd. pose proof (zlen_nonneg d).
  assert (Hr' : zlen (ring_put r (off + n) d) = KDS_WAL_BUF_SIZE) by (apply zlen_ring_put; lia).
  assert (Hl : zlen (ring_get r off n) = n) by (apply zlen_ring_get; lia).
  assert (Hl' : zlen (ring_get (ring_put r (off + n) d) off (n + zlen d)) = n + zlen d) by (apply zlen_ring_get; lia).
  assert (HN : 0 < KDS_WAL_BUF_SIZE) by (unfold KDS_WAL_BUF_SIZE; lia).
  apply list_eq. intros i. unfold zlen in *. destruct (decide (Z.of_nat i < n + Z.of_nat (length d))).
  2:{ rewrite !lookup_ge_None_2; rewrite ?length_app; [done|lia|lia]. }
  rewrite lookup_ring_get by (unfold zlen; lia). destruct (Z_lt_le_dec (Z.of_nat i) n) as [Hi|Hi].
  - rewrite lookup_app_l by lia. rewrite lookup_ring_get by (unfold zlen; lia).
    replace (off + Z.of_nat i) with (off + n + (Z.of_nat i - n + KDS_WAL_BUF_SIZE) + (-1) * KDS_WAL_BUF_SIZE) by lia.
    rewrite Z.mod_add by lia. rewrite lookup_ring_put by (unfold zlen; lia).
    unfold zlen. destruct (Z.ltb_spec (Z.of_nat i - n + KDS_WAL_BUF_SIZE) (Z.of_nat (length d))); [lia|done].
  - rewrite lookup_app_r by lia. replace (off + Z.of_nat i) with (off + n + (Z.of_nat i - n)) by lia.
    rewrite lookup_ring_put by (unfold zlen; lia).
    unfold zlen. destruct (Z.ltb_spec (Z.of_nat i - n) (Z.of_nat (length d))); [f_equal; lia|lia].
Qed.

(** ** Records *)
Definition rec_ok (h : kds_wal_rec_hdr) : Prop :=
  0 <= r_lsn h < 2 ^ 64 /\ 0 <= r_prev_lsn h < 2 ^ 64 /\ 0 <= r_xid h < 2 ^ 64 /\ 0 <= r_type h < 256 /\
  length (r_pad h) = 3%nat /\ 0 <= r_body_len h < 2 ^ 32 /\ 0 <= r_crc h < 2 ^ 32.
Lemma rec_hdr_dec_enc h r : rec_ok h -> rec_hdr_dec (rec_hdr_enc h ++ r) = h.
Proof.
  intros (H1 & H2 & H3 & H4 & H5 & H6 & H7). destruct h as [a1 a2 a3 a4 a5 a6 a7]; cbn [r_lsn r_prev_lsn r_xid r_type r_pad r_body_len r_crc] in *.
  unfold rec_hdr_dec, rec_hdr_enc; cbn [r_lsn r_prev_lsn r_xid r_type r_pad r_body_len r_crc].
  rewrite <- !app_assoc. struct_rt.
Qed.
Lemma zlen_rec_hdr_enc h : length (r_pad h) = 3%nat -> zlen (rec_hdr_enc h) = KDS_WAL_REC_HDR_SIZE.
Proof.
  intros H. unfold rec_hdr_enc. autorewrite with kds_len. unfold zlen. rewrite H. done.
Qed.

Lemma lsn_make_spec id off :
  0 <= id < 2 ^ 32 -> 0 <= off < 2 ^ 32 ->
  kds_lsn_make id off = id * 2 ^ 32 + off.
Proof.
  intros Hi Ho. unfold kds_lsn_make. rewrite Z.shiftl_mul_pow2, u64_small by lia.
  symmetry. apply Z.add_nocarry_lor. apply Z.bits_inj'. intros n Hn. rewrite Z.land_spec, Z.bits_0.
  destruct (Z_lt_le_dec n 32).
  - by rewrite Z.mul_pow2_bits_low by lia.
  - rewrite <- (Z.mod_small off (2 ^ 32)) by lia. rewrite Z.mod_pow2_bits_high by lia. apply andb_false_r.
Qed.
(** LSNs order positions by page, then by offset, and give both back. *)
Lemma lsn_parts id off :
  0 <= id < 2 ^ 32 -> 0 <= off < 2 ^ 32 ->
  kds_lsn_page_id (kds_lsn_make id off) = id /\ kds_lsn_offset (kds_lsn_make id off) = off.
Proof.
  intros Hi Ho. rewrite lsn_make_spec by lia. unfold kds_lsn_page_id, kds_lsn_offset.
  change 0xFFFFFFFF with (Z.ones 32). rewrite Z.shiftr_div_pow2, Z.land_ones by lia.
  rewrite Z.add_comm, Z.div_add, Z.div_small, Z.mod_add, Z.mod_small by lia. lia.
Qed.

(** ** Append *)
Record buf_ok (b : kds_wal_buf) : Prop := {
  bo_len : zlen (wbuf b) = KDS_WAL_BUF_SIZE;
  bo_flush : 0 <= flush_off b <= write_off b;
  bo_used : write_off b - flush_off b <= KDS_WAL_BUF_SIZE;
  bo_max : write_off b < 2 ^ 64;
  bo_page : 0 <= tail_page_id b < 2 ^ 32;
  bo_tail : 0 <= tail_used b <= KDS_WAL_PAGE_PAYLOAD }.
Definition pending (b : kds_wal_buf) : bytes := ring_get (wbuf b) (flush_off b) (write_off b - flush_off b).
Lemma used_pending b : buf_ok b -> wal_buf_used b = zlen (pending b) /\ zlen (pending b) = write_off b - flush_off b.
Proof.
  intros [? ? ? ?]. unfold wal_buf_used, pending. rewrite u64_small by lia. rewrite zlen_ring_get by lia. lia.
Qed.

Definition with_wal (w : kds_wal_state) (e : wal_env) : wal_env :=
  WalEnv (kds e) (Some w) (g_wal_head_page_id e) (g_wal_tail_page_id e).

Section Append.
Context `{K : Kernel}.
(** The header that is stored: position, link to the previous record and
    checksum filled in. *)
Definition stamp (lsn prev : Z) (h : kds_wal_rec_hdr) (d : bytes) : kds_wal_rec_hdr :=
  let h := set_r_lsns lsn prev h in set_r_crc (wal_rec_crc h (Some d)) h.

Lemma wal_rec_crc_range h d : 0 <= wal_rec_crc h d < 2 ^ 32.
Proof.
  assert (Hx : forall x, 0 <= u32 x < 2 ^ 32) by (intros; unfold u32; apply Z.mod_pos_bound; lia).
  unfold wal_rec_crc. cbn zeta. set (c := match d with Some _ => _ | None => _ end).
  assert (Hc : 0 <= c < 2 ^ 32) by (unfold c; destruct d; [case_test|]; apply Hx).
  replace (Z.lxor c (2 ^ 32 - 1)) with (2 ^ 32 - 1 - c); [lia|].
  rewrite Z.sub_nocarry_ldiff.
  - change (2 ^ 32 - 1) with (Z.ones 32).
    assert (Hcm : c = Z.land c (Z.ones 32)) by (rewrite Z.land_ones, Z.mod_small by lia; done).
    apply Z.bits_inj'. intros n Hn. rewrite Z.lxor_spec, Z.ldiff_spec.
    rewrite Hcm, Z.land_spec. destruct (Z.testbit c n), (Z.testbit (Z.ones 32) n); done.
  - apply Z.bits_inj'. intros n Hn. rewrite Z.ldiff_spec, Z.bits_0.
    rewrite <- (Z.mod_small c (2 ^ 32)) by lia. change (2 ^ 32 - 1) with (Z.ones 32).
    destruct (Z_lt_le_dec n 32); [rewrite Z.ones_spec_low by lia; apply andb_false_r|].
    by rewrite Z.mod_pow2_bits_high by lia.
Qed.
Lemma stamp_ok lsn prev h d :
  rec_ok h -> 0 <= lsn < 2 ^ 64 -> 0 <= prev < 2 ^ 64 ->
  rec_ok (stamp lsn prev h d) /\ wal_rec_crc_ok (stamp lsn prev h d) d = true.
Proof.
  intros (H1 & H2 & H3 & H4 & H5 & H6 & H7) Hl Hp. split.
  - unfold stamp, rec_ok. cbn [set_r_crc set_r_lsns r_lsn r_prev_lsn r_xid r_type r_pad r_body_len r_crc].
    split_and!; try lia; try done; apply wal_rec_crc_range.
  - unfold wal_rec_crc_ok. apply Z.eqb_eq. reflexivity.
Qed.

Lemma append_bytes r woff foff h d :
  zlen r = KDS_WAL_BUF_SIZE -> zlen h = KDS_WAL_REC_HDR_SIZE -> 0 <= foff <= woff ->
  woff - foff + KDS_WAL_REC_HDR_SIZE + zlen d <= KDS_WAL_BUF_SIZE ->
  woff + KDS_WAL_REC_HDR_SIZE + zlen d < 2 ^ 64 ->
  exists r', (if 0 <? zlen d
              then (ring_put (ring_put r woff h) (woff + KDS_WAL_REC_HDR_SIZE) d,
                    u64 (woff + KDS_WAL_REC_HDR_SIZE + zlen d))
              else (ring_put r woff h, woff + KDS_WAL_REC_HDR_SIZE)) =
             (r', woff + (KDS_WAL_REC_HDR_SIZE + zlen d)) /\ zlen r' = KDS_WAL_BUF_SIZE /\
    ring_get r' foff (woff + (KDS_WAL_REC_HDR_SIZE + zlen d) - foff) = ring_get r foff (woff - foff) ++ h ++ d.
Proof.
  intros Hr Hh Hf Hu Hm. pose proof (zlen_nonneg d). assert (Hsz : KDS_WAL_REC_HDR_SIZE = 36) by done.
  assert (Hr1 : zlen (ring_put r woff h) = KDS_WAL_BUF_SIZE) by (apply zlen_ring_put; lia).
  pose proof (ring_get_put r foff (woff - foff) h Hr ltac:(lia) ltac:(lia) ltac:(lia)) as G1.
  replace (foff + (woff - foff)) with woff in G1 by lia.
  destruct (Z.ltb_spec 0 (zlen d)) as [Hd|Hd].
  - eexists. split; [rewrite u64_small by lia; f_equal; lia|].
    split; [apply zlen_ring_put; lia|].
    pose proof (ring_get_put (ring_put r woff h) foff (woff - foff + zlen h) d Hr1 ltac:(lia) ltac:(lia) ltac:(lia)) as G2.
    rewrite app_assoc, <- G1, <- G2. f_equal; [f_equal|]; lia.
  - assert (d = []) as -> by (destruct d; [done|rewrite zlen_cons in Hd; pose proof (zlen_nonneg d); lia]).
    change (zlen (A := Z) []) with 0 in *. eexists. split; [f_equal; lia|]. split; [done|].
    rewrite app_nil_r, <- G1. f_equal. lia.
Qed.

Lemma append_cases e hdr d :
  rec_ok hdr -> r_body_len hdr = zlen d -> zlen d < 2 ^ 32 - KDS_WAL_REC_HDR_SIZE ->
  match g_wal e with
  | None => kds_wal_append hdr (Some d) e = Ret (- ENODEV, None) e
  | Some w =>
      let b := wal_buf w in
      buf_ok b -> 0 <= prev_lsn w < 2 ^ 64 -> write_off b + KDS_WAL_MAX_REC_SIZE < 2 ^ 64 ->
      if KDS_PAGE_SIZE <? zlen d then kds_wal_append hdr (Some d) e = Ret (- EINVAL, None) e else
      if KDS_WAL_BUF_SIZE <? zlen (pending b) + KDS_WAL_REC_HDR_SIZE + zlen d
      then kds_wal_append hdr (Some d) e = Ret (- ENOSPC, None) e else
      exists lsn w', kds_wal_append hdr (Some d) e = Ret (0, Some lsn) (with_wal w' e) /\
        kds_lsn_page_id lsn = tail_page_id b /\ kds_lsn_offset lsn = tail_used b + zlen (pending b) /\
        let h := stamp lsn (prev_lsn w) hdr d in
        pending (wal_buf w') = pending b ++ rec_hdr_enc h ++ d /\
        rec_hdr_dec (rec_hdr_enc h ++ d) = h /\ wal_rec_crc_ok h d = true /\
        buf_ok (wal_buf w') /\ prev_lsn w' = lsn /\ current_lsn (wal_buf w') = lsn /\
        flush_lsn w' = flush_lsn w /\ checkpointed_lsn w' = checkpointed_lsn w /\
        tail_page_id (wal_buf w') = tail_page_id b
  end.
Proof.
  intros Hrec Hlen Hmax. unfold kds_wal_append. destruct (g_wal e) as [w|] eqn:Hg; [|done].
  cbn zeta. intros Hb Hprev Hoff. pose proof (zlen_nonneg d).
  destruct (used_pending _ Hb) as [Hu Hu']. pose proof Hb as [Hbl Hbf Hbu Hbm Hbp Hbt].
  pose proof Hrec as (_ & _ & _ & _ & Hpad & _).
  assert (Hsz : KDS_WAL_REC_HDR_SIZE = 36) by done. assert (Hbs : KDS_WAL_BUF_SIZE = 4194304) by done.
  assert (Hpp : KDS_WAL_PAGE_PAYLOAD = 8119) by done.
  rewrite Hlen, u32_small by lia. unfold KDS_WAL_MAX_REC_SIZE in *.
  destruct (Z.ltb_spec KDS_PAGE_SIZE (zlen d)) as [Hbig|Hfit].
  { destruct (Z.ltb_spec (KDS_WAL_REC_HDR_SIZE + KDS_PAGE_SIZE) (KDS_WAL_REC_HDR_SIZE + zlen d)); [done|lia]. }
  destruct (Z.ltb_spec (KDS_WAL_REC_HDR_SIZE + KDS_PAGE_SIZE) (KDS_WAL_REC_HDR_SIZE + zlen d)); [lia|].
  unfold wal_buf_free. rewrite Hu, u64_small by lia.
  destruct (Z.ltb_spec KDS_WAL_BUF_SIZE (zlen (pending (wal_buf w)) + KDS_WAL_REC_HDR_SIZE + zlen d)) as [Hfull|Hspace].
  { destruct (Z.ltb_spec (KDS_WAL_BUF_SIZE - zlen (pending (wal_buf w))) (KDS_WAL_REC_HDR_SIZE + zlen d)); [done|lia]. }
  destruct (Z.ltb_spec (KDS_WAL_BUF_SIZE - zlen (pending (wal_buf w))) (KDS_WAL_REC_HDR_SIZE + zlen d)); [lia|].
  assert (Ho : u32 (tail_used (wal_buf w) + u32 (zlen (pending (wal_buf w)))) = tail_used (wal_buf w) + zlen (pending (wal_buf w))).
  { rewrite (u32_small (zlen _)) by lia. apply u32_small. lia. }
  rewrite Ho. set (lsn := kds_lsn_make _ _).
  destruct (lsn_parts (tail_page_id (wal_buf w)) (tail_used (wal_buf w) + zlen (pending (wal_buf w)))) as [L1 L2]; [lia|lia|].
  assert (Hlsn : 0 <= lsn < 2 ^ 64) by (unfold lsn; rewrite lsn_make_spec; lia).
  destruct (stamp_ok lsn (prev_lsn w) hdr d Hrec Hlsn Hprev) as [Hsok Hcrc].
  set (h := stamp lsn (prev_lsn w) hdr d) in *.
  change (set_r_crc (wal_rec_crc (set_r_lsns lsn (prev_lsn w) hdr) (Some d)) (set_r_lsns lsn (prev_lsn w) hdr)) with h.
  change (r_body_len h) with (r_body_len hdr). rewrite Hlen, sub_full.
  assert (Hh : zlen (rec_hdr_enc h) = KDS_WAL_REC_HDR_SIZE) by (by apply zlen_rec_hdr_enc).
  set (b := wal_buf w) in *. rewrite !(u64_small (write_off b + KDS_WAL_REC_HDR_SIZE)) by lia.
  assert (Hput : exists r', (if 0 <? zlen d
             then (ring_put (ring_put (wbuf b) (write_off b) (rec_hdr_enc h)) (write_off b + KDS_WAL_REC_HDR_SIZE) d,
                   u64 (write_off b + KDS_WAL_REC_HDR_SIZE + zlen d))
             else (ring_put (wbuf b) (write_off b) (rec_hdr_enc h), write_off b + KDS_WAL_REC_HDR_SIZE)) =
           (r', write_off b + (KDS_WAL_REC_HDR_SIZE + zlen d)) /\ zlen r' = KDS_WAL_BUF_SIZE /\
           ring_get r' (flush_off b) (write_off b + (KDS_WAL_REC_HDR_SIZE + zlen d) - flush_off b) =
             pending b ++ rec_hdr_enc h ++ d).
  { apply append_bytes; try done; lia. }
  destruct Hput as (r' & -> & Hr' & Hp'). exists lsn. eexists. split; [reflexivity|].
  split; [exact L1|]. split; [exact L2|].
  cbn [wal_buf prev_lsn flush_lsn checkpointed_lsn set_current_lsn set_wbuf current_lsn].
  split; [exact Hp'|]. split; [by apply rec_hdr_dec_enc|]. split; [done|].
  split_and!; try done. split; cbn [wal_buf set_current_lsn set_wbuf wbuf write_off flush_off tail_page_id tail_used]; try done; lia.
Qed.
(** C11.  [kds_wal_append] is an append to the queue of pending bytes: when
    the record fits, its stamped header and its body follow what was
    pending, the stored header carries a valid checksum, the LSN that is
    returned (the tail page and the offset the record will have there) and
    the LSN of the previous record, and the buffer stays well-formed.
    Without a log, for an oversized body and on a full buffer it returns
    [-ENODEV], [-EINVAL] and [-ENOSPC] and nothing changes. *)
Theorem wal_append_spec e hdr d :
  rec_ok hdr -> r_body_len hdr = zlen d -> zlen d < 2 ^ 32 - KDS_WAL_REC_HDR_SIZE ->
  match g_wal e with
  | None => kds_wal_append hdr (Some d) e = Ret (- ENODEV, None) e
  | Some w =>
      let b := wal_buf w in
      buf_ok b -> 0 <= prev_lsn w < 2 ^ 64 -> write_off b + KDS_WAL_MAX_REC_SIZE < 2 ^ 64 ->
      if KDS_PAGE_SIZE <? zlen d then kds_wal_append hdr (Some d) e = Ret (- EINVAL, None) e else
      if KDS_WAL_BUF_SIZE <? zlen (pending b) + KDS_WAL_REC_HDR_SIZE + zlen d
      then kds_wal_append hdr (Some d) e = Ret (- ENOSPC, None) e else
      exists lsn w', kds_wal_append hdr (Some d) e = Ret (0, Some lsn) (with_wal w' e) /\
        kds_lsn_page_id lsn = tail_page_id b /\ kds_lsn_offset lsn = tail_used b + zlen (pending b) /\
        let h := stamp lsn (prev_lsn w) hdr d in
        pending (wal_buf w') = pending b ++ rec_hdr_enc h ++ d /\
        rec_hdr_dec (rec_hdr_enc h ++ d) = h /\ wal_rec_crc_ok h d = true /\
        buf_ok (wal_buf w') /\ prev_lsn w' = lsn /\ current_lsn (wal_buf w') = lsn /\
        flush_lsn w' = flush_lsn w /\ checkpointed_lsn w' = checkpointed_lsn w /\
        tail_page_id (wal_buf w') = tail_page_id b
  end.
Proof. apply append_cases. Qed.
End Append.

(** ** Recovery *)
Section Recovery.
Context `{K : Kernel}.

Definition rec_bytes (x : kds_wal_rec_hdr * bytes) : bytes := rec_hdr_enc x.1 ++ x.2.
Definition rec_valid (x : kds_wal_rec_hdr * bytes) : Prop :=
  rec_ok x.1 /\ r_body_len x.1 = zlen x.2 /\ wal_rec_crc_ok x.1 x.2 = true /\
  KDS_WAL_REC_INSERT <= r_type x.1 <= KDS_WAL_REC_CHECKPOINT.
(** The records that recovery replays: the data records that are not
    older than the checkpoint. *)
Definition replayed (ckpt_lsn : Z) (x : kds_wal_rec_hdr * bytes) : bool :=
  negb (negb (r_lsn x.1 =? KDS_LSN_INVALID) && (r_lsn x.1 <? ckpt_lsn)) && (r_type x.1 <=? KDS_WAL_REC_INIT_PAGE).
Definition log_image (recs : list (kds_wal_rec_hdr * bytes)) : bytes := concat (map rec_bytes recs).
(** A WAL page that holds the records [recs] and nothing else. *)
Definition holds_log (p : bytes) (recs : list (kds_wal_rec_hdr * bytes)) : Prop :=
  zlen p = KDS_PAGE_SIZE /\ zlen (log_image recs) <= KDS_WAL_PAGE_PAYLOAD /\
  le_val (sub p WHDR_USED 4) = zlen (log_image recs) /\
  sub p wal_page_payload (zlen (log_image recs)) = log_image recs.

Lemma zlen_rec_bytes x : rec_valid x -> zlen (rec_bytes x) = KDS_WAL_REC_HDR_SIZE + r_body_len x.1.
Proof. intros (Hok & Hl & _). unfold rec_bytes. rewrite zlen_app, zlen_rec_hdr_enc by apply Hok. lia. Qed.

Lemma walk_step f k p ckpt x recs off used count fuel :
  zlen p = KDS_PAGE_SIZE -> le_val (sub p WHDR_USED 4) = used -> used <= KDS_WAL_PAGE_PAYLOAD ->
  rec_valid x -> 0 <= off -> off + zlen (rec_bytes x) <= used ->
  sub p (wal_page_payload + off) (used - off) = rec_bytes x ++ recs ->
  wal_walk (S fuel) ckpt off count (live_frame f k p) =
    wal_walk fuel ckpt (off + zlen (rec_bytes x)) (count + (if replayed ckpt x then 1 else 0)) (live_frame f k p).
Proof.
  intros Hp Hu Hmax Hx Ho Hfit Hs. pose proof (zlen_rec_bytes x Hx) as Hz. pose proof Hx as (Hok & Hl & Hcrc & Ht).
  pose proof (zlen_nonneg x.2). assert (Hsz : KDS_WAL_REC_HDR_SIZE = 36) by done.
  assert (Hpp : KDS_WAL_PAGE_PAYLOAD = 8119) by done. assert (Hpo : wal_page_payload = 73) by done.
  assert (Hps : KDS_PAGE_SIZE = 8192) by done.
  assert (Hh : sub p (wal_page_payload + off) KDS_WAL_REC_HDR_SIZE = rec_hdr_enc x.1).
  { transitivity (sub (sub p (wal_page_payload + off) (used - off)) 0 KDS_WAL_REC_HDR_SIZE);
      [rewrite sub_sub by lia; f_equal; lia|]. rewrite Hs. unfold rec_bytes. rewrite <- app_assoc.
    rewrite <- (zlen_rec_hdr_enc x.1) by apply Hok. rewrite sub_app_l by (try apply zlen_nonneg; lia). apply sub_full. }
  assert (Hb : sub p (wal_page_payload + off + KDS_WAL_REC_HDR_SIZE) (r_body_len x.1) = x.2).
  { transitivity (sub (sub p (wal_page_payload + off) (used - off)) KDS_WAL_REC_HDR_SIZE (r_body_len x.1));
      [rewrite sub_sub by lia; done|]. rewrite Hs. unfold rec_bytes. rewrite <- app_assoc, Hl.
    rewrite sub_app_r by (rewrite zlen_rec_hdr_enc by apply Hok; lia). rewrite zlen_rec_hdr_enc, Z.sub_diag by apply Hok.
    rewrite sub_app_l by lia. apply sub_full. }
  cbn [wal_walk].
  erewrite bind_ok by (apply ld_live; [done|lia|]; unfold WHDR_USED, KDS_PAGE_HDR_SIZE; lia). cbn zeta. rewrite Hu.
  destruct (Z.leb_spec (off + KDS_WAL_REC_HDR_SIZE) used); [|lia]. cbn [negb].
  erewrite bind_ok by (apply ld_live; lia). rewrite Hh.
  assert (rec_hdr_dec (rec_hdr_enc x.1) = x.1) as -> by (rewrite <- (app_nil_r (rec_hdr_enc x.1)); by apply rec_hdr_dec_enc).
  rewrite u32_small by lia. rewrite <- Z.add_assoc, <- Hz. unfold replayed.
  destruct (negb (r_lsn x.1 =? KDS_LSN_INVALID) && (r_lsn x.1 <? ckpt)); cbn [negb andb]; [by rewrite Z.add_0_r|].
  erewrite bind_ok by (apply ld_live; lia). rewrite Hb, Hcrc. cbn [negb].
  destruct (Z.ltb_spec used (off + zlen (rec_bytes x))); [lia|].
  unfold KDS_WAL_REC_INSERT, KDS_WAL_REC_DELETE, KDS_WAL_REC_INIT_PAGE, KDS_WAL_REC_CHECKPOINT, KDS_WAL_REC_COMMIT, KDS_WAL_REC_ABORT in *.
  assert (Hc : r_type x.1 = 1 \/ r_type x.1 = 2 \/ r_type x.1 = 3 \/ r_type x.1 = 4 \/ r_type x.1 = 5 \/ r_type x.1 = 6) by lia.
  destruct Hc as [->|[->|[->|[->|[->| ->]]]]]; cbn [Z.eqb Z.leb Z.compare Pos.eqb Pos.compare Pos.compare_cont orb]; by rewrite ?Z.add_0_r.
Qed.

Lemma walk_records f k p ckpt used recs : forall off count fuel,
  zlen p = KDS_PAGE_SIZE -> le_val (sub p WHDR_USED 4) = used -> used <= KDS_WAL_PAGE_PAYLOAD ->
  Forall rec_valid recs -> 0 <= off -> off + zlen (log_image recs) = used ->
  sub p (wal_page_payload + off) (used - off) = log_image recs -> (length recs < fuel)%nat ->
  wal_walk fuel ckpt off count (live_frame f k p) =
    Ret (count + zlen (List.filter (replayed ckpt) recs)) (live_frame f k p).
Proof.
  induction recs as [|x recs IH]; intros off count fuel Hp Hu Hmax Hv Ho Hend Hs Hf; (destruct fuel as [|fuel]; [cbn in Hf; lia|]).
  - cbn [log_image map concat] in *. change (zlen (A := Z) []) with 0 in *. cbn [wal_walk].
    erewrite bind_ok by (apply ld_live; [done|lia|]; rewrite Hp; unfold WHDR_USED, KDS_PAGE_HDR_SIZE, KDS_PAGE_SIZE; lia).
    cbn zeta. rewrite Hu. destruct (Z.leb_spec (off + KDS_WAL_REC_HDR_SIZE) used); [unfold KDS_WAL_REC_HDR_SIZE in *; lia|].
    cbn [negb List.filter]. change (zlen (A := kds_wal_rec_hdr * bytes) []) with 0. by rewrite Z.add_0_r.
  - apply Forall_cons in Hv as [Hx Hv]. cbn [log_image map concat] in Hs, Hend. fold (log_image recs) in Hs, Hend.
    rewrite zlen_app in Hend. pose proof (zlen_nonneg (log_image recs)). pose proof (zlen_nonneg (rec_bytes x)).
    rewrite (walk_step f k p ckpt x (log_image recs) off used) by (try done; lia).
    rewrite IH; try done; try lia; [| |cbn in Hf; lia].
    + f_equal. cbn [List.filter]. destruct (replayed ckpt x); rewrite ?zlen_cons; lia.
    + transitivity (sub (sub p (wal_page_payload + off) (used - off)) (zlen (rec_bytes x)) (used - (off + zlen (rec_bytes x)))).
      { assert (wal_page_payload = 73) by done. rewrite sub_sub by lia. f_equal; lia. }
      rewrite Hs, sub_app_r by lia. rewrite Z.sub_diag.
      replace (used - (off + zlen (rec_bytes x))) with (zlen (log_image recs)) by lia. apply sub_full.
Qed.

(** C29.  Recovery of a page finds exactly the records that were written
    to it: on a page that holds a sequence of complete records with valid
    checksums, the walk reads all of them, in as many steps as there are
    records, counts the data records that are not older than the
    checkpoint, and changes nothing. *)
Theorem walk_replays_log f k p ckpt recs fuel :
  frame_live f k p -> holds_log p recs -> Forall rec_valid recs -> (length recs < fuel)%nat ->
  wal_walk fuel ckpt 0 0 f = Ret (zlen (List.filter (replayed ckpt) recs)) f.
Proof.
  intros Hf (Hp & Hmax & Hu & Hs) Hv Hfuel. rewrite <- (frame_live_eq f k p Hf).
  apply (walk_records f k p ckpt _ recs 0 0 fuel Hp Hu Hmax Hv); try lia; try done.
  by rewrite Z.add_0_r, Z.sub_0_r.
Qed.

(** A record that does not end on its page stops the walk.  A flush
    fills pages to the last byte, so a record may continue on the next
    page; recovery reads the bytes behind the page instead.  Whatever it
    finds there, no record from this position on is counted. *)
Theorem walk_stops_at_cut_record f k p h ckpt off count fuel :
  frame_live f k p -> zlen p = KDS_PAGE_SIZE -> rec_ok h -> 0 <= off ->
  let used := le_val (sub p WHDR_USED 4) in
  used <= KDS_WAL_PAGE_PAYLOAD -> off + KDS_WAL_REC_HDR_SIZE <= used ->
  sub p (wal_page_payload + off) KDS_WAL_REC_HDR_SIZE = rec_hdr_enc h ->
  ckpt <= r_lsn h -> used < off + KDS_WAL_REC_HDR_SIZE + r_body_len h ->
  wal_walk (S fuel) ckpt off count f = Ret count f.
Proof.
  intros Hf Hp Hok Ho used Hmax Hfit Hh Hck Hcut. rewrite <- (frame_live_eq f k p Hf). cbn [wal_walk].
  assert (Hsz : KDS_WAL_REC_HDR_SIZE = 36) by done.
  assert (Hpp : KDS_WAL_PAGE_PAYLOAD = 8119) by done. assert (Hpo : wal_page_payload = 73) by done.
  assert (Hps : KDS_PAGE_SIZE = 8192) by done.
  erewrite bind_ok by (apply ld_live; [done|lia|]; unfold WHDR_USED, KDS_PAGE_HDR_SIZE; lia). cbn zeta. fold used.
  destruct (Z.leb_spec (off + KDS_WAL_REC_HDR_SIZE) used); [|lia]. cbn [negb].
  erewrite bind_ok by (apply ld_live; lia). rewrite Hh.
  assert (rec_hdr_dec (rec_hdr_enc h) = h) as -> by (rewrite <- (app_nil_r (rec_hdr_enc h)); by apply rec_hdr_dec_enc).
  destruct (Z.ltb_spec (r_lsn h) ckpt); [lia|]. rewrite andb_false_r.
  erewrite bind_ok by reflexivity. case_match; [done|].
  destruct (Z.ltb_spec used (off + KDS_WAL_REC_HDR_SIZE + r_body_len h)); [done|lia].
Qed.
End Recovery.

(** ** Flush *)
Definition with_kds (s : kds_state) (e : wal_env) : wal_env :=
  WalEnv s (g_wal e) (g_wal_head_page_id e) (g_wal_tail_page_id e).
Lemma on_kds_ok {A} (m : M kds_state A) e a s : m (kds e) = Ret a s -> on_kds m e = Ret a (with_kds s e).
Proof. intros H. unfold on_kds. by rewrite H. Qed.
Lemma on_kds_halt {A} (m : M kds_state A) e h s : m (kds e) = Halt h s -> on_kds m e = Halt h (with_kds s e).
Proof. intros H. unfold on_kds. by rewrite H. Qed.

Lemma on_kds_seq3 {A B C D} (m : M kds_state A) (n : M kds_state B) (o : M kds_state C) (c : C -> M wal_env D) e :
  (on_kds m ;; on_kds n ;; x <- on_kds o ;; c x) e = (x <- on_kds (m ;; n ;; o) ;; c x) e.
Proof.
  unfold bind, on_kds. destruct (m (kds e)) as [? s1|]; [|done]. cbn [kds g_wal g_wal_head_page_id g_wal_tail_page_id].
  destruct (n s1) as [? s2|]; [|done]. cbn [kds g_wal g_wal_head_page_id g_wal_tail_page_id]. by destruct (o s2).
Qed.

Section Flush.
Context `{K : Kernel}.

Definition dirtied (k : kds_page) : kds_page := set_kp_hdr (or_flags KDS_PAGE_FLAG_DIRTY (kp_hdr k)) k.
Lemma dirtied_dirty k : is_dirty (dirtied k) = true.
Proof.
  unfold is_dirty, dirtied, has_flag, or_flags; cbn -[Z.land Z.lor]. rewrite Z.land_lor_distr_l.
  destruct (Z.eqb_spec (Z.lor (Z.land (ph_flags (kp_hdr k)) KDS_PAGE_FLAG_DIRTY) (Z.land KDS_PAGE_FLAG_DIRTY KDS_PAGE_FLAG_DIRTY)) 0) as [E|]; [|done].
  by apply Z.lor_eq_0_iff in E as [_ E].
Qed.
(** The page after a chunk was copied in and the page was flushed. *)
Definition filled (k : kds_page) (p : bytes) (used : Z) (d : bytes) : bytes :=
  image (dirtied k) (patch (patch p (wal_page_payload + used) d) WHDR_USED (le_bytes 4 (used + zlen d))).

Lemma hit_wp id pl s fid f k p :
  pool_wf pl -> buf_map pl !! id = Some fid -> frames pl !! fid = Some f -> frame_live f k p ->
  kds_buf_lookup_or_load id (wp pl s) = Ret (PTR fid) (wp (upd fid (live_frame f (pinned k) p) pl) s).
Proof.
  intros Hwf Hm Hf [Hk Hp]. unfold kds_buf_lookup_or_load. rewrite gets_wp. cbn [g_pool wp set_g_pool].
  fold (wp pl s). erewrite bind_ok; [|rewrite lookup_wp, Hm, Hf, Hk by done; reflexivity].
  unfold ret, live_frame, pinned. do 4 f_equal. by destruct f; cbn in *; subst.
Qed.

Lemma fill_live f k p used d :
  0 <= used -> used + zlen d <= KDS_WAL_PAGE_PAYLOAD ->
  wal_fill_page used d (live_frame f k p) =
    Ret tt (live_frame f (dirtied k) (patch (patch p (wal_page_payload + used) d) WHDR_USED (le_bytes 4 (used + zlen d)))).
Proof.
  intros Hu Hd. assert (Hpp : KDS_WAL_PAGE_PAYLOAD = 8119) by done. assert (Hpo : wal_page_payload = 73) by done.
  assert (Hps : KDS_PAGE_SIZE = 8192) by done.
  unfold wal_fill_page. erewrite bind_ok by (apply st_live; lia).
  erewrite bind_ok by (apply st_live; rewrite zlen_le_bytes; unfold WHDR_USED, KDS_PAGE_HDR_SIZE; lia). reflexivity.
Qed.
Lemma zlen_filled_data p used d :
  zlen p = KDS_PAGE_SIZE -> 0 <= used -> used + zlen d <= KDS_WAL_PAGE_PAYLOAD ->
  zlen (patch (patch p (wal_page_payload + used) d) WHDR_USED (le_bytes 4 (used + zlen d))) = KDS_PAGE_SIZE.
Proof.
  intros Hp Hu Hd. assert (Hpp : KDS_WAL_PAGE_PAYLOAD = 8119) by done. assert (Hpo : wal_page_payload = 73) by done.
  assert (Hps : KDS_PAGE_SIZE = 8192) by done. assert (Hwu : WHDR_USED = 57) by done.
  rewrite !zlen_patch; rewrite ?zlen_patch; rewrite ?zlen_le_bytes; lia.
Qed.

(** The copy, the write to the device and the release of the tail page. *)
Lemma fill_wp fid pl s f id k p used d :
  frames pl !! fid = Some f -> frame_holds f id k p ->
  0 <= used -> used + zlen d <= KDS_WAL_PAGE_PAYLOAD ->
  let o := (on_frame fid (wal_fill_page used d) ;; kds_frame_flush fid ;; kds_buf_unpin fid)
             (wp (upd fid (live_frame f (pinned k) p) pl) s) in
  (exists s', o = Halt Panic s') \/
  (exists t, o = Ret tt (wp (upd fid (live_frame f (cleaned (dirtied k)) (filled k p used d)) pl)
                           (set_tick t (set_disk (put_page (disk s) id (filled k p used d)) s)))).
Proof.
  intros Hf Hh Hu Hd o. subst o. pose proof Hh as (Hv & Hid & Hk & Hp & Hkid & Hl & Hres).
  set (q := patch (patch p (wal_page_payload + used) d) WHDR_USED (le_bytes 4 (used + zlen d))).
  set (f2 := live_frame f (dirtied (pinned k)) q).
  erewrite bind_ok.
  2:{ rewrite (on_frame_wp _ _ _ _ (live_frame f (pinned k) p)) by (by eapply upd_frame).
      rewrite fill_live by done. reflexivity. }
  fold q f2. rewrite upd_upd.
  pose proof (flush_wp fid (upd fid f2 pl) s f2 id (dirtied (pinned k)) q (upd_frame _ _ _ _ Hf)) as Hfl.
  cbn zeta in Hfl. rewrite dirtied_dirty in Hfl.
  destruct Hfl as [[t E]|[s' E]].
  { do 5 (split; [done|]). split; [by apply zlen_filled_data|done]. }
  2:{ left. eexists. erewrite bind_halt by exact E. reflexivity. }
  right. exists t. erewrite bind_ok by exact E. rewrite upd_upd. unfold kds_buf_unpin.
  erewrite on_frame_wp by (by eapply upd_frame).
  unfold kp_mod. cbn [f_kp set_f_kp]. cbn beta iota. rewrite upd_upd. do 3 f_equal.
  unfold live_frame, set_f_kp, set_f_page; cbn. f_equal. f_equal. destruct k; cbn.
  unfold cleaned, dirtied, set_kp_refcnt, set_kp_hdr; cbn. f_equal. lia.
Qed.

Definition set_buf (b : kds_wal_buf) (w : kds_wal_state) : kds_wal_state :=
  WalState b (flush_lsn w) (checkpointed_lsn w) (prev_lsn w).
(** The state after a round of the loop on the tail page [id]. *)
Definition after_round (e : wal_env) (w : kds_wal_state) (s : kds_state) (used : Z) : wal_env :=
  let b := wal_buf w in
  with_wal (set_buf (set_tail (tail_page_id b) used (tail_seg_no b) b) w) (with_kds s e).

Lemma flush_round fuel start todo e w pl fid f k p :
  g_wal e = Some w -> g_pool (kds e) = Some pl -> pool_wf pl ->
  let id := tail_page_id (wal_buf w) in
  buf_map pl !! id = Some fid -> frames pl !! fid = Some f -> frame_holds f id k p ->
  let used := le_val (sub p WHDR_USED 4) in
  0 <= used < KDS_WAL_PAGE_PAYLOAD -> 0 < todo ->
  let chunk := Z.min todo (KDS_WAL_PAGE_PAYLOAD - used) in
  let d := ring_get (wbuf (wal_buf w)) start chunk in
  zlen d = chunk ->
  (exists e', wal_flush_loop (S fuel) start todo e = Halt Panic e') \/
  (exists t, wal_flush_loop (S fuel) start todo e =
    (if KDS_WAL_PAGE_PAYLOAD <=? used + chunk
     then r <- wal_new_tail true ;; if negb (r =? 0) then ret 0 else wal_flush_loop fuel (u64 (start + chunk)) (todo - chunk)
     else wal_flush_loop fuel (u64 (start + chunk)) (todo - chunk))
    (after_round e w (wp (upd fid (live_frame f (cleaned (dirtied k)) (filled k p used d)) pl)
       (set_tick t (set_disk (put_page (disk (kds e)) id (filled k p used d)) (kds e)))) (used + chunk))).
Proof.
  intros Hw Hg Hwf id Hm Hf Hh used Hu Htodo chunk d Hd. pose proof Hh as (Hv & Hid & Hk & Hp & Hkid & Hl & Hres).
  assert (Hpp : KDS_WAL_PAGE_PAYLOAD = 8119) by done. assert (Hps : KDS_PAGE_SIZE = 8192) by done.
  destruct e as [s gw hd tl]. cbn [kds g_wal] in *. subst gw. rewrite <- (wp_id s pl Hg).
  cbn [wal_flush_loop]. destruct (Z.eqb_spec todo 0); [lia|].
  erewrite (bind_ok (buf_get _)) by reflexivity. fold id.
  erewrite bind_ok by (eapply on_kds_ok; cbn [kds]; by eapply hit_wp).
  cbn beta iota. erewrite bind_ok.
  2:{ eapply on_kds_ok. cbn [kds with_kds].
      rewrite (on_frame_wp _ _ _ _ (live_frame f (pinned k) p)) by (by eapply upd_frame).
      rewrite ld_live by (unfold WHDR_USED, KDS_PAGE_HDR_SIZE; lia). reflexivity. }
  rewrite upd_upd. cbn zeta. fold used. rewrite !(u32_small (KDS_WAL_PAGE_PAYLOAD - used)) by lia.
  destruct (Z.eqb_spec (KDS_WAL_PAGE_PAYLOAD - used) 0); [lia|]. fold chunk. fold d.
  rewrite !(u32_small (used + chunk)) by lia.
  rewrite on_kds_seq3.
  destruct (fill_wp fid pl s f id k p used d Hf Hh ltac:(lia) ltac:(lia)) as [[s' E]|[t E]].
  { left. eexists. erewrite bind_halt by (eapply on_kds_halt; cbn [kds with_kds]; exact E). reflexivity. }
  right. exists t. erewrite bind_ok by (eapply on_kds_ok; cbn [kds with_kds]; exact E).
  rewrite (wp_id s pl Hg). reflexivity.
Qed.

Lemma filled_spec k p used d :
  zlen p = KDS_PAGE_SIZE -> length (ph_reserved1 (kp_hdr k)) = 32%nat ->
  0 <= used -> used + zlen d <= KDS_WAL_PAGE_PAYLOAD ->
  let q := filled k p used d in
  zlen q = KDS_PAGE_SIZE /\ le_val (sub q WHDR_USED 4) = used + zlen d /\
  sub q wal_page_payload (used + zlen d) = sub p wal_page_payload used ++ d.
Proof.
  intros Hp Hr Hu Hd q. pose proof (zlen_nonneg d).
  assert (Hpp : KDS_WAL_PAGE_PAYLOAD = 8119) by done. assert (Hpo : wal_page_payload = 73) by done.
  assert (Hps : KDS_PAGE_SIZE = 8192) by done. assert (Hwu : WHDR_USED = 57) by done.
  pose proof (zlen_filled_data p used d Hp Hu Hd) as Hz. unfold q, filled. split; [by apply zlen_image|].
  assert (Hh : zlen (page_hdr_enc (kp_hdr (dirtied k))) = 41) by (by apply zlen_page_hdr_enc).
  unfold image. rewrite !(sub_patch_disj _ 0) by lia.
  assert (Hz1 : zlen (patch p (wal_page_payload + used) d) = KDS_PAGE_SIZE) by (rewrite zlen_patch; lia).
  pose proof (zlen_le_bytes 4 (used + zlen d)) as Hb. split.
  - change (Z.of_nat 4) with 4 in Hb. rewrite <- Hb at 1. rewrite sub_patch_same by lia.
    apply le_val_enc_small. lia.
  - rewrite sub_patch_disj by lia. rewrite sub_split by lia. f_equal; [apply sub_patch_disj; lia|].
    apply sub_patch_same; lia.
Qed.

Lemma ring_get_nil r off : zlen r = KDS_WAL_BUF_SIZE -> 0 <= off -> ring_get r off 0 = [].
Proof.
  intros Hr Ho. pose proof (zlen_ring_get r Hr off 0 Ho ltac:(done)) as Hz.
  destruct (ring_get r off 0); [done|]. rewrite zlen_cons in Hz. pose proof (zlen_nonneg l). lia.
Qed.
Lemma ring_get_prefix r off n m :
  zlen r = KDS_WAL_BUF_SIZE -> 0 <= off -> 0 <= m <= n -> n <= KDS_WAL_BUF_SIZE ->
  ring_get r off m = sub (ring_get r off n) 0 m.
Proof.
  intros Hr Ho Hm Hn. apply list_eq. intros i. destruct (decide (Z.of_nat i < m)).
  - rewrite lookup_sub by lia. cbn [Z.to_nat Nat.add]. rewrite !lookup_ring_get by (done || lia). done.
  - pose proof (zlen_ring_get r Hr off m Ho ltac:(lia)) as Hz. unfold zlen in Hz. unfold sub.
    rewrite lookup_take_ge by lia. apply lookup_ge_None_2. lia.
Qed.
Lemma alloc_page_none seg lsn e a :
  g_alloc (kds e) = Some a -> ring_is a [] -> wal_alloc_page seg lsn e = Ret (ERR_PTR (- ENOSPC)) e.
Proof.
  intros Ha Hr. assert (E : kds_page_alloc KDS_PAGE_TYPE_WAL (kds e) = Ret None (kds e)).
  { unfold kds_page_alloc. rewrite (alloc_get_ok _ _ _ _ Ha), (ring_count_spec a [] Hr). reflexivity. }
  unfold wal_alloc_page. erewrite bind_ok by (apply on_kds_ok; exact E). by destruct e.
Qed.
Lemma new_tail_none flush_old e w a :
  g_wal e = Some w -> g_alloc (kds e) = Some a -> ring_is a [] ->
  wal_new_tail flush_old e =
    Ret (- ENOSPC) (with_wal (set_buf (set_tail (tail_page_id (wal_buf w)) (tail_used (wal_buf w))
                                         (u64 (tail_seg_no (wal_buf w) + 1)) (wal_buf w)) w) e).
Proof.
  intros Hw Ha Hr. destruct e as [s gw hd tl]. cbn [g_wal kds] in *. subst gw. unfold wal_new_tail.
  erewrite (bind_ok (buf_get _)) by reflexivity. cbn zeta. erewrite (bind_ok (buf_mod _)) by reflexivity.
  by erewrite (bind_ok (wal_alloc_page _ _)) by (by apply (alloc_page_none _ _ _ a)).
Qed.

Lemma flush_extends_cases e w pl k p recs new :
  g_wal e = Some w -> buf_ok (wal_buf w) -> g_pool (kds e) = Some pl -> pool_wf pl ->
  let id := tail_page_id (wal_buf w) in
  cached pl id = Some (k, p) -> holds_log p recs ->
  pending (wal_buf w) = log_image new -> 0 < zlen (log_image new) ->
  zlen (log_image (recs ++ new)) < KDS_WAL_PAGE_PAYLOAD ->
  (exists e', kds_wal_flush e = Halt Panic e') \/
  (exists e' w' pl' k' q, kds_wal_flush e = Ret 0 e' /\ g_wal e' = Some w' /\ g_pool (kds e') = Some pl' /\
    pool_wf pl' /\ buf_ok (wal_buf w') /\ pending (wal_buf w') = [] /\
    flush_lsn w' = kds_lsn_make id (zlen (log_image (recs ++ new))) /\
    q = filled k p (zlen (log_image recs)) (log_image new) /\
    cached pl' id = Some (k', q) /\ disk_page (disk (kds e')) id = q /\ holds_log q (recs ++ new) /\
    forall id', id' <> id -> cached pl' id' = cached pl id' /\
      (page_id_ok id' -> disk_page (disk (kds e')) id' = disk_page (disk (kds e)) id')).
Proof.
  intros Hw Hb Hg Hwf id Hc (Hp & Hmax & Hused & Hlog) Hpend Hpos Hfit.
  pose proof (wf_cached pl id Hwf) as Hwc. destruct (buf_map pl !! id) as [fid|] eqn:Hm; [|congruence].
  destruct Hwc as (f & k0 & p0 & Hf & Hh & Hc0). rewrite Hc in Hc0. injection Hc0 as <- <-.
  destruct (used_pending _ Hb) as [Hu Hu']. rewrite Hpend in Hu, Hu'. pose proof Hb as [Hbl Hbf Hbu Hbm Hbp Hbt].
  assert (Himg : log_image (recs ++ new) = log_image recs ++ log_image new)
    by (unfold log_image; by rewrite map_app, concat_app).
  rewrite Himg, zlen_app in Hfit. pose proof (zlen_nonneg (log_image recs)).
  unfold kds_wal_flush. rewrite Hw. destruct (Z.eqb_spec (flush_off (wal_buf w)) (write_off (wal_buf w))); [lia|].
  rewrite Hu. destruct (2 * Z.to_nat (zlen (log_image new)))%nat as [|fuel] eqn:Hfuel; [lia|].
  assert (Hchunk : Z.min (zlen (log_image new)) (KDS_WAL_PAGE_PAYLOAD - zlen (log_image recs)) = zlen (log_image new)) by lia.
  assert (Hring : ring_get (wbuf (wal_buf w)) (flush_off (wal_buf w)) (zlen (log_image new)) = log_image new)
    by (rewrite Hu'; exact Hpend).
  pose proof (flush_round (S fuel) (flush_off (wal_buf w)) (zlen (log_image new)) e w pl fid f k p Hw Hg Hwf Hm Hf Hh) as Hround.
  cbn zeta in Hround. rewrite Hused, Hchunk, Hring in Hround. specialize (Hround ltac:(lia) Hpos eq_refl).
  destruct Hround as [[e' E]|[t E]]; [left; eexists; by erewrite bind_halt by exact E|]. right.
  destruct (Z.leb_spec KDS_WAL_PAGE_PAYLOAD (zlen (log_image recs) + zlen (log_image new))); [lia|].
  fold id in E. pose proof Hh as (_ & _ & _ & _ & _ & _ & Hres).
  destruct (filled_spec k p (zlen (log_image recs)) (log_image new) Hp Hres ltac:(lia) ltac:(lia)) as (Q1 & Q2 & Q3).
  set (q := filled k p (zlen (log_image recs)) (log_image new)) in *. rewrite Hlog, <- Himg in Q3.
  set (fr := live_frame f (cleaned (dirtied k)) q) in *.
  destruct (upd_wf pl Hwf fid fr id (cleaned (dirtied k)) q Hm) as [Hwf' Hc'].
  { pose proof Hh as (? & ? & ? & ? & ? & ? & ?). done. }
  set (s' := wp (upd fid fr pl) _) in *.
  rewrite Z.sub_diag in E. cbn [wal_flush_loop Z.eqb] in E.
  set (w' := WalState (set_flush_off (write_off (wal_buf w)) (set_tail id (zlen (log_image recs) + zlen (log_image new)) (tail_seg_no (wal_buf w)) (wal_buf w)))
     (kds_lsn_make id (zlen (log_image recs) + zlen (log_image new))) (checkpointed_lsn w) (prev_lsn w)).
  exists (with_wal w' (with_kds s' e)), w', (upd fid fr pl), (cleaned (dirtied k)), q.
  split; [erewrite bind_ok by exact E; reflexivity|].
  assert (Hpo : page_id_ok id) by (unfold page_id_ok, id; lia).
  split_and!; try done.
  - split; cbn; try done; lia.
  - unfold pending; cbn [w' wal_buf set_flush_off set_tail wbuf flush_off write_off]. rewrite Z.sub_diag.
    apply ring_get_nil; [done|lia].
  - by rewrite Himg, zlen_app.
  - by rewrite Hc', decide_True.
  - apply disk_page_put. unfold zlen, KDS_PAGE_SIZE in Q1. lia.
  - unfold holds_log. rewrite Himg, zlen_app, <- Himg. split_and!; try done; lia.
  - intros id' Hne. split; [by rewrite Hc', decide_False|]. intros Hid'. cbn [kds with_wal with_kds s' wp disk set_g_pool set_tick set_disk]. by apply disk_page_put_ne.
Qed.
(** C28.  A flush moves the pending records to the device.  When they fit
    on the tail page, they are appended to the records of that page, in the
    cache and on the device; nothing is pending afterwards, the flush LSN
    is the new end of the log, and no other page changes.  The only other
    outcome is the panic of a failed write. *)
Theorem flush_extends_log e w pl k p recs new :
  g_wal e = Some w -> buf_ok (wal_buf w) -> g_pool (kds e) = Some pl -> pool_wf pl ->
  let id := tail_page_id (wal_buf w) in
  cached pl id = Some (k, p) -> holds_log p recs ->
  pending (wal_buf w) = log_image new -> 0 < zlen (log_image new) ->
  zlen (log_image (recs ++ new)) < KDS_WAL_PAGE_PAYLOAD ->
  (exists e', kds_wal_flush e = Halt Panic e') \/
  (exists e' w' pl' k' q, kds_wal_flush e = Ret 0 e' /\ g_wal e' = Some w' /\ g_pool (kds e') = Some pl' /\
    pool_wf pl' /\ buf_ok (wal_buf w') /\ pending (wal_buf w') = [] /\
    flush_lsn w' = kds_lsn_make id (zlen (log_image (recs ++ new))) /\
    cached pl' id = Some (k', q) /\ disk_page (disk (kds e')) id = q /\ holds_log q (recs ++ new) /\
    forall id', id' <> id -> cached pl' id' = cached pl id' /\
      (page_id_ok id' -> disk_page (disk (kds e')) id' = disk_page (disk (kds e)) id')).
Proof.
  intros Hw Hb Hg Hwf id Hc Hlog Hpend Hpos Hfit.
  destruct (flush_extends_cases e w pl k p recs new Hw Hb Hg Hwf Hc Hlog Hpend Hpos Hfit) as [H|H]; [by left|right].
  destruct H as (e' & w' & pl' & k' & q & H1 & H2 & H3 & H4 & H5 & H6 & H7 & _ & H8). exists e', w', pl', k', q. auto 10.
Qed.

(** A flush that fills the tail page while no page is staged for the
    next one leaves its loop and then discards the rest: it returns 0 with
    nothing pending, the page has received the first bytes only, and no
    other page has changed, so the remaining records are gone. *)
Theorem flush_drops_bytes e w pl k p :
  g_wal e = Some w -> buf_ok (wal_buf w) -> alloc_state (kds e) pl [] ->
  let id := tail_page_id (wal_buf w) in
  cached pl id = Some (k, p) ->
  let used := le_val (sub p WHDR_USED 4) in
  let space := KDS_WAL_PAGE_PAYLOAD - used in
  0 <= used -> 0 < space < zlen (pending (wal_buf w)) ->
  (exists e', kds_wal_flush e = Halt Panic e') \/
  (exists e' w' pl' k' q, kds_wal_flush e = Ret 0 e' /\ g_wal e' = Some w' /\ g_pool (kds e') = Some pl' /\
    pending (wal_buf w') = [] /\ cached pl' id = Some (k', q) /\
    sub q wal_page_payload KDS_WAL_PAGE_PAYLOAD = sub p wal_page_payload used ++ sub (pending (wal_buf w)) 0 space /\
    forall id', id' <> id -> cached pl' id' = cached pl id').
Proof.
  intros Hw Hb [Hg Hwf (a & Ha & Hr)] id Hc used space Hu0 Hspace.
  pose proof (wf_cached pl id Hwf) as Hwc. destruct (buf_map pl !! id) as [fid|] eqn:Hm; [|congruence].
  destruct Hwc as (f & k0 & p0 & Hf & Hh & Hc0). rewrite Hc in Hc0. injection Hc0 as <- <-.
  destruct (used_pending _ Hb) as [Hu Hu']. pose proof Hb as [Hbl Hbf Hbu Hbm Hbp Hbt].
  unfold kds_wal_flush. rewrite Hw. destruct (Z.eqb_spec (flush_off (wal_buf w)) (write_off (wal_buf w))) as [|_]; [lia|].
  rewrite Hu. set (n := zlen (pending (wal_buf w))) in *. generalize (2 * Z.to_nat n)%nat. intros fuel.
  assert (Hchunk : Z.min n space = space) by lia.
  assert (Hring : ring_get (wbuf (wal_buf w)) (flush_off (wal_buf w)) space = sub (pending (wal_buf w)) 0 space).
  { unfold pending. rewrite (ring_get_prefix _ _ (write_off (wal_buf w) - flush_off (wal_buf w))) by lia. done. }
  assert (Hzd : zlen (sub (pending (wal_buf w)) 0 space) = space) by (apply zlen_sub; lia).
  pose proof (flush_round fuel (flush_off (wal_buf w)) n e w pl fid f k p Hw Hg Hwf Hm Hf Hh) as Hround.
  cbn zeta in Hround. fold used space id in Hround. rewrite Hchunk, Hring in Hround.
  specialize (Hround ltac:(lia) ltac:(lia) Hzd).
  destruct Hround as [[e' E]|[t E]]; [left; eexists; by erewrite bind_halt by exact E|]. right.
  destruct (Z.leb_spec KDS_WAL_PAGE_PAYLOAD (used + space)); [|lia].
  pose proof Hh as (_ & _ & _ & _ & _ & Hp & Hres).
  destruct (filled_spec k p used (sub (pending (wal_buf w)) 0 space) Hp Hres ltac:(lia) ltac:(lia)) as (Q1 & Q2 & Q3).
  set (q := filled k p used (sub (pending (wal_buf w)) 0 space)) in *. rewrite Hzd in Q3.
  set (fr := live_frame f (cleaned (dirtied k)) q) in *.
  destruct (upd_wf pl Hwf fid fr id (cleaned (dirtied k)) q Hm) as [Hwf' Hc'].
  { pose proof Hh as (? & ? & ? & ? & ? & ? & ?). done. }
  set (s' := wp (upd fid fr pl) _) in *.
  erewrite bind_ok in E by (eapply new_tail_none; [reflexivity|exact Ha|exact Hr]). cbn [negb Z.eqb Z.opp ENOSPC] in E.
  eexists _, _, (upd fid fr pl), (cleaned (dirtied k)), q.
  split; [erewrite bind_ok by exact E; reflexivity|]. split; [reflexivity|]. split; [reflexivity|].
  split_and!.
  - unfold pending; cbn [wal_buf set_flush_off set_tail set_buf wbuf flush_off write_off]. rewrite Z.sub_diag.
    apply ring_get_nil; [done|lia].
  - by rewrite Hc', decide_True.
  - rewrite <- Q3. f_equal. lia.
  - intros id' Hne. by rewrite Hc', decide_False.
Qed.
End Flush.

(** ** Concrete instances *)
#[local] Existing Instance quiet_kernel.
Definition demo_hdr : kds_wal_rec_hdr := new_rec 7 KDS_WAL_REC_INSERT 8.
Definition demo_body : bytes := le_bytes 8 7.
Definition demo_rec : kds_wal_rec_hdr * bytes := (stamp (3 * 2 ^ 32) 0 demo_hdr demo_body, demo_body).
Definition demo_log (r : bytes) (n : Z) : kds_wal_state := WalState (WalBuf r n 0 0 3 0 1) 0 0 0.
Definition demo_env (w : kds_wal_state) : wal_env := WalEnv demo_alloc (Some w) 3 3.
Lemma demo_ring_len : zlen (zeros KDS_WAL_BUF_SIZE) = KDS_WAL_BUF_SIZE.
Proof. apply zlen_zeros. unfold KDS_WAL_BUF_SIZE. lia. Qed.
Lemma demo_log_ok r n : zlen r = KDS_WAL_BUF_SIZE -> 0 <= n <= KDS_WAL_BUF_SIZE -> buf_ok (wal_buf (demo_log r n)).
Proof. intros Hr Hn. assert (KDS_WAL_BUF_SIZE = 4194304) by done. split; cbn [demo_log wal_buf wbuf write_off flush_off tail_page_id tail_used]; done || lia. Qed.
Lemma demo_log_pending r d n :
  zlen r = KDS_WAL_BUF_SIZE -> zlen d <= KDS_WAL_BUF_SIZE -> n = zlen d -> pending (wal_buf (demo_log (ring_put r 0 d) n)) = d.
Proof.
  intros Hr Hd ->. pose proof (ring_get_put r 0 0 d Hr ltac:(lia) ltac:(lia) ltac:(lia)) as H.
  rewrite (ring_get_nil _ _ Hr) in H by lia. unfold pending. cbn [demo_log wal_buf wbuf flush_off write_off].
  by rewrite Z.sub_0_r.
Qed.
Lemma demo_hdr_ok : rec_ok demo_hdr.
Proof. unfold rec_ok; cbn. split_and!; done. Qed.
Lemma demo_rec_valid : rec_valid demo_rec.
Proof.
  destruct (stamp_ok (3 * 2 ^ 32) 0 demo_hdr demo_body demo_hdr_ok) as [H1 H2]; [lia|lia|].
  split_and!; [exact H1|reflexivity|exact H2|done|done].
Qed.
Lemma demo_log_len : zlen (log_image [demo_rec]) = 44.
Proof. reflexivity. Qed.
Definition demo_wal_page (used : Z) (d : bytes) : bytes :=
  patch (patch (zeros KDS_PAGE_SIZE) WHDR_USED (le_bytes 4 used)) wal_page_payload d.

Lemma wal_append_spec_witness :
  exists lsn w', kds_wal_append demo_hdr (Some demo_body) (demo_env (demo_log (zeros KDS_WAL_BUF_SIZE) 0)) =
    Ret (0, Some lsn) (with_wal w' (demo_env (demo_log (zeros KDS_WAL_BUF_SIZE) 0))) /\ kds_lsn_page_id lsn = 3.
Proof.
  pose proof (wal_append_spec (demo_env (demo_log (zeros KDS_WAL_BUF_SIZE) 0)) demo_hdr demo_body demo_hdr_ok eq_refl eq_refl) as H.
  assert (Hb : buf_ok (wal_buf (demo_log (zeros KDS_WAL_BUF_SIZE) 0)))
    by (apply demo_log_ok; [apply demo_ring_len|unfold KDS_WAL_BUF_SIZE; lia]).
  cbn [g_wal demo_env] in H. cbn zeta in H. specialize (H Hb ltac:(split; [discriminate|reflexivity]) eq_refl).
  destruct (used_pending _ Hb) as [_ Hp]. rewrite Hp in H.
  change (KDS_PAGE_SIZE <? zlen demo_body) with false in H. cbn iota in H.
  match type of H with (if ?b then _ else _) => change b with false in H end. cbn iota in H.
  destruct H as (lsn & w' & E & L & _). exists lsn, w'. split; [exact E|exact L].
Defined.
Lemma walk_replays_log_witness :
  wal_walk 2 0 0 0 (live_frame demo_held demo_page (demo_wal_page 44 (log_image [demo_rec]))) =
    Ret 1 (live_frame demo_held demo_page (demo_wal_page 44 (log_image [demo_rec]))).
Proof.
  apply (walk_replays_log (live_frame demo_held demo_page (demo_wal_page 44 (log_image [demo_rec]))) demo_page
    (demo_wal_page 44 (log_image [demo_rec])) 0 [demo_rec] 2);
    [apply frame_live_live| |by constructor; [apply demo_rec_valid|constructor]|cbn; lia].
  unfold holds_log. rewrite demo_log_len. split_and!; vm_compute; (reflexivity || discriminate).
Defined.
Lemma walk_stops_at_cut_record_witness :
  wal_walk 1 0 0 5 (live_frame demo_held demo_page (demo_wal_page 40 (rec_hdr_enc demo_rec.1))) =
    Ret 5 (live_frame demo_held demo_page (demo_wal_page 40 (rec_hdr_enc demo_rec.1))).
Proof.
  apply (walk_stops_at_cut_record (live_frame demo_held demo_page (demo_wal_page 40 (rec_hdr_enc demo_rec.1))) demo_page
    (demo_wal_page 40 (rec_hdr_enc demo_rec.1)) demo_rec.1 0 0 5 0);
    [apply frame_live_live|vm_compute; reflexivity|apply demo_rec_valid|lia|vm_compute; discriminate|
     vm_compute; discriminate|vm_compute; reflexivity|vm_compute; discriminate|vm_compute; reflexivity].
Defined.
Lemma flush_extends_log_witness :
  let e := demo_env (demo_log (ring_put (zeros KDS_WAL_BUF_SIZE) 0 (log_image [demo_rec])) 44) in
  (exists e', kds_wal_flush e = Halt Panic e') \/
  (exists e' q, kds_wal_flush e = Ret 0 e' /\ disk_page (disk (kds e')) 3 = q /\ holds_log q [demo_rec]).
Proof.
  intros e. destruct demo_pool_ok as (Hwf & Hc & _).
  assert (Hp : pending (wal_buf (demo_log (ring_put (zeros KDS_WAL_BUF_SIZE) 0 (log_image [demo_rec])) 44)) = log_image [demo_rec]).
  { apply demo_log_pending; [apply demo_ring_len|discriminate|reflexivity]. }
  destruct (flush_extends_log e (demo_log (ring_put (zeros KDS_WAL_BUF_SIZE) 0 (log_image [demo_rec])) 44) demo_pool demo_page
    (zeros KDS_PAGE_SIZE) [] [demo_rec]) as [H|(e' & w' & pl' & k' & q & E & _ & _ & _ & _ & _ & _ & _ & H1 & H2 & _)];
    [reflexivity| |reflexivity|exact Hwf|exact Hc| |exact Hp|reflexivity|reflexivity|left; exact H|].
  - apply demo_log_ok; [apply zlen_ring_put; [apply demo_ring_len|lia|discriminate]|unfold KDS_WAL_BUF_SIZE; lia].
  - unfold holds_log. split_and!; vm_compute; (reflexivity || discriminate).
  - right. exists e', q. split; [exact E|]. split; [exact H1|exact H2].
Defined.
Lemma flush_drops_bytes_witness :
  let e := demo_env (demo_log (zeros KDS_WAL_BUF_SIZE) 9000) in
  (exists e', kds_wal_flush e = Halt Panic e') \/
  (exists e' w', kds_wal_flush e = Ret 0 e' /\ g_wal e' = Some w' /\ pending (wal_buf w') = []).
Proof.
  intros e. destruct demo_pool_ok as (Hwf & Hc & _).
  assert (Hb : buf_ok (wal_buf (demo_log (zeros KDS_WAL_BUF_SIZE) 9000))) 
    by (apply demo_log_ok; [apply demo_ring_len|unfold KDS_WAL_BUF_SIZE; lia]).
  destruct (flush_drops_bytes e (demo_log (zeros KDS_WAL_BUF_SIZE) 9000) demo_pool demo_page (zeros KDS_PAGE_SIZE))
    as [H|(e' & w' & pl' & k' & q & E & H1 & _ & H2 & _)];
    [reflexivity|exact Hb|apply demo_alloc_state|exact Hc|vm_compute; discriminate| |left; exact H|].
  - destruct (used_pending _ Hb) as [_ ->]. split; vm_compute; reflexivity.
  - right. exists e', w'. split; [exact E|]. split; [exact H1|exact H2].
Defined.
