(* ===== verification/Undo.v ===== *)
(** * Undo: undo entries and tuple updates (undo.c, kds_undo.h)

    Undo pages are heap pages whose tuples are [kds_undo_entry]s.  The
    entry is a packed struct, but the tuple id inside it is not: it
    occupies 16 bytes, the last 6 of them padding whose value the
    structure assignment leaves open ([k_garbage]).

    The functions on one page run on a frame; [kds_heap_update_tuple]
    works on two, which it is given as indices into the pool (and which
    may be the same frame).  The checks of the pointer arguments for NULL
    are not modelled: a caller passes frames and an [out_tid]. *)
From S2P Require Import Prelude Layout State Heap.
From stdpp Require Import prelude gmap list.
From Stdlib Require Import ZArith Lia.
Local Open Scope Z_scope.
Local Open Scope kds_scope.

Definition KDS_UNDO_OP_UPDATE : Z := 1.
Definition KDS_UNDO_OP_DELETE : Z := 2.
Definition KDS_UNDO_MAX_OLD_DATA : Z := 256.

Record kds_undo_entry := UndoEntry {
  owner_oid : Z; old_tid : kds_heap_tid; prev_undo_ptr : Z; ue_xmin : Z; ue_xmax : Z;
  operation : Z; old_data_len : Z; old_data : bytes }.
Definition KDS_UNDO_ENTRY_SIZE : Z := 307.

Section Undo.
Context `{K : Kernel}.

Definition tid_padding : bytes := map (fun i => u8 (k_garbage i)) (seq 0 6).
Definition undo_entry_enc (e : kds_undo_entry) : bytes :=
  le_bytes 8 (owner_oid e) ++
  le_bytes 8 (tid_page_id (old_tid e)) ++ le_bytes 2 (tid_slot (old_tid e)) ++ tid_padding ++
  le_bytes 8 (prev_undo_ptr e) ++ le_bytes 8 (ue_xmin e) ++ le_bytes 8 (ue_xmax e) ++
  le_bytes 1 (operation e) ++ le_bytes 2 (old_data_len e) ++ old_data e.
Definition undo_entry_dec (b : bytes) : kds_undo_entry :=
  let '(oid, b) := get 8 b in
  let '(pg, b) := get 8 b in
  let '(sl, b) := get 2 b in
  let '(_, b) := getb 6 b in
  let '(prev, b) := get 8 b in
  let '(x0, b) := get 8 b in
  let '(x1, b) := get 8 b in
  let '(op, b) := get 1 b in
  let '(len, b) := get 2 b in
  let '(d, _) := getb 256 b in
  UndoEntry oid (Tid pg sl) prev x0 x1 op len d.

Definition kds_undo_write_entry (oid : Z) (tid : kds_heap_tid) (prev x0 x1 op : Z)
  (data : option bytes) (len write_xid : Z) : M kds_frame (Z * option kds_heap_tid) :=
  if KDS_UNDO_MAX_OLD_DATA <? len then ret (- EMSGSIZE, None) else
  if (0 <? len) && bool_decide (data = None) then ret (- EINVAL, None) else
  d <- (if 0 <? len then src data len else ret []) ;;
  let entry := UndoEntry oid tid prev x0 x1 op len (d ++ zeros (KDS_UNDO_MAX_OLD_DATA - zlen d)) in
  heap_insert_tuple_ex (Some (undo_entry_enc entry)) KDS_UNDO_ENTRY_SIZE write_xid 0 0.

Definition kds_undo_read_entry (slot : Z) : M kds_frame (Z * option kds_undo_entry) :=
  let* (r, o) := heap_read_tuple slot (Some KDS_UNDO_ENTRY_SIZE) in
  ret (r, match o with Some (_, b) => Some (undo_entry_dec b) | None => None end).

(** The second part of the update: the undo entry is written at [undo_tid]. *)
Definition update_after_undo (target : nat) (slot_idx : Z) (new_data : option bytes)
  (new_len xid : Z) (undo_tid : kds_heap_tid) : M kds_state (Z * option kds_heap_tid) :=
  let undo_ptr := kds_heap_tid_pack undo_tid in
  let* (r, cap) := on_frame target (heap_slot_capacity slot_idx) in
  match cap with
  | None => ret (r, None)
  | Some old_capacity =>
      if new_len <=? old_capacity then
        r <- on_frame target (heap_overwrite_tuple slot_idx new_data new_len xid 0 undo_ptr) ;;
        if negb (r =? 0) then ret (r, None) else
        id <- on_frame target (kp_get kp_id) ;;
        ret (0, Some (Tid id slot_idx))
      else
        r <- on_frame target (heap_retire_slot slot_idx) ;;
        if negb (r =? 0) then ret (r, None) else
        on_frame target (heap_insert_tuple_ex new_data new_len xid 0 undo_ptr)
  end.

Definition kds_heap_update_tuple (target : nat) (slot_idx : Z) (new_data : option bytes)
  (new_len xid oid : Z) (undo : nat) : M kds_state (Z * option kds_heap_tid) :=
  no_kp <- frame_get target (fun f => bool_decide (f_kp f = None)) ;;
  if no_kp : bool then ret (- EINVAL, None) else
  if (0 <? new_len) && bool_decide (new_data = None) then ret (- EINVAL, None) else
  let* (r, old) := on_frame target (heap_read_tuple slot_idx None) in
  match old with
  | None => ret (r, None)
  | Some (old_hdr, _) =>
      if KDS_UNDO_MAX_OLD_DATA <? data_len old_hdr then ret (- EMSGSIZE, None) else
      (** header and payload of the old version, or the error *)
      prior <- (if 0 <? data_len old_hdr then
                  ok <- alloc_ok ;;
                  if negb ok then ret (inl (- ENOMEM)) else
                  let* (r, o) := on_frame target (heap_read_tuple slot_idx (Some (data_len old_hdr))) in
                  ret (match o with Some (h, b) => inr (h, Some b) | None => inl r end)
                else ret (inr (old_hdr, None))) ;;
      match prior with
      | inl e => ret (e, None)
      | inr (h, data) =>
          id <- on_frame target (kp_get kp_id) ;;
          let* (r, ut) := on_frame undo (kds_undo_write_entry oid (Tid id slot_idx) (undo_ptr h) (xmin h) xid
                                         KDS_UNDO_OP_UPDATE data (data_len h) xid) in
          match ut with
          | None => ret (r, None)
          | Some undo_tid => update_after_undo target slot_idx new_data new_len xid undo_tid
          end
      end
  end.
End Undo.
