(* ===== verification/UndoSpec.v ===== *)
(** * UndoSpec: updates keep the history of a tuple

    The theorems about updates are proved against the interface
    [TupleStore] of heap.c.  [update_model] is the update on abstract pages (lists of tuples);
    the refinement theorem shows that [kds_heap_update_tuple] implements it
    on a pair of cached pages, for every outcome of the allocations. *)
From S2P Require Import Prelude Layout Heap HeapSpec HeapOps TupleStore State Disk DiskSpec Meta Pool PoolSpec Undo.
From stdpp Require Import prelude gmap list.
From Stdlib Require Import ZArith Lia.
Local Open Scope Z_scope.
Local Open Scope kds_scope.

(** ** Entries *)
Definition entry_ok (e : kds_undo_entry) : Prop :=
  u64_ok (owner_oid e) /\ u64_ok (tid_page_id (old_tid e)) /\ u16_ok (tid_slot (old_tid e)) /\
  u64_ok (prev_undo_ptr e) /\ u64_ok (ue_xmin e) /\ u64_ok (ue_xmax e) /\ is_byte (operation e) /\
  u16_ok (old_data_len e) /\ length (old_data e) = 256%nat /\ bytes_ok (old_data e).
Section Entries.
Context `{K : Kernel}.
Lemma undo_entry_dec_enc e : entry_ok e -> undo_entry_dec (undo_entry_enc e) = e.
Proof.
  intros (?&?&?&?&?&?&?&?&?&?). assert (length tid_padding = 6%nat) by reflexivity.
  unfold undo_entry_dec, undo_entry_enc.
  destruct e as [oid [pg sl] pv x0 x1 op len d]; cbn -[get getb le_bytes Z.pow tid_padding] in *.
  ok_unfold. struct_rt.
Qed.
Lemma zlen_undo_entry_enc e : length (old_data e) = 256%nat -> zlen (undo_entry_enc e) = 307.
Proof.
  intros H. unfold undo_entry_enc. autorewrite with kds_len. unfold zlen. rewrite H.
  unfold tid_padding. by rewrite length_map, length_seq.
Qed.
Lemma bytes_ok_undo_entry_enc e : bytes_ok (old_data e) -> bytes_ok (undo_entry_enc e).
Proof.
  intros H. unfold undo_entry_enc. rewrite !bytes_ok_app.
  assert (bytes_ok tid_padding).
  { apply Forall_fmap, Forall_forall. intros i _. unfold u8, is_byte; cbn. apply Z.mod_pos_bound. lia. }
  auto 15 with kds.
Qed.
End Entries.

(** ** Writing and reading entries *)
Section Undo.
Context `{K : Kernel} {TS : TupleStore}.

Definition undo_hdr (xid : Z) : kds_heap_tuple_hdr := TupleHdr xid 0 0 KDS_UNDO_ENTRY_SIZE 0 0.
Definition undo_tuple (xid : Z) (e : kds_undo_entry) : htuple :=
  HTuple (undo_hdr xid) (undo_entry_enc e) KDS_UNDO_ENTRY_SIZE.
Definition padded (d : bytes) : bytes := d ++ zeros (KDS_UNDO_MAX_OLD_DATA - zlen d).

Lemma padded_ok d : bytes_ok d -> zlen d <= 256 -> length (padded d) = 256%nat /\ bytes_ok (padded d).
Proof.
  intros Hd Hl. unfold padded. split; [|apply bytes_ok_app; auto with kds].
  rewrite length_app. unfold zeros, zlen, KDS_UNDO_MAX_OLD_DATA in *. rewrite length_replicate. lia.
Qed.

Lemma undo_write_cases f k p oid tid prev x0 x1 op d data xid :
  frame_live f k p -> heap_wf p -> bytes_ok d -> data = Some d \/ (data = None /\ d = []) -> u64_ok xid ->
  let e := UndoEntry oid tid prev x0 x1 op (zlen d) (padded d) in
  let o := kds_undo_write_entry oid tid prev x0 x1 op data (zlen d) xid f in
  if KDS_UNDO_MAX_OLD_DATA <? zlen d then o = Ret (- EMSGSIZE, None) f
  else if p_free p <? 340 then o = Ret (- ENOSPC, None) f
  else page_becomes o (0, Some (Tid (kp_id k) (zlen (heap_view p)))) f k p
         (heap_view p ++ [Some (undo_tuple xid e)]) (p_free p - 340).
Proof.
  intros Hf Hp Hd Hdata Hx e o. subst o. unfold kds_undo_write_entry.
  destruct (Z.ltb_spec KDS_UNDO_MAX_OLD_DATA (zlen d)) as [|Hl]; [done|]. unfold KDS_UNDO_MAX_OLD_DATA in Hl.
  destruct (padded_ok d Hd Hl) as [Hpl Hpo].
  assert ((0 <? zlen d) && bool_decide (data = None) = false) as ->.
  { destruct Hdata as [->|[-> ->]]; [by rewrite bool_decide_eq_false_2, andb_false_r|done]. }
  assert ((if 0 <? zlen d then src data (zlen d) else ret []) f = Ret d f) as Hs.
  { destruct Hdata as [->|[-> ->]]; [|done]. destruct (Z.ltb_spec 0 (zlen d)) as [Hz|Hz].
    - unfold src. destruct (Z.leb_spec (zlen d) (zlen d)); [|lia]. by rewrite sub_full.
    - destruct d; [done|]. rewrite zlen_cons in Hz. pose proof (zlen_nonneg d). lia. }
  erewrite bind_ok by exact Hs. cbn zeta. fold (padded d). fold e.
  pose proof (zlen_undo_entry_enc e Hpl) as Hz. pose proof (bytes_ok_undo_entry_enc e Hpo) as Hb.
  pose proof (ts_insert f k p (undo_entry_enc e) xid 0 0 Hf Hp Hb) as H. rewrite Hz in H.
  specialize (H ltac:(by ok_unfold) Hx ltac:(by ok_unfold) ltac:(by ok_unfold)). exact H.
Qed.

Lemma undo_read_entry_at f k p i xid e :
  frame_live f k p -> heap_wf p -> u16_ok i -> entry_ok e ->
  heap_view p !! Z.to_nat i = Some (Some (undo_tuple xid e)) ->
  kds_undo_read_entry i f = Ret (0, Some e) f.
Proof.
  intros Hf Hp Hi He Hv. unfold kds_undo_read_entry.
  erewrite bind_ok by apply (ts_read f k p i (undo_tuple xid e) Hf Hp Hi Hv).
  cbn [undo_tuple ht_data]. by rewrite undo_entry_dec_enc.
Qed.

(** ** The update on abstract pages *)
Definition views := (list (option htuple) * list (option htuple))%type.
Definition undo_entry_of (tid : kds_heap_tid) (t : htuple) (xid oid : Z) : kds_undo_entry :=
  UndoEntry oid tid (undo_ptr (ht_hdr t)) (xmin (ht_hdr t)) xid KDS_UNDO_OP_UPDATE
    (data_len (ht_hdr t)) (padded (ht_data t)).
(** [mem]: is there memory for the copy of the old payload?  The free space
    of the two pages is [free_t] and [free_u], their ids [tid] and [uid]. *)
Definition update_model (mem : bool) (tid uid : Z) (vt : list (option htuple)) (free_t : Z)
  (vu : list (option htuple)) (free_u i : Z) (buf : bytes) (xid oid : Z) : (Z * option kds_heap_tid) * views :=
  match vt !! Z.to_nat i with
  | Some (Some t) =>
      if KDS_UNDO_MAX_OLD_DATA <? data_len (ht_hdr t) then ((- EMSGSIZE, None), (vt, vu)) else
      if (0 <? data_len (ht_hdr t)) && negb mem then ((- ENOMEM, None), (vt, vu)) else
      if free_u <? 340 then ((- ENOSPC, None), (vt, vu)) else
      let vu' := vu ++ [Some (undo_tuple xid (undo_entry_of (Tid tid i) t xid oid))] in
      let hdr := TupleHdr xid 0 (kds_heap_tid_pack (Tid uid (zlen vu))) (zlen buf) 0 0 in
      if zlen buf <=? ht_cap t
      then ((0, Some (Tid tid i)), (<[Z.to_nat i := Some (HTuple hdr buf (ht_cap t))]> vt, vu'))
      else
        let vt' := <[Z.to_nat i := None]> vt in
        if KDS_PAGE_SIZE <? zlen buf then ((- EINVAL, None), (vt', vu')) else
        if free_t <? 33 + zlen buf then ((- ENOSPC, None), (vt', vu')) else
        ((0, Some (Tid tid (zlen vt))), (vt' ++ [Some (HTuple hdr buf (zlen buf))], vu'))
  | _ => ((- ENOENT, None), (vt, vu))
  end.

(** A cached heap page: frame [fid] holds page [id] with tuples [v]. *)
Definition heap_at (pl : kds_buf_pool) (fid : nat) (id : Z) (v : list (option htuple)) (free : Z) : Prop :=
  exists f k p, frames pl !! fid = Some f /\ frame_live f k p /\ kp_id k = id /\ heap_wf p /\
    heap_view p = v /\ p_free p = free.
(** Apart from the two frames nothing changed in the pool. *)
Definition only_frames (a b : nat) (pl pl' : kds_buf_pool) : Prop :=
  buf_map pl' = buf_map pl /\ free_frames pl' = free_frames pl /\ nr_free pl' = nr_free pl /\
  forall fid, fid <> a -> fid <> b -> frames pl' !! fid = frames pl !! fid.

Lemma on_frame_same {A} fid (m : M kds_frame A) pl s f a :
  frames pl !! fid = Some f -> m f = Ret a f -> on_frame fid m (wp pl s) = Ret a (wp pl s).
Proof.
  intros Hf Hm. rewrite (on_frame_wp _ _ _ _ f Hf), Hm. unfold upd.
  rewrite list_insert_id by done. by destruct pl.
Qed.
Lemma on_frame_to {A} fid (m : M kds_frame A) pl s f a f' :
  frames pl !! fid = Some f -> m f = Ret a f' -> on_frame fid m (wp pl s) = Ret a (wp (upd fid f' pl) s).
Proof. intros Hf Hm. by rewrite (on_frame_wp _ _ _ _ f Hf), Hm. Qed.
Lemma heap_at_upd_ne pl fid fid' f id v free :
  fid <> fid' -> heap_at pl fid' id v free -> heap_at (upd fid f pl) fid' id v free.
Proof.
  intros Hne (f' & k & p & Hf & H). exists f', k, p. split; [|done]. cbn. by rewrite list_lookup_insert_ne.
Qed.
Lemma heap_at_upd pl fid f0 f k q id free v :
  frames pl !! fid = Some f0 -> kp_id k = id -> heap_wf q -> heap_view q = v -> p_free q = free ->
  heap_at (upd fid (live_frame f k q) pl) fid id v free.
Proof. intros Hf. exists (live_frame f k q), k, q. split_and!; try done. by eapply upd_frame. Qed.
Lemma only_frames_upd a b fid f pl pl' :
  fid = a \/ fid = b -> only_frames a b pl pl' -> only_frames a b pl (upd fid f pl').
Proof.
  intros Hfid (? & ? & ? & H). split_and!; try done. intros g Ha Hb. cbn.
  rewrite list_lookup_insert_ne by (destruct Hfid; congruence). by apply H.
Qed.
Lemma only_frames_refl a b pl : only_frames a b pl pl.
Proof. done. Qed.

(** The part after the undo entry is written. *)
Lemma update_after_undo_refines pl s t u idt v free i o buf xid ut :
  heap_at pl t idt v free -> u16_ok i -> v !! Z.to_nat i = Some (Some o) -> bytes_ok buf -> u16_ok (zlen buf) ->
  u64_ok xid -> u64_ok (kds_heap_tid_pack ut) -> t <> u ->
  let hdr := TupleHdr xid 0 (kds_heap_tid_pack ut) (zlen buf) 0 0 in
  let '(r, v') :=
    if zlen buf <=? ht_cap o then ((0, Some (Tid idt i)), <[Z.to_nat i := Some (HTuple hdr buf (ht_cap o))]> v)
    else let v' := <[Z.to_nat i := None]> v in
      if KDS_PAGE_SIZE <? zlen buf then ((- EINVAL, None), v') else
      if free <? 33 + zlen buf then ((- ENOSPC, None), v') else
      ((0, Some (Tid idt (zlen v))), v' ++ [Some (HTuple hdr buf (zlen buf))]) in
  exists pl' free', update_after_undo t i (Some buf) (zlen buf) xid ut (wp pl s) = Ret r (wp pl' s) /\
    heap_at pl' t idt v' free' /\ only_frames t u pl pl' /\ frames pl' !! u = frames pl !! u.
Proof.
  intros (f & k & p & Hf & Hl & Hid & Hp & <- & <-) Hi Hv Hb Hn Hx Hu Hne hdr. unfold update_after_undo.
  erewrite bind_ok by (eapply on_frame_same; [exact Hf|by eapply ts_capacity]). cbn beta iota.
  destruct (Z.leb_spec (zlen buf) (ht_cap o)) as [Hc|Hc].
  - destruct (ts_overwrite f k p i o buf xid 0 (kds_heap_tid_pack ut) Hl Hp Hi Hv Hb Hc Hx ltac:(by ok_unfold) Hu)
      as (q & E & Hq & Hqv & Hqn & Hqf).
    erewrite bind_ok by (eapply on_frame_to; [exact Hf|exact E]). cbn [Z.eqb negb].
    erewrite bind_ok by (eapply on_frame_same; [by eapply upd_frame|reflexivity]).
    eexists _, (p_free p). split_and!; [by rewrite <- Hid|by eapply heap_at_upd|..].
    + apply only_frames_upd; [by left|apply only_frames_refl].
    + cbn. by rewrite list_lookup_insert_ne.
  - destruct (ts_retire f k p i o Hl Hp Hi Hv) as (q & E & Hq & Hqv & Hqn & Hqf).
    erewrite bind_ok by (eapply on_frame_to; [exact Hf|exact E]). cbn [Z.eqb negb].
    set (f1 := live_frame f (dirty k) q). pose proof (upd_frame t f1 pl f Hf) as Hf1.
    pose proof (ts_insert f1 (dirty k) q buf xid 0 (kds_heap_tid_pack ut) (frame_live_live _ _ _) Hq Hb Hn Hx ltac:(by ok_unfold) Hu) as H.
    cbn zeta in H. rewrite Hqf in H.
    assert (Hsame : forall r, heap_insert_tuple_ex (Some buf) (zlen buf) xid 0 (kds_heap_tid_pack ut) f1 = Ret (r, None) f1 ->
       exists pl' free', on_frame t (heap_insert_tuple_ex (Some buf) (zlen buf) xid 0 (kds_heap_tid_pack ut)) (wp (upd t f1 pl) s)
         = Ret (r, None) (wp pl' s) /\ heap_at pl' t idt (<[Z.to_nat i := None]> (heap_view p)) free' /\
         only_frames t u pl pl' /\ frames pl' !! u = frames pl !! u).
    { intros r Er. exists (upd t f1 pl), (p_free p). split_and!.
      - eapply on_frame_same; [exact Hf1|exact Er].
      - by eapply heap_at_upd.
      - apply only_frames_upd; [by left|apply only_frames_refl].
      - cbn. by rewrite list_lookup_insert_ne. }
    destruct (KDS_PAGE_SIZE <? zlen buf); [by apply Hsame|]. destruct (p_free p <? 33 + zlen buf); [by apply Hsame|].
    destruct H as (q2 & E2 & Hq2 & Hv2 & Hn2 & Hf2).
    exists (upd t (live_frame f1 (dirty (dirty k)) q2) (upd t f1 pl)), (p_free p - (33 + zlen buf)). split_and!.
    + rewrite (on_frame_to _ _ _ _ _ _ _ Hf1 E2), Hqv. cbn [dirty set_kp_hdr kp_id]. rewrite Hid.
      do 4 f_equal. unfold zlen. by rewrite length_insert.
    + eapply heap_at_upd; [exact Hf1|done|done|by rewrite Hv2, Hqv|done].
    + apply only_frames_upd; [by left|]. apply only_frames_upd; [by left|apply only_frames_refl].
    + cbn. by rewrite !list_lookup_insert_ne.
Qed.

(** Reading the version that is about to be replaced. *)
Lemma prior_version pl s t f k p i o :
  frames pl !! t = Some f -> frame_live f k p -> heap_wf p -> u16_ok i -> heap_view p !! Z.to_nat i = Some (Some o) ->
  exists n data, (data = Some (ht_data o) \/ (data = None /\ ht_data o = [])) /\
  (if 0 <? data_len (ht_hdr o) then
     ok <- alloc_ok ;;
     if negb ok then ret (inl (- ENOMEM)) else
     let* (r, o) := on_frame t (heap_read_tuple i (Some (data_len (ht_hdr o)))) in
     ret (match o with Some (h, b) => inr (h, Some b) | None => inl r end)
   else ret (inr (ht_hdr o, None))) (wp pl s)
  = Ret (if (0 <? data_len (ht_hdr o)) && negb (k_alloc (tick s)) then inl (- ENOMEM) else inr (ht_hdr o, data))
        (wp pl (set_tick n s)).
Proof.
  intros Hf Hl Hp Hi Hv. pose proof (view_live p i o Hp Hi Hv) as (_ & _ & _ & _ & _ & Hz & _).
  destruct (Z.ltb_spec 0 (data_len (ht_hdr o))) as [Hpos|Hneg].
  - exists (S (tick s)), (Some (ht_data o)). split; [by left|]. unfold alloc_ok. rewrite oracle_wp.
    destruct (k_alloc (tick s)); [|done]. cbn [negb andb].
    erewrite bind_ok by (eapply on_frame_same; [exact Hf|by eapply ts_read]). done.
  - exists (tick s), None. split; [right; split; [done|]|].
    + destruct (ht_data o); [done|]. rewrite zlen_cons in Hz. pose proof (zlen_nonneg l). lia.
    + unfold ret. by destruct s.
Qed.

Lemma view_bound p : heap_wf p -> u16_ok (zlen (heap_view p)).
Proof. intros Hp. rewrite zlen_heap_view by done. apply p_meta_ok, Hp. Qed.

Lemma update_refines s pl t u idt idu vt ft vu fu i buf xid oid :
  g_pool s = Some pl -> heap_at pl t idt vt ft -> heap_at pl u idu vu fu -> t <> u ->
  u16_ok i -> bytes_ok buf -> u16_ok (zlen buf) -> u64_ok xid -> 0 <= idu < 2 ^ 48 ->
  let '(r, (vt', vu')) := update_model (k_alloc (tick s)) idt idu vt ft vu fu i buf xid oid in
  exists s' pl' ft' fu', kds_heap_update_tuple t i (Some buf) (zlen buf) xid oid u s = Ret r s' /\
    g_pool s' = Some pl' /\ heap_at pl' t idt vt' ft' /\ heap_at pl' u idu vu' fu' /\
    only_frames t u pl pl' /\ same_globals s s' /\ disk s' = disk s.
Proof.
  intros Hg Ht Hu Hne Hi Hb Hn Hx Hidu. rewrite <- (wp_id s pl Hg). cbn [tick wp set_g_pool].
  pose proof Ht as (f & k & p & Hf & Hl & Hid & Hp & Hvt & Hfr). subst vt ft.
  assert (Hfail : forall (r : Z) n, exists s' pl' ft' fu', Ret (r, @None kds_heap_tid) (wp pl (set_tick n s)) = Ret (r, None) s' /\
    g_pool s' = Some pl' /\ heap_at pl' t idt (heap_view p) ft' /\ heap_at pl' u idu vu fu' /\
    only_frames t u pl pl' /\ same_globals (wp pl s) s' /\ disk s' = disk (wp pl s)).
  { intros r n. exists (wp pl (set_tick n s)), pl, (p_free p), fu. split_and!; done. }
  unfold update_model, kds_heap_update_tuple. erewrite bind_ok by (apply (frame_get_wp t _ pl s f Hf)).
  pose proof Hl as [Hk _]. rewrite Hk, bool_decide_eq_false_2 by done.
  rewrite bool_decide_eq_false_2, andb_false_r by done.
  assert (Hback : wp pl s = wp pl (set_tick (tick s) s)) by (by destruct s).
  pose proof (ts_read_hdr f k p i Hl Hp Hi) as Hr.
  destruct (heap_view p !! Z.to_nat i) as [[o|]|] eqn:Hv;
    erewrite bind_ok by (eapply on_frame_same; [exact Hf|exact Hr]); cbn beta iota.
  2,3: unfold ret; rewrite Hback; apply Hfail.
  destruct (KDS_UNDO_MAX_OLD_DATA <? data_len (ht_hdr o)) eqn:Hbig; [unfold ret; rewrite Hback; apply Hfail|].
  pose proof (view_live p i o Hp Hi Hv) as (_ & _ & Hdo & _ & _ & Hz & _).
  destruct (prior_version pl s t f k p i o Hf Hl Hp Hi Hv) as (n & data & Hdata & E).
  erewrite bind_ok by exact E.
  destruct ((0 <? data_len (ht_hdr o)) && negb (k_alloc (tick s))); [apply Hfail|]. cbn beta iota.
  erewrite bind_ok by (eapply on_frame_same; [exact Hf|unfold kp_get; rewrite Hk; reflexivity]). cbn beta.
  pose proof Hu as (fu0 & ku & pu & Hfu & Hlu & Hidu' & Hpu & Hvu & Hfru). subst vu fu.
  pose proof (undo_write_cases fu0 ku pu oid (Tid (kp_id k) i) (undo_ptr (ht_hdr o)) (xmin (ht_hdr o)) xid
    KDS_UNDO_OP_UPDATE (ht_data o) data xid Hlu Hpu Hdo Hdata Hx) as Hw.
  cbn zeta in Hw. rewrite Hz, Hbig in Hw. destruct (p_free pu <? 340).
  { erewrite bind_ok by (eapply on_frame_same; [exact Hfu|exact Hw]). apply Hfail. }
  destruct Hw as (qu & Ew & Hqu & Hvqu & _ & _).
  erewrite bind_ok by (eapply on_frame_to; [exact Hfu|exact Ew]). cbn beta iota.
  set (fu' := live_frame fu0 (dirty ku) qu).
  pose proof (update_after_undo_refines (upd u fu' pl) (set_tick n s) t u idt (heap_view p) (p_free p) i o buf xid
    (Tid idu (zlen (heap_view pu)))) as H.
  specialize (H ltac:(by apply heap_at_upd_ne) Hi Hv Hb Hn Hx).
  specialize (H ltac:(apply kds_heap_tid_pack_unpack; [done|by apply view_bound]) Hne). cbn zeta in H.
  rewrite Hidu'. fold (undo_entry_of (Tid (kp_id k) i) o xid oid) in Hvqu. rewrite Hid in Hvqu.
  destruct (if zlen buf <=? ht_cap o then _ else _) as [r v'] eqn:Ecase in H.
  destruct H as (pl' & free' & E' & Ht' & Ho & Hfu').
  assert (Hu' : heap_at pl' u idu (heap_view pu ++ [Some (undo_tuple xid (undo_entry_of (Tid idt i) o xid oid))]) (p_free qu)).
  { exists fu', (dirty ku), qu. split_and!; try done. rewrite Hfu'. by eapply upd_frame. }
  assert (Ho' : only_frames t u pl pl').
  { destruct Ho as (? & ? & ? & Ho). split_and!; try done. intros g Hg1 Hg2. rewrite Ho by done.
    cbn. by rewrite list_lookup_insert_ne. }
  destruct (zlen buf <=? ht_cap o); [|destruct (KDS_PAGE_SIZE <? zlen buf); [|destruct (p_free p <? 33 + zlen buf)]];
    injection Ecase as <- <-; eexists _, pl', free', (p_free qu); split_and!; try done; exact E'.
Qed.
End Undo.

(** ** Theorems *)
Section Claims.
Context `{K : Kernel}.

(** An entry written to an undo page can be read back: the page gets
    one more tuple, in the slot that is returned, and reading that slot
    gives every field of the entry and the old payload, zero-padded. *)
Theorem undo_entry_round_trip f k p oid tid prev x0 x1 op d xid :
  frame_live f k p -> heap_wf p -> bytes_ok d -> zlen d <= KDS_UNDO_MAX_OLD_DATA -> 340 <= p_free p ->
  u64_ok xid -> u64_ok oid -> u64_ok (tid_page_id tid) -> u16_ok (tid_slot tid) -> u64_ok prev -> u64_ok x0 ->
  u64_ok x1 -> is_byte op ->
  exists f' slot, kds_undo_write_entry oid tid prev x0 x1 op (Some d) (zlen d) xid f = Ret (0, Some (Tid (kp_id k) slot)) f' /\
    slot = zlen (heap_view p) /\
    kds_undo_read_entry slot f' = Ret (0, Some (UndoEntry oid tid prev x0 x1 op (zlen d) (padded d))) f'.
Proof.
  intros Hf Hp Hd Hl Hfree Hx Hoid Ht1 Ht2 Hpv Hx0 Hx1 Hop.
  pose proof (undo_write_cases f k p oid tid prev x0 x1 op d (Some d) xid Hf Hp Hd (or_introl eq_refl) Hx) as H.
  cbn zeta in H. unfold KDS_UNDO_MAX_OLD_DATA in *. destruct (Z.ltb_spec 256 (zlen d)); [lia|].
  destruct (Z.ltb_spec (p_free p) 340); [lia|]. destruct H as (q & E & Hq & Hv & _).
  destruct (padded_ok d Hd Hl) as [Hpl Hpo]. pose proof (zlen_nonneg d). pose proof (view_bound p Hp) as Hi.
  eexists _, _. split; [exact E|]. split; [done|].
  eapply (undo_read_entry_at _ _ q _ xid); [apply frame_live_live|done|done| |].
  - destruct tid. split_and!; try done; ok_unfold; cbn; lia.
  - rewrite Hv. unfold zlen. by rewrite Nat2Z.id, lookup_app_r, Nat.sub_diag by lia.
Qed.

(** C7.  [kds_heap_update_tuple] refines [update_model] on two cached heap
    pages: for every state of the pages, every new payload and every answer
    of the allocator it returns the model's result and leaves the two pages
    with the model's tuples, well-formed, and everything else in the pool,
    the device and the other globals as it was. *)
Theorem update_refines_model s pl t u idt idu vt ft vu fu i buf xid oid :
  g_pool s = Some pl -> heap_at pl t idt vt ft -> heap_at pl u idu vu fu -> t <> u ->
  u16_ok i -> bytes_ok buf -> u16_ok (zlen buf) -> u64_ok xid -> 0 <= idu < 2 ^ 48 ->
  let '(r, (vt', vu')) := update_model (k_alloc (tick s)) idt idu vt ft vu fu i buf xid oid in
  exists s' pl' ft' fu', kds_heap_update_tuple t i (Some buf) (zlen buf) xid oid u s = Ret r s' /\
    g_pool s' = Some pl' /\ heap_at pl' t idt vt' ft' /\ heap_at pl' u idu vu' fu' /\
    only_frames t u pl pl' /\ same_globals s s' /\ disk s' = disk s.
Proof. apply update_refines. Qed.

(** When the new payload fits neither into the old slot nor into the
    free space of the page, the update reports [-ENOSPC] but the old slot
    is already retired: the row is gone from the page. *)
Theorem update_enospc_loses_row s pl t u idt idu vt ft vu fu i o buf xid oid :
  g_pool s = Some pl -> heap_at pl t idt vt ft -> heap_at pl u idu vu fu -> t <> u ->
  u16_ok i -> bytes_ok buf -> u64_ok xid -> 0 <= idu < 2 ^ 48 ->
  vt !! Z.to_nat i = Some (Some o) -> data_len (ht_hdr o) <= KDS_UNDO_MAX_OLD_DATA ->
  k_alloc (tick s) = true -> 340 <= fu -> ht_cap o < zlen buf <= KDS_PAGE_SIZE -> ft < 33 + zlen buf ->
  exists s' pl' ft', kds_heap_update_tuple t i (Some buf) (zlen buf) xid oid u s = Ret (- ENOSPC, None) s' /\
    g_pool s' = Some pl' /\ heap_at pl' t idt (<[Z.to_nat i := None]> vt) ft'.
Proof.
  intros Hg Ht Hu Hne Hi Hb Hx Hidu Hv Hlen Hmem Hfu [Hcap Hn] Hft. pose proof (zlen_nonneg buf).
  pose proof (update_refines s pl t u idt idu vt ft vu fu i buf xid oid Hg Ht Hu Hne Hi Hb) as H'.
  specialize (H' ltac:(unfold KDS_PAGE_SIZE in Hn; ok_unfold; lia) Hx Hidu).
  unfold update_model in H'. rewrite Hv, Hmem, andb_false_r in H'.
  destruct (Z.ltb_spec KDS_UNDO_MAX_OLD_DATA (data_len (ht_hdr o))); [lia|]. destruct (Z.ltb_spec fu 340); [lia|].
  destruct (Z.leb_spec (zlen buf) (ht_cap o)); [lia|]. destruct (Z.ltb_spec KDS_PAGE_SIZE (zlen buf)); [lia|].
  destruct (Z.ltb_spec ft (33 + zlen buf)); [|lia].
  destruct H' as (s' & pl' & ft' & fu' & E & Hg' & Ht' & _). by exists s', pl', ft'.
Qed.

(** The versions reachable from an undo pointer, newest first, on the undo
    page [uid] with tuples [vu]. *)
Inductive chain (uid : Z) (vu : list (option htuple)) : Z -> list kds_undo_entry -> Prop :=
  | chain_end : chain uid vu 0 []
  | chain_step ptr sl tu e l :
      ptr <> 0 -> kds_heap_tid_unpack ptr = Tid uid sl -> vu !! Z.to_nat sl = Some (Some tu) ->
      undo_entry_dec (ht_data tu) = e -> chain uid vu (prev_undo_ptr e) l -> chain uid vu ptr (e :: l).

Lemma chain_grows uid vu x ptr l : chain uid vu ptr l -> chain uid (vu ++ x) ptr l.
Proof.
  induction 1 as [|ptr sl tu e l Hp Hu Hv He _ IH]; [constructor|].
  econstructor; try done. by apply lookup_app_l_Some.
Qed.
Lemma heap_at_tuple pl fid id v free i o :
  heap_at pl fid id v free -> u16_ok i -> v !! Z.to_nat i = Some (Some o) ->
  tuple_hdr_ok (ht_hdr o) /\ bytes_ok (ht_data o) /\ zlen (ht_data o) = data_len (ht_hdr o).
Proof.
  intros (f & k & p & _ & _ & _ & Hp & <- & _) Hi Hv.
  by pose proof (view_live p i o Hp Hi Hv) as (_ & ? & ? & _ & _ & ? & _).
Qed.
Lemma undo_entry_of_ok idt i o xid oid :
  tuple_hdr_ok (ht_hdr o) -> bytes_ok (ht_data o) -> zlen (ht_data o) = data_len (ht_hdr o) ->
  data_len (ht_hdr o) <= 256 -> u64_ok idt -> u16_ok i -> u64_ok xid -> u64_ok oid ->
  entry_ok (undo_entry_of (Tid idt i) o xid oid).
Proof.
  intros (? & ? & ? & ? & ? & ?) Hd Hz Hl Hid Hi Hx Ho. destruct (padded_ok (ht_data o) Hd ltac:(lia)) as [Hpl Hpo].
  split_and!; try done; ok_unfold; cbn; lia.
Qed.
Lemma pack_nonzero uid sl : 0 < uid < 2 ^ 48 -> u16_ok sl -> kds_heap_tid_pack (Tid uid sl) <> 0.
Proof.
  intros Hu Hs E. destruct (kds_heap_tid_pack_unpack uid sl ltac:(lia) Hs) as [H _]. rewrite E in H.
  apply (f_equal tid_page_id) in H. change (0 = uid) in H. lia.
Qed.

(** The entry that an update appends continues the chain of the old version. *)
Lemma chain_update uid vu ptr l xid e :
  0 < uid < 2 ^ 48 -> u16_ok (zlen vu) -> entry_ok e -> prev_undo_ptr e = ptr -> chain uid vu ptr l ->
  chain uid (vu ++ [Some (undo_tuple xid e)]) (kds_heap_tid_pack (Tid uid (zlen vu))) (e :: l).
Proof.
  intros Hu Hz He Hp Hc. apply chain_step with (sl := zlen vu) (tu := undo_tuple xid e).
  - by apply pack_nonzero.
  - apply kds_heap_tid_pack_unpack; [lia|done].
  - unfold zlen. rewrite Nat2Z.id, lookup_app_r, Nat.sub_diag by lia. done.
  - by apply undo_entry_dec_enc.
  - rewrite Hp. by apply chain_grows.
Qed.

(** C27.  A successful update keeps the history: the new version, at the
    address that is returned, holds the new payload, and following its undo
    pointer gives the old version, with its payload, and then every version
    that was reachable from the old one. *)
Theorem update_keeps_history s pl t u idt idu vt ft vu fu i o buf xid oid l j s' :
  g_pool s = Some pl -> heap_at pl t idt vt ft -> heap_at pl u idu vu fu -> t <> u ->
  u16_ok i -> bytes_ok buf -> u16_ok (zlen buf) -> u64_ok xid -> u64_ok oid -> u64_ok idt -> 0 < idu < 2 ^ 48 ->
  vt !! Z.to_nat i = Some (Some o) -> chain idu vu (undo_ptr (ht_hdr o)) l ->
  kds_heap_update_tuple t i (Some buf) (zlen buf) xid oid u s = Ret (0, Some (Tid idt j)) s' ->
  exists pl' vt' ft' vu' fu' nt, g_pool s' = Some pl' /\ heap_at pl' t idt vt' ft' /\ heap_at pl' u idu vu' fu' /\
    vt' !! Z.to_nat j = Some (Some nt) /\ ht_data nt = buf /\ xmin (ht_hdr nt) = xid /\
    chain idu vu' (undo_ptr (ht_hdr nt)) (undo_entry_of (Tid idt i) o xid oid :: l).
Proof.
  intros Hg Ht Hu Hne Hi Hb Hn Hx Hoid Hidt Hidu Hv Hc E.
  pose proof (update_refines s pl t u idt idu vt ft vu fu i buf xid oid Hg Ht Hu Hne Hi Hb Hn Hx ltac:(lia)) as H.
  destruct (heap_at_tuple _ _ _ _ _ _ _ Ht Hi Hv) as (Hoh & Hod & Hoz).
  assert (Hvu : u16_ok (zlen vu)) by (destruct Hu as (? & ? & p & _ & _ & _ & Hp & <- & _); by apply view_bound).
  unfold update_model in H. rewrite Hv in H.
  repeat case_match; simplify_eq; destruct H as (s1 & pl' & ft' & fu' & E1 & Hg' & Ht' & Hu' & _); rewrite E in E1;
    apply Ret_inj in E1 as [E1 <-]; apply (f_equal snd) in E1; cbn [snd] in E1; try discriminate E1.
  all: assert (He : entry_ok (undo_entry_of (Tid idt i) o xid oid))
         by (apply undo_entry_of_ok; try done; unfold KDS_UNDO_MAX_OLD_DATA in *; lia).
  all: pose proof (chain_update idu vu (undo_ptr (ht_hdr o)) l xid _ Hidu Hvu He eq_refl Hc) as Hch.
  all: apply (inj Some), (f_equal tid_slot) in E1; cbn [tid_slot] in E1; subst j.
  - eexists pl', _, ft', _, fu', _. split_and!; [done|exact Ht'|exact Hu'|apply list_lookup_insert_eq; by apply lookup_lt_Some in Hv|done|done|exact Hch].
  - eexists pl', _, ft', _, fu', (HTuple (TupleHdr xid 0 (kds_heap_tid_pack (Tid idu (zlen vu))) (zlen buf) 0 0) buf (zlen buf)).
    split_and!; [done|exact Ht'|exact Hu'| |reflexivity|reflexivity|exact Hch].
    unfold zlen. rewrite Nat2Z.id, lookup_app_r, length_insert, Nat.sub_diag by (rewrite length_insert; lia). reflexivity.
Qed.
End Claims.

(** ** Concrete instances *)
#[local] Existing Instance quiet_kernel.
Definition undo_kp : kds_page := Kpage 9 (PageHdr 5 0 1 (zeros 32)) 1.
Definition undo_pool : kds_buf_pool :=
  BufPool [live_frame demo_frame demo_kp one_page; live_frame demo_frame undo_kp empty_page] ∅ [] 0.
Definition undo_state : kds_state := set_g_pool (Some undo_pool) demo_state.
#[local] Opaque empty_page one_page.
Lemma undo_pool_ok :
  heap_at undo_pool 0 7 [Some demo_tuple] 8099 /\ heap_at undo_pool 1 9 [] 8135.
Proof.
  destruct one_page_ok as (Hw & Hv & _). destruct empty_page_ok as (Hw' & Hv' & Hm').
  split; eexists _, _, _; (split; [reflexivity|]); (split; [apply frame_live_live|]); split_and!; try done.
Qed.
Ltac demo_undo := first
  [ exact (proj1 undo_pool_ok) | exact (proj2 undo_pool_ok) | reflexivity | apply demo_bytes_ok; reflexivity
  | lazymatch goal with |- _ <> _ => lia end
  | apply bytes_ok_zeros | unfold zlen, u16_ok, u64_ok; simpl length; lia ].

Lemma undo_entry_round_trip_witness :
  exists f' slot, kds_undo_write_entry 4 (Tid 7 0) 0 5 6 1 (Some [1; 2; 3]) 3 6 (live_frame demo_frame undo_kp empty_page)
      = Ret (0, Some (Tid 9 slot)) f' /\ slot = zlen (heap_view empty_page) /\
    kds_undo_read_entry slot f' = Ret (0, Some (UndoEntry 4 (Tid 7 0) 0 5 6 1 3 (padded [1; 2; 3]))) f'.
Proof.
  destruct empty_page_ok as (Hw & _ & Hm).
  apply (undo_entry_round_trip (live_frame demo_frame undo_kp empty_page) undo_kp empty_page 4 (Tid 7 0) 0 5 6 1 [1; 2; 3] 6);
    [apply frame_live_live|exact Hw|by apply demo_bytes_ok|cbn; discriminate|unfold p_free; rewrite Hm; cbn; lia|..];
    unfold u64_ok, u16_ok, is_byte; cbn; lia.
Defined.
Lemma update_refines_model_witness :
  exists s' pl' ft' fu', kds_heap_update_tuple 0 0 (Some [7; 7]) 2 6 4 1 undo_state = Ret (0, Some (Tid 7 0)) s' /\
    g_pool s' = Some pl' /\ heap_at pl' 0 7 [Some (HTuple (TupleHdr 6 0 9 2 0 0) [7; 7] 3)] ft' /\
    heap_at pl' 1 9 [Some (undo_tuple 6 (undo_entry_of (Tid 7 0) demo_tuple 6 4))] fu'.
Proof.
  pose proof (update_refines_model undo_state undo_pool 0 1 7 9 [Some demo_tuple] 8099 [] 8135 0 [7; 7] 6 4) as H.
  destruct H as (s' & pl' & ft' & fu' & E & Hg & H1 & H2 & _); [demo_undo..|].
  exists s', pl', ft', fu'. auto.
Defined.
Lemma update_enospc_loses_row_witness :
  exists s' pl' ft', kds_heap_update_tuple 0 0 (Some (zeros 8100)) 8100 6 4 1 undo_state = Ret (- ENOSPC, None) s' /\
    g_pool s' = Some pl' /\ heap_at pl' 0 7 [None] ft'.
Proof.
  apply (update_enospc_loses_row undo_state undo_pool 0 1 7 9 [Some demo_tuple] 8099 [] 8135 0 demo_tuple (zeros 8100) 6 4);
    try demo_undo; rewrite ?zlen_zeros; unfold KDS_PAGE_SIZE, KDS_UNDO_MAX_OLD_DATA; cbn; lia.
Defined.
Lemma update_keeps_history_witness :
  exists s' pl' vt' ft' vu' fu' nt, kds_heap_update_tuple 0 0 (Some [7; 7]) 2 6 4 1 undo_state = Ret (0, Some (Tid 7 0)) s' /\
    g_pool s' = Some pl' /\ heap_at pl' 0 7 vt' ft' /\ heap_at pl' 1 9 vu' fu' /\ vt' !! 0%nat = Some (Some nt) /\
    ht_data nt = [7; 7] /\ chain 9 vu' (undo_ptr (ht_hdr nt)) [undo_entry_of (Tid 7 0) demo_tuple 6 4].
Proof.
  pose proof (update_refines undo_state undo_pool 0 1 7 9 [Some demo_tuple] 8099 [] 8135 0 [7; 7] 6 4) as H.
  destruct H as (s' & _ & _ & _ & E & _); [demo_undo..|].
  destruct (update_keeps_history undo_state undo_pool 0 1 7 9 [Some demo_tuple] 8099 [] 8135 0 demo_tuple [7; 7] 6 4 [] 0 s')
    as (pl' & vt' & ft' & vu' & fu' & nt & H1 & H2 & H3 & H4 & H5 & _ & H6);
    [demo_undo|demo_undo|demo_undo|demo_undo|demo_undo|demo_undo|demo_undo|demo_undo|demo_undo|demo_undo|lia|reflexivity
    |apply chain_end|exact E|].
  exists s', pl', vt', ft', vu', fu', nt. auto 10.
Defined.
