(* ===== verification/Proc.v ===== *)
(** * Proc: the cooperative scheduler (kernel/kds/proc.c, kds_proc.h)

    Processes are shared objects, found by address in [procs]; the per-CPU
    run queues hold addresses.  A list is the sequence of its entries and
    the red-black tree of sessions is its in-order sequence.

    An operation that other CPUs can interrupt is a [prog]: a sequence of
    sections, each atomic because it is done under one run queue lock, or
    because it is one unlocked access to shared data.  [alone] runs it
    without interruption; ProcSpec.v interleaves it.  A scheduling round has
    two critical sections, [schedule_begin] (a choice and its commitment)
    and [schedule_end], with the callback of the process in between.

    The possible CPUs, the set of online CPUs and the callbacks are
    parameters. *)
From S2P Require Import Prelude Layout.
From stdpp Require Import prelude gmap list sets.
From Stdlib Require Import ZArith Lia.
Local Open Scope Z_scope.
Local Open Scope kds_scope.

(** ** Data *)
Inductive kds_proc_kind := KDS_PROC_SYSTEM | KDS_PROC_SESSION.
Inductive kds_proc_state := KDS_PROC_STATE_READY | KDS_PROC_STATE_RUN | KDS_PROC_STATE_WAIT | KDS_PROC_STATE_DONE.
Inductive kds_proc_result := KDS_PROC_DONE_RET | KDS_PROC_YIELD_RET | KDS_PROC_WAIT_RET | KDS_PROC_CONTINUE | KDS_PROC_ERR_RET.
#[export] Instance kds_proc_kind_eq_dec : EqDecision kds_proc_kind.
Proof. solve_decision. Defined.

Abbreviation cpumask := (gset Z).
Abbreviation proc_ptr := nat.
Definition UINT_MAX : Z := 2 ^ 32 - 1.
Definition INT_MIN : Z := - 2 ^ 31.
Definition s32 (z : Z) : Z := to_signed 32 z.
Definition KDS_LOAD_BALANCE_THRESHOLD : Z := 2.

(** [has_run]: the [run] pointer is set.  [node_init]: [list_node] was
    linked or initialised at least once. *)
Record kds_proc := Proc {
  pid : Z; kind : kds_proc_kind; p_state : kds_proc_state; static_prio : Z; dynamic_prio : Z;
  last_run_ns : Z; p_total_runtime_ns : Z; wait_time_ns : Z;
  p_cpu : Z; preferred_cpu : Z; allowed_cpus : cpumask; running : bool;
  has_run : bool; node_init : bool }.
Record kds_runqueue := Runqueue {
  system_procs : list proc_ptr; session_procs : list proc_ptr; curr_proc : option proc_ptr;
  rq_total_runtime_ns : Z; nr_running : Z }.
Record kds_sched_stats := SchedStats { total_schedules : Z; load_balances : Z; migrations : Z }.
Record sched := Sched {
  procs : gmap proc_ptr kds_proc; kds_runqueues : gmap Z kds_runqueue; kds_next_pid : Z;
  kds_stats : kds_sched_stats; s_tick : nat }.

Definition set_procs (x : gmap proc_ptr kds_proc) (s : sched) : sched :=
  Sched x (kds_runqueues s) (kds_next_pid s) (kds_stats s) (s_tick s).
Definition set_runqueues (x : gmap Z kds_runqueue) (s : sched) : sched :=
  Sched (procs s) x (kds_next_pid s) (kds_stats s) (s_tick s).
Definition set_next_pid (x : Z) (s : sched) : sched :=
  Sched (procs s) (kds_runqueues s) x (kds_stats s) (s_tick s).
Definition set_stats (x : kds_sched_stats) (s : sched) : sched :=
  Sched (procs s) (kds_runqueues s) (kds_next_pid s) x (s_tick s).
Definition set_s_tick (x : nat) (s : sched) : sched :=
  Sched (procs s) (kds_runqueues s) (kds_next_pid s) (kds_stats s) x.

Definition set_p_running (x : bool) (p : kds_proc) : kds_proc :=
  Proc (pid p) (kind p) (p_state p) (static_prio p) (dynamic_prio p) (last_run_ns p) (p_total_runtime_ns p)
    (wait_time_ns p) (p_cpu p) (preferred_cpu p) (allowed_cpus p) x (has_run p) (node_init p).
Definition set_p_state (x : kds_proc_state) (p : kds_proc) : kds_proc :=
  Proc (pid p) (kind p) x (static_prio p) (dynamic_prio p) (last_run_ns p) (p_total_runtime_ns p)
    (wait_time_ns p) (p_cpu p) (preferred_cpu p) (allowed_cpus p) (running p) (has_run p) (node_init p).
Definition set_p_cpu (x : Z) (p : kds_proc) : kds_proc :=
  Proc (pid p) (kind p) (p_state p) (static_prio p) (dynamic_prio p) (last_run_ns p) (p_total_runtime_ns p)
    (wait_time_ns p) x (preferred_cpu p) (allowed_cpus p) (running p) (has_run p) (node_init p).
Definition set_preferred_cpu (x : Z) (p : kds_proc) : kds_proc :=
  Proc (pid p) (kind p) (p_state p) (static_prio p) (dynamic_prio p) (last_run_ns p) (p_total_runtime_ns p)
    (wait_time_ns p) (p_cpu p) x (allowed_cpus p) (running p) (has_run p) (node_init p).
Definition set_allowed (x : cpumask) (p : kds_proc) : kds_proc :=
  Proc (pid p) (kind p) (p_state p) (static_prio p) (dynamic_prio p) (last_run_ns p) (p_total_runtime_ns p)
    (wait_time_ns p) (p_cpu p) (preferred_cpu p) x (running p) (has_run p) (node_init p).
Definition set_node_init (p : kds_proc) : kds_proc :=
  Proc (pid p) (kind p) (p_state p) (static_prio p) (dynamic_prio p) (last_run_ns p) (p_total_runtime_ns p)
    (wait_time_ns p) (p_cpu p) (preferred_cpu p) (allowed_cpus p) (running p) (has_run p) true.

Definition set_system (x : list proc_ptr) (r : kds_runqueue) : kds_runqueue :=
  Runqueue x (session_procs r) (curr_proc r) (rq_total_runtime_ns r) (nr_running r).
Definition set_session (x : list proc_ptr) (r : kds_runqueue) : kds_runqueue :=
  Runqueue (system_procs r) x (curr_proc r) (rq_total_runtime_ns r) (nr_running r).
Definition set_curr (x : option proc_ptr) (r : kds_runqueue) : kds_runqueue :=
  Runqueue (system_procs r) (session_procs r) x (rq_total_runtime_ns r) (nr_running r).
Definition add_rq_runtime (x : Z) (r : kds_runqueue) : kds_runqueue :=
  Runqueue (system_procs r) (session_procs r) (curr_proc r) (u64 (rq_total_runtime_ns r + x)) (nr_running r).
Definition add_nr_running (d : Z) (r : kds_runqueue) : kds_runqueue :=
  Runqueue (system_procs r) (session_procs r) (curr_proc r) (rq_total_runtime_ns r) (u32 (nr_running r + d)).

(** ** Operations in sections *)
(** [on] is the process that the operation is handling when it is about to
    do the section, [lock] the CPU whose run queue lock it owns in it, and
    [kept] says that it has owned the lock since its previous section. *)
Inductive prog (A : Type) : Type :=
  | Done (a : A)
  | Sec {B : Type} (on : option proc_ptr) (lock : option Z) (kept : bool) (m : M sched B) (k : B -> prog A).
Arguments Done {A} a.
Arguments Sec {A B} on lock kept m k.
Fixpoint pbind {A B} (c : prog A) (f : A -> prog B) : prog B :=
  match c with
  | Done a => f a
  | Sec on lock kept m k => Sec on lock kept m (fun b => pbind (k b) f)
  end.
Fixpoint alone {A} (c : prog A) : M sched A :=
  match c with
  | Done a => ret a
  | Sec _ _ _ m k => b <- m ;; alone (k b)
  end.
Definition unlocked {A} (on : option proc_ptr) (m : M sched A) : prog A := Sec on None false m Done.
Definition locked {A} (on : option proc_ptr) (cpu : Z) (m : M sched A) : prog A := Sec on (Some cpu) false m Done.
Definition still_locked {A} (on : option proc_ptr) (cpu : Z) (m : M sched A) : prog A := Sec on (Some cpu) true m Done.
Notation "x <~ c ;;; k" := (pbind c (fun x => k)) (at level 100, c at next level, right associativity) : kds_scope.
Notation "c ;;; k" := (pbind c (fun _ => k)) (at level 100, right associativity) : kds_scope.

(** ** The machine *)
Class Machine := {
  nr_cpu_ids : nat;
  cpu_online_mask : cpumask;
  m_ns : nat -> Z }.

Section Sched.
Context `{Mc : Machine}.

Definition cpu_possible : list Z := map Z.of_nat (seq 0 nr_cpu_ids).
(** The CPUs of a mask, in increasing order. *)
Definition for_each_cpu (m : cpumask) : list Z := filter (fun c => c ∈ m) cpu_possible.
Definition cpumask_first (m : cpumask) : Z :=
  match for_each_cpu m with c :: _ => c | [] => Z.of_nat nr_cpu_ids end.
Definition num_online_cpus : Z := zlen (for_each_cpu cpu_online_mask).
Definition ktime_get_ns : M sched Z := fun s => Ret (m_ns (s_tick s)) (set_s_tick (S (s_tick s)) s).

(** ** Access: a pointer or a CPU number that does not exist faults *)
Definition proc_get (p : proc_ptr) : M sched kds_proc := fun s =>
  match procs s !! p with Some x => Ret x s | None => Halt Fault s end.
Definition proc_mod (p : proc_ptr) (f : kds_proc -> kds_proc) : M sched unit := fun s =>
  match procs s !! p with Some x => Ret tt (set_procs (<[p := f x]> (procs s)) s) | None => Halt Fault s end.
Definition rq_get (cpu : Z) : M sched kds_runqueue := fun s =>
  match kds_runqueues s !! cpu with Some x => Ret x s | None => Halt Fault s end.
Definition rq_mod (cpu : Z) (f : kds_runqueue -> kds_runqueue) : M sched unit := fun s =>
  match kds_runqueues s !! cpu with
  | Some x => Ret tt (set_runqueues (<[cpu := f x]> (kds_runqueues s)) s)
  | None => Halt Fault s
  end.
Definition stats_mod (f : kds_sched_stats -> kds_sched_stats) : M sched unit := modify (fun s => set_stats (f (kds_stats s)) s).

(** ** Initialisation *)
Definition empty_rq : kds_runqueue := Runqueue [] [] None 0 0.
Definition kds_sched_init : M sched Z :=
  modify (fun s => set_runqueues (list_to_map (map (fun c => (c, empty_rq)) cpu_possible)) s) ;;
  stats_mod (fun _ => SchedStats 0 0 0) ;;
  ret 0.

(** ** Priorities and queues *)
Definition kds_calc_dynamic_prio (p : kds_proc) : Z := dynamic_prio p.

(** Below equal priorities, above greater ones. *)
Fixpoint session_place (ps : gmap proc_ptr kds_proc) (prio : Z) (p : proc_ptr) (l : list proc_ptr) : list proc_ptr :=
  match l with
  | [] => [p]
  | q :: r => if prio <? default 0 (static_prio <$> ps !! q) then p :: q :: r else q :: session_place ps prio p r
  end.
Definition kds_session_rb_insert (cpu : Z) (p : proc_ptr) : M sched unit :=
  x <- proc_get p ;;
  ps <- gets procs ;;
  rq_mod cpu (fun r => set_session (session_place ps (static_prio x) p (session_procs r)) r).
Definition kds_session_rb_remove (cpu : Z) (p : proc_ptr) : M sched unit :=
  r <- rq_get cpu ;;
  if decide (p ∈ session_procs r)
  then rq_mod cpu (fun r => set_session (filter (fun q => q <> p) (session_procs r)) r)
  else halt_with Fault.

Definition list_add_tail (cpu : Z) (p : proc_ptr) : M sched unit :=
  rq_mod cpu (fun r => set_system (system_procs r ++ [p]) r) ;;
  proc_mod p set_node_init.
(** Unlinks the node from the list it is on. *)
Definition list_del_init (p : proc_ptr) : M sched unit :=
  x <- proc_get p ;;
  if node_init x
  then modify (fun s => set_runqueues ((fun r => set_system (filter (fun q => q <> p) (system_procs r)) r) <$> kds_runqueues s) s)
  else halt_with Fault.

(** The two branches on the kind of a process. *)
Definition enqueue (cpu : Z) (p : proc_ptr) : M sched unit :=
  x <- proc_get p ;;
  (if decide (kind x = KDS_PROC_SYSTEM) then list_add_tail cpu p else kds_session_rb_insert cpu p) ;;
  rq_mod cpu (add_nr_running 1).
Definition dequeue (cpu : Z) (p : proc_ptr) : M sched unit :=
  x <- proc_get p ;;
  (if decide (kind x = KDS_PROC_SYSTEM) then list_del_init p else kds_session_rb_remove cpu p) ;;
  rq_mod cpu (add_nr_running (-1)).

(** ** CPU selection *)
(** The loads are read without a lock, one queue at a time. *)
Fixpoint least_loaded (p : proc_ptr) (cpus : list Z) (min_load best_cpu : Z) : prog Z :=
  match cpus with
  | [] => Done best_cpu
  | cpu :: cpus =>
      r <~ unlocked (Some p) (rq_get cpu) ;;;
      if nr_running r <? min_load then least_loaded p cpus (nr_running r) cpu
      else least_loaded p cpus min_load best_cpu
  end.
Definition kds_select_cpu (p : proc_ptr) : prog Z :=
  x <~ unlocked (Some p) (proc_get p) ;;;
  let scan := best <~ least_loaded p (for_each_cpu (allowed_cpus x)) UINT_MAX (-1) ;;;
              Done (if 0 <=? best then best else cpumask_first (allowed_cpus x)) in
  if (0 <=? preferred_cpu x) && bool_decide (preferred_cpu x ∈ allowed_cpus x) then
    r <~ unlocked (Some p) (rq_get (preferred_cpu x)) ;;;
    if nr_running r <? UINT_MAX then Done (preferred_cpu x) else scan
  else scan.

(** ** Registration *)
Definition fresh_proc (new_pid : Z) (p : kds_proc) : kds_proc :=
  Proc new_pid (kind p) KDS_PROC_STATE_READY (static_prio p) (dynamic_prio p) 0 0 0
    (p_cpu p) (preferred_cpu p)
    (if decide (allowed_cpus p = ∅) then cpu_online_mask else allowed_cpus p) false (has_run p) (node_init p).
(** Whether the process may be registered; if so its fields are set. *)
Definition register_prepare (p : proc_ptr) : M sched bool :=
  x <- proc_get p ;;
  if negb (has_run x) then ret false else
  new_pid <- gets kds_next_pid ;;
  modify (set_next_pid (u64 (new_pid + 1))) ;;
  proc_mod p (fresh_proc new_pid) ;;
  ret true.
Definition kds_proc_register (proc : option proc_ptr) : prog Z :=
  match proc with
  | None => Done (- EINVAL)
  | Some p =>
      ok <~ unlocked (Some p) (register_prepare p) ;;;
      if negb ok then Done (- EINVAL) else
      cpu <~ kds_select_cpu p ;;;
      unlocked (Some p) (proc_mod p (fun x => set_preferred_cpu cpu (set_p_cpu cpu x))) ;;;
      locked (Some p) cpu (enqueue cpu p) ;;;
      Done 0
  end.
(** The queue is found before its lock is taken. *)
Definition read_cpu (p : proc_ptr) : M sched Z := x <- proc_get p ;; ret (p_cpu x).
Definition kds_proc_unregister (p : proc_ptr) : prog unit :=
  cpu <~ unlocked (Some p) (read_cpu p) ;;;
  locked (Some p) cpu (dequeue cpu p).

(** ** Affinity *)
Definition kds_proc_set_affinity (proc : option proc_ptr) (mask : cpumask) : prog Z :=
  match proc with
  | None => Done (- EINVAL)
  | Some p =>
      if decide (mask = ∅) then Done (- EINVAL) else
      old_cpu <~ unlocked (Some p) (read_cpu p) ;;;
      if decide (old_cpu ∈ mask) then unlocked (Some p) (proc_mod p (set_allowed mask)) ;;; Done 0 else
      locked (Some p) old_cpu (dequeue old_cpu p) ;;;
      unlocked (Some p) (proc_mod p (set_allowed mask)) ;;;
      new_cpu <~ kds_select_cpu p ;;;
      unlocked (Some p) (proc_mod p (set_p_cpu new_cpu)) ;;;
      locked (Some p) new_cpu (enqueue new_cpu p) ;;;
      unlocked None (stats_mod (fun t => SchedStats (total_schedules t) (load_balances t) (u64 (migrations t + 1)))) ;;;
      Done 0
  end.

(** ** Scheduling *)
(** A proc that ran is charged, the others age and gain priority. *)
Definition charged (elapsed_ns : Z) (p : kds_proc) : kds_proc :=
  Proc (pid p) (kind p) (p_state p) (static_prio p) (dynamic_prio p) elapsed_ns
    (u64 (p_total_runtime_ns p + elapsed_ns)) 0 (p_cpu p) (preferred_cpu p) (allowed_cpus p) (running p)
    (has_run p) (node_init p).
Definition aged (elapsed_ns : Z) (p : kds_proc) : kds_proc :=
  Proc (pid p) (kind p) (p_state p) (static_prio p) (s32 (dynamic_prio p + 1)) (last_run_ns p)
    (p_total_runtime_ns p) (u64 (wait_time_ns p + elapsed_ns)) (p_cpu p) (preferred_cpu p) (allowed_cpus p)
    (running p) (has_run p) (node_init p).
Fixpoint update_waits (l : list proc_ptr) (elapsed_ns exec_pid : Z) : M sched unit :=
  match l with
  | [] => ret tt
  | p :: l =>
      proc_mod p (fun x => if pid x =? exec_pid then charged elapsed_ns x else aged elapsed_ns x) ;;
      update_waits l elapsed_ns exec_pid
  end.
Definition kds_update_wait_time (cpu elapsed_ns : Z) (executed : proc_ptr) : M sched unit :=
  x <- proc_get executed ;;
  r <- rq_get cpu ;;
  update_waits (system_procs r) elapsed_ns (pid x).

Fixpoint pick_best (l : list proc_ptr) (best_prio : Z) (best : option proc_ptr) : M sched (option proc_ptr) :=
  match l with
  | [] => ret best
  | p :: l =>
      x <- proc_get p ;;
      if running x then pick_best l best_prio best else
      if best_prio <? kds_calc_dynamic_prio x then pick_best l (kds_calc_dynamic_prio x) (Some p)
      else pick_best l best_prio best
  end.
(** The chosen process and whether it was chosen on the fast path. *)
Definition schedule_choose (cpu : Z) : M sched (option (proc_ptr * bool)) :=
  r <- rq_get cpu ;;
  fast_path <- (if nr_running r <? num_online_cpus then
                  match curr_proc r with
                  | None => ret false
                  | Some c => x <- proc_get c ;; ret (negb (running x))
                  end
                else ret false) ;;
  best <- (if fast_path : bool then ret (curr_proc r) else pick_best (system_procs r) INT_MIN None) ;;
  ret ((fun p => (p, fast_path)) <$> best).
Definition schedule_commit (cpu : Z) (best : option (proc_ptr * bool)) : M sched unit :=
  match best with
  | None => ret tt
  | Some (p, _) =>
      proc_mod p (set_p_running true) ;;
      proc_mod p (set_p_state KDS_PROC_STATE_RUN) ;;
      rq_mod cpu (set_curr (Some p))
  end.
(** Up to the release of the lock. *)
Definition schedule_begin (cpu : Z) : M sched (option (proc_ptr * bool)) :=
  best <- schedule_choose cpu ;; schedule_commit cpu best ;; ret best.
Definition schedule_end (cpu : Z) (best : proc_ptr) (fast_path : bool) (elapsed_ns : Z) : M sched unit :=
  kds_update_wait_time cpu elapsed_ns best ;;
  rq_mod cpu (add_rq_runtime elapsed_ns) ;;
  proc_mod best (set_p_running false) ;;
  (if negb fast_path then rq_mod cpu (set_curr None) else ret tt) ;;
  stats_mod (fun t => SchedStats (u64 (total_schedules t + 1)) (load_balances t) (migrations t)).
(** The result of the callback is not used. *)
Definition kds_proc_schedule (run : proc_ptr -> Z -> M sched kds_proc_result) (cpu slice_ns : Z) : M sched unit :=
  best <- schedule_begin cpu ;;
  match best with
  | None => ret tt
  | Some (p, fast_path) =>
      start_ns <- ktime_get_ns ;;
      run p slice_ns ;;
      now_ns <- ktime_get_ns ;;
      schedule_end cpu p fast_path (u64 (now_ns - start_ns))
  end.
Fixpoint schedule_each (run : proc_ptr -> Z -> M sched kds_proc_result) (cpus : list Z) (slice_ns : Z) : M sched unit :=
  match cpus with
  | [] => ret tt
  | cpu :: cpus => kds_proc_schedule run cpu slice_ns ;; schedule_each run cpus slice_ns
  end.
Definition kds_proc_schedule_all (run : proc_ptr -> Z -> M sched kds_proc_result) (slice_ns : Z) : M sched unit :=
  schedule_each run (for_each_cpu cpu_online_mask) slice_ns.

(** ** Load balancing *)
(** Loads and CPUs of the most and the least loaded queue, read without a
    lock. *)
Fixpoint find_loads (cpus : list Z) (max_load max_cpu min_load min_cpu : Z) : prog (Z * Z * Z * Z) :=
  match cpus with
  | [] => Done (max_load, max_cpu, min_load, min_cpu)
  | cpu :: cpus =>
      r <~ unlocked None (rq_get cpu) ;;;
      let '(max_load, max_cpu) := if max_load <? nr_running r then (nr_running r, cpu) else (max_load, max_cpu) in
      let '(min_load, min_cpu) := if nr_running r <? min_load then (nr_running r, cpu) else (min_load, min_cpu) in
      find_loads cpus max_load max_cpu min_load min_cpu
  end.
(** The first entry at which the search loop breaks; the lock of [src] is
    held, but a process of the list can end its slice on another CPU. *)
Fixpoint first_movable (src : Z) (l : list proc_ptr) (cpu : Z) : prog (option proc_ptr) :=
  match l with
  | [] => Done None
  | p :: l =>
      x <~ still_locked None src (proc_get p) ;;;
      if negb (running x) && bool_decide (cpu ∈ allowed_cpus x) then Done (Some p) else first_movable src l cpu
  end.
(** The two halves of a move, each under the lock of its queue; the process
    is on no queue in between. *)
Definition balance_take (src : Z) (p : proc_ptr) : M sched unit :=
  list_del_init p ;;
  rq_mod src (add_nr_running (-1)).
Definition balance_put (dst : Z) (p : proc_ptr) : M sched unit :=
  list_add_tail dst p ;;
  rq_mod dst (add_nr_running 1) ;;
  proc_mod p (set_p_cpu dst).
(** When the loop runs to its end, the loop variable is not NULL: it points
    to where the list head would be embedded, and the head itself is
    unlinked as if it were a process. *)
Definition kds_load_balance : prog unit :=
  l <~ find_loads (for_each_cpu cpu_online_mask) 0 (-1) UINT_MAX (-1) ;;;
  match l with
  | (max_load, max_cpu, min_load, min_cpu) =>
      if (max_cpu =? -1) || (min_cpu =? -1) || (u32 (max_load - min_load) <=? KDS_LOAD_BALANCE_THRESHOLD) then Done tt else
      src <~ locked None max_cpu (rq_get max_cpu) ;;;
      p <~ first_movable max_cpu (system_procs src) min_cpu ;;;
      match p with
      | None => still_locked None max_cpu (halt_with Fault)
      | Some p =>
          still_locked (Some p) max_cpu (balance_take max_cpu p) ;;;
          locked (Some p) min_cpu (balance_put min_cpu p) ;;;
          unlocked None (stats_mod (fun t => SchedStats (total_schedules t) (u64 (load_balances t + 1)) (u64 (migrations t + 1))))
      end
  end.
End Sched.
