(* ===== verification/ProcSpec.v ===== *)
(** * ProcSpec: the scheduler

    Interleavings of the per-CPU workers and of the other users of the run
    queues are sequences of [step]s: one critical section or one unlocked
    access of one thread.  The operations read the CPU of a process before
    they take its lock, so what holds depends on who may interfere:
    [reachable] are the runs in which no process is handled by two
    operations at once, [any_run] all of them.  The invariants of the former
    follow from [safe], a rely-guarantee condition on the sections of an
    operation, one proof per operation; [affinity_balance_race] is a run of
    the latter that breaks them.  [preserves] collects the sections that
    leave the running flags and the current processes alone. *)
From S2P Require Import Prelude Layout Proc.
From stdpp Require Import prelude gmap list sets.
From Stdlib Require Import ZArith Lia.
Local Open Scope Z_scope.
Local Open Scope kds_scope.

(** ** Inversion of the access operations *)
Section Inversion.
Lemma proc_get_inv p s x t : proc_get p s = Ret x t -> t = s /\ procs s !! p = Some x.
Proof. unfold proc_get. destruct (procs s !! p); [|done]. by intros [-> ->]%Ret_inj. Qed.
Lemma proc_mod_inv p f s u t : proc_mod p f s = Ret u t ->
  exists x, procs s !! p = Some x /\ t = set_procs (<[p := f x]> (procs s)) s.
Proof. unfold proc_mod. destruct (procs s !! p) as [x|]; [|done]. intros [_ <-]%Ret_inj. eauto. Qed.
Lemma rq_get_inv c s r t : rq_get c s = Ret r t -> t = s /\ kds_runqueues s !! c = Some r.
Proof. unfold rq_get. destruct (kds_runqueues s !! c); [|done]. by intros [-> ->]%Ret_inj. Qed.
Lemma rq_mod_inv c f s u t : rq_mod c f s = Ret u t ->
  exists r, kds_runqueues s !! c = Some r /\ t = set_runqueues (<[c := f r]> (kds_runqueues s)) s.
Proof. unfold rq_mod. destruct (kds_runqueues s !! c) as [r|]; [|done]. intros [_ <-]%Ret_inj. eauto. Qed.
Lemma proc_get_ok p s x : procs s !! p = Some x -> proc_get p s = Ret x s.
Proof. intros H. unfold proc_get. by rewrite H. Qed.
Lemma rq_get_ok c s r : kds_runqueues s !! c = Some r -> rq_get c s = Ret r s.
Proof. intros H. unfold rq_get. by rewrite H. Qed.
Lemma proc_mod_ok p f s x : procs s !! p = Some x -> proc_mod p f s = Ret tt (set_procs (<[p := f x]> (procs s)) s).
Proof. intros H. unfold proc_mod. by rewrite H. Qed.
Lemma rq_mod_ok c f s r : kds_runqueues s !! c = Some r ->
  rq_mod c f s = Ret tt (set_runqueues (<[c := f r]> (kds_runqueues s)) s).
Proof. intros H. unfold rq_mod. by rewrite H. Qed.
End Inversion.

(** Take a finished computation apart. *)
Ltac inv_step :=
  match goal with
  | H : bind _ _ _ = Ret _ _ |- _ => apply bind_inv in H as (? & ? & ? & H)
  | H : ret _ _ = Ret _ _ |- _ => apply Ret_inj in H as [? <-]; try subst
  | H : gets _ _ = Ret _ _ |- _ => apply Ret_inj in H as [<- <-]
  | H : modify _ _ = Ret _ _ |- _ => apply Ret_inj in H as [_ <-]
  | H : stats_mod _ _ = Ret _ _ |- _ => apply Ret_inj in H as [_ <-]
  | H : proc_get _ _ = Ret _ _ |- _ => apply proc_get_inv in H as [-> ?]
  | H : rq_get _ _ = Ret _ _ |- _ => apply rq_get_inv in H as [-> ?]
  | H : proc_mod _ _ _ = Ret _ _ |- _ => apply proc_mod_inv in H as (? & ? & ->)
  | H : rq_mod _ _ _ = Ret _ _ |- _ => apply rq_mod_inv in H as (? & ? & ->)
  | H : halt_with _ _ = Ret _ _ |- _ => discriminate H
  | H : (if ?b then _ else _) _ = Ret _ _ |- _ => destruct b eqn:?
  end.

(** ** Operations that touch neither running flags nor current processes *)
Definition flags (s : sched) : gmap proc_ptr bool := running <$> procs s.
Definition currents (s : sched) : gmap Z (option proc_ptr) := curr_proc <$> kds_runqueues s.
Definition preserves {A} (m : M sched A) : Prop :=
  forall s a t, m s = Ret a t -> flags t = flags s /\ currents t = currents s.

Create HintDb preserves.
Lemma preserves_ret {A} (a : A) : preserves (ret a).
Proof. intros s b t [_ <-]%Ret_inj. done. Qed.
Lemma preserves_halt {A} h : preserves (halt_with (A := A) h).
Proof. done. Qed.
Lemma preserves_bind {A B} (m : M sched A) (k : A -> M sched B) :
  preserves m -> (forall a, preserves (k a)) -> preserves (bind m k).
Proof. intros Hm Hk s b t (a & s' & H1 & H2)%bind_inv. destruct (Hm _ _ _ H1) as [<- <-]. by apply (Hk a _ b). Qed.
Lemma preserves_gets {A} (f : sched -> A) : preserves (gets f).
Proof. intros s b t [_ <-]%Ret_inj. done. Qed.
Lemma preserves_proc_get p : preserves (proc_get p).
Proof. intros s b t [-> _]%proc_get_inv. done. Qed.
Lemma preserves_rq_get c : preserves (rq_get c).
Proof. intros s b t [-> _]%rq_get_inv. done. Qed.
Lemma preserves_stats f : preserves (stats_mod f).
Proof. intros s b t [_ <-]%Ret_inj. done. Qed.
Lemma preserves_proc_mod p f : (forall x, running (f x) = running x) -> preserves (proc_mod p f).
Proof.
  intros Hf s b t (x & Hx & ->)%proc_mod_inv. split; [|done]. unfold flags; cbn.
  rewrite fmap_insert, Hf. apply insert_id. by rewrite lookup_fmap, Hx.
Qed.
Lemma preserves_rq_mod c f : (forall r, curr_proc (f r) = curr_proc r) -> preserves (rq_mod c f).
Proof.
  intros Hf s b t (x & Hx & ->)%rq_mod_inv. split; [done|]. unfold currents; cbn.
  rewrite fmap_insert, Hf. apply insert_id. by rewrite lookup_fmap, Hx.
Qed.
Lemma preserves_if {A} (b : bool) (m n : M sched A) : preserves m -> preserves n -> preserves (if b then m else n).
Proof. by destruct b. Qed.
Lemma preserves_dec {A} P (d : {P} + {~ P}) (m n : M sched A) : preserves m -> preserves n -> preserves (if d then m else n).
Proof. by destruct d. Qed.
#[export] Hint Resolve preserves_ret preserves_halt preserves_bind preserves_gets preserves_proc_get preserves_rq_get
  preserves_stats preserves_proc_mod preserves_rq_mod preserves_if preserves_dec : preserves.

Section Preserving.
Context `{Mc : Machine}.
Lemma list_del_preserves p : preserves (list_del_init p).
Proof.
  intros s b t H. unfold list_del_init in H. repeat inv_step. split; [done|]. unfold currents; cbn.
  rewrite <- map_fmap_compose. by apply map_fmap_ext.
Qed.
#[local] Hint Resolve list_del_preserves : preserves.
Lemma enqueue_preserves c p : preserves (enqueue c p).
Proof. unfold enqueue, list_add_tail, kds_session_rb_insert. auto 20 with preserves. Qed.
Lemma dequeue_preserves c p : preserves (dequeue c p).
Proof. unfold dequeue, kds_session_rb_remove. auto 20 with preserves. Qed.
Lemma update_waits_preserves l e i : preserves (update_waits l e i).
Proof.
  induction l; cbn [update_waits]; auto with preserves. apply preserves_bind; auto.
  apply preserves_proc_mod. intros x. by destruct (pid x =? i).
Qed.
Lemma take_preserves c p : preserves (balance_take c p).
Proof. unfold balance_take. auto 20 with preserves. Qed.
Lemma put_preserves c p : preserves (balance_put c p).
Proof. unfold balance_put, list_add_tail. auto 20 with preserves. Qed.
End Preserving.

(** ** Choosing a process *)
Section Picking.
Context `{Mc : Machine}.

Definition ready (s : sched) (p : proc_ptr) (x : kds_proc) : Prop := procs s !! p = Some x /\ running x = false.
(** [p] is the first of the ready processes of [l] with the highest priority. *)
Definition first_best (s : sched) (l : list proc_ptr) (p : proc_ptr) : Prop :=
  exists l1 l2 x, l = l1 ++ p :: l2 /\ ready s p x /\
    (forall q y, q ∈ l1 -> ready s q y -> dynamic_prio y < dynamic_prio x) /\
    (forall q y, q ∈ l2 -> ready s q y -> dynamic_prio y <= dynamic_prio x).

Lemma pick_best_inv l : forall bp b s o t, pick_best l bp b s = Ret o t ->
  t = s /\
  ((o = b /\ forall q y, q ∈ l -> ready s q y -> dynamic_prio y <= bp) \/
   (exists p l1 l2 x, o = Some p /\ l = l1 ++ p :: l2 /\ ready s p x /\ bp < dynamic_prio x /\
      (forall q y, q ∈ l1 -> ready s q y -> dynamic_prio y < dynamic_prio x) /\
      (forall q y, q ∈ l2 -> ready s q y -> dynamic_prio y <= dynamic_prio x))).
Proof.
  induction l as [|p l IH]; cbn [pick_best]; intros bp b s o t H; repeat inv_step.
  - split; [done|]. left. split; [done|]. intros q y Hq. by apply not_elem_of_nil in Hq.
  - apply IH in H as [-> H]. split; [done|]. destruct H as [[-> H]|(p' & l1 & l2 & y & -> & -> & Hr & Hb & H1 & H2)].
    + left. split; [done|]. intros q y [->|Hq]%elem_of_cons Hr; [|by eapply H]. destruct Hr. congruence.
    + right. exists p', (p :: l1), l2, y. split_and!; try done.
      intros q z [->|Hq]%elem_of_cons Hz; [|by eapply H1]. destruct Hz. congruence.
  - apply IH in H as [-> H]. split; [done|]. right. unfold kds_calc_dynamic_prio in *.
    destruct H as [[-> H]|(p' & l1 & l2 & y & -> & -> & Hr & Hb & H1 & H2)].
    + exists p, [], l, x. split_and!; try done; [lia|]. intros q y Hq. by apply not_elem_of_nil in Hq.
    + exists p', (p :: l1), l2, y. split_and!; try done; [lia|].
      intros q z [->|Hq]%elem_of_cons Hz; [|by eapply H1]. destruct Hz. assert (z = x) as -> by congruence. lia.
  - apply IH in H as [-> H]. split; [done|]. unfold kds_calc_dynamic_prio in *.
    assert (Hx : forall y, ready s p y -> dynamic_prio y <= bp) by (intros y []; assert (y = x) as -> by congruence; lia).
    destruct H as [[-> H]|(p' & l1 & l2 & y & -> & -> & Hr & Hb & H1 & H2)].
    + left. split; [done|]. intros q y [->|Hq]%elem_of_cons Hr; [by apply Hx|by eapply H].
    + right. exists p', (p :: l1), l2, y. split_and!; try done.
      intros q z [->|Hq]%elem_of_cons Hz; [apply Hx in Hz; lia|by eapply H1].
Qed.
Lemma pick_best_total l s : (forall p, p ∈ l -> is_Some (procs s !! p)) ->
  forall bp b, exists o, pick_best l bp b s = Ret o s.
Proof.
  induction l as [|p l IH]; intros Hl bp b; cbn [pick_best]; [by eexists|].
  destruct (Hl p ltac:(left)) as [x Hx]. erewrite bind_ok by (by apply proc_get_ok).
  assert (Hl' : forall p, p ∈ l -> is_Some (procs s !! p)) by (intros q Hq; apply Hl; by right).
  destruct (running x); [by apply IH|]. destruct (_ <? _); by apply IH.
Qed.

(** What a finished [schedule_begin] did. *)
Definition started (p : proc_ptr) (x : kds_proc) (cpu : Z) (r : kds_runqueue) (s : sched) : sched :=
  set_runqueues (<[cpu := set_curr (Some p) r]> (kds_runqueues s))
    (set_procs (<[p := set_p_state KDS_PROC_STATE_RUN (set_p_running true x)]> (procs s)) s).
Lemma choose_idle_inv cpu s r o t :
  kds_runqueues s !! cpu = Some r -> curr_proc r = None -> schedule_choose cpu s = Ret o t ->
  t = s /\
  ((o = None /\ forall q y, q ∈ system_procs r -> ready s q y -> dynamic_prio y <= INT_MIN) \/
   (exists p x, o = Some (p, false) /\ ready s p x /\ first_best s (system_procs r) p)).
Proof.
  intros Hr Hc H. unfold schedule_choose in H. apply bind_inv in H as (r' & s1 & [-> Hr']%rq_get_inv & H).
  assert (r' = r) as -> by congruence. rewrite Hc in H. apply bind_inv in H as (fp & s2 & Hf & H).
  assert (fp = false /\ s2 = s) as [-> ->].
  { destruct (_ <? _); apply Ret_inj in Hf as [<- <-]; done. }
  apply bind_inv in H as (b & s3 & Hp & [<- <-]%Ret_inj). apply pick_best_inv in Hp as [-> Hp]. split; [done|].
  destruct Hp as [[-> Hp]|(p & l1 & l2 & x & -> & Hl & Hx & _ & H1 & H2)]; [by left|].
  right. exists p, x. split_and!; [done..|]. by exists l1, l2, x.
Qed.
Lemma commit_inv cpu p f s t : schedule_commit cpu (Some (p, f)) s = Ret tt t ->
  exists x r, procs s !! p = Some x /\ kds_runqueues s !! cpu = Some r /\ t = started p x cpu r s.
Proof.
  intros H. unfold schedule_commit in H. apply bind_inv in H as (u1 & s1 & (x & Hx & ->)%proc_mod_inv & H).
  apply bind_inv in H as (u2 & s2 & (y & Hy & ->)%proc_mod_inv & (r & Hr & ->)%rq_mod_inv).
  cbn in Hy. rewrite lookup_insert_eq in Hy. injection Hy as <-. exists x, r. split_and!; [done..|].
  unfold started; cbn. by rewrite insert_insert_eq.
Qed.
Lemma commit_ok cpu p f s x r : procs s !! p = Some x -> kds_runqueues s !! cpu = Some r ->
  schedule_commit cpu (Some (p, f)) s = Ret tt (started p x cpu r s).
Proof.
  intros Hx Hr. unfold schedule_commit. erewrite bind_ok by (by apply proc_mod_ok).
  erewrite bind_ok by (apply proc_mod_ok; cbn; by rewrite lookup_insert_eq). erewrite rq_mod_ok by done.
  unfold started; cbn. by rewrite insert_insert_eq.
Qed.
Lemma begin_idle_inv cpu s r o t :
  kds_runqueues s !! cpu = Some r -> curr_proc r = None -> schedule_begin cpu s = Ret o t ->
  (o = None /\ t = s /\ forall q y, q ∈ system_procs r -> ready s q y -> dynamic_prio y <= INT_MIN) \/
  (exists p x, o = Some (p, false) /\ ready s p x /\ first_best s (system_procs r) p /\ t = started p x cpu r s).
Proof.
  intros Hr Hc H. unfold schedule_begin in H. apply bind_inv in H as (o' & s1 & Hch & H).
  apply bind_inv in H as ([] & s2 & Hco & [<- <-]%Ret_inj).
  destruct (choose_idle_inv cpu s r o' s1 Hr Hc Hch) as [-> [[-> Hp]|(p & x & -> & [Hx Hrun] & Hb)]].
  - left. by apply Ret_inj in Hco as [_ <-].
  - right. apply commit_inv in Hco as (x' & r' & Hx' & Hr' & ->). exists p, x.
    assert (x' = x) as -> by congruence. assert (r' = r) as -> by congruence. done.
Qed.
End Picking.

(** ** Queues *)
(** What the queue invariant is about: kind, CPU and list node of each
    process, entries and counter of each queue. *)
Definition attrs (s : sched) : gmap proc_ptr (kds_proc_kind * Z * bool) :=
  (fun x => (kind x, p_cpu x, node_init x)) <$> procs s.
Definition queues (s : sched) : gmap Z (list proc_ptr * list proc_ptr * Z) :=
  (fun r => (system_procs r, session_procs r, nr_running r)) <$> kds_runqueues s.
Definition on_queue (L : gmap Z (list proc_ptr * list proc_ptr * Z)) (p : proc_ptr) : Prop :=
  exists c sys ses n, L !! c = Some (sys, ses, n) /\ (p ∈ sys \/ p ∈ ses).
Definition queued (s : sched) (p : proc_ptr) : Prop := on_queue (queues s) p.
Definition queue_ok (A : gmap proc_ptr (kds_proc_kind * Z * bool)) (L : gmap Z (list proc_ptr * list proc_ptr * Z)) : Prop :=
  forall c sys ses n, L !! c = Some (sys, ses, n) ->
    n = u32 (zlen sys + zlen ses) /\ NoDup sys /\ NoDup ses /\
    (forall p, p ∈ sys -> A !! p = Some (KDS_PROC_SYSTEM, c, true)) /\
    (forall p, p ∈ ses -> exists b, A !! p = Some (KDS_PROC_SESSION, c, b)).
Definition without (p : proc_ptr) (l : list proc_ptr) : list proc_ptr := filter (fun q => q <> p) l.

Lemma without_notin p l : p ∉ l -> without p l = l.
Proof.
  unfold without. induction l as [|q l IH]; [done|]. intros [Hq Hl]%not_elem_of_cons.
  rewrite filter_cons_True by congruence. by rewrite IH.
Qed.
Lemma zlen_without p l : NoDup l -> p ∈ l -> zlen (without p l) = zlen l - 1.
Proof.
  induction l as [|q l IH]; intros Hnd Hin; [by apply not_elem_of_nil in Hin|].
  apply NoDup_cons in Hnd as [Hq Hnd]. unfold without. rewrite filter_cons. rewrite zlen_cons. case_decide as E.
  - rewrite zlen_cons. apply elem_of_cons in Hin as [->|Hin]; [done|]. fold (without p l). rewrite IH by done. lia.
  - subst q. fold (without p l). rewrite without_notin by done. lia.
Qed.
Lemma u32_step a d : u32 (u32 a + d) = u32 (a + d).
Proof. unfold u32. apply Zplus_mod_idemp_l. Qed.

Section QueueMaps.
Context (A : gmap proc_ptr (kds_proc_kind * Z * bool)) (L : gmap Z (list proc_ptr * list proc_ptr * Z)) (HQ : queue_ok A L).

Lemma queue_attr_irrelevant p a : ~ on_queue L p -> queue_ok (<[p := a]> A) L.
Proof.
  intros Hn c sys ses n Hc. destruct (HQ c sys ses n Hc) as (H1 & H2 & H3 & H4 & H5). split_and!; try done.
  - intros q Hq. rewrite lookup_insert_ne; [by apply H4|]. intros ->. apply Hn. exists c, sys, ses, n. auto.
  - intros q Hq. rewrite lookup_insert_ne; [by apply H5|]. intros ->. apply Hn. exists c, sys, ses, n. auto.
Qed.
Lemma enqueue_system p c sys ses n :
  ~ on_queue L p -> L !! c = Some (sys, ses, n) ->
  queue_ok (<[p := (KDS_PROC_SYSTEM, c, true)]> A) (<[c := (sys ++ [p], ses, u32 (n + 1))]> L).
Proof.
  intros Hn Hc. pose proof (queue_attr_irrelevant p (KDS_PROC_SYSTEM, c, true) Hn) as HQ'.
  intros c' sys' ses' n' [[<- [= <- <- <-]]|[_ Hc']]%lookup_insert_Some; [|by apply HQ'].
  destruct (HQ' c sys ses n Hc) as (-> & H2 & H3 & H4 & H5). split_and!; try done.
  - rewrite u32_step, zlen_app. f_equal. unfold zlen. simpl. lia.
  - apply NoDup_app. split_and!; [done| |apply NoDup_singleton]. intros q Hq ->%list_elem_of_singleton.
    apply Hn. exists c, sys, ses, (u32 (zlen sys + zlen ses)). auto.
  - intros q [Hq| ->%list_elem_of_singleton]%elem_of_app; [by apply H4|apply lookup_insert_eq].
Qed.
Lemma enqueue_session p b ps prio c sys ses n :
  ~ on_queue L p -> A !! p = Some (KDS_PROC_SESSION, c, b) -> L !! c = Some (sys, ses, n) ->
  queue_ok A (<[c := (sys, session_place ps prio p ses, u32 (n + 1))]> L).
Proof.
  intros Hn Hp Hc. assert (Hperm : session_place ps prio p ses ≡ₚ p :: ses).
  { clear. induction ses as [|q l IH]; cbn [session_place]; [done|]. case_test; [done|]. rewrite IH. constructor. }
  intros c' sys' ses' n' [[<- [= <- <- <-]]|[_ Hc']]%lookup_insert_Some; [|by apply HQ].
  destruct (HQ c sys ses n Hc) as (-> & H2 & H3 & H4 & H5). split_and!; try done.
  - rewrite u32_step. f_equal. unfold zlen. rewrite (Permutation_length Hperm). simpl. lia.
  - rewrite Hperm. constructor; [|done]. intros Hq. apply Hn. eexists c, sys, ses, _. eauto.
  - intros q. rewrite Hperm. intros [->|Hq]%elem_of_cons; [by exists b|by apply H5].
Qed.
Lemma dequeue_system p c sys ses n :
  L !! c = Some (sys, ses, n) -> p ∈ sys ->
  (fun '(sys, ses, n) => (without p sys, ses, n)) <$> L = <[c := (without p sys, ses, n)]> L /\
  let L' := <[c := (without p sys, ses, u32 (n - 1))]> L in queue_ok A L' /\ ~ on_queue L' p.
Proof.
  intros Hc Hin. destruct (HQ c sys ses n Hc) as (Hn & Hnd & Hnd' & Hs & Hss).
  assert (Hother : forall c' sys' ses' n', c' <> c -> L !! c' = Some (sys', ses', n') -> (p ∉ sys') /\ (p ∉ ses')).
  { intros c' sys' ses' n' Hne Hc'. destruct (HQ c' _ _ _ Hc') as (_ & _ & _ & H4 & H5). pose proof (Hs p Hin) as Hp.
    split; intros Hx; [apply H4 in Hx|apply H5 in Hx as [? Hx]]; congruence. }
  assert (Hses : p ∉ ses) by (intros [? Hx]%Hss; pose proof (Hs p Hin); congruence).
  split.
  { apply map_eq. intros c'. rewrite lookup_fmap. destruct (decide (c' = c)) as [->|Hne]; [by rewrite lookup_insert_eq, Hc|].
    rewrite lookup_insert_ne by done. destruct (L !! c') as [[[a b] m]|] eqn:E; [|done]. cbn.
    destruct (Hother c' a b m Hne E) as [Ha _]. by rewrite without_notin. }
  intros L'. assert (Hlook : forall c' sys' ses' n', L' !! c' = Some (sys', ses', n') ->
    (c' = c /\ sys' = without p sys /\ ses' = ses /\ n' = u32 (n - 1)) \/ (c' <> c /\ L !! c' = Some (sys', ses', n'))).
  { intros c' sys' ses' n' [[<- [= <- <- <-]]|[Hne Hx]]%lookup_insert_Some; [by left|]. by right. }
  split.
  - intros c' sys' ses' n' [(-> & -> & -> & ->)|[Hne Hx]]%Hlook; [|by apply HQ]. split_and!; try done.
    + subst n. replace (u32 (zlen sys + zlen ses) - 1) with (u32 (zlen sys + zlen ses) + (-1)) by lia.
      rewrite u32_step, zlen_without by done. f_equal. lia.
    + by apply NoDup_filter.
    + intros q Hq. apply Hs. by apply list_elem_of_filter in Hq as [_ ?].
  - intros (c' & sys' & ses' & n' & [(-> & -> & -> & ->)|[Hne Hx]]%Hlook & Hq).
    + destruct Hq as [[? _]%list_elem_of_filter|]; done.
    + destruct (Hother c' sys' ses' n' Hne Hx). tauto.
Qed.
Lemma dequeue_session p c sys ses n :
  L !! c = Some (sys, ses, n) -> p ∈ ses ->
  let L' := <[c := (sys, without p ses, u32 (n - 1))]> L in queue_ok A L' /\ ~ on_queue L' p.
Proof.
  intros Hc Hin L'. destruct (HQ c sys ses n Hc) as (Hn & Hnd & Hnd' & Hs & Hss). destruct (Hss p Hin) as [b Hp]. split.
  - intros c' sys' ses' n' [[<- [= <- <- <-]]|[Hne Hx]]%lookup_insert_Some; [|by apply HQ]. split_and!; try done.
    + subst n. replace (u32 (zlen sys + zlen ses) - 1) with (u32 (zlen sys + zlen ses) + (-1)) by lia.
      rewrite u32_step, zlen_without by done. f_equal. lia.
    + by apply NoDup_filter.
    + intros q [_ Hq]%list_elem_of_filter. by apply Hss.
  - intros (c' & sys' & ses' & n' & [[<- [= <- <- <-]]|[Hne Hx]]%lookup_insert_Some & Hq).
    + destruct Hq as [Hq|[? _]%list_elem_of_filter]; [|done]. apply Hs in Hq. congruence.
    + destruct (HQ c' _ _ _ Hx) as (_ & _ & _ & H4 & H5). destruct Hq as [Hq|Hq]; [apply H4 in Hq|apply H5 in Hq as [? Hq]]; congruence.
Qed.
End QueueMaps.

(** The operations on these maps. *)
Section QueueOps.
Context `{Mc : Machine}.
Definition sched_ok (s : sched) : Prop := queue_ok (attrs s) (queues s).

Lemma attrs_lookup s p x : procs s !! p = Some x -> attrs s !! p = Some (kind x, p_cpu x, node_init x).
Proof. intros H. unfold attrs. by rewrite lookup_fmap, H. Qed.
Lemma queues_lookup s c r : kds_runqueues s !! c = Some r -> queues s !! c = Some (system_procs r, session_procs r, nr_running r).
Proof. intros H. unfold queues. by rewrite lookup_fmap, H. Qed.
Lemma attrs_same s x p f :
  procs s !! p = Some x -> kind (f x) = kind x -> p_cpu (f x) = p_cpu x -> node_init (f x) = node_init x ->
  attrs (set_procs (<[p := f x]> (procs s)) s) = attrs s.
Proof.
  intros Hx H1 H2 H3. unfold attrs; cbn. rewrite fmap_insert, H1, H2, H3. apply insert_id. by rewrite lookup_fmap, Hx.
Qed.

Lemma sched_ok_same s t : attrs t = attrs s -> queues t = queues s -> sched_ok s -> sched_ok t.
Proof. unfold sched_ok. by intros -> ->. Qed.
Lemma queue_of_attr s p x : sched_ok s -> queued s p -> procs s !! p = Some x ->
  exists r, kds_runqueues s !! p_cpu x = Some r /\
    ((kind x = KDS_PROC_SYSTEM /\ p ∈ system_procs r) \/ (kind x = KDS_PROC_SESSION /\ p ∈ session_procs r)).
Proof.
  intros HQ (c & sys & ses & n & Hc & Hp) Hx. destruct (HQ c sys ses n Hc) as (_ & _ & _ & Hs & Hss).
  pose proof (attrs_lookup s p x Hx) as Ha. unfold queues in Hc. rewrite lookup_fmap in Hc.
  destruct (kds_runqueues s !! c) as [r|] eqn:Hr; [|done]. injection Hc as <- <- <-.
  destruct Hp as [Hp|Hp]; [pose proof (Hs p Hp)|destruct (Hss p Hp)]; exists r;
    (assert (p_cpu x = c) as -> by congruence); (split; [done|]); [left|right]; (split; [congruence|done]).
Qed.

(** *** Who an operation touches *)
(** [touches o l s t]: only process [o] changed its attributes or went on
    or off a queue, and only the queue of CPU [l] changed. *)
Definition touches (o : option proc_ptr) (l : option Z) (s t : sched) : Prop :=
  (forall q, o <> Some q -> attrs t !! q = attrs s !! q /\ (queued t q <-> queued s q)) /\
  (forall c, l <> Some c -> queues t !! c = queues s !! c).
Lemma touches_same o l s t : attrs t = attrs s -> queues t = queues s -> touches o l s t.
Proof. intros H1 H2. unfold touches, queued. by rewrite H1, H2. Qed.
Lemma touches_queue p c sys ses n sys' ses' n' s t :
  queues s !! c = Some (sys, ses, n) -> queues t = <[c := (sys', ses', n')]> (queues s) ->
  (forall q, q <> p -> (q ∈ sys' \/ q ∈ ses') <-> (q ∈ sys \/ q ∈ ses)) ->
  (forall q, q <> p -> attrs t !! q = attrs s !! q) -> touches (Some p) (Some c) s t.
Proof.
  intros Hc Ht Hin Ha. split.
  - intros q Hq. split; [apply Ha; congruence|]. unfold queued, on_queue. rewrite Ht. split.
    + intros (c' & a & b & m & [[<- [= <- <- <-]]|[_ Hc']]%lookup_insert_Some & Hx); [|by eauto 8].
      exists c, sys, ses, n. split; [done|]. apply Hin; [congruence|done].
    + intros (c' & a & b & m & Hc' & Hx). destruct (decide (c' = c)) as [->|Hne].
      * exists c, sys', ses', n'. rewrite lookup_insert_eq. split; [done|]. apply Hin; [congruence|].
        rewrite Hc in Hc'. by injection Hc' as -> -> ->.
      * exists c', a, b, m. by rewrite lookup_insert_ne by done.
  - intros c' Hne. rewrite Ht, lookup_insert_ne; [done|congruence].
Qed.
Lemma without_other p q l : q <> p -> q ∈ without p l <-> q ∈ l.
Proof. intros H. unfold without. rewrite list_elem_of_filter. tauto. Qed.

(** *** The sections *)
Lemma dequeue_ok s p x t :
  sched_ok s -> queued s p -> procs s !! p = Some x -> dequeue (p_cpu x) p s = Ret tt t ->
  sched_ok t /\ ~ queued t p /\ procs t = procs s /\ touches (Some p) (Some (p_cpu x)) s t.
Proof.
  intros HQ Hq Hx H. destruct (queue_of_attr s p x HQ Hq Hx) as (r0 & Hr0 & Hp). pose proof (queues_lookup s _ _ Hr0) as Hc.
  unfold dequeue in H. apply bind_inv in H as (y & s1 & [-> Hy]%proc_get_inv & H). assert (y = x) as -> by congruence.
  apply bind_inv in H as (u & s1 & H1 & (r & Hr & ->)%rq_mod_inv).
  case_decide as Hk; (destruct Hp as [[Hk' Hin]|[Hk' Hin]]; [|]; try congruence).
  - unfold list_del_init in H1. repeat inv_step. cbn [kds_runqueues set_runqueues] in Hr.
    rewrite lookup_fmap, Hr0 in Hr. injection Hr as <-.
    destruct (dequeue_system (attrs s) (queues s) HQ p _ _ _ _ Hc Hin) as (Hmap & HQ' & Hn').
    match goal with |- sched_ok ?t /\ _ => assert (E : queues t =
       <[p_cpu x := (without p (system_procs r0), session_procs r0, u32 (nr_running r0 - 1))]> (queues s)) end.
    { unfold queues in Hmap |- *; cbn. rewrite fmap_insert, <- map_fmap_compose.
      rewrite <- map_fmap_compose in Hmap. cbn in Hmap |- *.
      etransitivity; [apply f_equal; exact Hmap|]. by rewrite insert_insert_eq. }
    split; [unfold sched_ok; rewrite E; exact HQ'|]. split; [unfold queued; by rewrite E|]. split; [done|].
    eapply touches_queue; [exact Hc|exact E| |done]. intros q Hne. by rewrite without_other.
  - unfold kds_session_rb_remove in H1. repeat inv_step. cbn [kds_runqueues set_runqueues] in Hr.
    destruct (dequeue_session (attrs s) (queues s) HQ p _ _ _ _ Hc Hin) as [HQ' Hn'].
    rewrite lookup_insert_eq in Hr. injection Hr as <-.
    match goal with H : kds_runqueues s !! p_cpu x = Some ?r |- _ => assert (r = r0) as -> by congruence end.
    match goal with |- sched_ok ?t /\ _ => assert (E : queues t =
       <[p_cpu x := (system_procs r0, without p (session_procs r0), u32 (nr_running r0 - 1))]> (queues s)) end.
    { unfold queues; cbn. by rewrite insert_insert_eq, fmap_insert. }
    split; [unfold sched_ok; rewrite E; exact HQ'|]. split; [unfold queued; by rewrite E|]. split; [done|].
    eapply touches_queue; [exact Hc|exact E| |done]. intros q Hne. by rewrite without_other.
Qed.

Lemma session_place_perm ps prio p l : session_place ps prio p l ≡ₚ p :: l.
Proof. induction l as [|q l IH]; cbn [session_place]; [done|]. case_test; [done|]. rewrite IH. constructor. Qed.
Lemma enqueue_ok s p x t :
  sched_ok s -> ~ queued s p -> procs s !! p = Some x -> enqueue (p_cpu x) p s = Ret tt t ->
  sched_ok t /\ touches (Some p) (Some (p_cpu x)) s t.
Proof.
  intros HQ Hn Hx H. unfold enqueue in H. apply bind_inv in H as (y & s1 & [-> Hy]%proc_get_inv & H).
  assert (y = x) as -> by congruence. apply bind_inv in H as (u & s1 & H1 & (r & Hr & ->)%rq_mod_inv).
  pose proof (attrs_lookup s p x Hx) as Ha. case_decide as Hk.
  - unfold list_add_tail in H1. apply bind_inv in H1 as (u1 & s2 & (r0 & Hr0 & ->)%rq_mod_inv & (x' & Hx' & ->)%proc_mod_inv). cbn [kds_runqueues set_procs set_runqueues procs] in *.
    rewrite lookup_insert_eq in Hr. injection Hr as <-. pose proof (queues_lookup s _ _ Hr0) as Hc.
    pose proof (enqueue_system (attrs s) (queues s) HQ p (p_cpu x) _ _ _ Hn Hc) as HQ'.
    match goal with |- sched_ok ?t /\ _ =>
      assert (EA : attrs t = <[p := (KDS_PROC_SYSTEM, p_cpu x, true)]> (attrs s));
      [|assert (E : queues t = <[p_cpu x := (system_procs r0 ++ [p], session_procs r0, u32 (nr_running r0 + 1))]> (queues s))] end.
    { unfold attrs; cbn. rewrite fmap_insert. cbn. assert (x' = x) as -> by congruence. by rewrite Hk. }
    { unfold queues; cbn. by rewrite insert_insert_eq, fmap_insert. }
    split; [unfold sched_ok; by rewrite EA, E|]. eapply touches_queue; [exact Hc|exact E| |].
    + intros q Hne. rewrite elem_of_app, list_elem_of_singleton. tauto.
    + intros q Hne. by rewrite EA, lookup_insert_ne by done.
  - unfold kds_session_rb_insert in H1. apply bind_inv in H1 as (y & s2 & [-> Hy2]%proc_get_inv & H1).
    apply bind_inv in H1 as (ps & s2 & [<- <-]%Ret_inj & (r0 & Hr0 & ->)%rq_mod_inv). assert (y = x) as -> by congruence. cbn [kds_runqueues set_runqueues] in *.
    rewrite lookup_insert_eq in Hr. injection Hr as <-. pose proof (queues_lookup s _ _ Hr0) as Hc.
    assert (kind x = KDS_PROC_SESSION) as Hk' by (by destruct (kind x)). rewrite Hk' in Ha.
    pose proof (enqueue_session (attrs s) (queues s) HQ p (node_init x) (procs s) (static_prio x) (p_cpu x) _ _ _ Hn Ha Hc) as HQ'.
    match goal with |- sched_ok ?t /\ _ => assert (E : queues t = <[p_cpu x := (system_procs r0, session_place (procs s) (static_prio x) p (session_procs r0), u32 (nr_running r0 + 1))]> (queues s)) end.
    { unfold queues; cbn. by rewrite insert_insert_eq, fmap_insert. }
    split; [unfold sched_ok; by rewrite E|]. eapply touches_queue; [exact Hc|exact E| |done].
    intros q Hne. rewrite session_place_perm, elem_of_cons. tauto.
Qed.

(** Changing a process that is on no queue. *)
Lemma proc_mod_unqueued s p x f :
  sched_ok s -> ~ queued s p -> procs s !! p = Some x ->
  let t := set_procs (<[p := f x]> (procs s)) s in sched_ok t /\ ~ queued t p /\ touches (Some p) None s t.
Proof.
  intros HQ Hn Hx t. assert (E : attrs t = <[p := (kind (f x), p_cpu (f x), node_init (f x))]> (attrs s)).
  { unfold attrs; cbn. by rewrite fmap_insert. }
  split; [|split; [done|]].
  - unfold sched_ok. rewrite E. by apply queue_attr_irrelevant.
  - split; [|done]. intros q Hne. split; [|done]. rewrite E, lookup_insert_ne; [done|congruence].
Qed.

(** The two halves of a balancing move. *)
Lemma take_ok s c r p t : sched_ok s -> kds_runqueues s !! c = Some r -> p ∈ system_procs r -> balance_take c p s = Ret tt t ->
  sched_ok t /\ ~ queued t p /\ touches (Some p) (Some c) s t /\ exists x, procs t !! p = Some x /\ kind x = KDS_PROC_SYSTEM.
Proof.
  intros HQ Hr Hin H. pose proof (queues_lookup s c r Hr) as Hc.
  destruct (HQ _ _ _ _ Hc) as (_ & _ & _ & Hs & _). pose proof (Hs p Hin) as Ha. unfold attrs in Ha. rewrite lookup_fmap in Ha.
  destruct (procs s !! p) as [x|] eqn:Hx; [|done]. injection Ha as Hk Hcpu Hni.
  assert (Hdq : dequeue (p_cpu x) p s = Ret tt t).
  { unfold dequeue. erewrite bind_ok by (by apply proc_get_ok). rewrite decide_True, Hcpu by done. exact H. }
  destruct (dequeue_ok s p x t HQ) as (HQ2 & Hn2 & Hpr & Ht); [by eexists _, _, _, _; split; [exact Hc|left]|done|done|].
  rewrite Hcpu in Ht. rewrite Hpr. split_and!; try done. by exists x.
Qed.
Lemma put_ok s p x c t : sched_ok s -> ~ queued s p -> procs s !! p = Some x -> kind x = KDS_PROC_SYSTEM ->
  balance_put c p s = Ret tt t -> sched_ok t /\ touches (Some p) (Some c) s t.
Proof.
  intros HQ Hn Hx Hk H. unfold balance_put, list_add_tail in H. apply bind_inv in H as (u1 & s3 & Ha & H).
  apply bind_inv in Ha as (u2 & s4 & (r0 & Hr0 & ->)%rq_mod_inv & (x' & Hx' & ->)%proc_mod_inv).
  apply bind_inv in H as (u3 & s3 & (r1 & Hr1 & ->)%rq_mod_inv & (z & Hz & ->)%proc_mod_inv).
  cbn [procs kds_runqueues set_procs set_runqueues] in *. rewrite lookup_insert_eq in Hr1. rewrite lookup_insert_eq in Hz. injection Hr1 as <-. injection Hz as <-.
  assert (x' = x) as -> by congruence.
  pose proof (queues_lookup s c r0 Hr0) as Hc. pose proof (enqueue_system _ _ HQ p c _ _ _ Hn Hc) as HQ3.
  match goal with |- sched_ok ?t /\ _ =>
    assert (EA : attrs t = <[p := (KDS_PROC_SYSTEM, c, true)]> (attrs s));
    [|assert (E : queues t = <[c := (system_procs r0 ++ [p], session_procs r0, u32 (nr_running r0 + 1))]> (queues s))] end.
  { unfold attrs; cbn. rewrite insert_insert_eq, fmap_insert. cbn. by rewrite Hk. }
  { unfold queues; cbn. by rewrite insert_insert_eq, fmap_insert. }
  split; [unfold sched_ok; by rewrite EA, E|]. eapply touches_queue; [exact Hc|exact E| |].
  - intros q Hne. rewrite elem_of_app, list_elem_of_singleton. tauto.
  - intros q Hne. by rewrite EA, lookup_insert_ne by done.
Qed.
Lemma update_waits_views l e i : forall s u t, update_waits l e i s = Ret u t -> attrs t = attrs s /\ queues t = queues s.
Proof.
  induction l as [|p l IH]; cbn [update_waits]; intros s u t H; [by apply Ret_inj in H as [_ <-]|].
  apply bind_inv in H as (v & s1 & (x & Hx & ->)%proc_mod_inv & H). apply IH in H as [-> ->]. split; [|done].
  eapply (attrs_same s x p (fun x => if pid x =? i then charged e x else aged e x)); [done|..]; by destruct (pid x =? i).
Qed.
Lemma end_views s cpu p e f t : schedule_end cpu p f e s = Ret tt t -> attrs t = attrs s /\ queues t = queues s.
Proof.
  intros H. unfold schedule_end, kds_update_wait_time in H.
  apply bind_inv in H as (u1 & s1 & H1 & H). apply bind_inv in H1 as (x & s2 & [-> Hx]%proc_get_inv & H1).
  apply bind_inv in H1 as (r & s2 & [-> Hr]%rq_get_inv & [A1 Q1]%update_waits_views).
  rewrite <- A1, <- Q1. clear A1 Q1. split.
  - repeat inv_step; unfold attrs; cbn [procs set_runqueues set_procs set_stats] in *; rewrite fmap_insert; apply insert_id;
      rewrite lookup_fmap; match goal with H : procs s1 !! p = Some _ |- _ => by rewrite H end.
  - repeat inv_step; unfold queues; cbn [kds_runqueues set_runqueues set_procs set_stats] in *;
      rewrite ?lookup_insert_eq in *; repeat match goal with H : Some _ = Some _ |- _ => injection H as <- end;
      rewrite ?insert_insert_eq, fmap_insert; apply insert_id; rewrite lookup_fmap;
      match goal with H : kds_runqueues s1 !! cpu = Some _ |- _ => by rewrite H end.
Qed.
Lemma started_views s p x cpu r : procs s !! p = Some x -> kds_runqueues s !! cpu = Some r ->
  attrs (started p x cpu r s) = attrs s /\ queues (started p x cpu r s) = queues s.
Proof.
  intros Hx Hr. split.
  - unfold attrs; cbn. rewrite fmap_insert. apply insert_id. by rewrite lookup_fmap, Hx.
  - unfold queues; cbn. rewrite fmap_insert. apply insert_id. by rewrite lookup_fmap, Hr.
Qed.
End QueueOps.

(** ** Interleavings *)
Section Interleaving.
Context `{Mc : Machine}.

(** An operation in progress, and what its next section needs. *)
Record thread := Thread { th_type : Type; th_prog : prog th_type }.
Definition handles (th : thread) : option proc_ptr :=
  match th_prog th with Sec on _ _ _ _ => on | Done _ => None end.
Definition wants (th : thread) : option Z :=
  match th_prog th with Sec _ lock _ _ _ => lock | Done _ => None end.
Definition owns (th : thread) : option Z :=
  match th_prog th with Sec _ lock kept _ _ => if kept then lock else None | Done _ => None end.
Definition advance (th : thread) : M sched thread :=
  match th_prog th with
  | Sec _ _ _ m k => b <- m ;; ret (Thread (th_type th) (k b))
  | Done _ => ret th
  end.

(** The scheduler; for each CPU whose worker is inside a callback, the
    process it runs and whether it was chosen on the fast path; and the
    operations in progress. *)
Record world := World { w_sched : sched; w_exec : gmap Z (proc_ptr * bool); w_ops : gmap nat thread }.
Definition executing (ex : gmap Z (proc_ptr * bool)) (p : proc_ptr) : Prop := exists cpu f, ex !! cpu = Some (p, f).
Definition enter (cpu : Z) (o : option (proc_ptr * bool)) (ex : gmap Z (proc_ptr * bool)) : gmap Z (proc_ptr * bool) :=
  match o with Some b => <[cpu := b]> ex | None => ex end.
Definition lock_free (ops : gmap nat thread) (cpu : Z) : Prop := forall t th, ops !! t = Some th -> owns th <> Some cpu.
Definition may_run (ops : gmap nat thread) (th : thread) : Prop := forall cpu, wants th = Some cpu -> lock_free ops cpu.
(** A section that reads running flags one after the other can still see
    the flag of a process [F] that ended its slice on another CPU. *)
Definition see (F : gset proc_ptr) (s : sched) : sched :=
  set_procs (map_imap (fun p x => Some (if decide (p ∈ F) then set_p_running true x else x)) (procs s)) s.

(** A process is registered while it is on no queue and not running, and
    unregistered or moved when it is on a queue.  A call does the first
    section of the operation. *)
Inductive call (s : sched) (ex : gmap Z (proc_ptr * bool)) : thread -> Prop :=
  | call_register p : ~ executing ex p -> ~ queued s p -> call s ex (Thread Z (kds_proc_register (Some p)))
  | call_unregister p : queued s p -> call s ex (Thread unit (kds_proc_unregister p))
  | call_affinity p mask : queued s p -> call s ex (Thread Z (kds_proc_set_affinity (Some p) mask))
  | call_balance : call s ex (Thread unit kds_load_balance).
Inductive step : world -> world -> Prop :=
  | step_begin s ex ops F cpu o s' :
      ex !! cpu = None -> lock_free ops cpu ->
      schedule_choose cpu (see F s) = Ret o (see F s) -> schedule_commit cpu o s = Ret tt s' ->
      step (World s ex ops) (World s' (enter cpu o ex) ops)
  | step_end s ex ops cpu p f elapsed s' :
      ex !! cpu = Some (p, f) -> lock_free ops cpu -> schedule_end cpu p f elapsed s = Ret tt s' ->
      step (World s ex ops) (World s' (delete cpu ex) ops)
  | step_call s ex ops t th th' s' :
      ops !! t = None -> call s ex th -> may_run ops th -> advance th s = Ret th' s' ->
      step (World s ex ops) (World s' ex (<[t := th']> ops))
  | step_section s ex ops t th th' s' :
      ops !! t = Some th -> may_run (delete t ops) th -> advance th s = Ret th' s' ->
      step (World s ex ops) (World s' ex (<[t := th']> ops))
  | step_return s ex ops t A (a : A) :
      ops !! t = Some (Thread A (Done a)) -> step (World s ex ops) (World s ex (delete t ops)).

(** States after initialisation: any process objects, no process running
    inside the scheduler, no operation in progress. *)
Definition initial (w : world) : Prop :=
  w_exec w = ∅ /\ w_ops w = ∅ /\ exists s, kds_sched_init s = Ret 0 (w_sched w).
(** Runs all of whose states satisfy [ok]. *)
Inductive run_in (ok : world -> Prop) : world -> Prop :=
  | run_init w : initial w -> ok w -> run_in ok w
  | run_step w w' : run_in ok w -> step w w' -> ok w' -> run_in ok w'.
(** No two operations handle the same process. *)
Definition single_handed (w : world) : Prop :=
  forall t1 t2 th1 th2 p, w_ops w !! t1 = Some th1 -> w_ops w !! t2 = Some th2 ->
    handles th1 = Some p -> handles th2 = Some p -> t1 = t2.
Definition reachable : world -> Prop := run_in single_handed.
Definition any_run : world -> Prop := run_in (fun _ => True).

(** *** Rely and guarantee *)
(** What the others leave alone: the process that the operation handles and
    the queue whose lock it owns. *)
Definition respects (o : option proc_ptr) (h : option Z) (s t : sched) : Prop :=
  (forall p, o = Some p -> attrs t !! p = attrs s !! p /\ (queued t p <-> queued s p)) /\
  (forall c, h = Some c -> queues t !! c = queues s !! c).
(** Whatever the others do in between, the sections of [c] that follow keep
    the queues consistent and touch only the process handled and the queue
    locked. *)
Fixpoint safe {A} (c : prog A) (s : sched) : Prop :=
  match c with
  | Done _ => True
  | Sec on lock kept m k =>
      forall s0, sched_ok s0 -> respects on (if kept then lock else None) s s0 ->
      forall b s1, m s0 = Ret b s1 ->
        sched_ok s1 /\ flags s1 = flags s0 /\ currents s1 = currents s0 /\ touches on lock s0 s1 /\ safe (k b) s1
  end.

Lemma respects_refl o h s : respects o h s s.
Proof. by split. Qed.
Lemma respects_trans o h s1 s2 s3 : respects o h s1 s2 -> respects o h s2 s3 -> respects o h s1 s3.
Proof.
  intros [A1 B1] [A2 B2]. split.
  - intros p Hp. destruct (A2 p Hp) as [-> E2], (A1 p Hp) as [-> E]. split; [done|]. by rewrite E2, E.
  - intros c Hc. by rewrite B2, B1.
Qed.
Lemma touches_respects o l o' h' s t :
  touches o l s t -> (forall p, o' = Some p -> o <> Some p) -> (forall c, h' = Some c -> l <> Some c) -> respects o' h' s t.
Proof. intros [HA HB] Ho Hl. split; [intros p Hp; by apply HA, Ho|intros c Hc; by apply HB, Hl]. Qed.
Lemma safe_others th s t : safe (th_prog th) s -> respects (handles th) (owns th) s t -> safe (th_prog th) t.
Proof.
  unfold handles, owns. destruct (th_prog th) as [a|B on lock kept m k]; [done|]. cbn [safe].
  intros H Hr s0 Hok Hr0. apply H; [done|]. by eapply respects_trans.
Qed.

(** A section that only reads. *)
Definition reads {B} (m : M sched B) : Prop := forall s b t, m s = Ret b t -> t = s.
Lemma reads_proc_get p : reads (proc_get p).
Proof. by intros s b t [-> _]%proc_get_inv. Qed.
Lemma reads_rq_get c : reads (rq_get c).
Proof. by intros s b t [-> _]%rq_get_inv. Qed.
Lemma safe_read {A B} o l (kept : bool) (m : M sched B) (k : B -> prog A) s :
  reads m ->
  (forall s0 b, sched_ok s0 -> respects o (if kept then l else None) s s0 -> m s0 = Ret b s0 -> safe (k b) s0) ->
  safe (Sec o l kept m k) s.
Proof.
  intros Hm Hk s0 Hok Hr b s1 H. pose proof (Hm _ _ _ H) as ->. split_and!; try done. by apply Hk.
Qed.
(** A section that changes a process on no queue. *)
Lemma safe_mod {A} p f (k : unit -> prog A) s :
  ~ queued s p -> (forall x, running (f x) = running x) ->
  (forall t y, ~ queued t p -> procs t !! p = Some (f y) -> safe (k tt) t) ->
  safe (Sec (Some p) None false (proc_mod p f) k) s.
Proof.
  intros Hn Hf Hk s0 Hok [Hr _] [] s1 H. destruct (Hr p eq_refl) as [_ Hq].
  destruct (preserves_proc_mod p f Hf _ _ _ H) as [Hfl Hcu]. apply proc_mod_inv in H as (x & Hx & ->).
  destruct (proc_mod_unqueued s0 p x f Hok ltac:(tauto) Hx) as (H1 & H2 & H3). split_and!; try done.
  apply (Hk _ x); [done|]. apply lookup_insert_eq.
Qed.
(** The critical sections that take a process off a queue or put it on. *)
Lemma proc_of_attrs s p a : attrs s !! p = Some a -> exists x, procs s !! p = Some x /\ a = (kind x, p_cpu x, node_init x).
Proof. unfold attrs. rewrite lookup_fmap. destruct (procs s !! p) as [x|]; [|done]. intros [= <-]. eauto. Qed.
Lemma safe_dequeue {A} p c (k : unit -> prog A) s x :
  queued s p -> procs s !! p = Some x -> p_cpu x = c -> (forall t, ~ queued t p -> safe (k tt) t) ->
  safe (Sec (Some p) (Some c) false (dequeue c p) k) s.
Proof.
  intros Hq Hx <- Hk s0 Hok [Hr _] [] s1 H. destruct (Hr p eq_refl) as [Ha Hq0]. rewrite (attrs_lookup s p x Hx) in Ha.
  apply proc_of_attrs in Ha as (y & Hy & [= _ Hc _]). destruct (dequeue_preserves _ _ _ _ _ H) as [Hfl Hcu]. rewrite Hc in H |- *.
  destruct (dequeue_ok s0 p y s1 Hok ltac:(tauto) Hy H) as (H1 & H2 & _ & H4). split_and!; try done. by apply Hk.
Qed.
Lemma safe_enqueue {A} p c (k : unit -> prog A) s x :
  ~ queued s p -> procs s !! p = Some x -> p_cpu x = c -> (forall t, safe (k tt) t) ->
  safe (Sec (Some p) (Some c) false (enqueue c p) k) s.
Proof.
  intros Hq Hx <- Hk s0 Hok [Hr _] [] s1 H. destruct (Hr p eq_refl) as [Ha Hq0]. rewrite (attrs_lookup s p x Hx) in Ha.
  apply proc_of_attrs in Ha as (y & Hy & [= _ Hc _]). destruct (enqueue_preserves _ _ _ _ _ H) as [Hfl Hcu]. rewrite Hc in H |- *.
  destruct (enqueue_ok s0 p y s1 Hok ltac:(tauto) Hy H) as (H1 & H2). split_and!; try done.
Qed.
Lemma safe_stats {A} f (k : unit -> prog A) s : (forall t, safe (k tt) t) -> safe (Sec None None false (stats_mod f) k) s.
Proof.
  intros Hk s0 Hok _ [] s1 [_ <-]%Ret_inj. split_and!; done.
Qed.

(** *** The operations *)
Lemma least_loaded_safe {A} p cpus (k : Z -> prog A) : forall ml b s,
  (forall c t, respects (Some p) None s t -> safe (k c) t) -> safe (pbind (least_loaded p cpus ml b) k) s.
Proof.
  induction cpus as [|c cpus IH]; intros ml b s Hk; cbn [least_loaded pbind unlocked]; [apply Hk, respects_refl|].
  apply safe_read; [apply reads_rq_get|]. intros s0 r _ Hr _.
  destruct (nr_running r <? ml); apply IH; intros c' t Ht; eapply Hk, respects_trans; done.
Qed.
Lemma pbind_assoc {A B C} (c : prog A) (f : A -> prog B) (g : B -> prog C) s :
  safe (pbind c (fun a => pbind (f a) g)) s -> safe (pbind (pbind c f) g) s.
Proof.
  revert s. induction c as [a|T on lock kept m k IH]; [done|]. intros s H s0 Hok Hr b s1 Hm.
  destruct (H s0 Hok Hr b s1 Hm) as (H1 & H2 & H3 & H4 & H5). split_and!; try done. by apply IH.
Qed.
Lemma select_cpu_safe {A} p (k : Z -> prog A) s :
  (forall c t, respects (Some p) None s t -> safe (k c) t) -> safe (pbind (kds_select_cpu p) k) s.
Proof.
  intros Hk. unfold kds_select_cpu. cbn [pbind unlocked]. apply safe_read; [apply reads_proc_get|]. intros s0 x _ Hr _.
  assert (Hscan : forall t, respects (Some p) None s t -> safe (pbind (best <~ least_loaded p (for_each_cpu (allowed_cpus x)) UINT_MAX (-1) ;;;
              Done (if 0 <=? best then best else cpumask_first (allowed_cpus x))) k) t).
  { intros t Ht. apply pbind_assoc. apply least_loaded_safe. intros c t' Ht'. eapply Hk, respects_trans; done. }
  destruct (_ && _); [|by apply Hscan]. cbn [pbind]. apply safe_read; [apply reads_rq_get|]. intros s1 r _ Hr1 _.
  assert (respects (Some p) None s s1) by (by eapply respects_trans).
  destruct (_ <? UINT_MAX); [by apply Hk|by apply Hscan].
Qed.
(** The process goes on the queue of the CPU that is selected. *)
Lemma select_place_safe {A} p (f : Z -> kds_proc -> kds_proc) (k : Z -> prog A) s :
  ~ queued s p -> (forall c x, running (f c x) = running x /\ p_cpu (f c x) = c) -> (forall c t, safe (k c) t) ->
  safe (cpu <~ kds_select_cpu p ;;; unlocked (Some p) (proc_mod p (f cpu)) ;;; locked (Some p) cpu (enqueue cpu p) ;;; k cpu) s.
Proof.
  intros Hn Hf Hk. apply select_cpu_safe. intros c t [Hr _]. cbn [pbind unlocked locked].
  apply safe_mod; [destruct (Hr p eq_refl); tauto|intros x; by apply Hf|]. intros t1 y Hn1 Hy.
  apply (safe_enqueue p c _ t1 (f c y)); [done..|by apply Hf|]. intros t2. apply Hk.
Qed.

(** The first section of a call. *)
Definition called (s : sched) (th : thread) : Prop :=
  forall th' t, sched_ok s -> advance th s = Ret th' t ->
    sched_ok t /\ flags t = flags s /\ currents t = currents s /\ touches (handles th') None s t /\ safe (th_prog th') t.
Lemma called_read {A B} s o l (kept : bool) (m : M sched B) (k : B -> prog A) :
  reads m -> (forall b, sched_ok s -> m s = Ret b s -> safe (k b) s) -> called s (Thread A (Sec o l kept m k)).
Proof.
  intros Hm Hk th' t Hok H. unfold advance in H. cbn [th_prog] in H. apply bind_inv in H as (b & s1 & Hb & [<- <-]%Ret_inj).
  pose proof (Hm _ _ _ Hb) as ->. split_and!; try done. by apply Hk.
Qed.
Lemma reads_read_cpu p : reads (read_cpu p).
Proof. intros s b t H. unfold read_cpu in H. by repeat inv_step. Qed.
Lemma read_cpu_inv p s c t : read_cpu p s = Ret c t -> exists x, procs s !! p = Some x /\ p_cpu x = c.
Proof. intros H. unfold read_cpu in H. repeat inv_step. eauto. Qed.

Lemma unregister_called s p : queued s p -> called s (Thread unit (kds_proc_unregister p)).
Proof.
  intros Hq. unfold kds_proc_unregister. cbn [pbind unlocked]. apply called_read; [apply reads_read_cpu|].
  intros c _ (x & Hx & Hc)%read_cpu_inv. apply (safe_dequeue p c _ s x); done.
Qed.
Lemma affinity_called s p mask : queued s p -> called s (Thread Z (kds_proc_set_affinity (Some p) mask)).
Proof.
  intros Hq. unfold kds_proc_set_affinity. case_decide; [by intros th' t Hok [<- <-]%Ret_inj|].
  cbn [pbind unlocked]. apply called_read; [apply reads_read_cpu|]. intros c _ (x & Hx & Hc)%read_cpu_inv. case_decide.
  - cbn [pbind]. intros s0 Hok _ [] s1 Hm. destruct (preserves_proc_mod p (set_allowed mask) (fun _ => eq_refl) _ _ _ Hm) as [Hfl Hcu].
    apply proc_mod_inv in Hm as (y & Hy & ->). pose proof (attrs_same s0 y p (set_allowed mask) Hy eq_refl eq_refl eq_refl) as Ha.
    split_and!; try done; [by eapply sched_ok_same|by apply touches_same].
  - apply (safe_dequeue p c _ s x); [done..|]. intros t Hn. cbn [pbind].
    apply safe_mod; [done..|]. intros t1 y Hn1 _. cbn [pbind].
    apply (select_place_safe p set_p_cpu); [done..|]. intros c' t2. cbn [pbind unlocked]. by apply safe_stats.
Qed.
Lemma find_loads_safe {A} cpus (k : Z * Z * Z * Z -> prog A) : forall a b c d s,
  (forall r t, safe (k r) t) -> safe (pbind (find_loads cpus a b c d) k) s.
Proof.
  induction cpus as [|x cpus IH]; intros a b c d s Hk; cbn [find_loads pbind unlocked]; [apply Hk|].
  apply safe_read; [apply reads_rq_get|]. intros s0 r _ _ _. destruct (a <? _), (_ <? c); by apply IH.
Qed.
Lemma first_movable_safe {A} src l dst (k : option proc_ptr -> prog A) e : forall s,
  queues s !! src = Some e ->
  (forall o t, (forall p, o = Some p -> p ∈ l) -> queues t !! src = Some e -> safe (k o) t) ->
  safe (pbind (first_movable src l dst) k) s.
Proof.
  induction l as [|p l IH]; intros s He Hk; cbn [first_movable pbind still_locked]; [by apply Hk|].
  apply safe_read; [apply reads_proc_get|]. intros s0 x _ [_ Hr] _.
  assert (He0 : queues s0 !! src = Some e) by (by rewrite (Hr src eq_refl)).
  destruct (_ && _); cbn [pbind].
  - apply Hk; [|done]. intros q [= <-]. left.
  - apply IH; [done|]. intros o t Ho. apply Hk. intros q Hq. right. by apply Ho.
Qed.
Lemma balance_safe s : safe kds_load_balance s.
Proof.
  unfold kds_load_balance. apply find_loads_safe. intros [[[ma src] mi] dst] t.
  destruct (_ || _); [done|]. cbn [pbind locked]. apply safe_read; [apply reads_rq_get|]. intros s0 r _ _ [_ Hr]%rq_get_inv.
  apply (first_movable_safe _ _ _ _ _ s0 (queues_lookup s0 src r Hr)). intros [p|] t0 Hin He; [|done]. specialize (Hin p eq_refl).
  cbn [pbind still_locked locked unlocked]. intros s1 Hok [_ Hq] [] s2 Hm. specialize (Hq src eq_refl). rewrite He in Hq.
  unfold queues in Hq. rewrite lookup_fmap in Hq. destruct (kds_runqueues s1 !! src) as [r1|] eqn:Hr1; [|done].
  injection Hq as Hs1 _ _. rewrite <- Hs1 in Hin. destruct (take_preserves _ _ _ _ _ Hm) as [Hfl Hcu].
  destruct (take_ok s1 src r1 p s2 Hok Hr1 Hin Hm) as (H1 & H2 & H3 & x & Hx & Hk). split_and!; try done.
  cbn [pbind]. intros s3 Hok3 [Hr3 _] [] s4 Hm4. destruct (Hr3 p eq_refl) as [Ha Hq3].
  rewrite (attrs_lookup s2 p x Hx) in Ha. apply proc_of_attrs in Ha as (y & Hy & [= Hky _ _]).
  destruct (put_preserves _ _ _ _ _ Hm4) as [Hfl4 Hcu4].
  destruct (put_ok s3 p y dst s4 Hok3 ltac:(tauto) Hy ltac:(congruence) Hm4) as [H5 H6]. split_and!; try done.
  cbn [pbind]. by apply safe_stats.
Qed.
Lemma balance_called s : called s (Thread unit kds_load_balance).
Proof.
  intros th' t Hok H. pose proof (balance_safe s) as Hs. revert Hs H. unfold kds_load_balance.
  generalize (for_each_cpu cpu_online_mask) as cpus. intros cpus. destruct cpus as [|c cpus]; cbn [find_loads pbind unlocked].
  - intros _ [<- <-]%Ret_inj. split_and!; done.
  - intros Hs H. unfold advance in H. cbn [th_prog th_type] in H. apply bind_inv in H as (r & s1 & Hr & [<- <-]%Ret_inj).
    destruct (Hs s Hok (respects_refl _ _ _) r s1 Hr) as (H1 & H2 & H3 & _ & H5).
    apply rq_get_inv in Hr as [-> _]. done.
Qed.
(** Registration resets the flag of its process. *)
Lemma register_called s p th' t :
  sched_ok s -> ~ queued s p -> advance (Thread Z (kds_proc_register (Some p))) s = Ret th' t ->
  sched_ok t /\ (flags t = flags s \/ flags t = <[p := false]> (flags s)) /\ currents t = currents s /\
  touches (handles th') None s t /\ safe (th_prog th') t.
Proof.
  intros Hok Hn H. unfold advance in H. cbn [th_prog kds_proc_register pbind unlocked] in H.
  apply bind_inv in H as (ok & s1 & Hp & [<- <-]%Ret_inj). unfold register_prepare in Hp.
  apply bind_inv in Hp as (x & s2 & [-> Hx]%proc_get_inv & Hp).
  destruct (negb (has_run x)); [apply Ret_inj in Hp as [<- <-]; split_and!; by try left|].
  apply bind_inv in Hp as (n & s2 & [<- <-]%Ret_inj & Hp). apply bind_inv in Hp as (u & s2 & [_ <-]%Ret_inj & Hp).
  apply bind_inv in Hp as (u2 & s2 & (y & Hy & ->)%proc_mod_inv & [<- <-]%Ret_inj). cbn [negb].
  cbn [procs set_next_pid] in Hy. assert (y = x) as -> by congruence.
  set (s0 := set_next_pid (u64 (kds_next_pid s + 1)) s) in *.
  destruct (proc_mod_unqueued s0 p x (fresh_proc (kds_next_pid s)) Hok Hn Hx) as (H1 & H2 & H3).
  split_and!; [done| |done| |].
  - right. unfold flags; cbn. by rewrite fmap_insert.
  - exact H3.
  - apply (select_place_safe p (fun c x => set_preferred_cpu c (set_p_cpu c x))); done.
Qed.

(** *** Running flags *)
Record exclusive (w : world) : Prop := {
  ex_exec : forall cpu p f, w_exec w !! cpu = Some (p, f) ->
    f = false /\ flags (w_sched w) !! p = Some true /\ currents (w_sched w) !! cpu = Some (Some p);
  ex_curr : forall cpu p, currents (w_sched w) !! cpu = Some (Some p) -> exists f, w_exec w !! cpu = Some (p, f);
  ex_inj : forall c1 c2 p f g, w_exec w !! c1 = Some (p, f) -> w_exec w !! c2 = Some (p, g) -> c1 = c2 }.

Lemma exclusive_same s s' ex ops ops' :
  flags s' = flags s -> currents s' = currents s -> exclusive (World s ex ops) -> exclusive (World s' ex ops').
Proof. intros H1 H2 [? ? ?]; split; cbn in *; by rewrite ?H1, ?H2. Qed.

Lemma initial_exclusive w : initial w -> exclusive w.
Proof.
  destruct w as [sc ex ops]. intros (He & _ & s & H). cbn [w_exec w_sched] in *. subst ex. unfold kds_sched_init in H. repeat inv_step.
  split; cbn; try (intros *; by rewrite lookup_empty).
  intros cpu p. unfold currents; cbn. rewrite lookup_fmap. destruct (_ !! cpu) as [r|] eqn:E; [|done].
  apply elem_of_list_to_map_2, list_elem_of_fmap in E as (c & [= -> ->] & _). done.
Qed.

Lemma idle_no_current s ex ops cpu r :
  exclusive (World s ex ops) -> ex !! cpu = None -> kds_runqueues s !! cpu = Some r -> curr_proc r = None.
Proof.
  intros [_ E2 _] Hi Hr. destruct (curr_proc r) as [q|] eqn:Hc; [|done].
  destruct (E2 cpu q) as [g Hg]; [|cbn in Hg; congruence]. cbn. unfold currents. rewrite lookup_fmap, Hr. cbn. by rewrite Hc.
Qed.
Lemma see_ready F s p x : ready (see F s) p x -> ready s p x.
Proof.
  intros [Hx Hr]. cbn [see procs set_procs] in Hx. rewrite map_lookup_imap in Hx. destruct (procs s !! p) as [y|] eqn:Hy; [|done].
  cbn in Hx. injection Hx as <-. by case_decide.
Qed.
(** What a begun round did: nothing, or it took a process that does not run. *)
Lemma begin_inv s ex ops F cpu o s' :
  ex !! cpu = None -> schedule_choose cpu (see F s) = Ret o (see F s) -> schedule_commit cpu o s = Ret tt s' ->
  exclusive (World s ex ops) ->
  (o = None /\ s' = s) \/
  (exists p x r, o = Some (p, false) /\ ready s p x /\ kds_runqueues s !! cpu = Some r /\ s' = started p x cpu r s).
Proof.
  intros Hidle H Hco Hw.
  assert (exists r, kds_runqueues s !! cpu = Some r) as [r Hr].
  { unfold schedule_choose in H. apply bind_inv in H as (r & ? & [_ Hr]%rq_get_inv & _). by exists r. }
  pose proof (idle_no_current s ex ops cpu r Hw Hidle Hr) as Hc.
  destruct (choose_idle_inv cpu (see F s) r o _ Hr Hc H) as [_ [[-> _]|(p & x & -> & Hx%see_ready & _)]].
  - left. by apply Ret_inj in Hco as [_ <-].
  - right. apply commit_inv in Hco as (x' & r' & Hx' & Hr' & ->). exists p, x, r. pose proof Hx as [Hx0 _].
    assert (x' = x) as -> by congruence. assert (r' = r) as -> by congruence. done.
Qed.
Lemma begin_exclusive s ex ops F cpu o s' :
  ex !! cpu = None -> schedule_choose cpu (see F s) = Ret o (see F s) -> schedule_commit cpu o s = Ret tt s' ->
  exclusive (World s ex ops) -> exclusive (World s' (enter cpu o ex) ops).
Proof.
  intros Hidle H Hco Hw. destruct (begin_inv _ _ _ _ _ _ _ Hidle H Hco Hw) as [[-> ->]|(p & x & r & -> & [Hx Hrun] & Hr & ->)]; [done|].
  destruct Hw as [E1 E2 E3]. cbn in *.
  assert (Hp : flags s !! p = Some false) by (unfold flags; rewrite lookup_fmap, Hx; cbn; by rewrite Hrun).
  assert (Hfl : flags (started p x cpu r s) = <[p := true]> (flags s)) by (unfold flags, started; cbn; by rewrite fmap_insert).
  assert (Hcu : currents (started p x cpu r s) = <[cpu := Some p]> (currents s)) by (unfold currents, started; cbn; by rewrite fmap_insert).
  split; cbn [w_exec w_sched enter]; rewrite ?Hfl, ?Hcu.
  - intros c q f [[<- [= <- <-]]|[Hne Hq]]%lookup_insert_Some; [by rewrite !lookup_insert_eq|].
    destruct (E1 c q f Hq) as (-> & Hf & Hcq). split; [done|]. rewrite (lookup_insert_ne _ cpu) by done. split; [|done].
    rewrite lookup_insert_ne; [done|]. intros ->. congruence.
  - intros c q [[<- [= <-]]|[Hne Hq]]%lookup_insert_Some; [by exists false; rewrite lookup_insert_eq|].
    rewrite lookup_insert_ne by done. by apply E2.
  - assert (Hno : forall c f, ex !! c <> Some (p, f)).
    { intros c f Hq. destruct (E1 c p f Hq) as (_ & Hf & _). congruence. }
    intros c1 c2 q f g [[<- [= <- <-]]|[? H1]]%lookup_insert_Some [[<- [= Hq]]|[? H2]]%lookup_insert_Some; subst; try done.
    + by apply Hno in H2.
    + by apply Hno in H1.
    + by apply (E3 c1 c2 q f g).
Qed.

Lemma end_flags cpu p e s t :
  schedule_end cpu p false e s = Ret tt t ->
  flags t = <[p := false]> (flags s) /\ currents t = <[cpu := None]> (currents s).
Proof.
  intros H. unfold schedule_end, kds_update_wait_time in H. cbn [negb] in H.
  apply bind_inv in H as (u1 & s1 & H1 & H). apply bind_inv in H as (u2 & s2 & H2 & H).
  assert (P1 : flags s1 = flags s /\ currents s1 = currents s).
  { eapply (preserves_bind (proc_get p)); [apply preserves_proc_get| |exact H1]. intros x.
    apply preserves_bind; [apply preserves_rq_get|]. intros r. apply update_waits_preserves. }
  assert (P2 : flags s2 = flags s1 /\ currents s2 = currents s1) by (by eapply (preserves_rq_mod cpu (add_rq_runtime e))).
  destruct P1 as [F1 C1], P2 as [F2 C2]. rewrite <- F1, <- C1, <- F2, <- C2. clear -H.
  repeat inv_step. unfold flags, currents; cbn. by rewrite !fmap_insert.
Qed.
Lemma end_exclusive s ex ops cpu p f e s' :
  ex !! cpu = Some (p, f) -> schedule_end cpu p f e s = Ret tt s' -> exclusive (World s ex ops) ->
  exclusive (World s' (delete cpu ex) ops).
Proof.
  intros He H [E1 E2 E3]. cbn in *. destruct (E1 cpu p f He) as (-> & _). apply end_flags in H as [Hf Hc].
  split; cbn [w_exec w_sched]; rewrite ?Hf, ?Hc.
  - intros c q g [Hne Hq]%lookup_delete_Some. destruct (E1 c q g Hq) as (-> & Hfl & Hcu).
    split; [done|]. rewrite (lookup_insert_ne _ cpu) by done. split; [|done].
    rewrite lookup_insert_ne; [done|]. intros ->. apply Hne. by apply (E3 cpu c q false false).
  - intros c q [[<- [=]]|[Hne Hq]]%lookup_insert_Some. rewrite lookup_delete_ne by done. by apply E2.
  - intros c1 c2 q g h [_ H1]%lookup_delete_Some [_ H2]%lookup_delete_Some. by apply (E3 c1 c2 q g h).
Qed.
Lemma reset_exclusive s ex ops ops' p s' :
  ~ executing ex p -> flags s' = flags s \/ flags s' = <[p := false]> (flags s) -> currents s' = currents s ->
  exclusive (World s ex ops) -> exclusive (World s' ex ops').
Proof.
  intros Hne [Hf|Hf] Hc Hw; [by eapply exclusive_same|]. destruct Hw as [E1 E2 E3].
  split; cbn [w_exec w_sched] in *; rewrite ?Hf, ?Hc; try done.
  intros c q f Hq. destruct (E1 c q f Hq) as (-> & Hfl & Hcu). split; [done|]. split; [|done].
  rewrite lookup_insert_ne; [done|]. intros ->. apply Hne. by exists c, false.
Qed.

(** *** The invariant *)
Record inv (w : world) : Prop := {
  inv_queues : sched_ok (w_sched w);
  inv_flags : exclusive w;
  inv_ops : forall t th, w_ops w !! t = Some th -> safe (th_prog th) (w_sched w) }.

Lemma same_safe s t th : attrs t = attrs s -> queues t = queues s -> safe (th_prog th) s -> safe (th_prog th) t.
Proof.
  intros Ha Hq H. eapply safe_others; [exact H|]. eapply (touches_respects None None); [by apply touches_same|done|done].
Qed.
Lemma call_inv s ex ops th th' t :
  call s ex th -> sched_ok s -> exclusive (World s ex ops) -> advance th s = Ret th' t ->
  sched_ok t /\ (forall ops', exclusive (World t ex ops')) /\ touches (handles th') None s t /\ safe (th_prog th') t.
Proof.
  intros [p Hne Hn|p Hq|p mask Hq|] Hok Hex H.
  - destruct (register_called s p th' t Hok Hn H) as (H1 & H2 & H3 & H4 & H5). split_and!; try done.
    intros ops'. by eapply reset_exclusive.
  - destruct (unregister_called s p Hq th' t Hok H) as (H1 & H2 & H3 & H4 & H5). split_and!; try done.
    intros ops'. by eapply exclusive_same.
  - destruct (affinity_called s p mask Hq th' t Hok H) as (H1 & H2 & H3 & H4 & H5). split_and!; try done.
    intros ops'. by eapply exclusive_same.
  - destruct (balance_called s th' t Hok H) as (H1 & H2 & H3 & H4 & H5). split_and!; try done.
    intros ops'. by eapply exclusive_same.
Qed.
Lemma section_inv s th th' t :
  sched_ok s -> safe (th_prog th) s -> advance th s = Ret th' t ->
  sched_ok t /\ flags t = flags s /\ currents t = currents s /\ touches (handles th) (wants th) s t /\ safe (th_prog th') t.
Proof.
  unfold advance, handles, wants. destruct th as [A [a|B on lock kept m k]]; cbn [th_prog th_type]; intros Hok Hs H.
  - by apply Ret_inj in H as [<- <-].
  - apply bind_inv in H as (b & s1 & Hb & [<- <-]%Ret_inj).
    destruct (Hs s Hok (respects_refl _ _ _) b s1 Hb) as (H1 & H2 & H3 & H4 & H5). done.
Qed.
Lemma step_inv w w' : single_handed w -> step w w' -> single_handed w' -> inv w -> inv w'.
Proof.
  intros Hsh Hst Hsh' [HQ HE HS]. destruct Hst as [s ex ops F cpu o s' Hi Hl Hch Hco|s ex ops cpu p f e s' He Hl H
    |s ex ops t th th' s' Ht Hc Hm H|s ex ops t th th' s' Ht Hm H|s ex ops t A a Ht]; cbn [w_sched w_ops] in *.
  - assert (attrs s' = attrs s /\ queues s' = queues s) as [Ha Hq].
    { destruct (begin_inv _ _ _ _ _ _ _ Hi Hch Hco HE) as [[_ ->]|(p & x & r & _ & [Hx _] & Hr & ->)]; [done|by apply started_views]. }
    split; [by apply (sched_ok_same s)|by eapply begin_exclusive|]. intros t th Ht. apply (same_safe s); [done..|by eapply HS].
  - apply end_views in H as Hv. destruct Hv as [Ha Hq]. split; [by apply (sched_ok_same s)|by eapply end_exclusive|].
    intros t th Ht. apply (same_safe s); [done..|by eapply HS].
  - destruct (call_inv s ex ops th th' s' Hc HQ HE H) as (H1 & H2 & H3 & H4). split; [done|apply H2|].
    cbn [w_sched w_ops]. intros t' th2 [[<- <-]|[Hne Ht']]%lookup_insert_Some; [done|]. eapply safe_others; [by eapply HS|].
    eapply touches_respects; [exact H3| |done]. intros p Hp Hp'. apply Hne.
    apply (Hsh' t t' th' th2 p); cbn; [by rewrite lookup_insert_eq|by rewrite lookup_insert_ne|done|done].
  - destruct (section_inv s th th' s' HQ (HS t th Ht) H) as (H1 & H2 & H3 & H4 & H5).
    split; [done|by eapply exclusive_same|].
    cbn [w_sched w_ops]. intros t' th2 [[<- <-]|[Hne Ht']]%lookup_insert_Some; [done|]. eapply safe_others; [by eapply HS|].
    eapply touches_respects; [exact H4| |].
    + intros p Hp Hp'. apply Hne. by apply (Hsh t t' th th2 p).
    + intros c Hc Hc'. apply (Hm c Hc' t' th2); [by rewrite lookup_delete_ne|done].
  - split; [done|by eapply exclusive_same|]. cbn [w_sched w_ops]. intros t' th [_ Ht']%lookup_delete_Some. by apply (HS t').
Qed.
Lemma initial_inv w : initial w -> inv w.
Proof.
  intros Hi. split; [|by apply initial_exclusive|].
  - destruct w as [sc ex ops], Hi as (_ & _ & s & H). cbn [w_sched] in *. unfold kds_sched_init in H. repeat inv_step.
    intros c sys ses n Hc. unfold queues in Hc. rewrite lookup_fmap in Hc. cbn in Hc.
    destruct (_ !! c) as [r|] eqn:E; [|done]. apply elem_of_list_to_map_2, list_elem_of_fmap in E as (c' & [= -> ->] & _).
    injection Hc as <- <- <-. split_and!; try constructor; intros p Hp; by apply not_elem_of_nil in Hp.
  - destruct Hi as (_ & -> & _). intros t th Ht. by rewrite lookup_empty in Ht.
Qed.
Lemma run_in_ok ok w : run_in ok w -> ok w.
Proof. by destruct 1. Qed.
Lemma reachable_inv w : reachable w -> inv w.
Proof.
  induction 1 as [w Hi _|w w' Hr IH Hst Hsh]; [by apply initial_inv|].
  eapply step_inv; [by eapply run_in_ok|done..].
Qed.

(** C26.  In every run in which no two operations handle the same process
    at once - workers, registrations, removals, affinity changes and load
    balancing interleaved section by section - no process is inside its
    callback on two CPUs, and a process that runs has its [running] flag
    set and is the current process of that CPU.  (Without that discipline
    the sections under two different locks can work on the same list, see
    [affinity_balance_race].) *)
Theorem process_runs_on_one_cpu w c1 c2 p f g :
  reachable w -> w_exec w !! c1 = Some (p, f) -> w_exec w !! c2 = Some (p, g) ->
  c1 = c2 /\ exists x r, procs (w_sched w) !! p = Some x /\ running x = true /\
    kds_runqueues (w_sched w) !! c1 = Some r /\ curr_proc r = Some p.
Proof.
  intros [_ [E1 _ E3] _]%reachable_inv H1 H2. split; [by eapply E3|].
  destruct (E1 c1 p f H1) as (_ & Hf & Hc). unfold flags, currents in *. rewrite lookup_fmap in Hf. rewrite lookup_fmap in Hc.
  destruct (procs (w_sched w) !! p) as [x|]; [|done]. destruct (kds_runqueues (w_sched w) !! c1) as [r|]; [|done].
  exists x, r. injection Hf as Hf. injection Hc as Hc. done.
Qed.

(** The fast path of [kds_proc_schedule] is dead code: a worker that
    enters the scheduler finds no current process on its queue (the slow
    path clears it when the callback returns), so the queue is scanned on
    every call and the chosen process is the first ready one with the
    highest priority. *)
Theorem fast_path_never_taken w cpu r p f s' :
  reachable w -> w_exec w !! cpu = None -> kds_runqueues (w_sched w) !! cpu = Some r ->
  schedule_begin cpu (w_sched w) = Ret (Some (p, f)) s' ->
  f = false /\ curr_proc r = None /\ first_best (w_sched w) (system_procs r) p.
Proof.
  intros [_ HE _]%reachable_inv Hi Hr H. destruct w as [s ex ops]. cbn [w_sched w_exec] in *.
  pose proof (idle_no_current s ex ops cpu r HE Hi Hr) as Hc.
  destruct (begin_idle_inv cpu s r _ _ Hr Hc H) as [(? & _)|(q & x & [= -> ->] & _ & Hb & _)]; done.
Qed.

(** C12.  In every state of every run in which no two operations handle the
    same process at once, between any two sections: the run queues are
    consistent (the counter of a queue is the number of its entries modulo
    2^32, no entry occurs twice, and every entry is a process of the kind
    of the list whose [cpu] field names this queue, so a process is on at
    most one queue), and the next section of every operation in progress
    changes only the queue whose lock it owns. *)
Theorem queues_consistent w :
  reachable w ->
  (forall c r, kds_runqueues (w_sched w) !! c = Some r ->
    nr_running r = u32 (zlen (system_procs r) + zlen (session_procs r)) /\
    NoDup (system_procs r) /\ NoDup (session_procs r) /\
    (forall p, p ∈ system_procs r -> exists x, procs (w_sched w) !! p = Some x /\ kind x = KDS_PROC_SYSTEM /\ p_cpu x = c) /\
    (forall p, p ∈ session_procs r -> exists x, procs (w_sched w) !! p = Some x /\ kind x = KDS_PROC_SESSION /\ p_cpu x = c)) /\
  (forall t th th' s', w_ops w !! t = Some th -> advance th (w_sched w) = Ret th' s' ->
    forall c, wants th <> Some c -> queues s' !! c = queues (w_sched w) !! c).
Proof.
  intros [HQ _ HS]%reachable_inv. split.
  - intros c r Hc. destruct (HQ _ _ _ _ (queues_lookup _ c r Hc)) as (H1 & H2 & H3 & H4 & H5). split_and!; try done.
    + intros p (x & Hx & [= Hk Hcpu _])%H4%proc_of_attrs. by exists x.
    + intros p [b (x & Hx & [= Hk Hcpu _])%proc_of_attrs]%H5. by exists x.
  - intros t th th' s' Ht H c Hc. destruct (section_inv _ _ _ _ HQ (HS t th Ht) H) as (_ & _ & _ & [_ Hl] & _). by apply Hl.
Qed.

(** *** Operations that run alone *)
(** [n] sections of a thread; the whole of an operation. *)
Fixpoint advances (n : nat) (th : thread) : M sched thread :=
  match n with O => ret th | S n => th' <- advance th ;; advances n th' end.
Definition quiet (ops : gmap nat thread) : Prop := forall t th, ops !! t = Some th -> owns th = None.
Lemma quiet_may_run ops th : quiet ops -> may_run ops th.
Proof. intros H cpu _ t th' Ht. rewrite (H t th' Ht). done. Qed.
Lemma quiet_delete ops t : quiet ops -> quiet (delete t ops).
Proof. intros H t' th [_ Ht]%lookup_delete_Some. by eapply H. Qed.
Section Alone.
Context (ok : world -> Prop) (ex : gmap Z (proc_ptr * bool)) (ops : gmap nat thread) (t : nat).
Context (Hok : forall s th, ok (World s ex (<[t := th]> ops))) (Ht : ops !! t = None) (Hquiet : quiet ops).

Lemma run_advances n : forall th th' s s',
  run_in ok (World s ex (<[t := th]> ops)) -> advances n th s = Ret th' s' -> run_in ok (World s' ex (<[t := th']> ops)).
Proof.
  induction n as [|n IH]; cbn [advances]; intros th th' s s' Hr H; [by apply Ret_inj in H as [<- <-]|].
  apply bind_inv in H as (th1 & s1 & H1 & H). eapply IH; [|exact H]. eapply run_step; [exact Hr| |apply Hok].
  rewrite <- (insert_insert_eq ops t th1 th). eapply step_section; [apply lookup_insert_eq| |exact H1].
  apply quiet_may_run. rewrite delete_insert_eq. by apply quiet_delete.
Qed.
Lemma run_alone {A} (c : prog A) : forall s a s', run_in ok (World s ex (<[t := Thread A c]> ops)) ->
  alone c s = Ret a s' -> run_in ok (World s' ex (<[t := Thread A (Done a)]> ops)).
Proof.
  induction c as [b|B on lock kept m k IH]; cbn [alone]; intros s a s' Hr H; [by apply Ret_inj in H as [<- <-]|].
  apply bind_inv in H as (b & s1 & Hm & H). apply (IH b s1 a s'); [|exact H].
  apply (run_advances 1 (Thread A (Sec on lock kept m k)) (Thread A (k b)) s s1 Hr).
  cbn [advances]. erewrite bind_ok by (unfold advance; cbn [th_prog th_type]; erewrite bind_ok by exact Hm; reflexivity). done.
Qed.
(** A call that nobody interrupts does what [alone] says. *)
Lemma run_call {A} (c : prog A) s a s' :
  run_in ok (World s ex ops) -> call s ex (Thread A c) -> alone c s = Ret a s' -> ok (World s' ex ops) ->
  run_in ok (World s' ex ops).
Proof.
  intros Hr Hc H Hok'. apply (run_step _ (World s' ex (<[t := Thread A (Done a)]> ops))); [| |done].
  - destruct c as [b|B on lock kept m k]; cbn [alone] in H.
    + apply Ret_inj in H as [<- <-]. eapply run_step; [exact Hr| |apply Hok].
      eapply step_call; [done|exact Hc|by apply quiet_may_run|reflexivity].
    + apply bind_inv in H as (b & s1 & Hm & H). apply (run_alone (k b) s1 a s'); [|exact H].
      eapply run_step; [exact Hr| |apply Hok]. eapply step_call; [done|exact Hc|by apply quiet_may_run|].
      unfold advance; cbn [th_prog th_type]. by erewrite bind_ok by exact Hm.
  - rewrite <- (delete_insert_id ops t (Thread A (Done a))) at 2 by done. eapply step_return. apply lookup_insert_eq.
Qed.
End Alone.
End Interleaving.

(** ** Load balancing *)
Section Balance.
Context `{Mc : Machine}.
Lemma alone_pbind {A B} (c : prog A) (f : A -> prog B) s : alone (pbind c f) s = bind (alone c) (fun a => alone (f a)) s.
Proof.
  revert s. induction c as [a|T on lock kept m k IH]; intros s; [done|]. cbn [pbind alone]. rewrite bind_assoc.
  unfold bind. destruct (m s) as [b s1|h s1]; [|done]. apply IH.
Qed.
Lemma none_movable src l c s :
  (forall p, p ∈ l -> exists x, procs s !! p = Some x /\ (running x = true \/ ~ c ∈ allowed_cpus x)) ->
  alone (first_movable src l c) s = Ret None s.
Proof.
  induction l as [|p l IH]; intros H; [done|]. cbn [first_movable pbind still_locked alone].
  destruct (H p ltac:(left)) as (x & Hx & Hc). erewrite bind_ok by (by apply proc_get_ok).
  assert (negb (running x) && bool_decide (c ∈ allowed_cpus x) = false) as ->.
  { destruct Hc as [-> |Hc]; [done|]. rewrite bool_decide_eq_false_2 by done. apply andb_false_r. }
  apply IH. intros q Hq. apply H. by right.
Qed.
(** Load balancing corrupts memory when the loads differ by more than
    the threshold and no process of the loaded queue can move: all are
    running or not allowed on the other CPU, or the queue holds sessions
    only.  The test [if (proc)] is meant to catch this, but the cursor of
    [list_for_each_entry] is never NULL. *)
Theorem load_balance_corrupts s max_load max_cpu min_load min_cpu r :
  alone (find_loads (for_each_cpu cpu_online_mask) 0 (-1) UINT_MAX (-1)) s = Ret (max_load, max_cpu, min_load, min_cpu) s ->
  max_cpu <> -1 -> min_cpu <> -1 -> KDS_LOAD_BALANCE_THRESHOLD < max_load - min_load < 2 ^ 32 ->
  kds_runqueues s !! max_cpu = Some r ->
  (forall p, p ∈ system_procs r -> exists x, procs s !! p = Some x /\ (running x = true \/ ~ min_cpu ∈ allowed_cpus x)) ->
  alone kds_load_balance s = Halt Fault s.
Proof.
  intros Hl H1 H2 Hd Hr Hp. unfold kds_load_balance. rewrite alone_pbind. erewrite bind_ok by exact Hl.
  cbn beta iota. apply Z.eqb_neq in H1 as ->. apply Z.eqb_neq in H2 as ->. cbn [orb].
  rewrite u32_small by (unfold KDS_LOAD_BALANCE_THRESHOLD in Hd; lia).
  destruct (Z.leb_spec (max_load - min_load) KDS_LOAD_BALANCE_THRESHOLD); [lia|].
  cbn [pbind locked alone]. erewrite bind_ok by (by apply rq_get_ok). rewrite alone_pbind. by erewrite bind_ok by (by apply none_movable).
Qed.
End Balance.

(** ** Two CPUs and a few system processes *)
(** The state a computation ends in, and the rest of an operation after its
    first section. *)
Definition after {S A} (m : M S A) (s : S) : S := match m s with Ret _ t => t | Halt _ t => t end.
Definition is_ret {S A} (m : M S A) (s : S) : bool := match m s with Ret _ _ => true | Halt _ _ => false end.
Lemma is_ret_after {S A} (m : M S A) s : is_ret m s = true -> exists a, m s = Ret a (after m s).
Proof. unfold is_ret, after. destruct (m s); [eauto|done]. Qed.
Definition rest {A} (c : prog A) (s : sched) : prog A :=
  match c with Done a => Done a | Sec _ _ _ m k => match m s with Ret b _ => k b | Halt _ _ => c end end.
Lemma advance_rest {A} (c : prog A) s : is_ret (advance (Thread A c)) s = true ->
  advance (Thread A c) s = Ret (Thread A (rest c s)) (after (advance (Thread A c)) s).
Proof.
  unfold is_ret, after, advance, rest. cbn [th_prog th_type]. destruct c as [a|B on lock kept m k]; [done|].
  unfold bind. by destruct (m s).
Qed.

Section Demo.
Definition duo : Machine := {| nr_cpu_ids := 2; cpu_online_mask := {[0; 1]}; m_ns := fun t => 10 * Z.of_nat t |}.
#[local] Existing Instance duo.
Definition demo_proc (prio : Z) (cpus : cpumask) : kds_proc :=
  Proc 0 KDS_PROC_SYSTEM KDS_PROC_STATE_READY 0 prio 0 0 0 0 (-1) cpus false true false.
Definition demo_boot : sched := Sched {[1%nat := demo_proc 3 ∅; 2%nat := demo_proc 7 ∅]} ∅ 1 (SchedStats 0 0 0) 0.
Definition demo_s0 : sched := after kds_sched_init demo_boot.
Definition demo_s1 : sched := after (alone (kds_proc_register (Some 1%nat))) demo_s0.
Definition demo_s2 : sched := after (schedule_begin 0) demo_s1.
Definition demo_ex : gmap Z (proc_ptr * bool) := {[0 := (1%nat, false)]}.

Lemma initial_demo s : initial (World (after kds_sched_init s) ∅ ∅).
Proof. split; [done|]. split; [done|]. by exists s. Qed.
Lemma single_one s ex t th : single_handed (World s ex (<[t := th]> ∅)).
Proof.
  intros t1 t2 th1 th2 p H1 H2 _ _. cbn in H1, H2.
  apply lookup_insert_Some in H1 as [[<- _]|[_ H1]]; [|by rewrite lookup_empty in H1].
  apply lookup_insert_Some in H2 as [[<- _]|[_ H2]]; [done|by rewrite lookup_empty in H2].
Qed.
Lemma single_none s ex : single_handed (World s ex ∅).
Proof. intros t1 t2 th1 th2 p H1. cbn in H1. by rewrite lookup_empty in H1. Qed.
Lemma quiet_none : quiet ∅.
Proof. intros t th H. by rewrite lookup_empty in H. Qed.
(** Which processes are on a queue, decided. *)
Definition queuedb (s : sched) (p : proc_ptr) : bool :=
  existsb (fun '(_, r) => bool_decide (p ∈ system_procs r) || bool_decide (p ∈ session_procs r)) (map_to_list (kds_runqueues s)).
Lemma queuedb_spec s p : queuedb s p = true <-> queued s p.
Proof.
  unfold queuedb. rewrite existsb_exists. split.
  - intros ([c r] & Hin & H). apply list_elem_of_In, elem_of_map_to_list, queues_lookup in Hin.
    exists c, (system_procs r), (session_procs r), (nr_running r). split; [done|].
    apply orb_true_iff in H as [H|H]; apply bool_decide_eq_true in H; auto.
  - intros (c & sys & ses & n & Hc & Hp). unfold queues in Hc. rewrite lookup_fmap in Hc.
    destruct (kds_runqueues s !! c) as [r|] eqn:Hr; [|done]. injection Hc as <- <- <-.
    exists (c, r). split; [by apply list_elem_of_In, elem_of_map_to_list|]. apply orb_true_iff.
    destruct Hp; [left|right]; by apply bool_decide_eq_true.
Qed.
Lemma queuedb_false s p : queuedb s p = false -> ~ queued s p.
Proof. intros H Hq%queuedb_spec. congruence. Qed.
Lemma idle_executing p : ~ executing ∅ p.
Proof. intros (c & f & H). by rewrite lookup_empty in H. Qed.

Lemma demo_reach1 : reachable (World demo_s1 ∅ ∅).
Proof.
  destruct (is_ret_after (alone (kds_proc_register (Some 1%nat))) demo_s0) as [a Ha]; [vm_compute; reflexivity|].
  apply (run_call _ ∅ ∅ 5%nat (fun s th => single_one s ∅ 5%nat th) eq_refl quiet_none (kds_proc_register (Some 1%nat)) demo_s0 a).
  - apply run_init; [apply initial_demo|apply single_none].
  - constructor; [apply idle_executing|]. apply queuedb_false. vm_compute. reflexivity.
  - exact Ha.
  - apply single_none.
Qed.
Lemma demo_reach2 : reachable (World demo_s2 demo_ex ∅).
Proof.
  apply (run_step _ (World demo_s1 ∅ ∅)); [apply demo_reach1| |apply single_none].
  apply (step_begin demo_s1 ∅ ∅ ∅ 0 (Some (1%nat, false))); [done|by intros t th H|vm_compute; reflexivity..].
Qed.
(** While process 1 runs on CPU 0, process 2 is moved off CPU 1: it has
    been taken off that queue and is on none. *)
Definition demo_s3 : sched := after (alone (kds_proc_register (Some 2%nat))) demo_s2.
Definition demo_move : prog Z := kds_proc_set_affinity (Some 2%nat) {[0]}.
Definition demo_s4 : sched := after (advance (Thread Z demo_move)) demo_s3.
Definition demo_moving : thread := Thread Z (rest demo_move demo_s3).
Definition demo_s5 : sched := after (advance demo_moving) demo_s4.
Definition demo_moved : thread := Thread Z (rest (th_prog demo_moving) demo_s4).
Lemma demo_reach3 : reachable (World demo_s3 demo_ex ∅).
Proof.
  destruct (is_ret_after (alone (kds_proc_register (Some 2%nat))) demo_s2) as [a Ha]; [vm_compute; reflexivity|].
  apply (run_call _ demo_ex ∅ 5%nat (fun s th => single_one s demo_ex 5%nat th) eq_refl quiet_none (kds_proc_register (Some 2%nat)) demo_s2 a).
  - apply demo_reach2.
  - constructor; [|apply queuedb_false; vm_compute; reflexivity].
    intros (c & f & H). unfold demo_ex in H. apply lookup_singleton_Some in H as [_ [=]].
  - exact Ha.
  - apply single_none.
Qed.
Lemma demo_reach5 : reachable (World demo_s5 demo_ex (<[7%nat := demo_moved]> ∅)).
Proof.
  apply (run_advances _ demo_ex ∅ 7%nat (fun s th => single_one s demo_ex 7%nat th) quiet_none 1 demo_moving demo_moved demo_s4).
  - apply (run_step _ (World demo_s3 demo_ex ∅)); [apply demo_reach3| |apply single_one].
    apply (step_call demo_s3 demo_ex ∅ 7%nat (Thread Z demo_move) demo_moving); [done| |by apply quiet_may_run, quiet_none|].
    + apply call_affinity. apply queuedb_spec. vm_compute. reflexivity.
    + refine (advance_rest demo_move demo_s3 _). vm_compute. reflexivity.
  - cbn [advances]. by erewrite bind_ok by (apply (advance_rest (rest demo_move demo_s3) demo_s4); vm_compute; reflexivity).
Qed.

Lemma process_runs_on_one_cpu_witness :
  exists x, procs demo_s5 !! 1%nat = Some x /\ running x = true.
Proof.
  destruct (process_runs_on_one_cpu (World demo_s5 demo_ex (<[7%nat := demo_moved]> ∅)) 0 0 1%nat false false demo_reach5
    eq_refl eq_refl) as (_ & x & r & H1 & H2 & _).
  exists x. split; [exact H1|exact H2].
Defined.
Lemma fast_path_never_taken_witness :
  exists r, kds_runqueues demo_s1 !! 0 = Some r /\ curr_proc r = None /\ first_best demo_s1 (system_procs r) 1%nat.
Proof.
  destruct (kds_runqueues demo_s1 !! 0) as [r|] eqn:Hr; [|vm_compute in Hr; discriminate].
  destruct (fast_path_never_taken (World demo_s1 ∅ ∅) 0 r 1%nat false demo_s2 demo_reach1 (lookup_empty _) Hr) as (_ & H1 & H2);
    [vm_compute; reflexivity|].
  exists r. split; [reflexivity|]. split; [exact H1|exact H2].
Defined.
Lemma queues_consistent_witness :
  (exists r, kds_runqueues demo_s5 !! 1 = Some r /\ system_procs r = [] /\ nr_running r = 0) /\
  (exists r, kds_runqueues demo_s5 !! 0 = Some r /\ nr_running r = u32 (zlen (system_procs r) + zlen (session_procs r))) /\
  queuedb demo_s5 2%nat = false.
Proof.
  destruct (queues_consistent (World demo_s5 demo_ex (<[7%nat := demo_moved]> ∅)) demo_reach5) as [H _].
  split; [vm_compute; eexists; split_and!; reflexivity|]. split; [|vm_compute; reflexivity].
  destruct (kds_runqueues demo_s5 !! 0) as [r|] eqn:Hr; [|vm_compute in Hr; discriminate].
  exists r. split; [reflexivity|]. exact (proj1 (H 0 r Hr)).
Defined.

(** *** Affinity against load balancing *)
(** Three processes on CPU 0.  The affinity of process 1 is set to CPU 1; a
    load balance runs between the read of the old CPU and its lock. *)
Definition race_proc : kds_proc :=
  Proc 0 KDS_PROC_SYSTEM KDS_PROC_STATE_READY 0 5 0 0 0 0 0 ∅ false true false.
Definition race_boot : sched :=
  Sched {[1%nat := race_proc; 2%nat := race_proc; 3%nat := race_proc]} ∅ 1 (SchedStats 0 0 0) 0.
Definition race_s0 : sched := after kds_sched_init race_boot.
Definition race_s1 : sched := after (alone (kds_proc_register (Some 1%nat))) race_s0.
Definition race_s2 : sched := after (alone (kds_proc_register (Some 2%nat))) race_s1.
Definition race_s3 : sched := after (alone (kds_proc_register (Some 3%nat))) race_s2.
Definition race_move : prog Z := kds_proc_set_affinity (Some 1%nat) {[1]}.
Definition race_s4 : sched := after (advance (Thread Z race_move)) race_s3.
Definition race_s5 : sched := after (alone kds_load_balance) race_s4.
Definition race_s6 : sched := after (alone (rest race_move race_s3)) race_s5.

Lemma race_call ops {A} (c : prog A) s : quiet ops -> ops !! 5%nat = None ->
  any_run (World s ∅ ops) -> call s ∅ (Thread A c) -> is_ret (alone c) s = true ->
  any_run (World (after (alone c) s) ∅ ops).
Proof.
  intros Hq Ht Hr Hc [a Ha]%is_ret_after. by apply (run_call _ ∅ ops 5%nat (fun _ _ => I) Ht Hq c s a).
Qed.
(** When an affinity change and a load balance handle the same process,
    counters go wrong: the change takes the process off the queue of CPU 1,
    to which it was balanced, but counts it off CPU 0, whose lock it holds,
    and then counts it onto CPU 1 again. *)
Theorem affinity_balance_race :
  exists s r0 r1, any_run (World s ∅ ∅) /\
    kds_runqueues s !! 0 = Some r0 /\ system_procs r0 = [2; 3]%nat /\ session_procs r0 = [] /\ nr_running r0 = 1 /\
    kds_runqueues s !! 1 = Some r1 /\ system_procs r1 = [1]%nat /\ session_procs r1 = [] /\ nr_running r1 = 2.
Proof.
  assert (H3 : any_run (World race_s3 ∅ ∅)).
  { repeat (apply race_call; [apply quiet_none|done| |constructor; [apply idle_executing|apply queuedb_false; vm_compute; reflexivity]|vm_compute; reflexivity]).
    apply run_init; [apply initial_demo|done]. }
  set (ops := <[7%nat := Thread Z (rest race_move race_s3)]> (∅ : gmap nat thread)).
  assert (Hq : quiet ops).
  { intros t th [[<- <-]|[_ H]]%lookup_insert_Some; [vm_compute; reflexivity|by rewrite lookup_empty in H]. }
  assert (H5 : any_run (World race_s5 ∅ ops)).
  { apply race_call; [done|done| |constructor|vm_compute; reflexivity]. apply (run_step _ (World race_s3 ∅ ∅)); [done| |done].
    apply (step_call race_s3 ∅ ∅ 7%nat (Thread Z race_move)); [done| |by apply quiet_may_run, quiet_none|].
    - apply call_affinity. apply queuedb_spec. vm_compute. reflexivity.
    - refine (advance_rest race_move race_s3 _). vm_compute. reflexivity. }
  destruct (is_ret_after (alone (rest race_move race_s3)) race_s5) as [a Ha]; [vm_compute; reflexivity|].
  pose proof (run_alone _ ∅ ∅ 7%nat (fun _ _ => I) quiet_none (rest race_move race_s3) race_s5 a _ H5 Ha) as H6.
  assert (H7 : any_run (World race_s6 ∅ ∅)).
  { apply (run_step _ (World race_s6 ∅ (<[7%nat := Thread Z (Done a)]> ∅))); [done| |done].
    rewrite <- (delete_insert_id (∅ : gmap nat thread) 7%nat (Thread Z (Done a))) at 2 by done. eapply step_return. apply lookup_insert_eq. }
  exists race_s6, (Runqueue [2; 3]%nat [] None 0 1), (Runqueue [1]%nat [] None 0 2).
  split; [exact H7|]. split; [vm_compute; reflexivity|]. do 3 (split; [reflexivity|]). split; [vm_compute; reflexivity|repeat split].
Qed.

(** Four sessions on CPU 0 and nobody on CPU 1. *)
Definition demo_crowd : sched :=
  Sched ∅ {[0 := Runqueue [] [1;2;3;4]%nat None 0 4; 1 := empty_rq]} 5 (SchedStats 0 0 0) 0.
Lemma load_balance_corrupts_witness : alone kds_load_balance demo_crowd = Halt Fault demo_crowd.
Proof.
  apply (load_balance_corrupts demo_crowd 4 0 0 1 (Runqueue [] [1;2;3;4]%nat None 0 4));
    [vm_compute; reflexivity|lia|lia|unfold KDS_LOAD_BALANCE_THRESHOLD; lia|vm_compute; reflexivity|].
  intros p Hp. by apply not_elem_of_nil in Hp.
Defined.
End Demo.
