(* ===== verification/ProcFair.v ===== *)
(** * ProcFair: no process of a run queue starves

    A round of [kds_proc_schedule] raises the priority of every process it
    passes over, so a process can be passed over only as often as the others
    have priority over it. *)
From S2P Require Import Prelude Layout Proc ProcSpec.
From stdpp Require Import prelude gmap list sets.
From Stdlib Require Import ZArith Lia.
Local Open Scope Z_scope.
Local Open Scope kds_scope.

Section Fairness.
Context `{Mc : Machine}.

(** A queue between two rounds: entries [l], nobody runs, priorities
    [prio] and pairwise different pids. *)
Definition idle_queue (s : sched) (cpu : Z) (l : list proc_ptr) (prio : proc_ptr -> Z) : Prop :=
  exists r pids, kds_runqueues s !! cpu = Some r /\ system_procs r = l /\ curr_proc r = None /\
    (forall p, p ∈ l -> exists x, procs s !! p = Some x /\ running x = false /\ dynamic_prio x = prio p /\ pid x = pids p) /\
    (forall p q, p ∈ l -> q ∈ l -> pids p = pids q -> p = q).
(** Everyone but the process that ran gains priority. *)
Definition bump (p : proc_ptr) (prio : proc_ptr -> Z) (q : proc_ptr) : Z := if decide (q = p) then prio q else prio q + 1.

Lemma update_waits_run l e i : forall s, NoDup l -> (forall p, p ∈ l -> is_Some (procs s !! p)) ->
  exists t, update_waits l e i s = Ret tt t /\ kds_runqueues t = kds_runqueues s /\
    forall p, procs t !! p = if decide (p ∈ l) then (fun x => if pid x =? i then charged e x else aged e x) <$> procs s !! p
                             else procs s !! p.
Proof.
  induction l as [|p l IH]; intros s Hnd Hl; cbn [update_waits].
  - exists s. split; [done|]. split; [done|]. intros p. by rewrite decide_False by apply not_elem_of_nil.
  - apply NoDup_cons in Hnd as [Hp Hnd]. destruct (Hl p ltac:(left)) as [x Hx].
    set (f := fun x => if pid x =? i then charged e x else aged e x) in *.
    erewrite bind_ok by (by apply proc_mod_ok). fold f. set (s1 := set_procs (<[p := f x]> (procs s)) s).
    destruct (IH s1) as (t & E & Hr & Ht); [done| |].
    { intros q Hq. cbn. destruct (decide (q = p)) as [->|]; [by rewrite lookup_insert_eq|].
      rewrite lookup_insert_ne by done. apply Hl. by right. }
    exists t. split; [done|]. split; [done|]. intros q. rewrite Ht. cbn [s1 procs set_procs].
    destruct (decide (q = p)) as [->|Hne].
    + rewrite decide_False by done. rewrite decide_True by left. by rewrite lookup_insert_eq, Hx.
    + rewrite lookup_insert_ne by done. destruct (decide (q ∈ l)) as [Hq|Hq].
      * by rewrite decide_True by (by right).
      * rewrite decide_False; [done|]. intros [?|?]%elem_of_cons; done.
Qed.

Definition in_range (prio : proc_ptr -> Z) (l : list proc_ptr) (n : Z) : Prop :=
  forall p, p ∈ l -> INT_MIN < prio p /\ prio p + n < 2 ^ 31.

(** One round on an idle queue whose callback does not use the scheduler:
    a process of highest priority runs and the others gain priority. *)
Lemma round_spec s cpu l prio res slice :
  idle_queue s cpu l prio -> NoDup l -> l <> [] -> in_range prio l 1 ->
  exists p s1 t, p ∈ l /\ (forall q, q ∈ l -> prio q <= prio p) /\
    schedule_begin cpu s = Ret (Some (p, false)) s1 /\
    kds_proc_schedule (fun _ _ => ret res) cpu slice s = Ret tt t /\ idle_queue t cpu l (bump p prio).
Proof.
  intros (r & pids & Hr & Hl & Hc & Hx & Hinj) Hnd Hne Hrange.
  assert (exists o t, schedule_begin cpu s = Ret o t) as (o & s1 & Hb).
  { assert (exists o, schedule_choose cpu s = Ret o s) as [o Ho].
    { unfold schedule_choose. erewrite bind_ok by (by apply rq_get_ok). rewrite Hc.
      assert ((if nr_running r <? num_online_cpus then ret false else ret false) s = Ret false s) as E by (by destruct (_ <? _)).
      erewrite bind_ok by exact E. cbn iota.
      destruct (pick_best_total (system_procs r) s) with (bp := INT_MIN) (b := @None proc_ptr) as [o Ho].
      { intros p. rewrite Hl. intros (x & ? & _)%Hx. eauto. }
      erewrite bind_ok by exact Ho. by eexists. }
    unfold schedule_begin. erewrite bind_ok by exact Ho.
    destruct (choose_idle_inv cpu s r o s Hr Hc Ho) as [_ [[-> _]|(p & x & -> & [Hp _] & _)]]; [by eexists _, _|].
    erewrite bind_ok by (by apply commit_ok). by eexists _, _. }
  destruct (begin_idle_inv cpu s r o s1 Hr Hc Hb) as [(-> & -> & Hlow)|(p & x & -> & [Hpx Hpr] & (l1 & l2 & x' & Hsplit & [Hx' _] & B1 & B2) & ->)].
  { destruct l as [|p l]; [done|]. destruct (Hx p ltac:(left)) as (x & H1 & H2 & H3 & _).
    assert (Hin : p ∈ system_procs r) by (rewrite Hl; left). specialize (Hlow p x Hin (conj H1 H2)).
    destruct (Hrange p ltac:(left)). lia. }
  assert (x' = x) as -> by congruence. rewrite Hl in Hsplit.
  assert (Hin : p ∈ l) by (rewrite Hsplit; apply elem_of_app; right; left).
  destruct (Hx p Hin) as (y & Hy & _ & Hpy & Hpid). assert (y = x) as -> by congruence. clear Hy.
  set (s1 := started p x cpu r s) in *. set (xr := set_p_state KDS_PROC_STATE_RUN (set_p_running true x)).
  assert (Hs1 : forall q, procs s1 !! q = if decide (q = p) then Some xr else procs s !! q).
  { intros q. cbn. case_decide as E; [subst q; apply lookup_insert_eq|by apply lookup_insert_ne]. }
  set (s2 := set_s_tick (S (S (s_tick s1))) s1). set (e := u64 (m_ns (S (s_tick s1)) - m_ns (s_tick s1))).
  assert (Hr2 : kds_runqueues s2 !! cpu = Some (set_curr (Some p) r)) by (cbn; apply lookup_insert_eq).
  destruct (update_waits_run l e (pid x) s2 Hnd) as (t1 & E1 & Hrq & Ht1).
  { intros q (z & Hz & _)%Hx. change (procs s2 !! q) with (procs s1 !! q). rewrite Hs1. case_decide; eauto. }
  assert (E2 : (x0 <- proc_get p ;; r0 <- rq_get cpu ;; update_waits (system_procs r0) e (pid x0)) s2 = Ret tt t1).
  { erewrite bind_ok by (apply (proc_get_ok p s2 xr); change (procs s2 !! p) with (procs s1 !! p); by rewrite Hs1, decide_True).
    erewrite bind_ok by (by apply rq_get_ok). cbn [system_procs set_curr]. rewrite Hl. exact E1. }
  assert (Htp : procs t1 !! p = Some (charged e xr)).
  { rewrite Ht1, decide_True by done. change (procs s2 !! p) with (procs s1 !! p). rewrite Hs1, decide_True by done. cbn.
    by rewrite Z.eqb_refl. }
  exists p, s1. eexists. split; [done|]. split.
  { intros q Hq. rewrite Hsplit in Hq. destruct (Hx q) as (z & Hz & Hzr & <- & _); [by rewrite Hsplit|]. rewrite <- Hpy.
    apply elem_of_app in Hq as [Hq|[->|Hq]%elem_of_cons].
    - pose proof (B1 q z Hq (conj Hz Hzr)). lia.
    - assert (z = x) as -> by congruence. lia.
    - by apply (B2 q z Hq (conj Hz Hzr)). }
  split; [done|]. split.
  { unfold kds_proc_schedule. erewrite bind_ok by exact Hb. cbn beta iota.
    erewrite (bind_ok ktime_get_ns) by reflexivity. erewrite (bind_ok (ret res)) by reflexivity.
    erewrite (bind_ok ktime_get_ns) by reflexivity. unfold schedule_end, kds_update_wait_time.
    erewrite bind_ok by exact E2. erewrite bind_ok by (apply rq_mod_ok; rewrite Hrq; exact Hr2).
    erewrite bind_ok by (apply proc_mod_ok; exact Htp). cbn [negb].
    erewrite bind_ok by (apply rq_mod_ok; cbn; apply lookup_insert_eq). reflexivity. }
  eexists _, pids. split; [apply lookup_insert_eq|]. split; [exact Hl|]. split; [done|]. split; [|done].
  intros q Hq. cbn [procs set_stats set_runqueues set_procs]. destruct (Hx q Hq) as (z & Hz & Hzr & Hzp & Hzi). unfold bump.
  destruct (decide (q = p)) as [->|Hqp].
  - rewrite lookup_insert_eq. eexists. split; [reflexivity|]. assert (z = x) as -> by congruence. done.
  - rewrite lookup_insert_ne by done. rewrite Ht1, decide_True by done.
    change (procs s2 !! q) with (procs s1 !! q). rewrite Hs1, decide_False by done. rewrite Hz. cbn.
    destruct (Z.eqb_spec (pid z) (pid x)) as [Heq|_]; [exfalso; apply Hqp, Hinj; congruence|].
    eexists. split; [reflexivity|]. split; [done|]. split; [|done]. cbn. rewrite Hzp. unfold s32.
    destruct (Hrange q Hq). unfold INT_MIN in *. apply to_signed_id; lia.
Qed.

(** How many rounds can pass before [p] runs: each process at least as
    urgent as [p] can be ahead once for every level of priority it has. *)
Definition ahead (prio : proc_ptr -> Z) (p q : proc_ptr) : Z :=
  if decide (q = p) then 0 else Z.max 0 (prio q - prio p + 1).
Definition delay (prio : proc_ptr -> Z) (p : proc_ptr) (l : list proc_ptr) : Z := foldr (fun q n => ahead prio p q + n) 0 l.

Lemma delay_nonneg prio p l : 0 <= delay prio p l.
Proof.
  induction l as [|q l IH]; [done|]. cbn [delay foldr]. fold (delay prio p l). unfold ahead. case_decide; lia.
Qed.
Lemma delay_bump prio p p' l :
  NoDup l -> p' <> p -> prio p <= prio p' ->
  delay (bump p' prio) p l = delay prio p l - (if decide (p' ∈ l) then 1 else 0).
Proof.
  intros Hnd Hne Hle. induction l as [|q l IH]; [cbn; rewrite decide_False by apply not_elem_of_nil; lia|].
  apply NoDup_cons in Hnd as [Hq Hnd]. cbn [delay foldr]. fold (delay (bump p' prio) p l) (delay prio p l). rewrite IH by done.
  assert (Hp : bump p' prio p = prio p + 1) by (unfold bump; by rewrite decide_False).
  unfold ahead. rewrite Hp. destruct (decide (q = p')) as [->|Hqp].
  - rewrite !(decide_False (P := p' = p)) by done. rewrite (decide_False (P := p' ∈ l)) by done.
    rewrite (decide_True (P := p' ∈ p' :: l)) by left. unfold bump. rewrite (decide_True (P := p' = p')) by done. lia.
  - assert (Hdec : (if decide (p' ∈ q :: l) then 1 else 0) = (if decide (p' ∈ l) then 1 else 0)).
    { destruct (decide (p' ∈ l)); [by rewrite decide_True by (by right)|]. rewrite decide_False; [done|].
      intros [?|?]%elem_of_cons; congruence. }
    rewrite Hdec. destruct (decide (q = p)); [lia|]. unfold bump. rewrite (decide_False (P := q = p')) by done. lia.
Qed.

Fixpoint rounds (n : nat) (m : M sched unit) : M sched unit :=
  match n with O => ret tt | S n => m ;; rounds n m end.

Lemma no_starvation_aux cpu p l res slice : forall n s prio,
  idle_queue s cpu l prio -> NoDup l -> p ∈ l -> in_range prio l (Z.of_nat n + 1) -> delay prio p l <= Z.of_nat n ->
  exists k s' s1, (k <= n)%nat /\ rounds k (kds_proc_schedule (fun _ _ => ret res) cpu slice) s = Ret tt s' /\
    schedule_begin cpu s' = Ret (Some (p, false)) s1.
Proof.
  induction n as [|n IH]; intros s prio Hs Hnd Hp Hrange Hd;
    (destruct (round_spec s cpu l prio res slice Hs Hnd) as (p' & s1 & t & Hin & Hmax & Hb & Hrun & Ht);
      [by intros ->; apply not_elem_of_nil in Hp|intros q Hq; destruct (Hrange q Hq); lia|]);
    (destruct (decide (p' = p)) as [->|Hne]; [by exists 0%nat, s, s1; split; [lia|]|]);
    pose proof (delay_bump prio p p' l Hnd Hne (Hmax p Hp)) as Hdb; rewrite decide_True in Hdb by done.
  - pose proof (delay_nonneg (bump p' prio) p l). lia.
  - destruct (IH t (bump p' prio)) as (k & s' & s2 & Hk & E & Hb2); try done; [|lia|].
    + intros q Hq. destruct (Hrange q Hq). unfold bump. case_decide; lia.
    + exists (S k), s', s2. split; [lia|]. split; [|done]. cbn [rounds]. by erewrite bind_ok by exact Hrun.
Qed.

(** C16.  No process starves: aging guarantees that a ready process is
    chosen after at most [delay] further rounds, where every other process
    counts once for each priority level it has over the waiting one.  (The
    rounds themselves return, and priorities stay in the range of [int].) *)
Theorem no_starvation s cpu p l prio res slice :
  idle_queue s cpu l prio -> NoDup l -> p ∈ l -> in_range prio l (delay prio p l + 1) ->
  exists k s' s1, Z.of_nat k <= delay prio p l /\
    rounds k (kds_proc_schedule (fun _ _ => ret res) cpu slice) s = Ret tt s' /\
    schedule_begin cpu s' = Ret (Some (p, false)) s1.
Proof.
  intros Hs Hnd Hp Hr. pose proof (delay_nonneg prio p l).
  destruct (no_starvation_aux cpu p l res slice (Z.to_nat (delay prio p l)) s prio Hs Hnd Hp) as (k & s' & s1 & Hk & H1 & H2);
    [by rewrite Z2Nat.id|lia|]. exists k, s', s1. split; [lia|done].
Qed.
End Fairness.

(** ** A process of priority 3 behind one of priority 7 *)
Section Demo.
#[local] Existing Instance duo.
Definition demo_prio (p : proc_ptr) : Z := if decide (p = 1%nat) then 3 else 7.
Definition demo_pair : sched :=
  let P i prio := Proc i KDS_PROC_SYSTEM KDS_PROC_STATE_READY 0 prio 0 0 0 0 0 {[0]} false true true in
  Sched {[1%nat := P 11 3; 2%nat := P 12 7]} {[0 := Runqueue [1; 2]%nat [] None 0 2]} 13 (SchedStats 0 0 0) 0.
Lemma demo_pair_idle : idle_queue demo_pair 0 [1; 2]%nat demo_prio.
Proof.
  exists (Runqueue [1; 2]%nat [] None 0 2), (fun p => if decide (p = 1%nat) then 11 else 12).
  split; [reflexivity|]. split; [reflexivity|]. split; [reflexivity|]. split.
  - intros p Hp. repeat (apply elem_of_cons in Hp as [->|Hp]); [by eexists..|by apply not_elem_of_nil in Hp].
  - intros p q Hp Hq. repeat (apply elem_of_cons in Hp as [->|Hp]); try (by apply not_elem_of_nil in Hp);
      repeat (apply elem_of_cons in Hq as [->|Hq]); try (by apply not_elem_of_nil in Hq); done.
Qed.
Lemma no_starvation_witness :
  exists k s' s1, Z.of_nat k <= 5 /\
    rounds k (kds_proc_schedule (fun _ _ => ret KDS_PROC_YIELD_RET) 0 1000) demo_pair = Ret tt s' /\
    schedule_begin 0 s' = Ret (Some (1%nat, false)) s1.
Proof.
  apply (no_starvation demo_pair 0 1%nat [1; 2]%nat demo_prio KDS_PROC_YIELD_RET 1000 demo_pair_idle).
  - apply (bool_decide_unpack _). vm_compute. exact I.
  - left.
  - intros p Hp. repeat (apply elem_of_cons in Hp as [->|Hp]); try (by apply not_elem_of_nil in Hp);
      split; vm_compute; reflexivity.
Defined.
End Demo.
