(* ===== verification/Store.v ===== *)
(** * Store: the cache as a map from page ids to page contents

    Clients of the buffer pool (catalog.c, relation.c, the executors) all
    follow one protocol: look a page up, work on its frame, unpin it.  On a
    page that is cached this amounts to [put]ting new content at its id; the
    lemmas below give the effect of each call of the protocol in these terms. *)
From S2P Require Import Prelude Layout Heap HeapSpec HeapOps TupleStore State Disk DiskSpec Pool PoolSpec.
From stdpp Require Import prelude gmap list.
From Stdlib Require Import ZArith Lia.
Local Open Scope Z_scope.
Local Open Scope kds_scope.

(** ** Content of a cached page *)
Definition put (id : Z) (k : kds_page) (p : bytes) (pl : kds_buf_pool) : kds_buf_pool :=
  match buf_map pl !! id with
  | Some fid => match frames pl !! fid with Some f => upd fid (live_frame f k p) pl | None => pl end
  | None => pl
  end.
(** Only the content of page [id] differs. *)
Record only_page (id : Z) (pl pl' : kds_buf_pool) : Prop := {
  op_map : buf_map pl' = buf_map pl;
  op_free : free_frames pl' = free_frames pl;
  op_rest : forall id', id' <> id -> cached pl' id' = cached pl id' }.
Definition page_fits (id : Z) (k : kds_page) (p : bytes) : Prop :=
  kp_id k = id /\ zlen p = KDS_PAGE_SIZE /\ length (ph_reserved1 (kp_hdr k)) = 32%nat.

Section Put.
Context (pl : kds_buf_pool) (Hwf : pool_wf pl).

Lemma cached_inv id k p : cached pl id = Some (k, p) ->
  exists fid f, buf_map pl !! id = Some fid /\ frames pl !! fid = Some f /\ frame_holds f id k p.
Proof.
  intros Hc. pose proof (wf_cached pl id Hwf) as H. destruct (buf_map pl !! id) as [fid|]; [|congruence].
  destruct H as (f & k' & p' & Hf & Hh & Hc'). rewrite Hc in Hc'. injection Hc' as <- <-. by exists fid, f.
Qed.
Lemma cached_fits id k p : cached pl id = Some (k, p) -> page_fits id k p.
Proof. intros (fid & f & _ & _ & _ & _ & _ & _ & ? & ? & ?)%cached_inv. done. Qed.
Lemma put_spec id k0 p0 k p :
  cached pl id = Some (k0, p0) -> page_fits id k p ->
  pool_wf (put id k p pl) /\ only_page id pl (put id k p pl) /\ cached (put id k p pl) id = Some (k, p).
Proof.
  intros (fid & f & Hm & Hf & (Hv & Hid & _))%cached_inv (H1 & H2 & H3).
  destruct (upd_wf pl Hwf fid (live_frame f k p) id k p Hm) as [Hw Hc]; [done|].
  unfold put. rewrite Hm, Hf. split; [done|]. split; [split; [done|done|]|].
  - intros id' Hne. by rewrite Hc, decide_False.
  - by rewrite Hc, decide_True.
Qed.
Lemma put_same id k p : cached pl id = Some (k, p) -> put id k p pl = pl.
Proof.
  intros (fid & f & Hm & Hf & (_ & _ & Hk & Hp & _))%cached_inv. unfold put. rewrite Hm, Hf.
  rewrite frame_live_eq by done. unfold upd. rewrite list_insert_id by done. by destruct pl.
Qed.
End Put.

Lemma put_put id k p k' p' pl : put id k' p' (put id k p pl) = put id k' p' pl.
Proof.
  unfold put at 2. destruct (buf_map pl !! id) as [fid|] eqn:Hm; [|unfold put; by rewrite Hm].
  destruct (frames pl !! fid) as [f|] eqn:Hf; [|unfold put; by rewrite Hm, Hf].
  unfold put. cbn [upd buf_map frames]. rewrite Hm, list_lookup_insert_eq, Hf by (by apply lookup_lt_Some in Hf).
  by rewrite upd_upd.
Qed.
Lemma buf_map_put id k p pl : buf_map (put id k p pl) = buf_map pl.
Proof. unfold put. repeat case_match; done. Qed.

Lemma only_page_refl id pl : only_page id pl pl.
Proof. done. Qed.
Lemma only_page_trans id pl1 pl2 pl3 : only_page id pl1 pl2 -> only_page id pl2 pl3 -> only_page id pl1 pl3.
Proof.
  intros [H1 H2 H3] [H4 H5 H6]. split; [congruence|congruence|]. intros id' Hne. by rewrite H6, H3.
Qed.

(** ** The protocol *)
Definition unpinned (k : kds_page) : kds_page := set_kp_refcnt (kp_refcnt k - 1) k.
Lemma unpinned_pinned k : unpinned (pinned k) = k.
Proof. destruct k as [i h n]. unfold unpinned, pinned, set_kp_refcnt; cbn [kp_id kp_hdr kp_refcnt]. f_equal. lia. Qed.

Section Protocol.
Context `{K : Kernel}.

Lemma hit_put id pl s k p :
  pool_wf pl -> cached pl id = Some (k, p) ->
  exists fid, buf_map pl !! id = Some fid /\
    kds_buf_lookup_or_load id (wp pl s) = Ret (PTR fid) (wp (put id (pinned k) p pl) s).
Proof.
  intros Hwf (fid & f & Hm & Hf & (_ & _ & Hk & Hp & _))%(cached_inv pl Hwf). exists fid. split; [done|].
  unfold kds_buf_lookup_or_load. rewrite gets_wp. cbn [g_pool wp set_g_pool]. fold (wp pl s).
  erewrite bind_ok; [|rewrite lookup_wp, Hm, Hf, Hk by done; reflexivity].
  unfold put. rewrite Hm, Hf. unfold ret, live_frame, pinned. do 4 f_equal. by destruct f; cbn in *; subst.
Qed.
(** An operation on the frame of page [id]. *)
Lemma frame_put {A} id fid (m : M kds_frame A) pl s k p a (Q : kds_page -> bytes -> Prop) :
  pool_wf pl -> buf_map pl !! id = Some fid -> cached pl id = Some (k, p) ->
  (forall f, frame_live f k p -> exists k' p', m f = Ret a (live_frame f k' p') /\ Q k' p') ->
  exists k' p', on_frame fid m (wp pl s) = Ret a (wp (put id k' p' pl) s) /\ Q k' p'.
Proof.
  intros Hwf Hm Hc Hop. destruct (cached_inv pl Hwf id k p Hc) as (fid' & f & Hm' & Hf & (_ & _ & Hk & Hp & _)).
  assert (fid' = fid) as -> by congruence. destruct (Hop f) as (k' & p' & E & HQ); [done|].
  exists k', p'. split; [|done]. rewrite (on_frame_wp _ _ _ _ f Hf), E. unfold put. by rewrite Hm, Hf.
Qed.
Lemma frame_read {A} id fid (m : M kds_frame A) pl s k p (Q : A -> Prop) :
  pool_wf pl -> buf_map pl !! id = Some fid -> cached pl id = Some (k, p) ->
  (forall f, frame_live f k p -> exists a, m f = Ret a f /\ Q a) ->
  exists a, on_frame fid m (wp pl s) = Ret a (wp pl s) /\ Q a.
Proof.
  intros Hwf Hm Hc Hop. destruct (cached_inv pl Hwf id k p Hc) as (fid' & f & Hm' & Hf & (_ & _ & Hk & Hp & _)).
  assert (fid' = fid) as -> by congruence. destruct (Hop f) as (a & E & HQ); [done|].
  exists a. split; [|done]. rewrite (on_frame_wp _ _ _ _ f Hf), E. unfold upd.
  rewrite list_insert_id by done. by destruct pl.
Qed.
Lemma unpin_put id fid pl s k p :
  pool_wf pl -> buf_map pl !! id = Some fid -> cached pl id = Some (k, p) ->
  kds_buf_unpin fid (wp pl s) = Ret tt (wp (put id (unpinned k) p pl) s).
Proof.
  intros Hwf Hm Hc. destruct (frame_put id fid (kp_mod (fun k => set_kp_refcnt (kp_refcnt k - 1) k)) pl s k p tt
    (fun k' p' => k' = unpinned k /\ p' = p) Hwf Hm Hc) as (k' & p' & E & -> & ->); [|exact E].
  intros f [Hk Hp]. exists (unpinned k), p. split; [|done]. unfold kp_mod. rewrite Hk. unfold live_frame.
  do 2 f_equal. by destruct f; cbn in *; subst.
Qed.
End Protocol.

(** ** Heap pages in the cache *)
Definition heap_page (pl : kds_buf_pool) (id : Z) (v : list (option htuple)) (free next : Z) : Prop :=
  exists k p, cached pl id = Some (k, p) /\ heap_wf p /\ heap_view p = v /\ p_free p = free /\ p_next p = next.
Lemma heap_page_other id id' pl pl' v free next :
  only_page id pl pl' -> id' <> id -> heap_page pl id' v free next -> heap_page pl' id' v free next.
Proof. intros [_ _ H] Hne (k & p & Hc & Hp). exists k, p. by rewrite H. Qed.
Lemma heap_page_frame pl id v free next : pool_wf pl -> heap_page pl id v free next -> exists fid, buf_map pl !! id = Some fid.
Proof. intros Hwf (k & p & (fid & f & ? & _)%(cached_inv pl Hwf) & _). eauto. Qed.

Lemma fits_pinned id k p : page_fits id k p -> page_fits id (pinned k) p.
Proof. done. Qed.
Lemma fits_dirty id k p q : page_fits id k p -> heap_wf q -> page_fits id (dirty k) q.
Proof. intros (? & ? & ?) Hq. split_and!; [done|apply Hq|done]. Qed.
Lemma unpinned_dirty k : unpinned (dirty k) = dirty (unpinned k).
Proof. done. Qed.
#[export] Hint Resolve fits_pinned fits_dirty : kds.

Section HeapOps.
Context `{K : Kernel} {TS : TupleStore}.

Lemma insert_put id fid pl s k p d xid :
  pool_wf pl -> buf_map pl !! id = Some fid -> cached pl id = Some (k, p) -> heap_wf p ->
  bytes_ok d -> zlen d <= KDS_PAGE_SIZE -> u64_ok xid ->
  let m := on_frame fid (heap_insert_tuple (Some d) (zlen d) xid) (wp pl s) in
  if p_free p <? 33 + zlen d then m = Ret (- ENOSPC, None) (wp pl s)
  else exists q, m = Ret (0, Some (Tid (kp_id k) (zlen (heap_view p)))) (wp (put id (dirty k) q pl) s) /\ heap_wf q /\
    heap_view q = heap_view p ++ [Some (HTuple (TupleHdr xid 0 0 (zlen d) 0 0) d (zlen d))] /\
    p_free q = p_free p - (33 + zlen d) /\ p_next q = p_next p.
Proof.
  intros Hwf Hm Hc Hp Hd Hl Hx m. subst m. unfold heap_insert_tuple. pose proof (zlen_nonneg d). unfold KDS_PAGE_SIZE in *.
  assert (H0 : u64_ok 0) by (by unfold u64_ok). assert (Hu : u16_ok (zlen d)) by (unfold u16_ok; lia).
  pose proof (fun f Hf => ts_insert f k p d xid 0 0 Hf Hp Hd Hu Hx H0 H0) as H1. cbn zeta in H1.
  unfold KDS_PAGE_SIZE in H1. destruct (Z.ltb_spec (8 * 1024) (zlen d)); [lia|]. destruct (p_free p <? 33 + zlen d).
  - destruct (frame_read id fid (heap_insert_tuple_ex (Some d) (zlen d) xid 0 0) pl s k p (fun a => a = (- ENOSPC, None)) Hwf Hm Hc)
      as (a & E & ->); [|exact E]. intros f Hf. rewrite (H1 f Hf). eauto.
  - destruct (frame_put id fid (heap_insert_tuple_ex (Some d) (zlen d) xid 0 0) pl s k p (0, Some (Tid (kp_id k) (zlen (heap_view p))))
      (fun k' q => k' = dirty k /\ heap_wf q /\ heap_view q = heap_view p ++ [Some (HTuple (TupleHdr xid 0 0 (zlen d) 0 0) d (zlen d))] /\
        p_free q = p_free p - (33 + zlen d) /\ p_next q = p_next p) Hwf Hm Hc) as (k' & q & E & -> & HQ); [|by exists q].
    intros f Hf. destruct (H1 f Hf) as (q & E & ? & ? & ? & ?). eexists _, q. split; [exact E|]. done.
Qed.
Lemma read_at id fid pl s k p i size :
  pool_wf pl -> buf_map pl !! id = Some fid -> cached pl id = Some (k, p) -> heap_wf p -> u16_ok i -> 0 <= size ->
  exists o, on_frame fid (heap_read_tuple i (Some size)) (wp pl s) = Ret o (wp pl s) /\
    match heap_view p !! Z.to_nat i with
    | Some (Some t) =>
        if size <? data_len (ht_hdr t) then o = (- ENOSPC, None)
        else exists rest, o = (0, Some (ht_hdr t, ht_data t ++ rest)) /\ zlen rest = size - data_len (ht_hdr t)
    | _ => o = (- ENOENT, None)
    end.
Proof.
  intros Hwf Hm Hc Hp Hi Hs. eapply frame_read; [done..|]. intros f Hf. pose proof (ts_read_buf f k p i size Hf Hp Hi Hs) as H.
  destruct (heap_view p !! Z.to_nat i) as [[t|]|]; [|eauto..].
  destruct (size <? data_len (ht_hdr t)); [eauto|]. destruct H as (rest & E & Hr). eauto 10.
Qed.
Lemma overwrite_put id fid pl s k p i t d x0 x1 u :
  pool_wf pl -> buf_map pl !! id = Some fid -> cached pl id = Some (k, p) -> heap_wf p -> u16_ok i ->
  heap_view p !! Z.to_nat i = Some (Some t) -> bytes_ok d -> zlen d <= ht_cap t -> u64_ok x0 -> u64_ok x1 -> u64_ok u ->
  exists q, on_frame fid (heap_overwrite_tuple i (Some d) (zlen d) x0 x1 u) (wp pl s) = Ret 0 (wp (put id (dirty k) q pl) s) /\
    heap_wf q /\ heap_view q = <[Z.to_nat i := Some (HTuple (TupleHdr x0 x1 u (zlen d) 0 0) d (ht_cap t))]> (heap_view p) /\
    p_free q = p_free p /\ p_next q = p_next p.
Proof.
  intros Hwf Hm Hc Hp Hi Hv Hd Hl Hx0 Hx1 Hu.
  destruct (frame_put id fid (heap_overwrite_tuple i (Some d) (zlen d) x0 x1 u) pl s k p 0
    (fun k' q => k' = dirty k /\ heap_wf q /\
      heap_view q = <[Z.to_nat i := Some (HTuple (TupleHdr x0 x1 u (zlen d) 0 0) d (ht_cap t))]> (heap_view p) /\
      p_free q = p_free p /\ p_next q = p_next p) Hwf Hm Hc) as (k' & q & E & -> & HQ); [|by exists q].
  intros f Hf. destruct (ts_overwrite f k p i t d x0 x1 u Hf Hp Hi Hv Hd Hl Hx0 Hx1 Hu) as (q & E & ? & ? & ? & ?).
  eexists _, q. split; [exact E|]. done.
Qed.
Lemma nr_slots_at id fid pl s k p :
  pool_wf pl -> buf_map pl !! id = Some fid -> cached pl id = Some (k, p) -> heap_wf p ->
  on_frame fid heap_nr_slots (wp pl s) = Ret (zlen (heap_view p)) (wp pl s).
Proof.
  intros Hwf Hm Hc Hp. destruct (frame_read id fid heap_nr_slots pl s k p (fun a => a = zlen (heap_view p)) Hwf Hm Hc)
    as (a & E & ->); [|exact E]. intros f Hf. rewrite (ts_nr_slots f k p Hf Hp). eauto.
Qed.
Lemma next_at id fid pl s k p :
  pool_wf pl -> buf_map pl !! id = Some fid -> cached pl id = Some (k, p) -> heap_wf p ->
  on_frame fid heap_get_next_page_id (wp pl s) = Ret (p_next p) (wp pl s).
Proof.
  intros Hwf Hm Hc Hp. destruct (frame_read id fid heap_get_next_page_id pl s k p (fun a => a = p_next p) Hwf Hm Hc)
    as (a & E & ->); [|exact E]. intros f Hf. rewrite (ts_get_next f k p Hf Hp). eauto.
Qed.
Lemma kp_at {A} id fid pl s k p (g : kds_page -> A) :
  pool_wf pl -> buf_map pl !! id = Some fid -> cached pl id = Some (k, p) ->
  on_frame fid (kp_get g) (wp pl s) = Ret (g k) (wp pl s).
Proof.
  intros Hwf Hm Hc. destruct (frame_read id fid (kp_get g) pl s k p (fun a => a = g k) Hwf Hm Hc)
    as (a & E & ->); [|exact E]. intros f [Hk _]. unfold kp_get. rewrite Hk. eauto.
Qed.
(** Opening a page that is cached and closing it again. *)
Lemma open_page id pl s k p :
  pool_wf pl -> cached pl id = Some (k, p) ->
  exists fid pl1, buf_map pl1 !! id = Some fid /\ kds_buf_lookup_or_load id (wp pl s) = Ret (PTR fid) (wp pl1 s) /\
    pool_wf pl1 /\ cached pl1 id = Some (pinned k, p) /\ only_page id pl pl1 /\
    kds_buf_unpin fid (wp pl1 s) = Ret tt (wp pl s) /\
    forall q, heap_wf q -> kds_buf_unpin fid (wp (put id (dirty (pinned k)) q pl1) s) = Ret tt (wp (put id (dirty k) q pl) s).
Proof.
  intros Hwf Hc. destruct (hit_put id pl s k p Hwf Hc) as (fid & Hm & E). pose proof (cached_fits pl Hwf id k p Hc) as Hfit.
  destruct (put_spec pl Hwf id k p (pinned k) p Hc Hfit) as (Hwf1 & Ho & Hc1). exists fid, (put id (pinned k) p pl).
  rewrite buf_map_put. split_and!; try done.
  - rewrite (unpin_put id fid _ s (pinned k) p Hwf1) by (by rewrite ?buf_map_put). by rewrite unpinned_pinned, put_put, put_same.
  - intros q Hq. rewrite put_put. destruct (put_spec pl Hwf id k p (dirty (pinned k)) q Hc) as (Hwf2 & _ & Hc2); [eauto with kds|].
    rewrite (unpin_put id fid _ s (dirty (pinned k)) q Hwf2) by (by rewrite ?buf_map_put).
    by rewrite unpinned_dirty, unpinned_pinned, put_put.
Qed.
End HeapOps.

(** ** A cache with given pages *)
#[local] Opaque KDS_BUF_NR_FRAMES.
Definition held (fid : nat) (k : kds_page) (p : bytes) : kds_frame :=
  Frame fid KDS_FRAME_VALID (kp_id k) (Some k) (LivePg p) false.
Fixpoint pool_of (l : list (kds_page * bytes)) : kds_buf_pool :=
  match l with
  | [] => init_pool
  | (k, p) :: l => publish (pool_of l) (length l) (held (length l) k p) (kp_id k) (seq (S (length l)) (KDS_BUF_NR_FRAMES - S (length l)))
  end.
Lemma pool_of_map l id : (forall k p, (k, p) ∈ l -> kp_id k <> id) -> buf_map (pool_of l) !! id = None.
Proof.
  induction l as [|[k p] l IH]; intros H; [apply lookup_empty|]. cbn. rewrite lookup_insert_ne by (apply (H k p); left).
  apply IH. intros k' p' Hin. apply (H k' p'). by right.
Qed.
Lemma pool_of_ok l :
  (length l < KDS_BUF_NR_FRAMES)%nat -> NoDup (map (fun x => kp_id x.1) l) -> Forall (fun x => page_fits (kp_id x.1) x.1 x.2) l ->
  pool_wf (pool_of l) /\ free_frames (pool_of l) = seq (length l) (KDS_BUF_NR_FRAMES - length l) /\
  forall k p, (k, p) ∈ l -> cached (pool_of l) (kp_id k) = Some (k, p).
Proof.
  induction l as [|[k p] l IH]; cbn [length map]; intros Hlen Hnd Hfit.
  - split; [apply init_pool_wf|]. split; [by rewrite Nat.sub_0_r|]. intros k p H. by apply not_elem_of_nil in H.
  - apply NoDup_cons in Hnd as [Hni Hnd]. apply Forall_cons in Hfit as [(_ & Hz & Hr) Hfit].
    destruct IH as (Hwf & Hfree & Hc); try done; [lia|].
    destruct (publish_wf (pool_of l) Hwf (length l) (seq (S (length l)) (KDS_BUF_NR_FRAMES - S (length l))) (held (length l) k p) (kp_id k) k p)
      as [Hwf' Hc'].
    + rewrite Hfree. replace (KDS_BUF_NR_FRAMES - length l)%nat with (S (KDS_BUF_NR_FRAMES - S (length l)))%nat by lia. reflexivity.
    + apply pool_of_map. intros k' p' Hin E. apply Hni, list_elem_of_fmap. exists (k', p'). split; [symmetry; exact E|exact Hin].
    + by split_and!.
    + split; [exact Hwf'|]. split; [reflexivity|]. intros k' p' Hin. cbn [pool_of]. rewrite Hc'.
      apply elem_of_cons in Hin as [[= -> ->]|Hin]; [by rewrite decide_True|].
      rewrite decide_False; [by apply Hc|]. intros E. apply Hni, list_elem_of_fmap. exists (k', p'). split; [symmetry; exact E|exact Hin].
Qed.
