(* ===== verification/Catalog.v ===== *)
(** * Catalog: system tables (kernel/kds/catalog.c, kds_catalog.h)

    The catalog keeps four heap pages at fixed ids with one packed struct
    per tuple, a registry of well-known objects in memory and a counter of
    object ids.  Functions that touch only the pages run on [kds_state];
    those that use the registry or the counter run on [catalog_env].
    Arguments that the callers never pass as NULL (out-parameters) are not
    modelled; a name or a schema that may be NULL is an [option]. *)
From S2P Require Import Prelude Layout State Disk Pool Alloc Heap Btree Types Parser.
From stdpp Require Import prelude gmap list strings.
From Stdlib Require Import ZArith Lia.
Local Open Scope Z_scope.
Local Open Scope list_scope.
Local Open Scope kds_scope.

(** ** Constants *)
Definition KDS_CATALOG_NAME_MAX : nat := 64.
Definition KDS_OID_NAMESPACE_SYS : Z := 0.
Definition KDS_OID_NAMESPACE_PUBLIC : Z := 1.
Definition KDS_OID_TYPE_INT : Z := 12.
Definition KDS_OID_TYPE_VARCHAR : Z := 13.
Definition KDS_OID_TYPE_SCHEMA : Z := 14.
Definition KDS_OID_TYPE_BOOL : Z := 15.
Definition KDS_OID_TYPE_BYTES : Z := 16.
Definition KDS_OID_TYPE_NAMESPACE : Z := 17.
Definition KDS_OID_TYPE_ATTRIBUTE : Z := 18.
Definition KDS_OID_TYPE_COLUMN : Z := 19.
Definition KDS_OID_TYPE_PAGE : Z := 20.
Definition KDS_OID_TYPE_TABLE : Z := 21.
Definition KDS_OID_TYPE_OPERATOR : Z := 22.
Definition KDS_OID_TYPE_INDEX : Z := 23.
Definition KDS_OID_TYPE_CHAR : Z := 24.
Definition KDS_OID_TYPE_INT8 : Z := 25.
Definition KDS_OID_TYPE_INT16 : Z := 26.
Definition KDS_OID_TYPE_INT32 : Z := 27.
Definition KDS_OID_TYPE_FLOAT : Z := 28.
Definition KDS_OID_TYPE_DECIMAL : Z := 29.
Definition KDS_OID_TYPE_INT64 : Z := KDS_OID_TYPE_INT.
Definition KDS_OID_SYS_TYPES_TABLE : Z := 100.
Definition KDS_OID_SYS_OBJECTS_TABLE : Z := 110.
Definition KDS_OID_SYS_COLUMNS_TABLE : Z := 111.
Definition KDS_OID_SYS_TABLES_TABLE : Z := 112.
Definition KDS_USER_OID_START : Z := 4000.
Definition KDS_CATALOG_PAGE_TYPES : Z := 4.
Definition KDS_CATALOG_PAGE_COLUMNS : Z := 5.
Definition KDS_CATALOG_PAGE_OBJECTS : Z := 6.
Definition KDS_CATALOG_PAGE_TABLES : Z := 7.
Definition KDS_BOOTSTRAP_XID : Z := 1.
Definition KDS_CATALOG_MAX_SYS_OBJECTS : nat := 64.
Definition KDS_SCHEMA_MAX_COLUMNS : nat := 32.
(** The values of the enumeration; [kds_catalog_create_table] tests for
    others. *)
Definition clustered_val (c : kds_clustered_type) : Z :=
  match c with KDS_CLUSTERED_HEAP => 0 | KDS_CLUSTERED_BTREE => 1 end.

(** ** Rows *)
Record kds_sys_object := SysObject { so_oid : Z; so_namespace : Z; so_type : Z; so_rel : Z; so_name : bytes }.
Record kds_sys_table := SysTable { st_oid : Z; st_namespace : Z; st_name : bytes; desc_page_id : Z; st_clustered : Z }.
Record kds_sys_column := SysColumn {
  sc_oid : Z; sc_rel : Z; sc_pos : Z; sc_name : bytes; sc_type_val : Z; sc_len : Z; sc_notnull : bool }.
Record kds_sys_type := SysType { sy_oid : Z; sy_name : bytes; sy_type_val : Z; sy_len : Z }.
Definition SYS_OBJECT_SIZE : Z := 96.
Definition SYS_TABLE_SIZE : Z := 89.
Definition SYS_COLUMN_SIZE : Z := 93.
Definition SYS_TYPE_SIZE : Z := 80.

Definition object_enc (r : kds_sys_object) : bytes :=
  le_bytes 8 (so_oid r) ++ le_bytes 8 (so_namespace r) ++ le_bytes 8 (so_type r) ++ le_bytes 8 (so_rel r) ++ so_name r.
Definition object_dec (b : bytes) : kds_sys_object :=
  let '(o, b) := get 8 b in
  let '(n, b) := get 8 b in
  let '(t, b) := get 8 b in
  let '(r, b) := get 8 b in
  let '(nm, _) := getb 64 b in
  SysObject o n t r nm.
Definition table_enc (r : kds_sys_table) : bytes :=
  le_bytes 8 (st_oid r) ++ le_bytes 8 (st_namespace r) ++ st_name r ++ le_bytes 8 (desc_page_id r) ++ le_bytes 1 (st_clustered r).
Definition table_dec (b : bytes) : kds_sys_table :=
  let '(o, b) := get 8 b in
  let '(n, b) := get 8 b in
  let '(nm, b) := getb 64 b in
  let '(d, b) := get 8 b in
  let '(c, _) := get 1 b in
  SysTable o n nm d c.
Definition column_enc (r : kds_sys_column) : bytes :=
  le_bytes 8 (sc_oid r) ++ le_bytes 8 (sc_rel r) ++ le_bytes 4 (sc_pos r) ++ sc_name r ++
  le_bytes 4 (sc_type_val r) ++ le_bytes 4 (sc_len r) ++ le_bytes 1 (if sc_notnull r then 1 else 0).
Definition column_dec (b : bytes) : kds_sys_column :=
  let '(o, b) := get 8 b in
  let '(r, b) := get 8 b in
  let '(p, b) := get 4 b in
  let '(nm, b) := getb 64 b in
  let '(t, b) := get 4 b in
  let '(l, b) := get 4 b in
  let '(nn, _) := get 1 b in
  SysColumn o r p nm t l (negb (nn =? 0)).
Definition type_enc (r : kds_sys_type) : bytes :=
  le_bytes 8 (sy_oid r) ++ sy_name r ++ le_bytes 4 (sy_type_val r) ++ le_bytes 4 (sy_len r).

(** [cols] and [nr_cols]: the entries in use. *)
Definition kds_schema := list kds_sys_column.
Record kds_table_access := TableAccess {
  ta_namespace : Z; ta_oid : Z; ta_schema : kds_schema; ta_desc_page : Z; ta_clustered : Z }.

(** ** Names *)
(** The characters before the NUL of a buffer. *)
Fixpoint c_str (b : bytes) : bytes :=
  match b with [] => [] | x :: b => if x =? 0 then [] else x :: c_str b end.
Definition strncmp_eq (a b : bytes) (n : nat) : bool := bool_decide (take n (c_str a) = take n (c_str b)).
(** [strncpy] pads with NULs; the last byte is set after it. *)
Definition set_name (src : bytes) : bytes :=
  let s := take (KDS_CATALOG_NAME_MAX - 1) (c_str src) in s ++ replicate (KDS_CATALOG_NAME_MAX - length s) 0.

(** ** State *)
Record catalog_env := CatEnv { ce_kds : kds_state; g_sys_objects : list kds_sys_object; g_user_oid_counter : Z }.

Section Catalog.
Context `{K : Kernel} {KS : Kstrtoll}.

Definition on_store {A} (m : M kds_state A) : M catalog_env A := fun e =>
  match m (ce_kds e) with
  | Ret a s => Ret a (CatEnv s (g_sys_objects e) (g_user_oid_counter e))
  | Halt h s => Halt h (CatEnv s (g_sys_objects e) (g_user_oid_counter e))
  end.

(** ** The registry *)
Definition kds_catalog_register_sys_object (obj : kds_sys_object) : M catalog_env unit := fun e =>
  if Nat.leb KDS_CATALOG_MAX_SYS_OBJECTS (length (g_sys_objects e)) then Halt Panic e
  else Ret tt (CatEnv (ce_kds e) (g_sys_objects e ++ [obj]) (g_user_oid_counter e)).
Definition kds_catalog_get_sys_object (oid : Z) : M catalog_env (option kds_sys_object) :=
  gets (fun e => find (fun o => so_oid o =? oid) (g_sys_objects e)).
Definition kds_catalog_get_sys_object_by_name (name : option bytes) : M catalog_env (option kds_sys_object) :=
  match name with
  | None => ret None
  | Some n => gets (fun e => find (fun o => strncmp_eq (so_name o) n KDS_CATALOG_NAME_MAX) (g_sys_objects e))
  end.

Definition kds_schema_find_column (schema : option kds_schema) (name : option bytes) : option kds_sys_column :=
  match schema, name with
  | Some s, Some n => find (fun c => strncmp_eq (sc_name c) n KDS_CATALOG_NAME_MAX) s
  | _, _ => None
  end.

Definition register_namespace (oid : Z) (name : bytes) : M catalog_env unit :=
  kds_catalog_register_sys_object (SysObject oid oid KDS_OID_TYPE_NAMESPACE 0 (set_name name)).
Definition register_type (oid : Z) (name : bytes) : M catalog_env unit :=
  kds_catalog_register_sys_object (SysObject oid KDS_OID_NAMESPACE_SYS oid 0 (set_name name)).
Definition kds_catalog_init_well_known_objects : M catalog_env unit :=
  register_namespace KDS_OID_NAMESPACE_SYS (cstr "namespaceSys") ;;
  register_namespace KDS_OID_NAMESPACE_PUBLIC (cstr "namespacePublic") ;;
  register_type KDS_OID_TYPE_INT (cstr "type_int") ;;
  register_type KDS_OID_TYPE_VARCHAR (cstr "type_varchar") ;;
  register_type KDS_OID_TYPE_CHAR (cstr "type_char") ;;
  register_type KDS_OID_TYPE_SCHEMA (cstr "type_schema") ;;
  register_type KDS_OID_TYPE_BOOL (cstr "type_bool") ;;
  register_type KDS_OID_TYPE_BYTES (cstr "type_bytes") ;;
  register_type KDS_OID_TYPE_NAMESPACE (cstr "type_namespace") ;;
  register_type KDS_OID_TYPE_ATTRIBUTE (cstr "type_attribute") ;;
  register_type KDS_OID_TYPE_COLUMN (cstr "type_column") ;;
  register_type KDS_OID_TYPE_PAGE (cstr "type_page") ;;
  register_type KDS_OID_TYPE_TABLE (cstr "type_table") ;;
  register_type KDS_OID_TYPE_OPERATOR (cstr "type_operator") ;;
  register_type KDS_OID_TYPE_INDEX (cstr "type_index") ;;
  register_type KDS_OID_TYPE_INT8 (cstr "type_int8") ;;
  register_type KDS_OID_TYPE_INT16 (cstr "type_int16") ;;
  register_type KDS_OID_TYPE_INT32 (cstr "type_int32") ;;
  register_type KDS_OID_TYPE_FLOAT (cstr "type_float") ;;
  register_type KDS_OID_TYPE_DECIMAL (cstr "type_decimal").

(** ** Inserting rows *)
(** The body that the four row-insert functions share. *)
Definition insert_row (page_id : Z) (row : bytes) : M kds_state Z :=
  frame <- kds_buf_lookup_or_load page_id ;;
  match frame with
  | ERR_PTR e => ret e
  | PTR fid =>
      let* (r, _) := on_frame fid (heap_insert_tuple (Some row) (zlen row) KDS_BOOTSTRAP_XID) in
      kds_buf_unpin fid ;;
      ret r
  end.
Definition kds_catalog_insert_object_row (oid namespace_oid type_oid : Z) (name : bytes) : M kds_state Z :=
  insert_row KDS_CATALOG_PAGE_OBJECTS (object_enc (SysObject oid namespace_oid type_oid 0 (set_name name))).
Definition kds_catalog_insert_relation_row (oid namespace_oid : Z) (name : bytes) (desc clustered_type : Z) : M kds_state Z :=
  insert_row KDS_CATALOG_PAGE_TABLES (table_enc (SysTable oid namespace_oid (set_name name) desc (u8 clustered_type))).
Definition insert_sys_column_row (oid rel_id pos : Z) (name : bytes) (type_val len : Z) (notnull : bool) : M kds_state Z :=
  insert_row KDS_CATALOG_PAGE_COLUMNS (column_enc (SysColumn oid rel_id pos (set_name name) type_val len notnull)).
Definition insert_sys_type_row (oid : Z) (name : bytes) (type_val len : Z) : M kds_state Z :=
  insert_row KDS_CATALOG_PAGE_TYPES (type_enc (SysType oid (set_name name) type_val len)).

(** ** Bootstrap *)
Definition bootstrap_one_catalog_page (page_id : Z) : M kds_state Z :=
  frame <- kds_buf_alloc_new page_id ;;
  match frame with
  | ERR_PTR e => ret e
  | PTR fid => on_frame fid heap_init_page ;; kds_buf_unpin fid ;; ret 0
  end.
Definition sys_tables : list (Z * bytes * Z) := [
  (KDS_OID_SYS_TYPES_TABLE, cstr "types", KDS_CATALOG_PAGE_TYPES);
  (KDS_OID_SYS_OBJECTS_TABLE, cstr "objects", KDS_CATALOG_PAGE_OBJECTS);
  (KDS_OID_SYS_COLUMNS_TABLE, cstr "columns", KDS_CATALOG_PAGE_COLUMNS);
  (KDS_OID_SYS_TABLES_TABLE, cstr "tables", KDS_CATALOG_PAGE_TABLES) ].
Definition boot_types : list (Z * bytes) := [
  (KDS_OID_TYPE_INT8, cstr "int8"); (KDS_OID_TYPE_INT16, cstr "int16"); (KDS_OID_TYPE_INT32, cstr "int32");
  (KDS_OID_TYPE_INT64, cstr "int64"); (KDS_OID_TYPE_FLOAT, cstr "float"); (KDS_OID_TYPE_DECIMAL, cstr "decimal");
  (KDS_OID_TYPE_BOOL, cstr "bool"); (KDS_OID_TYPE_VARCHAR, cstr "varchar"); (KDS_OID_TYPE_CHAR, cstr "char") ].
(** A loop that panics at the first failure. *)
Fixpoint all_or_panic {A} (step : A -> M kds_state Z) (l : list A) : M kds_state unit :=
  match l with
  | [] => ret tt
  | a :: l => r <- step a ;; if negb (r =? 0) then halt_with Panic else all_or_panic step l
  end.
Definition boot_type_row (t : Z * bytes) : M kds_state Z :=
  match kds_type_lookup_by_name (Some t.2) with
  | None => halt_with Panic
  | Some desc => insert_sys_type_row t.1 (td_name desc) (type_val desc) (fixed_len desc)
  end.
Definition kds_catalog_bootstrap : M catalog_env Z :=
  kds_catalog_init_well_known_objects ;;
  on_store (
    all_or_panic (fun t => bootstrap_one_catalog_page t.2) sys_tables ;;
    all_or_panic (fun t => kds_catalog_insert_object_row t.1.1 KDS_OID_NAMESPACE_SYS KDS_OID_TYPE_TABLE t.1.2) sys_tables ;;
    all_or_panic (fun t => kds_catalog_insert_relation_row t.1.1 KDS_OID_NAMESPACE_SYS t.1.2 t.2
                             (clustered_val KDS_CLUSTERED_HEAP)) sys_tables ;;
    all_or_panic boot_type_row boot_types ;;
    ret 0).

(** ** Table creation *)
Definition kds_catalog_generate_user_oid : M catalog_env Z := fun e =>
  let n := u64 (g_user_oid_counter e + 1) in Ret n (CatEnv (ce_kds e) (g_sys_objects e) n).

Fixpoint insert_columns (rel_id : Z) (cols : list kds_sys_column) : M catalog_env Z :=
  match cols with
  | [] => ret 0
  | c :: cols =>
      oid <- kds_catalog_generate_user_oid ;;
      r <- on_store (insert_sys_column_row oid rel_id (sc_pos c) (sc_name c) (sc_type_val c) (sc_len c) (sc_notnull c)) ;;
      if negb (r =? 0) then ret r else insert_columns rel_id cols
  end.
(** The storage root, [inl] of the error when there is none. *)
Definition create_root (clustered_type : Z) : M kds_state (Z + nat) :=
  if clustered_type =? clustered_val KDS_CLUSTERED_HEAP then
    root <- kds_page_alloc KDS_PAGE_TYPE_HEAP ;;
    match root with
    | None => ret (inl (- ENOSPC))
    | Some fid => on_frame fid heap_init_page ;; ret (inr fid)
    end
  else if clustered_type =? clustered_val KDS_CLUSTERED_BTREE then
    root <- kds_page_alloc KDS_PAGE_TYPE_BTREE_ROOT ;;
    match root with
    | None => ret (inl (- ENOSPC))
    | Some fid => on_frame fid btree_init_root_kpage ;; ret (inr fid)
    end
  else ret (inl (- EINVAL)).
Definition kds_catalog_create_table (namespace_oid : Z) (name : option bytes) (schema : option kds_schema) (clustered_type : Z)
  : M catalog_env (Z * option Z) :=
  match name, schema with
  | Some name, Some schema =>
      root <- on_store (create_root clustered_type) ;;
      match root with
      | inl e => ret (e, None)
      | inr fid =>
          new_oid <- kds_catalog_generate_user_oid ;;
          r <- on_store (kds_catalog_insert_object_row new_oid namespace_oid KDS_OID_TYPE_TABLE name) ;;
          if negb (r =? 0) then on_store (kds_buf_unpin fid) ;; ret (r, None) else
          id <- on_store (on_frame fid (kp_get kp_id)) ;;
          r <- on_store (kds_catalog_insert_relation_row new_oid namespace_oid name id clustered_type) ;;
          if negb (r =? 0) then on_store (kds_buf_unpin fid) ;; ret (r, None) else
          r <- insert_columns new_oid schema ;;
          on_store (kds_buf_unpin fid) ;;
          if negb (r =? 0) then ret (r, None) else ret (0, Some new_oid)
      end
  | _, _ => ret (- EINVAL, None)
  end.

(** ** Reading *)
Definition all_slots (n : Z) : list Z := map Z.of_nat (seq 0 (Z.to_nat n)).
(** A scan for the first row that [sel] accepts: a dead slot is skipped, any
    other error ends the scan.  The result has the error of that slot. *)
Fixpoint find_row {A} (fid : nat) (size : Z) (sel : Z -> kds_heap_tuple_hdr -> bytes -> option A) (slots : list Z)
  : M kds_state (Z + option A) :=
  match slots with
  | [] => ret (inr None)
  | slot :: slots =>
      let* (r, o) := on_frame fid (heap_read_tuple slot (Some size)) in
      match o with
      | None => if r =? - ENOENT then find_row fid size sel slots else ret (inl r)
      | Some (h, b) =>
          match sel slot h b with Some a => ret (inr (Some a)) | None => find_row fid size sel slots end
      end
  end.
Definition scan_page {A} (page_id size : Z) (sel : Z -> kds_heap_tuple_hdr -> bytes -> option A) : M kds_state (Z * option A) :=
  frame <- kds_buf_lookup_or_load page_id ;;
  match frame with
  | ERR_PTR e => ret (e, None)
  | PTR fid =>
      n <- on_frame fid heap_nr_slots ;;
      o <- find_row fid size sel (all_slots n) ;;
      kds_buf_unpin fid ;;
      ret (match o with inr (Some a) => (0, Some a) | _ => (- ENOENT, None) end)
  end.
Definition kds_catalog_get_sys_table_row (table_oid : Z) : M kds_state (Z * option kds_sys_table) :=
  scan_page KDS_CATALOG_PAGE_TABLES SYS_TABLE_SIZE (fun _ _ b =>
    let row := table_dec b in if st_oid row =? table_oid then Some row else None).
Definition kds_catalog_find_table_oid_by_name (name : option bytes) : M kds_state (Z * option Z) :=
  match name with
  | None => ret (- EINVAL, None)
  | Some name => scan_page KDS_CATALOG_PAGE_OBJECTS SYS_OBJECT_SIZE (fun _ _ b =>
      let row := object_dec b in
      if (so_type row =? KDS_OID_TYPE_TABLE) && strncmp_eq (so_name row) name KDS_CATALOG_NAME_MAX
      then Some (so_oid row) else None)
  end.

Fixpoint collect_columns (fid : nat) (rel_id : Z) (slots : list Z) (cols : kds_schema) : M kds_state (Z * kds_schema) :=
  match slots with
  | [] => ret (0, cols)
  | slot :: slots =>
      if Nat.leb KDS_SCHEMA_MAX_COLUMNS (length cols) then ret (0, cols) else
      let* (r, o) := on_frame fid (heap_read_tuple slot (Some SYS_COLUMN_SIZE)) in
      match o with
      | None => if r =? - ENOENT then collect_columns fid rel_id slots cols else ret (r, cols)
      | Some (_, b) =>
          let col := column_dec b in
          collect_columns fid rel_id slots (if sc_rel col =? rel_id then cols ++ [col] else cols)
      end
  end.
(** The error code and what [out_schema] holds. *)
Definition kds_catalog_build_schema_from_columns (rel_id : Z) : M kds_state (Z * kds_schema) :=
  frame <- kds_buf_lookup_or_load KDS_CATALOG_PAGE_COLUMNS ;;
  match frame with
  | ERR_PTR e => ret (e, [])
  | PTR fid =>
      n <- on_frame fid heap_nr_slots ;;
      let* (r, cols) := collect_columns fid rel_id (all_slots n) [] in
      kds_buf_unpin fid ;;
      if negb (r =? 0) then ret (r, cols) else
      ret (if Nat.eqb (length cols) 0 then - ENOENT else 0, cols)
  end.
Definition kds_catalog_init_table_access (namespace_oid oid : Z) : M kds_state (Z * option kds_table_access) :=
  let* (r, row) := kds_catalog_get_sys_table_row oid in
  match row with
  | None => ret (r, None)
  | Some row =>
      let* (r, schema) := kds_catalog_build_schema_from_columns oid in
      if negb (r =? 0) then ret (r, None) else
      ret (0, Some (TableAccess namespace_oid oid schema (desc_page_id row) (st_clustered row)))
  end.

(** ** Moving a root *)
Definition set_desc_page (x : Z) (r : kds_sys_table) : kds_sys_table :=
  SysTable (st_oid r) (st_namespace r) (st_name r) x (st_clustered r).
Definition kds_catalog_update_relation_desc_page (table_oid new_desc_page_id : Z) : M kds_state Z :=
  frame <- kds_buf_lookup_or_load KDS_CATALOG_PAGE_TABLES ;;
  match frame with
  | ERR_PTR e => ret e
  | PTR fid =>
      n <- on_frame fid heap_nr_slots ;;
      o <- find_row fid SYS_TABLE_SIZE (fun slot h b =>
             let row := table_dec b in if st_oid row =? table_oid then Some (slot, h, row) else None) (all_slots n) ;;
      r <- match o with
           | inl e => ret e
           | inr None => ret (- ENOENT)
           | inr (Some (slot, h, row)) =>
               on_frame fid (heap_overwrite_tuple slot (Some (table_enc (set_desc_page new_desc_page_id row)))
                               SYS_TABLE_SIZE (xmin h) (xmax h) (undo_ptr h))
           end ;;
      kds_buf_unpin fid ;;
      ret r
  end.
End Catalog.
