(* ===== verification/CatalogSpec.v ===== *)
(** * CatalogSpec: the catalog pages implement a small relational store

    [catalog] is the abstract state: four lists of rows.  [catalog_rep]
    relates it to the cache; every operation of catalog.c is shown to act on
    the lists.  A page holds as many rows as fit in its 8135 bytes, and the
    catalog never chains pages. *)
From S2P Require Import Prelude Layout Heap HeapSpec HeapOps TupleStore State Disk DiskSpec Pool PoolSpec Alloc AllocSpec Btree Types Parser Store Catalog.
From stdpp Require Import prelude gmap list strings.
From Stdlib Require Import ZArith Lia.
Local Open Scope Z_scope.
Local Open Scope list_scope.
Local Open Scope kds_scope.

(** ** Row codecs *)
Definition name_ok (n : bytes) : Prop := length n = 64%nat /\ bytes_ok n.
Definition object_ok (r : kds_sys_object) : Prop :=
  u64_ok (so_oid r) /\ u64_ok (so_namespace r) /\ u64_ok (so_type r) /\ u64_ok (so_rel r) /\ name_ok (so_name r).
Definition table_ok (r : kds_sys_table) : Prop :=
  u64_ok (st_oid r) /\ u64_ok (st_namespace r) /\ name_ok (st_name r) /\ u64_ok (desc_page_id r) /\ is_byte (st_clustered r).
Definition column_ok (r : kds_sys_column) : Prop :=
  u64_ok (sc_oid r) /\ u64_ok (sc_rel r) /\ 0 <= sc_pos r < 2 ^ 32 /\ name_ok (sc_name r) /\
  0 <= sc_type_val r < 2 ^ 32 /\ 0 <= sc_len r < 2 ^ 32.
Definition type_ok (r : kds_sys_type) : Prop :=
  u64_ok (sy_oid r) /\ name_ok (sy_name r) /\ 0 <= sy_type_val r < 2 ^ 32 /\ 0 <= sy_len r < 2 ^ 32.

(** A row type with its image in a tuple. *)
Class RowCodec (R : Type) := {
  row_enc : R -> bytes;
  row_dec : bytes -> R;
  row_size : Z;
  row_ok : R -> Prop }.
Class RowCodecLaws (R : Type) {C : RowCodec R} : Prop := {
  row_dec_enc r : row_ok r -> row_dec (row_enc r) = r;
  row_len r : row_ok r -> zlen (row_enc r) = row_size;
  row_bytes r : row_ok r -> bytes_ok (row_enc r);
  row_small : 0 <= row_size <= KDS_PAGE_SIZE }.

#[export] Instance object_codec : RowCodec kds_sys_object :=
  {| row_enc := object_enc; row_dec := object_dec; row_size := SYS_OBJECT_SIZE; row_ok := object_ok |}.
#[export] Instance table_codec : RowCodec kds_sys_table :=
  {| row_enc := table_enc; row_dec := table_dec; row_size := SYS_TABLE_SIZE; row_ok := table_ok |}.
#[export] Instance column_codec : RowCodec kds_sys_column :=
  {| row_enc := column_enc; row_dec := column_dec; row_size := SYS_COLUMN_SIZE; row_ok := column_ok |}.
Definition type_dec (b : bytes) : kds_sys_type :=
  let '(o, b) := get 8 b in
  let '(nm, b) := getb 64 b in
  let '(t, b) := get 4 b in
  let '(l, _) := get 4 b in
  SysType o nm t l.
#[export] Instance type_codec : RowCodec kds_sys_type :=
  {| row_enc := type_enc; row_dec := type_dec; row_size := SYS_TYPE_SIZE; row_ok := type_ok |}.

Ltac split_hyps := repeat match goal with H : _ /\ _ |- _ => destruct H end.
Ltac row_laws codec enc dec ok :=
  split; [intros r Hr; lazy [row_enc row_dec row_size row_ok codec] in *; unfold ok, name_ok, u64_ok, is_byte in Hr; split_hyps..|by cbn];
  [ match goal with |- _ = ?r => destruct r end; repeat match goal with b : bool |- _ => destruct b end;
    cbn -[get getb le_bytes Z.pow] in *; unfold enc, dec; cbn -[get getb le_bytes Z.pow]; struct_rt
  | unfold enc; autorewrite with kds_len; unfold zlen; repeat match goal with H : length _ = _ |- _ => rewrite H end; reflexivity
  | unfold enc; rewrite !bytes_ok_app; split_and!; auto with kds ].
#[export] Instance object_laws : RowCodecLaws kds_sys_object.
Proof. row_laws object_codec object_enc object_dec object_ok. Qed.
#[export] Instance table_laws : RowCodecLaws kds_sys_table.
Proof. row_laws table_codec table_enc table_dec table_ok. Qed.
#[export] Instance type_laws : RowCodecLaws kds_sys_type.
Proof. row_laws type_codec type_enc type_dec type_ok. Qed.
#[export] Instance column_laws : RowCodecLaws kds_sys_column.
Proof. row_laws column_codec column_enc column_dec column_ok. Qed.

(** ** The abstract catalog *)
Record catalog := Cat {
  c_objects : list kds_sys_object; c_tables : list kds_sys_table; c_columns : list kds_sys_column; c_types : list kds_sys_type }.

Section Rep.
Context {R : Type} {C : RowCodec R}.
(** The tuple of a row, as bootstrap and table creation write it. *)
Definition row_tuple (r : R) : option htuple :=
  Some (HTuple (TupleHdr KDS_BOOTSTRAP_XID 0 0 row_size 0 0) (row_enc r) row_size).
Definition row_cost : Z := 33 + row_size.
Definition rows_at (pl : kds_buf_pool) (id : Z) (rows : list R) : Prop :=
  Forall row_ok rows /\ heap_page pl id (map row_tuple rows) (8135 - row_cost * zlen rows) 0.
Lemma rows_at_other id id' pl pl' rows : only_page id pl pl' -> id' <> id -> rows_at pl id' rows -> rows_at pl' id' rows.
Proof. intros Ho Hne [Hr Hp]. split; [done|]. by eapply heap_page_other. Qed.
End Rep.

Record catalog_rep (pl : kds_buf_pool) (c : catalog) : Prop := {
  cr_wf : pool_wf pl;
  cr_objects : rows_at pl KDS_CATALOG_PAGE_OBJECTS (c_objects c);
  cr_tables : rows_at pl KDS_CATALOG_PAGE_TABLES (c_tables c);
  cr_columns : rows_at pl KDS_CATALOG_PAGE_COLUMNS (c_columns c);
  cr_types : rows_at pl KDS_CATALOG_PAGE_TYPES (c_types c) }.

(** ** Inserting and scanning *)
Section Rows.
Context `{K : Kernel} {TS : TupleStore} {R : Type} {C : RowCodec R} {L : RowCodecLaws R}.

Lemma insert_row_spec pl s id rows r :
  pool_wf pl -> rows_at pl id rows -> row_ok r ->
  if row_cost * (zlen rows + 1) <=? 8135 then
    exists pl', insert_row id (row_enc r) (wp pl s) = Ret 0 (wp pl' s) /\ pool_wf pl' /\ only_page id pl pl' /\
      rows_at pl' id (rows ++ [r])
  else insert_row id (row_enc r) (wp pl s) = Ret (- ENOSPC) (wp pl s).
Proof.
  intros Hwf [Hrows (k & p & Hc & Hp & Hv & Hf & Hn)] Hr. unfold insert_row.
  destruct (open_page id pl s k p Hwf Hc) as (fid & pl1 & Hm1 & E1 & Hwf1 & Hc1 & Ho1 & Hu1 & Hu2).
  erewrite bind_ok by exact E1. cbn beta iota. pose proof row_small as Hs. pose proof (row_len r Hr) as Hlen.
  pose proof (insert_put id fid pl1 s (pinned k) p (row_enc r) KDS_BOOTSTRAP_XID Hwf1 Hm1 Hc1 Hp (row_bytes r Hr)) as H.
  cbn zeta in H. rewrite Hlen, Hf in H. specialize (H ltac:(lia) ltac:(by unfold u64_ok)).
  rewrite Hlen. unfold row_cost in *.
  destruct (Z.leb_spec ((33 + row_size) * (zlen rows + 1)) 8135), (Z.ltb_spec (8135 - (33 + row_size) * zlen rows) (33 + row_size)); try lia.
  - destruct H as (q & E & Hq & Hqv & Hqf & Hqn). erewrite bind_ok by exact E. cbn beta iota.
    erewrite bind_ok by (by apply Hu2).
    destruct (put_spec pl Hwf id k p (dirty k) q Hc) as (Hwf2 & Ho2 & Hc2).
    { apply (cached_fits pl Hwf) in Hc. eauto with kds. }
    exists (put id (dirty k) q pl). split_and!; try done. split; [apply Forall_app; auto|].
    exists (dirty k), q. split_and!; try done.
    + by rewrite Hqv, Hv, map_app.
    + rewrite Hqf. unfold row_cost. rewrite zlen_app. change (zlen [r]) with 1. lia.
    + by rewrite Hqn.
  - erewrite bind_ok by exact H. cbn beta iota. by erewrite bind_ok by exact Hu1.
Qed.

(** The first row at or after position [i] that the scan accepts. *)
Definition row_hdr : kds_heap_tuple_hdr := TupleHdr KDS_BOOTSTRAP_XID 0 0 row_size 0 0.
Fixpoint first_row {A} (sel : Z -> kds_heap_tuple_hdr -> bytes -> option A) (i : nat) (rows : list R) : option A :=
  match rows with
  | [] => None
  | r :: rows => match sel (Z.of_nat i) row_hdr (row_enc r) with Some a => Some a | None => first_row sel (S i) rows end
  end.
Lemma rows_bound pl id (rows : list R) : rows_at pl id rows -> row_cost * zlen rows <= 8135.
Proof.
  intros [_ (k & p & _ & Hp & _ & Hf & _)]. pose proof (wf_upper _ Hp). unfold p_free in Hf. lia.
Qed.
(** Reading row [i] of a page of rows. *)
Lemma read_row id fid pl s k p rows i r :
  pool_wf pl -> buf_map pl !! id = Some fid -> cached pl id = Some (k, p) -> heap_wf p ->
  heap_view p = map row_tuple rows -> rows !! i = Some r -> row_ok r ->
  on_frame fid (heap_read_tuple (Z.of_nat i) (Some row_size)) (wp pl s) = Ret (0, Some (row_hdr, row_enc r)) (wp pl s).
Proof.
  intros Hwf Hm Hc Hp Hv Hi Hr. pose proof row_small as Hs.
  assert (Hi' : u16_ok (Z.of_nat i)).
  { pose proof (p_meta_ok p (wf_bytes _ Hp)) as (Hn & _). pose proof (zlen_heap_view p Hp) as Hz. rewrite Hv in Hz.
    unfold zlen in Hz. rewrite length_map in Hz. apply lookup_lt_Some in Hi. unfold u16_ok in *. lia. }
  destruct (read_at id fid pl s k p (Z.of_nat i) row_size Hwf Hm Hc Hp Hi') as (o & E & Ho); [lia|].
  rewrite Hv, Nat2Z.id, list_lookup_fmap, Hi in Ho. cbn in Ho. rewrite Z.ltb_irrefl in Ho.
  destruct Ho as (rest & -> & Hrest). rewrite Z.sub_diag in Hrest. destruct rest; [|rewrite zlen_cons in Hrest; pose proof (zlen_nonneg rest); lia].
  by rewrite app_nil_r in E.
Qed.
Lemma find_row_spec {A} id fid pl s k p rows (sel : Z -> kds_heap_tuple_hdr -> bytes -> option A) :
  pool_wf pl -> buf_map pl !! id = Some fid -> cached pl id = Some (k, p) -> heap_wf p ->
  heap_view p = map row_tuple rows -> Forall row_ok rows ->
  forall n i, (i + n = length rows)%nat ->
  find_row fid row_size sel (map Z.of_nat (seq i n)) (wp pl s) = Ret (inr (first_row sel i (drop i rows))) (wp pl s).
Proof.
  intros Hwf Hm Hc Hp Hv Hrows. induction n as [|n IH]; intros i Hi.
  - rewrite drop_ge by lia. done.
  - destruct (lookup_lt_is_Some_2 rows i) as [r Hr]; [lia|]. pose proof (Forall_lookup_1 _ _ _ _ Hrows Hr) as Hok.
    cbn [seq map find_row]. erewrite bind_ok by (by eapply read_row). cbn beta iota.
    rewrite (drop_S _ _ _ Hr). cbn [first_row]. destruct (sel _ _ _); [done|]. apply IH. lia.
Qed.
Lemma scan_page_spec {A} pl s id rows (sel : Z -> kds_heap_tuple_hdr -> bytes -> option A) :
  pool_wf pl -> rows_at pl id rows ->
  scan_page id row_size sel (wp pl s) =
    Ret (match first_row sel 0 rows with Some a => (0, Some a) | None => (- ENOENT, None) end) (wp pl s).
Proof.
  intros Hwf [Hrows (k & p & Hc & Hp & Hv & Hf & Hn)]. unfold scan_page.
  destruct (open_page id pl s k p Hwf Hc) as (fid & pl1 & Hm1 & E1 & Hwf1 & Hc1 & Ho1 & Hu1 & _).
  erewrite bind_ok by exact E1. cbn beta iota. erewrite bind_ok by (by eapply nr_slots_at).
  unfold all_slots. rewrite Hv. unfold zlen. rewrite length_map, Nat2Z.id.
  erewrite bind_ok by (by eapply find_row_spec). rewrite drop_0. by erewrite bind_ok by exact Hu1.
Qed.
End Rows.

(** ** Lookups on the abstract catalog *)
Definition table_lookup (c : catalog) (oid : Z) : option kds_sys_table := find (fun t => st_oid t =? oid) (c_tables c).
Definition named (name : bytes) (o : kds_sys_object) : bool :=
  (so_type o =? KDS_OID_TYPE_TABLE) && strncmp_eq (so_name o) name KDS_CATALOG_NAME_MAX.
Definition name_lookup (c : catalog) (name : bytes) : option Z := so_oid <$> find (named name) (c_objects c).
Definition belongs (rel : Z) (col : kds_sys_column) : bool := sc_rel col =? rel.
Definition schema_of (c : catalog) (rel : Z) : kds_schema := take 32 (List.filter (belongs rel) (c_columns c)).
Definition found {A} (o : option A) : Z * option A := match o with Some a => (0, Some a) | None => (- ENOENT, None) end.

Section Reads.
Context `{K : Kernel} {TS : TupleStore}.

Lemma first_row_find {R} {C : RowCodec R} {L : RowCodecLaws R} {A} (P : R -> bool) (g : R -> A) rows :
  Forall row_ok rows -> forall i,
  first_row (fun _ _ b => if P (row_dec b) then Some (g (row_dec b)) else None) i rows = g <$> find P rows.
Proof.
  induction 1 as [|r rows Hr Hrows IH]; intros i; cbn [first_row find]; [done|].
  rewrite row_dec_enc by done. destruct (P r); [done|]. apply IH.
Qed.
Lemma get_sys_table_row_spec pl s c oid :
  catalog_rep pl c -> kds_catalog_get_sys_table_row oid (wp pl s) = Ret (found (table_lookup c oid)) (wp pl s).
Proof.
  intros Hc. pose proof (cr_tables _ _ Hc) as [Hok _]. unfold kds_catalog_get_sys_table_row.
  pose proof (scan_page_spec pl s _ _ (fun _ _ b => if st_oid (row_dec b) =? oid then Some (row_dec (R := kds_sys_table) b) else None)
    (cr_wf _ _ Hc) (cr_tables _ _ Hc)) as E.
  pose proof (first_row_find (fun t => st_oid t =? oid) (fun t => t) _ Hok 0) as F. cbn beta in F.
  rewrite F in E. unfold table_lookup. by destruct (find _ _).
Qed.
Lemma find_table_spec pl s c name :
  catalog_rep pl c -> kds_catalog_find_table_oid_by_name (Some name) (wp pl s) = Ret (found (name_lookup c name)) (wp pl s).
Proof.
  intros Hc. pose proof (cr_objects _ _ Hc) as [Hok _]. unfold kds_catalog_find_table_oid_by_name.
  pose proof (scan_page_spec pl s _ _ (fun _ _ b => if named name (row_dec b) then Some (so_oid (row_dec b)) else None)
    (cr_wf _ _ Hc) (cr_objects _ _ Hc)) as E.
  rewrite (first_row_find (named name) so_oid _ Hok) in E. exact E.
Qed.
Lemma collect_columns_spec id fid pl s k p rows rel :
  pool_wf pl -> buf_map pl !! id = Some fid -> cached pl id = Some (k, p) -> heap_wf p ->
  heap_view p = map row_tuple rows -> Forall row_ok rows ->
  forall n i cols, (i + n = length rows)%nat -> (length cols <= 32)%nat ->
  collect_columns fid rel (map Z.of_nat (seq i n)) cols (wp pl s) =
    Ret (0, take 32 (cols ++ List.filter (belongs rel) (drop i rows))) (wp pl s).
Proof.
  intros Hwf Hm Hc Hp Hv Hrows. induction n as [|n IH]; intros i cols Hi Hlen.
  - rewrite drop_ge by lia. cbn. rewrite app_nil_r. by rewrite take_ge by lia.
  - destruct (lookup_lt_is_Some_2 rows i) as [r Hr]; [lia|]. pose proof (Forall_lookup_1 _ _ _ _ Hrows Hr) as Hok.
    cbn [seq map collect_columns]. change KDS_SCHEMA_MAX_COLUMNS with 32%nat. destruct (Nat.leb_spec 32 (length cols)).
    + rewrite take_app_le, take_ge by lia. done.
    + pose proof (read_row id fid pl s k p rows i r Hwf Hm Hc Hp Hv Hr Hok) as E. erewrite bind_ok by exact E. cbn beta iota.
      change (column_dec (row_enc r)) with (row_dec (R := kds_sys_column) (row_enc r)). rewrite row_dec_enc by done.
      rewrite (drop_S _ _ _ Hr). cbn [List.filter]. unfold belongs at 1.
      destruct (sc_rel r =? rel); rewrite IH; try lia; [by rewrite <- app_assoc|rewrite length_app; cbn; lia|done].
Qed.
Lemma build_schema_spec pl s c rel :
  catalog_rep pl c -> kds_catalog_build_schema_from_columns rel (wp pl s) =
    Ret (if decide (schema_of c rel = []) then (- ENOENT, []) else (0, schema_of c rel)) (wp pl s).
Proof.
  intros Hc. pose proof (cr_columns _ _ Hc) as [Hok (k & p & Hca & Hp & Hv & _)]. pose proof (cr_wf _ _ Hc) as Hwf.
  unfold kds_catalog_build_schema_from_columns.
  destruct (open_page _ pl s k p Hwf Hca) as (fid & pl1 & Hm1 & E1 & Hwf1 & Hc1 & Ho1 & Hu1 & _).
  erewrite bind_ok by exact E1. cbn beta iota. erewrite bind_ok by (by eapply nr_slots_at).
  unfold all_slots. rewrite Hv. unfold zlen. rewrite length_map, Nat2Z.id.
  erewrite bind_ok by (eapply collect_columns_spec; try done; cbn; lia). cbn beta iota. rewrite drop_0. cbn [app].
  erewrite bind_ok by exact Hu1. fold (schema_of c rel). cbn [Z.eqb negb]. unfold ret.
  destruct (schema_of c rel) as [|x l]; [by rewrite decide_True|by rewrite decide_False].
Qed.
End Reads.

(** ** Moving a root on the abstract catalog *)
Fixpoint move_first (oid new : Z) (l : list kds_sys_table) : list kds_sys_table :=
  match l with [] => [] | t :: l => if st_oid t =? oid then set_desc_page new t :: l else t :: move_first oid new l end.
Definition move_root (oid new : Z) (c : catalog) : catalog :=
  Cat (c_objects c) (move_first oid new (c_tables c)) (c_columns c) (c_types c).

Section Move.
Context `{K : Kernel} {TS : TupleStore}.
Definition sel_table (oid : Z) (slot : Z) (h : kds_heap_tuple_hdr) (b : bytes) : option (Z * kds_heap_tuple_hdr * kds_sys_table) :=
  let row := table_dec b in if st_oid row =? oid then Some (slot, h, row) else None.
Lemma first_row_table oid new rows : Forall row_ok rows -> forall i,
  match find (fun t => st_oid t =? oid) rows with
  | None => first_row (sel_table oid) i rows = None
  | Some t => exists j, rows !! j = Some t /\ first_row (sel_table oid) i rows = Some (Z.of_nat (i + j), row_hdr (R := kds_sys_table), t) /\
      move_first oid new rows = <[j := set_desc_page new t]> rows
  end.
Proof.
  induction 1 as [|r rows Hr Hrows IH]; intros i; cbn [first_row find move_first]; [done|].
  assert (Hs : sel_table oid (Z.of_nat i) (row_hdr (R := kds_sys_table)) (row_enc r) = if st_oid r =? oid then Some (Z.of_nat i, row_hdr (R := kds_sys_table), r) else None).
  { unfold sel_table. change (table_dec (row_enc r)) with (row_dec (R := kds_sys_table) (row_enc r)). by rewrite row_dec_enc. }
  rewrite Hs. destruct (st_oid r =? oid).
  - exists 0%nat. rewrite Nat.add_0_r. done.
  - specialize (IH (S i)). destruct (find _ rows) as [t|]; [|done]. destruct IH as (j & H1 & H2 & H3).
    exists (S j). split; [done|]. rewrite H2, H3. replace (i + S j)%nat with (S i + j)%nat by lia. done.
Qed.
Lemma update_desc_page_cases pl s c oid new :
  catalog_rep pl c -> u64_ok new ->
  match table_lookup c oid with
  | None => kds_catalog_update_relation_desc_page oid new (wp pl s) = Ret (- ENOENT) (wp pl s)
  | Some t => exists pl', kds_catalog_update_relation_desc_page oid new (wp pl s) = Ret 0 (wp pl' s) /\
      catalog_rep pl' (move_root oid new c) /\ only_page KDS_CATALOG_PAGE_TABLES pl pl'
  end.
Proof.
  intros Hc Hnew. pose proof Hc as [Hwf Ho Ht Hco Hty]. pose proof Ht as [Hok (k & p & Hca & Hp & Hv & Hf & Hn)].
  unfold kds_catalog_update_relation_desc_page.
  destruct (open_page _ pl s k p Hwf Hca) as (fid & pl1 & Hm1 & E1 & Hwf1 & Hc1 & Ho1 & Hu1 & Hu2).
  erewrite bind_ok by exact E1. cbn beta iota. erewrite bind_ok by (by eapply nr_slots_at).
  pose proof (find_row_spec _ fid pl1 s (pinned k) p (c_tables c) (sel_table oid) Hwf1 Hm1 Hc1 Hp Hv Hok (length (c_tables c)) 0 eq_refl) as E.
  unfold all_slots. rewrite Hv. unfold zlen. rewrite length_map, Nat2Z.id. erewrite bind_ok by exact E. rewrite drop_0.
  pose proof (first_row_table oid new (c_tables c) Hok 0) as Hfirst. unfold table_lookup.
  destruct (find _ (c_tables c)) as [t|]; 
    [|rewrite Hfirst; erewrite (bind_ok (ret _)) by reflexivity; by erewrite bind_ok by exact Hu1].
  destruct Hfirst as (j & Hj & -> & Hmove). cbn beta iota. cbn [Nat.add].
  pose proof (Forall_lookup_1 _ _ _ _ Hok Hj) as Hrow. set (t' := set_desc_page new t) in *.
  assert (Hrow' : row_ok t') by (destruct Hrow as (? & ? & ? & ? & ?); by split_and!).
  assert (Hvj : heap_view p !! Z.to_nat (Z.of_nat j) = Some (row_tuple t)) by (by rewrite Hv, Nat2Z.id, list_lookup_fmap, Hj).
  pose proof (row_len t' Hrow') as Hlen.
  assert (Hju : u16_ok (Z.of_nat j)).
  { pose proof (rows_bound _ _ _ Ht) as Hb. unfold row_cost, row_size in Hb; cbn in Hb. unfold SYS_TABLE_SIZE, zlen in Hb.
    apply lookup_lt_Some in Hj. unfold u16_ok. lia. }
  destruct (overwrite_put _ fid pl1 s (pinned k) p (Z.of_nat j) _ (row_enc t') (xmin (row_hdr (R := kds_sys_table))) 0 0
    Hwf1 Hm1 Hc1 Hp Hju Hvj (row_bytes t' Hrow')) as (q & E2 & Hq & Hqv & Hqf & Hqn); [by rewrite Hlen|by vm_compute..|].
  rewrite Hlen in E2. erewrite bind_ok by exact E2. erewrite bind_ok by (by apply Hu2).
  destruct (put_spec pl Hwf KDS_CATALOG_PAGE_TABLES k p (dirty k) q Hca) as (Hwf2 & Ho2 & Hc2).
  { apply (cached_fits pl Hwf) in Hca. eauto with kds. }
  exists (put KDS_CATALOG_PAGE_TABLES (dirty k) q pl). split; [done|]. split; [|done].
  split; cbn [move_root c_objects c_tables c_columns c_types]; [done|by eapply rows_at_other| |by eapply rows_at_other..].
  split; [rewrite Hmove; by apply Forall_insert|]. exists (dirty k), q. rewrite Hmove. split_and!; try done.
  - rewrite Hqv, Hv, Nat2Z.id. cbn [ht_cap row_tuple]. rewrite Hlen.
    change (map row_tuple (<[j:=t']> (c_tables c))) with (row_tuple <$> <[j:=t']> (c_tables c)). by rewrite list_fmap_insert.
  - rewrite Hqf, Hf. unfold zlen. by rewrite length_insert.
  - by rewrite Hqn.
Qed.
End Move.

(** ** Creating a table *)
Lemma c_str_ok b : bytes_ok b -> bytes_ok (c_str b).
Proof. induction 1 as [|x b Hx Hb IH]; cbn; [constructor|]. destruct (x =? 0); by constructor. Qed.
Lemma set_name_ok b : bytes_ok b -> name_ok (set_name b).
Proof.
  intros Hb. unfold set_name, name_ok. split.
  - rewrite length_app, length_replicate. assert (length (take (KDS_CATALOG_NAME_MAX - 1) (c_str b)) <= 63)%nat.
    { rewrite length_take. unfold KDS_CATALOG_NAME_MAX. lia. } unfold KDS_CATALOG_NAME_MAX in *. lia.
  - apply bytes_ok_app. split; [by apply Forall_take, c_str_ok|]. apply Forall_replicate. unfold is_byte. lia.
Qed.

Definition add_object (r : kds_sys_object) (c : catalog) : catalog := Cat (c_objects c ++ [r]) (c_tables c) (c_columns c) (c_types c).
Definition add_table (r : kds_sys_table) (c : catalog) : catalog := Cat (c_objects c) (c_tables c ++ [r]) (c_columns c) (c_types c).
Definition add_columns (r : list kds_sys_column) (c : catalog) : catalog := Cat (c_objects c) (c_tables c) (c_columns c ++ r) (c_types c).

Definition column_row (oid rel : Z) (c : kds_sys_column) : kds_sys_column :=
  SysColumn oid rel (sc_pos c) (set_name (sc_name c)) (sc_type_val c) (sc_len c) (sc_notnull c).
Fixpoint new_columns (n rel : Z) (cols : kds_schema) : list kds_sys_column :=
  match cols with [] => [] | c :: cols => column_row (u64 (n + 1)) rel c :: new_columns (u64 (n + 1)) rel cols end.
Lemma length_new_columns cols : forall n rel, length (new_columns n rel cols) = length cols.
Proof. induction cols as [|c cols IH]; intros n rel; cbn; [done|]. by rewrite IH. Qed.
Definition input_column_ok (c : kds_sys_column) : Prop :=
  0 <= sc_pos c < 2 ^ 32 /\ 0 <= sc_type_val c < 2 ^ 32 /\ 0 <= sc_len c < 2 ^ 32 /\ bytes_ok (sc_name c).

(** Row capacities of the pages: 63 objects, 66 tables, 64 columns. *)
Definition MAX_OBJECTS : Z := 63.
Definition MAX_TABLES : Z := 66.
Definition MAX_COLUMNS : Z := 64.
(** Table creation on the abstract catalog: result, counter, catalog. *)
Definition create_model (n ns : Z) (name : bytes) (schema : kds_schema) (root kind : Z) (c : catalog) : Z * Z * catalog :=
  let oid := u64 (n + 1) in
  if MAX_OBJECTS <=? zlen (c_objects c) then (- ENOSPC, oid, c) else
  let c := add_object (SysObject oid ns KDS_OID_TYPE_TABLE 0 (set_name name)) c in
  if MAX_TABLES <=? zlen (c_tables c) then (- ENOSPC, oid, c) else
  let c := add_table (SysTable oid ns (set_name name) root kind) c in
  let room := MAX_COLUMNS - zlen (c_columns c) in
  if zlen schema <=? room then (0, u64 (oid + zlen schema), add_columns (new_columns oid oid schema) c)
  else (- ENOSPC, u64 (oid + room + 1), add_columns (take (Z.to_nat room) (new_columns oid oid schema)) c).

Section Create.
Context `{K : Kernel} {KS : Kstrtoll} {TS : TupleStore}.

Lemma on_store_wp {A} (m : M kds_state A) pl s o n a pl' s' :
  m (wp pl s) = Ret a (wp pl' s') -> on_store m (CatEnv (wp pl s) o n) = Ret a (CatEnv (wp pl' s') o n).
Proof. intros H. unfold on_store. cbn [ce_kds]. by rewrite H. Qed.

Lemma insert_columns_spec rel cols : u64_ok rel -> Forall input_column_ok cols ->
  forall pl s o n rows, pool_wf pl -> u64_ok n -> rows_at pl KDS_CATALOG_PAGE_COLUMNS rows ->
  let room := MAX_COLUMNS - zlen rows in
  exists pl', insert_columns rel cols (CatEnv (wp pl s) o n) =
    (if zlen cols <=? room then Ret 0 (CatEnv (wp pl' s) o (u64 (n + zlen cols)))
     else Ret (- ENOSPC) (CatEnv (wp pl' s) o (u64 (n + room + 1)))) /\
    pool_wf pl' /\ only_page KDS_CATALOG_PAGE_COLUMNS pl pl' /\
    rows_at pl' KDS_CATALOG_PAGE_COLUMNS (rows ++ take (Z.to_nat room) (new_columns n rel cols)).
Proof.
  intros Hrel. induction cols as [|c cols IH]; intros Hcols pl s o n rows Hwf Hn Hrows room.
  - exists pl. pose proof (rows_bound _ _ _ Hrows) as Hb. unfold row_cost, row_size in Hb; cbn in Hb.
    unfold SYS_COLUMN_SIZE in Hb. subst room. unfold MAX_COLUMNS. change (zlen (A := kds_sys_column) []) with 0.
    destruct (Z.leb_spec 0 (64 - zlen rows)); [|lia]. rewrite Z.add_0_r, u64_small by done.
    cbn [new_columns]. rewrite take_nil, app_nil_r. split_and!; done.
  - apply Forall_cons in Hcols as [(Hc1 & Hc2 & Hc3 & Hc4) Hcols]. cbn [insert_columns].
    erewrite (bind_ok kds_catalog_generate_user_oid) by reflexivity. cbn [ce_kds g_sys_objects g_user_oid_counter].
    set (n1 := u64 (n + 1)).
    pose proof (insert_row_spec pl s KDS_CATALOG_PAGE_COLUMNS rows (column_row n1 rel c) Hwf Hrows) as H.
    assert (Hok : row_ok (column_row n1 rel c)).
    { repeat (split; [first [apply u64_range|by apply set_name_ok|done]|]). done. }
    specialize (H Hok). unfold row_cost, row_size in H; cbn [column_codec] in H. unfold SYS_COLUMN_SIZE in H.
    rewrite zlen_cons. pose proof (zlen_nonneg cols). subst room. unfold MAX_COLUMNS in *.
    destruct (Z.leb_spec ((33 + 93) * (zlen rows + 1)) 8135) as [Hfit|Hfull].
    + destruct H as (pl1 & E & Hwf1 & Ho1 & Hrows1). erewrite bind_ok by (apply on_store_wp; exact E). cbn [Z.eqb negb].
      destruct (IH Hcols pl1 s o n1 (rows ++ [column_row n1 rel c]) Hwf1 (u64_range _) Hrows1) as (pl' & E' & Hwf' & Ho' & Hr').
      exists pl'. rewrite zlen_app in *. change (zlen [column_row n1 rel c]) with 1 in *. rewrite E'.
      split; [|split; [done|split; [by eapply only_page_trans|]]].
      * destruct (Z.leb_spec (zlen cols) (64 - (zlen rows + 1))), (Z.leb_spec (1 + zlen cols) (64 - zlen rows)); try lia.
        -- do 2 f_equal. subst n1. unfold u64. rewrite Zplus_mod_idemp_l. f_equal. lia.
        -- do 2 f_equal. subst n1. unfold u64.
           replace (((n + 1) mod 2 ^ 64 + (64 - (zlen rows + 1)) + 1)) with ((n + 1) mod 2 ^ 64 + (64 - zlen rows)) by lia.
           rewrite Zplus_mod_idemp_l. f_equal. lia.
      * cbn [new_columns]. fold n1. replace (Z.to_nat (64 - zlen rows)) with (S (Z.to_nat (64 - (zlen rows + 1)))) by lia.
        cbn [take]. by rewrite <- app_assoc in Hr'.
    + erewrite bind_ok by (apply on_store_wp; exact H). cbn [Z.eqb negb].
      pose proof (rows_bound _ _ _ Hrows) as Hb. unfold row_cost, row_size in Hb; cbn in Hb. unfold SYS_COLUMN_SIZE in Hb.
      exists pl. destruct (Z.leb_spec (1 + zlen cols) (64 - zlen rows)); [lia|]. split_and!; try done.
      * subst n1. do 2 f_equal. f_equal. lia.
      * replace (Z.to_nat (64 - zlen rows)) with 0%nat by lia. by rewrite take_0, app_nil_r.
Qed.

(** A freshly made storage root. *)
Definition root_ready (kind : kds_clustered_type) (k : kds_page) (p : bytes) : Prop :=
  match kind with
  | KDS_CLUSTERED_HEAP => heap_wf p /\ heap_view p = [] /\ p_free p = 8135 /\ p_next p = 0
  | KDS_CLUSTERED_BTREE => ph_type (kp_hdr k) = KDS_PAGE_TYPE_BTREE_ROOT
  end.
(** The page at the head of the ring. *)
Record staged_root (s : kds_state) (pl : kds_buf_pool) (fid : nat) (q : list nat) (rid : Z) (k : kds_page) (p : bytes) : Prop := {
  sr_alloc : alloc_state s pl (fid :: q);
  sr_map : buf_map pl !! rid = Some fid;
  sr_page : cached pl rid = Some (k, p);
  sr_bytes : bytes_ok p;
  sr_hdr : page_hdr_ok (kp_hdr k);
  sr_id : u64_ok rid }.

(** Taking the page and initialising it. *)
Lemma staged_alloc ty s pl fid q rid k p :
  staged_root s pl fid q rid k p ->
  exists a, kds_page_alloc ty s = Ret (Some fid) (wp (put rid (retyped ty k) p pl) (set_g_alloc (Some a) s)) /\ ring_is a q.
Proof.
  intros [Hs Hm Hc _ _ _]. destruct (page_alloc_cases ty s pl fid q rid k p Hs Hm Hc) as (a & f & E & Hr & Hf & _). exists a. split; [|done].
  rewrite E. unfold put. by rewrite Hm, Hf.
Qed.
Lemma staged_init (m : M kds_frame unit) ty (Q : kds_page -> bytes -> Prop) s' s pl fid q rid k p :
  staged_root s pl fid q rid k p ->
  (forall f, frame_live f (retyped ty k) p -> exists k' p', m f = Ret tt (live_frame f k' p') /\ Q k' p') ->
  exists k1 p1, on_frame fid m (wp (put rid (retyped ty k) p pl) s') = Ret tt (wp (put rid k1 p1 pl) s') /\ Q k1 p1.
Proof.
  intros [Hs Hm Hc _ _ _] Hop. pose proof (as_wf _ _ _ Hs) as Hwf. pose proof (cached_fits pl Hwf rid k p Hc) as Hfit.
  destruct (put_spec pl Hwf rid k p (retyped ty k) p Hc) as (Hwf1 & _ & Hc1); [done|].
  destruct (frame_put rid fid m (put rid (retyped ty k) p pl) s' (retyped ty k) p tt Q Hwf1) as (k1 & p1 & E1 & HQ);
    [by rewrite buf_map_put|done|done|]. rewrite put_put in E1. by exists k1, p1.
Qed.
Lemma staged_heap_init f s pl fid q rid k p :
  staged_root s pl fid q rid k p -> frame_live f (retyped KDS_PAGE_TYPE_HEAP k) p ->
  exists k' p', heap_init_page f = Ret tt (live_frame f k' p') /\ page_fits rid k' p' /\ root_ready KDS_CLUSTERED_HEAP k' p'.
Proof.
  intros [Hs Hm Hc Hb Hh _] Hf. destruct (cached_fits pl (as_wf _ _ _ Hs) rid k p Hc) as (H1 & H2 & H3).
  destruct (ts_init f (retyped KDS_PAGE_TYPE_HEAP k) p Hf H2 Hb) as (q' & E1 & H4 & H5 & H6 & H7).
  { destruct Hh as (? & ? & ? & ? & ?). split_and!; cbn; (done || lia). }
  eexists _, q'. split; [exact E1|]. split; [|done]. split_and!; [done|apply H4|done].
Qed.
Lemma create_root_spec kind s pl fid q rid k p :
  staged_root s pl fid q rid k p ->
  exists a k1 p1, create_root (clustered_val kind) s = Ret (inr fid) (wp (put rid k1 p1 pl) (set_g_alloc (Some a) s)) /\
    ring_is a q /\ page_fits rid k1 p1 /\ root_ready kind k1 p1.
Proof.
  intros Hst. pose proof Hst as [Hs Hm Hc Hb Hh _]. pose proof (cached_fits pl (as_wf _ _ _ Hs) rid k p Hc) as Hfit. unfold create_root.
  destruct kind; cbn [clustered_val Z.eqb Pos.eqb]; cbn iota.
  - destruct (staged_alloc KDS_PAGE_TYPE_HEAP _ _ _ _ _ _ _ Hst) as (a & E & Hr). erewrite bind_ok by exact E. cbn beta iota.
    destruct (staged_init heap_init_page KDS_PAGE_TYPE_HEAP (fun k' q' => page_fits rid k' q' /\ root_ready KDS_CLUSTERED_HEAP k' q')
      (set_g_alloc (Some a) s) _ _ _ _ _ _ _ Hst) as (k1 & p1 & E1 & Hf1 & Hready); [by intros f; eapply staged_heap_init|].
    erewrite bind_ok by exact E1. by exists a, k1, p1.
  - destruct (staged_alloc KDS_PAGE_TYPE_BTREE_ROOT _ _ _ _ _ _ _ Hst) as (a & E & Hr). erewrite bind_ok by exact E. cbn beta iota.
    destruct (staged_init btree_init_root_kpage KDS_PAGE_TYPE_BTREE_ROOT (fun k' q' => page_fits rid k' q' /\ root_ready KDS_CLUSTERED_BTREE k' q')
      (set_g_alloc (Some a) s) _ _ _ _ _ _ _ Hst) as (k1 & p1 & E1 & Hf1 & Hready).
    + intros f [Hk Hp]. unfold btree_init_root_kpage, kp_mod. rewrite Hk. set (k1 := retyped KDS_PAGE_TYPE_BTREE_ROOT k).
      exists (set_kp_hdr (or_flags KDS_PAGE_FLAG_INIT (set_ph_type KDS_PAGE_TYPE_BTREE_ROOT (kp_hdr k1))) k1), p.
      split; [|done]. unfold live_frame. f_equal. by destruct f; cbn in *; subst.
    + erewrite bind_ok by exact E1. by exists a, k1, p1.
Qed.

(** What is left of the creation once the root exists. *)
Lemma object_fits (c : catalog) : (row_cost (R := kds_sys_object) * (zlen (c_objects c) + 1) <=? 8135) = negb (MAX_OBJECTS <=? zlen (c_objects c)).
Proof.
  unfold row_cost, row_size, MAX_OBJECTS; cbn [object_codec]. unfold SYS_OBJECT_SIZE.
  destruct (Z.leb_spec ((33 + 96) * (zlen (c_objects c) + 1)) 8135), (Z.leb_spec 63 (zlen (c_objects c))); try done; lia.
Qed.
Lemma table_fits (c : catalog) : (row_cost (R := kds_sys_table) * (zlen (c_tables c) + 1) <=? 8135) = negb (MAX_TABLES <=? zlen (c_tables c)).
Proof.
  unfold row_cost, row_size, MAX_TABLES; cbn [table_codec]. unfold SYS_TABLE_SIZE.
  destruct (Z.leb_spec ((33 + 89) * (zlen (c_tables c) + 1)) 8135), (Z.leb_spec 66 (zlen (c_tables c))); try done; lia.
Qed.
Lemma rep_other pl pl' id c : catalog_rep pl c -> pool_wf pl' -> only_page id pl pl' -> ~ 4 <= id <= 7 -> catalog_rep pl' c.
Proof.
  intros [H0 H1 H2 H3 H4] Hwf Ho Hid.
  split; [done|..]; eapply rows_at_other; try done; intros <-; apply Hid; by vm_compute.
Qed.
Lemma add_object_rep pl pl' c r :
  catalog_rep pl c -> pool_wf pl' -> only_page KDS_CATALOG_PAGE_OBJECTS pl pl' ->
  rows_at pl' KDS_CATALOG_PAGE_OBJECTS (c_objects c ++ [r]) -> catalog_rep pl' (add_object r c).
Proof. intros [H0 H1 H2 H3 H4] Hwf Ho Hr. split; [done|done|..]; by eapply rows_at_other. Qed.
Lemma add_table_rep pl pl' c r :
  catalog_rep pl c -> pool_wf pl' -> only_page KDS_CATALOG_PAGE_TABLES pl pl' ->
  rows_at pl' KDS_CATALOG_PAGE_TABLES (c_tables c ++ [r]) -> catalog_rep pl' (add_table r c).
Proof. intros [H0 H1 H2 H3 H4] Hwf Ho Hr. split; [done| |done|..]; by eapply rows_at_other. Qed.
Lemma add_columns_rep pl pl' c rs :
  catalog_rep pl c -> pool_wf pl' -> only_page KDS_CATALOG_PAGE_COLUMNS pl pl' ->
  rows_at pl' KDS_CATALOG_PAGE_COLUMNS (c_columns c ++ rs) -> catalog_rep pl' (add_columns rs c).
Proof. intros [H0 H1 H2 H3 H4] Hwf Ho Hr. split; [done| | |done|]; by eapply rows_at_other. Qed.

(** The root page is still pinned and untouched by the row inserts; the
    last step unpins it. *)
Lemma finish_create pl s o n rid fid k p c :
  catalog_rep pl c -> buf_map pl !! rid = Some fid -> cached pl rid = Some (k, p) -> ~ 4 <= rid <= 7 ->
  exists pl', on_store (kds_buf_unpin fid) (CatEnv (wp pl s) o n) = Ret tt (CatEnv (wp pl' s) o n) /\
    catalog_rep pl' c /\ buf_map pl' = buf_map pl /\ cached pl' rid = Some (unpinned k, p).
Proof.
  intros Hrep Hm Hc Hid. pose proof (cr_wf _ _ Hrep) as Hwf. pose proof (cached_fits pl Hwf rid k p Hc) as Hfit.
  destruct (put_spec pl Hwf rid k p (unpinned k) p Hc) as (Hwf' & Ho & Hc'); [done|].
  exists (put rid (unpinned k) p pl). split_and!; [|by eapply rep_other|apply buf_map_put|done].
  apply on_store_wp. by eapply unpin_put.
Qed.
(** What a creation leaves behind: the catalog [c], the root page with its
    pin released, the rest of the ring. *)
Definition created (kind : kds_clustered_type) (rid : Z) (q : list nat) (s : kds_state) (c : catalog) : Prop :=
  exists pl k p, alloc_state s pl q /\ catalog_rep pl c /\ cached pl rid = Some (k, p) /\ root_ready kind k p.
Lemma finish_created kind pl s o n rid fid q k p c a :
  catalog_rep pl c -> buf_map pl !! rid = Some fid -> cached pl rid = Some (k, p) -> ~ 4 <= rid <= 7 ->
  root_ready kind k p -> g_alloc s = Some a -> ring_is a q ->
  exists s', on_store (kds_buf_unpin fid) (CatEnv (wp pl s) o n) = Ret tt (CatEnv s' o n) /\ created kind rid q s' c /\
    disk s' = disk s.
Proof.
  intros Hrep Hm Hc Hid Hready Ha Hr. destruct (finish_create pl s o n rid fid k p c Hrep Hm Hc Hid) as (pl' & E & Hrep' & _ & Hc').
  exists (wp pl' s). split_and!; [done| |done]. exists pl', (unpinned k), p. split_and!; try done.
  split; [done|apply Hrep'|by exists a].
Qed.
End Create.

(** ** Bootstrap *)
Definition boot_object (t : Z * bytes * Z) : kds_sys_object :=
  SysObject t.1.1 KDS_OID_NAMESPACE_SYS KDS_OID_TYPE_TABLE 0 (set_name t.1.2).
Definition boot_table (t : Z * bytes * Z) : kds_sys_table :=
  SysTable t.1.1 KDS_OID_NAMESPACE_SYS (set_name t.1.2) t.2 (clustered_val KDS_CLUSTERED_HEAP).
Definition boot_type `{KS : Kstrtoll} (t : Z * bytes) : kds_sys_type :=
  match kds_type_lookup_by_name (Some t.2) with
  | Some d => SysType t.1 (set_name (td_name d)) (type_val d) (fixed_len d)
  | None => SysType t.1 (set_name t.2) 0 0
  end.
Definition boot_catalog `{KS : Kstrtoll} : catalog := Cat (map boot_object sys_tables) (map boot_table sys_tables) [] (map boot_type boot_types).

Section Bootstrap.
Context `{K : Kernel} {KS : Kstrtoll} {TS : TupleStore}.

Lemma insert_all {R A} {C : RowCodec R} {L : RowCodecLaws R} (step : A -> M kds_state Z) (g : A -> R) id l :
  (forall a, a ∈ l -> step a = insert_row id (row_enc (g a))) -> (forall a, a ∈ l -> row_ok (g a)) ->
  forall pl s rows, pool_wf pl -> rows_at pl id rows -> row_cost (R := R) * (zlen rows + zlen l) <= 8135 ->
  exists pl', all_or_panic step l (wp pl s) = Ret tt (wp pl' s) /\ pool_wf pl' /\ only_page id pl pl' /\
    rows_at pl' id (rows ++ map g l).
Proof.
  induction l as [|a l IH]; intros Hstep Hok pl s rows Hwf Hrows Hfit.
  - exists pl. rewrite app_nil_r. done.
  - rewrite zlen_cons in Hfit. pose proof (zlen_nonneg l). pose proof row_small as Hs. cbn [all_or_panic]. rewrite Hstep by left.
    pose proof (insert_row_spec pl s id rows (g a) Hwf Hrows (Hok a ltac:(left))) as Hins.
    destruct (Z.leb_spec (row_cost (R := R) * (zlen rows + 1)) 8135); [|unfold row_cost in *; nia].
    destruct Hins as (pl1 & E1 & Hwf1 & Ho1 & Hr1). erewrite bind_ok by exact E1. cbn [Z.eqb negb].
    destruct (IH ltac:(intros; apply Hstep; by right) ltac:(intros; apply Hok; by right) pl1 s (rows ++ [g a]) Hwf1 Hr1)
      as (pl' & E & Hwf' & Ho' & Hr').
    { rewrite zlen_app. change (zlen [g a]) with 1. lia. }
    exists pl'. split; [done|]. split; [done|]. split; [by eapply only_page_trans|]. by rewrite <- app_assoc in Hr'.
Qed.

Lemma new_page_ok : bytes_ok new_buf /\ page_hdr_ok (clear_dirty new_hdr).
Proof.
  assert (Hg : bytes_ok (map (fun i => u8 (k_garbage i)) (seq 0 32))).
  { apply Forall_fmap, Forall_forall. intros i _. unfold u8, is_byte; cbn. apply Z.mod_pos_bound. lia. }
  split.
  - apply bytes_ok_patch; [apply bytes_ok_zeros|]. apply bytes_ok_page_hdr_enc. by split_and!.
  - by split_and!.
Qed.
(** Pages are added to the cache, the other globals stay. *)
Definition grown (pl pl' : kds_buf_pool) (s s' : kds_state) : Prop := buf_map pl ⊆ buf_map pl' /\ same_globals s s'.
Lemma grown_refl pl s : grown pl pl s s.
Proof. done. Qed.
Lemma grown_trans pl1 pl2 pl3 s1 s2 s3 : grown pl1 pl2 s1 s2 -> grown pl2 pl3 s2 s3 -> grown pl1 pl3 s1 s3.
Proof.
  intros [Ha (A1 & A2 & A3 & A4 & A5 & A6)] [Hb (B1 & B2 & B3 & B4 & B5 & B6)]. split; [by etrans|]. split_and!; congruence.
Qed.
(** A page made at bootstrap: an error, a panic, or an empty heap page. *)
Lemma boot_page_spec id s pl :
  g_pool s = Some pl -> pool_wf pl -> cached pl id = None -> u64_ok id ->
  let o := bootstrap_one_catalog_page id s in
  (exists s', o = Halt Panic s') \/ (exists e s', o = Ret e s' /\ e <> 0) \/
  (exists pl' s', o = Ret 0 (wp pl' s') /\ pool_wf pl' /\ heap_page pl' id [] 8135 0 /\
     (forall id', id' <> id -> cached pl' id' = cached pl id') /\ grown pl pl' s s').
Proof.
  intros Hg Hwf Hc Hid o. subst o. unfold bootstrap_one_catalog_page.
  pose proof (alloc_new_spec id s pl Hg Hwf) as H. rewrite Hc in H. destruct H as [(s' & E & _)|H].
  { left. exists s'. by rewrite (bind_halt _ _ _ _ _ E). }
  right. destruct H as (r & s' & pl1 & E & Hg1 & Hwf1 & Hsame & Hsub & H). destruct r as [fid|e].
  2:{ left. exists e, s'. erewrite bind_ok by exact E. destruct H. done. }
  right. destruct H as (_ & Hm & Hall). erewrite bind_ok by exact E. cbn beta iota. rewrite <- (wp_id s' pl1 Hg1).
  set (k := Kpage id (clear_dirty new_hdr) 1) in *.
  assert (Hc1 : cached pl1 id = Some (k, new_buf)) by (by rewrite Hall, decide_True). destruct new_page_ok as [Hb Hh].
  destruct (frame_put id fid heap_init_page pl1 s' k new_buf tt
    (fun k' q => page_fits id k' q /\ heap_wf q /\ heap_view q = [] /\ p_free q = 8135 /\ p_next q = 0) Hwf1 Hm Hc1)
    as (k' & q & E1 & Hfit & Hq & Hqv & Hqf & Hqn).
  { intros f Hf. destruct (ts_init f k new_buf Hf zlen_new_buf Hb Hh) as (q & E1 & H1 & H2 & H3 & H4).
    eexists _, q. split; [exact E1|]. split; [|done]. split; [done|]. split; [apply H1|done]. }
  erewrite bind_ok by exact E1. destruct (put_spec pl1 Hwf1 id k new_buf k' q Hc1 Hfit) as (Hwf2 & Ho2 & Hc2).
  erewrite bind_ok by (eapply (unpin_put id); [done|by rewrite buf_map_put|done]). rewrite put_put.
  destruct (put_spec pl1 Hwf1 id k new_buf (unpinned k') q Hc1) as (Hwf3 & Ho3 & Hc3); [done|].
  exists (put id (unpinned k') q pl1), s'. split_and!; try done; [by exists (unpinned k'), q| |].
  - intros id' Hne. rewrite (op_rest _ _ _ Ho3) by done. by rewrite Hall, decide_False.
  - split; [by rewrite buf_map_put|done].
Qed.
Lemma boot_pages_spec l : forall s pl, NoDup (map snd l) -> (forall t, t ∈ l -> u64_ok t.2) ->
  g_pool s = Some pl -> pool_wf pl -> (forall id, id ∈ map snd l -> cached pl id = None) ->
  let o := all_or_panic (fun t : Z * bytes * Z => bootstrap_one_catalog_page t.2) l s in
  (exists s', o = Halt Panic s') \/
  (exists pl' s', o = Ret tt (wp pl' s') /\ pool_wf pl' /\ (forall id, id ∈ map snd l -> heap_page pl' id [] 8135 0) /\
     (forall id, ~ id ∈ map snd l -> cached pl' id = cached pl id) /\ grown pl pl' s s').
Proof.
  induction l as [|t l IH]; intros s pl Hnd Hids Hg Hwf Hc o; subst o; cbn [all_or_panic].
  - right. exists pl, s. rewrite wp_id by done. split_and!; try done. intros id H. by apply not_elem_of_nil in H.
  - cbn [map] in *. apply NoDup_cons in Hnd as [Ht Hnd].
    destruct (boot_page_spec t.2 s pl Hg Hwf (Hc t.2 ltac:(left)) (Hids t ltac:(left)))
      as [(s' & E)|[(e & s' & E & He)|(pl1 & s1 & E & Hwf1 & Hp1 & Ho1 & Hg1)]].
    + left. exists s'. by rewrite (bind_halt _ _ _ _ _ E).
    + left. exists s'. erewrite bind_ok by exact E. by apply Z.eqb_neq in He as ->.
    + erewrite bind_ok by exact E. cbn [Z.eqb negb].
      destruct (IH (wp pl1 s1) pl1 Hnd) as [(s' & E')|(pl' & s' & E' & Hwf' & Hp' & Ho' & Hg')]; try done.
      { intros u Hu. apply Hids. by right. }
      { intros id Hid. rewrite Ho1 by (by intros ->). apply Hc. by right. }
      { left. by exists s'. }
      right. exists pl', s'. split_and!; try done.
      * intros id [->|Hid]%elem_of_cons; [|by apply Hp']. destruct Hp1 as (k & p & Hk & Hrest).
        exists k, p. split; [|done]. by rewrite Ho'.
      * intros id Hid. apply not_elem_of_cons in Hid as [? ?]. rewrite Ho' by done. by apply Ho1.
      * by eapply grown_trans.
Qed.

Lemma cstr_ok x : bytes_ok (cstr x).
Proof.
  apply Forall_fmap, Forall_forall. intros c _. unfold chr, is_byte; cbn. pose proof (Ascii.N_ascii_bounded c). lia.
Qed.
Lemma sys_tables_ok t : t ∈ sys_tables -> row_ok (boot_object t) /\ row_ok (boot_table t).
Proof.
  intros Ht. repeat (apply elem_of_cons in Ht as [->|Ht]); try (by apply not_elem_of_nil in Ht);
    (split; repeat (split; [first [by vm_compute|apply set_name_ok, cstr_ok]|]); first [by vm_compute|apply set_name_ok, cstr_ok]).
Qed.
Lemma boot_types_ok t : t ∈ boot_types -> boot_type_row t = insert_row KDS_CATALOG_PAGE_TYPES (row_enc (boot_type t)) /\ row_ok (boot_type t).
Proof.
  intros Ht. repeat (apply elem_of_cons in Ht as [->|Ht]); try (by apply not_elem_of_nil in Ht);
    (split; [reflexivity|]; split; [by vm_compute|]; split; [apply set_name_ok, cstr_ok|by vm_compute]).
Qed.
(** The registry after the registration of the well-known objects. *)
Definition well_known : list kds_sys_object :=
  let ns oid name := SysObject oid oid KDS_OID_TYPE_NAMESPACE 0 (set_name name) in
  let ty oid name := SysObject oid KDS_OID_NAMESPACE_SYS oid 0 (set_name name) in
  [ ns 0 (cstr "namespaceSys"); ns 1 (cstr "namespacePublic"); ty 12 (cstr "type_int"); ty 13 (cstr "type_varchar");
    ty 24 (cstr "type_char"); ty 14 (cstr "type_schema"); ty 15 (cstr "type_bool"); ty 16 (cstr "type_bytes");
    ty 17 (cstr "type_namespace"); ty 18 (cstr "type_attribute"); ty 19 (cstr "type_column"); ty 20 (cstr "type_page");
    ty 21 (cstr "type_table"); ty 22 (cstr "type_operator"); ty 23 (cstr "type_index"); ty 25 (cstr "type_int8");
    ty 26 (cstr "type_int16"); ty 27 (cstr "type_int32"); ty 28 (cstr "type_float"); ty 29 (cstr "type_decimal") ].
Lemma init_well_known s n : kds_catalog_init_well_known_objects (CatEnv s [] n) = Ret tt (CatEnv s well_known n).
Proof. reflexivity. Qed.

Lemma rows_at_empty {R} {C : RowCodec R} pl id : heap_page pl id [] 8135 0 -> rows_at (R := R) pl id [].
Proof. intros H. split; [constructor|]. change (zlen (A := R) []) with 0. by rewrite Z.mul_0_r. Qed.
Lemma boot_rows_spec pl s :
  pool_wf pl -> (forall id, 4 <= id <= 7 -> heap_page pl id [] 8135 0) ->
  exists pl', (
    all_or_panic (fun t => kds_catalog_insert_object_row t.1.1 KDS_OID_NAMESPACE_SYS KDS_OID_TYPE_TABLE t.1.2) sys_tables ;;
    all_or_panic (fun t => kds_catalog_insert_relation_row t.1.1 KDS_OID_NAMESPACE_SYS t.1.2 t.2
                             (clustered_val KDS_CLUSTERED_HEAP)) sys_tables ;;
    all_or_panic boot_type_row boot_types ;; ret 0) (wp pl s) = Ret 0 (wp pl' s) /\
    catalog_rep pl' boot_catalog /\ buf_map pl' = buf_map pl /\ forall id, ~ 4 <= id <= 7 -> cached pl' id = cached pl id.
Proof.
  intros Hwf Hp.
  assert (S6 : forall t, t ∈ sys_tables -> kds_catalog_insert_object_row t.1.1 KDS_OID_NAMESPACE_SYS KDS_OID_TYPE_TABLE t.1.2 =
    insert_row KDS_CATALOG_PAGE_OBJECTS (row_enc (boot_object t))) by (intros; reflexivity).
  assert (S7 : forall t, t ∈ sys_tables -> kds_catalog_insert_relation_row t.1.1 KDS_OID_NAMESPACE_SYS t.1.2 t.2 (clustered_val KDS_CLUSTERED_HEAP) =
    insert_row KDS_CATALOG_PAGE_TABLES (row_enc (boot_table t))) by (intros; reflexivity).
  pose proof (rows_at_empty (R := kds_sys_object) _ _ (Hp KDS_CATALOG_PAGE_OBJECTS ltac:(by vm_compute))) as R6.
  pose proof (rows_at_empty (R := kds_sys_table) _ _ (Hp KDS_CATALOG_PAGE_TABLES ltac:(by vm_compute))) as R7.
  pose proof (rows_at_empty (R := kds_sys_column) _ _ (Hp KDS_CATALOG_PAGE_COLUMNS ltac:(by vm_compute))) as R5.
  pose proof (rows_at_empty (R := kds_sys_type) _ _ (Hp KDS_CATALOG_PAGE_TYPES ltac:(by vm_compute))) as R4.
  destruct (insert_all (fun t => kds_catalog_insert_object_row t.1.1 KDS_OID_NAMESPACE_SYS KDS_OID_TYPE_TABLE t.1.2) boot_object
    KDS_CATALOG_PAGE_OBJECTS sys_tables S6 ltac:(intros t Ht; apply (sys_tables_ok t Ht)) pl s [] Hwf R6 ltac:(by vm_compute))
    as (pl1 & E1 & Hwf1 & O1 & N6).
  destruct (insert_all (fun t => kds_catalog_insert_relation_row t.1.1 KDS_OID_NAMESPACE_SYS t.1.2 t.2 (clustered_val KDS_CLUSTERED_HEAP))
    boot_table KDS_CATALOG_PAGE_TABLES sys_tables S7 ltac:(intros t Ht; apply (sys_tables_ok t Ht)) pl1 s [] Hwf1
    ltac:(by eapply rows_at_other) ltac:(by vm_compute)) as (pl2 & E2 & Hwf2 & O2 & N7).
  destruct (insert_all boot_type_row boot_type KDS_CATALOG_PAGE_TYPES boot_types ltac:(intros t Ht; apply (boot_types_ok t Ht))
    ltac:(intros t Ht; apply (boot_types_ok t Ht)) pl2 s [] Hwf2
    ltac:(eapply rows_at_other; [exact O2|done|by eapply rows_at_other]) ltac:(by vm_compute)) as (pl3 & E3 & Hwf3 & O3 & N4).
  exists pl3. split; [|split; [|split]].
  - erewrite bind_ok by exact E1. erewrite bind_ok by exact E2. by erewrite bind_ok by exact E3.
  - split; [done|..]; cbn [boot_catalog c_objects c_tables c_columns c_types].
    + eapply rows_at_other; [exact O3|done|]. by eapply rows_at_other.
    + by eapply rows_at_other.
    + eapply rows_at_other; [exact O3|done|]. eapply rows_at_other; [exact O2|done|]. by eapply rows_at_other.
    + exact N4.
  - by rewrite (op_map _ _ _ O3), (op_map _ _ _ O2), (op_map _ _ _ O1).
  - intros id Hid. rewrite (op_rest _ _ _ O3), (op_rest _ _ _ O2), (op_rest _ _ _ O1); try done; intros ->; by apply Hid; vm_compute.
Qed.
End Bootstrap.

(** ** Theorems *)
Section Claims.
Context `{K : Kernel} {KS : Kstrtoll}.

(** What [kds_catalog_bootstrap] does, with what it leaves alone. *)
Lemma bootstrap_cases s pl n :
  g_pool s = Some pl -> pool_wf pl -> (forall id, 4 <= id <= 7 -> cached pl id = None) ->
  let o := kds_catalog_bootstrap (CatEnv s [] n) in
  (exists e, o = Halt Panic e) \/
  (exists pl' s', o = Ret 0 (CatEnv (wp pl' s') well_known n) /\ catalog_rep pl' boot_catalog /\
     (forall id, ~ 4 <= id <= 7 -> cached pl' id = cached pl id) /\ grown pl pl' s s').
Proof.
  intros Hg Hwf Hc o. subst o. unfold kds_catalog_bootstrap. erewrite bind_ok by apply init_well_known.
  assert (Hmap : forall id, id ∈ map snd sys_tables <-> 4 <= id <= 7).
  { intros id. change (map snd sys_tables) with [4; 6; 5; 7]. rewrite !elem_of_cons, elem_of_nil. lia. }
  unfold on_store. cbn [ce_kds g_sys_objects g_user_oid_counter].
  destruct (boot_pages_spec sys_tables s pl) as [(s' & E)|(pl1 & s1 & E & Hwf1 & Hp1 & Ho1 & Hg1)]; try done.
  - by vm_compute; repeat constructor; rewrite ?elem_of_cons, ?elem_of_nil; lia.
  - intros t Ht. assert (4 <= t.2 <= 7) by (apply Hmap, list_elem_of_fmap; eauto). unfold u64_ok. lia.
  - intros id Hid%Hmap. by apply Hc.
  - left. erewrite bind_halt by exact E. by eexists.
  - right. destruct (boot_rows_spec pl1 s1 Hwf1) as (pl' & E' & Hrep & Hmap' & Ho'); [intros id Hid; by apply Hp1, Hmap|].
    exists pl', s1. erewrite bind_ok by exact E. rewrite E'. split; [done|]. split; [done|]. split.
    + intros id Hid. rewrite Ho' by done. apply Ho1. by rewrite Hmap.
    + destruct Hg1. split; [by rewrite Hmap'|done].
Qed.

(** The first start of the module: [kds_catalog_bootstrap] registers
    the 20 well-known objects, makes the four catalog pages and fills them
    with the rows of the system tables and scalar types, leaving every other
    cached page alone; on any failure the machine panics.  It never returns
    an error. *)
Theorem bootstrap_spec s pl n :
  g_pool s = Some pl -> pool_wf pl -> (forall id, 4 <= id <= 7 -> cached pl id = None) ->
  let o := kds_catalog_bootstrap (CatEnv s [] n) in
  (exists e, o = Halt Panic e) \/
  (exists pl' s', o = Ret 0 (CatEnv (wp pl' s') well_known n) /\ catalog_rep pl' boot_catalog /\
     forall id, ~ 4 <= id <= 7 -> cached pl' id = cached pl id).
Proof.
  intros Hg Hwf Hc o. destruct (bootstrap_cases s pl n Hg Hwf Hc) as [H|(pl' & s' & E & Hrep & Ho & _)]; [by left|right].
  exists pl', s'. split; [exact E|]. split; [exact Hrep|exact Ho].
Qed.

Lemma create_table_cases kind s pl fid q rid k p c o n ns name schema :
  staged_root s pl fid q rid k p -> catalog_rep pl c -> ~ 4 <= rid <= 7 ->
  u64_ok n -> u64_ok ns -> bytes_ok name -> Forall input_column_ok schema ->
  let '(r, n', c') := create_model n ns name schema rid (clustered_val kind) c in
  exists s', kds_catalog_create_table ns (Some name) (Some schema) (clustered_val kind) (CatEnv s o n) =
      Ret (r, if r =? 0 then Some (u64 (n + 1)) else None) (CatEnv s' o n') /\
    created kind rid q s' c' /\ disk s' = disk s.
Proof.
  intros Hroot Hrep Hid Hn Hns Hname Hcols. pose proof (cr_wf _ _ Hrep) as Hwf.
  destruct (create_root_spec kind s pl fid q rid k p Hroot) as (a & k1 & p1 & E0 & Hr & Hfit & Hready).
  destruct Hroot as [_ Hm Hc _ _ Hrid]. destruct (put_spec pl Hwf rid k p k1 p1 Hc Hfit) as (Hwf1 & Ho1 & Hc1).
  set (pl1 := put rid k1 p1 pl) in *. set (s1 := set_g_alloc (Some a) s) in *.
  assert (Hrep1 : catalog_rep pl1 c) by (by eapply rep_other).
  assert (Hm1 : buf_map pl1 !! rid = Some fid) by (by rewrite (op_map _ _ _ Ho1)).
  assert (Hdone : forall pl2 c2 n2, catalog_rep pl2 c2 -> buf_map pl2 = buf_map pl1 -> cached pl2 rid = Some (k1, p1) ->
    exists s', on_store (kds_buf_unpin fid) (CatEnv (wp pl2 s1) o n2) = Ret tt (CatEnv s' o n2) /\ created kind rid q s' c2 /\ disk s' = disk s1).
  { intros pl2 c2 n2 H1 H2 H3. apply (finish_created kind pl2 s1 o n2 rid fid q k1 p1 c2 a); try done. by rewrite H2. }
  clearbody pl1. unfold create_model, kds_catalog_create_table.
  assert (E0' : on_store (create_root (clustered_val kind)) (CatEnv s o n) = Ret (inr fid) (CatEnv (wp pl1 s1) o n))
    by (unfold on_store; cbn [ce_kds]; by rewrite E0).
  erewrite bind_ok by exact E0'. cbn beta iota. erewrite (bind_ok kds_catalog_generate_user_oid) by reflexivity.
  cbn [ce_kds g_sys_objects g_user_oid_counter]. set (oid := u64 (n + 1)).
  assert (Hoid : u64_ok oid) by apply u64_range.
  set (ro := SysObject oid ns KDS_OID_TYPE_TABLE 0 (set_name name)).
  pose proof (insert_row_spec pl1 s1 KDS_CATALOG_PAGE_OBJECTS (c_objects c) ro Hwf1 (cr_objects _ _ Hrep1)) as H.
  specialize (H ltac:(split_and!; try done; by apply set_name_ok)). rewrite object_fits in H.
  destruct (MAX_OBJECTS <=? zlen (c_objects c)); cbn [negb] in H.
  { erewrite bind_ok by (apply on_store_wp; exact H). change (- ENOSPC =? 0) with false. cbn [negb]. cbn iota.
    destruct (Hdone pl1 c oid Hrep1 eq_refl Hc1) as (s' & E & Hcr & Hd). erewrite bind_ok by exact E. by exists s'. }
  destruct H as (pl2 & E2 & Hwf2 & Ho2 & Hr2). erewrite bind_ok by (apply on_store_wp; exact E2). cbn [Z.eqb negb]. cbn iota.
  pose proof (add_object_rep pl1 pl2 c ro Hrep1 Hwf2 Ho2 Hr2) as Hrep2.
  assert (Hc2 : cached pl2 rid = Some (k1, p1)) by (rewrite (op_rest _ _ _ Ho2); [done|intros ->; by apply Hid]).
  pose proof (op_map _ _ _ Ho2) as Hm2.
  erewrite bind_ok by (apply on_store_wp; eapply (kp_at rid); [done|by rewrite Hm2|exact Hc2]).
  destruct Hfit as (Hkid & _). rewrite Hkid. set (c2 := add_object ro c) in *.
  set (rt := SysTable oid ns (set_name name) rid (clustered_val kind)).
  pose proof (insert_row_spec pl2 s1 KDS_CATALOG_PAGE_TABLES (c_tables c2) rt Hwf2 (cr_tables _ _ Hrep2)) as H.
  specialize (H ltac:(split_and!; try done; [by apply set_name_ok|by destruct kind])). rewrite table_fits in H.
  assert (Hrow : kds_catalog_insert_relation_row oid ns name rid (clustered_val kind) = insert_row KDS_CATALOG_PAGE_TABLES (row_enc rt))
    by (by destruct kind). rewrite Hrow. clear Hrow.
  destruct (MAX_TABLES <=? zlen (c_tables c2)); cbn [negb] in H.
  { erewrite bind_ok by (apply on_store_wp; exact H). change (- ENOSPC =? 0) with false. cbn [negb]. cbn iota.
    destruct (Hdone pl2 c2 oid Hrep2 Hm2 Hc2) as (s' & E & Hcr & Hd). erewrite bind_ok by exact E. by exists s'. }
  destruct H as (pl3 & E3 & Hwf3 & Ho3 & Hr3). erewrite bind_ok by (apply on_store_wp; exact E3). cbn [Z.eqb negb]. cbn iota.
  pose proof (add_table_rep pl2 pl3 c2 rt Hrep2 Hwf3 Ho3 Hr3) as Hrep3.
  assert (Hc3 : cached pl3 rid = Some (k1, p1)) by (rewrite (op_rest _ _ _ Ho3); [done|intros ->; by apply Hid]).
  assert (Hm3 : buf_map pl3 = buf_map pl1) by (rewrite (op_map _ _ _ Ho3); exact Hm2). set (c3 := add_table rt c2) in *.
  destruct (insert_columns_spec oid schema Hoid Hcols pl3 s1 o oid (c_columns c3) Hwf3 Hoid (cr_columns _ _ Hrep3))
    as (pl4 & E4 & Hwf4 & Ho4 & Hr4).
  pose proof (add_columns_rep pl3 pl4 c3 _ Hrep3 Hwf4 Ho4 Hr4) as Hrep4.
  assert (Hc4 : cached pl4 rid = Some (k1, p1)) by (rewrite (op_rest _ _ _ Ho4); [done|intros ->; by apply Hid]).
  assert (Hm4 : buf_map pl4 = buf_map pl1) by (rewrite (op_map _ _ _ Ho4); exact Hm3).
  destruct (Z.leb_spec (zlen schema) (MAX_COLUMNS - zlen (c_columns c3))); erewrite bind_ok by exact E4.
  - rewrite take_ge in Hrep4 by (rewrite length_new_columns; unfold zlen in *; lia).
    destruct (Hdone pl4 _ (u64 (oid + zlen schema)) Hrep4 Hm4 Hc4) as (s' & E & Hcr & Hd).
    erewrite bind_ok by exact E. by exists s'.
  - destruct (Hdone pl4 _ (u64 (oid + (MAX_COLUMNS - zlen (c_columns c3)) + 1)) Hrep4 Hm4 Hc4) as (s' & E & Hcr & Hd).
    erewrite bind_ok by exact E. by exists s'.
Qed.
(** C8.  [kds_catalog_create_table] implements [create_model]: with a staged
    page it takes the page as the storage root, formats it, and adds one row
    to sys.objects, one to sys.tables and one per column to sys.columns,
    under fresh oids.  When a catalog page is full (63 objects, 66 tables or
    64 columns in all) it returns [-ENOSPC] and the rows inserted so far
    stay. *)
Theorem create_table_refines kind s pl fid q rid k p c o n ns name schema :
  staged_root s pl fid q rid k p -> catalog_rep pl c -> ~ 4 <= rid <= 7 ->
  u64_ok n -> u64_ok ns -> bytes_ok name -> Forall input_column_ok schema ->
  let '(r, n', c') := create_model n ns name schema rid (clustered_val kind) c in
  exists s', kds_catalog_create_table ns (Some name) (Some schema) (clustered_val kind) (CatEnv s o n) =
      Ret (r, if r =? 0 then Some (u64 (n + 1)) else None) (CatEnv s' o n') /\
    created kind rid q s' c' /\ disk s' = disk s.
Proof. apply create_table_cases. Qed.
End Claims.

(** ** An empty catalog with one staged page *)
#[local] Existing Instance quiet_kernel.
Definition no_strtoll : Kstrtoll := fun _ => (0, 0).
#[local] Existing Instance no_strtoll.
Definition cat_kp (id : Z) : kds_page := Kpage id (PageHdr 4 0 3 (zeros 32)) 0.
Definition cat_pages : list (kds_page * bytes) :=
  [(cat_kp 200, zeros KDS_PAGE_SIZE); (cat_kp 7, empty_page); (cat_kp 6, empty_page); (cat_kp 5, empty_page); (cat_kp 4, empty_page)].
Definition cat_pool : kds_buf_pool := pool_of cat_pages.
Definition cat_state : kds_state := set_g_alloc (Some (ring_push 4 empty_ring)) (set_g_pool (Some cat_pool) demo_state).
Definition no_rows : catalog := Cat [] [] [] [].
Lemma nr_frames : (5 < KDS_BUF_NR_FRAMES)%nat.
Proof. apply Nat2Z.inj_lt. unfold KDS_BUF_NR_FRAMES. rewrite Z2Nat.id; lia. Qed.
#[local] Opaque KDS_BUF_NR_FRAMES empty_page.
Lemma cat_pool_ok : pool_wf cat_pool /\ forall k p, (k, p) ∈ cat_pages -> cached cat_pool (kp_id k) = Some (k, p).
Proof.
  destruct empty_page_ok as (Hw & _). pose proof (wf_len _ Hw) as Hz.
  destruct (pool_of_ok cat_pages) as (H1 & _ & H2).
  - pose proof nr_frames. cbn. lia.
  - cbn. repeat constructor; rewrite ?elem_of_cons, ?elem_of_nil; lia.
  - assert (Hf : forall id p, zlen p = KDS_PAGE_SIZE -> page_fits id (cat_kp id) p) by (intros; by split_and!).
    constructor; [apply Hf; by apply zlen_zeros|]. repeat (constructor; [apply Hf; exact Hz|]). constructor.
  - split; [exact H1|exact H2].
Qed.
Lemma cat_rep : catalog_rep cat_pool no_rows.
Proof.
  destruct cat_pool_ok as [Hwf Hc]. destruct empty_page_ok as (Hw & Hv & Hm).
  assert (Hp : forall id, (cat_kp id, empty_page) ∈ cat_pages -> heap_page cat_pool id [] 8135 0).
  { intros id Hin. exists (cat_kp id), empty_page. split; [exact (Hc _ _ Hin)|]. split; [done|]. split; [done|].
    split; [unfold p_free; by rewrite Hm|]. vm_compute. reflexivity. }
  split; [done|..]; apply rows_at_empty, Hp; unfold cat_pages; rewrite !elem_of_cons; auto 10.
Qed.
Lemma cat_hdr_ok id : page_hdr_ok (kp_hdr (cat_kp id)).
Proof. split_and!; try done; try lia; cbn -[zeros]. apply bytes_ok_zeros. Qed.
Lemma cat_staged : staged_root cat_state cat_pool 4 [] 200 (cat_kp 200) (zeros KDS_PAGE_SIZE).
Proof.
  destruct cat_pool_ok as [Hwf Hc]. split.
  - split; [done|done|]. exists (ring_push 4 empty_ring). split; [done|].
    apply (ring_push_spec empty_ring []); [apply empty_ring_is|reflexivity].
  - apply lookup_insert_eq.
  - apply (Hc (cat_kp 200)). left.
  - apply bytes_ok_zeros.
  - apply cat_hdr_ok.
  - by vm_compute.
Qed.
Definition demo_cols : kds_schema := [SysColumn 0 0 0 (set_name (cstr "id")) 3 8 true; SysColumn 0 0 1 (set_name (cstr "v")) 2 4 false].
Lemma demo_cols_ok : Forall input_column_ok demo_cols.
Proof.
  assert (H : forall x, bytes_ok (set_name (cstr x))) by (intros; apply set_name_ok, cstr_ok).
  constructor; [|constructor; [|constructor]]; (split; [cbn; lia|split; [cbn; lia|split; [cbn; lia|apply H]]]).
Qed.

Lemma bootstrap_spec_witness :
  let o := kds_catalog_bootstrap (CatEnv (set_g_pool (Some init_pool) demo_state) [] 4000) in
  (exists e, o = Halt Panic e) \/ (exists pl' s', o = Ret 0 (CatEnv (wp pl' s') well_known 4000) /\ catalog_rep pl' boot_catalog).
Proof.
  intros o. destruct (bootstrap_spec (set_g_pool (Some init_pool) demo_state) init_pool 4000 eq_refl init_pool_wf)
    as [H|(pl' & s' & H1 & H2 & _)]; [|left; exact H|right; exists pl', s'; split; [exact H1|exact H2]].
  intros id _. unfold cached, init_pool; cbn. by rewrite lookup_empty.
Defined.
Lemma create_table_refines_witness :
  exists s' c', kds_catalog_create_table 1 (Some (cstr "t")) (Some demo_cols) 0 (CatEnv cat_state [] 4000) =
      Ret (0, Some 4001) (CatEnv s' [] 4003) /\
    created KDS_CLUSTERED_HEAP 200 [] s' c' /\ map sc_oid (c_columns c') = [4002; 4003].
Proof.
  destruct (create_table_refines KDS_CLUSTERED_HEAP cat_state cat_pool 4 [] 200 (cat_kp 200) (zeros KDS_PAGE_SIZE) no_rows [] 4000 1
    (cstr "t") demo_cols cat_staged cat_rep) as (s' & E & H & _); [lia|by vm_compute..|apply cstr_ok|apply demo_cols_ok|].
  eexists s', _. split; [exact E|]. split; [exact H|]. vm_compute. reflexivity.
Defined.
