(* ===== verification/Relation.v ===== *)
(** * Relation: open tables and indexes (kernel/kds/relation.c, kds_relation.h)

    An open relation gathers what the catalog says of a table: its root,
    kind and schema.  An index is a b-tree whose root the catalog records. *)
From S2P Require Import Prelude Layout State Disk Pool Alloc Heap Btree Types Parser Catalog.
From stdpp Require Import prelude gmap list strings.
From Stdlib Require Import ZArith Lia.
Local Open Scope Z_scope.
Local Open Scope list_scope.
Local Open Scope kds_scope.

Record kds_relation := Relation {
  rel_oid : Z; rel_namespace : Z; rel_kind : Z; root_page_id : Z; rel_schema : kds_schema }.

Section Relation.
Context `{K : Kernel} {KS : Kstrtoll}.

Definition kds_relation_open (oid : Z) : M kds_state (ptr_or_err kds_relation) :=
  let* (r, row) := kds_catalog_get_sys_table_row oid in
  match row with
  | None => ret (ERR_PTR r)
  | Some row =>
      ok <- alloc_ok ;;
      if negb ok then ret (ERR_PTR (- ENOMEM)) else
      let* (r, schema) := kds_catalog_build_schema_from_columns oid in
      let rel s := Relation oid (st_namespace row) (st_clustered row) (desc_page_id row) s in
      if r =? - ENOENT then ret (PTR (rel [])) else
      if negb (r =? 0) then ret (ERR_PTR r) else ret (PTR (rel schema))
  end.

(** ["index_%s_%llu"] printed into the 64 bytes of [name]. *)
Definition index_name (target_col : bytes) (table_oid : Z) : bytes :=
  take (KDS_CATALOG_NAME_MAX - 1) (cstr "index_" ++ c_str target_col ++ cstr "_" ++ dec_digits 20 table_oid).
Definition kds_relation_create_index (namespace_oid table_oid : Z) (target_col : option bytes) : M catalog_env (Z * option Z) :=
  match target_col with
  | None => ret (- EINVAL, None)
  | Some col =>
      root <- on_store (kds_page_alloc KDS_PAGE_TYPE_BTREE_ROOT) ;;
      match root with
      | None => ret (- ENOSPC, None)
      | Some fid =>
          on_store (on_frame fid btree_init_root_kpage) ;;
          new_oid <- kds_catalog_generate_user_oid ;;
          let name := index_name col table_oid in
          r <- on_store (kds_catalog_insert_object_row new_oid namespace_oid KDS_OID_TYPE_INDEX name) ;;
          if negb (r =? 0) then on_store (kds_buf_unpin fid) ;; ret (r, None) else
          id <- on_store (on_frame fid (kp_get kp_id)) ;;
          r <- on_store (kds_catalog_insert_relation_row new_oid namespace_oid name id (clustered_val KDS_CLUSTERED_BTREE)) ;;
          on_store (kds_buf_unpin fid) ;;
          if negb (r =? 0) then ret (r, None) else ret (0, Some new_oid)
      end
  end.

Definition kds_index_insert (index_rel : option kds_relation) (key value_page_id : Z) : M kds_state Z :=
  match index_rel with
  | None => ret (- EINVAL)
  | Some rel =>
      if negb (rel_kind rel =? clustered_val KDS_CLUSTERED_BTREE) then ret (- EINVAL)
      else btree_insert (root_page_id rel) key value_page_id
  end.

(** The position of a key that is equal; [None] is an access out of bounds. *)
Fixpoint match_loop (ks : list Z) (i steps : nat) (key : Z) : option (option nat) :=
  match steps with
  | O => Some None
  | S st => k ← ks !! i; if k =? key then Some (Some i) else match_loop ks (S i) st key
  end.
(** The loops compare [int i] with the unsigned [key_count]; a count beyond
    the arrays faults before 16. *)
Definition match_pos (n : kds_btree_node) (key : Z) : option (option nat) :=
  match_loop (keys n) 0 (Z.to_nat (Z.min (key_count n) 16)) key.
Definition desc_pos (n : kds_btree_node) (key : Z) : option nat :=
  search_loop (keys n) 0 (Z.to_nat (Z.min (key_count n) 16)) key.
Fixpoint index_descend (depth : nat) (key current_id : Z) : M kds_state (Z * option Z) :=
  match depth with
  | O => ret (- E2BIG, None)
  | S depth =>
      frame <- kds_buf_lookup_or_load current_id ;;
      match frame with
      | ERR_PTR e => ret (e, None)
      | PTR fid =>
          node <- load_btree_node fid ;;
          m <- in_bounds (match_pos node key) ;;
          if level node =? 0 then
            match m with
            | None => kds_buf_unpin fid ;; ret (- ENOENT, None)
            | Some pos => v <- in_bounds (slot_at node pos) ;; kds_buf_unpin fid ;; ret (0, Some v)
            end
          else
            pos <- in_bounds (desc_pos node key) ;;
            next <- in_bounds (slot_at node pos) ;;
            kds_buf_unpin fid ;;
            index_descend depth key next
      end
  end.
Definition kds_index_search (index_rel : option kds_relation) (key : Z) : M kds_state (Z * option Z) :=
  match index_rel with
  | None => ret (- EINVAL, None)
  | Some rel =>
      if negb (rel_kind rel =? clustered_val KDS_CLUSTERED_BTREE) then ret (- EINVAL, None)
      else index_descend BTREE_MAX_DEPTH key (root_page_id rel)
  end.
End Relation.
