(* ===== verification/RelationSpec.v ===== *)
(** * RelationSpec: what a created table or index looks like to its users

    The theorems of this file compose the catalog's refinement theorems with
    the reads: a table that was created can be found by name and opened with
    the schema it was created with; a creation that failed half way leaves a
    table behind; and what an index returns for a key that was inserted. *)
From S2P Require Import Prelude Layout Heap HeapSpec HeapOps TupleStore State Disk DiskSpec Pool PoolSpec Alloc AllocSpec Btree BtreeSpec Types Parser Store Catalog CatalogSpec Relation.
From stdpp Require Import prelude gmap list strings.
From Stdlib Require Import ZArith Lia.
Local Open Scope Z_scope.
Local Open Scope list_scope.
Local Open Scope kds_scope.

(** ** Names *)
(** A name a table can be found by: no NUL and at most 63 characters. *)
Definition plain_name (n : bytes) : Prop := bytes_ok n /\ Forall (fun x => x <> 0) n /\ (length n <= 63)%nat.
Lemma c_str_app n z : Forall (fun x => x <> 0) n -> c_str (n ++ 0 :: z) = n.
Proof. induction 1 as [|x n Hx Hn IH]; cbn; [done|]. apply Z.eqb_neq in Hx as ->. by rewrite IH. Qed.
Lemma c_str_plain n : Forall (fun x => x <> 0) n -> c_str n = n.
Proof. induction 1 as [|x n Hx Hn IH]; cbn; [done|]. apply Z.eqb_neq in Hx as ->. by rewrite IH. Qed.
Lemma c_str_set_name n : plain_name n -> c_str (set_name n) = n.
Proof.
  intros (_ & Hn & Hl). unfold set_name, KDS_CATALOG_NAME_MAX. rewrite (c_str_plain n Hn), take_ge by lia.
  destruct (64 - length n)%nat eqn:E; [lia|]. cbn [replicate]. by apply c_str_app.
Qed.
Lemma same_name n m : plain_name n -> plain_name m -> strncmp_eq (set_name n) m 64 = bool_decide (n = m).
Proof.
  intros Hn Hm. unfold strncmp_eq. rewrite c_str_set_name by done. destruct Hn as (_ & _ & Hn), Hm as (_ & Hm & Hl).
  rewrite c_str_plain by done. by rewrite !take_ge by lia.
Qed.

(** ** Tables *)
Section Tables.
Context `{K : Kernel} {KS : Kstrtoll} {TS : TupleStore}.

Lemma find_app_fresh {A} (f : A -> bool) l r : Forall (fun x => f x = false) l -> f r = true -> find f (l ++ [r]) = Some r.
Proof. induction 1 as [|x l Hx Hl IH]; intros Hr; cbn; [by rewrite Hr|]. by rewrite Hx, IH. Qed.
Lemma filter_none {A} (f : A -> bool) l : Forall (fun x => f x = false) l -> List.filter f l = [].
Proof. induction 1 as [|x l Hx Hl IH]; cbn; [done|]. by rewrite Hx. Qed.
Lemma new_columns_belong rel cols : forall n m,
  List.filter (belongs rel) (take m (new_columns n rel cols)) = take m (new_columns n rel cols).
Proof.
  induction cols as [|c cols IH]; intros n [|m]; [done..|]. cbn. unfold belongs at 1. cbn. by rewrite Z.eqb_refl, IH.
Qed.

Lemma relation_open_spec pl s c oid :
  catalog_rep pl c ->
  kds_relation_open oid (wp pl s) =
    match table_lookup c oid with
    | None => Ret (ERR_PTR (- ENOENT)) (wp pl s)
    | Some t => Ret (if k_alloc (tick s) then PTR (Relation oid (st_namespace t) (st_clustered t) (desc_page_id t) (schema_of c oid))
                     else ERR_PTR (- ENOMEM)) (wp pl (set_tick (S (tick s)) s))
    end.
Proof.
  intros Hc. unfold kds_relation_open. erewrite bind_ok by (by apply get_sys_table_row_spec).
  destruct (table_lookup c oid) as [t|]; cbn [found]; [|done]. cbn beta iota. unfold alloc_ok. rewrite oracle_wp.
  destruct (k_alloc (tick s)); cbn [negb]; [|done]. erewrite bind_ok by (by apply build_schema_spec).
  destruct (decide (schema_of c oid = [])) as [E|E]; [by rewrite E|]. done.
Qed.

(** The new object is the only one of its name and the only one with its oid. *)
Record fresh_for (c : catalog) (oid : Z) (name : bytes) : Prop := {
  ff_name : Forall (fun r => named name r = false) (c_objects c);
  ff_table : Forall (fun t => (st_oid t =? oid) = false) (c_tables c);
  ff_columns : Forall (fun col => belongs oid col = false) (c_columns c) }.

Lemma created_view c oid ns name root kind cols :
  fresh_for c oid name -> plain_name name ->
  let c' := add_columns cols (add_table (SysTable oid ns (set_name name) root kind)
              (add_object (SysObject oid ns KDS_OID_TYPE_TABLE 0 (set_name name)) c)) in
  name_lookup c' name = Some oid /\ table_lookup c' oid = Some (SysTable oid ns (set_name name) root kind) /\
  schema_of c' oid = take 32 (List.filter (belongs oid) cols).
Proof.
  intros [H1 H2 H3] Hn c'. split_and!.
  - unfold name_lookup. cbn [c' add_columns add_table add_object c_objects]. rewrite (find_app_fresh _ _ _ H1); [done|]. unfold named. cbn [so_type so_name].
    change KDS_CATALOG_NAME_MAX with 64%nat. rewrite same_name, Z.eqb_refl by done. by rewrite bool_decide_eq_true_2.
  - unfold table_lookup. cbn. rewrite (find_app_fresh _ _ _ H2); [done|]. apply Z.eqb_refl.
  - unfold schema_of. cbn. rewrite List.filter_app, (filter_none _ _ H3). done.
Qed.
(** Nothing checks the name of a new table: an older table of that name
    stays the one that is found. *)
Record oid_unused (c : catalog) (oid : Z) : Prop := {
  ou_table : Forall (fun t => (st_oid t =? oid) = false) (c_tables c);
  ou_columns : Forall (fun col => belongs oid col = false) (c_columns c) }.
Lemma created_shadowed c oid ns name root kind cols :
  oid_unused c oid -> plain_name name ->
  let c' := add_columns cols (add_table (SysTable oid ns (set_name name) root kind)
              (add_object (SysObject oid ns KDS_OID_TYPE_TABLE 0 (set_name name)) c)) in
  name_lookup c' name = Some (default oid (name_lookup c name)) /\
  table_lookup c' oid = Some (SysTable oid ns (set_name name) root kind) /\
  schema_of c' oid = take 32 (List.filter (belongs oid) cols).
Proof.
  intros [H2 H3] Hn c'. split_and!.
  - unfold name_lookup. cbn [c' add_columns add_table add_object c_objects]. induction (c_objects c) as [|r l IH]; cbn [find app].
    + unfold named. cbn [so_type so_name]. change KDS_CATALOG_NAME_MAX with 64%nat. rewrite same_name, Z.eqb_refl by done.
      by rewrite bool_decide_eq_true_2.
    + by destruct (named name r).
  - unfold table_lookup. cbn. rewrite (find_app_fresh _ _ _ H2); [done|]. apply Z.eqb_refl.
  - unfold schema_of. cbn. rewrite List.filter_app, (filter_none _ _ H3). done.
Qed.
(** Opening what a creation left in the catalog. *)
Lemma created_open kind rid q s c oid t name oid' :
  created kind rid q s c -> table_lookup c oid = Some t -> name_lookup c name = Some oid' ->
  kds_catalog_find_table_oid_by_name (Some name) s = Ret (0, Some oid') s /\
  kds_relation_open oid s =
    Ret (if k_alloc (tick s) then PTR (Relation oid (st_namespace t) (st_clustered t) (desc_page_id t) (schema_of c oid))
         else ERR_PTR (- ENOMEM)) (set_tick (S (tick s)) s).
Proof.
  intros (pl & k & p & Ha & Hc & _) Ht Hn. pose proof (as_pool _ _ _ Ha) as Hg. rewrite <- (wp_id s pl Hg).
  split; [by rewrite (find_table_spec pl s c name Hc), Hn|]. rewrite (relation_open_spec pl s c oid Hc), Ht. done.
Qed.
End Tables.

(** ** Nodes in the cache *)
Section Nodes.
Context `{K : Kernel}.

Definition node_at (p : bytes) (fid : nat) : kds_btree_node := node_dec (sub p KDS_PAGE_HDR_SIZE BTREE_DATA_SIZE) (Some fid).
Lemma load_at id fid pl s k p :
  pool_wf pl -> buf_map pl !! id = Some fid -> cached pl id = Some (k, p) -> kds_is_btree_page (kp_hdr k) = true ->
  load_btree_node fid (wp pl s) = Ret (node_at p fid) (wp pl s).
Proof.
  intros Hwf Hm Hc Hb. unfold load_btree_node. pose proof (cached_fits pl Hwf id k p Hc) as (_ & Hz & _).
  match goal with |- on_frame fid ?m _ = _ => destruct (frame_read id fid m pl s k p (fun a => a = node_at p fid) Hwf Hm Hc) as (a & E & ->); [|exact E] end.
  intros f Hf. rewrite <- (frame_live_eq f k p Hf). exists (node_at p fid). split; [|done].
  assert (check_btree_page (live_frame f k p) = Ret tt (live_frame f k p)) as E.
  { unfold check_btree_page. erewrite bind_ok by reflexivity. by rewrite Hb. }
  erewrite bind_ok by exact E. by erewrite bind_ok by (apply ld_live; rewrite ?Hz; unfold KDS_PAGE_HDR_SIZE, BTREE_DATA_SIZE, KDS_PAGE_SIZE; lia).
Qed.
Lemma store_at id fid pl s k p n :
  pool_wf pl -> buf_map pl !! id = Some fid -> cached pl id = Some (k, p) -> kds_is_btree_page (kp_hdr k) = true ->
  bframe n = Some fid -> zlen (node_enc n) = BTREE_DATA_SIZE ->
  store_btree_node n (wp pl s) = Ret tt (wp (put id k (patch p KDS_PAGE_HDR_SIZE (node_enc n)) pl) s).
Proof.
  intros Hwf Hm Hc Hb Hfr Hz. unfold store_btree_node, node_frame. rewrite Hfr. cbn [in_bounds]. erewrite bind_ok by reflexivity.
  match goal with |- on_frame fid ?m _ = _ => destruct (frame_put id fid m pl s k p tt
    (fun k' p' => k' = k /\ p' = patch p KDS_PAGE_HDR_SIZE (node_enc n)) Hwf Hm Hc) as (k' & p' & E & -> & ->); [|exact E] end.
  intros f Hf. eexists k, _. split; [|done]. rewrite <- (frame_live_eq f k p Hf) at 1.
  assert (check_btree_page (live_frame f k p) = Ret tt (live_frame f k p)) as E.
  { unfold check_btree_page. erewrite bind_ok by reflexivity. by rewrite Hb. }
  erewrite bind_ok by exact E. rewrite st_live by (rewrite Hz; by vm_compute). done.
Qed.
Lemma zlen_node_enc n : length (keys n) = 4%nat -> length (slots n) = 5%nat -> zlen (node_enc n) = BTREE_DATA_SIZE.
Proof.
  intros Hk Hs. unfold node_enc. destruct (keys n) as [|a [|b [|c [|d [|? ?]]]]]; try discriminate Hk.
  destruct (slots n) as [|s0 [|s1 [|s2 [|s3 [|s4 [|? ?]]]]]]; try discriminate Hs. reflexivity.
Qed.
Lemma node_at_patch p fid n :
  zlen p = KDS_PAGE_SIZE -> node_ok n -> bframe n = Some fid -> node_at (patch p KDS_PAGE_HDR_SIZE (node_enc n)) fid = n.
Proof.
  intros Hz Hn Hfr. pose proof Hn as (Hk & Hs & _). pose proof (zlen_node_enc n Hk Hs) as Hl. unfold node_at.
  rewrite <- Hl, sub_patch_same by (rewrite ?Hl, ?Hz; unfold KDS_PAGE_HDR_SIZE, BTREE_DATA_SIZE, KDS_PAGE_SIZE; lia).
  rewrite <- Hfr. by apply node_dec_enc.
Qed.
Lemma match_loop_spec ks key : forall steps i pos,
  (i <= pos < i + steps)%nat -> (i + steps <= length ks)%nat -> ks !! pos = Some key ->
  (forall j, (i <= j < pos)%nat -> ks !! j <> Some key) -> match_loop ks i steps key = Some (Some pos).
Proof.
  induction steps as [|st IH]; intros i pos Hp Hl Hk Hno; [lia|]. cbn [match_loop].
  destruct (lookup_lt_is_Some_2 ks i ltac:(lia)) as [k Hki]. rewrite Hki. simpl. destruct (decide (i = pos)) as [->|Hne].
  - assert (k = key) as -> by congruence. by rewrite Z.eqb_refl.
  - destruct (Z.eqb_spec k key) as [->|]; [by apply Hno in Hki; [|lia]|]. apply IH; try done; try lia. intros j Hj. apply Hno. lia.
Qed.

Lemma insert_at_ok n pos key v n' :
  node_wf n -> node_ok n -> key_count n < 4 -> Z.of_nat pos <= key_count n -> u64_ok key -> u64_ok v ->
  btree_node_insert_at n pos key v = Some n' -> node_ok n'.
Proof.
  intros Hn (_ & _ & Hok) Hlt Hpos Hk Hv. unfold u64_ok in *. node_split n Hn; cbn [key_count] in *; try lia; small_nat pos;
    (intros E; vm_compute in E; injection E as <-; split; [reflexivity|]; split; [reflexivity|];
     cbn -[Z.pow] in *; repeat (apply Forall_cons in Hok as [? Hok]); repeat (constructor; [first [assumption|lia|by vm_compute]|]); constructor).
Qed.
Lemma slot_left n pos key v n' w :
  node_wf n -> key_count n < 4 -> Z.of_nat pos <= key_count n -> slot_at n pos = Some w ->
  btree_node_insert_at n pos key v = Some n' -> slot_at n' pos = Some w /\ keys n' !! pos = Some key /\
    forall j, (j < pos)%nat -> keys n' !! j = keys n !! j.
Proof.
  intros Hn Hlt Hpos. node_split n Hn; cbn [key_count] in *; try lia; small_nat pos;
    (intros Hw E; vm_compute in E; injection E as <-; cbn in *; split; [done|]; split; [done|]; intros j Hj; small_nat j; done).
Qed.
(** The search of an insertion that ends in a root that is a leaf. *)
Lemma leaf_root_search id pl s k p key pos fid pl1 :
  buf_map pl1 !! id = Some fid -> kds_buf_lookup_or_load id (wp pl s) = Ret (PTR fid) (wp pl1 s) ->
  pool_wf pl1 -> cached pl1 id = Some (pinned k, p) -> kds_is_btree_page (kp_hdr k) = true ->
  let n := node_at p fid in
  node_wf n -> level n = 0 -> btree_search_position n key = Some pos -> key ∉ node_keys n ->
  kds_btree_cursor_search id key (wp pl s) =
    Ret (0, Cursor (<[0%nat := n]> (cnodes btree_cursor_init)) (<[0%nat := pos]> (positions btree_cursor_init)) 0) (wp pl1 s).
Proof.
  intros Hm E Hwf Hc Hb n Hn Hlv Hpos Hni.
  assert (Hdup : (if Z.of_nat pos <? key_count n then k <- in_bounds (key_at n pos) ;; ret (k =? key) else ret false) (wp pl1 s) =
    Ret false (wp pl1 s)).
  { destruct (Z.ltb_spec (Z.of_nat pos) (key_count n)) as [Hlt|]; [|reflexivity].
    pose proof (nw_keys _ Hn) as Hlk. pose proof (nw_count _ Hn).
    destruct (lookup_lt_is_Some_2 (keys n) pos ltac:(lia)) as [x Hx]. unfold key_at. rewrite Hx. cbn [in_bounds].
    erewrite (bind_ok (ret x)) by reflexivity. destruct (Z.eqb_spec x key) as [->|]; [|reflexivity]. exfalso. apply Hni.
    apply (list_elem_of_lookup_2 _ pos). by rewrite lookup_node_keys. }
  assert (Ed : forall fuel, descend (S fuel) btree_cursor_init id key (wp pl s) =
    Ret (0, Cursor (<[0%nat := n]> (cnodes btree_cursor_init)) (<[0%nat := pos]> (positions btree_cursor_init)) 0) (wp pl1 s)).
  { intros fuel. cbn [descend]. erewrite bind_ok by exact E. cbn beta iota. erewrite bind_ok by (by eapply load_at). fold n.
    rewrite Hpos. cbn [in_bounds]. erewrite (bind_ok (ret pos)) by reflexivity. cbn zeta.
    erewrite bind_ok by exact Hdup. cbn iota. rewrite Hlv. reflexivity. }
  unfold kds_btree_cursor_search. erewrite bind_ok by exact (Ed 15%nat). reflexivity.
Qed.
Lemma zlen_patch_node p n : zlen p = KDS_PAGE_SIZE -> node_ok n -> zlen (patch p KDS_PAGE_HDR_SIZE (node_enc n)) = KDS_PAGE_SIZE.
Proof.
  intros Hz (Hk & Hs & _). pose proof (zlen_node_enc n Hk Hs) as Hzn.
  rewrite zlen_patch; rewrite ?Hzn, ?Hz; unfold KDS_PAGE_HDR_SIZE, BTREE_DATA_SIZE, KDS_PAGE_SIZE; lia.
Qed.
(** Inserting a new key into such a root rewrites its page, nothing else. *)
Lemma leaf_root_insert id pl s k p fid n key v pos :
  pool_wf pl -> buf_map pl !! id = Some fid -> cached pl id = Some (k, p) -> kds_is_btree_page (kp_hdr k) = true ->
  node_at p fid = n -> node_wf n -> level n = 0 -> key_count n < 4 -> key ∉ node_keys n ->
  btree_search_position n key = Some pos -> node_ok n -> u64_ok key -> u64_ok v ->
  exists n', btree_node_insert_at n pos key v = Some n' /\
    btree_insert id key v (wp pl s) = Ret 0 (wp (put id k (patch p KDS_PAGE_HDR_SIZE (node_enc n')) pl) s).
Proof.
  intros Hwf Hm Hc Hb Hna Hn Hlv Hlt Hni Hpos Hok Hkey Hv.
  destruct (hit_put id pl s k p Hwf Hc) as (fid' & Hm' & E1). assert (fid' = fid) as -> by congruence. clear Hm'.
  pose proof (cached_fits pl Hwf id k p Hc) as (Hid & Hz & Hres).
  destruct (put_spec pl Hwf id k p (pinned k) p Hc) as (Hwf1 & Ho1 & Hc1); [done|]. set (pl1 := put id (pinned k) p pl) in *.
  assert (Hm1 : buf_map pl1 !! id = Some fid) by (by unfold pl1; rewrite buf_map_put).
  pose proof (leaf_root_search id pl s k p key pos fid pl1 Hm1 E1 Hwf1 Hc1 Hb) as Es. cbn zeta in Es. rewrite Hna in Es.
  destruct (search_position_spec n key Hn) as (pos' & Epos & Hle & _). assert (pos' = pos) as -> by congruence.
  destruct (insert_at_spec n pos key v Hn Hlt Hle) as (n' & En & Hn' & Hcnt & Hlv' & Hfr & _).
  pose proof (insert_at_ok n pos key v n' Hn Hok Hlt Hle Hkey Hv En) as Hok'. pose proof Hok' as (Hk4 & Hs5 & _).
  assert (Hbf : bframe n' = Some fid) by (rewrite Hfr, <- Hna; reflexivity).
  exists n'. split; [done|]. unfold btree_insert. erewrite bind_ok by (by apply Es). cbn beta iota. cbn [Z.ltb Z.compare]. cbn iota.
  unfold kds_btree_cursor_insert. erewrite (bind_ok (cnode _ _)) by reflexivity. erewrite (bind_ok (cpos _ _)) by reflexivity.
  apply Z.ltb_lt in Hlt. change BTREE_MAX_KEYS with 4. rewrite Hlt, En. cbn [in_bounds].
  erewrite (bind_ok (ret n')) by reflexivity. erewrite bind_ok by (eapply (store_at id fid); try done; by apply zlen_node_enc).
  set (p' := patch p KDS_PAGE_HDR_SIZE (node_enc n')).
  destruct (put_spec pl1 Hwf1 id (pinned k) p (pinned k) p' Hc1) as (Hwf2 & _ & Hc2).
  { split; [done|]. split; [by apply zlen_patch_node|done]. }
  assert (Eu : btree_cursor_cleanup (Cursor (<[0%nat := n]> (cnodes btree_cursor_init)) (<[0%nat := pos]> (positions btree_cursor_init)) 0)
     (wp (put id (pinned k) p' pl1) s) = Ret tt (wp (put id k p' pl) s)).
  { unfold btree_cursor_cleanup. cbn [depth seq cleanup_loop]. erewrite (bind_ok (cnode _ _)) by reflexivity.
    rewrite <- Hna at 1. cbn [node_at node_dec bframe].
    erewrite bind_ok by (eapply (unpin_put id); [done|by rewrite buf_map_put|done]).
    rewrite unpinned_pinned, put_put. unfold pl1. by rewrite put_put. }
  by erewrite bind_ok by exact Eu.
Qed.
(** Looking a key up in such a root. *)
Lemma leaf_root_lookup id pl s k p fid key pos w :
  pool_wf pl -> buf_map pl !! id = Some fid -> cached pl id = Some (k, p) -> kds_is_btree_page (kp_hdr k) = true ->
  node_wf (node_at p fid) -> level (node_at p fid) = 0 -> Z.of_nat pos < key_count (node_at p fid) ->
  (forall j, (j < pos)%nat -> keys (node_at p fid) !! j <> Some key) ->
  keys (node_at p fid) !! pos = Some key -> slot_at (node_at p fid) pos = Some w ->
  index_descend BTREE_MAX_DEPTH key id (wp pl s) = Ret (0, Some w) (wp pl s).
Proof.
  intros Hwf Hm Hc Hb Hn Hlv Hlt Hno Hk Hw. change BTREE_MAX_DEPTH with (S 15). generalize 15%nat. intros fuel.
  destruct (open_page id pl s k p Hwf Hc) as (fid' & pl1 & Hm1 & E1 & Hwf1 & Hc1 & Ho1 & Hu1 & _).
  assert (fid' = fid) as -> by (rewrite (op_map _ _ _ Ho1) in Hm1; congruence).
  cbn [index_descend]. erewrite bind_ok by exact E1. cbn beta iota. erewrite bind_ok by (by eapply load_at).
  set (n := node_at p fid) in *. pose proof (nw_keys _ Hn) as Hlk. pose proof (nw_count _ Hn) as Hcnt.
  assert (match_pos n key = Some (Some pos)) as ->.
  { unfold match_pos. apply match_loop_spec; try done; try lia. intros j Hj. apply Hno. lia. }
  cbn [in_bounds]. erewrite (bind_ok (ret (Some pos))) by reflexivity. rewrite Hlv, Hw. cbn [Z.eqb in_bounds]. cbn iota.
  erewrite (bind_ok (ret w)) by reflexivity. by erewrite bind_ok by exact Hu1.
Qed.
End Nodes.

Section Claims.
Context `{K : Kernel} {KS : Kstrtoll}.

(** C30.  Create-then-open, for a table that gets an oid no table or column
    row of the catalog has (the counter restarts with every start, see
    RebootSpec.v) while the catalog's pages have room: the creation succeeds,
    also when the name is taken.  The name is then found to denote the new
    table, or, when an older table has that name, still the older one; and
    [kds_relation_open] of the new oid gives a handle with the namespace,
    storage kind, root page and exactly the columns it was created with
    (names cut to 63 characters), in order, or [-ENOMEM] when there is no
    memory for the handle. *)
Theorem create_then_open kind s pl fid q rid k p c o n ns name schema :
  staged_root s pl fid q rid k p -> catalog_rep pl c -> ~ 4 <= rid <= 7 ->
  u64_ok n -> u64_ok ns -> plain_name name -> Forall input_column_ok schema ->
  oid_unused c (u64 (n + 1)) ->
  zlen (c_objects c) < MAX_OBJECTS -> zlen (c_tables c) < MAX_TABLES ->
  zlen (c_columns c) + zlen schema <= MAX_COLUMNS -> zlen schema <= 32 ->
  let oid := u64 (n + 1) in
  exists s' n', kds_catalog_create_table ns (Some name) (Some schema) (clustered_val kind) (CatEnv s o n) =
      Ret (0, Some oid) (CatEnv s' o n') /\
    kds_catalog_find_table_oid_by_name (Some name) s' = Ret (0, Some (default oid (name_lookup c name))) s' /\
    kds_relation_open oid s' =
      Ret (if k_alloc (tick s') then PTR (Relation oid ns (clustered_val kind) rid (new_columns oid oid schema))
           else ERR_PTR (- ENOMEM)) (set_tick (S (tick s')) s').
Proof.
  intros Hroot Hrep Hid Hn Hns Hname Hcols Hfresh Ho Ht Hc Hs oid.
  pose proof (create_table_cases kind s pl fid q rid k p c o n ns name schema Hroot Hrep Hid Hn Hns (proj1 Hname) Hcols) as H.
  unfold create_model in H. cbn zeta in H. fold oid in H. destruct (Z.leb_spec MAX_OBJECTS (zlen (c_objects c))); [lia|]. cbn [add_object c_tables] in H.
  destruct (Z.leb_spec MAX_TABLES (zlen (c_tables c))); [lia|]. cbn [add_table add_object c_columns] in H.
  destruct (Z.leb_spec (zlen schema) (MAX_COLUMNS - zlen (c_columns c))); [|lia]. cbn iota in H.
  destruct H as (s' & E & Hcr & _). exists s', (u64 (oid + zlen schema)). split; [exact E|].
  destruct (created_shadowed c oid ns name rid (clustered_val kind) (new_columns oid oid schema) Hfresh Hname) as (V1 & V2 & V3).
  destruct (created_open _ _ _ _ _ _ _ _ _ Hcr V2 V1) as [F1 F2]. split; [exact F1|]. rewrite F2, V3.
  pose proof (new_columns_belong oid schema oid (length schema)) as Hb.
  rewrite (take_ge (new_columns _ _ _)) in Hb by (by rewrite length_new_columns). rewrite Hb.
  by rewrite take_ge by (rewrite length_new_columns; unfold zlen in *; lia).
Qed.

(** A creation that fails is not undone: when sys.columns has no room
    for all columns, [kds_catalog_create_table] returns [-ENOSPC], yet the
    table is found by its name and can be opened, with the columns that did
    fit. *)
Theorem failed_create_leaves_table kind s pl fid q rid k p c o n ns name schema :
  staged_root s pl fid q rid k p -> catalog_rep pl c -> ~ 4 <= rid <= 7 ->
  u64_ok n -> u64_ok ns -> plain_name name -> Forall input_column_ok schema ->
  fresh_for c (u64 (n + 1)) name ->
  zlen (c_objects c) < MAX_OBJECTS -> zlen (c_tables c) < MAX_TABLES ->
  MAX_COLUMNS < zlen (c_columns c) + zlen schema ->
  let oid := u64 (n + 1) in
  exists s' n', kds_catalog_create_table ns (Some name) (Some schema) (clustered_val kind) (CatEnv s o n) =
      Ret (- ENOSPC, None) (CatEnv s' o n') /\
    kds_catalog_find_table_oid_by_name (Some name) s' = Ret (0, Some oid) s' /\
    kds_relation_open oid s' =
      Ret (if k_alloc (tick s') then
             PTR (Relation oid ns (clustered_val kind) rid
                   (take 32 (take (Z.to_nat (MAX_COLUMNS - zlen (c_columns c))) (new_columns oid oid schema))))
           else ERR_PTR (- ENOMEM)) (set_tick (S (tick s')) s').
Proof.
  intros Hroot Hrep Hid Hn Hns Hname Hcols Hfresh Ho Ht Hc oid.
  pose proof (create_table_cases kind s pl fid q rid k p c o n ns name schema Hroot Hrep Hid Hn Hns (proj1 Hname) Hcols) as H.
  unfold create_model in H. cbn zeta in H. fold oid in H. destruct (Z.leb_spec MAX_OBJECTS (zlen (c_objects c))); [lia|]. cbn [add_object c_tables] in H.
  destruct (Z.leb_spec MAX_TABLES (zlen (c_tables c))); [lia|]. cbn [add_table add_object c_columns] in H.
  destruct (Z.leb_spec (zlen schema) (MAX_COLUMNS - zlen (c_columns c))); [lia|]. cbn iota in H.
  destruct H as (s' & E & Hcr & _). exists s'. eexists. split; [exact E|]. set (m := Z.to_nat (MAX_COLUMNS - zlen (c_columns c))) in *.
  destruct (created_view c oid ns name rid (clustered_val kind) (take m (new_columns oid oid schema)) Hfresh Hname) as (V1 & V2 & V3).
  destruct (created_open _ _ _ _ _ _ _ _ _ Hcr V2 V1) as [F1 F2]. split; [exact F1|]. rewrite F2, V3.
  by rewrite new_columns_belong.
Qed.

(** An index lookup does not return what was inserted: after
    [kds_index_insert] put a new key with value [v] into an index whose root
    is a leaf with room, [kds_index_search] for that key returns the value
    to the left of the new one, whatever [v] is (for the first key of a new
    index: 0).  The insertion stores the value right of its key, the search
    reads the one left of it. *)
Theorem index_search_returns_left_value rel s pl k p fid n key v pos w :
  rel_kind rel = clustered_val KDS_CLUSTERED_BTREE -> g_pool s = Some pl -> pool_wf pl ->
  buf_map pl !! root_page_id rel = Some fid -> cached pl (root_page_id rel) = Some (k, p) -> kds_is_btree_page (kp_hdr k) = true ->
  node_at p fid = n -> node_wf n -> level n = 0 -> key_count n < 4 -> key ∉ node_keys n ->
  btree_search_position n key = Some pos -> slot_at n pos = Some w ->
  node_ok n -> u64_ok key -> u64_ok v ->
  exists s', kds_index_insert (Some rel) key v s = Ret 0 s' /\
    kds_index_search (Some rel) key s' = Ret (0, Some w) s'.
Proof.
  intros Hkind Hg Hwf Hm Hc Hb Hna Hn Hlv Hlt Hni Hpos Hw Hok Hkey Hv. set (id := root_page_id rel) in *.
  unfold kds_index_insert, kds_index_search. rewrite Hkind. cbn [clustered_val Z.eqb negb Pos.eqb]. cbn iota. fold id.
  rewrite <- (wp_id s pl Hg). destruct (leaf_root_insert id pl s k p fid n key v pos) as (n' & En & Ei); try done.
  destruct (search_position_spec n key Hn) as (pos' & Epos & Hle & Hlo & _). assert (pos' = pos) as -> by congruence.
  destruct (insert_at_spec n pos key v Hn Hlt Hle) as (n2 & En2 & Hn' & Hcnt & Hlv' & Hfr & _). assert (n2 = n') as -> by congruence.
  pose proof (insert_at_ok n pos key v n' Hn Hok Hlt Hle Hkey Hv En) as Hok'.
  destruct (slot_left n pos key v n' w Hn Hlt Hle Hw En) as (Hw' & Hkpos & Hkeep).
  exists (wp (put id k (patch p KDS_PAGE_HDR_SIZE (node_enc n')) pl) s). split; [exact Ei|].
  pose proof (cached_fits pl Hwf id k p Hc) as (Hid & Hz & Hres).
  destruct (put_spec pl Hwf id k p k (patch p KDS_PAGE_HDR_SIZE (node_enc n')) Hc) as (Hwf2 & Ho2 & Hc2).
  { split; [done|]. split; [by apply zlen_patch_node|done]. }
  apply (leaf_root_lookup id _ s k (patch p KDS_PAGE_HDR_SIZE (node_enc n')) fid key pos w Hwf2); try done; [by rewrite buf_map_put|..];
    rewrite (node_at_patch p fid n' Hz Hok' ltac:(by rewrite Hfr, <- Hna)); [done|lia|lia| |done..].
  intros j Hj. rewrite Hkeep by done. intros Hjk. assert (key < key); [|lia].
  apply (Hlo j key Hj). by rewrite lookup_node_keys by (done || lia).
Qed.
End Claims.

(** ** Concrete instances *)
#[local] Existing Instance quiet_kernel.
#[local] Existing Instance no_strtoll.
#[local] Opaque KDS_BUF_NR_FRAMES.
Lemma plain_t : plain_name (cstr "t").
Proof. split; [apply cstr_ok|]. split; [repeat constructor; by vm_compute|cbn; lia]. Qed.
Lemma fresh_no_rows oid name : fresh_for no_rows oid name.
Proof. split; constructor. Qed.
(** A catalog that knows a table of that name, and one that does not. *)
Lemma create_then_open_witness :
  (exists s' n', kds_catalog_create_table 1 (Some (cstr "t")) (Some demo_cols) 1 (CatEnv cat_state [] 4000) =
      Ret (0, Some 4001) (CatEnv s' [] n') /\
    kds_catalog_find_table_oid_by_name (Some (cstr "t")) s' = Ret (0, Some 4001) s' /\
    kds_relation_open 4001 s' = Ret (PTR (Relation 4001 1 1 200 (new_columns 4001 4001 demo_cols))) (set_tick (S (tick s')) s')) /\
  default 4001 (name_lookup (Cat [SysObject 9 1 KDS_OID_TYPE_TABLE 0 (set_name (cstr "t"))] [] [] []) (cstr "t")) = 9.
Proof.
  split; [|vm_compute; reflexivity].
  destruct (create_then_open KDS_CLUSTERED_BTREE cat_state cat_pool 4 [] 200 (cat_kp 200) (zeros KDS_PAGE_SIZE) no_rows [] 4000 1
    (cstr "t") demo_cols cat_staged cat_rep) as (s' & n' & H1 & H2 & H3);
    [lia|by vm_compute|by vm_compute|apply plain_t|apply demo_cols_ok|split; constructor|by vm_compute..|].
  change (u64 (4000 + 1)) with 4001 in *. exists s', n'. split; [exact H1|]. split; [exact H2|exact H3].
Defined.
Lemma failed_create_leaves_table_witness :
  exists s' n', kds_catalog_create_table 1 (Some (cstr "t")) (Some (mjoin (replicate 33 demo_cols))) 0 (CatEnv cat_state [] 4000) =
      Ret (- ENOSPC, None) (CatEnv s' [] n') /\
    kds_catalog_find_table_oid_by_name (Some (cstr "t")) s' = Ret (0, Some 4001) s'.
Proof.
  destruct (failed_create_leaves_table KDS_CLUSTERED_HEAP cat_state cat_pool 4 [] 200 (cat_kp 200) (zeros KDS_PAGE_SIZE) no_rows [] 4000 1
    (cstr "t") (mjoin (replicate 33 demo_cols)) cat_staged cat_rep) as (s' & n' & H1 & H2 & _);
    [lia|by vm_compute|by vm_compute|apply plain_t| |apply fresh_no_rows|by vm_compute..|].
  - apply Forall_join, Forall_replicate, demo_cols_ok.
  - change (u64 (4000 + 1)) with 4001 in *. exists s', n'. split; [exact H1|exact H2].
Defined.

(** A new index: an empty leaf as root. *)
Definition idx_kp : kds_page := Kpage 200 (PageHdr KDS_PAGE_TYPE_BTREE_ROOT 0 3 (zeros 32)) 0.
Definition idx_pool : kds_buf_pool := pool_of [(idx_kp, zeros KDS_PAGE_SIZE)].
Definition idx_rel : kds_relation := Relation 4001 1 1 200 [].
Lemma idx_pool_ok : pool_wf idx_pool /\ cached idx_pool 200 = Some (idx_kp, zeros KDS_PAGE_SIZE).
Proof.
  destruct (pool_of_ok [(idx_kp, zeros KDS_PAGE_SIZE)]) as (H1 & _ & H2).
  - pose proof nr_frames. cbn. lia.
  - apply NoDup_singleton.
  - constructor; [|constructor]. split; [done|]. split; [by apply zlen_zeros|done].
  - split; [exact H1|]. apply (H2 idx_kp). left.
Qed.
Lemma index_search_returns_left_value_witness :
  exists s', kds_index_insert (Some idx_rel) 5 77 (set_g_pool (Some idx_pool) demo_state) = Ret 0 s' /\
    kds_index_search (Some idx_rel) 5 s' = Ret (0, Some 0) s'.
Proof.
  destruct idx_pool_ok as [Hwf Hc].
  apply (index_search_returns_left_value idx_rel (set_g_pool (Some idx_pool) demo_state) idx_pool idx_kp (zeros KDS_PAGE_SIZE) 0
    (set_bframe (Some 0%nat) zero_node) 5 77 0 0);
    [reflexivity|reflexivity|exact Hwf|apply lookup_insert_eq|exact Hc|reflexivity|vm_compute; reflexivity
    |split; [reflexivity|reflexivity|vm_compute; split; discriminate]|reflexivity|reflexivity|apply not_elem_of_nil|reflexivity|reflexivity
    | |by vm_compute|by vm_compute].
  split; [reflexivity|]. split; [reflexivity|]. repeat constructor; vm_compute; (discriminate || reflexivity).
Defined.
