(* ===== verification/ExecHeap.v ===== *)
(** * ExecHeap: the insert executor of heap tables
    (kernel/kds/exec_heap_insert.c, kds_executor.h)

    An executor is a resumable state machine: [run] works until it is done,
    fails, or its time slice is over, and keeps what it needs to go on in the
    executor itself.  The state passed around here is the executor; pages,
    clock and log are in [wal_env].

    Walking the page chain is a loop whose length depends on the data:
    [chain] bounds the number of pages visited. *)
From S2P Require Import Prelude Layout State Disk Pool Alloc Heap Btree Types Parser Catalog Relation Wal.
From stdpp Require Import prelude gmap list.
From Stdlib Require Import ZArith Lia.
Local Open Scope Z_scope.
Local Open Scope list_scope.
Local Open Scope kds_scope.

Inductive kds_exec_result := KDS_EXEC_DONE | KDS_EXEC_ERROR | KDS_EXEC_CONTINUE.
Record kds_exec_state := ExecState { ex_ret : Z; deadline_ns : Z; units_done : Z }.
Definition KDS_EXEC_ROW_SCAN_BUF : Z := 256.

Inductive kds_heap_insert_phase :=
  | KDS_HEAP_INSERT_PHASE_DUP_SCAN | KDS_HEAP_INSERT_PHASE_FIND_TAIL | KDS_HEAP_INSERT_PHASE_WAL_INSERT
  | KDS_HEAP_INSERT_PHASE_WAL_INIT_PAGE | KDS_HEAP_INSERT_PHASE_DONE.
Record kds_heap_insert_exec := HeapExec {
  hx_base : kds_exec_state; hx_rel : option kds_relation; hx_data : option bytes; hx_len : Z; hx_xid : Z;
  hx_tid : kds_heap_tid; hx_phase : kds_heap_insert_phase; hx_cursor : Z; new_pk : Z;
  wal_target_page_id : Z; wal_target_offset : Z; wal_need_init_page : bool }.

Definition set_hx_base (b : kds_exec_state) (x : kds_heap_insert_exec) : kds_heap_insert_exec :=
  HeapExec b (hx_rel x) (hx_data x) (hx_len x) (hx_xid x) (hx_tid x) (hx_phase x) (hx_cursor x) (new_pk x)
    (wal_target_page_id x) (wal_target_offset x) (wal_need_init_page x).
Definition set_hx_phase (p : kds_heap_insert_phase) (x : kds_heap_insert_exec) : kds_heap_insert_exec :=
  HeapExec (hx_base x) (hx_rel x) (hx_data x) (hx_len x) (hx_xid x) (hx_tid x) p (hx_cursor x) (new_pk x)
    (wal_target_page_id x) (wal_target_offset x) (wal_need_init_page x).
Definition set_hx_cursor (c : Z) (x : kds_heap_insert_exec) : kds_heap_insert_exec :=
  HeapExec (hx_base x) (hx_rel x) (hx_data x) (hx_len x) (hx_xid x) (hx_tid x) (hx_phase x) c (new_pk x)
    (wal_target_page_id x) (wal_target_offset x) (wal_need_init_page x).
Definition set_hx_tid (t : option kds_heap_tid) (x : kds_heap_insert_exec) : kds_heap_insert_exec :=
  HeapExec (hx_base x) (hx_rel x) (hx_data x) (hx_len x) (hx_xid x) (default (hx_tid x) t) (hx_phase x) (hx_cursor x) (new_pk x)
    (wal_target_page_id x) (wal_target_offset x) (wal_need_init_page x).
Definition set_wal_target (id : Z) (fresh : bool) (x : kds_heap_insert_exec) : kds_heap_insert_exec :=
  HeapExec (hx_base x) (hx_rel x) (hx_data x) (hx_len x) (hx_xid x) (hx_tid x) (hx_phase x) (hx_cursor x) (new_pk x) id 0 fresh.
Definition set_ex_ret (r : Z) (b : kds_exec_state) : kds_exec_state := ExecState r (deadline_ns b) (units_done b).
Definition add_unit (b : kds_exec_state) : kds_exec_state := ExecState (ex_ret b) (deadline_ns b) (u64 (units_done b + 1)).
Definition hx_fail (r : Z) (x : kds_heap_insert_exec) : kds_exec_result * kds_heap_insert_exec :=
  (KDS_EXEC_ERROR, set_hx_base (set_ex_ret r (hx_base x)) x).
Definition hx_unit (x : kds_heap_insert_exec) : kds_heap_insert_exec := set_hx_base (add_unit (hx_base x)) x.

(** [memcpy] of the first 8 bytes into an [s64]. *)
Definition row_pk (row : bytes) : Z := to_signed 64 (le_val (take 8 row)).

Section Exec.
Context `{K : Kernel}.

Definition kds_exec_slice_expired (b : kds_exec_state) : M wal_env bool :=
  now <- on_kds (oracle k_ns) ;; ret (deadline_ns b <=? now).

(** ** The duplicate scan *)
(** 1: found, 0: not found, negative: the error of a tuple that cannot be
    read. *)
Fixpoint scan_slots_for_pk (fid : nat) (target_pk : Z) (slots : list Z) : M kds_state Z :=
  match slots with
  | [] => ret 0
  | slot :: slots =>
      let* (r, o) := on_frame fid (heap_read_tuple slot (Some KDS_EXEC_ROW_SCAN_BUF)) in
      match o with
      | None => if r =? - ENOENT then scan_slots_for_pk fid target_pk slots else ret r
      | Some (hdr, buf) =>
          if data_len hdr <? 8 then scan_slots_for_pk fid target_pk slots else
          if row_pk buf =? target_pk then ret 1 else scan_slots_for_pk fid target_pk slots
      end
  end.
(** The result and [*out_next]. *)
Definition kds_heap_scan_page_for_pk (page_id target_pk : Z) : M kds_state (Z * Z) :=
  frame <- kds_buf_lookup_or_load page_id ;;
  match frame with
  | ERR_PTR e => ret (e, 0)
  | PTR fid =>
      n <- on_frame fid heap_nr_slots ;;
      r <- scan_slots_for_pk fid target_pk (all_slots n) ;;
      next <- (if 0 <=? r then on_frame fid heap_get_next_page_id else ret 0) ;;
      kds_buf_unpin fid ;;
      ret (r, next)
  end.
Fixpoint heap_insert_run_dup_scan (chain : nat) (x : kds_heap_insert_exec) : M wal_env (kds_exec_result * kds_heap_insert_exec) :=
  if hx_cursor x =? 0 then ret (KDS_EXEC_DONE, x) else
  match chain with
  | O => halt_with NoFuel
  | S chain =>
      let* (r, next) := on_kds (kds_heap_scan_page_for_pk (hx_cursor x) (new_pk x)) in
      if r <? 0 then ret (hx_fail r x) else
      if r =? 1 then ret (hx_fail (- EEXIST) x) else
      let x := set_hx_cursor next (hx_unit x) in
      expired <- (if negb (hx_cursor x =? 0) then kds_exec_slice_expired (hx_base x) else ret false) ;;
      if expired : bool then ret (KDS_EXEC_CONTINUE, x) else heap_insert_run_dup_scan chain x
  end.

(** ** Inserting the row *)
(** The chain ends at frame [fid]: a new page is taken, filled and linked. *)
Definition grow_chain (fid : nat) (x : kds_heap_insert_exec) : M wal_env (kds_exec_result * kds_heap_insert_exec) :=
  new_frame <- on_kds (kds_page_alloc KDS_PAGE_TYPE_HEAP) ;;
  match new_frame with
  | None => on_kds (kds_buf_unpin fid) ;; ret (hx_fail (- ENOSPC) x)
  | Some nf =>
      on_kds (on_frame nf heap_init_page) ;;
      let* (r, tid) := on_kds (on_frame nf (heap_insert_tuple (hx_data x) (hx_len x) (hx_xid x))) in
      let x := set_hx_tid tid x in
      if negb (r =? 0) then
        on_kds (kds_buf_unpin nf) ;; on_kds (kds_buf_unpin fid) ;; ret (hx_fail r x)
      else
      id <- on_kds (on_frame nf (kp_get kp_id)) ;;
      r <- on_kds (on_frame fid (heap_set_next_page_id id)) ;;
      on_kds (kds_buf_unpin fid) ;;
      if negb (r =? 0) then on_kds (kds_buf_unpin nf) ;; ret (hx_fail r x) else
      id <- on_kds (on_frame nf (kp_get kp_id)) ;;
      on_kds (kds_buf_unpin nf) ;;
      ret (KDS_EXEC_DONE, hx_unit (set_wal_target id true x))
  end.
Fixpoint heap_insert_run_find_tail (chain : nat) (x : kds_heap_insert_exec) : M wal_env (kds_exec_result * kds_heap_insert_exec) :=
  match chain with
  | O => halt_with NoFuel
  | S chain =>
      frame <- on_kds (kds_buf_lookup_or_load (hx_cursor x)) ;;
      match frame with
      | ERR_PTR e => ret (hx_fail e x)
      | PTR fid =>
          let* (r, tid) := on_kds (on_frame fid (heap_insert_tuple (hx_data x) (hx_len x) (hx_xid x))) in
          let x := set_hx_tid tid x in
          if r =? 0 then
            id <- on_kds (on_frame fid (kp_get kp_id)) ;;
            on_kds (kds_buf_unpin fid) ;;
            ret (KDS_EXEC_DONE, hx_unit (set_wal_target id false x))
          else if negb (r =? - ENOSPC) then
            on_kds (kds_buf_unpin fid) ;; ret (hx_fail r x)
          else
          next <- on_kds (on_frame fid heap_get_next_page_id) ;;
          if negb (next =? 0) then
            on_kds (kds_buf_unpin fid) ;;
            let x := set_hx_cursor next (hx_unit x) in
            expired <- kds_exec_slice_expired (hx_base x) ;;
            if expired : bool then ret (KDS_EXEC_CONTINUE, x) else heap_insert_run_find_tail chain x
          else grow_chain fid x
      end
  end.

(** ** Log records *)
Definition init_page_body (page_id type : Z) : bytes := le_bytes 8 page_id ++ le_bytes 1 type ++ zeros 3.
Definition page_mod_body (page_id offset length : Z) : bytes := le_bytes 8 page_id ++ le_bytes 4 offset ++ le_bytes 4 length.
Definition heap_insert_run_wal_init_page (x : kds_heap_insert_exec) : M wal_env unit :=
  kds_wal_append (new_rec (hx_xid x) KDS_WAL_REC_INIT_PAGE 12)
    (Some (init_page_body (wal_target_page_id x) KDS_PAGE_TYPE_HEAP)) ;;
  ret tt.
(** The bounce buffer: the header of the body and the row. *)
Definition log_row (xid page_id offset len : Z) (data : option bytes) : M wal_env unit :=
  ok <- on_kds alloc_ok ;;
  if negb ok then ret tt else
  match data with
  | None => halt_with Fault
  | Some d =>
      if len <=? zlen d then
        kds_wal_append (new_rec xid KDS_WAL_REC_INSERT (16 + len)) (Some (page_mod_body page_id offset len ++ sub d 0 len)) ;;
        ret tt
      else halt_with Fault
  end.
Definition heap_insert_run_wal_insert (x : kds_heap_insert_exec) : M wal_env unit :=
  log_row (hx_xid x) (wal_target_page_id x) (wal_target_offset x) (hx_len x) (hx_data x).

(** ** The state machine

    The loop over the phases only moves forward, so it is written as one
    function per phase, each continuing with the next. *)
Definition run_from_wal_insert (x : kds_heap_insert_exec) : M wal_env (kds_exec_result * kds_heap_insert_exec) :=
  heap_insert_run_wal_insert x ;;
  ret (KDS_EXEC_DONE, set_hx_phase KDS_HEAP_INSERT_PHASE_DONE x).
Definition run_from_wal_init (x : kds_heap_insert_exec) : M wal_env (kds_exec_result * kds_heap_insert_exec) :=
  heap_insert_run_wal_init_page x ;;
  run_from_wal_insert (set_hx_phase KDS_HEAP_INSERT_PHASE_WAL_INSERT x).
Definition run_from_find_tail (chain : nat) (x : kds_heap_insert_exec) : M wal_env (kds_exec_result * kds_heap_insert_exec) :=
  expired <- kds_exec_slice_expired (hx_base x) ;;
  if expired : bool then ret (KDS_EXEC_CONTINUE, x) else
  let* (r, x) := heap_insert_run_find_tail chain x in
  match r with
  | KDS_EXEC_DONE =>
      if wal_need_init_page x
      then run_from_wal_init (set_hx_phase KDS_HEAP_INSERT_PHASE_WAL_INIT_PAGE x)
      else run_from_wal_insert (set_hx_phase KDS_HEAP_INSERT_PHASE_WAL_INSERT x)
  | _ => ret (r, x)
  end.
Definition run_from_dup_scan (chain : nat) (rel : kds_relation) (x : kds_heap_insert_exec)
  : M wal_env (kds_exec_result * kds_heap_insert_exec) :=
  let* (r, x) := heap_insert_run_dup_scan chain x in
  match r with
  | KDS_EXEC_DONE =>
      run_from_find_tail chain (set_hx_cursor (root_page_id rel) (set_hx_phase KDS_HEAP_INSERT_PHASE_FIND_TAIL x))
  | _ => ret (r, x)
  end.
Definition kds_heap_insert_exec_run (chain : nat) (x : kds_heap_insert_exec) : M wal_env (kds_exec_result * kds_heap_insert_exec) :=
  match hx_rel x with
  | None => ret (hx_fail (- EINVAL) x)
  | Some rel =>
      if negb (rel_kind rel =? clustered_val KDS_CLUSTERED_HEAP) then ret (hx_fail (- EINVAL) x) else
      if hx_len x <? 8 then ret (hx_fail (- EINVAL) x) else
      match hx_phase x with
      | KDS_HEAP_INSERT_PHASE_DUP_SCAN => run_from_dup_scan chain rel x
      | KDS_HEAP_INSERT_PHASE_FIND_TAIL => run_from_find_tail chain x
      | KDS_HEAP_INSERT_PHASE_WAL_INIT_PAGE => run_from_wal_init x
      | KDS_HEAP_INSERT_PHASE_WAL_INSERT => run_from_wal_insert x
      | KDS_HEAP_INSERT_PHASE_DONE => ret (KDS_EXEC_DONE, x)
      end
  end.
(** [kds_exec_run]: sets the deadline of this call. *)
Definition kds_exec_run (chain : nat) (slice_ns : Z) (x : kds_heap_insert_exec) : M wal_env (kds_exec_result * kds_heap_insert_exec) :=
  now <- on_kds (oracle k_ns) ;;
  let b := hx_base x in
  kds_heap_insert_exec_run chain (set_hx_base (ExecState (ex_ret b) (u64 (now + slice_ns)) (units_done b)) x).

Definition kds_heap_insert_exec_init (rel : option kds_relation) (data : option bytes) (len xid : Z) : kds_heap_insert_exec :=
  HeapExec (ExecState 0 0 0) rel data len xid (Tid 0 0) KDS_HEAP_INSERT_PHASE_DUP_SCAN
    (match rel with Some r => root_page_id r | None => 0 end)
    (match data with Some d => if 8 <=? len then row_pk d else 0 | None => 0 end)
    0 0 false.
End Exec.
