(* ===== verification/ExecHeapSpec.v ===== *)
(** * ExecHeapSpec: inserting a row refines insertion into a list of pages

    A heap table is a chain of pages.  [hpage] is the abstract page (its
    id, its slots, its free space) and [chain_at] relates a list of them to
    the cache.  The duplicate scan computes [chain_scan], the search for room
    [insert_model]; [exec_refines] puts them together for any number of
    interrupted calls. *)
From S2P Require Import Prelude Layout Heap HeapSpec HeapOps TupleStore State Disk DiskSpec Pool PoolSpec Alloc AllocSpec Btree Types Parser Store Catalog CatalogSpec Relation Wal ExecHeap.
From stdpp Require Import prelude gmap list.
From Stdlib Require Import ZArith Lia.
Local Open Scope Z_scope.
Local Open Scope list_scope.
Local Open Scope kds_scope.

(** ** Abstract tables *)
Record hpage := HPage { pg_id : Z; pg_view : list (option htuple); pg_free : Z }.
Fixpoint chain_at (pl : kds_buf_pool) (id : Z) (l : list hpage) : Prop :=
  match l with
  | [] => id = 0
  | g :: l => id <> 0 /\ pg_id g = id /\ exists next, heap_page pl id (pg_view g) (pg_free g) next /\ chain_at pl next l
  end.
Abbreviation ids l := (map pg_id l).

(** The primary key of a stored tuple: its first 8 bytes. *)
Definition pk_of (t : option htuple) : option Z :=
  t ≫= fun t => if data_len (ht_hdr t) <? 8 then None else Some (row_pk (ht_data t)).
Definition pks (l : list hpage) : list Z := l ≫= fun g => omap pk_of (pg_view g).

(** ** What the duplicate scan computes *)
Fixpoint scan_model (pk : Z) (v : list (option htuple)) : Z :=
  match v with
  | [] => 0
  | None :: v => scan_model pk v
  | Some t :: v =>
      if KDS_EXEC_ROW_SCAN_BUF <? data_len (ht_hdr t) then - ENOSPC else
      if bool_decide (pk_of (Some t) = Some pk) then 1 else scan_model pk v
  end.
Definition short (t : option htuple) : Prop :=
  match t with Some t => data_len (ht_hdr t) <= KDS_EXEC_ROW_SCAN_BUF | None => True end.
Definition short_rows (l : list hpage) : Prop := Forall (fun g => Forall short (pg_view g)) l.

Lemma scan_model_short pk v : Forall short v -> scan_model pk v = if decide (pk ∈ omap pk_of v) then 1 else 0.
Proof.
  induction 1 as [|t v Ht Hv IH]; [by rewrite decide_False by apply not_elem_of_nil|]. destruct t as [t|]; cbn [scan_model omap]; [|exact IH].
  cbn in Ht. destruct (Z.ltb_spec KDS_EXEC_ROW_SCAN_BUF (data_len (ht_hdr t))); [lia|]. cbn [list_omap].
  destruct (pk_of (Some t)) as [x|] eqn:Hx.
  - case_bool_decide as Hd; [injection Hd as ->; by rewrite decide_True by left|]. rewrite IH.
    apply decide_ext. rewrite elem_of_cons. naive_solver.
  - rewrite bool_decide_false by done. apply IH.
Qed.
Lemma scan_model_cases pk v : scan_model pk v = 0 \/ scan_model pk v = 1 \/ scan_model pk v = - ENOSPC.
Proof. induction v as [|[t|] v IH]; cbn; [auto| |auto]. repeat case_match; auto. Qed.

(** ** The state between calls of the pool *)
Definition at_pool (pl : kds_buf_pool) (s : kds_state) (e : wal_env) : wal_env :=
  WalEnv (wp pl s) (g_wal e) (g_wal_head_page_id e) (g_wal_tail_page_id e).
(** Only time has passed. *)
Definition later (s s' : kds_state) : Prop := exists n, (tick s <= n)%nat /\ s' = set_tick n s.
Lemma later_refl s : later s s.
Proof. exists (tick s). split; [done|]. by destruct s. Qed.
Lemma later_trans s1 s2 s3 : later s1 s2 -> later s2 s3 -> later s1 s3.
Proof. intros (n & Hn & ->) (m & Hm & ->). exists m. cbn in Hm. split; [lia|done]. Qed.
Lemma later_tick s : later s (set_tick (S (tick s)) s).
Proof. eexists. split; [|done]. lia. Qed.
(** The clock was read between [s] and [s'], and showed the deadline. *)
Definition overran `{K : Kernel} (s s' : kds_state) (x : kds_heap_insert_exec) : Prop :=
  exists n, (tick s <= n < tick s')%nat /\ deadline_ns (hx_base x) <= k_ns n.
Lemma overran_here `{K : Kernel} s x : (deadline_ns (hx_base x) <=? k_ns (tick s)) = true -> overran s (set_tick (S (tick s)) s) x.
Proof. intros H%Z.leb_le. exists (tick s). split; [cbn; lia|done]. Qed.
Lemma overran_later `{K : Kernel} s s1 s' x x1 :
  later s s1 -> deadline_ns (hx_base x1) = deadline_ns (hx_base x) -> overran s1 s' x1 -> overran s s' x.
Proof. intros (m & Hm & ->) Hx (n & Hn & Hd). exists n. cbn in Hn. split; [lia|congruence]. Qed.
#[local] Hint Resolve later_refl later_tick later_trans : core.

Section Scan.
Context `{K : Kernel} {TS : TupleStore}.

Lemma on_kds_at {A} (m : M kds_state A) pl s e a pl' s' :
  m (wp pl s) = Ret a (wp pl' s') -> on_kds m (at_pool pl s e) = Ret a (at_pool pl' s' e).
Proof. intros H. unfold on_kds. cbn [kds at_pool]. by rewrite H. Qed.
Lemma expired_at b pl s e :
  kds_exec_slice_expired b (at_pool pl s e) = Ret (deadline_ns b <=? k_ns (tick s)) (at_pool pl (set_tick (S (tick s)) s) e).
Proof. reflexivity. Qed.

Lemma pk_of_read t rest : zlen (ht_data t) = data_len (ht_hdr t) -> 
  pk_of (Some t) = if data_len (ht_hdr t) <? 8 then None else Some (row_pk (ht_data t ++ rest)).
Proof.
  intros Hl. cbn. destruct (Z.ltb_spec (data_len (ht_hdr t)) 8); [done|]. unfold row_pk. rewrite take_app_le; [done|]. unfold zlen in Hl. lia.
Qed.
Lemma scan_slots_spec id fid pl s k p pk :
  pool_wf pl -> buf_map pl !! id = Some fid -> cached pl id = Some (k, p) -> heap_wf p ->
  forall n i, (i + n = length (heap_view p))%nat ->
  scan_slots_for_pk fid pk (map Z.of_nat (seq i n)) (wp pl s) = Ret (scan_model pk (drop i (heap_view p))) (wp pl s).
Proof.
  intros Hwf Hm Hc Hp. pose proof (p_meta_ok p (wf_bytes _ Hp)) as (Hn & _). pose proof (zlen_heap_view p Hp) as Hz. unfold zlen in Hz.
  induction n as [|n IH]; intros i Hi; [by rewrite drop_ge by lia|].
  destruct (lookup_lt_is_Some_2 (heap_view p) i) as [t Ht]; [lia|]. cbn [seq map scan_slots_for_pk].
  assert (Hiu : u16_ok (Z.of_nat i)) by (unfold u16_ok in *; lia).
  destruct (read_at id fid pl s k p (Z.of_nat i) KDS_EXEC_ROW_SCAN_BUF Hwf Hm Hc Hp Hiu ltac:(done)) as (o & E & Ho).
  erewrite bind_ok by exact E. rewrite Nat2Z.id, Ht in Ho. rewrite (drop_S _ _ _ Ht).
  destruct t as [t|]; cbn [scan_model]; [|subst o; cbn beta iota; apply IH; lia].
  destruct (KDS_EXEC_ROW_SCAN_BUF <? data_len (ht_hdr t)); [by subst o|]. destruct Ho as (rest & -> & _). cbn beta iota.
  pose proof (view_live p (Z.of_nat i) t Hp Hiu ltac:(by rewrite Nat2Z.id)) as (_ & _ & _ & _ & _ & Hl & _).
  rewrite (pk_of_read t rest Hl). destruct (data_len (ht_hdr t) <? 8); [rewrite bool_decide_false by done; apply IH; lia|].
  destruct (Z.eqb_spec (row_pk (ht_data t ++ rest)) pk); [by rewrite bool_decide_true by congruence|].
  rewrite bool_decide_false by congruence. apply IH. lia.
Qed.
Lemma scan_page_pk_spec pl s id v free next pk :
  pool_wf pl -> heap_page pl id v free next ->
  kds_heap_scan_page_for_pk id pk (wp pl s) =
    Ret (scan_model pk v, if 0 <=? scan_model pk v then next else 0) (wp pl s).
Proof.
  intros Hwf (k & p & Hc & Hp & Hv & Hf & Hn). unfold kds_heap_scan_page_for_pk.
  destruct (open_page id pl s k p Hwf Hc) as (fid & pl1 & Hm1 & E1 & Hwf1 & Hc1 & _ & Hu1 & _).
  erewrite bind_ok by exact E1. cbn beta iota. erewrite bind_ok by (by eapply nr_slots_at).
  unfold all_slots, zlen. rewrite Nat2Z.id. erewrite bind_ok by (by eapply scan_slots_spec). rewrite drop_0, Hv.
  destruct (0 <=? scan_model pk v).
  - erewrite bind_ok by (by eapply next_at). erewrite bind_ok by exact Hu1. by rewrite Hn.
  - erewrite (bind_ok (ret 0)) by reflexivity. by erewrite bind_ok by exact Hu1.
Qed.

(** ** The duplicate scan over a chain *)
Definition same_job (x x' : kds_heap_insert_exec) : Prop :=
  hx_rel x' = hx_rel x /\ hx_data x' = hx_data x /\ hx_len x' = hx_len x /\ hx_xid x' = hx_xid x /\ new_pk x' = new_pk x /\
  deadline_ns (hx_base x') = deadline_ns (hx_base x) /\ hx_phase x' = hx_phase x.
Lemma same_job_refl x : same_job x x.
Proof. done. Qed.
Lemma same_job_trans x y z : same_job x y -> same_job y z -> same_job x z.
Proof. intros (?&?&?&?&?&?&?) (?&?&?&?&?&?&?). split_and!; congruence. Qed.

(** The first error or hit along the chain, 0 if there is none. *)
Fixpoint chain_scan (pk : Z) (l : list hpage) : Z :=
  match l with
  | [] => 0
  | g :: l => if scan_model pk (pg_view g) =? 0 then chain_scan pk l else scan_model pk (pg_view g)
  end.
Lemma chain_scan_app pk l1 l2 : chain_scan pk (l1 ++ l2) = if chain_scan pk l1 =? 0 then chain_scan pk l2 else chain_scan pk l1.
Proof. induction l1 as [|g l1 IH]; cbn; [done|]. destruct (Z.eqb_spec (scan_model pk (pg_view g)) 0) as [E|E]; [done|]. by apply Z.eqb_neq in E as ->. Qed.
Lemma chain_scan_short pk l : short_rows l -> chain_scan pk l = if decide (pk ∈ pks l) then 1 else 0.
Proof.
  induction 1 as [|g l Hg Hl IH]; cbn [chain_scan]; [by rewrite decide_False by apply not_elem_of_nil|].
  rewrite (scan_model_short _ _ Hg). unfold pks; cbn [mbind list_bind]. destruct (decide (pk ∈ omap pk_of (pg_view g))) as [H|H].
  - cbn. by rewrite decide_True by (rewrite elem_of_app; auto).
  - cbn. rewrite IH. apply decide_ext. rewrite elem_of_app. unfold pks. naive_solver.
Qed.

Definition scan_outcome (pl : kds_buf_pool) (l : list hpage) (x x' : kds_heap_insert_exec) (r : kds_exec_result) : Prop :=
  let n := chain_scan (new_pk x) l in
  match r with
  | KDS_EXEC_DONE => n = 0
  | KDS_EXEC_ERROR => n <> 0 /\ ex_ret (hx_base x') = if n =? 1 then - EEXIST else n
  | KDS_EXEC_CONTINUE => exists l1 l2, l = l1 ++ l2 /\ l1 <> [] /\ l2 <> [] /\
      chain_at pl (hx_cursor x') l2 /\ chain_scan (new_pk x) l1 = 0
  end.
(** A page without the key and without unreadable rows is passed over. *)
Lemma scan_outcome_cons pl g l x x1 x' r :
  scan_model (new_pk x) (pg_view g) = 0 -> new_pk x1 = new_pk x -> scan_outcome pl l x1 x' r -> scan_outcome pl (g :: l) x x' r.
Proof.
  unfold scan_outcome. intros Hg Hx. cbn [chain_scan]. rewrite Hg, Hx. destruct r; [done|done|].
  intros (l1 & l2 & -> & _ & Hne & Hl2 & Hz). exists (g :: l1), l2. split_and!; try done. cbn. by rewrite Hg.
Qed.
Lemma dup_scan_spec pl e : pool_wf pl -> forall l s x chain, chain_at pl (hx_cursor x) l -> (length l <= chain)%nat ->
  exists r x' s', heap_insert_run_dup_scan chain x (at_pool pl s e) = Ret (r, x') (at_pool pl s' e) /\ later s s' /\ same_job x x' /\
    (r = KDS_EXEC_CONTINUE -> overran s s' x) /\ scan_outcome pl l x x' r.
Proof.
  intros Hwf. induction l as [|g l IH]; intros s x chain Hl Hfuel.
  - cbn in Hl. destruct chain; cbn [heap_insert_run_dup_scan]; rewrite Hl; exists KDS_EXEC_DONE, x, s; split_and!; done || auto.
  - destruct Hl as (Hne & Hid & next & Hp & Hl). destruct chain as [|chain]; [cbn in Hfuel; lia|]. cbn [heap_insert_run_dup_scan].
    apply Z.eqb_neq in Hne as ->. erewrite bind_ok by (apply on_kds_at; by eapply scan_page_pk_spec). cbn beta iota.
    destruct (scan_model_cases (new_pk x) (pg_view g)) as [Hr|Hr].
    2: { unfold scan_outcome. cbn [chain_scan]. destruct Hr as [Hr|Hr]; rewrite Hr; eexists KDS_EXEC_ERROR, _, s; (split; [reflexivity|]); split_and!; done || auto. }
    rewrite Hr. cbn [Z.ltb Z.eqb Z.leb Z.compare]. set (x1 := set_hx_cursor next (hx_unit x)).
    assert (Hgo : forall s1, later s s1 -> exists r x' s', heap_insert_run_dup_scan chain x1 (at_pool pl s1 e) = Ret (r, x') (at_pool pl s' e) /\
      later s s' /\ same_job x x' /\ (r = KDS_EXEC_CONTINUE -> overran s s' x) /\ scan_outcome pl (g :: l) x x' r).
    { intros s1 Hs1. destruct (IH s1 x1 chain Hl ltac:(cbn in Hfuel; lia)) as (r & x' & s' & E & Hs' & Hj' & Hov & Hr').
      exists r, x', s'. split_and!; [done|eauto|by eapply (same_job_trans _ x1)| |by eapply scan_outcome_cons].
      intros Hc. by apply (overran_later s s1 s' x x1), Hov. }
    destruct (negb (hx_cursor x1 =? 0)) eqn:Hz; [|erewrite (bind_ok (ret false)) by reflexivity; by apply Hgo].
    erewrite bind_ok by apply expired_at. destruct (deadline_ns _ <=? _) eqn:Hexp; [|by apply Hgo].
    exists KDS_EXEC_CONTINUE, x1, (set_tick (S (tick s)) s). split; [done|]. split; [auto|]. split; [done|].
    split; [intros _; by apply overran_here|]. exists [g], l. split_and!; try done.
    + intros ->. cbn in Hl. subst next. done.
    + cbn. by rewrite Hr.
Qed.
End Scan.

(** ** What the search for room computes *)
Section Model.
Context (xid : Z) (d : bytes).
Definition new_tuple : option htuple := Some (HTuple (TupleHdr xid 0 0 (zlen d) 0 0) d (zlen d)).
Definition room (g : hpage) : bool := 33 + zlen d <=? pg_free g.
Definition add_row (g : hpage) : hpage := HPage (pg_id g) (pg_view g ++ [new_tuple]) (pg_free g - (33 + zlen d)).
(** The row goes to the first page with room, or to a fresh page [o] at the
    end of the chain; [None]: there is neither. *)
Fixpoint insert_model (o : option Z) (l : list hpage) : option (list hpage) :=
  match l with
  | [] => (fun id => [add_row (HPage id [] 8135)]) <$> o
  | g :: l => if room g then Some (add_row g :: l) else cons g <$> insert_model o l
  end.
Definition full (g : hpage) : Prop := room g = false.
(** The row can be found under its tuple id. *)
Definition row_at (l : list hpage) (t : kds_heap_tid) : Prop :=
  0 <= tid_slot t /\ exists g, g ∈ l /\ pg_id g = tid_page_id t /\ pg_view g !! Z.to_nat (tid_slot t) = Some new_tuple.

Lemma insert_model_full o l1 l2 : Forall full l1 -> insert_model o (l1 ++ l2) = app l1 <$> insert_model o l2.
Proof.
  induction 1 as [|g l1 Hg Hl IH]; cbn; [by destruct (insert_model o l2)|]. rewrite Hg, IH. by destruct (insert_model o l2).
Qed.
Lemma pks_app l1 l2 : pks (l1 ++ l2) = pks l1 ++ pks l2.
Proof. apply bind_app. Qed.
Lemma insert_model_pks o l l' : 8 <= zlen d -> insert_model o l = Some l' -> pks l' ≡ₚ (row_pk d :: pks l).
Proof.
  intros Hd. assert (Hadd : forall g, pks [add_row g] ≡ₚ (row_pk d :: pks [g])).
  { intros g. unfold pks; cbn. rewrite !app_nil_r. rewrite omap_app. cbn. destruct (Z.ltb_spec (zlen d) 8); [lia|].
    by rewrite Permutation_app_comm. }
  revert l'. induction l as [|g l IH]; intros l'; cbn [insert_model].
  - destruct o as [id|]; [|done]. cbn. intros [= <-]. by rewrite Hadd.
  - destruct (room g).
    + intros [= <-]. change (add_row g :: l) with ([add_row g] ++ l). change (g :: l) with ([g] ++ l). by rewrite !pks_app, Hadd.
    + destruct (insert_model o l) as [l1|]; [|done]. intros [= <-]. change (g :: l1) with ([g] ++ l1). change (g :: l) with ([g] ++ l).
      rewrite !pks_app, (IH l1) by done. by rewrite Permutation_middle.
Qed.
End Model.

(** ** Chains and changes elsewhere *)
Lemma heap_page_cached pl pl' id v free next : cached pl' id = cached pl id -> heap_page pl id v free next -> heap_page pl' id v free next.
Proof. intros H (k & p & Hc & Hp). exists k, p. by rewrite H. Qed.
Lemma chain_cached pl pl' l : (forall id, id ∈ ids l -> cached pl' id = cached pl id) -> forall id, chain_at pl id l -> chain_at pl' id l.
Proof.
  induction l as [|g l IH]; intros H id; [done|]. intros (Hne & Hid & next & Hp & Hl). split; [done|]. split; [done|].
  exists next. split; [eapply heap_page_cached; [|done]; apply H; subst id; left|]. apply IH; [|done]. intros id' Hin. apply H. by right.
Qed.
(** The next page of the ring, if any; the pages it is needed for do not
    include it. *)
Definition fresh_page `{K : Kernel} (s : kds_state) (pl : kds_buf_pool) (o : option Z) : Prop :=
  match o with
  | None => alloc_state (wp pl s) pl []
  | Some id => id <> 0 /\ exists fid q k p, staged_root (wp pl s) pl fid q id k p
  end.
Lemma fresh_page_later `{K : Kernel} s s' pl o : later s s' -> fresh_page s pl o -> fresh_page s' pl o.
Proof.
  intros (n & _ & ->). destruct o as [id|]; cbn.
  - intros (Hne & fid & q & k & p & [[H1 H2 H3] H4 H5 H6 H7 H8]). split; [done|]. exists fid, q, k, p. by split.
  - intros [H1 H2 H3]. by split.
Qed.
Lemma fresh_page_other `{K : Kernel} s id pl pl1 o :
  only_page id pl pl1 -> pool_wf pl1 -> o <> Some id -> fresh_page s pl o -> fresh_page s pl1 o.
Proof.
  intros [Hm Hf Ho] Hwf Hne. destruct o as [id'|]; cbn.
  - intros (Hnz & fid & q & k & p & [[H1 H2 H3] H4 H5 H6 H7 H8]). split; [done|]. exists fid, q, k, p.
    split; [by split|by rewrite Hm|rewrite Ho by congruence; done|done..].
  - intros [H1 H2 H3]. by split.
Qed.

Section Tail.
Context `{K : Kernel} {TS : TupleStore} (xid : Z) (d : bytes).
Context (Hd : bytes_ok d) (Hlen : 8 <= zlen d <= 8102) (Hxid : u64_ok xid).
Definition job (x : kds_heap_insert_exec) : Prop := hx_data x = Some d /\ hx_len x = zlen d /\ hx_xid x = xid.

Lemma set_next_put id fid pl s k p next :
  pool_wf pl -> buf_map pl !! id = Some fid -> cached pl id = Some (k, p) -> heap_wf p -> u64_ok next ->
  exists q, on_frame fid (heap_set_next_page_id next) (wp pl s) = Ret 0 (wp (put id (dirty k) q pl) s) /\
    heap_wf q /\ heap_view q = heap_view p /\ p_next q = next /\ p_free q = p_free p.
Proof.
  intros Hwf Hm Hc Hp Hn. destruct (frame_put id fid (heap_set_next_page_id next) pl s k p 0
    (fun k' q => k' = dirty k /\ heap_wf q /\ heap_view q = heap_view p /\ p_next q = next /\ p_free q = p_free p) Hwf Hm Hc)
    as (k' & q & E & -> & HQ); [|by exists q].
  intros f Hf. destruct (ts_set_next f k p next Hf Hp Hn) as (q & E & HQ). eexists _, q. split; [exact E|]. done.
Qed.

(** A page from the ring, initialised, with the row as its first tuple. *)
Lemma new_page_spec pl s rid rfid q rk rp :
  staged_root (wp pl s) pl rfid q rid rk rp ->
  exists a s1 s2 k3 q3, kds_page_alloc KDS_PAGE_TYPE_HEAP (wp pl s) = Ret (Some rfid) (wp s1 (set_g_alloc (Some a) s)) /\
    on_frame rfid heap_init_page (wp s1 (set_g_alloc (Some a) s)) = Ret tt (wp s2 (set_g_alloc (Some a) s)) /\
    on_frame rfid (heap_insert_tuple (Some d) (zlen d) xid) (wp s2 (set_g_alloc (Some a) s)) =
      Ret (0, Some (Tid rid 0)) (wp (put rid k3 q3 pl) (set_g_alloc (Some a) s)) /\
    page_fits rid k3 q3 /\ heap_wf q3 /\ heap_view q3 = [new_tuple xid d] /\ p_free q3 = 8135 - (33 + zlen d) /\ p_next q3 = 0.
Proof.
  intros Hst. pose proof Hst as [Hs Hrm Hrc _ _ _]. pose proof (as_wf _ _ _ Hs) as Hwf.
  destruct (staged_alloc KDS_PAGE_TYPE_HEAP _ _ _ _ _ _ _ Hst) as (a & E1 & _). exists a. set (s1 := set_g_alloc (Some a) s).
  destruct (staged_init heap_init_page KDS_PAGE_TYPE_HEAP (fun k' q' => page_fits rid k' q' /\ root_ready KDS_CLUSTERED_HEAP k' q')
    s1 _ _ _ _ _ _ _ Hst) as (k1 & p1 & E2 & Hfit & Hp1 & Hv1 & Hf1 & Hn1); [by intros f; eapply staged_heap_init|].
  destruct (put_spec pl Hwf rid rk rp k1 p1 Hrc Hfit) as (Hwf2 & Ho2 & Hc2).
  pose proof (insert_put rid rfid (put rid k1 p1 pl) s1 k1 p1 d xid Hwf2 ltac:(by rewrite buf_map_put) Hc2 Hp1 Hd) as H.
  cbn zeta in H. rewrite Hf1 in H. unfold KDS_PAGE_SIZE in H. specialize (H ltac:(lia) Hxid).
  destruct (Z.ltb_spec 8135 (33 + zlen d)); [lia|]. destruct H as (q3 & E3 & Hq3 & Hv3 & Hf3 & Hn3).
  rewrite put_put, Hv1, (proj1 Hfit) in E3. eexists _, _, (dirty k1), q3. split; [exact E1|]. split; [exact E2|]. split; [exact E3|].
  split_and!; [eauto with kds|done|by rewrite Hv3, Hv1|done|by rewrite Hn3, Hn1].
Qed.
(** A new page at the end of the chain. *)
Lemma grow_chain_spec x id fid pl s e k p rid rfid q rk rp :
  job x -> pool_wf pl -> buf_map pl !! id = Some fid -> cached pl id = Some (k, p) -> heap_wf p -> rid <> id ->
  staged_root (wp pl s) pl rfid q rid rk rp ->
  exists x' pl' s', grow_chain fid x (at_pool pl s e) = Ret (KDS_EXEC_DONE, x') (at_pool pl' s' e) /\ same_job x x' /\
    pool_wf pl' /\ (forall id', id' <> id -> id' <> rid -> cached pl' id' = cached pl id') /\
    heap_page pl' id (heap_view p) (p_free p) rid /\ heap_page pl' rid [new_tuple xid d] (8135 - (33 + zlen d)) 0 /\
    hx_tid x' = Tid rid 0 /\ wal_target_page_id x' = rid /\ wal_need_init_page x' = true.
Proof.
  intros (Hj1 & Hj2 & Hj3) Hwf Hm Hc Hp Hne Hst. pose proof Hst as [Hs Hrm Hrc _ _ Hru]. unfold grow_chain.
  destruct (new_page_spec pl s rid rfid q rk rp Hst) as (a & s1 & s2 & k3 & q3 & E1 & E2 & E3 & Hfit & Hq3 & Hv3 & Hf3 & Hn3).
  erewrite bind_ok by (apply on_kds_at; exact E1). cbn beta iota. erewrite bind_ok by (apply on_kds_at; exact E2).
  rewrite Hj1, Hj2, Hj3. erewrite bind_ok by (apply on_kds_at; exact E3). clear E1 E2 E3 s1 s2. cbn beta iota. cbn [Z.eqb negb].
  set (s1 := set_g_alloc (Some a) s). destruct (put_spec pl Hwf rid rk rp k3 q3 Hrc Hfit) as (Hwf3 & Ho3 & Hc3).
  assert (Hm3 : buf_map (put rid k3 q3 pl) = buf_map pl) by apply buf_map_put. set (pl3 := put rid k3 q3 pl) in *.
  erewrite bind_ok by (apply on_kds_at; rewrite (kp_at rid rfid pl3 s1 k3 q3) by (by rewrite ?Hm3); by rewrite (proj1 Hfit)).
  assert (Hc3' : cached pl3 id = Some (k, p)) by (rewrite (op_rest _ _ _ Ho3) by done; done).
  destruct (set_next_put id fid pl3 s1 k p rid Hwf3 ltac:(by rewrite Hm3) Hc3' Hp Hru) as (q4 & E4 & Hq4 & Hv4 & Hn4 & Hf4).
  erewrite bind_ok by (apply on_kds_at; exact E4). clear E4. pose proof (cached_fits pl3 Hwf3 id k p Hc3') as Hfid.
  destruct (put_spec pl3 Hwf3 id k p (dirty k) q4 Hc3') as (Hwf4 & _ & Hc4); [eauto with kds|].
  erewrite bind_ok by (apply on_kds_at; apply (unpin_put id fid _ s1 (dirty k) q4 Hwf4); [by rewrite buf_map_put, Hm3|done]).
  rewrite put_put. destruct (put_spec pl3 Hwf3 id k p (unpinned (dirty k)) q4 Hc3') as (Hwf5 & Ho5 & Hc5); [rewrite unpinned_dirty; eauto with kds|].
  assert (Hm5 : buf_map (put id (unpinned (dirty k)) q4 pl3) = buf_map pl) by (by rewrite buf_map_put).
  set (pl5 := put id (unpinned (dirty k)) q4 pl3) in *. cbn [Z.eqb negb].
  assert (Hc5r : cached pl5 rid = Some (k3, q3)) by (rewrite (op_rest _ _ _ Ho5) by done; done).
  erewrite bind_ok by (apply on_kds_at; rewrite (kp_at rid rfid pl5 s1 k3 q3) by (by rewrite ?Hm5); by rewrite (proj1 Hfit)).
  erewrite bind_ok by (apply on_kds_at; apply (unpin_put rid rfid _ s1 k3 q3 Hwf5); [by rewrite Hm5|done]).
  destruct (put_spec pl5 Hwf5 rid k3 q3 (unpinned k3) q3 Hc5r) as (Hwf6 & Ho6 & Hc6); [exact Hfit|].
  eexists _, _, s1. split; [reflexivity|]. split; [done|]. split; [exact Hwf6|]. split_and!; try done.
  - intros id' Hne1 Hne2. by rewrite (op_rest _ _ _ Ho6), (op_rest _ _ _ Ho5), (op_rest _ _ _ Ho3).
  - exists (unpinned (dirty k)), q4. rewrite (op_rest _ _ _ Ho6) by done. done.
  - exists (unpinned k3), q3. done.
Qed.

Definition tail_outcome (o : option Z) (pl : kds_buf_pool) (l : list hpage) (x : kds_heap_insert_exec)
    (pl' : kds_buf_pool) (x' : kds_heap_insert_exec) (r : kds_exec_result) : Prop :=
  match r with
  | KDS_EXEC_DONE => exists l', insert_model xid d o l = Some l' /\ chain_at pl' (hx_cursor x) l' /\ pool_wf pl' /\
      (forall id, id ∉ ids l -> o <> Some id -> cached pl' id = cached pl id) /\
      row_at xid d l' (hx_tid x') /\ wal_target_page_id x' = tid_page_id (hx_tid x') /\
      (wal_need_init_page x' = true <-> length l' <> length l)
  | KDS_EXEC_ERROR => insert_model xid d o l = None /\ pl' = pl /\ ex_ret (hx_base x') = - ENOSPC
  | KDS_EXEC_CONTINUE => pl' = pl /\ exists l1 l2, l = l1 ++ l2 /\ l1 <> [] /\ l2 <> [] /\ Forall (full d) l1 /\ chain_at pl (hx_cursor x') l2
  end.
(** A full page is passed over. *)
Lemma tail_outcome_cons o pl g l x x1 pl' x' r id :
  full d g -> pg_id g ∉ ids l -> o <> Some (pg_id g) -> hx_cursor x = id -> id <> 0 -> pg_id g = id ->
  heap_page pl id (pg_view g) (pg_free g) (hx_cursor x1) ->
  tail_outcome o pl l x1 pl' x' r -> tail_outcome o pl (g :: l) x pl' x' r.
Proof.
  intros Hg Hni Ho Hx Hnz Hid Hp. unfold tail_outcome. destruct r; cbn [insert_model]; rewrite ?Hg.
  - intros (l' & -> & Hl' & Hwf & Hrest & (H0 & g' & Hin & Hrow) & Ht & Hw). exists (g :: l'). split; [done|]. rewrite Hx. split.
    { split; [done|]. split; [done|]. exists (hx_cursor x1). split; [|done]. eapply heap_page_cached; [|done]. rewrite <- Hid. by apply Hrest. }
    split; [done|]. split; [|split; [|split; [done|]]].
    + intros id' Hn. apply Hrest. intros H. apply Hn. by right.
    + split; [done|]. exists g'. split; [by right|done].
    + cbn. rewrite Hw. lia.
  - intros (-> & ?). done.
  - intros (-> & l1 & l2 & -> & _ & Hne & Hf & Hl2). split; [done|]. exists (g :: l1), l2. split_and!; try done. by constructor.
Qed.
(** The row fits into the page under the cursor. *)
Lemma fill_outcome o pl g l x q k p id next x' :
  pool_wf pl -> room d g = true -> pg_id g ∉ ids l -> hx_cursor x = id -> id <> 0 -> pg_id g = id -> cached pl id = Some (k, p) ->
  heap_wf q -> heap_view q = pg_view g ++ [new_tuple xid d] -> p_free q = pg_free g - (33 + zlen d) -> p_next q = next ->
  chain_at pl next l -> hx_tid x' = Tid id (zlen (pg_view g)) -> wal_target_page_id x' = id -> wal_need_init_page x' = false ->
  tail_outcome o pl (g :: l) x (put id (dirty k) q pl) x' KDS_EXEC_DONE.
Proof.
  intros Hwf Hg Hni Hx Hnz Hid Hc Hq Hv Hf Hn Hl Ht Hw Hi. cbn [tail_outcome insert_model]. rewrite Hg.
  destruct (put_spec pl Hwf id k p (dirty k) q Hc) as (Hwf2 & Ho2 & Hc2); [apply (cached_fits pl Hwf) in Hc; eauto with kds|].
  exists (add_row xid d g :: l). split; [done|]. rewrite Hx, Ht, Hw, Hi. split; [|split; [done|split; [|split; [|split; [done|]]]]].
  - split; [done|]. split; [done|]. exists next. split; [by exists (dirty k), q|].
    eapply chain_cached; [|done]. intros id' Hin. apply (op_rest _ _ _ Ho2). intros ->. by rewrite <- Hid in Hin.
  - intros id' Hn' _. apply (op_rest _ _ _ Ho2). intros ->. apply Hn'. rewrite <- Hid. left.
  - split; [apply zlen_nonneg|]. exists (add_row xid d g). split; [left|]. split; [done|]. cbn [tid_slot]. unfold zlen. rewrite Nat2Z.id. cbn. by rewrite lookup_app_r, Nat.sub_diag.
  - split; [done|]. cbn. lia.
Qed.
(** The chain ends in a full page. *)
Lemma grow_outcome o pl pl1 s e g x k p id fid :
  job x -> pool_wf pl -> full d g -> hx_cursor x = id -> id <> 0 -> pg_id g = id -> o <> Some id -> fresh_page s pl o ->
  cached pl id = Some (k, p) -> heap_wf p -> heap_view p = pg_view g -> p_free p = pg_free g ->
  buf_map pl1 !! id = Some fid -> pool_wf pl1 -> cached pl1 id = Some (pinned k, p) -> only_page id pl pl1 ->
  kds_buf_unpin fid (wp pl1 s) = Ret tt (wp pl s) ->
  exists r x' pl' s', grow_chain fid x (at_pool pl1 s e) = Ret (r, x') (at_pool pl' s' e) /\ same_job x x' /\
    r <> KDS_EXEC_CONTINUE /\ (r <> KDS_EXEC_DONE -> later s s') /\ tail_outcome o pl [g] x pl' x' r.
Proof.
  intros Hj Hwf Hg Hx Hnz Hid Ho Hfr Hc Hp Hv Hf Hm1 Hwf1 Hc1 Ho1 Hu. pose proof (fresh_page_other s id pl pl1 o Ho1 Hwf1 Ho Hfr) as Hfr1.
  destruct o as [rid|]; cbn in Hfr1.
  - destruct Hfr1 as (Hrz & rfid & q & rk & rp & Hst).
    destruct (grow_chain_spec x id fid pl1 s e (pinned k) p rid rfid q rk rp Hj Hwf1 Hm1 Hc1 Hp ltac:(congruence) Hst)
      as (x' & pl' & s' & E & Hsame & Hwf' & Hrest & Hp1 & Hp2 & Ht & Hw & Hi).
    exists KDS_EXEC_DONE, x', pl', s'. rewrite E. split_and!; try done. cbn [tail_outcome insert_model]. rewrite Hg.
    exists [g; add_row xid d (HPage rid [] 8135)]. split; [done|]. rewrite Hx, Ht, Hw, Hi. split; [|split; [done|split; [|split; [|split; [done|]]]]].
    + split; [done|]. split; [done|]. exists rid. rewrite Hv, Hf in Hp1. split; [done|]. split; [done|]. split; [done|]. exists 0. done.
    + intros id' Hn Hne. rewrite Hrest, (op_rest _ _ _ Ho1); try done; [..|congruence]; intros ->; apply Hn; rewrite <- Hid; left.
    + split; [done|]. exists (add_row xid d (HPage rid [] 8135)). split; [right; left|done].
    + split; [|done]. cbn. lia.
  - unfold grow_chain. erewrite bind_ok by (apply on_kds_at; exact (page_alloc_spec KDS_PAGE_TYPE_HEAP (wp pl1 s) pl1 [] Hfr1)). cbn beta iota.
    erewrite bind_ok by (apply on_kds_at; exact Hu). eexists KDS_EXEC_ERROR, _, pl, s. split; [reflexivity|]. split_and!; try done; auto.
    cbn [tail_outcome insert_model]. by rewrite Hg.
Qed.

Lemma find_tail_spec o pl e : pool_wf pl -> forall l s x chain, job x -> chain_at pl (hx_cursor x) l -> l <> [] -> NoDup (ids l) ->
  (forall id, o = Some id -> id ∉ ids l) -> fresh_page s pl o -> (length l <= chain)%nat ->
  exists r x' pl' s', heap_insert_run_find_tail chain x (at_pool pl s e) = Ret (r, x') (at_pool pl' s' e) /\ same_job x x' /\
    (r <> KDS_EXEC_DONE -> later s s') /\ (r = KDS_EXEC_CONTINUE -> overran s s' x) /\ tail_outcome o pl l x pl' x' r.
Proof.
  intros Hwf. induction l as [|g l IH]; intros s x chain Hj Hl Hne Hnd Hni Hfr Hfuel; [done|].
  destruct Hl as (Hnz & Hid & next & (k & p & Hc & Hp & Hv & Hf & Hn) & Hl). destruct chain as [|chain]; [cbn in Hfuel; lia|].
  apply NoDup_cons in Hnd as [Hg Hnd]. assert (Ho : o <> Some (pg_id g)) by (intros ->; eapply Hni; [done|left]).
  pose proof Hj as (Hj1 & Hj2 & Hj3). cbn [heap_insert_run_find_tail]. set (id := hx_cursor x) in *.
  destruct (open_page id pl s k p Hwf Hc) as (fid & pl1 & Hm1 & E1 & Hwf1 & Hc1 & Ho1 & Hu1 & Hu2).
  erewrite bind_ok by (apply on_kds_at; exact E1). cbn beta iota. rewrite Hj1, Hj2, Hj3.
  pose proof (insert_put id fid pl1 s (pinned k) p d xid Hwf1 Hm1 Hc1 Hp Hd) as H. cbn zeta in H. unfold KDS_PAGE_SIZE in H.
  specialize (H ltac:(lia) Hxid). rewrite Hf in H. destruct (Z.ltb_spec (pg_free g) (33 + zlen d)) as [Hfull|Hroom].
  - erewrite bind_ok by (apply on_kds_at; exact H). cbn beta iota. change (- ENOSPC =? 0) with false. change (- ENOSPC =? - ENOSPC) with true. cbn [negb]. cbn iota.
    erewrite bind_ok by (apply on_kds_at; by eapply next_at). rewrite Hn. assert (Hgf : full d g) by (apply Z.leb_gt; lia).
    destruct (Z.eqb_spec next 0) as [->|Hnn]; cbn [negb].
    + destruct l as [|g' l]; [|by destruct Hl].
      destruct (grow_outcome o pl pl1 s e g (set_hx_tid None x) k p id fid) as (r & x' & pl' & s' & E & Hs & Hnc & Hla & Hout); try done; [congruence|].
      by exists r, x', pl', s'.
    + erewrite bind_ok by (apply on_kds_at; exact Hu1). set (x1 := set_hx_cursor next (hx_unit (set_hx_tid None x))).
      assert (Hlne : l <> []) by (intros ->; by cbn in Hl). erewrite bind_ok by apply expired_at.
      assert (Hp' : heap_page pl id (pg_view g) (pg_free g) (hx_cursor x1)) by (by exists k, p).
      destruct (deadline_ns _ <=? _) eqn:Hexp.
      * exists KDS_EXEC_CONTINUE, x1, pl, (set_tick (S (tick s)) s). split; [done|]. split; [done|]. split; [auto|].
        split; [intros _; by apply overran_here|]. split; [done|]. exists [g], l. split_and!; try done. by constructor.
      * destruct (IH (set_tick (S (tick s)) s) x1 chain) as (r & x' & pl' & s' & E & Hs & Hla & Hov & Hout); try done;
          [intros id' -> Hin; eapply Hni; [done|by right]|eapply fresh_page_later; [apply later_tick|done]|cbn in Hfuel; lia|].
        exists r, x', pl', s'. split; [done|]. split; [by eapply (same_job_trans _ x1)|]. split; [eauto|].
        split; [intros Hcon; by apply (overran_later s (set_tick (S (tick s)) s) s' x x1), Hov|]. by apply (tail_outcome_cons o pl g l x x1 pl' x' r id).
  - destruct H as (q & E & Hq & Hqv & Hqf & Hqn). erewrite bind_ok by (apply on_kds_at; exact E). cbn beta iota. cbn [Z.eqb].
    destruct (put_spec pl1 Hwf1 id (pinned k) p (dirty (pinned k)) q Hc1) as (Hwf2 & _ & Hc2); [apply (cached_fits pl1 Hwf1) in Hc1; eauto with kds|].
    erewrite bind_ok by (apply on_kds_at; eapply (kp_at id fid _ s _ q kp_id Hwf2); [by rewrite buf_map_put|done]).
    erewrite bind_ok by (apply on_kds_at; by apply Hu2). assert (Hkid : kp_id k = id) by (by apply (cached_fits pl Hwf) in Hc as [? _]).
    eexists KDS_EXEC_DONE, _, _, s. split; [reflexivity|]. split; [done|]. split; [done|]. split; [done|].
    eapply (fill_outcome o pl g l x q k p id next); try done; [by apply Z.leb_le|by rewrite Hqv, Hv|by rewrite Hqn|].
    cbn. by rewrite Hkid, Hv.
Qed.
End Tail.

(** ** The whole executor *)
(** Replacing the end of a chain. *)
Lemma chain_splice pl pl' c l2 l2' : l2 <> [] -> chain_at pl c l2 -> chain_at pl' c l2' -> forall l1 id, chain_at pl id (l1 ++ l2) ->
  (forall id', id' ∈ ids l1 -> cached pl' id' = cached pl id') -> chain_at pl' id (l1 ++ l2').
Proof.
  intros Hne Hc Hc'. induction l1 as [|g l1 IH]; intros id Hl Hsame.
  - destruct l2 as [|g l2]; [done|]. destruct Hl as (_ & <- & _), Hc as (_ & <- & _). exact Hc'.
  - destruct Hl as (Hnz & Hid & next & Hp & Hl). split; [done|]. split; [done|]. exists next. split.
    + eapply heap_page_cached; [|done]. apply Hsame. rewrite <- Hid. left.
    + apply IH; [done|]. intros id' Hin. apply Hsame. by right.
Qed.

Section Run.
Context `{K : Kernel} {TS : TupleStore} (xid : Z) (d : bytes) (rel : kds_relation).
Context (Hd : bytes_ok d) (Hlen : 8 <= zlen d <= 8102) (Hxid : u64_ok xid).
Abbreviation pk := (row_pk d).

(** Where an executor can be between two calls, for a table with pages [l]:
    scanning, with the pages before the cursor free of the key, or looking
    for room, with the pages before the cursor full. *)
Definition owns (x : kds_heap_insert_exec) : Prop := job xid d x /\ hx_rel x = Some rel /\ new_pk x = pk.
Definition scanning (pl : kds_buf_pool) (l : list hpage) (x : kds_heap_insert_exec) : Prop :=
  owns x /\ hx_phase x = KDS_HEAP_INSERT_PHASE_DUP_SCAN /\
  exists l1 l2, l = l1 ++ l2 /\ chain_at pl (hx_cursor x) l2 /\ chain_scan pk l1 = 0.
Definition looking (pl : kds_buf_pool) (l : list hpage) (x : kds_heap_insert_exec) : Prop :=
  owns x /\ hx_phase x = KDS_HEAP_INSERT_PHASE_FIND_TAIL /\
  exists l1 l2, l = l1 ++ l2 /\ l2 <> [] /\ chain_at pl (hx_cursor x) l2 /\ Forall (full d) l1.
Definition paused (pl : kds_buf_pool) (l : list hpage) (x : kds_heap_insert_exec) : Prop :=
  scanning pl l x \/ (chain_scan pk l = 0 /\ looking pl l x).
(** The table, and the ring it can grow from. *)
Record table_at (s : kds_state) (pl : kds_buf_pool) (o : option Z) (l : list hpage) : Prop := {
  ta_kind : rel_kind rel = clustered_val KDS_CLUSTERED_HEAP;
  ta_wf : pool_wf pl;
  ta_chain : chain_at pl (root_page_id rel) l;
  ta_some : l <> [];
  ta_nodup : NoDup (ids l);
  ta_fresh : fresh_page s pl o;
  ta_apart : forall id, o = Some id -> id ∉ ids l }.
Lemma table_later s s' pl o l : later s s' -> table_at s pl o l -> table_at s' pl o l.
Proof. intros Hs [H1 H2 H3 H4 H5 H6 H7]. split; try done. by eapply fresh_page_later. Qed.

(** The row is in the table. *)
Definition inserted (o : option Z) (pl : kds_buf_pool) (l : list hpage) (pl' : kds_buf_pool) (x' : kds_heap_insert_exec) : Prop :=
  exists l', insert_model xid d o l = Some l' /\ chain_at pl' (root_page_id rel) l' /\ pool_wf pl' /\
    (forall id, id ∉ ids l -> o <> Some id -> cached pl' id = cached pl id) /\ row_at xid d l' (hx_tid x').
Definition look_outcome (o : option Z) (s : kds_state) (pl : kds_buf_pool) (l : list hpage)
    (s' : kds_state) (pl' : kds_buf_pool) (x' : kds_heap_insert_exec) (r : kds_exec_result) : Prop :=
  match r with
  | KDS_EXEC_CONTINUE => pl' = pl /\ later s s' /\ looking pl l x'
  | KDS_EXEC_ERROR => pl' = pl /\ later s s' /\ insert_model xid d o l = None /\ ex_ret (hx_base x') = - ENOSPC
  | KDS_EXEC_DONE => inserted o pl l pl' x' /\ hx_phase x' = KDS_HEAP_INSERT_PHASE_DONE
  end.

Lemma wal_append_total h b e : exists r e', kds_wal_append h b e = Ret r e' /\ kds e' = kds e.
Proof. unfold kds_wal_append. repeat case_match; eauto. Qed.
Lemma at_pool_kds pl s e : kds e = wp pl s -> e = at_pool pl s e.
Proof. intros H. unfold at_pool. rewrite <- H. by destruct e. Qed.
Lemma log_row_total id off pl s e : exists e',
  log_row xid id off (zlen d) (Some d) (at_pool pl s e) = Ret tt (at_pool pl (set_tick (S (tick s)) s) e').
Proof.
  unfold log_row. rewrite Z.leb_refl.
  set (s1 := set_tick (S (tick s)) s). assert (E : on_kds alloc_ok (at_pool pl s e) = Ret (k_alloc (tick s)) (at_pool pl s1 e)) by done.
  erewrite bind_ok by exact E. destruct (k_alloc (tick s)); cbn [negb]; [|by exists e].
  destruct (wal_append_total (new_rec xid KDS_WAL_REC_INSERT (16 + zlen d))
    (Some (page_mod_body id off (zlen d) ++ sub d 0 (zlen d))) (at_pool pl s1 e)) as (r & e' & E' & Hk).
  exists e'. erewrite bind_ok by exact E'. unfold ret. by rewrite <- (at_pool_kds pl s1 e').
Qed.
(** From here on only the log is written, and nothing can fail. *)
Lemma wal_insert_total x pl s e : job xid d x -> exists s' e',
  run_from_wal_insert x (at_pool pl s e) = Ret (KDS_EXEC_DONE, set_hx_phase KDS_HEAP_INSERT_PHASE_DONE x) (at_pool pl s' e').
Proof.
  intros (Hj1 & Hj2 & Hj3). unfold run_from_wal_insert, heap_insert_run_wal_insert. rewrite Hj1, Hj2, Hj3.
  destruct (log_row_total (wal_target_page_id x) (wal_target_offset x) pl s e) as (e' & E). eexists _, e'. by erewrite bind_ok by exact E.
Qed.
Lemma wal_init_total x pl s e : job xid d x -> exists s' e',
  run_from_wal_init x (at_pool pl s e) =
    Ret (KDS_EXEC_DONE, set_hx_phase KDS_HEAP_INSERT_PHASE_DONE (set_hx_phase KDS_HEAP_INSERT_PHASE_WAL_INSERT x)) (at_pool pl s' e').
Proof.
  intros Hj. unfold run_from_wal_init, heap_insert_run_wal_init_page.
  destruct (wal_append_total (new_rec (hx_xid x) KDS_WAL_REC_INIT_PAGE 12) (Some (init_page_body (wal_target_page_id x) KDS_PAGE_TYPE_HEAP)) (at_pool pl s e))
    as (r & e' & E' & Hk). rewrite (at_pool_kds pl s e' Hk) in E'.
  destruct (wal_insert_total (set_hx_phase KDS_HEAP_INSERT_PHASE_WAL_INSERT x) pl s e' Hj) as (s' & e2 & E2).
  exists s', e2. erewrite bind_ok; [exact E2|]. by erewrite bind_ok by exact E'.
Qed.

Lemma looking_run o s pl l x e chain :
  table_at s pl o l -> looking pl l x -> (length l <= chain)%nat ->
  exists r x' pl' s' e', run_from_find_tail chain x (at_pool pl s e) = Ret (r, x') (at_pool pl' s' e') /\
    (r = KDS_EXEC_CONTINUE -> overran s s' x) /\ look_outcome o s pl l s' pl' x' r.
Proof.
  intros [Hkind Hwf Hch Hne Hnd Hfr Hap] Hlook Hfuel. pose proof Hlook as ((Hj & Hrel & Hpk) & Hph & l1 & l2 & -> & Hne2 & Hl2 & Hfull).
  unfold run_from_find_tail. erewrite bind_ok by apply expired_at. set (s1 := set_tick (S (tick s)) s).
  destruct (deadline_ns _ <=? _) eqn:Hexp;
    [eexists KDS_EXEC_CONTINUE, x, pl, s1, e; split; [done|]; split; [intros _; by apply overran_here|]; split_and!; try done; subst s1; auto|].
  rewrite map_app in Hnd. apply NoDup_app in Hnd as (_ & Hd12 & Hnd).
  destruct (find_tail_spec xid d Hd Hlen Hxid o pl e Hwf l2 s1 x chain Hj Hl2 Hne2 Hnd) as (r & x' & pl' & s' & E & (Hs1 & Hs2 & Hs3 & Hs4 & Hs5 & _ & Hs7) & Hla & Hov & Hout).
  { intros id -> Hin. eapply (Hap id); [done|]. rewrite map_app, elem_of_app. auto. }
  { eapply fresh_page_later; [apply later_tick|done]. }
  { rewrite length_app in Hfuel. lia. }
  erewrite bind_ok by exact E. cbn beta iota. assert (Hj' : job xid d x') by (destruct Hj as (?&?&?); split_and!; congruence).
  assert (Hown : owns x') by (split_and!; congruence). assert (Hla' : r <> KDS_EXEC_DONE -> later s s') by eauto.
  destruct r; cbn [tail_outcome] in Hout.
  - destruct Hout as (l' & Hm & Hc' & Hwf' & Hrest & (H0 & g & Hg & Hrow) & _ & Hinit).
    assert (Hins : inserted o pl (l1 ++ l2) pl' x').
    { exists (l1 ++ l'). rewrite insert_model_full, Hm by done. split; [done|]. split; [|split; [done|]].
      - eapply chain_splice; [exact Hne2|done..|]. intros id' Hin. apply Hrest; [by apply Hd12|]. intros ->. eapply Hap; [done|].
        rewrite map_app, elem_of_app. auto.
      - split; [|split; [done|]; exists g; rewrite elem_of_app; auto]. intros id Hni. apply Hrest. intros Hin. apply Hni. rewrite map_app, elem_of_app. auto. }
    destruct (wal_need_init_page x').
    + destruct (wal_init_total (set_hx_phase KDS_HEAP_INSERT_PHASE_WAL_INIT_PAGE x') pl' s' e Hj') as (s2 & e2 & E2).
      rewrite E2. by eexists _, _, _, _, _.
    + destruct (wal_insert_total (set_hx_phase KDS_HEAP_INSERT_PHASE_WAL_INSERT x') pl' s' e Hj') as (s2 & e2 & E2).
      rewrite E2. by eexists _, _, _, _, _.
  - destruct Hout as (Hm & -> & Hr). eexists _, _, _, _, _. split; [reflexivity|]. split; [done|]. split_and!; try done; [by apply Hla'|].
    by rewrite insert_model_full, Hm.
  - destruct Hout as (-> & m1 & m2 & -> & Hm1 & Hm2 & Hfm & Hcm). eexists _, _, _, _, _. split; [reflexivity|].
    split; [intros Hcon; apply (overran_later s s1 s' x x), Hov; [subst s1; auto|done..]|].
    split; [done|]. split; [by apply Hla'|]. split; [done|]. split; [congruence|]. exists (l1 ++ m1), m2. split_and!; try done; [by rewrite app_assoc|by apply Forall_app].
Qed.

(** One call. *)
Definition run_outcome (o : option Z) (s : kds_state) (pl : kds_buf_pool) (l : list hpage)
    (s' : kds_state) (pl' : kds_buf_pool) (x' : kds_heap_insert_exec) (r : kds_exec_result) : Prop :=
  match r with
  | KDS_EXEC_CONTINUE => pl' = pl /\ later s s' /\ paused pl l x'
  | KDS_EXEC_ERROR => pl' = pl /\ later s s' /\
      let n := chain_scan pk l in
      if n =? 0 then insert_model xid d o l = None /\ ex_ret (hx_base x') = - ENOSPC
      else ex_ret (hx_base x') = if n =? 1 then - EEXIST else n
  | KDS_EXEC_DONE => chain_scan pk l = 0 /\ inserted o pl l pl' x'
  end.
Lemma look_run_outcome o s pl l s' pl' x' r s0 :
  chain_scan pk l = 0 -> later s0 s -> look_outcome o s pl l s' pl' x' r -> run_outcome o s0 pl l s' pl' x' r.
Proof.
  intros Hz Hs. destruct r; cbn [look_outcome run_outcome]; rewrite ?Hz.
  - by intros [? _].
  - intros (-> & Hs' & ?). split_and!; [done|eauto|..]. by cbn.
  - intros (-> & Hs' & ?). split_and!; [done|eauto|]. by right.
Qed.
Lemma heap_run_spec o s pl l x e chain :
  table_at s pl o l -> paused pl l x -> (length l <= chain)%nat ->
  exists r x' pl' s' e', kds_heap_insert_exec_run chain x (at_pool pl s e) = Ret (r, x') (at_pool pl' s' e') /\
    (r = KDS_EXEC_CONTINUE -> overran s s' x) /\ run_outcome o s pl l s' pl' x' r.
Proof.
  intros Ht Hpa Hfuel. assert (Hown : owns x) by (destruct Hpa as [[? _]|(_ & ? & _)]; done).
  destruct Hown as ((Hj1 & Hj2 & Hj3) & Hrel & Hpk). unfold kds_heap_insert_exec_run. rewrite Hrel, (ta_kind _ _ _ _ Ht), Z.eqb_refl.
  cbn [negb]. rewrite Hj2. destruct (Z.ltb_spec (zlen d) 8); [lia|].
  destruct Hpa as [(Hown & Hph & l1 & l2 & -> & Hl2 & Hz1)|(Hz & Hlook)].
  - rewrite Hph. unfold run_from_dup_scan. destruct (dup_scan_spec pl e (ta_wf _ _ _ _ Ht) l2 s x chain Hl2) as (r & x1 & s1 & E & Hs1 & (Hs2 & Hs3 & Hs4 & Hs5 & Hs6 & Hdl & Hs7) & Hov & Hout);
      [rewrite length_app in Hfuel; lia|].
    assert (Hown1 : owns x1) by (repeat split; congruence). erewrite bind_ok by exact E. cbn beta iota.
    unfold scan_outcome in Hout. rewrite Hpk in Hout. pose proof (chain_scan_app pk l1 l2) as Happ. rewrite Hz1, Z.eqb_refl in Happ.
    destruct r.
    + set (x2 := set_hx_cursor _ _). destruct (looking_run o s1 pl (l1 ++ l2) x2 e chain) as (r & x' & pl' & s' & e' & E' & Hov' & Hl'); [by eapply table_later| |done|].
      { split; [done|]. split; [done|]. exists [], (l1 ++ l2). split_and!; [done|apply Ht|apply Ht|constructor]. }
      exists r, x', pl', s', e'. split; [done|]. split; [intros Hcon; by apply (overran_later s s1 s' x x2), Hov'|].
      eapply look_run_outcome; [congruence|done|done].
    + destruct Hout as [Hnz Hr]. eexists _, _, _, _, _. split; [reflexivity|]. split; [done|]. cbn [run_outcome]. rewrite Happ. split_and!; try done.
      cbn zeta. apply Z.eqb_neq in Hnz as ->. done.
    + destruct Hout as (m1 & m2 & -> & _ & _ & Hm2 & Hz). eexists _, _, _, _, _. split; [reflexivity|]. split; [done|]. split; [done|]. split; [done|].
      left. split; [done|]. split; [congruence|]. exists (l1 ++ m1), m2. split_and!; [by rewrite app_assoc|done|].
      by rewrite chain_scan_app, Hz1.
  - pose proof Hlook as (_ & -> & _). destruct (looking_run o s pl l x e chain Ht Hlook Hfuel) as (r & x' & pl' & s' & e' & E & Hov & Hout).
    exists r, x', pl', s', e'. split; [done|]. split; [done|]. by eapply look_run_outcome; [..|apply later_refl|].
Qed.
End Run.

(** ** Any number of calls

    The owner of an executor calls it again until the answer is not
    CONTINUE, each time with a slice of its own. *)
Section Calls.
Context `{K : Kernel} {TS : TupleStore}.

Fixpoint exec_calls (chain : nat) (slices : list Z) (x : kds_heap_insert_exec) : M wal_env (kds_exec_result * kds_heap_insert_exec) :=
  match slices with
  | [] => ret (KDS_EXEC_CONTINUE, x)
  | slice :: slices =>
      let* (r, x) := kds_exec_run chain slice x in
      match r with KDS_EXEC_CONTINUE => exec_calls chain slices x | _ => ret (r, x) end
  end.
(** A slice is used up when, after the reading that starts the call, the
    clock is seen at or after the end of the slice. *)
Definition used_up_in (s s' : kds_state) (slice : Z) : Prop :=
  exists n, (tick s < n < tick s')%nat /\ u64 (k_ns (tick s) + slice) <= k_ns n.
Definition used_up (slice : Z) : Prop := exists s s', used_up_in s s' slice.
(** One call after the other, from [s] to [s'], each used its slice up. *)
Inductive used_up_run : kds_state -> list Z -> kds_state -> Prop :=
  | used_up_nil s : used_up_run s [] s
  | used_up_cons s1 s2 s3 slice slices : used_up_in s1 s2 slice -> used_up_run s2 slices s3 -> used_up_run s1 (slice :: slices) s3.
Lemma used_up_all s slices s' : used_up_run s slices s' -> Forall used_up slices.
Proof. induction 1 as [|s1 s2 s3 slice slices H _ IH]; constructor; [by exists s1, s2|done]. Qed.

Section Job.
Context (xid : Z) (d : bytes) (rel : kds_relation).
Context (Hd : bytes_ok d) (Hlen : 8 <= zlen d <= 8102) (Hxid : u64_ok xid).

Definition with_deadline (t : Z) (x : kds_heap_insert_exec) : kds_heap_insert_exec :=
  set_hx_base (ExecState (ex_ret (hx_base x)) t (units_done (hx_base x))) x.
Lemma exec_run_at chain slice x pl s e :
  kds_exec_run chain slice x (at_pool pl s e) =
    kds_heap_insert_exec_run chain (with_deadline (u64 (k_ns (tick s) + slice)) x) (at_pool pl (set_tick (S (tick s)) s) e).
Proof. reflexivity. Qed.
Lemma exec_run_spec o s pl l x e chain slice :
  table_at rel s pl o l -> paused xid d rel pl l x -> (length l <= chain)%nat ->
  exists r x' pl' s' e', kds_exec_run chain slice x (at_pool pl s e) = Ret (r, x') (at_pool pl' s' e') /\
    (r = KDS_EXEC_CONTINUE -> used_up_in s s' slice) /\ run_outcome xid d rel o s pl l s' pl' x' r.
Proof.
  intros Ht Hpa Hfuel. rewrite exec_run_at. set (s1 := set_tick _ s). assert (Hs1 : later s s1) by apply later_tick.
  destruct (heap_run_spec xid d rel Hd Hlen Hxid o s1 pl l (with_deadline (u64 (k_ns (tick s) + slice)) x) e chain) as (r & x' & pl' & s' & e' & E & Hov & Hout);
    [by eapply table_later|done|done|]. exists r, x', pl', s', e'. split; [done|]. split.
  - intros Hr. destruct (Hov Hr) as (n & Hn & Hdl). exists n. split; [cbn in Hn; lia|done].
  - destruct r; cbn [run_outcome] in *; [done|..]; destruct Hout as (-> & Hs' & ?); split_and!; eauto.
Qed.
Lemma exec_calls_spec o pl l chain : (length l <= chain)%nat -> forall slices s x e,
  table_at rel s pl o l -> paused xid d rel pl l x ->
  exists r x' pl' s' e', exec_calls chain slices x (at_pool pl s e) = Ret (r, x') (at_pool pl' s' e') /\
    (r = KDS_EXEC_CONTINUE -> used_up_run s slices s') /\ run_outcome xid d rel o s pl l s' pl' x' r.
Proof.
  intros Hfuel. induction slices as [|slice slices IH]; intros s x e Ht Hpa; cbn [exec_calls].
  - exists KDS_EXEC_CONTINUE, x, pl, s, e. split; [done|]. split; [by intros _; constructor|].
    split; [done|]. split; [apply later_refl|done].
  - destruct (exec_run_spec o s pl l x e chain slice Ht Hpa Hfuel) as (r & x1 & pl1 & s1 & e1 & E & Hu & Hout).
    erewrite bind_ok by exact E. cbn beta iota. destruct r; [by eexists _, _, _, _, _|by eexists _, _, _, _, _|].
    cbn [run_outcome] in Hout. destruct Hout as (-> & Hs1 & Hpa1).
    destruct (IH s1 x1 e1 (table_later _ _ _ _ _ _ Hs1 Ht) Hpa1) as (r & x' & pl' & s' & e' & E' & Hu' & Hout).
    exists r, x', pl', s', e'. split; [done|]. split; [intros Hr; econstructor; [by apply Hu|by apply Hu']|].
    destruct r; cbn [run_outcome] in *; [done|..]; destruct Hout as (-> & Hs' & ?); split_and!; eauto.
Qed.
Lemma init_paused s pl o l : table_at rel s pl o l -> paused xid d rel pl l (kds_heap_insert_exec_init (Some rel) (Some d) (zlen d) xid).
Proof.
  intros Ht. left. split; [|split; [done|]].
  - unfold owns, job; cbn. destruct (Z.leb_spec 8 (zlen d)); [done|lia].
  - exists [], l. split_and!; [done|apply Ht|done].
Qed.
End Job.

Lemma exec_insert_cases xid d rel o s pl l e chain slices :
  bytes_ok d -> 8 <= zlen d <= 8102 -> u64_ok xid -> table_at rel s pl o l -> short_rows l -> (length l <= chain)%nat ->
  exists r x' pl' s' e',
    exec_calls chain slices (kds_heap_insert_exec_init (Some rel) (Some d) (zlen d) xid) (at_pool pl s e) = Ret (r, x') (at_pool pl' s' e') /\
    match r with
    | KDS_EXEC_DONE => (row_pk d ∉ pks l) /\ exists l', insert_model xid d o l = Some l' /\
        chain_at pl' (root_page_id rel) l' /\ pool_wf pl' /\ row_at xid d l' (hx_tid x') /\
        (forall id, id ∉ ids l -> o <> Some id -> cached pl' id = cached pl id) /\
        pks l' ≡ₚ (row_pk d :: pks l) /\ (NoDup (pks l) -> NoDup (pks l'))
    | KDS_EXEC_ERROR => pl' = pl /\ ex_ret (hx_base x') = (if decide (row_pk d ∈ pks l) then - EEXIST else - ENOSPC) /\
        (row_pk d ∉ pks l -> insert_model xid d o l = None)
    | KDS_EXEC_CONTINUE => pl' = pl /\ used_up_run s slices s'
    end.
Proof.
  intros Hd Hlen Hxid Ht Hsh Hfuel.
  destruct (exec_calls_spec xid d rel Hd Hlen Hxid o pl l chain Hfuel slices s _ e Ht (init_paused xid d rel Hlen s pl o l Ht))
    as (r & x' & pl' & s' & e' & E & Hu & Hout). exists r, x', pl', s', e'. split; [done|]. pose proof (chain_scan_short (row_pk d) l Hsh) as Hz.
  destruct r; cbn [run_outcome] in Hout; [|..|by destruct Hout as (-> & _); auto].
  - destruct Hout as (Hz' & l' & Hm & Hc & Hwf & Hrest & Hrow). rewrite Hz in Hz'. destruct (decide (row_pk d ∈ pks l)) as [|Hni]; [done|].
    split; [done|]. exists l'. pose proof (insert_model_pks xid d o l l' ltac:(lia) Hm) as Hp. split_and!; try done.
    intros Hnd. rewrite Hp. by constructor.
  - destruct Hout as (-> & _ & Hr). rewrite Hz in Hr. destruct (decide (row_pk d ∈ pks l)); cbn in Hr; [done|]. by destruct Hr.
Qed.

(** C4.  Inserting a row, with any number of interruptions, refines the
    insertion into a list of pages: the executor answers EEXIST exactly when
    the key is in the table and leaves the table alone; otherwise the row
    goes to the first page with room, or to a new page at the end of the
    chain, can be found under the tuple id that is returned, every other
    page is untouched and the keys stay distinct; without room and without
    a spare page it answers ENOSPC and changes nothing.  The answer is still
    open only if every one of these calls used its slice up. *)
Theorem exec_refines_insert xid d rel o s pl l e chain slices :
  bytes_ok d -> 8 <= zlen d <= 8102 -> u64_ok xid -> table_at rel s pl o l -> short_rows l -> (length l <= chain)%nat ->
  exists r x' pl' s' e',
    exec_calls chain slices (kds_heap_insert_exec_init (Some rel) (Some d) (zlen d) xid) (at_pool pl s e) = Ret (r, x') (at_pool pl' s' e') /\
    match r with
    | KDS_EXEC_DONE => (row_pk d ∉ pks l) /\ exists l', insert_model xid d o l = Some l' /\
        chain_at pl' (root_page_id rel) l' /\ pool_wf pl' /\ row_at xid d l' (hx_tid x') /\
        (forall id, id ∉ ids l -> o <> Some id -> cached pl' id = cached pl id) /\
        pks l' ≡ₚ (row_pk d :: pks l) /\ (NoDup (pks l) -> NoDup (pks l'))
    | KDS_EXEC_ERROR => pl' = pl /\ ex_ret (hx_base x') = (if decide (row_pk d ∈ pks l) then - EEXIST else - ENOSPC) /\
        (row_pk d ∉ pks l -> insert_model xid d o l = None)
    | KDS_EXEC_CONTINUE => pl' = pl /\ used_up_run s slices s'
    end.
Proof. apply exec_insert_cases. Qed.

(** C35.  The check for duplicates is not repeated: an executor that was
    interrupted between its two phases inserts its row even if the key has
    been inserted in the meantime, and the primary key is no longer unique. *)
Theorem resumed_insert_duplicates xid d rel o s pl l e chain slice x :
  bytes_ok d -> 8 <= zlen d <= 8102 -> u64_ok xid -> table_at rel s pl o l -> (length l <= chain)%nat ->
  owns xid d rel x -> hx_phase x = KDS_HEAP_INSERT_PHASE_FIND_TAIL -> hx_cursor x = root_page_id rel ->
  row_pk d ∈ pks l -> insert_model xid d o l <> None ->
  exists r x' pl' s' e', kds_exec_run chain slice x (at_pool pl s e) = Ret (r, x') (at_pool pl' s' e') /\
    match r with
    | KDS_EXEC_DONE => exists l', chain_at pl' (root_page_id rel) l' /\ pks l' ≡ₚ (row_pk d :: pks l) /\ ~ NoDup (pks l')
    | KDS_EXEC_ERROR => False
    | KDS_EXEC_CONTINUE => used_up_in s s' slice
    end.
Proof.
  intros Hd Hlen Hxid Ht Hfuel Hown Hph Hcur Hin Hsome. rewrite exec_run_at. set (s1 := set_tick _ s).
  set (x1 := with_deadline _ x). destruct Hown as ((Hj1 & Hj2 & Hj3) & Hrel & Hpk).
  assert (Hlook : looking xid d rel pl l x1).
  { split; [done|]. split; [done|]. exists [], l. split_and!; [done|apply Ht|cbn; rewrite Hcur; apply Ht|constructor]. }
  unfold kds_heap_insert_exec_run. change (hx_rel x1) with (hx_rel x). change (hx_len x1) with (hx_len x). change (hx_phase x1) with (hx_phase x).
  rewrite Hrel, (ta_kind _ _ _ _ _ Ht), Hj2, Hph. cbn [clustered_val Z.eqb negb]. destruct (Z.ltb_spec (zlen d) 8); [lia|].
  destruct (looking_run xid d rel Hd Hlen Hxid o s1 pl l x1 e chain) as (r & x' & pl' & s' & e' & E & Hov & Hout);
    [eapply table_later; [apply later_tick|done]|done|done|]. exists r, x', pl', s', e'. split; [exact E|]. destruct r; cbn [look_outcome] in Hout.
  - destruct Hout as ((l' & Hm & Hc & _) & _). pose proof (insert_model_pks xid d o l l' ltac:(lia) Hm) as Hp.
    exists l'. split_and!; try done. rewrite Hp. rewrite NoDup_cons. by intros [? _].
  - destruct Hout as (_ & _ & Hm & _). done.
  - destruct (Hov eq_refl) as (n & Hn & Hdl). exists n. split; [cbn in Hn; lia|done].
Qed.

Lemma scan_model_long pk v t w : Forall short v -> pk ∉ omap pk_of v -> KDS_EXEC_ROW_SCAN_BUF < data_len (ht_hdr t) ->
  scan_model pk (v ++ Some t :: w) = - ENOSPC.
Proof.
  intros Hv. induction Hv as [|u v Hu Hv IH]; cbn [app scan_model].
  - intros _ Ht. by apply Z.ltb_lt in Ht as ->.
  - destruct u as [u|]; cbn [omap list_omap]; [|by apply IH]. cbn in Hu. intros Hni Ht.
    destruct (Z.ltb_spec KDS_EXEC_ROW_SCAN_BUF (data_len (ht_hdr u))); [lia|]. destruct (pk_of (Some u)) as [y|] eqn:Hy.
    + apply not_elem_of_cons in Hni as [Hy' Hni]. rewrite bool_decide_false by congruence. by apply IH.
    + rewrite bool_decide_false by done. by apply IH.
Qed.
Lemma long_row_scan xid d o l l' pk :
  KDS_EXEC_ROW_SCAN_BUF < zlen d -> short_rows l -> pk ∉ pks l -> insert_model xid d o l = Some l' -> chain_scan pk l' = - ENOSPC.
Proof.
  intros Hlong Hsh. revert l'. induction Hsh as [|g l Hg Hl IH]; intros l' Hni; cbn [insert_model].
  - destruct o as [id|]; [|done]. intros [= <-]. cbn [chain_scan add_row pg_view app scan_model new_tuple ht_hdr data_len]. by apply Z.ltb_lt in Hlong as ->.
  - unfold pks in Hni; cbn [mbind list_bind] in Hni. rewrite elem_of_app in Hni. destruct (room d g).
    + intros [= <-]. cbn [chain_scan add_row pg_view]. unfold new_tuple. rewrite (scan_model_long pk _ _ []) by (done || tauto). done.
    + destruct (insert_model xid d o l) as [l1|] eqn:Hm; [|done]. intros [= <-]. cbn [chain_scan].
      rewrite (scan_model_short _ _ Hg), decide_False by tauto. cbn. apply IH; [|done]. intros H. apply Hni. by right.
Qed.
(** Rows of more than 256 bytes are accepted, but the duplicate scan
    cannot read them: once such a row is in the table, inserting a new key
    fails with ENOSPC, however much room there is. *)
Theorem long_row_blocks_table xid0 d0 o0 l0 xid d rel o s pl l e chain slice :
  KDS_EXEC_ROW_SCAN_BUF < zlen d0 -> short_rows l0 -> insert_model xid0 d0 o0 l0 = Some l ->
  bytes_ok d -> 8 <= zlen d <= 8102 -> u64_ok xid -> table_at rel s pl o l -> (length l <= chain)%nat ->
  row_pk d ∉ pks l0 ->
  exists r x' s' e', kds_exec_run chain slice (kds_heap_insert_exec_init (Some rel) (Some d) (zlen d) xid) (at_pool pl s e) =
      Ret (r, x') (at_pool pl s' e') /\
    match r with
    | KDS_EXEC_DONE => False
    | KDS_EXEC_ERROR => ex_ret (hx_base x') = - ENOSPC
    | KDS_EXEC_CONTINUE => used_up_in s s' slice
    end.
Proof.
  intros Hlong Hsh Hm Hd Hlen Hxid Ht Hfuel Hni. pose proof (long_row_scan xid0 d0 o0 l0 l (row_pk d) Hlong Hsh Hni Hm) as Hz.
  destruct (exec_run_spec xid d rel Hd Hlen Hxid o s pl l _ e chain slice Ht (init_paused xid d rel Hlen s pl o l Ht) Hfuel)
    as (r & x' & pl' & s' & e' & E & Hu & Hout). destruct r; cbn [run_outcome] in Hout; [|..|destruct Hout as (-> & _); exists KDS_EXEC_CONTINUE, x', s', e'; split; [exact E|by apply Hu]].
  - destruct Hout as [H _]. by rewrite Hz in H.
  - destruct Hout as (-> & _ & Hr). rewrite Hz in Hr. by exists KDS_EXEC_ERROR, x', s', e'.
Qed.

(** The comment on [kds_exec_slice_expired] asks that no executor checks
    its deadline before it has done some work.  The second phase does: with
    slices of length 0 an executor in that phase answers CONTINUE for ever
    and nothing ever changes but its deadline. *)
Theorem zero_slice_spins rel x pl s e chain calls :
  (forall n, 0 <= k_ns n) -> (forall m n, (m <= n)%nat -> k_ns m <= k_ns n) ->
  hx_rel x = Some rel -> rel_kind rel = clustered_val KDS_CLUSTERED_HEAP -> 8 <= hx_len x ->
  hx_phase x = KDS_HEAP_INSERT_PHASE_FIND_TAIL ->
  exists t s', exec_calls chain (replicate calls 0) x (at_pool pl s e) = Ret (KDS_EXEC_CONTINUE, with_deadline t x) (at_pool pl s' e).
Proof.
  intros Hpos Hmono Hrel Hkind Hlen Hph. revert x s Hrel Hlen Hph. induction calls as [|calls IH]; intros x s Hrel Hlen Hph; cbn [replicate exec_calls].
  - exists (deadline_ns (hx_base x)), s. by destruct x as [[? ? ?]].
  - set (t := u64 (k_ns (tick s) + 0)). set (s1 := set_tick (S (S (tick s))) s).
    assert (E : kds_exec_run chain 0 x (at_pool pl s e) = Ret (KDS_EXEC_CONTINUE, with_deadline t x) (at_pool pl s1 e)).
    { rewrite exec_run_at. unfold kds_heap_insert_exec_run. fold t. cbn [with_deadline set_hx_base hx_rel hx_len hx_phase].
      rewrite Hrel, Hkind, Hph. cbn [clustered_val Z.eqb negb]. destruct (Z.ltb_spec (hx_len x) 8); [lia|].
      unfold run_from_find_tail. erewrite bind_ok by apply expired_at. change (deadline_ns (hx_base (with_deadline t x))) with t. cbn [tick set_tick].
      destruct (Z.leb_spec t (k_ns (S (tick s)))); [reflexivity|]. pose proof (Hmono (tick s) (S (tick s)) ltac:(lia)). pose proof (Hpos (tick s)).
      assert (t <= k_ns (tick s)) by (subst t; rewrite Z.add_0_r; apply Z.mod_le; lia). lia. }
    erewrite bind_ok by exact E. cbn beta iota. destruct (IH (with_deadline t x) s1 Hrel Hlen Hph) as (t' & s' & E'). by exists t', s'.
Qed.
End Calls.

(** ** Concrete instances

    A table of one page (200) that holds one row, and a spare page (201). *)
#[local] Opaque KDS_BUF_NR_FRAMES empty_page.
Definition tab_rel : kds_relation := Relation 4001 1 0 200 [].
Definition tab_pool (q : bytes) : kds_buf_pool := pool_of [(cat_kp 201, zeros KDS_PAGE_SIZE); (cat_kp 200, q)].
Definition tab_state (q : bytes) : kds_state := set_g_alloc (Some (ring_push 1 empty_ring)) (set_g_pool (Some (tab_pool q)) demo_state).
Definition tab_env (q : bytes) : wal_env := WalEnv (tab_state q) None 0 0.
Definition tab_row (pk : Z) (n : nat) : bytes := le_bytes 8 pk ++ replicate n 1.
Lemma tab_row_ok pk n : bytes_ok (tab_row pk n).
Proof. apply bytes_ok_app. split; [auto with kds|]. apply Forall_replicate. unfold is_byte. lia. Qed.

(** A kernel whose clock stands still. *)
#[local] Instance stopped_kernel : Kernel := {|
  k_alloc := fun _ => true; k_garbage := fun _ => 0; k_bio_add := fun _ => true; k_bio := fun _ => 0; k_rhash := fun _ => 0;
  k_seconds := fun _ => 0; k_ns := fun _ => 0; k_crc32c := fun _ _ => 0; k_beyond := fun _ => 0 |}.
Lemma not_used_up s s' : ~ used_up_in s s' 5.
Proof. intros (n & _ & H). by vm_compute in H. Qed.
Lemma used_up_never slices : Forall used_up slices -> 5 ∈ slices -> False.
Proof. intros H Hin. eapply Forall_forall in H as (s & s' & H); [|exact Hin]. by eapply not_used_up. Qed.

Section Demo.
Context (d : bytes) (Hd : bytes_ok d) (Hlen : 8 <= zlen d <= 8102).
Definition one_row : list hpage := [HPage 200 [new_tuple 5 d] (8135 - (33 + zlen d))].
Lemma row_page : exists q, heap_wf q /\ heap_view q = [new_tuple 5 d] /\ p_free q = 8135 - (33 + zlen d) /\ p_next q = 0.
Proof.
  destruct empty_page_ok as (Hw & Hv & Hm). assert (Hn : p_next empty_page = 0) by (by vm_compute).
  assert (Hu : u16_ok (zlen d)) by (unfold u16_ok; lia). assert (H5 : u64_ok 5) by (unfold u64_ok; lia). assert (H0 : u64_ok 0) by (unfold u64_ok; lia).
  pose proof (ts_insert (demo_live empty_page) demo_kp empty_page d 5 0 0 (frame_live_live _ _ _) Hw Hd Hu H5 H0 H0) as H.
  cbn zeta in H. unfold KDS_PAGE_SIZE, p_free in H. rewrite Hm, Hv in H. cbn [upper lower] in H.
  destruct (Z.ltb_spec (8 * 1024) (zlen d)); [lia|]. destruct (Z.ltb_spec (8184 - 49) (33 + zlen d)); [lia|].
  destruct H as (q & _ & Hq & Hqv & Hqf & Hqn). exists q. split_and!; [done|done|done|congruence].
Qed.
Lemma tab_at : exists q, table_at tab_rel (tab_state q) (tab_pool q) (Some 201) one_row.
Proof.
  destruct row_page as (q & Hq & Hqv & Hqf & Hqn). exists q.
  destruct (pool_of_ok [(cat_kp 201, zeros KDS_PAGE_SIZE); (cat_kp 200, q)]) as (Hwf & _ & Hc).
  - pose proof nr_frames. cbn. lia.
  - cbn. repeat constructor; rewrite ?elem_of_cons, ?elem_of_nil; lia.
  - constructor; [split; [done|]; split; [by apply zlen_zeros|done]|]. constructor; [split; [done|]; split; [apply Hq|done]|constructor].
  - split; [done|exact Hwf| |done|apply NoDup_singleton| |].
    + split; [done|]. split; [done|]. exists 0. split; [|done]. exists (cat_kp 200), q. split; [|done]. apply (Hc (cat_kp 200)). right. left.
    + split; [done|]. exists 1%nat, [], (cat_kp 201), (zeros KDS_PAGE_SIZE). split.
      * split; [done|exact Hwf|]. exists (ring_push 1 empty_ring). split; [done|].
        apply (ring_push_spec empty_ring []); [apply empty_ring_is|reflexivity].
      * apply lookup_insert_eq.
      * apply (Hc (cat_kp 201)). left.
      * apply bytes_ok_zeros.
      * apply cat_hdr_ok.
      * by vm_compute.
    + intros id [= <-] Hin. cbn in Hin. apply elem_of_cons in Hin as [Hin|Hin]; [lia|by apply not_elem_of_nil in Hin].
Qed.
End Demo.

Lemma exec_refines_insert_witness :
  exists s pl x' pl' s' e', exec_calls 1 [5] (kds_heap_insert_exec_init (Some tab_rel) (Some (tab_row 8 0)) 8 5) (at_pool pl s (tab_env [])) =
      Ret (KDS_EXEC_DONE, x') (at_pool pl' s' e') /\
    exists l', chain_at pl' 200 l' /\ pks l' ≡ₚ [8; 7] /\ NoDup (pks l').
Proof.
  destruct (tab_at (tab_row 7 0) (tab_row_ok 7 0)) as (q & Ht); [by vm_compute|].
  destruct (exec_refines_insert 5 (tab_row 8 0) tab_rel (Some 201) (tab_state q) (tab_pool q) (one_row (tab_row 7 0)) (tab_env []) 1 [5])
    as (r & x' & pl' & s' & e' & E & H); [apply tab_row_ok|by vm_compute|by vm_compute|exact Ht|repeat constructor; by vm_compute|done|].
  exists (tab_state q), (tab_pool q), x', pl', s', e'. destruct r.
  - split; [exact E|]. destruct H as (_ & l' & _ & Hc & _ & _ & _ & Hp & Hnd). exists l'. split; [exact Hc|]. split; [exact Hp|].
    apply Hnd. apply NoDup_singleton.
  - destruct H as (_ & _ & Hm). exfalso. assert (Hx : row_pk (tab_row 8 0) ∉ pks (one_row (tab_row 7 0))) by (by apply (bool_decide_unpack _)).
    apply Hm in Hx. by vm_compute in Hx.
  - destruct H as (_ & H). exfalso. by eapply used_up_never; [eapply used_up_all, H|left].
Defined.
Lemma resumed_insert_duplicates_witness :
  exists s pl x' pl' s' e' l',
    kds_exec_run 1 5 (set_hx_phase KDS_HEAP_INSERT_PHASE_FIND_TAIL (kds_heap_insert_exec_init (Some tab_rel) (Some (tab_row 7 0)) 8 5))
      (at_pool pl s (tab_env [])) = Ret (KDS_EXEC_DONE, x') (at_pool pl' s' e') /\
    chain_at pl' 200 l' /\ pks l' ≡ₚ [7; 7].
Proof.
  destruct (tab_at (tab_row 7 0) (tab_row_ok 7 0)) as (q & Ht); [by vm_compute|].
  destruct (resumed_insert_duplicates 5 (tab_row 7 0) tab_rel (Some 201) (tab_state q) (tab_pool q) (one_row (tab_row 7 0)) (tab_env []) 1 5
    (set_hx_phase KDS_HEAP_INSERT_PHASE_FIND_TAIL (kds_heap_insert_exec_init (Some tab_rel) (Some (tab_row 7 0)) 8 5)))
    as (r & x' & pl' & s' & e' & E & H);
    [apply tab_row_ok|by vm_compute|by vm_compute|exact Ht|done|by repeat split|done|done|by left|by vm_compute|].
  exists (tab_state q), (tab_pool q), x', pl', s', e'. destruct r.
  - destruct H as (l' & Hc & Hp & _). exists l'. split; [exact E|]. split; [exact Hc|exact Hp].
  - destruct H.
  - exfalso. by eapply not_used_up.
Defined.
Lemma long_row_blocks_table_witness :
  exists s pl x' s' e',
    kds_exec_run 1 5 (kds_heap_insert_exec_init (Some tab_rel) (Some (tab_row 8 0)) 8 5) (at_pool pl s (tab_env [])) =
      Ret (KDS_EXEC_ERROR, x') (at_pool pl s' e') /\ ex_ret (hx_base x') = - ENOSPC.
Proof.
  destruct (tab_at (tab_row 7 300) (tab_row_ok 7 300)) as (q & Ht); [by vm_compute|].
  destruct (long_row_blocks_table 5 (tab_row 7 300) None [HPage 200 [] 8135] 5 (tab_row 8 0) tab_rel (Some 201)
    (tab_state q) (tab_pool q) (one_row (tab_row 7 300)) (tab_env []) 1 5) as (r & x' & s' & e' & E & H);
    [by vm_compute|repeat constructor|by vm_compute|apply tab_row_ok|by vm_compute|by vm_compute|exact Ht|done|apply not_elem_of_nil|].
  exists (tab_state q), (tab_pool q), x', s', e'. destruct r.
  - destruct H.
  - split; [exact E|exact H].
  - exfalso. by eapply not_used_up.
Defined.
Lemma zero_slice_spins_witness :
  exists t s', exec_calls 1 (replicate 1000 0)
      (set_hx_phase KDS_HEAP_INSERT_PHASE_FIND_TAIL (kds_heap_insert_exec_init (Some tab_rel) (Some (tab_row 7 0)) 8 5)) (at_pool init_pool demo_state (tab_env [])) =
    Ret (KDS_EXEC_CONTINUE, with_deadline t
      (set_hx_phase KDS_HEAP_INSERT_PHASE_FIND_TAIL (kds_heap_insert_exec_init (Some tab_rel) (Some (tab_row 7 0)) 8 5)))
      (at_pool init_pool s' (tab_env [])).
Proof.
  apply (zero_slice_spins tab_rel
    (set_hx_phase KDS_HEAP_INSERT_PHASE_FIND_TAIL (kds_heap_insert_exec_init (Some tab_rel) (Some (tab_row 7 0)) 8 5))
    init_pool demo_state (tab_env []) 1 1000);
    [intros n; reflexivity || (cbn; lia)|intros m n H; cbn; lia|reflexivity|reflexivity|by vm_compute|reflexivity].
Defined.
