(* ===== verification/ExecBtree.v ===== *)
(** * ExecBtree: the insert executor of b-tree tables
    (kernel/kds/exec_btree_insert.c, kds_executor.h)

    The b-tree maps keys to heap pages; the executor descends to the leaf,
    looks into the heap page it finds there, logs the change, inserts the row
    and, when the row went to a new page, registers that page in the leaf.
    The frames of the path stay pinned in the executor's cursor between the
    calls. *)
From S2P Require Import Prelude Layout State Disk Pool Alloc Heap Btree Types Parser Catalog Relation Wal ExecHeap.
From stdpp Require Import prelude gmap list.
From Stdlib Require Import ZArith Lia.
Local Open Scope Z_scope.
Local Open Scope list_scope.
Local Open Scope kds_scope.

Definition KDS_BTREE_EXEC_XID : Z := 1.
Inductive kds_btree_insert_phase :=
  | KDS_BTREE_INSERT_PHASE_SEARCH_AND_PREPARE | KDS_BTREE_INSERT_PHASE_WAL_INIT_PAGE | KDS_BTREE_INSERT_PHASE_WAL_INSERT
  | KDS_BTREE_INSERT_PHASE_WAL_BTREE | KDS_BTREE_INSERT_PHASE_HEAP_INSERT | KDS_BTREE_INSERT_PHASE_BTREE_INSERT
  | KDS_BTREE_INSERT_PHASE_DONE.
Record kds_btree_insert_exec := BtreeExec {
  bx_base : kds_exec_state; bx_rel : option kds_relation; bx_key : Z; bx_data : option bytes; bx_len : Z;
  bx_phase : kds_btree_insert_phase; bx_cursor : kds_btree_cursor; current_page_id : Z;
  target_heap_page_id : Z; new_heap_page_id : Z; new_page_min_key : Z; need_new_page : bool; bx_tid : kds_heap_tid }.

Definition set_bx_base (b : kds_exec_state) (x : kds_btree_insert_exec) : kds_btree_insert_exec :=
  BtreeExec b (bx_rel x) (bx_key x) (bx_data x) (bx_len x) (bx_phase x) (bx_cursor x) (current_page_id x)
    (target_heap_page_id x) (new_heap_page_id x) (new_page_min_key x) (need_new_page x) (bx_tid x).
Definition set_bx_phase (p : kds_btree_insert_phase) (x : kds_btree_insert_exec) : kds_btree_insert_exec :=
  BtreeExec (bx_base x) (bx_rel x) (bx_key x) (bx_data x) (bx_len x) p (bx_cursor x) (current_page_id x)
    (target_heap_page_id x) (new_heap_page_id x) (new_page_min_key x) (need_new_page x) (bx_tid x).
Definition set_bx_cursor (c : kds_btree_cursor) (x : kds_btree_insert_exec) : kds_btree_insert_exec :=
  BtreeExec (bx_base x) (bx_rel x) (bx_key x) (bx_data x) (bx_len x) (bx_phase x) c (current_page_id x)
    (target_heap_page_id x) (new_heap_page_id x) (new_page_min_key x) (need_new_page x) (bx_tid x).
Definition set_current_page (id : Z) (x : kds_btree_insert_exec) : kds_btree_insert_exec :=
  BtreeExec (bx_base x) (bx_rel x) (bx_key x) (bx_data x) (bx_len x) (bx_phase x) (bx_cursor x) id
    (target_heap_page_id x) (new_heap_page_id x) (new_page_min_key x) (need_new_page x) (bx_tid x).
Definition set_target (id : Z) (x : kds_btree_insert_exec) : kds_btree_insert_exec :=
  BtreeExec (bx_base x) (bx_rel x) (bx_key x) (bx_data x) (bx_len x) (bx_phase x) (bx_cursor x) (current_page_id x)
    id (new_heap_page_id x) (new_page_min_key x) (need_new_page x) (bx_tid x).
Definition set_need_new_page (b : bool) (x : kds_btree_insert_exec) : kds_btree_insert_exec :=
  BtreeExec (bx_base x) (bx_rel x) (bx_key x) (bx_data x) (bx_len x) (bx_phase x) (bx_cursor x) (current_page_id x)
    (target_heap_page_id x) (new_heap_page_id x) (new_page_min_key x) b (bx_tid x).
Definition set_new_page (id min_key : Z) (x : kds_btree_insert_exec) : kds_btree_insert_exec :=
  BtreeExec (bx_base x) (bx_rel x) (bx_key x) (bx_data x) (bx_len x) (bx_phase x) (bx_cursor x) (current_page_id x)
    (target_heap_page_id x) id min_key (need_new_page x) (bx_tid x).
Definition set_bx_tid (t : option kds_heap_tid) (x : kds_btree_insert_exec) : kds_btree_insert_exec :=
  BtreeExec (bx_base x) (bx_rel x) (bx_key x) (bx_data x) (bx_len x) (bx_phase x) (bx_cursor x) (current_page_id x)
    (target_heap_page_id x) (new_heap_page_id x) (new_page_min_key x) (need_new_page x) (default (bx_tid x) t).
Definition bx_fail (r : Z) (x : kds_btree_insert_exec) : kds_exec_result * kds_btree_insert_exec :=
  (KDS_EXEC_ERROR, set_bx_base (set_ex_ret r (bx_base x)) x).
Definition bx_unit (x : kds_btree_insert_exec) : kds_btree_insert_exec := set_bx_base (add_unit (bx_base x)) x.

(** A cursor whose frames have been released: [btree_cursor_cleanup] clears
    the frames of the levels up to [depth]. *)
Definition released (c : kds_btree_cursor) : kds_btree_cursor :=
  Cursor (map (set_bframe None) (take (S (depth c)) (cnodes c)) ++ drop (S (depth c)) (cnodes c)) (positions c) (depth c).

(** The first position whose key is not below [key]; an access beyond the
    array is a fault, so 16 rounds are enough. *)
Definition find_position (n : kds_btree_node) (key : Z) : option nat :=
  search_loop (keys n) 0 (Z.to_nat (Z.min (key_count n) 16)) key.

Section Exec.
Context `{K : Kernel}.

Definition cleanup (x : kds_btree_insert_exec) : M wal_env kds_btree_insert_exec :=
  on_kds (btree_cursor_cleanup (bx_cursor x)) ;; ret (set_bx_cursor (released (bx_cursor x)) x).
(** Releases the cursor and fails. *)
Definition cleanup_fail (r : Z) (x : kds_btree_insert_exec) : M wal_env (kds_exec_result * kds_btree_insert_exec) :=
  x <- cleanup x ;; ret (bx_fail r x).

(** ** Descent and probe *)
(** 1: the key is there, 0: it is not, negative: a tuple that cannot be
    read. *)
Fixpoint scan_slots_for_key (fid : nat) (key : Z) (slots : list Z) : M kds_state Z :=
  match slots with
  | [] => ret 0
  | slot :: slots =>
      let* (r, o) := on_frame fid (heap_read_tuple_pk slot 8) in
      match o with
      | None => if r =? - ENOENT then scan_slots_for_key fid key slots else ret r
      | Some (_, buf) => if row_pk buf =? to_signed 64 key then ret 1 else scan_slots_for_key fid key slots
      end
  end.
(** The leaf is reached: look into the heap page of slot [pos]. *)
Definition probe_leaf (rel : kds_relation) (node : kds_btree_node) (pos : nat) (x : kds_btree_insert_exec)
  : M wal_env (kds_exec_result * kds_btree_insert_exec) :=
  slot <- on_kds (in_bounds (slot_at node pos)) ;;
  let heap_page_id := if slot =? 0 then root_page_id rel else slot in
  let x := set_target heap_page_id x in
  if heap_page_id =? 0 then ret (KDS_EXEC_DONE, set_need_new_page true x) else
  frame <- on_kds (kds_buf_lookup_or_load heap_page_id) ;;
  match frame with
  | ERR_PTR e => cleanup_fail e x
  | PTR fid =>
      n <- on_kds (on_frame fid heap_nr_slots) ;;
      r <- on_kds (scan_slots_for_key fid (bx_key x) (all_slots n)) ;;
      if negb (r =? 0) then
        on_kds (kds_buf_unpin fid) ;; cleanup_fail (if r =? 1 then - EEXIST else r) x
      else
      has <- on_kds (on_frame fid (heap_has_space (bx_len x))) ;;
      on_kds (kds_buf_unpin fid) ;;
      ret (KDS_EXEC_DONE, set_need_new_page (negb has) x)
  end.
(** [fuel] is the number of levels left. *)
Fixpoint search_from (fuel : nat) (rel : kds_relation) (x : kds_btree_insert_exec) : M wal_env (kds_exec_result * kds_btree_insert_exec) :=
  match fuel with
  | O => cleanup_fail (- E2BIG) x
  | S fuel =>
      frame <- on_kds (kds_buf_lookup_or_load (current_page_id x)) ;;
      match frame with
      | ERR_PTR e => cleanup_fail e x
      | PTR fid =>
          node <- on_kds (load_btree_node fid) ;;
          let c := set_cnode (depth (bx_cursor x)) node (bx_cursor x) in
          pos <- on_kds (in_bounds (find_position node (bx_key x))) ;;
          let c := Cursor (cnodes c) (<[depth c := pos]> (positions c)) (depth c) in
          let x := bx_unit (set_bx_cursor c x) in
          if level node =? 0 then probe_leaf rel node pos x else
          child <- on_kds (in_bounds (slot_at node pos)) ;;
          let x := set_bx_cursor (Cursor (cnodes c) (positions c) (S (depth c))) (set_current_page child x) in
          expired <- kds_exec_slice_expired (bx_base x) ;;
          if expired : bool then ret (KDS_EXEC_CONTINUE, x) else search_from fuel rel x
      end
  end.
Definition btree_insert_run_search_and_prepare (rel : kds_relation) (x : kds_btree_insert_exec)
  : M wal_env (kds_exec_result * kds_btree_insert_exec) :=
  search_from (BTREE_MAX_DEPTH - depth (bx_cursor x)) rel x.

(** ** Log records *)
Definition btree_insert_run_wal_init_page : M wal_env unit :=
  kds_wal_append (new_rec KDS_BTREE_EXEC_XID KDS_WAL_REC_INIT_PAGE 12) (Some (init_page_body 0 KDS_PAGE_TYPE_HEAP)) ;;
  ret tt.
Definition btree_insert_run_wal_insert (x : kds_btree_insert_exec) : M wal_env unit :=
  log_row KDS_BTREE_EXEC_XID (if need_new_page x then 0 else target_heap_page_id x) 0 (bx_len x) (bx_data x).
Definition btree_insert_run_wal_btree (x : kds_btree_insert_exec) : M wal_env unit :=
  leaf <- on_kds (cnode (bx_cursor x) (depth (bx_cursor x))) ;;
  id <- (match bframe leaf with Some fid => on_kds (on_frame fid (kp_get kp_id)) | None => ret 0 end) ;;
  kds_wal_append (new_rec KDS_BTREE_EXEC_XID KDS_WAL_REC_INSERT 16) (Some (page_mod_body id 0 16)) ;;
  ret tt.

(** ** The row and the leaf *)
Definition btree_insert_run_heap_insert (x : kds_btree_insert_exec) : M wal_env (kds_exec_result * kds_btree_insert_exec) :=
  if need_new_page x then
    new_frame <- on_kds (kds_page_alloc KDS_PAGE_TYPE_HEAP) ;;
    match new_frame with
    | None => ret (bx_fail (- ENOSPC) x)
    | Some nf =>
        on_kds (on_frame nf heap_init_page) ;;
        let* (r, tid) := on_kds (on_frame nf (heap_insert_tuple (bx_data x) (bx_len x) KDS_BTREE_EXEC_XID)) in
        let x := set_bx_tid tid x in
        if negb (r =? 0) then on_kds (kds_buf_unpin nf) ;; ret (bx_fail r x) else
        id <- on_kds (on_frame nf (kp_get kp_id)) ;;
        on_kds (kds_buf_unpin nf) ;;
        ret (KDS_EXEC_DONE, bx_unit (set_new_page id (bx_key x) x))
    end
  else
    frame <- on_kds (kds_buf_lookup_or_load (target_heap_page_id x)) ;;
    match frame with
    | ERR_PTR e => ret (bx_fail e x)
    | PTR fid =>
        let* (r, tid) := on_kds (on_frame fid (heap_insert_tuple (bx_data x) (bx_len x) KDS_BTREE_EXEC_XID)) in
        let x := set_bx_tid tid x in
        on_kds (kds_buf_unpin fid) ;;
        if negb (r =? 0) then ret (bx_fail r x)
        else ret (KDS_EXEC_DONE, bx_unit (set_new_page 0 (new_page_min_key x) x))
    end.
(** [kds_btree_cursor_insert] releases the cursor on every path. *)
Definition btree_insert_run_btree_insert (x : kds_btree_insert_exec) : M wal_env (kds_exec_result * kds_btree_insert_exec) :=
  r <- on_kds (kds_btree_cursor_insert (bx_cursor x) (new_page_min_key x) (new_heap_page_id x)) ;;
  let x := set_bx_cursor (released (bx_cursor x)) x in
  if r <? 0 then ret (bx_fail r x) else ret (KDS_EXEC_DONE, bx_unit x).

(** ** The state machine: one function per phase, each going on with the next *)
Definition brun_done (x : kds_btree_insert_exec) : M wal_env (kds_exec_result * kds_btree_insert_exec) :=
  x <- cleanup x ;; ret (KDS_EXEC_DONE, x).
Definition brun_btree_insert (x : kds_btree_insert_exec) : M wal_env (kds_exec_result * kds_btree_insert_exec) :=
  expired <- kds_exec_slice_expired (bx_base x) ;;
  if expired : bool then ret (KDS_EXEC_CONTINUE, x) else
  let* (r, x) := btree_insert_run_btree_insert x in
  x <- cleanup x ;;
  match r with KDS_EXEC_DONE => brun_done (set_bx_phase KDS_BTREE_INSERT_PHASE_DONE x) | _ => ret (r, x) end.
Definition brun_heap_insert (x : kds_btree_insert_exec) : M wal_env (kds_exec_result * kds_btree_insert_exec) :=
  expired <- kds_exec_slice_expired (bx_base x) ;;
  if expired : bool then ret (KDS_EXEC_CONTINUE, x) else
  let* (r, x) := btree_insert_run_heap_insert x in
  match r with
  | KDS_EXEC_DONE =>
      if need_new_page x then brun_btree_insert (set_bx_phase KDS_BTREE_INSERT_PHASE_BTREE_INSERT x)
      else brun_done (set_bx_phase KDS_BTREE_INSERT_PHASE_DONE x)
  | _ => ret (r, x)
  end.
Definition brun_wal_btree (x : kds_btree_insert_exec) : M wal_env (kds_exec_result * kds_btree_insert_exec) :=
  btree_insert_run_wal_btree x ;;
  brun_heap_insert (set_bx_phase KDS_BTREE_INSERT_PHASE_HEAP_INSERT x).
Definition brun_wal_insert (x : kds_btree_insert_exec) : M wal_env (kds_exec_result * kds_btree_insert_exec) :=
  btree_insert_run_wal_insert x ;;
  if need_new_page x then brun_wal_btree (set_bx_phase KDS_BTREE_INSERT_PHASE_WAL_BTREE x)
  else brun_heap_insert (set_bx_phase KDS_BTREE_INSERT_PHASE_HEAP_INSERT x).
Definition brun_wal_init (x : kds_btree_insert_exec) : M wal_env (kds_exec_result * kds_btree_insert_exec) :=
  btree_insert_run_wal_init_page ;;
  brun_wal_insert (set_bx_phase KDS_BTREE_INSERT_PHASE_WAL_INSERT x).
Definition brun_search (rel : kds_relation) (x : kds_btree_insert_exec) : M wal_env (kds_exec_result * kds_btree_insert_exec) :=
  let* (r, x) := btree_insert_run_search_and_prepare rel x in
  match r with
  | KDS_EXEC_DONE =>
      if need_new_page x then brun_wal_init (set_bx_phase KDS_BTREE_INSERT_PHASE_WAL_INIT_PAGE x)
      else brun_wal_insert (set_bx_phase KDS_BTREE_INSERT_PHASE_WAL_INSERT x)
  | _ => ret (r, x)
  end.
Definition kds_btree_insert_exec_run (x : kds_btree_insert_exec) : M wal_env (kds_exec_result * kds_btree_insert_exec) :=
  match bx_rel x with
  | None => ret (bx_fail (- EINVAL) x)
  | Some rel =>
      if negb (rel_kind rel =? clustered_val KDS_CLUSTERED_BTREE) then ret (bx_fail (- EINVAL) x) else
      if root_page_id rel =? 0 then ret (bx_fail (- ENODEV) x) else
      match bx_phase x with
      | KDS_BTREE_INSERT_PHASE_SEARCH_AND_PREPARE => brun_search rel x
      | KDS_BTREE_INSERT_PHASE_WAL_INIT_PAGE => brun_wal_init x
      | KDS_BTREE_INSERT_PHASE_WAL_INSERT => brun_wal_insert x
      | KDS_BTREE_INSERT_PHASE_WAL_BTREE => brun_wal_btree x
      | KDS_BTREE_INSERT_PHASE_HEAP_INSERT => brun_heap_insert x
      | KDS_BTREE_INSERT_PHASE_BTREE_INSERT => brun_btree_insert x
      | KDS_BTREE_INSERT_PHASE_DONE => brun_done x
      end
  end.

Definition kds_btree_insert_exec_init (rel : option kds_relation) (key : Z) (data : option bytes) (len : Z) : kds_btree_insert_exec :=
  BtreeExec (ExecState 0 0 0) rel key data len KDS_BTREE_INSERT_PHASE_SEARCH_AND_PREPARE btree_cursor_init
    (match rel with Some r => root_page_id r | None => 0 end) 0 0 0 false (Tid 0 0).
End Exec.
