(* ===== verification/ExecBtreeSpec.v ===== *)
(** * ExecBtreeSpec: what inserting into a b-tree table does

    A new b-tree table is a root that is an empty leaf; its slot 0 stays 0.
    For a key whose left slot is 0 the executor takes the root page itself
    for a heap page, finds no rows in it, and stores the row in a page of its
    own. *)
From S2P Require Import Prelude Layout Heap HeapSpec HeapOps TupleStore State Disk DiskSpec Pool PoolSpec Alloc AllocSpec Btree BtreeSpec Types Parser Store Catalog CatalogSpec Relation RelationSpec Wal ExecHeap ExecHeapSpec ExecBtree.
From stdpp Require Import prelude gmap list.
From Stdlib Require Import ZArith Lia.
Local Open Scope Z_scope.
Local Open Scope list_scope.
Local Open Scope kds_scope.

Lemma le_val_zero b : bytes_ok b -> le_val b = 0 -> b = replicate (length b) 0.
Proof.
  induction 1 as [|x b Hx Hb IH]; [done|]. cbn [le_val length replicate]. unfold is_byte in Hx. pose proof (proj1 (le_val_range b Hb)). intros E.
  assert (x = 0) as -> by lia. f_equal. apply IH. lia.
Qed.
(** A leaf seen as a heap page: no slots, no space. *)
Lemma leaf_meta p fid : zlen p = KDS_PAGE_SIZE -> bytes_ok p -> level (node_at p fid) = 0 -> p_meta p = HeapMeta 0 0 0 0.
Proof.
  intros Hz Hb Hl. unfold KDS_PAGE_SIZE in Hz. change (word (sub p KDS_PAGE_HDR_SIZE BTREE_DATA_SIZE) 0 = 0) in Hl. unfold word in Hl.
  rewrite sub_sub in Hl by (unfold BTREE_DATA_SIZE, KDS_PAGE_HDR_SIZE; lia). unfold p_meta, KDS_HEAP_META_OFFSET, KDS_HEAP_META_SIZE.
  change (KDS_PAGE_HDR_SIZE + 8 * Z.of_nat 0) with KDS_PAGE_HDR_SIZE in Hl.
  assert (Hs : zlen (sub p KDS_PAGE_HDR_SIZE 8) = 8) by (apply zlen_sub; unfold KDS_PAGE_HDR_SIZE; lia).
  assert (Hb8 : bytes_ok (sub p KDS_PAGE_HDR_SIZE 8)) by auto with kds. apply (le_val_zero _ Hb8) in Hl.
  rewrite Hl. unfold zlen in Hs. replace (length _) with 8%nat by lia. reflexivity.
Qed.

Section Spec.
Context `{K : Kernel} {TS : TupleStore} (d : bytes) (rel : kds_relation) (key : Z).
Context (Hd : bytes_ok d) (Hlen : 8 <= zlen d <= 8102).
Abbreviation root := (root_page_id rel).

Lemma find_position_search n : node_wf n -> find_position n key = btree_search_position n key.
Proof. intros Hn. unfold find_position, btree_search_position. by rewrite count_int. Qed.

(** The root is a leaf in the cache, with room, and the slot at the left of
    [key] is empty. *)
Record empty_left (pl : kds_buf_pool) (fid : nat) (k : kds_page) (p : bytes) (n : kds_btree_node) (pos : nat) : Prop := {
  el_kind : rel_kind rel = clustered_val KDS_CLUSTERED_BTREE;
  el_root : root <> 0;
  el_wf : pool_wf pl;
  el_map : buf_map pl !! root = Some fid;
  el_page : cached pl root = Some (k, p);
  el_type : kds_is_btree_page (kp_hdr k) = true;
  el_bytes : bytes_ok p;
  el_node : node_at p fid = n;
  el_nwf : node_wf n;
  el_nok : node_ok n;
  el_level : level n = 0;
  el_room : key_count n < 4;
  el_pos : btree_search_position n key = Some pos;
  el_slot : slot_at n pos = Some 0 }.

(** The executor's cursor at the leaf. *)
Definition at_leaf (n : kds_btree_node) (pos : nat) : kds_btree_cursor :=
  Cursor (<[0%nat := n]> (cnodes btree_cursor_init)) (<[0%nat := pos]> (positions btree_cursor_init)) 0.
Definition fresh_exec : kds_btree_insert_exec := kds_btree_insert_exec_init (Some rel) key (Some d) (zlen d).
Definition deadline (t : Z) (x : kds_btree_insert_exec) : kds_btree_insert_exec :=
  set_bx_base (ExecState (ex_ret (bx_base x)) t (units_done (bx_base x))) x.
(** The executor after its probe. *)
Definition probed (t : Z) (n : kds_btree_node) (pos : nat) : kds_btree_insert_exec :=
  set_need_new_page true (set_target root (bx_unit (set_bx_cursor (at_leaf n pos) (deadline t fresh_exec)))).

Section Run.
Context (pl : kds_buf_pool) (fid : nat) (k : kds_page) (p : bytes) (n : kds_btree_node) (pos : nat).
Context (HL : empty_left pl fid k p n pos).
Let pl1 : kds_buf_pool := put root (pinned k) p pl.

Lemma pinned_root s : kds_buf_lookup_or_load root (wp pl s) = Ret (PTR fid) (wp pl1 s) /\
  pool_wf pl1 /\ buf_map pl1 !! root = Some fid /\ cached pl1 root = Some (pinned k, p) /\ only_page root pl pl1.
Proof.
  destruct HL. destruct (hit_put root pl s k p el_wf0 el_page0) as (fid' & Hm & E). assert (fid' = fid) as -> by congruence.
  pose proof (cached_fits pl el_wf0 root k p el_page0) as Hfit.
  destruct (put_spec pl el_wf0 root k p (pinned k) p el_page0 Hfit) as (Hwf1 & Ho & Hc1). split_and!; try done. unfold pl1. by rewrite buf_map_put.
Qed.
(** The executor pins the leaf, mistakes it for a heap page without slots
    and without room, and asks for a new page. *)
Lemma search_at_leaf t s e :
  btree_insert_run_search_and_prepare rel (deadline t fresh_exec) (at_pool pl s e) =
    Ret (KDS_EXEC_DONE, probed t n pos) (at_pool pl1 s e).
Proof.
  destruct (pinned_root s) as (E & Hwf1 & Hm1 & Hc1 & _). pose proof HL as HL'. destruct HL'.
  destruct (hit_put root pl1 s (pinned k) p Hwf1 Hc1) as (fid' & Hm' & E2). assert (fid' = fid) as -> by congruence.
  pose proof (cached_fits pl1 Hwf1 root _ p Hc1) as Hfit. pose proof (proj1 (proj2 Hfit)) as Hz.
  destruct (put_spec pl1 Hwf1 root (pinned k) p (pinned (pinned k)) p Hc1 Hfit) as (Hwf2 & _ & Hc2). set (pl2 := put root (pinned (pinned k)) p pl1) in *.
  assert (Hm2 : buf_map pl2 !! root = Some fid) by (unfold pl2; by rewrite buf_map_put).
  unfold btree_insert_run_search_and_prepare. change (BTREE_MAX_DEPTH - depth (bx_cursor (deadline t fresh_exec)))%nat with (S 15). generalize 15%nat. intros fuel.
  cbn [search_from]. change (current_page_id (deadline t fresh_exec)) with root. erewrite bind_ok by (apply on_kds_at; exact E). cbn beta iota.
  erewrite bind_ok by (apply on_kds_at; by eapply load_at). rewrite el_node0, find_position_search, el_pos0 by done.
  cbn [in_bounds]. erewrite bind_ok by reflexivity. rewrite el_level0. cbn [Z.eqb]. cbn iota. unfold probe_leaf. rewrite el_slot0.
  cbn [in_bounds]. erewrite bind_ok by reflexivity. cbn [Z.eqb]. apply Z.eqb_neq in el_root0. rewrite el_root0.
  erewrite bind_ok by (apply on_kds_at; exact E2). cbn beta iota.
  assert (Hmeta : p_meta p = HeapMeta 0 0 0 0) by (eapply (leaf_meta p fid); [exact Hz|done|by rewrite el_node0]).
  assert (Hn : on_frame fid heap_nr_slots (wp pl2 s) = Ret 0 (wp pl2 s)).
  { destruct (frame_read root fid heap_nr_slots pl2 s _ p (fun a => a = 0) Hwf2 Hm2 Hc2) as (a & -> & ->); [|done].
    intros f Hf. exists 0. split; [|done]. rewrite <- (frame_live_eq f _ p Hf). unfold heap_nr_slots. rewrite guard_frame_live'.
    erewrite bind_ok by (by apply ld_meta_live). by rewrite Hmeta. }
  erewrite bind_ok by (apply on_kds_at; exact Hn). erewrite bind_ok by reflexivity. cbn [Z.eqb negb].
  assert (Hs : on_frame fid (heap_has_space (zlen d)) (wp pl2 s) = Ret false (wp pl2 s)).
  { destruct (frame_read root fid (heap_has_space (zlen d)) pl2 s _ p (fun a => a = false) Hwf2 Hm2 Hc2) as (a & -> & ->); [|done].
    intros f Hf. exists false. split; [|done]. rewrite <- (frame_live_eq f _ p Hf). unfold heap_has_space, heap_free_space. rewrite guard_frame_live'.
    unfold KDS_PAGE_SIZE at 1. destruct (Z.ltb_spec (8 * 1024) (zlen d)); [done|]. cbn zeta.
    erewrite bind_ok; [|rewrite guard_frame_live'; erewrite bind_ok by (by apply ld_meta_live); rewrite Hmeta; reflexivity].
    unfold ret. do 2 f_equal. unfold KDS_HEAP_SLOT_SIZE, KDS_HEAP_TUPLE_HDR_SIZE. cbn [lower upper Z.ltb Z.compare].
    rewrite u16_small by lia. apply Z.leb_gt. lia. }
  erewrite bind_ok by (apply on_kds_at; exact Hs).
  erewrite bind_ok by (apply on_kds_at; eapply (unpin_put root); done). rewrite unpinned_pinned. unfold pl2. by rewrite put_put, put_same by done.
Qed.

(** The three log phases change the log and take one allocation. *)
Lemma log_phases x s e :
  bx_data x = Some d -> bx_len x = zlen d -> need_new_page x = true -> bx_cursor x = at_leaf n pos ->
  exists e', brun_wal_init x (at_pool pl1 s e) =
    brun_heap_insert (set_bx_phase KDS_BTREE_INSERT_PHASE_HEAP_INSERT x) (at_pool pl1 (set_tick (S (tick s)) s) e').
Proof.
  intros Hx1 Hx2 Hx3 Hx4. destruct (pinned_root s) as (_ & Hwf1 & Hm1 & Hc1 & _). pose proof HL as HL'. destruct HL'.
  assert (Hwal : forall h b s e, exists r e', kds_wal_append h b (at_pool pl1 s e) = Ret r (at_pool pl1 s e')).
  { intros h b s0 e0. destruct (wal_append_total h b (at_pool pl1 s0 e0)) as (r & e' & E & Hk). exists r, e'. rewrite E. f_equal. by apply at_pool_kds. }
  unfold brun_wal_init, btree_insert_run_wal_init_page.
  destruct (Hwal (new_rec KDS_BTREE_EXEC_XID KDS_WAL_REC_INIT_PAGE 12) (Some (init_page_body 0 KDS_PAGE_TYPE_HEAP)) s e) as (r1 & e1 & E1).
  erewrite bind_ok by (by erewrite bind_ok by exact E1). unfold brun_wal_insert, btree_insert_run_wal_insert.
  change (need_new_page (set_bx_phase _ x)) with (need_new_page x). rewrite Hx3. cbn [bx_len bx_data set_bx_phase]. rewrite Hx1, Hx2.
  destruct (log_row_total KDS_BTREE_EXEC_XID d 0 0 pl1 s e1) as (e2 & E2). erewrite bind_ok by exact E2.
  set (s1 := set_tick (S (tick s)) s). unfold brun_wal_btree, btree_insert_run_wal_btree. cbn [bx_cursor set_bx_phase]. rewrite Hx4.
  destruct (Hwal (new_rec KDS_BTREE_EXEC_XID KDS_WAL_REC_INSERT 16) (Some (page_mod_body root 0 16)) s1 e2) as (r3 & e3 & E3).
  exists e3. erewrite bind_ok; [reflexivity|]. erewrite bind_ok by reflexivity.
  assert (bframe n = Some fid) as -> by (by rewrite <- el_node0).
  erewrite bind_ok by (apply on_kds_at; eapply (kp_at root fid _ _ (pinned k) p kp_id); done).
  assert (kp_id (pinned k) = root) as -> by (by apply (cached_fits pl1 Hwf1) in Hc1 as [? _]). by erewrite bind_ok by exact E3.
Qed.
(** The leaf gets the key and the new page, and is released. *)
Lemma leaf_insert pl2 s rid n' :
  pool_wf pl2 -> buf_map pl2 = buf_map pl -> cached pl2 root = Some (pinned k, p) -> u64_ok key -> u64_ok rid ->
  btree_node_insert_at n pos key rid = Some n' ->
  exists pl3, kds_btree_cursor_insert (at_leaf n pos) key rid (wp pl2 s) = Ret 0 (wp pl3 s) /\
    pool_wf pl3 /\ only_page root pl2 pl3 /\ exists p', cached pl3 root = Some (k, p') /\ node_at p' fid = n'.
Proof.
  intros Hwf2 Hm2 Hc2 Hkey Hrid Hins. pose proof HL as HL'. destruct HL'.
  destruct (search_position_spec n key el_nwf0) as (pos' & Epos & Hle & _). assert (pos' = pos) as -> by congruence.
  pose proof (insert_at_ok n pos key rid n' el_nwf0 el_nok0 el_room0 Hle Hkey Hrid Hins) as Hok'. pose proof Hok' as (Hk4 & Hs5 & _).
  destruct (insert_at_spec n pos key rid el_nwf0 el_room0 Hle) as (n2 & En & _ & _ & _ & Hfr & _). assert (n2 = n') as -> by congruence.
  assert (Hbf : bframe n' = Some fid) by (by rewrite Hfr, <- el_node0).
  pose proof (cached_fits pl2 Hwf2 root _ p Hc2) as (Hid & Hz & Hres). set (p' := patch p KDS_PAGE_HDR_SIZE (node_enc n')).
  assert (Hfit : page_fits root (pinned k) p') by (split; [done|]; split; [by apply zlen_patch_node|done]).
  destruct (put_spec pl2 Hwf2 root (pinned k) p (pinned k) p' Hc2 Hfit) as (Hwf3 & _ & Hc3).
  destruct (put_spec pl2 Hwf2 root (pinned k) p k p' Hc2 Hfit) as (Hwf4 & Ho4 & Hc4).
  exists (put root k p' pl2). split; [|split; [done|split; [done|by exists p'; split; [done|apply node_at_patch]]]].
  unfold kds_btree_cursor_insert. erewrite (bind_ok (cnode _ _)) by reflexivity. erewrite (bind_ok (cpos _ _)) by reflexivity.
  apply Z.ltb_lt in el_room0. change BTREE_MAX_KEYS with 4. rewrite el_room0, Hins. cbn [in_bounds]. erewrite (bind_ok (ret n')) by reflexivity.
  erewrite bind_ok by (eapply (store_at root fid); try done; [by rewrite Hm2|by apply zlen_node_enc]).
  erewrite bind_ok; [reflexivity|]. unfold btree_cursor_cleanup. cbn [at_leaf depth seq cleanup_loop]. erewrite (bind_ok (cnode _ _)) by reflexivity.
  rewrite <- el_node0 at 1. cbn [node_at node_dec bframe].
  erewrite bind_ok by (eapply (unpin_put root); [done|by rewrite buf_map_put, Hm2|done]). by rewrite unpinned_pinned, put_put.
Qed.

(** The rows that the executor may still add: a spare page. *)
Lemma staged_other s s' rid rfid q rk rp : rid <> root -> g_alloc s' = g_alloc s ->
  staged_root (wp pl s) pl rfid q rid rk rp -> staged_root (wp pl1 s') pl1 rfid q rid rk rp.
Proof.
  intros Hne Ha [[H1 H2 (a & Hg & Hr)] H4 H5 H6 H7 H8]. destruct (pinned_root s) as (_ & Hwf1 & _ & _ & [Hm _ Ho]).
  split; try done; [|by rewrite Hm|by rewrite Ho]. split; [done|done|]. exists a. split; [|done]. cbn in *. by rewrite Ha.
Qed.
(** The first two phases, as one step. *)
Lemma to_heap_insert t s e : exists e', kds_btree_insert_exec_run (deadline t fresh_exec) (at_pool pl s e) =
  brun_heap_insert (set_bx_phase KDS_BTREE_INSERT_PHASE_HEAP_INSERT (probed t n pos)) (at_pool pl1 (set_tick (S (tick s)) s) e').
Proof.
  destruct (log_phases (probed t n pos) s e) as (e' & E); [done..|]. exists e'. rewrite <- E.
  unfold kds_btree_insert_exec_run. change (bx_rel (deadline t fresh_exec)) with (Some rel). cbn iota.
  rewrite (el_kind _ _ _ _ _ _ HL), Z.eqb_refl. cbn [negb]. pose proof (el_root _ _ _ _ _ _ HL) as Hr. apply Z.eqb_neq in Hr. rewrite Hr.
  change (bx_phase (deadline t fresh_exec)) with KDS_BTREE_INSERT_PHASE_SEARCH_AND_PREPARE. cbn iota. unfold brun_search.
  by erewrite bind_ok by apply search_at_leaf.
Qed.
End Run.

(** The row in a page of its own. *)
Lemma new_page_insert pl s e x rid rfid q rk rp :
  bx_data x = Some d -> bx_len x = zlen d -> need_new_page x = true -> staged_root (wp pl s) pl rfid q rid rk rp ->
  exists pl' a, btree_insert_run_heap_insert x (at_pool pl s e) =
      Ret (KDS_EXEC_DONE, bx_unit (set_new_page rid (bx_key x) (set_bx_tid (Some (Tid rid 0)) x))) (at_pool pl' (set_g_alloc (Some a) s) e) /\
    pool_wf pl' /\ only_page rid pl pl' /\ heap_page pl' rid [new_tuple KDS_BTREE_EXEC_XID d] (8135 - (33 + zlen d)) 0.
Proof.
  intros Hx1 Hx2 Hx3 Hst. pose proof (as_wf _ _ _ (sr_alloc _ _ _ _ _ _ _ Hst)) as Hwf.
  destruct (new_page_spec KDS_BTREE_EXEC_XID d Hd Hlen ltac:(by vm_compute) pl s rid rfid q rk rp Hst)
    as (a & s3 & s4 & k3 & q3 & E1 & E2 & E3 & Hfit & Hq3 & Hv3 & Hf3 & Hn3).
  destruct (put_spec pl Hwf rid rk rp k3 q3 (sr_page _ _ _ _ _ _ _ Hst) Hfit) as (Hwf3 & _ & Hc3).
  assert (Hmr : buf_map (put rid k3 q3 pl) !! rid = Some rfid) by (rewrite buf_map_put; apply Hst).
  destruct (put_spec pl Hwf rid rk rp (unpinned k3) q3 (sr_page _ _ _ _ _ _ _ Hst) Hfit) as (Hwf4 & Ho4 & Hc4).
  exists (put rid (unpinned k3) q3 pl), a. split; [|split; [done|split; [done|by exists (unpinned k3), q3]]].
  assert (Hkid : kp_id k3 = rid) by apply Hfit. unfold btree_insert_run_heap_insert. rewrite Hx1, Hx2, Hx3.
  erewrite bind_ok by (apply on_kds_at; exact E1). cbn beta iota. erewrite bind_ok by (apply on_kds_at; exact E2).
  erewrite bind_ok by (apply on_kds_at; exact E3). cbn beta iota. cbn [Z.eqb negb].
  erewrite bind_ok by (apply on_kds_at; eapply (kp_at rid rfid _ _ k3 q3 kp_id); done).
  erewrite bind_ok by (apply on_kds_at; eapply (unpin_put rid rfid); done). by rewrite put_put, Hkid.
Qed.

(** C31.  Duplicate keys are accepted in b-tree tables.  When the slot at the
    left of the key's position in the leaf is empty (as it is for every key
    up to the smallest one of a table), the executor looks for the key in
    the b-tree page instead of a heap page and does not find it: whether or
    not the key is in the leaf already, the row goes to a page of its own
    and the key is entered (once more) with that page. *)
Theorem btree_exec_accepts_duplicate pl fid k p n pos s e rid rfid q rk rp t :
  empty_left pl fid k p n pos -> staged_root (wp pl s) pl rfid q rid rk rp -> rid <> root -> u64_ok key ->
  k_ns (S (tick s)) < t -> k_ns (S (S (tick s))) < t ->
  exists x' pl' s' e', kds_btree_insert_exec_run (deadline t fresh_exec) (at_pool pl s e) = Ret (KDS_EXEC_DONE, x') (at_pool pl' s' e') /\
    bx_tid x' = Tid rid 0 /\ heap_page pl' rid [new_tuple KDS_BTREE_EXEC_XID d] (8135 - (33 + zlen d)) 0 /\
    exists p' n', cached pl' root = Some (k, p') /\ node_at p' fid = n' /\
      node_keys n' = take pos (node_keys n) ++ key :: drop pos (node_keys n) /\
      node_slots n' = take (S pos) (node_slots n) ++ rid :: drop (S pos) (node_slots n).
Proof.
  intros HL Hst Hne Hkey Ht1 Ht2. pose proof HL as HL'. destruct HL'. destruct (to_heap_insert pl fid k p n pos HL t s e) as (e1 & E). rewrite E. clear E.
  destruct (pinned_root pl fid k p n pos HL s) as (_ & Hwf1 & Hm1 & Hc1 & Ho1).
  set (pl1 := put root (pinned k) p pl) in *. set (s1 := set_tick (S (tick s)) s). set (x1 := set_bx_phase _ _).
  unfold brun_heap_insert. erewrite bind_ok by apply expired_at. change (deadline_ns (bx_base x1)) with t. cbn [tick set_tick s1].
  destruct (Z.leb_spec t (k_ns (S (tick s)))); [lia|]. set (s2 := set_tick _ s1).
  pose proof (staged_other pl fid k p n pos HL s s2 rid rfid q rk rp Hne eq_refl Hst) as Hst1.
  destruct (new_page_insert pl1 s2 e1 x1 rid rfid q rk rp eq_refl eq_refl eq_refl Hst1) as (pl4 & a & E4 & Hwf4 & Ho4 & Hrow).
  erewrite bind_ok by exact E4. cbn beta iota. change (need_new_page (bx_unit _)) with true. cbn iota. unfold brun_btree_insert.
  erewrite bind_ok by apply expired_at. match goal with |- context [deadline_ns ?b <=? _] => change (deadline_ns b) with t end.
  cbn [tick set_tick s2 s1 set_g_alloc]. destruct (Z.leb_spec t (k_ns (S (S (tick s))))); [lia|].
  destruct (search_position_spec n key el_nwf0) as (pos' & Epos & Hle & _). assert (pos' = pos) as -> by congruence.
  destruct (insert_at_spec n pos key rid el_nwf0 el_room0 Hle) as (n' & En & _ & _ & _ & _ & _ & _ & Hks & Hss).
  assert (Hc4 : cached pl4 root = Some (pinned k, p)) by (rewrite (op_rest _ _ _ Ho4) by congruence; done).
  assert (Hm4 : buf_map pl4 = buf_map pl) by (rewrite (op_map _ _ _ Ho4); unfold pl1; by rewrite buf_map_put).
  match goal with |- context [at_pool pl4 ?s ?e] => set (s6 := s); set (e6 := e) end.
  destruct (leaf_insert pl fid k p n pos HL pl4 s6 rid n' Hwf4 Hm4 Hc4 Hkey (sr_id _ _ _ _ _ _ _ Hst) En) as (pl5 & E5 & Hwf5 & Ho5 & p' & Hc5 & Hn5).
  unfold btree_insert_run_btree_insert. erewrite bind_ok by (erewrite bind_ok by (apply on_kds_at; exact E5); reflexivity).
  eexists _, pl5, s6, _. split; [reflexivity|]. split; [done|]. split; [by eapply heap_page_other|].
  exists p', n'. done.
Qed.

(** An insertion that fails after the descent keeps its pages pinned:
    when no page can be allocated the executor answers ENOSPC, the error
    path does not release the cursor, and the root's reference count stays
    one higher for good. *)
Theorem btree_exec_leaks_pin pl fid k p n pos s e t :
  empty_left pl fid k p n pos -> alloc_state (wp pl s) pl [] -> k_ns (S (tick s)) < t ->
  exists x' pl' s' e', kds_btree_insert_exec_run (deadline t fresh_exec) (at_pool pl s e) = Ret (KDS_EXEC_ERROR, x') (at_pool pl' s' e') /\
    ex_ret (bx_base x') = - ENOSPC /\ cached pl' root = Some (pinned k, p) /\ only_page root pl pl'.
Proof.
  intros HL Ha Ht. destruct (to_heap_insert pl fid k p n pos HL t s e) as (e1 & E). rewrite E. clear E.
  destruct (pinned_root pl fid k p n pos HL s) as (_ & Hwf1 & Hm1 & Hc1 & Ho1).
  set (pl1 := put root (pinned k) p pl) in *. set (s1 := set_tick (S (tick s)) s). set (x1 := set_bx_phase _ _).
  unfold brun_heap_insert. erewrite bind_ok by apply expired_at. change (deadline_ns (bx_base x1)) with t. cbn [tick set_tick s1].
  destruct (Z.leb_spec t (k_ns (S (tick s)))); [lia|]. set (s2 := set_tick _ s1).
  assert (Ha1 : alloc_state (wp pl1 s2) pl1 []) by (destruct Ha as [_ _ Ha]; by split).
  unfold btree_insert_run_heap_insert. change (need_new_page x1) with true. cbn iota.
  erewrite bind_ok by (erewrite bind_ok by (apply on_kds_at; exact (page_alloc_spec KDS_PAGE_TYPE_HEAP (wp pl1 s2) pl1 [] Ha1)); reflexivity).
  eexists _, pl1, s2, e1. split; [reflexivity|]. done.
Qed.
End Spec.

(** ** Concrete instances

    A leaf (page 200) that holds the key 7 already, and a spare page (201). *)
#[local] Opaque KDS_BUF_NR_FRAMES.
#[local] Existing Instance stopped_kernel.
Definition bt_rel : kds_relation := Relation 4001 1 1 200 [].
Definition bt_node (fid : option nat) : kds_btree_node := BNode 0 1 [7; 0; 0; 0] [0; 150; 0; 0; 0] 0 0 fid.
Definition bt_page : bytes := patch (zeros KDS_PAGE_SIZE) KDS_PAGE_HDR_SIZE (node_enc (bt_node None)).
Definition bt_pool : kds_buf_pool := pool_of [(cat_kp 201, zeros KDS_PAGE_SIZE); (idx_kp, bt_page)].
Definition bt_state (r : kds_page_allocator) : kds_state := set_g_alloc (Some r) (set_g_pool (Some bt_pool) demo_state).
Definition bt_env : wal_env := WalEnv demo_state None 0 0.
Lemma bt_pool_ok : pool_wf bt_pool /\ cached bt_pool 200 = Some (idx_kp, bt_page) /\ cached bt_pool 201 = Some (cat_kp 201, zeros KDS_PAGE_SIZE).
Proof.
  destruct (pool_of_ok [(cat_kp 201, zeros KDS_PAGE_SIZE); (idx_kp, bt_page)]) as (Hwf & _ & Hc).
  - pose proof nr_frames. cbn. lia.
  - cbn. repeat constructor; rewrite ?elem_of_cons, ?elem_of_nil; lia.
  - constructor; [split; [done|]; split; [by apply zlen_zeros|done]|]. constructor; [|constructor].
    split; [done|]. split; [by vm_compute|done].
  - split; [exact Hwf|]. split; [apply (Hc idx_kp); right; left|apply (Hc (cat_kp 201)); left].
Qed.
Lemma bt_leaf : empty_left bt_rel 7 bt_pool 0 idx_kp bt_page (bt_node (Some 0%nat)) 0.
Proof.
  destruct bt_pool_ok as (Hwf & Hc & _).
  assert (Hn : node_at bt_page 0 = bt_node (Some 0%nat)) by (vm_compute; reflexivity).
  split; [reflexivity|discriminate|exact Hwf| |exact Hc|reflexivity|apply demo_bytes_ok; vm_compute; reflexivity|exact Hn
    |split; [reflexivity|reflexivity|cbn; lia]| |reflexivity|cbn; lia|reflexivity|reflexivity].
  - unfold bt_pool. cbn [pool_of publish buf_map]. rewrite lookup_insert_ne by discriminate. apply lookup_insert_eq.
  - apply node_ok_small; [split; [reflexivity|reflexivity|cbn; lia]|]. cbn. repeat constructor; lia.
Qed.
Lemma bt_staged : staged_root (wp bt_pool (bt_state (ring_push 1 empty_ring))) bt_pool 1 [] 201 (cat_kp 201) (zeros KDS_PAGE_SIZE).
Proof.
  destruct bt_pool_ok as (Hwf & Hc & Hc1). split.
  - split; [reflexivity|exact Hwf|]. exists (ring_push 1 empty_ring). split; [reflexivity|].
    apply (ring_push_spec empty_ring []); [apply empty_ring_is|reflexivity].
  - unfold bt_pool. cbn [pool_of publish buf_map]. apply lookup_insert_eq.
  - exact Hc1.
  - apply bytes_ok_zeros.
  - apply cat_hdr_ok.
  - split; [discriminate|reflexivity].
Qed.
#[local] Opaque bt_pool bt_page demo_state.
Lemma btree_exec_accepts_duplicate_witness :
  exists x' pl' s' e', kds_btree_insert_exec_run (deadline 5 (fresh_exec (tab_row 7 0) bt_rel 7)) (at_pool bt_pool (bt_state (ring_push 1 empty_ring)) bt_env) =
      Ret (KDS_EXEC_DONE, x') (at_pool pl' s' e') /\
    exists p', cached pl' 200 = Some (idx_kp, p') /\ node_keys (node_at p' 0) = [7; 7] /\ node_slots (node_at p' 0) = [0; 201; 150].
Proof.
  destruct bt_pool_ok as (Hwf & Hc & Hc1).
  assert (Hst := bt_staged).
  assert (Hk64 : u64_ok 7) by (split; [discriminate|reflexivity]).
  assert (Hl : 8 <= zlen (tab_row 7 0) <= 8102) by (split; discriminate).
  destruct (btree_exec_accepts_duplicate (tab_row 7 0) bt_rel 7 (tab_row_ok 7 0) Hl bt_pool 0 idx_kp bt_page (bt_node (Some 0%nat)) 0
    (bt_state (ring_push 1 empty_ring)) bt_env 201 1 [] (cat_kp 201) (zeros KDS_PAGE_SIZE) 5 bt_leaf Hst)
    as (x' & pl' & s' & e' & E & _ & _ & p' & n' & Hp' & <- & Hk & Hs).
  { discriminate. }
  { exact Hk64. }
  { reflexivity. }
  { reflexivity. }
  exists x', pl', s', e'. split; [exact E|]. exists p'. split; [exact Hp'|]. split; [exact Hk|exact Hs].
Defined.
Lemma btree_exec_leaks_pin_witness :
  exists x' pl' s' e', kds_btree_insert_exec_run (deadline 5 (fresh_exec (tab_row 7 0) bt_rel 7)) (at_pool bt_pool (bt_state empty_ring) bt_env) =
      Ret (KDS_EXEC_ERROR, x') (at_pool pl' s' e') /\ cached pl' 200 = Some (pinned idx_kp, bt_page).
Proof.
  destruct bt_pool_ok as (Hwf & _ & _).
  assert (Ha : alloc_state (wp bt_pool (bt_state empty_ring)) bt_pool []).
  { split; [done|exact Hwf|]. exists empty_ring. split; [done|apply empty_ring_is]. }
  destruct (btree_exec_leaks_pin (tab_row 7 0) bt_rel 7 ltac:(by vm_compute) bt_pool 0 idx_kp bt_page (bt_node (Some 0%nat)) 0
    (bt_state empty_ring) bt_env 5 bt_leaf Ha) as (x' & pl' & s' & e' & E & _ & Hc & _); [by vm_compute|].
  exists x', pl', s', e'. split; [exact E|exact Hc].
Defined.
