(* ===== verification/Dshell.v ===== *)
(** * Dshell: the debug shell (kernel/kds/dshell.c, kds_dshell.h)

    A client writes one statement into /dev/kds and reads its response.
    A statement that needs an executor is published in the client and run by
    the shell's scheduler process, while the write waits; so a command comes
    in two halves, and the process in three, cut where another thread can
    run.  [do_event] is one such piece.

    Relations are objects found by address in [rels], because a command can
    close one while the process still uses it; clients are found in
    [clients].  An access to an object that was freed is a [Fault]. *)
From S2P Require Import Prelude Layout State Disk Pool Alloc Heap Btree Types Parser Catalog Relation Wal ExecHeap ExecBtree.
From stdpp Require Import prelude gmap list strings.
From Stdlib Require Import ZArith Lia.
Local Open Scope Z_scope.
Local Open Scope list_scope.
Local Open Scope kds_scope.

Definition DSHELL_LINE_MAX : nat := 256.
Definition DSHELL_RESP_MAX : Z := 512.
Definition KDS_DSHELL_XID : Z := 1.
Definition KDS_DSHELL_ROW_MAX : Z := 256.
Definition KDS_PARSER_ERR_MAX : Z := 256.

(** ** Text *)
Definition fmt_u (v : Z) : bytes := dec_digits 20 v.
Fixpoint hex_digits_of (fuel : nat) (z : Z) : bytes :=
  match fuel with
  | O => []
  | S fuel => (if z <? 16 then [] else hex_digits_of fuel (z / 16)) ++ [at_ hexdigits (Z.to_nat (z mod 16))]
  end.
Definition fmt_llx (v : Z) : bytes := hex_digits_of 16 v.
Definition line (s : bytes) : bytes := s ++ [10].
(** [n += scnprintf(out + n, out_size - n, ...)]: the new [n] and the text
    that now stands in [out]. *)
Definition append_at (out_size n : Z) (out s : bytes) : Z * bytes :=
  let '(k, t) := scnprintf (out_size - n) s in (n + k, take (Z.to_nat n) out ++ t).
(** The whole response. *)
Definition respond (s : bytes) : bytes := snd (scnprintf DSHELL_RESP_MAX s).

(** ** Rows as text and as bytes *)
Section Rows.
Context `{KS : Kstrtoll}.

(** The result and the text written to [out], [n] characters so far.
    [off] is the position in [buf]. *)
Fixpoint decode_cols (cols : kds_schema) (first : bool) (buf : bytes) (buf_len off out_size n : Z) (out : bytes) : Z * bytes :=
  match cols with
  | [] => (n, out)
  | col :: cols =>
      match kds_type_lookup_by_val (sc_type_val col) with
      | None => (- EINVAL, out)
      | Some desc =>
          let '(n, out) := if first then (n, out) else append_at out_size n out (cstr ", ") in
          if (fixed_len desc =? 0) && (buf_len <? off + 2) then (- EINVAL, out) else
          let '(value_len, off) :=
            if fixed_len desc =? 0 then (le_val (sub buf off 2), off + 2) else (fixed_len desc, off) in
          if buf_len <? off + value_len then (- EINVAL, out) else
          let '(n, out) := append_at out_size n out (c_str (sc_name col) ++ cstr "=") in
          let '(decoded, t) := Types.decode desc (drop (Z.to_nat off) buf) value_len (out_size - n) in
          if decoded <? 0 then (decoded, out) else
          decode_cols cols false buf buf_len (off + value_len) out_size (n + decoded) (take (Z.to_nat n) out ++ t)
      end
  end.
Definition kds_dshell_decode_row (schema : kds_schema) (buf : bytes) (buf_len out_size : Z) : Z * bytes :=
  decode_cols schema true buf buf_len 0 out_size 0 [].

(** The text an encoder gets. *)
Definition val_str (v : kds_ast_val) : bytes :=
  match v with
  | KDS_VAL_INT i => snd (scnprintf (Z.of_nat KDS_PARSER_VAL_MAX) (fmt_lld i))
  | KDS_VAL_STR s => take (KDS_PARSER_VAL_MAX - 1) (c_str s)
  | KDS_VAL_NULL => []
  end.
(** The result and the bytes of [buf] in use; [None] is an access to a value
    the statement does not have. *)
Fixpoint encode_cols (cols : kds_schema) (vals : list kds_ast_val) (buf_size : Z) (buf : bytes) : option (Z * bytes) :=
  match cols with
  | [] => Some (0, buf)
  | col :: cols =>
      match vals with
      | [] => None
      | val :: vals =>
          match kds_type_lookup_by_val (sc_type_val col) with
          | None => Some (- EINVAL, buf)
          | Some desc =>
              let off := zlen buf in
              if fixed_len desc =? 0 then
                if buf_size <? off + 2 then Some (- ENOSPC, buf) else
                let '(r, b) := Types.encode desc (val_str val) (buf_size - off - 2) in
                if negb (r =? 0) then Some (r, buf) else
                encode_cols cols vals buf_size (buf ++ le_bytes 2 (u16 (zlen b)) ++ b)
              else
                if buf_size <? off + fixed_len desc then Some (- ENOSPC, buf) else
                let '(r, b) := Types.encode desc (val_str val) (buf_size - off) in
                if negb (r =? 0) then Some (r, buf) else
                encode_cols cols vals buf_size (buf ++ b)
          end
      end
  end.
(** The result and the row; [*out_len] is the 16-bit length of the row. *)
Definition kds_dshell_encode_row_from_vals (schema : kds_schema) (vals : list kds_ast_val) (buf_size : Z) : option (Z * bytes) :=
  encode_cols schema vals buf_size [].
End Rows.

(** ** State *)
Record kds_db := Db { db_wal : wal_env; db_sys_objects : list kds_sys_object; db_oid_counter : Z }.

(** What is in [exec_buf]; the executors point to the relation at [rel]. *)
Inductive dshell_exec :=
  | HeapExecBuf (rel : nat) (x : kds_heap_insert_exec)
  | BtreeExecBuf (rel : nat) (x : kds_btree_insert_exec).
(** The frame of a write that waits: what the command needs afterwards. *)
Inductive dshell_wait :=
  | WaitHeapInsert (table_name : bytes) (rel : nat)
  | WaitBtreeInsert (table_name : bytes) (rel : nat) (pk : Z).
(** [resp_buf] is its text; [done] counts completions. *)
Record kds_dshell_client := Client {
  resp_buf : bytes; resp_len : Z; resp_pos : Z;
  exec_pending : bool; exec_buf : option dshell_exec; done_count : nat;
  waiting : option dshell_wait }.
Definition set_resp (s : bytes) (c : kds_dshell_client) : kds_dshell_client :=
  Client s (zlen s) 0 (exec_pending c) (exec_buf c) (done_count c) (waiting c).
Definition set_resp_pos (p : Z) (c : kds_dshell_client) : kds_dshell_client :=
  Client (resp_buf c) (resp_len c) p (exec_pending c) (exec_buf c) (done_count c) (waiting c).
Definition set_pending (b : bool) (c : kds_dshell_client) : kds_dshell_client :=
  Client (resp_buf c) (resp_len c) (resp_pos c) b (exec_buf c) (done_count c) (waiting c).
Definition set_exec_buf (x : dshell_exec) (c : kds_dshell_client) : kds_dshell_client :=
  Client (resp_buf c) (resp_len c) (resp_pos c) (exec_pending c) (Some x) (done_count c) (waiting c).
Definition set_done (n : nat) (c : kds_dshell_client) : kds_dshell_client :=
  Client (resp_buf c) (resp_len c) (resp_pos c) (exec_pending c) (exec_buf c) n (waiting c).
Definition set_waiting (w : option dshell_wait) (c : kds_dshell_client) : kds_dshell_client :=
  Client (resp_buf c) (resp_len c) (resp_pos c) (exec_pending c) (exec_buf c) (done_count c) w.

(** Where the process is: outside, about to run an executor with the list
    unlocked, or back from it before it takes the lock again. *)
Inductive proc_pos := ProcOut | ProcPicked (c : nat) | ProcRan (c : nat) (r : kds_exec_result).
Record dshell := Dshell {
  db : kds_db; clients : gmap nat kds_dshell_client; kds_dshell_clients : list nat; next_client : nat;
  rels : gmap nat kds_relation; next_rel : nat; proc : proc_pos }.
Definition set_db (x : kds_db) (s : dshell) : dshell :=
  Dshell x (clients s) (kds_dshell_clients s) (next_client s) (rels s) (next_rel s) (proc s).
Definition set_clients (x : gmap nat kds_dshell_client) (s : dshell) : dshell :=
  Dshell (db s) x (kds_dshell_clients s) (next_client s) (rels s) (next_rel s) (proc s).
Definition set_client_list (x : list nat) (s : dshell) : dshell :=
  Dshell (db s) (clients s) x (next_client s) (rels s) (next_rel s) (proc s).
Definition set_rels (x : gmap nat kds_relation) (s : dshell) : dshell :=
  Dshell (db s) (clients s) (kds_dshell_clients s) (next_client s) x (next_rel s) (proc s).
Definition set_proc (x : proc_pos) (s : dshell) : dshell :=
  Dshell (db s) (clients s) (kds_dshell_clients s) (next_client s) (rels s) (next_rel s) x.

Section Dshell.
Context `{K : Kernel} {KS : Kstrtoll} {CT : Ctype}.

Definition on_wal {A} (m : M wal_env A) : M dshell A := fun s =>
  let d := db s in
  match m (db_wal d) with
  | Ret a e => Ret a (set_db (Db e (db_sys_objects d) (db_oid_counter d)) s)
  | Halt h e => Halt h (set_db (Db e (db_sys_objects d) (db_oid_counter d)) s)
  end.
Definition on_db {A} (m : M kds_state A) : M dshell A := on_wal (on_kds m).
Definition on_catalog {A} (m : M catalog_env A) : M dshell A := fun s =>
  let d := db s in
  let put e := set_db (Db (WalEnv (ce_kds e) (g_wal (db_wal d)) (g_wal_head_page_id (db_wal d)) (g_wal_tail_page_id (db_wal d)))
                          (g_sys_objects e) (g_user_oid_counter e)) s in
  match m (CatEnv (kds (db_wal d)) (db_sys_objects d) (db_oid_counter d)) with
  | Ret a e => Ret a (put e)
  | Halt h e => Halt h (put e)
  end.
Definition client_get (c : nat) : M dshell kds_dshell_client := fun s =>
  match clients s !! c with Some x => Ret x s | None => Halt Fault s end.
Definition client_mod (c : nat) (f : kds_dshell_client -> kds_dshell_client) : M dshell unit := fun s =>
  match clients s !! c with Some x => Ret tt (set_clients (<[c := f x]> (clients s)) s) | None => Halt Fault s end.
(** [kds_relation_open] returns a new object, [kds_relation_close] frees it. *)
Definition rel_new (r : kds_relation) : M dshell nat := fun s =>
  let a := next_rel s in
  Ret a (Dshell (db s) (clients s) (kds_dshell_clients s) (next_client s) (<[a := r]> (rels s)) (S a) (proc s)).
Definition rel_get (a : nat) : M dshell kds_relation := fun s =>
  match rels s !! a with Some r => Ret r s | None => Halt Fault s end.
Definition kds_relation_close (a : nat) : M dshell unit := fun s =>
  match rels s !! a with Some _ => Ret tt (set_rels (delete a (rels s)) s) | None => Halt Fault s end.

(** ** Commands

    The return value and the response. *)
Definition answer (r : Z) (s : bytes) : M dshell (Z * bytes) := ret (r, respond s).

(** The schema of a statement: the columns in order, none of them null. *)
Definition stmt_schema (cols : list kds_ast_col_def) : kds_schema :=
  imap (fun i c => SysColumn 0 0 (Z.of_nat i) (set_name (col_name c)) (col_type_val c) (col_len c) true) cols.
Definition first_is_int64 (schema : kds_schema) : bool :=
  match schema with c :: _ => sc_type_val c =? KDS_TYPE_INT64 | [] => false end.
Definition first_name (schema : kds_schema) : bytes := match schema with c :: _ => c_str (sc_name c) | [] => [] end.
Definition clustered_name (c : kds_clustered_type) : bytes :=
  match c with KDS_CLUSTERED_BTREE => cstr "BTREE" | KDS_CLUSTERED_HEAP => cstr "HEAP" end.
Definition kds_cmd_create_table (table_name : bytes) (cols : list kds_ast_col_def) (clustered : kds_clustered_type)
  : M dshell (Z * bytes) :=
  ok <- on_db alloc_ok ;;
  if negb ok then answer (- ENOMEM) (line (cstr "ERR out of memory")) else
  let schema := stmt_schema cols in
  if negb (first_is_int64 schema) then
    answer (- EINVAL) (line (cstr "ERR first column (" ++ quoted (first_name schema) ++ cstr ") must be the primary key and type int64"))
  else
  let* (r, oid) := on_catalog (kds_catalog_create_table KDS_OID_NAMESPACE_PUBLIC (Some table_name) (Some schema) (clustered_val clustered)) in
  match oid with
  | None => answer r (line (cstr "ERR create_table failed: " ++ fmt_lld r))
  | Some oid =>
      answer 0 (line (cstr "OK table " ++ quoted table_name ++ cstr " created, oid=" ++ fmt_u oid ++ cstr ", columns=" ++
        fmt_u (zlen cols) ++ cstr ", clustered=" ++ clustered_name clustered))
  end.

Inductive cmd_result := Finished (r : Z) (out : bytes) | Blocked (w : dshell_wait).
Definition finish (r : Z) (s : bytes) : M dshell cmd_result := ret (Finished r (respond s)).
(** [kds_dshell_run_exec_via_proc] up to the wait, after the copy of the
    executor into the client. *)
Definition kds_dshell_submit_exec (client : nat) (x : dshell_exec) (w : dshell_wait) : M dshell cmd_result :=
  client_mod client (fun c => set_waiting (Some w) (set_pending true (set_done 0 (set_exec_buf x c)))) ;;
  ret (Blocked w).

Definition kds_dshell_submit_insert_exec (client rel : nat) (exec_init : kds_heap_insert_exec) (w : dshell_wait) : M dshell cmd_result :=
  kds_dshell_submit_exec client (HeapExecBuf rel exec_init) w.

(** The first half of an insertion. *)
Definition kds_cmd_insert_row (client : nat) (table_name : bytes) (values : list kds_ast_val) : M dshell cmd_result :=
  let* (r, oid) := on_db (kds_catalog_find_table_oid_by_name (Some table_name)) in
  match oid with
  | None => finish r (line (cstr "ERR table " ++ quoted table_name ++ cstr " not found: " ++ fmt_lld r))
  | Some oid =>
      o <- on_db (kds_relation_open oid) ;;
      match o with
      | ERR_PTR r => finish r (line (cstr "ERR relation_open failed: " ++ fmt_lld r))
      | PTR rel =>
          a <- rel_new rel ;;
          if negb (zlen values =? zlen (rel_schema rel)) then
            kds_relation_close a ;;
            finish (- EINVAL) (line (cstr "ERR " ++ quoted table_name ++ cstr " has " ++ fmt_u (zlen (rel_schema rel)) ++
              cstr " column(s), got " ++ fmt_u (zlen values) ++ cstr " value(s)"))
          else
          match kds_dshell_encode_row_from_vals (rel_schema rel) values KDS_DSHELL_ROW_MAX with
          | None => halt_with Fault
          | Some (r, row) =>
              if negb (r =? 0) then
                kds_relation_close a ;;
                finish r (line (cstr "ERR failed to encode row (too long or bad value): " ++ fmt_lld r))
              else
              let row_len := u16 (zlen row) in
              if rel_kind rel =? clustered_val KDS_CLUSTERED_HEAP then
                kds_dshell_submit_insert_exec client a (kds_heap_insert_exec_init (Some rel) (Some row) row_len KDS_DSHELL_XID)
                  (WaitHeapInsert table_name a)
              else if rel_kind rel =? clustered_val KDS_CLUSTERED_BTREE then
                if row_len <? 8 then
                  r <- finish (- EINVAL) (line (cstr "ERR row too short to contain PK")) ;;
                  kds_relation_close a ;; ret r
                else
                let pk := le_val (take 8 row) in
                kds_dshell_submit_exec client (BtreeExecBuf a (kds_btree_insert_exec_init (Some rel) pk (Some row) row_len))
                  (WaitBtreeInsert table_name a pk)
              else
                kds_relation_close a ;;
                finish (- EINVAL) (line (cstr "ERR " ++ quoted table_name ++ cstr " has unsupported clustered type " ++ fmt_lld (rel_kind rel)))
          end
      end
  end.
(** The second half, after the wait. *)
Definition insert_done_heap (table_name : bytes) (x : kds_heap_insert_exec) : Z * bytes :=
  let r := ex_ret (hx_base x) in
  if negb (r =? 0) then
    (r, respond (line (if r =? - EEXIST then cstr "ERR duplicate primary key in " ++ quoted table_name
                       else cstr "ERR insert failed: " ++ fmt_lld r)))
  else (0, respond (line (cstr "OK inserted into " ++ quoted table_name ++ cstr " at page=" ++ fmt_u (tid_page_id (hx_tid x)) ++
                          cstr " slot=" ++ fmt_u (tid_slot (hx_tid x))))).
Definition insert_done_btree (table_name : bytes) (pk : Z) (x : kds_btree_insert_exec) : Z * bytes :=
  let r := ex_ret (bx_base x) in
  if negb (r =? 0) then
    (r, respond (line (if r =? - EEXIST then cstr "ERR duplicate key " ++ fmt_lld (to_signed 64 pk) ++ cstr " in " ++ quoted table_name
                       else cstr "ERR btree insert failed: " ++ fmt_lld r)))
  else (0, respond (line (cstr "OK inserted into " ++ quoted table_name ++ cstr " (btree) key=" ++ fmt_lld (to_signed 64 pk) ++
                          cstr " page=" ++ fmt_u (tid_page_id (bx_tid x)) ++ cstr " slot=" ++ fmt_u (tid_slot (bx_tid x))))).
Definition finish_insert (client : nat) (w : dshell_wait) : M dshell (Z * bytes) :=
  kds_relation_close (match w with WaitHeapInsert _ a | WaitBtreeInsert _ a _ => a end) ;;
  c <- client_get client ;;
  match w, exec_buf c with
  | WaitHeapInsert t _, Some (HeapExecBuf _ x) => ret (insert_done_heap t x)
  | WaitBtreeInsert t _ pk, Some (BtreeExecBuf _ x) => ret (insert_done_btree t pk x)
  | _, _ => halt_with Fault
  end.

(** One page of a table as text: [n] and [out] as above, the number of rows,
    and whether the response is full.  A row that cannot be read ends the
    page. *)
Fixpoint scan_rows (schema : kds_schema) (page_id : Z) (fid : nat) (slots : list Z) (n : Z) (out : bytes) (rows : Z)
  : M dshell (Z * bytes * Z * bool) :=
  match slots with
  | [] => ret (n, out, rows, false)
  | slot :: slots =>
      let* (r, o) := on_db (on_frame fid (heap_read_tuple slot (Some KDS_DSHELL_ROW_MAX))) in
      match o with
      | None => if r =? - ENOENT then scan_rows schema page_id fid slots n out rows else ret (n, out, rows, false)
      | Some (hdr, row) =>
          if DSHELL_RESP_MAX <=? n + 16 then
            let '(n, out) := append_at DSHELL_RESP_MAX n out (line (cstr "...(truncated)")) in ret (n, out, rows, true)
          else
          let '(n, out) := append_at DSHELL_RESP_MAX n out
            ([10] ++ cstr "  page=" ++ fmt_u page_id ++ cstr " [" ++ fmt_u slot ++ cstr "] xmin=" ++ fmt_u (xmin hdr) ++
             cstr " xmax=" ++ fmt_u (xmax hdr) ++ cstr " ") in
          let '(d, t) := kds_dshell_decode_row schema row (data_len hdr) (DSHELL_RESP_MAX - n) in
          scan_rows schema page_id fid slots (n + d) (take (Z.to_nat n) out ++ t) (u32 (rows + 1))
      end
  end.
Fixpoint scan_chain (chain : nat) (schema : kds_schema) (page_id n : Z) (out : bytes) (rows pages : Z) : M dshell (Z * bytes) :=
  if page_id =? 0 then
    let '(_, out) := append_at DSHELL_RESP_MAX n out
      ([10] ++ line (fmt_u rows ++ cstr " row(s) across " ++ fmt_u pages ++ cstr " page(s)")) in
    ret (0, out)
  else
  match chain with
  | O => halt_with NoFuel
  | S chain =>
      frame <- on_db (kds_buf_lookup_or_load page_id) ;;
      match frame with
      | ERR_PTR e =>
          let '(_, out) := append_at DSHELL_RESP_MAX n out
            ([10] ++ line (cstr "ERR lookup_or_load(page " ++ fmt_u page_id ++ cstr ") failed: " ++ fmt_lld e)) in
          ret (e, out)
      | PTR fid =>
          nr <- on_db (on_frame fid heap_nr_slots) ;;
          let* (n, out, rows, truncated) := scan_rows schema page_id fid (all_slots nr) n out rows in
          if truncated : bool then on_db (kds_buf_unpin fid) ;; ret (0, out) else
          next <- on_db (on_frame fid heap_get_next_page_id) ;;
          on_db (kds_buf_unpin fid) ;;
          scan_chain chain schema next n out rows (u32 (pages + 1))
      end
  end.
Definition kds_cmd_scan_table (chain : nat) (table_name : bytes) : M dshell (Z * bytes) :=
  let* (r, oid) := on_db (kds_catalog_find_table_oid_by_name (Some table_name)) in
  match oid with
  | None => answer r (line (cstr "ERR table " ++ quoted table_name ++ cstr " not found: " ++ fmt_lld r))
  | Some oid =>
      o <- on_db (kds_relation_open oid) ;;
      match o with
      | ERR_PTR r => answer r (line (cstr "ERR relation_open failed: " ++ fmt_lld r))
      | PTR rel =>
          a <- rel_new rel ;;
          if negb (rel_kind rel =? clustered_val KDS_CLUSTERED_HEAP) then
            r <- answer (- EINVAL) (line (cstr "ERR " ++ quoted table_name ++ cstr " is not heap-clustered")) ;;
            kds_relation_close a ;; ret r
          else
          let '(n, out) := append_at DSHELL_RESP_MAX 0 [] (cstr "OK ") in
          r <- scan_chain chain (rel_schema rel) (root_page_id rel) n out 0 0 ;;
          kds_relation_close a ;; ret r
      end
  end.

Definition kds_cmd_show_meta : M dshell (Z * bytes) :=
  sb <- on_db (gets superblock) ;;
  match sb with
  | None => answer (- ENODEV) (line (cstr "ERR meta system not initialized"))
  | Some sb =>
      answer 0 (line (cstr "OK magic=0x" ++ fmt_llx (sb_magic sb) ++ cstr " version=" ++ fmt_u (sb_version sb)) ++
        line (cstr "   max_page_id=" ++ fmt_u (max_page_id sb) ++ cstr " last_commit_page_id=" ++ fmt_u (last_commit_page_id sb)) ++
        line (cstr "   total_pages=" ++ fmt_u (total_pages sb) ++ cstr " free_pages=" ++ fmt_u (free_pages sb)) ++
        line (cstr "   create_time=" ++ fmt_u (create_time sb) ++ cstr " last_mount_time=" ++ fmt_u (last_mount_time sb) ++
              cstr " last_fsync_time=" ++ fmt_u (last_fsync_time sb)) ++
        line (cstr "   alloc_point=" ++ fmt_u (alloc_point sb) ++ cstr " alloc_remaining=" ++ fmt_u (alloc_remaining sb)))
  end.
Definition kds_cmd_show_page_alloc_status : M dshell (Z * bytes) :=
  let* (ap, rem, ring, freelist) := on_db kds_page_alloc_get_stats in
  let* (total, free, valid) := on_db kds_buf_pool_get_stats in
  answer 0 (line (cstr "OK allocator: alloc_point=" ++ fmt_u ap ++ cstr " alloc_remaining=" ++ fmt_u rem ++
      cstr " ring_staged=" ++ fmt_u ring ++ cstr " freelist=" ++ fmt_u freelist) ++
    line (cstr "   frame_pool: total=" ++ fmt_u total ++ cstr " free=" ++ fmt_u free ++ cstr " valid=" ++ fmt_u valid ++
      cstr " loading=" ++ fmt_u (u32 (total - free - valid)))).

Definition kds_dispatch_stmt (chain : nat) (client : nat) (stmt : kds_stmt) : M dshell cmd_result :=
  let done (m : M dshell (Z * bytes)) := let* (r, out) := m in ret (Finished r out) in
  match stmt with
  | KDS_STMT_CREATE_TABLE t cols clustered => done (kds_cmd_create_table t cols clustered)
  | KDS_STMT_INSERT t values => kds_cmd_insert_row client t values
  | KDS_STMT_SELECT t _ _ => done (kds_cmd_scan_table chain t)
  | KDS_STMT_SHOW_META => done kds_cmd_show_meta
  | KDS_STMT_SHOW_ALLOC => done kds_cmd_show_page_alloc_status
  end.

(** ** The character device *)
Definition new_client : kds_dshell_client := Client [] 0 0 false None 0 None.
Definition kds_dshell_open : M dshell (Z * option nat) :=
  ok <- on_db alloc_ok ;;
  if negb ok then ret (- ENOMEM, None) else
  fun s => let c := next_client s in
    Ret (0, Some c) (Dshell (db s) (<[c := new_client]> (clients s)) (kds_dshell_clients s ++ [c]) (S c) (rels s) (next_rel s) (proc s)).
(** What a release leaves in the client it frees is not seen by anyone: its
    own write has returned. *)
Definition kds_dshell_release (client : nat) : M dshell unit := fun s =>
  match clients s !! client with
  | None => Halt Fault s
  | Some _ => Ret tt (set_clients (delete client (clients s))
                (set_client_list (List.filter (fun c => negb (Nat.eqb c client)) (kds_dshell_clients s)) s))
  end.

(** The statement text of a write of [len] bytes. *)
Definition sql_text (len : Z) (u : bytes) : bytes := c_str (take (Z.to_nat (Z.min len (Z.of_nat DSHELL_LINE_MAX - 1))) u).
(** [kds_dshell_write]: [ubuf] is the memory of the caller, [None] when
    [copy_from_user] fails; no result means that the write waits. *)
Definition kds_dshell_write (chain : nat) (client : nat) (len : Z) (ubuf : option bytes) : M dshell (option Z) :=
  match ubuf with
  | None => ret (Some (- EFAULT))
  | Some u =>
      client_mod client (set_resp []) ;;
      match kds_parse (sql_text len u) (Some []) KDS_PARSER_ERR_MAX with
      | Halt h _ => halt_with h
      | Ret (inl _) p =>
          client_mod client (set_resp (respond (line (cstr "ERR parse error: " ++ default [] (err_buf p))))) ;;
          ret (Some len)
      | Ret (inr stmt) _ =>
          r <- kds_dispatch_stmt chain client stmt ;;
          match r with
          | Finished _ out => client_mod client (set_resp out) ;; ret (Some len)
          | Blocked _ => ret None
          end
      end
  end.
(** The waiting write goes on: the completion was signalled, or the timer
    ran out. *)
Definition write_wakes (client : nat) : M dshell unit :=
  c <- client_get client ;;
  match waiting c, done_count c with
  | Some w, S n =>
      client_mod client (fun c => set_waiting None (set_done n c)) ;;
      let* (_, out) := finish_insert client w in
      client_mod client (set_resp out)
  | _, _ => ret tt
  end.
Definition timeout_msg : bytes := respond (line (cstr "ERR exec timed out after 5000ms")).
Definition write_times_out (client : nat) : M dshell unit :=
  c <- client_get client ;;
  match waiting c, done_count c with
  | Some w, O =>
      client_mod client (fun c => set_resp timeout_msg (set_waiting None (set_pending false c))) ;;
      kds_relation_close (match w with WaitHeapInsert _ a | WaitBtreeInsert _ a _ => a end)
  | _, _ => ret tt
  end.

(** [kds_dshell_read]: the return value and the bytes copied out; [fits] tells
    whether [copy_to_user] succeeds. *)
Definition kds_dshell_read (client : nat) (len : Z) (fits : bool) : M dshell (Z * bytes) :=
  c <- client_get client ;;
  let remaining := resp_len c - resp_pos c in
  if remaining =? 0 then ret (0, []) else
  let n := Z.min len remaining in
  if negb fits then ret (- EFAULT, []) else
  client_mod client (set_resp_pos (resp_pos c + n)) ;;
  ret (n, sub (resp_buf c) (resp_pos c) n).

(** ** The scheduler process *)
(** Under the lock: the first client from the list [l] on with an executor to
    run, the lock being released for it. *)
Fixpoint pick (l : list nat) : M dshell unit :=
  match l with
  | [] => fun s => Ret tt (set_proc ProcOut s)
  | c :: l =>
      x <- client_get c ;;
      if exec_pending x then (fun s => Ret tt (set_proc (ProcPicked c) s)) else pick l
  end.
Definition proc_begin : M dshell unit := fun s => pick (kds_dshell_clients s) s.
Fixpoint after (c : nat) (l : list nat) : list nat :=
  match l with [] => [] | x :: l => if Nat.eqb x c then l else after c l end.
(** [kds_exec_run] on what the client's buffer holds, without the lock. *)
Definition run_exec (chain : nat) (slice_ns : Z) (x : dshell_exec) : M dshell (kds_exec_result * dshell_exec) :=
  match x with
  | HeapExecBuf a x =>
      rel_get a ;;
      let* (r, x) := on_wal (kds_exec_run chain slice_ns x) in ret (r, HeapExecBuf a x)
  | BtreeExecBuf a x =>
      rel_get a ;;
      now <- on_db (oracle k_ns) ;;
      let b := bx_base x in
      let* (r, x) := on_wal (kds_btree_insert_exec_run (set_bx_base (ExecState (ex_ret b) (u64 (now + slice_ns)) (units_done b)) x)) in
      ret (r, BtreeExecBuf a x)
  end.
Definition exec_ret (x : dshell_exec) : Z :=
  match x with HeapExecBuf _ x => ex_ret (hx_base x) | BtreeExecBuf _ x => ex_ret (bx_base x) end.
Definition proc_exec (chain : nat) (slice_ns : Z) (c : nat) : M dshell unit :=
  x <- client_get c ;;
  match exec_buf x with
  | None => halt_with Fault
  | Some e =>
      let* (r, e) := run_exec chain slice_ns e in
      client_mod c (set_exec_buf e) ;;
      (fun s => Ret tt (set_proc (ProcRan c r) s))
  end.
(** With the lock again: an executor that is not done ends the round;
    otherwise the write is woken and the walk over the list goes on. *)
Definition proc_finish (c : nat) (r : kds_exec_result) : M dshell unit :=
  match r with
  | KDS_EXEC_CONTINUE => fun s => Ret tt (set_proc ProcOut s)
  | _ =>
      client_mod c (fun x =>
        let x := match r, exec_buf x with
                 | KDS_EXEC_ERROR, Some e => set_resp (respond (line (cstr "ERR exec failed: " ++ fmt_lld (exec_ret e)))) x
                 | _, _ => set_resp (resp_buf x) x
                 end in
        set_done (S (done_count x)) (set_pending false x)) ;;
      (fun s => pick (after c (kds_dshell_clients s)) s)
  end.
(** The next piece of the process. *)
Definition proc_step (chain : nat) (slice_ns : Z) : M dshell unit := fun s =>
  match proc s with
  | ProcOut => proc_begin s
  | ProcPicked c => proc_exec chain slice_ns c s
  | ProcRan c r => proc_finish c r s
  end.
(** One undisturbed call of [kds_dshell_proc_run]: two pieces for every
    client with an executor, after the first. *)
Fixpoint proc_rest (steps chain : nat) (slice_ns : Z) : M dshell unit := fun s =>
  match proc s with
  | ProcOut => Ret tt s
  | _ => match steps with O => Halt NoFuel s | S n => (proc_step chain slice_ns ;; proc_rest n chain slice_ns) s end
  end.
Definition kds_dshell_proc_run (chain : nat) (slice_ns : Z) : M dshell unit := fun s =>
  (proc_begin ;; proc_rest (2 * length (kds_dshell_clients s)) chain slice_ns) s.

(** The loop of [kds_shutdown_dshell_system] (Main.v), under the lock. *)
Definition shutdown_client (c : nat) : M dshell unit :=
  client_mod c (fun x => if exec_pending x
    then set_done (S (done_count x)) (set_pending false
           (Client (respond (line (cstr "ERR dshell shutting down"))) (resp_len x) (resp_pos x) (exec_pending x) (exec_buf x) (done_count x) (waiting x)))
    else x).
Fixpoint shutdown_clients (l : list nat) : M dshell unit :=
  match l with [] => ret tt | c :: l => shutdown_client c ;; shutdown_clients l end.
Definition wake_clients : M dshell unit := fun s => shutdown_clients (kds_dshell_clients s) s.

(** ** Interleavings

    The calls of one file come one after the other, and none comes after it
    is closed; what does not fit that order is not an event. *)
Inductive event :=
  | EOpen | ERelease (c : nat) | EWrite (c : nat) (len : Z) (ubuf : option bytes) | EWake (c : nat) | ETimeout (c : nat)
  | ERead (c : nat) (len : Z) | EProc (slice_ns : Z).
Definition file_call (c : nat) (m : M dshell unit) : M dshell unit := fun s =>
  match clients s !! c with
  | Some x => match waiting x with None => m s | Some _ => Ret tt s end
  | None => Ret tt s
  end.
Definition wait_ends (c : nat) (m : M dshell unit) : M dshell unit := fun s =>
  match clients s !! c with Some _ => m s | None => Ret tt s end.
Definition do_event (chain : nat) (ev : event) : M dshell unit :=
  match ev with
  | EOpen => kds_dshell_open ;; ret tt
  | ERelease c => file_call c (kds_dshell_release c)
  | EWrite c len ubuf => file_call c (kds_dshell_write chain c len ubuf ;; ret tt)
  | ERead c len => file_call c (kds_dshell_read c len true ;; ret tt)
  | EWake c => wait_ends c (write_wakes c)
  | ETimeout c => wait_ends c (write_times_out c)
  | EProc slice => proc_step chain slice
  end.
Fixpoint do_events (chain : nat) (evs : list event) : M dshell unit :=
  match evs with [] => ret tt | ev :: evs => do_event chain ev ;; do_events chain evs end.
End Dshell.
