(* ===== verification/RowSpec.v ===== *)
(** * RowSpec: rows of a table as values, bytes and text

    [stored] relates a value of a statement to the bytes a column of some
    type keeps for it and to the text that is shown.  The theorems lift it
    from columns to rows. *)
From S2P Require Import Prelude Layout State Disk Pool Alloc Heap Btree Types TypesSpec Parser Catalog Relation Wal ExecHeap ExecBtree Dshell.
From stdpp Require Import prelude gmap list strings.
From Stdlib Require Import ZArith Lia.
Local Open Scope Z_scope.
Local Open Scope list_scope.
Local Open Scope kds_scope.

(** ** Columns *)
Definition int_col (t : Z) : option Z :=
  if t =? KDS_TYPE_INT8 then Some 1 else if t =? KDS_TYPE_INT16 then Some 2 else
  if t =? KDS_TYPE_INT32 then Some 4 else if t =? KDS_TYPE_INT64 then Some 8 else None.
Definition char_col (t : Z) : Prop := t = KDS_TYPE_VARCHAR \/ t = KDS_TYPE_CHAR.
(** The text of a fixed-point number. *)
Definition decimal_text (v : Z) : bytes := dec_text (v <? 0) (Z.abs v / 10000) (Z.abs v mod 10000).
Definition bool_val (b : bool) : bytes := if b then cstr "true" else cstr "false".

Inductive stored : Z -> kds_ast_val -> bytes -> bytes -> Prop :=
  | stored_int t w v : int_col t = Some w -> int_min w <= v <= int_max w ->
      stored t (KDS_VAL_INT v) (le_bytes (Z.to_nat w) v) (fmt_lld v)
  | stored_char t s : char_col t -> zlen s <= 255 -> Forall (fun c => c <> 0) s ->
      stored t (KDS_VAL_STR s) s s
  | stored_null_char t : char_col t -> stored t KDS_VAL_NULL [] []
  | stored_bool b : stored KDS_TYPE_BOOL (KDS_VAL_STR (bool_val b)) [if b then 1 else 0] (bool_val b)
  | stored_bool_int (b : bool) :
      stored KDS_TYPE_BOOL (KDS_VAL_INT (if b then 1 else 0)) [if b then 1 else 0] (bool_val b)
  | stored_decimal v : - 2 ^ 63 < v < 2 ^ 63 ->
      stored KDS_TYPE_DECIMAL (KDS_VAL_STR (decimal_text v)) (le_bytes 8 v) (decimal_text v)
  | stored_float b : zlen b = 4 -> bytes_ok b ->
      stored KDS_TYPE_FLOAT (KDS_VAL_STR (format_hex_bytes b)) b (format_hex_bytes b).

Section Columns.
Context `{KS : Kstrtoll} {KL : KstrtollLaws}.

(** What a descriptor promises for a value. *)
Record codes (desc : kds_type_desc) (s b txt : bytes) : Prop := {
  cd_fixed : fixed_len desc <> 0 -> zlen b = fixed_len desc;
  cd_len : zlen b <= 255;
  cd_enc : forall bs, zlen b <= bs -> Types.encode desc s bs = (0, b);
  cd_small : fixed_len desc = 0 -> forall bs, bs < zlen b -> Types.encode desc s bs = (- ENOSPC, []);
  cd_dec : forall rest os, Z.max (zlen txt) 21 < os -> Types.decode desc (b ++ rest) (zlen b) os = (zlen txt, txt) }.

Lemma c_str_no_nul s : Forall (fun c => c <> 0) s -> c_str s = s.
Proof. induction 1 as [|c s Hc Hs IH]; cbn; [done|]. apply Z.eqb_neq in Hc as ->. by rewrite IH. Qed.
Lemma val_str_int v : val_str (KDS_VAL_INT v) = fmt_lld v.
Proof. unfold val_str. pose proof (zlen_fmt_lld v). by rewrite scnprintf_fits by (unfold KDS_PARSER_VAL_MAX; lia). Qed.
Lemma val_str_str s : zlen s <= 255 -> Forall (fun c => c <> 0) s -> val_str (KDS_VAL_STR s) = s.
Proof. intros Hl Hs. unfold val_str, KDS_PARSER_VAL_MAX. rewrite c_str_no_nul by done. apply take_ge. unfold zlen in Hl. lia. Qed.

Lemma dec_digits_no_nul n v : 0 <= v -> Forall (fun c => c <> 0) (dec_digits n v).
Proof.
  revert v; induction n as [|n IH]; intros v Hv; cbn [dec_digits]; [constructor|].
  destruct (Z.ltb_spec v 10); [by repeat constructor; lia|].
  apply Forall_app. split; [apply IH, Z.div_pos; lia|]. pose proof (Z.mod_pos_bound v 10 ltac:(lia)). by repeat constructor; lia.
Qed.
Lemma decimal_text_ok v : - 2 ^ 63 < v < 2 ^ 63 -> zlen (decimal_text v) <= 26 /\ Forall (fun c => c <> 0) (decimal_text v).
Proof.
  intros Hv. pose proof (Z.mod_pos_bound (Z.abs v) 10000 ltac:(lia)) as Hm. destruct (frac_scan _ Hm) as [_ Hf].
  assert (0 <= Z.abs v / 10000) by (apply Z.div_pos; lia). unfold decimal_text, dec_text. split.
  - rewrite !zlen_app, Hf. pose proof (length_dec_digits 20 (Z.abs v / 10000)). unfold zlen. destruct (v <? 0); cbn [length]; lia.
  - rewrite !Forall_app. split_and!; [by destruct (v <? 0); repeat constructor|by apply dec_digits_no_nul|by repeat constructor|].
    unfold fmt_0lld. destruct (Z.ltb_spec (Z.abs v mod 10000) 0); [lia|]. rewrite !Forall_app.
    split_and!; [constructor|by apply Forall_replicate|apply dec_digits_no_nul; lia].
Qed.
Lemma decode_decimal_text v rest os : - 2 ^ 63 < v < 2 ^ 63 -> zlen (decimal_text v) < os ->
  decode_decimal (le_bytes 8 v ++ rest) 8 os = (zlen (decimal_text v), decimal_text v).
Proof.
  intros Hv Hos. unfold decode_decimal. cbn [Z.eqb Pos.eqb negb]. rewrite (rd_signed_enc 8 v rest) by (cbn; lia).
  assert ((if v <? 0 then s64 (- v) else v) = Z.abs v) as ->.
  { destruct (Z.ltb_spec v 0); [rewrite s64_id by lia|]; lia. }
  unfold KDS_DECIMAL_SCALE_MUL. rewrite Z.quot_div_nonneg, Z.rem_mod_nonneg by lia.
  assert (0 <= Z.abs v / 10000) by (apply Z.div_pos; lia).
  unfold fmt_lld. destruct (Z.ltb_spec (Z.abs v / 10000) 0); [lia|].
  change (scnprintf os _) with (scnprintf os (decimal_text v)). by apply scnprintf_fits.
Qed.
Lemma encode_decimal_text v bs : - 2 ^ 63 < v < 2 ^ 63 -> 8 <= bs -> encode_decimal (decimal_text v) bs = (0, le_bytes 8 v).
Proof.
  intros Hv Hbs. pose proof (Z.mod_pos_bound (Z.abs v) 10000 ltac:(lia)). pose proof (Z.div_mod (Z.abs v) 10000 ltac:(lia)).
  assert (0 <= Z.abs v / 10000) by (apply Z.div_pos; lia). unfold decimal_text. rewrite encode_dec_text by lia.
  do 2 f_equal. destruct (Z.ltb_spec v 0); lia.
Qed.

Lemma int_codes t w v : int_col t = Some w -> int_min w <= v <= int_max w ->
  exists desc, kds_type_lookup_by_val t = Some desc /\ codes desc (fmt_lld v) (le_bytes (Z.to_nat w) v) (fmt_lld v).
Proof.
  intros Ht Hv.
  assert (Hw : int_width w) by (unfold int_col, int_width in *; repeat case_match; simplify_eq; tauto).
  assert (exists desc, kds_type_lookup_by_val t = Some desc /\ fixed_len desc = w /\
    (forall s bs, Types.encode desc s bs = encode_int_generic s bs w (int_min w) (int_max w)) /\
    (forall b l os, Types.decode desc b l os = decode_int_generic b l os w)) as (desc & Hd & Hf & He & Hdec).
  { unfold int_col in Ht.
    destruct (Z.eqb_spec t KDS_TYPE_INT8) as [->|_]; [|destruct (Z.eqb_spec t KDS_TYPE_INT16) as [->|_];
      [|destruct (Z.eqb_spec t KDS_TYPE_INT32) as [->|_]; [|destruct (Z.eqb_spec t KDS_TYPE_INT64) as [->|_]; [|done]]]];
      injection Ht as <-; (eexists; split; [reflexivity|]; split_and!; intros; reflexivity). }
  exists desc. split; [done|]. assert (Hz : zlen (le_bytes (Z.to_nat w) v) = w) by (rewrite zlen_le_bytes; by apply int_width_nat).
  assert (Hr : - 2 ^ 63 <= v < 2 ^ 63) by (unfold int_min, int_max in Hv; by_width Hw; lia).
  split; rewrite ?Hz, ?Hf; try done.
  - by_width Hw; lia.
  - intros bs Hbs. rewrite He. apply encode_int_ok; try done. by apply kstrtoll_dec.
  - by_width Hw; lia.
  - intros rest os Hos. pose proof (zlen_fmt_lld v). rewrite Hdec, decode_int_ok by (done || lia).
    rewrite rd_signed_enc; [done|by_width Hw; lia|rewrite int_width_nat by done; unfold int_min, int_max in Hv; lia].
Qed.
Lemma char_codes t s : char_col t -> zlen s <= 255 ->
  exists desc, kds_type_lookup_by_val t = Some desc /\ codes desc s s s.
Proof.
  intros Ht Hs. pose proof (zlen_nonneg s).
  assert (exists desc, kds_type_lookup_by_val t = Some desc /\ fixed_len desc = 0 /\
    Types.encode desc = encode_varchar /\ Types.decode desc = decode_varchar) as (desc & Hd & Hf & He & Hdec)
    by (destruct Ht as [->| ->]; by eexists).
  exists desc. split; [done|]. split; rewrite ?Hf, ?He, ?Hdec; try done.
  - intros bs Hbs. unfold encode_varchar. destruct (Z.ltb_spec 65535 (zlen s)), (Z.ltb_spec bs (zlen s)); try lia. done.
  - intros _ bs Hbs. unfold encode_varchar. destruct (Z.ltb_spec bs (zlen s)); [|lia]. by rewrite orb_true_r.
  - intros rest os Hos. unfold decode_varchar. destruct (Z.leb_spec os (zlen s)); [lia|]. by rewrite sub_app_l, sub_full by lia.
Qed.
Lemma bool_codes b s : bool_decide (s = cstr "1") || bool_decide (s = cstr "true") = b ->
  exists desc, kds_type_lookup_by_val KDS_TYPE_BOOL = Some desc /\ codes desc s [if b then 1 else 0] (bool_val b).
Proof.
  intros Hs. eexists. split; [reflexivity|]. split; cbn -[Z.max]; try done.
  - intros bs Hbs. unfold encode_bool. rewrite Hs. change (1 <= bs) in Hbs. by destruct (Z.ltb_spec bs 1); [lia|].
  - intros rest os Hos. unfold decode_bool. cbn -[scnprintf cstr]. destruct b; apply scnprintf_fits; lia.
Qed.
Lemma zlen_format_hex b : zlen (format_hex_bytes b) = 2 * zlen b.
Proof. induction b as [|x b IH]; [done|]. cbn [format_hex_bytes flat_map app]. rewrite !zlen_cons. fold (format_hex_bytes b). rewrite IH. lia. Qed.
Lemma format_hex_no_nul b : bytes_ok b -> Forall (fun c => c <> 0) (format_hex_bytes b).
Proof.
  induction 1 as [|x b Hx Hb IH]; [constructor|]. cbn [format_hex_bytes flat_map app]. fold (format_hex_bytes b).
  assert (H : forall i, 0 <= i < 16 -> at_ hexdigits (Z.to_nat i) <> 0).
  { intros i Hi. assert (forallb (fun i => negb (at_ hexdigits i =? 0)) (seq 0 16) = true) as Hall by (by vm_compute).
    eapply forallb_forall in Hall; [|apply (in_seq 16 0 (Z.to_nat i)); lia]. by apply negb_true_iff, Z.eqb_neq in Hall. }
  unfold is_byte in Hx. constructor; [|constructor; [|exact IH]]; apply H.
  - rewrite Z.shiftr_div_pow2 by lia. change (2 ^ 4) with 16. split; [apply Z.div_pos; lia|apply Z.div_lt_upper_bound; lia].
  - change 15 with (Z.ones 4). rewrite Z.land_ones by lia. apply Z.mod_pos_bound. lia.
Qed.
Lemma float_codes b : zlen b = 4 -> bytes_ok b ->
  exists desc, kds_type_lookup_by_val KDS_TYPE_FLOAT = Some desc /\ codes desc (format_hex_bytes b) b (format_hex_bytes b).
Proof.
  intros Hz Hb. eexists. split; [reflexivity|]. split; cbn -[Z.max]; rewrite ?Hz; try done.
  - intros bs Hbs. destruct float_round_trip as [H _]. specialize (H b bs 9 Hz Hb Hbs ltac:(lia)).
    unfold decode_float in H. cbn [Z.ltb Z.compare Pos.compare Pos.compare_cont Z.eqb Pos.eqb negb snd] in H.
    rewrite <- Hz, sub_full in H. exact H.
  - intros rest os Hos. unfold decode_float. cbn [Z.eqb Pos.eqb negb]. destruct (Z.ltb_spec os 9); [lia|].
    rewrite sub_app_l, <- Hz, sub_full, zlen_format_hex, Hz by lia. done.
Qed.

(** Every stored value is handled by the descriptor of its column. *)
Lemma stored_codes t v b txt : stored t v b txt ->
  exists desc, kds_type_lookup_by_val t = Some desc /\ codes desc (val_str v) b txt.
Proof.
  destruct 1 as [t w v Ht Hv|t s Ht Hl Hs|t Ht|b|b|v Hv|b Hz Hb].
  - rewrite val_str_int. by apply int_codes.
  - rewrite val_str_str by done. by apply char_codes.
  - by apply (char_codes t []).
  - apply bool_codes. by destruct b.
  - apply bool_codes. by destruct b.
  - destruct (decimal_text_ok v Hv) as [Hl Hn]. rewrite val_str_str by (done || lia).
    eexists. split; [reflexivity|]. split; cbn -[Z.max le_bytes Z.pow]; rewrite ?zlen_le_bytes; try done.
    + intros bs Hbs. by apply encode_decimal_text.
    + intros rest os Hos. apply decode_decimal_text; [done|lia].
  - rewrite val_str_str; [|rewrite zlen_format_hex; lia|by apply format_hex_no_nul]. by apply float_codes.
Qed.
End Columns.

(** ** Rows *)
Section Rows.
Context `{KS : Kstrtoll}.

(** The bytes of a column in a row: texts come with their length. *)
Definition field (t : Z) (b : bytes) : bytes :=
  match kds_type_lookup_by_val t with
  | Some desc => if fixed_len desc =? 0 then le_bytes 2 (zlen b) ++ b else b
  | None => []
  end.
Fixpoint row_bytes (cols : kds_schema) (enc : list (bytes * bytes)) : bytes :=
  match cols, enc with
  | c :: cols, (b, _) :: enc => field (sc_type_val c) b ++ row_bytes cols enc
  | _, _ => []
  end.
Fixpoint row_text (first : bool) (cols : kds_schema) (enc : list (bytes * bytes)) : bytes :=
  match cols, enc with
  | c :: cols, (_, t) :: enc =>
      (if first then [] else cstr ", ") ++ (c_str (sc_name c) ++ cstr "=") ++ t ++ row_text false cols enc
  | _, _ => []
  end.
Definition row_stored (cols : kds_schema) (vals : list kds_ast_val) (enc : list (bytes * bytes)) : Prop :=
  Forall3 (fun c v e => stored (sc_type_val c) v (e.1) (e.2)) cols vals enc.
Context {KL : KstrtollLaws}.

Lemma encode_cols_spec buf_size cols vals enc : row_stored cols vals enc -> forall buf,
  if zlen buf + zlen (row_bytes cols enc) <=? buf_size
  then encode_cols cols vals buf_size buf = Some (0, buf ++ row_bytes cols enc)
  else zlen buf <= buf_size -> exists b, encode_cols cols vals buf_size buf = Some (- ENOSPC, b).
Proof.
  induction 1 as [|c v [b t] cols vals enc Hs Hr IH]; intros buf.
  { cbn [row_bytes encode_cols]. rewrite app_nil_r. change (zlen []) with 0. destruct (Z.leb_spec (zlen buf + 0) buf_size); [done|lia]. }
  cbn [row_bytes encode_cols fst snd] in *. destruct (stored_codes _ _ _ _ Hs) as (desc & Hd & [Hf Hl He Hsm _]).
  pose proof (zlen_nonneg b). pose proof (zlen_nonneg (row_bytes cols enc)).
  unfold field. rewrite Hd. destruct (Z.eqb_spec (fixed_len desc) 0) as [Hz|Hz].
  - specialize (Hsm Hz). specialize (IH (buf ++ le_bytes 2 (zlen b) ++ b)).
    rewrite !zlen_app, zlen_le_bytes in *. change (Z.of_nat 2) with 2 in *.
    destruct (Z.ltb_spec buf_size (zlen buf + 2)).
    { destruct (Z.leb_spec (zlen buf + (2 + zlen b + zlen (row_bytes cols enc))) buf_size); [lia|]. intros _. by eexists. }
    destruct (Z.le_gt_cases (zlen b) (buf_size - zlen buf - 2)).
    + rewrite He by done. cbn [Z.eqb negb]. rewrite u16_small by lia. replace (zlen buf + (2 + zlen b + _)) with (zlen buf + (2 + zlen b) + zlen (row_bytes cols enc)) by lia.
      destruct (_ <=? buf_size); [by rewrite IH, <- !app_assoc|]. intros _. apply IH. lia.
    + rewrite Hsm by lia. destruct (Z.leb_spec (zlen buf + (2 + zlen b + zlen (row_bytes cols enc))) buf_size); [lia|]. intros _. by eexists.
  - specialize (Hf Hz). specialize (IH (buf ++ b)). rewrite !zlen_app, <- Hf in *.
    destruct (Z.ltb_spec buf_size (zlen buf + zlen b)).
    { destruct (Z.leb_spec (zlen buf + (zlen b + zlen (row_bytes cols enc))) buf_size); [lia|]. intros _. by eexists. }
    rewrite He by lia. cbn [Z.eqb negb]. replace (zlen buf + (zlen b + _)) with (zlen buf + zlen b + zlen (row_bytes cols enc)) by lia.
    destruct (_ <=? buf_size); [by rewrite IH, <- !app_assoc|]. intros _. apply IH. lia.
Qed.

Lemma sub_mid (p q r : bytes) n : zlen q = n -> sub (p ++ q ++ r) (zlen p) n = q.
Proof.
  intros Hq. pose proof (zlen_nonneg q). rewrite sub_app_r by lia. rewrite Z.sub_diag, sub_app_l, <- Hq by lia. apply sub_full.
Qed.
Lemma append_at_fits os out s : zlen out + zlen s < os -> append_at os (zlen out) out s = (zlen (out ++ s), out ++ s).
Proof.
  intros H. unfold append_at. rewrite scnprintf_fits by lia. rewrite zlen_app. f_equal. f_equal. apply take_ge. unfold zlen. lia.
Qed.
Lemma decode_cols_spec os cols vals enc : row_stored cols vals enc -> forall first pre junk out,
  zlen out + zlen (row_text first cols enc) + 21 < os ->
  decode_cols cols first (pre ++ row_bytes cols enc ++ junk) (zlen pre + zlen (row_bytes cols enc)) (zlen pre) os (zlen out) out =
    (zlen (out ++ row_text first cols enc), out ++ row_text first cols enc).
Proof.
  induction 1 as [|c v [b t] cols vals enc Hs Hr IH]; intros first pre junk out Hos.
  { cbn [row_text decode_cols]. by rewrite app_nil_r. }
  cbn [row_bytes row_text decode_cols fst snd] in *. destruct (stored_codes _ _ _ _ Hs) as (desc & Hd & [Hf Hl _ _ Hdec]).
  rewrite Hd. unfold field in *. rewrite Hd in *.
  set (sep := if first then [] else cstr ", ") in *. set (nm := c_str (sc_name c) ++ cstr "=") in *.
  pose proof (zlen_nonneg b). pose proof (zlen_nonneg (row_bytes cols enc)). pose proof (zlen_nonneg t).
  pose proof (zlen_nonneg (row_text false cols enc)). pose proof (zlen_nonneg nm). rewrite !zlen_app in Hos.
  assert (Hsep : (if first then (zlen out, out) else append_at os (zlen out) out (cstr ", ")) = (zlen (out ++ sep), out ++ sep)).
  { subst sep. destruct first; [by rewrite app_nil_r|]. apply append_at_fits. lia. }
  rewrite Hsep. clear Hsep. rewrite (append_at_fits os (out ++ sep) nm) by (rewrite zlen_app; lia).
  (** the rest of the row, from the bytes of the column on *)
  assert (Hstep : forall p, zlen ((out ++ sep) ++ nm) + zlen t <= os ->
    (let '(decoded, t') := Types.decode desc (drop (Z.to_nat (zlen p)) (p ++ b ++ row_bytes cols enc ++ junk)) (zlen b) (os - zlen ((out ++ sep) ++ nm)) in
     if decoded <? 0 then (decoded, (out ++ sep) ++ nm) else
     decode_cols cols false (p ++ b ++ row_bytes cols enc ++ junk) (zlen p + (zlen b + zlen (row_bytes cols enc))) (zlen p + zlen b) os
       (zlen ((out ++ sep) ++ nm) + decoded) (take (Z.to_nat (zlen ((out ++ sep) ++ nm))) ((out ++ sep) ++ nm) ++ t')) =
    (zlen (out ++ sep ++ nm ++ t ++ row_text false cols enc), out ++ sep ++ nm ++ t ++ row_text false cols enc)).
  { intros p _. unfold zlen at 1. rewrite Nat2Z.id, drop_app_length, Hdec by (rewrite !zlen_app; lia).
    destruct (Z.ltb_spec (zlen t) 0); [lia|]. rewrite take_ge by (unfold zlen; lia).
    specialize (IH false (p ++ b) junk (((out ++ sep) ++ nm) ++ t)). rewrite !zlen_app, <- !app_assoc in *.
    rewrite !Z.add_assoc in *. apply IH. lia. }
  destruct (Z.eqb_spec (fixed_len desc) 0) as [Hz|Hz].
  - rewrite !zlen_app, zlen_le_bytes. change (Z.of_nat 2) with 2. cbn [andb].
    destruct (Z.ltb_spec (zlen pre + (2 + zlen b + zlen (row_bytes cols enc))) (zlen pre + 2)); [lia|].
    rewrite <- !app_assoc. rewrite sub_mid by (by rewrite zlen_le_bytes). rewrite le_val_enc_small by (cbn; lia).
    destruct (Z.ltb_spec (zlen pre + (2 + zlen b + zlen (row_bytes cols enc))) (zlen pre + 2 + zlen b)); [lia|].
    specialize (Hstep (pre ++ le_bytes 2 (zlen b))). rewrite !zlen_app, <- !app_assoc, zlen_le_bytes in Hstep.
    change (Z.of_nat 2) with 2 in Hstep. rewrite <- ?app_assoc.
    rewrite <- Hstep by lia. by rewrite !Z.add_assoc.
  - specialize (Hf Hz). cbn [andb]. rewrite !zlen_app, <- Hf.
    destruct (Z.ltb_spec (zlen pre + (zlen b + zlen (row_bytes cols enc))) (zlen pre + zlen b)); [lia|].
    specialize (Hstep pre). rewrite !zlen_app in Hstep. rewrite <- !app_assoc in *. rewrite <- Hstep by lia. done.
Qed.
End Rows.

Section Claims.
Context `{KS : Kstrtoll} {KL : KstrtollLaws}.

(** C9.  The rows of a table: encoding the values of a statement gives the
    fields one after the other, each text with a 16-bit length in front, when
    that fits the buffer, and [-ENOSPC] otherwise; decoding the row, whatever
    follows it in memory, prints every column with exactly the text of its
    value. *)
Theorem row_round_trip cols vals enc buf_size :
  row_stored cols vals enc -> 0 <= buf_size ->
  let row := row_bytes cols enc in
  let txt := row_text true cols enc in
  (if zlen row <=? buf_size
   then kds_dshell_encode_row_from_vals cols vals buf_size = Some (0, row)
   else exists b, kds_dshell_encode_row_from_vals cols vals buf_size = Some (- ENOSPC, b)) /\
  (forall junk os, zlen txt + 21 < os -> kds_dshell_decode_row cols (row ++ junk) (zlen row) os = (zlen txt, txt)).
Proof.
  intros Hr Hb row txt. split.
  - pose proof (encode_cols_spec buf_size cols vals enc Hr []) as H. fold row in H. change (zlen [] + zlen row) with (zlen row) in H.
    change (zlen []) with 0 in H. unfold kds_dshell_encode_row_from_vals. destruct (zlen row <=? buf_size); auto.
  - intros junk os Hos. exact (decode_cols_spec os cols vals enc Hr true [] junk [] Hos).
Qed.
End Claims.

(** ** A row of three columns *)
Definition demo_schema : kds_schema := [
  SysColumn 1 0 0 (set_name (cstr "id")) KDS_TYPE_INT64 8 true;
  SysColumn 2 0 1 (set_name (cstr "name")) KDS_TYPE_VARCHAR 0 true;
  SysColumn 3 0 2 (set_name (cstr "ok")) KDS_TYPE_BOOL 1 true].
Definition demo_vals : list kds_ast_val := [KDS_VAL_INT (-7); KDS_VAL_STR (cstr "bob"); KDS_VAL_STR (cstr "true")].
Definition demo_enc : list (bytes * bytes) := [(le_bytes 8 (-7), fmt_lld (-7)); (cstr "bob", cstr "bob"); ([1], cstr "true")].
Lemma demo_stored : row_stored demo_schema demo_vals demo_enc.
Proof.
  constructor; [|constructor; [|constructor; [|constructor]]]; cbn [fst snd sc_type_val].
  - apply (stored_int KDS_TYPE_INT64 8); [done|by unfold int_min, int_max].
  - apply stored_char; [by left|by vm_compute|by repeat constructor].
  - apply (stored_bool true).
Qed.
Lemma row_round_trip_witness :
  kds_dshell_encode_row_from_vals demo_schema demo_vals 256 =
    Some (0, [249; 255; 255; 255; 255; 255; 255; 255; 3; 0; 98; 111; 98; 1]) /\
  kds_dshell_decode_row demo_schema
    ([249; 255; 255; 255; 255; 255; 255; 255; 3; 0; 98; 111; 98; 1] ++ [1; 2; 3]) 14 512 =
    (24, cstr "id=-7, name=bob, ok=true").
Proof.
  destruct (row_round_trip demo_schema demo_vals demo_enc 256 demo_stored ltac:(lia)) as [H1 H2]. split; [exact H1|].
  apply (H2 [1; 2; 3] 512). by vm_compute.
Defined.
