(* ===== verification/DshellSpec.v ===== *)
(** * DshellSpec: what a client of the shell sees

    First a client alone with the scheduler: an INSERT is parsed, encoded,
    published, executed in as many slices as it takes, and answered; the
    theorem composes parser, catalog, row codec and executor.  Then the
    interleavings: without timeouts a write is woken only when its executor
    has finished; a timeout breaks this. *)
From S2P Require Import Prelude Layout Heap HeapSpec HeapOps TupleStore State Disk DiskSpec Pool PoolSpec Alloc AllocSpec Btree BtreeSpec Types TypesSpec Parser ParserSpec Store Catalog CatalogSpec Relation RelationSpec Wal ExecHeap ExecHeapSpec ExecBtree Dshell RowSpec.
From stdpp Require Import prelude gmap list strings.
From Stdlib Require Import ZArith Lia.
Local Open Scope Z_scope.
Local Open Scope list_scope.
Local Open Scope kds_scope.

(** ** Lifting *)
Section Lift.
Context `{K : Kernel} {KS : Kstrtoll} {CT : Ctype}.

(** The shell while client [c] is served: everything but the client's own
    record, the database, the relations and the process stays as in [s]. *)
Definition serving (c : nat) (x : kds_dshell_client) (w : wal_env) (rl : gmap nat kds_relation) (nr : nat) (p : proc_pos) (s : dshell) : dshell :=
  Dshell (Db w (db_sys_objects (db s)) (db_oid_counter (db s))) (<[c := x]> (clients s)) (kds_dshell_clients s) (next_client s) rl nr p.

Lemma serving_id c x s : clients s !! c = Some x -> s = serving c x (db_wal (db s)) (rels s) (next_rel s) (proc s) s.
Proof. intros H. unfold serving. rewrite insert_id by done. by destruct s as [[? ? ?] ? ? ? ? ? ?]. Qed.
Lemma serving_twice c x w rl nr p x' w' rl' nr' p' s :
  serving c x w rl nr p (serving c x' w' rl' nr' p' s) = serving c x w rl nr p s.
Proof. unfold serving. cbn. by rewrite insert_insert_eq. Qed.
Lemma on_wal_serving {A} (m : M wal_env A) c x w rl nr p s a w' :
  m w = Ret a w' -> on_wal m (serving c x w rl nr p s) = Ret a (serving c x w' rl nr p s).
Proof. intros E. unfold on_wal. cbn. by rewrite E. Qed.
Lemma on_db_serving {A} (m : M kds_state A) c x pl st e rl nr p s a pl' st' :
  m (wp pl st) = Ret a (wp pl' st') ->
  on_db m (serving c x (at_pool pl st e) rl nr p s) = Ret a (serving c x (at_pool pl' st' e) rl nr p s).
Proof. intros E. apply on_wal_serving. unfold on_kds. cbn. by rewrite E. Qed.
Lemma get_serving c x w rl nr p s : client_get c (serving c x w rl nr p s) = Ret x (serving c x w rl nr p s).
Proof. unfold client_get. cbn. by rewrite lookup_insert_eq. Qed.
Lemma mod_serving c f x w rl nr p s : client_mod c f (serving c x w rl nr p s) = Ret tt (serving c (f x) w rl nr p s).
Proof. unfold client_mod, set_clients, serving. cbn. by rewrite lookup_insert_eq, insert_insert_eq. Qed.
Lemma new_serving r c x w rl nr p s : rel_new r (serving c x w rl nr p s) = Ret nr (serving c x w (<[nr := r]> rl) (S nr) p s).
Proof. done. Qed.
Lemma close_serving a r c x w rl nr p s : rl !! a = Some r ->
  kds_relation_close a (serving c x w rl nr p s) = Ret tt (serving c x w (delete a rl) nr p s).
Proof. intros H. unfold kds_relation_close. cbn. by rewrite H. Qed.
Lemma rel_serving a r c x w rl nr p s : rl !! a = Some r -> rel_get a (serving c x w rl nr p s) = Ret r (serving c x w rl nr p s).
Proof. intros H. unfold rel_get. cbn. by rewrite H. Qed.

#[export] Instance kds_exec_result_eq_dec : EqDecision kds_exec_result.
Proof. solve_decision. Defined.

(** ** The walk over the clients *)
Definition idle (s : dshell) (c : nat) : Prop := exists x, clients s !! c = Some x /\ exec_pending x = false.
Lemma pick_idle s l rest : Forall (idle s) l -> pick (l ++ rest) s = pick rest s.
Proof.
  induction 1 as [|c l (x & Hx & Hp) Hl IH]; [done|]. cbn [app pick].
  erewrite bind_ok by (unfold client_get; by rewrite Hx). by rewrite Hp.
Qed.
Lemma pick_none s l : Forall (idle s) l -> pick l s = Ret tt (set_proc ProcOut s).
Proof. intros H. rewrite <- (app_nil_r l), pick_idle by done. done. Qed.
(** [c] is in the list once, and no other client has an executor to run. *)
Record only_client (c : nat) (s : dshell) : Prop := {
  oc_list : exists l1 l2, kds_dshell_clients s = l1 ++ c :: l2 /\ (c ∉ l1) /\ (c ∉ l2) /\ Forall (idle s) (l1 ++ l2) }.
Lemma idle_serving c x w rl nr p s l : c ∉ l -> Forall (idle s) l -> Forall (idle (serving c x w rl nr p s)) l.
Proof.
  intros Hc Hl. apply Forall_forall. intros d Hd. pose proof (proj1 (Forall_forall _ _) Hl d Hd) as (y & Hy & Hp).
  exists y. split; [|done]. cbn. rewrite lookup_insert_ne; [done|]. by intros ->.
Qed.
Lemma after_app c l1 l2 : c ∉ l1 -> after c (l1 ++ (c :: l2)) = l2.
Proof.
  induction l1 as [|x l1 IH]; intros H; cbn; [by rewrite Nat.eqb_refl|]. rewrite not_elem_of_cons in H. destruct H as [H1 H2].
  destruct (Nat.eqb_spec x c); [congruence|]. by apply IH.
Qed.

(** What a call of the process does to the client whose executor it ran. *)
Definition served (r : kds_exec_result) (e : dshell_exec) (x : kds_dshell_client) : kds_dshell_client :=
  let x := set_exec_buf e x in
  match r with
  | KDS_EXEC_CONTINUE => x
  | KDS_EXEC_ERROR => set_done (S (done_count x)) (set_pending false (set_resp (respond (line (cstr "ERR exec failed: " ++ fmt_lld (exec_ret e)))) x))
  | KDS_EXEC_DONE => set_done (S (done_count x)) (set_pending false (set_resp (resp_buf x) x))
  end.
Lemma set_exec_buf_id e x : exec_buf x = Some e -> set_exec_buf e x = x.
Proof. unfold set_exec_buf. destruct x; cbn. by intros ->. Qed.
Lemma begin_serving c x w rl nr s : only_client c s -> exec_pending x = true ->
  proc_begin (serving c x w rl nr ProcOut s) = Ret tt (serving c x w rl nr (ProcPicked c) s).
Proof.
  intros [(l1 & l2 & Hl & H1 & H2 & Hi)] Hp. unfold proc_begin. cbn [kds_dshell_clients serving]. rewrite Hl.
  apply Forall_app in Hi as [Hi1 Hi2]. rewrite pick_idle by (by apply idle_serving). cbn [pick].
  erewrite bind_ok by apply get_serving. by rewrite Hp.
Qed.
Lemma begin_idle c x w rl nr s : only_client c s -> exec_pending x = false ->
  proc_begin (serving c x w rl nr ProcOut s) = Ret tt (serving c x w rl nr ProcOut s).
Proof.
  intros [(l1 & l2 & Hl & H1 & H2 & Hi)] Hp. unfold proc_begin. cbn [kds_dshell_clients serving]. rewrite Hl.
  apply Forall_app in Hi as [Hi1 Hi2]. rewrite pick_none; [done|]. apply Forall_app. split; [by apply idle_serving|].
  constructor; [|by apply idle_serving]. exists x. split; [apply lookup_insert_eq|done].
Qed.
Lemma finish_serving c x e r w rl nr s : only_client c s -> exec_buf x = Some e -> r <> KDS_EXEC_CONTINUE ->
  proc_finish c r (serving c x w rl nr (ProcRan c r) s) = Ret tt (serving c (served r e x) w rl nr ProcOut s).
Proof.
  intros [(l1 & l2 & Hl & H1 & H2 & Hi)] He Hr. apply Forall_app in Hi as [Hi1 Hi2].
  pose proof (set_exec_buf_id e x He) as Hx.
  destruct r; [..|done]; unfold proc_finish; (erewrite bind_ok by apply mod_serving); cbn [kds_dshell_clients serving]; rewrite Hl, after_app by done;
    (rewrite pick_none by (by apply idle_serving)); unfold served; rewrite Hx, ?He; done.
Qed.
Lemma run_exec_heap chain slice a hx r hx' c x w w' rl nr p s rel :
  rl !! a = Some rel -> kds_exec_run chain slice hx w = Ret (r, hx') w' ->
  run_exec chain slice (HeapExecBuf a hx) (serving c x w rl nr p s) = Ret (r, HeapExecBuf a hx') (serving c x w' rl nr p s).
Proof.
  intros Ha E. unfold run_exec. erewrite bind_ok by (by eapply rel_serving). by erewrite bind_ok by (by apply on_wal_serving).
Qed.
Lemma exec_serving chain slice a hx r hx' c x w w' rl nr p s rel :
  exec_buf x = Some (HeapExecBuf a hx) -> rl !! a = Some rel -> kds_exec_run chain slice hx w = Ret (r, hx') w' ->
  proc_exec chain slice c (serving c x w rl nr p s) = Ret tt (serving c (set_exec_buf (HeapExecBuf a hx') x) w' rl nr (ProcRan c r) s).
Proof.
  intros Hx Ha E. unfold proc_exec. erewrite bind_ok by apply get_serving. rewrite Hx.
  erewrite bind_ok by (by eapply run_exec_heap). cbn beta iota. by erewrite bind_ok by apply mod_serving.
Qed.

Lemma proc_run_serving chain slice a hx r hx' c x w w' rl nr s rel :
  only_client c s -> exec_pending x = true -> exec_buf x = Some (HeapExecBuf a hx) -> rl !! a = Some rel ->
  kds_exec_run chain slice hx w = Ret (r, hx') w' ->
  kds_dshell_proc_run chain slice (serving c x w rl nr ProcOut s) =
    Ret tt (serving c (served r (HeapExecBuf a hx') x) w' rl nr ProcOut s).
Proof.
  intros Ho Hp Hx Ha E. unfold kds_dshell_proc_run. erewrite bind_ok by (by apply begin_serving).
  assert (exists n, (2 * length (kds_dshell_clients (serving c x w rl nr ProcOut s)) = S (S n))%nat) as [n ->].
  { destruct Ho as [(l1 & l2 & Hl & _)]. cbn [kds_dshell_clients serving]. rewrite Hl, length_app. cbn. eexists (_ + _)%nat.
    instantiate (2 := (2 * length l1)%nat). instantiate (1 := (2 * length l2)%nat). lia. }
  set (x1 := set_exec_buf (HeapExecBuf a hx') x).
  cbn [proc_rest proc serving]. erewrite bind_ok by (unfold proc_step; cbn [proc serving]; by eapply exec_serving).
  fold x1. change (proc (serving c x1 w' rl nr (ProcRan c r) s)) with (ProcRan c r). cbn iota.
  assert (Hrest : forall y k, proc_rest k chain slice (serving c y w' rl nr ProcOut s) = Ret tt (serving c y w' rl nr ProcOut s)) by (by intros y []).
  destruct (decide (r = KDS_EXEC_CONTINUE)) as [->|Hr].
  - erewrite bind_ok by reflexivity. apply Hrest.
  - erewrite bind_ok by (unfold proc_step; cbn [proc serving]; by apply (finish_serving c x1 (HeapExecBuf a hx'))).
    rewrite Hrest. by destruct r.
Qed.
Lemma proc_run_idle chain slice c x w rl nr s : only_client c s -> exec_pending x = false ->
  kds_dshell_proc_run chain slice (serving c x w rl nr ProcOut s) = Ret tt (serving c x w rl nr ProcOut s).
Proof.
  intros Ho Hp. unfold kds_dshell_proc_run. erewrite bind_ok by (by apply begin_idle).
  by destruct (2 * _)%nat.
Qed.

(** The scheduler calls the process once per slice. *)
Fixpoint proc_runs (chain : nat) (slices : list Z) : M dshell unit :=
  match slices with [] => ret tt | sl :: slices => kds_dshell_proc_run chain sl ;; proc_runs chain slices end.
Lemma proc_runs_idle chain c x w rl nr s slices : only_client c s -> exec_pending x = false ->
  proc_runs chain slices (serving c x w rl nr ProcOut s) = Ret tt (serving c x w rl nr ProcOut s).
Proof. intros Ho Hp. induction slices as [|sl slices IH]; [done|]. cbn [proc_runs]. by erewrite bind_ok by (by apply proc_run_idle). Qed.
Lemma proc_runs_calls chain c s a rel rl nr : only_client c s -> rl !! a = Some rel -> forall slices hx x w r hx' w',
  exec_pending x = true -> exec_buf x = Some (HeapExecBuf a hx) -> exec_calls chain slices hx w = Ret (r, hx') w' ->
  proc_runs chain slices (serving c x w rl nr ProcOut s) = Ret tt (serving c (served r (HeapExecBuf a hx') x) w' rl nr ProcOut s).
Proof.
  intros Ho Ha. induction slices as [|sl slices IH]; intros hx x w r hx' w' Hp Hx; cbn [exec_calls proc_runs].
  - intros [= <- <- <-]. cbn [served]. by rewrite set_exec_buf_id.
  - unfold bind at 1. destruct (kds_exec_run chain sl hx w) as [[r1 hx1] w1|] eqn:E; [|done]. intros Hc.
    erewrite bind_ok by (by eapply proc_run_serving). destruct r1.
    + injection Hc as <- <- <-. by rewrite proc_runs_idle by done.
    + injection Hc as <- <- <-. by rewrite proc_runs_idle by done.
    + by erewrite IH by (done || exact Hc).
Qed.
Lemma wakes_serving c x w rl nr p s t a hx n rel :
  waiting x = Some (WaitHeapInsert t a) -> done_count x = S n -> exec_buf x = Some (HeapExecBuf a hx) -> rl !! a = Some rel ->
  write_wakes c (serving c x w rl nr p s) =
    Ret tt (serving c (set_resp (snd (insert_done_heap t hx)) (set_waiting None (set_done n x))) w (delete a rl) nr p s).
Proof.
  intros Hw Hd He Ha. unfold write_wakes. erewrite bind_ok by apply get_serving. rewrite Hw, Hd. erewrite bind_ok by apply mod_serving.
  assert (E : finish_insert c (WaitHeapInsert t a) (serving c (set_waiting None (set_done n x)) w rl nr p s) =
    Ret (insert_done_heap t hx) (serving c (set_waiting None (set_done n x)) w (delete a rl) nr p s)).
  { unfold finish_insert. erewrite bind_ok by (by eapply close_serving). erewrite bind_ok by apply get_serving.
    change (exec_buf (set_waiting None (set_done n x))) with (exec_buf x). by rewrite He. }
  erewrite bind_ok by exact E. destruct (insert_done_heap t hx) as [r out]. cbn beta iota. apply mod_serving.
Qed.
End Lift.

(** ** The result code of an executor

    [ret] of an executor is set by the return that reports an error, and by
    nothing else. *)
Create HintDb keeps.
Section RetCode.
Context `{K : Kernel}.

Definition keeps_ret (m : M wal_env (kds_exec_result * kds_heap_insert_exec)) (x : kds_heap_insert_exec) : Prop :=
  forall e r x' e', m e = Ret (r, x') e' -> r <> KDS_EXEC_ERROR -> ex_ret (hx_base x') = ex_ret (hx_base x).
Lemma keeps_bind {A} (m : M wal_env A) k x : (forall a, keeps_ret (k a) x) -> keeps_ret (bind m k) x.
Proof. intros H e r x' e'. unfold bind. destruct (m e) as [a e1|]; [|done]. apply H. Qed.
Lemma keeps_then (m : M wal_env (kds_exec_result * kds_heap_insert_exec)) k x :
  keeps_ret m x -> (forall r x1, r <> KDS_EXEC_ERROR -> ex_ret (hx_base x1) = ex_ret (hx_base x) -> keeps_ret (k (r, x1)) x) ->
  (forall x1, exists x2, k (KDS_EXEC_ERROR, x1) = ret (KDS_EXEC_ERROR, x2)) -> keeps_ret (bind m k) x.
Proof.
  intros Hm Hk He e r x' e'. unfold bind. destruct (m e) as [[r1 x1] e1|] eqn:E; [|done].
  destruct (decide (r1 = KDS_EXEC_ERROR)) as [->|Hr]; [|apply Hk; [done|by eapply Hm]].
  destruct (He x1) as [x2 ->]. unfold ret. by intros [= <- <- <-] [].
Qed.
Lemma keeps_fail r x x0 : keeps_ret (ret (hx_fail r x)) x0.
Proof. intros e r' x' e'. unfold ret, hx_fail. by intros [= <- <- <-] []. Qed.
Lemma keeps_done r x x0 : ex_ret (hx_base x) = ex_ret (hx_base x0) -> keeps_ret (ret (r, x)) x0.
Proof. intros H e r' x' e'. unfold ret. by intros [= <- <- <-]. Qed.
Lemma keeps_halt h x : keeps_ret (halt_with h) x.
Proof. by intros e r x' e'. Qed.
#[local] Hint Resolve keeps_fail keeps_halt : keeps.
#[local] Hint Extern 1 (keeps_ret (ret _) _) => apply keeps_done : keeps.
Ltac keeps_tac := repeat first
  [ progress auto with keeps | apply keeps_bind; intros ? | case_match ].

Lemma keeps_same m x x0 : ex_ret (hx_base x) = ex_ret (hx_base x0) -> keeps_ret m x -> keeps_ret m x0.
Proof. unfold keeps_ret. intros <-. done. Qed.
Lemma dup_scan_ret chain : forall x, keeps_ret (heap_insert_run_dup_scan chain x) x.
Proof.
  induction chain as [|chain IH]; intros x; cbn [heap_insert_run_dup_scan]; [keeps_tac|].
  case_match; [keeps_tac|]. apply keeps_bind; intros [r next]. case_match; [keeps_tac|]. case_match; [keeps_tac|].
  apply keeps_bind; intros [|]; [keeps_tac|]. eapply keeps_same; [|apply IH]. done.
Qed.
Lemma grow_ret fid x : keeps_ret (grow_chain fid x) x.
Proof. unfold grow_chain. keeps_tac. Qed.
Lemma find_tail_ret chain : forall x, keeps_ret (heap_insert_run_find_tail chain x) x.
Proof.
  induction chain as [|chain IH]; intros x; cbn [heap_insert_run_find_tail]; [keeps_tac|].
  apply keeps_bind; intros [fid|e]; [|keeps_tac]. apply keeps_bind; intros [r tid]. case_match; [keeps_tac|]. case_match; [keeps_tac|].
  apply keeps_bind; intros next. case_match; [|eapply keeps_same; [|apply grow_ret]; done].
  apply keeps_bind; intros []. apply keeps_bind; intros [|]; [keeps_tac|]. eapply keeps_same; [|apply IH]. done.
Qed.
Lemma wal_insert_ret x : keeps_ret (run_from_wal_insert x) x.
Proof. unfold run_from_wal_insert. keeps_tac. Qed.
Lemma wal_init_ret x : keeps_ret (run_from_wal_init x) x.
Proof. unfold run_from_wal_init. apply keeps_bind; intros _. eapply keeps_same; [|apply wal_insert_ret]. done. Qed.
Lemma from_find_tail_ret chain x : keeps_ret (run_from_find_tail chain x) x.
Proof.
  unfold run_from_find_tail. apply keeps_bind; intros [|]; [keeps_tac|]. apply keeps_then; [apply find_tail_ret| |by eexists].
  intros [] x1 Hr Hx; [|done|by apply keeps_done]. case_match; (eapply keeps_same; [|first [apply wal_init_ret|apply wal_insert_ret]]; done).
Qed.
Lemma exec_run_ret chain slice x : keeps_ret (kds_exec_run chain slice x) x.
Proof.
  unfold kds_exec_run. apply keeps_bind; intros now. unfold kds_heap_insert_exec_run.
  set (x1 := set_hx_base _ x). apply (keeps_same _ x1); [done|].
  case_match; [|keeps_tac]. case_match; [keeps_tac|]. case_match; [keeps_tac|]. case_match.
  - unfold run_from_dup_scan. apply keeps_then; [apply dup_scan_ret| |by eexists].
    intros [] x2 Hr Hx; [|done|by apply keeps_done]. eapply keeps_same; [|apply from_find_tail_ret]. done.
  - apply from_find_tail_ret.
  - apply wal_insert_ret.
  - apply wal_init_ret.
  - by apply keeps_done.
Qed.
Lemma exec_calls_ret chain slices : forall x, keeps_ret (exec_calls chain slices x) x.
Proof.
  induction slices as [|sl slices IH]; intros x; cbn [exec_calls]; [by apply keeps_done|].
  apply keeps_then; [apply exec_run_ret| |by eexists]. intros [] x1 Hr Hx; [by apply keeps_done|done|]. by eapply keeps_same; [|apply IH].
Qed.
End RetCode.

(** ** One INSERT, alone with the scheduler *)
Section Insert.
Context `{K : Kernel} {KS : Kstrtoll} {KL : KstrtollLaws} {CT : Ctype} {TS : TupleStore}.

(** Client [c] is about to write; table [name] is in the catalog [cat] and
    [enc] are the encoded values of the statement. *)
Record insert_ready (c : nat) (s0 : dshell) (x0 : kds_dshell_client) (pl : kds_buf_pool) (st : kds_state) (e : wal_env)
    (cat : catalog) (name : bytes) (rel : kds_relation) (vals : list kds_ast_val) (enc : list (bytes * bytes)) : Prop := {
  ir_client : clients s0 !! c = Some x0;
  ir_only : only_client c s0;
  ir_rels : forall n, (next_rel s0 <= n)%nat -> rels s0 !! n = None;
  ir_db : db_wal (db s0) = at_pool pl st e;
  ir_cat : catalog_rep pl cat;
  ir_rel : exists t, name_lookup cat name = Some (rel_oid rel) /\ table_lookup cat (rel_oid rel) = Some t /\
    rel = Relation (rel_oid rel) (st_namespace t) (st_clustered t) (desc_page_id t) (schema_of cat (rel_oid rel));
  ir_kind : rel_kind rel = clustered_val KDS_CLUSTERED_HEAP;
  ir_alloc : k_alloc (tick st) = true;
  ir_row : row_stored (rel_schema rel) vals enc;
  ir_fits : zlen (row_bytes (rel_schema rel) enc) <= KDS_DSHELL_ROW_MAX }.

Lemma Forall3_zlen {A B C} (P : A -> B -> C -> Prop) l k m : Forall3 P l k m -> zlen k = zlen l.
Proof. induction 1 as [|? ? ? ? ? ? _ _ IH]; [done|]. by rewrite !zlen_cons, IH. Qed.

Definition submitted (name : bytes) (a : nat) (hx : kds_heap_insert_exec) (x : kds_dshell_client) : kds_dshell_client :=
  set_waiting (Some (WaitHeapInsert name a)) (set_pending true (set_done 0 (set_exec_buf (HeapExecBuf a hx) x))).
Lemma insert_submits c s0 x0 pl st e cat name rel vals enc x p : insert_ready c s0 x0 pl st e cat name rel vals enc ->
  let row := row_bytes (rel_schema rel) enc in
  let a := next_rel s0 in
  kds_cmd_insert_row c name vals (serving c x (at_pool pl st e) (rels s0) a p s0) =
    Ret (Blocked (WaitHeapInsert name a))
      (serving c (submitted name a (kds_heap_insert_exec_init (Some rel) (Some row) (zlen row) KDS_DSHELL_XID) x)
        (at_pool pl (set_tick (S (tick st)) st) e) (<[a := rel]> (rels s0)) (S a) p s0).
Proof.
  intros [Hc _ _ _ Hcat (t & Hn & Ht & Hrel) Hk Hal Hrow Hfit] row a. unfold kds_cmd_insert_row.
  erewrite bind_ok by (eapply on_db_serving; by apply find_table_spec). rewrite Hn. cbn [found].
  erewrite bind_ok by (eapply on_db_serving; rewrite (relation_open_spec pl st cat _ Hcat), Ht, Hal; reflexivity).
  rewrite <- Hrel. cbn beta iota. erewrite bind_ok by apply new_serving.
  rewrite (Forall3_zlen _ _ _ _ Hrow), Z.eqb_refl. cbn [negb].
  pose proof (encode_cols_spec KDS_DSHELL_ROW_MAX _ _ _ Hrow []) as E. change (zlen [] + zlen (row_bytes (rel_schema rel) enc)) with (zlen row) in E.
  destruct (Z.leb_spec (zlen row) KDS_DSHELL_ROW_MAX); [|fold row in Hfit; lia]. unfold kds_dshell_encode_row_from_vals. rewrite E. cbn [Z.eqb negb app].
  fold row. pose proof (zlen_nonneg row). rewrite u16_small by (unfold KDS_DSHELL_ROW_MAX in *; lia). rewrite Hk, Z.eqb_refl.
  unfold kds_dshell_submit_insert_exec, kds_dshell_submit_exec. by erewrite bind_ok by apply mod_serving.
Qed.
Lemma write_submits chain c s0 x0 pl st e cat name rel vals enc len u q : insert_ready c s0 x0 pl st e cat name rel vals enc ->
  kds_parse (sql_text len u) (Some []) KDS_PARSER_ERR_MAX = Ret (inr (KDS_STMT_INSERT name vals)) q ->
  let row := row_bytes (rel_schema rel) enc in
  let a := next_rel s0 in
  kds_dshell_write chain c len (Some u) s0 =
    Ret None
      (serving c (submitted name a (kds_heap_insert_exec_init (Some rel) (Some row) (zlen row) KDS_DSHELL_XID) (set_resp [] x0))
        (at_pool pl (set_tick (S (tick st)) st) e) (<[a := rel]> (rels s0)) (S a) (proc s0) s0).
Proof.
  intros Hr Hp row a. pose proof Hr as [Hc _ _ Hdb _ _ _ _ _ _].
  rewrite (serving_id c x0 s0 Hc) at 1. rewrite Hdb. unfold kds_dshell_write. erewrite bind_ok by apply mod_serving. rewrite Hp.
  erewrite bind_ok by (unfold kds_dispatch_stmt; by eapply insert_submits). done.
Qed.

(** The catalog's pages are not part of the table. *)
Definition catalog_apart (o : option Z) (l : list hpage) : Prop := forall id, 4 <= id <= 7 -> (id ∉ ids l) /\ o <> Some id.
Lemma rows_at_same {R} {C : RowCodec R} pl pl' id rows : cached pl' id = cached pl id -> rows_at pl id rows -> rows_at pl' id rows.
Proof. intros E [Hr (k & p & Hc & Hp)]. split; [done|]. exists k, p. by rewrite E. Qed.
Lemma catalog_same pl pl' cat : pool_wf pl' -> (forall id, 4 <= id <= 7 -> cached pl' id = cached pl id) -> catalog_rep pl cat -> catalog_rep pl' cat.
Proof.
  intros Hwf H [_ H1 H2 H3 H4]. split; [done|..]; (eapply rows_at_same; [apply H|eassumption]);
    unfold KDS_CATALOG_PAGE_OBJECTS, KDS_CATALOG_PAGE_TABLES, KDS_CATALOG_PAGE_COLUMNS, KDS_CATALOG_PAGE_TYPES; lia.
Qed.

Definition ok_msg (name : bytes) (tid : kds_heap_tid) : bytes :=
  respond (line (cstr "OK inserted into " ++ quoted name ++ cstr " at page=" ++ fmt_u (tid_page_id tid) ++ cstr " slot=" ++ fmt_u (tid_slot tid))).
Definition dup_msg (name : bytes) : bytes := respond (line (cstr "ERR duplicate primary key in " ++ quoted name)).
Definition full_msg : bytes := respond (line (cstr "ERR insert failed: -28")).

(** The whole of an INSERT: the write, one call of the process per slice,
    and the end of the wait if there is one. *)
Definition insert_served (chain c : nat) (len : Z) (u : bytes) (slices : list Z) : M dshell unit :=
  kds_dshell_write chain c len (Some u) ;; proc_runs chain slices ;; write_wakes c.
(** What the client reads and what the table [l] has become. *)
Definition insert_answer (name row : bytes) (rel : kds_relation) (o : option Z) (l : list hpage) (pl pl' : kds_buf_pool) (resp : bytes) : Prop :=
  if decide (row_pk row ∈ pks l) then pl' = pl /\ resp = dup_msg name
  else match insert_model KDS_DSHELL_XID row o l with
       | None => pl' = pl /\ resp = full_msg
       | Some l' => chain_at pl' (root_page_id rel) l' /\ pks l' ≡ₚ (row_pk row :: pks l) /\
           exists tid, row_at KDS_DSHELL_XID row l' tid /\ resp = ok_msg name tid
       end.

Lemma insert_served_cases chain c len u slices s0 x0 pl st e cat name rel vals enc q o l :
  insert_ready c s0 x0 pl st e cat name rel vals enc -> proc s0 = ProcOut ->
  kds_parse (sql_text len u) (Some []) KDS_PARSER_ERR_MAX = Ret (inr (KDS_STMT_INSERT name vals)) q ->
  let row := row_bytes (rel_schema rel) enc in
  bytes_ok row -> 8 <= zlen row -> table_at rel st pl o l -> short_rows l -> catalog_apart o l -> (length l <= chain)%nat ->
  exists y pl' st' e' rl nr, insert_served chain c len u slices s0 = Ret tt (serving c y (at_pool pl' st' e') rl nr ProcOut s0) /\
    catalog_rep pl' cat /\
    match waiting y with
    | None => rl = rels s0 /\ exec_pending y = false /\ resp_pos y = 0 /\ resp_len y = zlen (resp_buf y) /\
        insert_answer name row rel o l pl pl' (resp_buf y)
    | Some _ => pl' = pl /\ used_up_run (set_tick (S (tick st)) st) slices st'
    end.
Proof.
  intros Hr Hpr Hp row Hok H8 Ht Hsh Hap Hchain. pose proof Hr as [_ Hoc Hrl _ Hcat _ _ _ _ Hfit].
  unfold insert_served. erewrite bind_ok by (by eapply write_submits). rewrite Hpr. fold row. set (a := next_rel s0).
  set (hx := kds_heap_insert_exec_init _ _ _ _). set (st1 := set_tick _ st). set (x := submitted name a hx (set_resp [] x0)).
  destruct (exec_insert_cases KDS_DSHELL_XID row rel o st1 pl l e chain slices Hok) as (r & hx' & pl' & st' & e' & E & Hout).
  { unfold KDS_DSHELL_ROW_MAX in Hfit. fold row in Hfit. lia. }
  { by vm_compute. }
  { eapply table_later; [apply later_tick|done]. }
  { done. } { done. }
  assert (Ha : <[a := rel]> (rels s0) !! a = Some rel) by apply lookup_insert_eq.
  erewrite bind_ok by (by eapply (proc_runs_calls chain c s0 a rel _ (S a) Hoc Ha slices hx x _ r hx')).
  pose proof (exec_calls_ret chain slices hx _ _ _ _ E) as Hret. change (ex_ret (hx_base hx)) with 0 in Hret.
  assert (Hdel : delete a (<[a := rel]> (rels s0)) = rels s0) by (rewrite delete_insert_eq; apply delete_id, Hrl; done).
  destruct r.
  - specialize (Hret ltac:(done)). destruct Hout as (Hni & l' & Hm & Hch & Hwf & Hrow & Hrest & Hpk & _).
    erewrite wakes_serving by done. rewrite Hdel. eexists _, pl', st', e', _, _. split; [reflexivity|]. split.
    { apply (catalog_same pl); [done| |done]. intros id Hid. destruct (Hap id Hid). by apply Hrest. }
    split_and!; try done. unfold insert_answer. rewrite decide_False, Hm by done. split; [done|]. split; [done|]. exists (hx_tid hx').
    split; [done|]. unfold insert_done_heap. cbn [resp_buf set_resp]. by rewrite Hret.
  - destruct Hout as (-> & Hre & Hnone). erewrite wakes_serving by done. rewrite Hdel. eexists _, pl, st', e', _, _.
    split; [reflexivity|]. split; [done|]. split_and!; try done. unfold insert_answer, insert_done_heap. cbn [resp_buf set_resp].
    rewrite Hre. destruct (decide (row_pk row ∈ pks l)) as [Hin|Hni]; [done|]. by rewrite Hnone.
  - destruct Hout as (-> & Hu). unfold write_wakes. erewrite bind_ok by apply get_serving.
    eexists _, pl, st', e', _, _. split; [reflexivity|]. split; [done|]. done.
Qed.

(** ** Timeouts *)
Definition line_is (len : Z) (u : bytes) (stmt : kds_stmt) : Prop :=
  exists q, kds_parse (sql_text len u) (Some []) KDS_PARSER_ERR_MAX = Ret (inr stmt) q.
Lemma write_event chain c s0 x0 pl st e cat name rel vals enc len u : insert_ready c s0 x0 pl st e cat name rel vals enc ->
  waiting x0 = None -> line_is len u (KDS_STMT_INSERT name vals) ->
  let row := row_bytes (rel_schema rel) enc in
  let a := next_rel s0 in
  do_event chain (EWrite c len (Some u)) s0 =
    Ret tt (serving c (submitted name a (kds_heap_insert_exec_init (Some rel) (Some row) (zlen row) KDS_DSHELL_XID) (set_resp [] x0))
        (at_pool pl (set_tick (S (tick st)) st) e) (<[a := rel]> (rels s0)) (S a) (proc s0) s0).
Proof.
  intros Hr Hw (q & Hp) row a. pose proof (ir_client _ _ _ _ _ _ _ _ _ _ _ Hr) as Hc. unfold do_event, file_call. rewrite Hc, Hw.
  by erewrite bind_ok by (by eapply write_submits).
Qed.
Lemma timeout_event chain c x w rl nr p s t a rel : waiting x = Some (WaitHeapInsert t a) -> done_count x = 0%nat -> rl !! a = Some rel ->
  do_event chain (ETimeout c) (serving c x w rl nr p s) =
    Ret tt (serving c (set_resp timeout_msg (set_waiting None (set_pending false x))) w (delete a rl) nr p s).
Proof.
  intros Hw Hd Ha. unfold do_event, wait_ends. cbn [clients serving]. rewrite lookup_insert_eq. unfold write_times_out.
  erewrite bind_ok by apply get_serving. rewrite Hw, Hd. erewrite bind_ok by apply mod_serving. by eapply close_serving.
Qed.
Lemma release_event chain c x w rl nr p s : waiting x = None -> exists s',
  do_event chain (ERelease c) (serving c x w rl nr p s) = Ret tt s' /\ clients s' !! c = None /\ proc s' = p.
Proof.
  intros Hw. unfold do_event, file_call, kds_dshell_release. cbn [clients serving]. rewrite lookup_insert_eq, Hw.
  eexists. split; [reflexivity|]. cbn. split; [apply lookup_delete_eq|done].
Qed.
Lemma only_serving c x w rl nr p s : only_client c s -> only_client c (serving c x w rl nr p s).
Proof.
  intros [(l1 & l2 & Hl & H1 & H2 & Hi)]. constructor. exists l1, l2. split_and!; try done. apply idle_serving; [|done].
  rewrite elem_of_app. tauto.
Qed.

(** A write that timed out takes the relation away from the process that is
    about to use it, and lets the file be closed, which takes the client. *)
Lemma timeout_frees_cases chain c len u slice s0 x0 pl st e cat name rel vals enc :
  insert_ready c s0 x0 pl st e cat name rel vals enc -> proc s0 = ProcOut -> waiting x0 = None -> line_is len u (KDS_STMT_INSERT name vals) ->
  (exists s', do_events chain [EWrite c len (Some u); EProc slice; ETimeout c; EProc slice] s0 = Halt Fault s') /\
  (exists s', do_events chain [EWrite c len (Some u); EProc slice; ETimeout c; ERelease c; EProc slice] s0 = Halt Fault s').
Proof.
  intros Hr Hpr Hw Hu. pose proof (ir_only _ _ _ _ _ _ _ _ _ _ _ Hr) as Ho.
  set (a := next_rel s0). set (rl := <[a := rel]> (rels s0)). assert (Ha : rl !! a = Some rel) by apply lookup_insert_eq.
  set (row := row_bytes (rel_schema rel) enc). set (x1 := submitted name a (kds_heap_insert_exec_init (Some rel) (Some row) (zlen row) KDS_DSHELL_XID) (set_resp [] x0)).
  pose proof (write_event chain c s0 x0 pl st e cat name rel vals enc len u Hr Hw Hu) as E1.
  cbn zeta in E1. fold a rl row x1 in E1. rewrite Hpr in E1. set (w := at_pool _ _ _) in E1.
  assert (E2 : do_event chain (EProc slice) (serving c x1 w rl (S a) ProcOut s0) = Ret tt (serving c x1 w rl (S a) (ProcPicked c) s0))
    by (by apply begin_serving).
  pose proof (timeout_event chain c x1 w rl (S a) (ProcPicked c) s0 name a rel eq_refl eq_refl Ha) as E3.
  split; cbn [do_events]; (erewrite bind_ok by exact E1); (erewrite bind_ok by exact E2); (erewrite bind_ok by exact E3).
  - eexists. apply bind_halt. unfold do_event, proc_step. cbn [proc serving]. unfold proc_exec. erewrite bind_ok by apply get_serving.
    cbn [exec_buf set_resp set_waiting set_pending x1 submitted set_done set_exec_buf]. apply bind_halt. apply bind_halt.
    unfold rel_get. cbn [rels serving]. unfold rl. by rewrite delete_insert_eq, lookup_delete_eq.
  - destruct (release_event chain c (set_resp timeout_msg (set_waiting None (set_pending false x1))) w (delete a rl) (S a) (ProcPicked c) s0 eq_refl) as (s' & E4 & Hc & Hp).
    erewrite bind_ok by exact E4. exists s'. apply bind_halt. unfold do_event, proc_step. rewrite Hp. unfold proc_exec. apply bind_halt.
    unfold client_get. by rewrite Hc.
Qed.

Lemma wake_event chain c x w rl nr p s t a hx n rel :
  waiting x = Some (WaitHeapInsert t a) -> done_count x = S n -> exec_buf x = Some (HeapExecBuf a hx) -> rl !! a = Some rel ->
  do_event chain (EWake c) (serving c x w rl nr p s) =
    Ret tt (serving c (set_resp (snd (insert_done_heap t hx)) (set_waiting None (set_done n x))) w (delete a rl) nr p s).
Proof.
  intros Hw Hd He Ha. unfold do_event, wait_ends. cbn [clients serving]. rewrite lookup_insert_eq. by eapply wakes_serving.
Qed.
(** The table after an executor of [row] ran once and did not ask for more. *)
Lemma first_run chain slice row rel o s pl l e : bytes_ok row -> 8 <= zlen row <= 256 -> table_at rel s pl o l -> short_rows l -> (length l <= chain)%nat ->
  exists r hx pl' s' e' l',
    kds_exec_run chain slice (kds_heap_insert_exec_init (Some rel) (Some row) (zlen row) KDS_DSHELL_XID) (at_pool pl s e) = Ret (r, hx) (at_pool pl' s' e') /\
    (r = KDS_EXEC_CONTINUE -> used_up slice) /\ pool_wf pl' /\ chain_at pl' (root_page_id rel) l' /\
    (forall id, id ∉ ids l -> o <> Some id -> cached pl' id = cached pl id) /\
    (forall k, k ∈ pks l' -> k = row_pk row \/ k ∈ pks l).
Proof.
  intros Hok H8 Ht Hsh Hchain.
  destruct (exec_insert_cases KDS_DSHELL_XID row rel o s pl l e chain [slice] Hok) as (r & hx & pl' & s' & e' & E & Hout);
    [lia|by vm_compute|done..|]. cbn [exec_calls] in E. unfold bind in E at 1.
  destruct (kds_exec_run _ _ _ _) as [[r1 hx1] w1|] eqn:E1; [|done].
  assert (E' : Ret (r1, hx1) w1 = Ret (r, hx) (at_pool pl' s' e')) by (by destruct r1). injection E' as -> -> ->.
  pose proof (ta_wf _ _ _ _ _ Ht) as Hwf. pose proof (ta_chain _ _ _ _ _ Ht) as Hch.
  destruct r.
  - destruct Hout as (_ & l' & _ & Hc & Hwf' & _ & Hrest & Hp & _). exists KDS_EXEC_DONE, hx, pl', s', e', l'. split_and!; try done.
    intros k. rewrite Hp, elem_of_cons. done.
  - destruct Hout as (-> & _). exists KDS_EXEC_ERROR, hx, pl, s', e', l. split_and!; try done. auto.
  - destruct Hout as (-> & Hu). exists KDS_EXEC_CONTINUE, hx, pl, s', e', l. split_and!; try done; [|auto]. intros _. apply used_up_all in Hu. by inversion Hu.
Qed.

(** A second INSERT of a client whose first one timed out while the process
    ran it: it is acknowledged although it was not executed. *)
Lemma stale_cases chain c len1 u1 len2 u2 slice s0 x0 pl st e cat name rel vals1 enc1 vals2 enc2 o l r hx w :
  insert_ready c s0 x0 pl st e cat name rel vals1 enc1 -> proc s0 = ProcOut -> waiting x0 = None ->
  line_is len1 u1 (KDS_STMT_INSERT name vals1) -> line_is len2 u2 (KDS_STMT_INSERT name vals2) ->
  let row1 := row_bytes (rel_schema rel) enc1 in
  let row2 := row_bytes (rel_schema rel) enc2 in
  row_stored (rel_schema rel) vals2 enc2 -> zlen row2 <= KDS_DSHELL_ROW_MAX -> bytes_ok row1 -> 8 <= zlen row1 ->
  table_at rel st pl o l -> short_rows l -> catalog_apart o l -> (length l <= chain)%nat ->
  row_pk row2 <> row_pk row1 -> row_pk row2 ∉ pks l ->
  kds_exec_run chain slice (kds_heap_insert_exec_init (Some rel) (Some row1) (zlen row1) KDS_DSHELL_XID)
    (at_pool pl (set_tick (S (tick st)) st) e) = Ret (r, hx) w ->
  r <> KDS_EXEC_CONTINUE -> k_alloc (tick (kds w)) = true ->
  exists pl' st' e' y rl nr l',
    do_events chain [EWrite c len1 (Some u1); EProc slice; EProc slice; ETimeout c; EWrite c len2 (Some u2); EProc slice; EWake c] s0 =
      Ret tt (serving c y (at_pool pl' st' e') rl nr ProcOut s0) /\
    waiting y = None /\ resp_buf y = ok_msg name (Tid 0 0) /\ chain_at pl' (root_page_id rel) l' /\ row_pk row2 ∉ pks l'.
Proof.
  intros Hr Hpr Hw Hu1 Hu2 row1 row2 Hs2 Hf2 Hok H8 Ht Hsh Hap Hchain Hne Hni Hrun Hr1 Hal.
  pose proof Hr as [Hc Ho Hrl _ Hcat Hrel Hk _ _ Hf1]. fold row1 in Hf1. unfold KDS_DSHELL_ROW_MAX in Hf1.
  set (a := next_rel s0). set (rl1 := <[a := rel]> (rels s0)). assert (Ha : rl1 !! a = Some rel) by apply lookup_insert_eq.
  set (st1 := set_tick (S (tick st)) st).
  destruct (first_run chain slice row1 rel o st1 pl l e Hok ltac:(lia)) as (r' & hx' & pl' & st' & e' & l' & E & _ & Hwf' & Hch & Hrest & Hpk);
    [eapply table_later; [apply later_tick|done]|done..|].
  fold st1 in Hrun. rewrite Hrun in E. injection E as <- <- ->. rename Hrun into E. change (k_alloc (tick st') = true) in Hal.
  pose proof (write_event chain c s0 x0 pl st e cat name rel vals1 enc1 len1 u1 Hr Hw Hu1) as E1. cbn zeta in E1. fold row1 a rl1 st1 in E1. rewrite Hpr in E1.
  set (hx1 := kds_heap_insert_exec_init _ _ _ _) in *. set (x1 := submitted name a hx1 (set_resp [] x0)) in *. set (w1 := at_pool pl st1 e) in *.
  assert (E2 : do_event chain (EProc slice) (serving c x1 w1 rl1 (S a) ProcOut s0) = Ret tt (serving c x1 w1 rl1 (S a) (ProcPicked c) s0))
    by (by apply begin_serving).
  set (x2 := set_exec_buf (HeapExecBuf a hx) x1). set (w2 := at_pool pl' st' e') in *.
  assert (E3 : do_event chain (EProc slice) (serving c x1 w1 rl1 (S a) (ProcPicked c) s0) = Ret tt (serving c x2 w2 rl1 (S a) (ProcRan c r) s0))
    by (unfold do_event, proc_step; cbn [proc serving]; by eapply exec_serving).
  pose proof (timeout_event chain c x2 w2 rl1 (S a) (ProcRan c r) s0 name a rel eq_refl eq_refl Ha) as E4.
  set (x3 := set_resp timeout_msg (set_waiting None (set_pending false x2))) in *.
  assert (Hdel : delete a rl1 = rels s0) by (unfold rl1; rewrite delete_insert_eq; apply delete_id, Hrl; done). rewrite Hdel in E4.
  set (s4 := serving c x3 w2 (rels s0) (S a) (ProcRan c r) s0) in *.
  assert (Hr4 : insert_ready c s4 x3 pl' st' e' cat name rel vals2 enc2).
  { split; try done; [apply lookup_insert_eq|by apply only_serving|intros n Hn; apply Hrl; cbn in Hn; lia|].
    apply (catalog_same pl); [done| |done]. intros id Hid. destruct (Hap id Hid). by apply Hrest. }
  pose proof (write_event chain c s4 x3 pl' st' e' cat name rel vals2 enc2 len2 u2 Hr4 eq_refl Hu2) as E5. cbn zeta in E5. fold row2 in E5.
  change (next_rel s4) with (S a) in E5. change (rels s4) with (rels s0) in E5. change (proc s4) with (ProcRan c r) in E5. unfold s4 at 2 in E5.
  rewrite serving_twice in E5. set (hx2 := kds_heap_insert_exec_init (Some rel) (Some row2) _ _) in *.
  set (x5 := submitted name (S a) hx2 (set_resp [] x3)) in *. set (rl5 := <[S a := rel]> (rels s0)) in *. set (w5 := at_pool pl' (set_tick (S (tick st')) st') e') in *.
  assert (E6 : do_event chain (EProc slice) (serving c x5 w5 rl5 (S (S a)) (ProcRan c r) s0) =
    Ret tt (serving c (served r (HeapExecBuf (S a) hx2) x5) w5 rl5 (S (S a)) ProcOut s0)).
  { unfold do_event, proc_step. cbn [proc serving]. by apply finish_serving. }
  set (x6 := served r (HeapExecBuf (S a) hx2) x5) in *.
  assert (E7 : do_event chain (EWake c) (serving c x6 w5 rl5 (S (S a)) ProcOut s0) =
    Ret tt (serving c (set_resp (snd (insert_done_heap name hx2)) (set_waiting None (set_done 0 x6))) w5 (delete (S a) rl5) (S (S a)) ProcOut s0)).
  { eapply wake_event; [by destruct r..|apply lookup_insert_eq]. }
  eexists pl', _, e', _, _, _, l'. split.
  - cbn [do_events]. erewrite bind_ok by exact E1. erewrite bind_ok by exact E2. erewrite bind_ok by exact E3. erewrite bind_ok by exact E4.
    erewrite bind_ok by exact E5. erewrite bind_ok by exact E6. erewrite bind_ok by exact E7. reflexivity.
  - split_and!; try done. intros Hin. destruct (Hpk _ Hin); done.
Qed.
End Insert.
