(* ===== verification/DshellRace.v ===== *)
(** * DshellRace: interleavings of writes, wake-ups and the process

    [reachable] is the set of states of the shell that the events without
    timeouts lead to.  The invariant [shell_ok] says that a write waits for
    an executor that is either still to be run, with its relation in place,
    or has finished. *)
From S2P Require Import Prelude Layout Heap HeapSpec HeapOps TupleStore State Disk DiskSpec Pool PoolSpec Alloc AllocSpec Btree Types TypesSpec Parser ParserSpec Store Catalog CatalogSpec Relation Wal ExecHeap ExecHeapSpec ExecBtree Dshell RowSpec DshellSpec.
From stdpp Require Import prelude gmap list strings.
From Stdlib Require Import ZArith Lia.
Local Open Scope Z_scope.
Local Open Scope list_scope.
Local Open Scope kds_scope.

Section Race.
Context `{K : Kernel} {KS : Kstrtoll} {CT : Ctype}.

(** ** What commands leave alone *)
Definition rel_of (w : dshell_wait) : nat := match w with WaitHeapInsert _ a | WaitBtreeInsert _ a _ => a end.
(** Clients and process are as before, and so are the relations below [n]. *)
Record undisturbed (n : nat) (s s' : dshell) : Prop := {
  ud_clients : clients s' = clients s;
  ud_list : kds_dshell_clients s' = kds_dshell_clients s;
  ud_next : next_client s' = next_client s;
  ud_proc : proc s' = proc s;
  ud_next_rel : (next_rel s <= next_rel s')%nat;
  ud_rels : forall a, (a < n)%nat -> rels s' !! a = rels s !! a }.
Lemma undisturbed_refl n s : undisturbed n s s.
Proof. by split. Qed.
Lemma undisturbed_trans n s1 s2 s3 : undisturbed n s1 s2 -> undisturbed n s2 s3 -> undisturbed n s1 s3.
Proof. intros [] []. split; try congruence; [lia|]. intros a Ha. by rewrite ud_rels1, ud_rels0. Qed.
Definition frames {A} (n : nat) (m : M dshell A) : Prop :=
  forall s a s', (n <= next_rel s)%nat -> m s = Ret a s' -> undisturbed n s s'.

Lemma frames_ret {A} n (a : A) : frames n (ret a).
Proof. intros s b s' _ [= <- <-]. apply undisturbed_refl. Qed.
Lemma frames_halt {A} n h : frames n (halt_with (A := A) h).
Proof. by intros s b s' _. Qed.
Lemma frames_bind {A B} n (m : M dshell A) (k : A -> M dshell B) : frames n m -> (forall a, frames n (k a)) -> frames n (bind m k).
Proof.
  intros Hm Hk s b s' Hn (a & s1 & H1 & H2)%bind_inv. specialize (Hm _ _ _ Hn H1). eapply undisturbed_trans; [exact Hm|].
  eapply Hk; [|exact H2]. destruct Hm. lia.
Qed.
Lemma wal_undisturbed {A} n (m : M wal_env A) s a s' : on_wal m s = Ret a s' -> undisturbed n s s'.
Proof. unfold on_wal. destruct (m _) as [b e|]; [|done]. intros [= <- <-]. by split. Qed.
Lemma frames_wal {A} n (m : M wal_env A) : frames n (on_wal m).
Proof. intros s a s' _. apply wal_undisturbed. Qed.
Lemma frames_db {A} n (m : M kds_state A) : frames n (on_db m).
Proof. apply frames_wal. Qed.
Lemma frames_catalog {A} n (m : M catalog_env A) : frames n (on_catalog m).
Proof. intros s a s' _. unfold on_catalog. destruct (m _) as [b e|]; [|done]. intros [= <- <-]. by split. Qed.
Lemma frames_close n a : (n <= a)%nat -> frames n (kds_relation_close a).
Proof.
  intros Ha s b s' _. unfold kds_relation_close. destruct (rels s !! a); [|done]. intros [= <- <-]. split; try done.
  intros x Hx. cbn. rewrite lookup_delete_ne by lia. done.
Qed.
Lemma frames_new {B} n r (k : nat -> M dshell B) : (forall a, (n <= a)%nat -> frames n (k a)) -> frames n (bind (rel_new r) k).
Proof.
  intros Hk s b s' Hn (a & s1 & H1 & H2)%bind_inv. injection H1 as <- <-. eapply undisturbed_trans; [|eapply Hk; [exact Hn| |exact H2]].
  - split; try done; [cbn; lia|]. intros x Hx. cbn. by rewrite lookup_insert_ne by lia.
  - cbn. lia.
Qed.
Hint Resolve frames_ret frames_halt frames_wal frames_db frames_catalog frames_close : frames.
Ltac frames_tac := repeat first
  [ progress auto with frames
  | apply frames_new; intros ? ?
  | apply frames_bind; [auto with frames; fail|intros ?]
  | match goal with |- frames _ (match ?x with _ => _ end) => destruct x end ].

Lemma frames_answer n r s : frames n (answer r s).
Proof. apply frames_ret. Qed.
Lemma frames_finish n r s : frames n (finish r s).
Proof. apply frames_ret. Qed.
Hint Resolve frames_answer frames_finish : frames.
Lemma frames_create n t cols k : frames n (kds_cmd_create_table t cols k).
Proof. unfold kds_cmd_create_table. frames_tac. Qed.
Lemma frames_rows n schema id fid slots : forall m out rows, frames n (scan_rows schema id fid slots m out rows).
Proof.
  induction slots as [|sl slots IH]; intros m out rows; cbn [scan_rows]; [auto with frames|]. apply frames_bind; [auto with frames|].
  intros [r [[hdr row]|]]; [|case_match; auto with frames]. case_match; [case_match; auto with frames|].
  destruct (append_at _ _ _ _). destruct (kds_dshell_decode_row _ _ _ _). apply IH.
Qed.
Lemma frames_chain n schema chain : forall id m out rows pages, frames n (scan_chain chain schema id m out rows pages).
Proof.
  induction chain as [|chain IH]; intros id m out rows pages; cbn [scan_chain]; (case_match; [case_match; auto with frames|]); [auto with frames|].
  apply frames_bind; [auto with frames|]. intros [fid|e]; [|case_match; auto with frames]. apply frames_bind; [auto with frames|]. intros nr.
  apply frames_bind; [apply frames_rows|]. intros [[[m' out'] rows'] [|]]; frames_tac.
Qed.
Hint Resolve frames_create frames_chain : frames.
Lemma frames_scan n chain t : frames n (kds_cmd_scan_table chain t).
Proof. unfold kds_cmd_scan_table. frames_tac. Qed.
Lemma frames_meta n : frames n kds_cmd_show_meta.
Proof. unfold kds_cmd_show_meta. frames_tac. Qed.
Lemma frames_alloc n : frames n kds_cmd_show_page_alloc_status.
Proof. unfold kds_cmd_show_page_alloc_status. apply frames_bind; [auto with frames|]. intros [[[? ?] ?] ?]. frames_tac. Qed.
Hint Resolve frames_scan frames_meta frames_alloc : frames.

Ltac branch H := match type of H with (if ?b then _ else _) _ = _ => destruct b end.
(** An insertion answers at once, or publishes an executor whose relation
    is a new object. *)
Definition matches (w : dshell_wait) (e : dshell_exec) : Prop :=
  match w, e with
  | WaitHeapInsert _ a, HeapExecBuf b _ => a = b
  | WaitBtreeInsert _ a _, BtreeExecBuf b _ => a = b
  | _, _ => False
  end.
Definition publish (e : dshell_exec) (w : dshell_wait) (x : kds_dshell_client) : kds_dshell_client :=
  set_waiting (Some w) (set_pending true (set_done 0 (set_exec_buf e x))).
Definition published (c : nat) (s s' : dshell) : Prop :=
  exists e w s1 x, undisturbed (next_rel s) s s1 /\ matches w e /\ (next_rel s <= rel_of w < next_rel s1)%nat /\ is_Some (rels s1 !! rel_of w) /\
    clients s1 !! c = Some x /\ s' = set_clients (<[c := publish e w x]> (clients s1)) s1.
Lemma insert_cases c t values s r s' : kds_cmd_insert_row c t values s = Ret r s' ->
  match r with Finished _ _ => undisturbed (next_rel s) s s' | Blocked _ => published c s s' end.
Proof.
  unfold kds_cmd_insert_row. intros ([q [oid|]] & s1 & H1%(wal_undisturbed (next_rel s)) & H)%bind_inv; [|by injection H as <- <-].
  apply bind_inv in H as ([rel|err] & s2 & H2%(wal_undisturbed (next_rel s)) & H); [|injection H as <- <-; by eapply undisturbed_trans].
  pose proof (undisturbed_trans _ _ _ _ H1 H2) as H12. clear H1 H2. destruct H12 as [E1 E2 E3 E4 E5 E6].
  apply bind_inv in H as (a & s3 & [= <- <-] & H).
  set (s3 := Dshell _ _ _ _ _ _ _) in H. set (a := next_rel s2) in *.
  assert (H3 : undisturbed (next_rel s) s s3).
  { split; try done; [cbn; unfold a; lia|]. intros b Hb. cbn. rewrite lookup_insert_ne by (unfold a; lia). by apply E6. }
  assert (Hclose : forall k q, (kds_relation_close a ;; k) s3 = Ret q s' -> (forall s, exists r out, k s = Ret (Finished r out) s) ->
    match q with Finished _ _ => undisturbed (next_rel s) s s' | Blocked _ => published c s s' end).
  { intros k q0 (u & s4 & H4 & H5)%bind_inv Hk. destruct (Hk s4) as (r0 & out & E). rewrite E in H5. injection H5 as <- <-.
    eapply undisturbed_trans; [exact H3|]. eapply (frames_close (next_rel s) a); [exact E5| |exact H4]. cbn. unfold a. lia. }
  assert (Hsub : forall e w, matches w e -> rel_of w = a -> kds_dshell_submit_exec c e w s3 = Ret r s' ->
    match r with Finished _ _ => undisturbed (next_rel s) s s' | Blocked _ => published c s s' end).
  { intros e w Hm Hw (u & s4 & H4 & H5)%bind_inv. injection H5 as <- <-. unfold client_mod in H4.
    destruct (clients s3 !! c) as [x|] eqn:Hx; [|done]. injection H4 as <- <-. exists e, w, s3, x. rewrite Hw.
    split_and!; try done; [cbn; unfold a; lia|cbn; rewrite lookup_insert_eq; by eexists]. }
  branch H; [eapply Hclose; [exact H|]; intros; by eexists _, _|].
  destruct (kds_dshell_encode_row_from_vals _ _ _) as [[q0 row]|]; [|done].
  branch H; [eapply Hclose; [exact H|]; intros; by eexists _, _|]. cbn zeta in H.
  branch H; [eapply Hsub; [..|exact H]; done|]. branch H.
  - branch H; [|eapply Hsub; [..|exact H]; done]. apply bind_inv in H as (r1 & s4 & [= <- <-] & H).
    eapply Hclose; [exact H|]; intros; by eexists _, _.
  - eapply Hclose; [exact H|]; intros; by eexists _, _.
Qed.

(** ** The invariant *)
(** The executor was run, and its last run did not ask for more. *)
Definition final (chain : nat) (e : dshell_exec) : Prop :=
  match e with
  | HeapExecBuf _ x => exists slice x0 w w' r, kds_exec_run chain slice x0 w = Ret (r, x) w' /\ r <> KDS_EXEC_CONTINUE
  | BtreeExecBuf _ x => exists x0 w w' r, kds_btree_insert_exec_run x0 w = Ret (r, x) w' /\ r <> KDS_EXEC_CONTINUE
  end.
Definition client_ok (chain : nat) (s : dshell) (x : kds_dshell_client) : Prop :=
  match waiting x with
  | None => exec_pending x = false
  | Some w => (rel_of w < next_rel s)%nat /\ is_Some (rels s !! rel_of w) /\
      exists e, exec_buf x = Some e /\ matches w e /\ (if exec_pending x then done_count x = 0%nat else final chain e)
  end.
Definition proc_ok (chain : nat) (s : dshell) : Prop :=
  match proc s with
  | ProcOut => True
  | ProcPicked c => exists x, clients s !! c = Some x /\ exec_pending x = true
  | ProcRan c r => exists x e, clients s !! c = Some x /\ exec_pending x = true /\ exec_buf x = Some e /\ (r <> KDS_EXEC_CONTINUE -> final chain e)
  end.
Record shell_ok (chain : nat) (s : dshell) : Prop := {
  so_clients : forall c x, clients s !! c = Some x -> client_ok chain s x;
  so_apart : forall c d x y w v, clients s !! c = Some x -> clients s !! d = Some y ->
    waiting x = Some w -> waiting y = Some v -> rel_of w = rel_of v -> c = d;
  so_fresh : forall c, (next_client s <= c)%nat -> clients s !! c = None;
  so_proc : proc_ok chain s }.

Lemma ok_undisturbed chain s s' : shell_ok chain s -> undisturbed (next_rel s) s s' -> shell_ok chain s'.
Proof.
  intros [H1 H2 H3 H4] [E1 E2 E3 E4 E5 E6]. split.
  - intros c x. rewrite E1. intros Hx. specialize (H1 c x Hx). unfold client_ok in *. destruct (waiting x); [|done].
    destruct H1 as (Hn & Hs & He). split; [lia|]. by rewrite E6.
  - rewrite E1. exact H2.
  - rewrite E1, E3. exact H3.
  - unfold proc_ok in *. by rewrite E1, E4.
Qed.
Lemma ok_proc chain s p : shell_ok chain s -> proc_ok chain (set_proc p s) -> shell_ok chain (set_proc p s).
Proof. intros [H1 H2 H3 H4] Hp. by split. Qed.
(** A client that is not being executed changes. *)
Lemma ok_client chain s c x x' : shell_ok chain s -> clients s !! c = Some x -> client_ok chain s x' ->
  (waiting x' = None \/ waiting x' = waiting x) -> exec_pending x' = exec_pending x -> exec_buf x' = exec_buf x ->
  shell_ok chain (set_clients (<[c := x']> (clients s)) s).
Proof.
  intros [H1 H2 H3 H4] Hx Hx' Hw Hp He. split; cbn [clients set_clients].
  - intros d y [[<- <-]|[Hne Hy]]%lookup_insert_Some; [done|]. by apply (H1 d).
  - intros d1 d2 y1 y2 w1 w2 [[<- <-]|[Hn1 Hy1]]%lookup_insert_Some [[<- <-]|[Hn2 Hy2]]%lookup_insert_Some Hw1 Hw2 Hr; try done.
    + destruct Hw as [Hw|Hw]; [congruence|]. apply (H2 c d2 x y2 w1 w2); congruence.
    + destruct Hw as [Hw|Hw]; [congruence|]. apply (H2 d1 c y1 x w1 w2); congruence.
    + by eapply (H2 d1 d2).
  - intros d Hd. cbn in Hd. rewrite lookup_insert_ne; [by apply H3|]. intros <-. by rewrite (H3 c) in Hx.
  - unfold proc_ok in *. cbn [proc set_clients clients]. destruct (proc s) as [|d|d r]; [done|..].
    + destruct H4 as (y & Hy & Hyp). destruct (decide (c = d)) as [<-|]; [exists x'|exists y].
      * rewrite lookup_insert_eq. split; [done|]. congruence.
      * by rewrite lookup_insert_ne.
    + destruct H4 as (y & e & Hy & Hyp & Hye & Hf). destruct (decide (c = d)) as [<-|]; [exists x', e|exists y, e].
      * rewrite lookup_insert_eq. assert (y = x) as -> by congruence. split_and!; congruence || done.
      * by rewrite lookup_insert_ne.
Qed.
Lemma client_ok_same chain s x x' : waiting x' = waiting x -> exec_pending x' = exec_pending x -> exec_buf x' = exec_buf x ->
  done_count x' = done_count x -> client_ok chain s x -> client_ok chain s x'.
Proof. unfold client_ok. by intros -> -> -> ->. Qed.
Lemma ok_resp chain s c f s' u : (forall x, waiting (f x) = waiting x /\ exec_pending (f x) = exec_pending x /\ exec_buf (f x) = exec_buf x /\ done_count (f x) = done_count x) ->
  shell_ok chain s -> client_mod c f s = Ret u s' -> shell_ok chain s'.
Proof.
  intros Hf Hok. unfold client_mod. destruct (clients s !! c) as [x|] eqn:Hx; [|done]. intros [= _ <-]. destruct (Hf x) as (F1 & F2 & F3 & F4).
  eapply ok_client; try done; [|by right]. by eapply client_ok_same, (so_clients _ _ Hok c).
Qed.
Lemma ok_set_resp chain s c t s' u : shell_ok chain s -> client_mod c (set_resp t) s = Ret u s' -> shell_ok chain s'.
Proof. by apply ok_resp. Qed.

(** ** Every event keeps it *)
Lemma open_ok chain s u s' : shell_ok chain s -> do_event chain EOpen s = Ret u s' -> shell_ok chain s'.
Proof.
  intros Hok (r & s1 & H & [= _ <-])%bind_inv. unfold kds_dshell_open in H. apply bind_inv in H as (b & s2 & H2%(wal_undisturbed (next_rel s)) & H).
  pose proof (ok_undisturbed _ _ _ Hok H2) as Hok2. destruct b; cbn [negb] in H; [|by injection H as _ <-]. injection H as _ <-.
  pose proof (so_fresh _ _ Hok2 (next_client s2) ltac:(lia)) as Hnone. destruct Hok2 as [G1 G2 G3 G4]. split; cbn [clients].
  - intros c x [[<- <-]|[Hne Hx]]%lookup_insert_Some; [done|]. by apply (G1 c).
  - intros d1 d2 y1 y2 w1 w2 [[<- <-]|[Hn1 Hy1]]%lookup_insert_Some [[<- <-]|[Hn2 Hy2]]%lookup_insert_Some Hw1 Hw2 Hr; try done.
    by eapply (G2 d1 d2).
  - intros c Hc. cbn in Hc. rewrite lookup_insert_ne by lia. apply G3. lia.
  - unfold proc_ok in *. cbn [proc clients]. destruct (proc s2) as [|d|d r']; [done|..].
    + destruct G4 as (y & Hy & Hp). exists y. rewrite lookup_insert_ne; [done|]. intros <-. congruence.
    + destruct G4 as (y & e & Hy & Hp). exists y, e. rewrite lookup_insert_ne; [done|]. intros <-. congruence.
Qed.
Lemma file_call_inv c m s (u : unit) s' : file_call c m s = Ret u s' -> s' = s \/ exists x, clients s !! c = Some x /\ waiting x = None /\ m s = Ret u s'.
Proof. unfold file_call. destruct (clients s !! c) as [x|]; [|intros [= _ <-]; by left]. destruct (waiting x) eqn:E; [intros [= _ <-]; by left|]. right. by exists x. Qed.
Lemma release_ok chain c s u s' : shell_ok chain s -> do_event chain (ERelease c) s = Ret u s' -> shell_ok chain s'.
Proof.
  intros Hok [->|(x & Hx & Hw & H)]%file_call_inv; [done|]. unfold kds_dshell_release in H. rewrite Hx in H. injection H as _ <-.
  pose proof (so_clients _ _ Hok c x Hx) as Hc. unfold client_ok in Hc. rewrite Hw in Hc. destruct Hok as [G1 G2 G3 G4]. split; cbn [clients set_clients].
  - intros d y [Hne Hy]%lookup_delete_Some. by apply (G1 d).
  - intros d1 d2 y1 y2 w1 w2 [Hn1 Hy1]%lookup_delete_Some [Hn2 Hy2]%lookup_delete_Some. by apply (G2 d1 d2).
  - intros d Hd. apply lookup_delete_None. right. by apply G3.
  - unfold proc_ok in *. cbn [proc clients set_clients set_client_list]. destruct (proc s) as [|d|d r]; [done|..].
    + destruct G4 as (y & Hy & Hp). exists y. rewrite lookup_delete_ne; [done|]. intros <-. congruence.
    + destruct G4 as (y & e & Hy & Hp & He). exists y, e. rewrite lookup_delete_ne; [done|]. intros <-. congruence.
Qed.
Lemma read_ok chain c len s u s' : shell_ok chain s -> do_event chain (ERead c len) s = Ret u s' -> shell_ok chain s'.
Proof.
  intros Hok [->|(x & Hx & Hw & H)]%file_call_inv; [done|]. apply bind_inv in H as (r & s1 & H & [= _ <-]).
  unfold kds_dshell_read, client_get in H. apply bind_inv in H as (y & s2 & H2 & H). rewrite Hx in H2. injection H2 as <- <-.
  destruct (_ =? 0); [by injection H as _ <-|]. cbn [negb] in H. apply bind_inv in H as (v & s2 & H2 & [= _ <-]). by eapply ok_resp; [|exact Hok|exact H2].
Qed.
Lemma dispatch_cases chain c stmt s r s' : kds_dispatch_stmt chain c stmt s = Ret r s' ->
  match r with Finished _ _ => undisturbed (next_rel s) s s' | Blocked _ => published c s s' end.
Proof.
  unfold kds_dispatch_stmt. destruct stmt; try apply insert_cases; intros ([q out] & s1 & H & [= <- <-])%bind_inv.
  - by eapply (frames_create (next_rel s)).
  - by eapply (frames_scan (next_rel s)).
  - by eapply (frames_meta (next_rel s)).
  - by eapply (frames_alloc (next_rel s)).
Qed.
(** Publishing an executor in a client that is not waiting. *)
Lemma ok_published chain c s s' x : shell_ok chain s -> clients s !! c = Some x -> waiting x = None -> published c s s' -> shell_ok chain s'.
Proof.
  intros Hok Hx Hw (e & w & s1 & x1 & Hu & Hm & Hr & Hs & Hx1 & ->). pose proof (ok_undisturbed _ _ _ Hok Hu) as Hok1.
  assert (x1 = x) as -> by (destruct Hu; congruence). pose proof (so_clients _ _ Hok c x Hx) as Hc. unfold client_ok in Hc. rewrite Hw in Hc.
  assert (Hlow : forall d y v, clients s1 !! d = Some y -> waiting y = Some v -> (rel_of v < next_rel s)%nat).
  { intros d y v Hy Hv. rewrite (ud_clients _ _ _ Hu) in Hy. pose proof (so_clients _ _ Hok d y Hy) as Hd. unfold client_ok in Hd. rewrite Hv in Hd. tauto. }
  destruct Hok1 as [G1 G2 G3 G4]. split; cbn [clients set_clients].
  - intros d y [[<- <-]|[Hne Hy]]%lookup_insert_Some; [|by apply (G1 d)]. unfold client_ok. cbn. split; [lia|]. split; [done|]. by exists e.
  - intros d1 d2 y1 y2 w1 w2 [[<- <-]|[Hn1 Hy1]]%lookup_insert_Some [[<- <-]|[Hn2 Hy2]]%lookup_insert_Some Hw1 Hw2 He; try done.
    + injection Hw1 as <-. specialize (Hlow d2 y2 w2 Hy2 Hw2). lia.
    + injection Hw2 as <-. specialize (Hlow d1 y1 w1 Hy1 Hw1). lia.
    + by eapply (G2 d1 d2).
  - intros d Hd. cbn in Hd. rewrite lookup_insert_ne; [by apply G3|]. intros <-. by rewrite (G3 c) in Hx1.
  - unfold proc_ok in *. cbn [proc clients set_clients]. destruct (proc s1) as [|d|d r]; [done|..].
    + destruct G4 as (y & Hy & Hp). exists y. rewrite lookup_insert_ne; [done|]. intros <-. congruence.
    + destruct G4 as (y & f & Hy & Hp & He). exists y, f. rewrite lookup_insert_ne; [done|]. intros <-. congruence.
Qed.
Lemma write_ok chain c len ubuf s u s' : shell_ok chain s -> do_event chain (EWrite c len ubuf) s = Ret u s' -> shell_ok chain s'.
Proof.
  intros Hok [->|(x & Hx & Hw & H)]%file_call_inv; [done|]. apply bind_inv in H as (r & s1 & H & [= _ <-]). unfold kds_dshell_write in H.
  destruct ubuf as [ub|]; [|by injection H as _ <-]. apply bind_inv in H as (v & s2 & H2 & H). pose proof (ok_set_resp _ _ _ _ _ _ Hok H2) as Hok2.
  assert (Hx2 : clients s2 !! c = Some (set_resp [] x)).
  { unfold client_mod in H2. rewrite Hx in H2. injection H2 as _ <-. apply lookup_insert_eq. }
  destruct (kds_parse _ _ _) as [[e|stmt] q|h q]; [| |done].
  - apply bind_inv in H as (v2 & s3 & H3 & [= _ <-]). by eapply ok_set_resp; [|exact H3].
  - apply bind_inv in H as (r2 & s3 & H3%dispatch_cases & H). destruct r2 as [r2 out|w].
    + apply bind_inv in H as (v2 & s4 & H4 & [= _ <-]). eapply ok_set_resp; [|exact H4]. by eapply ok_undisturbed.
    + injection H as _ <-. by eapply ok_published; [exact Hok2|exact Hx2|exact Hw|].
Qed.
(** The wait ends: the relation goes, which no other client uses. *)
Lemma ok_closed chain s c x w a n s' u : shell_ok chain s -> clients s !! c = Some x -> waiting x = Some w -> exec_pending x = false -> rel_of w = a ->
  kds_relation_close a (set_clients (<[c := set_waiting None (set_done n x)]> (clients s)) s) = Ret u s' -> shell_ok chain s'.
Proof.
  intros Hok Hx Hw Hp Ha H. unfold kds_relation_close in H. destruct (rels _ !! a); [|done]. injection H as _ <-.
  destruct Hok as [G1 G2 G3 G4]. split; cbn [clients set_clients set_rels].
  - intros d y [[<- <-]|[Hne Hy]]%lookup_insert_Some; [done|]. specialize (G1 d y Hy). unfold client_ok in *. destruct (waiting y) as [v|] eqn:Hv; [|done].
    destruct G1 as (F1 & F2 & F3). split; [done|]. split; [|done]. cbn. rewrite lookup_delete_ne; [done|]. intros Heq. apply Hne. eapply (G2 c d); try done. congruence.
  - intros d1 d2 y1 y2 w1 w2 [[<- <-]|[Hn1 Hy1]]%lookup_insert_Some [[<- <-]|[Hn2 Hy2]]%lookup_insert_Some Hw1 Hw2; try done. by eapply (G2 d1 d2).
  - intros d Hd. rewrite lookup_insert_ne; [by apply G3|]. intros <-. by rewrite (G3 c) in Hx.
  - unfold proc_ok in *. cbn [proc clients set_clients set_rels]. destruct (proc s) as [|d|d r]; [done|..].
    + destruct G4 as (y & Hy & Hyp). exists y. rewrite lookup_insert_ne; [done|]. intros <-. congruence.
    + destruct G4 as (y & f & Hy & Hyp & He). exists y, f. rewrite lookup_insert_ne; [done|]. intros <-. congruence.
Qed.
Lemma wake_ok chain c s u s' : shell_ok chain s -> do_event chain (EWake c) s = Ret u s' -> shell_ok chain s'.
Proof.
  intros Hok H. unfold do_event, wait_ends in H. destruct (clients s !! c) as [x|] eqn:Hx; [|by injection H as _ <-].
  unfold write_wakes in H. apply bind_inv in H as (x1 & s1 & H1 & H). unfold client_get in H1. rewrite Hx in H1. injection H1 as <- <-.
  destruct (waiting x) as [w|] eqn:Hw; [|by injection H as _ <-]. destruct (done_count x) as [|n] eqn:Hd; [by injection H as _ <-|].
  pose proof (so_clients _ _ Hok c x Hx) as Hc. unfold client_ok in Hc. rewrite Hw in Hc. destruct Hc as (_ & _ & e & He & Hm & Hf).
  destruct (exec_pending x) eqn:Hp; [congruence|].
  apply bind_inv in H as (v & s2 & H2 & H). unfold client_mod in H2. rewrite Hx in H2. injection H2 as _ <-.
  apply bind_inv in H as ([q out] & s3 & H3 & H). eapply ok_set_resp; [|exact H]. unfold finish_insert in H3. apply bind_inv in H3 as (v3 & s4 & H4 & H3).
  assert (s3 = s4) as ->.
  { apply bind_inv in H3 as (x4 & s5 & H5 & H3). unfold client_get in H5. destruct (clients s4 !! c); [|done]. injection H5 as _ <-.
    repeat case_match; try done; by injection H3 as _ <-. }
  by eapply (ok_closed chain s c x w (rel_of w) n).
Qed.

(** The process. *)
Lemma pick_ok chain l : forall s u s', shell_ok chain (set_proc ProcOut s) -> pick l s = Ret u s' -> shell_ok chain s'.
Proof.
  induction l as [|c l IH]; intros s u s' Hok; cbn [pick].
  - by intros [= _ <-].
  - intros (x & s1 & H1 & H)%bind_inv. unfold client_get in H1. destruct (clients s !! c) as [y|] eqn:Hx; [|done]. injection H1 as <- <-.
    destruct (exec_pending y) eqn:Hp; [|by eapply IH]. injection H as _ <-. apply (ok_proc chain (set_proc ProcOut s)); [done|]. by exists y.
Qed.
Lemma run_exec_cases chain slice e s r e' s' : run_exec chain slice e s = Ret (r, e') s' ->
  undisturbed (next_rel s) s s' /\ (forall w, matches w e -> matches w e') /\ (r <> KDS_EXEC_CONTINUE -> final chain e').
Proof.
  destruct e as [a x|a x]; cbn [run_exec]; intros (rel & s1 & H1 & H)%bind_inv; unfold rel_get in H1; destruct (rels s !! a); try done; injection H1 as _ <-.
  - apply bind_inv in H as ([r1 x1] & s2 & H2 & [= <- <- <-]). pose proof H2 as Hu%(wal_undisturbed (next_rel s)). split; [done|].
    split; [by intros []|]. intros Hr. unfold on_wal in H2. destruct (kds_exec_run _ _ _ _) as [b w|] eqn:E; [|done]. injection H2 as -> _. by eexists _, _, _, _, _.
  - apply bind_inv in H as (now & s2 & H2%(wal_undisturbed (next_rel s)) & H). apply bind_inv in H as ([r1 x1] & s3 & H3 & [= <- <- <-]).
    pose proof H3 as Hu%(wal_undisturbed (next_rel s)). split; [by eapply undisturbed_trans|].
    split; [by intros []|]. intros Hr. unfold on_wal in H3. destruct (kds_btree_insert_exec_run _ _) as [b w|] eqn:E; [|done]. injection H3 as -> _. by eexists _, _, _, _.
Qed.
(** The executor of a client that is being run changes. *)
Lemma ok_executed chain s c x e r : shell_ok chain s -> clients s !! c = Some x -> exec_pending x = true ->
  (forall w, waiting x = Some w -> matches w e) -> (r <> KDS_EXEC_CONTINUE -> final chain e) ->
  shell_ok chain (set_proc (ProcRan c r) (set_clients (<[c := set_exec_buf e x]> (clients s)) s)).
Proof.
  intros [G1 G2 G3 G4] Hx Hp Hm Hf. split; cbn [clients set_clients set_proc].
  - intros d y [[<- <-]|[Hne Hy]]%lookup_insert_Some; [|by apply (G1 d)]. specialize (G1 c x Hx). unfold client_ok in *. cbn [waiting set_exec_buf exec_pending exec_buf done_count].
    destruct (waiting x) as [w|] eqn:Hw; [|done]. rewrite Hp in *. destruct G1 as (F1 & F2 & e0 & _ & _ & F3). split; [done|]. split; [done|]. exists e. auto.
  - intros d1 d2 y1 y2 w1 w2 [[<- <-]|[Hn1 Hy1]]%lookup_insert_Some [[<- <-]|[Hn2 Hy2]]%lookup_insert_Some Hw1 Hw2 Hr; try done.
    + by apply (G2 c d2 x y2 w1 w2).
    + by apply (G2 d1 c y1 x w1 w2).
    + by apply (G2 d1 d2 y1 y2 w1 w2).
  - intros d Hd. cbn in Hd. rewrite lookup_insert_ne; [by apply G3|]. intros <-. by rewrite (G3 c) in Hx.
  - unfold proc_ok. cbn. exists (set_exec_buf e x), e. by rewrite lookup_insert_eq.
Qed.
(** Its executor has finished: the client is woken. *)
Lemma ok_completed chain s c x e t n : shell_ok chain (set_proc ProcOut s) -> clients s !! c = Some x -> exec_pending x = true -> exec_buf x = Some e -> final chain e ->
  shell_ok chain (set_clients (<[c := set_done n (set_pending false (set_resp t x))]> (clients s)) (set_proc ProcOut s)).
Proof.
  intros [G1 G2 G3 G4] Hx Hp He Hf. split; cbn [clients set_clients set_proc] in *.
  - intros d y [[<- <-]|[Hne Hy]]%lookup_insert_Some; [|by apply (G1 d)]. specialize (G1 c x Hx). unfold client_ok in *. cbn [waiting set_done set_pending set_resp exec_pending exec_buf done_count].
    destruct (waiting x) as [w|] eqn:Hw; [|done]. destruct G1 as (F1 & F2 & e0 & He0 & Hm & _). split; [done|]. split; [done|]. exists e. assert (e0 = e) as -> by congruence. auto.
  - intros d1 d2 y1 y2 w1 w2 [[<- <-]|[Hn1 Hy1]]%lookup_insert_Some [[<- <-]|[Hn2 Hy2]]%lookup_insert_Some Hw1 Hw2 Hr; try done.
    + by apply (G2 c d2 x y2 w1 w2).
    + by apply (G2 d1 c y1 x w1 w2).
    + by apply (G2 d1 d2 y1 y2 w1 w2).
  - intros d Hd. cbn in Hd. rewrite lookup_insert_ne; [by apply G3|]. intros <-. by rewrite (G3 c) in Hx.
  - done.
Qed.
Lemma proc_event_ok chain slice s u s' : shell_ok chain s -> do_event chain (EProc slice) s = Ret u s' -> shell_ok chain s'.
Proof.
  intros Hok H. unfold do_event, proc_step in H. pose proof (so_proc _ _ Hok) as Hp. unfold proc_ok in Hp. destruct (proc s) as [|c|c r] eqn:Hps.
  - eapply pick_ok; [|exact H]. by apply ok_proc.
  - destruct Hp as (x & Hx & Hpend). unfold proc_exec in H. apply bind_inv in H as (x1 & s1 & H1 & H). unfold client_get in H1. rewrite Hx in H1. injection H1 as <- <-.
    destruct (exec_buf x) as [e|] eqn:He; [|done]. apply bind_inv in H as ([r e'] & s2 & (Hu & Hm & Hf)%run_exec_cases & H).
    pose proof (ok_undisturbed _ _ _ Hok Hu) as Hok2. apply bind_inv in H as (v & s3 & H3 & [= _ <-]). unfold client_mod in H3.
    rewrite (ud_clients _ _ _ Hu), Hx in H3. injection H3 as _ <-. rewrite <- (ud_clients _ _ _ Hu).
    apply ok_executed; try done; [by rewrite (ud_clients _ _ _ Hu)|]. intros w Hw. apply Hm. pose proof (so_clients _ _ Hok c x Hx) as Hc.
    unfold client_ok in Hc. rewrite Hw in Hc. destruct Hc as (_ & _ & e0 & He0 & Hme & _). congruence.
  - destruct Hp as (x & e & Hx & Hpend & He & Hf). pose proof (ok_proc chain s ProcOut Hok I) as Hok0.
    assert (Hfin : forall t l, final chain e -> pick l (set_clients (<[c := set_done (S (done_count x)) (set_pending false (set_resp t x))]> (clients s)) s) = Ret u s' -> shell_ok chain s').
    { intros t l Hfe. apply pick_ok. exact (ok_completed chain s c x e t (S (done_count x)) Hok0 Hx Hpend He Hfe). }
    destruct r; unfold proc_finish in H; [..|by injection H as _ <-];
      apply bind_inv in H as (v & s1 & H1 & H); unfold client_mod in H1; rewrite Hx in H1; injection H1 as _ <-; cbn zeta beta in H.
    + eapply (Hfin (resp_buf x)); [by apply Hf|exact H].
    + rewrite He in H. eapply Hfin; [by apply Hf|exact H].
Qed.

(** ** Reachability *)
Definition no_timeout (ev : event) : Prop := forall c, ev <> ETimeout c.
Inductive reachable (chain : nat) : dshell -> Prop :=
  | reach_boot d : reachable chain (Dshell d ∅ [] 0 ∅ 0 ProcOut)
  | reach_event s ev u s' : reachable chain s -> no_timeout ev -> do_event chain ev s = Ret u s' -> reachable chain s'.
Lemma reachable_ok chain s : reachable chain s -> shell_ok chain s.
Proof.
  induction 1 as [d|s ev u s' Hs IH Hev H].
  - split; cbn; [|done..]. intros c x. by rewrite lookup_empty.
  - destruct ev; [by eapply open_ok|by eapply release_ok|by eapply write_ok|by eapply wake_ok| |by eapply read_ok|by eapply proc_event_ok].
    by destruct (Hev c).
Qed.
End Race.

(** ** Theorems *)
Section Claims.
Context `{K : Kernel} {KS : Kstrtoll} {KL : KstrtollLaws} {CT : Ctype}.

(** C2.  An INSERT of a client that has the shell to itself, from the line
    it writes to the response it reads, with any number of time slices: the
    line is parsed, the table is found and opened, the values are encoded,
    the executor runs as the slices allow.  The client reads that its key is
    a duplicate exactly when the table has the key, and otherwise the page
    and slot where the table now holds the encoded row, or an error when
    there is no room; an error changes no page, the relation is closed and
    the catalog is as it was.  The write still waits only if each of these
    calls of the executor used its slice up. *)
Theorem insert_round chain c len u slices s0 x0 pl st e cat name rel vals enc o l :
  insert_ready c s0 x0 pl st e cat name rel vals enc -> proc s0 = ProcOut -> line_is len u (KDS_STMT_INSERT name vals) ->
  let row := row_bytes (rel_schema rel) enc in
  bytes_ok row -> 8 <= zlen row -> table_at rel st pl o l -> short_rows l -> catalog_apart o l -> (length l <= chain)%nat ->
  exists y pl' st' e' rl nr, insert_served chain c len u slices s0 = Ret tt (serving c y (at_pool pl' st' e') rl nr ProcOut s0) /\
    catalog_rep pl' cat /\
    match waiting y with
    | None => rl = rels s0 /\ exec_pending y = false /\ resp_pos y = 0 /\ resp_len y = zlen (resp_buf y) /\
        insert_answer name row rel o l pl pl' (resp_buf y)
    | Some _ => pl' = pl /\ used_up_run (set_tick (S (tick st)) st) slices st'
    end.
Proof. intros Hr Hpr (q & Hq). by eapply insert_served_cases. Qed.

(** C17.  In every interleaving of opens, closes, writes, reads, wake-ups
    and steps of the process in which no wait times out: the relation of
    every executor that a write waits for is open, and a write that is woken
    finds in its client the executor it has published, run to its end.  Two
    writes never share a relation. *)
Theorem woken_after_run chain s : reachable chain s ->
  (forall c x w, clients s !! c = Some x -> waiting x = Some w ->
     is_Some (rels s !! rel_of w) /\
     exists e, exec_buf x = Some e /\ matches w e /\ ((0 < done_count x)%nat -> final chain e)) /\
  (forall c d x y w v, clients s !! c = Some x -> clients s !! d = Some y -> waiting x = Some w -> waiting y = Some v ->
     c <> d -> rel_of w <> rel_of v).
Proof.
  intros Hs%reachable_ok. split.
  - intros c x w Hx Hw. pose proof (so_clients _ _ Hs c x Hx) as Hc. unfold client_ok in Hc. rewrite Hw in Hc.
    destruct Hc as (_ & H1 & e & He & Hm & Hf). split; [done|]. exists e. split; [done|]. split; [done|]. intros Hd.
    destruct (exec_pending x); [lia|done].
  - intros c d x y w v Hx Hy Hw Hv Hne Heq. by apply Hne, (so_apart _ _ Hs c d x y w v).
Qed.

(** C39.  With timeouts that fails.  When the first INSERT of a client times
    out while the process is between running its executor and reporting it,
    the completion of the first executor wakes the second INSERT: the client
    reads that its row was inserted at page 0, slot 0, and the row is not in
    the table.  (The process needs one slice for the first executor: its
    call [kds_exec_run] does not answer CONTINUE; and there is memory for the
    relation that the second INSERT opens.) *)
Theorem stale_completion_loses_insert chain c len1 u1 len2 u2 slice s0 x0 pl st e cat name rel vals1 enc1 vals2 enc2 o l r hx w :
  insert_ready c s0 x0 pl st e cat name rel vals1 enc1 -> proc s0 = ProcOut -> waiting x0 = None ->
  line_is len1 u1 (KDS_STMT_INSERT name vals1) -> line_is len2 u2 (KDS_STMT_INSERT name vals2) ->
  let row1 := row_bytes (rel_schema rel) enc1 in
  let row2 := row_bytes (rel_schema rel) enc2 in
  row_stored (rel_schema rel) vals2 enc2 -> zlen row2 <= KDS_DSHELL_ROW_MAX -> bytes_ok row1 -> 8 <= zlen row1 ->
  table_at rel st pl o l -> short_rows l -> catalog_apart o l -> (length l <= chain)%nat ->
  row_pk row2 <> row_pk row1 -> row_pk row2 ∉ pks l ->
  kds_exec_run chain slice (kds_heap_insert_exec_init (Some rel) (Some row1) (zlen row1) KDS_DSHELL_XID)
    (at_pool pl (set_tick (S (tick st)) st) e) = Ret (r, hx) w ->
  r <> KDS_EXEC_CONTINUE -> k_alloc (tick (kds w)) = true ->
  exists pl' st' e' y rl nr l',
    do_events chain [EWrite c len1 (Some u1); EProc slice; EProc slice; ETimeout c; EWrite c len2 (Some u2); EProc slice; EWake c] s0 =
      Ret tt (serving c y (at_pool pl' st' e') rl nr ProcOut s0) /\
    waiting y = None /\ resp_buf y = ok_msg name (Tid 0 0) /\ chain_at pl' (root_page_id rel) l' /\ row_pk row2 ∉ pks l'.
Proof. apply stale_cases. Qed.

(** A timeout while the process is about to run the executor frees the
    relation the executor points to, and the file can be closed, which frees
    the client: in both cases the process then uses freed memory. *)
Theorem timeout_frees_in_use chain c len u slice s0 x0 pl st e cat name rel vals enc :
  insert_ready c s0 x0 pl st e cat name rel vals enc -> proc s0 = ProcOut -> waiting x0 = None -> line_is len u (KDS_STMT_INSERT name vals) ->
  (exists s', do_events chain [EWrite c len (Some u); EProc slice; ETimeout c; EProc slice] s0 = Halt Fault s') /\
  (exists s', do_events chain [EWrite c len (Some u); EProc slice; ETimeout c; ERelease c; EProc slice] s0 = Halt Fault s').
Proof. apply timeout_frees_cases. Qed.
End Claims.

(** ** An empty table and one client *)
#[local] Existing Instance stopped_kernel.
#[local] Opaque KDS_BUF_NR_FRAMES empty_page.
Definition shell_rel : kds_relation := Relation 4001 1 0 200 (new_columns 4001 4001 demo_cols).
Definition shell_of (s : kds_state) : dshell :=
  Dshell (Db (WalEnv s None 0 0) [] 4003) {[0%nat := new_client]} [0%nat] 1 ∅ 0 ProcOut.
Definition shell_cat : catalog := snd (create_model 4000 1 (cstr "t") demo_cols 200 0 no_rows).
Lemma shell_table : exists s pl, g_pool s = Some pl /\ catalog_rep pl shell_cat /\ table_at shell_rel s pl None [HPage 200 [] 8135].
Proof.
  pose proof (create_table_cases KDS_CLUSTERED_HEAP cat_state cat_pool 4 [] 200 (cat_kp 200) (zeros KDS_PAGE_SIZE) no_rows [] 4000 1
    (cstr "t") demo_cols cat_staged cat_rep ltac:(lia) ltac:(by vm_compute) ltac:(by vm_compute) (cstr_ok _) demo_cols_ok) as H.
  change (clustered_val KDS_CLUSTERED_HEAP) with 0 in H. unfold shell_cat.
  destruct (create_model 4000 1 (cstr "t") demo_cols 200 0 no_rows) as [[r n'] c'] eqn:E. destruct H as (s' & _ & (pl & k & p & Ha & Hc & Hp & Hw & Hv & Hf & Hn) & _).
  exists s', pl. pose proof (as_pool _ _ _ Ha) as Hg. split; [done|]. split; [done|]. split; try done.
  - apply Ha.
  - split; [done|]. split; [done|]. exists 0. split; [|done]. by exists k, p.
  - apply NoDup_singleton.
  - cbn. rewrite wp_id by done. done.
Qed.
Definition shell_vals (v : Z) : list kds_ast_val := [KDS_VAL_INT v; KDS_VAL_INT 8].
Definition shell_enc (v : Z) : list (bytes * bytes) := [(le_bytes 8 v, fmt_lld v); (le_bytes 4 8, fmt_lld 8)].
Lemma shell_ready s pl v : g_pool s = Some pl -> catalog_rep pl shell_cat -> - 2 ^ 63 <= v < 2 ^ 63 ->
  insert_ready 0 (shell_of s) new_client pl s (WalEnv s None 0 0) shell_cat (cstr "t") shell_rel (shell_vals v) (shell_enc v).
Proof.
  intros Hg Hc Hv. split.
  - apply lookup_insert_eq.
  - constructor. exists [], []. split_and!; [done|apply not_elem_of_nil|apply not_elem_of_nil|constructor].
  - intros n _. apply lookup_empty.
  - unfold at_pool. cbn. by rewrite wp_id.
  - exact Hc.
  - eexists. split; [by vm_compute|]. split; by vm_compute.
  - done.
  - done.
  - constructor; [|constructor; [|constructor]]; cbn [fst snd].
    + apply (stored_int 3 8); [done|]. unfold int_min, int_max. cbn. lia.
    + apply (stored_int 2 4); [done|]. unfold int_min, int_max. lia.
  - assert (E : row_bytes (rel_schema shell_rel) (shell_enc v) = le_bytes 8 v ++ le_bytes 4 8 ++ []) by reflexivity.
    rewrite E, !zlen_app, !zlen_le_bytes. by vm_compute.
Qed.
#[local] Existing Instances ascii_ctype ascii_ctype_laws.
Definition line7 : bytes := cstr "INSERT INTO t VALUES (7, 8);".
Definition line9 : bytes := cstr "INSERT INTO t VALUES (9, 8);".
Lemma line7_is : line_is 28 line7 (KDS_STMT_INSERT (cstr "t") (shell_vals 7)).
Proof. eexists. vm_compute. reflexivity. Qed.
Lemma line9_is : line_is 28 line9 (KDS_STMT_INSERT (cstr "t") (shell_vals 9)).
Proof. eexists. vm_compute. reflexivity. Qed.
Definition shell_row (v : Z) : bytes := le_bytes 8 v ++ le_bytes 4 8.
Lemma shell_row_ok v : bytes_ok (shell_row v) /\ zlen (shell_row v) = 12.
Proof. split; [|done]. apply bytes_ok_app. split; auto with kds. Qed.
Lemma apart_200 : catalog_apart None [HPage 200 [] 8135].
Proof. intros id Hid. split; [|done]. cbn. rewrite elem_of_cons, elem_of_nil. lia. Qed.
Lemma short_200 : short_rows [HPage 200 [] 8135].
Proof. repeat constructor. Qed.

Lemma model7 : insert_model KDS_DSHELL_XID (shell_row 7) None [HPage 200 [] 8135] = Some [HPage 200 [new_tuple 1 (shell_row 7)] 8090].
Proof. reflexivity. Qed.
Lemma insert_round_witness :
  exists s y pl' st' e' nr, insert_served 1 0 28 line7 [5] (shell_of s) =
      Ret tt (serving 0 y (at_pool pl' st' e') ∅ nr ProcOut (shell_of s)) /\
    resp_buf y = line (cstr "OK inserted into 't' at page=200 slot=0") /\
    chain_at pl' 200 [HPage 200 [new_tuple 1 (shell_row 7)] 8090].
Proof.
  destruct shell_table as (s & pl & Hg & Hc & Ht). destruct (shell_row_ok 7) as [Hrow Hz].
  destruct (insert_round 1 0 28 line7 [5] (shell_of s) new_client pl s (WalEnv s None 0 0) shell_cat (cstr "t") shell_rel (shell_vals 7) (shell_enc 7)
    None [HPage 200 [] 8135]) as (y & pl' & st' & e' & rl & nr & E & _ & H).
  - apply (shell_ready s pl 7 Hg Hc); lia.
  - done.
  - exact line7_is.
  - exact Hrow.
  - by vm_compute.
  - exact Ht.
  - exact short_200.
  - exact apart_200.
  - done.
  - destruct (waiting y); [destruct H as [_ H]; exfalso; eapply used_up_never; [eapply used_up_all, H|left]|].
    destruct H as (-> & _ & _ & _ & H). unfold insert_answer in H. change (row_bytes (rel_schema shell_rel) (shell_enc 7)) with (shell_row 7) in H.
    rewrite decide_False in H by apply not_elem_of_nil. rewrite model7 in H.
    destruct H as (Hch & _ & tid & (H0 & g & Hgl & Hid & Hl) & Hresp).
    exists s, y, pl', st', e', nr. split; [exact E|]. split; [|exact Hch].
    apply list_elem_of_singleton in Hgl as ->. destruct tid as [tp ts]. cbn [pg_id tid_page_id tid_slot pg_view] in *. subst tp.
    assert (ts = 0) as -> by (apply lookup_lt_Some in Hl; cbn in Hl; lia).
    rewrite Hresp. vm_compute. reflexivity.
Defined.
(** A client is opened, writes, and its executor runs to its end. *)
Lemma woken_state : exists s x w, reachable 1 s /\ clients s !! 0%nat = Some x /\ waiting x = Some w /\ done_count x = 1%nat.
Proof.
  destruct shell_table as (s & pl & Hg & Hc & Ht). destruct (shell_row_ok 7) as [Hrow Hz]. set (s1 := set_tick (S (tick s)) s).
  assert (Hr1 : reachable 1 (shell_of s1)).
  { eapply (reach_event 1 _ EOpen tt); [apply (reach_boot 1 (Db (WalEnv s None 0 0) [] 4003))|by intros c|reflexivity]. }
  assert (Hg1 : g_pool s1 = Some pl) by done. pose proof (shell_ready s1 pl 7 Hg1 Hc ltac:(lia)) as Hr. pose proof (ir_only _ _ _ _ _ _ _ _ _ _ _ Hr) as Ho.
  pose proof (write_event 1 0 _ _ _ _ _ _ _ _ _ _ 28 line7 Hr eq_refl line7_is) as E1. cbn zeta in E1. change (next_rel (shell_of s1)) with 0%nat in E1.
  change (proc (shell_of s1)) with ProcOut in E1. set (x1 := submitted _ _ _ _) in E1. set (rl := <[0%nat := shell_rel]> _) in E1. set (w1 := at_pool _ _ _) in E1.
  destruct (first_run 1 5 (shell_row 7) shell_rel None (set_tick (S (tick s1)) s1) pl [HPage 200 [] 8135] (WalEnv s1 None 0 0) Hrow ltac:(lia))
    as (r & hx & pl' & st' & e' & l' & E & Hcon & _); [eapply table_later; [|exact Ht]; eapply later_trans; apply later_tick|exact short_200|done|].
  assert (Hcont : r <> KDS_EXEC_CONTINUE) by (intros Hr0; eapply used_up_never; [apply Forall_singleton, (Hcon Hr0)|left]).
  assert (E2 : do_event 1 (EProc 5) (serving 0 x1 w1 rl 1 ProcOut (shell_of s1)) = Ret tt (serving 0 x1 w1 rl 1 (ProcPicked 0) (shell_of s1)))
    by (by apply begin_serving).
  set (x2 := set_exec_buf (HeapExecBuf 0 hx) x1).
  assert (E3 : do_event 1 (EProc 5) (serving 0 x1 w1 rl 1 (ProcPicked 0) (shell_of s1)) = Ret tt (serving 0 x2 (at_pool pl' st' e') rl 1 (ProcRan 0 r) (shell_of s1))).
  { unfold do_event, proc_step. cbn [proc serving]. eapply exec_serving; [reflexivity|apply lookup_insert_eq|exact E]. }
  assert (E4 : do_event 1 (EProc 5) (serving 0 x2 (at_pool pl' st' e') rl 1 (ProcRan 0 r) (shell_of s1)) =
    Ret tt (serving 0 (served r (HeapExecBuf 0 hx) x2) (at_pool pl' st' e') rl 1 ProcOut (shell_of s1))).
  { unfold do_event, proc_step. cbn [proc serving]. by apply finish_serving. }
  assert (Hr4 : reachable 1 (serving 0 (served r (HeapExecBuf 0 hx) x2) (at_pool pl' st' e') rl 1 ProcOut (shell_of s1))).
  { apply (reach_event 1 _ (EProc 5) tt _) in E4; [exact E4| |by intros c]. apply (reach_event 1 _ (EProc 5) tt _) in E3; [exact E3| |by intros c].
    apply (reach_event 1 _ (EProc 5) tt _) in E2; [exact E2| |by intros c]. by apply (reach_event 1 _ (EWrite 0 28 (Some line7)) tt _) in E1. }
  exists (serving 0 (served r (HeapExecBuf 0 hx) x2) (at_pool pl' st' e') rl 1 ProcOut (shell_of s1)), (served r (HeapExecBuf 0 hx) x2),
    (WaitHeapInsert (cstr "t") 0). split; [exact Hr4|]. split; [apply lookup_insert_eq|].
  destruct r; [split; reflexivity..|destruct (Hcont eq_refl)].
Qed.
Lemma woken_after_run_witness : exists s x e,
  reachable 1 s /\ clients s !! 0%nat = Some x /\ exec_buf x = Some e /\ final 1 e.
Proof.
  destruct woken_state as (s & x & w & Hs & Hx & Hw & Hd). destruct (woken_after_run 1 s Hs) as [H _].
  destruct (H 0%nat x w Hx Hw) as (_ & e & He & _ & Hf). exists s, x, e. split_and!; [exact Hs|exact Hx|exact He|]. apply Hf. lia.
Defined.
Lemma timeout_frees_in_use_witness : exists s,
  (exists s', do_events 1 [EWrite 0 28 (Some line7); EProc 5; ETimeout 0; EProc 5] (shell_of s) = Halt Fault s') /\
  (exists s', do_events 1 [EWrite 0 28 (Some line7); EProc 5; ETimeout 0; ERelease 0; EProc 5] (shell_of s) = Halt Fault s').
Proof.
  destruct shell_table as (s & pl & Hg & Hc & Ht). exists s.
  apply (timeout_frees_in_use 1 0 28 line7 5 (shell_of s) new_client pl s (WalEnv s None 0 0) shell_cat (cstr "t") shell_rel (shell_vals 7) (shell_enc 7));
    [apply (shell_ready s pl 7 Hg Hc); lia|done|done|exact line7_is].
Defined.
Lemma stale_completion_loses_insert_witness : exists s y st' e' pl' rl nr l',
  do_events 1 [EWrite 0 28 (Some line7); EProc 5; EProc 5; ETimeout 0; EWrite 0 28 (Some line9); EProc 5; EWake 0] (shell_of s) =
    Ret tt (serving 0 y (at_pool pl' st' e') rl nr ProcOut (shell_of s)) /\
  resp_buf y = line (cstr "OK inserted into 't' at page=0 slot=0") /\ chain_at pl' 200 l' /\ 9 ∉ pks l'.
Proof.
  destruct shell_table as (s & pl & Hg & Hc & Ht). destruct (shell_row_ok 7) as [Hrow Hz].
  set (st1 := set_tick (S (tick s)) s).
  destruct (first_run 1 5 (shell_row 7) shell_rel None st1 pl [HPage 200 [] 8135] (WalEnv s None 0 0) Hrow ltac:(lia))
    as (r & hx & pl1 & st2 & e2 & l1 & E1 & Hcon & _); [eapply table_later; [apply later_tick|exact Ht]|exact short_200|done|].
  destruct (stale_completion_loses_insert 1 0 28 line7 28 line9 5 (shell_of s) new_client pl s (WalEnv s None 0 0) shell_cat (cstr "t") shell_rel
    (shell_vals 7) (shell_enc 7) (shell_vals 9) (shell_enc 9) None [HPage 200 [] 8135] r hx (at_pool pl1 st2 e2))
    as (pl' & st' & e' & y & rl & nr & l' & E & _ & Hresp & Hch & Hni).
  - apply (shell_ready s pl 7 Hg Hc); lia.
  - done.
  - done.
  - exact line7_is.
  - exact line9_is.
  - apply (ir_row _ _ _ _ _ _ _ _ _ _ _ (shell_ready s pl 9 Hg Hc ltac:(lia))).
  - by vm_compute.
  - exact Hrow.
  - by vm_compute.
  - exact Ht.
  - exact short_200.
  - exact apart_200.
  - done.
  - by vm_compute.
  - apply not_elem_of_nil.
  - exact E1.
  - intros Hr0. eapply used_up_never; [apply Forall_singleton, (Hcon Hr0)|left].
  - done.
  - exists s, y, st', e', pl', rl, nr, l'. split; [exact E|]. split; [rewrite Hresp; vm_compute; reflexivity|]. split; [exact Hch|exact Hni].
Defined.
