(* ===== verification/SelectSpec.v ===== *)
(** * SelectSpec: what SELECT shows of a table

    [page_lines] and [chain_lines] are the lines of a heap page and of a
    table; the scan of dshell.c is shown to print them. *)
From S2P Require Import Prelude Layout Heap HeapSpec HeapOps TupleStore State Disk DiskSpec Pool PoolSpec Alloc AllocSpec Btree Types TypesSpec Parser ParserSpec Store Catalog CatalogSpec Relation RelationSpec Wal ExecHeap ExecHeapSpec ExecBtree Dshell RowSpec DshellSpec DshellRace.
From stdpp Require Import prelude gmap list strings.
From Stdlib Require Import ZArith Lia.
Local Open Scope Z_scope.
Local Open Scope list_scope.
Local Open Scope kds_scope.

(** ** The text of a table *)
Section Text.
Context `{KS : Kstrtoll} (cols : kds_schema).

(** The values of a slot; a slot whose row is longer than the buffer of the
    scan is not restricted. *)
Definition long_row (t : htuple) : Prop := KDS_DSHELL_ROW_MAX < data_len (ht_hdr t).
Definition slot_holds (t : option htuple) (enc : list (bytes * bytes)) : Prop :=
  match t with
  | None => True
  | Some t => long_row t \/ (ht_data t = row_bytes cols enc /\ exists vals, row_stored cols vals enc)
  end.
Definition row_head (id slot : Z) (t : htuple) : bytes :=
  [10] ++ cstr "  page=" ++ fmt_u id ++ cstr " [" ++ fmt_u slot ++ cstr "] xmin=" ++ fmt_u (xmin (ht_hdr t)) ++
  cstr " xmax=" ++ fmt_u (xmax (ht_hdr t)) ++ cstr " ".
(** The lines of a page and their number; dead slots are passed over, a long
    row hides the rest of its page. *)
Fixpoint page_lines (id slot : Z) (v : list (option htuple)) (es : list (list (bytes * bytes))) : bytes * Z :=
  match v, es with
  | None :: v, _ :: es => page_lines id (slot + 1) v es
  | Some t :: v, enc :: es =>
      if KDS_DSHELL_ROW_MAX <? data_len (ht_hdr t) then ([], 0) else
      let '(txt, n) := page_lines id (slot + 1) v es in (row_head id slot t ++ row_text true cols enc ++ txt, n + 1)
  | _, _ => ([], 0)
  end.
Fixpoint chain_lines (l : list hpage) (ess : list (list (list (bytes * bytes)))) : bytes * Z :=
  match l, ess with
  | g :: l, es :: ess =>
      let '(t1, n1) := page_lines (pg_id g) 0 (pg_view g) es in
      let '(t2, n2) := chain_lines l ess in (t1 ++ t2, n1 + n2)
  | _, _ => ([], 0)
  end.
Definition select_text (l : list hpage) (ess : list (list (list (bytes * bytes)))) : bytes :=
  let '(txt, n) := chain_lines l ess in
  cstr "OK " ++ txt ++ [10] ++ line (fmt_u n ++ cstr " row(s) across " ++ fmt_u (zlen l) ++ cstr " page(s)").

Lemma zlen_row_head id slot t : 28 <= zlen (row_head id slot t).
Proof.
  assert (H : forall v, 1 <= zlen (fmt_u v)).
  { intros v. change (fmt_u v) with (if v <? 10 then [48 + v] else dec_digits 19 (v / 10) ++ [48 + v mod 10]).
    destruct (v <? 10); [done|]. rewrite zlen_app. pose proof (zlen_nonneg (dec_digits 19 (v / 10))).
    rewrite zlen_cons. change (zlen []) with 0. lia. }
  unfold row_head. rewrite !zlen_app. pose proof (H id). pose proof (H slot). pose proof (H (xmin (ht_hdr t))). pose proof (H (xmax (ht_hdr t))).
  change (zlen [10]) with 1. change (zlen (cstr "  page=")) with 7. change (zlen (cstr " [")) with 2. change (zlen (cstr "] xmin=")) with 7.
  change (zlen (cstr " xmax=")) with 6. change (zlen (cstr " ")) with 1. lia.
Qed.
(** Every counted row has its line. *)
Lemma page_count id v : forall slot es, 0 <= snd (page_lines id slot v es) <= zlen (fst (page_lines id slot v es)).
Proof.
  induction v as [|[t|] v IH]; intros slot [|enc es]; cbn [page_lines]; try (cbn [fst snd]; by split); [|apply IH].
  destruct (_ <? data_len (ht_hdr t)); [by split|]. specialize (IH (slot + 1) es). destruct (page_lines id (slot + 1) v es) as [txt n]. cbn [fst snd] in *.
  rewrite !zlen_app. pose proof (zlen_row_head id slot t). pose proof (zlen_nonneg (row_text true cols enc)). lia.
Qed.
Lemma chain_count l : forall ess, 0 <= snd (chain_lines l ess) <= zlen (fst (chain_lines l ess)).
Proof.
  induction l as [|g l IH]; intros [|es ess]; cbn [chain_lines]; try (cbn [fst snd]; by split).
  pose proof (page_count (pg_id g) (pg_view g) 0 es) as H1. specialize (IH ess). destruct (page_lines _ _ _ _), (chain_lines l ess). cbn [fst snd] in *.
  rewrite zlen_app. lia.
Qed.
End Text.

(** ** The scan prints it *)
Section Scan.
Context `{K : Kernel} {KS : Kstrtoll} {KL : KstrtollLaws} {CT : Ctype} {TS : TupleStore} (cols : kds_schema).

Lemma scan_rows_spec id fid pl st e k p c x rl nr ps s0 :
  pool_wf pl -> buf_map pl !! id = Some fid -> cached pl id = Some (k, p) -> heap_wf p ->
  forall n i es out rows, (i + n = length (heap_view p))%nat -> Forall2 (slot_holds cols) (drop i (heap_view p)) es ->
  let '(txt, m) := page_lines cols id (Z.of_nat i) (drop i (heap_view p)) es in
  zlen out + zlen txt + 21 < DSHELL_RESP_MAX -> 0 <= rows -> rows + m < 2 ^ 32 ->
  scan_rows cols id fid (map Z.of_nat (seq i n)) (zlen out) out rows (serving c x (at_pool pl st e) rl nr ps s0) =
    Ret (zlen (out ++ txt), out ++ txt, rows + m, false) (serving c x (at_pool pl st e) rl nr ps s0).
Proof.
  intros Hwf Hm Hc Hp. pose proof (p_meta_ok p (wf_bytes _ Hp)) as (Hn & _). pose proof (zlen_heap_view p Hp) as Hz. unfold zlen in Hz.
  induction n as [|n IH]; intros i es out rows Hi Hes.
  { rewrite drop_ge in * by lia. inversion Hes. cbn [page_lines seq map scan_rows]. intros _ _ _. by rewrite app_nil_r, Z.add_0_r. }
  destruct (lookup_lt_is_Some_2 (heap_view p) i) as [t Ht]; [lia|]. rewrite (drop_S _ _ _ Ht) in *. inversion Hes as [|? enc ? es' Hh Hes']; subst.
  assert (Hiu : u16_ok (Z.of_nat i)) by (unfold u16_ok in *; lia). cbn [seq map scan_rows page_lines].
  destruct (read_at id fid pl st k p (Z.of_nat i) KDS_DSHELL_ROW_MAX Hwf Hm Hc Hp Hiu ltac:(done)) as (o & E & Ho). rewrite Nat2Z.id, Ht in Ho.
  specialize (IH (S i) es'). rewrite Nat2Z.inj_succ in IH. unfold Z.succ in IH. destruct t as [t|].
  - destruct (Z.ltb_spec KDS_DSHELL_ROW_MAX (data_len (ht_hdr t))) as [Hlong|Hshort].
    + subst o. intros _ _ _. erewrite bind_ok by (apply on_db_serving; exact E). cbn beta iota. change (- ENOSPC =? - ENOENT) with false. cbn iota.
      by rewrite app_nil_r, Z.add_0_r.
    + destruct Ho as (rest & -> & Hrest). destruct Hh as [Hl|(Hd & vals & Hrow)]; [unfold long_row in Hl; lia|].
      destruct (page_lines cols id (Z.of_nat i + 1) (drop (S i) (heap_view p)) es') as [txt m] eqn:Epl in IH |- *. intros Hfit Hr0 Hrm.
      erewrite bind_ok by (apply on_db_serving; exact E). cbn beta iota.
      pose proof (view_live p (Z.of_nat i) t Hp Hiu ltac:(by rewrite Nat2Z.id)) as (_ & _ & _ & _ & _ & Hlen & _).
      pose proof (zlen_row_head id (Z.of_nat i) t) as Hhead. rewrite !zlen_app in Hfit. pose proof (zlen_nonneg txt). pose proof (zlen_nonneg (row_text true cols enc)).
      destruct (Z.leb_spec DSHELL_RESP_MAX (zlen out + 16)); [lia|].
      fold (row_head id (Z.of_nat i) t). rewrite append_at_fits by lia. set (out1 := out ++ row_head id (Z.of_nat i) t).
      assert (Hdec : kds_dshell_decode_row cols (ht_data t ++ rest) (data_len (ht_hdr t)) (DSHELL_RESP_MAX - zlen out1) =
        (zlen (row_text true cols enc), row_text true cols enc)).
      { rewrite <- Hlen, Hd. unfold out1. rewrite zlen_app.
        exact (decode_cols_spec (DSHELL_RESP_MAX - (zlen out + zlen (row_head id (Z.of_nat i) t))) cols vals enc Hrow true [] rest []
          ltac:(change (zlen []) with 0; lia)). }
      rewrite Hdec. rewrite take_ge by (unfold zlen; lia). rewrite <- zlen_app.
      pose proof (page_count cols id (drop (S i) (heap_view p)) (Z.of_nat i + 1) es') as Hcnt. rewrite Epl in Hcnt. cbn [fst snd] in Hcnt.
      rewrite u32_small by lia. unfold out1. rewrite IH; [|lia|done|rewrite !zlen_app; lia|lia|lia].
      rewrite <- !app_assoc. by replace (rows + 1 + m) with (rows + (m + 1)) by lia.
  - subst o. destruct (page_lines cols id (Z.of_nat i + 1) (drop (S i) (heap_view p)) es') as [txt m] eqn:Epl in IH |- *. intros Hfit Hr0 Hrm.
    erewrite bind_ok by (apply on_db_serving; exact E). cbn beta iota. rewrite Z.eqb_refl. apply IH; done || lia.
Qed.

Lemma scan_chain_spec c x rl nr ps s0 pl st e : pool_wf pl ->
  forall l ess chain id out rows pages, chain_at pl id l -> Forall2 (fun g es => Forall2 (slot_holds cols) (pg_view g) es) l ess -> (length l <= chain)%nat ->
  let '(txt, m) := chain_lines cols l ess in
  let tail := [10] ++ line (fmt_u (rows + m) ++ cstr " row(s) across " ++ fmt_u (pages + zlen l) ++ cstr " page(s)") in
  zlen out + zlen txt + zlen tail + 21 < DSHELL_RESP_MAX -> 0 <= rows -> rows + m < 2 ^ 32 -> 0 <= pages -> pages + zlen l < 2 ^ 32 ->
  scan_chain chain cols id (zlen out) out rows pages (serving c x (at_pool pl st e) rl nr ps s0) =
    Ret (0, out ++ txt ++ tail) (serving c x (at_pool pl st e) rl nr ps s0).
Proof.
  intros Hwf. induction l as [|g l IH]; intros ess chain id out rows pages Hl Hes Hchain; inversion Hes as [|? es ? ess' Hg Hes']; subst; cbn [chain_lines].
  - intros Hfit _ _ _ _. cbn in Hl. subst id. change (zlen []) with 0 in *. rewrite !Z.add_0_r in *.
    destruct chain; cbn [scan_chain Z.eqb]; rewrite append_at_fits by lia; done.
  - destruct Hl as (Hne & Hid & next & (k & p & Hc & Hp & Hv & Hf & Hn) & Hl). destruct chain as [|chain]; [cbn in Hchain; lia|].
    destruct (page_lines cols (pg_id g) 0 (pg_view g) es) as [t1 n1] eqn:E1. destruct (chain_lines cols l ess') as [t2 n2] eqn:E2.
    rewrite zlen_cons. cbn zeta. set (tail := [10] ++ _). intros Hfit Hr0 Hrm Hp0 Hpm. cbn [scan_chain].
    apply Z.eqb_neq in Hne as ->. destruct (open_page id pl st k p Hwf Hc) as (fid & pl1 & Hm1 & Ho & Hwf1 & Hc1 & _ & Hu & _).
    erewrite bind_ok by (apply on_db_serving; exact Ho). cbn beta iota. erewrite bind_ok by (apply on_db_serving; by eapply nr_slots_at).
    pose proof (scan_rows_spec id fid pl1 st e (pinned k) p c x rl nr ps s0 Hwf1 Hm1 Hc1 Hp (length (heap_view p)) 0 es out rows eq_refl) as Es.
    rewrite drop_0, Hv in Es. specialize (Es Hg). change (Z.of_nat 0) with 0 in Es. rewrite Hid in E1. rewrite E1 in Es.
    pose proof (chain_count cols l ess') as Hcnt. rewrite E2 in Hcnt. cbn [fst snd] in Hcnt.
    pose proof (page_count cols id (pg_view g) 0 es) as Hcnt1. rewrite E1 in Hcnt1. cbn [fst snd] in Hcnt1.
    pose proof (zlen_nonneg l). pose proof (zlen_nonneg tail). rewrite zlen_app in Hfit.
    unfold all_slots, zlen at 1. rewrite Nat2Z.id, Hv. erewrite bind_ok by (apply Es; lia). cbn beta iota.
    erewrite bind_ok by (apply on_db_serving; by eapply next_at). erewrite bind_ok by (apply on_db_serving; exact Hu). rewrite Hn, u32_small by lia.
    specialize (IH ess' chain next (out ++ t1) (rows + n1) (pages + 1) Hl Hes' ltac:(cbn in Hchain; lia)). rewrite E2 in IH. cbn zeta in IH.
    replace (rows + n1 + n2) with (rows + (n1 + n2)) in IH by lia. replace (pages + 1 + zlen l) with (pages + (1 + zlen l)) in IH by lia. fold tail in IH.
    rewrite IH; rewrite ?zlen_app; try lia. by rewrite <- !app_assoc.
Qed.
End Scan.

Section Claims.
Context `{K : Kernel} {KS : Kstrtoll} {KL : KstrtollLaws} {CT : Ctype}.

(** C5.  SELECT from a heap table whose listing fits the response (with 21
    bytes to spare in its 512), from the line a client writes to the response
    it reads: the response lists the live rows, page after page and slot
    after slot, with the text of their values, then the numbers of rows and
    pages listed.  A row of more than 256 bytes, the buffer of the scan, ends
    the listing of its page: it and the rows behind it are not shown.  No
    page changes, the relation is closed.  The conditions of a WHERE clause
    have no effect.  (A longer listing: [unfitting_row_rewinds].) *)
Theorem select_round chain c len u s0 x0 pl st e cat name rel has_where conds l ess :
  clients s0 !! c = Some x0 -> rels s0 !! next_rel s0 = None -> db_wal (db s0) = at_pool pl st e -> catalog_rep pl cat ->
  (exists t, name_lookup cat name = Some (rel_oid rel) /\ table_lookup cat (rel_oid rel) = Some t /\
    rel = Relation (rel_oid rel) (st_namespace t) (st_clustered t) (desc_page_id t) (schema_of cat (rel_oid rel))) ->
  rel_kind rel = clustered_val KDS_CLUSTERED_HEAP -> k_alloc (tick st) = true -> line_is len u (KDS_STMT_SELECT name has_where conds) ->
  chain_at pl (root_page_id rel) l -> Forall2 (fun g es => Forall2 (slot_holds (rel_schema rel)) (pg_view g) es) l ess -> (length l <= chain)%nat ->
  zlen l < 2 ^ 32 ->
  let txt := select_text (rel_schema rel) l ess in
  zlen txt + 21 < DSHELL_RESP_MAX ->
  kds_dshell_write chain c len (Some u) s0 =
    Ret (Some len) (serving c (set_resp txt (set_resp [] x0)) (at_pool pl (set_tick (S (tick st)) st) e) (rels s0) (S (next_rel s0)) (proc s0) s0).
Proof.
  intros Hc Hrl Hdb Hcat (t & Hn & Ht & Hrel) Hk Hal (q & Hq) Hl Hes Hchain Hpages txt Hfit.
  rewrite (serving_id c x0 s0 Hc) at 1. rewrite Hdb. unfold kds_dshell_write. erewrite bind_ok by apply mod_serving. rewrite Hq.
  set (st1 := set_tick (S (tick st)) st).
  assert (E : kds_cmd_scan_table chain name (serving c (set_resp [] x0) (at_pool pl st e) (rels s0) (next_rel s0) (proc s0) s0) =
    Ret (0, txt) (serving c (set_resp [] x0) (at_pool pl st1 e) (rels s0) (S (next_rel s0)) (proc s0) s0)).
  { unfold kds_cmd_scan_table. erewrite bind_ok by (eapply on_db_serving; by apply find_table_spec). rewrite Hn. cbn [found].
    erewrite bind_ok by (eapply on_db_serving; rewrite (relation_open_spec pl st cat _ Hcat), Ht, Hal; reflexivity).
    rewrite <- Hrel. cbn beta iota. erewrite bind_ok by apply new_serving. rewrite Hk, Z.eqb_refl. cbn [negb].
    pose proof (append_at_fits DSHELL_RESP_MAX [] (cstr "OK ") ltac:(done)) as Ea. change (zlen []) with 0 in Ea. rewrite Ea. cbn [app].
    subst txt. unfold select_text in *. destruct (chain_lines (rel_schema rel) l ess) as [lines m] eqn:El.
    pose proof (chain_count (rel_schema rel) l ess) as Hcnt. rewrite El in Hcnt. cbn [fst snd] in Hcnt.
    pose proof (scan_chain_spec (rel_schema rel) c (set_resp [] x0) (<[next_rel s0 := rel]> (rels s0)) (S (next_rel s0)) (proc s0) s0 pl st1 e
      (cr_wf _ _ Hcat) l ess chain (root_page_id rel) (cstr "OK ") 0 0 Hl Hes Hchain) as Es.
    rewrite El in Es. cbn zeta in Es. rewrite !Z.add_0_l in Es. rewrite !zlen_app in Hfit. pose proof (zlen_nonneg lines).
    change (zlen (cstr "OK ")) with 3 in *. rewrite !zlen_app in Es. pose proof (zlen_nonneg l).
    assert (Hb : forall z : bytes, 0 <= zlen z) by (intros; apply zlen_nonneg).
    erewrite bind_ok by (apply Es; unfold DSHELL_RESP_MAX in *; pose proof (Hb [10]); pose proof (Hb (line (fmt_u m ++ cstr " row(s) across " ++ fmt_u (zlen l) ++ cstr " page(s)"))); lia).
    erewrite bind_ok by (eapply close_serving; apply lookup_insert_eq). rewrite delete_insert_eq, delete_id by done. reflexivity. }
  unfold kds_dispatch_stmt. erewrite bind_ok by (erewrite bind_ok by exact E; reflexivity). cbn beta iota.
  by erewrite bind_ok by apply mod_serving.
Qed.
(** A row whose values do not fit what is left of the response: the error of
    [kds_dshell_decode_row] is added to the length of the text, so the next
    text is written 28 characters before the end of the line begun for this
    row, which is counted nevertheless. *)
Theorem unfitting_row_rewinds `{TS : TupleStore} cols id fid pl st e k p c x rl nr ps s0 i t slots out rows txt :
  pool_wf pl -> buf_map pl !! id = Some fid -> cached pl id = Some (k, p) -> heap_wf p ->
  heap_view p !! i = Some (Some t) -> data_len (ht_hdr t) <= KDS_DSHELL_ROW_MAX ->
  let line := out ++ row_head id (Z.of_nat i) t in
  zlen line < DSHELL_RESP_MAX -> zlen out + 16 < DSHELL_RESP_MAX ->
  (forall junk, kds_dshell_decode_row cols (ht_data t ++ junk) (data_len (ht_hdr t)) (DSHELL_RESP_MAX - zlen line) = (- ENOSPC, txt)) ->
  scan_rows cols id fid (Z.of_nat i :: slots) (zlen out) out rows (serving c x (at_pool pl st e) rl nr ps s0) =
    scan_rows cols id fid slots (zlen line - 28) (line ++ txt) (u32 (rows + 1)) (serving c x (at_pool pl st e) rl nr ps s0).
Proof.
  intros Hwf Hm Hc Hp Ht Hshort line Hl Ho Hd. pose proof (zlen_heap_view p Hp) as Hz. pose proof (p_meta_ok p (wf_bytes _ Hp)) as (Hn & _).
  pose proof (lookup_lt_Some _ _ _ Ht) as Hi. assert (Hiu : u16_ok (Z.of_nat i)) by (unfold u16_ok, zlen in *; lia). cbn [scan_rows].
  destruct (read_at id fid pl st k p (Z.of_nat i) KDS_DSHELL_ROW_MAX Hwf Hm Hc Hp Hiu ltac:(done)) as (o & E & Hx). rewrite Nat2Z.id, Ht in Hx.
  destruct (Z.ltb_spec KDS_DSHELL_ROW_MAX (data_len (ht_hdr t))); [lia|]. destruct Hx as (rest & -> & _).
  erewrite bind_ok by (apply on_db_serving; exact E). cbn beta iota. destruct (Z.leb_spec DSHELL_RESP_MAX (zlen out + 16)); [lia|].
  fold (row_head id (Z.of_nat i) t). rewrite append_at_fits by (unfold line in Hl; rewrite zlen_app in Hl; exact Hl). fold line. rewrite Hd.
  rewrite take_ge by (unfold zlen; lia). reflexivity.
Qed.
End Claims.

(** ** A table with a row *)
#[local] Existing Instances stopped_kernel ascii_ctype ascii_ctype_laws.
#[local] Opaque KDS_BUF_NR_FRAMES empty_page.
Lemma table_with_row : exists pl st e, catalog_rep pl shell_cat /\ chain_at pl 200 [HPage 200 [new_tuple 1 (shell_row 7)] 8090] /\ g_pool st = Some pl /\
  kds (at_pool pl st e) = st.
Proof.
  destruct shell_table as (s & pl & Hg & Hc & Ht). destruct (shell_row_ok 7) as [Hrow Hz].
  destruct (exec_insert_cases KDS_DSHELL_XID (shell_row 7) shell_rel None s pl [HPage 200 [] 8135] (WalEnv s None 0 0) 1 [5] Hrow)
    as (r & hx & pl' & st' & e' & E & Hout); [lia|by vm_compute|exact Ht|exact short_200|done|].
  destruct r.
  - destruct Hout as (_ & l' & Hm & Hch & Hwf & _ & Hrest & _). rewrite model7 in Hm. injection Hm as <-.
    exists pl', (wp pl' st'), e'. split; [|split; [exact Hch|done]]. apply (catalog_same pl); [done| |done].
    intros id Hid. apply Hrest; [|done]. cbn. rewrite list_elem_of_singleton. lia.
  - destruct Hout as (_ & _ & Hm). exfalso. specialize (Hm (not_elem_of_nil _)). by rewrite model7 in Hm.
  - destruct Hout as [_ H]. exfalso. eapply used_up_never; [eapply used_up_all, H|left].
Qed.
Definition tuple7 : htuple := HTuple (TupleHdr 1 0 0 12 0 0) (shell_row 7) 12.
Definition text_col : kds_schema := [SysColumn 1 0 0 (set_name (cstr "v")) KDS_TYPE_VARCHAR 0 true].
Lemma unfitting_row_rewinds_witness : exists pl st e fid,
  let out := replicate 475 120 in let here := out ++ row_head 200 0 tuple7 in
  scan_rows text_col 200 fid [0] 475 out 3 (serving 0 new_client (at_pool pl st e) ∅ 0 ProcOut (shell_of st)) =
    scan_rows text_col 200 fid [] (zlen here - 28) (here ++ cstr "v=") 4
      (serving 0 new_client (at_pool pl st e) ∅ 0 ProcOut (shell_of st)).
Proof.
  destruct table_with_row as (pl & st & e & Hc & (_ & _ & next & (k & p & Hcp & Hp & Hv & _) & _) & Hg & Hst).
  pose proof (wf_cached pl 200 (cr_wf _ _ Hc)) as Hw. destruct (buf_map pl !! 200) as [fid|] eqn:Hm; [|cbn in Hcp; congruence].
  exists pl, st, e, fid. cbv zeta.
  apply (unfitting_row_rewinds text_col 200 fid pl st e k p 0 new_client ∅ 0 ProcOut (shell_of st) 0 tuple7 []
    (replicate 475 120) 3 (cstr "v="));
    [exact (cr_wf _ _ Hc)|exact Hm|exact Hcp|exact Hp|cbn in Hv; by rewrite Hv|by vm_compute|by vm_compute|by vm_compute|].
  intros junk. vm_compute. reflexivity.
Defined.
Definition select_line : bytes := cstr "SELECT * FROM t WHERE id = 99;".
Lemma select_round_witness : exists st s',
  kds_dshell_write 1 0 30 (Some select_line) (shell_of st) = Ret (Some 30) s' /\
  resp_buf <$> clients s' !! 0%nat = Some (cstr "OK " ++ [10] ++ cstr "  page=200 [0] xmin=1 xmax=0 id=7, v=8" ++ [10] ++ line (cstr "1 row(s) across 1 page(s)")).
Proof.
  destruct table_with_row as (pl & st & e & Hc & Hch & Hg & Hst). exists st. eexists. split.
  - apply (select_round 1 0 30 select_line (shell_of st) new_client pl st (WalEnv st None 0 0) shell_cat (cstr "t") shell_rel
      true [Cond (cstr "id") KDS_OP_EQ (KDS_VAL_INT 99)] [HPage 200 [new_tuple 1 (shell_row 7)] 8090] [[shell_enc 7]]).
    + apply lookup_insert_eq.
    + apply lookup_empty.
    + unfold at_pool. cbn. by rewrite wp_id.
    + exact Hc.
    + eexists. split; [by vm_compute|]. split; by vm_compute.
    + done.
    + done.
    + eexists. vm_compute. reflexivity.
    + exact Hch.
    + apply Forall2_cons. split; [|by apply Forall2_nil]. apply Forall2_cons. split; [|by apply Forall2_nil].
      right. split; [reflexivity|]. exists (shell_vals 7). constructor; [|constructor; [|constructor]]; cbn [fst snd].
      * by apply (stored_int 3 8).
      * by apply (stored_int 2 4).
    + done.
    + done.
    + by vm_compute.
  - vm_compute. reflexivity.
Defined.
