(* ===== verification/Main.v ===== *)
(** * Main: start and stop of the module (kernel/kds/main.c)

    The module's state is the shell with everything below it, the scheduler,
    and what the initialisers own: the device file, the character device,
    the three system processes and the threads.  The initialisers and
    shutdown functions of the other files that combine several components
    are here too: [init_block_device], [kds_init_page_alloc_system],
    [kds_init_dshell_system], [kds_wal_checkpointer_init].

    [Boot] answers the calls into Linux that only the start makes. *)
From S2P Require Import Prelude Layout State Disk Meta Pool Alloc Types Parser Catalog Wal ExecHeap Dshell Proc.
From stdpp Require Import prelude gmap list.
From Stdlib Require Import ZArith Lia.
Local Open Scope Z_scope.
Local Open Scope list_scope.
Local Open Scope kds_scope.

(** ** Linux *)
Class Boot := {
  (** whether [file_bdev] and its [bd_disk] are not NULL *)
  b_disk : nat -> bool * bool;
  (** 0 or a negative errno: [bdev_file_open_by_dev], [alloc_chrdev_region], [cdev_add],
      [class_create], [device_create], [kthread_create] / [kthread_run] *)
  b_open : nat -> Z;
  b_region : nat -> Z;
  b_cdev : nat -> Z;
  b_class : nat -> Z;
  b_device : nat -> Z;
  b_kthread : nat -> Z }.

(** ** State *)
Definition KDS_INIT_PENDING : Z := 0.
Definition KDS_INIT_DONE : Z := 1.
Definition KDS_INIT_FAILED : Z := 2.
Definition KDS_TIME_SLICE_NS : Z := 10 * 1000000.
Definition KDS_PROC_PRIORITY_SYSTEM_BACKGROUND : Z := 30.

(** What is registered for /dev/kds. *)
Record chardev := Chardev { has_region : bool; has_cdev : bool; has_class : bool; has_device : bool }.
Definition no_chardev : chardev := Chardev false false false false.
(** A thread that was created and not stopped. *)
Inductive kthread := WorkerThread (cpu : Z) | BalancerThread.
Inductive task_ptr := TaskNull | TaskErr (e : Z) | Task (t : nat).

Record module := Module {
  m_shell : dshell; m_sched : sched; next_proc : proc_ptr;
  kds_bdev_filp : bool; open_files : Z;
  kds_prealloc_proc : option proc_ptr; kds_dshell_proc : option proc_ptr; g_ckpt_proc : option proc_ptr;
  m_chardev : chardev; kds_dshell_inited : bool;
  kds_initialized : Z;
  threads : gmap nat kthread; next_thread : nat;
  kds_worker_thread : gmap Z nat; kds_load_balancer : task_ptr }.

Definition set_shell (x : dshell) (m : module) : module :=
  Module x (m_sched m) (next_proc m) (kds_bdev_filp m) (open_files m) (kds_prealloc_proc m) (kds_dshell_proc m) (g_ckpt_proc m)
    (m_chardev m) (kds_dshell_inited m) (kds_initialized m) (threads m) (next_thread m) (kds_worker_thread m) (kds_load_balancer m).
Definition set_sched (x : sched) (m : module) : module :=
  Module (m_shell m) x (next_proc m) (kds_bdev_filp m) (open_files m) (kds_prealloc_proc m) (kds_dshell_proc m) (g_ckpt_proc m)
    (m_chardev m) (kds_dshell_inited m) (kds_initialized m) (threads m) (next_thread m) (kds_worker_thread m) (kds_load_balancer m).
Definition set_next_proc (x : proc_ptr) (m : module) : module :=
  Module (m_shell m) (m_sched m) x (kds_bdev_filp m) (open_files m) (kds_prealloc_proc m) (kds_dshell_proc m) (g_ckpt_proc m)
    (m_chardev m) (kds_dshell_inited m) (kds_initialized m) (threads m) (next_thread m) (kds_worker_thread m) (kds_load_balancer m).
Definition set_filp (x : bool) (n : Z) (m : module) : module :=
  Module (m_shell m) (m_sched m) (next_proc m) x n (kds_prealloc_proc m) (kds_dshell_proc m) (g_ckpt_proc m)
    (m_chardev m) (kds_dshell_inited m) (kds_initialized m) (threads m) (next_thread m) (kds_worker_thread m) (kds_load_balancer m).
Definition set_system_procs (a b c : option proc_ptr) (m : module) : module :=
  Module (m_shell m) (m_sched m) (next_proc m) (kds_bdev_filp m) (open_files m) a b c
    (m_chardev m) (kds_dshell_inited m) (kds_initialized m) (threads m) (next_thread m) (kds_worker_thread m) (kds_load_balancer m).
Definition set_chardev (x : chardev) (m : module) : module :=
  Module (m_shell m) (m_sched m) (next_proc m) (kds_bdev_filp m) (open_files m) (kds_prealloc_proc m) (kds_dshell_proc m) (g_ckpt_proc m)
    x (kds_dshell_inited m) (kds_initialized m) (threads m) (next_thread m) (kds_worker_thread m) (kds_load_balancer m).
Definition set_dshell_inited (x : bool) (m : module) : module :=
  Module (m_shell m) (m_sched m) (next_proc m) (kds_bdev_filp m) (open_files m) (kds_prealloc_proc m) (kds_dshell_proc m) (g_ckpt_proc m)
    (m_chardev m) x (kds_initialized m) (threads m) (next_thread m) (kds_worker_thread m) (kds_load_balancer m).
Definition set_initialized (x : Z) (m : module) : module :=
  Module (m_shell m) (m_sched m) (next_proc m) (kds_bdev_filp m) (open_files m) (kds_prealloc_proc m) (kds_dshell_proc m) (g_ckpt_proc m)
    (m_chardev m) (kds_dshell_inited m) x (threads m) (next_thread m) (kds_worker_thread m) (kds_load_balancer m).
Definition set_threads (x : gmap nat kthread) (n : nat) (m : module) : module :=
  Module (m_shell m) (m_sched m) (next_proc m) (kds_bdev_filp m) (open_files m) (kds_prealloc_proc m) (kds_dshell_proc m) (g_ckpt_proc m)
    (m_chardev m) (kds_dshell_inited m) (kds_initialized m) x n (kds_worker_thread m) (kds_load_balancer m).
Definition set_worker_thread (x : gmap Z nat) (m : module) : module :=
  Module (m_shell m) (m_sched m) (next_proc m) (kds_bdev_filp m) (open_files m) (kds_prealloc_proc m) (kds_dshell_proc m) (g_ckpt_proc m)
    (m_chardev m) (kds_dshell_inited m) (kds_initialized m) (threads m) (next_thread m) x (kds_load_balancer m).
Definition set_load_balancer (x : task_ptr) (m : module) : module :=
  Module (m_shell m) (m_sched m) (next_proc m) (kds_bdev_filp m) (open_files m) (kds_prealloc_proc m) (kds_dshell_proc m) (g_ckpt_proc m)
    (m_chardev m) (kds_dshell_inited m) (kds_initialized m) (threads m) (next_thread m) (kds_worker_thread m) x.

(** The module's memory before its initialisation, and a device. *)
Definition module_start (d : gmap Z bytes) : module :=
  Module (Dshell (Db (WalEnv (boot_state d) None 0 0) [] KDS_USER_OID_START) ∅ [] 0 ∅ 0 ProcOut)
    (Sched ∅ ∅ 0 (SchedStats 0 0 0) 0) 0 false 0 None None None no_chardev false KDS_INIT_PENDING ∅ 0 ∅ TaskNull.

Section Main.
Context `{K : Kernel} {KS : Kstrtoll} {CT : Ctype} {Mc : Machine} {B : Boot}.

Definition on_shell {A} (f : M dshell A) : M module A := fun m =>
  match f (m_shell m) with Ret a s => Ret a (set_shell s m) | Halt h s => Halt h (set_shell s m) end.
Definition on_kern {A} (f : M kds_state A) : M module A := on_shell (on_db f).
Definition on_sched {A} (f : M sched A) : M module A := fun m =>
  match f (m_sched m) with Ret a s => Ret a (set_sched s m) | Halt h s => Halt h (set_sched s m) end.

(** ** The block device (blkdev.c) *)
Definition init_block_device : M module Z :=
  r <- on_kern (oracle b_open) ;;
  if negb (r =? 0) then ret r else
  modify (fun m => set_filp (kds_bdev_filp m) (open_files m + 1) m) ;;
  let* (bdev, bd_disk) := on_kern (oracle b_disk) in
  if negb bdev then modify (fun m => set_filp (kds_bdev_filp m) (open_files m - 1) m) ;; ret (- ENODEV) else
  if negb bd_disk then modify (fun m => set_filp (kds_bdev_filp m) (open_files m - 1) m) ;; ret (- ENODEV) else
  modify (fun m => set_filp true (open_files m) m) ;;
  on_kern (modify (set_kds_bdev true)) ;;
  ret 0.
Definition exit_block_device : M module unit :=
  filp <- gets kds_bdev_filp ;;
  (if filp : bool then modify (fun m => set_filp false (open_files m - 1) m) else ret tt) ;;
  on_kern (modify (set_kds_bdev false)).

(** ** System processes *)
(** [vzalloc] and the fields that are set. *)
Definition system_proc : kds_proc :=
  Proc 0 KDS_PROC_SYSTEM KDS_PROC_STATE_READY (-1) KDS_PROC_PRIORITY_SYSTEM_BACKGROUND 0 0 0 0 0 ∅ false true false.
Definition proc_new (x : kds_proc) : M module proc_ptr := fun m =>
  let p := next_proc m in
  Ret p (set_next_proc (S p) (set_sched (set_procs (<[p := x]> (procs (m_sched m))) (m_sched m)) m)).
Definition proc_free (p : proc_ptr) : M module unit :=
  on_sched (modify (fun s => set_procs (delete p (procs s)) s)).
(** The three processes are made in the same way; [put] sets the global. *)
Definition create_proc (put : option proc_ptr -> module -> module) : M module Z :=
  ok <- on_kern alloc_ok ;;
  if negb ok then modify (put None) ;; ret (- ENOMEM) else
  p <- proc_new system_proc ;;
  modify (put (Some p)) ;;
  r <- on_sched (alone (kds_proc_register (Some p))) ;;
  if negb (r =? 0) then proc_free p ;; modify (put None) ;; ret r else ret 0.
Definition put_prealloc (x : option proc_ptr) (m : module) : module := set_system_procs x (kds_dshell_proc m) (g_ckpt_proc m) m.
Definition put_dshell (x : option proc_ptr) (m : module) : module := set_system_procs (kds_prealloc_proc m) x (g_ckpt_proc m) m.
Definition put_ckpt (x : option proc_ptr) (m : module) : module := set_system_procs (kds_prealloc_proc m) (kds_dshell_proc m) x m.
Definition kds_create_proc_prealloc : M module Z := create_proc put_prealloc.
Definition kds_register_dshell_proc : M module Z := create_proc put_dshell.
Definition kds_wal_checkpointer_init : M module Z := create_proc put_ckpt.
Definition destroy_proc (get : module -> option proc_ptr) (put : option proc_ptr -> module -> module) : M module unit :=
  o <- gets get ;;
  match o with
  | None => ret tt
  | Some p => on_sched (alone (kds_proc_unregister p)) ;; proc_free p ;; modify (put None)
  end.
Definition kds_wal_checkpointer_shutdown : M module unit := destroy_proc g_ckpt_proc put_ckpt.

(** ** Page allocator (page_alloc.c) *)
Definition kds_init_page_alloc_system : M module Z := on_kern alloc_system_fill ;; kds_create_proc_prealloc.
Definition kds_shutdown_page_alloc_system : M module unit :=
  destroy_proc kds_prealloc_proc put_prealloc ;; on_kern alloc_system_drain.

(** ** Debug shell (dshell.c) *)
Definition chardev_mod (f : chardev -> chardev) : M module unit := modify (fun m => set_chardev (f (m_chardev m)) m).
Definition add_region (b : bool) (c : chardev) : chardev := Chardev b (has_cdev c) (has_class c) (has_device c).
Definition add_cdev (b : bool) (c : chardev) : chardev := Chardev (has_region c) b (has_class c) (has_device c).
Definition add_class (b : bool) (c : chardev) : chardev := Chardev (has_region c) (has_cdev c) b (has_device c).
Definition add_device (b : bool) (c : chardev) : chardev := Chardev (has_region c) (has_cdev c) (has_class c) b.
Definition kds_init_dshell_system : M module Z :=
  inited <- gets kds_dshell_inited ;;
  if inited : bool then ret 0 else
  r <- on_kern (oracle b_region) ;;
  if negb (r =? 0) then ret r else
  chardev_mod (add_region true) ;;
  r <- on_kern (oracle b_cdev) ;;
  if negb (r =? 0) then chardev_mod (add_region false) ;; ret r else
  chardev_mod (add_cdev true) ;;
  r <- on_kern (oracle b_class) ;;
  if negb (r =? 0) then chardev_mod (add_cdev false) ;; chardev_mod (add_region false) ;; ret r else
  chardev_mod (add_class true) ;;
  r <- kds_register_dshell_proc ;;
  if negb (r =? 0) then
    chardev_mod (add_class false) ;; chardev_mod (add_cdev false) ;; chardev_mod (add_region false) ;; ret r
  else
  r <- on_kern (oracle b_device) ;;
  if negb (r =? 0) then
    destroy_proc kds_dshell_proc put_dshell ;;
    chardev_mod (add_class false) ;; chardev_mod (add_cdev false) ;; chardev_mod (add_region false) ;; ret r
  else
  chardev_mod (add_device true) ;;
  modify (set_dshell_inited true) ;;
  ret 0.
Definition kds_shutdown_dshell_system : M module unit :=
  inited <- gets kds_dshell_inited ;;
  if negb inited then ret tt else
  chardev_mod (add_device false) ;;
  destroy_proc kds_dshell_proc put_dshell ;;
  on_shell wake_clients ;;
  chardev_mod (add_class false) ;; chardev_mod (add_cdev false) ;; chardev_mod (add_region false) ;;
  modify (set_dshell_inited false).

(** ** Start *)
Definition kds_bootstrap_failed {A} : M module A := modify (set_initialized KDS_INIT_FAILED) ;; halt_with Panic.
Definition step_or_fail (f : M module Z) : M module unit :=
  r <- f ;; if negb (r =? 0) then kds_bootstrap_failed else ret tt.
Definition kds_bootstrap : M module unit :=
  step_or_fail init_block_device ;;
  step_or_fail (on_kern kds_buf_pool_init) ;;
  step_or_fail (on_sched kds_sched_init) ;;
  step_or_fail (on_kern kds_init_meta_system) ;;
  step_or_fail kds_init_dshell_system ;;
  step_or_fail kds_init_page_alloc_system ;;
  fresh <- on_kern kds_meta_is_fresh_init ;;
  (if fresh : bool then step_or_fail (on_shell (on_catalog kds_catalog_bootstrap)) else ret tt) ;;
  step_or_fail (on_shell (on_wal kds_wal_init)) ;;
  step_or_fail kds_wal_checkpointer_init ;;
  modify (set_initialized KDS_INIT_DONE).

(** ** Threads

    A worker and the balancer run until they are told to stop: [rounds] is
    how often their loops are entered.  [run_proc] is the callback of a
    process; [flush_off_addr] the address the checkpointer compares with. *)
Definition run_proc (flush_off_addr : Z) (chain : nat) (p : proc_ptr) (slice_ns : Z) : M module unit :=
  m <- gets (fun m => m) ;;
  if bool_decide (kds_prealloc_proc m = Some p) then on_kern kds_proc_prealloc else
  if bool_decide (kds_dshell_proc m = Some p) then on_shell (kds_dshell_proc_run chain slice_ns) else
  if bool_decide (g_ckpt_proc m = Some p) then on_shell (on_wal (kds_wal_checkpointer_proc flush_off_addr)) else
  halt_with Fault.
(** [kds_proc_schedule] with that callback. *)
Definition worker_round (flush_off_addr : Z) (chain : nat) (cpu : Z) : M module unit :=
  best <- on_sched (schedule_begin cpu) ;;
  match best with
  | None => ret tt
  | Some (p, fast_path) =>
      start_ns <- on_sched ktime_get_ns ;;
      run_proc flush_off_addr chain p KDS_TIME_SLICE_NS ;;
      now_ns <- on_sched ktime_get_ns ;;
      on_sched (schedule_end cpu p fast_path (u64 (now_ns - start_ns)))
  end.
Fixpoint worker_loop (rounds : nat) (flush_off_addr : Z) (chain : nat) (cpu : Z) : M module Z :=
  match rounds with
  | O => ret 0
  | S rounds => worker_round flush_off_addr chain cpu ;; worker_loop rounds flush_off_addr chain cpu
  end.
Definition kds_worker_fn (rounds : nat) (flush_off_addr : Z) (chain : nat) (cpu : Z) : M module Z :=
  i <- gets kds_initialized ;;
  if negb (i =? KDS_INIT_DONE) then ret (-1) else worker_loop rounds flush_off_addr chain cpu.
(** (Without interruption; ProcSpec.v interleaves the balancer's sections.) *)
Fixpoint balancer_loop (rounds : nat) : M module Z :=
  match rounds with O => ret 0 | S rounds => on_sched (alone kds_load_balance) ;; balancer_loop rounds end.
Definition kds_load_balancer_fn (rounds : nat) : M module Z :=
  i <- gets kds_initialized ;;
  if negb (i =? KDS_INIT_DONE) then ret (-1) else balancer_loop rounds.

(** [kthread_create], [kthread_run]: an errno or a new thread. *)
Definition kthread_create (x : kthread) : M module (Z + nat) :=
  r <- on_kern (oracle b_kthread) ;;
  if negb (r =? 0) then ret (inl r) else
  fun m => Ret (inr (next_thread m)) (set_threads (<[next_thread m := x]> (threads m)) (S (next_thread m)) m).
Definition kthread_stop (t : task_ptr) : M module unit :=
  match t with
  | Task t => fun m => match threads m !! t with
                       | Some _ => Ret tt (set_threads (delete t (threads m)) (next_thread m) m)
                       | None => Halt Fault m
                       end
  | _ => halt_with Fault
  end.
Definition stop_worker (cpu : Z) : M module unit :=
  w <- gets kds_worker_thread ;;
  match w !! cpu with
  | None => ret tt
  | Some t => kthread_stop (Task t) ;; modify (fun m => set_worker_thread (delete cpu (kds_worker_thread m)) m)
  end.
Fixpoint stop_workers (cpus : list Z) : M module unit :=
  match cpus with [] => ret tt | cpu :: cpus => stop_worker cpu ;; stop_workers cpus end.
Fixpoint start_each (cpus : list Z) : M module Z :=
  match cpus with
  | [] => ret 0
  | cpu :: cpus =>
      t <- kthread_create (WorkerThread cpu) ;;
      match t with
      | inl _ => stop_workers (for_each_cpu cpu_online_mask) ;; ret (-1)
      | inr t => modify (fun m => set_worker_thread (<[cpu := t]> (kds_worker_thread m)) m) ;; start_each cpus
      end
  end.
Definition kds_start_workers : M module Z := start_each (for_each_cpu cpu_online_mask).
(** On failure the error pointer stays in [kds_load_balancer]. *)
Definition kds_start_load_balancer : M module Z :=
  t <- kthread_create BalancerThread ;;
  match t with
  | inl e => modify (set_load_balancer (TaskErr e)) ;; ret e
  | inr t => modify (set_load_balancer (Task t)) ;; ret 0
  end.

(** ** Stop *)
Definition kds_cleanup : M module unit :=
  b <- gets kds_load_balancer ;;
  match b with
  | TaskNull => ret tt
  | t => kthread_stop t ;; modify (set_load_balancer TaskNull)
  end ;;
  stop_workers (for_each_cpu cpu_online_mask) ;;
  kds_shutdown_page_alloc_system ;;
  kds_shutdown_dshell_system ;;
  on_kern kds_buf_pool_destroy ;;
  on_kern kds_shutdown_meta_system ;;
  exit_block_device.
Definition kds_main : M module Z :=
  kds_bootstrap ;;
  r <- kds_start_workers ;;
  if negb (r =? 0) then ret r else
  r <- kds_start_load_balancer ;;
  if negb (r =? 0) then kds_cleanup ;; ret r else ret 0.
(** [late_initcall] and [module_exit] *)
Definition kds_late_init : M module Z := kds_main.
Definition kds_exit : M module unit := kds_cleanup.
End Main.
