(* ===== verification/MainSpec.v ===== *)
(** * MainSpec: what the start of the module acquires and what its stop releases

    [ends] is partial correctness of a computation that may stop the machine:
    a result satisfies the postcondition, any other end is a panic or a
    BUG_ON.  Its rules for [bind] carry the start-up sequences. *)
From S2P Require Import Prelude Layout State Disk DiskSpec Meta MetaSpec Pool PoolSpec Alloc AllocSpec Types Parser Catalog Wal ExecHeap Dshell Proc ProcSpec Main.
From stdpp Require Import prelude gmap list.
From Stdlib Require Import ZArith Lia.
Local Open Scope Z_scope.
Local Open Scope list_scope.
Local Open Scope kds_scope.

(** ** Computations that may stop the machine *)
Section Ends.
Context {S : Type}.
Definition ends {A} (o : outcome S A) (Q : A -> S -> Prop) : Prop :=
  match o with Ret a s => Q a s | Halt h _ => h = Panic \/ h = Bug end.
Lemma ends_ret {A} (a : A) s (Q : A -> S -> Prop) : Q a s -> ends (ret a s) Q.
Proof. done. Qed.
Lemma ends_bind {A B} (f : M S A) (k : A -> M S B) s (Q : A -> S -> Prop) (R : B -> S -> Prop) :
  ends (f s) Q -> (forall a t, Q a t -> ends (k a t) R) -> ends (bind f k s) R.
Proof. unfold bind. intros Hf Hk. destruct (f s) as [a t|h t]; [by apply Hk|done]. Qed.
Lemma ends_weaken {A} (o : outcome S A) (Q R : A -> S -> Prop) : ends o Q -> (forall a s, Q a s -> R a s) -> ends o R.
Proof. intros Ho HQ. destruct o; [by apply HQ|done]. Qed.
Lemma ends_ok {A B} (f : M S A) (k : A -> M S B) s a t (R : B -> S -> Prop) : f s = Ret a t -> ends (k a t) R -> ends (bind f k s) R.
Proof. intros E H. by erewrite bind_ok by exact E. Qed.
End Ends.

(** ** The run queue of CPU 0

    The system processes prefer CPU 0, which is online; [on_cpu0 s l] says
    that [l] is what is queued there and that no process has an address from
    [np] on. *)
Record on_cpu0 (s : sched) (l : list proc_ptr) (np : proc_ptr) : Prop := {
  oc_queue : exists r, kds_runqueues s !! 0 = Some r /\ system_procs r = l /\ nr_running r = zlen l;
  oc_fresh : forall p, (np <= p)%nat -> procs s !! p = None;
  oc_unqueued : forall c r p, kds_runqueues s !! c = Some r -> p ∈ system_procs r -> (p < np)%nat }.

Section Register.
Context `{Mc : Machine}.

(** The process as its registration leaves it. *)
Definition registered (n : Z) : kds_proc := set_node_init (set_preferred_cpu 0 (set_p_cpu 0 (fresh_proc n system_proc))).
Definition push_proc (p : proc_ptr) (r : kds_runqueue) : kds_runqueue := add_nr_running 1 (set_system (system_procs r ++ [p]) r).
Lemma register_new s p r : 0 ∈ cpu_online_mask -> procs s !! p = Some system_proc -> kds_runqueues s !! 0 = Some r ->
  nr_running r < UINT_MAX ->
  alone (kds_proc_register (Some p)) s =
    Ret 0 (Sched (<[p := registered (kds_next_pid s)]> (procs s)) (<[0 := push_proc p r]> (kds_runqueues s))
             (u64 (kds_next_pid s + 1)) (kds_stats s) (s_tick s)).
Proof.
  intros Hcpu Hp Hr Hn. unfold kds_proc_register. cbn [pbind unlocked alone].
  erewrite (bind_ok (register_prepare p)).
  2:{ unfold register_prepare. erewrite bind_ok by (by apply proc_get_ok). cbn [has_run system_proc negb].
      erewrite bind_ok by reflexivity. erewrite bind_ok by reflexivity.
      by erewrite bind_ok by (by apply (proc_mod_ok _ _ _ system_proc)). }
  cbn [negb procs set_next_pid]. rewrite alone_pbind. erewrite (bind_ok (alone (kds_select_cpu p))).
  2:{ unfold kds_select_cpu. cbn [pbind unlocked alone]. erewrite bind_ok by (apply proc_get_ok; cbn; apply lookup_insert_eq).
      cbn [preferred_cpu fresh_proc system_proc allowed_cpus]. rewrite decide_True by done. rewrite bool_decide_true by done. cbn [Z.leb Z.compare andb alone].
      erewrite bind_ok by (by apply rq_get_ok). apply Z.ltb_lt in Hn as ->. reflexivity. }
  cbn [pbind unlocked locked alone].
  erewrite bind_ok by (eapply proc_mod_ok; cbn; apply lookup_insert_eq). cbn [procs set_procs]. rewrite insert_insert_eq.
  unfold enqueue. rewrite bind_assoc. erewrite bind_ok by (apply proc_get_ok; cbn; apply lookup_insert_eq).
  cbn [kind set_preferred_cpu set_p_cpu fresh_proc system_proc]. rewrite decide_True by done. rewrite bind_assoc.
  unfold list_add_tail. rewrite bind_assoc. erewrite bind_ok by (by apply (rq_mod_ok _ _ _ r)).
  erewrite bind_ok by (eapply proc_mod_ok; cbn; apply lookup_insert_eq). cbn [procs set_procs set_runqueues]. rewrite insert_insert_eq.
  erewrite bind_ok by (eapply rq_mod_ok; cbn; apply lookup_insert_eq). cbn [kds_runqueues set_procs set_runqueues]. by rewrite insert_insert_eq.
Qed.

Definition after_register (s : sched) (p : proc_ptr) (r : kds_runqueue) : sched :=
  Sched (<[p := registered (kds_next_pid s)]> (procs s)) (<[0 := push_proc p r]> (kds_runqueues s))
    (u64 (kds_next_pid s + 1)) (kds_stats s) (s_tick s).
Lemma push_on_cpu0 s l p r : on_cpu0 s l p -> kds_runqueues s !! 0 = Some r -> zlen l < UINT_MAX ->
  on_cpu0 (after_register s p r) (l ++ [p]) (S p).
Proof.
  intros [(r' & Hr & Hl & Hn) Hf Hu] Hr' Hmax. assert (r' = r) as -> by congruence. pose proof (zlen_nonneg l). split.
  - exists (push_proc p r). cbn. rewrite lookup_insert_eq. split; [done|]. split; [by rewrite Hl|].
    rewrite Hn, u32_small by (unfold UINT_MAX in *; lia). rewrite zlen_app. by change (zlen [p]) with 1.
  - intros q Hq. cbn. rewrite lookup_insert_ne by lia. apply Hf. lia.
  - intros c rc q Hc Hq. cbn [after_register kds_runqueues] in Hc. apply lookup_insert_Some in Hc as [[<- <-]|[Hne Hc]].
    + cbn in Hq. apply elem_of_app in Hq as [Hq|Hq%list_elem_of_singleton]; [|lia]. specialize (Hu 0 r q Hr Hq). lia.
    + specialize (Hu c rc q Hc Hq). lia.
Qed.
Lemma without_unqueued p (L : gmap Z kds_runqueue) : (forall c r, L !! c = Some r -> p ∉ system_procs r) ->
  (fun r => set_system (filter (fun q => q <> p) (system_procs r)) r) <$> L = L.
Proof.
  intros H. apply map_eq. intros c. rewrite lookup_fmap. destruct (L !! c) as [r|] eqn:Hr; [|done]. cbn. f_equal.
  fold (without p (system_procs r)). rewrite without_notin by (by eapply H). by destruct r.
Qed.
(** Taking the process just registered off again restores the queues. *)
Lemma unregister_new s l p r : on_cpu0 s l p -> kds_runqueues s !! 0 = Some r -> zlen l < UINT_MAX ->
  alone (kds_proc_unregister p) (after_register s p r) =
    Ret tt (Sched (<[p := registered (kds_next_pid s)]> (procs s)) (kds_runqueues s) (u64 (kds_next_pid s + 1)) (kds_stats s) (s_tick s)).
Proof.
  intros [(r' & Hr & Hl & Hn) Hf Hu] Hr' Hmax. assert (r' = r) as -> by congruence. pose proof (zlen_nonneg l).
  assert (Hnot : forall c rc, kds_runqueues s !! c = Some rc -> p ∉ system_procs rc) by (intros c rc Hc Hin; specialize (Hu c rc p Hc Hin); lia).
  unfold kds_proc_unregister, read_cpu, dequeue. cbn [pbind unlocked locked alone]. rewrite bind_assoc.
  erewrite bind_ok by (apply proc_get_ok; cbn; apply lookup_insert_eq). erewrite bind_ok by reflexivity.
  cbn [p_cpu registered set_node_init set_preferred_cpu set_p_cpu]. rewrite bind_assoc.
  erewrite bind_ok by (apply proc_get_ok; cbn; apply lookup_insert_eq).
  rewrite decide_True by done. unfold list_del_init. rewrite !bind_assoc. erewrite bind_ok by (apply proc_get_ok; cbn; apply lookup_insert_eq).
  cbn [node_init registered set_node_init]. erewrite bind_ok by reflexivity.
  unfold after_register, set_runqueues. cbn [procs kds_runqueues kds_next_pid kds_stats s_tick].
  rewrite fmap_insert, without_unqueued by done. erewrite bind_ok by (eapply rq_mod_ok; cbn; apply lookup_insert_eq).
  cbn [procs kds_runqueues kds_next_pid kds_stats s_tick set_runqueues]. rewrite insert_insert_eq, insert_id; [done|].
  rewrite Hr'. f_equal. unfold push_proc. cbn [system_procs set_system add_nr_running].
  fold (without p (system_procs r ++ [p])). unfold without. rewrite filter_app, filter_cons_False by (intros Hx; by apply Hx). rewrite app_nil_r.
  fold (without p (system_procs r)). rewrite without_notin by (by eapply Hnot). unfold add_nr_running, set_system. cbn.
  rewrite u32_step, u32_small by (unfold UINT_MAX in *; lia). destruct r; cbn in *. f_equal. lia.
Qed.
End Register.

(** ** The module's parts *)
Definition kern (m : module) : kds_state := kds (db_wal (db (m_shell m))).
Definition with_kern (s : kds_state) (m : module) : module :=
  let d := db (m_shell m) in let w := db_wal d in
  set_shell (set_db (Db (WalEnv s (g_wal w) (g_wal_head_page_id w) (g_wal_tail_page_id w)) (db_sys_objects d) (db_oid_counter d)) (m_shell m)) m.
Lemma with_kern_kern m : with_kern (kern m) m = m.
Proof. by destruct m as [[[[? ? ? ?] ? ?] ? ? ? ? ? ?] ? ? ? ? ? ? ? ? ? ? ? ? ? ?]. Qed.
Lemma on_kern_ok `{K : Kernel} {A} (f : M kds_state A) m a s : f (kern m) = Ret a s -> on_kern f m = Ret a (with_kern s m).
Proof. intros E. unfold on_kern, on_shell, on_db, on_wal, on_kds. fold (kern m). by rewrite E. Qed.
Lemma on_kern_halt `{K : Kernel} {A} (f : M kds_state A) m h s : f (kern m) = Halt h s -> on_kern f m = Halt h (with_kern s m).
Proof. intros E. unfold on_kern, on_shell, on_db, on_wal, on_kds. fold (kern m). by rewrite E. Qed.
Definition ticked (m : module) : module := with_kern (set_tick (S (tick (kern m))) (kern m)) m.
Lemma oracle_kern `{K : Kernel} {A} (g : nat -> A) m : on_kern (oracle g) m = Ret (g (tick (kern m))) (ticked m).
Proof. by apply on_kern_ok. Qed.

Definition with_new_proc (s : sched) (m : module) : module := set_next_proc (S (next_proc m)) (set_sched s m).
(** The setters applied to an explicit state. *)
Ltac mnorm := cbv beta iota zeta delta [ticked with_kern with_new_proc kern set_shell set_sched set_next_proc set_filp set_system_procs set_chardev set_dshell_inited
  set_initialized set_threads set_worker_thread set_load_balancer put_prealloc put_dshell put_ckpt add_region add_cdev add_class add_device set_db
  db db_wal db_sys_objects db_oid_counter clients Dshell.kds_dshell_clients next_client rels next_rel proc kds g_wal g_wal_head_page_id g_wal_tail_page_id
  m_shell m_sched next_proc kds_bdev_filp open_files kds_prealloc_proc kds_dshell_proc g_ckpt_proc m_chardev kds_dshell_inited kds_initialized
  threads next_thread kds_worker_thread kds_load_balancer has_region has_cdev has_class has_device].

(** ** System processes *)
Section Procs.
Context `{K : Kernel} {Mc : Machine} (Hcpu : 0 ∈ cpu_online_mask).

(** Setting one of the three globals. *)
Record puts (get : module -> option proc_ptr) (put : option proc_ptr -> module -> module) : Prop := {
  pt_get : forall x m, get (put x m) = x;
  pt_sched : forall x m, m_sched (put x m) = m_sched m;
  pt_set : forall x s m, set_sched s (put x m) = put x (set_sched s m);
  pt_twice : forall x y m, put x (put y m) = put x m;
  pt_kern : forall x m, kern (put x m) = kern m }.
Lemma puts_prealloc : puts kds_prealloc_proc put_prealloc. Proof. done. Qed.
Lemma puts_dshell : puts kds_dshell_proc put_dshell. Proof. done. Qed.
Lemma puts_ckpt : puts g_ckpt_proc put_ckpt. Proof. done. Qed.

Lemma create_proc_spec get put m l r : puts get put -> on_cpu0 (m_sched m) l (next_proc m) ->
  kds_runqueues (m_sched m) !! 0 = Some r -> zlen l < UINT_MAX ->
  create_proc put m =
    if k_alloc (tick (kern m))
    then Ret 0 (put (Some (next_proc m)) (with_new_proc (after_register (m_sched m) (next_proc m) r) (ticked m)))
    else Ret (- ENOMEM) (put None (ticked m)).
Proof.
  intros Hp Hq Hr Hl. unfold create_proc. erewrite bind_ok by apply oracle_kern. destruct (k_alloc _); cbn [negb]; [|done].
  erewrite bind_ok by reflexivity. erewrite bind_ok by reflexivity. set (p := next_proc m).
  assert (Hn : nr_running r < UINT_MAX) by (destruct (oc_queue _ _ _ Hq) as (r' & Hr' & _ & Hn); congruence).
  set (s1 := set_procs (<[p := system_proc]> (procs (m_sched m))) (m_sched m)).
  pose proof (register_new s1 p r Hcpu (lookup_insert_eq _ _ _) Hr Hn) as E.
  erewrite bind_ok.
  2:{ unfold on_sched. rewrite (pt_sched _ _ Hp). match goal with |- context [alone (kds_proc_register _) ?x] => change x with s1 end.
      change (next_proc (ticked m)) with p. rewrite E. reflexivity. }
  cbn [Z.eqb negb]. unfold s1. cbn [procs set_procs kds_runqueues kds_next_pid kds_stats s_tick]. rewrite insert_insert_eq.
  rewrite (pt_set _ _ Hp). reflexivity.
Qed.
(** Destroying the process that was made last. *)
Lemma destroy_new get put m l r p s : puts get put -> on_cpu0 s l p -> kds_runqueues s !! 0 = Some r -> zlen l < UINT_MAX ->
  get m = Some p -> m_sched m = after_register s p r ->
  destroy_proc get put m = Ret tt (put None (set_sched (Sched (procs s) (kds_runqueues s) (u64 (kds_next_pid s + 1)) (kds_stats s) (s_tick s)) m)).
Proof.
  intros Hp Hq Hr Hl Hg Hs. unfold destroy_proc. erewrite bind_ok by reflexivity. rewrite Hg.
  erewrite bind_ok by (unfold on_sched; rewrite Hs, (unregister_new s l p r) by done; reflexivity).
  unfold proc_free, on_sched, modify. erewrite bind_ok by reflexivity.
  cbn [m_sched set_sched]. unfold set_procs. cbn [procs kds_runqueues kds_next_pid kds_stats s_tick].
  rewrite delete_insert_id by (apply (oc_fresh _ _ _ Hq); lia). done.
Qed.
End Procs.

(** ** The shell's device

    A start that counts calls, addresses and process ids is compared up to
    these counters. *)
Definition uncounted (m : module) : module := set_next_proc 0 (set_sched (set_next_pid 0 (m_sched m)) (with_kern (set_tick 0 (kern m)) m)).

(** ** Threads *)
Section Threads.
Context `{K : Kernel} {Mc : Machine} {B : Boot} (m0 : module).

(** Since [m0] exactly the CPUs in [D] were given a worker each, and no other
    thread was created. *)
Record workers_are (D : Z -> Prop) (m : module) : Prop := {
  wa_worker : forall cpu t, kds_worker_thread m !! cpu = Some t -> (next_thread m0 <= t)%nat /\ threads m !! t = Some (WorkerThread cpu) /\ D cpu;
  wa_all : forall cpu, D cpu -> is_Some (kds_worker_thread m !! cpu);
  wa_new : forall t x, (next_thread m0 <= t)%nat -> threads m !! t = Some x -> exists cpu, kds_worker_thread m !! cpu = Some t;
  wa_old : forall t, (t < next_thread m0)%nat -> threads m !! t = threads m0 !! t;
  wa_next : (next_thread m0 <= next_thread m)%nat /\ forall t, (next_thread m <= t)%nat -> threads m !! t = None }.

Lemma workers_iff D E m : (forall c, D c <-> E c) -> workers_are D m -> workers_are E m.
Proof.
  intros H [H1 H2 H3 H4 H5]. split; try done; [|intros c Hc; by apply H2, H].
  intros c t Hc. destruct (H1 c t Hc) as (? & ? & ?). split_and!; try done. by apply H.
Qed.
Lemma stop_worker_spec D m cpu : workers_are D m -> exists m', stop_worker cpu m = Ret tt m' /\ workers_are (fun c => D c /\ c <> cpu) m'.
Proof.
  intros [H1 H2 H3 H4 [H5 H6]]. unfold stop_worker. erewrite bind_ok by reflexivity. destruct (kds_worker_thread m !! cpu) as [t|] eqn:Ht.
  - destruct (H1 cpu t Ht) as (Hn & Hth & HD). erewrite bind_ok by (unfold kthread_stop; rewrite Hth; reflexivity).
    eexists. split; [reflexivity|]. split; cbn [kds_worker_thread set_worker_thread set_threads threads next_thread].
    + intros c u [Hne Hu]%lookup_delete_Some. destruct (H1 c u Hu) as (? & Hcu & ?). split; [done|]. split; [|done].
      rewrite lookup_delete_ne; [done|]. intros ->. congruence.
    + intros c [Hc Hne]. rewrite lookup_delete_ne by done. by apply H2.
    + intros u x Hu [Hne Hx]%lookup_delete_Some. destruct (H3 u x Hu Hx) as (c & Hc). exists c. rewrite lookup_delete_ne; [done|]. intros ->. congruence.
    + intros u Hu. rewrite lookup_delete_ne by lia. by apply H4.
    + split; [done|]. intros u Hu. apply lookup_delete_None. right. by apply H6.
  - exists m. split; [done|]. split; try done.
    + intros c t Hc. destruct (H1 c t Hc) as (? & ? & ?). split_and!; try done. intros ->. congruence.
    + intros c [Hc _]. by apply H2.
Qed.
Lemma stop_workers_spec l : forall D m, workers_are D m -> exists m', stop_workers l m = Ret tt m' /\ workers_are (fun c => D c /\ c ∉ l) m'.
Proof.
  induction l as [|cpu l IH]; intros D m H; cbn [stop_workers].
  - exists m. split; [done|]. eapply workers_iff; [|exact H]. intros c. split; [|tauto]. intros Hc. split; [done|]. apply not_elem_of_nil.
  - destruct (stop_worker_spec D m cpu H) as (m1 & E1 & H1). erewrite bind_ok by exact E1. destruct (IH _ _ H1) as (m' & E & H').
    exists m'. split; [done|]. eapply workers_iff; [|exact H']. intros c. rewrite not_elem_of_cons. tauto.
Qed.
Lemma no_workers D m : (forall c, ~ D c) -> workers_are D m -> (forall t, (next_thread m0 <= t)%nat -> threads m0 !! t = None) ->
  kds_worker_thread m = ∅ /\ threads m = threads m0.
Proof.
  intros HD [H1 _ H3 H4 _] H0. assert (Hw : kds_worker_thread m = ∅).
  { apply map_empty. intros c. destruct (kds_worker_thread m !! c) as [t|] eqn:Ht; [|done]. destruct (H1 c t Ht) as (_ & _ & Hc). by apply HD in Hc. }
  split; [done|]. apply map_eq. intros t. destruct (decide (t < next_thread m0)%nat); [by apply H4|]. rewrite H0 by lia.
  destruct (threads m !! t) as [x|] eqn:Hx; [|done]. destruct (H3 t x ltac:(lia) Hx) as (c & Hc). by rewrite Hw, lookup_empty in Hc.
Qed.
Lemma start_one_spec D m cpu t m' : workers_are D m -> ~ D cpu -> kthread_create (WorkerThread cpu) m = Ret (inr t) m' ->
  workers_are (fun c => D c \/ c = cpu) (set_worker_thread (<[cpu := t]> (kds_worker_thread m')) m').
Proof.
  intros [H1 H2 H3 H4 [H5 H6]] Hcpu. unfold kthread_create. erewrite bind_ok by apply oracle_kern. case_match; [done|]. intros [= <- <-].
  assert (Hnone : kds_worker_thread m !! cpu = None).
  { destruct (kds_worker_thread m !! cpu) as [u|] eqn:Hu; [|done]. by destruct (H1 cpu u Hu) as (_ & _ & ?). }
  split; cbn [kds_worker_thread set_worker_thread set_threads threads next_thread]; change (kds_worker_thread (ticked m)) with (kds_worker_thread m);
    change (threads (ticked m)) with (threads m); change (next_thread (ticked m)) with (next_thread m).
  - intros c u Hc. apply lookup_insert_Some in Hc as [[<- <-]|[Hne Hc]].
    + split; [done|]. rewrite lookup_insert_eq. auto.
    + destruct (H1 c u Hc) as (? & Hth & ?). split; [done|]. split; [|by left]. rewrite lookup_insert_ne; [done|]. intros <-. by rewrite H6 in Hth.
  - intros c [Hc| ->]; [|rewrite lookup_insert_eq; by eexists]. rewrite lookup_insert_ne; [by apply H2|]. by intros ->.
  - intros u x Hu Hx. apply lookup_insert_Some in Hx as [[<- _]|[Hne Hx]]; [exists cpu; apply lookup_insert_eq|].
    destruct (H3 u x Hu Hx) as (c & Hc). exists c. rewrite lookup_insert_ne; [done|]. intros ->. congruence.
  - intros u Hu. rewrite lookup_insert_ne by lia. by apply H4.
  - split; [lia|]. intros u Hu. rewrite lookup_insert_ne by lia. apply H6. lia.
Qed.
Lemma start_each_spec cpus : forall D m, workers_are D m -> NoDup cpus -> (forall c, c ∈ cpus -> ~ D c) ->
  (forall c, D c \/ c ∈ cpus -> c ∈ for_each_cpu cpu_online_mask) -> (forall t, (next_thread m0 <= t)%nat -> threads m0 !! t = None) ->
  exists r m', start_each cpus m = Ret r m' /\
    ((r = 0 /\ workers_are (fun c => D c \/ c ∈ cpus) m') \/ (r = -1 /\ kds_worker_thread m' = ∅ /\ threads m' = threads m0)).
Proof.
  induction cpus as [|cpu cpus IH]; intros D m H Hnd Hnew Hon H0; cbn [start_each].
  - exists 0, m. split; [done|left]. split; [done|]. eapply workers_iff; [|exact H]. intros c. split; [by left|]. intros [?|Hc]; [done|]. by apply not_elem_of_nil in Hc.
  - apply NoDup_cons in Hnd as [Hni Hnd]. destruct (kthread_create (WorkerThread cpu) m) as [[e|t] m1|h m1] eqn:E.
    + assert (H1 : workers_are D m1).
      { revert E. unfold kthread_create. erewrite bind_ok by apply oracle_kern. case_match; [|done]. intros [= _ <-]. by destruct H. }
      erewrite bind_ok by exact E. destruct (stop_workers_spec (for_each_cpu cpu_online_mask) D m1 H1) as (m' & E' & H').
      exists (-1), m'. erewrite bind_ok by exact E'. split; [done|right]. split; [done|].
      eapply no_workers; [|exact H'|done]. intros c [Hc Hnot]. apply Hnot, Hon. by left.
    + erewrite bind_ok by exact E. cbn beta iota. pose proof (start_one_spec D m cpu t m1 H ltac:(apply Hnew; left) E) as H1. erewrite bind_ok by reflexivity.
      destruct (IH _ _ H1 Hnd) as (r & m' & E' & [[-> H']|Hf]).
      * intros c Hc [HD| ->]; [|done]. by apply (Hnew c); [right|].
      * intros c [[HD| ->]|Hc]; apply Hon; [by left|right; left|right; by right].
      * done.
      * exists 0, m'. split; [done|left]. split; [done|]. eapply workers_iff; [|exact H']. intros c. rewrite elem_of_cons. tauto.
      * exists r, m'. split; [done|by right].
    + revert E. unfold kthread_create. erewrite bind_ok by apply oracle_kern. by case_match.
Qed.
End Threads.

Section Workers.
Context `{K : Kernel} {Mc : Machine} {B : Boot}.

Lemma start_workers_cases m :
  kds_worker_thread m = ∅ -> (forall t, (next_thread m <= t)%nat -> threads m !! t = None) ->
  exists r m', kds_start_workers m = Ret r m' /\
    ((r = 0 /\ (forall cpu, cpu ∈ for_each_cpu cpu_online_mask ->
                  exists t, kds_worker_thread m' !! cpu = Some t /\ threads m !! t = None /\ threads m' !! t = Some (WorkerThread cpu)) /\
               (forall t x, threads m !! t = Some x -> threads m' !! t = Some x) /\
               forall t, (next_thread m' <= t)%nat -> threads m' !! t = None) \/
     (r = -1 /\ kds_worker_thread m' = ∅ /\ threads m' = threads m)).
Proof.
  intros Hw H0. unfold kds_start_workers.
  assert (H : workers_are m (fun _ => False) m).
  { split; try done; [by intros c t; rewrite Hw, lookup_empty|]. intros t x Ht Hx. by rewrite H0 in Hx. }
  assert (Hnd : NoDup (for_each_cpu cpu_online_mask)).
  { apply NoDup_filter. unfold cpu_possible. apply (NoDup_fmap_2 Z.of_nat), NoDup_seq. }
  destruct (start_each_spec m _ _ m H Hnd ltac:(intros ? _ []) ltac:(by intros c [?|?]) H0) as (r & m' & E & [[-> H']|Hf]);
    exists r || exists 0; exists m'; (split; [exact E|]); [left|by right].
  split; [done|]. destruct H' as [H1 H2 H3 H4 [_ H5]]. split_and!; [..|exact H5].
  - intros cpu Hc. destruct (H2 cpu ltac:(by right)) as (t & Ht). destruct (H1 cpu t Ht) as (Hn & Hth & _). exists t. auto.
  - intros t x Hx. rewrite H4; [done|]. destruct (decide (t < next_thread m)%nat); [done|]. by rewrite H0 in Hx by lia.
Qed.
End Workers.

Section Shell.
Context `{K : Kernel} {Mc : Machine} {B : Boot}.

(** The module with the shell registered. *)
Definition shell_up (t : nat) (r : kds_runqueue) (m : module) : module :=
  set_dshell_inited true (set_chardev (Chardev true true true true) (put_dshell (Some (next_proc m))
    (with_new_proc (after_register (m_sched m) (next_proc m) r) (with_kern (set_tick t (kern m)) m)))).
(** The results of the five calls of the initialisation that can fail, made
    one after the other from the clock tick [t] on, and the first error. *)
Definition init_results (t : nat) : list Z :=
  [b_region t; b_cdev (S t); b_class (S (S t)); if k_alloc (S (S (S t))) then 0 else - ENOMEM; b_device (S (S (S (S t))))].
Fixpoint first_error (rs : list Z) : Z :=
  match rs with [] => 0 | r :: rs => if r =? 0 then first_error rs else r end.
Lemma dshell_init_cases m l r :
  0 ∈ cpu_online_mask -> on_cpu0 (m_sched m) l (next_proc m) -> zlen l < UINT_MAX -> kds_runqueues (m_sched m) !! 0 = Some r ->
  kds_dshell_inited m = false -> m_chardev m = no_chardev -> kds_dshell_proc m = None -> kds_dshell_clients (m_shell m) = [] ->
  exists m', let e := first_error (init_results (tick (kern m))) in kds_init_dshell_system m = Ret e m' /\
    if e =? 0 then (exists t, m' = shell_up t r m) /\ exists m'', kds_shutdown_dshell_system m' = Ret tt m'' /\ uncounted m'' = uncounted m
    else uncounted m' = uncounted m.
Proof.
  intros Hcpu Hq Hl Hr Hin Hcd Hpr Hcl.
  destruct m as [[[[st gw hd tl] ob oc] cls cll nc rl nr pp] sc np filp nf pa pd pc cd inited ini th nt wt lb].
  cbn [kds_dshell_inited m_chardev kds_dshell_proc m_shell m_sched next_proc kds_dshell_clients] in *. subst inited cd pd cll.
  unfold kds_init_dshell_system, init_results. erewrite bind_ok by reflexivity. mnorm. cbn [first_error].
  erewrite bind_ok by apply oracle_kern. mnorm.
  match goal with |- context [negb (?x =? 0)] => change x with (b_region (tick st)); destruct (b_region (tick st) =? 0) eqn:E1; cbn [negb] end;
    [|eexists; split; [reflexivity|]; by rewrite E1].
  erewrite bind_ok by reflexivity. mnorm. erewrite bind_ok by apply oracle_kern. mnorm.
  match goal with |- context [negb (?x =? 0)] => change x with (b_cdev (S (tick st))); destruct (b_cdev (S (tick st)) =? 0) eqn:E2; cbn [negb] end;
    [|eexists; split; [reflexivity|]; by rewrite E2].
  erewrite bind_ok by reflexivity. mnorm. erewrite bind_ok by apply oracle_kern. mnorm.
  match goal with |- context [negb (?x =? 0)] => change x with (b_class (S (S (tick st)))); destruct (b_class (S (S (tick st))) =? 0) eqn:E3; cbn [negb] end;
    [|eexists; split; [reflexivity|]; by rewrite E3].
  erewrite bind_ok by reflexivity. mnorm.
  match goal with |- context [bind kds_register_dshell_proc _ ?m1] =>
    pose proof (create_proc_spec Hcpu _ _ m1 l r puts_dshell Hq Hr Hl) as E4 end.
  unfold kds_register_dshell_proc. revert E4. mnorm. destruct (k_alloc _); intros E4; (erewrite bind_ok by exact E4); clear E4.
  2:{ change (- ENOMEM =? 0) with false. cbn [negb]. eexists. split; [reflexivity|]. by mnorm. }
  cbn [Z.eqb negb]. erewrite bind_ok by apply oracle_kern. mnorm.
  match goal with |- context [negb (?x =? 0)] => change x with (b_device (S (S (S (S (tick st)))))); destruct (b_device _ =? 0) eqn:E5; cbn [negb] end.
  2:{ erewrite bind_ok by (by eapply (destroy_new _ _ _ l r np sc puts_dshell)). mnorm.
    eexists. split; [reflexivity|]. rewrite E5. by destruct sc. }
  eexists. split; [reflexivity|]. cbn [Z.eqb]. mnorm.
  split; [by eexists|].
  unfold kds_shutdown_dshell_system. erewrite bind_ok by reflexivity. mnorm. cbn [negb].
  erewrite bind_ok by reflexivity. mnorm.
  erewrite bind_ok by (by eapply (destroy_new _ _ _ l r np sc puts_dshell)). mnorm.
  eexists. split; [reflexivity|]. by destruct sc.
Qed.
End Shell.

Section Claims.
Context `{K : Kernel} {KS : Kstrtoll} {CT : Ctype} {Mc : Machine} {B : Boot}.

(** Starting the workers is all or nothing: with the result 0 every online
    CPU has a running worker of its own; if a thread cannot be created, the
    result is -1, every worker that was started is stopped, and the threads
    of the module are those there were before. *)
Theorem start_workers_all_or_none m :
  kds_worker_thread m = ∅ -> (forall t, (next_thread m <= t)%nat -> threads m !! t = None) ->
  exists r m', kds_start_workers m = Ret r m' /\
    ((r = 0 /\ (forall cpu, cpu ∈ for_each_cpu cpu_online_mask ->
                  exists t, kds_worker_thread m' !! cpu = Some t /\ threads m !! t = None /\ threads m' !! t = Some (WorkerThread cpu)) /\
               forall t x, threads m !! t = Some x -> threads m' !! t = Some x) \/
     (r = -1 /\ kds_worker_thread m' = ∅ /\ threads m' = threads m)).
Proof.
  intros Hw H0. destruct (start_workers_cases m Hw H0) as (r & m' & E & [(H1 & H2 & H3 & _)|H]); exists r, m'; auto 10.
Qed.

(** C13.  The initialisation of the debug shell is all or nothing: it returns
    the error of the first of its five fallible steps that fails - device
    region, character device, class, process (no memory), device file - and
    0 if none does.  On an error the module is as it was before (up to
    counters): what was registered is released in reverse order and no
    process stays queued.  When it succeeds, everything is
    registered and the shell's process is the last of the queue of CPU 0,
    and the shutdown restores the module as it was before. *)
Theorem dshell_init_all_or_nothing m l :
  0 ∈ cpu_online_mask -> on_cpu0 (m_sched m) l (next_proc m) -> zlen l < UINT_MAX ->
  kds_dshell_inited m = false -> m_chardev m = no_chardev -> kds_dshell_proc m = None -> kds_dshell_clients (m_shell m) = [] ->
  let r := first_error (init_results (tick (kern m))) in
  exists m', kds_init_dshell_system m = Ret r m' /\
    if r =? 0
    then kds_dshell_inited m' = true /\ m_chardev m' = Chardev true true true true /\ kds_dshell_proc m' = Some (next_proc m) /\
         on_cpu0 (m_sched m') (l ++ [next_proc m]) (next_proc m') /\
         exists m'', kds_shutdown_dshell_system m' = Ret tt m'' /\ uncounted m'' = uncounted m
    else uncounted m' = uncounted m.
Proof.
  intros Hcpu Hq Hl Hin Hcd Hpr Hcl e. destruct (oc_queue _ _ _ Hq) as (r & Hr & _).
  destruct (dshell_init_cases m l r Hcpu Hq Hl Hr Hin Hcd Hpr Hcl) as (m' & E & H). fold e in E, H. exists m'. split; [exact E|].
  destruct (e =? 0); [|exact H]. destruct H as ((t & ->) & Hdown). split_and!; try done. by apply push_on_cpu0.
Qed.
End Claims.

(** ** A machine where nothing fails *)
Section Demo.
Definition quiet_boot : Boot :=
  {| b_open := fun _ => 0; b_disk := fun _ => (true, true); b_region := fun _ => 0; b_cdev := fun _ => 0; b_class := fun _ => 0;
     b_device := fun _ => 0; b_kthread := fun _ => 0 |}.
#[local] Existing Instances quiet_kernel duo quiet_boot.
Definition result_of {S A} (o : outcome S A) : option A := match o with Ret a _ => Some a | Halt _ _ => None end.
Lemma quiet_result : result_of (kds_start_workers (module_start ∅)) = Some 0.
Proof. vm_compute. reflexivity. Qed.
Lemma start_workers_all_or_none_witness :
  exists r m', kds_start_workers (module_start ∅) = Ret r m' /\ r = 0 /\
    forall cpu, cpu ∈ [0; 1] -> exists t, threads m' !! t = Some (WorkerThread cpu).
Proof.
  destruct (start_workers_all_or_none (module_start ∅) eq_refl ltac:(by intros; apply lookup_empty))
    as (r & m' & E & [(-> & H & _)|(-> & _)]).
  - exists 0, m'. split; [exact E|]. split; [reflexivity|]. intros cpu Hc.
    destruct (H cpu) as (t & _ & _ & Ht); [|by exists t]. vm_compute. exact Hc.
  - exfalso. pose proof quiet_result as H. by rewrite E in H.
Defined.

(** The scheduler with one empty run queue. *)
Definition demo_idle : module :=
  set_sched (Sched ∅ {[0 := Runqueue [] [] None 0 0]} 1 (SchedStats 0 0 0) 0) (module_start ∅).
Lemma demo_idle_on_cpu0 : on_cpu0 (m_sched demo_idle) [] 0.
Proof.
  split; [by eexists|by intros; apply lookup_empty|]. intros c r p Hr Hp. cbn in Hr. apply lookup_singleton_Some in Hr as [_ <-]. by apply not_elem_of_nil in Hp.
Qed.
Lemma quiet_dshell : result_of (kds_init_dshell_system demo_idle) = Some 0.
Proof. vm_compute. reflexivity. Qed.
Lemma dshell_init_all_or_nothing_witness :
  exists m', kds_init_dshell_system demo_idle = Ret 0 m' /\ m_chardev m' = Chardev true true true true /\
    exists m'', kds_shutdown_dshell_system m' = Ret tt m'' /\ uncounted m'' = uncounted demo_idle.
Proof.
  destruct (dshell_init_all_or_nothing demo_idle []) as (m' & E & H);
    [by vm_compute|exact demo_idle_on_cpu0|by vm_compute|reflexivity..|].
  change (first_error _) with 0 in E, H. destruct H as (_ & H1 & _ & _ & H2). exists m'. split; [exact E|]. split; [exact H1|exact H2].
Defined.
End Demo.
