(* ===== verification/LifeSpec.v ===== *)
(** * LifeSpec: stopping the module and starting it again

    [steps R f] says that every run of [f] that returns is a step of the
    preorder [R].  One set of rules, collected in the hint database [steps],
    gives for the functions of the start and the stop what they leave alone:
    the device outside of the superblock, the log, the oid counter. *)
From S2P Require Import Prelude Layout State Disk DiskSpec Meta MetaSpec Pool PoolSpec Alloc AllocSpec Types Parser ParserSpec Catalog CatalogSpec Wal ExecHeap Dshell Proc ProcSpec Main MainSpec.
From stdpp Require Import prelude gmap list.
From Stdlib Require Import ZArith Lia.
Local Open Scope Z_scope.
Local Open Scope list_scope.
Local Open Scope kds_scope.

(** ** Computations as steps of a preorder *)
Definition steps {S A} (R : relation S) (f : M S A) : Prop := forall s a s', f s = Ret a s' -> R s s'.
Section Steps.
Context {S : Type} (R : relation S) `{HR : !PreOrder R}.
Lemma steps_ret {A} (a : A) : steps R (ret a).
Proof. by intros s b s' [= _ <-]. Qed.
Lemma steps_halt {A} h : steps R (halt_with (A := A) h).
Proof. done. Qed.
Lemma steps_gets {A} (g : S -> A) : steps R (gets g).
Proof. by intros s b s' [= _ <-]. Qed.
Lemma steps_bind {A B} (f : M S A) (k : A -> M S B) : steps R f -> (forall a, steps R (k a)) -> steps R (bind f k).
Proof. intros Hf Hk s b s' (a & s1 & H1 & H2)%bind_inv. etrans; [by eapply Hf|by eapply Hk]. Qed.
Lemma steps_modify g : (forall s, R s (g s)) -> steps R (modify g).
Proof. intros H s b s' [= _ <-]. apply H. Qed.
End Steps.
Create HintDb steps.
#[export] Hint Resolve steps_ret steps_halt steps_gets : steps.
#[export] Hint Extern 0 (PreOrder _) => apply _ : steps.
(** Through binds, conditionals and matches down to the hints. *)
Ltac steps_tac := repeat first
  [ progress auto with steps
  | apply steps_bind; [apply _| |intros ?]
  | match goal with |- steps _ (match ?x with _ => _ end) => destruct x end ].

(** ** The device outside of the superblock *)
Section Device.
Context `{K : Kernel}.

Definition in_superblock (sector : Z) : Prop := META_SUPERBLOCK_SECTOR <= sector < META_SUPERBLOCK_SECTOR + 16.
Record same_data (s s' : kds_state) : Prop := {
  sd_sectors : forall sector, ~ in_superblock sector -> read_sector (disk s') sector = read_sector (disk s) sector;
  sd_no_pool : g_pool s = None -> g_pool s' = None }.
#[export] Instance same_data_preorder : PreOrder same_data.
Proof. split; [done|]. intros s1 s2 s3 [H1 P1] [H2 P2]. split; [|auto]. intros sector Hs. by rewrite H2, H1. Qed.
Lemma same_disk s s' : disk s' = disk s -> (g_pool s = None -> g_pool s' = None) -> same_data s s'.
Proof. intros H Hp. split; [|done]. intros sector _. by rewrite H. Qed.
(** Two pages other than the superblock's cannot tell the devices apart. *)
Lemma same_data_page s s' id : same_data s s' -> page_id_ok id -> id <> KDS_SYS_RESERVED_PAGES -> disk_page (disk s') id = disk_page (disk s) id.
Proof.
  intros [H _] Hid Hne. unfold disk_page. rewrite kds_page_sector_ok by done.
  apply disk_read_same. intros sector Hs. apply H. unfold in_superblock, META_SUPERBLOCK_SECTOR, KDS_SYS_RESERVED_PAGES in *. lia.
Qed.

Lemma data_modify g : (forall s, disk (g s) = disk s) -> (forall s, g_pool s = None -> g_pool (g s) = None) -> steps same_data (modify g).
Proof. intros H Hp. apply steps_modify. intros s. apply same_disk; auto. Qed.
Lemma data_oracle {A} (g : nat -> A) : steps same_data (oracle g).
Proof. intros s a s' [= _ <-]. by apply same_disk. Qed.
Lemma data_frame {A} fid (m : M kds_frame A) : steps same_data (on_frame fid m).
Proof.
  intros s a s'. unfold on_frame. destruct (g_pool s) as [pl|] eqn:Hpl; [|done]. destruct (frames pl !! fid) as [f|]; [|done].
  destruct (m f); [|done]. intros [= _ <-]. apply same_disk; [done|congruence].
Qed.
Lemma data_alloc_get {A} (g : kds_page_allocator -> A) : steps same_data (alloc_get g).
Proof. intros s a s'. unfold alloc_get. destruct (g_alloc s); [|done]. intros [= _ <-]. by apply same_disk. Qed.
Hint Resolve data_oracle data_frame data_alloc_get : steps.
Hint Extern 1 (steps same_data (modify _)) => (apply data_modify; by intros []) : steps.
Hint Extern 1 (steps same_data (alloc_set _)) => (apply data_modify; by intros []) : steps.

Lemma data_unpin fid : steps same_data (kds_buf_unpin fid).
Proof. apply data_frame. Qed.
Hint Resolve data_unpin : steps.
Lemma data_drain_loop n : steps same_data (drain_loop n).
Proof. induction n as [|n IH]; cbn [drain_loop]; steps_tac. Qed.
Hint Resolve data_drain_loop : steps.
Lemma data_drain : steps same_data alloc_system_drain.
Proof. unfold alloc_system_drain. steps_tac. Qed.

(** The write of a logical page touches sixteen sectors. *)
Lemma data_bio_add n : steps same_data (bio_add_pages n).
Proof. induction n as [|n IH]; cbn [bio_add_pages]; steps_tac. Qed.
Lemma data_dev_write b : zlen b <= 8192 -> steps same_data (dev_write META_SUPERBLOCK_SECTOR b).
Proof.
  intros Hz. unfold dev_write. steps_tac. apply steps_modify. intros s. split; [|done]. intros sector Hs. cbn [disk set_disk].
  apply read_write_other. unfold in_superblock in Hs. unfold sectors_of, KDS_BLKDEV_SECTOR_SIZE.
  assert (zlen b / 512 <= 16) by (apply Z.div_le_upper_bound; lia). pose proof (Z.div_pos (zlen b) 512 (zlen_nonneg b)). lia.
Qed.
Lemma zlen_pages b : zlen (concat (map (nth_page b) (seq 0 KDS_PAGE_NR_BASE_PAGES))) <= 8192.
Proof.
  change (seq 0 KDS_PAGE_NR_BASE_PAGES) with [0; 1]%nat. cbn [map concat]. rewrite app_nil_r, zlen_app. unfold nth_page, sub, zlen.
  rewrite !length_take. unfold PAGE_SIZE. lia.
Qed.
Hint Resolve data_bio_add : steps.
Lemma data_write_superblock b : steps same_data (kds_write_logical_page META_SUPERBLOCK_SECTOR b).
Proof. pose proof (data_dev_write _ (zlen_pages b)). unfold kds_write_logical_page, kds_write_extent, alloc_ok. steps_tac. Qed.
Hint Resolve data_write_superblock : steps.
Lemma data_fsync : steps same_data kds_superblock_fsync.
Proof. unfold kds_superblock_fsync. steps_tac. Qed.
Hint Resolve data_fsync : steps.
Lemma data_shutdown_meta : steps same_data kds_shutdown_meta_system.
Proof. unfold kds_shutdown_meta_system. steps_tac. Qed.
End Device.

(** ** The whole module *)
Definition wal_of (m : module) : wal_env := db_wal (db (m_shell m)).
Section Module.
Context `{K : Kernel} {KS : Kstrtoll} {CT : Ctype} {Mc : Machine} {B : Boot}.

(** The data on the device and the log in memory are as before. *)
Definition nothing_saved (m m' : module) : Prop := same_data (kds (wal_of m)) (kds (wal_of m')) /\ g_wal (wal_of m') = g_wal (wal_of m).
#[export] Instance nothing_saved_preorder : PreOrder nothing_saved.
Proof.
  split; [by intros m; split|]. intros m1 m2 m3 [A1 A2] [B1 B2]. split; [by etrans|congruence].
Qed.
Lemma saved_kern {A} (f : M kds_state A) : steps same_data f -> steps nothing_saved (on_kern f).
Proof.
  intros H m a m'. unfold on_kern, on_shell, on_db, on_wal, on_kds. destruct (f _) eqn:E; [|done]. intros [= _ <-].
  split; [|done]. by eapply H.
Qed.
Lemma saved_sched {A} (f : M sched A) : steps nothing_saved (on_sched f).
Proof. intros m a m'. unfold on_sched. destruct (f _); [|done]. by intros [= _ <-]. Qed.
Lemma saved_modify g : (forall m, m_shell (g m) = m_shell m) -> steps nothing_saved (modify g).
Proof. intros H. apply steps_modify. intros m. split; unfold wal_of; by rewrite H. Qed.
Hint Resolve saved_sched : steps.
Hint Extern 1 (steps nothing_saved (modify _)) => (apply saved_modify; reflexivity) : steps.
Hint Extern 1 (steps nothing_saved (chardev_mod _)) => (apply saved_modify; reflexivity) : steps.
Hint Extern 1 (steps nothing_saved (proc_free _)) => apply saved_sched : steps.
Hint Extern 2 (steps nothing_saved (on_kern _)) =>
  (apply saved_kern; first [apply data_drain|apply data_shutdown_meta|apply data_modify; by intros []]) : steps.

Lemma saved_stop t : steps nothing_saved (kthread_stop t).
Proof. intros m a m'. unfold kthread_stop. destruct t; [done..|]. destruct (threads m !! t); [|done]. by intros [= _ <-]. Qed.
Hint Resolve saved_stop : steps.
Lemma saved_stop_workers l : steps nothing_saved (stop_workers l).
Proof. induction l; cbn [stop_workers]; unfold stop_worker; steps_tac. Qed.
Lemma saved_destroy get put : (forall x m, m_shell (put x m) = m_shell m) -> steps nothing_saved (destroy_proc get put).
Proof. intros H. unfold destroy_proc. steps_tac. by apply saved_modify. Qed.
Lemma saved_clients l : steps nothing_saved (on_shell (shutdown_clients l)).
Proof.
  intros m a m'. unfold on_shell. destruct (shutdown_clients l (m_shell m)) as [u s|] eqn:E; [|done]. intros [= _ <-].
  assert (Hdb : db s = db (m_shell m)); [|split; unfold wal_of; cbn [m_shell set_shell]; by rewrite Hdb].
  revert E. generalize (m_shell m). induction l as [|c l IH]; intros d; cbn [shutdown_clients]; [by intros [= _ <-]|].
  intros (v & d1 & H1 & H2)%bind_inv. rewrite (IH d1 H2). unfold shutdown_client, client_mod in H1.
  destruct (clients d !! c); [|done]. by injection H1 as _ <-.
Qed.
Lemma saved_wake : steps nothing_saved (on_shell wake_clients).
Proof. intros m a m' H. exact (saved_clients _ m a m' H). Qed.
Hint Resolve saved_stop_workers saved_wake : steps.
Hint Extern 1 (steps nothing_saved (destroy_proc _ _)) => (apply saved_destroy; reflexivity) : steps.
Lemma saved_shutdown_dshell : steps nothing_saved kds_shutdown_dshell_system.
Proof. unfold kds_shutdown_dshell_system. steps_tac. Qed.
Lemma saved_close : steps nothing_saved (on_kern kds_shutdown_meta_system ;; exit_block_device).
Proof. unfold exit_block_device. steps_tac. Qed.
Lemma saved_cleanup : steps nothing_saved kds_cleanup.
Proof.
  unfold kds_cleanup, kds_shutdown_page_alloc_system, exit_block_device. pose proof saved_shutdown_dshell. steps_tac.
Qed.
End Module.

(** ** What the start does not touch: the oid counter and the threads *)
Section Start.
Context `{K : Kernel} {KS : Kstrtoll} {CT : Ctype} {Mc : Machine} {B : Boot}.

Definition same_counter (e e' : catalog_env) : Prop := g_user_oid_counter e' = g_user_oid_counter e.
#[export] Instance same_counter_preorder : PreOrder same_counter.
Proof. split; [done|]. intros a b c. unfold same_counter. congruence. Qed.
Lemma counter_store {A} (f : M kds_state A) : steps same_counter (on_store f).
Proof. intros e a e'. unfold on_store. destruct (f _); [|done]. by intros [= _ <-]. Qed.
Lemma counter_register o : steps same_counter (kds_catalog_register_sys_object o).
Proof. intros e a e'. unfold kds_catalog_register_sys_object. case_match; [done|]. by intros [= _ <-]. Qed.
Hint Resolve counter_store counter_register : steps.
Lemma counter_bootstrap : steps same_counter kds_catalog_bootstrap.
Proof.
  unfold kds_catalog_bootstrap, kds_catalog_init_well_known_objects, register_namespace, register_type.
  repeat (apply steps_bind; [apply _| |intros ?]); auto with steps.
Qed.

Definition thread_state (m : module) := (threads m, next_thread m, kds_worker_thread m, kds_load_balancer m).
Definition keeps_oids (m m' : module) : Prop :=
  db_oid_counter (db (m_shell m')) = db_oid_counter (db (m_shell m)) /\ thread_state m' = thread_state m.
#[export] Instance keeps_oids_preorder : PreOrder keeps_oids.
Proof. split; [done|]. intros a b c [A1 A2] [B1 B2]. split; congruence. Qed.
Lemma oids_kern {A} (f : M kds_state A) : steps keeps_oids (on_kern f).
Proof. intros m a m'. unfold on_kern, on_shell, on_db, on_wal, on_kds. destruct (f _); [|done]. by intros [= _ <-]. Qed.
Lemma oids_wal {A} (f : M wal_env A) : steps keeps_oids (on_shell (on_wal f)).
Proof. intros m a m'. unfold on_shell, on_wal. destruct (f _); [|done]. by intros [= _ <-]. Qed.
Lemma oids_sched {A} (f : M sched A) : steps keeps_oids (on_sched f).
Proof. intros m a m'. unfold on_sched. destruct (f _); [|done]. by intros [= _ <-]. Qed.
Lemma oids_catalog {A} (f : M catalog_env A) : steps same_counter f -> steps keeps_oids (on_shell (on_catalog f)).
Proof.
  intros H m a m'. unfold on_shell, on_catalog. destruct (f _) as [x e|] eqn:E; [|done]. intros [= _ <-]. split; [by apply H in E|done].
Qed.
Lemma oids_modify g : (forall m, m_shell (g m) = m_shell m) -> (forall m, thread_state (g m) = thread_state m) -> steps keeps_oids (modify g).
Proof. intros H Ht. apply steps_modify. intros m. split; [by rewrite H|done]. Qed.
Lemma oids_new x : steps keeps_oids (proc_new x).
Proof. by intros m a m' [= _ <-]. Qed.
Hint Resolve oids_kern oids_wal oids_sched oids_new : steps.
Hint Extern 1 (steps keeps_oids (modify _)) => (apply oids_modify; reflexivity) : steps.
Hint Extern 1 (steps keeps_oids (chardev_mod _)) => (apply oids_modify; reflexivity) : steps.
Hint Extern 1 (steps keeps_oids (proc_free _)) => apply oids_sched : steps.
Lemma oids_create put : (forall x m, keeps_oids m (put x m)) -> steps keeps_oids (create_proc put).
Proof. intros H. unfold create_proc. steps_tac; apply steps_modify; intros m; apply H. Qed.
Lemma oids_destroy get put : (forall x m, keeps_oids m (put x m)) -> steps keeps_oids (destroy_proc get put).
Proof. intros H. unfold destroy_proc. steps_tac. apply steps_modify. intros m. apply H. Qed.
Hint Extern 1 (steps keeps_oids (create_proc _)) => (apply oids_create; done) : steps.
Hint Extern 1 (steps keeps_oids (destroy_proc _ _)) => (apply oids_destroy; done) : steps.
Lemma oids_step f : steps keeps_oids f -> steps keeps_oids (step_or_fail f).
Proof. intros H. unfold step_or_fail, kds_bootstrap_failed. steps_tac. Qed.
Lemma boot_keeps_oids : steps keeps_oids kds_bootstrap.
Proof.
  pose proof (oids_catalog _ counter_bootstrap) as Hc.
  unfold kds_bootstrap. repeat (apply steps_bind; [apply _| |intros ?]); try case_match; try apply oids_step; auto with steps;
    unfold init_block_device, kds_init_dshell_system, kds_register_dshell_proc, kds_init_page_alloc_system, kds_create_proc_prealloc,
      kds_wal_checkpointer_init; steps_tac.
Qed.
End Start.

(** ** Starting and stopping threads changes nothing else *)
Section Threads.
Context `{K : Kernel} {Mc : Machine} {B : Boot}.

Definition unthreaded (m : module) : module := set_threads ∅ 0 (set_worker_thread ∅ (uncounted m)).
Definition same_rest (m m' : module) : Prop := unthreaded m' = unthreaded m.
#[export] Instance same_rest_preorder : PreOrder same_rest.
Proof. split; [done|]. intros a b c. unfold same_rest. congruence. Qed.
Lemma rest_create x : steps same_rest (kthread_create x).
Proof. intros m a m'. unfold kthread_create. erewrite bind_ok by apply oracle_kern. case_match; by intros [= _ <-]. Qed.
Lemma rest_stop t : steps same_rest (kthread_stop t).
Proof. intros m a m'. unfold kthread_stop. destruct t; [done..|]. destruct (threads m !! t); [|done]. by intros [= _ <-]. Qed.
Lemma rest_worker g : steps same_rest (modify (fun m => set_worker_thread (g m) m)).
Proof. by apply steps_modify. Qed.
Hint Resolve rest_create rest_stop rest_worker : steps.
Lemma rest_stop_workers l : steps same_rest (stop_workers l).
Proof. induction l; cbn [stop_workers]; unfold stop_worker; steps_tac. Qed.
Hint Resolve rest_stop_workers : steps.
Lemma rest_start_each l : steps same_rest (start_each l).
Proof. induction l; cbn [start_each]; steps_tac. Qed.
End Threads.

Section Claims.
Context `{K : Kernel} {KS : Kstrtoll} {CT : Ctype} {Mc : Machine} {B : Boot}.

(** C14.  How the load ends.  With the result 0 every online CPU has its worker
    and the balancer runs.  With another result a worker could not be
    created: all threads are stopped again, but nothing else of what the
    bootstrap did is undone.  If the machine stops, it did so during the
    bootstrap, or because the balancer could not be created: the cleanup
    then stops an error pointer as if it were a thread. *)
Theorem main_outcomes d :
  match kds_main (module_start d) with
  | Ret r m' => exists m, kds_bootstrap (module_start d) = Ret tt m /\
      if r =? 0
      then (forall cpu, cpu ∈ for_each_cpu cpu_online_mask ->
              exists t, kds_worker_thread m' !! cpu = Some t /\ threads m' !! t = Some (WorkerThread cpu)) /\
           exists t, kds_load_balancer m' = Task t /\ threads m' !! t = Some BalancerThread
      else r = -1 /\ threads m' = ∅ /\ kds_worker_thread m' = ∅ /\ unthreaded m' = unthreaded m
  | Halt h m' => kds_bootstrap (module_start d) = Halt h m' \/ (h = Fault /\ exists e, e <> 0 /\ kds_load_balancer m' = TaskErr e)
  end.
Proof.
  unfold kds_main. destruct (kds_bootstrap (module_start d)) as [[] m|h m] eqn:E0; [|unfold bind; rewrite E0; by left].
  erewrite bind_ok by exact E0. destruct (boot_keeps_oids _ _ _ E0) as [_ Ht]. injection Ht as Ht Hnt Hwt Hlb. clear E0. cbn in Ht, Hnt, Hwt, Hlb.
  destruct (start_workers_cases m Hwt) as (r & m1 & E1 & Hr); [by intros t _; rewrite Ht, lookup_empty|].
  assert (Hrest : same_rest m m1) by exact (rest_start_each _ _ _ _ E1). erewrite bind_ok by exact E1.
  destruct Hr as [(-> & Hw & _ & Hnew)|(-> & Hw & Hth)]; cbn [Z.eqb negb].
  2:{ exists m. split; [done|]. rewrite Hth, Ht. done. }
  unfold kds_start_load_balancer, kthread_create. rewrite bind_assoc. rewrite bind_assoc. erewrite bind_ok by apply oracle_kern.
  destruct (b_kthread _ =? 0) eqn:Hb; cbn [negb].
  - exists m. split; [done|]. cbn [Z.eqb]. split; [|exists (next_thread m1); split; [done|apply lookup_insert_eq]].
    intros cpu Hc. destruct (Hw cpu Hc) as (t & H1 & _ & H2). exists t. split; [done|]. rewrite <- H2. apply lookup_insert_ne.
    cbn. intros <-. rewrite Hnew in H2 by done. congruence.
  - erewrite (bind_ok (ret _)) by reflexivity. cbn beta iota. rewrite bind_assoc. erewrite bind_ok by reflexivity.
    erewrite (bind_ok (ret _)) by reflexivity. rewrite Hb. right. split; [done|]. eexists. split; [|done]. by apply Z.eqb_neq.
Qed.

(** C38.  Unloading the module saves nothing but the superblock: when the cleanup
    returns, every other page of the device holds what it held before,
    whatever was dirty in the buffer pool, the records of the log were not
    written, and the pool is gone. *)
Theorem unload_discards_changes m m' : kds_cleanup m = Ret tt m' ->
  g_pool (kern m') = None /\ g_wal (wal_of m') = g_wal (wal_of m) /\
  forall id, page_id_ok id -> id <> KDS_SYS_RESERVED_PAGES -> disk_page (disk (kern m')) id = disk_page (disk (kern m)) id.
Proof.
  intros H. destruct (saved_cleanup m tt m' H) as [Hd Hw]. split; [|split; [done|by intros id; apply same_data_page]].
  unfold kds_cleanup in H. do 5 (apply bind_inv in H as (? & ? & _ & H)). apply bind_inv in H as ([] & m1 & H1 & H).
  injection H1 as <-. by destruct (saved_close _ _ _ H) as [[_ Hp] _]; apply Hp.
Qed.
End Claims.

(** ** A machine where nothing fails *)
Section Demo.
#[local] Existing Instances quiet_kernel no_strtoll ascii_ctype duo quiet_boot.
Definition returned {S A} (o : outcome S A) : bool := match o with Ret _ _ => true | Halt _ _ => false end.
Lemma quiet_returns : returned (kds_bootstrap (module_start ∅)) = true.
Proof. vm_compute. reflexivity. Qed.
Lemma quiet_boots : exists m, kds_bootstrap (module_start ∅) = Ret tt m.
Proof.
  destruct (kds_bootstrap (module_start ∅)) as [[] m|h m] eqn:E; [by exists m|]. pose proof quiet_returns as H. by rewrite E in H.
Qed.
(** A mounted module whose pool holds page 3, dirty. *)
Definition demo_loaded : module :=
  with_kern (set_g_pool (Some demo_pool) (set_g_alloc (Some (Allocator 0 0 (replicate 128 None))) demo_meta)) (module_start ∅).

Lemma unload_discards_changes_witness :
  cached demo_pool 3 = Some (demo_page, zeros KDS_PAGE_SIZE) /\ has_flag KDS_PAGE_FLAG_DIRTY (kp_hdr demo_page) = true /\
  exists m', kds_cleanup demo_loaded = Ret tt m' /\ g_pool (kern m') = None /\
    disk_page (disk (kern m')) 3 = disk_page ∅ 3.
Proof.
  split; [apply demo_pool_ok|]. split; [reflexivity|].
  set (s0 := set_g_pool None (set_g_alloc None demo_meta)).
  destruct (quiet_fsync s0 demo_sb [] eq_refl eq_refl demo_sb_ok eq_refl) as (s' & E & Hdev).
  assert (H : exists m', kds_cleanup demo_loaded = Ret tt m').
  { assert (Hm : kds_shutdown_meta_system s0 = Ret tt (set_sb_io_page None (set_superblock None s'))).
    { unfold kds_shutdown_meta_system, bind, gets. change (superblock s0) with (Some demo_sb). cbn beta iota. by rewrite E. }
    eexists. unfold kds_cleanup. erewrite bind_ok by reflexivity. erewrite bind_ok by reflexivity. erewrite bind_ok by reflexivity.
    erewrite bind_ok by reflexivity. erewrite bind_ok by reflexivity. erewrite bind_ok by reflexivity.
    erewrite (bind_ok (on_kern kds_shutdown_meta_system)) by (apply on_kern_ok; exact Hm). reflexivity. }
  destruct H as [m' H]. exists m'. destruct (unload_discards_changes _ _ H) as (Hp & _ & Hd).
  split; [exact H|]. split; [exact Hp|]. apply Hd; [split; lia|discriminate].
Defined.
End Demo.
