(* ===== verification/RebootSpec.v ===== *)
(** * RebootSpec: a database that is mounted again

    The oid counter and the registry of well-known objects live in memory
    only.  What a start leaves of them, and what that does to the catalog
    that is already on the device. *)
From S2P Require Import Prelude Layout Heap HeapSpec HeapOps TupleStore State Disk DiskSpec Meta Pool PoolSpec Alloc AllocSpec Btree BtreeSpec Types Parser ParserSpec Store Catalog CatalogSpec Relation RelationSpec Wal ExecHeap Dshell Proc ProcSpec Main MainSpec LifeSpec.
From stdpp Require Import prelude gmap list strings.
From Stdlib Require Import ZArith Lia.
Local Open Scope Z_scope.
Local Open Scope list_scope.
Local Open Scope kds_scope.

(** ** Creating a table whose oid is taken *)
Section Claims.
Context `{K : Kernel} {KS : Kstrtoll} {CT : Ctype} {Mc : Machine} {B : Boot} {TS : TupleStore}.

Lemma find_app_found {A} (f : A -> bool) l l' x : find f l = Some x -> find f (l ++ l') = Some x.
Proof. induction l as [|y l IH]; cbn; [done|]. by destruct (f y). Qed.
Lemma clashing_view c oid ns name root kind cols old :
  Forall (fun r => named name r = false) (c_objects c) -> plain_name name -> table_lookup c oid = Some old ->
  let c' := add_columns cols (add_table (SysTable oid ns (set_name name) root kind)
              (add_object (SysObject oid ns KDS_OID_TYPE_TABLE 0 (set_name name)) c)) in
  name_lookup c' name = Some oid /\ table_lookup c' oid = Some old /\
  schema_of c' oid = take 32 (List.filter (belongs oid) (c_columns c) ++ List.filter (belongs oid) cols).
Proof.
  intros H1 Hn H2 c'. split_and!.
  - unfold name_lookup. cbn [c' add_columns add_table add_object c_objects]. rewrite (find_app_fresh _ _ _ H1); [done|]. unfold named. cbn [so_type so_name].
    change KDS_CATALOG_NAME_MAX with 64%nat. rewrite same_name, Z.eqb_refl by done. by rewrite bool_decide_eq_true_2.
  - unfold table_lookup. cbn. by apply find_app_found.
  - unfold schema_of. cbn. by rewrite List.filter_app.
Qed.

(** C36.  A restart makes oids ambiguous.  The oid counter is not stored: however
    the last run ended, the start leaves it at its first value.  So when the
    first table created after the start succeeds (with a new name, in any
    state of the cache in which the catalog [c] is read in), its oid is that
    of the first table ever created: the new name resolves to the oid 4001,
    and what is opened under that oid is the old table [old], with the old
    root page and kind, its columns followed by those of the new one. *)
Theorem reboot_reuses_oids d m kind s pl fid q rid k p c old ns name schema :
  kds_bootstrap (module_start d) = Ret tt m ->
  staged_root s pl fid q rid k p -> catalog_rep pl c -> ~ 4 <= rid <= 7 ->
  u64_ok ns -> plain_name name -> Forall input_column_ok schema ->
  Forall (fun r => named name r = false) (c_objects c) -> table_lookup c 4001 = Some old ->
  zlen (c_objects c) < MAX_OBJECTS -> zlen (c_tables c) < MAX_TABLES -> zlen (c_columns c) + zlen schema <= MAX_COLUMNS ->
  let e := db (m_shell m) in
  exists s' n', kds_catalog_create_table ns (Some name) (Some schema) (clustered_val kind) (CatEnv s (db_sys_objects e) (db_oid_counter e)) =
      Ret (0, Some 4001) (CatEnv s' (db_sys_objects e) n') /\
    kds_catalog_find_table_oid_by_name (Some name) s' = Ret (0, Some 4001) s' /\
    kds_relation_open 4001 s' =
      Ret (if k_alloc (tick s') then
             PTR (Relation 4001 (st_namespace old) (st_clustered old) (desc_page_id old)
                   (take 32 (List.filter (belongs 4001) (c_columns c) ++ new_columns 4001 4001 schema)))
           else ERR_PTR (- ENOMEM)) (set_tick (S (tick s')) s').
Proof.
  intros Hboot Hroot Hrep Hid Hns Hname Hcols Hfresh Hold Ho Ht Hc e.
  assert (He : db_oid_counter e = 4000) by exact (proj1 (boot_keeps_oids _ _ _ Hboot)). rewrite He.
  pose proof (create_table_cases kind s pl fid q rid k p c (db_sys_objects e) 4000 ns name schema Hroot Hrep Hid ltac:(by vm_compute) Hns (proj1 Hname) Hcols) as H.
  unfold create_model in H. cbn zeta in H. change (u64 (4000 + 1)) with 4001 in H.
  destruct (Z.leb_spec MAX_OBJECTS (zlen (c_objects c))); [lia|]. cbn [add_object c_tables] in H.
  destruct (Z.leb_spec MAX_TABLES (zlen (c_tables c))); [lia|]. cbn [add_table add_object c_columns] in H.
  destruct (Z.leb_spec (zlen schema) (MAX_COLUMNS - zlen (c_columns c))); [|lia]. cbn iota in H.
  destruct H as (s' & E & Hcr & _). exists s', (u64 (4001 + zlen schema)). split; [exact E|].
  destruct (clashing_view c 4001 ns name rid (clustered_val kind) (new_columns 4001 4001 schema) old Hfresh Hname Hold) as (V1 & V2 & V3).
  destruct (created_open _ _ _ _ _ _ _ _ _ Hcr V2 V1) as [F1 F2]. split; [exact F1|]. rewrite F2, V3.
  pose proof (new_columns_belong 4001 schema 4001 (length schema)) as Hb.
  rewrite (take_ge (new_columns _ _ _)) in Hb by (by rewrite length_new_columns). by rewrite Hb.
Qed.
End Claims.

(** ** A quiet restart *)
Section Demo.
#[local] Existing Instances quiet_kernel no_strtoll ascii_ctype duo quiet_boot.
(** Table 4001 of an earlier run: one column, root page 300. *)
Definition old_table : kds_sys_table := SysTable 4001 1 (set_name (cstr "old")) 300 0.
Definition old_column : kds_sys_column := SysColumn 4002 4001 0 (set_name (cstr "id")) 3 8 true.
Lemma old_catalog : exists pl, catalog_rep pl (Cat [] [old_table] [old_column] []) /\
  staged_root (wp pl cat_state) pl 4 [] 200 (cat_kp 200) (zeros KDS_PAGE_SIZE).
Proof.
  assert (Hn : forall x, name_ok (set_name (cstr x))) by (intros; apply set_name_ok, cstr_ok).
  pose proof cat_rep as Hrep. destruct cat_pool_ok as [Hwf Hc].
  pose proof (insert_row_spec cat_pool cat_state KDS_CATALOG_PAGE_TABLES [] old_table Hwf (cr_tables _ _ Hrep)
    ltac:(split_and!; first [apply Hn|by vm_compute|cbn; lia])) as (pl1 & _ & Hwf1 & Ho1 & Hr1).
  pose proof (add_table_rep cat_pool pl1 no_rows old_table Hrep Hwf1 Ho1 Hr1) as Hrep1.
  pose proof (insert_row_spec pl1 cat_state KDS_CATALOG_PAGE_COLUMNS [] old_column Hwf1 (cr_columns _ _ Hrep1)
    ltac:(split_and!; first [apply Hn|by vm_compute|cbn; lia])) as (pl2 & _ & Hwf2 & Ho2 & Hr2).
  pose proof (add_columns_rep pl1 pl2 _ [old_column] Hrep1 Hwf2 Ho2 Hr2) as Hrep2.
  exists pl2. split; [exact Hrep2|]. destruct cat_staged as [[_ _ Ha] Hm Hp Hb Hh Hid]. split; [split; [reflexivity|exact Hwf2|exact Ha]| | |exact Hb|exact Hh|exact Hid].
  - by rewrite (op_map _ _ _ Ho2), (op_map _ _ _ Ho1).
  - rewrite (op_rest _ _ _ Ho2) by (vm_compute; discriminate). rewrite (op_rest _ _ _ Ho1) by (vm_compute; discriminate). exact Hp.
Qed.

Lemma reboot_reuses_oids_witness : exists s',
  kds_catalog_find_table_oid_by_name (Some (cstr "t")) s' = Ret (0, Some 4001) s' /\
  kds_relation_open 4001 s' =
    Ret (PTR (Relation 4001 1 0 300 (old_column :: new_columns 4001 4001 demo_cols))) (set_tick (S (tick s')) s').
Proof.
  destruct quiet_boots as [m E].
  destruct old_catalog as (pl & Hrep & Hst).
  pose proof (reboot_reuses_oids ∅ m KDS_CLUSTERED_BTREE _ pl 4 [] 200 _ _ _ old_table 1 (cstr "t") demo_cols E Hst Hrep) as H.
  clear E. destruct H as (s' & n' & H1 & H2 & H3); [lia|by vm_compute|apply plain_t|apply demo_cols_ok|constructor|reflexivity|by vm_compute..|].
  exists s'. split; [exact H2|exact H3].
Defined.
End Demo.
