(* ===== verification/BootSpec.v ===== *)
(** * BootSpec: the first start of the module

    On a device without a superblock the start makes the database: the
    theorems follow [kds_bootstrap] through every component it initialises
    and say what holds when it is done. *)
From S2P Require Import Prelude Layout Heap HeapSpec HeapOps TupleStore State Disk DiskSpec Meta MetaSpec Pool PoolSpec Page Alloc AllocSpec Btree BtreeSpec Types Parser ParserSpec Store Catalog CatalogSpec Wal WalSpec ExecHeap Dshell Proc ProcSpec Main MainSpec LifeSpec.
From stdpp Require Import prelude gmap list strings.
From Stdlib Require Import ZArith Lia.
Local Open Scope Z_scope.
Local Open Scope list_scope.
Local Open Scope kds_scope.

(** ** The first page of the log *)
Section Log.
Context `{K : Kernel}.

(** Writes within a page of constant size, decided by computation. *)
Lemma page_patch (q : bytes) off (d : bytes) :
  zlen q = KDS_PAGE_SIZE -> (0 <=? off) && (off + zlen d <=? KDS_PAGE_SIZE) = true -> zlen (patch q off d) = KDS_PAGE_SIZE.
Proof. intros Hq [H1%Z.leb_le H2%Z.leb_le]%andb_true_iff. rewrite zlen_patch; lia. Qed.
Lemma page_patch_disj (q : bytes) off (d : bytes) o n :
  zlen q = KDS_PAGE_SIZE -> (0 <=? off) && (off + zlen d <=? KDS_PAGE_SIZE) = true ->
  (0 <=? o) && (0 <=? n) && ((o + n <=? off) || (off + zlen d <=? o)) = true -> sub (patch q off d) o n = sub q o n.
Proof.
  intros Hq [H1%Z.leb_le H2%Z.leb_le]%andb_true_iff [[H3%Z.leb_le H4%Z.leb_le]%andb_true_iff [H5%Z.leb_le|H5%Z.leb_le]%orb_true_iff]%andb_true_iff;
    apply sub_patch_disj; lia.
Qed.
Ltac page_len := repeat (apply page_patch; [|by vm_compute]); done.

Definition formatted (seg lsn : Z) (p : bytes) : bytes :=
  patch (patch (patch (patch (patch (patch (patch (patch (patch p 0 (le_bytes 4 KDS_PAGE_TYPE_WAL))
    8 (le_bytes 1 (Z.lor KDS_PAGE_FLAG_ALLOC (Z.lor KDS_PAGE_FLAG_INIT KDS_PAGE_FLAG_DIRTY)))) 4 (le_bytes 4 0))
    KDS_PAGE_HDR_SIZE (le_bytes 8 seg)) WHDR_START (le_bytes 8 lsn)) WHDR_USED (le_bytes 4 0)) WHDR_NEXT (le_bytes 8 0))
    (WHDR_NEXT + 8) (le_bytes 4 0)) wal_page_payload (zeros KDS_WAL_PAGE_PAYLOAD).
Definition wal_kp (q : bytes) (k : kds_page) : kds_page := dirtied (set_kp_hdr (page_hdr_dec (sub q 0 KDS_PAGE_HDR_SIZE)) k).
Lemma format_live f k p seg lsn : zlen p = KDS_PAGE_SIZE ->
  wal_format_page seg lsn (live_frame f k p) = Ret tt (live_frame f (wal_kp (formatted seg lsn p) k) (formatted seg lsn p)) /\
  zlen (formatted seg lsn p) = KDS_PAGE_SIZE.
Proof.
  intros Hz. assert (Hf : zlen (formatted seg lsn p) = KDS_PAGE_SIZE) by (unfold formatted; page_len).
  split; [|done]. unfold wal_format_page. do 9 (erewrite bind_ok by (apply st_live; by vm_compute)).
  fold (formatted seg lsn p). erewrite bind_ok by (apply ld_live; rewrite ?Hf; by vm_compute).
  erewrite bind_ok by apply kp_mod_live. reflexivity.
Qed.
Lemma formatted_spec seg lsn p : zlen p = KDS_PAGE_SIZE ->
  let q := formatted seg lsn p in sub q 0 4 = le_bytes 4 KDS_PAGE_TYPE_WAL /\ sub q WHDR_USED 4 = le_bytes 4 0.
Proof.
  intros Hz q. unfold q, formatted. split.
  - do 8 (rewrite page_patch_disj; [|page_len|by vm_compute|by vm_compute]).
    apply (sub_patch_same p 0 (le_bytes 4 KDS_PAGE_TYPE_WAL)); [done|]. rewrite Hz. by vm_compute.
  - do 3 (rewrite page_patch_disj; [|page_len|by vm_compute|by vm_compute]).
    match goal with |- sub (patch ?x WHDR_USED _) _ _ = _ => assert (zlen x = KDS_PAGE_SIZE) as Hx by page_len end.
    apply (sub_patch_same _ WHDR_USED (le_bytes 4 0)); [by vm_compute|]. rewrite Hx. by vm_compute.
Qed.

Definition first_log (id : Z) : kds_wal_state :=
  WalState (WalBuf (zeros KDS_WAL_BUF_SIZE) 0 0 KDS_LSN_INVALID id 0 1) KDS_LSN_INVALID KDS_LSN_INVALID KDS_LSN_INVALID.
(** The log with its tail page [id] and no record. *)
Record empty_log (e : wal_env) (pl : kds_buf_pool) (id : Z) : Prop := {
  el_wal : g_wal e = Some (first_log id);
  el_head : g_wal_head_page_id e = id;
  el_tail : g_wal_tail_page_id e = id;
  el_page : exists k p, cached pl id = Some (k, p) /\ ph_type (kp_hdr k) = KDS_PAGE_TYPE_WAL /\ holds_log p [] }.
Lemma format_wp s pl id fid k p seg lsn :
  pool_wf pl -> buf_map pl !! id = Some fid -> cached pl id = Some (k, p) ->
  on_frame fid (wal_format_page seg lsn) (wp pl s) = Ret tt (wp (put id (wal_kp (formatted seg lsn p) k) (formatted seg lsn p) pl) s).
Proof.
  intros Hwf Hm Hc. pose proof (cached_fits pl Hwf id k p Hc) as (_ & Hz & _).
  match goal with |- on_frame fid ?m _ = _ => destruct (frame_put id fid m pl s k p tt
    (fun k' q => k' = wal_kp (formatted seg lsn p) k /\ q = formatted seg lsn p) Hwf Hm Hc) as (k' & q & E & -> & ->); [|exact E] end.
  intros f Hf. eexists _, _. split; [|done]. rewrite <- (frame_live_eq f k p Hf) at 1. by apply format_live.
Qed.
Lemma st_wp s pl id fid k p off d :
  pool_wf pl -> buf_map pl !! id = Some fid -> cached pl id = Some (k, p) -> off + zlen d <= KDS_PAGE_SIZE ->
  on_frame fid (st off d) (wp pl s) = Ret tt (wp (put id k (patch p off d) pl) s).
Proof.
  intros Hwf Hm Hc Hd.
  match goal with |- on_frame fid ?m _ = _ => destruct (frame_put id fid m pl s k p tt
    (fun k' q => k' = k /\ q = patch p off d) Hwf Hm Hc) as (k' & q & E & -> & ->); [|exact E] end.
  intros f Hf. eexists _, _. split; [|done]. rewrite <- (frame_live_eq f k p Hf) at 1. by apply st_live.
Qed.
Lemma wal_init_cases s gw hd tl pl q id :
  alloc_state s pl q -> (forall fid, head q = Some fid -> buf_map pl !! id = Some fid) ->
  ends (kds_wal_init (WalEnv s gw hd tl)) (fun r e' => r = 0 -> exists pl',
    empty_log e' pl' id /\ alloc_state (kds e') pl' (tail q) /\ only_page id pl pl' /\
    superblock (kds e') = superblock s /\ disk (kds e') = disk s).
Proof.
  intros Ha Hh. unfold kds_wal_init, alloc_ok. do 2 (eapply ends_ok; [by apply on_kds_ok|]; case_match; [done|]).
  set (s1 := set_tick _ _). cbn [with_kds kds g_wal g_wal_head_page_id g_wal_tail_page_id] in *.
  assert (Ha1 : alloc_state s1 pl q) by (by destruct Ha).
  destruct q as [|fid q].
  { destruct Ha1 as [_ _ (a & Hal & Hr)]. eapply ends_ok; [by apply (alloc_page_none _ _ _ a)|]. done. }
  specialize (Hh fid eq_refl). pose proof (as_wf _ _ _ Ha) as Hwf.
  pose proof (wf_cached pl id Hwf) as Hc. rewrite Hh in Hc. destruct Hc as (f & k & p & Hf & Hhold & Hc).
  pose proof (cached_fits pl Hwf id k p Hc) as Hfit. pose proof Hfit as (Hid & Hz & Hres).
  destruct (page_alloc_cases KDS_PAGE_TYPE_WAL s1 pl fid q id k p Ha1 Hh Hc) as (a & f' & Ea & Hr & Hf' & _).
  assert (f' = f) as -> by congruence. set (k1 := retyped KDS_PAGE_TYPE_WAL k) in *.
  replace (upd fid (live_frame f k1 p) pl) with (put id k1 p pl) in Ea by (unfold put; by rewrite Hh, Hf).
  set (s2 := set_g_alloc (Some a) s1) in *.
  destruct (put_spec pl Hwf id k p k1 p Hc ltac:(done)) as (Hwf1 & Ho1 & Hc1).
  assert (Hm : forall kk pp, buf_map (put id kk pp pl) !! id = Some fid) by (intros; by rewrite buf_map_put).
  destruct (formatted_spec 1 KDS_LSN_INVALID p Hz) as [Ht Hu]. destruct (format_live f k1 p 1 KDS_LSN_INVALID Hz) as [_ Hq].
  set (p1 := formatted 1 KDS_LSN_INVALID p) in *. set (k2 := wal_kp p1 k1).
  assert (Hfit2 : forall pp, zlen pp = KDS_PAGE_SIZE -> page_fits id k2 pp).
  { intros pp Hpp. split; [done|]. split; [done|]. apply length_dec_reserved. apply Nat2Z.inj. fold (zlen (sub p1 0 KDS_PAGE_HDR_SIZE)).
    rewrite zlen_sub; rewrite ?Hq; by vm_compute. }
  destruct (put_spec pl Hwf id k p k2 p1 Hc (Hfit2 _ Hq)) as (Hwf2 & _ & Hc2).
  eapply ends_ok.
  { unfold wal_alloc_page. erewrite bind_ok by (apply on_kds_ok; exact Ea). cbn beta iota.
    erewrite bind_ok by (apply on_kds_ok; cbn [kds with_kds]; by apply (format_wp _ _ id fid k1 p)). rewrite put_put. reflexivity. }
  cbn beta iota. fold p1 k2. eapply ends_ok; [apply on_kds_ok; cbn [kds with_kds]; by eapply (kp_at id)|].
  cbn [kds with_kds g_wal g_wal_head_page_id g_wal_tail_page_id].
  eapply ends_ok.
  { apply on_kds_ok. cbn [kds with_kds]. by apply (st_wp _ _ id fid k2 p1). }
  rewrite put_put. eapply ends_ok; [reflexivity|]. cbn [kds with_kds g_wal g_wal_head_page_id g_wal_tail_page_id].
  set (p2 := patch p1 WHDR_START _). assert (Hz2 : zlen p2 = KDS_PAGE_SIZE) by (apply page_patch; [done|by vm_compute]).
  destruct (put_spec pl Hwf id k p k2 p2 Hc (Hfit2 _ Hz2)) as (Hwf3 & _ & Hc3).
  eapply ends_ok; [apply on_kds_ok; cbn [kds with_kds]; by eapply (unpin_put id)|]. rewrite put_put.
  eapply ends_ok; [reflexivity|]. intros _.
  destruct (put_spec pl Hwf id k p (unpinned k2) p2 Hc) as (Hwf4 & Ho4 & Hc4).
  { destruct (Hfit2 _ Hz2) as (? & ? & ?). done. }
  exists (put id (unpinned k2) p2 pl). split_and!; try done.
  - split; [by rewrite <- Hid|done|done|]. exists (unpinned k2), p2. split; [done|]. split.
    + change (le_val (take 4 (sub p1 0 KDS_PAGE_HDR_SIZE)) = KDS_PAGE_TYPE_WAL). unfold sub. rewrite take_take. exact (f_equal le_val Ht).
    + split; [done|]. split; [by vm_compute|]. split; [|done]. unfold p2.
      rewrite page_patch_disj by (done || by vm_compute). by rewrite Hu.
  - split; [done|done|]. by exists a.
Qed.
End Log.

(** ** The superblock of a new database *)
Section Superblock.
Context `{K : Kernel}.

Record new_superblock (sb : kds_superblock) : Prop := {
  ns_ok : superblock_ok sb;
  ns_magic : sb_magic sb = SUPERBLOCK_MAGIC;
  ns_max : max_page_id sb = KDS_SYS_RESERVED_PAGES;
  ns_point : alloc_point sb = 0 }.
Definition mounted (s s' : kds_state) : Prop :=
  (exists sb, superblock s' = Some sb /\ new_superblock sb) /\ (exists io, sb_io_page s' = Some io) /\
  g_fresh_init s' = true /\ g_pool s' = g_pool s.
Lemma fresh_meta s : sb_magic (disk_superblock (disk s)) <> SUPERBLOCK_MAGIC ->
  ends (kds_init_meta_system s) (fun r s' => r = 0 -> mounted s s').
Proof.
  intros Hmag. unfold kds_init_meta_system. eapply ends_bind.
  2:{ intros r s' H. instantiate (1 := fun r s' => r = 0 -> mounted s s') in H. by destruct (Z.eqb_spec r 0) as [->|]. }
  unfold kds_load_or_init_superblock, alloc_ok. eapply ends_ok; [reflexivity|]. case_match; [eapply ends_ok; [reflexivity|]; by cbn|].
  eapply ends_ok; [reflexivity|]. eapply ends_ok; [reflexivity|]. case_match; [do 2 (eapply ends_ok; [reflexivity|]); by cbn|].
  set (s1 := set_tick _ (set_sb_io_page _ _)).
  destruct (read_logical_page_spec META_SUPERBLOCK_SECTOR s1) as (t & [E|(e & E & He)]); (eapply ends_ok; [exact E|]); cbn beta iota zeta.
  2:{ do 2 (eapply ends_ok; [reflexivity|]). cbn. congruence. }
  do 2 (eapply ends_ok; [reflexivity|]). fold (disk_superblock (disk s1)).
  destruct (Z.eqb_spec (sb_magic (disk_superblock (disk s1))) SUPERBLOCK_MAGIC) as [E0|_]; [done|].
  eapply ends_bind.
  - eapply ends_ok; [reflexivity|]. unfold init_superblock_and_fsync. eapply ends_bind.
    + eapply ends_ok; [reflexivity|]. cbn [sb_io_page set_g_fresh_init set_superblock set_sb_io_page].
      do 3 (eapply ends_ok; [reflexivity|]).
      match goal with |- ends (kds_write_logical_page _ ?b ?x) _ =>
        assert (zlen b = KDS_PAGE_SIZE) as Hl by (by apply zlen_superblock_enc);
        destruct (write_logical_page_spec META_SUPERBLOCK_SECTOR b x Hl) as [[t' ->]|[t' ->]] end; [|by left].
      instantiate (1 := fun r s' => r = 0 /\ mounted s s'). split; [done|]. split; [|split; [by eexists|done]].
      eexists. split; [reflexivity|]. split; [|reflexivity..]. unfold superblock_ok, u64_field, SUPERBLOCK_MAGIC, KDS_VERSION, KDS_SYS_RESERVED_PAGES.
      cbn -[zeros Z.to_nat]. pose proof (u64_range (k_seconds (tick s1))). split_and!; try apply u64_range; try lia; reflexivity.
    + intros r s' [-> Hs']. cbn [Z.eqb negb]. instantiate (1 := fun _ s' => mounted s s'). exact Hs'.
  - intros [] s' ((sb & Hsb & [Hok Hma Hmx Hpt]) & (io & Hio) & Hf & Hp). eapply ends_ok; [reflexivity|]. eapply ends_ok; [reflexivity|].
    intros _. unfold mounted. cbn [superblock set_tick]. rewrite Hsb. split; [|by split; [exists io|]].
    exists (set_mount_time (u64 (k_seconds (tick s'))) sb). split; [done|]. split; [|done..].
    pose proof (u64_range (k_seconds (tick s'))). unfold superblock_ok, u64_field in *. cbn. intuition lia.
Qed.
End Superblock.

(** ** The start, step by step *)
Section Boot.
Context `{K : Kernel} {KS : Kstrtoll} {CT : Ctype} {Mc : Machine} {B : Boot}.

Lemma ends_step (f : M module Z) m (Q : module -> Prop) :
  ends (f m) (fun r m' => r = 0 -> Q m') -> ends (step_or_fail f m) (fun _ m' => Q m').
Proof.
  intros H. unfold step_or_fail. eapply ends_bind; [exact H|]. intros r m' HQ. cbn beta in HQ.
  destruct (Z.eqb_spec r 0) as [->|]; cbn [negb]; [by apply HQ|by left].
Qed.
Lemma ends_kern {A} (f : M kds_state A) m (Q : A -> module -> Prop) :
  ends (f (kern m)) (fun a s => Q a (with_kern s m)) -> ends (on_kern f m) Q.
Proof.
  intros H. destruct (f (kern m)) as [a s|h s] eqn:E; [by rewrite (on_kern_ok _ _ _ _ E)|by rewrite (on_kern_halt _ _ _ _ E)].
Qed.

(** The module while it starts, after the device was opened. *)
Definition booting (w : wal_env) (objs : list kds_sys_object) (sc : sched) (np : proc_ptr) (pa pd : option proc_ptr)
    (cd : chardev) (inited : bool) : module :=
  Module (Dshell (Db w objs KDS_USER_OID_START) ∅ [] 0 ∅ 0 ProcOut) sc np true 1 pa pd None cd inited KDS_INIT_PENDING ∅ 0 ∅ TaskNull.
Definition no_log (s : kds_state) : wal_env := WalEnv s None 0 0.
Definition with_all : chardev := Chardev true true true true.

Lemma boot_device d : ends (step_or_fail init_block_device (module_start d)) (fun _ m => exists s sc,
  m = booting (no_log s) [] sc 0 None None no_chardev false /\ disk s = d /\ procs sc = ∅).
Proof.
  apply ends_step. unfold init_block_device. eapply ends_ok; [apply oracle_kern|].
  destruct (Z.eqb_spec (b_open (tick (kern (module_start d)))) 0) as [->|]; cbn [negb Z.eqb]; [|by apply ends_ret].
  eapply ends_ok; [reflexivity|]. eapply ends_ok; [apply oracle_kern|]. destruct (b_disk _) as [[] []]; cbn [negb];
    (eapply ends_ok; [reflexivity|]); try done.
  eapply ends_ok; [by apply on_kern_ok|]. intros _. eexists _, _. split; [reflexivity|done].
Qed.
Lemma boot_pool s : ends (kds_buf_pool_init s) (fun r s' => r = 0 -> g_pool s' = Some init_pool /\ disk s' = disk s).
Proof.
  unfold kds_buf_pool_init, alloc_ok. eapply ends_ok; [reflexivity|]. destruct (k_alloc _); cbn [negb]; [|by eapply ends_ok].
  eapply ends_ok; [reflexivity|]. case_match eqn:E; [|by eapply ends_ok].
  eapply ends_ok; [reflexivity|]. apply ends_ret. intros H. by rewrite H in E.
Qed.
Lemma boot_sched sc : 0 ∈ for_each_cpu cpu_online_mask -> procs sc = ∅ ->
  exists sc', kds_sched_init sc = Ret 0 sc' /\ on_cpu0 sc' [] 0.
Proof.
  intros [_ Hcpu]%list_elem_of_filter Hp. eexists. split; [reflexivity|]. cbn [kds_runqueues set_runqueues stats_mod].
  assert (Hall : forall c r, (list_to_map (map (fun c => (c, empty_rq)) cpu_possible) : gmap Z kds_runqueue) !! c = Some r -> r = empty_rq).
  { intros c r H. apply elem_of_list_to_map_2, list_elem_of_fmap in H as (? & [= _ ->] & _). done. }
  split; cbn.
  - exists empty_rq. split; [|done]. apply elem_of_list_to_map_1.
    + rewrite <- list_fmap_compose. change (NoDup (id <$> cpu_possible)). rewrite list_fmap_id. apply (NoDup_fmap_2 Z.of_nat), NoDup_seq.
    + apply list_elem_of_fmap. eauto.
  - intros p _. by rewrite Hp, lookup_empty.
  - intros c r p ->%Hall Hin. by apply not_elem_of_nil in Hin.
Qed.
Lemma boot_shell s sc r : 0 ∈ cpu_online_mask -> on_cpu0 sc [] 0 -> kds_runqueues sc !! 0 = Some r ->
  ends (step_or_fail kds_init_dshell_system (booting (no_log s) [] sc 0 None None no_chardev false)) (fun _ m => exists t,
    m = booting (no_log (set_tick t s)) [] (after_register sc 0 r) 1 None (Some 0%nat) with_all true).
Proof.
  intros Hcpu Hq Hr. apply ends_step. set (m := booting _ _ _ _ _ _ _ _).
  destruct (dshell_init_cases m [] r Hcpu Hq ltac:(by vm_compute) Hr eq_refl eq_refl eq_refl eq_refl) as (m' & -> & H).
  cbv beta. intros Hz. cbn zeta in H. rewrite Hz in H. destruct H as [(t & ->) _]. by exists t.
Qed.
(** A system process that is created and queued behind the others. *)
Lemma boot_proc get put m l r : puts get put -> 0 ∈ cpu_online_mask -> on_cpu0 (m_sched m) l (next_proc m) ->
  kds_runqueues (m_sched m) !! 0 = Some r -> zlen l < UINT_MAX ->
  ends (step_or_fail (create_proc put) m) (fun _ m' =>
    m' = put (Some (next_proc m)) (with_new_proc (after_register (m_sched m) (next_proc m) r) (ticked m))).
Proof.
  intros Hp Hcpu Hq Hr Hl. apply ends_step. rewrite (create_proc_spec Hcpu get put m l r Hp Hq Hr Hl). by destruct (k_alloc _).
Qed.
Lemma boot_ring s sb : superblock s = Some sb -> new_superblock sb -> (exists io, sb_io_page s = Some io) -> g_pool s = Some init_pool ->
  ends (alloc_system_fill s) (fun _ s' => exists pl fs sb',
    alloc_state s' pl fs /\ staged pl 128 fs /\ (forall id, 4 <= id <= 7 -> cached pl id = None) /\ g_fresh_init s' = g_fresh_init s /\
    superblock s' = Some sb' /\ max_page_id sb' = 255 /\ alloc_point sb' = 128 /\ sb_magic sb' = SUPERBLOCK_MAGIC).
Proof.
  intros Hsb [Hok Hmag Hmax Hpt] (io & Hio) Hg. unfold alloc_system_fill. eapply ends_bind.
  { unfold kds_init_g_alloc, alloc_ok. eapply ends_ok; [reflexivity|]. case_match; [by right|]. 
    instantiate (1 := fun _ s' => superblock s' = Some sb /\ sb_io_page s' = Some io /\ g_pool s' = Some init_pool /\ g_fresh_init s' = g_fresh_init s /\
      exists a, g_alloc s' = Some a /\ ring_is a []). split_and!; try done. eexists. split; [reflexivity|apply empty_ring_is]. }
  intros _ s1 (Hsb1 & Hio1 & Hg1 & Hf1 & Hal).
  eapply ends_ok; [unfold kds_meta_get_alloc_range; by rewrite Hsb1|]. cbn beta iota. rewrite Hpt. cbn [Z.eqb].
  assert (Has : alloc_state s1 init_pool []) by (split; [done|apply init_pool_wf|done]).
  destruct (batch_alloc_cases PRE_ALLOC_RING_BUFFER_SIZE s1 init_pool [] sb io Has Hsb1 Hio1 Hok) as [(s' & ->)|H];
    [by vm_compute|by rewrite Hmax; vm_compute|by rewrite Hmax; vm_compute|by vm_compute|by left|].
  destruct H as (s' & pl' & fs & -> & _ & Has' & Hst & _ & Hnew & Hf' & sb' & Hsb' & Hm' & Hp' & Hmg). rewrite Hmax in *.
  exists pl', fs, sb'. split_and!; try done; try congruence.
  intros id Hid. rewrite Hnew by (unfold KDS_SYS_RESERVED_PAGES; lia). unfold cached, init_pool; cbn. by rewrite lookup_empty.
Qed.
Lemma staged_tail pl id fs : staged pl id fs -> staged pl (id + 1) (tail fs).
Proof. intros H i fid. destruct fs as [|f fs]; [done|]. intros Hi. rewrite <- (H (S i) fid Hi). f_equal. lia. Qed.
Lemma staged_head pl id fs fid : staged pl id fs -> head fs = Some fid -> buf_map pl !! id = Some fid.
Proof. intros H Hf. rewrite <- (Z.add_0_r id). apply (H 0%nat). by destruct fs. Qed.
Lemma staged_grows pl pl' id fs : staged pl id fs -> buf_map pl ⊆ buf_map pl' -> staged pl' id fs.
Proof. intros H Hsub i fid Hi. eapply lookup_weaken; [by apply H|done]. Qed.

(** The module after the first start on the device [d]. *)
Record fresh_module (m : module) : Prop := {
  fm_init : kds_initialized m = KDS_INIT_DONE;
  fm_shell : kds_dshell_inited m = true /\ m_chardev m = with_all;
  fm_procs : kds_dshell_proc m = Some 0%nat /\ kds_prealloc_proc m = Some 1%nat /\ g_ckpt_proc m = Some 2%nat;
  fm_queue : on_cpu0 (m_sched m) [0; 1; 2]%nat (next_proc m);
  fm_oids : db_sys_objects (db (m_shell m)) = well_known /\ db_oid_counter (db (m_shell m)) = KDS_USER_OID_START;
  fm_superblock : exists sb, superblock (kern m) = Some sb /\ sb_magic sb = SUPERBLOCK_MAGIC /\ max_page_id sb = 255 /\ alloc_point sb = 128;
  fm_store : exists pl q, alloc_state (kern m) pl q /\ staged pl 129 q /\ catalog_rep pl boot_catalog /\ empty_log (wal_of m) pl 128 }.
(** The catalog and the log of a new database. *)
Definition stored (w : wal_env) (sb : kds_superblock) : Prop :=
  superblock (kds w) = Some sb /\ exists pl q,
  alloc_state (kds w) pl q /\ staged pl 129 q /\ catalog_rep pl boot_catalog /\ empty_log w pl 128.
Lemma boot_store s sb pl fs sc np pa pd cd inited (rest : M module unit) (Q : unit -> module -> Prop) :
  alloc_state s pl fs -> staged pl 128 fs -> (forall id, 4 <= id <= 7 -> cached pl id = None) -> g_fresh_init s = true ->
  superblock s = Some sb ->
  (forall w, stored w sb -> ends (rest (booting w well_known sc np pa pd cd inited)) Q) ->
  ends ((fresh <- on_kern kds_meta_is_fresh_init ;;
         (if fresh : bool then step_or_fail (on_shell (on_catalog kds_catalog_bootstrap)) else ret tt) ;;
         step_or_fail (on_shell (on_wal kds_wal_init)) ;; rest) (booting (no_log s) [] sc np pa pd cd inited)) Q.
Proof.
  intros [Hg Hwf Hal] Hst Hc Hf Hsb Hrest. eapply ends_ok; [apply on_kern_ok; reflexivity|]. change (kern _) with s. rewrite Hf.
  eapply ends_bind.
  - apply ends_step. unfold on_shell, on_catalog. cbn [m_shell booting db kds db_wal no_log db_sys_objects db_oid_counter with_kern set_shell set_db kern].
    destruct (bootstrap_cases s pl KDS_USER_OID_START Hg Hwf Hc) as [(e & E)|(pl' & s' & E & Hrep & Ho & Hgr)].
    + rewrite E. by left.
    + rewrite E. intros _. instantiate (1 := fun m => exists pl' s', m = booting (no_log (wp pl' s')) well_known sc np pa pd cd inited /\
        catalog_rep pl' boot_catalog /\ grown pl pl' s s'). exists pl', s'. split; [reflexivity|]. split; [exact Hrep|exact Hgr].
  - intros _ m (pl1 & s1 & -> & Hrep & Hsub & (_ & Hsb1 & _ & _ & Ha1 & _)).
    assert (Has : alloc_state (wp pl1 s1) pl1 fs) by (split; [done|apply Hrep|cbn; by rewrite Ha1]).
    pose proof (staged_grows _ _ _ _ Hst Hsub) as Hst1. eapply ends_bind.
    + apply ends_step. unfold on_shell, on_wal. cbn [m_shell booting db db_wal no_log].
      pose proof (wal_init_cases (wp pl1 s1) None 0 0 pl1 fs 128 Has ltac:(intros fid; by apply staged_head)) as H.
      instantiate (1 := fun m => exists w, m = booting w well_known sc np pa pd cd inited /\ stored w sb).
      destruct (kds_wal_init _) as [r w|h w]; cbn in H |- *; [|done]. intros ->.
      destruct (H eq_refl) as (pl2 & Hlog & Ha2 & Ho2 & Hsb2 & _). exists w. split; [done|]. split; [by rewrite Hsb2, <- Hsb|].
      exists pl2, (tail fs). split_and!; try done.
      * apply (staged_grows pl1); [exact (staged_tail pl1 128 fs Hst1)|by rewrite (op_map _ _ _ Ho2)].
      * eapply rep_other; [done|by apply Ha2|done|lia].
    + intros _ m (w & -> & Hw). by apply Hrest.
Qed.

Lemma boot_cases d : 0 ∈ for_each_cpu cpu_online_mask -> sb_magic (disk_superblock d) <> SUPERBLOCK_MAGIC ->
  match kds_bootstrap (module_start d) with
  | Ret _ m => fresh_module m
  | Halt h _ => h = Panic \/ h = Bug
  end.
Proof.
  intros Hon Hmag. change (ends (kds_bootstrap (module_start d)) (fun _ m => fresh_module m)).
  assert (Hcpu : 0 ∈ cpu_online_mask) by (by apply list_elem_of_filter in Hon as [? _]).
  unfold kds_bootstrap. eapply ends_bind; [apply boot_device|]. intros _ m (s0 & sc0 & -> & Hd0 & Hp0).
  eapply ends_bind; [apply ends_step, ends_kern; eapply ends_weaken; [apply boot_pool|]|].
  { intros r s H Hr. destruct (H Hr) as [Hg Hd]. instantiate (1 := fun m => exists s, m = booting (no_log s) [] sc0 0 None None no_chardev false /\
      g_pool s = Some init_pool /\ disk s = d). exists s. split; [reflexivity|]. split; [exact Hg|]. rewrite Hd. exact Hd0. }
  intros _ m (s1 & -> & Hg1 & Hd1). destruct (boot_sched sc0 Hon Hp0) as (sc1 & Es & Hq1).
  eapply ends_bind; [apply ends_step; unfold on_sched; cbn [m_sched booting]; rewrite Es; intros _|].
  { instantiate (1 := fun m => m = booting (no_log s1) [] sc1 0 None None no_chardev false). reflexivity. }
  intros _ m ->.
  eapply ends_bind; [apply ends_step, ends_kern; eapply ends_weaken; [apply fresh_meta|]|].
  { change (kern _) with s1. by rewrite Hd1. }
  { intros r s H Hr. instantiate (1 := fun m => exists s, m = booting (no_log s) [] sc1 0 None None no_chardev false /\ mounted s1 s).
    exists s. split; [reflexivity|exact (H Hr)]. }
  intros _ m (s2 & -> & (sb & Hsb2 & Hnew) & Hio2 & Hf2 & Hg2). rewrite Hg1 in Hg2.
  destruct (oc_queue _ _ _ Hq1) as (r1 & Hr1 & _).
  eapply ends_bind; [by apply (boot_shell s2 sc1 r1)|]. intros _ m (t & ->).
  set (s3 := set_tick t s2). pose proof (push_on_cpu0 _ _ _ _ Hq1 Hr1 ltac:(by vm_compute)) as Hq2.
  set (sc2 := after_register sc1 0 r1) in *. destruct (oc_queue _ _ _ Hq2) as (r2 & Hr2 & _).
  eapply ends_bind.
  { apply ends_step. unfold kds_init_page_alloc_system. eapply ends_bind.
    - apply ends_kern. eapply ends_weaken; [by apply (boot_ring s3 sb)|]. intros r s H. instantiate (1 := fun _ m => exists s pl fs sb',
        m = booting (no_log s) [] sc2 1 None (Some 0%nat) with_all true /\ alloc_state s pl fs /\ staged pl 128 fs /\
        (forall id, 4 <= id <= 7 -> cached pl id = None) /\ g_fresh_init s = true /\ superblock s = Some sb' /\
        max_page_id sb' = 255 /\ alloc_point sb' = 128 /\ sb_magic sb' = SUPERBLOCK_MAGIC).
      destruct H as (pl & fs & sb' & H1 & H2 & H3 & H4 & H5). exists s, pl, fs, sb'. split; [reflexivity|]. by rewrite H4.
    - intros r m (s & pl & fs & sb' & -> & H). unfold kds_create_proc_prealloc.
      rewrite (create_proc_spec Hcpu _ _ (booting (no_log s) [] sc2 1 None (Some 0%nat) with_all true) _ r2 puts_prealloc Hq2 Hr2 ltac:(by vm_compute)). instantiate (1 := fun m => exists s pl fs sb',
        m = booting (no_log s) [] (after_register sc2 1 r2) 2 (Some 1%nat) (Some 0%nat) with_all true /\ alloc_state s pl fs /\ staged pl 128 fs /\
        (forall id, 4 <= id <= 7 -> cached pl id = None) /\ g_fresh_init s = true /\ superblock s = Some sb' /\
        max_page_id sb' = 255 /\ alloc_point sb' = 128 /\ sb_magic sb' = SUPERBLOCK_MAGIC).
      destruct (k_alloc _); [|done]. intros _. eexists _, pl, fs, sb'. split; [reflexivity|]. destruct H as ([? ? ?] & ?). done. }
  intros _ m (s4 & pl & fs & sb' & -> & Ha & Hst & Hc & Hf & Hsb & Hmax & Hpt & Hmg).
  pose proof (push_on_cpu0 _ _ _ _ Hq2 Hr2 ltac:(by vm_compute)) as Hq3.
  set (sc3 := after_register sc2 1 r2) in *. destruct (oc_queue _ _ _ Hq3) as (r3 & Hr3 & _).
  apply (boot_store s4 sb' pl fs); try done. intros w (Hsbw & plw & q & Haw & Hstw & Hrep & Hlog).
  eapply ends_bind; [apply (boot_proc _ _ (booting w well_known sc3 2 (Some 1%nat) (Some 0%nat) with_all true) _ r3 puts_ckpt Hcpu Hq3 Hr3); by vm_compute|]. intros _ m ->.
  pose proof (push_on_cpu0 _ _ _ _ Hq3 Hr3 ltac:(by vm_compute)) as Hq4.
  split; try done.
  - by exists sb'.
  - exists plw, q. destruct Haw as [? ? ?]. by destruct Hlog.
Qed.
End Boot.

(** ** The page that the log and the superblock share *)
Section Shared.
Context `{K : Kernel}.

Lemma empty_log_pending e pl id : empty_log e pl id -> 0 <= id < 2 ^ 32 -> buf_ok (wal_buf (first_log id)) /\ pending (wal_buf (first_log id)) = [].
Proof.
  intros _ Hid. assert (Hz : zlen (zeros KDS_WAL_BUF_SIZE) = KDS_WAL_BUF_SIZE) by exact demo_ring_len. split.
  - split; [exact Hz|..]; cbn [first_log wal_buf write_off flush_off tail_page_id tail_used];
      unfold KDS_WAL_BUF_SIZE, KDS_WAL_PAGE_PAYLOAD, KDS_PAGE_SIZE, KDS_PAGE_HDR_SIZE, KDS_WAL_PAGE_HDR_SIZE; lia.
  - unfold pending. cbn [first_log wal_buf wbuf flush_off write_off]. apply ring_get_nil; [exact Hz|lia].
Qed.
(** A page with the type of a log page is no superblock. *)
Lemma log_page_no_superblock k p :
  length (ph_reserved1 (kp_hdr k)) = 32%nat -> ph_type (kp_hdr k) = KDS_PAGE_TYPE_WAL ->
  sb_magic (superblock_dec (image k p)) <> SUPERBLOCK_MAGIC.
Proof.
  intros Hr Ht. change (sb_magic (superblock_dec (image k p))) with (le_val (take 8 (image k p))). unfold image.
  unfold patch. change (Z.to_nat 0) with 0%nat. rewrite take_0, app_nil_l. unfold page_hdr_enc. rewrite <- !app_assoc, (app_assoc (le_bytes 4 (ph_type _))).
  rewrite take_app_length' by reflexivity. rewrite le_val_app, Ht, !le_val_enc, zlen_le_bytes.
  change (KDS_PAGE_TYPE_WAL mod 256 ^ Z.of_nat 4) with KDS_PAGE_TYPE_WAL. change (256 ^ Z.of_nat 4) with 4294967296.
  unfold KDS_PAGE_TYPE_WAL, SUPERBLOCK_MAGIC. pose proof (Z.mod_pos_bound (ph_crc (kp_hdr k)) 4294967296). lia.
Qed.
End Shared.

Section Claims.
Context `{K : Kernel} {KS : Kstrtoll} {CT : Ctype} {Mc : Machine} {B : Boot}.

(** C3.  The first start on a device without a superblock succeeds completely or
    stops the machine (a panic, or the BUG_ON of the allocator); it never
    returns with a component half made.  When it returns, all the components'
    invariants hold together: the pool is well-formed and the catalog is the
    one of a new database, the well-known objects are registered and the oid
    counter is at its first value, the superblock is valid and its counters
    are past the 127 pages that were created, the ring holds the pages
    from 129 on in order, page 128 is the empty first page of the log, and
    the three system processes are queued in the order of their creation. *)
Theorem fresh_boot d : 0 ∈ for_each_cpu cpu_online_mask -> sb_magic (disk_superblock d) <> SUPERBLOCK_MAGIC ->
  match kds_bootstrap (module_start d) with
  | Ret _ m => fresh_module m
  | Halt h _ => h = Panic \/ h = Bug
  end.
Proof. apply boot_cases. Qed.

(** C37.  The first page of the log is the page of the superblock (id 128, sector
    2048).  In a new database, any record that fits on that page can be
    appended; when its flush to the device succeeds, no valid superblock is
    left there, so that a start after a crash at that point makes a new
    database instead of opening this one. *)
Theorem first_flush_destroys_superblock m hdr d :
  0 ∈ for_each_cpu cpu_online_mask -> fresh_module m -> rec_ok hdr -> r_body_len hdr = zlen d ->
  KDS_WAL_REC_HDR_SIZE + zlen d < KDS_WAL_PAGE_PAYLOAD ->
  exists lsn e1, kds_wal_append hdr (Some d) (wal_of m) = Ret (0, Some lsn) e1 /\
    match kds_wal_flush e1 with
    | Ret r e2 => r = 0 /\ sb_magic (disk_superblock (disk (kds e2))) <> SUPERBLOCK_MAGIC /\
        match kds_bootstrap (module_start (disk (kds e2))) with Ret _ m' => fresh_module m' | Halt h _ => h = Panic \/ h = Bug end
    | Halt h _ => h = Panic
    end.
Proof.
  intros Hon [_ _ _ _ _ _ (pl & q & [Hg Hwf _] & _ & _ & Hlog)] Hrec Hlen Hfit. pose proof (zlen_nonneg d) as Hd0.
  assert (Hpp : KDS_WAL_PAGE_PAYLOAD = 8119) by done. assert (Hsz : KDS_WAL_REC_HDR_SIZE = 36) by done.
  destruct (empty_log_pending _ _ _ Hlog ltac:(lia)) as [Hb Hpend]. destruct Hlog as [Hw _ _ (k & p & Hc & Hty & Hlog)].
  pose proof (append_cases (wal_of m) hdr d Hrec Hlen ltac:(lia)) as H. rewrite Hw in H. cbn zeta in H.
  specialize (H Hb ltac:(by vm_compute) ltac:(by vm_compute)). rewrite Hpend in H. change (zlen (A := Z) []) with 0 in H.
  destruct (Z.ltb_spec KDS_PAGE_SIZE (zlen d)) as [Hbig|_]; [unfold KDS_PAGE_SIZE in Hbig; lia|].
  destruct (Z.ltb_spec KDS_WAL_BUF_SIZE (0 + KDS_WAL_REC_HDR_SIZE + zlen d)) as [Hbig|_]; [unfold KDS_WAL_BUF_SIZE in Hbig; lia|].
  destruct H as (lsn & w' & E & _ & _ & Hp' & _ & _ & Hb' & _ & _ & _ & _ & Ht). exists lsn, (with_wal w' (wal_of m)). split; [exact E|].
  set (h := stamp lsn _ hdr d) in *. set (x := (h, d) : kds_wal_rec_hdr * bytes).
  assert (Hx : pending (wal_buf w') = log_image [x]) by (rewrite Hp'; unfold log_image, rec_bytes; cbn; by rewrite app_nil_r).
  assert (Hzx : zlen (log_image [x]) = KDS_WAL_REC_HDR_SIZE + zlen d).
  { change (log_image [x]) with ((rec_hdr_enc h ++ d) ++ []). rewrite app_nil_r, zlen_app, zlen_rec_hdr_enc; [done|]. by destruct Hrec as (_ & _ & _ & _ & ? & _). }
  destruct (flush_extends_cases (with_wal w' (wal_of m)) w' pl k p [] [x] eq_refl Hb' Hg Hwf) as [(e2 & ->)|H];
    [by rewrite Ht|done|done|lia|cbn [app]; lia|done|].
  destruct H as (e2 & w2 & pl2 & k2 & q2 & -> & _ & _ & _ & _ & _ & _ & Hq & _ & Hdisk & _). rewrite Ht in Hdisk.
  split; [done|]. assert (Hm : sb_magic (disk_superblock (disk (kds e2))) <> SUPERBLOCK_MAGIC); [|split; [exact Hm|exact (boot_cases _ Hon Hm)]].
  unfold disk_superblock. change (disk_read (disk (kds e2)) META_SUPERBLOCK_SECTOR 16) with (disk_page (disk (kds e2)) (tail_page_id (wal_buf (first_log 128)))).
  rewrite Hdisk, Hq. pose proof (cached_fits pl Hwf 128 k p Hc) as (_ & _ & Hres). by apply log_page_no_superblock.
Qed.
End Claims.

(** ** A quiet start *)
Section Demo.
#[local] Existing Instances quiet_kernel no_strtoll ascii_ctype duo quiet_boot.
Lemma duo_first : 0 ∈ for_each_cpu cpu_online_mask.
Proof. vm_compute. left. Qed.
Lemma blank_device : sb_magic (disk_superblock ∅) <> SUPERBLOCK_MAGIC.
Proof. vm_compute. discriminate. Qed.
Lemma fresh_boot_witness : exists m, kds_bootstrap (module_start ∅) = Ret tt m /\ fresh_module m.
Proof.
  pose proof (fresh_boot ∅ duo_first blank_device) as H. destruct quiet_boots as [m E]. rewrite E in H. exists m. split; [exact E|exact H].
Defined.
Lemma first_flush_destroys_superblock_witness : exists m lsn e1, fresh_module m /\
  kds_wal_append demo_hdr (Some demo_body) (wal_of m) = Ret (0, Some lsn) e1 /\
  match kds_wal_flush e1 with
  | Ret r e2 => r = 0 /\ sb_magic (disk_superblock (disk (kds e2))) <> SUPERBLOCK_MAGIC
  | Halt h _ => h = Panic
  end.
Proof.
  pose proof (boot_cases ∅ duo_first blank_device) as Hm. destruct quiet_boots as [m E]. rewrite E in Hm. clear E.
  destruct (first_flush_destroys_superblock m demo_hdr demo_body duo_first Hm demo_hdr_ok eq_refl ltac:(by vm_compute)) as (lsn & e1 & H1 & H2).
  exists m, lsn, e1. split; [exact Hm|]. split; [exact H1|]. destruct (kds_wal_flush e1) as [r e2|h e2]; [|exact H2].
  destruct H2 as (H2 & H3 & _). split; [exact H2|exact H3].
Defined.
End Demo.
