(* ===== verification/RowType.v ===== *)
(** * RowType: the types of stored values

    [has_type] is the typing relation between the column types of
    types.c and the bytes a column holds, [row_typed] its lifting to rows.
    Encoding establishes it for whatever literals a statement contains, and
    decoding relies on nothing else. *)
From S2P Require Import Prelude Layout State Disk Pool Alloc Heap Btree Types TypesSpec Parser Catalog Relation Wal ExecHeap ExecBtree Dshell RowSpec.
From stdpp Require Import prelude gmap list strings.
From Stdlib Require Import ZArith Lia.
Local Open Scope Z_scope.
Local Open Scope list_scope.
Local Open Scope kds_scope.

Definition no_nul (b : bytes) : Prop := Forall (fun c => c <> 0) b.
Inductive has_type : Z -> bytes -> Prop :=
  | ht_int t w b : int_col t = Some w -> zlen b = w -> bytes_ok b -> has_type t b
  | ht_float b : zlen b = 4 -> bytes_ok b -> has_type KDS_TYPE_FLOAT b
  | ht_decimal b : zlen b = 8 -> bytes_ok b -> has_type KDS_TYPE_DECIMAL b
  | ht_bool (x : bool) : has_type KDS_TYPE_BOOL [if x then 1 else 0]
  | ht_char t b : char_col t -> zlen b <= 255 -> no_nul b -> has_type t b.
(** ** Values *)
Section Values.
Context `{KS : Kstrtoll}.

Lemma int_desc t w : int_col t = Some w -> int_width w /\
  exists desc, kds_type_lookup_by_val t = Some desc /\ fixed_len desc = w /\
    (forall s bs, Types.encode desc s bs = encode_int_generic s bs w (int_min w) (int_max w)) /\
    (forall b l os, Types.decode desc b l os = decode_int_generic b l os w).
Proof.
  intros Ht. split; [unfold int_col, int_width in *; repeat case_match; simplify_eq; tauto|]. unfold int_col in Ht.
  destruct (Z.eqb_spec t KDS_TYPE_INT8) as [->|_]; [|destruct (Z.eqb_spec t KDS_TYPE_INT16) as [->|_];
    [|destruct (Z.eqb_spec t KDS_TYPE_INT32) as [->|_]; [|destruct (Z.eqb_spec t KDS_TYPE_INT64) as [->|_]; [|done]]]];
    injection Ht as <-; (eexists; split; [reflexivity|]; split_and!; intros; reflexivity).
Qed.
Lemma encode_int_typed s bs w b : int_width w -> encode_int_generic s bs w (int_min w) (int_max w) = (0, b) -> zlen b = w /\ bytes_ok b.
Proof.
  intros Hw. unfold encode_int_generic. case_match; [done|]. destruct (kstrtoll s) as [ret v]. case_match eqn:Hr.
  { intros [= -> _]. by rewrite Z.eqb_refl in Hr. }
  case_match; [done|]. by_width Hw; cbn [Z.eqb Pos.eqb]; intros E%(f_equal snd); cbn [snd] in E; subst b; (split; [by rewrite zlen_le_bytes|auto with kds]).
Qed.
Lemma parse_hex_typed n : forall s b, parse_hex_loop s n = (0, b) -> length b = n /\ bytes_ok b.
Proof.
  induction n as [|n IH]; intros s b; cbn [parse_hex_loop]; [intros [= <-]; split; [done|constructor]|]. case_match; [done|].
  destruct (parse_hex_loop (drop 2 s) n) as [r out] eqn:E. intros [= -> <-]. destruct (IH _ _ E) as [H1 H2].
  split; [cbn; by rewrite H1|]. constructor; [|done]. unfold u8, is_byte. apply Z.mod_pos_bound. lia.
Qed.
Lemma val_str_typed v : zlen (val_str v) <= 255 /\ no_nul (val_str v).
Proof.
  destruct v as [i|s|].
  - rewrite val_str_int. pose proof (zlen_fmt_lld i). split; [lia|]. unfold fmt_lld. destruct (Z.ltb_spec i 0).
    + constructor; [lia|]. apply dec_digits_no_nul. lia.
    + by apply dec_digits_no_nul.
  - cbn [val_str]. split.
    + unfold zlen. rewrite length_take. unfold KDS_PARSER_VAL_MAX. lia.
    + apply Forall_take. induction s as [|x s IH]; cbn; [constructor|]. case_match eqn:E; [constructor|]. constructor; [by apply Z.eqb_neq|done].
  - split; [by vm_compute|constructor].
Qed.

(** An encoder accepts a literal only with bytes of its type. *)
Lemma encode_typed t desc v bs b :
  kds_type_lookup_by_val t = Some desc -> Types.encode desc (val_str v) bs = (0, b) -> has_type t b.
Proof.
  intros Hd He. destruct (int_col t) as [w|] eqn:Ht.
  { destruct (int_desc t w Ht) as (Hw & desc' & Hd' & _ & He' & _). assert (desc' = desc) as -> by congruence.
    rewrite He' in He. destruct (encode_int_typed _ _ _ _ Hw He). by eapply ht_int. }
  pose proof (val_str_typed v) as [Hl Hn]. unfold kds_type_lookup_by_val in Hd.
  apply find_some in Hd as [Hin Hv%Z.eqb_eq]. subst t. unfold kds_type_table in Hin.
  repeat destruct Hin as [<-|Hin]; try discriminate Ht; [..|destruct Hin]; cbn [Types.encode type_val] in *.
  - unfold encode_float in He. destruct (bs <? 4); [done|]. destruct (parse_hex_bytes _ 4) as [r out] eqn:E.
    destruct (Z.eqb_spec r 0) as [->|]; [|done]. injection He as <-.
    unfold parse_hex_bytes in E. case_match; [done|]. destruct (parse_hex_typed _ _ _ E) as [H1 H2]. apply ht_float; [unfold zlen; by rewrite H1|done].
  - assert (exists x, b = le_bytes 8 x) as [x ->]; [|apply ht_decimal; [by rewrite zlen_le_bytes|auto with kds]].
    unfold encode_decimal in He. repeat (case_match; try discriminate He); apply (f_equal snd) in He; by eexists.
  - unfold encode_bool in He. case_match; [done|]. injection He as <-. apply ht_bool.
  - unfold encode_varchar in He. case_match; [done|]. injection He as <-. apply ht_char; [by left|done|done].
  - unfold encode_varchar in He. case_match; [done|]. injection He as <-. apply ht_char; [by right|done|done].
Qed.

Lemma typed_desc t b : has_type t b -> exists desc, kds_type_lookup_by_val t = Some desc.
Proof.
  destruct 1 as [t w b Ht _ _|b _ _|b _ _|x|t b Ht _ _]; try (by eexists); [|destruct Ht as [->| ->]; by eexists].
  destruct (int_desc t w Ht) as (_ & desc & Hd & _). by exists desc.
Qed.
Lemma scnprintf_len os s : 0 <= (scnprintf os s).1 <= zlen s.
Proof. unfold scnprintf, zlen. cbn [fst]. rewrite length_take. lia. Qed.
Lemma zlen_fmt_0lld v : zlen (fmt_0lld 4 v) <= 25.
Proof.
  unfold fmt_0lld. rewrite !zlen_app. pose proof (length_dec_digits 20 (Z.abs v)). unfold zlen. rewrite length_replicate.
  destruct (v <? 0); cbn [length]; lia.
Qed.
(** The characters a value of [b] bytes needs at most. *)
Definition value_room (b : bytes) : Z := Z.max (zlen b) 48.
(** A decoder reads a value of its type without an error, if its text fits. *)
Lemma decode_typed t desc b : has_type t b -> kds_type_lookup_by_val t = Some desc ->
  (fixed_len desc <> 0 -> zlen b = fixed_len desc) /\ zlen b <= 255 /\
  forall rest os, let r := (Types.decode desc (b ++ rest) (zlen b) os).1 in
    (r = - ENOSPC \/ 0 <= r) /\ (value_room b < os -> 0 <= r <= value_room b).
Proof.
  unfold value_room. destruct 1 as [t w b Ht Hz Hb|b Hz Hb|b Hz Hb|x|t b Ht Hz Hn]; intros Hd.
  - destruct (int_desc t w Ht) as (Hw & desc' & Hd' & Hf & _ & Hdec). assert (desc' = desc) as -> by congruence.
    split; [by rewrite Hf|]. split; [by_width Hw; lia|]. intros rest os. cbn zeta. rewrite Hdec, Hz.
    unfold decode_int_generic. rewrite Z.eqb_refl. cbn [negb].
    assert (Hs : forall z, let r := (scnprintf os (fmt_lld z)).1 in (r = - ENOSPC \/ 0 <= r) /\ (Z.max w 48 < os -> 0 <= r <= Z.max w 48)).
    { intros z. cbn zeta. pose proof (scnprintf_len os (fmt_lld z)). pose proof (zlen_fmt_lld z). split; [right|]; lia. }
    by_width Hw; apply Hs.
  - injection Hd as <-. cbn [fixed_len Types.decode]. rewrite Hz. split; [done|]. split; [lia|]. intros rest os. unfold decode_float.
    cbn [Z.eqb Pos.eqb negb]. destruct (Z.ltb_spec os 9); cbn [fst]; [split; [by left|lia]|split; [by right|lia]].
  - injection Hd as <-. cbn [fixed_len Types.decode]. rewrite Hz. split; [done|]. split; [lia|]. intros rest os. cbn zeta. unfold decode_decimal.
    cbn [Z.eqb Pos.eqb negb]. match goal with |- context [scnprintf os ?s] => pose proof (scnprintf_len os s) as Hs; assert (zlen s <= 48) end.
    { match goal with |- context [fmt_lld ?i] => pose proof (zlen_fmt_lld i) end.
      match goal with |- context [fmt_0lld _ ?i] => pose proof (zlen_fmt_0lld i) as H0; change KDS_DECIMAL_SCALE with 4%nat end.
      rewrite !zlen_app. match goal with |- context [if ?c then [45] else _] => destruct c end; unfold zlen at 1 3; cbn [length]; lia. }
    split; [right|]; lia.
  - injection Hd as <-. cbn [fixed_len Types.decode]. split; [by destruct x|]. split; [by destruct x|]. intros rest os. cbn zeta. unfold decode_bool.
    replace (negb (zlen [if x then 1 else 0] =? 1)) with false by (by destruct x).
    match goal with |- context [scnprintf os ?s] => pose proof (scnprintf_len os s) as Hs; assert (zlen s <= 5) by (by case_match) end.
    split; [right|]; lia.
  - assert (fixed_len desc = 0 /\ Types.decode desc = decode_varchar) as [Hf Hdec] by (destruct Ht as [->| ->]; by injection Hd as <-).
    split; [by rewrite Hf|]. split; [done|]. intros rest os. cbn zeta. rewrite Hdec. unfold decode_varchar. pose proof (zlen_nonneg b).
    destruct (Z.leb_spec os (zlen b)); cbn [fst]; [split; [by left|lia]|split; [by right|lia]].
Qed.
End Values.

(** ** Rows *)
Section Rows.
Context `{KS : Kstrtoll}.

(** The fields of a row have the types of the columns. *)
Inductive row_typed : kds_schema -> bytes -> Prop :=
  | rt_nil : row_typed [] []
  | rt_cons c cols b row : has_type (sc_type_val c) b -> row_typed cols row -> row_typed (c :: cols) (field (sc_type_val c) b ++ row).

Lemma field_spec t desc b : kds_type_lookup_by_val t = Some desc ->
  field t b = if fixed_len desc =? 0 then le_bytes 2 (zlen b) ++ b else b.
Proof. intros Hd. unfold field. by rewrite Hd. Qed.
Lemma encode_cols_typed cols : forall vals bs buf row, encode_cols cols vals bs buf = Some (0, row) ->
  exists tl, row = buf ++ tl /\ row_typed cols tl.
Proof.
  induction cols as [|c cols IH]; intros vals bs buf row; cbn [encode_cols].
  { intros [= <-]. exists []. rewrite app_nil_r. split; [done|constructor]. }
  destruct vals as [|v vals]; [done|]. destruct (kds_type_lookup_by_val (sc_type_val c)) as [desc|] eqn:Hd; [|done].
  assert (Hgo : forall room pre, (let '(r, b) := Types.encode desc (val_str v) room in
      if negb (r =? 0) then Some (r, buf) else encode_cols cols vals bs (buf ++ pre b ++ b)) = Some (0, row) ->
      (forall b, has_type (sc_type_val c) b -> field (sc_type_val c) b = pre b ++ b) ->
      exists tl, row = buf ++ tl /\ row_typed (c :: cols) tl).
  { intros room pre He Hf. destruct (Types.encode desc (val_str v) room) as [r b] eqn:E. destruct (Z.eqb_spec r 0) as [->|]; cbn [negb] in He; [|congruence].
    pose proof (encode_typed _ _ _ _ _ Hd E) as Ht. destruct (IH _ _ _ _ He) as (tl & -> & Htl). exists (field (sc_type_val c) b ++ tl).
    split; [by rewrite (Hf b Ht), <- !app_assoc|by constructor]. }
  destruct (fixed_len desc =? 0) eqn:Hz; (case_match; [by intros [= ? _]|]); intros He.
  - eapply (Hgo _ (fun b => le_bytes 2 (u16 (zlen b)))); [exact He|]. intros b Hb. rewrite (field_spec _ _ _ Hd), Hz.
    destruct (decode_typed _ _ _ Hb Hd) as (_ & Hl & _). pose proof (zlen_nonneg b). by rewrite u16_small by lia.
  - eapply (Hgo _ (fun _ => [])); [exact He|]. intros b _. by rewrite (field_spec _ _ _ Hd), Hz.
Qed.

(** The characters the columns of a row need beyond those of its bytes. *)
Definition row_room (cols : kds_schema) : Z := foldr (fun c n => zlen (c_str (sc_name c)) + 51 + n) 0 cols.
Lemma row_room_nonneg cols : 0 <= row_room cols.
Proof. induction cols as [|c cols IH]; cbn; [done|]. pose proof (zlen_nonneg (c_str (sc_name c))). unfold row_room in IH. lia. Qed.
Lemma append_at_len os n out s : exists k t, append_at os n out s = (n + k, t) /\ 0 <= k <= zlen s.
Proof. unfold append_at. pose proof (scnprintf_len (os - n) s) as H. destruct (scnprintf (os - n) s) as [k t]. eexists _, _. split; [reflexivity|exact H]. Qed.

Lemma decode_cols_typed os cols row : row_typed cols row -> forall first pre junk n out, 0 <= n ->
  let r := (decode_cols cols first (pre ++ row ++ junk) (zlen pre + zlen row) (zlen pre) os n out).1 in
  (r = - ENOSPC \/ 0 <= r) /\ (n + zlen row + row_room cols < os -> 0 <= r).
Proof.
  induction 1 as [|c cols b row Hb Hrow IH]; intros first pre junk n out Hn; cbn [decode_cols].
  { cbn [fst]. split; [by right|lia]. }
  destruct (typed_desc _ _ Hb) as [desc Hd]. rewrite Hd. destruct (decode_typed _ _ _ Hb Hd) as (Hf & Hl & Hdec).
  pose proof (zlen_nonneg b). pose proof (zlen_nonneg row). pose proof (row_room_nonneg cols). set (nm := c_str (sc_name c) ++ cstr "=").
  assert (Hnm : zlen nm = zlen (c_str (sc_name c)) + 1) by (unfold nm; by rewrite zlen_app).
  cbn [row_room foldr]. fold (row_room cols).
  assert (exists k o, (if first then (n, out) else append_at os n out (cstr ", ")) = (n + k, o) /\ 0 <= k <= 2) as (k & o & -> & Hk).
  { destruct first; [exists 0, out; split; [f_equal|]; lia|]. destruct (append_at_len os n out (cstr ", ")) as (k & o & E & Hk). exists k, o. split; [exact E|exact Hk]. }
  (** the value and the columns after it *)
  assert (Hstep : forall p o', let '(n1, out1) := append_at os (n + k) o' nm in
      let r := (let '(decoded, tx) := Types.decode desc (drop (Z.to_nat (zlen p)) (p ++ b ++ row ++ junk)) (zlen b) (os - n1) in
        if decoded <? 0 then (decoded, out1) else
        decode_cols cols false (p ++ b ++ row ++ junk) (zlen p + (zlen b + zlen row)) (zlen p + zlen b) os (n1 + decoded) (take (Z.to_nat n1) out1 ++ tx)).1 in
      (r = - ENOSPC \/ 0 <= r) /\ (n + (zlen b + zlen row) + (zlen (c_str (sc_name c)) + 51 + row_room cols) < os -> 0 <= r)).
  { intros p o'. destruct (append_at_len os (n + k) o' nm) as (j & o1 & -> & Hj). cbn zeta. rewrite Hnm in Hj.
    assert (Hdrop : drop (Z.to_nat (zlen p)) (p ++ b ++ row ++ junk) = b ++ row ++ junk) by (unfold zlen; by rewrite Nat2Z.id, drop_app_length).
    rewrite Hdrop. clear Hdrop.
    destruct (Hdec (row ++ junk) (os - (n + k + j))) as [D1 D2]. destruct (Types.decode _ _ _ _) as [decoded tx]. cbn [fst] in D1, D2.
    unfold value_room in D2. destruct (Z.ltb_spec decoded 0); cbn [fst]; [split; [lia|intros; lia]|].
    specialize (IH false (p ++ b) junk (n + k + j + decoded) (take (Z.to_nat (n + k + j)) o1 ++ tx) ltac:(lia)). cbn zeta in IH.
    rewrite zlen_app, <- !app_assoc in IH. rewrite (Z.add_assoc (zlen p)). destruct IH as [I1 I2]. split; [exact I1|].
    intros Hroom. apply I2. specialize (D2 ltac:(lia)). lia. }
  rewrite (field_spec _ _ _ Hd). destruct (Z.eqb_spec (fixed_len desc) 0) as [Hz|Hz]; cbn [andb].
  - rewrite !zlen_app, zlen_le_bytes. change (Z.of_nat 2) with 2.
    destruct (Z.ltb_spec (zlen pre + (2 + zlen b + zlen row)) (zlen pre + 2)); [lia|].
    rewrite <- !app_assoc, sub_mid, le_val_enc_small by (rewrite ?zlen_le_bytes; cbn; lia).
    destruct (Z.ltb_spec (zlen pre + (2 + zlen b + zlen row)) (zlen pre + 2 + zlen b)); [lia|].
    specialize (Hstep (pre ++ le_bytes 2 (zlen b)) o). rewrite !zlen_app, <- !app_assoc, zlen_le_bytes in Hstep.
    change (Z.of_nat 2) with 2 in Hstep.
    replace (zlen pre + 2 + (zlen b + zlen row)) with (zlen pre + (2 + zlen b + zlen row)) in Hstep by lia.
    destruct (append_at os (n + k) o nm) as [n1 o1]. cbn zeta in Hstep |- *. destruct Hstep as [S1 S2]. split; [exact S1|]. intros Hos. apply S2. lia.
  - specialize (Hf Hz). rewrite !zlen_app, <- Hf. destruct (Z.ltb_spec (zlen pre + (zlen b + zlen row)) (zlen pre + zlen b)); [lia|].
    specialize (Hstep pre o). rewrite <- !app_assoc. destruct (append_at os (n + k) o nm) as [n1 o1].
    cbn zeta in Hstep |- *. destruct Hstep as [S1 S2]. split; [exact S1|]. intros Hos. apply S2. lia.
Qed.
End Rows.

Section Claims.
Context `{KS : Kstrtoll}.

(** C6.  Rows are type-safe.  Whatever literals a statement contains, if the
    encoder accepts them for the columns of a table, the row it builds has
    the types of these columns: integers and decimals of their width, a
    boolean that is 0 or 1, texts without a NUL behind their length.  And
    decoding a row of these types, whatever follows it in memory, never
    takes its bytes for malformed: it succeeds when the text fits the
    output buffer, and the only error is [-ENOSPC]. *)
Theorem row_type_safety cols vals buf_size row :
  kds_dshell_encode_row_from_vals cols vals buf_size = Some (0, row) ->
  row_typed cols row /\
  forall junk os, let r := (kds_dshell_decode_row cols (row ++ junk) (zlen row) os).1 in
    (r = - ENOSPC \/ 0 <= r) /\ (zlen row + row_room cols < os -> 0 <= r).
Proof.
  intros (tl & -> & Ht)%encode_cols_typed. split; [exact Ht|]. intros junk os.
  exact (decode_cols_typed os cols tl Ht true [] junk 0 [] ltac:(lia)).
Qed.
End Claims.

(** ** Literals of the wrong kind

    The boolean gets a text that is no boolean and is stored as 0. *)
Lemma row_type_safety_witness :
  let row := [249; 255; 255; 255; 255; 255; 255; 255; 3; 0; 98; 111; 98; 0] in
  kds_dshell_encode_row_from_vals demo_schema [KDS_VAL_INT (-7); KDS_VAL_STR (cstr "bob"); KDS_VAL_STR (cstr "maybe")] 256 = Some (0, row) /\
  row_typed demo_schema row /\ 0 <= (kds_dshell_decode_row demo_schema (row ++ [1; 2; 3]) 14 512).1.
Proof.
  intros row.
  assert (E : kds_dshell_encode_row_from_vals demo_schema [KDS_VAL_INT (-7); KDS_VAL_STR (cstr "bob"); KDS_VAL_STR (cstr "maybe")] 256 = Some (0, row))
    by (vm_compute; reflexivity).
  destruct (row_type_safety _ _ _ _ E) as [Ht Hd]. split; [exact E|]. split; [exact Ht|].
  apply (Hd [1; 2; 3] 512). by vm_compute.
Defined.
