(* ===== verification/Tree.v ===== *)
(** * Tree: b-trees of any number of levels, as mathematical trees

    A [btree] is a page id, its node and the trees of its children.
    [tree_wf] is the search-tree invariant with the interval of the keys of
    each subtree; [walk] is the path that a search takes; [graft] changes
    the subtree at the end of a path.  TreeSpec.v relates them to pages. *)
From S2P Require Import Prelude Layout State Disk DiskSpec Meta Pool PoolSpec Page Btree BtreeSpec.
From stdpp Require Import prelude gmap list.
From Stdlib Require Import ZArith Lia.
Local Open Scope Z_scope.
Local Open Scope kds_scope.

Inductive btree := BT (bt_id : Z) (bt_node : kds_btree_node) (bt_children : list btree).
Definition bt_id (t : btree) : Z := let 'BT id _ _ := t in id.
Definition bt_node (t : btree) : kds_btree_node := let 'BT _ n _ := t in n.

Fixpoint nodes (t : btree) : list (Z * kds_btree_node) :=
  let 'BT id n cs := t in (id, n) :: flat_map nodes cs.
Definition tree_ids (t : btree) : list Z := (nodes t).*1.
(** The keys of a tree, and those of them that separate subtrees. *)
Definition key_in (x : Z) (t : btree) : Prop := exists id n, (id, n) ∈ nodes t /\ x ∈ node_keys n.
Definition separator_in (x : Z) (t : btree) : Prop :=
  exists id n, (id, n) ∈ nodes t /\ level n <> 0 /\ x ∈ node_keys n.

(** The keys of child [i] lie between keys [i - 1] and [i]. *)
Definition lo_at (ks : list Z) (lo : Z) (i : nat) : Z := default lo ((lo :: ks) !! i).
Definition hi_at (ks : list Z) (hi : Z) (i : nat) : Z := default hi (ks !! i).
Fixpoint tree_wf (h : nat) (lo hi : Z) (t : btree) : Prop :=
  let 'BT _ n cs := t in
  node_wf n /\ sorted_keys n /\ level n = Z.of_nat h /\ Forall (fun k => lo < k < hi) (node_keys n) /\
  match h with
  | O => cs = []
  | S h => bt_id <$> cs = node_slots n /\
      forall i c, cs !! i = Some c -> tree_wf h (lo_at (node_keys n) lo i) (hi_at (node_keys n) hi i) c
  end.

(** A step of a path: page, node, and the position of the key in it. *)
Abbreviation pstep := (Z * kds_btree_node * nat)%type.
Inductive walk (key : Z) : btree -> list pstep -> bool -> Prop :=
| walk_hit id n cs pos :
    btree_search_position n key = Some pos -> node_keys n !! pos = Some key ->
    walk key (BT id n cs) [(id, n, pos)] true
| walk_leaf id n cs pos :
    btree_search_position n key = Some pos -> node_keys n !! pos <> Some key -> level n = 0 ->
    walk key (BT id n cs) [(id, n, pos)] false
| walk_down id n cs pos c path b :
    btree_search_position n key = Some pos -> node_keys n !! pos <> Some key -> level n <> 0 ->
    cs !! pos = Some c -> walk key c path b ->
    walk key (BT id n cs) ((id, n, pos) :: path) b.

(** The tree with [f] applied to the subtree at the end of the path. *)
Fixpoint graft (path : list pstep) (f : btree -> btree) (t : btree) : btree :=
  let 'BT id n cs := t in
  match path with
  | [] => t
  | [_] => f t
  | (_, _, pos) :: path => BT id n (alter (graft path f) pos cs)
  end.

(** ** Keys and intervals *)
Lemma lo_at_S ks lo i : lo_at ks lo (S i) = default lo (ks !! i).
Proof. reflexivity. Qed.
Lemma elem_of_flat_map {A B} (f : A -> list B) l y : y ∈ flat_map f l <-> exists j x, l !! j = Some x /\ y ∈ f x.
Proof.
  rewrite list_elem_of_In, in_flat_map. split.
  - intros (x & [j Hj]%list_elem_of_In%list_elem_of_lookup & Hy%list_elem_of_In). eauto.
  - intros (j & x & Hx%list_elem_of_lookup_2%list_elem_of_In & Hy%list_elem_of_In). eauto.
Qed.
Lemma elem_of_nodes id n t : (id, n) ∈ nodes t <->
  match t with BT i m cs => (id = i /\ n = m) \/ exists j c, cs !! j = Some c /\ (id, n) ∈ nodes c end.
Proof.
  destruct t as [i m cs]. cbn [nodes]. rewrite elem_of_cons, elem_of_flat_map. split.
  - intros [[= -> ->]|H]; [by left|by right].
  - intros [[-> ->]|H]; [by left|by right].
Qed.
Lemma key_in_node x id n cs : key_in x (BT id n cs) <-> x ∈ node_keys n \/ exists j c, cs !! j = Some c /\ key_in x c.
Proof.
  unfold key_in. setoid_rewrite elem_of_nodes at 1. split.
  - intros (i & m & [[-> ->]|(j & c & Hj & Hm)] & Hx); [by left|right; eauto 7].
  - intros [Hx|(j & c & Hj & i & m & Hm & Hx)]; [eauto 7|eauto 10].
Qed.
Lemma separator_in_node x id n cs :
  separator_in x (BT id n cs) <-> (level n <> 0 /\ x ∈ node_keys n) \/ exists j c, cs !! j = Some c /\ separator_in x c.
Proof.
  unfold separator_in. setoid_rewrite elem_of_nodes at 1. split.
  - intros (i & m & [[-> ->]|(j & c & Hj & Hm)] & Hx); [by left|right; eauto 7].
  - intros [Hx|(j & c & Hj & i & m & Hm & Hx)]; [eauto 7|eauto 10].
Qed.

Section Interval.
Context (ks : list Z) (lo hi : Z).
Hypothesis Hin : Forall (fun k => lo < k < hi) ks.
Lemma lo_at_ge i : lo <= lo_at ks lo i.
Proof.
  unfold lo_at. destruct i as [|i]; cbn [lookup list_lookup]; [cbn; lia|]. destruct (ks !! i) as [k|] eqn:E; cbn; [|lia].
  pose proof (Forall_lookup_1 _ _ _ _ Hin E). cbn in *. lia.
Qed.
Lemma hi_at_le i : hi_at ks hi i <= hi.
Proof.
  unfold hi_at. destruct (ks !! i) as [k|] eqn:E; cbn; [|lia]. pose proof (Forall_lookup_1 _ _ _ _ Hin E). cbn in *. lia.
Qed.
End Interval.
Lemma lo_at_mono ks lo lo' i : lo <= lo' -> lo_at ks lo i <= lo_at ks lo' i.
Proof. intros. unfold lo_at. destruct i as [|i]; cbn; [lia|]. destruct (ks !! i); cbn; lia. Qed.
Lemma hi_at_mono ks hi hi' i : hi <= hi' -> hi_at ks hi i <= hi_at ks hi' i.
Proof. intros. unfold hi_at. destruct (ks !! i); cbn; lia. Qed.

Lemma tree_wf_bounds h : forall lo hi t x, tree_wf h lo hi t -> key_in x t -> lo < x < hi.
Proof.
  induction h as [|h IH]; intros lo hi [id n cs] x (_ & _ & _ & Hb & Hcs) Hx;
    apply key_in_node in Hx as [Hx|(j & c & Hj & Hx)]; try exact (proj1 (Forall_forall _ _) Hb x Hx); [by subst|].
  destruct Hcs as [_ Hcs]. specialize (IH _ _ _ _ (Hcs j c Hj) Hx).
  pose proof (lo_at_ge _ _ _ Hb j). pose proof (hi_at_le _ _ _ Hb j). lia.
Qed.
Lemma tree_wf_weaken h : forall lo hi lo' hi' t, tree_wf h lo hi t -> lo' <= lo -> hi <= hi' -> tree_wf h lo' hi' t.
Proof.
  induction h as [|h IH]; intros lo hi lo' hi' [id n cs] (Hn & Hs & Hl & Hb & Hcs) H1 H2;
    (split_and!; try done; [eapply Forall_impl; [exact Hb|]; cbn; intros; lia|..]).
  - exact (proj1 Hcs).
  - intros i c Hi. eapply IH; [by apply Hcs|by apply lo_at_mono|by apply hi_at_mono].
Qed.

Lemma tree_wf_sorted h : forall lo hi t, tree_wf h lo hi t -> forall q, q ∈ nodes t -> sorted_keys q.2.
Proof.
  induction h as [|h IH]; intros lo hi [id n cs] (_ & Hs & _ & _ & Hcs) [i a] [[-> ->]|(j & c & Hj & Hc)]%elem_of_nodes; try done; [by subst|].
  destruct Hcs as [_ Hcs]. by apply (IH _ _ c (Hcs j c Hj) (i, a)).
Qed.

(** ** Searching *)
(** The position of a key names a child whose interval contains it; the
    key may be the upper end. *)
Lemma desc_interval n key lo hi pos : node_wf n -> sorted_keys n -> lo < key <= hi -> btree_search_position n key = Some pos ->
  lo_at (node_keys n) lo pos < key <= hi_at (node_keys n) hi pos /\
  forall i, lo_at (node_keys n) lo i < key < hi_at (node_keys n) hi i -> (i <= length (node_keys n))%nat -> i = pos.
Proof.
  intros Hn Hs Hk Hpos. destruct (search_position_spec n key Hn) as (p & E & Hp & Hlo & Hhi). assert (p = pos) as -> by congruence. split.
  - split.
    + destruct pos as [|q]; [cbn; lia|]. rewrite lo_at_S. destruct (node_keys n !! q) as [k|] eqn:Hq; cbn; [|lia]. by apply (Hlo q); [lia|].
    + unfold hi_at. destruct (node_keys n !! pos) as [k|] eqn:Hq; cbn; [by apply Hhi|lia].
  - intros i [H1 H2] Hi. destruct (Nat.lt_trichotomy i pos) as [Hip|[Hip|Hip]]; [exfalso|done|exfalso].
    + unfold hi_at in H2. destruct (lookup_lt_is_Some_2 (node_keys n) i) as [k Hki].
      { unfold node_keys. rewrite length_take. destruct Hn. lia. }
      rewrite Hki in H2. cbn in H2. pose proof (Hlo i k Hip Hki). lia.
    + destruct i as [|i]; [lia|]. rewrite lo_at_S in H1. destruct (lookup_lt_is_Some_2 (node_keys n) i) as [k Hki]; [lia|].
      destruct (lookup_lt_is_Some_2 (node_keys n) pos) as [kp Hkp]; [lia|]. rewrite Hki in H1. cbn in H1. pose proof (Hhi kp Hkp).
      destruct (decide (i = pos)) as [->|]; [replace k with kp in H1 by congruence; lia|]. pose proof (Hs pos i kp k ltac:(lia) Hkp Hki). lia.
Qed.
Lemma position_interval n key lo hi pos :
  node_wf n -> sorted_keys n -> lo < key < hi -> btree_search_position n key = Some pos -> node_keys n !! pos <> Some key ->
  (key ∉ node_keys n) /\ lo_at (node_keys n) lo pos < key < hi_at (node_keys n) hi pos /\
  forall i, lo_at (node_keys n) lo i < key < hi_at (node_keys n) hi i -> (i <= length (node_keys n))%nat -> i = pos.
Proof.
  intros Hn Hs Hk Hpos Hmiss. destruct (desc_interval n key lo hi pos Hn Hs ltac:(lia) Hpos) as ([H1 H2] & Huniq).
  assert (Hne : hi_at (node_keys n) hi pos <> key) by (unfold hi_at; destruct (node_keys n !! pos) eqn:E; cbn; [congruence|lia]).
  split; [|split; [lia|done]]. intros (j & Hj)%list_elem_of_lookup. destruct (search_position_spec n key Hn) as (p & E & _ & Hlo & Hhi).
  assert (p = pos) as -> by congruence. destruct (Nat.lt_trichotomy j pos) as [Hjp|[->|Hjp]]; [pose proof (Hlo j key Hjp Hj); lia|done|].
  destruct (lookup_lt_is_Some_2 (node_keys n) pos) as [k Hkp]; [apply lookup_lt_Some in Hj; lia|].
  pose proof (Hhi k Hkp). pose proof (Hs pos j k key Hjp Hkp Hj). lia.
Qed.
Lemma children_length n (cs : list btree) : node_wf n -> bt_id <$> cs = node_slots n -> length cs = S (length (node_keys n)).
Proof.
  intros [] E. rewrite <- (length_fmap bt_id), E. unfold node_slots, node_keys. rewrite !length_take. lia.
Qed.

(** A search decides membership, and visits one node of each level. *)
Lemma walk_exists key h : forall lo hi t, tree_wf h lo hi t -> lo < key < hi ->
  exists path b, walk key t path b /\ (b = true <-> key_in key t) /\ (length path <= S h)%nat.
Proof.
  induction h as [|h IH]; intros lo hi [id n cs] (Hn & Hs & Hl & Hb & Hcs) Hk.
  all: destruct (search_position_spec n key Hn) as (pos & E & Hp & _); destruct (decide (node_keys n !! pos = Some key)) as [Hit|Hmiss].
  1,3: exists [(id, n, pos)], true; split; [by apply walk_hit|]; split; [|cbn; lia];
    split; [|done]; intros _; apply key_in_node; left; by eapply list_elem_of_lookup_2.
  - destruct (position_interval n key lo hi pos Hn Hs Hk E Hmiss) as (Hni & _). exists [(id, n, pos)], false.
    split; [by apply walk_leaf|]. split; [|cbn; lia]. split; [done|]. subst cs.
    by intros [?|(? & ? & ? & _)]%key_in_node.
  - destruct (position_interval n key lo hi pos Hn Hs Hk E Hmiss) as (Hni & Hint & Huniq). destruct Hcs as [Hsl Hcs].
    pose proof (children_length n cs Hn Hsl) as Hlen.
    assert (Hposl : (pos <= length (node_keys n))%nat) by (unfold node_keys; rewrite length_take; destruct Hn; lia).
    destruct (lookup_lt_is_Some_2 cs pos) as [c Hc]; [lia|].
    destruct (IH _ _ c (Hcs pos c Hc) Hint) as (path & b & Hw & Hkb & Hlp).
    exists ((id, n, pos) :: path), b. split; [apply (walk_down key id n cs pos c); try done; lia|]. split; [|cbn; lia].
    rewrite Hkb, key_in_node. split; [eauto|]. intros [?|(j & c' & Hj & Hx)]; [done|].
    pose proof (tree_wf_bounds _ _ _ _ _ (Hcs j c' Hj) Hx) as Hbj.
    rewrite (Huniq j Hbj) in Hj; [congruence|]. apply lookup_lt_Some in Hj. lia.
Qed.

(** ** Replacing the end of a path *)
Lemma interval_keys n lo hi i x : sorted_keys n -> x ∈ node_keys n -> (i <= length (node_keys n))%nat ->
  ~ (lo_at (node_keys n) lo i < x < hi_at (node_keys n) hi i).
Proof.
  intros Hs (j & Hj)%list_elem_of_lookup Hi [H1 H2]. unfold hi_at in H2. destruct (decide (j < i)%nat) as [Hji|Hji].
  - destruct i as [|i]; [lia|]. rewrite lo_at_S in H1. destruct (lookup_lt_is_Some_2 (node_keys n) i) as [k Hk]; [lia|].
    rewrite Hk in H1. cbn in H1. destruct (decide (j = i)) as [->|]; [replace k with x in H1 by congruence; lia|].
    pose proof (Hs j i x k ltac:(lia) Hj Hk). lia.
  - destruct (lookup_lt_is_Some_2 (node_keys n) i) as [k Hk]; [apply lookup_lt_Some in Hj; lia|]. rewrite Hk in H2. cbn in H2.
    destruct (decide (j = i)) as [->|]; [replace k with x in H2 by congruence; lia|]. pose proof (Hs i j k x ltac:(lia) Hk Hj). lia.
Qed.
Lemma interval_disjoint n lo hi i j x :
  sorted_keys n -> (i < j <= length (node_keys n))%nat ->
  lo_at (node_keys n) lo i < x < hi_at (node_keys n) hi i -> ~ (lo_at (node_keys n) lo j < x < hi_at (node_keys n) hi j).
Proof.
  intros Hs Hij [_ H2] [H1 _]. destruct j as [|j]; [lia|]. rewrite lo_at_S in H1. unfold hi_at in H2.
  destruct (lookup_lt_is_Some_2 (node_keys n) i) as [a Ha]; [lia|]. destruct (lookup_lt_is_Some_2 (node_keys n) j) as [b Hb]; [lia|].
  rewrite Ha in H2. rewrite Hb in H1. cbn in *. destruct (decide (i = j)) as [->|]; [replace b with a in H1 by congruence; lia|].
  pose proof (Hs i j a b ltac:(lia) Ha Hb). lia.
Qed.
Lemma flat_map_alter {A B} (f : A -> list B) g i l c : l !! i = Some c ->
  flat_map f l = flat_map f (take i l) ++ f c ++ flat_map f (drop (S i) l) /\
  flat_map f (alter g i l) = flat_map f (take i l) ++ f (g c) ++ flat_map f (drop (S i) l).
Proof.
  revert i. induction l as [|a l IH]; intros [|i] H; cbn in *; [done|done|injection H as ->; done|].
  destruct (IH i H) as [H1 H2]. split; [by rewrite H1 at 1; rewrite app_assoc|]. change (list_alter g i l) with (alter g i l). by rewrite H2, app_assoc.
Qed.

(** A key is in one node only. *)
Lemma same_child n lo hi i j x : sorted_keys n -> (i <= length (node_keys n))%nat -> (j <= length (node_keys n))%nat ->
  lo_at (node_keys n) lo i < x < hi_at (node_keys n) hi i -> lo_at (node_keys n) lo j < x < hi_at (node_keys n) hi j -> i = j.
Proof.
  intros Hs Hi Hj H1 H2. destruct (Nat.lt_trichotomy i j) as [?|[?|?]]; [exfalso|done|exfalso].
  - by apply (interval_disjoint n lo hi i j x Hs); [lia|..].
  - by apply (interval_disjoint n lo hi j i x Hs); [lia|..].
Qed.
Lemma key_unique h : forall lo hi t q r x, tree_wf h lo hi t -> q ∈ nodes t -> r ∈ nodes t ->
  x ∈ node_keys q.2 -> x ∈ node_keys r.2 -> q = r.
Proof.
  induction h as [|h IH]; intros lo hi [id n cs] [i a] [j b] x (Hn & Hs & Hl & Hb & Hcs) Hq Hr Hxa Hxb;
    apply elem_of_nodes in Hq as [[-> ->]|(c & u & Hc & Hq)]; apply elem_of_nodes in Hr as [[-> ->]|(d & v & Hd & Hr)];
    try done; try (by subst cs).
  all: destruct Hcs as [Hsl Hcs]; pose proof (children_length n cs Hn Hsl) as Hlen; cbn [snd] in *.
  - exfalso. pose proof (lookup_lt_Some _ _ _ Hd). apply (interval_keys n lo hi d x Hs Hxa); [lia|].
    apply (tree_wf_bounds _ _ _ _ _ (Hcs d v Hd)). by exists j, b.
  - exfalso. pose proof (lookup_lt_Some _ _ _ Hc). apply (interval_keys n lo hi c x Hs Hxb); [lia|].
    apply (tree_wf_bounds _ _ _ _ _ (Hcs c u Hc)). by exists i, a.
  - pose proof (lookup_lt_Some _ _ _ Hc). pose proof (lookup_lt_Some _ _ _ Hd).
    assert (c = d) as <-.
    { apply (same_child n lo hi c d x Hs); [lia|lia|apply (tree_wf_bounds _ _ _ _ _ (Hcs c u Hc)); by exists i, a|].
      apply (tree_wf_bounds _ _ _ _ _ (Hcs d v Hd)). by exists j, b. }
    assert (u = v) as <- by congruence. by apply (IH _ _ u (i, a) (j, b) x (Hcs c u Hc)).
Qed.

(** What a path leads to: a subtree [u] in its interval.  The nodes around
    it have no keys in this interval, and [u] can be exchanged for any
    search tree of the interval. *)
Record leads_to (key : Z) (path : list pstep) (b : bool) (h : nat) (lo hi : Z) (t : btree)
  (h' : nat) (lo' hi' : Z) (u : btree) (around : list (Z * kds_btree_node) * list (Z * kds_btree_node)) : Prop := {
  le_end : exists pos, last path = Some (bt_id u, bt_node u, pos) /\ btree_search_position (bt_node u) key = Some pos /\
    (b = true <-> node_keys (bt_node u) !! pos = Some key);
  le_wf : tree_wf h' lo' hi' u;
  le_key : lo' < key < hi';
  le_within : lo <= lo' /\ hi' <= hi;
  le_nodes : nodes t = around.1 ++ nodes u ++ around.2;
  le_graft : forall f, bt_id (f u) = bt_id u ->
    bt_id (graft path f t) = bt_id t /\ nodes (graft path f t) = around.1 ++ nodes (f u) ++ around.2 /\
    (tree_wf h' lo' hi' (f u) -> tree_wf h lo hi (graft path f t));
  le_around : forall id n x, (id, n) ∈ around.1 ++ around.2 -> x ∈ node_keys n -> ~ (lo' < x < hi') }.

Lemma leads_here key id n cs pos b h lo hi :
  tree_wf h lo hi (BT id n cs) -> lo < key < hi -> btree_search_position n key = Some pos ->
  (b = true <-> node_keys n !! pos = Some key) ->
  leads_to key [(id, n, pos)] b h lo hi (BT id n cs) h lo hi (BT id n cs) ([], []).
Proof.
  intros Ht Hk Hp Hb. split; cbn [fst snd app]; try done.
  - by exists pos.
  - by rewrite app_nil_r.
  - intros f Hf. by rewrite app_nil_r.
  - intros ? ? ? []%not_elem_of_nil.
Qed.
Lemma walk_leads key t path b : walk key t path b -> forall h lo hi, tree_wf h lo hi t -> lo < key < hi ->
  exists h' lo' hi' u around, leads_to key path b h lo hi t h' lo' hi' u around.
Proof.
  induction 1 as [id n cs pos Hp Hit|id n cs pos Hp Hmiss Hl|id n cs pos c path b Hp Hmiss Hl Hc Hw IH]; intros h lo hi Ht Hk.
  - exists h, lo, hi, (BT id n cs), ([], []). by apply leads_here.
  - exists h, lo, hi, (BT id n cs), ([], []). by apply leads_here.
  - destruct h as [|h]; [by destruct Ht as (_ & _ & ? & _)|]. pose proof Ht as (Hn & Hs & Hlv & Hb & Hsl & Hcs).
    destruct (position_interval n key lo hi pos Hn Hs Hk Hp Hmiss) as (_ & Hint & _).
    pose proof (children_length n cs Hn Hsl) as Hlen. pose proof (lookup_lt_Some _ _ _ Hc) as Hpl.
    destruct (IH h _ _ (Hcs pos c Hc) Hint) as (h' & lo' & hi' & u & [l1 l2] & [Hend Hwf Hkey [W1 W2] Hnodes Hgraft Haround]). cbn [fst snd] in *.
    assert (Hne : exists q r, path = q :: r) by (destruct path as [|q r]; [destruct Hend as (? & [=] & _)|eauto]).
    set (out := flat_map nodes (take pos cs)). set (out' := flat_map nodes (drop (S pos) cs)).
    exists h', lo', hi', u, ((id, n) :: out ++ l1, l2 ++ out'). split; cbn [fst snd]; [|done|done| | | |].
    + destruct Hne as (q & r & ->). exact Hend.
    + pose proof (lo_at_ge _ _ _ Hb pos). pose proof (hi_at_le _ _ _ Hb pos). lia.
    + cbn [nodes]. destruct (flat_map_alter nodes (fun x => x) pos cs c Hc) as [-> _]. rewrite Hnodes. cbn [app]. f_equal. by rewrite <- !app_assoc.
    + intros f Hf. destruct (Hgraft f Hf) as (G1 & G2 & G3).
      assert (graft ((id, n, pos) :: path) f (BT id n cs) = BT id n (alter (graft path f) pos cs)) as -> by (by destruct Hne as (q & r & ->)).
      split; [done|]. split.
      * cbn [nodes]. destruct (flat_map_alter nodes (graft path f) pos cs c Hc) as [_ ->]. rewrite G2. cbn [app]. f_equal. by rewrite <- !app_assoc.
      * intros Hu. split_and!; try done.
        { rewrite <- Hsl. apply list_eq. intros i. rewrite !list_lookup_fmap. destruct (decide (i = pos)) as [->|Hne'].
          - rewrite list_lookup_alter_eq, Hc. cbn. by rewrite G1.
          - by rewrite list_lookup_alter_ne. }
        intros i c' Hi. destruct (decide (i = pos)) as [->|Hne'].
        { rewrite list_lookup_alter_eq, Hc in Hi. injection Hi as <-. by apply G3. }
        rewrite list_lookup_alter_ne in Hi by done. by apply Hcs.
    + intros id' m x Hin Hx [H1 H2]. assert (Hx' : lo_at (node_keys n) lo pos < x < hi_at (node_keys n) hi pos) by lia.
      assert (Hpos : (pos <= length (node_keys n))%nat) by lia.
      assert (Hsib : forall j c', cs !! j = Some c' -> j <> pos -> (id', m) ∈ nodes c' -> False).
      { intros j c' Hj Hjp Hm. pose proof (tree_wf_bounds _ _ _ _ x (Hcs j c' Hj) ltac:(by exists id', m)) as Hbj.
        pose proof (lookup_lt_Some _ _ _ Hj). destruct (decide (j < pos)%nat).
        - by apply (interval_disjoint n lo hi j pos x Hs); [lia|..].
        - by apply (interval_disjoint n lo hi pos j x Hs); [lia|..]. }
      cbn [app] in Hin. apply elem_of_cons in Hin as [[= -> ->]|Hin]; [by eapply interval_keys|].
      rewrite !elem_of_app in Hin. destruct Hin as [[Hin|Hin]|[Hin|Hin]].
      * apply elem_of_flat_map in Hin as (j & c' & Hj & Hm). pose proof (lookup_lt_Some _ _ _ Hj) as Hlt. rewrite length_take in Hlt.
        rewrite lookup_take_lt in Hj by lia. by apply (Hsib j c'); [|lia|].
      * apply (Haround id' m x); [by apply elem_of_app; left|done|lia].
      * apply (Haround id' m x); [by apply elem_of_app; right|done|lia].
      * apply elem_of_flat_map in Hin as (j & c' & Hj & Hm). rewrite lookup_drop in Hj. by apply (Hsib (S pos + j)%nat c'); [|lia|].
Qed.
Lemma walk_false_leaf key t path b q : walk key t path b -> b = false -> last path = Some q -> level q.1.2 = 0.
Proof.
  induction 1 as [| |id n cs pos c path b _ _ _ _ Hw IH]; intros Hb Hq; [done|by injection Hq as <-|].
  destruct path as [|r path]; [inversion Hw|]. by apply IH.
Qed.
(** Keys after a change: those of the exchanged subtree and those around it. *)
Lemma key_in_around x t l u r : nodes t = l ++ nodes u ++ r ->
  key_in x t <-> key_in x u \/ exists id n, (id, n) ∈ l ++ r /\ x ∈ node_keys n.
Proof.
  intros Hn. unfold key_in. rewrite Hn. split.
  - intros (id & n & H & Hx). rewrite !elem_of_app in H. destruct H as [H|[H|H]]; [right|left; eauto|right];
      exists id, n; (split; [apply elem_of_app; tauto|done]).
  - intros [(id & n & H & Hx)|(id & n & H & Hx)]; exists id, n; rewrite !elem_of_app; [tauto|].
    apply elem_of_app in H. tauto.
Qed.
Lemma key_in_leaf x id n : key_in x (BT id n []) <-> x ∈ node_keys n.
Proof. rewrite key_in_node. split; [by intros [?|(? & ? & ? & _)]|by left]. Qed.

(** ** Removing a key *)
Lemma remove_at_spec n pos :
  node_wf n -> Z.of_nat pos < key_count n ->
  exists n', btree_node_remove_at n pos = Some n' /\ node_wf n' /\ key_count n' = key_count n - 1 /\ level n' = level n /\ bframe n' = bframe n /\
    node_keys n' = delete pos (node_keys n) /\ node_slots n' = delete (S pos) (node_slots n) /\ (node_ok n -> node_ok n').
Proof.
  intros Hn Hlt. node_split n Hn; cbn [key_count] in *; try lia; small_nat pos;
    (eexists; split; [reflexivity|]; split; [split; [reflexivity|reflexivity|vm_compute; split; discriminate]|];
     do 5 (split; [reflexivity|]); intros (_ & _ & Hok); split; [reflexivity|]; split; [reflexivity|];
     cbn -[Z.pow] in *; repeat (apply Forall_cons in Hok as [? Hok]); repeat (constructor; [first [assumption|by vm_compute]|]); constructor).
Qed.
Lemma lookup_delete {A} pos (l : list A) i : delete pos l !! i = if decide (i < pos)%nat then l !! i else l !! S i.
Proof. case_decide; [by apply list_lookup_delete_lt|apply list_lookup_delete_ge; lia]. Qed.

Section Remove.
Context (n n' : kds_btree_node) (pos : nat) (key : Z).
Context (Hs : sorted_keys n) (Hks : node_keys n' = delete pos (node_keys n)) (Hk : node_keys n !! pos = Some key).

Lemma remove_sorted : sorted_keys n'.
Proof.
  intros i j a b Hij Ha Hb. rewrite Hks, lookup_delete in Ha, Hb.
  destruct (decide (i < pos)%nat), (decide (j < pos)%nat);
    [apply (Hs i j)|apply (Hs i (S j))|lia|apply (Hs (S i) (S j))]; done || lia.
Qed.
Lemma remove_elem x : x ∈ node_keys n' <-> x ∈ node_keys n /\ x <> key.
Proof.
  rewrite Hks, !list_elem_of_lookup. split.
  - intros (i & Hi). rewrite lookup_delete in Hi. case_decide as Hip.
    + split; [eauto|]. intros ->. pose proof (Hs i pos key key ltac:(lia) Hi Hk). lia.
    + split; [eauto|]. intros ->. pose proof (Hs pos (S i) key key ltac:(lia) Hk Hi). lia.
  - intros [(i & Hi) Hne]. destruct (decide (i < pos)%nat); [exists i; by rewrite lookup_delete, decide_True|].
    destruct (decide (i = pos)) as [->|]; [congruence|]. exists (pred i). rewrite lookup_delete, decide_False by lia.
    by replace (S (pred i)) with i by lia.
Qed.
(** The children that are left have the intervals they had, the one left
    of the key a larger one. *)
Lemma remove_interval lo hi i : (pos <= length (node_keys n'))%nat ->
  let j := if decide (i < S pos)%nat then i else S i in
  lo_at (node_keys n') lo i = lo_at (node_keys n) lo j /\ (hi_at (node_keys n) hi j <= hi_at (node_keys n') hi i \/ hi < key).
Proof.
  intros Hp j. subst j. rewrite Hks. split.
  - destruct i as [|i]; [by rewrite decide_True by lia|]. destruct (decide (S i < S pos)%nat);
      rewrite !lo_at_S, lookup_delete; [rewrite decide_True by lia|rewrite decide_False by lia]; done.
  - unfold hi_at. rewrite lookup_delete. destruct (decide (i < S pos)%nat); [|left; rewrite decide_False by lia; lia].
    case_decide; [left; cbn; lia|].  assert (i = pos) as -> by lia. rewrite Hk. cbn.
    destruct (node_keys n !! S pos) as [k|] eqn:E; cbn; [|lia]. left. pose proof (Hs pos (S pos) key k ltac:(lia) Hk E). lia.
Qed.
End Remove.

(** Removing a separator with the child right of it. *)
Lemma remove_child h lo hi id n cs pos key n' :
  tree_wf (S h) lo hi (BT id n cs) -> node_keys n !! pos = Some key -> node_wf n' -> level n' = level n ->
  node_keys n' = delete pos (node_keys n) -> node_slots n' = delete (S pos) (node_slots n) ->
  exists c, cs !! S pos = Some c /\ node_slots n !! S pos = Some (bt_id c) /\ tree_wf (S h) lo hi (BT id n' (delete (S pos) cs)) /\
    (forall x, key_in x c -> lo < x < hi) /\
    forall x, key_in x (BT id n' (delete (S pos) cs)) <-> key_in x (BT id n cs) /\ x <> key /\ ~ key_in x c.
Proof.
  intros Ht Hk Hn' Hl Hks Hss. pose proof Ht as (Hn & Hs & Hlv & Hb & Hsl & Hcs). pose proof (children_length n cs Hn Hsl) as Hlen.
  pose proof (lookup_lt_Some _ _ _ Hk) as Hpos. destruct (lookup_lt_is_Some_2 cs (S pos)) as [c Hc]; [lia|].
  assert (Hkey : lo < key < hi) by exact (Forall_lookup_1 _ _ _ _ Hb Hk).
  assert (Hlen' : length (node_keys n') = pred (length (node_keys n))) by (rewrite Hks, length_delete; [lia|by eexists]).
  exists c. split; [done|]. split; [by rewrite <- Hsl, list_lookup_fmap, Hc|].
  assert (Hin : forall j c', cs !! j = Some c' -> forall x, key_in x c' ->
    lo_at (node_keys n) lo j < x < hi_at (node_keys n) hi j /\ lo < x < hi).
  { intros j c' Hj x Hx. split; [by apply (tree_wf_bounds _ _ _ _ _ (Hcs j c' Hj))|]. apply (tree_wf_bounds _ _ _ _ _ Ht), key_in_node. eauto. }
  split; [|split; [intros x Hx; by apply (Hin _ _ Hc)|]].
  - split_and!; [done|by eapply remove_sorted|congruence| |by rewrite list_fmap_delete, Hsl, Hss|].
    + apply Forall_forall. intros x [Hx _]%(remove_elem n n' pos key Hs Hks Hk). exact (proj1 (Forall_forall _ _) Hb x Hx).
    + intros i c' Hi. rewrite lookup_delete in Hi. destruct (remove_interval n n' pos key Hs Hks Hk lo hi i ltac:(lia)) as [L [R|R]]; [|lia].
      case_decide; (eapply tree_wf_weaken; [by apply Hcs|rewrite L; lia|exact R]).
  - intros x. rewrite !key_in_node, (remove_elem n n' pos key Hs Hks Hk).
    assert (Hother : forall j c', cs !! j = Some c' -> j <> S pos -> key_in x c' -> x <> key /\ ~ key_in x c).
    { intros j c' Hj Hne Hx. destruct (Hin j c' Hj x Hx) as [Hxj _]. pose proof (lookup_lt_Some _ _ _ Hj). split.
      - intros ->. apply (interval_keys n lo hi j key Hs); [by eapply list_elem_of_lookup_2|lia|done].
      - intros Hxc. destruct (Hin _ _ Hc x Hxc) as [Hxc' _]. destruct (decide (j < S pos)%nat).
        + by apply (interval_disjoint n lo hi j (S pos) x Hs); [lia|..].
        + by apply (interval_disjoint n lo hi (S pos) j x Hs); [lia|..]. }
    split.
    + intros [[Hx Hne]|(i & c' & Hi & Hx)].
      * split; [by left|]. split; [done|]. intros Hxc. destruct (Hin _ _ Hc x Hxc) as [Hxc' _].
        by apply (interval_keys n lo hi (S pos) x Hs Hx); [lia|].
      * rewrite lookup_delete in Hi. destruct (Hother (if decide (i < S pos)%nat then i else S i) c') as [H1 H2];
          [by case_decide|case_decide; lia|done|]. split; [|done]. right.
        case_decide; eauto.
    + intros [[Hx|(j & c' & Hj & Hx)] [Hne Hnc]]; [by left|right]. destruct (decide (j = S pos)) as [->|]; [congruence|].
      destruct (decide (j < S pos)%nat); [exists j|exists (pred j)]; exists c'; (split; [|done]); rewrite lookup_delete.
      * by rewrite decide_True.
      * rewrite decide_False by lia. by replace (S (pred j)) with j by lia.
Qed.

(** The tree around the change: nothing else is lost. *)
Lemma graft_removes key path b h lo hi t h' lo' hi' u around f (L : Z -> Prop) :
  leads_to key path b h lo hi t h' lo' hi' u around -> bt_id (f u) = bt_id u ->
  (forall x, key_in x (f u) <-> key_in x u /\ x <> key /\ ~ L x) -> (forall x, L x -> lo' < x < hi') ->
  forall x, key_in x (graft path f t) <-> key_in x t /\ x <> key /\ ~ L x.
Proof.
  intros [_ _ Hkey _ Hn Hg Ha] Hf Hu HL x. destruct (Hg f Hf) as (_ & Hn' & _).
  rewrite (key_in_around x _ _ _ _ Hn'), (key_in_around x _ _ _ _ Hn), Hu. split; [|tauto].
  intros [?|(id & n & Hin & Hx)]; [tauto|]. pose proof (Ha id n x Hin Hx) as Hno.
  split; [right; eauto|]. split; [intros ->; by apply Hno|]. intros Hl. by apply Hno, HL.
Qed.
Lemma delete_sublist {A} i (l : list A) : delete i l `sublist_of` l.
Proof. revert i. induction l as [|x l IH]; intros [|i]; cbn; [done|done|by apply sublist_cons|by apply sublist_skip]. Qed.
Lemma flat_map_sublist {A B} (f : A -> list B) l l' : l `sublist_of` l' -> flat_map f l `sublist_of` flat_map f l'.
Proof. induction 1; cbn; [done|by apply sublist_app|by apply sublist_inserts_l]. Qed.

(** The tree after a removal at the end of a path. *)
Lemma remove_at_end h lo hi key path t h' lo' hi' id n cs pos around n' :
  leads_to key path true h lo hi t h' lo' hi' (BT id n cs) around -> node_keys n !! pos = Some key ->
  node_wf n' -> level n' = level n -> node_keys n' = delete pos (node_keys n) -> node_slots n' = delete (S pos) (node_slots n) ->
  exists t' l r r', nodes t = l ++ (id, n) :: r /\ nodes t' = l ++ (id, n') :: r' /\ r' `sublist_of` r /\
    bt_id t' = bt_id t /\ tree_wf h lo hi t' /\
    if level n =? 0 then forall x, key_in x t' <-> key_in x t /\ x <> key
    else exists c, node_slots n !! S pos = Some (bt_id c) /\ (forall q, q ∈ nodes c -> q ∈ nodes t) /\
      forall x, key_in x t' <-> key_in x t /\ x <> key /\ ~ key_in x c.
Proof.
  intros HL Hk Hn' Hl Hks Hss. pose proof HL as [_ Hu _ _ Hnodes Hgraft _]. set (f := fun _ : btree => BT id n' (delete (S pos) cs)).
  destruct (Hgraft f eq_refl) as (G1 & G2 & G3). exists (graft path f t), around.1, (flat_map nodes cs ++ around.2), (flat_map nodes (delete (S pos) cs) ++ around.2).
  split; [done|]. split; [done|]. split; [apply sublist_app; [apply flat_map_sublist, delete_sublist|done]|]. split; [done|].
  destruct h' as [|h'].
  - destruct Hu as (Hn & Hs & Hlv & Hb & ->). pose proof (remove_elem n n' pos key Hs Hks Hk) as He. split.
    + apply G3. split_and!; [done|by eapply remove_sorted|congruence| |done]. apply Forall_forall. intros x [Hx _]%He.
      exact (proj1 (Forall_forall _ _) Hb x Hx).
    + rewrite Hlv. cbn [Z.eqb Z.of_nat]. intros x. rewrite (graft_removes key path true h lo hi t _ _ _ _ around f (fun _ => False) HL); try done; [tauto|].
      intros y. unfold f. change (delete (S pos) []) with (@nil btree). rewrite !key_in_leaf, He. tauto.
  - destruct (remove_child h' lo' hi' id n cs pos key n' Hu Hk Hn' Hl Hks Hss) as (c & Hc & Hsl & Hw & Hci & Hkeys).
    split; [by apply G3|]. destruct Hu as (_ & _ & Hlv & _). destruct (Z.eqb_spec (level n) 0); [lia|]. exists c. split; [done|]. split.
    + intros q Hq. rewrite Hnodes, !elem_of_app. right; left. cbn [nodes]. right. apply elem_of_flat_map. eauto.
    + by apply (graft_removes key path true h lo hi t _ _ _ _ around f (fun x => key_in x c) HL).
Qed.
Lemma walk_head key t path b : walk key t path b -> exists pos rest, path = (bt_id t, bt_node t, pos) :: rest.
Proof. destruct 1; cbn; eauto. Qed.
