(* ===== verification/TreeSpec.v ===== *)
(** * TreeSpec: searching, inserting and deleting in trees of any depth

    [tree_on] says that a mathematical tree (Tree.v) is in the cache.  The
    cursor of btree.c pins the pages of the path it takes; [pins] is their
    effect on the pool and the cleanup undoes it. *)
From S2P Require Import Prelude Layout Heap HeapSpec HeapOps TupleStore State Disk DiskSpec Meta Pool PoolSpec Page Btree BtreeSpec Store Types Parser Catalog CatalogSpec Relation RelationSpec Tree.
From stdpp Require Import prelude gmap list sorting.
From Stdlib Require Import ZArith Lia.
Local Open Scope Z_scope.
Local Open Scope list_scope.
Local Open Scope kds_scope.

(** ** Pages of a tree *)
Definition page_node (pl : kds_buf_pool) (id : Z) (n : kds_btree_node) : Prop :=
  exists fid k p, buf_map pl !! id = Some fid /\ cached pl id = Some (k, p) /\
    kds_is_btree_page (kp_hdr k) = true /\ node_at p fid = n.
Record tree_on (pl : kds_buf_pool) (t : btree) : Prop := {
  to_wf : pool_wf pl;
  to_ids : NoDup (tree_ids t);
  to_nodes : forall id n, (id, n) ∈ nodes t -> page_node pl id n;
  to_ok : forall id n, (id, n) ∈ nodes t -> node_ok n }.

Definition pin (id : Z) (pl : kds_buf_pool) : kds_buf_pool :=
  match cached pl id with Some (k, p) => put id (pinned k) p pl | None => pl end.
Definition pins (ids : list Z) (pl : kds_buf_pool) : kds_buf_pool := foldl (fun pl id => pin id pl) pl ids.
Definition step_id (q : pstep) : Z := q.1.1.
Definition step_node (q : pstep) : kds_btree_node := q.1.2.

Section Pins.
Context (pl : kds_buf_pool) (Hwf : pool_wf pl).

Lemma buf_map_inj a b fid : buf_map pl !! a = Some fid -> buf_map pl !! b = Some fid -> a = b.
Proof.
  intros Ha Hb. destruct (pw_map pl Hwf a fid Ha) as (f & k & p & Hf & Hh).
  destruct (pw_map pl Hwf b fid Hb) as (f' & k' & p' & Hf' & Hh'). assert (f' = f) as -> by congruence.
  destruct Hh as (_ & E & _), Hh' as (_ & E' & _). congruence.
Qed.
Lemma put_comm a b ka pa kb pb : a <> b -> put a ka pa (put b kb pb pl) = put b kb pb (put a ka pa pl).
Proof.
  intros Hab. unfold put at 1 3. rewrite !buf_map_put.
  destruct (buf_map pl !! a) as [fa|] eqn:Ha, (buf_map pl !! b) as [fb|] eqn:Hb; unfold put; rewrite ?Ha, ?Hb; try done.
  all: try (case_match; done).
  assert (Hne : fa <> fb) by (intros ->; by apply Hab, (buf_map_inj a b fb)).
  destruct (frames pl !! fa) as [f|] eqn:Hfa, (frames pl !! fb) as [g|] eqn:Hfb;
    cbn [upd frames buf_map]; rewrite ?list_lookup_insert_ne, ?Hfa, ?Hfb by done; try done.
  unfold upd. cbn. f_equal. by apply list_insert_insert_ne.
Qed.
Lemma cached_put id k0 p0 k p x : cached pl id = Some (k0, p0) -> page_fits id k p ->
  cached (put id k p pl) x = if decide (x = id) then Some (k, p) else cached pl x.
Proof.
  intros Hc Hfit. destruct (put_spec pl Hwf id k0 p0 k p Hc Hfit) as (_ & [_ _ Ho] & E).
  case_decide as Hx; [by subst|by apply Ho].
Qed.
Lemma pin_spec id k p : cached pl id = Some (k, p) ->
  pool_wf (pin id pl) /\ only_page id pl (pin id pl) /\ cached (pin id pl) id = Some (pinned k, p) /\ buf_map (pin id pl) = buf_map pl.
Proof.
  intros Hc. pose proof (cached_fits pl Hwf id k p Hc) as Hfit. unfold pin. rewrite Hc.
  destruct (put_spec pl Hwf id k p (pinned k) p Hc Hfit) as (? & ? & ?). split_and!; try done. apply buf_map_put.
Qed.
Lemma page_node_pin id n x m : page_node pl id n -> page_node pl x m -> page_node (pin id pl) x m.
Proof.
  intros (f1 & k1 & p1 & _ & Hc1 & _) (fid & k & p & Hm & Hc & Hb & Hn).
  destruct (pin_spec id k1 p1 Hc1) as (_ & [_ _ Ho] & E & Hbm). exists fid. rewrite Hbm. destruct (decide (x = id)) as [->|Hne].
  - rewrite Hc in Hc1. injection Hc1 as <- <-. by exists (pinned k), p.
  - exists k, p. by rewrite Ho.
Qed.
Lemma pin_put_comm a b k0 p0 k p : a <> b -> cached pl b = Some (k0, p0) -> page_fits b k p ->
  pin a (put b k p pl) = put b k p (pin a pl).
Proof.
  intros Hab Hc Hfit. unfold pin. rewrite (cached_put b k0 p0) by done. rewrite decide_False by done.
  destruct (cached pl a) as [[ka pa]|]; [|done]. by apply put_comm.
Qed.
End Pins.

Definition pages (pl : kds_buf_pool) (path : list pstep) : Prop := Forall (fun q => page_node pl (step_id q) (step_node q)) path.
Lemma pages_pin pl id n path : pool_wf pl -> page_node pl id n -> pages pl path -> pages (pin id pl) path.
Proof. intros Hwf Hn Hp. eapply Forall_impl; [exact Hp|]. intros q Hq. by eapply page_node_pin. Qed.
Lemma pins_put_comm path : forall pl id k0 p0 k p, pool_wf pl -> pages pl path -> id ∉ step_id <$> path ->
  cached pl id = Some (k0, p0) -> page_fits id k p ->
  pins (step_id <$> path) (put id k p pl) = put id k p (pins (step_id <$> path) pl) /\
  pool_wf (pins (step_id <$> path) pl) /\ buf_map (pins (step_id <$> path) pl) = buf_map pl /\
  cached (pins (step_id <$> path) pl) id = Some (k0, p0).
Proof.
  induction path as [|q path IH]; intros pl id k0 p0 k p Hwf Hp Hni Hc Hfit; [done|].
  rewrite fmap_cons in *. apply not_elem_of_cons in Hni as [Hne Hni]. apply Forall_cons in Hp as [Hq Hp].
  pose proof Hq as (f1 & k1 & p1 & _ & Hc1 & _). destruct (pin_spec pl Hwf _ _ _ Hc1) as (Hwf1 & [_ _ Ho] & _ & Hbm).
  cbn [pins foldl]. rewrite (pin_put_comm pl Hwf (step_id q) id k0 p0) by done.
  destruct (IH (pin (step_id q) pl) id k0 p0 k p) as (E & W & B & C); try done; [by eapply pages_pin|by rewrite Ho|].
  rewrite <- Hbm. split_and!; [exact E|exact W|exact B|exact C].
Qed.

Section Ops.
Context `{K : Kernel}.

(** Opening the next page of a descent. *)
Lemma open_node id n pl s : pool_wf pl -> page_node pl id n -> exists fid,
  kds_buf_lookup_or_load id (wp pl s) = Ret (PTR fid) (wp (pin id pl) s) /\
  load_btree_node fid (wp (pin id pl) s) = Ret n (wp (pin id pl) s) /\ buf_map pl !! id = Some fid /\ bframe n = Some fid.
Proof.
  intros Hwf (fid & k & p & Hm & Hc & Hb & Hn). destruct (hit_put id pl s k p Hwf Hc) as (fid' & Hm' & E).
  assert (fid' = fid) as -> by congruence. destruct (pin_spec pl Hwf id k p Hc) as (Hwf1 & _ & Hc1 & Hbm).
  exists fid. split; [unfold pin; by rewrite Hc|]. split; [|split; [done|by rewrite <- Hn]].
  rewrite (load_at id fid _ s (pinned k) p Hwf1) by (by rewrite ?Hbm). by rewrite Hn.
Qed.
(** Releasing the first of the pages that a cursor holds. *)
Lemma unpin_first q path pl s fid : pool_wf pl -> pages pl (q :: path) -> step_id q ∉ step_id <$> path ->
  buf_map pl !! step_id q = Some fid ->
  kds_buf_unpin fid (wp (pins (step_id <$> (q :: path)) pl) s) = Ret tt (wp (pins (step_id <$> path) pl) s).
Proof.
  intros Hwf [Hq Hp]%Forall_cons Hni Hm. pose proof Hq as (f1 & k & p & _ & Hc & _).
  destruct (pin_spec pl Hwf _ _ _ Hc) as (Hwf1 & _ & Hc1 & Hbm). pose proof (cached_fits pl Hwf _ _ _ Hc) as Hfit.
  destruct (pins_put_comm path (pin (step_id q) pl) (step_id q) (pinned k) p k p Hwf1) as (E & W & B & C); try done; [by eapply pages_pin|].
  rewrite fmap_cons. cbn [pins foldl]. fold (pins (step_id <$> path) (pin (step_id q) pl)).
  rewrite (unpin_put (step_id q) fid _ s (pinned k) p W) by (rewrite ?B, ?Hbm; done). rewrite unpinned_pinned, <- E.
  unfold pin. by rewrite Hc, put_put, put_same.
Qed.

(** ** The cursor *)
(** The cursor after the nodes of [path] were entered, the first one at its
    current depth. *)
Definition enter (q : pstep) (c : kds_btree_cursor) : kds_btree_cursor :=
  Cursor (<[depth c := step_node q]> (cnodes c)) (<[depth c := q.2]> (positions c)) (depth c).
Definition deeper (c : kds_btree_cursor) : kds_btree_cursor := Cursor (cnodes c) (positions c) (S (depth c)).
Fixpoint fill (path : list pstep) (c : kds_btree_cursor) : kds_btree_cursor :=
  match path with
  | [] => c
  | [q] => enter q c
  | q :: path => fill path (deeper (enter q c))
  end.

Lemma position_bound n key pos : node_wf n -> btree_search_position n key = Some pos -> (pos <= length (node_keys n))%nat.
Proof.
  intros Hn Hp. destruct (search_position_spec n key Hn) as (p & E & Hle & _). assert (p = pos) as -> by congruence.
  unfold node_keys. rewrite length_take. destruct Hn. lia.
Qed.
(** The duplicate test of a node. *)
Lemma dup_test n key pos (s : kds_state) : node_wf n -> btree_search_position n key = Some pos ->
  (if Z.of_nat pos <? key_count n then k <- in_bounds (key_at n pos) ;; ret (k =? key) else ret false) s =
    Ret (bool_decide (node_keys n !! pos = Some key)) s.
Proof.
  intros Hn Hp. destruct (Z.ltb_spec (Z.of_nat pos) (key_count n)) as [Hlt|Hge].
  - pose proof Hn as [Hk _ Hc]. rewrite lookup_node_keys by done. unfold key_at.
    destruct (lookup_lt_is_Some_2 (keys n) pos ltac:(lia)) as [x ->]. cbn [in_bounds]. erewrite (bind_ok (ret x)) by reflexivity.
    unfold ret. f_equal. destruct (Z.eqb_spec x key); [by subst; rewrite bool_decide_true|rewrite bool_decide_false; congruence].
  - rewrite bool_decide_false; [done|]. intros H%lookup_lt_Some. unfold node_keys in H. rewrite length_take in H. lia.
Qed.

(** One level of the descent. *)
Lemma descend_step id n key pos fuel c pl s :
  node_wf n -> pool_wf pl -> page_node pl id n -> btree_search_position n key = Some pos ->
  descend (S fuel) c id key (wp pl s) =
    (if bool_decide (node_keys n !! pos = Some key) then ret (- EEXIST, enter (id, n, pos) c) else
     if level n =? 0 then ret (0, enter (id, n, pos) c) else
     child <- in_bounds (slot_at n pos) ;; descend fuel (deeper (enter (id, n, pos) c)) child key) (wp (pin id pl) s).
Proof.
  intros Hn Hwf Hpn Hp. destruct (open_node id n pl s Hwf Hpn) as (fid & E & El & _). cbn [descend].
  erewrite bind_ok by exact E. cbn beta iota. erewrite bind_ok by exact El. rewrite Hp. cbn [in_bounds].
  erewrite (bind_ok (ret pos)) by reflexivity. cbn zeta. erewrite bind_ok by (by apply dup_test). by destruct (bool_decide _).
Qed.
Lemma descend_walk key t path b : walk key t path b -> forall h lo hi fuel c pl s,
  tree_wf h lo hi t -> (length path <= fuel)%nat -> pool_wf pl -> (forall id n, (id, n) ∈ nodes t -> page_node pl id n) ->
  descend fuel c (bt_id t) key (wp pl s) = Ret (if b then - EEXIST else 0, fill path c) (wp (pins (step_id <$> path) pl) s).
Proof.
  induction 1 as [id n cs pos Hp Hit|id n cs pos Hp Hmiss Hl|id n cs pos c' path b Hp Hmiss Hl Hc Hw IH];
    intros h lo hi fuel c pl s Ht Hlen Hwf Hpages; (destruct fuel as [|fuel]; [cbn in Hlen; lia|]);
    (assert (Hn : node_wf n) by (by destruct h; destruct Ht)); cbn [bt_id];
    (rewrite (descend_step id n key pos) by (try done; apply Hpages; cbn; left)).
  - by rewrite bool_decide_true.
  - by rewrite bool_decide_false, (proj2 (Z.eqb_eq _ _) Hl) by done.
  - rewrite bool_decide_false by done. apply Z.eqb_neq in Hl as Hl'. rewrite Hl'. destruct h as [|h]; [by destruct Ht as (_ & _ & ? & _)|].
    destruct Ht as (_ & Hs & Hlv & Hb & Hsl & Hcs).
    assert (Hslot : slot_at n pos = Some (bt_id c')).
    { pose proof (list_lookup_fmap bt_id cs pos) as H. rewrite Hsl, Hc in H. cbn in H. unfold node_slots in H.
      apply lookup_take_Some in H as [H _]. exact H. }
    rewrite Hslot. cbn [in_bounds]. erewrite (bind_ok (ret (bt_id c'))) by reflexivity.
    assert (Hpn : page_node pl id n) by (apply Hpages; cbn; left). pose proof Hpn as (f1 & k & p & _ & Hck & _).
    destruct (pin_spec pl Hwf id k p Hck) as (Hwf1 & _). cbn in Hlen.
    rewrite (IH h _ _ fuel _ _ s (Hcs pos c' Hc)); try done; [by destruct path; [inversion Hw|]|lia|].
    intros id' m Hm. eapply page_node_pin; [done|exact Hpn|]. apply Hpages, elem_of_nodes. right. by exists pos, c'.
Qed.
Lemma fill_spec path : forall c, path <> [] ->
  (depth c + length path <= length (cnodes c))%nat -> (depth c + length path <= length (positions c))%nat ->
  depth (fill path c) = (depth c + pred (length path))%nat /\
  (forall i q, path !! i = Some q ->
    cnodes (fill path c) !! (depth c + i)%nat = Some (step_node q) /\ positions (fill path c) !! (depth c + i)%nat = Some q.2) /\
  (forall j, (j < depth c)%nat -> cnodes (fill path c) !! j = cnodes c !! j /\ positions (fill path c) !! j = positions c !! j).
Proof.
  induction path as [|q path IH]; intros c Hne H1 H2; [done|]. destruct path as [|q' path].
  - cbn in *. split; [lia|]. split.
    + intros [|i] r [= <-]. rewrite Nat.add_0_r, !list_lookup_insert_eq by lia. done.
    + intros j Hj. by rewrite !list_lookup_insert_ne by lia.
  - change (fill (q :: q' :: path) c) with (fill (q' :: path) (deeper (enter q c))). cbn [length] in *.
    destruct (IH (deeper (enter q c))) as (D & N & F); [done|cbn; rewrite length_insert; lia..|].
    cbn [deeper depth enter cnodes positions] in *. split; [rewrite D; cbn; lia|]. split.
    + intros [|i] r Hr.
      * injection Hr as <-. rewrite Nat.add_0_r. destruct (F (depth c)) as [-> ->]; [lia|].
        rewrite !list_lookup_insert_eq by lia. done.
      * replace (depth c + S i)%nat with (S (depth c) + i)%nat by lia. exact (N i r Hr).
    + intros j Hj. destruct (F j) as [-> ->]; [lia|]. by rewrite !list_lookup_insert_ne by lia.
Qed.
Lemma page_node_frame pl id n : page_node pl id n -> exists fid, buf_map pl !! id = Some fid /\ bframe n = Some fid.
Proof. intros (fid & k & p & Hm & _ & _ & <-). by exists fid. Qed.
(** The cleanup of a cursor that holds the pages of [path]. *)
Lemma cleanup_path path : forall d c pl s, pool_wf pl -> pages pl path -> NoDup (step_id <$> path) ->
  (forall i q, path !! i = Some q -> exists m, cnodes c !! (d + i)%nat = Some m /\ bframe m = bframe (step_node q)) ->
  cleanup_loop (seq d (length path)) c (wp (pins (step_id <$> path) pl) s) = Ret tt (wp pl s).
Proof.
  induction path as [|q path IH]; intros d c pl s Hwf Hp Hnd Hc; [done|]. cbn [length seq cleanup_loop].
  rewrite fmap_cons in Hnd. apply NoDup_cons in Hnd as [Hni Hnd]. destruct (Hc 0%nat q eq_refl) as (m & Hm & Hfr).
  rewrite Nat.add_0_r in Hm. unfold cnode at 1. rewrite Hm. cbn [in_bounds]. erewrite (bind_ok (ret m)) by reflexivity.
  pose proof Hp as [(fid & Hmap & Hf)%page_node_frame Hp']%Forall_cons. rewrite Hfr, Hf.
  erewrite bind_ok by (by apply unpin_first). apply IH; try done. intros i r Hr. destruct (Hc (S i) r Hr) as (m' & Hm' & Hfr').
  exists m'. split; [|done]. replace (S d + i)%nat with (d + S i)%nat by lia. cbn. by rewrite list_lookup_insert_ne by lia.
Qed.

Lemma walk_sublist key t path b : walk key t path b -> step_id <$> path `sublist_of` tree_ids t.
Proof.
  induction 1 as [id n cs pos|id n cs pos|id n cs pos c path b _ _ _ Hc _ IH]; unfold tree_ids in *; cbn;
    try by (apply sublist_skip, sublist_nil_l).
  apply sublist_skip. etrans; [exact IH|]. destruct (flat_map_alter nodes (fun x => x) pos cs c Hc) as [-> _].
  rewrite !fmap_app. apply sublist_inserts_l, sublist_inserts_r. done.
Qed.
Lemma walk_nodes key t path b : walk key t path b -> Forall (fun q => (step_id q, step_node q) ∈ nodes t) path.
Proof.
  induction 1 as [id n cs pos|id n cs pos|id n cs pos c path b _ _ _ Hc _ IH].
  1,2: by repeat constructor.
  constructor; [by left|]. eapply Forall_impl; [exact IH|]. intros q Hq. apply (elem_of_nodes (step_id q) (step_node q) (BT id n cs)). right. by exists pos, c.
Qed.
Lemma walk_pages key pl t path b : tree_on pl t -> walk key t path b -> pages pl path /\ NoDup (step_id <$> path).
Proof.
  intros [_ Hnd Hn _] Hw. split; [|by eapply sublist_NoDup, walk_sublist].
  eapply Forall_impl; [by eapply walk_nodes|]. intros q Hq. by apply Hn.
Qed.

(** Giving up a search releases the whole path. *)
Lemma cleanup_walk key t path b pl s :
  tree_on pl t -> walk key t path b -> (length path <= BTREE_MAX_DEPTH)%nat ->
  btree_cursor_cleanup (fill path btree_cursor_init) (wp (pins (step_id <$> path) pl) s) = Ret tt (wp pl s).
Proof.
  intros Ht Hwalk Hlen. destruct (walk_pages key pl t path b Ht Hwalk) as [Hp Hnd].
  destruct (fill_spec path btree_cursor_init) as (D & N & _); [by intros ->; inversion Hwalk|done..|].
  unfold btree_cursor_cleanup. rewrite D. cbn [depth btree_cursor_init Nat.add].
  replace (S (pred (length path))) with (length path) by (destruct path; [inversion Hwalk|done]).
  apply cleanup_path; [apply Ht|done..|]. intros i q Hq. destruct (N i q Hq) as [Hn _]. by exists (step_node q).
Qed.

(** ** Search *)
(** The search of an insertion decides membership.  When the key is in the
    tree no pin is kept; otherwise the cursor holds the path to a leaf. *)
Lemma cursor_search_spec h lo hi key t pl s :
  tree_on pl t -> tree_wf h lo hi t -> lo < key < hi -> (h < BTREE_MAX_DEPTH)%nat ->
  exists path b, walk key t path b /\ (b = true <-> key_in key t) /\
    let c := fill path btree_cursor_init in
    (length path <= BTREE_MAX_DEPTH)%nat /\
    btree_cursor_search (bt_id t) key (wp pl s) = Ret (if b then - EEXIST else 0, c) (wp (pins (step_id <$> path) pl) s) /\
    kds_btree_cursor_search (bt_id t) key (wp pl s) =
      if b then Ret (- EEXIST, c) (wp pl s) else Ret (0, c) (wp (pins (step_id <$> path) pl) s).
Proof.
  intros Ht Hw Hk Hh. destruct (walk_exists key h lo hi t Hw Hk) as (path & b & Hwalk & Hb & Hlen).
  assert (Hlen' : (length path <= BTREE_MAX_DEPTH)%nat) by lia.
  pose proof (descend_walk key t path b Hwalk h lo hi BTREE_MAX_DEPTH btree_cursor_init pl s Hw Hlen' (to_wf _ _ Ht) (to_nodes _ _ Ht)) as E.
  exists path, b. split; [done|]. split; [done|]. cbn zeta. split; [done|]. split; [exact E|].
  unfold kds_btree_cursor_search. erewrite bind_ok by exact E. cbn beta iota. destruct b; [|done]. cbn [Z.eqb Z.opp EEXIST].
  by erewrite bind_ok by (by eapply cleanup_walk).
Qed.

(** ** Changing the page at the end of a path *)
Lemma fmap_sublist {A B} (f : A -> B) l r : l `sublist_of` r -> f <$> l `sublist_of` f <$> r.
Proof. induction 1; cbn; [done|by apply sublist_skip|by apply sublist_cons]. Qed.
Lemma last_put init q pl k p k' p' :
  pool_wf pl -> pages pl init -> step_id q ∉ step_id <$> init -> cached pl (step_id q) = Some (k, p) -> page_fits (step_id q) k' p' ->
  let ids := step_id <$> (init ++ [q]) in
  pool_wf (pins ids pl) /\ buf_map (pins ids pl) = buf_map pl /\ cached (pins ids pl) (step_id q) = Some (pinned k, p) /\
  put (step_id q) (pinned k') p' (pins ids pl) = pins ids (put (step_id q) k' p' pl).
Proof.
  intros Hwf Hp Hni Hc Hfit ids. destruct (pins_put_comm init pl (step_id q) k p k' p' Hwf Hp Hni Hc Hfit) as (E & W & B & C).
  assert (Hids : forall pl, pins ids pl = pin (step_id q) (pins (step_id <$> init) pl)).
  { intros pl'. unfold pins, ids. by rewrite fmap_app, foldl_app. }
  rewrite !Hids, E. destruct (pin_spec _ W _ _ _ C) as (W1 & _ & C1 & B1). split_and!; try done; [congruence|].
  unfold pin at 2. rewrite (cached_put _ W _ k p) by done. rewrite decide_True by done. unfold pin. by rewrite C, !put_put.
Qed.
Lemma page_node_put pl id k0 p0 k p x m : pool_wf pl -> cached pl id = Some (k0, p0) -> page_fits id k p -> x <> id ->
  page_node pl x m -> page_node (put id k p pl) x m.
Proof.
  intros Hwf Hc Hfit Hne (f & kx & px & Hm & Hcx & Hb & Hn). exists f, kx, px. rewrite buf_map_put.
  rewrite (cached_put pl Hwf id k0 p0) by done. by rewrite decide_False.
Qed.
Lemma page_node_new pl id k0 p0 k p fid n : pool_wf pl -> buf_map pl !! id = Some fid -> cached pl id = Some (k0, p0) -> page_fits id k p ->
  kds_is_btree_page (kp_hdr k) = true -> node_at p fid = n -> page_node (put id k p pl) id n.
Proof.
  intros Hwf Hm Hc Hfit Hb Hn. exists fid, k, p. rewrite buf_map_put, (cached_put pl Hwf id k0 p0) by done. by rewrite decide_True.
Qed.
Lemma put_tree pl t t' id n n' l r r' fid k p k' p' :
  tree_on pl t -> nodes t = l ++ (id, n) :: r -> nodes t' = l ++ (id, n') :: r' -> r' `sublist_of` r ->
  buf_map pl !! id = Some fid -> cached pl id = Some (k, p) -> page_fits id k' p' -> kds_is_btree_page (kp_hdr k') = true ->
  node_at p' fid = n' -> node_ok n' -> tree_on (put id k' p' pl) t'.
Proof.
  intros [Hwf Hnd Hn Hok] Ht Ht' Hsub Hm Hc Hfit Hb Hna Hok'. unfold tree_ids in Hnd. rewrite Ht, fmap_app, fmap_cons in Hnd.
  assert (Hin : forall x m, (x, m) ∈ l ++ r' -> (x, m) ∈ nodes t /\ x <> id).
  { intros x m Hx. assert (Hx' : (x, m) ∈ l ++ r).
    { apply elem_of_app in Hx as [Hx|Hx]; apply elem_of_app; [by left|right; by eapply elem_of_sublist]. }
    rewrite Ht. split; [apply elem_of_app in Hx' as [?|?]; apply elem_of_app; [by left|right; by right]|].
    intros ->. apply NoDup_app in Hnd as (_ & Hl & [Hr _]%NoDup_cons). apply elem_of_app in Hx' as [Hx'|Hx'].
    - apply (Hl id); [apply list_elem_of_fmap; by exists (id, m)|left].
    - apply Hr. apply list_elem_of_fmap. by exists (id, m). }
  assert (Hcase : forall x m, (x, m) ∈ nodes t' -> (x = id /\ m = n') \/ ((x, m) ∈ nodes t /\ x <> id)).
  { intros x m Hx. rewrite Ht' in Hx. apply elem_of_app in Hx as [Hx|[[= -> ->]|Hx]%elem_of_cons]; [right|by left|right];
      apply Hin, elem_of_app; [by left|by right]. }
  split.
  - by destruct (put_spec pl Hwf id k p k' p' Hc Hfit).
  - unfold tree_ids. rewrite Ht', fmap_app, fmap_cons. eapply sublist_NoDup; [exact Hnd|].
    apply sublist_app; [done|]. by apply sublist_skip, fmap_sublist.
  - intros x m [[-> ->]|[Hx Hne]]%Hcase; [by eapply page_node_new|]. by eapply page_node_put; [| | | |apply Hn].
  - intros x m [[-> ->]|[Hx _]]%Hcase; [done|]. by eapply Hok.
Qed.

(** The cursor at the end of a path. *)
Lemma cursor_end init q c : c = fill (init ++ [q]) btree_cursor_init -> (length (init ++ [q]) <= BTREE_MAX_DEPTH)%nat ->
  depth c = length init /\ cnodes c !! length init = Some (step_node q) /\ positions c !! length init = Some q.2 /\
  forall i r, (init ++ [q]) !! i = Some r -> cnodes c !! i = Some (step_node r).
Proof.
  intros -> Hlen. destruct (fill_spec (init ++ [q]) btree_cursor_init) as (D & N & _); [by destruct init|done..|].
  destruct (N (length init) q (list_lookup_middle _ _ _ _ eq_refl)) as [N1 N2]. cbn [depth btree_cursor_init Nat.add] in *.
  split; [rewrite D, length_app; cbn; lia|]. split; [done|]. split; [done|]. intros i r Hr. by apply N.
Qed.
Lemma cleanup_end init q n' c pl s : pool_wf pl -> pages pl (init ++ [(step_id q, n', q.2)]) -> NoDup (step_id <$> (init ++ [q])) ->
  bframe n' = bframe (step_node q) -> depth c = length init ->
  (forall i r, (init ++ [q]) !! i = Some r -> exists m, cnodes c !! i = Some m /\ bframe m = bframe (step_node r)) ->
  btree_cursor_cleanup c (wp (pins (step_id <$> (init ++ [q])) pl) s) = Ret tt (wp pl s).
Proof.
  intros Hwf Hp Hnd Hfr Hd Hc. set (path' := init ++ [(step_id q, n', q.2)]).
  assert (Hids : step_id <$> (init ++ [q]) = step_id <$> path') by (unfold path'; by rewrite !fmap_app).
  unfold btree_cursor_cleanup. rewrite Hids, Hd in *. replace (S (length init)) with (length path') by (unfold path'; rewrite length_app; cbn; lia).
  apply cleanup_path; try done. intros i r Hr. cbn [Nat.add]. unfold path' in Hr. destruct (decide (i < length init)%nat).
  - rewrite lookup_app_l in Hr by done. apply Hc. by rewrite lookup_app_l.
  - rewrite lookup_app_r in Hr by lia. apply list_lookup_singleton_Some in Hr as [Hi <-].
    destruct (Hc i q) as (m & Hm & E); [rewrite lookup_app_r by lia; by apply list_lookup_singleton_Some|].
    exists m. split; [done|]. by rewrite E.
Qed.
Lemma pages_put init q pl fid k0 p0 k p n' :
  pool_wf pl -> pages pl (init ++ [q]) -> NoDup (step_id <$> (init ++ [q])) -> buf_map pl !! step_id q = Some fid ->
  cached pl (step_id q) = Some (k0, p0) -> page_fits (step_id q) k p -> kds_is_btree_page (kp_hdr k) = true -> node_at p fid = n' ->
  pages (put (step_id q) k p pl) (init ++ [(step_id q, n', q.2)]).
Proof.
  intros Hwf [Hp _]%Forall_app Hnd Hm Hc Hfit Hb Hna. apply Forall_app. split; [|constructor; [by eapply page_node_new|constructor]].
  rewrite fmap_app in Hnd. apply NoDup_app in Hnd as (_ & Hni & _). apply Forall_forall. intros r Hr.
  eapply page_node_put; try done; [|exact (proj1 (Forall_forall _ _) Hp r Hr)].
  intros Hx. apply (Hni (step_id r)); [by apply list_elem_of_fmap_2|rewrite Hx; by left].
Qed.
(** Storing a node at the end of a path. *)
Lemma store_end init q pl s n' fid k p :
  pool_wf pl -> pages pl (init ++ [q]) -> NoDup (step_id <$> (init ++ [q])) ->
  buf_map pl !! step_id q = Some fid -> cached pl (step_id q) = Some (k, p) -> kds_is_btree_page (kp_hdr k) = true ->
  node_ok n' -> bframe n' = Some fid ->
  let p' := patch p KDS_PAGE_HDR_SIZE (node_enc n') in
  let ids := step_id <$> (init ++ [q]) in
  store_btree_node n' (wp (pins ids pl) s) = Ret tt (wp (pins ids (put (step_id q) k p' pl)) s) /\
  page_fits (step_id q) k p' /\ node_at p' fid = n' /\
  pages (put (step_id q) k p' pl) (init ++ [(step_id q, n', q.2)]).
Proof.
  intros Hwf Hp Hnd Hm Hc Hb Hok Hfr p' ids. pose proof (cached_fits pl Hwf _ _ _ Hc) as (H1 & H2 & H3).
  assert (Hfit : page_fits (step_id q) k p') by (split; [done|]; split; [by apply zlen_patch_node|done]).
  assert (Hna : node_at p' fid = n') by (by apply node_at_patch).
  split; [|split; [done|split; [done|by eapply pages_put]]].
  apply Forall_app in Hp as [Hp _]. rewrite fmap_app in Hnd. apply NoDup_app in Hnd as (_ & Hni & _).
  assert (Hni' : step_id q ∉ step_id <$> init) by (intros Hx; apply (Hni _ Hx); by left).
  destruct (last_put init q pl k p k p' Hwf Hp Hni' Hc Hfit) as (W & B & C & E). pose proof Hok as (Hk4 & Hs5 & _).
  fold ids in W, B, C, E. rewrite <- E. apply (store_at (step_id q) fid); try done; [by rewrite B|by apply zlen_node_enc].
Qed.

(** ** Insertion *)
(** What an insertion makes of the leaf it finds. *)
Lemma insert_in_leaf h lo hi key v path t h' lo' hi' id n cs pos around n' :
  leads_to key path false h lo hi t h' lo' hi' (BT id n cs) around -> level n = 0 -> tree_wf h' lo' hi' (BT id n cs) ->
  key ∉ node_keys n -> key_count n < 4 -> btree_search_position n key = Some pos -> btree_node_insert_at n pos key v = Some n' ->
  let t' := graft path (fun u => BT (bt_id u) n' []) t in
  nodes t = around.1 ++ (id, n) :: around.2 /\ nodes t' = around.1 ++ (id, n') :: around.2 /\
  bt_id t' = bt_id t /\ tree_wf h lo hi t' /\ forall x, key_in x t' <-> x = key \/ key_in x t.
Proof.
  intros HL Hl0 Hu Hni Hlt Hpos En t'. destruct HL as [_ _ Hkey _ Hnodes Hgraft _].
  assert (Hn : node_wf n /\ sorted_keys n) by (destruct h'; destruct Hu as (? & ? & _); done). destruct Hn as [Hn Hs].
  assert (h' = 0%nat) as -> by (destruct h' as [|h']; [done|]; destruct Hu as (_ & _ & Hl & _); lia).
  destruct Hu as (_ & _ & _ & Hb & ->).
  destruct (insert_keeps_order n key v pos Hn Hs Hlt Hni Hpos) as (n2 & En2 & Hn' & Hs' & Hks & _).
  assert (n2 = n') as -> by congruence. destruct (search_position_spec n key Hn) as (pos' & Epos & Hle & _).
  assert (pos' = pos) as -> by congruence. destruct (insert_at_spec n pos key v Hn Hlt Hle) as (n3 & En3 & _ & _ & Hlv & _).
  assert (n3 = n') as -> by congruence. destruct (Hgraft (fun u => BT (bt_id u) n' []) eq_refl) as (G1 & G2 & G3).
  cbn [bt_id nodes flat_map app] in *. split; [done|]. split; [done|]. split; [done|]. split.
  - apply G3. split_and!; try done; [lia|]. apply Forall_forall. intros x [->|Hx]%Hks; [done|].
    exact (proj1 (Forall_forall _ _) Hb x Hx).
  - intros x. rewrite (key_in_around x t' around.1 (BT id n' []) around.2) by done.
    rewrite (key_in_around x t around.1 (BT id n []) around.2) by done. rewrite !key_in_leaf, Hks. tauto.
Qed.

(** C19.  The insertion of a key into a tree of any depth (up to the limit of 16
    levels) that is in the cache, on every branch.  A key that is in the tree
    is refused and nothing changes, not even a pin.  Otherwise the key
    belongs into one leaf; when that has room, the tree with the new key is
    again a search tree, with the same pages; only the bytes of the leaf's
    page were written, its header and pin count and all other pages are as
    they were, so no page stays pinned.  A full leaf is written out of
    bounds. *)
Theorem btree_insert_spec h lo hi key v t pl s :
  tree_on pl t -> tree_wf h lo hi t -> lo < key < hi -> (h < BTREE_MAX_DEPTH)%nat -> u64_ok key -> u64_ok v ->
  (key_in key t -> btree_insert (bt_id t) key v (wp pl s) = Ret (- EEXIST) (wp pl s)) /\
  (~ key_in key t -> exists id n, (id, n) ∈ nodes t /\ level n = 0 /\
    if key_count n <? BTREE_MAX_KEYS then
      exists pl' t', btree_insert (bt_id t) key v (wp pl s) = Ret 0 (wp pl' s) /\
        tree_on pl' t' /\ tree_wf h lo hi t' /\ bt_id t' = bt_id t /\ tree_ids t' = tree_ids t /\
        (forall x, key_in x t' <-> x = key \/ key_in x t) /\ only_page id pl pl' /\
        exists k p p', cached pl id = Some (k, p) /\ cached pl' id = Some (k, p')
    else exists s', btree_insert (bt_id t) key v (wp pl s) = Halt Fault s').
Proof.
  intros Ht Hw Hk Hh Hkey Hv. destruct (cursor_search_spec h lo hi key t pl s Ht Hw Hk Hh) as (path & b & Hwalk & Hb & Hlen & _ & E).
  split; intros Hin.
  { assert (b = true) as -> by (by apply Hb). unfold btree_insert. by erewrite bind_ok by exact E. }
  assert (b = false) as -> by (destruct b; [by destruct Hin; apply Hb|done]).
  destruct (walk_leads key t path false Hwalk h lo hi Hw Hk) as (h' & lo' & hi' & [id n cs] & around & HL).
  pose proof HL as [(pos & Hlast & Hpos & Hmiss) Hu _ _ Hnodes _ _]. cbn [bt_id bt_node] in *.
  pose proof (walk_false_leaf key t path false _ Hwalk eq_refl Hlast) as Hl0. cbn in Hl0.
  apply last_Some in Hlast as (init & Hpath). destruct (walk_pages key pl t path false Ht Hwalk) as [Hp Hnd].
  assert (Hni : key ∉ node_keys n).
  { intros Hx. apply Hin. exists id, n. split; [|done]. rewrite Hnodes. apply elem_of_app. right. by left. }
  subst path. set (path := init ++ [(id, n, pos)]) in *. set (c := fill path btree_cursor_init) in *.
  destruct (cursor_end init (id, n, pos) c eq_refl Hlen) as (Hd & Hcn & Hcp & Hcs).
  exists id, n. assert (Hidn : (id, n) ∈ nodes t) by (rewrite Hnodes; apply elem_of_app; right; by left).
  assert (Hn : node_wf n) by (destruct h'; destruct Hu as (? & _); done).
  split; [done|]. split; [done|].
  assert (Hrun : btree_insert (bt_id t) key v (wp pl s) = kds_btree_cursor_insert c key v (wp (pins (step_id <$> path) pl) s))
    by (unfold btree_insert; by erewrite bind_ok by exact E).
  rewrite Hrun. unfold kds_btree_cursor_insert. rewrite Hd. unfold cnode, cpos. rewrite Hcn, Hcp. cbn [in_bounds step_node fst snd].
  rewrite !(bind_ok (ret n) _ _ _ _ eq_refl), !(bind_ok (ret pos) _ _ _ _ eq_refl).
  destruct (Z.ltb_spec (key_count n) BTREE_MAX_KEYS) as [Hlt|Hfull].
  - destruct (search_position_spec n key Hn) as (pos' & Epos & Hle & _). assert (pos' = pos) as -> by congruence.
    destruct (insert_at_spec n pos key v Hn Hlt Hle) as (n' & En & _ & _ & _ & Hfr & _).
    pose proof (insert_at_ok n pos key v n' Hn (to_ok _ _ Ht id n Hidn) Hlt Hle Hkey Hv En) as Hok'.
    destruct (to_nodes _ _ Ht id n Hidn) as (fid & k & p & Hm & Hc & Hbt & Hna).
    assert (Hbf : bframe n' = Some fid) by (by rewrite Hfr, <- Hna).
    destruct (insert_in_leaf h lo hi key v path t h' lo' hi' id n cs pos around n' HL Hl0 Hu Hni Hlt Hpos En) as (N1 & N2 & N3 & N4 & N5).
    destruct (store_end init (id, n, pos) pl s n' fid k p (to_wf _ _ Ht) Hp Hnd Hm Hc Hbt Hok' Hbf) as (Es & Hfit & Hna' & Hp').
    set (t' := graft _ _ _) in *. set (pl' := put _ _ _ _) in *.
    assert (Ht' : tree_on pl' t') by (eapply (put_tree pl t t' id n n'); try done).
    exists pl', t'. rewrite En. cbn [in_bounds]. erewrite (bind_ok (ret n')) by reflexivity. erewrite bind_ok by exact Es.
    erewrite bind_ok; [|apply (cleanup_end init (id, n, pos) n'); [apply Ht'|exact Hp'|exact Hnd|exact Hfr|exact Hd|]].
    2:{ intros i r Hr. exists (step_node r). split; [by apply Hcs|done]. }
    split_and!; try done; [unfold tree_ids; by rewrite N1, N2, !fmap_app| |].
    + by destruct (put_spec pl (to_wf _ _ Ht) id k p k _ Hc Hfit) as (_ & ? & _).
    + exists k, p. eexists. split; [exact Hc|]. by destruct (put_spec pl (to_wf _ _ Ht) id k p k _ Hc Hfit) as (_ & _ & Hc').
  - destruct (search_position_spec n key Hn) as (pos' & Epos & Hle & _). assert (pos' = pos) as -> by congruence.
    unfold BTREE_MAX_KEYS in Hfull. pose proof (nw_count n Hn). eexists.
    by rewrite insert_at_full by (done || lia).
Qed.

(** ** Deletion *)
Lemma dirty_end init q pl s fid k p :
  pool_wf pl -> pages pl (init ++ [q]) -> NoDup (step_id <$> (init ++ [q])) ->
  buf_map pl !! step_id q = Some fid -> cached pl (step_id q) = Some (k, p) ->
  let ids := step_id <$> (init ++ [q]) in
  on_frame fid kds_set_page_dirty (wp (pins ids pl) s) = Ret tt (wp (pins ids (put (step_id q) (dirty k) p pl)) s).
Proof.
  intros Hwf Hp Hnd Hm Hc ids. pose proof (cached_fits pl Hwf _ _ _ Hc) as (H1 & H2 & H3).
  apply Forall_app in Hp as [Hp _]. rewrite fmap_app in Hnd. apply NoDup_app in Hnd as (_ & Hni & _).
  assert (Hni' : step_id q ∉ step_id <$> init) by (intros Hx; apply (Hni _ Hx); by left).
  destruct (last_put init q pl k p (dirty k) p Hwf Hp Hni' Hc) as (W & B & C & E); [done|]. fold ids in W, B, C, E. rewrite <- E.
  destruct (frame_put (step_id q) fid kds_set_page_dirty (pins ids pl) s (pinned k) p tt
    (fun k' p' => k' = pinned (dirty k) /\ p' = p) W ltac:(by rewrite B) C) as (k' & p' & -> & -> & ->); [|done].
  intros f Hf. exists (pinned (dirty k)), p. split; [|done]. rewrite <- (frame_live_eq f _ p Hf) at 1. apply set_dirty_live.
Qed.

(** The steps of a removal that needs no rebalancing. *)
Lemma delete_run root key init q c n' m pl pl1 pl2 s :
  let ids := step_id <$> (init ++ [q]) in let c' := set_cnode (length init) n' c in
  btree_cursor_search root key (wp pl s) = Ret (- EEXIST, c) (wp (pins ids pl) s) ->
  depth c = length init -> cnodes c !! length init = Some (step_node q) -> positions c !! length init = Some q.2 ->
  btree_node_remove_at (step_node q) q.2 = Some n' -> btree_node_is_underflow n' = false ->
  store_btree_node n' (wp (pins ids pl) s) = Ret tt (wp (pins ids pl1) s) ->
  mark_dirty n' (wp (pins ids pl1) s) = Ret tt (wp (pins ids pl2) s) ->
  cnodes c' !! 0%nat = Some m -> 0 < key_count m ->
  btree_cursor_cleanup c' (wp (pins ids pl2) s) = Ret tt (wp pl2 s) ->
  btree_delete root key (wp pl s) = Ret 0 (wp pl2 s).
Proof.
  intros ids c' E Hd Hcn Hcp En Hu Es Ed Hm Hc Ec. unfold btree_delete. erewrite bind_ok by exact E. cbn beta iota.
  change (negb (- EEXIST =? - EEXIST)) with false. cbn iota. unfold cnode at 1, cpos. rewrite Hd, Hcn, Hcp. cbn [in_bounds].
  erewrite (bind_ok (ret (step_node q))) by reflexivity. erewrite (bind_ok (ret q.2)) by reflexivity. rewrite En. cbn [in_bounds].
  erewrite (bind_ok (ret n')) by reflexivity. cbn zeta. fold c'. erewrite bind_ok by exact Es. erewrite bind_ok by exact Ed.
  rewrite Hu, andb_false_r. erewrite (bind_ok (ret c')) by reflexivity. unfold cnode. rewrite Hm. cbn [in_bounds].
  erewrite (bind_ok (ret m)) by reflexivity. destruct (Z.eqb_spec (key_count m) 0); [lia|]. rewrite andb_false_r.
  by erewrite bind_ok by exact Ec.
Qed.

(** C20.  What [btree_delete] does when no node gets too small. *)
Theorem btree_delete_spec h lo hi key t pl s :
  tree_on pl t -> tree_wf h lo hi t -> lo < key < hi -> (h < BTREE_MAX_DEPTH)%nat -> 0 < key_count (bt_node t) ->
  (~ key_in key t -> btree_delete (bt_id t) key (wp pl s) = Ret (- ENOENT) (wp pl s)) /\
  (key_in key t -> exists id n pos, (id, n) ∈ nodes t /\ node_keys n !! pos = Some key /\
    (BTREE_MIN_KEYS < key_count n -> exists pl' t',
      btree_delete (bt_id t) key (wp pl s) = Ret 0 (wp pl' s) /\ tree_on pl' t' /\ tree_wf h lo hi t' /\ bt_id t' = bt_id t /\
      if level n =? 0 then forall x, key_in x t' <-> key_in x t /\ x <> key
      else exists c, node_slots n !! S pos = Some (bt_id c) /\ (forall q, q ∈ nodes c -> q ∈ nodes t) /\
        forall x, key_in x t' <-> key_in x t /\ x <> key /\ ~ key_in x c)).
Proof.
  intros Ht Hw Hk Hh Hroot. destruct (cursor_search_spec h lo hi key t pl s Ht Hw Hk Hh) as (path & b & Hwalk & Hb & Hlen & E & _).
  split; intros Hin.
  { assert (b = false) as -> by (destruct b; [by destruct Hin; apply Hb|done]). unfold btree_delete. erewrite bind_ok by exact E. cbn beta iota.
    change (negb (0 =? - EEXIST)) with true. cbn iota. by erewrite bind_ok by (by eapply cleanup_walk). }
  assert (b = true) as -> by (by apply Hb).
  destruct (walk_leads key t path true Hwalk h lo hi Hw Hk) as (h' & lo' & hi' & [id n cs] & around & HL).
  pose proof HL as [(pos & Hlast & Hpos & Hhit) Hu _ _ Hnodes _ _]. cbn [bt_id bt_node] in *. pose proof (proj1 Hhit eq_refl) as Hkp.
  apply last_Some in Hlast as (init & ->). destruct (walk_pages key pl t _ true Ht Hwalk) as [Hp Hnd].
  destruct (walk_head _ _ _ _ Hwalk) as (hpos & rest & Hhead).
  assert (Hidn : (id, n) ∈ nodes t) by (rewrite Hnodes, !elem_of_app; right; left; by left).
  assert (Hn : node_wf n) by (destruct h'; destruct Hu as (? & _); done).
  exists id, n, pos. split; [done|]. split; [done|]. intros Hmin.
  assert (Hpos' : Z.of_nat pos < key_count n).
  { apply lookup_lt_Some in Hkp. unfold node_keys in Hkp. rewrite length_take in Hkp. lia. }
  destruct (remove_at_spec n pos Hn Hpos') as (n' & En & Hn' & Hcnt & Hl & Hfr & Hks & Hss & Hok).
  destruct (remove_at_end h lo hi key _ t h' lo' hi' id n cs pos around n' HL Hkp Hn' Hl Hks Hss) as (t' & l & r & r' & N1 & N2 & N3 & N4 & N5 & N6).
  destruct (to_nodes _ _ Ht id n Hidn) as (fid & k & p & Hm & Hc & Hbt & Hna).
  assert (Hbf : bframe n' = Some fid) by (by rewrite Hfr, <- Hna).
  destruct (store_end init (id, n, pos) pl s n' fid k p (to_wf _ _ Ht) Hp Hnd Hm Hc Hbt (Hok (to_ok _ _ Ht id n Hidn)) Hbf) as (Es & Hfit & Hna' & Hp').
  set (path := init ++ [(id, n, pos)]) in *. set (c := fill path btree_cursor_init) in *. set (p' := patch p _ _) in *.
  destruct (cursor_end init (id, n, pos) c eq_refl Hlen) as (Hd & Hcn & Hcp & Hcs).
  destruct (put_spec pl (to_wf _ _ Ht) id k p k p' Hc Hfit) as (Hwf1 & _ & Hc1). cbn [step_id fst snd] in *.
  assert (Hids : step_id <$> (init ++ [(id, n', pos)]) = step_id <$> path) by (unfold path; by rewrite !fmap_app).
  assert (Hm1 : buf_map (put id k p' pl) !! id = Some fid) by (by rewrite buf_map_put).
  pose proof (dirty_end init (id, n', pos) (put id k p' pl) s fid k p' Hwf1 Hp' ltac:(rewrite Hids; exact Hnd) Hm1 Hc1) as Edirty.
  cbn [step_id fst snd] in Edirty. rewrite put_put, Hids in Edirty.
  assert (Hfit' : page_fits id (dirty k) p') by (by destruct Hfit as (? & ? & ?)).
  assert (Hok' : node_ok n') by (by apply Hok, (to_ok _ _ Ht id)).
  assert (Ht' : tree_on (put id (dirty k) p' pl) t') by (eapply (put_tree pl t t' id n n'); done).
  exists (put id (dirty k) p' pl), t'. split; [|done].
  set (c' := set_cnode (length init) n' c). assert (Hlt : (length init < length (cnodes c))%nat) by (by eapply lookup_lt_Some).
  assert (Hc0 : exists m, cnodes c' !! 0%nat = Some m /\ 0 < key_count m).
  { unfold c'. cbn [set_cnode cnodes]. destruct (decide (init = [])) as [->|Hne].
    - exists n'. rewrite list_lookup_insert_eq by done. split; [done|]. change BTREE_MIN_KEYS with 2 in Hmin. lia.
    - exists (bt_node t). rewrite list_lookup_insert_ne by (by destruct init). split; [|done].
      apply (Hcs 0%nat (bt_id t, bt_node t, hpos)). fold path. by rewrite Hhead. }
  destruct Hc0 as (m & Hm0 & Hmc). eapply (delete_run (bt_id t) key init (id, n, pos) c n' m); try done.
  - unfold btree_node_is_underflow. rewrite Hcnt. apply Z.ltb_ge. lia.
  - unfold mark_dirty, node_frame. rewrite Hbf. cbn [in_bounds]. by erewrite bind_ok by reflexivity.
  - apply (cleanup_end init (id, n, pos) n'); [apply Ht'| |exact Hnd|exact Hfr|exact Hd|];
      [by apply (pages_put init (id, n, pos) pl fid k p (dirty k) p' n' (to_wf _ _ Ht))|].
    intros i q Hq. unfold c'. cbn [set_cnode cnodes]. destruct (decide (i = length init)) as [->|Hi].
    + exists n'. rewrite list_lookup_insert_eq by done. split; [done|]. rewrite list_lookup_middle in Hq by done. by injection Hq as <-.
    + exists (step_node q). rewrite list_lookup_insert_ne by done. split; [by apply Hcs|done].
Qed.

(** ** Lookup *)
Lemma match_absent ks key : forall steps i, (i + steps <= length ks)%nat ->
  (forall j, (i <= j < i + steps)%nat -> ks !! j <> Some key) -> match_loop ks i steps key = Some None.
Proof.
  induction steps as [|st IH]; intros i Hl Hno; [done|]. cbn [match_loop]. destruct (lookup_lt_is_Some_2 ks i ltac:(lia)) as [k Hk].
  rewrite Hk. cbn. destruct (Z.eqb_spec k key) as [->|]; [by apply Hno in Hk; [|lia]|]. apply IH; [lia|]. intros j Hj. apply Hno. lia.
Qed.
Lemma match_pos_spec n key : node_wf n -> sorted_keys n -> exists m, match_pos n key = Some m /\
  match m with Some pos => node_keys n !! pos = Some key | None => key ∉ node_keys n end.
Proof.
  intros Hn Hs. pose proof Hn as [Hk _ Hc]. unfold match_pos. destruct (decide (key ∈ node_keys n)) as [(pos & Hp)%list_elem_of_lookup|Hni].
  - assert (Hlt : Z.of_nat pos < key_count n).
    { apply lookup_lt_Some in Hp. unfold node_keys in Hp. rewrite length_take in Hp. lia. }
    exists (Some pos). split; [|done]. apply match_loop_spec; [lia|lia|by rewrite <- lookup_node_keys|]. intros j Hj Hjk.
    rewrite <- lookup_node_keys in Hjk by (done || lia). pose proof (Hs j pos key key ltac:(lia) Hjk Hp). lia.
  - exists None. split; [|done]. apply match_absent; [lia|]. intros j Hj Hjk. apply Hni, (list_elem_of_lookup_2 _ j).
    by rewrite lookup_node_keys by (done || lia).
Qed.
Lemma desc_pos_search n key : node_wf n -> desc_pos n key = btree_search_position n key.
Proof. intros Hn. unfold desc_pos, btree_search_position. by rewrite count_int. Qed.

(** Opening and closing one page of the lookup. *)
Lemma open_close id n pl s : pool_wf pl -> page_node pl id n -> exists fid,
  kds_buf_lookup_or_load id (wp pl s) = Ret (PTR fid) (wp (pin id pl) s) /\
  load_btree_node fid (wp (pin id pl) s) = Ret n (wp (pin id pl) s) /\
  kds_buf_unpin fid (wp (pin id pl) s) = Ret tt (wp pl s).
Proof.
  intros Hwf Hpn. destruct (open_node id n pl s Hwf Hpn) as (fid & E & El & Hm & _). exists fid. split; [done|]. split; [done|].
  apply (unpin_first (id, n, 0%nat) [] pl s fid); [done|by constructor|apply not_elem_of_nil|done].
Qed.
Lemma index_descend_spec h : forall lo hi t key fuel pl s,
  tree_wf h lo hi t -> lo < key <= hi -> (h < fuel)%nat -> pool_wf pl -> (forall id n, (id, n) ∈ nodes t -> page_node pl id n) ->
  exists r, index_descend fuel key (bt_id t) (wp pl s) = Ret r (wp pl s) /\
    ((exists id n pos, (id, n) ∈ nodes t /\ level n = 0 /\ node_keys n !! pos = Some key /\ r = (0, slot_at n pos)) \/
     (r = (- ENOENT, None) /\ forall id n, (id, n) ∈ nodes t -> level n = 0 -> key ∉ node_keys n)).
Proof.
  induction h as [|h IH]; intros lo hi [id n cs] key fuel pl s (Hn & Hs & Hl & Hb & Hcs) Hk Hf Hwf Hpn; (destruct fuel as [|fuel]; [lia|]);
    (assert (Hin : (id, n) ∈ nodes (BT id n cs)) by by left); destruct (open_close id n pl s Hwf (Hpn id n Hin)) as (fid & E & El & Eu);
    destruct (match_pos_spec n key Hn Hs) as (m & Em & Hm); cbn [index_descend bt_id];
    erewrite bind_ok by exact E; cbn beta iota; erewrite bind_ok by exact El; rewrite Em; cbn [in_bounds];
    erewrite (bind_ok (ret m)) by reflexivity; rewrite Hl.
  - change (Z.of_nat 0 =? 0) with true. destruct m as [pos|]; cbn iota.
    + assert (Hpos : (pos < 5)%nat).
      { apply lookup_lt_Some in Hm. unfold node_keys in Hm. rewrite length_take in Hm. destruct Hn. lia. }
      destruct (lookup_lt_is_Some_2 (slots n) pos) as [w Hw]; [destruct Hn; lia|]. unfold slot_at. rewrite Hw. cbn [in_bounds].
      erewrite (bind_ok (ret w)) by reflexivity. erewrite bind_ok by exact Eu. eexists. split; [reflexivity|]. left.
      exists id, n, pos. split_and!; try done. unfold slot_at. by rewrite Hw.
    + erewrite bind_ok by exact Eu. eexists. split; [reflexivity|]. right. split; [done|]. subst cs.
      intros i a [[-> ->]|(? & ? & ? & _)]%elem_of_nodes _; done.
  - destruct (Z.eqb_spec (Z.of_nat (S h)) 0); [lia|]. rewrite desc_pos_search by done. destruct Hcs as [Hsl Hcs].
    destruct (search_position_spec n key Hn) as (pos & Epos & Hle & _). rewrite Epos. cbn [in_bounds].
    erewrite (bind_ok (ret pos)) by reflexivity. pose proof (children_length n cs Hn Hsl) as Hlen. pose proof (position_bound n key pos Hn Epos) as Hpb.
    destruct (lookup_lt_is_Some_2 cs pos) as [c Hc]; [lia|].
    assert (slot_at n pos = Some (bt_id c)) as ->.
    { pose proof (list_lookup_fmap bt_id cs pos) as H. rewrite Hsl, Hc in H. by apply lookup_take_Some in H as [H _]. }
    cbn [in_bounds]. erewrite (bind_ok (ret (bt_id c))) by reflexivity. erewrite bind_ok by exact Eu.
    destruct (desc_interval n key lo hi pos Hn Hs Hk Epos) as [Hint Huniq].
    destruct (IH _ _ c key fuel pl s (Hcs pos c Hc) Hint ltac:(lia) Hwf) as (r & Er & Hr).
    { intros i a Ha. apply Hpn, elem_of_nodes. right. eauto. }
    exists r. split; [exact Er|]. destruct Hr as [(i & a & q & Ha & Hr)|[-> Hno]].
    + left. exists i, a, q. split; [|done]. apply elem_of_nodes. right. eauto.
    + right. split; [done|]. intros i a [[-> ->]|(j & d & Hj & Ha)]%elem_of_nodes Hla; [lia|]. intros Hx.
      pose proof (lookup_lt_Some _ _ _ Hj). assert (j = pos) as ->.
      { apply Huniq; [|lia]. apply (tree_wf_bounds _ _ _ _ _ (Hcs j d Hj)). by exists i, a. }
      assert (d = c) as -> by congruence. by apply (Hno i a).
Qed.

(** C21.  The lookup of an index of any depth, on every branch.  It finds the keys
    of the leaves (and gives the slot to the left), no others: a key that
    separates subtrees, which an insertion refuses as a duplicate, is
    reported as absent. *)
Theorem index_search_spec rel h lo hi key t pl s :
  rel_kind rel = clustered_val KDS_CLUSTERED_BTREE -> root_page_id rel = bt_id t ->
  tree_on pl t -> tree_wf h lo hi t -> lo < key < hi -> (h < BTREE_MAX_DEPTH)%nat ->
  (forall id n pos, (id, n) ∈ nodes t -> level n = 0 -> node_keys n !! pos = Some key ->
     kds_index_search (Some rel) key (wp pl s) = Ret (0, slot_at n pos) (wp pl s)) /\
  (separator_in key t \/ ~ key_in key t -> kds_index_search (Some rel) key (wp pl s) = Ret (- ENOENT, None) (wp pl s)).
Proof.
  intros Hkind Hroot Ht Hw Hk Hh. unfold kds_index_search. rewrite Hkind, Hroot. cbn [clustered_val Z.eqb negb Pos.eqb]. cbn iota.
  destruct (index_descend_spec h lo hi t key BTREE_MAX_DEPTH pl s Hw ltac:(lia) Hh (to_wf _ _ Ht) (to_nodes _ _ Ht)) as (r & -> & Hr). split.
  - intros id n pos Hin Hl Hp. destruct Hr as [(i & a & q & Ha & Hla & Hq & ->)|[_ Hno]].
    + assert ((i, a) = (id, n)) as [= -> ->].
      { apply (key_unique h lo hi t (i, a) (id, n) key Hw); try done; by eapply list_elem_of_lookup_2. }
      destruct (decide (q = pos)) as [->|]; [done|]. pose proof (tree_wf_sorted _ _ _ _ Hw (id, n) Hin) as Hs. cbn in Hs.
      exfalso. destruct (decide (q < pos)%nat); [pose proof (Hs q pos key key ltac:(lia) Hq Hp)|pose proof (Hs pos q key key ltac:(lia) Hp Hq)]; lia.
    + exfalso. apply (Hno id n Hin Hl). by eapply list_elem_of_lookup_2.
  - intros Hsep. destruct Hr as [(i & a & q & Ha & Hla & Hq & ->)|[-> _]]; [exfalso|done].
    assert (Hx : key ∈ node_keys a) by (by eapply list_elem_of_lookup_2). destruct Hsep as [(j & b & Hb & Hlb & Hxb)|Hno].
    + assert ((i, a) = (j, b)) as [= -> ->] by (by apply (key_unique h lo hi t (i, a) (j, b) key Hw)). done.
    + apply Hno. by exists i, a.
Qed.
End Ops.

(** ** Concrete instances

    A tree of two levels: a root with three keys and four leaves. *)
#[local] Existing Instance quiet_kernel.
#[local] Opaque KDS_BUF_NR_FRAMES.
Definition demo_node (fid : nat) (lv : Z) (ks ss : list Z) : kds_btree_node :=
  BNode lv (zlen ks) (take 4 (ks ++ replicate 4 0)) (take 5 (ss ++ replicate 5 0)) 0 0 (Some fid).
Definition demo_leaf (id : Z) (fid : nat) (ks ss : list Z) : btree := BT id (demo_node fid 0 ks ss) [].
Definition demo_tree : btree :=
  BT 200 (demo_node 4 1 [20; 40; 60] [201; 202; 203; 204])
    [demo_leaf 201 3 [10] [0; 301]; demo_leaf 202 2 [30] [0; 302]; demo_leaf 203 1 [50] [0; 303]; demo_leaf 204 0 [70] [0; 304]].
(** The pages of a tree, with a type for those of inner nodes. *)
Definition typed_page (ty : Z) (q : Z * kds_btree_node) : kds_page * bytes :=
  (Kpage q.1 (PageHdr (if level q.2 =? 0 then KDS_PAGE_TYPE_BTREE_DATA else ty) 0 3 (zeros 32)) 0,
   patch (zeros KDS_PAGE_SIZE) KDS_PAGE_HDR_SIZE (node_enc q.2)).
Definition typed_pool (ty : Z) (t : btree) : kds_buf_pool := pool_of (map (typed_page ty) (nodes t)).
(** Each node has the frame that the pool gives to its page. *)
Record poolable (t : btree) : Prop := {
  po_ids : NoDup (tree_ids t);
  po_few : (length (nodes t) <= 5)%nat;
  po_ok : forall i n, (i, n) ∈ nodes t -> node_ok n;
  po_frames : forall i n, (i, n) ∈ nodes t -> exists fid, buf_map (typed_pool KDS_PAGE_TYPE_BTREE_ROOT t) !! i = Some fid /\ bframe n = Some fid }.
Lemma typed_pages ty t : poolable t ->
  pool_wf (typed_pool ty t) /\ forall i n, (i, n) ∈ nodes t -> cached (typed_pool ty t) i = Some (typed_page ty (i, n)).
Proof.
  intros [Hids Hlen Hok _]. destruct (pool_of_ok (map (typed_page ty) (nodes t))) as (Hwf & _ & Hc).
  - pose proof nr_frames. rewrite length_map. lia.
  - rewrite map_map. exact Hids.
  - apply Forall_forall. intros q ([i n] & -> & Hin)%list_elem_of_fmap. split; [done|]. split; [|done].
    apply (zlen_patch_node _ n); [by apply zlen_zeros|by eapply Hok].
  - split; [exact Hwf|]. intros i n Hin.
    apply (Hc (typed_page ty (i, n)).1 (typed_page ty (i, n)).2). apply (list_elem_of_fmap_2 (typed_page ty) _ (i, n) Hin).
Qed.
Lemma typed_map ty ty' t : buf_map (typed_pool ty t) = buf_map (typed_pool ty' t).
Proof.
  unfold typed_pool. induction (nodes t) as [|q l IH]; [done|]. cbn. by rewrite IH, !length_map.
Qed.
Lemma typed_tree_on ty t : poolable t -> ty = KDS_PAGE_TYPE_BTREE_ROOT \/ ty = KDS_PAGE_TYPE_BTREE_INTERNAL -> tree_on (typed_pool ty t) t.
Proof.
  intros Hpo Hty. destruct (typed_pages ty t Hpo) as [Hwf Hc]. destruct Hpo as [Hids _ Hok Hfr]. split; [exact Hwf|exact Hids| |exact Hok]. intros i n Hin.
  destruct (Hfr i n Hin) as (fid & Hm & Hf). exists fid, (typed_page ty (i, n)).1, (typed_page ty (i, n)).2.
  split; [by rewrite (typed_map ty KDS_PAGE_TYPE_BTREE_ROOT)|]. split; [by apply Hc|]. split.
  - cbn. destruct (level n =? 0); [done|]. by destruct Hty as [-> | ->].
  - apply (node_at_patch _ fid n); [by apply zlen_zeros|by eapply Hok|done].
Qed.

Lemma demo_node_wf fid lv ks ss : zlen ks <= 4 -> (length ss <= 5)%nat -> node_wf (demo_node fid lv ks ss).
Proof.
  intros Hk Hs. unfold zlen in *. split; cbn [keys slots key_count demo_node];
    rewrite ?length_take, ?length_app, ?length_replicate; unfold zlen; lia.
Qed.
Lemma demo_node_sorted fid lv ks ss : zlen ks <= 4 -> bool_decide (StronglySorted Z.lt ks) = true -> sorted_keys (demo_node fid lv ks ss).
Proof.
  intros Hk H%bool_decide_eq_true_1 i j a b Hij Ha Hb. unfold node_keys in *. cbn [keys key_count demo_node] in *. unfold zlen in *.
  apply lookup_take_Some in Ha as [Ha Hi], Hb as [Hb Hj]. apply lookup_take_Some in Ha as [Ha _], Hb as [Hb _].
  rewrite lookup_app_l in Ha, Hb by lia. revert i j Hij Ha Hb Hi Hj. clear Hk. induction H as [|x l _ IH Hx]; intros [|i] [|j] Hij Ha Hb Hi Hj; try lia; try done.
  - injection Ha as <-. cbn in Hb. by apply (Forall_lookup_1 _ _ _ _ Hx Hb).
  - cbn in *. apply (IH i j); try done; lia.
Qed.
Lemma demo_tree_wf : tree_wf 1 (-1) (2 ^ 64) demo_tree.
Proof.
  split_and!; [apply demo_node_wf; [by vm_compute|cbn; lia]|by apply demo_node_sorted|reflexivity|repeat constructor; vm_compute; done|reflexivity|].
  intros [|[|[|[|i]]]] c Hc; try done; injection Hc as <-;
    (split_and!; [apply demo_node_wf; [by vm_compute|cbn; lia]|by apply demo_node_sorted|reflexivity|repeat constructor; vm_compute; done|reflexivity]).
Qed.
(** Going through the nodes of a tree. *)
Ltac demo_nodes H :=
  cbn in H; repeat (apply elem_of_cons in H as [[= -> ->]|H]); [..|by apply not_elem_of_nil in H].
Ltac demo_poolable :=
  let Hin := fresh "Hin" in split; [cbn; repeat constructor; rewrite ?elem_of_cons, ?elem_of_nil; lia|cbn; lia| |];
    intros i n Hin; demo_nodes Hin;
    first [split; [reflexivity|]; split; [reflexivity|]; repeat constructor; by vm_compute
          |eexists; split; [unfold typed_pool; cbn; by rewrite !lookup_insert|reflexivity]].
Lemma demo_poolable : poolable demo_tree.
Proof. demo_poolable. Qed.
Definition demo_pool : kds_buf_pool := typed_pool KDS_PAGE_TYPE_BTREE_ROOT demo_tree.
Lemma demo_tree_on : tree_on demo_pool demo_tree.
Proof. apply typed_tree_on; [exact demo_poolable|by left]. Qed.
Lemma demo_absent x : bool_decide (Forall (fun q => x ∉ node_keys q.2) (nodes demo_tree)) = true -> ~ key_in x demo_tree.
Proof. intros H%bool_decide_eq_true_1 (i & n & Hin & Hx). exact (proj1 (Forall_forall _ _) H (i, n) Hin Hx). Qed.
Lemma demo_in_50 : key_in 50 demo_tree.
Proof. exists 203, (demo_node 1 0 [50] [0; 303]). split; [by do 3 right; left|by left]. Qed.
Lemma demo_in_40 : key_in 40 demo_tree.
Proof. exists 200, (bt_node demo_tree). split; [by left|by right; left]. Qed.
Lemma demo_levels : (1 < BTREE_MAX_DEPTH)%nat.
Proof. unfold BTREE_MAX_DEPTH. lia. Qed.
Lemma demo_key x : 0 <= x < 1000 -> -1 < x < 2 ^ 64 /\ u64_ok x.
Proof. intros H. unfold u64_ok. lia. Qed.

Lemma btree_insert_spec_witness :
  btree_insert 200 40 99 (wp demo_pool demo_state) = Ret (- EEXIST) (wp demo_pool demo_state) /\
  exists pl' t', btree_insert 200 35 99 (wp demo_pool demo_state) = Ret 0 (wp pl' demo_state) /\
    tree_on pl' t' /\ key_in 35 t' /\ key_in 50 t'.
Proof.
  destruct (demo_key 40 ltac:(lia)) as [K1 K2], (demo_key 35 ltac:(lia)) as [L1 L2], (demo_key 99 ltac:(lia)) as [_ V].
  split.
  - exact (proj1 (btree_insert_spec 1 (-1) (2 ^ 64) 40 99 demo_tree demo_pool demo_state demo_tree_on demo_tree_wf K1 demo_levels K2 V) demo_in_40).
  - destruct (proj2 (btree_insert_spec 1 (-1) (2 ^ 64) 35 99 demo_tree demo_pool demo_state demo_tree_on demo_tree_wf L1 demo_levels L2 V))
      as (i & n & Hin & Hl & H); [apply demo_absent; by vm_compute|].
    assert ((key_count n <? BTREE_MAX_KEYS) = true) as E.
    { demo_nodes Hin; (reflexivity || discriminate Hl). }
    rewrite E in H. destruct H as (pl' & t' & Ei & Ht' & _ & _ & _ & Hk & _). exists pl', t'.
    split; [exact Ei|]. split; [exact Ht'|]. split; [apply Hk; by left|apply Hk; right; exact demo_in_50].
Defined.
Lemma btree_delete_spec_witness :
  key_in 50 demo_tree /\
  exists pl' t', btree_delete 200 40 (wp demo_pool demo_state) = Ret 0 (wp pl' demo_state) /\ tree_on pl' t' /\ ~ key_in 50 t'.
Proof.
  split; [exact demo_in_50|]. destruct (demo_key 40 ltac:(lia)) as [K1 K2].
  destruct (proj2 (btree_delete_spec 1 (-1) (2 ^ 64) 40 demo_tree demo_pool demo_state demo_tree_on demo_tree_wf K1 demo_levels ltac:(by vm_compute)) demo_in_40)
    as (i & n & pos & Hin & Hp & H1).
  assert (i = 200 /\ n = bt_node demo_tree /\ pos = 1%nat) as (-> & -> & ->).
  { demo_nodes Hin; destruct pos as [|[|[|pos]]]; (discriminate Hp || done). }
  destruct (H1 eq_refl) as (pl' & t' & Ed & Ht' & _ & _ & c & Hs & Hsub & Hk).
  exists pl', t'. split; [exact Ed|]. split; [exact Ht'|]. intros (_ & _ & Hno)%Hk.
  apply Hno. destruct c as [ci cn ccs]. injection Hs as <-. pose proof (Hsub (203, cn) ltac:(by left)) as Hcn.
  assert (Hn : forall i, (i, cn) ∈ nodes demo_tree -> i = 203 -> 50 ∈ node_keys cn).
  { intros i Hi Hi'. demo_nodes Hi; (discriminate Hi' || by left). }
  exists 203, cn. split; [by left|by apply (Hn 203)].
Defined.
Lemma index_search_spec_witness :
  let rel := Some (Relation 4001 1 1 200 []) in
  kds_index_search rel 50 (wp demo_pool demo_state) = Ret (0, Some 0) (wp demo_pool demo_state) /\
  kds_index_search rel 40 (wp demo_pool demo_state) = Ret (- ENOENT, None) (wp demo_pool demo_state).
Proof.
  destruct (demo_key 40 ltac:(lia)) as [K1 _], (demo_key 50 ltac:(lia)) as [K2 _]. split.
  - apply (proj1 (index_search_spec (Relation 4001 1 1 200 []) 1 (-1) (2 ^ 64) 50 demo_tree demo_pool demo_state eq_refl eq_refl demo_tree_on demo_tree_wf
      K2 demo_levels) 203 (demo_node 1 0 [50] [0; 303]) 0%nat); [by do 3 right; left|done|done].
  - apply (proj2 (index_search_spec (Relation 4001 1 1 200 []) 1 (-1) (2 ^ 64) 40 demo_tree demo_pool demo_state eq_refl eq_refl demo_tree_on demo_tree_wf
      K1 demo_levels)). left. exists 200, (bt_node demo_tree). split; [by left|]. split; [done|by right; left].
Defined.
