(* ===== verification/TraverseSpec.v ===== *)
(** * TraverseSpec: the traversal of a tree as a list of visits

    [visits] lists the calls of the callback for a mathematical tree, in
    order; the recursion of btree.c over pages, with its pins, is shown to be
    the iteration over this list. *)
From S2P Require Import Prelude Layout Heap HeapSpec HeapOps TupleStore State Disk DiskSpec Meta Pool PoolSpec Page Btree BtreeSpec Store Types Parser Catalog CatalogSpec Relation RelationSpec Tree TreeSpec.
From stdpp Require Import prelude gmap list.
From Stdlib Require Import ZArith Lia.
Local Open Scope Z_scope.
Local Open Scope list_scope.
Local Open Scope kds_scope.

(** A call of the callback: node, frame, depth and position of the key, or -1. *)
Record visit := Visit { v_node : kds_btree_node; v_frame : nat; v_depth : nat; v_key : Z }.
Definition leaf_visits (n : kds_btree_node) (fid d : nat) : list visit :=
  Visit n fid d (-1) :: map (fun i => Visit n fid d (Z.of_nat i)) (upto 0 (key_count n)).
Definition frame_of (pl : kds_buf_pool) (id : Z) : nat := default 0%nat (buf_map pl !! id).
(** A node and its children from left to right; keys only of the leaves. *)
Fixpoint visits (pl : kds_buf_pool) (d : nat) (t : btree) : list visit :=
  let 'BT id n cs := t in
  match cs with
  | [] => leaf_visits n (frame_of pl id) d
  | _ => Visit n (frame_of pl id) d (-1) :: flat_map (visits pl (S d)) cs
  end.
(** The type of a page tells inner nodes from leaves. *)
Definition typed (pl : kds_buf_pool) (t : btree) : Prop := forall id n k p,
  (id, n) ∈ nodes t -> cached pl id = Some (k, p) -> (ph_type (kp_hdr k) =? KDS_PAGE_TYPE_BTREE_INTERNAL) = negb (level n =? 0).

Section Traverse.
Context `{K : Kernel}.
(** A callback that leaves the pool alone; its effect on the rest is [obs]. *)
Context (cb : traverse_cb) (obs : visit -> kds_state -> Z * kds_state).
Hypothesis Hcb : forall n fid d i pl s,
  cb n fid d i (wp pl s) = let '(r, s') := obs (Visit n fid d i) s in Ret r (wp pl s').

(** Visiting a list up to the first result that is not 0. *)
Fixpoint run_visits (l : list visit) (s : kds_state) : Z * kds_state :=
  match l with
  | [] => (0, s)
  | v :: l => let '(r, s') := obs v s in if r =? 0 then run_visits l s' else (r, s')
  end.
Definition ran (pl : kds_buf_pool) (o : Z * kds_state) : outcome kds_state Z := Ret o.1 (wp pl o.2).

Lemma run_app l1 l2 s :
  run_visits (l1 ++ l2) s = let '(r, s') := run_visits l1 s in if r =? 0 then run_visits l2 s' else (r, s').
Proof.
  revert s. induction l1 as [|v l1 IH]; intros s; cbn [run_visits app]; [done|].
  destruct (obs v s) as [r s']. destruct (r =? 0) eqn:E; [apply IH|]. by rewrite E.
Qed.
Lemma callback_keys_ran n fid d idx pl : forall s,
  callback_keys cb n fid d idx (wp pl s) = ran pl (run_visits (map (fun i => Visit n fid d (Z.of_nat i)) idx) s).
Proof.
  induction idx as [|i idx IH]; intros s; cbn [callback_keys map run_visits]; [done|]. unfold bind. rewrite Hcb.
  destruct (obs _ s) as [r s']. destruct (r =? 0) eqn:E; cbn [negb]; [apply IH|done].
Qed.
Lemma leaf_ran n fid d pl s : kds_btree_traverse_leaf cb n fid d (wp pl s) = ran pl (run_visits (leaf_visits n fid d) s).
Proof.
  unfold kds_btree_traverse_leaf, leaf_visits. cbn [run_visits]. unfold bind at 1. rewrite Hcb.
  destruct (obs _ s) as [r s']. destruct (r =? 0) eqn:E; cbn [negb]; [apply callback_keys_ran|done].
Qed.

(** The loop over the children, as the recursion unfolds to it. *)
Definition children_of (fuel : nat) (n : kds_btree_node) (d : nat) : list nat -> M kds_state Z :=
  fix children (idx : list nat) : M kds_state Z :=
    match idx with
    | [] => ret 0
    | i :: idx =>
        id <- in_bounds (slot_at n i) ;;
        frame <- kds_buf_lookup_or_load id ;;
        match frame with
        | ERR_PTR e => ret e
        | PTR cfid =>
            child <- load_btree_node cfid ;;
            type <- on_frame cfid (kp_get (fun k => ph_type (kp_hdr k))) ;;
            r <- (if type =? KDS_PAGE_TYPE_BTREE_INTERNAL
                  then kds_btree_traverse_internal fuel cb child cfid (S d)
                  else kds_btree_traverse_leaf cb child cfid (S d)) ;;
            kds_buf_unpin cfid ;;
            if negb (r =? 0) then ret r else children idx
        end
    end.
Lemma internal_unfold fuel n fid d s :
  kds_btree_traverse_internal (S fuel) cb n fid d s =
    (r <- cb n fid d (-1) ;; if negb (r =? 0) then ret r else children_of fuel n d (upto 0 (key_count n + 1))) s.
Proof. reflexivity. Qed.

(** The facts about the pages below a node, and that a pin keeps them. *)
Record below (pl : kds_buf_pool) (t : btree) : Prop := {
  be_wf : pool_wf pl;
  be_nodes : forall id n, (id, n) ∈ nodes t -> page_node pl id n;
  be_typed : typed pl t }.
Lemma below_child pl id n cs i c : below pl (BT id n cs) -> cs !! i = Some c -> below pl c.
Proof.
  intros [Hwf Hn Ht] Hc. assert (Hin : forall q, q ∈ nodes c -> q ∈ nodes (BT id n cs)).
  { intros [j m] Hq. apply (elem_of_nodes j m (BT id n cs)). right. eauto. }
  split; [done|intros j m Hm; by apply Hn, Hin|intros j m k p Hm; by apply Ht, Hin].
Qed.
Lemma below_pin pl t id n : below pl t -> page_node pl id n -> below (pin id pl) t.
Proof.
  intros [Hwf Hn Ht] (fid & k0 & p0 & _ & Hc0 & _). 
  destruct (pin_spec pl Hwf id k0 p0 Hc0) as (Hwf1 & [_ _ Ho] & Hc1 & Hbm). split; [done| |].
  - intros j m Hm. destruct (Hn j m Hm) as (f & k & p & Hj & Hcj & Hb & Hna). exists f. rewrite Hbm.
    destruct (decide (j = id)) as [->|Hne]; [|exists k, p; by rewrite Ho].
    assert (k0 = k /\ p0 = p) as [-> ->] by (split; congruence). by exists (pinned k), p.
  - intros j m k p Hm Hc. destruct (decide (j = id)) as [->|Hne]; [|rewrite Ho in Hc by done; by eapply Ht].
    rewrite Hc1 in Hc. injection Hc as <- <-. change (kp_hdr (pinned k0)) with (kp_hdr k0). by eapply Ht.
Qed.

(** One child, given what its traversal does. *)
Definition child_ran (fuel : nat) (d : nat) (c : btree) : Prop := forall pl s, below pl c ->
  (if level (bt_node c) =? 0 then kds_btree_traverse_leaf cb (bt_node c) (frame_of pl (bt_id c)) d
   else kds_btree_traverse_internal fuel cb (bt_node c) (frame_of pl (bt_id c)) d) (wp pl s) =
  ran pl (run_visits (visits pl d c) s).
Lemma visits_pin pl id d t : pool_wf pl -> visits (pin id pl) d t = visits pl d t.
Proof.
  intros Hwf. assert (Hf : forall x, frame_of (pin id pl) x = frame_of pl x).
  { intros x. unfold frame_of, pin. destruct (cached pl id) as [[k p]|]; [by rewrite buf_map_put|done]. }
  revert d t. fix IH 2. intros d [x n cs]. cbn [visits]. rewrite !Hf. destruct cs as [|c cs]; [done|]. f_equal.
  generalize (c :: cs). intros l. induction l as [|y l IHl]; [done|]. cbn [flat_map]. by rewrite IH, IHl.
Qed.
Lemma child_step fuel n d i idx c pl s :
  slot_at n i = Some (bt_id c) -> below pl c -> child_ran fuel (S d) c ->
  children_of fuel n d (i :: idx) (wp pl s) =
    let '(r, s') := run_visits (visits pl (S d) c) s in if r =? 0 then children_of fuel n d idx (wp pl s') else Ret r (wp pl s').
Proof.
  intros Hs Hb Hc. destruct c as [id m cs]. cbn [bt_id bt_node] in *. pose proof Hb as [Hwf Hn Ht].
  pose proof (Hn id m ltac:(by left)) as Hpn. destruct (open_node id m pl s Hwf Hpn) as (fid & E & El & Hm & _).
  pose proof Hpn as (f1 & k & p & _ & Hck & _). destruct (pin_spec pl Hwf id k p Hck) as (Hwf1 & _ & Hck1 & Hbm).
  cbn [children_of]. rewrite Hs. cbn [in_bounds]. erewrite (bind_ok (ret id)) by reflexivity. erewrite bind_ok by exact E. cbn beta iota.
  erewrite bind_ok by exact El. erewrite bind_ok by (eapply (kp_at id fid _ s (pinned k) p); [done|by rewrite Hbm|done]).
  change (ph_type (kp_hdr (pinned k))) with (ph_type (kp_hdr k)). rewrite (Ht id m k p ltac:(by left) Hck).
  pose proof (Hc (pin id pl) s (below_pin _ _ _ _ Hb Hpn)) as Er. rewrite visits_pin in Er by done.
  assert (Hfr : frame_of (pin id pl) id = fid) by (unfold frame_of; by rewrite Hbm, Hm). cbn [bt_id bt_node] in Er. rewrite Hfr in Er.
  assert (Er' : (if negb (level m =? 0) then kds_btree_traverse_internal fuel cb m fid (S d) else kds_btree_traverse_leaf cb m fid (S d))
    (wp (pin id pl) s) = ran (pin id pl) (run_visits (visits pl (S d) (BT id m cs)) s)) by (by destruct (level m =? 0)).
  destruct (run_visits (visits pl (S d) (BT id m cs)) s) as [r s']. erewrite bind_ok by exact Er'. cbn [fst snd].
  erewrite bind_ok by (apply (unpin_first (id, m, 0%nat) [] pl s' fid); [done|by constructor|apply not_elem_of_nil|done]).
  by destruct (r =? 0).
Qed.
Lemma children_ran fuel n d : forall cs i pl s,
  (forall j c, cs !! j = Some c -> slot_at n (i + j) = Some (bt_id c) /\ below pl c /\ child_ran fuel (S d) c) ->
  children_of fuel n d (seq i (length cs)) (wp pl s) = ran pl (run_visits (flat_map (visits pl (S d)) cs) s).
Proof.
  induction cs as [|c cs IH]; intros i pl s Hcs; [done|]. cbn [length seq flat_map].
  destruct (Hcs 0%nat c eq_refl) as (Hs & Hb & Hc). rewrite Nat.add_0_r in Hs. rewrite (child_step fuel n d i _ c pl s Hs Hb Hc), run_app.
  destruct (run_visits (visits pl (S d) c) s) as [r s']. destruct (r =? 0); [|done]. apply IH. intros j c' Hj.
  replace (S i + j)%nat with (i + S j)%nat by lia. by apply Hcs.
Qed.
Lemma internal_ran h : forall lo hi t fuel d, tree_wf h lo hi t -> (h <= fuel)%nat -> child_ran fuel d t.
Proof.
  induction h as [|h IH]; intros lo hi [id n cs] fuel d (Hn & Hs & Hl & Hb & Hcs) Hf pl s Hbe; cbn [bt_node bt_id]; rewrite Hl.
  - subst cs. cbn [Z.of_nat Z.eqb visits]. apply leaf_ran.
  - destruct (Z.eqb_spec (Z.of_nat (S h)) 0); [lia|]. destruct fuel as [|fuel]; [lia|]. rewrite internal_unfold. destruct Hcs as [Hsl Hcs].
    pose proof (children_length n cs Hn Hsl) as Hlen. unfold bind at 1. rewrite Hcb.
    assert (Hv : visits pl d (BT id n cs) = Visit n (frame_of pl id) d (-1) :: flat_map (visits pl (S d)) cs) by (by destruct cs).
    rewrite Hv. cbn [run_visits]. destruct (obs _ s) as [r s']. destruct (r =? 0) eqn:Er; cbn [negb]; [|done].
    assert (upto 0 (key_count n + 1) = seq 0 (length cs)) as ->.
    { unfold upto. f_equal. rewrite Hlen. unfold node_keys. rewrite length_take. destruct Hn. lia. }
    apply children_ran. intros j c Hj. cbn [Nat.add]. split; [|split; [by eapply below_child|eapply IH; [by apply Hcs|lia]]].
    pose proof (list_lookup_fmap bt_id cs j) as H. rewrite Hsl, Hj in H. by apply lookup_take_Some in H as [H _].
Qed.

(** C23.  The traversal of a tree in the cache is the iteration of the callback
    over the list of visits, up to the first result that is not 0; its
    recursion ends (the height of the tree is enough fuel), every page is
    pinned during its visits only, and the pool is as before.  A root whose
    page is not marked as internal is taken for a leaf whatever it is. *)
Theorem traverse_equiv h lo hi t fuel pl s :
  tree_on pl t -> tree_wf h lo hi t -> (h <= fuel)%nat ->
  (typed pl t -> kds_btree_traverse fuel (frame_of pl (bt_id t)) cb (wp pl s) = ran pl (run_visits (visits pl 0 t) s)) /\
  (forall k p, cached pl (bt_id t) = Some (k, p) -> ph_type (kp_hdr k) <> KDS_PAGE_TYPE_BTREE_INTERNAL ->
    kds_btree_traverse fuel (frame_of pl (bt_id t)) cb (wp pl s) =
      ran pl (run_visits (leaf_visits (bt_node t) (frame_of pl (bt_id t)) 0) s)).
Proof.
  intros Ht Hw Hf. destruct t as [id n cs]. cbn [bt_id bt_node]. pose proof Ht as [Hwf _ Hn _].
  destruct (Hn id n ltac:(by left)) as (fid & k0 & p & Hm & Hc & Hb & Hna).
  assert (Hfr : frame_of pl id = fid) by (unfold frame_of; by rewrite Hm). rewrite Hfr. unfold kds_btree_traverse.
  erewrite bind_ok by (by eapply load_at). rewrite Hna.
  erewrite bind_ok by (eapply (kp_at id fid _ s k0 p); done). split.
  - intros Hty. rewrite (Hty id n k0 p ltac:(by left) Hc).
    pose proof (internal_ran h lo hi (BT id n cs) fuel 0 Hw Hf pl s ltac:(by split)) as E. cbn [bt_id bt_node] in E. rewrite Hfr in E.
    rewrite <- E. by destruct (level n =? 0).
  - intros k p' Hc' Hne. assert (k = k0) as -> by congruence. apply Z.eqb_neq in Hne as ->. apply leaf_ran.
Qed.
End Traverse.

(** ** A concrete instance: a callback that counts its calls *)
#[local] Existing Instance quiet_kernel.
#[local] Opaque KDS_BUF_NR_FRAMES.
Definition count_cb : traverse_cb := fun n fid d i s => Ret 0 (set_tick (S (tick s)) s).
Definition count_obs (v : visit) (s : kds_state) : Z * kds_state := (0, set_tick (S (tick s)) s).
Definition inner_pool : kds_buf_pool := typed_pool KDS_PAGE_TYPE_BTREE_INTERNAL demo_tree.
Lemma inner_typed : typed inner_pool demo_tree.
Proof.
  intros i n k p Hin Hc. unfold inner_pool in Hc. destruct (typed_pages KDS_PAGE_TYPE_BTREE_INTERNAL demo_tree demo_poolable) as [_ H].
  rewrite (H i n Hin) in Hc. injection Hc as <- <-. cbn. by destruct (level n =? 0).
Qed.
Lemma ticks_of l : forall s, tick (run_visits count_obs l s).2 = (length l + tick s)%nat /\ (run_visits count_obs l s).1 = 0.
Proof. induction l as [|v l IH]; intros s; [done|]. cbn. destruct (IH (set_tick (S (tick s)) s)) as [-> ->]. cbn. split; [lia|done]. Qed.

(** Nine calls for the five nodes and the four keys of the leaves; four when
    the page of the root is not marked as internal. *)
Lemma traverse_equiv_witness :
  (exists s, kds_btree_traverse 1 (frame_of inner_pool 200) count_cb (wp inner_pool demo_state) = Ret 0 (wp inner_pool s) /\
    tick s = (9 + tick demo_state)%nat) /\
  (exists s, kds_btree_traverse 1 (frame_of demo_pool 200) count_cb (wp demo_pool demo_state) = Ret 0 (wp demo_pool s) /\
    tick s = (4 + tick demo_state)%nat).
Proof.
  assert (Hcb : forall n fid d i pl s, count_cb n fid d i (wp pl s) = let '(r, s') := count_obs (Visit n fid d i) s in Ret r (wp pl s'))
    by reflexivity. split.
  - destruct (traverse_equiv count_cb count_obs Hcb 1 (-1) (2 ^ 64) demo_tree 1 inner_pool demo_state) as [H _];
      [apply typed_tree_on; [exact demo_poolable|by right]|exact demo_tree_wf|done|].
    eexists. split; [etrans; [exact (H inner_typed)|]; unfold ran; f_equal; apply ticks_of|]. etrans; [apply ticks_of|]. reflexivity.
  - destruct (traverse_equiv count_cb count_obs Hcb 1 (-1) (2 ^ 64) demo_tree 1 demo_pool demo_state demo_tree_on demo_tree_wf) as [_ H]; [done|].
    specialize (H _ _ (proj2 (typed_pages KDS_PAGE_TYPE_BTREE_ROOT demo_tree demo_poolable) 200 (bt_node demo_tree) ltac:(by left)) ltac:(done)).
    eexists. split; [etrans; [exact H|]; unfold ran; f_equal; apply ticks_of|]. etrans; [apply ticks_of|]. reflexivity.
Defined.
