(* ===== verification/RemountSpec.v ===== *)
(** * RemountSpec: mounting a device that holds a database

    The start on a device whose superblock has the right magic number, step
    by step: what is read from the superblock, and which sectors the start
    writes.  The rules are those of LifeSpec.v for steps of a preorder. *)
From S2P Require Import Prelude Layout State Disk DiskSpec Meta MetaSpec Pool PoolSpec Alloc AllocSpec Types Parser ParserSpec Catalog CatalogSpec Wal ExecHeap Dshell Proc ProcSpec Main MainSpec LifeSpec.
From stdpp Require Import prelude gmap list.
From Stdlib Require Import ZArith Lia.
Local Open Scope Z_scope.
Local Open Scope list_scope.
Local Open Scope kds_scope.

(** A preorder on a part of the state. *)
Definition on_part {S T} (g : S -> T) (R : relation T) : relation S := fun s s' => R (g s) (g s').
#[export] Instance on_part_preorder {S T} (g : S -> T) (R : relation T) `{!PreOrder R} : PreOrder (on_part g R).
Proof. split; [by intros s; red|]. intros a b c. unfold on_part. intros. by etrans. Qed.

Section Kern.
Context `{K : Kernel}.

(** ** What most of the start leaves alone *)
Record untouched (s s' : kds_state) : Prop := {
  un_disk : disk s' = disk s;
  un_superblock : superblock s' = superblock s;
  un_fresh : g_fresh_init s' = g_fresh_init s }.
#[export] Instance untouched_preorder : PreOrder untouched.
Proof. split; [done|]. intros a b c [? ? ?] [? ? ?]. split; congruence. Qed.
Lemma un_modify g : (forall s, untouched s (g s)) -> steps untouched (modify g).
Proof. apply steps_modify. Qed.
Lemma un_oracle {A} (g : nat -> A) : steps untouched (oracle g).
Proof. by intros s a s' [= _ <-]. Qed.
Lemma un_frame {A} fid (m : M kds_frame A) : steps untouched (on_frame fid m).
Proof.
  intros s a s'. unfold on_frame. destruct (g_pool s) as [pl|]; [|done]. destruct (frames pl !! fid) as [f|]; [|done].
  destruct (m f); [|done]. by intros [= _ <-].
Qed.
Lemma un_pool_get {A} (g : kds_buf_pool -> A) : steps untouched (pool_get g).
Proof. intros s a s'. unfold pool_get. destruct (g_pool s); [|done]. by intros [= _ <-]. Qed.
Lemma un_pool_mod g : steps untouched (pool_mod g).
Proof. intros s a s'. unfold pool_mod. destruct (g_pool s); [|done]. by intros [= _ <-]. Qed.
Lemma un_alloc_get {A} (g : kds_page_allocator -> A) : steps untouched (alloc_get g).
Proof. intros s a s'. unfold alloc_get. destruct (g_alloc s); [|done]. by intros [= _ <-]. Qed.
Hint Resolve un_oracle un_frame un_pool_get un_pool_mod un_alloc_get : steps.
Hint Extern 1 (steps untouched (modify _)) => (apply un_modify; by intros []) : steps.
Hint Extern 1 (steps untouched (alloc_set _)) => (apply un_modify; by intros []) : steps.
Hint Extern 1 (steps untouched (frame_mod _ _)) => apply un_frame : steps.
Hint Extern 1 (steps untouched (frame_get _ _)) => apply un_frame : steps.
Hint Extern 1 (steps untouched alloc_ok) => apply un_oracle : steps.

Lemma un_pin fid : steps untouched (kds_buf_pin fid).
Proof. apply un_frame. Qed.
Lemma un_unpin fid : steps untouched (kds_buf_unpin fid).
Proof. apply un_frame. Qed.
Lemma un_return fid : steps untouched (kds_buf_return_free_frame fid).
Proof. apply un_pool_mod. Qed.
Hint Resolve un_pin un_unpin un_return : steps.
Lemma un_pool_init : steps untouched kds_buf_pool_init.
Proof. unfold kds_buf_pool_init. steps_tac. Qed.
Lemma un_release fid : steps untouched (release_frame fid).
Proof. unfold release_frame. steps_tac. Qed.
Hint Resolve un_release : steps.
Lemma un_discard fid b : steps untouched (discard_frame fid b).
Proof. unfold discard_frame. steps_tac. Qed.
Lemma un_take : steps untouched kds_buf_take_free_frame.
Proof. unfold kds_buf_take_free_frame. steps_tac. Qed.
Lemma un_register fid : steps untouched (kds_buf_register_frame fid).
Proof. unfold kds_buf_register_frame. steps_tac. Qed.
Lemma un_lookup id : steps untouched (kds_buf_lookup id).
Proof.
  intros s a s'. unfold kds_buf_lookup. destruct (g_pool s); [|by intros [= _ <-]]. destruct (_ !! id) as [fid|]; [|by intros [= _ <-]].
  assert (H : steps untouched (kds_buf_pin fid ;; ret (Some fid))) by steps_tac. apply H.
Qed.
Lemma un_read sector : steps untouched (kds_read_logical_page sector).
Proof.
  intros s a s'. destruct (read_logical_page_spec sector s) as (t & [E|(r & E & _)]); rewrite E; by intros [= _ <-].
Qed.
Hint Resolve un_discard un_take un_register un_lookup un_read : steps.
Lemma un_load id : steps untouched (kds_buf_lookup_or_load id).
Proof. unfold kds_buf_lookup_or_load, kds_frame_read_from_disk. steps_tac. Qed.
Hint Resolve un_load : steps.
Lemma un_reclaim_loop n : forall id got, steps untouched (reclaim_loop n id got).
Proof. induction n as [|n IH]; intros id got; cbn [reclaim_loop]; steps_tac. Qed.
Hint Resolve un_reclaim_loop : steps.
Lemma un_reclaim point : steps untouched (kds_reclaim_uninitialized_pages point).
Proof. unfold kds_reclaim_uninitialized_pages, get_max_page_id. steps_tac. Qed.
Lemma un_page_alloc type : steps untouched (kds_page_alloc type).
Proof. unfold kds_page_alloc. steps_tac. Qed.

(** ** What the pages made ahead may touch

    Nothing below page [b] but the superblock. *)
Record keeps (b : Z) (s s' : kds_state) : Prop := {
  ke_sectors : forall sector, ~ in_superblock sector -> sector < 16 * b -> read_sector (disk s') sector = read_sector (disk s) sector;
  ke_fresh : g_fresh_init s' = g_fresh_init s }.
#[export] Instance keeps_preorder b : PreOrder (keeps b).
Proof.
  split; [done|]. intros s1 s2 s3 [H1 F1] [H2 F2]. split; [|congruence]. intros sector Hs Hb. by rewrite H2, H1.
Qed.
Lemma keeps_untouched b {A} (f : M kds_state A) : steps untouched f -> steps (keeps b) f.
Proof. intros H s a s' [Hd _ Hf]%H. split; [|done]. intros sector _ _. by rewrite Hd. Qed.
Lemma keeps_set_superblock b g : steps (keeps b) (modify (fun s => set_superblock (g s) s)).
Proof. by apply steps_modify. Qed.
Lemma keeps_set_io b x : steps (keeps b) (modify (set_sb_io_page x)).
Proof. by apply steps_modify. Qed.
Hint Resolve keeps_set_superblock keeps_set_io : steps.
Hint Extern 2 (steps (keeps _) _) => (apply keeps_untouched; solve [auto with steps]) : steps.

(** A logical page that starts beyond the bound, or is the superblock. *)
Lemma keeps_dev_write b sector p : 16 * b <= sector \/ sector = META_SUPERBLOCK_SECTOR -> zlen p <= 8192 -> steps (keeps b) (dev_write sector p).
Proof.
  intros Hs Hz. unfold dev_write. steps_tac. apply steps_modify. intros s. split; [|done]. intros x Hx Hb. cbn [disk set_disk].
  apply read_write_other. unfold in_superblock in Hx. unfold sectors_of, KDS_BLKDEV_SECTOR_SIZE.
  assert (zlen p / 512 <= 16) by (apply Z.div_le_upper_bound; lia). pose proof (Z.div_pos (zlen p) 512 (zlen_nonneg p)). lia.
Qed.
Lemma keeps_bio_add b n : steps (keeps b) (bio_add_pages n).
Proof. induction n as [|n IH]; cbn [bio_add_pages]; steps_tac. Qed.
Hint Resolve keeps_bio_add : steps.
Lemma keeps_write b sector p : 16 * b <= sector \/ sector = META_SUPERBLOCK_SECTOR -> steps (keeps b) (kds_write_logical_page sector p).
Proof.
  intros Hs. pose proof (keeps_dev_write b sector _ Hs (zlen_pages p)). unfold kds_write_logical_page, kds_write_extent. steps_tac.
Qed.
Lemma keeps_fsync b : steps (keeps b) kds_superblock_fsync.
Proof.
  unfold kds_superblock_fsync. assert (H : forall p, steps (keeps b) (kds_write_logical_page META_SUPERBLOCK_SECTOR p)) by (intros; apply keeps_write; by right).
  steps_tac.
Qed.
Lemma keeps_alloc_new b id : b <= id -> page_id_ok id -> steps (keeps b) (kds_buf_alloc_new id).
Proof.
  intros Hb Hid. assert (H : forall p, steps (keeps b) (kds_write_logical_page (kds_page_sector id) p)).
  { intros p. apply keeps_write. left. rewrite kds_page_sector_ok by done. lia. }
  unfold kds_buf_alloc_new. cbn zeta. steps_tac.
Qed.
Lemma keeps_batch_loop b n : forall id got, b <= id -> 0 <= id -> id + Z.of_nat n <= 2 ^ 60 -> steps (keeps b) (batch_loop n id got).
Proof.
  induction n as [|n IH]; intros id got Hb H0 Hn; cbn [batch_loop]; [auto with steps|].
  pose proof (keeps_alloc_new b id Hb ltac:(unfold page_id_ok; lia)).
  assert (u64 (id + 1) = id + 1) as -> by (rewrite u64_small; lia). specialize (IH (id + 1) (got + 1) ltac:(lia) ltac:(lia) ltac:(lia)).
  steps_tac.
Qed.
Lemma free_slots_bound a : 0 <= kds_ring_free_slots a <= 127.
Proof.
  unfold kds_ring_free_slots, kds_ring_count, PRE_ALLOC_RING_BUFFER_SIZE.
  pose proof (Z.mod_pos_bound (u64 (u64 (reserved a - cursor a) + 128)) 128 ltac:(lia)). rewrite u64_small; lia.
Qed.
(** The pages made ahead get ids from the counter of the superblock on. *)
Lemma batch_alloc_keeps count s a s' sb :
  superblock s = Some sb -> 0 <= max_page_id sb -> max_page_id sb + 256 <= 2 ^ 60 ->
  kds_batch_alloc count s = Ret a s' -> keeps (max_page_id sb) s s'.
Proof.
  intros Hsb H0 Hlim. unfold kds_batch_alloc. destruct (count =? 0); [by intros [= _ <-]|].
  intros (free & s1 & E1 & H)%bind_inv. assert (s1 = s /\ 0 <= free <= 127) as [-> Hf].
  { unfold alloc_get in E1. destruct (g_alloc s) as [al|]; [|done]. injection E1 as <- <-. split; [done|apply free_slots_bound]. }
  destruct (Z.eqb_spec (Z.min count free) 0) as [|Hw]; [by injection H as _ <-|].
  apply bind_inv in H as (base & s2 & E2 & H). unfold alloc_page_id_batch in E2. rewrite Hsb in E2.
  destruct (Z.eqb_spec (Z.min count free) 0); [done|]. injection E2 as <- <-. set (s2 := set_superblock _ s) in *.
  assert (K2 : keeps (max_page_id sb) s s2) by done. etrans; [exact K2|]. clear K2.
  assert (Hb : exists base, (if max_page_id sb =? 0 then max_page_id sb + KDS_SYS_RESERVED_PAGES else max_page_id sb) = base /\
    max_page_id sb <= base /\ base + 127 <= 2 ^ 60).
  { eexists. split; [done|]. destruct (Z.eqb_spec (max_page_id sb) 0) as [->|]; unfold KDS_SYS_RESERVED_PAGES; lia. }
  destruct Hb as (base & Eb & Hb1 & Hb2). rewrite Eb in H.
  assert (Hst : steps (keeps (max_page_id sb)) (got <- batch_loop (Z.to_nat (Z.min count free)) base 0 ;;
    kds_meta_set_alloc_range base 0 ;; kds_superblock_fsync ;; ret got)); [|by apply Hst in H].
  pose proof (keeps_batch_loop (max_page_id sb) (Z.to_nat (Z.min count free)) base 0 Hb1 ltac:(lia) ltac:(lia)).
  pose proof (keeps_fsync (max_page_id sb)). unfold kds_meta_set_alloc_range. steps_tac.
  apply steps_modify. intros x. by destruct (superblock x).
Qed.

(** ** The allocator at the start *)
Lemma fill_keeps s a s' sb :
  superblock s = Some sb -> 0 <= max_page_id sb -> max_page_id sb + 256 <= 2 ^ 60 ->
  alloc_system_fill s = Ret a s' -> keeps (max_page_id sb) s s'.
Proof.
  intros Hsb H0 Hlim. unfold alloc_system_fill. intros ([] & s1 & E1 & H)%bind_inv.
  assert (U1 : untouched s s1).
  { assert (Hst : steps untouched kds_init_g_alloc) by (unfold kds_init_g_alloc; steps_tac). by apply Hst in E1. }
  assert (Hsb1 : superblock s1 = Some sb) by (by rewrite (un_superblock _ _ U1)).
  assert (Hk : forall x y, untouched x y -> keeps (max_page_id sb) x y) by (intros x y [Hd _ Hf]; split; [intros; by rewrite Hd|done]).
  etrans; [by apply Hk|]. unfold bind at 1, kds_meta_get_alloc_range in H. rewrite Hsb1 in H. destruct (alloc_point sb =? 0).
  { by apply (batch_alloc_keeps _ _ _ _ _ Hsb1 H0 Hlim) in H. }
  apply bind_inv in H as (filled & s2 & E2 & H). apply un_reclaim in E2 as U2.
  assert (Hsb2 : superblock s2 = Some sb) by (by rewrite (un_superblock _ _ U2)). etrans; [by apply Hk|].
  destruct (filled <? PRE_ALLOC_PAGE_THRES); [|by injection H as _ <-]. apply bind_inv in H as (more & s3 & E3 & H).
  apply (batch_alloc_keeps _ _ _ _ _ Hsb2 H0 Hlim) in E3. by injection H as _ <-.
Qed.

(** ** The superblock that is found *)
Definition remounted (sb : kds_superblock) (s s' : kds_state) : Prop :=
  (exists now, superblock s' = Some (set_mount_time now sb)) /\ disk s' = disk s /\ g_fresh_init s' = g_fresh_init s.
Lemma load_superblock s a s' : sb_magic (disk_superblock (disk s)) = SUPERBLOCK_MAGIC ->
  kds_init_meta_system s = Ret a s' -> a = 0 -> remounted (disk_superblock (disk s)) s s'.
Proof.
  intros Hmag. unfold kds_init_meta_system. intros (r & s1 & E & H)%bind_inv Ha.
  assert (r = 0 /\ s1 = s') as [-> <-] by (destruct (Z.eqb_spec r 0); by injection H as ? ->; subst). clear H Ha.
  unfold kds_load_or_init_superblock, alloc_ok in E. unfold bind at 1, oracle at 1 in E. destruct (k_alloc _); cbn [negb] in E; [|done].
  unfold bind at 1, modify at 1 in E. unfold bind at 1, oracle at 1 in E. destruct (k_alloc _); cbn [negb] in E; [|done].
  set (s2 := set_tick _ (set_sb_io_page _ _)) in E.
  destruct (read_logical_page_spec META_SUPERBLOCK_SECTOR s2) as (t & [E2|(e & E2 & He)]); (rewrite (bind_ok _ _ _ _ _ E2) in E); cbn beta iota zeta in E.
  2:{ injection E as -> _. done. }
  unfold bind at 1, modify at 1 in E. unfold bind at 1, modify at 1 in E. fold (disk_superblock (disk s2)) in E.
  change (disk s2) with (disk s) in E. rewrite Hmag, Z.eqb_refl in E. injection E as <-. cbn. split; [by eexists|done].
Qed.
End Kern.

(** Pages below a bound, when the sectors below it are as before. *)
Lemma disk_page_within b d d' id :
  (forall sector, ~ in_superblock sector -> sector < 16 * b -> read_sector d' sector = read_sector d sector) ->
  id < b -> page_id_ok id -> id <> KDS_SYS_RESERVED_PAGES -> disk_page d' id = disk_page d id.
Proof.
  intros H Hb Hid Hne. unfold disk_page. rewrite kds_page_sector_ok by done. apply disk_read_same. intros sector Hs.
  apply H; unfold in_superblock, META_SUPERBLOCK_SECTOR, KDS_SYS_RESERVED_PAGES in *; lia.
Qed.

(** ** The whole start *)
Section Module.
Context `{K : Kernel} {KS : Kstrtoll} {CT : Ctype} {Mc : Machine} {B : Boot}.

(** A step seen from the module: a relation on the kernel's part, and the
    registry of the catalog as it was. *)
Definition seen (R : relation kds_state) (m m' : module) : Prop :=
  R (kern m) (kern m') /\ db_sys_objects (db (m_shell m')) = db_sys_objects (db (m_shell m)).
#[export] Instance seen_preorder R `{!PreOrder R} : PreOrder (seen R).
Proof. split; [by intros m; split|]. intros a b c [A1 A2] [B1 B2]. split; [by etrans|congruence]. Qed.
Lemma seen_weaken (R R' : relation kds_state) {A} (f : M module A) : (forall s s', R s s' -> R' s s') -> steps (seen R) f -> steps (seen R') f.
Proof. intros H Hf m a m' [H1 H2]%Hf. split; [by apply H|done]. Qed.
Lemma seen_kern R {A} (f : M kds_state A) : steps R f -> steps (seen R) (on_kern f).
Proof.
  intros H m a m'. unfold on_kern, on_shell, on_db, on_wal, on_kds. destruct (f _) eqn:E; [|done]. intros [= _ <-].
  split; [|done]. by eapply H.
Qed.
Lemma seen_wal R {A} (f : M wal_env A) : steps (on_part kds R) f -> steps (seen R) (on_shell (on_wal f)).
Proof.
  intros H m a m'. unfold on_shell, on_wal. destruct (f _) eqn:E; [|done]. intros [= _ <-]. split; [|done]. exact (H _ _ _ E).
Qed.
Lemma part_kds R {A} (f : M kds_state A) : steps R f -> steps (on_part kds R) (on_kds f).
Proof. intros H e a e'. unfold on_kds. destruct (f _) eqn:E; [|done]. intros [= _ <-]. by eapply H. Qed.

Lemma un_on {A} (f : M kds_state A) : steps untouched f -> steps (seen untouched) (on_kern f).
Proof. apply seen_kern. Qed.
Lemma un_sched {A} (f : M sched A) : steps (seen untouched) (on_sched f).
Proof. intros m a m'. unfold on_sched. destruct (f _); [|done]. by intros [= _ <-]. Qed.
Lemma un_mod g : (forall m, m_shell (g m) = m_shell m) -> steps (seen untouched) (modify g).
Proof. intros H. apply steps_modify. intros m. unfold seen, kern. by rewrite H. Qed.
Lemma un_new x : steps (seen untouched) (proc_new x).
Proof. by intros m a m' [= _ <-]. Qed.
Hint Resolve un_sched un_new : steps.
Hint Extern 1 (steps (seen untouched) (modify _)) => (apply un_mod; reflexivity) : steps.
Hint Extern 1 (steps (seen untouched) (chardev_mod _)) => (apply un_mod; reflexivity) : steps.
Hint Extern 1 (steps (seen untouched) (proc_free _)) => apply un_sched : steps.
Hint Extern 1 (steps (seen untouched) (on_kern (oracle _))) => (apply un_on, un_oracle) : steps.
Hint Extern 1 (steps (seen untouched) (on_kern alloc_ok)) => (apply un_on, un_oracle) : steps.
Hint Extern 1 (steps (seen untouched) (on_kern (modify _))) => (apply un_on, un_modify; by intros []) : steps.
Lemma un_create put : (forall x m, m_shell (put x m) = m_shell m) -> steps (seen untouched) (create_proc put).
Proof. intros H. unfold create_proc. steps_tac; by apply un_mod. Qed.
Lemma un_destroy get put : (forall x m, m_shell (put x m) = m_shell m) -> steps (seen untouched) (destroy_proc get put).
Proof. intros H. unfold destroy_proc. steps_tac. by apply un_mod. Qed.
Hint Extern 1 (steps (seen untouched) (create_proc _)) => (apply un_create; done) : steps.
Hint Extern 1 (steps (seen untouched) (destroy_proc _ _)) => (apply un_destroy; done) : steps.
Lemma un_device : steps (seen untouched) init_block_device.
Proof. unfold init_block_device. steps_tac. Qed.
Lemma un_dshell : steps (seen untouched) kds_init_dshell_system.
Proof. unfold kds_init_dshell_system, kds_register_dshell_proc. steps_tac. Qed.
Lemma un_wal_init : steps (seen untouched) (on_shell (on_wal kds_wal_init)).
Proof.
  apply seen_wal. unfold kds_wal_init, wal_alloc_page, wal_put.
  pose proof (un_page_alloc KDS_PAGE_TYPE_WAL).
  repeat first [progress auto with steps|apply steps_bind; [apply _| |intros ?]
    |match goal with |- steps _ (match ?x with _ => _ end) => destruct x end
    |apply part_kds; first [assumption|apply un_oracle|apply un_frame]|by apply steps_modify].
Qed.

(** What a step of the start gives when it returns. *)
Lemma step_ok (f : M module Z) m m' : step_or_fail f m = Ret tt m' -> f m = Ret 0 m'.
Proof.
  unfold step_or_fail, bind. destruct (f m) as [r m1|h m1]; [|done]. destruct (Z.eqb_spec r 0) as [->|]; cbn [negb]; [|done].
  by intros [= <-].
Qed.
Lemma on_kern_inv {A} (f : M kds_state A) m a m' : on_kern f m = Ret a m' ->
  f (kern m) = Ret a (kern m') /\ db_sys_objects (db (m_shell m')) = db_sys_objects (db (m_shell m)).
Proof.
  unfold on_kern, on_shell, on_db, on_wal, on_kds. fold (kern m). destruct (f (kern m)) as [b s|h s]; [|done]. intros [= <- <-]. done.
Qed.
Lemma un_keeps b s s' : untouched s s' -> keeps b s s'.
Proof. intros [Hd _ Hf]. split; [intros; by rewrite Hd|done]. Qed.
End Module.

Section Claims.
Context `{K : Kernel} {KS : Kstrtoll} {CT : Ctype} {Mc : Machine} {B : Boot}.

(** C15.  Mounting a device that has a superblock keeps its data: when the start
    returns, every page with an id below the superblock's counter, other than
    the superblock's own, holds what it held, although pages were made ahead,
    frames reclaimed and a log begun.  It does not count as a first start, and
    the registry of the well-known objects, which only a first start fills,
    is empty. *)
Theorem remount_keeps_pages d m :
  let sb := disk_superblock d in
  sb_magic sb = SUPERBLOCK_MAGIC -> 0 <= max_page_id sb -> max_page_id sb + 256 <= 2 ^ 60 ->
  kds_bootstrap (module_start d) = Ret tt m ->
  db_sys_objects (db (m_shell m)) = [] /\ g_fresh_init (kern m) = false /\
  forall id, 0 <= id < max_page_id sb -> id <> KDS_SYS_RESERVED_PAGES -> disk_page (disk (kern m)) id = disk_page d id.
Proof.
  intros sb Hmag H0 Hlim H. unfold kds_bootstrap in H.
  apply bind_inv in H as ([] & m1 & E1%step_ok%un_device & H). apply bind_inv in H as ([] & m2 & E2%step_ok & H).
  apply (un_on _ un_pool_init) in E2. apply bind_inv in H as ([] & m3 & E3%step_ok%un_sched & H).
  assert (U3 : seen untouched (module_start d) m3) by (etrans; [exact E1|]; by etrans). clear E1 E2 E3 m1 m2.
  destruct U3 as [[Hd3 _ Hf3] Ho3]. cbn in Ho3, Hf3.
  apply bind_inv in H as ([] & m4 & E4%step_ok & H). apply on_kern_inv in E4 as [E4 Ho4].
  apply load_superblock in E4 as ((now & Hsb4) & Hd4 & Hf4); [|by rewrite Hd3|done]. rewrite Hd3 in Hsb4. change (disk (kern (module_start d))) with d in *. fold sb in Hsb4.
  apply bind_inv in H as ([] & m5 & E5%step_ok%un_dshell & H). destruct E5 as [[Hd5 Hsb5 Hf5] Ho5].
  apply bind_inv in H as ([] & m6 & E6%step_ok & H). unfold kds_init_page_alloc_system in E6.
  apply bind_inv in E6 as (r & m6a & E6a & E6). apply on_kern_inv in E6a as [E6a Ho6a].
  rewrite Hsb4 in Hsb5. apply (fill_keeps _ _ _ _ Hsb5) in E6a; [|done..]. cbn [max_page_id set_mount_time] in E6a.
  apply un_create in E6 as [U6 Ho6]; [|done]. apply (un_keeps (max_page_id sb)) in U6.
  assert (K6 : keeps (max_page_id sb) (kern m5) (kern m6)) by (by etrans). destruct K6 as [Hk6 Hf6].
  apply bind_inv in H as (fresh & m7 & E7 & H). apply on_kern_inv in E7 as [E7 Ho7]. injection E7 as E7f E7.
  assert (Hfresh : fresh = false) by congruence. subst fresh. rewrite Hfresh in H.
  apply bind_inv in H as ([] & m8 & E8 & H). injection E8 as <-.
  apply bind_inv in H as ([] & m9 & E9%step_ok%un_wal_init & H). apply bind_inv in H as ([] & m10 & E10%step_ok & H).
  apply un_create in E10; [|done]. injection H as <-.
  assert (U : seen untouched m7 m10) by (by etrans). destruct U as [[Hd10 _ Hf10] Ho10].
  split; [change (db_sys_objects (db (m_shell m10)) = []); by rewrite Ho10, Ho7, Ho6, Ho6a, Ho5, Ho4, Ho3|].
  split; [change (g_fresh_init (kern m10) = false); by rewrite Hf10, <- E7, Hf6, Hf5, Hf4|]. intros id Hid Hne.
  assert (Hs : forall sector, ~ in_superblock sector -> sector < 16 * max_page_id sb -> read_sector (disk (kern m10)) sector = read_sector d sector).
  { intros sector Hs Hb. rewrite Hd10, <- E7, Hk6, Hd5, Hd4, Hd3 by done. done. }
  apply (disk_page_within (max_page_id sb) _ _ id Hs); [lia|unfold page_id_ok; lia|done].
Qed.
End Claims.

(** ** A device with a superblock and a page *)
Section Demo.
#[local] Existing Instances quiet_kernel no_strtoll ascii_ctype duo quiet_boot.
Definition used_sb : kds_superblock := Superblock SUPERBLOCK_MAGIC KDS_VERSION 0 200 0 5 5 5 0 0 0 0 (zeros 8104).
Definition used_device : gmap Z bytes := put_page (put_page ∅ 128 (superblock_enc used_sb)) 150 (replicate (Z.to_nat KDS_PAGE_SIZE) 7).
Lemma used_superblock : disk_superblock used_device = used_sb.
Proof.
  unfold disk_superblock. change META_SUPERBLOCK_SECTOR with (kds_page_sector 128). fold (disk_page used_device 128).
  unfold used_device. rewrite disk_page_put_ne by (unfold page_id_ok; lia). rewrite disk_page_put by (by vm_compute).
  apply superblock_dec_enc. unfold superblock_ok, u64_field. vm_compute. intuition congruence.
Qed.
Lemma remount_returns : returned (kds_bootstrap (module_start used_device)) = true.
Proof. vm_compute. reflexivity. Qed.
Lemma remount_keeps_pages_witness : exists m,
  kds_bootstrap (module_start used_device) = Ret tt m /\ g_fresh_init (kern m) = false /\
  disk_page (disk (kern m)) 150 = replicate (Z.to_nat KDS_PAGE_SIZE) 7.
Proof.
  pose proof remount_returns as Hr. destruct (kds_bootstrap (module_start used_device)) as [[] m|h m] eqn:E; [|done].
  pose proof (remount_keeps_pages used_device m) as H. rewrite used_superblock in H.
  destruct (H eq_refl ltac:(by vm_compute) ltac:(by vm_compute) E) as (_ & Hf & Hp). exists m.
  split; [exact eq_refl|]. split; [exact Hf|]. rewrite Hp; [|cbn; lia|discriminate]. apply disk_page_put. by vm_compute.
Defined.
End Demo.
