(* ===== verification/RebalanceSpec.v ===== *)
(** * RebalanceSpec: a deletion that borrows from a sibling

    A leaf that gets too small takes the last key of its left neighbour.
    The functions of btree.c work on several pinned pages at once: the
    lemmas of the first part give their effect on the pool without pins,
    and on the tree, where [set_node] replaces the node of a page. *)
From S2P Require Import Prelude Layout Heap HeapSpec HeapOps TupleStore State Disk DiskSpec Meta Pool PoolSpec Page Btree BtreeSpec Store Types Parser Catalog CatalogSpec Relation RelationSpec Tree TreeSpec.
From stdpp Require Import prelude gmap list.
From Stdlib Require Import ZArith Lia.
Local Open Scope Z_scope.
Local Open Scope list_scope.
Local Open Scope kds_scope.

(** ** Replacing the node of a page *)
Fixpoint set_node (x : Z) (m : kds_btree_node) (t : btree) : btree :=
  let 'BT id n cs := t in BT id (if decide (id = x) then m else n) (map (set_node x m) cs).
Definition replaced (x : Z) (m : kds_btree_node) (q : Z * kds_btree_node) : Z * kds_btree_node :=
  if decide (q.1 = x) then (q.1, m) else q.
Lemma nodes_set_node x m t : nodes (set_node x m t) = map (replaced x m) (nodes t).
Proof.
  revert t. fix IH 1. intros [id n cs]. cbn [set_node nodes map]. f_equal; [unfold replaced; cbn; by case_decide|].
  induction cs as [|c cs IHc]; [done|]. cbn [map flat_map]. by rewrite IH, IHc, map_app.
Qed.
Lemma set_node_ids x m t : tree_ids (set_node x m t) = tree_ids t.
Proof.
  unfold tree_ids. rewrite nodes_set_node. change (map (replaced x m)) with (fmap (M := list) (replaced x m)). rewrite <- list_fmap_compose. apply list_fmap_ext.
  intros i [y n] _. unfold replaced. cbn. by case_decide.
Qed.
Lemma in_ids t x m : (x, m) ∈ nodes t -> x ∈ tree_ids t.
Proof. intros Hx. apply list_elem_of_fmap. by exists (x, m). Qed.
Lemma in_set_node x m t y n : (y, n) ∈ nodes (set_node x m t) <->
  (y = x /\ n = m /\ x ∈ tree_ids t) \/ (y <> x /\ (y, n) ∈ nodes t).
Proof.
  rewrite nodes_set_node. change (map (replaced x m)) with (fmap (M := list) (replaced x m)). rewrite list_elem_of_fmap. unfold replaced. split.
  - intros ([z k] & E & Hin). cbn in E. case_decide as Hz; injection E as -> ->; [left|by right]. subst z.
    split_and!; try done. apply list_elem_of_fmap. by exists (x, k).
  - intros [(-> & -> & ([z k] & -> & Hin)%list_elem_of_fmap)|[Hne Hin]]; cbn in *.
    + exists (z, k). cbn. by rewrite decide_True.
    + exists (y, n). cbn. by rewrite decide_False.
Qed.
(** An id names one node. *)
Lemma node_of_id t x m n : NoDup (tree_ids t) -> (x, m) ∈ nodes t -> (x, n) ∈ nodes t -> m = n.
Proof.
  intros Hnd (i & Hi)%list_elem_of_lookup (j & Hj)%list_elem_of_lookup.
  assert (i = j) as ->; [|congruence]. apply (NoDup_lookup _ i j x Hnd); unfold tree_ids; rewrite list_lookup_fmap; [by rewrite Hi|by rewrite Hj].
Qed.

(** ** Pages that are pinned while others change *)
Section Pinned.
Context (pl : kds_buf_pool).
(** [ids] are pages with a node. *)
Definition noded (ids : list Z) : Prop := Forall (fun x => exists m, page_node pl x m) ids.
Lemma noded_path ids : noded ids -> exists path, step_id <$> path = ids /\ pages pl path.
Proof.
  induction 1 as [|x ids [m Hm] _ (path & E & Hp)]; [exists []; split; [done|constructor]|]. exists ((x, m, 0%nat) :: path).
  split; [rewrite fmap_cons; by rewrite E|]. by constructor.
Qed.
End Pinned.
Lemma noded_pin pl x ids : pool_wf pl -> (exists m, page_node pl x m) -> noded pl ids -> noded (pin x pl) ids.
Proof.
  intros Hwf [m Hm] Hi. eapply Forall_impl; [exact Hi|]. intros y [n Hn]. exists n. by eapply page_node_pin.
Qed.
(** The descriptor of a page with or without the pin. *)
Definition pin_if (x : Z) (ids : list Z) (k : kds_page) : kds_page := if decide (x ∈ ids) then pinned k else k.
Lemma pins_put ids : forall pl x k p k' p', pool_wf pl -> noded pl ids -> NoDup ids -> cached pl x = Some (k, p) -> page_fits x k' p' ->
  pool_wf (pins ids pl) /\ buf_map (pins ids pl) = buf_map pl /\ cached (pins ids pl) x = Some (pin_if x ids k, p) /\
  put x (pin_if x ids k') p' (pins ids pl) = pins ids (put x k' p' pl).
Proof.
  induction ids as [|y ids IH]; intros pl x k p k' p' Hwf Hi Hnd Hc Hfit.
  { unfold pin_if. rewrite decide_False by apply not_elem_of_nil. done. }
  apply Forall_cons in Hi as [Hy Hi]. apply NoDup_cons in Hnd as [Hni Hnd]. pose proof Hy as (m & f & ky & py & _ & Hcy & _).
  destruct (pin_spec pl Hwf _ _ _ Hcy) as (Hwf1 & [_ _ Ho] & Hc1 & Hbm). pose proof (noded_pin pl y ids Hwf Hy Hi) as Hi1.
  cbn [pins foldl]. fold (pins ids (pin y pl)). fold (pins ids (pin y (put x k' p' pl))).
  destruct (decide (x = y)) as [->|Hne].
  - rewrite Hc in Hcy. injection Hcy as <- <-.
    assert (Hfit' : page_fits y (pinned k') p') by (by destruct Hfit as (? & ? & ?)).
    destruct (IH (pin y pl) y (pinned k) p (pinned k') p' Hwf1 Hi1 Hnd Hc1 Hfit') as (W & B & C & E).
    unfold pin_if in *. rewrite (decide_False (P := y ∈ ids)) in C, E by done. rewrite !(decide_True (P := y ∈ y :: ids)) by left.
    split; [done|]. split; [congruence|]. split; [done|]. rewrite E. f_equal.
    destruct (put_spec pl Hwf y k p k' p' Hc Hfit) as (_ & _ & Hc2). unfold pin at 2. rewrite Hc2. unfold pin. by rewrite Hc, !put_put.
  - destruct (IH (pin y pl) x k p k' p' Hwf1 Hi1 Hnd ltac:(by rewrite Ho) Hfit) as (W & B & C & E).
    assert (Hp : forall z, pin_if x (y :: ids) z = pin_if x ids z).
    { intros z. unfold pin_if. destruct (decide (x ∈ ids)); [by rewrite decide_True by (by right)|].
      rewrite decide_False; [done|]. by intros [?|?]%elem_of_cons. }
    rewrite !Hp. split; [done|]. split; [congruence|]. split; [done|]. rewrite E.
    by rewrite (pin_put_comm pl Hwf y x k p) by done.
Qed.

Section Steps.
Context `{K : Kernel}.

Lemma tree_noded pl t ids : tree_on pl t -> (forall x, x ∈ ids -> x ∈ tree_ids t) -> noded pl ids.
Proof.
  intros [_ _ Hn _] Hin. apply Forall_forall. intros x ([y m] & -> & Hx)%Hin%list_elem_of_fmap. exists m. by apply Hn.
Qed.
Lemma put_set_node pl t x m m' fid k p k' p' :
  tree_on pl t -> (x, m) ∈ nodes t -> buf_map pl !! x = Some fid -> cached pl x = Some (k, p) ->
  page_fits x k' p' -> kds_is_btree_page (kp_hdr k') = true -> node_at p' fid = m' -> node_ok m' ->
  tree_on (put x k' p' pl) (set_node x m' t).
Proof.
  intros [Hwf Hnd Hn Hok] Hx Hm Hc Hfit Hb Hna Hok'. split.
  - by destruct (put_spec pl Hwf x k p k' p' Hc Hfit).
  - by rewrite set_node_ids.
  - intros y n [(-> & -> & _)|[Hne Hy]]%in_set_node; [by eapply page_node_new|]. eapply page_node_put; try done. by apply Hn.
  - intros y n [(-> & -> & _)|[Hne Hy]]%in_set_node; [done|]. by eapply Hok.
Qed.
Lemma set_node_same t x m : NoDup (tree_ids t) -> (x, m) ∈ nodes t -> set_node x m t = t.
Proof.
  intros Hnd Hx. assert (H : forall n, (x, n) ∈ nodes t -> n = m) by (intros n Hn; by eapply node_of_id). clear Hnd Hx. revert t H.
  fix IH 1. intros [id n cs] H. cbn [set_node]. f_equal.
  - case_decide as E; [|done]. subst. symmetry. apply H. by left.
  - assert (Hcs : forall n, (x, n) ∈ flat_map nodes cs -> n = m) by (intros n' Hn'; apply H; by right). clear H.
    induction cs as [|c cs IHc]; [done|]. cbn [map]. f_equal.
    + apply IH. intros n' Hn'. apply Hcs. cbn [flat_map]. apply elem_of_app. by left.
    + apply IHc. intros n' Hn'. apply Hcs. cbn [flat_map]. apply elem_of_app. by right.
Qed.

(** Storing and marking a node of the tree while [ids] are pinned. *)
Context (t : btree) (ids : list Z) (s : kds_state).
Hypothesis Hids : forall x, x ∈ ids -> x ∈ tree_ids t.
Hypothesis Hnd : NoDup ids.
Lemma store_in_tree pl x m m' : tree_on pl t -> (x, m) ∈ nodes t -> node_ok m' -> bframe m' = bframe m ->
  exists pl', store_btree_node m' (wp (pins ids pl) s) = Ret tt (wp (pins ids pl') s) /\ tree_on pl' (set_node x m' t).
Proof.
  intros Ht Hx Hok Hfr. destruct (to_nodes _ _ Ht x m Hx) as (fid & k & p & Hm & Hc & Hb & Hna).
  assert (Hbf : bframe m' = Some fid) by (by rewrite Hfr, <- Hna). pose proof Ht as [Hwf _ _ _].
  pose proof (cached_fits pl Hwf x k p Hc) as (H1 & H2 & H3). set (p' := patch p KDS_PAGE_HDR_SIZE (node_enc m')).
  assert (Hfit : page_fits x k p') by (split; [done|]; split; [by apply zlen_patch_node|done]).
  destruct (pins_put ids pl x k p k p' Hwf (tree_noded pl t ids Ht Hids) Hnd Hc Hfit) as (W & B & C & E).
  exists (put x k p' pl). split.
  - rewrite <- E. pose proof Hok as (Hk4 & Hs5 & _). apply (store_at x fid); try done; [by rewrite B| |by apply zlen_node_enc].
    unfold pin_if. by case_decide.
  - eapply (put_set_node pl t x m m' fid k p k p'); try done. by apply node_at_patch.
Qed.
Lemma mark_in_tree pl x m m' : tree_on pl t -> (x, m) ∈ nodes t -> bframe m' = bframe m ->
  exists pl', mark_dirty m' (wp (pins ids pl) s) = Ret tt (wp (pins ids pl') s) /\ tree_on pl' t.
Proof.
  intros Ht Hx Hfr. destruct (to_nodes _ _ Ht x m Hx) as (fid & k & p & Hm & Hc & Hb & Hna).
  assert (Hbf : bframe m' = Some fid) by (by rewrite Hfr, <- Hna). pose proof Ht as [Hwf Hndt _ Hok].
  pose proof (cached_fits pl Hwf x k p Hc) as Hfit0. assert (Hfit : page_fits x (dirty k) p) by (by destruct Hfit0 as (? & ? & ?)).
  destruct (pins_put ids pl x k p (dirty k) p Hwf (tree_noded pl t ids Ht Hids) Hnd Hc Hfit) as (W & B & C & E).
  exists (put x (dirty k) p pl). split.
  - rewrite <- E. unfold mark_dirty, node_frame. rewrite Hbf. cbn [in_bounds]. erewrite bind_ok by reflexivity.
    destruct (frame_put x fid kds_set_page_dirty (pins ids pl) s (pin_if x ids k) p tt
      (fun k' p' => k' = pin_if x ids (dirty k) /\ p' = p) W ltac:(by rewrite B) C) as (k' & p' & -> & -> & ->); [|done].
    intros f Hf. exists (pin_if x ids (dirty k)), p. split; [|done]. rewrite <- (frame_live_eq f _ p Hf) at 1.
    unfold pin_if. case_decide; apply set_dirty_live.
  - rewrite <- (set_node_same t x m Hndt Hx). eapply (put_set_node pl t x m m fid k p); try done. by eapply Hok.
Qed.
(** A further page is pinned at the end, and released again. *)
Lemma pins_snoc x pl : pins (ids ++ [x]) pl = pin x (pins ids pl).
Proof. unfold pins. by rewrite foldl_app. Qed.
Lemma open_in_tree pl x m : tree_on pl t -> (x, m) ∈ nodes t -> x ∉ ids -> exists fid,
  kds_buf_lookup_or_load x (wp (pins ids pl) s) = Ret (PTR fid) (wp (pins (ids ++ [x]) pl) s) /\
  load_btree_node fid (wp (pins (ids ++ [x]) pl) s) = Ret m (wp (pins (ids ++ [x]) pl) s) /\
  kds_buf_unpin fid (wp (pins (ids ++ [x]) pl) s) = Ret tt (wp (pins ids pl) s) /\ bframe m = Some fid.
Proof.
  intros Ht Hx Hni. destruct (to_nodes _ _ Ht x m Hx) as (fid & k & p & Hm & Hc & Hb & Hna). pose proof Ht as [Hwf _ _ _].
  destruct (pins_put ids pl x k p k p Hwf (tree_noded pl t ids Ht Hids) Hnd Hc (cached_fits pl Hwf x k p Hc)) as (W & B & C & _).
  unfold pin_if in C. rewrite decide_False in C by done.
  assert (Hp : page_node (pins ids pl) x m) by (exists fid, k, p; by rewrite B).
  destruct (open_close x m (pins ids pl) s W Hp) as (fid' & E1 & E2 & E3). rewrite pins_snoc. exists fid'.
  split_and!; try done. destruct (open_node x m (pins ids pl) s W Hp) as (f2 & E1' & _ & _ & Hbf). rewrite E1 in E1'. by injection E1' as ->.
Qed.
End Steps.

(** ** The nodes of a redistribution *)
(** [n'] is [n] with other keys. *)
Record rekeyed (n n' : kds_btree_node) : Prop := {
  rk_level : level n' = level n;
  rk_frame : bframe n' = bframe n;
  rk_wf : node_wf n';
  rk_ok : node_ok n -> node_ok n' }.
Lemma put_key_spec pn i k : node_wf pn -> (i < length (node_keys pn))%nat -> u64_ok k ->
  exists pn', put_key i k pn = Some pn' /\ rekeyed pn pn' /\ key_count pn' = key_count pn /\
    node_keys pn' = <[i := k]> (node_keys pn) /\ slots pn' = slots pn.
Proof.
  intros Hn Hi Hk. pose proof Hn as [Hks Hss Hc]. unfold node_keys in Hi. rewrite length_take in Hi. unfold put_key.
  assert ((i <? length (keys pn))%nat = true) as -> by (apply Nat.ltb_lt; lia). eexists. split; [done|]. split; [|split; [done|split; [|done]]].
  - split; [done|done|split; cbn; rewrite ?length_insert; done|]. intros (H1 & H2 & H3). split; [cbn; by rewrite length_insert|]. split; [done|].
    rewrite !Forall_app in *. cbn [set_keys level key_count keys slots bnext bprev]. destruct H3 as (A & B & C & D). split_and!; try done.
    by apply Forall_insert.
  - unfold node_keys. cbn. by rewrite take_insert_lt by lia.
Qed.
Lemma rekeyed_trans a b c : rekeyed a b -> rekeyed b c -> rekeyed a c.
Proof. intros [? ? ? ?] [? ? ? ?]. split; [congruence|congruence|done|auto]. Qed.

Lemma borrow_left pn i ln n : node_wf pn -> node_wf ln -> node_wf n -> node_ok ln -> node_ok n ->
  level n = 0 -> key_count n = 1 -> 2 < key_count ln -> (i < length (node_keys pn))%nat ->
  exists k pn' l' n', redistribute_left pn i ln n = Some (pn', l', n') /\
    rekeyed pn pn' /\ key_count pn' = key_count pn /\ node_keys pn' = <[i := k]> (node_keys pn) /\
    slots pn' = slots pn /\ rekeyed ln l' /\ node_keys ln = node_keys l' ++ [k] /\ rekeyed n n' /\ node_keys n' = k :: node_keys n.
Proof.
  intros Hp Hl Hn Hokl Hokn Hlv Hc Hcl Hi.
  assert (H : exists k l' n', u64_ok k /\ redistribute_left pn i ln n = (pn' ← put_key i k pn; Some (pn', l', n')) /\
    rekeyed ln l' /\ node_keys ln = node_keys l' ++ [k] /\ rekeyed n n' /\ node_keys n' = k :: node_keys n).
  { node_split n Hn; cbn [key_count level] in *; try lia; subst. clear Hn. rename a into x. rename s0 into z0, s1 into z1, s2 into z2, s3 into z3, s4 into z4.
    rename b into y1, c into y2, d into y3, nx into nx0, pv into pv0, fr into fr0.
    node_split ln Hl; cbn [key_count] in *; try lia.
    all: destruct Hokl as (A1 & A2 & Hokl), Hokn as (B1 & B2 & Hokn).
    all: cbn -[Z.pow] in Hokl, Hokn; repeat (apply Forall_cons in Hokl as [? Hokl]); repeat (apply Forall_cons in Hokn as [? Hokn]).
    all: eexists _, _, _; split; [|split; [reflexivity|]]; [cbn -[Z.pow]; unfold u64_ok; assumption|].
    all: split; [split; [reflexivity|reflexivity|split; [reflexivity|reflexivity|vm_compute; split; discriminate]|]|].
    all: try (intros _; split; [reflexivity|]; split; [reflexivity|]; cbn -[Z.pow];
              repeat (constructor; [first [assumption|by vm_compute]|]); constructor).
    all: split; [reflexivity|]; split; [|reflexivity].
    all: split; [reflexivity|reflexivity|split; [reflexivity|reflexivity|vm_compute; split; discriminate]|].
    all: intros _; split; [reflexivity|]; split; [reflexivity|]; cbn -[Z.pow];
              repeat (constructor; [first [assumption|by vm_compute]|]); constructor. }
  destruct H as (k & l' & n' & Hk & E & Hl' & Hkl & Hn' & Hkn).
  destruct (put_key_spec pn i k Hp Hi Hk) as (pn' & Ep & Hp' & Hcp & Hkp & Hsp). exists k, pn', l', n'. rewrite E, Ep. done.
Qed.

(** ** The last two nodes of a path *)
(** The child pointers from page [x] along a path to page [y], and the
    nodes on it whose position for [k] is the one of the path. *)
Fixpoint chain (init : list pstep) (x y : Z) : Prop :=
  match init with
  | [] => x = y
  | q :: init => step_id q = x /\ exists z, slot_at (step_node q) q.2 = Some z /\ chain init z y
  end.
Definition guides (k : Z) (q : pstep) : Prop :=
  node_wf (step_node q) /\ sorted_keys (step_node q) /\ level (step_node q) <> 0 /\ btree_search_position (step_node q) k = Some q.2.
Lemma child_position n cs lo hi h pos c k :
  tree_wf (S h) lo hi (BT 0 n cs) -> cs !! pos = Some c -> key_in k c -> btree_search_position n k = Some pos.
Proof.
  intros (Hn & Hs & _ & Hb & Hsl & Hcs) Hc Hk. pose proof (tree_wf_bounds _ _ _ _ _ (Hcs pos c Hc) Hk) as Hi.
  pose proof (lo_at_ge _ lo hi Hb pos). pose proof (hi_at_le _ lo hi Hb pos). destruct (search_position_spec n k Hn) as (p & E & Hp & _).
  pose proof (children_length n cs Hn Hsl). apply lookup_lt_Some in Hc.
  destruct (desc_interval n k lo hi p Hn Hs ltac:(lia) E) as [_ Hu]. by rewrite (Hu pos Hi ltac:(lia)).
Qed.
Lemma walk_parent key t path b : walk key t path b -> forall h lo hi init q1 q2, tree_wf h lo hi t -> path = init ++ [q1; q2] ->
  exists h' lo' hi' cs c, tree_wf (S h') lo' hi' (BT (step_id q1) (step_node q1) cs) /\
    (forall r, r ∈ nodes (BT (step_id q1) (step_node q1) cs) -> r ∈ nodes t) /\
    cs !! q1.2 = Some c /\ bt_id c = step_id q2 /\ bt_node c = step_node q2 /\
    chain init (bt_id t) (step_id q1) /\
    forall k, key_in k (BT (step_id q1) (step_node q1) cs) -> Forall (guides k) init.
Proof.
  induction 1 as [id n cs pos|id n cs pos|id n cs pos c path b Hpos _ Hl Hc Hw IH]; intros h lo hi init q1 q2 Ht E.
  1,2: apply (f_equal length) in E; rewrite length_app in E; cbn in E; lia.
  destruct h as [|h]; [by destruct Ht as (_ & _ & ? & _)|]. destruct init as [|q init].
  - injection E as <- ->. exists h, lo, hi, cs, c. split; [done|]. split; [done|]. split; [done|].
    destruct (walk_head _ _ _ _ Hw) as (p & rest & [= -> _]). split; [done|]. split; [done|]. split; [done|]. intros k _. constructor.
  - injection E as <- ->. pose proof Ht as (Hn & Hs & _ & _ & Hsl & Hcs).
    destruct (IH h _ _ init q1 q2 (Hcs pos c Hc) eq_refl) as (h' & lo' & hi' & cs' & c' & H1 & H2 & H3 & H4 & H5 & H6 & H7).
    exists h', lo', hi', cs', c'. split; [done|]. split; [intros [x m] Hr; apply elem_of_nodes; right; eauto|]. do 3 (split; [done|]). split.
    + split; [done|]. exists (bt_id c). split; [|done]. pose proof (list_lookup_fmap bt_id cs pos) as El. rewrite Hsl, Hc in El.
      by apply lookup_take_Some in El as [El _].
    + intros k Hk. constructor; [|by apply H7]. split; [done|]. split; [done|]. split; [done|]. apply (child_position n cs lo hi h pos c k Ht Hc).
      destruct Hk as (x & m & Hx & Hkm). exists x, m. split; [by apply H2|done].
Qed.
Lemma walk_det key t path b : walk key t path b -> forall path' b', walk key t path' b' -> path = path' /\ b = b'.
Proof.
  induction 1 as [id n cs pos H1 H2|id n cs pos H1 H2 H3|id n cs pos c path b H1 H2 H3 H4 _ IH]; intros path' b' Hw; inversion Hw; subst;
    try congruence; (replace pos0 with pos in * by congruence); try congruence; try done.
  replace c0 with c in * by congruence. destruct (IH _ _ H12) as [-> ->]. done.
Qed.

(** The search of [key] ends at position [pos] of the leaf [n], a child of
    [pn]; the leaf has no key to spare, the child [l] to its left has. *)
Record borrows (key : Z) (t : btree) (init : list pstep) (pid : Z) (pn : kds_btree_node) (i : nat)
    (id : Z) (n : kds_btree_node) (pos : nat) (lid : Z) (l : kds_btree_node) : Prop := {
  bo_walk : walk key t (init ++ [(pid, pn, S i); (id, n, pos)]) true;
  bo_leaf : level n = 0;
  bo_min : key_count n = BTREE_MIN_KEYS;
  bo_left : node_slots pn !! i = Some lid;
  bo_node : (lid, l) ∈ nodes t;
  bo_spare : BTREE_MIN_KEYS < key_count l }.
Lemma walk_end key t path : walk key t path true -> forall id n pos, last path = Some (id, n, pos) -> node_keys n !! pos = Some key.
Proof.
  remember true as b eqn:Eb. induction 1 as [id n cs pos _ H| |id n cs pos c path b _ _ _ _ Hw IH]; intros i m q Hl; [by injection Hl as <- <- <-|done|].
  apply (IH Eb i m q). by destruct path; [inversion Hw|].
Qed.

(** The node of every page afterwards. *)
Section Model.
Context (key : Z) (t : btree) (h : nat) (lo hi : Z) (init : list pstep) (pid : Z) (pn : kds_btree_node) (i : nat)
  (id : Z) (n : kds_btree_node) (pos : nat) (lid : Z) (l : kds_btree_node).
Hypothesis Hw : tree_wf h lo hi t.
Hypothesis Hnd : NoDup (tree_ids t).
Hypothesis Hbo : borrows key t init pid pn i id n pos lid l.
Record placed : Prop := {
  pc_parent : (pid, pn) ∈ nodes t;
  pc_leaf : (id, n) ∈ nodes t;
  pc_wf : node_wf pn /\ node_wf l /\ node_wf n;
  pc_sorted : sorted_keys pn /\ sorted_keys l /\ sorted_keys n;
  pc_levels : level l = 0 /\ level pn <> 0;
  pc_ids : pid <> lid /\ pid <> id /\ lid <> id;
  pc_sep : (i < length (node_keys pn))%nat;
  pc_key : node_keys n !! pos = Some key;
  pc_slot : slot_at pn i = Some lid;
  pc_chain : chain init (bt_id t) pid;
  pc_guides : forall k, k ∈ node_keys l -> Forall (guides k) init;
  pc_bounds : exists lo' hi', Forall (fun x => lo_at (node_keys pn) lo' i < x < hi_at (node_keys pn) hi' i) (node_keys l) }.
Lemma is_placed : placed.
Proof.
  destruct Hbo as [Hwk Hl0 Hmin Hleft Hln Hsp].
  destruct (walk_parent key t _ true Hwk h lo hi init _ _ Hw eq_refl) as (h' & lo' & hi' & cs & c & Ht & Hsub & Hc & Hcid & Hcn & Hch & Hg).
  cbn [step_id step_node fst snd] in *. destruct Ht as (Hpw & Hps & Hpl & _ & Hsl & Hcs). pose proof (Hcs _ _ Hc) as Hcw. destruct c as [cid cn ccs].
  cbn [bt_id bt_node] in Hcid, Hcn. subst cid cn. assert (h' = 0%nat) as -> by (destruct h'; [done|]; destruct Hcw as (_ & _ & ? & _); lia).
  assert (Hd : exists d, cs !! i = Some d /\ bt_id d = lid).
  { rewrite <- Hsl, list_lookup_fmap in Hleft. destruct (cs !! i) as [d|]; [|done]. injection Hleft as <-. by exists d. }
  destruct Hd as ([d dn dcs] & Hd & [= ->]). pose proof (Hcs _ _ Hd) as Hdw.
  assert (dn = l) as ->.
  { apply (node_of_id t lid dn l Hnd); [|done]. apply Hsub, (elem_of_nodes lid dn (BT pid pn cs)). right. exists i, (BT lid dn dcs). split; [done|by left]. }
  assert (Hidn : (id, n) ∈ nodes t).
  { apply Hsub, (elem_of_nodes id n (BT pid pn cs)). right. exists (S i), (BT id n ccs). split; [done|by left]. }
  assert (Hpn : (pid, pn) ∈ nodes t) by (apply Hsub; by left). destruct Hcw as (W1 & W2 & _), Hdw as (V1 & V2 & V3 & V4 & _).
  assert (Hne : forall x m m', (x, m) ∈ nodes t -> (x, m') ∈ nodes t -> level m <> level m' \/ key_count m <> key_count m' -> False).
  { intros x m m' Hm Hm' H. rewrite (node_of_id t x m m' Hnd Hm Hm') in H. lia. }
  pose proof (children_length pn cs Hpw Hsl) as Hlen. apply lookup_lt_Some in Hc as Hlt.
  split; [exact Hpn|exact Hidn|done|done|split; [done|by rewrite Hpl]| |lia| | |exact Hch| |by exists lo', hi'].
  - split_and!; intros E; subst; [eapply (Hne lid pn l)|eapply (Hne id pn n)|eapply (Hne id l n)]; try done; lia.
  - apply (walk_end key t _ Hwk id n pos). by rewrite last_app.
  - by apply lookup_take_Some in Hleft as [Hleft _].
  - intros k Hk. apply Hg, key_in_node. right. exists i, (BT lid l dcs). split; [done|]. exists lid, l. split; [by left|done].
Qed.
Lemma inner_levels : Forall (fun q => level (step_node q) <> 0) init.
Proof.
  pose proof is_placed as [_ _ (_ & Wl & _) _ _ _ _ _ _ _ Hg _]. pose proof (bo_spare _ _ _ _ _ _ _ _ _ _ _ Hbo) as Hsp. change BTREE_MIN_KEYS with 2 in Hsp.
  destruct (lookup_lt_is_Some_2 (node_keys l) 0) as [x Hx]; [unfold node_keys; rewrite length_take; destruct Wl; lia|].
  eapply Forall_impl; [eapply Hg, list_elem_of_lookup_2, Hx|]. by intros q (_ & _ & ? & _).
Qed.

Context (n1 n2 pn' l' : kds_btree_node) (k sep : Z).
Hypothesis Hn1 : node_keys n1 = delete pos (node_keys n).
Hypothesis Hpn' : node_keys pn' = <[i := k]> (node_keys pn).
Hypothesis Hl' : node_keys l = node_keys l' ++ [k].
Hypothesis Hn2 : node_keys n2 = k :: node_keys n1.
Hypothesis Hsep : node_keys pn !! i = Some sep.
Definition borrowed : btree := set_node pid pn' (set_node id n2 (set_node lid l' (set_node id n1 t))).
Lemma in_borrowed y m : (y, m) ∈ nodes borrowed <->
  (y = pid /\ m = pn') \/ (y = id /\ m = n2) \/ (y = lid /\ m = l') \/ ((y <> pid /\ y <> id /\ y <> lid) /\ (y, m) ∈ nodes t).
Proof.
  destruct is_placed as [Hp Hl _ _ _ (N1 & N2 & N3) _ _ _ _ _ _]. pose proof (bo_node _ _ _ _ _ _ _ _ _ _ _ Hbo) as Hln.
  apply in_ids in Hp as Ip, Hl as Il, Hln as Iln. unfold borrowed. rewrite !in_set_node, !set_node_ids.
  destruct (decide (y = pid)), (decide (y = id)), (decide (y = lid)); subst; try done; tauto.
Qed.
Lemma sorted_nodup m : sorted_keys m -> forall a b x, node_keys m !! a = Some x -> node_keys m !! b = Some x -> a = b.
Proof.
  intros Hs a b x Ha Hb. destruct (Nat.lt_trichotomy a b) as [H|[H|H]]; [pose proof (Hs a b x x H Ha Hb); lia|done|pose proof (Hs b a x x H Hb Ha); lia].
Qed.
Lemma elem_of_delete {A} (ks : list A) p x y : ks !! p = Some x -> (forall a b z, ks !! a = Some z -> ks !! b = Some z -> a = b) ->
  (y ∈ delete p ks) <-> (y ∈ ks) /\ y <> x.
Proof.
  intros Hp Hinj. rewrite <- (take_drop_middle ks p x Hp) at 2. rewrite delete_take_drop, !elem_of_app, elem_of_cons.
  assert (Hn : (x ∉ take p ks) /\ x ∉ drop (S p) ks).
  { split; intros (j & Hj)%list_elem_of_lookup.
    - apply lookup_take_Some in Hj as [Hj Hlt]. pose proof (Hinj _ _ _ Hj Hp). lia.
    - rewrite lookup_drop in Hj. pose proof (Hinj _ _ _ Hj Hp). lia. }
  destruct Hn as [A1 A2]. split; [|tauto]. intros [H|H]; (split; [tauto|by intros ->]).
Qed.
Lemma elem_of_insert_at {A} (ks : list A) p v x y : ks !! p = Some x -> (forall a b z, ks !! a = Some z -> ks !! b = Some z -> a = b) ->
  (y ∈ <[p := v]> ks) <-> y = v \/ (y ∈ ks /\ y <> x).
Proof.
  intros Hp Hinj. rewrite <- (elem_of_delete ks p x y Hp Hinj). apply lookup_lt_Some in Hp as Hlt.
  rewrite insert_take_drop, delete_take_drop, !elem_of_app, elem_of_cons by done. tauto.
Qed.
(** The deleted key is gone, and so is the old separator. *)
Lemma key_in_borrowed x : key_in x borrowed <-> key_in x t /\ x <> key /\ x <> sep.
Proof.
  pose proof is_placed as [Hp Hl (Wp & Wl & Wn) (Sp & Sl & Sn) _ (N1 & N2 & N3) Hi Hkey _ _ _ _]. pose proof (bo_node _ _ _ _ _ _ _ _ _ _ _ Hbo) as Hln.
  pose proof (elem_of_delete _ _ _ x Hkey (sorted_nodup n Sn)) as D1. pose proof (elem_of_insert_at _ _ k _ x Hsep (sorted_nodup pn Sp)) as D2.
  assert (Hu : forall a b y, a ∈ nodes t -> b ∈ nodes t -> y ∈ node_keys a.2 -> y ∈ node_keys b.2 -> a = b) by (intros a b y; by apply (key_unique h lo hi t)).
  assert (Hkl : k ∈ node_keys l) by (rewrite Hl'; apply elem_of_app; right; by left).
  assert (Hkn : key ∈ node_keys n) by (by eapply list_elem_of_lookup_2). assert (Hsp : sep ∈ node_keys pn) by (by eapply list_elem_of_lookup_2).
  assert (Hor : forall m, x ∈ node_keys m -> forall y, (y, m) ∈ nodes t -> (y = id \/ x <> key) /\ (y = pid \/ x <> sep)).
  { intros m Hx y Hy. split.
    - destruct (decide (y = id)); [by left|]. right. intros ->. by injection (Hu (y, m) (id, n) key Hy Hl Hx Hkn).
    - destruct (decide (y = pid)); [by left|]. right. intros ->. by injection (Hu (y, m) (pid, pn) sep Hy Hp Hx Hsp). }
  assert (Hl1 : forall y, y ∈ node_keys l <-> y ∈ node_keys l' \/ y = k) by (intros y; rewrite Hl', elem_of_app, list_elem_of_singleton; done).
  split.
  - intros (y & m & Hy%in_borrowed & Hx). assert (Hfin : forall y m, (y, m) ∈ nodes t -> x ∈ node_keys m -> (y = id -> x <> key) -> (y = pid -> x <> sep) ->
      key_in x t /\ x <> key /\ x <> sep) by (intros z o Hz Ho H1 H2; destruct (Hor o Ho z Hz); split; [exists z, o; done|tauto]).
    destruct Hy as [(-> & ->)|[(-> & ->)|[(-> & ->)|((A1 & A2 & A3) & Hy)]]].
    + rewrite Hpn' in Hx. apply D2 in Hx as [->|[Hx Hxs]]; [|by apply (Hfin pid pn)]. apply (Hfin lid l); try done; by intros ->.
    + rewrite Hn2, Hn1 in Hx. apply elem_of_cons in Hx as [->|[Hx Hxk]%D1]; [|by apply (Hfin id n)]. apply (Hfin lid l); try done; by intros ->.
    + apply (Hfin lid l); [done|apply Hl1; by left|by intros ->|by intros ->].
    + by apply (Hfin y m).
  - intros ((y & m & Hy & Hx) & Hxk & Hxs). destruct (decide (y = pid)) as [->|A1].
    { exists pid, pn'. rewrite in_borrowed, Hpn', D2. split; [tauto|]. right. split; [|done]. by rewrite (node_of_id t pid pn m Hnd Hp Hy). }
    destruct (decide (y = id)) as [->|A2].
    { exists id, n2. rewrite in_borrowed, Hn2, Hn1, elem_of_cons, D1. split; [tauto|]. right. split; [|done]. by rewrite (node_of_id t id n m Hnd Hl Hy). }
    destruct (decide (y = lid)) as [->|A3]; [|exists y, m; rewrite in_borrowed; tauto].
    rewrite <- (node_of_id t lid l m Hnd Hln Hy) in Hx. apply Hl1 in Hx as [Hx| ->]; [exists lid, l'|exists id, n2]; rewrite in_borrowed; (split; [tauto|first [done|rewrite Hn2; left]]).
Qed.
(** The key that was moved is twice in the tree. *)
Lemma borrowed_not_wf h' lo' hi' : ~ tree_wf h' lo' hi' borrowed.
Proof.
  intros Hwf. destruct is_placed as [_ _ _ _ _ (N1 & N2 & N3) Hi _ _ _ _ _].
  assert (E : (pid, pn') = (id, n2)); [|by injection E].
  apply (key_unique h' lo' hi' borrowed _ _ k Hwf); [apply in_borrowed; tauto|apply in_borrowed; tauto| |].
  - cbn. rewrite Hpn'. apply (list_elem_of_lookup_2 _ i). by apply list_lookup_insert_eq.
  - cbn. rewrite Hn2. by left.
Qed.
End Model.

Section Delete.
Context `{K : Kernel}.

(** What a redistribution does to the tree, while [ids] are pinned. *)
Lemma redistribute_left_run t ids s pl pid pn i lid l id n pn' l' n' :
  (forall x, x ∈ ids -> x ∈ tree_ids t) -> NoDup ids -> tree_on pl t ->
  (pid, pn) ∈ nodes t -> (lid, l) ∈ nodes t -> (id, n) ∈ nodes t -> pid <> lid -> pid <> id -> lid <> id ->
  redistribute_left pn i l n = Some (pn', l', n') -> rekeyed pn pn' -> rekeyed l l' -> rekeyed n n' ->
  exists pl', btree_redistribute_from_left pn i l n (wp (pins ids pl) s) = Ret (pn', n') (wp (pins ids pl') s) /\
    tree_on pl' (set_node pid pn' (set_node id n' (set_node lid l' t))).
Proof.
  intros Hids Hnd Ht Hp Hl Hn N1 N2 N3 E [_ Fp _ Op] [_ Fl _ Ol] [_ Fn _ On].
  set (t1 := set_node lid l' t). set (t2 := set_node id n' t1). set (t3 := set_node pid pn' t2).
  assert (I : forall x y m, x ∈ ids -> x ∈ tree_ids (set_node y m t)) by (intros; rewrite set_node_ids; auto).
  assert (I1 : forall x, x ∈ ids -> x ∈ tree_ids t1) by (intros; by apply I).
  assert (I2 : forall x, x ∈ ids -> x ∈ tree_ids t2) by (intros; unfold t2; rewrite set_node_ids; by apply I1).
  assert (I3 : forall x, x ∈ ids -> x ∈ tree_ids t3) by (intros; unfold t3; rewrite set_node_ids; by apply I2).
  assert (Hn1 : (id, n) ∈ nodes t1) by (apply in_set_node; right; done).
  assert (Hp2 : (pid, pn) ∈ nodes t2) by (apply in_set_node; right; split; [done|]; apply in_set_node; right; done).
  assert (Hp3 : (pid, pn') ∈ nodes t3) by (apply in_set_node; left; split_and!; try done; by eapply in_ids).
  assert (Hn3 : (id, n') ∈ nodes t3).
  { apply in_set_node; right; split; [done|]. apply in_set_node; left; split_and!; try done. by eapply in_ids. }
  assert (Hl3 : (lid, l') ∈ nodes t3).
  { do 2 (apply in_set_node; right; split; [done|]). apply in_set_node; left; split_and!; try done. by eapply in_ids. }
  destruct (store_in_tree t ids s Hids Hnd pl lid l l' Ht Hl (Ol (to_ok _ _ Ht _ _ Hl)) Fl) as (pl1 & S1 & T1). fold t1 in T1.
  destruct (store_in_tree t1 ids s I1 Hnd pl1 id n n' T1 Hn1 (On (to_ok _ _ Ht _ _ Hn)) Fn) as (pl2 & S2 & T2). fold t2 in T2.
  destruct (store_in_tree t2 ids s I2 Hnd pl2 pid pn pn' T2 Hp2 (Op (to_ok _ _ Ht _ _ Hp)) Fp) as (pl3 & S3 & T3). fold t3 in T3.
  destruct (mark_in_tree t3 ids s I3 Hnd pl3 lid l' l' T3 Hl3 eq_refl) as (pl4 & S4 & T4).
  destruct (mark_in_tree t3 ids s I3 Hnd pl4 id n' n' T4 Hn3 eq_refl) as (pl5 & S5 & T5).
  destruct (mark_in_tree t3 ids s I3 Hnd pl5 pid pn' pn' T5 Hp3 eq_refl) as (pl6 & S6 & T6).
  exists pl6. split; [|exact T6]. unfold btree_redistribute_from_left. rewrite E. cbn [in_bounds].
  erewrite (bind_ok (ret _)) by reflexivity. cbn beta iota. do 6 (erewrite bind_ok by eassumption). done.
Qed.
(** Giving up a cursor whose nodes have the frames of the pages. *)
Lemma cleanup_tree t ids c s pl :
  (forall x, x ∈ ids -> x ∈ tree_ids t) -> NoDup ids -> tree_on pl t -> length ids = S (depth c) ->
  (forall j x, ids !! j = Some x -> exists m m', cnodes c !! j = Some m /\ (x, m') ∈ nodes t /\ bframe m = bframe m') ->
  btree_cursor_cleanup c (wp (pins ids pl) s) = Ret tt (wp pl s).
Proof.
  intros Hids Hnd Ht Hlen Hc. destruct (noded_path pl ids (tree_noded pl t ids Ht Hids)) as (path & <- & Hp).
  rewrite length_fmap in Hlen. unfold btree_cursor_cleanup. rewrite <- Hlen. apply cleanup_path; [apply Ht|done..|].
  intros j q Hq. destruct (Hc j (step_id q)) as (m & m' & Hm & Hin & Hfr); [by rewrite list_lookup_fmap, Hq|]. exists m. split; [done|].
  destruct (page_node_frame pl _ _ (to_nodes _ _ Ht _ _ Hin)) as (f & H1 & H2).
  pose proof (Forall_lookup_1 _ _ _ _ Hp Hq) as (g & H3 & H4)%page_node_frame. congruence.
Qed.
Lemma cnode_ok c i n s : cnodes c !! i = Some n -> cnode c i s = Ret n s.
Proof. intros H. unfold cnode. by rewrite H. Qed.
Lemma cpos_ok c i n s : positions c !! i = Some n -> cpos c i s = Ret n s.
Proof. intros H. unfold cpos. by rewrite H. Qed.

(** The steps of a deletion that borrows, from the searched cursor on. *)
Lemma delete_borrow_run root key ids ids' up c n n1 n2 pos pn pn' i lid l lfid m pl pl1 pl2 pl3 s :
  btree_cursor_search root key (wp pl s) = Ret (- EEXIST, c) (wp (pins ids pl) s) ->
  depth c = S up -> cnodes c !! S up = Some n -> positions c !! S up = Some pos ->
  cnodes c !! up = Some pn -> positions c !! up = Some (S i) ->
  btree_node_remove_at n pos = Some n1 -> btree_node_is_underflow n1 = true ->
  store_btree_node n1 (wp (pins ids pl) s) = Ret tt (wp (pins ids pl1) s) ->
  mark_dirty n1 (wp (pins ids pl1) s) = Ret tt (wp (pins ids pl2) s) ->
  slot_at pn i = Some lid -> BTREE_MIN_KEYS < key_count l ->
  kds_buf_lookup_or_load lid (wp (pins ids pl2) s) = Ret (PTR lfid) (wp (pins ids' pl2) s) ->
  load_btree_node lfid (wp (pins ids' pl2) s) = Ret l (wp (pins ids' pl2) s) ->
  btree_redistribute_from_left pn i l n1 (wp (pins ids' pl2) s) = Ret (pn', n2) (wp (pins ids' pl3) s) ->
  kds_buf_unpin lfid (wp (pins ids' pl3) s) = Ret tt (wp (pins ids pl3) s) ->
  let c' := set_cnode (S up) n2 (set_cnode up pn' (set_cnode (S up) n1 c)) in
  cnodes c' !! 0%nat = Some m -> 0 < key_count m ->
  btree_cursor_cleanup c' (wp (pins ids pl3) s) = Ret tt (wp pl3 s) ->
  btree_delete root key (wp pl s) = Ret 0 (wp pl3 s).
Proof.
  intros E Hd Hcn Hcp Hcu Hpu En Hu Es Ed Hsl Hspare El Eld Er Eu c' Hm Hc Ec. unfold btree_delete. erewrite bind_ok by exact E. cbn beta iota.
  change (negb (- EEXIST =? - EEXIST)) with false. cbn iota. rewrite Hd. erewrite bind_ok by (by apply cnode_ok). erewrite bind_ok by (by apply cpos_ok).
  rewrite En. cbn [in_bounds]. erewrite (bind_ok (ret n1)) by reflexivity. cbn zeta. erewrite bind_ok by exact Es. erewrite bind_ok by exact Ed.
  set (c1 := set_cnode (S up) n1 c) in *. change (depth c1) with (depth c). rewrite Hd, Hu. cbn [Nat.ltb Nat.leb andb].
  assert (Hlt : (S up < length (cnodes c))%nat) by (by eapply lookup_lt_Some).
  erewrite (bind_ok (btree_handle_underflow (S up) c1)).
  2:{ cbn [btree_handle_underflow]. erewrite bind_ok by (apply cnode_ok; cbn [c1 set_cnode cnodes]; by apply list_lookup_insert_eq). rewrite Hu. cbn [negb].
      erewrite (bind_ok (underflow_level _ _ _ _)).
      2:{ unfold underflow_level. erewrite bind_ok by (apply cnode_ok; cbn [c1 set_cnode cnodes]; rewrite list_lookup_insert_ne by lia; exact Hcu).
          erewrite bind_ok by (apply cpos_ok; exact Hpu). erewrite (bind_ok (load_sibling _ _ _)).
          2:{ unfold load_sibling. cbn [Nat.ltb Nat.leb negb]. replace (S i - 1)%nat with i by lia. rewrite Hsl. cbn [in_bounds].
              erewrite (bind_ok (ret lid)) by reflexivity. erewrite bind_ok by exact El. cbn beta iota. erewrite bind_ok by exact Eld. reflexivity. }
          unfold has_spare. rewrite (proj2 (Z.ltb_lt _ _) Hspare). replace (S i - 1)%nat with i by lia. erewrite bind_ok by exact Er. cbn beta iota.
          erewrite bind_ok by exact Eu. reflexivity. }
      cbn beta iota. reflexivity. }
  fold c'. erewrite bind_ok by (apply cnode_ok; exact Hm). destruct (Z.eqb_spec (key_count m) 0); [lia|]. rewrite andb_false_r.
  by erewrite bind_ok by exact Ec.
Qed.

(** ** The lookup of the key that was moved *)
Lemma index_chain k pl s : pool_wf pl -> forall init x y f, chain init x y -> Forall (guides k) init -> pages pl init ->
  index_descend (length init + f) k x (wp pl s) = index_descend f k y (wp pl s).
Proof.
  intros Hwf. induction init as [|q init IH]; intros x y f Hch Hg Hp; [cbn in *; by subst|].
  destruct Hch as (<- & z & Hz & Hch). apply Forall_cons in Hg as [(Wn & Sn & Ln & Pn) Hg]. apply Forall_cons in Hp as [Hq Hp].
  destruct (open_close (step_id q) (step_node q) pl s Hwf Hq) as (fid & E1 & E2 & E3).
  destruct (match_pos_spec (step_node q) k Wn Sn) as (m & Em & _). cbn [length Nat.add index_descend].
  erewrite bind_ok by exact E1. cbn beta iota. erewrite bind_ok by exact E2. rewrite Em. cbn [in_bounds]. erewrite (bind_ok (ret m)) by reflexivity.
  apply Z.eqb_neq in Ln as ->. rewrite desc_pos_search, Pn by done. cbn [in_bounds]. erewrite (bind_ok (ret q.2)) by reflexivity. rewrite Hz.
  cbn [in_bounds]. erewrite (bind_ok (ret z)) by reflexivity. erewrite bind_ok by exact E3. by apply IH.
Qed.
Lemma index_inner k pl s f x n pos y : pool_wf pl -> page_node pl x n -> guides k (x, n, pos) -> slot_at n pos = Some y ->
  index_descend (S f) k x (wp pl s) = index_descend f k y (wp pl s).
Proof.
  intros Hwf Hx Hg Hy. apply (index_chain k pl s Hwf [(x, n, pos)] x y f); [split; [done|by exists y]|by constructor|by constructor].
Qed.
Lemma index_leaf_miss k pl s f x n : pool_wf pl -> page_node pl x n -> node_wf n -> sorted_keys n -> level n = 0 -> k ∉ node_keys n ->
  index_descend (S f) k x (wp pl s) = Ret (- ENOENT, None) (wp pl s).
Proof.
  intros Hwf Hx Wn Sn Ln Hk. destruct (open_close x n pl s Hwf Hx) as (fid & E1 & E2 & E3).
  destruct (match_pos_spec n k Wn Sn) as (m & Em & Hm). cbn [index_descend]. erewrite bind_ok by exact E1. cbn beta iota.
  erewrite bind_ok by exact E2. rewrite Em. cbn [in_bounds]. erewrite (bind_ok (ret m)) by reflexivity. rewrite Ln. cbn [Z.eqb].
  destruct m as [p|]; [destruct Hk; by eapply list_elem_of_lookup_2|]. by erewrite bind_ok by exact E3.
Qed.
Lemma guides_moved pn pn' i k lo hi pid : node_wf pn -> sorted_keys pn -> node_wf pn' -> level pn' <> 0 -> (i < length (node_keys pn))%nat ->
  lo_at (node_keys pn) lo i < k < hi_at (node_keys pn) hi i -> node_keys pn' = <[i := k]> (node_keys pn) -> guides k (pid, pn', i).
Proof.
  intros Wp Sp Wp' Lp Hi [H1 H2] Hk. destruct (lookup_lt_is_Some_2 _ _ Hi) as [sep Hsep]. unfold hi_at in H2. rewrite Hsep in H2. cbn in H2.
  assert (Hlt : forall j x, (j < i)%nat -> node_keys pn !! j = Some x -> x < k).
  { intros j x Hj Hx. destruct i as [|i]; [lia|]. rewrite lo_at_S in H1. destruct (lookup_lt_is_Some_2 (node_keys pn) i) as [y Hy]; [lia|].
    rewrite Hy in H1. cbn in H1. destruct (decide (j = i)) as [->|]; [replace x with y by congruence; lia|]. pose proof (Sp j i x y ltac:(lia) Hx Hy). lia. }
  assert (Sp' : sorted_keys pn').
  { intros a b x y Hab Hx Hy. rewrite Hk in Hx, Hy. apply list_lookup_insert_Some in Hx as [(<- & <- & _)|[Ha Hx]];
      apply list_lookup_insert_Some in Hy as [(<- & <- & _)|[Hb Hy]]; [lia|pose proof (Sp i b sep y Hab Hsep Hy); lia|by eapply Hlt|by eapply Sp]. }
  split; [done|]. split; [done|]. split; [done|]. cbn [step_node fst snd]. destruct (search_position_spec pn' k Wp') as (p & E & _ & Hlo & Hhi).
  rewrite E. f_equal. assert (Hki : node_keys pn' !! i = Some k) by (rewrite Hk; by apply list_lookup_insert_eq).
  destruct (Nat.lt_trichotomy p i) as [Hpi|[Hpi|Hpi]]; [exfalso|done|pose proof (Hlo i k Hpi Hki); lia].
  destruct (lookup_lt_is_Some_2 (node_keys pn) p) as [x Hx]; [lia|]. pose proof (Hlt p x Hpi Hx).
  assert (Hx' : node_keys pn' !! p = Some x) by (rewrite Hk, list_lookup_insert_ne by lia; done). pose proof (Hhi x Hx'). lia.
Qed.

(** ** The deletion *)
(** What [walk] and the cursor of the search say of each other. *)
Lemma searched h lo hi key t pl s path b : tree_on pl t -> tree_wf h lo hi t -> lo < key < hi -> (h < BTREE_MAX_DEPTH)%nat -> walk key t path b ->
  (length path <= BTREE_MAX_DEPTH)%nat /\ NoDup (step_id <$> path) /\ (forall x, x ∈ step_id <$> path -> x ∈ tree_ids t) /\
  (forall q, q ∈ path -> (step_id q, step_node q) ∈ nodes t) /\
  exists c, btree_cursor_search (bt_id t) key (wp pl s) = Ret (if b then - EEXIST else 0, c) (wp (pins (step_id <$> path) pl) s) /\
    S (depth c) = length path /\ forall j q, path !! j = Some q -> cnodes c !! j = Some (step_node q) /\ positions c !! j = Some q.2.
Proof.
  intros Ht Hw Hk Hh Hwk. destruct (cursor_search_spec h lo hi key t pl s Ht Hw Hk Hh) as (path' & b' & Hwk' & _ & Hlen & E & _).
  destruct (walk_det key t path b Hwk path' b' Hwk') as [<- <-]. destruct (walk_pages key pl t path b Ht Hwk) as [_ Hnd].
  pose proof (proj1 (Forall_forall _ _) (walk_nodes key t path b Hwk)) as Hn.
  destruct (fill_spec path btree_cursor_init) as (D & N & _); [by intros ->; inversion Hwk|done..|]. split; [done|]. split; [done|].
  split; [intros x (q & -> & Hq)%list_elem_of_fmap; by eapply in_ids, Hn|]. split; [exact Hn|]. exists (fill path btree_cursor_init). split; [exact E|].
  split; [rewrite D; cbn [depth btree_cursor_init Nat.add]; by destruct path; [inversion Hwk|]|]. intros j q Hq. exact (N j q Hq).
Qed.
Lemma path_fresh init (q1 q2 q : pstep) : NoDup (step_id <$> (init ++ [q1; q2])) -> q ∈ init -> step_id q <> step_id q1 /\ step_id q <> step_id q2.
Proof.
  rewrite fmap_app. intros (_ & H & _)%NoDup_app Hq. specialize (H (step_id q) (list_elem_of_fmap_2 step_id _ q Hq)).
  cbn [fmap list_fmap] in H. rewrite !elem_of_cons in H. tauto.
Qed.
(** The sibling is not on the path. *)
Lemma sibling_off_path t init pid pn i id n pos lid l :
  NoDup (tree_ids t) -> (lid, l) ∈ nodes t -> level l = 0 -> pid <> lid -> lid <> id ->
  (forall q, q ∈ init -> (step_id q, step_node q) ∈ nodes t /\ level (step_node q) <> 0) ->
  lid ∉ step_id <$> (init ++ [(pid, pn, i); (id, n, pos)]).
Proof.
  intros Hnd Hl Ll N1 N3 Hin (q & E & Hq)%list_elem_of_fmap. apply elem_of_app in Hq as [Hq|Hq].
  - destruct (Hin q Hq) as [H1 H2]. rewrite <- E in H1. by rewrite (node_of_id t lid _ l Hnd H1 Hl) in H2.
  - apply elem_of_cons in Hq as [->|Hq%list_elem_of_singleton]; [by apply N1|]. subst q. by apply N3.
Qed.
(** The cursor after the redistribution. *)
Lemma borrow_cursor t3 init (q1 q2 : pstep) c pn' n1 n2 :
  (forall j q, (init ++ [q1; q2]) !! j = Some q -> cnodes c !! j = Some (step_node q)) ->
  (step_id q1, pn') ∈ nodes t3 -> (step_id q2, n2) ∈ nodes t3 -> (forall q, q ∈ init -> (step_id q, step_node q) ∈ nodes t3) ->
  key_count pn' = key_count (step_node q1) ->
  forall j q, (init ++ [q1; q2]) !! j = Some q -> exists m m',
    cnodes (set_cnode (S (length init)) n2 (set_cnode (length init) pn' (set_cnode (S (length init)) n1 c))) !! j = Some m /\
    (step_id q, m') ∈ nodes t3 /\ bframe m = bframe m' /\ (0 < key_count (step_node q) -> j <> S (length init) -> 0 < key_count m).
Proof.
  intros Hc H1 H2 Hi Hcount j q Hq. cbn [set_cnode cnodes].
  assert (Hend : (init ++ [q1; q2]) !! S (length init) = Some q2)
    by (rewrite lookup_app_r by lia; by replace (S (length init) - length init)%nat with 1%nat by lia).
  pose proof (Hc _ _ Hend) as Hlt%lookup_lt_Some. destruct (decide (j = S (length init))) as [->|J1].
  - exists n2, n2. rewrite list_lookup_insert_eq by (rewrite !length_insert; done). by replace q with q2 by congruence.
  - rewrite list_lookup_insert_ne by done. destruct (decide (j = length init)) as [->|J2].
    + exists pn', pn'. rewrite list_lookup_insert_eq by (rewrite length_insert; lia). rewrite list_lookup_middle in Hq by done. injection Hq as <-.
      split_and!; try done. by rewrite Hcount.
    + exists (step_node q), (step_node q). rewrite !list_lookup_insert_ne by done. split; [by apply Hc|]. split; [|done].
      apply Hi, (list_elem_of_lookup_2 _ j). apply lookup_lt_Some in Hq as Hj. rewrite length_app in Hj. cbn in Hj. by rewrite lookup_app_l in Hq by lia.
Qed.
Lemma borrow_effect h lo hi key t pl s init pid pn i id n pos lid l :
  tree_on pl t -> tree_wf h lo hi t -> lo < key < hi -> (h < BTREE_MAX_DEPTH)%nat -> 0 < key_count (bt_node t) ->
  borrows key t init pid pn i id n pos lid l ->
  exists pl' k pn' l' n1 n2, btree_delete (bt_id t) key (wp pl s) = Ret 0 (wp pl' s) /\
    tree_on pl' (borrowed t pid id lid n1 n2 pn' l') /\ node_keys n1 = delete pos (node_keys n) /\
    rekeyed pn pn' /\ node_keys pn' = <[i := k]> (node_keys pn) /\ slots pn' = slots pn /\
    rekeyed l l' /\ node_keys l = node_keys l' ++ [k] /\ node_keys n2 = k :: node_keys n1.
Proof.
  intros Ht Hw Hk Hh Hroot Hbo. pose proof (is_placed key t h lo hi init pid pn i id n pos lid l Hw (to_ids _ _ Ht) Hbo)
    as [Hp Hl (Wp & Wl & Wn) _ (Ll & Lp) (N1 & N2 & N3) Hi Hkey Hsl _ Hg _].
  pose proof Hbo as [Hwk Hlf Hmin _ Hln Hsp].
  pose proof (inner_levels key t h lo hi init pid pn i id n pos lid l Hw (to_ids _ _ Ht) Hbo) as Hinner.
  destruct (searched h lo hi key t pl s _ _ Ht Hw Hk Hh Hwk) as (Hlen & Hnd & Hids & Hns & c & E & Hd & Hc).
  set (path := init ++ [(pid, pn, S i); (id, n, pos)]) in *. set (ids := step_id <$> path) in *.
  assert (Hpos : Z.of_nat pos < key_count n).
  { apply lookup_lt_Some in Hkey. unfold node_keys in Hkey. rewrite length_take in Hkey. lia. }
  destruct (remove_at_spec n pos Wn Hpos) as (n1 & En & Wn1 & Cn1 & Ln1 & Fn1 & Kn1 & _ & On1).
  assert (Hdepth : depth c = S (length init)) by (unfold path in Hd; rewrite length_app in Hd; cbn in Hd; lia).
  destruct (Hc (length init) (pid, pn, S i)) as [Hcu Hpu]; [by apply list_lookup_middle|].
  destruct (Hc (S (length init)) (id, n, pos)) as [Hcn Hcp]; [unfold path; rewrite lookup_app_r by lia; by replace (S (length init) - length init)%nat with 1%nat by lia|].
  destruct (store_in_tree t ids s Hids Hnd pl id n n1 Ht Hl (On1 (to_ok _ _ Ht _ _ Hl)) Fn1) as (pl1 & S1 & T1). set (t1 := set_node id n1 t) in *.
  assert (Hids1 : forall x, x ∈ ids -> x ∈ tree_ids t1) by (intros; unfold t1; rewrite set_node_ids; by apply Hids).
  assert (Hin1 : (id, n1) ∈ nodes t1 /\ (lid, l) ∈ nodes t1 /\ (pid, pn) ∈ nodes t1).
  { unfold t1. rewrite !in_set_node. split_and!; [left|right|right]; try done. split_and!; try done. by eapply in_ids. }
  destruct Hin1 as (Hl1 & Hln1 & Hp1). destruct (mark_in_tree t1 ids s Hids1 Hnd pl1 id n1 n1 T1 Hl1 eq_refl) as (pl2 & S2 & T2).
  assert (Hni : lid ∉ ids).
  { apply (sibling_off_path t init pid pn (S i) id n pos lid l (to_ids _ _ Ht) Hln Ll); [done|done|]. intros q Hq.
    split; [apply Hns, elem_of_app; by left|]. by apply (proj1 (Forall_forall _ _) Hinner). }
  destruct (open_in_tree t1 ids s Hids1 Hnd pl2 lid l T2 Hln1 Hni) as (lfid & El & Eld & _ & Hlf').
  destruct (borrow_left pn i l n1 Wp Wl Wn1 (to_ok _ _ Ht _ _ Hln) (On1 (to_ok _ _ Ht _ _ Hl)) ltac:(congruence) ltac:(rewrite Cn1, Hmin; done) Hsp Hi)
    as (k & pn' & l' & n2 & Er & Rp & Cp & Kp & Sp & Rl & Kl & Rn & Kn).
  assert (Hids2 : forall x, x ∈ ids ++ [lid] -> x ∈ tree_ids t1).
  { intros x [Hx|Hx%list_elem_of_singleton]%elem_of_app; [by apply Hids1|subst x; by eapply in_ids]. }
  assert (Hnd2 : NoDup (ids ++ [lid])).
  { apply NoDup_app. split; [done|]. split; [by intros x Hx ->%list_elem_of_singleton|apply NoDup_singleton]. }
  destruct (redistribute_left_run t1 (ids ++ [lid]) s pl2 pid pn i lid l id n1 pn' l' n2 Hids2 Hnd2 T2 Hp1 Hln1 Hl1 N1 N2 N3 Er Rp Rl Rn) as (pl3 & S3 & T3).
  exists pl3, k, pn', l', n1, n2. split; [|by split_and!]. set (t3 := set_node pid pn' _) in T3.
  assert (Hids3 : forall x, x ∈ ids -> x ∈ tree_ids t3) by (intros; unfold t3; rewrite !set_node_ids; by apply Hids1).
  assert (Hn3 : forall y m, (y, m) ∈ nodes t3 <-> (y = pid /\ m = pn') \/ (y = id /\ m = n2) \/ (y = lid /\ m = l') \/
    ((y <> pid /\ y <> id /\ y <> lid) /\ (y, m) ∈ nodes t)).
  { intros y m. by apply (in_borrowed key t h lo hi init pid pn i id n pos lid l Hw (to_ids _ _ Ht) Hbo). }
  destruct (open_in_tree t3 ids s Hids3 Hnd pl3 lid l' T3 ltac:(apply Hn3; tauto) Hni) as (f' & _ & _ & Eu & Hf').
  assert (f' = lfid) as -> by (destruct Rl; congruence).
  set (c' := set_cnode (S (length init)) n2 (set_cnode (length init) pn' (set_cnode (S (length init)) n1 c))).
  assert (Hinit : forall q, q ∈ init -> (step_id q, step_node q) ∈ nodes t3).
  { intros q Hq. apply Hn3. right; right; right. split; [|by apply Hns, elem_of_app; left].
    destruct (path_fresh init (pid, pn, S i) (id, n, pos) q Hnd Hq) as [? ?]. split_and!; try done.
    intros Hx. apply Hni. rewrite <- Hx. by apply list_elem_of_fmap_2, elem_of_app; left. }
  assert (Hcs : forall j q, path !! j = Some q -> exists m m', cnodes c' !! j = Some m /\ (step_id q, m') ∈ nodes t3 /\ bframe m = bframe m' /\
    (0 < key_count (step_node q) -> j <> S (length init) -> 0 < key_count m)).
  { apply (borrow_cursor t3 init (pid, pn, S i) (id, n, pos) c pn' n1 n2); [by intros j q Hq; apply Hc|apply Hn3; by left|apply Hn3; tauto|done|done]. }
  destruct (walk_head _ _ _ _ Hwk) as (p0 & rest & Hhead). destruct (Hcs 0%nat (bt_id t, bt_node t, p0)) as (m & _ & Hm & _ & _ & Hmc); [by rewrite Hhead|].
  eapply (delete_borrow_run (bt_id t) key ids (ids ++ [lid]) (length init) c n n1 n2 pos pn pn' i lid l lfid m); try done.
  - unfold btree_node_is_underflow. by rewrite Cn1, Hmin.
  - by apply Hmc.
  - apply (cleanup_tree t3 ids c' s pl3 Hids3 Hnd T3); [unfold ids; rewrite length_fmap; by rewrite <- Hd|].
    intros j x Hx. unfold ids in Hx. rewrite list_lookup_fmap in Hx. destruct (path !! j) as [q|] eqn:Hq; [|done]. injection Hx as <-.
    destruct (Hcs j q Hq) as (m1 & m2 & H1 & H2 & H3 & _). by exists m1, m2.
Qed.

(** The key that was moved is a separator now, and not below it to the left. *)
Lemma moved_not_found h lo hi key t pl' s rel init pid pn i id n pos lid l n1 n2 pn' l' k :
  rel_kind rel = clustered_val KDS_CLUSTERED_BTREE -> root_page_id rel = bt_id t ->
  tree_wf h lo hi t -> NoDup (tree_ids t) -> lo < key < hi -> (h < BTREE_MAX_DEPTH)%nat -> borrows key t init pid pn i id n pos lid l ->
  (length init + 2 <= BTREE_MAX_DEPTH)%nat -> (forall q, q ∈ init -> (step_id q, step_node q) ∈ nodes t /\ step_id q <> pid /\ step_id q <> id) ->
  tree_on pl' (borrowed t pid id lid n1 n2 pn' l') -> rekeyed pn pn' -> node_keys pn' = <[i := k]> (node_keys pn) -> slots pn' = slots pn ->
  rekeyed l l' -> node_keys l = node_keys l' ++ [k] ->
  kds_index_search (Some rel) k (wp pl' s) = Ret (- ENOENT, None) (wp pl' s).
Proof.
  intros Hkind Hroot Hw Hnd Hk Hh Hbo Hlen Hinit Ht' [Lp' _ Wp' _] Kp Sp [Ll' _ Wl' _] Kl.
  pose proof (in_borrowed key t h lo hi init pid pn i id n pos lid l Hw Hnd Hbo n1 n2 pn' l') as Hin.
  pose proof (is_placed key t h lo hi init pid pn i id n pos lid l Hw Hnd Hbo)
    as [_ _ (Wp & Wl & _) (Sop & Sol & _) (Ll & Lp) (N1 & N2 & N3) Hi _ Hsl Hch Hg (lo' & hi' & Hb)].
  assert (Hkl : k ∈ node_keys l) by (rewrite Kl; apply elem_of_app; right; by left). pose proof (inner_levels key t h lo hi init pid pn i id n pos lid l Hw Hnd Hbo) as Hlv.
  assert (Sl' : sorted_keys l').
  { intros a b x y Hab Hx Hy. apply (Sol a b x y Hab); rewrite Kl; by apply lookup_app_l_Some. }
  assert (Hnk : k ∉ node_keys l').
  { intros (a & Ha)%list_elem_of_lookup. apply lookup_lt_Some in Ha as Hlt. pose proof (Sol a (length (node_keys l')) k k Hlt) as H. rewrite Kl in H.
    rewrite lookup_app_l, lookup_app_r, Nat.sub_diag in H by lia. specialize (H Ha eq_refl). lia. }
  pose proof (to_nodes _ _ Ht') as Hpg. unfold kds_index_search. rewrite Hkind, Hroot. cbn [clustered_val Z.eqb negb Pos.eqb]. cbn iota.
  replace BTREE_MAX_DEPTH with (length init + S (S (BTREE_MAX_DEPTH - length init - 2)))%nat by lia.
  rewrite (index_chain k pl' s (to_wf _ _ Ht') init (bt_id t) pid _ Hch (Hg k Hkl)).
  - rewrite (index_inner k pl' s _ pid pn' i lid (to_wf _ _ Ht')); [|apply Hpg, Hin; by left| |unfold slot_at in *; by rewrite Sp].
    + apply (index_leaf_miss k pl' s _ lid l' (to_wf _ _ Ht')); try done; [apply Hpg, Hin; tauto|congruence].
    + apply (guides_moved pn pn' i k lo' hi' pid); try done; [congruence|]. by apply (proj1 (Forall_forall _ _) Hb).
  - apply Forall_forall. intros q Hq. destruct (Hinit q Hq) as (H1 & H2 & H3). apply Hpg, Hin. right; right; right. split; [|done]. split_and!; try done.
    intros E. apply (proj1 (Forall_forall _ _) Hlv q Hq). rewrite E in H1. by rewrite (node_of_id t lid _ l Hnd H1 (bo_node _ _ _ _ _ _ _ _ _ _ _ Hbo)).
Qed.

(** C22.  A deletion that borrows from the left sibling, in a tree of any depth.
    It returns 0, and the pages hold a tree again with the pages of the old
    one, but more than the deleted key is lost.  The separator [sep] above
    the two leaves is overwritten by the moved key [k], although a split has
    left [sep] nowhere else: it is gone from the tree.  The moved key is now
    in two nodes, which no search tree allows, and a lookup, which looks for a
    separator in the subtree to its left, does not find it. *)
Theorem delete_borrow_loses_keys rel h lo hi key t pl s init pid pn i id n pos lid l :
  rel_kind rel = clustered_val KDS_CLUSTERED_BTREE -> root_page_id rel = bt_id t ->
  tree_on pl t -> tree_wf h lo hi t -> lo < key < hi -> (h < BTREE_MAX_DEPTH)%nat -> 0 < key_count (bt_node t) ->
  borrows key t init pid pn i id n pos lid l ->
  exists pl' t' sep k, node_keys pn !! i = Some sep /\ last (node_keys l) = Some k /\
    btree_delete (bt_id t) key (wp pl s) = Ret 0 (wp pl' s) /\ tree_on pl' t' /\
    (forall x, key_in x t' <-> key_in x t /\ x <> key /\ x <> sep) /\
    (forall h lo hi, ~ tree_wf h lo hi t') /\
    kds_index_search (Some rel) k (wp pl' s) = Ret (- ENOENT, None) (wp pl' s).
Proof.
  intros Hkind Hrp Ht Hw Hk Hh Hroot Hbo. pose proof (to_ids _ _ Ht) as Hnd.
  destruct (borrow_effect h lo hi key t pl s init pid pn i id n pos lid l Ht Hw Hk Hh Hroot Hbo)
    as (pl' & k & pn' & l' & n1 & n2 & E & Ht' & K1 & Rp & Kp & Sp & Rl & Kl & K2).
  pose proof (is_placed key t h lo hi init pid pn i id n pos lid l Hw Hnd Hbo) as Hpl. destruct (lookup_lt_is_Some_2 _ _ (pc_sep _ _ _ _ _ _ _ _ _ _ _ Hpl)) as [sep Hsep].
  exists pl', (borrowed t pid id lid n1 n2 pn' l'), sep, k. split; [done|]. split; [by rewrite Kl, last_snoc|]. split; [done|]. split; [done|].
  split; [intros x; by eapply key_in_borrowed|]. split; [intros h' lo' hi'; by eapply borrowed_not_wf|].
  destruct (searched h lo hi key t pl s _ _ Ht Hw Hk Hh (bo_walk _ _ _ _ _ _ _ _ _ _ _ Hbo)) as (Hlen & Hndp & _ & Hns & _).
  eapply (moved_not_found h lo hi key t pl' s rel init); try done; [rewrite length_app in Hlen; cbn in Hlen; lia|].
  intros q Hq. split; [apply Hns, elem_of_app; by left|]. by apply (path_fresh init (pid, pn, S i) (id, n, pos)).
Qed.
End Delete.

(** ** A concrete instance: a root with one key and two leaves *)
Section Demo.
#[local] Existing Instance quiet_kernel.
#[local] Opaque KDS_BUF_NR_FRAMES.
Definition lean_left : kds_btree_node := demo_node 1 0 [10; 20; 30] [0; 301; 302; 303].
Definition lean_leaf : kds_btree_node := demo_node 0 0 [50; 60] [0; 305; 306].
Definition lean_root : kds_btree_node := demo_node 2 1 [40] [201; 202].
Definition lean_tree : btree := BT 200 lean_root [BT 201 lean_left []; BT 202 lean_leaf []].
Definition lean_pool : kds_buf_pool := typed_pool KDS_PAGE_TYPE_BTREE_ROOT lean_tree.
Lemma lean_tree_wf : tree_wf 1 (-1) (2 ^ 64) lean_tree.
Proof.
  split_and!; [apply demo_node_wf; [by vm_compute|cbn; lia]|by apply demo_node_sorted|reflexivity|repeat constructor; vm_compute; done|reflexivity|].
  intros [|[|i]] c Hc; try done; injection Hc as <-;
    (split_and!; [apply demo_node_wf; [by vm_compute|cbn; lia]|by apply demo_node_sorted|reflexivity|repeat constructor; vm_compute; done|reflexivity]).
Qed.
Lemma lean_poolable : poolable lean_tree.
Proof. demo_poolable. Qed.
Lemma lean_tree_on : tree_on lean_pool lean_tree.
Proof. apply typed_tree_on; [exact lean_poolable|by left]. Qed.
Lemma lean_borrows : borrows 50 lean_tree [] 200 lean_root 0 202 lean_leaf 0 201 lean_left.
Proof.
  split; [|reflexivity|reflexivity|reflexivity|by right; left|by vm_compute].
  eapply walk_down; [reflexivity|done|done|reflexivity|]. by apply walk_hit.
Qed.
(** Key 30 is found before key 50 is deleted, and not after. *)
Lemma delete_borrow_loses_keys_witness :
  let rel := Relation 4001 1 1 200 [] in
  kds_index_search (Some rel) 30 (wp lean_pool demo_state) = Ret (0, Some 302) (wp lean_pool demo_state) /\
  exists pl' t', btree_delete 200 50 (wp lean_pool demo_state) = Ret 0 (wp pl' demo_state) /\ key_in 30 t' /\ ~ key_in 40 t' /\
    kds_index_search (Some rel) 30 (wp pl' demo_state) = Ret (- ENOENT, None) (wp pl' demo_state).
Proof.
  intros rel. split.
  { destruct (index_descend_spec 1 (-1) (2 ^ 64) lean_tree 30 BTREE_MAX_DEPTH lean_pool demo_state lean_tree_wf ltac:(lia) demo_levels
      (to_wf _ _ lean_tree_on) (to_nodes _ _ lean_tree_on)) as (r & E & [(i & n & pos & Hin & _ & Hp & ->)|[_ Hno]]).
    - etrans; [exact E|]. demo_nodes Hin; destruct pos as [|[|[|[|pos]]]]; (discriminate Hp || reflexivity).
    - destruct (Hno 201 lean_left ltac:(by right; left) eq_refl). right; right; left. }
  destruct (delete_borrow_loses_keys rel 1 (-1) (2 ^ 64) 50 lean_tree lean_pool demo_state [] 200 lean_root 0 202 lean_leaf 0 201 lean_left
    eq_refl eq_refl lean_tree_on lean_tree_wf ltac:(lia) demo_levels ltac:(by vm_compute) lean_borrows) as (pl' & t' & sep & k & [= <-] & [= <-] & E & _ & Hk & _ & El).
  exists pl', t'. split; [exact E|]. split; [|split; [|exact El]].
  - apply Hk. split; [|lia]. exists 201, lean_left. split; [by right; left|]. right; right; left.
  - intros H. apply Hk in H as (_ & _ & H). by apply H.
Defined.
End Demo.
